(* ===== verification/_CoqProject ===== *)
-Q . S2P
Prelude.v
Wire.v
Codec.v
CLayout.v
VkStructs.v
ExtensionContract.v
PNext.v
PNextFacts.v
VkCreateInfos.v
VkLimits.v
MarshalBase.v
Marshal.v
MarshalChained.v
MarshalDescriptor.v
MarshalSync.v
MarshalRenderPass2.v
MarshalPipeline.v
MarshalValues.v
MarshalFacts.v
Objects.v
Teardown.v
Workers.v
Connection.v
HostMemory.v
Decode.v
Session.v
ServerMemory.v
ServerMapped.v
Tracking.v
TrackingFacts.v
ClientSync.v
ClientSyncFacts.v
VkCommands.v
ClientCommands.v
ServerCommands.v
RecordingFacts.v
CommandFacts.v
CommandSafety.v
CommandPools.v
ServerDevice.v
DeviceAnswers.v
DeviceSubmit.v
DeviceSets.v
ClientObjects.v
ClientDescriptors.v
DescriptorFacts.v
ServerInstance.v
ClientInstance.v
InstanceFacts.v
QueryFacts.v
ClientDevice.v
CreationFacts.v
ExtensionFacts.v
QueryDemo.v
ServerAnswers.v
