(* ===== verification/Prelude.v ===== *)
(** Vulkan over TCP: a client library that poses as a Vulkan driver, and a server
    that carries out what it forwards on a real driver.

    * The parts and how they interact

    An application's call enters an entry point of the client
    ([src/client/]), which encodes it ([src/common/marshal.cpp]) and hands the
    message to the connection ([remote_objects.cpp]).  Messages are framed by
    [src/common/wire.cpp].  The server ([src/server/session.cpp]) decodes headers,
    looks up a handler, decodes the arguments, translates ids to driver handles
    through its object tables ([objects.hpp]) and replies; waits run on a pool of
    workers.  Mapped memory is emulated: the client keeps a shadow of every
    mapping, publishes the host's stores before a submission and downloads the
    device's stores after a wait.

    * The files

    Common code:
    - [Prelude]: machine integers, bytes, lists, step relations, tactics.
    - [Wire]: [common/wire.hpp], [common/wire.cpp]: [Writer], [Reader], [Socket].
      [Codec] has the two monads of the marshalling code and the relations its
      round trips are proved with; [Decode] reads whole messages field by field.
    - [CLayout], [VkStructs], [VkCreateInfos], [VkLimits]: the object
      representation of the structs the code copies, and their members.
    - [ExtensionContract]: [common/extension_contract.hpp], [memory_contract.hpp].
    - [PNext], [PNextFacts]: the pNext chain codec.
    - [MarshalBase], [Marshal], [MarshalChained], [MarshalDescriptor],
      [MarshalSync], [MarshalRenderPass2], [MarshalPipeline], [MarshalValues],
      [MarshalFacts]: every [write_X] and [read_X] of [common/marshal.cpp], under
      its own name.

    Server:
    - [Objects], [Teardown]: [Table], [ObjectTables] and the destruction of a
      device and of a connection.
    - [Workers]: [RequestWorkers] as a step relation, one step per critical
      section.
    - [Session]: [Session] and the loop of [Server::serve].  [ServerAnswers] puts
      the loop and all modelled handlers together.
    - [ServerMemory]: the handlers of [server/handlers_memory.cpp]; [ServerMapped]
      proves that loop, handlers and a lawful driver implement [MappedServer].
    - [ServerCommands]: the handlers of [server/handlers_command.cpp], over the
      interface [CommandDriver] that takes a command as data.  [CommandFacts]
      follows a command from the client to the driver, [CommandSafety] shows what
      any message can do, [CommandPools] follows allocation through both sides.
    - [ServerDevice]: the handlers of [server/handlers_device.cpp], over
      [DeviceDriver]; the macros [SERVER_CREATE] and [SERVER_DESTROY] are functions
      of the kind.  [DeviceAnswers]: replies, and the block of a template update.
      [DeviceSubmit]: submissions from [ClientSync] to the driver.  [DeviceSets]:
      the tables of descriptor sets.
    - [ServerInstance]: the handlers of [server/handlers_instance.cpp] over
      [InstanceDriver]: the handshake, the queries of physical devices, the offer of
      extensions.

    Client:
    - [Connection]: the connection's threads as a step relation.
    - [HostMemory]: mapped ranges, publication and acquisition, against the
      interface [Remote] and its law [MappedServer].
    - [Tracking], [TrackingFacts]: which allocations each queue, fence and
      semaphore stands for; the history of batches and what a wait covers.
    - [ClientSync], [ClientSyncFacts]: the entry points around them, submission
      and waiting end to end.
    - [VkCommands]: the structs and constants of commands.  [ClientCommands]: the
      entry points of [client/commands.cpp], which note what a command buffer
      writes for the host; [CommandChannel] is the connection they use.
      [RecordingFacts]: a reference semantics of those notes.
    - [ClientObjects], [ClientDescriptors]: the other entry points of
      [client/device.cpp] for objects of a device, and what is recorded of storage
      descriptors.  [DescriptorFacts]: a reference semantics of those records.
    - [ClientInstance]: [client/icd.cpp] and [client/physical_device.cpp];
      [ClientDevice]: [vkCreateDevice].  [InstanceFacts], [QueryFacts],
      [ExtensionFacts] and [CreationFacts] run them against the loop of [Session]
      with the handlers of [ServerInstance] and [ServerDevice]; of the driver they
      assume [InstanceDriverLaws].  [QueryDemo] is a server they run on.

    A method of the source is a function of the state it changes and returns it;
    a [bool] or [VkResult] is returned with it.  The peer, the driver and the
    allocator are type classes ([Remote], [MemoryDriver], ...) whose laws state
    their documented behaviour; concrete instances at the end of the files make
    the theorems run.

    * What is proved

    - Wire and marshalling: frames, chains and structs survive the trip; a chain
      decoded from arbitrary bytes is well formed, and no decoder reads past the
      message.
    - Server objects: ids are never reused, teardown destroys everything once and
      children first, forgets every map entry of the device and leaves other
      devices alone.
    - Concurrency: jobs of a lane run in order and one at a time, everything
      accepted is run, every caller is answered with its own reply or an error,
      an idle connection is not taken for a dead one.
    - Messages: requests on the loop, on memory and on device objects are answered
      exactly once whatever they hold, waits honour their timeout.  (A malformed
      allocation of command buffers is not answered: [PoolDemo] in [CommandPools].)
      None is answered twice, by any modelled handler.
    - Before there is a device: the handshake succeeds exactly for a peer of the
      same description and both sides agree on the capabilities; features, memory
      types, properties and extensions are the driver's, lowered to what the two
      sides support; what was reported can be enabled; a created device is the
      driver's.
    - Mapped memory: the client's view and the server's agree after an exchange;
      the server implements the transfers the client assumes.
    - Ordering: a submission follows the host's stores; a wait makes the output of
      the finished work, and of what the history of [TrackingFacts] orders before
      it, visible to the host; a failing call loses no record.
    - Commands: what the trace of a recording has written, secondaries included,
      and made available to the host is never missed; a recorded command reaches the driver with the
      connection's objects; no message makes the driver see an object of another
      kind, and null only in the arguments [CommandSafety] lists.
    - Descriptors: the client's records follow the updates of a call one by one, in
      the slots Vulkan assigns, and a template records what its writes would.
    - Device objects: a submission is carried out as the application wrote it; a
      descriptor set is recorded with the device and pool it was allocated from and
      forgotten only with them or when freed; a template update stays in
      its block unless a stride wraps.

    * Bounds and fuel

    Integers are [Z] with their wrap-around written out ([wrap32], [wrap64]).
    Loops over lists recurse on the list.  Loops over bytes take fuel: scans and
    runs at most the length of the shadow, transfers one chunk per unit with a
    chunk of at least one byte ([chunk_fuel]), [read_all] one unit per system call;
    the lemmas show that it suffices.  The wait loop recurses on the sequence of
    observations of the clock and the driver.  Submission serials are not wrapped:
    they count to 2^64.

    * Not modelled

    Locks inside one entry point: the client's bookkeeping is modelled for one
    thread at a time, with one theorem on a race that this hides
    ([TrackingFacts.racing_commit_loses_writes]).  Diagnostics to stderr.  Windows
    and their input ([own_window*], [wsi.cpp], [handlers_wsi.cpp]), sockets and
    process start-up ([main.cpp]): calls of the platform.  The opcode and dispatch
    tables: generated; a parameter here.  The tables of entry points
    ([entry_table.cpp]), the negotiation of the loader interface in [icd.cpp] and the
    queries of [physical_device.cpp] that answer constants.  Of [client/memory.cpp],
    allocation, binding and the queries of requirements.  The Wayland proxy: a
    separate program.
 *)

From Stdlib Require Export ZArith Lia Bool.
From Stdlib Require Export Strings.Byte.
From stdpp Require Export base tactics option list gmap.

#[global] Open Scope Z_scope.

(** ** Tactics and hint databases *)

(** Facts about readers that hold for every input (see Wire.v, Codec.v). *)
Create HintDb rdsafe.

(** Handlers answer at most once (see Session.v). *)
Create HintDb answers.

(** Splits every boolean conjunction, disjunction and comparison in the
    hypotheses into propositions that [lia] understands. *)
Ltac bool_hyps :=
  repeat match goal with
  | H : andb _ _ = true |- _ => apply andb_true_iff in H as [? ?]
  | H : orb _ _ = false |- _ => apply orb_false_iff in H as [? ?]
  | H : negb _ = true |- _ => apply negb_true_iff in H
  | H : negb _ = false |- _ => apply negb_false_iff in H
  | H : (_ <? _) = true |- _ => apply Z.ltb_lt in H
  | H : (_ <? _) = false |- _ => apply Z.ltb_ge in H
  | H : (_ <=? _) = true |- _ => apply Z.leb_le in H
  | H : (_ <=? _) = false |- _ => apply Z.leb_gt in H
  | H : (_ =? _) = true |- _ => apply Z.eqb_eq in H
  | H : (_ =? _) = false |- _ => apply Z.eqb_neq in H
  | H : (_ <? _)%nat = true |- _ => apply Nat.ltb_lt in H
  | H : (_ <? _)%nat = false |- _ => apply Nat.ltb_ge in H
  | H : (_ <=? _)%nat = true |- _ => apply Nat.leb_le in H
  | H : (_ <=? _)%nat = false |- _ => apply Nat.leb_gt in H
  | H : (_ =? _)%nat = true |- _ => apply Nat.eqb_eq in H
  | H : (_ =? _)%nat = false |- _ => apply Nat.eqb_neq in H
  end.

(** Case analysis on the scrutinee of an [if] or [match] of the goal. *)
Ltac case_if :=
  match goal with
  | |- context [if ?b then _ else _] => destruct b eqn:?
  end.

(** ** Machine integers

    An unsigned [w]-bit integer is a [Z] in [0, 2^w); the signed ones are read
    back in two's complement. *)

Definition u8_max : Z := 255.
Definition u32_max : Z := 4294967295.
Definition u64_max : Z := 18446744073709551615.

Definition wrap32 (z : Z) : Z := z mod 4294967296.
Definition wrap64 (z : Z) : Z := z mod 18446744073709551616.

Definition is_u32 (z : Z) : Prop := 0 <= z < 4294967296.
Definition is_u64 (z : Z) : Prop := 0 <= z < 18446744073709551616.
Definition is_i32 (z : Z) : Prop := -2147483648 <= z < 2147483648.

(** [static_cast<int32_t>] of a 32-bit pattern. *)
Definition to_i32 (z : Z) : Z :=
  if wrap32 z <? 2147483648 then wrap32 z else wrap32 z - 4294967296.

#[global] Instance is_u32_dec z : Decision (is_u32 z).
Proof. unfold is_u32. apply _. Defined.
#[global] Instance is_u64_dec z : Decision (is_u64 z).
Proof. unfold is_u64. apply _. Defined.
#[global] Instance is_i32_dec z : Decision (is_i32 z).
Proof. unfold is_i32. apply _. Defined.

Lemma wrap32_range z : is_u32 (wrap32 z).
Proof. apply Z.mod_pos_bound. lia. Qed.

Lemma wrap64_range z : is_u64 (wrap64 z).
Proof. apply Z.mod_pos_bound. lia. Qed.

Lemma wrap32_id z : is_u32 z -> wrap32 z = z.
Proof. apply Z.mod_small. Qed.

Lemma wrap64_id z : is_u64 z -> wrap64 z = z.
Proof. apply Z.mod_small. Qed.

Lemma to_i32_range z : is_i32 (to_i32 z).
Proof.
  pose proof (wrap32_range z) as H. unfold to_i32, is_u32, is_i32 in *.
  case_if; bool_hyps; lia.
Qed.

Lemma to_i32_wrap z : is_i32 z -> to_i32 (wrap32 z) = z.
Proof.
  unfold to_i32, wrap32, is_i32. intros H. rewrite Zmod_mod.
  destruct (Z.lt_ge_cases z 0).
  - replace (z mod 4294967296) with (z + 4294967296)
      by (rewrite <- (Z.mod_small (z + 4294967296) 4294967296) by lia;
          now rewrite <- (Z_mod_plus_full z 1 4294967296)).
    case_if; bool_hyps; lia.
  - rewrite Z.mod_small by lia. case_if; bool_hyps; lia.
Qed.

(** ** Bytes *)

Definition byte_to_Z (b : byte) : Z := Z.of_N (Byte.to_N b).

(** The low eight bits of [z]. *)
Definition byte_of_Z (z : Z) : byte :=
  match Byte.of_N (Z.to_N (z mod 256)) with Some b => b | None => x00 end.

#[global] Instance byte_eq_dec : EqDecision byte := Byte.byte_eq_dec.

Lemma byte_to_Z_range b : 0 <= byte_to_Z b < 256.
Proof.
  unfold byte_to_Z. pose proof (Byte.to_N_bounded b) as H.
  apply N2Z.inj_le in H. change (Z.of_N 255) with 255 in H. lia.
Qed.

Lemma byte_to_of_Z z : byte_to_Z (byte_of_Z z) = z mod 256.
Proof.
  pose proof (Z.mod_pos_bound z 256 ltac:(lia)) as Hr.
  unfold byte_to_Z, byte_of_Z.
  destruct (Byte.of_N (Z.to_N (z mod 256))) as [b|] eqn:E.
  - apply Byte.to_of_N in E. rewrite E. lia.
  - apply Byte.of_N_None_iff in E. lia.
Qed.

Lemma byte_of_to_Z b : byte_of_Z (byte_to_Z b) = b.
Proof.
  unfold byte_of_Z. rewrite Z.mod_small by apply byte_to_Z_range.
  unfold byte_to_Z. rewrite N2Z.id, Byte.of_to_N. done.
Qed.

(** ** Little-endian integers (memcpy of an integer on x86-64) *)

Fixpoint le_bytes (n : nat) (v : Z) : list byte :=
  match n with
  | O => []
  | S k => byte_of_Z v :: le_bytes k (v / 256)
  end.

Fixpoint le_value (bs : list byte) : Z :=
  match bs with
  | [] => 0
  | b :: t => byte_to_Z b + 256 * le_value t
  end.

Lemma length_le_bytes n v : length (le_bytes n v) = n.
Proof. revert v. induction n as [|n IH]; intros v; cbn; [done|by rewrite IH]. Qed.

Lemma le_value_le_bytes n v : le_value (le_bytes n v) = v mod 256 ^ Z.of_nat n.
Proof.
  revert v. induction n as [|n IH]; intros v.
  - cbn. by rewrite Z.mod_1_r.
  - cbn [le_bytes le_value]. rewrite IH, byte_to_of_Z.
    rewrite Nat2Z.inj_succ, Z.pow_succ_r by lia.
    rewrite Z.rem_mul_r; lia.
Qed.

Lemma le_value_range bs : 0 <= le_value bs < 256 ^ Z.of_nat (length bs).
Proof.
  induction bs as [|b bs IH]; [cbn; lia|].
  cbn [le_value length]. rewrite Nat2Z.inj_succ, Z.pow_succ_r by lia.
  pose proof (byte_to_Z_range b). lia.
Qed.

Lemma le_bytes_le_value bs : le_bytes (length bs) (le_value bs) = bs.
Proof.
  induction bs as [|b bs IH]; [done|].
  pose proof (byte_to_Z_range b) as Hb.
  cbn [length le_value le_bytes]. f_equal.
  - rewrite <- (byte_of_to_Z b) at 2. unfold byte_of_Z.
    rewrite Z.mul_comm, Z_mod_plus_full. done.
  - replace ((byte_to_Z b + 256 * le_value bs) / 256) with (le_value bs); [done|].
    rewrite Z.mul_comm, Z.div_add by lia. rewrite (Z.div_small (byte_to_Z b)) by lia. lia.
Qed.

Lemma le_bytes_mod n v : le_bytes n (v mod 256 ^ Z.of_nat n) = le_bytes n v.
Proof.
  rewrite <- le_value_le_bytes.
  rewrite <- (length_le_bytes n v) at 1. apply le_bytes_le_value.
Qed.

Lemma le_value_bytes4 v : is_u32 v -> le_value (le_bytes 4 v) = v.
Proof. intros H. rewrite le_value_le_bytes. by apply Z.mod_small. Qed.

Lemma le_value_bytes8 v : is_u64 v -> le_value (le_bytes 8 v) = v.
Proof. intros H. rewrite le_value_le_bytes. by apply Z.mod_small. Qed.

Lemma le_value_4_range bs : length bs = 4%nat -> is_u32 (le_value bs).
Proof. intros H. pose proof (le_value_range bs) as Hr. rewrite H in Hr. exact Hr. Qed.

Lemma le_value_8_range bs : length bs = 8%nat -> is_u64 (le_value bs).
Proof. intros H. pose proof (le_value_range bs) as Hr. rewrite H in Hr. exact Hr. Qed.

(** Normalises the length of an encoded byte string. *)
Ltac lens :=
  repeat rewrite ?length_app, ?length_le_bytes, ?length_cons, ?length_nil in *.

(** ** Lists *)

Lemma take_app_exact {A} (l k : list A) : take (length l) (l ++ k) = l.
Proof. by rewrite take_app_length. Qed.

Lemma drop_app_exact {A} (l k : list A) : drop (length l) (l ++ k) = k.
Proof. by rewrite drop_app_length. Qed.

Lemma concat_cons_app {A} (x : list A) xs : concat (x :: xs) = x ++ concat xs.
Proof. done. Qed.

(** Splits [Forall P [x; y; ...]] into its components. *)
Ltac forall_hyps :=
  repeat match goal with
  | H : Forall _ (_ :: _) |- _ => let H1 := fresh in apply Forall_cons in H as [H1 H]
  end.

(** ** Transition sequences *)

Section Star.
Context {S L : Type} (step : S -> L -> S -> Prop).

Inductive steps : S -> list L -> S -> Prop :=
  | steps_refl s : steps s [] s
  | steps_snoc s ls s' l s'' : steps s ls s' -> step s' l s'' -> steps s (ls ++ [l]) s''.

Lemma steps_invariant (P : S -> Prop) s ls s' :
  P s -> (forall a l b, P a -> step a l b -> P b) -> steps s ls s' -> P s'.
Proof. intros H0 Hstep. induction 1; eauto. Qed.
End Star.
