(* ===== verification/Wire.v ===== *)
(** Framing for Vulkan-over-TCP: [common/wire.hpp] and [common/wire.cpp].

    - [Writer]: each method of the C++ class is the byte string it appends to
      [m_data]; a sequence of calls is the concatenation of those strings.
    - [Reader]: the bounds-checked reader, with its position and sticky
      failure flag.
    - [Socket]: blocking whole-message send and receive over a stream socket
      whose calls may be short, interrupted, or fail. *)

From S2P Require Import Prelude.

(** [enum class Status]. *)
Inductive Status := Ok | UnsupportedCommand | DecodeError.

Definition status_code (s : Status) : Z :=
  match s with Ok => 0 | UnsupportedCommand => 1 | DecodeError => 2 end.

#[global] Instance Status_eq_dec : EqDecision Status.
Proof. solve_decision. Defined.

(** [struct MessageHeader]. *)
Record MessageHeader := mk_header {
  opcode : Z;
  payload_size : Z;
  request_id : Z
}.

(** ** Writer *)
Module Writer.

Definition u32 (v : Z) : list byte := le_bytes 4 v.
Definition u64 (v : Z) : list byte := le_bytes 8 v.
Definition i32 (v : Z) : list byte := le_bytes 4 v.
(** A float is its 32-bit pattern. *)
Definition f32 (v : Z) : list byte := le_bytes 4 v.
Definition handle (v : Z) : list byte := u64 v.

Definition bytes (data : list byte) : list byte :=
  u32 (wrap32 (Z.of_nat (length data))) ++ data.

(** The bytes of a C string before its first NUL ([std::strlen]). *)
Fixpoint strlen_prefix (s : list byte) : list byte :=
  match s with
  | [] => []
  | b :: t => if decide (b = x00) then [] else b :: strlen_prefix t
  end.

Definition string (s : option (list byte)) : list byte :=
  bytes (match s with Some cs => strlen_prefix cs | None => [] end).

End Writer.

(** ** Reader *)
Record reader := mk_reader {
  m_data : list byte;
  m_pos : nat;
  m_failed : bool
}.

Module Reader.

Definition make (data : list byte) : reader := mk_reader data 0 false.

Definition m_size (r : reader) : nat := length (m_data r).
Definition ok (r : reader) : bool := negb (m_failed r).
Definition remaining (r : reader) : nat :=
  if m_failed r then 0%nat else (m_size r - m_pos r)%nat.

Definition fail (r : reader) : reader := mk_reader (m_data r) (m_pos r) true.
Definition advance (n : nat) (r : reader) : reader :=
  mk_reader (m_data r) (m_pos r + n) (m_failed r).

(** [template <typename T> T read()]: the [n] raw bytes as an unsigned value,
    0 once the reader has failed. *)
Definition read (n : nat) (r : reader) : Z * reader :=
  if (m_failed r || (m_size r <? m_pos r + n)%nat)%bool then (0, fail r)
  else (le_value (take n (drop (m_pos r) (m_data r))), advance n r).

Definition u32 : reader -> Z * reader := read 4.
Definition u64 : reader -> Z * reader := read 8.
Definition i32 (r : reader) : Z * reader := let (v, r') := read 4 r in (to_i32 v, r').
Definition f32 : reader -> Z * reader := read 4.
Definition handle : reader -> Z * reader := u64.

Definition bytes (max_size : Z) (r : reader) : option (list byte) * reader :=
  let (size, r1) := u32 r in
  if (m_failed r1 || (max_size <? size)
      || (Z.of_nat (m_size r1 - m_pos r1) <? size))%bool
  then (None, fail r1)
  else (Some (take (Z.to_nat size) (drop (m_pos r1) (m_data r1))),
        advance (Z.to_nat size) r1).

(** [bool string(std::string* out)]: [bytes] with its default bound. *)
Definition string (r : reader) : option (list byte) * reader := bytes u32_max r.

(** The invariant of the class: the position never passes the end. *)
Definition wf (r : reader) : Prop := (m_pos r <= m_size r)%nat.

(** What is left to read. *)
Definition unread (r : reader) : list byte := drop (m_pos r) (m_data r).

(** [r'] is a later state of [r]: same buffer, position not moved back and
    still inside it, failure kept. *)
Definition later (r r' : reader) : Prop :=
  m_data r' = m_data r /\ (m_pos r <= m_pos r')%nat /\ wf r' /\
  (m_failed r = true -> m_failed r' = true /\ m_pos r' = m_pos r).

End Reader.

(** ** Sockets *)
Module Socket.

(** What one [::send] or [::recv] call does: it moves up to [n] bytes, is
    interrupted by a signal ([EINTR]), or fails for another reason (including
    the receive timeout). *)
Inductive io_result := IoDone (n : nat) | IoInterrupted | IoError.

(** [write_all] on a socket whose calls return the results [rs] in turn:
    [None] while it is still blocked in the call after the last of them,
    otherwise its return value, the bytes handed to the kernel and the results
    not used.  A call never takes more bytes than it is offered. *)
Fixpoint write_all (rs : list io_result) (data : list byte)
  : option (bool * list byte * list io_result) :=
  match data with
  | [] => Some (true, [], rs)
  | _ =>
    match rs with
    | [] => None
    | IoDone n :: rs' =>
      if (0 <? n)%nat then
        match write_all rs' (drop n data) with
        | Some (ok, sent, rest) => Some (ok, take n data ++ sent, rest)
        | None => None
        end
      else Some (false, [], rs')
    | IoInterrupted :: rs' => write_all rs' data
    | IoError :: rs' => Some (false, [], rs')
    end
  end.

(** [read_all] of [size] bytes from the stream [inp] of bytes the peer sends
    before it closes: the bytes read, or [None] for [false], with the rest of
    the stream and of the results. *)
Fixpoint read_all (rs : list io_result) (inp : list byte) (size : nat)
  : option (option (list byte) * list byte * list io_result) :=
  match size with
  | O => Some (Some [], inp, rs)
  | _ =>
    match rs with
    | [] => None
    | IoDone n :: rs' =>
      let got := take (Nat.min n size) inp in
      match got with
      | [] => Some (None, inp, rs')
      | _ =>
        match read_all rs' (drop (length got) inp) (size - length got) with
        | Some (Some bs, inp', rest) => Some (Some (got ++ bs), inp', rest)
        | other => other
        end
      end
    | IoInterrupted :: rs' => read_all rs' inp size
    | IoError :: rs' => Some (None, inp, rs')
    end
  end.

Definition kMaxPayload : Z := 64 * 1024 * 1024.

(** The 16 bytes of a [MessageHeader] in memory. *)
Definition header_bytes (h : MessageHeader) : list byte :=
  le_bytes 4 (opcode h) ++ le_bytes 4 (payload_size h) ++ le_bytes 8 (request_id h).

Definition header_of_bytes (bs : list byte) : MessageHeader :=
  mk_header (le_value (take 4 bs)) (le_value (take 4 (drop 4 bs)))
            (le_value (take 8 (drop 8 bs))).

Definition send_message (rs : list io_result) (opcode : Z) (payload : list byte)
    (request_id : Z) : option (bool * list byte * list io_result) :=
  let header := mk_header opcode (wrap32 (Z.of_nat (length payload))) request_id in
  match write_all rs (header_bytes header) with
  | Some (true, sent, rs1) =>
    match payload with
    | [] => Some (true, sent, rs1)
    | _ =>
      match write_all rs1 payload with
      | Some (ok, sent', rs2) => Some (ok, sent ++ sent', rs2)
      | None => None
      end
    end
  | other => other
  end.

(** [recv_message]: the header and payload, or [None] for [false]. *)
Definition recv_message (rs : list io_result) (inp : list byte)
  : option (option (MessageHeader * list byte) * list byte * list io_result) :=
  match read_all rs inp 16 with
  | None => None
  | Some (None, inp1, rs1) => Some (None, inp1, rs1)
  | Some (Some hb, inp1, rs1) =>
    let header := header_of_bytes hb in
    if kMaxPayload <? payload_size header then Some (None, inp1, rs1)
    else if payload_size header =? 0 then Some (Some (header, []), inp1, rs1)
    else
      match read_all rs1 inp1 (Z.to_nat (payload_size header)) with
      | None => None
      | Some (None, inp2, rs2) => Some (None, inp2, rs2)
      | Some (Some payload, inp2, rs2) => Some (Some (header, payload), inp2, rs2)
      end
  end.

(** A run of socket calls without failure: every completed call moves at
    least one byte. *)
Definition progress (r : io_result) : Prop :=
  match r with IoDone n => (0 < n)%nat | IoInterrupted => True | IoError => False end.

(** The number of completed calls of a run. *)
Fixpoint completed (rs : list io_result) : nat :=
  match rs with
  | [] => 0
  | IoDone _ :: rs' => S (completed rs')
  | _ :: rs' => completed rs'
  end.

End Socket.

(** ** Reader lemmas *)
Module ReaderFacts.
Import Reader.

Lemma length_unread r : length (unread r) = (m_size r - m_pos r)%nat.
Proof. unfold unread. by rewrite length_drop. Qed.

Lemma unread_advance n r : unread (advance n r) = drop n (unread r).
Proof. unfold unread, advance; cbn. by rewrite drop_drop. Qed.

Lemma make_wf data : wf (make data).
Proof. unfold wf, make; cbn. lia. Qed.

Lemma unread_make data : unread (make data) = data.
Proof. done. Qed.

Lemma later_refl r : wf r -> later r r.
Proof. unfold later. auto. Qed.

Lemma later_trans a b c : later a b -> later b c -> later a c.
Proof.
  unfold later. intros (D1 & P1 & W1 & F1) (D2 & P2 & W2 & F2).
  split; [congruence|]. split; [lia|]. split; [done|]. intros Hf.
  destruct (F1 Hf) as [Hf1 Hp1]. destruct (F2 Hf1) as [Hf2 Hp2]. split; [done|congruence].
Qed.

Lemma later_fail r : wf r -> later r (fail r).
Proof. unfold later, fail, wf, m_size; cbn. auto. Qed.

(** A read inside the buffer succeeds and consumes exactly its bytes. *)
Lemma read_ok n r bs rest :
  m_failed r = false -> wf r -> unread r = bs ++ rest -> length bs = n ->
  read n r = (le_value bs, advance n r).
Proof.
  intros Hf Hw Hu Hn. unfold read. rewrite Hf. cbn [orb].
  pose proof (length_unread r) as HL. rewrite Hu, length_app in HL. unfold wf in Hw.
  rewrite (proj2 (Nat.ltb_ge _ _)) by lia.
  unfold unread in Hu. rewrite Hu, <- Hn, take_app_exact. done.
Qed.

Lemma read_later n r : wf r -> later r (snd (read n r)).
Proof.
  unfold read. intros Hw. case_if; cbn [snd]; [by apply later_fail|].
  apply orb_false_iff in Heqb as [Hf Hlt]. bool_hyps.
  unfold later, advance, wf, m_size in *; cbn. rewrite Hf.
  split; [done|]. split; [lia|]. split; [lia|done].
Qed.

Lemma read_range n r : 0 <= fst (read n r) < 256 ^ Z.of_nat n.
Proof.
  unfold read. case_if; cbn [fst]; [lia|].
  apply orb_false_iff in Heqb as [_ Hlt]. bool_hyps.
  set (l := take _ _). pose proof (le_value_range l) as H.
  assert (length l = n) as Hl; [|by rewrite Hl in H].
  unfold l, m_size in *. rewrite length_take, length_drop. lia.
Qed.

Lemma bytes_later max r : wf r -> later r (snd (bytes max r)).
Proof.
  intros Hw. unfold bytes.
  pose proof (read_later 4 r Hw) as HL. pose proof (read_range 4 r) as HR.
  unfold u32. destruct (read 4 r) as [size r1]. cbn [fst snd] in *.
  assert (wf r1) as Hw1 by apply HL.
  eapply later_trans; [exact HL|].
  case_if; cbn [snd]; [by apply later_fail|].
  apply orb_false_iff in Heqb as [Hb Hlt]. apply orb_false_iff in Hb as [Hf _]. bool_hyps.
  unfold later, advance, wf, m_size in *; cbn. rewrite Hf.
  split; [done|]. split; [lia|]. split; [lia|done].
Qed.

(** The bytes returned are [size] bytes of the buffer, within the bound. *)
Lemma bytes_sound max r bs r' :
  wf r -> bytes max r = (Some bs, r') ->
  Z.of_nat (length bs) <= max /\ is_u32 (Z.of_nat (length bs)) /\ m_failed r' = false.
Proof.
  intros Hw. unfold bytes. pose proof (read_range 4 r) as HR. unfold u32.
  destruct (read 4 r) as [size r1] eqn:E. cbn [fst] in HR.
  case_if; [done|]. intros [= <- <-].
  apply orb_false_iff in Heqb as [Hb Hlt]. apply orb_false_iff in Hb as [Hf Hm]. bool_hyps.
  rewrite length_take, length_drop. unfold is_u32, m_size in *.
  split; [lia|]. split; [lia|done].
Qed.

End ReaderFacts.

(** ** Socket lemmas *)
Module SocketFacts.
Import Socket.

Lemma write_all_true rs data sent rs' :
  write_all rs data = Some (true, sent, rs') -> sent = data.
Proof.
  revert data sent. induction rs as [|[n| |] rs IH]; intros data sent; destruct data as [|b data];
    cbn [write_all]; intros H; try (by inversion H).
  - destruct (0 <? n)%nat eqn:?; [|done].
    destruct (write_all rs (drop n (b :: data))) as [[[ok s] r]|] eqn:E; [|done].
    inversion H; subst. rewrite (IH _ _ E). apply take_drop.
  - eauto.
Qed.

Lemma write_all_prefix rs data ok sent rs' :
  write_all rs data = Some (ok, sent, rs') -> sent `prefix_of` data.
Proof.
  revert data ok sent. induction rs as [|[n| |] rs IH]; intros data ok sent;
    destruct data as [|b data]; cbn [write_all]; intros H;
    try (inversion H; subst; apply prefix_nil); try done.
  - destruct (0 <? n)%nat eqn:?; [|inversion H; subst; apply prefix_nil].
    destruct (write_all rs (drop n (b :: data))) as [[[ok' s] r]|] eqn:E; [|done].
    inversion H; subst. rewrite <- (take_drop n (b :: data)) at 2.
    apply prefix_app. eauto.
  - eauto.
Qed.

Lemma take_drop_length {A} k (l : list A) : l = take k l ++ drop (length (take k l)) l.
Proof.
  rewrite length_take. destruct (Nat.le_gt_cases k (length l)).
  - by rewrite Nat.min_l, take_drop by done.
  - rewrite Nat.min_r, take_ge, drop_all, app_nil_r by lia. done.
Qed.

Lemma read_all_sound rs inp size bs inp' rs' :
  read_all rs inp size = Some (Some bs, inp', rs') -> inp = bs ++ inp' /\ length bs = size.
Proof.
  revert inp size bs. induction rs as [|[n| |] rs IH]; intros inp size bs; destruct size as [|size];
    cbn [read_all]; intros H; try (by inversion H).
  - destruct (take (Nat.min n (S size)) inp) as [|g gs] eqn:Eg; [done|].
    destruct (read_all rs (drop (length (g :: gs)) inp) (S size - length (g :: gs)))
      as [[[[bs1|] i1] r1]|] eqn:E; try done.
    inversion H; subst. apply IH in E as [E1 E2].
    assert (length (g :: gs) <= S size)%nat as Hl
      by (rewrite <- Eg, length_take; lia).
    change (g :: gs ++ bs1) with ((g :: gs) ++ bs1). split.
    + rewrite <- app_assoc, <- E1, <- Eg. apply take_drop_length.
    + rewrite length_app. lia.
  - eauto.
Qed.

Lemma read_all_complete rs inp size :
  Forall progress rs -> (size <= completed rs)%nat -> (size <= length inp)%nat ->
  exists rs', read_all rs inp size = Some (Some (take size inp), drop size inp, rs') /\
    Forall progress rs' /\ (completed rs - size <= completed rs')%nat.
Proof.
  revert inp size. induction rs as [|r rs IH]; intros inp size Hp Hc Hi.
  { destruct size; [|cbn in Hc; lia]. exists []. done. }
  destruct size as [|size].
  { exists (r :: rs). cbn [read_all]. rewrite take_0, drop_0. split; [done|]. split; [done|lia]. }
  apply Forall_cons in Hp as [Hr Hp].
  destruct r as [n| |]; cbn [progress completed] in *; [| |done].
  - cbn [read_all]. set (k := Nat.min n (S size)).
    assert (length (take k inp) = k) as Hk by (rewrite length_take; lia).
    destruct (take k inp) as [|g gs] eqn:Eg; [cbn in Hk; lia|].
    rewrite Hk.
    destruct (IH (drop k inp) (S size - k)%nat Hp ltac:(lia) ltac:(rewrite length_drop; lia))
      as (rs' & E & Hp' & Hc').
    rewrite E, <- Eg. exists rs'. split; [|split; [done|lia]].
    rewrite drop_drop, take_drop_commute.
    replace (k + (S size - k))%nat with (S size) by lia.
    rewrite <- (take_drop k (take (S size) inp)) at 2.
    by rewrite take_take, Nat.min_l by lia.
  - cbn [read_all]. destruct (IH inp (S size) Hp Hc Hi) as (rs' & E & Hp' & Hc').
    eauto.
Qed.

Lemma length_header_bytes h : length (header_bytes h) = 16%nat.
Proof. unfold header_bytes. by lens. Qed.

Lemma header_of_header_bytes h :
  is_u32 (opcode h) -> is_u32 (payload_size h) -> is_u64 (request_id h) ->
  header_of_bytes (header_bytes h) = h.
Proof.
  destruct h as [o p i]. unfold header_of_bytes, header_bytes; cbn [opcode payload_size request_id].
  intros Ho Hp Hi.
  change 4%nat with (length (le_bytes 4 o)) at 1. rewrite take_app_exact.
  change 4%nat with (length (le_bytes 4 o)) at 3. rewrite drop_app_exact.
  change 4%nat with (length (le_bytes 4 p)) at 2. rewrite take_app_exact.
  change 8%nat with (length (le_bytes 4 o ++ le_bytes 4 p)) at 2.
  rewrite app_assoc, drop_app_exact. 
  rewrite firstn_all2 by (by rewrite length_le_bytes).
  by rewrite !le_value_bytes4, le_value_bytes8.
Qed.

Lemma header_bytes_of_bytes bs :
  length bs = 16%nat -> header_bytes (header_of_bytes bs) = bs.
Proof.
  intros H. unfold header_bytes, header_of_bytes; cbn [opcode payload_size request_id].
  rewrite <- (take_drop 4 bs) at 4. f_equal.
  - rewrite <- (le_bytes_le_value (take 4 bs)) at 2. by rewrite length_take, H.
  - rewrite <- (take_drop 4 (drop 4 bs)) at 2. f_equal.
    + rewrite <- (le_bytes_le_value (take 4 (drop 4 bs))) at 2. by rewrite length_take, length_drop, H.
    + rewrite drop_drop. change (4 + 4)%nat with 8%nat.
      rewrite <- (le_bytes_le_value (drop 8 bs)). rewrite length_drop, H.
      rewrite firstn_all2 by (rewrite length_le_bytes; cbn; lia). by rewrite le_value_le_bytes, Z.mod_small
        by (pose proof (le_value_range (drop 8 bs)) as Hr; rewrite length_drop, H in Hr; exact Hr).
Qed.

Lemma header_of_bytes_range bs :
  length bs = 16%nat ->
  is_u32 (payload_size (header_of_bytes bs)).
Proof.
  intros H. unfold header_of_bytes; cbn [payload_size].
  apply le_value_4_range. rewrite length_take, length_drop. lia.
Qed.

Lemma send_message_true rs op payload id sent rs' :
  send_message rs op payload id = Some (true, sent, rs') ->
  sent = header_bytes (mk_header op (wrap32 (Z.of_nat (length payload))) id) ++ payload.
Proof.
  unfold send_message.
  destruct (write_all rs _) as [[[[] s1] r1]|] eqn:E1; try done.
  apply write_all_true in E1. subst s1.
  destruct payload as [|b p]; intros H.
  - inversion H; subst. by rewrite app_nil_r.
  - destruct (write_all r1 (b :: p)) as [[[[] s2] r2]|] eqn:E2; try done.
    apply write_all_true in E2. inversion H; subst. done.
Qed.

End SocketFacts.

(** ** Properties of the framing *)
Module Framing.
Import Socket SocketFacts.

(** C1: a message that [send_message] reports as sent is read back by
    [recv_message] exactly, whatever the sizes in which the two sockets moved
    its bytes and however often the calls were interrupted, and the bytes
    behind it are left for the next message.  The receiver does return: it
    needs at most one completed call per byte. *)
Theorem frame_roundtrip ws op payload id sent ws' rs rest :
  is_u32 op -> is_u64 id -> Z.of_nat (length payload) <= kMaxPayload ->
  send_message ws op payload id = Some (true, sent, ws') ->
  Forall progress rs -> (16 + length payload <= completed rs)%nat ->
  exists rs',
    recv_message rs (sent ++ rest) =
      Some (Some (mk_header op (Z.of_nat (length payload)) id, payload), rest, rs').
Proof.
  unfold kMaxPayload. intros Ho Hi Hl Hs Hp Hc. apply send_message_true in Hs. subst sent.
  rewrite wrap32_id by (unfold is_u32; lia).
  set (h := mk_header op (Z.of_nat (length payload)) id).
  pose proof (length_header_bytes h) as Hh.
  destruct (read_all_complete rs ((header_bytes h ++ payload) ++ rest) 16)
    as (rs1 & E1 & Hp1 & Hc1); [done|lia|lens; lia|].
  unfold recv_message. rewrite E1, <- app_assoc, <- Hh, take_app_exact, drop_app_exact.
  rewrite header_of_header_bytes
    by (try done; unfold is_u32, h; cbn [payload_size]; lia).
  change (payload_size h) with (Z.of_nat (length payload)).
  rewrite (proj2 (Z.ltb_ge _ _)) by (unfold kMaxPayload; lia).
  destruct (Z.of_nat (length payload) =? 0) eqn:Ez; bool_hyps.
  - destruct payload; [|cbn in Ez; lia]. eauto.
  - rewrite Nat2Z.id.
    destruct (read_all_complete rs1 (payload ++ rest) (length payload))
      as (rs2 & E2 & _ & _); [done|lia|lens; lia|].
    rewrite E2, take_app_exact, drop_app_exact. eauto.
Qed.

Lemma frame_roundtrip_witness :
  exists rs',
    recv_message [IoDone 3; IoInterrupted; IoDone 40; IoDone 1; IoDone 1; IoDone 1; IoDone 1;
                  IoDone 1; IoDone 1; IoDone 1; IoDone 1; IoDone 1; IoDone 1; IoDone 1;
                  IoDone 1; IoDone 1; IoDone 1; IoDone 1; IoDone 1; IoDone 1]
      ((header_bytes (mk_header 5 2 9) ++ [x61; x62]) ++ [x01]) =
      Some (Some (mk_header 5 2 9, [x61; x62]), [x01], rs').
Proof.
  apply (frame_roundtrip [IoDone 20; IoDone 1; IoInterrupted; IoDone 1] 5 [x61; x62] 9 _ []).
  - done.
  - done.
  - unfold kMaxPayload. cbn. lia.
  - vm_compute. reflexivity.
  - repeat constructor.
  - cbn. lia.
Defined.

(** whatever bytes a peer sends, a message that [recv_message] accepts is a
    prefix of the stream, consumed exactly, whose payload has the announced
    size, at most 64 MiB; a larger announced size is refused after the 16
    header bytes, before any payload is allocated or read. *)
Theorem recv_message_exact rs inp r inp' rs' :
  recv_message rs inp = Some (r, inp', rs') ->
  match r with
  | Some (h, payload) =>
      inp = header_bytes h ++ payload ++ inp' /\
      payload_size h = Z.of_nat (length payload) /\
      Z.of_nat (length payload) <= 64 * 1024 * 1024
  | None => True
  end /\
  (forall hb rest rs1, read_all rs inp 16 = Some (Some hb, rest, rs1) ->
     64 * 1024 * 1024 < payload_size (header_of_bytes hb) ->
     r = None /\ inp' = rest /\ rs' = rs1).
Proof.
  unfold recv_message. intros H.
  destruct (read_all rs inp 16) as [[[[hb|] inp1] rs1]|] eqn:E1; [|inversion H; subst; done|done].
  pose proof (read_all_sound _ _ _ _ _ _ E1) as [-> Hl1].
  pose proof (header_of_bytes_range hb Hl1) as Hr. unfold is_u32 in Hr.
  destruct (kMaxPayload <? payload_size (header_of_bytes hb)) eqn:Ek; bool_hyps; unfold kMaxPayload in Ek.
  { inversion H; subst. split; [done|]. intros ? ? ? [= <- <- <-] _. done. }
  split; [|intros ? ? ? [= <- <- <-] Hbig; lia].
  destruct (payload_size (header_of_bytes hb) =? 0) eqn:Ez; bool_hyps.
  { inversion H; subst. rewrite header_bytes_of_bytes by done. cbn [app length]. split; [done|]. lia. }
  destruct (read_all rs1 inp1 _) as [[[[p|] inp2] rs2]|] eqn:E2; inversion H; subst; [|done].
  apply read_all_sound in E2 as [-> Hl2].
  rewrite header_bytes_of_bytes by done. split; [done|]. lia.
Qed.

Lemma recv_message_exact_witness :
  recv_message [IoDone 16; IoDone 2] (header_bytes (mk_header 5 2 9) ++ [x61; x62; x63])
    = Some (Some (mk_header 5 2 9, [x61; x62]), [x63], []) /\
  header_bytes (mk_header 5 2 9) ++ [x61; x62; x63] =
    header_bytes (mk_header 5 2 9) ++ [x61; x62] ++ [x63].
Proof.
  assert (recv_message [IoDone 16; IoDone 2] (header_bytes (mk_header 5 2 9) ++ [x61; x62; x63])
    = Some (Some (mk_header 5 2 9, [x61; x62]), [x63], [])) as E by (vm_compute; reflexivity).
  split; [exact E|]. exact (proj1 (proj1 (recv_message_exact _ _ _ _ _ E))).
Defined.

End Framing.
