(* ===== verification/Codec.v ===== *)
(** The two small monads the marshalling code is written in, and the relations
    their programs are verified with.

    - [W]: a [bool write_X(Writer&, ...)] function.  Its value is the boolean it
      returns and the bytes it appended to the writer before returning.
    - [Rd]: a [bool read_X(Reader&, ..., T* out)] function.  It yields [None]
      when the C++ returns [false], the decoded value otherwise; the reader is
      threaded through.

    [reads_at rest m bs a]: at a position where [bs ++ rest] is unread, [m]
    succeeds with [a] and consumes exactly [bs].  [rd_safe m]: on every input
    [m] leaves the reader inside its buffer. *)

From S2P Require Import Prelude Wire.
Import Reader ReaderFacts.

Declare Scope wire_scope.
Delimit Scope wire_scope with wire.

(** Encodings and reads are taken as wholes. *)
#[global] Arguments Writer.u32 _ : simpl never.
#[global] Arguments Writer.u64 _ : simpl never.
#[global] Arguments Writer.i32 _ : simpl never.
#[global] Arguments Writer.f32 _ : simpl never.
#[global] Arguments Writer.handle _ : simpl never.
#[global] Arguments Writer.bytes _ : simpl never.
#[global] Arguments Writer.string _ : simpl never.

Lemma length_writer_u32 v : length (Writer.u32 v) = 4%nat.
Proof. apply length_le_bytes. Qed.

Lemma length_writer_u64 v : length (Writer.u64 v) = 8%nat.
Proof. apply length_le_bytes. Qed.

Lemma length_writer_i32 v : length (Writer.i32 v) = 4%nat.
Proof. apply length_le_bytes. Qed.

Lemma length_writer_handle v : length (Writer.handle v) = 8%nat.
Proof. apply length_le_bytes. Qed.

Lemma length_writer_bytes data : length (Writer.bytes data) = (4 + length data)%nat.
Proof. unfold Writer.bytes. by rewrite length_app, length_writer_u32. Qed.

(** ** Writing *)
Section Writing.

Definition W : Type := bool * list byte.

(** Appending bytes always succeeds. *)
Definition emit (bs : list byte) : W := (true, bs).

(** [if (!b) return false;] *)
Definition wguard (b : bool) : W := (b, []).

Definition wseq (m1 m2 : W) : W :=
  match m1 with
  | (true, b1) => let (ok, b2) := m2 in (ok, b1 ++ b2)
  | (false, b1) => (false, b1)
  end.

(** [Writer encoded; ...; w.append(encoded); return true;]: nothing is
    appended when the inner function returns early. *)
Definition transact (m : W) : W :=
  match m with (true, b) => (true, b) | (false, _) => (false, []) end.

Fixpoint wfor {A} (f : A -> W) (xs : list A) : W :=
  match xs with
  | [] => emit []
  | x :: t => wseq (f x) (wfor f t)
  end.

End Writing.

Notation "m1 ;;; m2" := (wseq m1 m2) (at level 60, right associativity) : wire_scope.

Section WritingFacts.

Lemma wseq_true m1 m2 bs :
  wseq m1 m2 = (true, bs) <->
  exists b1 b2, m1 = (true, b1) /\ m2 = (true, b2) /\ bs = b1 ++ b2.
Proof.
  destruct m1 as [[] b1], m2 as [ok2 b2]; cbn; split.
  - intros [= -> <-]. eauto.
  - intros (? & ? & [= <-] & [= -> <-] & ->). done.
  - done.
  - intros (? & ? & ? & _). done.
Qed.

Lemma emit_true bs bs' : emit bs = (true, bs') <-> bs' = bs.
Proof. unfold emit. split; [by intros [= ->]|by intros ->]. Qed.

Lemma wguard_true b bs : wguard b = (true, bs) <-> b = true /\ bs = [].
Proof. unfold wguard. split; [by intros [= -> <-]|by intros [-> ->]]. Qed.

Lemma transact_true m bs : transact m = (true, bs) <-> m = (true, bs).
Proof. destruct m as [[] b]; done. Qed.

(** A transactional writer that fails leaves the caller's buffer unchanged. *)
Lemma transact_false m bs : transact m = (false, bs) -> bs = [].
Proof. destruct m as [[] b]; cbn; congruence. Qed.

Lemma wfor_true_cons {A} (f : A -> W) x xs bs :
  wfor f (x :: xs) = (true, bs) <->
  exists b1 b2, f x = (true, b1) /\ wfor f xs = (true, b2) /\ bs = b1 ++ b2.
Proof. cbn. apply wseq_true. Qed.

(** The bytes of a loop that succeeded, element by element. *)
Lemma wfor_true {A} (f : A -> W) xs bs :
  wfor f xs = (true, bs) ->
  exists bss, Forall2 (fun x b => f x = (true, b)) xs bss /\ bs = concat bss.
Proof.
  revert bs. induction xs as [|x xs IH]; intros bs H.
  - inversion H; subst. exists []. by split; [constructor|].
  - apply wfor_true_cons in H as (b1 & b2 & H1 & H2 & ->).
    destruct (IH _ H2) as (bss & Hbss & ->). exists (b1 :: bss). by split; [constructor|].
Qed.

Lemma wfor_emit {A} (f : A -> list byte) xs :
  wfor (fun x => emit (f x)) xs = emit (concat (map f xs)).
Proof. induction xs as [|x xs IH]; [done|]. cbn [wfor map concat]. by rewrite IH. Qed.

(** A check followed by the bytes. *)
Lemma guarded_true b m bs :
  wseq (wguard b) m = (true, bs) <-> b = true /\ m = (true, bs).
Proof.
  rewrite wseq_true. split.
  - intros (b1 & b2 & Hg & Hm & ->). apply wguard_true in Hg as [Hg ->]. done.
  - intros [-> Hm]. exists [], bs. done.
Qed.

Lemma emit_then_true x m bs :
  wseq (emit x) m = (true, bs) <-> exists b, m = (true, b) /\ bs = x ++ b.
Proof.
  rewrite wseq_true. split.
  - intros (b1 & b2 & He & Hm & ->). apply emit_true in He as ->. eauto.
  - intros (b & Hm & ->). by exists x, b.
Qed.

End WritingFacts.

(** Inverts [w = (true, bs)] into the conditions that held and the bytes. *)
Ltac winv :=
  repeat match goal with
  | H : wseq _ _ = (true, _) |- _ =>
      apply wseq_true in H; destruct H as (? & ? & ? & ? & ?)
  | H : emit _ = (true, _) |- _ => apply emit_true in H
  | H : wguard _ = (true, _) |- _ => apply wguard_true in H; destruct H as [? ?]
  | H : transact _ = (true, _) |- _ => apply transact_true in H
  | H : (true, _) = (true, _) |- _ => injection H as H
  | H : (false, _) = (true, _) |- _ => discriminate H
  | H : ?x = _ |- _ => is_var x; subst x
  end.

(** ** Reading *)
Section Reading.

Definition Rd (A : Type) : Type := reader -> option A * reader.

Definition rret {A} (a : A) : Rd A := fun r => (Some a, r).

Definition rbind {A B} (m : Rd A) (f : A -> Rd B) : Rd B :=
  fun r => match m r with
           | (Some a, r') => f a r'
           | (None, r') => (None, r')
           end.

(** [return false;] *)
Definition rfail {A} : Rd A := fun r => (None, r).

(** [if (!b) return false;] *)
Definition rguard (b : bool) : Rd unit := if b then rret tt else rfail.

(** [r.u32()] and the like: they always produce a value. *)
Definition get {A} (m : reader -> A * reader) : Rd A :=
  fun r => let (a, r') := m r in (Some a, r').

Definition r_u32 : Rd Z := get u32.
Definition r_u64 : Rd Z := get u64.
Definition r_i32 : Rd Z := get i32.
Definition r_f32 : Rd Z := get f32.
Definition r_handle : Rd Z := get handle.
Definition r_bytes (max_size : Z) : Rd (list byte) := bytes max_size.
Definition r_string : Rd (list byte) := Reader.string.

(** [if (!r.ok()) return false;] *)
Definition r_ok : Rd unit := fun r => (if ok r then Some tt else None, r).
Definition r_remaining : Rd Z := fun r => (Some (Z.of_nat (remaining r)), r).

(** [for (i = 0; i < n; ++i) if (!m) return false;] *)
Fixpoint rfor {A} (n : nat) (m : Rd A) : Rd (list A) :=
  match n with
  | O => rret []
  | S k => rbind m (fun x => rbind (rfor k m) (fun xs => rret (x :: xs)))
  end.

End Reading.

Notation "x <- m ; k" := (rbind m (fun x => k))
  (at level 60, m at next level, right associativity) : wire_scope.
Notation "m1 ;! m2" := (rbind m1 (fun _ => m2))
  (at level 60, right associativity) : wire_scope.

(** ** Decoders succeed on what the encoders produce *)
Section ReadsAt.

Definition reads_at {A} (rest : list byte) (m : Rd A) (bs : list byte) (a : A) : Prop :=
  forall r, wf r -> m_failed r = false -> unread r = bs ++ rest ->
    m r = (Some a, advance (length bs) r).

Lemma reads_at_elim {A} rest (m : Rd A) bs (a : A) r :
  reads_at rest m bs a -> wf r -> m_failed r = false -> unread r = bs ++ rest ->
  m r = (Some a, advance (length bs) r).
Proof. intros H. apply H. Qed.

Lemma advance_ok n r bs rest :
  wf r -> m_failed r = false -> unread r = bs ++ rest -> length bs = n ->
  wf (advance n r) /\ m_failed (advance n r) = false /\ unread (advance n r) = rest.
Proof.
  intros Hw Hf Hu Hn. pose proof (length_unread r) as HL. rewrite Hu in HL. lens.
  split; [unfold wf, advance, m_size in *; cbn; lia|]. split; [done|].
  rewrite unread_advance, Hu, <- Hn. apply drop_app_exact.
Qed.

Lemma advance_advance m n r : advance m (advance n r) = advance (n + m) r.
Proof. unfold advance; cbn. f_equal. lia. Qed.

Lemma advance_0 r : advance 0 r = r.
Proof. destruct r. unfold advance; cbn. f_equal. lia. Qed.

Lemma reads_ret {A} rest (a : A) : reads_at rest (rret a) [] a.
Proof. intros r _ _ _. by rewrite advance_0. Qed.

Lemma reads_bind {A B} rest (m : Rd A) (f : A -> Rd B) b1 b2 a b :
  reads_at (b2 ++ rest) m b1 a -> reads_at rest (f a) b2 b ->
  reads_at rest (rbind m f) (b1 ++ b2) b.
Proof.
  intros H1 H2 r Hw Hf Hu. rewrite <- app_assoc in Hu. unfold rbind.
  rewrite (H1 r Hw Hf Hu).
  destruct (advance_ok _ r _ _ Hw Hf Hu eq_refl) as (Hw' & Hf' & Hu').
  rewrite (H2 _ Hw' Hf' Hu'), advance_advance. by rewrite length_app.
Qed.

(** A last step followed by a pure continuation. *)
Lemma reads_bind_last {A B} rest (m : Rd A) (f : A -> Rd B) bs a b :
  reads_at rest m bs a -> reads_at rest (f a) [] b -> reads_at rest (rbind m f) bs b.
Proof.
  intros H1 H2. rewrite <- (app_nil_r bs). by eapply reads_bind.
Qed.

(** A step that consumes nothing. *)
Lemma reads_bind_nil {A B} rest (m : Rd A) (f : A -> Rd B) bs a b :
  reads_at (bs ++ rest) m [] a -> reads_at rest (f a) bs b -> reads_at rest (rbind m f) bs b.
Proof. intros H1 H2. change bs with ([] ++ bs). by eapply reads_bind. Qed.

Lemma reads_get_read {A} rest n (g : Z -> A) bs :
  length bs = n ->
  reads_at rest (get (fun r => let (v, r') := read n r in (g v, r'))) bs (g (le_value bs)).
Proof.
  intros Hn r Hw Hf Hu. unfold get. rewrite (read_ok n r bs rest Hf Hw Hu Hn). by rewrite Hn.
Qed.

Lemma reads_u32 rest v : is_u32 v -> reads_at rest r_u32 (Writer.u32 v) v.
Proof.
  intros Hv r Hw Hf Hu. unfold r_u32, get, u32.
  rewrite (read_ok 4 r _ rest Hf Hw Hu) by apply length_le_bytes.
  unfold Writer.u32. by rewrite le_value_bytes4, length_le_bytes.
Qed.

Lemma reads_f32 rest v : is_u32 v -> reads_at rest r_f32 (Writer.f32 v) v.
Proof. exact (reads_u32 rest v). Qed.

Lemma reads_u64 rest v : is_u64 v -> reads_at rest r_u64 (Writer.u64 v) v.
Proof.
  intros Hv r Hw Hf Hu. unfold r_u64, get, u64.
  rewrite (read_ok 8 r _ rest Hf Hw Hu) by apply length_le_bytes.
  unfold Writer.u64. by rewrite le_value_bytes8, length_le_bytes.
Qed.

Lemma reads_handle rest v : is_u64 v -> reads_at rest r_handle (Writer.handle v) v.
Proof. exact (reads_u64 rest v). Qed.

Lemma reads_i32 rest v : is_i32 v -> reads_at rest r_i32 (Writer.i32 v) v.
Proof.
  intros Hv r Hw Hf Hu. unfold r_i32, get, i32.
  rewrite (read_ok 4 r _ rest Hf Hw Hu) by apply length_le_bytes.
  unfold Writer.i32. rewrite le_value_le_bytes, length_le_bytes.
  change (256 ^ Z.of_nat 4) with 4294967296.
  change (v mod 4294967296) with (wrap32 v). by rewrite to_i32_wrap.
Qed.

Lemma reads_ok rest : reads_at rest r_ok [] tt.
Proof. intros r _ Hf _. unfold r_ok, ok. rewrite Hf. by rewrite advance_0. Qed.

Lemma reads_guard rest b : b = true -> reads_at rest (rguard b) [] tt.
Proof. intros -> . apply reads_ret. Qed.

Lemma reads_remaining rest : reads_at rest r_remaining [] (Z.of_nat (length rest)).
Proof.
  intros r Hw Hf Hu. unfold r_remaining, remaining. rewrite Hf.
  rewrite advance_0, <- length_unread, Hu. done.
Qed.

Lemma reads_bytes rest max data :
  Z.of_nat (length data) <= max -> is_u32 (Z.of_nat (length data)) ->
  reads_at rest (r_bytes max) (Writer.bytes data) data.
Proof.
  intros Hmax Hd r Hw Hf Hu. unfold Writer.bytes in *. rewrite wrap32_id in * by done.
  rewrite <- app_assoc in Hu. unfold r_bytes, bytes.
  unfold u32. rewrite (read_ok 4 r _ _ Hf Hw Hu) by apply length_le_bytes.
  unfold Writer.u32 in *. rewrite le_value_bytes4 by done.
  destruct (advance_ok 4 r _ _ Hw Hf Hu (length_le_bytes _ _)) as (Hw' & Hf' & Hu').
  rewrite Hf'. cbn [orb]. rewrite (proj2 (Z.ltb_ge _ _)) by done. cbn [orb].
  pose proof (length_unread (advance 4 r)) as HL. rewrite Hu' in HL. lens.
  rewrite (proj2 (Z.ltb_ge _ _)) by lia.
  rewrite Nat2Z.id. unfold unread in Hu'. rewrite Hu', take_app_exact.
  by rewrite advance_advance.
Qed.

(** The loop that decodes what a loop wrote. *)
Lemma reads_for {A B} rest (m : Rd B) (P : A -> list byte -> Prop) (g : A -> B) xs bss :
  Forall2 P xs bss ->
  (forall x b rest, P x b -> reads_at rest m b (g x)) ->
  reads_at rest (rfor (length xs) m) (concat bss) (map g xs).
Proof.
  intros HF Hm. induction HF as [|x b xs bss Hx HF IH]; [apply reads_ret|].
  cbn [length rfor concat map]. eapply reads_bind; [by apply Hm|].
  eapply reads_bind_last; [exact IH|]. apply reads_ret.
Qed.

(** Running a decoder on a whole message. *)
Lemma reads_at_run {A} (m : Rd A) bs a :
  reads_at [] m bs a -> m (make bs) = (Some a, advance (length bs) (make bs)).
Proof. intros H. apply H; [apply make_wf|done|]. by rewrite unread_make, app_nil_r. Qed.

End ReadsAt.

(** ** Decoders never leave the buffer *)
Section Safe.

Definition rd_safe {A} (m : Rd A) : Prop := forall r, wf r -> later r (snd (m r)).

Lemma safe_ret {A} (a : A) : rd_safe (rret a).
Proof. intros r Hw. by apply later_refl. Qed.

Lemma safe_fail {A} : rd_safe (@rfail A).
Proof. intros r Hw. by apply later_refl. Qed.

Lemma safe_bind {A B} (m : Rd A) (f : A -> Rd B) :
  rd_safe m -> (forall a, rd_safe (f a)) -> rd_safe (rbind m f).
Proof.
  intros Hm Hf r Hw. unfold rbind. specialize (Hm r Hw).
  destruct (m r) as [[a|] r']; cbn [snd] in *; [|done].
  eapply later_trans; [exact Hm|]. apply Hf. apply Hm.
Qed.

Lemma safe_guard b : rd_safe (rguard b).
Proof. destruct b; [apply safe_ret|apply safe_fail]. Qed.

Lemma safe_read {A} n (g : Z -> A) :
  rd_safe (get (fun r => let (v, r') := read n r in (g v, r'))).
Proof.
  intros r Hw. unfold get. pose proof (read_later n r Hw) as H.
  by destruct (read n r) as [v r'].
Qed.

Lemma safe_u32 : rd_safe r_u32.
Proof. intros r Hw. unfold r_u32, get, u32. pose proof (read_later 4 r Hw) as H. by destruct (read 4 r). Qed.

Lemma safe_f32 : rd_safe r_f32.
Proof. exact safe_u32. Qed.

Lemma safe_u64 : rd_safe r_u64.
Proof. intros r Hw. unfold r_u64, get, u64. pose proof (read_later 8 r Hw) as H. by destruct (read 8 r). Qed.

Lemma safe_handle : rd_safe r_handle.
Proof. exact safe_u64. Qed.

Lemma safe_i32 : rd_safe r_i32.
Proof. apply (safe_read 4 to_i32). Qed.

Lemma safe_bytes max : rd_safe (r_bytes max).
Proof. intros r Hw. by apply bytes_later. Qed.

Lemma safe_string : rd_safe r_string.
Proof. intros r Hw. by apply bytes_later. Qed.

Lemma safe_ok : rd_safe r_ok.
Proof. intros r Hw. by apply later_refl. Qed.

Lemma safe_remaining : rd_safe r_remaining.
Proof. intros r Hw. by apply later_refl. Qed.

Lemma safe_for {A} n (m : Rd A) : rd_safe m -> rd_safe (rfor n m).
Proof.
  intros Hm. induction n as [|n IH]; [apply safe_ret|].
  cbn [rfor]. apply safe_bind; [done|]. intros x.
  apply safe_bind; [done|]. intros xs. apply safe_ret.
Qed.

Lemma safe_if {A} (b : bool) (m1 m2 : Rd A) :
  rd_safe m1 -> rd_safe m2 -> rd_safe (if b then m1 else m2).
Proof. by destruct b. Qed.

End Safe.

#[export] Hint Resolve safe_ret safe_fail safe_bind safe_guard safe_u32 safe_u64 safe_i32 safe_f32
  safe_handle safe_bytes safe_string safe_ok safe_remaining safe_for safe_if : rdsafe.

(** Discharges [rd_safe] of a decoder built from the primitives above and from
    decoders whose safety is in the [rdsafe] database. *)
Ltac rd_safe_tac :=
  repeat first
    [ progress intros
    | progress cbv beta zeta
    | solve [eauto 2 with rdsafe nocore]
    | apply safe_bind
    | apply safe_if
    | apply safe_for
    | match goal with |- rd_safe (match ?x with _ => _ end) => destruct x end ].

(** ** What a decoder that succeeds has established *)
Section Ensures.

Definition rd_ensures {A} (m : Rd A) (P : A -> Prop) : Prop :=
  forall r a r', m r = (Some a, r') -> P a.

Lemma ensures_intro {A} (m : Rd A) (P : A -> Prop) :
  (forall r a r', m r = (Some a, r') -> P a) -> rd_ensures m P.
Proof. done. Qed.

Lemma ensures_elim {A} (m : Rd A) (P : A -> Prop) r a r' :
  rd_ensures m P -> m r = (Some a, r') -> P a.
Proof. intros Hm. apply Hm. Qed.

Lemma ensures_spec {A} (m : Rd A) (P : A -> Prop) :
  rd_ensures m P -> forall r a r', m r = (Some a, r') -> P a.
Proof. done. Qed.

Lemma ensures_any {A} (m : Rd A) : rd_ensures m (fun _ => True).
Proof. done. Qed.

Lemma ensures_ret {A} (a : A) (P : A -> Prop) : P a -> rd_ensures (rret a) P.
Proof. by intros Ha r a' r' [= <- _]. Qed.

Lemma ensures_fail {A} (P : A -> Prop) : rd_ensures rfail P.
Proof. by intros r a r'. Qed.

Lemma ensures_bind {A B} (m : Rd A) (f : A -> Rd B) (Q : A -> Prop) (P : B -> Prop) :
  rd_ensures m Q -> (forall a, Q a -> rd_ensures (f a) P) -> rd_ensures (rbind m f) P.
Proof.
  intros Hm Hf r b r'. unfold rbind. destruct (m r) as [[a|] r1] eqn:Hr; [|done].
  intros Hb. by eapply Hf, Hb; eapply Hm.
Qed.

Lemma ensures_bind_assoc {A B C} (m : Rd A) (f : A -> Rd B) (g : B -> Rd C) (P : C -> Prop) :
  rd_ensures (rbind m (fun x => rbind (f x) g)) P -> rd_ensures (rbind (rbind m f) g) P.
Proof.
  intros Hm r c r' Hr. apply (Hm r c r'). revert Hr. unfold rbind. by destruct (m r) as [[a|] r1].
Qed.

Lemma ensures_ret_bind {A B} (a : A) (f : A -> Rd B) (P : B -> Prop) :
  rd_ensures (f a) P -> rd_ensures (rbind (rret a) f) P.
Proof. done. Qed.

(** A step whose result does not matter. *)
Lemma ensures_bind_any {A B} (m : Rd A) (f : A -> Rd B) (P : B -> Prop) :
  (forall a, rd_ensures (f a) P) -> rd_ensures (rbind m f) P.
Proof. intros Hf. by apply (ensures_bind m f (fun _ => True)). Qed.

Lemma ensures_bind_guard {B} (b : bool) (f : unit -> Rd B) (P : B -> Prop) :
  (b = true -> rd_ensures (f tt) P) -> rd_ensures (rbind (rguard b) f) P.
Proof.
  intros Hf r x r'. unfold rbind, rguard. destruct b; cbn; [|done]. by apply Hf.
Qed.

Lemma ensures_impl {A} (m : Rd A) (P Q : A -> Prop) :
  rd_ensures m P -> (forall a, P a -> Q a) -> rd_ensures m Q.
Proof. intros Hm HPQ r a r' Hr. by eapply HPQ, Hm. Qed.

Lemma ensures_if {A} (b : bool) (m1 m2 : Rd A) (P : A -> Prop) :
  (b = true -> rd_ensures m1 P) -> (b = false -> rd_ensures m2 P) ->
  rd_ensures (if b then m1 else m2) P.
Proof. by destruct b; auto. Qed.

Lemma ensures_for {A} n (m : Rd A) (P : A -> Prop) :
  rd_ensures m P -> rd_ensures (rfor n m) (fun xs => length xs = n /\ Forall P xs).
Proof.
  intros Hm. induction n as [|n IH]; cbn [rfor]; [by apply ensures_ret|].
  eapply ensures_bind; [exact Hm|]. intros x Hx.
  eapply ensures_bind; [exact IH|]. intros xs [Hl Hxs].
  apply ensures_ret. split; [cbn; lia|by constructor].
Qed.

Lemma ensures_for_length {A} n (m : Rd A) : rd_ensures (rfor n m) (fun xs => length xs = n).
Proof.
  eapply ensures_impl; [by apply (ensures_for n m (fun _ => True))|]. by intros xs [? _].
Qed.

End Ensures.

(** ** Automation for round trips

    [reads_tac] walks a decoder along the matching encoding: each primitive
    read consumes the next segment, guards are left as goals. *)
Ltac reads_prim :=
  first
    [ apply reads_u32 | apply reads_u64 | apply reads_i32 | apply reads_f32 | apply reads_handle
    | apply reads_bytes ].

Ltac reads_step :=
  match goal with
  | |- reads_at _ (rret _) [] _ => apply reads_ret
  | |- reads_at _ (rbind r_ok _) _ _ => eapply reads_bind_nil; [apply reads_ok|]
  | |- reads_at _ (rbind (rguard _) _) _ _ => eapply reads_bind_nil; [apply reads_guard|]
  | |- reads_at _ (rbind r_remaining _) _ _ => eapply reads_bind_nil; [apply reads_remaining|]
  | |- reads_at _ (rbind (rbind _ _) _) _ _ => fail
  | |- reads_at _ (rbind _ _) (_ ++ _) _ => eapply reads_bind; [reads_prim|]
  | |- reads_at _ (rbind _ _) _ _ => eapply reads_bind_last; [reads_prim|]
  end.

#[global] Opaque reads_at rd_ensures Writer.u32 Writer.u64 Writer.i32 Writer.f32 Writer.handle Writer.bytes
  Writer.string.
