(* ===== verification/CLayout.v ===== *)
(** The C++ object representation the raw-copied structs rely on: x86-64
    little-endian, natural alignment, padding bytes of unspecified content, and
    pointers as 8-byte addresses.

    A struct of the Vulkan headers is a record (VkStructs.v, VkCreateInfos.v,
    from the member lists of [registry/vk.xml]); [Pod] gives its raw image as
    the list of its scalar fields with their kinds. *)

From S2P Require Import Prelude Wire Codec.

(** ** Scalar kinds *)

Inductive kind := K8 | KU32 | KI32 | KU64.

Definition ksize (k : kind) : nat :=
  match k with K8 => 1 | KU32 => 4 | KI32 => 4 | KU64 => 8 end.

(** The values a scalar of the kind holds. *)
Definition kind_okb (k : kind) (v : Z) : bool :=
  match k with
  | K8 => (0 <=? v) && (v <? 256)
  | KU32 => (0 <=? v) && (v <? 4294967296)
  | KI32 => (-2147483648 <=? v) && (v <? 2147483648)
  | KU64 => (0 <=? v) && (v <? 18446744073709551616)
  end.

Fixpoint kinds_okb (ks : list kind) (vs : list Z) : bool :=
  match ks, vs with
  | [], [] => true
  | k :: ks', v :: vs' => kind_okb k v && kinds_okb ks' vs'
  | _, _ => false
  end.

Definition kvalue (k : kind) (bs : list byte) : Z :=
  match k with KI32 => to_i32 (le_value bs) | _ => le_value bs end.

(** ** Addresses and padding

    What the language leaves open: the content of padding bytes and the
    address of an object. *)
Class Abi := {
  pad_byte : nat -> byte;
  ref_addr : Z;
  ref_addr_ok : 0 < ref_addr < 18446744073709551616
}.

(** A pointer: null, an address that names no object of this process, or a
    valid pointer, identified with the object or array it points to. *)
Inductive ptr (A : Type) := Null | Wild (addr : Z) | Ref (x : A).
Arguments Null {A}.
Arguments Wild {A} addr.
Arguments Ref {A} x.

(** The pointee of a pointer whose type the code never dereferences. *)
Inductive void := opaque.

Definition ptr_addr `{Abi} {A} (p : ptr A) : Z :=
  match p with Null => 0 | Wild a => a | Ref _ => ref_addr end.

(** A pointer member filled from raw bytes. *)
Definition ptr_of_addr {A} (a : Z) : ptr A := if a =? 0 then Null else Wild a.

Definition is_null {A} (p : ptr A) : bool :=
  match p with Null => true | Wild a => a =? 0 | Ref _ => false end.

(** The pointer holds no object: its raw image determines it. *)
Definition ptr_flat {A} (p : ptr A) : Prop :=
  match p with Null => True | Wild a => a <> 0 | Ref _ => False end.

(** No address of another process. *)
Definition ptr_clean {A} (p : ptr A) : Prop :=
  match p with Wild _ => False | _ => True end.

Lemma ptr_of_addr_addr `{Abi} {A} (p : ptr A) : ptr_flat p -> ptr_of_addr (ptr_addr p) = p.
Proof.
  destruct p as [|a|x]; cbn; [done| |done]. intros Ha. unfold ptr_of_addr.
  by rewrite (proj2 (Z.eqb_neq _ _)).
Qed.

(** ** Layout *)
Section Layout.
Context `{Abi}.

(** Padding bytes needed at offset [off] for alignment [a]. *)
Definition padding (off a : nat) : nat := ((a - off mod a) mod a)%nat.

Fixpoint end_offset (off : nat) (ks : list kind) : nat :=
  match ks with
  | [] => off
  | k :: ks' => end_offset (off + padding off (ksize k) + ksize k) ks'
  end.

Definition struct_align (ks : list kind) : nat := foldr (fun k a => Nat.max (ksize k) a) 1%nat ks.

Definition sizeof (ks : list kind) : nat :=
  let e := end_offset 0 ks in (e + padding e (struct_align ks))%nat.

Definition pad (off n : nat) : list byte := map pad_byte (seq off n).

Fixpoint raw_fields (off : nat) (ks : list kind) (vs : list Z) : list byte :=
  match ks, vs with
  | k :: ks', v :: vs' =>
      let p := padding off (ksize k) in
      pad off p ++ le_bytes (ksize k) v ++ raw_fields (off + p + ksize k) ks' vs'
  | _, _ => []
  end.

(** The bytes of a struct in memory. *)
Definition raw_bytes (ks : list kind) (vs : list Z) : list byte :=
  let e := end_offset 0 ks in raw_fields 0 ks vs ++ pad e (padding e (struct_align ks)).

Fixpoint raw_values (off : nat) (ks : list kind) (bs : list byte) : list Z :=
  match ks with
  | [] => []
  | k :: ks' =>
      let p := padding off (ksize k) in
      let bs' := drop p bs in
      kvalue k (take (ksize k) bs') :: raw_values (off + p + ksize k) ks' (drop (ksize k) bs')
  end.

Lemma length_pad off n : length (pad off n) = n.
Proof. unfold pad. by rewrite length_map, length_seq. Qed.

Lemma kvalue_bytes k v : kind_okb k v = true -> kvalue k (le_bytes (ksize k) v) = v.
Proof.
  unfold kvalue, kind_okb. destruct k; intros Hv; bool_hyps; cbn [ksize].
  - rewrite le_value_le_bytes. by apply Z.mod_small.
  - by apply le_value_bytes4.
  - rewrite le_value_le_bytes. by apply to_i32_wrap.
  - by apply le_value_bytes8.
Qed.

Lemma length_raw_fields ks : forall off vs,
  length vs = length ks -> (off + length (raw_fields off ks vs) = end_offset off ks)%nat.
Proof.
  induction ks as [|k ks IH]; intros off [|v vs] Hl; cbn [length] in Hl; try lia.
  { apply Nat.add_0_r. }
  cbn [raw_fields end_offset]. rewrite <- (IH _ vs) by (cbn in Hl; lia).
  rewrite !length_app, length_pad, length_le_bytes. lia.
Qed.

Lemma length_raw_bytes ks vs : length vs = length ks -> length (raw_bytes ks vs) = sizeof ks.
Proof.
  intros Hl. unfold raw_bytes, sizeof. rewrite length_app, length_pad.
  pose proof (length_raw_fields ks 0 vs Hl). lia.
Qed.

Lemma kinds_okb_length ks vs : kinds_okb ks vs = true -> length vs = length ks.
Proof.
  revert vs. induction ks as [|k ks IH]; intros [|v vs]; cbn; try done.
  intros Hk. bool_hyps. f_equal. auto.
Qed.

Lemma raw_values_fields ks : forall off vs tl,
  kinds_okb ks vs = true -> raw_values off ks (raw_fields off ks vs ++ tl) = vs.
Proof.
  induction ks as [|k ks IH]; intros off [|v vs] tl Hk; try done.
  cbn [raw_fields raw_values kinds_okb] in *. bool_hyps.
  rewrite <- !app_assoc.
  rewrite (drop_app_length' (pad _ _)) by (by rewrite length_pad).
  rewrite (take_app_length' (le_bytes _ _)), (drop_app_length' (le_bytes _ _))
    by (by rewrite length_le_bytes).
  by rewrite kvalue_bytes, IH.
Qed.

Lemma raw_values_bytes ks vs : kinds_okb ks vs = true -> raw_values 0 ks (raw_bytes ks vs) = vs.
Proof. intros Hk. unfold raw_bytes. by apply raw_values_fields. Qed.

Lemma length_raw_values ks : forall off bs, length (raw_values off ks bs) = length ks.
Proof. induction ks as [|k ks IH]; intros off bs; [done|]. cbn. by rewrite IH. Qed.

Lemma kvalue_ok k bs : (length bs <= ksize k)%nat -> kind_okb k (kvalue k bs) = true.
Proof.
  intros Hl. pose proof (le_value_range bs) as Hr.
  assert (256 ^ Z.of_nat (length bs) <= 256 ^ Z.of_nat (ksize k)) as Hp
    by (apply Z.pow_le_mono_r; lia).
  pose proof (to_i32_range (le_value bs)) as Hs. unfold is_i32 in Hs.
  destruct k; cbn [kvalue kind_okb ksize] in *; apply andb_true_iff; split;
    try apply Z.leb_le; try apply Z.ltb_lt; lia.
Qed.

Lemma raw_values_ok ks : forall off bs, kinds_okb ks (raw_values off ks bs) = true.
Proof.
  induction ks as [|k ks IH]; intros off bs; [done|].
  cbn [raw_values kinds_okb]. rewrite IH, kvalue_ok; [done|]. rewrite length_take. lia.
Qed.

End Layout.

(** ** Trivially copyable structs *)

Class Pod (T : Type) := {
  pod_kinds : list kind;
  pod_to : forall `{Abi}, T -> list Z;
  pod_of : list Z -> T;
  (** No valid pointer inside: what a raw copy can transport. *)
  pod_flat : T -> Prop;
  pod_of_to : forall `{Abi} (s : T), pod_flat s -> pod_of (pod_to s) = s
}.

Section PodOps.
Context `{Abi} {T : Type} `{Pod T}.

(** Every scalar field is in the range of its C type. *)
Definition pod_okb (s : T) : bool := kinds_okb pod_kinds (pod_to s).

Definition pod_bytes (s : T) : list byte := raw_bytes pod_kinds (pod_to s).

Definition pod_size : nat := sizeof pod_kinds.

Definition pod_read (bs : list byte) : T := pod_of (raw_values 0 pod_kinds bs).

Lemma length_pod_bytes s : pod_okb s = true -> length (pod_bytes s) = pod_size.
Proof. intros Hs. apply length_raw_bytes. by apply kinds_okb_length. Qed.

Lemma pod_read_bytes s : pod_okb s = true -> pod_flat s -> pod_read (pod_bytes s) = s.
Proof.
  intros Hs Hf. unfold pod_read, pod_bytes. rewrite raw_values_bytes by done.
  by apply pod_of_to.
Qed.

End PodOps.

Arguments pod_size T {_}.

(** ** Scalars as array elements *)

Definition scalar_of (vs : list Z) : Z := match vs with v :: _ => v | [] => 0 end.

Program Definition pod_scalar (k : kind) : Pod Z := {|
  pod_kinds := [k];
  pod_to := fun _ v => [v];
  pod_of := scalar_of;
  pod_flat := fun _ => True
|}.
Next Obligation. done. Qed.

Definition pod_u32 : Pod Z := pod_scalar KU32.
Definition pod_i32 : Pod Z := pod_scalar KI32.
Definition pod_f32 : Pod Z := pod_scalar KU32.
Definition pod_u64 : Pod Z := pod_scalar KU64.
