(* ===== verification/VkStructs.v ===== *)
(** The structs of the Vulkan headers that the marshalling code copies or takes
    apart, member by member as [registry/vk.xml] declares them.

    A module per struct: its record [t], the value-initialised [zero], setters
    for the members the code assigns, and, for the structs the code copies as
    raw bytes, the scalar [kinds] of its members with the conversions to and
    from the list of scalars ([to_raw], [of_raw]) that make it a [Pod].

    Enums are [int32_t], flags and [VkBool32] [uint32_t], handles, sizes and
    pointers 64 bits wide, floats their bit patterns; a fixed-size array member
    is one field per element.  The structures of a pNext chain appear without
    their [sType] and [pNext] members, which the chain itself carries. *)

From S2P Require Import Prelude Wire CLayout.

(** Proof of the [of_raw]-[to_raw] law of a struct: take the record and its
    nested records apart, split the flatness hypotheses, and restore each
    pointer from its address. *)
Ltac split_flat :=
  repeat match goal with
  | H : ?P |- _ =>
      let P' := eval hnf in P in
      match P' with _ /\ _ => let H1 := fresh in let H2 := fresh in destruct H as [H1 H2] end
  end.

Ltac destruct_records :=
  repeat match goal with
  | x : ?T |- _ =>
      lazymatch T with
      | Z => fail | Abi => fail | ptr _ => fail | list _ => fail
      | _ => lazymatch type of T with Prop => fail | _ => destruct x end
      end
  end.

Ltac apply_of_raw :=
  destruct_records; split_flat; cbn in *;
  rewrite ?ptr_of_addr_addr by assumption; reflexivity.

(** [VkClearValue], a 16-byte union of 32-bit scalars. *)
Module VkClearValue.
Record t := mk { w0 : Z; w1 : Z; w2 : Z; w3 : Z }.
Definition zero : t := mk 0 0 0 0.
Definition kinds : list kind := [KU32; KU32; KU32; KU32].
Definition to_raw `{Abi} (s : t) : list Z := [w0 s; w1 s; w2 s; w3 s].
Definition of_raw (vs : list Z) : t :=
  match vs with [v0; v1; v2; v3] => mk v0 v1 v2 v3 | _ => zero end.
Definition flat (s : t) : Prop := True.
#[global] Program Instance pod : Pod t := {|
  pod_kinds := kinds; pod_to := @to_raw; pod_of := of_raw; pod_flat := flat |}.
Next Obligation. intros. by apply_of_raw. Qed.
End VkClearValue.

(** [VkExtent2D] *)
Module VkExtent2D.
Record t := mk {
  width : Z;
  height : Z
}.
Definition zero : t := mk
  0 0.
Definition kinds : list kind :=
  [KU32; KU32].
Definition to_raw `{Abi} (s : t) : list Z :=
  [width s; height s].
Definition of_raw (vs : list Z) : t :=
  match vs with
  | [v0; v1] =>
      mk v0 v1
  | _ => zero
  end.
Definition flat (s : t) : Prop := True.
#[global] Program Instance pod : Pod t := {|
  pod_kinds := kinds; pod_to := @to_raw; pod_of := of_raw; pod_flat := flat |}.
Next Obligation. intros. by apply_of_raw. Qed.
End VkExtent2D.

(** [VkExtent3D] *)
Module VkExtent3D.
Record t := mk {
  width : Z;
  height : Z;
  depth : Z
}.
Definition zero : t := mk
  0 0 0.
Definition kinds : list kind :=
  [KU32; KU32; KU32].
Definition to_raw `{Abi} (s : t) : list Z :=
  [width s; height s; depth s].
Definition of_raw (vs : list Z) : t :=
  match vs with
  | [v0; v1; v2] =>
      mk v0 v1 v2
  | _ => zero
  end.
Definition flat (s : t) : Prop := True.
#[global] Program Instance pod : Pod t := {|
  pod_kinds := kinds; pod_to := @to_raw; pod_of := of_raw; pod_flat := flat |}.
Next Obligation. intros. by apply_of_raw. Qed.
End VkExtent3D.

(** [VkOffset2D] *)
Module VkOffset2D.
Record t := mk {
  x : Z;
  y : Z
}.
Definition zero : t := mk
  0 0.
Definition kinds : list kind :=
  [KI32; KI32].
Definition to_raw `{Abi} (s : t) : list Z :=
  [x s; y s].
Definition of_raw (vs : list Z) : t :=
  match vs with
  | [v0; v1] =>
      mk v0 v1
  | _ => zero
  end.
Definition flat (s : t) : Prop := True.
#[global] Program Instance pod : Pod t := {|
  pod_kinds := kinds; pod_to := @to_raw; pod_of := of_raw; pod_flat := flat |}.
Next Obligation. intros. by apply_of_raw. Qed.
End VkOffset2D.

(** [VkOffset3D] *)
Module VkOffset3D.
Record t := mk {
  x : Z;
  y : Z;
  z : Z
}.
Definition zero : t := mk
  0 0 0.
Definition kinds : list kind :=
  [KI32; KI32; KI32].
Definition to_raw `{Abi} (s : t) : list Z :=
  [x s; y s; z s].
Definition of_raw (vs : list Z) : t :=
  match vs with
  | [v0; v1; v2] =>
      mk v0 v1 v2
  | _ => zero
  end.
Definition flat (s : t) : Prop := True.
#[global] Program Instance pod : Pod t := {|
  pod_kinds := kinds; pod_to := @to_raw; pod_of := of_raw; pod_flat := flat |}.
Next Obligation. intros. by apply_of_raw. Qed.
End VkOffset3D.

(** [VkComponentMapping] *)
Module VkComponentMapping.
Record t := mk {
  r : Z;
  g : Z;
  b : Z;
  a : Z
}.
Definition zero : t := mk
  0 0 0 0.
Definition kinds : list kind :=
  [KI32; KI32; KI32; KI32].
Definition to_raw `{Abi} (s : t) : list Z :=
  [r s; g s; b s; a s].
Definition of_raw (vs : list Z) : t :=
  match vs with
  | [v0; v1; v2; v3] =>
      mk v0 v1 v2 v3
  | _ => zero
  end.
Definition flat (s : t) : Prop := True.
#[global] Program Instance pod : Pod t := {|
  pod_kinds := kinds; pod_to := @to_raw; pod_of := of_raw; pod_flat := flat |}.
Next Obligation. intros. by apply_of_raw. Qed.
End VkComponentMapping.

(** [VkImageSubresourceRange] *)
Module VkImageSubresourceRange.
Record t := mk {
  aspectMask : Z;
  baseMipLevel : Z;
  levelCount : Z;
  baseArrayLayer : Z;
  layerCount : Z
}.
Definition zero : t := mk
  0 0 0 0 0.
Definition kinds : list kind :=
  [KU32; KU32; KU32; KU32; KU32].
Definition to_raw `{Abi} (s : t) : list Z :=
  [aspectMask s; baseMipLevel s; levelCount s; baseArrayLayer s; layerCount s].
Definition of_raw (vs : list Z) : t :=
  match vs with
  | [v0; v1; v2; v3; v4] =>
      mk v0 v1 v2 v3 v4
  | _ => zero
  end.
Definition flat (s : t) : Prop := True.
#[global] Program Instance pod : Pod t := {|
  pod_kinds := kinds; pod_to := @to_raw; pod_of := of_raw; pod_flat := flat |}.
Next Obligation. intros. by apply_of_raw. Qed.
End VkImageSubresourceRange.

(** [VkImageSubresourceLayers] *)
Module VkImageSubresourceLayers.
Record t := mk {
  aspectMask : Z;
  mipLevel : Z;
  baseArrayLayer : Z;
  layerCount : Z
}.
Definition zero : t := mk
  0 0 0 0.
Definition kinds : list kind :=
  [KU32; KU32; KU32; KU32].
Definition to_raw `{Abi} (s : t) : list Z :=
  [aspectMask s; mipLevel s; baseArrayLayer s; layerCount s].
Definition of_raw (vs : list Z) : t :=
  match vs with
  | [v0; v1; v2; v3] =>
      mk v0 v1 v2 v3
  | _ => zero
  end.
Definition flat (s : t) : Prop := True.
#[global] Program Instance pod : Pod t := {|
  pod_kinds := kinds; pod_to := @to_raw; pod_of := of_raw; pod_flat := flat |}.
Next Obligation. intros. by apply_of_raw. Qed.
End VkImageSubresourceLayers.

(** [VkStencilOpState] *)
Module VkStencilOpState.
Record t := mk {
  failOp : Z;
  passOp : Z;
  depthFailOp : Z;
  compareOp : Z;
  compareMask : Z;
  writeMask : Z;
  reference : Z
}.
Definition zero : t := mk
  0 0 0 0 0 0 0.
Definition kinds : list kind :=
  [KI32; KI32; KI32; KI32; KU32; KU32; KU32].
Definition to_raw `{Abi} (s : t) : list Z :=
  [failOp s; passOp s; depthFailOp s; compareOp s; compareMask s; writeMask s; reference s].
Definition of_raw (vs : list Z) : t :=
  match vs with
  | [v0; v1; v2; v3; v4; v5; v6] =>
      mk v0 v1 v2 v3 v4 v5 v6
  | _ => zero
  end.
Definition flat (s : t) : Prop := True.
#[global] Program Instance pod : Pod t := {|
  pod_kinds := kinds; pod_to := @to_raw; pod_of := of_raw; pod_flat := flat |}.
Next Obligation. intros. by apply_of_raw. Qed.
End VkStencilOpState.

(** [VkDeviceQueueCreateInfo] *)
Module VkDeviceQueueCreateInfo.
Record t := mk {
  sType : Z;
  pNext : ptr void;
  flags : Z;
  queueFamilyIndex : Z;
  queueCount : Z;
  pQueuePriorities : ptr (list Z)
}.
Definition zero : t := mk
  0 Null 0 0 0 Null.
Definition set_pNext (v : ptr void) (s : t) : t := mk
  (sType s) v (flags s) (queueFamilyIndex s) (queueCount s) (pQueuePriorities s).
Definition set_pQueuePriorities (v : ptr (list Z)) (s : t) : t := mk
  (sType s) (pNext s) (flags s) (queueFamilyIndex s) (queueCount s) v.
Definition kinds : list kind :=
  [KI32; KU64; KU32; KU32; KU32; KU64].
Definition to_raw `{Abi} (s : t) : list Z :=
  [sType s; ptr_addr (pNext s); flags s; queueFamilyIndex s; queueCount s; ptr_addr (pQueuePriorities s)].
Definition of_raw (vs : list Z) : t :=
  match vs with
  | [v0; v1; v2; v3; v4; v5] =>
      mk v0 (ptr_of_addr v1) v2 v3 v4 (ptr_of_addr v5)
  | _ => zero
  end.
Definition flat (s : t) : Prop :=
  ptr_flat (pNext s) /\ ptr_flat (pQueuePriorities s).
#[global] Program Instance pod : Pod t := {|
  pod_kinds := kinds; pod_to := @to_raw; pod_of := of_raw; pod_flat := flat |}.
Next Obligation. intros. by apply_of_raw. Qed.
End VkDeviceQueueCreateInfo.

(** [VkSwapchainCreateInfoKHR] *)
Module VkSwapchainCreateInfoKHR.
Record t := mk {
  sType : Z;
  pNext : ptr void;
  flags : Z;
  surface : Z;
  minImageCount : Z;
  imageFormat : Z;
  imageColorSpace : Z;
  imageExtent : VkExtent2D.t;
  imageArrayLayers : Z;
  imageUsage : Z;
  imageSharingMode : Z;
  queueFamilyIndexCount : Z;
  pQueueFamilyIndices : ptr (list Z);
  preTransform : Z;
  compositeAlpha : Z;
  presentMode : Z;
  clipped : Z;
  oldSwapchain : Z
}.
Definition zero : t := mk
  0 Null 0 0 0 0 0 VkExtent2D.zero 0 0 0 0 Null 0 0 0 0 0.
Definition set_pNext (v : ptr void) (s : t) : t := mk
  (sType s) v (flags s) (surface s) (minImageCount s) (imageFormat s) (imageColorSpace s)
  (imageExtent s) (imageArrayLayers s) (imageUsage s) (imageSharingMode s)
  (queueFamilyIndexCount s) (pQueueFamilyIndices s) (preTransform s) (compositeAlpha s)
  (presentMode s) (clipped s) (oldSwapchain s).
Definition set_pQueueFamilyIndices (v : ptr (list Z)) (s : t) : t := mk
  (sType s) (pNext s) (flags s) (surface s) (minImageCount s) (imageFormat s)
  (imageColorSpace s) (imageExtent s) (imageArrayLayers s) (imageUsage s) (imageSharingMode s)
  (queueFamilyIndexCount s) v (preTransform s) (compositeAlpha s) (presentMode s) (clipped s)
  (oldSwapchain s).
Definition set_surface (v : Z) (s : t) : t := mk
  (sType s) (pNext s) (flags s) v (minImageCount s) (imageFormat s) (imageColorSpace s)
  (imageExtent s) (imageArrayLayers s) (imageUsage s) (imageSharingMode s)
  (queueFamilyIndexCount s) (pQueueFamilyIndices s) (preTransform s) (compositeAlpha s)
  (presentMode s) (clipped s) (oldSwapchain s).
Definition set_oldSwapchain (v : Z) (s : t) : t := mk
  (sType s) (pNext s) (flags s) (surface s) (minImageCount s) (imageFormat s)
  (imageColorSpace s) (imageExtent s) (imageArrayLayers s) (imageUsage s) (imageSharingMode s)
  (queueFamilyIndexCount s) (pQueueFamilyIndices s) (preTransform s) (compositeAlpha s)
  (presentMode s) (clipped s) v.
Definition kinds : list kind :=
  [KI32; KU64; KU32; KU64; KU32; KI32; KI32; KU32; KU32; KU32; KU32; KI32; KU32; KU64; KU32; KU32; KI32; KU32; KU64].
Definition to_raw `{Abi} (s : t) : list Z :=
  [sType s; ptr_addr (pNext s); flags s; surface s; minImageCount s; imageFormat s; imageColorSpace s] ++
  VkExtent2D.to_raw (imageExtent s) ++
  [imageArrayLayers s; imageUsage s; imageSharingMode s; queueFamilyIndexCount s; ptr_addr (pQueueFamilyIndices s); preTransform s; compositeAlpha s; presentMode s; clipped s; oldSwapchain s].
Definition of_raw (vs : list Z) : t :=
  match vs with
  | [v0; v1; v2; v3; v4; v5; v6; v7; v8; v9; v10; v11; v12; v13; v14; v15; v16; v17; v18] =>
      mk v0 (ptr_of_addr v1) v2 v3 v4 v5 v6 (VkExtent2D.mk v7 v8) v9 v10 v11 v12
        (ptr_of_addr v13) v14 v15 v16 v17 v18
  | _ => zero
  end.
Definition flat (s : t) : Prop :=
  ptr_flat (pNext s) /\ ptr_flat (pQueueFamilyIndices s).
#[global] Program Instance pod : Pod t := {|
  pod_kinds := kinds; pod_to := @to_raw; pod_of := of_raw; pod_flat := flat |}.
Next Obligation. intros. by apply_of_raw. Qed.
End VkSwapchainCreateInfoKHR.

(** [VkAttachmentDescription] *)
Module VkAttachmentDescription.
Record t := mk {
  flags : Z;
  format : Z;
  samples : Z;
  loadOp : Z;
  storeOp : Z;
  stencilLoadOp : Z;
  stencilStoreOp : Z;
  initialLayout : Z;
  finalLayout : Z
}.
Definition zero : t := mk
  0 0 0 0 0 0 0 0 0.
Definition kinds : list kind :=
  [KU32; KI32; KU32] ++ replicate 6 KI32.
Definition to_raw `{Abi} (s : t) : list Z :=
  [flags s; format s; samples s; loadOp s; storeOp s; stencilLoadOp s; stencilStoreOp s; initialLayout s; finalLayout s].
Definition of_raw (vs : list Z) : t :=
  match vs with
  | [v0; v1; v2; v3; v4; v5; v6; v7; v8] =>
      mk v0 v1 v2 v3 v4 v5 v6 v7 v8
  | _ => zero
  end.
Definition flat (s : t) : Prop := True.
#[global] Program Instance pod : Pod t := {|
  pod_kinds := kinds; pod_to := @to_raw; pod_of := of_raw; pod_flat := flat |}.
Next Obligation. intros. by apply_of_raw. Qed.
End VkAttachmentDescription.

(** [VkAttachmentReference] *)
Module VkAttachmentReference.
Record t := mk {
  attachment : Z;
  layout : Z
}.
Definition zero : t := mk
  0 0.
Definition kinds : list kind :=
  [KU32; KI32].
Definition to_raw `{Abi} (s : t) : list Z :=
  [attachment s; layout s].
Definition of_raw (vs : list Z) : t :=
  match vs with
  | [v0; v1] =>
      mk v0 v1
  | _ => zero
  end.
Definition flat (s : t) : Prop := True.
#[global] Program Instance pod : Pod t := {|
  pod_kinds := kinds; pod_to := @to_raw; pod_of := of_raw; pod_flat := flat |}.
Next Obligation. intros. by apply_of_raw. Qed.
End VkAttachmentReference.

(** [VkSubpassDependency] *)
Module VkSubpassDependency.
Record t := mk {
  srcSubpass : Z;
  dstSubpass : Z;
  srcStageMask : Z;
  dstStageMask : Z;
  srcAccessMask : Z;
  dstAccessMask : Z;
  dependencyFlags : Z
}.
Definition zero : t := mk
  0 0 0 0 0 0 0.
Definition kinds : list kind :=
  replicate 7 KU32.
Definition to_raw `{Abi} (s : t) : list Z :=
  [srcSubpass s; dstSubpass s; srcStageMask s; dstStageMask s; srcAccessMask s; dstAccessMask s; dependencyFlags s].
Definition of_raw (vs : list Z) : t :=
  match vs with
  | [v0; v1; v2; v3; v4; v5; v6] =>
      mk v0 v1 v2 v3 v4 v5 v6
  | _ => zero
  end.
Definition flat (s : t) : Prop := True.
#[global] Program Instance pod : Pod t := {|
  pod_kinds := kinds; pod_to := @to_raw; pod_of := of_raw; pod_flat := flat |}.
Next Obligation. intros. by apply_of_raw. Qed.
End VkSubpassDependency.

(** [VkSubpassDescription] *)
Module VkSubpassDescription.
Record t := mk {
  flags : Z;
  pipelineBindPoint : Z;
  inputAttachmentCount : Z;
  pInputAttachments : ptr (list VkAttachmentReference.t);
  colorAttachmentCount : Z;
  pColorAttachments : ptr (list VkAttachmentReference.t);
  pResolveAttachments : ptr (list VkAttachmentReference.t);
  pDepthStencilAttachment : ptr VkAttachmentReference.t;
  preserveAttachmentCount : Z;
  pPreserveAttachments : ptr (list Z)
}.
Definition zero : t := mk
  0 0 0 Null 0 Null Null Null 0 Null.
Definition set_pInputAttachments (v : ptr (list VkAttachmentReference.t)) (s : t) : t := mk
  (flags s) (pipelineBindPoint s) (inputAttachmentCount s) v (colorAttachmentCount s)
  (pColorAttachments s) (pResolveAttachments s) (pDepthStencilAttachment s)
  (preserveAttachmentCount s) (pPreserveAttachments s).
Definition set_pColorAttachments (v : ptr (list VkAttachmentReference.t)) (s : t) : t := mk
  (flags s) (pipelineBindPoint s) (inputAttachmentCount s) (pInputAttachments s)
  (colorAttachmentCount s) v (pResolveAttachments s) (pDepthStencilAttachment s)
  (preserveAttachmentCount s) (pPreserveAttachments s).
Definition set_pResolveAttachments (v : ptr (list VkAttachmentReference.t)) (s : t) : t := mk
  (flags s) (pipelineBindPoint s) (inputAttachmentCount s) (pInputAttachments s)
  (colorAttachmentCount s) (pColorAttachments s) v (pDepthStencilAttachment s)
  (preserveAttachmentCount s) (pPreserveAttachments s).
Definition set_pDepthStencilAttachment (v : ptr VkAttachmentReference.t) (s : t) : t := mk
  (flags s) (pipelineBindPoint s) (inputAttachmentCount s) (pInputAttachments s)
  (colorAttachmentCount s) (pColorAttachments s) (pResolveAttachments s) v
  (preserveAttachmentCount s) (pPreserveAttachments s).
Definition set_pPreserveAttachments (v : ptr (list Z)) (s : t) : t := mk
  (flags s) (pipelineBindPoint s) (inputAttachmentCount s) (pInputAttachments s)
  (colorAttachmentCount s) (pColorAttachments s) (pResolveAttachments s)
  (pDepthStencilAttachment s) (preserveAttachmentCount s) v.
Definition kinds : list kind :=
  [KU32; KI32; KU32; KU64; KU32; KU64; KU64; KU64; KU32; KU64].
Definition to_raw `{Abi} (s : t) : list Z :=
  [flags s; pipelineBindPoint s; inputAttachmentCount s; ptr_addr (pInputAttachments s); colorAttachmentCount s; ptr_addr (pColorAttachments s); ptr_addr (pResolveAttachments s); ptr_addr (pDepthStencilAttachment s); preserveAttachmentCount s; ptr_addr (pPreserveAttachments s)].
Definition of_raw (vs : list Z) : t :=
  match vs with
  | [v0; v1; v2; v3; v4; v5; v6; v7; v8; v9] =>
      mk v0 v1 v2 (ptr_of_addr v3) v4 (ptr_of_addr v5) (ptr_of_addr v6) (ptr_of_addr v7) v8
        (ptr_of_addr v9)
  | _ => zero
  end.
Definition flat (s : t) : Prop :=
  ptr_flat (pInputAttachments s) /\ ptr_flat (pColorAttachments s) /\
  ptr_flat (pResolveAttachments s) /\ ptr_flat (pDepthStencilAttachment s) /\
  ptr_flat (pPreserveAttachments s).
#[global] Program Instance pod : Pod t := {|
  pod_kinds := kinds; pod_to := @to_raw; pod_of := of_raw; pod_flat := flat |}.
Next Obligation. intros. by apply_of_raw. Qed.
End VkSubpassDescription.

(** [VkPushConstantRange] *)
Module VkPushConstantRange.
Record t := mk {
  stageFlags : Z;
  offset : Z;
  size : Z
}.
Definition zero : t := mk
  0 0 0.
Definition kinds : list kind :=
  [KU32; KU32; KU32].
Definition to_raw `{Abi} (s : t) : list Z :=
  [stageFlags s; offset s; size s].
Definition of_raw (vs : list Z) : t :=
  match vs with
  | [v0; v1; v2] =>
      mk v0 v1 v2
  | _ => zero
  end.
Definition flat (s : t) : Prop := True.
#[global] Program Instance pod : Pod t := {|
  pod_kinds := kinds; pod_to := @to_raw; pod_of := of_raw; pod_flat := flat |}.
Next Obligation. intros. by apply_of_raw. Qed.
End VkPushConstantRange.

(** [VkPipelineLayoutCreateInfo] *)
Module VkPipelineLayoutCreateInfo.
Record t := mk {
  sType : Z;
  pNext : ptr void;
  flags : Z;
  setLayoutCount : Z;
  pSetLayouts : ptr (list Z);
  pushConstantRangeCount : Z;
  pPushConstantRanges : ptr (list VkPushConstantRange.t)
}.
Definition zero : t := mk
  0 Null 0 0 Null 0 Null.
Definition set_pNext (v : ptr void) (s : t) : t := mk
  (sType s) v (flags s) (setLayoutCount s) (pSetLayouts s) (pushConstantRangeCount s)
  (pPushConstantRanges s).
Definition set_pSetLayouts (v : ptr (list Z)) (s : t) : t := mk
  (sType s) (pNext s) (flags s) (setLayoutCount s) v (pushConstantRangeCount s)
  (pPushConstantRanges s).
Definition set_pPushConstantRanges (v : ptr (list VkPushConstantRange.t)) (s : t) : t := mk
  (sType s) (pNext s) (flags s) (setLayoutCount s) (pSetLayouts s) (pushConstantRangeCount s) v.
Definition kinds : list kind :=
  [KI32; KU64; KU32; KU32; KU64; KU32; KU64].
Definition to_raw `{Abi} (s : t) : list Z :=
  [sType s; ptr_addr (pNext s); flags s; setLayoutCount s; ptr_addr (pSetLayouts s); pushConstantRangeCount s; ptr_addr (pPushConstantRanges s)].
Definition of_raw (vs : list Z) : t :=
  match vs with
  | [v0; v1; v2; v3; v4; v5; v6] =>
      mk v0 (ptr_of_addr v1) v2 v3 (ptr_of_addr v4) v5 (ptr_of_addr v6)
  | _ => zero
  end.
Definition flat (s : t) : Prop :=
  ptr_flat (pNext s) /\ ptr_flat (pSetLayouts s) /\ ptr_flat (pPushConstantRanges s).
#[global] Program Instance pod : Pod t := {|
  pod_kinds := kinds; pod_to := @to_raw; pod_of := of_raw; pod_flat := flat |}.
Next Obligation. intros. by apply_of_raw. Qed.
End VkPipelineLayoutCreateInfo.

(** [VkSpecializationMapEntry] *)
Module VkSpecializationMapEntry.
Record t := mk {
  constantID : Z;
  offset : Z;
  size : Z
}.
Definition zero : t := mk
  0 0 0.
Definition kinds : list kind :=
  [KU32; KU32; KU64].
Definition to_raw `{Abi} (s : t) : list Z :=
  [constantID s; offset s; size s].
Definition of_raw (vs : list Z) : t :=
  match vs with
  | [v0; v1; v2] =>
      mk v0 v1 v2
  | _ => zero
  end.
Definition flat (s : t) : Prop := True.
#[global] Program Instance pod : Pod t := {|
  pod_kinds := kinds; pod_to := @to_raw; pod_of := of_raw; pod_flat := flat |}.
Next Obligation. intros. by apply_of_raw. Qed.
End VkSpecializationMapEntry.

(** [VkSpecializationInfo] *)
Module VkSpecializationInfo.
Record t := mk {
  mapEntryCount : Z;
  pMapEntries : ptr (list VkSpecializationMapEntry.t);
  dataSize : Z;
  pData : ptr (list byte)
}.
Definition zero : t := mk
  0 Null 0 Null.
Definition set_pMapEntries (v : ptr (list VkSpecializationMapEntry.t)) (s : t) : t := mk
  (mapEntryCount s) v (dataSize s) (pData s).
Definition set_pData (v : ptr (list byte)) (s : t) : t := mk
  (mapEntryCount s) (pMapEntries s) (dataSize s) v.
Definition kinds : list kind :=
  [KU32; KU64; KU64; KU64].
Definition to_raw `{Abi} (s : t) : list Z :=
  [mapEntryCount s; ptr_addr (pMapEntries s); dataSize s; ptr_addr (pData s)].
Definition of_raw (vs : list Z) : t :=
  match vs with
  | [v0; v1; v2; v3] =>
      mk v0 (ptr_of_addr v1) v2 (ptr_of_addr v3)
  | _ => zero
  end.
Definition flat (s : t) : Prop :=
  ptr_flat (pMapEntries s) /\ ptr_flat (pData s).
#[global] Program Instance pod : Pod t := {|
  pod_kinds := kinds; pod_to := @to_raw; pod_of := of_raw; pod_flat := flat |}.
Next Obligation. intros. by apply_of_raw. Qed.
End VkSpecializationInfo.

(** [VkPipelineShaderStageCreateInfo] *)
Module VkPipelineShaderStageCreateInfo.
Record t := mk {
  sType : Z;
  pNext : ptr void;
  flags : Z;
  stage : Z;
  module : Z;
  pName : ptr (list byte);
  pSpecializationInfo : ptr VkSpecializationInfo.t
}.
Definition zero : t := mk
  0 Null 0 0 0 Null Null.
Definition set_pNext (v : ptr void) (s : t) : t := mk
  (sType s) v (flags s) (stage s) (module s) (pName s) (pSpecializationInfo s).
Definition set_pName (v : ptr (list byte)) (s : t) : t := mk
  (sType s) (pNext s) (flags s) (stage s) (module s) v (pSpecializationInfo s).
Definition set_pSpecializationInfo (v : ptr VkSpecializationInfo.t) (s : t) : t := mk
  (sType s) (pNext s) (flags s) (stage s) (module s) (pName s) v.
Definition set_module (v : Z) (s : t) : t := mk
  (sType s) (pNext s) (flags s) (stage s) v (pName s) (pSpecializationInfo s).
Definition kinds : list kind :=
  [KI32; KU64; KU32; KU32; KU64; KU64; KU64].
Definition to_raw `{Abi} (s : t) : list Z :=
  [sType s; ptr_addr (pNext s); flags s; stage s; module s; ptr_addr (pName s); ptr_addr (pSpecializationInfo s)].
Definition of_raw (vs : list Z) : t :=
  match vs with
  | [v0; v1; v2; v3; v4; v5; v6] =>
      mk v0 (ptr_of_addr v1) v2 v3 v4 (ptr_of_addr v5) (ptr_of_addr v6)
  | _ => zero
  end.
Definition flat (s : t) : Prop :=
  ptr_flat (pNext s) /\ ptr_flat (pName s) /\ ptr_flat (pSpecializationInfo s).
#[global] Program Instance pod : Pod t := {|
  pod_kinds := kinds; pod_to := @to_raw; pod_of := of_raw; pod_flat := flat |}.
Next Obligation. intros. by apply_of_raw. Qed.
End VkPipelineShaderStageCreateInfo.

(** [VkVertexInputBindingDescription] *)
Module VkVertexInputBindingDescription.
Record t := mk {
  binding : Z;
  stride : Z;
  inputRate : Z
}.
Definition zero : t := mk
  0 0 0.
Definition kinds : list kind :=
  [KU32; KU32; KI32].
Definition to_raw `{Abi} (s : t) : list Z :=
  [binding s; stride s; inputRate s].
Definition of_raw (vs : list Z) : t :=
  match vs with
  | [v0; v1; v2] =>
      mk v0 v1 v2
  | _ => zero
  end.
Definition flat (s : t) : Prop := True.
#[global] Program Instance pod : Pod t := {|
  pod_kinds := kinds; pod_to := @to_raw; pod_of := of_raw; pod_flat := flat |}.
Next Obligation. intros. by apply_of_raw. Qed.
End VkVertexInputBindingDescription.

(** [VkVertexInputAttributeDescription] *)
Module VkVertexInputAttributeDescription.
Record t := mk {
  location : Z;
  binding : Z;
  format : Z;
  offset : Z
}.
Definition zero : t := mk
  0 0 0 0.
Definition kinds : list kind :=
  [KU32; KU32; KI32; KU32].
Definition to_raw `{Abi} (s : t) : list Z :=
  [location s; binding s; format s; offset s].
Definition of_raw (vs : list Z) : t :=
  match vs with
  | [v0; v1; v2; v3] =>
      mk v0 v1 v2 v3
  | _ => zero
  end.
Definition flat (s : t) : Prop := True.
#[global] Program Instance pod : Pod t := {|
  pod_kinds := kinds; pod_to := @to_raw; pod_of := of_raw; pod_flat := flat |}.
Next Obligation. intros. by apply_of_raw. Qed.
End VkVertexInputAttributeDescription.

(** [VkPipelineVertexInputStateCreateInfo] *)
Module VkPipelineVertexInputStateCreateInfo.
Record t := mk {
  sType : Z;
  pNext : ptr void;
  flags : Z;
  vertexBindingDescriptionCount : Z;
  pVertexBindingDescriptions : ptr (list VkVertexInputBindingDescription.t);
  vertexAttributeDescriptionCount : Z;
  pVertexAttributeDescriptions : ptr (list VkVertexInputAttributeDescription.t)
}.
Definition zero : t := mk
  0 Null 0 0 Null 0 Null.
Definition set_pNext (v : ptr void) (s : t) : t := mk
  (sType s) v (flags s) (vertexBindingDescriptionCount s) (pVertexBindingDescriptions s)
  (vertexAttributeDescriptionCount s) (pVertexAttributeDescriptions s).
Definition set_pVertexBindingDescriptions (v : ptr (list VkVertexInputBindingDescription.t)) (s : t) : t := mk
  (sType s) (pNext s) (flags s) (vertexBindingDescriptionCount s) v
  (vertexAttributeDescriptionCount s) (pVertexAttributeDescriptions s).
Definition set_pVertexAttributeDescriptions (v : ptr (list VkVertexInputAttributeDescription.t)) (s : t) : t := mk
  (sType s) (pNext s) (flags s) (vertexBindingDescriptionCount s)
  (pVertexBindingDescriptions s) (vertexAttributeDescriptionCount s) v.
Definition kinds : list kind :=
  [KI32; KU64; KU32; KU32; KU64; KU32; KU64].
Definition to_raw `{Abi} (s : t) : list Z :=
  [sType s; ptr_addr (pNext s); flags s; vertexBindingDescriptionCount s; ptr_addr (pVertexBindingDescriptions s); vertexAttributeDescriptionCount s; ptr_addr (pVertexAttributeDescriptions s)].
Definition of_raw (vs : list Z) : t :=
  match vs with
  | [v0; v1; v2; v3; v4; v5; v6] =>
      mk v0 (ptr_of_addr v1) v2 v3 (ptr_of_addr v4) v5 (ptr_of_addr v6)
  | _ => zero
  end.
Definition flat (s : t) : Prop :=
  ptr_flat (pNext s) /\ ptr_flat (pVertexBindingDescriptions s) /\
  ptr_flat (pVertexAttributeDescriptions s).
#[global] Program Instance pod : Pod t := {|
  pod_kinds := kinds; pod_to := @to_raw; pod_of := of_raw; pod_flat := flat |}.
Next Obligation. intros. by apply_of_raw. Qed.
End VkPipelineVertexInputStateCreateInfo.

(** [VkPipelineInputAssemblyStateCreateInfo] *)
Module VkPipelineInputAssemblyStateCreateInfo.
Record t := mk {
  sType : Z;
  pNext : ptr void;
  flags : Z;
  topology : Z;
  primitiveRestartEnable : Z
}.
Definition zero : t := mk
  0 Null 0 0 0.
Definition kinds : list kind :=
  [KI32; KU64; KU32; KI32; KU32].
Definition to_raw `{Abi} (s : t) : list Z :=
  [sType s; ptr_addr (pNext s); flags s; topology s; primitiveRestartEnable s].
Definition of_raw (vs : list Z) : t :=
  match vs with
  | [v0; v1; v2; v3; v4] =>
      mk v0 (ptr_of_addr v1) v2 v3 v4
  | _ => zero
  end.
Definition flat (s : t) : Prop :=
  ptr_flat (pNext s).
#[global] Program Instance pod : Pod t := {|
  pod_kinds := kinds; pod_to := @to_raw; pod_of := of_raw; pod_flat := flat |}.
Next Obligation. intros. by apply_of_raw. Qed.
End VkPipelineInputAssemblyStateCreateInfo.

(** [VkViewport] *)
Module VkViewport.
Record t := mk {
  x : Z;
  y : Z;
  width : Z;
  height : Z;
  minDepth : Z;
  maxDepth : Z
}.
Definition zero : t := mk
  0 0 0 0 0 0.
Definition kinds : list kind :=
  replicate 6 KU32.
Definition to_raw `{Abi} (s : t) : list Z :=
  [x s; y s; width s; height s; minDepth s; maxDepth s].
Definition of_raw (vs : list Z) : t :=
  match vs with
  | [v0; v1; v2; v3; v4; v5] =>
      mk v0 v1 v2 v3 v4 v5
  | _ => zero
  end.
Definition flat (s : t) : Prop := True.
#[global] Program Instance pod : Pod t := {|
  pod_kinds := kinds; pod_to := @to_raw; pod_of := of_raw; pod_flat := flat |}.
Next Obligation. intros. by apply_of_raw. Qed.
End VkViewport.

(** [VkRect2D] *)
Module VkRect2D.
Record t := mk {
  offset : VkOffset2D.t;
  extent : VkExtent2D.t
}.
Definition zero : t := mk
  VkOffset2D.zero VkExtent2D.zero.
Definition kinds : list kind :=
  [KI32; KI32; KU32; KU32].
Definition to_raw `{Abi} (s : t) : list Z :=
  VkOffset2D.to_raw (offset s) ++ VkExtent2D.to_raw (extent s).
Definition of_raw (vs : list Z) : t :=
  match vs with
  | [v0; v1; v2; v3] =>
      mk (VkOffset2D.mk v0 v1) (VkExtent2D.mk v2 v3)
  | _ => zero
  end.
Definition flat (s : t) : Prop := True.
#[global] Program Instance pod : Pod t := {|
  pod_kinds := kinds; pod_to := @to_raw; pod_of := of_raw; pod_flat := flat |}.
Next Obligation. intros. by apply_of_raw. Qed.
End VkRect2D.

(** [VkPipelineViewportStateCreateInfo] *)
Module VkPipelineViewportStateCreateInfo.
Record t := mk {
  sType : Z;
  pNext : ptr void;
  flags : Z;
  viewportCount : Z;
  pViewports : ptr (list VkViewport.t);
  scissorCount : Z;
  pScissors : ptr (list VkRect2D.t)
}.
Definition zero : t := mk
  0 Null 0 0 Null 0 Null.
Definition set_pNext (v : ptr void) (s : t) : t := mk
  (sType s) v (flags s) (viewportCount s) (pViewports s) (scissorCount s) (pScissors s).
Definition set_pViewports (v : ptr (list VkViewport.t)) (s : t) : t := mk
  (sType s) (pNext s) (flags s) (viewportCount s) v (scissorCount s) (pScissors s).
Definition set_pScissors (v : ptr (list VkRect2D.t)) (s : t) : t := mk
  (sType s) (pNext s) (flags s) (viewportCount s) (pViewports s) (scissorCount s) v.
Definition kinds : list kind :=
  [KI32; KU64; KU32; KU32; KU64; KU32; KU64].
Definition to_raw `{Abi} (s : t) : list Z :=
  [sType s; ptr_addr (pNext s); flags s; viewportCount s; ptr_addr (pViewports s); scissorCount s; ptr_addr (pScissors s)].
Definition of_raw (vs : list Z) : t :=
  match vs with
  | [v0; v1; v2; v3; v4; v5; v6] =>
      mk v0 (ptr_of_addr v1) v2 v3 (ptr_of_addr v4) v5 (ptr_of_addr v6)
  | _ => zero
  end.
Definition flat (s : t) : Prop :=
  ptr_flat (pNext s) /\ ptr_flat (pViewports s) /\ ptr_flat (pScissors s).
#[global] Program Instance pod : Pod t := {|
  pod_kinds := kinds; pod_to := @to_raw; pod_of := of_raw; pod_flat := flat |}.
Next Obligation. intros. by apply_of_raw. Qed.
End VkPipelineViewportStateCreateInfo.

(** [VkPipelineRasterizationStateCreateInfo] *)
Module VkPipelineRasterizationStateCreateInfo.
Record t := mk {
  sType : Z;
  pNext : ptr void;
  flags : Z;
  depthClampEnable : Z;
  rasterizerDiscardEnable : Z;
  polygonMode : Z;
  cullMode : Z;
  frontFace : Z;
  depthBiasEnable : Z;
  depthBiasConstantFactor : Z;
  depthBiasClamp : Z;
  depthBiasSlopeFactor : Z;
  lineWidth : Z
}.
Definition zero : t := mk
  0 Null 0 0 0 0 0 0 0 0 0 0 0.
Definition kinds : list kind :=
  [KI32; KU64; KU32; KU32; KU32; KI32; KU32; KI32; KU32; KU32; KU32; KU32; KU32].
Definition to_raw `{Abi} (s : t) : list Z :=
  [sType s; ptr_addr (pNext s); flags s; depthClampEnable s; rasterizerDiscardEnable s; polygonMode s; cullMode s; frontFace s; depthBiasEnable s; depthBiasConstantFactor s; depthBiasClamp s; depthBiasSlopeFactor s; lineWidth s].
Definition of_raw (vs : list Z) : t :=
  match vs with
  | [v0; v1; v2; v3; v4; v5; v6; v7; v8; v9; v10; v11; v12] =>
      mk v0 (ptr_of_addr v1) v2 v3 v4 v5 v6 v7 v8 v9 v10 v11 v12
  | _ => zero
  end.
Definition flat (s : t) : Prop :=
  ptr_flat (pNext s).
#[global] Program Instance pod : Pod t := {|
  pod_kinds := kinds; pod_to := @to_raw; pod_of := of_raw; pod_flat := flat |}.
Next Obligation. intros. by apply_of_raw. Qed.
End VkPipelineRasterizationStateCreateInfo.

(** [VkPipelineMultisampleStateCreateInfo] *)
Module VkPipelineMultisampleStateCreateInfo.
Record t := mk {
  sType : Z;
  pNext : ptr void;
  flags : Z;
  rasterizationSamples : Z;
  sampleShadingEnable : Z;
  minSampleShading : Z;
  pSampleMask : ptr (list Z);
  alphaToCoverageEnable : Z;
  alphaToOneEnable : Z
}.
Definition zero : t := mk
  0 Null 0 0 0 0 Null 0 0.
Definition set_pNext (v : ptr void) (s : t) : t := mk
  (sType s) v (flags s) (rasterizationSamples s) (sampleShadingEnable s) (minSampleShading s)
  (pSampleMask s) (alphaToCoverageEnable s) (alphaToOneEnable s).
Definition set_pSampleMask (v : ptr (list Z)) (s : t) : t := mk
  (sType s) (pNext s) (flags s) (rasterizationSamples s) (sampleShadingEnable s)
  (minSampleShading s) v (alphaToCoverageEnable s) (alphaToOneEnable s).
Definition kinds : list kind :=
  [KI32; KU64; KU32; KU32; KU32; KU32; KU64; KU32; KU32].
Definition to_raw `{Abi} (s : t) : list Z :=
  [sType s; ptr_addr (pNext s); flags s; rasterizationSamples s; sampleShadingEnable s; minSampleShading s; ptr_addr (pSampleMask s); alphaToCoverageEnable s; alphaToOneEnable s].
Definition of_raw (vs : list Z) : t :=
  match vs with
  | [v0; v1; v2; v3; v4; v5; v6; v7; v8] =>
      mk v0 (ptr_of_addr v1) v2 v3 v4 v5 (ptr_of_addr v6) v7 v8
  | _ => zero
  end.
Definition flat (s : t) : Prop :=
  ptr_flat (pNext s) /\ ptr_flat (pSampleMask s).
#[global] Program Instance pod : Pod t := {|
  pod_kinds := kinds; pod_to := @to_raw; pod_of := of_raw; pod_flat := flat |}.
Next Obligation. intros. by apply_of_raw. Qed.
End VkPipelineMultisampleStateCreateInfo.

(** [VkPipelineDepthStencilStateCreateInfo] *)
Module VkPipelineDepthStencilStateCreateInfo.
Record t := mk {
  sType : Z;
  pNext : ptr void;
  flags : Z;
  depthTestEnable : Z;
  depthWriteEnable : Z;
  depthCompareOp : Z;
  depthBoundsTestEnable : Z;
  stencilTestEnable : Z;
  front : VkStencilOpState.t;
  back : VkStencilOpState.t;
  minDepthBounds : Z;
  maxDepthBounds : Z
}.
Definition zero : t := mk
  0 Null 0 0 0 0 0 0 VkStencilOpState.zero VkStencilOpState.zero 0 0.
Definition kinds : list kind :=
  [KI32; KU64; KU32; KU32; KU32; KI32; KU32; KU32; KI32; KI32; KI32; KI32; KU32; KU32; KU32; KI32; KI32; KI32; KI32; KU32; KU32; KU32; KU32; KU32].
Definition to_raw `{Abi} (s : t) : list Z :=
  [sType s; ptr_addr (pNext s); flags s; depthTestEnable s; depthWriteEnable s; depthCompareOp s; depthBoundsTestEnable s; stencilTestEnable s] ++
  VkStencilOpState.to_raw (front s) ++ VkStencilOpState.to_raw (back s) ++
  [minDepthBounds s; maxDepthBounds s].
Definition of_raw (vs : list Z) : t :=
  match vs with
  | [v0; v1; v2; v3; v4; v5; v6; v7; v8; v9; v10; v11; v12; v13; v14; v15; v16; v17; v18; v19;
    v20; v21; v22; v23] =>
      mk v0 (ptr_of_addr v1) v2 v3 v4 v5 v6 v7 (VkStencilOpState.mk v8 v9 v10 v11 v12 v13 v14)
        (VkStencilOpState.mk v15 v16 v17 v18 v19 v20 v21) v22 v23
  | _ => zero
  end.
Definition flat (s : t) : Prop :=
  ptr_flat (pNext s).
#[global] Program Instance pod : Pod t := {|
  pod_kinds := kinds; pod_to := @to_raw; pod_of := of_raw; pod_flat := flat |}.
Next Obligation. intros. by apply_of_raw. Qed.
End VkPipelineDepthStencilStateCreateInfo.

(** [VkPipelineColorBlendAttachmentState] *)
Module VkPipelineColorBlendAttachmentState.
Record t := mk {
  blendEnable : Z;
  srcColorBlendFactor : Z;
  dstColorBlendFactor : Z;
  colorBlendOp : Z;
  srcAlphaBlendFactor : Z;
  dstAlphaBlendFactor : Z;
  alphaBlendOp : Z;
  colorWriteMask : Z
}.
Definition zero : t := mk
  0 0 0 0 0 0 0 0.
Definition kinds : list kind :=
  [KU32] ++ replicate 6 KI32 ++ [KU32].
Definition to_raw `{Abi} (s : t) : list Z :=
  [blendEnable s; srcColorBlendFactor s; dstColorBlendFactor s; colorBlendOp s; srcAlphaBlendFactor s; dstAlphaBlendFactor s; alphaBlendOp s; colorWriteMask s].
Definition of_raw (vs : list Z) : t :=
  match vs with
  | [v0; v1; v2; v3; v4; v5; v6; v7] =>
      mk v0 v1 v2 v3 v4 v5 v6 v7
  | _ => zero
  end.
Definition flat (s : t) : Prop := True.
#[global] Program Instance pod : Pod t := {|
  pod_kinds := kinds; pod_to := @to_raw; pod_of := of_raw; pod_flat := flat |}.
Next Obligation. intros. by apply_of_raw. Qed.
End VkPipelineColorBlendAttachmentState.

(** [VkPipelineColorBlendStateCreateInfo] *)
Module VkPipelineColorBlendStateCreateInfo.
Record t := mk {
  sType : Z;
  pNext : ptr void;
  flags : Z;
  logicOpEnable : Z;
  logicOp : Z;
  attachmentCount : Z;
  pAttachments : ptr (list VkPipelineColorBlendAttachmentState.t);
  blendConstants_0 : Z;
  blendConstants_1 : Z;
  blendConstants_2 : Z;
  blendConstants_3 : Z
}.
Definition zero : t := mk
  0 Null 0 0 0 0 Null 0 0 0 0.
Definition set_pNext (v : ptr void) (s : t) : t := mk
  (sType s) v (flags s) (logicOpEnable s) (logicOp s) (attachmentCount s) (pAttachments s)
  (blendConstants_0 s) (blendConstants_1 s) (blendConstants_2 s) (blendConstants_3 s).
Definition set_pAttachments (v : ptr (list VkPipelineColorBlendAttachmentState.t)) (s : t) : t := mk
  (sType s) (pNext s) (flags s) (logicOpEnable s) (logicOp s) (attachmentCount s) v
  (blendConstants_0 s) (blendConstants_1 s) (blendConstants_2 s) (blendConstants_3 s).
Definition kinds : list kind :=
  [KI32; KU64; KU32; KU32; KI32; KU32; KU64; KU32; KU32; KU32; KU32].
Definition to_raw `{Abi} (s : t) : list Z :=
  [sType s; ptr_addr (pNext s); flags s; logicOpEnable s; logicOp s; attachmentCount s; ptr_addr (pAttachments s); blendConstants_0 s; blendConstants_1 s; blendConstants_2 s; blendConstants_3 s].
Definition of_raw (vs : list Z) : t :=
  match vs with
  | [v0; v1; v2; v3; v4; v5; v6; v7; v8; v9; v10] =>
      mk v0 (ptr_of_addr v1) v2 v3 v4 v5 (ptr_of_addr v6) v7 v8 v9 v10
  | _ => zero
  end.
Definition flat (s : t) : Prop :=
  ptr_flat (pNext s) /\ ptr_flat (pAttachments s).
#[global] Program Instance pod : Pod t := {|
  pod_kinds := kinds; pod_to := @to_raw; pod_of := of_raw; pod_flat := flat |}.
Next Obligation. intros. by apply_of_raw. Qed.
End VkPipelineColorBlendStateCreateInfo.

(** [VkPipelineDynamicStateCreateInfo] *)
Module VkPipelineDynamicStateCreateInfo.
Record t := mk {
  sType : Z;
  pNext : ptr void;
  flags : Z;
  dynamicStateCount : Z;
  pDynamicStates : ptr (list Z)
}.
Definition zero : t := mk
  0 Null 0 0 Null.
Definition set_pNext (v : ptr void) (s : t) : t := mk
  (sType s) v (flags s) (dynamicStateCount s) (pDynamicStates s).
Definition set_pDynamicStates (v : ptr (list Z)) (s : t) : t := mk
  (sType s) (pNext s) (flags s) (dynamicStateCount s) v.
Definition kinds : list kind :=
  [KI32; KU64; KU32; KU32; KU64].
Definition to_raw `{Abi} (s : t) : list Z :=
  [sType s; ptr_addr (pNext s); flags s; dynamicStateCount s; ptr_addr (pDynamicStates s)].
Definition of_raw (vs : list Z) : t :=
  match vs with
  | [v0; v1; v2; v3; v4] =>
      mk v0 (ptr_of_addr v1) v2 v3 (ptr_of_addr v4)
  | _ => zero
  end.
Definition flat (s : t) : Prop :=
  ptr_flat (pNext s) /\ ptr_flat (pDynamicStates s).
#[global] Program Instance pod : Pod t := {|
  pod_kinds := kinds; pod_to := @to_raw; pod_of := of_raw; pod_flat := flat |}.
Next Obligation. intros. by apply_of_raw. Qed.
End VkPipelineDynamicStateCreateInfo.

(** [VkComputePipelineCreateInfo] *)
Module VkComputePipelineCreateInfo.
Record t := mk {
  sType : Z;
  pNext : ptr void;
  flags : Z;
  stage : VkPipelineShaderStageCreateInfo.t;
  layout : Z;
  basePipelineHandle : Z;
  basePipelineIndex : Z
}.
Definition zero : t := mk
  0 Null 0 VkPipelineShaderStageCreateInfo.zero 0 0 0.
Definition set_pNext (v : ptr void) (s : t) : t := mk
  (sType s) v (flags s) (stage s) (layout s) (basePipelineHandle s) (basePipelineIndex s).
Definition set_stage (v : VkPipelineShaderStageCreateInfo.t) (s : t) : t := mk
  (sType s) (pNext s) (flags s) v (layout s) (basePipelineHandle s) (basePipelineIndex s).
Definition set_layout (v : Z) (s : t) : t := mk
  (sType s) (pNext s) (flags s) (stage s) v (basePipelineHandle s) (basePipelineIndex s).
Definition set_basePipelineHandle (v : Z) (s : t) : t := mk
  (sType s) (pNext s) (flags s) (stage s) (layout s) v (basePipelineIndex s).
Definition kinds : list kind :=
  [KI32; KU64; KU32; KI32; KU64; KU32; KU32; KU64; KU64; KU64; KU64; KU64; KI32].
Definition to_raw `{Abi} (s : t) : list Z :=
  [sType s; ptr_addr (pNext s); flags s] ++ VkPipelineShaderStageCreateInfo.to_raw (stage s) ++
  [layout s; basePipelineHandle s; basePipelineIndex s].
Definition of_raw (vs : list Z) : t :=
  match vs with
  | [v0; v1; v2; v3; v4; v5; v6; v7; v8; v9; v10; v11; v12] =>
      mk v0 (ptr_of_addr v1) v2
        (VkPipelineShaderStageCreateInfo.mk v3 (ptr_of_addr v4) v5 v6 v7 (ptr_of_addr v8) (ptr_of_addr v9))
        v10 v11 v12
  | _ => zero
  end.
Definition flat (s : t) : Prop :=
  ptr_flat (pNext s) /\ VkPipelineShaderStageCreateInfo.flat (stage s).
#[global] Program Instance pod : Pod t := {|
  pod_kinds := kinds; pod_to := @to_raw; pod_of := of_raw; pod_flat := flat |}.
Next Obligation. intros. by apply_of_raw. Qed.
End VkComputePipelineCreateInfo.

(** [VkCommandBufferAllocateInfo] *)
Module VkCommandBufferAllocateInfo.
Record t := mk {
  sType : Z;
  pNext : ptr void;
  commandPool : Z;
  level : Z;
  commandBufferCount : Z
}.
Definition zero : t := mk
  0 Null 0 0 0.
Definition set_pNext (v : ptr void) (s : t) : t := mk
  (sType s) v (commandPool s) (level s) (commandBufferCount s).
Definition set_commandPool (v : Z) (s : t) : t := mk
  (sType s) (pNext s) v (level s) (commandBufferCount s).
Definition kinds : list kind :=
  [KI32; KU64; KU64; KI32; KU32].
Definition to_raw `{Abi} (s : t) : list Z :=
  [sType s; ptr_addr (pNext s); commandPool s; level s; commandBufferCount s].
Definition of_raw (vs : list Z) : t :=
  match vs with
  | [v0; v1; v2; v3; v4] =>
      mk v0 (ptr_of_addr v1) v2 v3 v4
  | _ => zero
  end.
Definition flat (s : t) : Prop :=
  ptr_flat (pNext s).
#[global] Program Instance pod : Pod t := {|
  pod_kinds := kinds; pod_to := @to_raw; pod_of := of_raw; pod_flat := flat |}.
Next Obligation. intros. by apply_of_raw. Qed.
End VkCommandBufferAllocateInfo.

(** [VkDescriptorSetLayoutBinding] *)
Module VkDescriptorSetLayoutBinding.
Record t := mk {
  binding : Z;
  descriptorType : Z;
  descriptorCount : Z;
  stageFlags : Z;
  pImmutableSamplers : ptr (list Z)
}.
Definition zero : t := mk
  0 0 0 0 Null.
Definition set_pImmutableSamplers (v : ptr (list Z)) (s : t) : t := mk
  (binding s) (descriptorType s) (descriptorCount s) (stageFlags s) v.
Definition kinds : list kind :=
  [KU32; KI32; KU32; KU32; KU64].
Definition to_raw `{Abi} (s : t) : list Z :=
  [binding s; descriptorType s; descriptorCount s; stageFlags s; ptr_addr (pImmutableSamplers s)].
Definition of_raw (vs : list Z) : t :=
  match vs with
  | [v0; v1; v2; v3; v4] =>
      mk v0 v1 v2 v3 (ptr_of_addr v4)
  | _ => zero
  end.
Definition flat (s : t) : Prop :=
  ptr_flat (pImmutableSamplers s).
#[global] Program Instance pod : Pod t := {|
  pod_kinds := kinds; pod_to := @to_raw; pod_of := of_raw; pod_flat := flat |}.
Next Obligation. intros. by apply_of_raw. Qed.
End VkDescriptorSetLayoutBinding.

(** [VkDescriptorSetLayoutCreateInfo] *)
Module VkDescriptorSetLayoutCreateInfo.
Record t := mk {
  sType : Z;
  pNext : ptr void;
  flags : Z;
  bindingCount : Z;
  pBindings : ptr (list VkDescriptorSetLayoutBinding.t)
}.
Definition zero : t := mk
  0 Null 0 0 Null.
Definition set_pNext (v : ptr void) (s : t) : t := mk
  (sType s) v (flags s) (bindingCount s) (pBindings s).
Definition set_pBindings (v : ptr (list VkDescriptorSetLayoutBinding.t)) (s : t) : t := mk
  (sType s) (pNext s) (flags s) (bindingCount s) v.
Definition kinds : list kind :=
  [KI32; KU64; KU32; KU32; KU64].
Definition to_raw `{Abi} (s : t) : list Z :=
  [sType s; ptr_addr (pNext s); flags s; bindingCount s; ptr_addr (pBindings s)].
Definition of_raw (vs : list Z) : t :=
  match vs with
  | [v0; v1; v2; v3; v4] =>
      mk v0 (ptr_of_addr v1) v2 v3 (ptr_of_addr v4)
  | _ => zero
  end.
Definition flat (s : t) : Prop :=
  ptr_flat (pNext s) /\ ptr_flat (pBindings s).
#[global] Program Instance pod : Pod t := {|
  pod_kinds := kinds; pod_to := @to_raw; pod_of := of_raw; pod_flat := flat |}.
Next Obligation. intros. by apply_of_raw. Qed.
End VkDescriptorSetLayoutCreateInfo.

(** [VkDescriptorPoolSize] *)
Module VkDescriptorPoolSize.
Record t := mk {
  type_ : Z;
  descriptorCount : Z
}.
Definition zero : t := mk
  0 0.
Definition kinds : list kind :=
  [KI32; KU32].
Definition to_raw `{Abi} (s : t) : list Z :=
  [type_ s; descriptorCount s].
Definition of_raw (vs : list Z) : t :=
  match vs with
  | [v0; v1] =>
      mk v0 v1
  | _ => zero
  end.
Definition flat (s : t) : Prop := True.
#[global] Program Instance pod : Pod t := {|
  pod_kinds := kinds; pod_to := @to_raw; pod_of := of_raw; pod_flat := flat |}.
Next Obligation. intros. by apply_of_raw. Qed.
End VkDescriptorPoolSize.

(** [VkDescriptorPoolCreateInfo] *)
Module VkDescriptorPoolCreateInfo.
Record t := mk {
  sType : Z;
  pNext : ptr void;
  flags : Z;
  maxSets : Z;
  poolSizeCount : Z;
  pPoolSizes : ptr (list VkDescriptorPoolSize.t)
}.
Definition zero : t := mk
  0 Null 0 0 0 Null.
Definition set_pNext (v : ptr void) (s : t) : t := mk
  (sType s) v (flags s) (maxSets s) (poolSizeCount s) (pPoolSizes s).
Definition set_pPoolSizes (v : ptr (list VkDescriptorPoolSize.t)) (s : t) : t := mk
  (sType s) (pNext s) (flags s) (maxSets s) (poolSizeCount s) v.
Definition kinds : list kind :=
  [KI32; KU64; KU32; KU32; KU32; KU64].
Definition to_raw `{Abi} (s : t) : list Z :=
  [sType s; ptr_addr (pNext s); flags s; maxSets s; poolSizeCount s; ptr_addr (pPoolSizes s)].
Definition of_raw (vs : list Z) : t :=
  match vs with
  | [v0; v1; v2; v3; v4; v5] =>
      mk v0 (ptr_of_addr v1) v2 v3 v4 (ptr_of_addr v5)
  | _ => zero
  end.
Definition flat (s : t) : Prop :=
  ptr_flat (pNext s) /\ ptr_flat (pPoolSizes s).
#[global] Program Instance pod : Pod t := {|
  pod_kinds := kinds; pod_to := @to_raw; pod_of := of_raw; pod_flat := flat |}.
Next Obligation. intros. by apply_of_raw. Qed.
End VkDescriptorPoolCreateInfo.

(** [VkDescriptorSetAllocateInfo] *)
Module VkDescriptorSetAllocateInfo.
Record t := mk {
  sType : Z;
  pNext : ptr void;
  descriptorPool : Z;
  descriptorSetCount : Z;
  pSetLayouts : ptr (list Z)
}.
Definition zero : t := mk
  0 Null 0 0 Null.
Definition set_pNext (v : ptr void) (s : t) : t := mk
  (sType s) v (descriptorPool s) (descriptorSetCount s) (pSetLayouts s).
Definition set_pSetLayouts (v : ptr (list Z)) (s : t) : t := mk
  (sType s) (pNext s) (descriptorPool s) (descriptorSetCount s) v.
Definition set_descriptorPool (v : Z) (s : t) : t := mk
  (sType s) (pNext s) v (descriptorSetCount s) (pSetLayouts s).
Definition kinds : list kind :=
  [KI32; KU64; KU64; KU32; KU64].
Definition to_raw `{Abi} (s : t) : list Z :=
  [sType s; ptr_addr (pNext s); descriptorPool s; descriptorSetCount s; ptr_addr (pSetLayouts s)].
Definition of_raw (vs : list Z) : t :=
  match vs with
  | [v0; v1; v2; v3; v4] =>
      mk v0 (ptr_of_addr v1) v2 v3 (ptr_of_addr v4)
  | _ => zero
  end.
Definition flat (s : t) : Prop :=
  ptr_flat (pNext s) /\ ptr_flat (pSetLayouts s).
#[global] Program Instance pod : Pod t := {|
  pod_kinds := kinds; pod_to := @to_raw; pod_of := of_raw; pod_flat := flat |}.
Next Obligation. intros. by apply_of_raw. Qed.
End VkDescriptorSetAllocateInfo.

(** [VkDescriptorImageInfo] *)
Module VkDescriptorImageInfo.
Record t := mk {
  sampler : Z;
  imageView : Z;
  imageLayout : Z
}.
Definition zero : t := mk
  0 0 0.
Definition kinds : list kind :=
  [KU64; KU64; KI32].
Definition to_raw `{Abi} (s : t) : list Z :=
  [sampler s; imageView s; imageLayout s].
Definition of_raw (vs : list Z) : t :=
  match vs with
  | [v0; v1; v2] =>
      mk v0 v1 v2
  | _ => zero
  end.
Definition flat (s : t) : Prop := True.
#[global] Program Instance pod : Pod t := {|
  pod_kinds := kinds; pod_to := @to_raw; pod_of := of_raw; pod_flat := flat |}.
Next Obligation. intros. by apply_of_raw. Qed.
End VkDescriptorImageInfo.

(** [VkDescriptorBufferInfo] *)
Module VkDescriptorBufferInfo.
Record t := mk {
  buffer : Z;
  offset : Z;
  range : Z
}.
Definition zero : t := mk
  0 0 0.
Definition kinds : list kind :=
  [KU64; KU64; KU64].
Definition to_raw `{Abi} (s : t) : list Z :=
  [buffer s; offset s; range s].
Definition of_raw (vs : list Z) : t :=
  match vs with
  | [v0; v1; v2] =>
      mk v0 v1 v2
  | _ => zero
  end.
Definition flat (s : t) : Prop := True.
#[global] Program Instance pod : Pod t := {|
  pod_kinds := kinds; pod_to := @to_raw; pod_of := of_raw; pod_flat := flat |}.
Next Obligation. intros. by apply_of_raw. Qed.
End VkDescriptorBufferInfo.

(** [VkWriteDescriptorSet] *)
Module VkWriteDescriptorSet.
Record t := mk {
  sType : Z;
  pNext : ptr void;
  dstSet : Z;
  dstBinding : Z;
  dstArrayElement : Z;
  descriptorCount : Z;
  descriptorType : Z;
  pImageInfo : ptr (list VkDescriptorImageInfo.t);
  pBufferInfo : ptr (list VkDescriptorBufferInfo.t);
  pTexelBufferView : ptr (list Z)
}.
Definition zero : t := mk
  0 Null 0 0 0 0 0 Null Null Null.
Definition set_pNext (v : ptr void) (s : t) : t := mk
  (sType s) v (dstSet s) (dstBinding s) (dstArrayElement s) (descriptorCount s)
  (descriptorType s) (pImageInfo s) (pBufferInfo s) (pTexelBufferView s).
Definition set_pImageInfo (v : ptr (list VkDescriptorImageInfo.t)) (s : t) : t := mk
  (sType s) (pNext s) (dstSet s) (dstBinding s) (dstArrayElement s) (descriptorCount s)
  (descriptorType s) v (pBufferInfo s) (pTexelBufferView s).
Definition set_pBufferInfo (v : ptr (list VkDescriptorBufferInfo.t)) (s : t) : t := mk
  (sType s) (pNext s) (dstSet s) (dstBinding s) (dstArrayElement s) (descriptorCount s)
  (descriptorType s) (pImageInfo s) v (pTexelBufferView s).
Definition set_pTexelBufferView (v : ptr (list Z)) (s : t) : t := mk
  (sType s) (pNext s) (dstSet s) (dstBinding s) (dstArrayElement s) (descriptorCount s)
  (descriptorType s) (pImageInfo s) (pBufferInfo s) v.
Definition set_dstSet (v : Z) (s : t) : t := mk
  (sType s) (pNext s) v (dstBinding s) (dstArrayElement s) (descriptorCount s)
  (descriptorType s) (pImageInfo s) (pBufferInfo s) (pTexelBufferView s).
Definition kinds : list kind :=
  [KI32; KU64; KU64; KU32; KU32; KU32; KI32; KU64; KU64; KU64].
Definition to_raw `{Abi} (s : t) : list Z :=
  [sType s; ptr_addr (pNext s); dstSet s; dstBinding s; dstArrayElement s; descriptorCount s; descriptorType s; ptr_addr (pImageInfo s); ptr_addr (pBufferInfo s); ptr_addr (pTexelBufferView s)].
Definition of_raw (vs : list Z) : t :=
  match vs with
  | [v0; v1; v2; v3; v4; v5; v6; v7; v8; v9] =>
      mk v0 (ptr_of_addr v1) v2 v3 v4 v5 v6 (ptr_of_addr v7) (ptr_of_addr v8) (ptr_of_addr v9)
  | _ => zero
  end.
Definition flat (s : t) : Prop :=
  ptr_flat (pNext s) /\ ptr_flat (pImageInfo s) /\ ptr_flat (pBufferInfo s) /\
  ptr_flat (pTexelBufferView s).
#[global] Program Instance pod : Pod t := {|
  pod_kinds := kinds; pod_to := @to_raw; pod_of := of_raw; pod_flat := flat |}.
Next Obligation. intros. by apply_of_raw. Qed.
End VkWriteDescriptorSet.

(** [VkCopyDescriptorSet] *)
Module VkCopyDescriptorSet.
Record t := mk {
  sType : Z;
  pNext : ptr void;
  srcSet : Z;
  srcBinding : Z;
  srcArrayElement : Z;
  dstSet : Z;
  dstBinding : Z;
  dstArrayElement : Z;
  descriptorCount : Z
}.
Definition zero : t := mk
  0 Null 0 0 0 0 0 0 0.
Definition set_pNext (v : ptr void) (s : t) : t := mk
  (sType s) v (srcSet s) (srcBinding s) (srcArrayElement s) (dstSet s) (dstBinding s)
  (dstArrayElement s) (descriptorCount s).
Definition set_srcSet (v : Z) (s : t) : t := mk
  (sType s) (pNext s) v (srcBinding s) (srcArrayElement s) (dstSet s) (dstBinding s)
  (dstArrayElement s) (descriptorCount s).
Definition set_dstSet (v : Z) (s : t) : t := mk
  (sType s) (pNext s) (srcSet s) (srcBinding s) (srcArrayElement s) v (dstBinding s)
  (dstArrayElement s) (descriptorCount s).
Definition kinds : list kind :=
  [KI32; KU64; KU64; KU32; KU32; KU64; KU32; KU32; KU32].
Definition to_raw `{Abi} (s : t) : list Z :=
  [sType s; ptr_addr (pNext s); srcSet s; srcBinding s; srcArrayElement s; dstSet s; dstBinding s; dstArrayElement s; descriptorCount s].
Definition of_raw (vs : list Z) : t :=
  match vs with
  | [v0; v1; v2; v3; v4; v5; v6; v7; v8] =>
      mk v0 (ptr_of_addr v1) v2 v3 v4 v5 v6 v7 v8
  | _ => zero
  end.
Definition flat (s : t) : Prop :=
  ptr_flat (pNext s).
#[global] Program Instance pod : Pod t := {|
  pod_kinds := kinds; pod_to := @to_raw; pod_of := of_raw; pod_flat := flat |}.
Next Obligation. intros. by apply_of_raw. Qed.
End VkCopyDescriptorSet.

(** [VkImageMemoryBarrier] *)
Module VkImageMemoryBarrier.
Record t := mk {
  sType : Z;
  pNext : ptr void;
  srcAccessMask : Z;
  dstAccessMask : Z;
  oldLayout : Z;
  newLayout : Z;
  srcQueueFamilyIndex : Z;
  dstQueueFamilyIndex : Z;
  image : Z;
  subresourceRange : VkImageSubresourceRange.t
}.
Definition zero : t := mk
  0 Null 0 0 0 0 0 0 0 VkImageSubresourceRange.zero.
Definition set_pNext (v : ptr void) (s : t) : t := mk
  (sType s) v (srcAccessMask s) (dstAccessMask s) (oldLayout s) (newLayout s)
  (srcQueueFamilyIndex s) (dstQueueFamilyIndex s) (image s) (subresourceRange s).
Definition set_image (v : Z) (s : t) : t := mk
  (sType s) (pNext s) (srcAccessMask s) (dstAccessMask s) (oldLayout s) (newLayout s)
  (srcQueueFamilyIndex s) (dstQueueFamilyIndex s) v (subresourceRange s).
Definition kinds : list kind :=
  [KI32; KU64; KU32; KU32; KI32; KI32; KU32; KU32; KU64; KU32; KU32; KU32; KU32; KU32].
Definition to_raw `{Abi} (s : t) : list Z :=
  [sType s; ptr_addr (pNext s); srcAccessMask s; dstAccessMask s; oldLayout s; newLayout s; srcQueueFamilyIndex s; dstQueueFamilyIndex s; image s] ++
  VkImageSubresourceRange.to_raw (subresourceRange s).
Definition of_raw (vs : list Z) : t :=
  match vs with
  | [v0; v1; v2; v3; v4; v5; v6; v7; v8; v9; v10; v11; v12; v13] =>
      mk v0 (ptr_of_addr v1) v2 v3 v4 v5 v6 v7 v8 (VkImageSubresourceRange.mk v9 v10 v11 v12 v13)
  | _ => zero
  end.
Definition flat (s : t) : Prop :=
  ptr_flat (pNext s).
#[global] Program Instance pod : Pod t := {|
  pod_kinds := kinds; pod_to := @to_raw; pod_of := of_raw; pod_flat := flat |}.
Next Obligation. intros. by apply_of_raw. Qed.
End VkImageMemoryBarrier.

(** [VkBufferMemoryBarrier] *)
Module VkBufferMemoryBarrier.
Record t := mk {
  sType : Z;
  pNext : ptr void;
  srcAccessMask : Z;
  dstAccessMask : Z;
  srcQueueFamilyIndex : Z;
  dstQueueFamilyIndex : Z;
  buffer : Z;
  offset : Z;
  size : Z
}.
Definition zero : t := mk
  0 Null 0 0 0 0 0 0 0.
Definition set_pNext (v : ptr void) (s : t) : t := mk
  (sType s) v (srcAccessMask s) (dstAccessMask s) (srcQueueFamilyIndex s)
  (dstQueueFamilyIndex s) (buffer s) (offset s) (size s).
Definition set_buffer (v : Z) (s : t) : t := mk
  (sType s) (pNext s) (srcAccessMask s) (dstAccessMask s) (srcQueueFamilyIndex s)
  (dstQueueFamilyIndex s) v (offset s) (size s).
Definition kinds : list kind :=
  [KI32; KU64; KU32; KU32; KU32; KU32; KU64; KU64; KU64].
Definition to_raw `{Abi} (s : t) : list Z :=
  [sType s; ptr_addr (pNext s); srcAccessMask s; dstAccessMask s; srcQueueFamilyIndex s; dstQueueFamilyIndex s; buffer s; offset s; size s].
Definition of_raw (vs : list Z) : t :=
  match vs with
  | [v0; v1; v2; v3; v4; v5; v6; v7; v8] =>
      mk v0 (ptr_of_addr v1) v2 v3 v4 v5 v6 v7 v8
  | _ => zero
  end.
Definition flat (s : t) : Prop :=
  ptr_flat (pNext s).
#[global] Program Instance pod : Pod t := {|
  pod_kinds := kinds; pod_to := @to_raw; pod_of := of_raw; pod_flat := flat |}.
Next Obligation. intros. by apply_of_raw. Qed.
End VkBufferMemoryBarrier.

(** [VkMemoryBarrier] *)
Module VkMemoryBarrier.
Record t := mk {
  sType : Z;
  pNext : ptr void;
  srcAccessMask : Z;
  dstAccessMask : Z
}.
Definition zero : t := mk
  0 Null 0 0.
Definition set_pNext (v : ptr void) (s : t) : t := mk
  (sType s) v (srcAccessMask s) (dstAccessMask s).
Definition kinds : list kind :=
  [KI32; KU64; KU32; KU32].
Definition to_raw `{Abi} (s : t) : list Z :=
  [sType s; ptr_addr (pNext s); srcAccessMask s; dstAccessMask s].
Definition of_raw (vs : list Z) : t :=
  match vs with
  | [v0; v1; v2; v3] =>
      mk v0 (ptr_of_addr v1) v2 v3
  | _ => zero
  end.
Definition flat (s : t) : Prop :=
  ptr_flat (pNext s).
#[global] Program Instance pod : Pod t := {|
  pod_kinds := kinds; pod_to := @to_raw; pod_of := of_raw; pod_flat := flat |}.
Next Obligation. intros. by apply_of_raw. Qed.
End VkMemoryBarrier.

(** [VkFenceCreateInfo] *)
Module VkFenceCreateInfo.
Record t := mk {
  sType : Z;
  pNext : ptr void;
  flags : Z
}.
Definition zero : t := mk
  0 Null 0.
Definition set_pNext (v : ptr void) (s : t) : t := mk
  (sType s) v (flags s).
Definition kinds : list kind :=
  [KI32; KU64; KU32].
Definition to_raw `{Abi} (s : t) : list Z :=
  [sType s; ptr_addr (pNext s); flags s].
Definition of_raw (vs : list Z) : t :=
  match vs with
  | [v0; v1; v2] =>
      mk v0 (ptr_of_addr v1) v2
  | _ => zero
  end.
Definition flat (s : t) : Prop :=
  ptr_flat (pNext s).
#[global] Program Instance pod : Pod t := {|
  pod_kinds := kinds; pod_to := @to_raw; pod_of := of_raw; pod_flat := flat |}.
Next Obligation. intros. by apply_of_raw. Qed.
End VkFenceCreateInfo.

(** [VkCommandPoolCreateInfo] *)
Module VkCommandPoolCreateInfo.
Record t := mk {
  sType : Z;
  pNext : ptr void;
  flags : Z;
  queueFamilyIndex : Z
}.
Definition zero : t := mk
  0 Null 0 0.
Definition set_pNext (v : ptr void) (s : t) : t := mk
  (sType s) v (flags s) (queueFamilyIndex s).
Definition kinds : list kind :=
  [KI32; KU64; KU32; KU32].
Definition to_raw `{Abi} (s : t) : list Z :=
  [sType s; ptr_addr (pNext s); flags s; queueFamilyIndex s].
Definition of_raw (vs : list Z) : t :=
  match vs with
  | [v0; v1; v2; v3] =>
      mk v0 (ptr_of_addr v1) v2 v3
  | _ => zero
  end.
Definition flat (s : t) : Prop :=
  ptr_flat (pNext s).
#[global] Program Instance pod : Pod t := {|
  pod_kinds := kinds; pod_to := @to_raw; pod_of := of_raw; pod_flat := flat |}.
Next Obligation. intros. by apply_of_raw. Qed.
End VkCommandPoolCreateInfo.

(** [VkPipelineCacheCreateInfo] *)
Module VkPipelineCacheCreateInfo.
Record t := mk {
  sType : Z;
  pNext : ptr void;
  flags : Z;
  initialDataSize : Z;
  pInitialData : ptr (list byte)
}.
Definition zero : t := mk
  0 Null 0 0 Null.
Definition set_pNext (v : ptr void) (s : t) : t := mk
  (sType s) v (flags s) (initialDataSize s) (pInitialData s).
Definition set_pInitialData (v : ptr (list byte)) (s : t) : t := mk
  (sType s) (pNext s) (flags s) (initialDataSize s) v.
Definition kinds : list kind :=
  [KI32; KU64; KU32; KU64; KU64].
Definition to_raw `{Abi} (s : t) : list Z :=
  [sType s; ptr_addr (pNext s); flags s; initialDataSize s; ptr_addr (pInitialData s)].
Definition of_raw (vs : list Z) : t :=
  match vs with
  | [v0; v1; v2; v3; v4] =>
      mk v0 (ptr_of_addr v1) v2 v3 (ptr_of_addr v4)
  | _ => zero
  end.
Definition flat (s : t) : Prop :=
  ptr_flat (pNext s) /\ ptr_flat (pInitialData s).
#[global] Program Instance pod : Pod t := {|
  pod_kinds := kinds; pod_to := @to_raw; pod_of := of_raw; pod_flat := flat |}.
Next Obligation. intros. by apply_of_raw. Qed.
End VkPipelineCacheCreateInfo.

(** [VkBufferImageCopy] *)
Module VkBufferImageCopy.
Record t := mk {
  bufferOffset : Z;
  bufferRowLength : Z;
  bufferImageHeight : Z;
  imageSubresource : VkImageSubresourceLayers.t;
  imageOffset : VkOffset3D.t;
  imageExtent : VkExtent3D.t
}.
Definition zero : t := mk
  0 0 0 VkImageSubresourceLayers.zero VkOffset3D.zero VkExtent3D.zero.
Definition kinds : list kind :=
  [KU64] ++ replicate 6 KU32 ++ [KI32; KI32; KI32; KU32; KU32; KU32].
Definition to_raw `{Abi} (s : t) : list Z :=
  [bufferOffset s; bufferRowLength s; bufferImageHeight s] ++
  VkImageSubresourceLayers.to_raw (imageSubresource s) ++ VkOffset3D.to_raw (imageOffset s) ++
  VkExtent3D.to_raw (imageExtent s).
Definition of_raw (vs : list Z) : t :=
  match vs with
  | [v0; v1; v2; v3; v4; v5; v6; v7; v8; v9; v10; v11; v12] =>
      mk v0 v1 v2 (VkImageSubresourceLayers.mk v3 v4 v5 v6) (VkOffset3D.mk v7 v8 v9)
        (VkExtent3D.mk v10 v11 v12)
  | _ => zero
  end.
Definition flat (s : t) : Prop := True.
#[global] Program Instance pod : Pod t := {|
  pod_kinds := kinds; pod_to := @to_raw; pod_of := of_raw; pod_flat := flat |}.
Next Obligation. intros. by apply_of_raw. Qed.
End VkBufferImageCopy.

(** [VkImageCopy] *)
Module VkImageCopy.
Record t := mk {
  srcSubresource : VkImageSubresourceLayers.t;
  srcOffset : VkOffset3D.t;
  dstSubresource : VkImageSubresourceLayers.t;
  dstOffset : VkOffset3D.t;
  extent : VkExtent3D.t
}.
Definition zero : t := mk
  VkImageSubresourceLayers.zero VkOffset3D.zero VkImageSubresourceLayers.zero VkOffset3D.zero
  VkExtent3D.zero.
Definition kinds : list kind :=
  [KU32; KU32; KU32; KU32; KI32; KI32; KI32; KU32; KU32; KU32; KU32; KI32; KI32; KI32; KU32; KU32; KU32].
Definition to_raw `{Abi} (s : t) : list Z :=
  VkImageSubresourceLayers.to_raw (srcSubresource s) ++ VkOffset3D.to_raw (srcOffset s) ++
  VkImageSubresourceLayers.to_raw (dstSubresource s) ++ VkOffset3D.to_raw (dstOffset s) ++
  VkExtent3D.to_raw (extent s).
Definition of_raw (vs : list Z) : t :=
  match vs with
  | [v0; v1; v2; v3; v4; v5; v6; v7; v8; v9; v10; v11; v12; v13; v14; v15; v16] =>
      mk (VkImageSubresourceLayers.mk v0 v1 v2 v3) (VkOffset3D.mk v4 v5 v6)
        (VkImageSubresourceLayers.mk v7 v8 v9 v10) (VkOffset3D.mk v11 v12 v13)
        (VkExtent3D.mk v14 v15 v16)
  | _ => zero
  end.
Definition flat (s : t) : Prop := True.
#[global] Program Instance pod : Pod t := {|
  pod_kinds := kinds; pod_to := @to_raw; pod_of := of_raw; pod_flat := flat |}.
Next Obligation. intros. by apply_of_raw. Qed.
End VkImageCopy.

(** [VkImageBlit] *)
Module VkImageBlit.
Record t := mk {
  srcSubresource : VkImageSubresourceLayers.t;
  srcOffsets_0 : VkOffset3D.t;
  srcOffsets_1 : VkOffset3D.t;
  dstSubresource : VkImageSubresourceLayers.t;
  dstOffsets_0 : VkOffset3D.t;
  dstOffsets_1 : VkOffset3D.t
}.
Definition zero : t := mk
  VkImageSubresourceLayers.zero VkOffset3D.zero VkOffset3D.zero VkImageSubresourceLayers.zero
  VkOffset3D.zero VkOffset3D.zero.
Definition kinds : list kind :=
  [KU32; KU32; KU32; KU32] ++ replicate 6 KI32 ++ [KU32; KU32; KU32; KU32] ++ replicate 6 KI32.
Definition to_raw `{Abi} (s : t) : list Z :=
  VkImageSubresourceLayers.to_raw (srcSubresource s) ++ VkOffset3D.to_raw (srcOffsets_0 s) ++
  VkOffset3D.to_raw (srcOffsets_1 s) ++ VkImageSubresourceLayers.to_raw (dstSubresource s) ++
  VkOffset3D.to_raw (dstOffsets_0 s) ++ VkOffset3D.to_raw (dstOffsets_1 s).
Definition of_raw (vs : list Z) : t :=
  match vs with
  | [v0; v1; v2; v3; v4; v5; v6; v7; v8; v9; v10; v11; v12; v13; v14; v15; v16; v17; v18; v19] =>
      mk (VkImageSubresourceLayers.mk v0 v1 v2 v3) (VkOffset3D.mk v4 v5 v6)
        (VkOffset3D.mk v7 v8 v9) (VkImageSubresourceLayers.mk v10 v11 v12 v13)
        (VkOffset3D.mk v14 v15 v16) (VkOffset3D.mk v17 v18 v19)
  | _ => zero
  end.
Definition flat (s : t) : Prop := True.
#[global] Program Instance pod : Pod t := {|
  pod_kinds := kinds; pod_to := @to_raw; pod_of := of_raw; pod_flat := flat |}.
Next Obligation. intros. by apply_of_raw. Qed.
End VkImageBlit.

(** [VkBufferCopy] *)
Module VkBufferCopy.
Record t := mk {
  srcOffset : Z;
  dstOffset : Z;
  size : Z
}.
Definition zero : t := mk
  0 0 0.
Definition kinds : list kind :=
  [KU64; KU64; KU64].
Definition to_raw `{Abi} (s : t) : list Z :=
  [srcOffset s; dstOffset s; size s].
Definition of_raw (vs : list Z) : t :=
  match vs with
  | [v0; v1; v2] =>
      mk v0 v1 v2
  | _ => zero
  end.
Definition flat (s : t) : Prop := True.
#[global] Program Instance pod : Pod t := {|
  pod_kinds := kinds; pod_to := @to_raw; pod_of := of_raw; pod_flat := flat |}.
Next Obligation. intros. by apply_of_raw. Qed.
End VkBufferCopy.

(** [VkMemoryRequirements] *)
Module VkMemoryRequirements.
Record t := mk {
  size : Z;
  alignment : Z;
  memoryTypeBits : Z
}.
Definition zero : t := mk
  0 0 0.
Definition kinds : list kind :=
  [KU64; KU64; KU32].
Definition to_raw `{Abi} (s : t) : list Z :=
  [size s; alignment s; memoryTypeBits s].
Definition of_raw (vs : list Z) : t :=
  match vs with
  | [v0; v1; v2] =>
      mk v0 v1 v2
  | _ => zero
  end.
Definition flat (s : t) : Prop := True.
#[global] Program Instance pod : Pod t := {|
  pod_kinds := kinds; pod_to := @to_raw; pod_of := of_raw; pod_flat := flat |}.
Next Obligation. intros. by apply_of_raw. Qed.
End VkMemoryRequirements.

(** [VkSubresourceLayout] *)
Module VkSubresourceLayout.
Record t := mk {
  offset : Z;
  size : Z;
  rowPitch : Z;
  arrayPitch : Z;
  depthPitch : Z
}.
Definition zero : t := mk
  0 0 0 0 0.
Definition kinds : list kind :=
  [KU64; KU64; KU64; KU64; KU64].
Definition to_raw `{Abi} (s : t) : list Z :=
  [offset s; size s; rowPitch s; arrayPitch s; depthPitch s].
Definition of_raw (vs : list Z) : t :=
  match vs with
  | [v0; v1; v2; v3; v4] =>
      mk v0 v1 v2 v3 v4
  | _ => zero
  end.
Definition flat (s : t) : Prop := True.
#[global] Program Instance pod : Pod t := {|
  pod_kinds := kinds; pod_to := @to_raw; pod_of := of_raw; pod_flat := flat |}.
Next Obligation. intros. by apply_of_raw. Qed.
End VkSubresourceLayout.

(** [VkSurfaceCapabilitiesKHR] *)
Module VkSurfaceCapabilitiesKHR.
Record t := mk {
  minImageCount : Z;
  maxImageCount : Z;
  currentExtent : VkExtent2D.t;
  minImageExtent : VkExtent2D.t;
  maxImageExtent : VkExtent2D.t;
  maxImageArrayLayers : Z;
  supportedTransforms : Z;
  currentTransform : Z;
  supportedCompositeAlpha : Z;
  supportedUsageFlags : Z
}.
Definition zero : t := mk
  0 0 VkExtent2D.zero VkExtent2D.zero VkExtent2D.zero 0 0 0 0 0.
Definition kinds : list kind :=
  replicate 13 KU32.
Definition to_raw `{Abi} (s : t) : list Z :=
  [minImageCount s; maxImageCount s] ++ VkExtent2D.to_raw (currentExtent s) ++
  VkExtent2D.to_raw (minImageExtent s) ++ VkExtent2D.to_raw (maxImageExtent s) ++
  [maxImageArrayLayers s; supportedTransforms s; currentTransform s; supportedCompositeAlpha s; supportedUsageFlags s].
Definition of_raw (vs : list Z) : t :=
  match vs with
  | [v0; v1; v2; v3; v4; v5; v6; v7; v8; v9; v10; v11; v12] =>
      mk v0 v1 (VkExtent2D.mk v2 v3) (VkExtent2D.mk v4 v5) (VkExtent2D.mk v6 v7) v8 v9 v10 v11
        v12
  | _ => zero
  end.
Definition flat (s : t) : Prop := True.
#[global] Program Instance pod : Pod t := {|
  pod_kinds := kinds; pod_to := @to_raw; pod_of := of_raw; pod_flat := flat |}.
Next Obligation. intros. by apply_of_raw. Qed.
End VkSurfaceCapabilitiesKHR.

(** [VkAttachmentReference2] *)
Module VkAttachmentReference2.
Record t := mk {
  sType : Z;
  pNext : ptr void;
  attachment : Z;
  layout : Z;
  aspectMask : Z
}.
Definition zero : t := mk
  0 Null 0 0 0.
End VkAttachmentReference2.

(** [VkInputAttachmentAspectReference] *)
Module VkInputAttachmentAspectReference.
Record t := mk {
  subpass : Z;
  inputAttachmentIndex : Z;
  aspectMask : Z
}.
Definition zero : t := mk
  0 0 0.
End VkInputAttachmentAspectReference.

(** [VkFramebufferAttachmentImageInfo] *)
Module VkFramebufferAttachmentImageInfo.
Record t := mk {
  sType : Z;
  pNext : ptr void;
  flags : Z;
  usage : Z;
  width : Z;
  height : Z;
  layerCount : Z;
  viewFormatCount : Z;
  pViewFormats : ptr (list Z)
}.
Definition zero : t := mk
  0 Null 0 0 0 0 0 0 Null.
End VkFramebufferAttachmentImageInfo.

(** [VkPhysicalDeviceVulkan11Features] *)
Module VkPhysicalDeviceVulkan11Features.
Record t := mk {
  storageBuffer16BitAccess : Z;
  uniformAndStorageBuffer16BitAccess : Z;
  storagePushConstant16 : Z;
  storageInputOutput16 : Z;
  multiview : Z;
  multiviewGeometryShader : Z;
  multiviewTessellationShader : Z;
  variablePointersStorageBuffer : Z;
  variablePointers : Z;
  protectedMemory : Z;
  samplerYcbcrConversion : Z;
  shaderDrawParameters : Z
}.
Definition zero : t := mk
  0 0 0 0 0 0 0 0 0 0 0 0.
End VkPhysicalDeviceVulkan11Features.

(** [VkPhysicalDeviceVulkan12Features] *)
Module VkPhysicalDeviceVulkan12Features.
Record t := mk {
  samplerMirrorClampToEdge : Z;
  drawIndirectCount : Z;
  storageBuffer8BitAccess : Z;
  uniformAndStorageBuffer8BitAccess : Z;
  storagePushConstant8 : Z;
  shaderBufferInt64Atomics : Z;
  shaderSharedInt64Atomics : Z;
  shaderFloat16 : Z;
  shaderInt8 : Z;
  descriptorIndexing : Z;
  shaderInputAttachmentArrayDynamicIndexing : Z;
  shaderUniformTexelBufferArrayDynamicIndexing : Z;
  shaderStorageTexelBufferArrayDynamicIndexing : Z;
  shaderUniformBufferArrayNonUniformIndexing : Z;
  shaderSampledImageArrayNonUniformIndexing : Z;
  shaderStorageBufferArrayNonUniformIndexing : Z;
  shaderStorageImageArrayNonUniformIndexing : Z;
  shaderInputAttachmentArrayNonUniformIndexing : Z;
  shaderUniformTexelBufferArrayNonUniformIndexing : Z;
  shaderStorageTexelBufferArrayNonUniformIndexing : Z;
  descriptorBindingUniformBufferUpdateAfterBind : Z;
  descriptorBindingSampledImageUpdateAfterBind : Z;
  descriptorBindingStorageImageUpdateAfterBind : Z;
  descriptorBindingStorageBufferUpdateAfterBind : Z;
  descriptorBindingUniformTexelBufferUpdateAfterBind : Z;
  descriptorBindingStorageTexelBufferUpdateAfterBind : Z;
  descriptorBindingUpdateUnusedWhilePending : Z;
  descriptorBindingPartiallyBound : Z;
  descriptorBindingVariableDescriptorCount : Z;
  runtimeDescriptorArray : Z;
  samplerFilterMinmax : Z;
  scalarBlockLayout : Z;
  imagelessFramebuffer : Z;
  uniformBufferStandardLayout : Z;
  shaderSubgroupExtendedTypes : Z;
  separateDepthStencilLayouts : Z;
  hostQueryReset : Z;
  timelineSemaphore : Z;
  bufferDeviceAddress : Z;
  bufferDeviceAddressCaptureReplay : Z;
  bufferDeviceAddressMultiDevice : Z;
  vulkanMemoryModel : Z;
  vulkanMemoryModelDeviceScope : Z;
  vulkanMemoryModelAvailabilityVisibilityChains : Z;
  shaderOutputViewportIndex : Z;
  shaderOutputLayer : Z;
  subgroupBroadcastDynamicId : Z
}.
Definition zero : t := mk
  0 0 0 0 0 0 0 0 0 0 0 0 0 0 0 0 0 0 0 0 0 0 0 0 0 0 0 0 0 0 0 0 0 0 0 0 0 0 0 0 0 0 0 0 0 0 0.
(** The [VkBool32] members as an array. *)
Definition words (s : t) : list Z := [
  samplerMirrorClampToEdge s; drawIndirectCount s; storageBuffer8BitAccess s;
  uniformAndStorageBuffer8BitAccess s; storagePushConstant8 s; shaderBufferInt64Atomics s;
  shaderSharedInt64Atomics s; shaderFloat16 s; shaderInt8 s; descriptorIndexing s;
  shaderInputAttachmentArrayDynamicIndexing s; shaderUniformTexelBufferArrayDynamicIndexing s;
  shaderStorageTexelBufferArrayDynamicIndexing s; shaderUniformBufferArrayNonUniformIndexing s;
  shaderSampledImageArrayNonUniformIndexing s; shaderStorageBufferArrayNonUniformIndexing s;
  shaderStorageImageArrayNonUniformIndexing s; shaderInputAttachmentArrayNonUniformIndexing s;
  shaderUniformTexelBufferArrayNonUniformIndexing s;
  shaderStorageTexelBufferArrayNonUniformIndexing s;
  descriptorBindingUniformBufferUpdateAfterBind s;
  descriptorBindingSampledImageUpdateAfterBind s;
  descriptorBindingStorageImageUpdateAfterBind s;
  descriptorBindingStorageBufferUpdateAfterBind s;
  descriptorBindingUniformTexelBufferUpdateAfterBind s;
  descriptorBindingStorageTexelBufferUpdateAfterBind s;
  descriptorBindingUpdateUnusedWhilePending s; descriptorBindingPartiallyBound s;
  descriptorBindingVariableDescriptorCount s; runtimeDescriptorArray s; samplerFilterMinmax s;
  scalarBlockLayout s; imagelessFramebuffer s; uniformBufferStandardLayout s;
  shaderSubgroupExtendedTypes s; separateDepthStencilLayouts s; hostQueryReset s;
  timelineSemaphore s; bufferDeviceAddress s; bufferDeviceAddressCaptureReplay s;
  bufferDeviceAddressMultiDevice s; vulkanMemoryModel s; vulkanMemoryModelDeviceScope s;
  vulkanMemoryModelAvailabilityVisibilityChains s; shaderOutputViewportIndex s;
  shaderOutputLayer s; subgroupBroadcastDynamicId s].
Definition of_words (vs : list Z) : t :=
  match vs with
  | [v0; v1; v2; v3; v4; v5; v6; v7; v8; v9; v10; v11; v12; v13; v14; v15; v16; v17; v18; v19;
     v20; v21; v22; v23; v24; v25; v26; v27; v28; v29; v30; v31; v32; v33; v34; v35; v36; v37;
     v38; v39; v40; v41; v42; v43; v44; v45; v46] =>
      mk v0 v1 v2 v3 v4 v5 v6 v7 v8 v9 v10 v11 v12 v13 v14 v15 v16 v17 v18 v19 v20 v21 v22 v23
        v24 v25 v26 v27 v28 v29 v30 v31 v32 v33 v34 v35 v36 v37 v38 v39 v40 v41 v42 v43 v44 v45
        v46
  | _ => zero
  end.
Lemma VkPhysicalDeviceVulkan12Features_words s : of_words (words s) = s.
Proof. by destruct s. Qed.
End VkPhysicalDeviceVulkan12Features.

(** [VkPhysicalDeviceBufferDeviceAddressFeatures] *)
Module VkPhysicalDeviceBufferDeviceAddressFeatures.
Record t := mk {
  bufferDeviceAddress : Z;
  bufferDeviceAddressCaptureReplay : Z;
  bufferDeviceAddressMultiDevice : Z
}.
Definition zero : t := mk
  0 0 0.
End VkPhysicalDeviceBufferDeviceAddressFeatures.

(** [VkPhysicalDeviceDescriptorIndexingFeatures] *)
Module VkPhysicalDeviceDescriptorIndexingFeatures.
Record t := mk {
  shaderInputAttachmentArrayDynamicIndexing : Z;
  shaderUniformTexelBufferArrayDynamicIndexing : Z;
  shaderStorageTexelBufferArrayDynamicIndexing : Z;
  shaderUniformBufferArrayNonUniformIndexing : Z;
  shaderSampledImageArrayNonUniformIndexing : Z;
  shaderStorageBufferArrayNonUniformIndexing : Z;
  shaderStorageImageArrayNonUniformIndexing : Z;
  shaderInputAttachmentArrayNonUniformIndexing : Z;
  shaderUniformTexelBufferArrayNonUniformIndexing : Z;
  shaderStorageTexelBufferArrayNonUniformIndexing : Z;
  descriptorBindingUniformBufferUpdateAfterBind : Z;
  descriptorBindingSampledImageUpdateAfterBind : Z;
  descriptorBindingStorageImageUpdateAfterBind : Z;
  descriptorBindingStorageBufferUpdateAfterBind : Z;
  descriptorBindingUniformTexelBufferUpdateAfterBind : Z;
  descriptorBindingStorageTexelBufferUpdateAfterBind : Z;
  descriptorBindingUpdateUnusedWhilePending : Z;
  descriptorBindingPartiallyBound : Z;
  descriptorBindingVariableDescriptorCount : Z;
  runtimeDescriptorArray : Z
}.
Definition zero : t := mk
  0 0 0 0 0 0 0 0 0 0 0 0 0 0 0 0 0 0 0 0.
(** The [VkBool32] members as an array. *)
Definition words (s : t) : list Z := [
  shaderInputAttachmentArrayDynamicIndexing s; shaderUniformTexelBufferArrayDynamicIndexing s;
  shaderStorageTexelBufferArrayDynamicIndexing s; shaderUniformBufferArrayNonUniformIndexing s;
  shaderSampledImageArrayNonUniformIndexing s; shaderStorageBufferArrayNonUniformIndexing s;
  shaderStorageImageArrayNonUniformIndexing s; shaderInputAttachmentArrayNonUniformIndexing s;
  shaderUniformTexelBufferArrayNonUniformIndexing s;
  shaderStorageTexelBufferArrayNonUniformIndexing s;
  descriptorBindingUniformBufferUpdateAfterBind s;
  descriptorBindingSampledImageUpdateAfterBind s;
  descriptorBindingStorageImageUpdateAfterBind s;
  descriptorBindingStorageBufferUpdateAfterBind s;
  descriptorBindingUniformTexelBufferUpdateAfterBind s;
  descriptorBindingStorageTexelBufferUpdateAfterBind s;
  descriptorBindingUpdateUnusedWhilePending s; descriptorBindingPartiallyBound s;
  descriptorBindingVariableDescriptorCount s; runtimeDescriptorArray s].
Definition of_words (vs : list Z) : t :=
  match vs with
  | [v0; v1; v2; v3; v4; v5; v6; v7; v8; v9; v10; v11; v12; v13; v14; v15; v16; v17; v18; v19] =>
      mk v0 v1 v2 v3 v4 v5 v6 v7 v8 v9 v10 v11 v12 v13 v14 v15 v16 v17 v18 v19
  | _ => zero
  end.
Lemma VkPhysicalDeviceDescriptorIndexingFeatures_words s : of_words (words s) = s.
Proof. by destruct s. Qed.
End VkPhysicalDeviceDescriptorIndexingFeatures.

(** [VkPhysicalDeviceDepthStencilResolveProperties] *)
Module VkPhysicalDeviceDepthStencilResolveProperties.
Record t := mk {
  supportedDepthResolveModes : Z;
  supportedStencilResolveModes : Z;
  independentResolveNone : Z;
  independentResolve : Z
}.
Definition zero : t := mk
  0 0 0 0.
End VkPhysicalDeviceDepthStencilResolveProperties.

(** [VkPhysicalDeviceVulkan11Properties] *)
Module VkPhysicalDeviceVulkan11Properties.
Record t := mk {
  deviceUUID : list byte;
  driverUUID : list byte;
  deviceLUID : list byte;
  deviceNodeMask : Z;
  deviceLUIDValid : Z;
  subgroupSize : Z;
  subgroupSupportedStages : Z;
  subgroupSupportedOperations : Z;
  subgroupQuadOperationsInAllStages : Z;
  pointClippingBehavior : Z;
  maxMultiviewViewCount : Z;
  maxMultiviewInstanceIndex : Z;
  protectedNoFault : Z;
  maxPerSetDescriptors : Z;
  maxMemoryAllocationSize : Z
}.
Definition zero : t := mk
  (replicate 16 x00) (replicate 16 x00) (replicate 8 x00) 0 0 0 0 0 0 0 0 0 0 0 0.
End VkPhysicalDeviceVulkan11Properties.

(** [VkPhysicalDeviceSubgroupProperties] *)
Module VkPhysicalDeviceSubgroupProperties.
Record t := mk {
  subgroupSize : Z;
  supportedStages : Z;
  supportedOperations : Z;
  quadOperationsInAllStages : Z
}.
Definition zero : t := mk
  0 0 0 0.
End VkPhysicalDeviceSubgroupProperties.

(** [VkPhysicalDeviceIDProperties] *)
Module VkPhysicalDeviceIDProperties.
Record t := mk {
  deviceUUID : list byte;
  driverUUID : list byte;
  deviceLUID : list byte;
  deviceNodeMask : Z;
  deviceLUIDValid : Z
}.
Definition zero : t := mk
  (replicate 16 x00) (replicate 16 x00) (replicate 8 x00) 0 0.
End VkPhysicalDeviceIDProperties.

(** [VkPhysicalDeviceMaintenance3Properties] *)
Module VkPhysicalDeviceMaintenance3Properties.
Record t := mk {
  maxPerSetDescriptors : Z;
  maxMemoryAllocationSize : Z
}.
Definition zero : t := mk
  0 0.
End VkPhysicalDeviceMaintenance3Properties.

(** [VkPhysicalDeviceFragmentShadingRateFeaturesKHR] *)
Module VkPhysicalDeviceFragmentShadingRateFeaturesKHR.
Record t := mk {
  pipelineFragmentShadingRate : Z;
  primitiveFragmentShadingRate : Z;
  attachmentFragmentShadingRate : Z
}.
Definition zero : t := mk
  0 0 0.
End VkPhysicalDeviceFragmentShadingRateFeaturesKHR.

(** [VkPhysicalDeviceFragmentShadingRatePropertiesKHR] *)
Module VkPhysicalDeviceFragmentShadingRatePropertiesKHR.
Record t := mk {
  minFragmentShadingRateAttachmentTexelSize : VkExtent2D.t;
  maxFragmentShadingRateAttachmentTexelSize : VkExtent2D.t;
  maxFragmentShadingRateAttachmentTexelSizeAspectRatio : Z;
  primitiveFragmentShadingRateWithMultipleViewports : Z;
  layeredShadingRateAttachments : Z;
  fragmentShadingRateNonTrivialCombinerOps : Z;
  maxFragmentSize : VkExtent2D.t;
  maxFragmentSizeAspectRatio : Z;
  maxFragmentShadingRateCoverageSamples : Z;
  maxFragmentShadingRateRasterizationSamples : Z;
  fragmentShadingRateWithShaderDepthStencilWrites : Z;
  fragmentShadingRateWithSampleMask : Z;
  fragmentShadingRateWithShaderSampleMask : Z;
  fragmentShadingRateWithConservativeRasterization : Z;
  fragmentShadingRateWithFragmentShaderInterlock : Z;
  fragmentShadingRateWithCustomSampleLocations : Z;
  fragmentShadingRateStrictMultiplyCombiner : Z
}.
Definition zero : t := mk
  VkExtent2D.zero VkExtent2D.zero 0 0 0 0 VkExtent2D.zero 0 0 0 0 0 0 0 0 0 0.
End VkPhysicalDeviceFragmentShadingRatePropertiesKHR.

(** [VkPhysicalDeviceMultiviewFeatures] *)
Module VkPhysicalDeviceMultiviewFeatures.
Record t := mk {
  multiview : Z;
  multiviewGeometryShader : Z;
  multiviewTessellationShader : Z
}.
Definition zero : t := mk
  0 0 0.
End VkPhysicalDeviceMultiviewFeatures.

(** [VkPhysicalDeviceMultiviewProperties] *)
Module VkPhysicalDeviceMultiviewProperties.
Record t := mk {
  maxMultiviewViewCount : Z;
  maxMultiviewInstanceIndex : Z
}.
Definition zero : t := mk
  0 0.
End VkPhysicalDeviceMultiviewProperties.

(** [VkRenderPassInputAttachmentAspectCreateInfo] *)
Module VkRenderPassInputAttachmentAspectCreateInfo.
Record t := mk {
  aspectReferenceCount : Z;
  pAspectReferences : ptr (list VkInputAttachmentAspectReference.t)
}.
Definition zero : t := mk
  0 Null.
End VkRenderPassInputAttachmentAspectCreateInfo.

(** [VkRenderPassMultiviewCreateInfo] *)
Module VkRenderPassMultiviewCreateInfo.
Record t := mk {
  subpassCount : Z;
  pViewMasks : ptr (list Z);
  dependencyCount : Z;
  pViewOffsets : ptr (list Z);
  correlationMaskCount : Z;
  pCorrelationMasks : ptr (list Z)
}.
Definition zero : t := mk
  0 Null 0 Null 0 Null.
End VkRenderPassMultiviewCreateInfo.

(** [VkFragmentShadingRateAttachmentInfoKHR] *)
Module VkFragmentShadingRateAttachmentInfoKHR.
Record t := mk {
  pFragmentShadingRateAttachment : ptr VkAttachmentReference2.t;
  shadingRateAttachmentTexelSize : VkExtent2D.t
}.
Definition zero : t := mk
  Null VkExtent2D.zero.
End VkFragmentShadingRateAttachmentInfoKHR.

(** [VkPipelineFragmentShadingRateStateCreateInfoKHR] *)
Module VkPipelineFragmentShadingRateStateCreateInfoKHR.
Record t := mk {
  fragmentSize : VkExtent2D.t;
  combinerOps_0 : Z;
  combinerOps_1 : Z
}.
Definition zero : t := mk
  VkExtent2D.zero 0 0.
End VkPipelineFragmentShadingRateStateCreateInfoKHR.

(** [VkImageFormatListCreateInfo] *)
Module VkImageFormatListCreateInfo.
Record t := mk {
  viewFormatCount : Z;
  pViewFormats : ptr (list Z)
}.
Definition zero : t := mk
  0 Null.
End VkImageFormatListCreateInfo.

(** [VkMemoryDedicatedRequirements] *)
Module VkMemoryDedicatedRequirements.
Record t := mk {
  prefersDedicatedAllocation : Z;
  requiresDedicatedAllocation : Z
}.
Definition zero : t := mk
  0 0.
End VkMemoryDedicatedRequirements.

(** [VkFramebufferAttachmentsCreateInfo] *)
Module VkFramebufferAttachmentsCreateInfo.
Record t := mk {
  attachmentImageInfoCount : Z;
  pAttachmentImageInfos : ptr (list VkFramebufferAttachmentImageInfo.t)
}.
Definition zero : t := mk
  0 Null.
End VkFramebufferAttachmentsCreateInfo.

(** [VkSemaphoreTypeCreateInfo] *)
Module VkSemaphoreTypeCreateInfo.
Record t := mk {
  semaphoreType : Z;
  initialValue : Z
}.
Definition zero : t := mk
  0 0.
End VkSemaphoreTypeCreateInfo.

(** [VkTimelineSemaphoreSubmitInfo] *)
Module VkTimelineSemaphoreSubmitInfo.
Record t := mk {
  waitSemaphoreValueCount : Z;
  pWaitSemaphoreValues : ptr (list Z);
  signalSemaphoreValueCount : Z;
  pSignalSemaphoreValues : ptr (list Z)
}.
Definition zero : t := mk
  0 Null 0 Null.
End VkTimelineSemaphoreSubmitInfo.

(** [VkMemoryAllocateFlagsInfo] *)
Module VkMemoryAllocateFlagsInfo.
Record t := mk {
  flags : Z;
  deviceMask : Z
}.
Definition zero : t := mk
  0 0.
End VkMemoryAllocateFlagsInfo.

(** [VkRenderPassAttachmentBeginInfo] *)
Module VkRenderPassAttachmentBeginInfo.
Record t := mk {
  attachmentCount : Z;
  pAttachments : ptr (list Z)
}.
Definition zero : t := mk
  0 Null.
End VkRenderPassAttachmentBeginInfo.

(** ** Sizes of the structures a pNext chain may hold ([sizeof] in C++) *)

Module NodeKinds.
Definition VkPhysicalDeviceVulkan11Features : list kind :=
  [KI32; KU64] ++ replicate 12 KU32.
Definition VkPhysicalDeviceVulkan12Features : list kind :=
  [KI32; KU64] ++ replicate 47 KU32.
Definition VkPhysicalDeviceBufferDeviceAddressFeatures : list kind :=
  [KI32; KU64; KU32; KU32; KU32].
Definition VkPhysicalDeviceDescriptorIndexingFeatures : list kind :=
  [KI32; KU64] ++ replicate 20 KU32.
Definition VkPhysicalDeviceDepthStencilResolveProperties : list kind :=
  [KI32; KU64; KU32; KU32; KU32; KU32].
Definition VkPhysicalDeviceVulkan11Properties : list kind :=
  [KI32; KU64] ++ replicate 40 K8 ++ replicate 6 KU32 ++ [KI32; KU32; KU32; KU32; KU32; KU64].
Definition VkPhysicalDeviceSubgroupProperties : list kind :=
  [KI32; KU64; KU32; KU32; KU32; KU32].
Definition VkPhysicalDeviceIDProperties : list kind :=
  [KI32; KU64] ++ replicate 40 K8 ++ [KU32; KU32].
Definition VkPhysicalDeviceMaintenance3Properties : list kind :=
  [KI32; KU64; KU32; KU64].
Definition VkPhysicalDeviceFragmentShadingRateFeaturesKHR : list kind :=
  [KI32; KU64; KU32; KU32; KU32].
Definition VkPhysicalDeviceFragmentShadingRatePropertiesKHR : list kind :=
  [KI32; KU64] ++ replicate 20 KU32.
Definition VkPhysicalDeviceMultiviewFeatures : list kind :=
  [KI32; KU64; KU32; KU32; KU32].
Definition VkPhysicalDeviceMultiviewProperties : list kind :=
  [KI32; KU64; KU32; KU32].
Definition VkRenderPassInputAttachmentAspectCreateInfo : list kind :=
  [KI32; KU64; KU32; KU64].
Definition VkRenderPassMultiviewCreateInfo : list kind :=
  [KI32; KU64; KU32; KU64; KU32; KU64; KU32; KU64].
Definition VkFragmentShadingRateAttachmentInfoKHR : list kind :=
  [KI32; KU64; KU64; KU32; KU32].
Definition VkPipelineFragmentShadingRateStateCreateInfoKHR : list kind :=
  [KI32; KU64; KU32; KU32; KI32; KI32].
Definition VkImageFormatListCreateInfo : list kind :=
  [KI32; KU64; KU32; KU64].
Definition VkMemoryDedicatedRequirements : list kind :=
  [KI32; KU64; KU32; KU32].
Definition VkFramebufferAttachmentsCreateInfo : list kind :=
  [KI32; KU64; KU32; KU64].
Definition VkSemaphoreTypeCreateInfo : list kind :=
  [KI32; KU64; KI32; KU64].
Definition VkTimelineSemaphoreSubmitInfo : list kind :=
  [KI32; KU64; KU32; KU64; KU32; KU64].
Definition VkMemoryAllocateFlagsInfo : list kind :=
  [KI32; KU64; KU32; KU32].
Definition VkRenderPassAttachmentBeginInfo : list kind :=
  [KI32; KU64; KU32; KU64].
Definition VkPhysicalDeviceFeatures2 : list kind :=
  [KI32; KU64] ++ replicate 55 KU32.
Definition VkPhysicalDeviceVulkan12Properties : list kind :=
  [KI32; KU64; KI32] ++ replicate 516 K8 ++ [KI32; KI32] ++ replicate 44 KU32 ++ [KU64; KU32].
Definition VkPhysicalDeviceHostQueryResetFeatures : list kind :=
  [KI32; KU64; KU32].
Definition VkPhysicalDeviceTimelineSemaphoreFeatures : list kind :=
  [KI32; KU64; KU32].
Definition VkPhysicalDeviceSynchronization2Features : list kind :=
  [KI32; KU64; KU32].
Definition VkPhysicalDeviceTimelineSemaphoreProperties : list kind :=
  [KI32; KU64; KU64].
Definition VkPhysicalDeviceDescriptorIndexingProperties : list kind :=
  [KI32; KU64] ++ replicate 23 KU32.
Definition VkPhysicalDeviceSeparateDepthStencilLayoutsFeatures : list kind :=
  [KI32; KU64; KU32].
Definition VkPhysicalDeviceProtectedMemoryFeatures : list kind :=
  [KI32; KU64; KU32].
Definition VkPhysicalDeviceSamplerYcbcrConversionFeatures : list kind :=
  [KI32; KU64; KU32].
Definition VkPhysicalDeviceProtectedMemoryProperties : list kind :=
  [KI32; KU64; KU32].
Definition VkPhysicalDeviceImagelessFramebufferFeatures : list kind :=
  [KI32; KU64; KU32].
Definition VkPhysicalDevicePointClippingProperties : list kind :=
  [KI32; KU64; KI32].
Definition VkPipelineTessellationDomainOriginStateCreateInfo : list kind :=
  [KI32; KU64; KI32].
Definition VkImageViewUsageCreateInfo : list kind :=
  [KI32; KU64; KU32].
Definition VkSamplerYcbcrConversionInfo : list kind :=
  [KI32; KU64; KU64].
Definition VkSamplerYcbcrConversionImageFormatProperties : list kind :=
  [KI32; KU64; KU32].
Definition VkImagePlaneMemoryRequirementsInfo : list kind :=
  [KI32; KU64; KU32].
Definition VkBindImagePlaneMemoryInfo : list kind :=
  [KI32; KU64; KU32].
Definition VkBufferOpaqueCaptureAddressCreateInfo : list kind :=
  [KI32; KU64; KU64].
End NodeKinds.

(** ** Structure types and other enumerants *)

Definition VK_STRUCTURE_TYPE_ATTACHMENT_DESCRIPTION_2 : Z := 1000109000.
Definition VK_STRUCTURE_TYPE_ATTACHMENT_REFERENCE_2 : Z := 1000109001.
Definition VK_STRUCTURE_TYPE_BIND_IMAGE_PLANE_MEMORY_INFO : Z := 1000156002.
Definition VK_STRUCTURE_TYPE_BUFFER_MEMORY_BARRIER_2 : Z := 1000314001.
Definition VK_STRUCTURE_TYPE_BUFFER_OPAQUE_CAPTURE_ADDRESS_CREATE_INFO : Z := 1000257002.
Definition VK_STRUCTURE_TYPE_BUFFER_VIEW_CREATE_INFO : Z := 13.
Definition VK_STRUCTURE_TYPE_COMMAND_BUFFER_BEGIN_INFO : Z := 42.
Definition VK_STRUCTURE_TYPE_COMMAND_BUFFER_INHERITANCE_INFO : Z := 41.
Definition VK_STRUCTURE_TYPE_COMMAND_BUFFER_SUBMIT_INFO : Z := 1000314006.
Definition VK_STRUCTURE_TYPE_DEPENDENCY_INFO : Z := 1000314003.
Definition VK_STRUCTURE_TYPE_DESCRIPTOR_UPDATE_TEMPLATE_CREATE_INFO : Z := 1000085000.
Definition VK_STRUCTURE_TYPE_EVENT_CREATE_INFO : Z := 10.
Definition VK_STRUCTURE_TYPE_FRAGMENT_SHADING_RATE_ATTACHMENT_INFO_KHR : Z := 1000226000.
Definition VK_STRUCTURE_TYPE_FRAMEBUFFER_ATTACHMENTS_CREATE_INFO : Z := 1000108001.
Definition VK_STRUCTURE_TYPE_FRAMEBUFFER_ATTACHMENT_IMAGE_INFO : Z := 1000108002.
Definition VK_STRUCTURE_TYPE_IMAGE_FORMAT_LIST_CREATE_INFO : Z := 1000147000.
Definition VK_STRUCTURE_TYPE_IMAGE_MEMORY_BARRIER_2 : Z := 1000314002.
Definition VK_STRUCTURE_TYPE_IMAGE_PLANE_MEMORY_REQUIREMENTS_INFO : Z := 1000156003.
Definition VK_STRUCTURE_TYPE_IMAGE_VIEW_USAGE_CREATE_INFO : Z := 1000117002.
Definition VK_STRUCTURE_TYPE_LOADER_DEVICE_CREATE_INFO : Z := 48.
Definition VK_STRUCTURE_TYPE_MEMORY_ALLOCATE_FLAGS_INFO : Z := 1000060000.
Definition VK_STRUCTURE_TYPE_MEMORY_BARRIER_2 : Z := 1000314000.
Definition VK_STRUCTURE_TYPE_MEMORY_DEDICATED_REQUIREMENTS : Z := 1000127000.
Definition VK_STRUCTURE_TYPE_PHYSICAL_DEVICE_BUFFER_DEVICE_ADDRESS_FEATURES : Z := 1000257000.
Definition VK_STRUCTURE_TYPE_PHYSICAL_DEVICE_DEPTH_STENCIL_RESOLVE_PROPERTIES : Z := 1000199000.
Definition VK_STRUCTURE_TYPE_PHYSICAL_DEVICE_DESCRIPTOR_INDEXING_FEATURES : Z := 1000161001.
Definition VK_STRUCTURE_TYPE_PHYSICAL_DEVICE_DESCRIPTOR_INDEXING_PROPERTIES : Z := 1000161002.
Definition VK_STRUCTURE_TYPE_PHYSICAL_DEVICE_FEATURES_2 : Z := 1000059000.
Definition VK_STRUCTURE_TYPE_PHYSICAL_DEVICE_FRAGMENT_SHADING_RATE_FEATURES_KHR : Z := 1000226003.
Definition VK_STRUCTURE_TYPE_PHYSICAL_DEVICE_FRAGMENT_SHADING_RATE_PROPERTIES_KHR : Z := 1000226002.
Definition VK_STRUCTURE_TYPE_PHYSICAL_DEVICE_HOST_QUERY_RESET_FEATURES : Z := 1000261000.
Definition VK_STRUCTURE_TYPE_PHYSICAL_DEVICE_ID_PROPERTIES : Z := 1000071004.
Definition VK_STRUCTURE_TYPE_PHYSICAL_DEVICE_IMAGELESS_FRAMEBUFFER_FEATURES : Z := 1000108000.
Definition VK_STRUCTURE_TYPE_PHYSICAL_DEVICE_MAINTENANCE_3_PROPERTIES : Z := 1000168000.
Definition VK_STRUCTURE_TYPE_PHYSICAL_DEVICE_MULTIVIEW_FEATURES : Z := 1000053001.
Definition VK_STRUCTURE_TYPE_PHYSICAL_DEVICE_MULTIVIEW_PROPERTIES : Z := 1000053002.
Definition VK_STRUCTURE_TYPE_PHYSICAL_DEVICE_POINT_CLIPPING_PROPERTIES : Z := 1000117000.
Definition VK_STRUCTURE_TYPE_PHYSICAL_DEVICE_PROTECTED_MEMORY_FEATURES : Z := 1000145001.
Definition VK_STRUCTURE_TYPE_PHYSICAL_DEVICE_PROTECTED_MEMORY_PROPERTIES : Z := 1000145002.
Definition VK_STRUCTURE_TYPE_PHYSICAL_DEVICE_SAMPLER_YCBCR_CONVERSION_FEATURES : Z := 1000156004.
Definition VK_STRUCTURE_TYPE_PHYSICAL_DEVICE_SEPARATE_DEPTH_STENCIL_LAYOUTS_FEATURES : Z := 1000241000.
Definition VK_STRUCTURE_TYPE_PHYSICAL_DEVICE_SUBGROUP_PROPERTIES : Z := 1000094000.
Definition VK_STRUCTURE_TYPE_PHYSICAL_DEVICE_SYNCHRONIZATION_2_FEATURES : Z := 1000314007.
Definition VK_STRUCTURE_TYPE_PHYSICAL_DEVICE_TIMELINE_SEMAPHORE_FEATURES : Z := 1000207000.
Definition VK_STRUCTURE_TYPE_PHYSICAL_DEVICE_TIMELINE_SEMAPHORE_PROPERTIES : Z := 1000207001.
Definition VK_STRUCTURE_TYPE_PHYSICAL_DEVICE_VULKAN_1_1_FEATURES : Z := 49.
Definition VK_STRUCTURE_TYPE_PHYSICAL_DEVICE_VULKAN_1_1_PROPERTIES : Z := 50.
Definition VK_STRUCTURE_TYPE_PHYSICAL_DEVICE_VULKAN_1_2_FEATURES : Z := 51.
Definition VK_STRUCTURE_TYPE_PHYSICAL_DEVICE_VULKAN_1_2_PROPERTIES : Z := 52.
Definition VK_STRUCTURE_TYPE_PIPELINE_FRAGMENT_SHADING_RATE_STATE_CREATE_INFO_KHR : Z := 1000226001.
Definition VK_STRUCTURE_TYPE_PIPELINE_TESSELLATION_DOMAIN_ORIGIN_STATE_CREATE_INFO : Z := 1000117003.
Definition VK_STRUCTURE_TYPE_QUERY_POOL_CREATE_INFO : Z := 11.
Definition VK_STRUCTURE_TYPE_RENDER_PASS_ATTACHMENT_BEGIN_INFO : Z := 1000108003.
Definition VK_STRUCTURE_TYPE_RENDER_PASS_CREATE_INFO_2 : Z := 1000109004.
Definition VK_STRUCTURE_TYPE_RENDER_PASS_INPUT_ATTACHMENT_ASPECT_CREATE_INFO : Z := 1000117001.
Definition VK_STRUCTURE_TYPE_RENDER_PASS_MULTIVIEW_CREATE_INFO : Z := 1000053000.
Definition VK_STRUCTURE_TYPE_SAMPLER_YCBCR_CONVERSION_CREATE_INFO : Z := 1000156000.
Definition VK_STRUCTURE_TYPE_SAMPLER_YCBCR_CONVERSION_IMAGE_FORMAT_PROPERTIES : Z := 1000156005.
Definition VK_STRUCTURE_TYPE_SAMPLER_YCBCR_CONVERSION_INFO : Z := 1000156001.
Definition VK_STRUCTURE_TYPE_SEMAPHORE_SUBMIT_INFO : Z := 1000314005.
Definition VK_STRUCTURE_TYPE_SEMAPHORE_TYPE_CREATE_INFO : Z := 1000207002.
Definition VK_STRUCTURE_TYPE_SHADER_MODULE_CREATE_INFO : Z := 16.
Definition VK_STRUCTURE_TYPE_SUBMIT_INFO_2 : Z := 1000314004.
Definition VK_STRUCTURE_TYPE_SUBPASS_BEGIN_INFO : Z := 1000109005.
Definition VK_STRUCTURE_TYPE_SUBPASS_DEPENDENCY_2 : Z := 1000109003.
Definition VK_STRUCTURE_TYPE_SUBPASS_DESCRIPTION_2 : Z := 1000109002.
Definition VK_STRUCTURE_TYPE_SUBPASS_END_INFO : Z := 1000109006.
Definition VK_STRUCTURE_TYPE_TIMELINE_SEMAPHORE_SUBMIT_INFO : Z := 1000207003.
Definition VK_DESCRIPTOR_TYPE_SAMPLER : Z := 0.
Definition VK_DESCRIPTOR_TYPE_COMBINED_IMAGE_SAMPLER : Z := 1.
Definition VK_DESCRIPTOR_TYPE_SAMPLED_IMAGE : Z := 2.
Definition VK_DESCRIPTOR_TYPE_STORAGE_IMAGE : Z := 3.
Definition VK_DESCRIPTOR_TYPE_INPUT_ATTACHMENT : Z := 10.
Definition VK_DESCRIPTOR_TYPE_UNIFORM_BUFFER : Z := 6.
Definition VK_DESCRIPTOR_TYPE_STORAGE_BUFFER : Z := 7.
Definition VK_DESCRIPTOR_TYPE_UNIFORM_BUFFER_DYNAMIC : Z := 8.
Definition VK_DESCRIPTOR_TYPE_STORAGE_BUFFER_DYNAMIC : Z := 9.
Definition VK_DESCRIPTOR_TYPE_UNIFORM_TEXEL_BUFFER : Z := 4.
Definition VK_DESCRIPTOR_TYPE_STORAGE_TEXEL_BUFFER : Z := 5.
Definition VK_SAMPLE_COUNT_1_BIT : Z := 1.
Definition VK_SAMPLE_COUNT_64_BIT : Z := 64.
Definition VK_FRAMEBUFFER_CREATE_IMAGELESS_BIT : Z := 1.
Definition VK_DESCRIPTOR_SET_LAYOUT_CREATE_UPDATE_AFTER_BIND_POOL_BIT : Z := 2.
Definition VK_DESCRIPTOR_POOL_CREATE_UPDATE_AFTER_BIND_BIT : Z := 2.
Definition VK_MEMORY_ALLOCATE_DEVICE_ADDRESS_BIT : Z := 2.
Definition VK_MEMORY_PROPERTY_HOST_VISIBLE_BIT : Z := 2.
Definition VK_MEMORY_PROPERTY_HOST_COHERENT_BIT : Z := 4.
Definition VK_MEMORY_PROPERTY_DEVICE_COHERENT_BIT_AMD : Z := 64.
Definition VK_MEMORY_PROPERTY_DEVICE_UNCACHED_BIT_AMD : Z := 128.
Definition VK_SUCCESS : Z := 0.
Definition VK_NOT_READY : Z := 1.
Definition VK_TIMEOUT : Z := 2.
Definition VK_INCOMPLETE : Z := 5.
Definition VK_ERROR_OUT_OF_HOST_MEMORY : Z := -1.
Definition VK_ERROR_OUT_OF_DEVICE_MEMORY : Z := -2.
Definition VK_ERROR_INITIALIZATION_FAILED : Z := -3.
Definition VK_ERROR_DEVICE_LOST : Z := -4.
Definition VK_ERROR_MEMORY_MAP_FAILED : Z := -5.
Definition VK_ERROR_FEATURE_NOT_PRESENT : Z := -8.
Definition VK_UUID_SIZE : Z := 16.
Definition VK_LUID_SIZE : Z := 8.
Definition VK_MAX_MEMORY_TYPES : Z := 32.
Definition VK_MAX_MEMORY_HEAPS : Z := 16.
Definition VK_MAX_EXTENSION_NAME_SIZE : Z := 256.
Definition VK_MAX_PHYSICAL_DEVICE_NAME_SIZE : Z := 256.
