(* ===== verification/ExtensionContract.v ===== *)
(** The contract of the remoted extension set, shared by client and server:
    [src/common/extension_contract.hpp] and [src/common/memory_contract.hpp]. *)

From stdpp Require Import strings.
From S2P Require Import Prelude Wire CLayout VkStructs.

(** ** Extension names and their dependencies *)
Section Extensions.

(** Extension and command names are C strings; the model compares their
    contents ([std::strcmp]). *)
Definition VK_KHR_MULTIVIEW : string := "VK_KHR_multiview".
Definition VK_KHR_MAINTENANCE_2 : string := "VK_KHR_maintenance2".
Definition VK_KHR_IMAGE_FORMAT_LIST : string := "VK_KHR_image_format_list".
Definition VK_KHR_CREATE_RENDERPASS_2 : string := "VK_KHR_create_renderpass2".
Definition VK_KHR_FRAGMENT_SHADING_RATE : string := "VK_KHR_fragment_shading_rate".
Definition VK_KHR_IMAGELESS_FRAMEBUFFER : string := "VK_KHR_imageless_framebuffer".
Definition VK_KHR_SYNCHRONIZATION_2 : string := "VK_KHR_synchronization2".
Definition VK_KHR_BUFFER_DEVICE_ADDRESS : string := "VK_KHR_buffer_device_address".

(** extension_contract.hpp:31-38. *)
Definition kRequiredDeviceExtensions : list string :=
  [VK_KHR_MULTIVIEW; VK_KHR_MAINTENANCE_2; VK_KHR_IMAGE_FORMAT_LIST;
   VK_KHR_CREATE_RENDERPASS_2; VK_KHR_FRAGMENT_SHADING_RATE; VK_KHR_IMAGELESS_FRAMEBUFFER].

Definition streq (a b : string) : bool := bool_decide (a = b).

(** extension_contract.hpp:40-45; [None] is a null [const char*]. *)
Definition is_required_device_extension (name : option string) : bool :=
  match name with
  | None => false
  | Some n => existsb (streq n) kRequiredDeviceExtensions
  end.

(** extension_contract.hpp:47-64. *)
Definition device_extension_dependencies_satisfied (name : option string)
    (enabled : string -> bool) (properties2_enabled : bool) : bool :=
  match name with
  | None => false
  | Some n =>
      if streq n VK_KHR_MULTIVIEW || streq n VK_KHR_SYNCHRONIZATION_2 then properties2_enabled
      else if streq n VK_KHR_CREATE_RENDERPASS_2 then
        enabled VK_KHR_MULTIVIEW && enabled VK_KHR_MAINTENANCE_2
      else if streq n VK_KHR_FRAGMENT_SHADING_RATE then
        properties2_enabled && enabled VK_KHR_CREATE_RENDERPASS_2
      else if streq n VK_KHR_IMAGELESS_FRAMEBUFFER then
        properties2_enabled && enabled VK_KHR_MAINTENANCE_2 && enabled VK_KHR_IMAGE_FORMAT_LIST
      else true
  end.

(** extension_contract.hpp:66-87; [None] is the null result. *)
Definition device_extension_for_command (name : option string) : option string :=
  match name with
  | None => None
  | Some n =>
      if streq n "vkCreateRenderPass2KHR" || streq n "vkCmdBeginRenderPass2KHR" ||
         streq n "vkCmdNextSubpass2KHR" || streq n "vkCmdEndRenderPass2KHR"
      then Some VK_KHR_CREATE_RENDERPASS_2
      else if streq n "vkCmdSetFragmentShadingRateKHR" then Some VK_KHR_FRAGMENT_SHADING_RATE
      else if streq n "vkGetBufferDeviceAddressKHR" ||
              streq n "vkGetBufferOpaqueCaptureAddressKHR" ||
              streq n "vkGetDeviceMemoryOpaqueCaptureAddressKHR"
      then Some VK_KHR_BUFFER_DEVICE_ADDRESS
      else if streq n "vkQueueSubmit2KHR" || streq n "vkCmdPipelineBarrier2KHR" ||
              streq n "vkCmdSetEvent2KHR" || streq n "vkCmdResetEvent2KHR" ||
              streq n "vkCmdWaitEvents2KHR" || streq n "vkCmdWriteTimestamp2KHR"
      then Some VK_KHR_SYNCHRONIZATION_2
      else None
  end.

(** extension_contract.hpp:160-175. *)
Definition is_properties2_command (name : option string) : bool :=
  match name with
  | None => false
  | Some n => existsb (streq n)
      ["vkGetPhysicalDeviceFeatures2"; "vkGetPhysicalDeviceFeatures2KHR";
       "vkGetPhysicalDeviceProperties2"; "vkGetPhysicalDeviceProperties2KHR";
       "vkGetPhysicalDeviceFormatProperties2"; "vkGetPhysicalDeviceFormatProperties2KHR";
       "vkGetPhysicalDeviceImageFormatProperties2";
       "vkGetPhysicalDeviceImageFormatProperties2KHR";
       "vkGetPhysicalDeviceQueueFamilyProperties2";
       "vkGetPhysicalDeviceQueueFamilyProperties2KHR";
       "vkGetPhysicalDeviceMemoryProperties2"; "vkGetPhysicalDeviceMemoryProperties2KHR";
       "vkGetPhysicalDeviceSparseImageFormatProperties2";
       "vkGetPhysicalDeviceSparseImageFormatProperties2KHR"]
  end.

End Extensions.

(** ** Feature policies *)
Section Policies.

Import VkPhysicalDeviceVulkan12Features.

(** extension_contract.hpp:106-125. *)
Definition apply_vulkan12_feature_policy (f : t) : t := mk
  (samplerMirrorClampToEdge f) (drawIndirectCount f) (storageBuffer8BitAccess f)
  (uniformAndStorageBuffer8BitAccess f) (storagePushConstant8 f) (shaderBufferInt64Atomics f)
  (shaderSharedInt64Atomics f) (shaderFloat16 f) (shaderInt8 f) (descriptorIndexing f)
  (shaderInputAttachmentArrayDynamicIndexing f)
  (shaderUniformTexelBufferArrayDynamicIndexing f)
  (shaderStorageTexelBufferArrayDynamicIndexing f)
  (shaderUniformBufferArrayNonUniformIndexing f) (shaderSampledImageArrayNonUniformIndexing f)
  (shaderStorageBufferArrayNonUniformIndexing f) (shaderStorageImageArrayNonUniformIndexing f)
  (shaderInputAttachmentArrayNonUniformIndexing f)
  (shaderUniformTexelBufferArrayNonUniformIndexing f)
  (shaderStorageTexelBufferArrayNonUniformIndexing f)
  (* descriptorBindingUniformBufferUpdateAfterBind ... runtimeDescriptorArray *)
  0 0 0 0 0 0 0 0 0 0
  (samplerFilterMinmax f) (scalarBlockLayout f) (imagelessFramebuffer f)
  (uniformBufferStandardLayout f) (shaderSubgroupExtendedTypes f)
  (separateDepthStencilLayouts f) (hostQueryReset f) (timelineSemaphore f)
  (bufferDeviceAddress f)
  (* bufferDeviceAddressCaptureReplay, bufferDeviceAddressMultiDevice *)
  0 0
  (vulkanMemoryModel f) (vulkanMemoryModelDeviceScope f)
  (vulkanMemoryModelAvailabilityVisibilityChains f) (shaderOutputViewportIndex f)
  (shaderOutputLayer f) (subgroupBroadcastDynamicId f).

(** The struct as an array of 32-bit words from its first feature to its end:
    the features, then the struct's trailing padding. *)
Definition vulkan12_words `{Abi} (f : t) : list Z := words f ++ [le_value (pad 204 4)].

(** extension_contract.hpp:147-158. *)
Definition vulkan12_requested_features_supported `{Abi} (f : t) : bool :=
  let allowed := apply_vulkan12_feature_policy f in
  forallb (fun rf : Z * Z => negb (negb (fst rf =? 0) && (snd rf =? 0)))
    (zip (vulkan12_words f) (vulkan12_words allowed)).

End Policies.

(** extension_contract.hpp:127-139. *)
Definition apply_descriptor_indexing_feature_policy
    (f : VkPhysicalDeviceDescriptorIndexingFeatures.t) :=
  VkPhysicalDeviceDescriptorIndexingFeatures.of_words
    (take 10 (VkPhysicalDeviceDescriptorIndexingFeatures.words f) ++ replicate 10 0).

(** extension_contract.hpp:141-145. *)
Definition apply_buffer_address_feature_policy
    (f : VkPhysicalDeviceBufferDeviceAddressFeatures.t) :=
  VkPhysicalDeviceBufferDeviceAddressFeatures.mk
    (VkPhysicalDeviceBufferDeviceAddressFeatures.bufferDeviceAddress f) 0 0.

(** ** Memory properties *)

(** memory_contract.hpp:7-8. *)
Definition kCapabilityWholeCopyHostCoherent : Z := Z.shiftl 1 0.
Definition kKnownCapabilities : Z := kCapabilityWholeCopyHostCoherent.

(** memory_contract.hpp:10-18. *)
Definition public_memory_property_flags (flags capabilities : Z) : Z :=
  let hidden := Z.lor VK_MEMORY_PROPERTY_DEVICE_COHERENT_BIT_AMD
                      VK_MEMORY_PROPERTY_DEVICE_UNCACHED_BIT_AMD in
  let hidden :=
    if Z.land capabilities kCapabilityWholeCopyHostCoherent =? 0
    then Z.lor hidden VK_MEMORY_PROPERTY_HOST_COHERENT_BIT else hidden in
  Z.ldiff flags hidden.

(** ** Theorems *)

Section PolicyFacts.
Import VkPhysicalDeviceVulkan12Features.

(** The words the policy keeps. *)
Definition vulkan12_kept : list bool :=
  replicate 20 true ++ replicate 10 false ++ replicate 9 true ++ [false; false] ++
  replicate 6 true.

Definition mask_words (keep : list bool) (ws : list Z) : list Z :=
  zip_with (fun (k : bool) w => if k then w else 0) keep ws.

Lemma policy_words f : words (apply_vulkan12_feature_policy f) = mask_words vulkan12_kept (words f).
Proof. by destruct f. Qed.

Lemma words_inj f g : words f = words g -> f = g.
Proof. intros H. by rewrite <- (VkPhysicalDeviceVulkan12Features_words f), H, VkPhysicalDeviceVulkan12Features_words. Qed.

(** No requested word is filtered exactly when the mask changes nothing. *)
Lemma requested_masked keep : forall ws tl, length keep = length ws ->
  forallb (fun rf : Z * Z => negb (negb (fst rf =? 0) && (snd rf =? 0)))
    (zip (ws ++ [tl]) (mask_words keep ws ++ [tl])) = true
  <-> mask_words keep ws = ws.
Proof.
  induction keep as [|k keep IH]; intros [|w ws] tl Hl; cbn in Hl; try lia.
  - cbn. by destruct (tl =? 0).
  - cbn -[Z.eqb]. change (zip_with _ keep ws) with (mask_words keep ws).
    rewrite andb_true_iff, IH by lia.
    destruct k; [|destruct (Z.eqb_spec w 0) as [->|Hw]]; cbn -[Z.eqb]; split.
    + by intros [_ ->].
    + intros [=]. split; [by destruct (w =? 0)|done].
    + by intros [_ ->].
    + by intros [= ->].
    + intros [[=] _].
    + congruence.
Qed.

End PolicyFacts.

(** A device-creation request for Vulkan 1.2 features is accepted by
    [vulkan12_requested_features_supported] exactly when the feature policy leaves it
    unchanged, that is, when no hidden feature is requested; the padding word
    the loop also visits never changes the answer. *)
Theorem vulkan12_requested_features_supported_iff `{Abi} f :
  vulkan12_requested_features_supported f = true <-> apply_vulkan12_feature_policy f = f.
Proof.
  unfold vulkan12_requested_features_supported, vulkan12_words.
  rewrite policy_words, requested_masked by (by destruct f).
  rewrite <- policy_words. split; [apply words_inj|congruence].
Qed.
