(* ===== verification/PNext.v ===== *)
(** The pNext chain codec of [src/common/marshal.cpp] (lines 252-893): an
    allowlist of structure types per context, a transactional field-wise
    encoding, and the decoder, which trusts neither counts nor types.

    A chain is the list of its nodes; a node is one of the structures of the
    allowlists with its members, or some other structure. *)

From stdpp Require Import list.
From S2P Require Import Prelude Wire Codec CLayout VkStructs ExtensionContract.
Import ReaderFacts.
Open Scope wire_scope.

(** ** Limits and contexts *)

(** marshal.hpp:53-60. *)
Definition kMaxArrayElements : Z := Z.shiftl 1 20.
Definition kMaxPNextNodes : Z := 16.
Definition kMaxPNextDepth : Z := 4.
Definition kMaxShaderCodeBytes : Z := 16 * 1024 * 1024.

(** The server's lookup of the handle an id names, 0 when there is none;
    marshal.hpp:66-92. *)
Class HandleResolver := {
  hr_buffer : Z -> Z;
  hr_image : Z -> Z;
  hr_image_view : Z -> Z;
  hr_buffer_view : Z -> Z;
  hr_memory : Z -> Z;
  hr_render_pass : Z -> Z;
  hr_framebuffer : Z -> Z;
  hr_shader_module : Z -> Z;
  hr_pipeline : Z -> Z;
  hr_pipeline_layout : Z -> Z;
  hr_pipeline_cache : Z -> Z;
  hr_descriptor_set_layout : Z -> Z;
  hr_descriptor_pool : Z -> Z;
  hr_descriptor_set : Z -> Z;
  hr_sampler : Z -> Z;
  hr_sampler_ycbcr_conversion : Z -> Z;
  hr_semaphore : Z -> Z;
  hr_fence : Z -> Z;
  hr_event : Z -> Z;
  hr_query_pool : Z -> Z;
  hr_surface : Z -> Z;
  hr_swapchain : Z -> Z;
  hr_command_pool : Z -> Z;
  hr_command_buffer : Z -> Z
}.

(** [id ? resolve(id) : VK_NULL_HANDLE]; marshal.cpp:17-21. *)
Definition patch_handle (resolve : Z -> Z) (id : Z) : Z := if id =? 0 then 0 else resolve id.

(** marshal.hpp:96-121. *)
Inductive PNextContext :=
  | QueryFeaturesOutput | QueryPropertiesOutput | ImageFormatPropertiesOutput | DeviceCreate
  | RenderPass | RenderPass2 | GraphicsPipeline | TessellationState | ImageCreate
  | ImageViewCreate | SamplerCreate | MemoryRequirements2 | BindBufferMemory2
  | BindImageMemory2 | DescriptorSetLayoutSupport | FramebufferCreate | RenderPassBegin
  | SemaphoreCreate | Submit | BufferCreate | MemoryAllocate | ShaderModule.

(** ** Structure types

    The enumerants of [VkStructureType] the codec names; every other 32-bit
    value is an [OTHER_STRUCTURE]. *)
Inductive VkStructureType :=
  | PHYSICAL_DEVICE_FEATURES_2 | PHYSICAL_DEVICE_VULKAN_1_1_FEATURES |
  PHYSICAL_DEVICE_VULKAN_1_2_FEATURES | PHYSICAL_DEVICE_HOST_QUERY_RESET_FEATURES |
  PHYSICAL_DEVICE_TIMELINE_SEMAPHORE_FEATURES | PHYSICAL_DEVICE_SYNCHRONIZATION_2_FEATURES |
  PHYSICAL_DEVICE_BUFFER_DEVICE_ADDRESS_FEATURES | PHYSICAL_DEVICE_DESCRIPTOR_INDEXING_FEATURES
  | PHYSICAL_DEVICE_SEPARATE_DEPTH_STENCIL_LAYOUTS_FEATURES |
  PHYSICAL_DEVICE_VULKAN_1_2_PROPERTIES | PHYSICAL_DEVICE_TIMELINE_SEMAPHORE_PROPERTIES |
  PHYSICAL_DEVICE_DEPTH_STENCIL_RESOLVE_PROPERTIES |
  PHYSICAL_DEVICE_DESCRIPTOR_INDEXING_PROPERTIES | PHYSICAL_DEVICE_PROTECTED_MEMORY_FEATURES |
  PHYSICAL_DEVICE_SAMPLER_YCBCR_CONVERSION_FEATURES | PHYSICAL_DEVICE_VULKAN_1_1_PROPERTIES |
  PHYSICAL_DEVICE_SUBGROUP_PROPERTIES | PHYSICAL_DEVICE_ID_PROPERTIES |
  PHYSICAL_DEVICE_PROTECTED_MEMORY_PROPERTIES | PHYSICAL_DEVICE_MAINTENANCE_3_PROPERTIES |
  PHYSICAL_DEVICE_FRAGMENT_SHADING_RATE_FEATURES_KHR |
  PHYSICAL_DEVICE_FRAGMENT_SHADING_RATE_PROPERTIES_KHR |
  PHYSICAL_DEVICE_IMAGELESS_FRAMEBUFFER_FEATURES | PHYSICAL_DEVICE_MULTIVIEW_FEATURES |
  PHYSICAL_DEVICE_MULTIVIEW_PROPERTIES | PHYSICAL_DEVICE_POINT_CLIPPING_PROPERTIES |
  RENDER_PASS_INPUT_ATTACHMENT_ASPECT_CREATE_INFO | RENDER_PASS_MULTIVIEW_CREATE_INFO |
  FRAGMENT_SHADING_RATE_ATTACHMENT_INFO_KHR |
  PIPELINE_FRAGMENT_SHADING_RATE_STATE_CREATE_INFO_KHR |
  PIPELINE_TESSELLATION_DOMAIN_ORIGIN_STATE_CREATE_INFO | IMAGE_FORMAT_LIST_CREATE_INFO |
  IMAGE_VIEW_USAGE_CREATE_INFO | SAMPLER_YCBCR_CONVERSION_INFO |
  SAMPLER_YCBCR_CONVERSION_IMAGE_FORMAT_PROPERTIES | IMAGE_PLANE_MEMORY_REQUIREMENTS_INFO |
  MEMORY_DEDICATED_REQUIREMENTS | BIND_IMAGE_PLANE_MEMORY_INFO |
  FRAMEBUFFER_ATTACHMENTS_CREATE_INFO | SEMAPHORE_TYPE_CREATE_INFO |
  TIMELINE_SEMAPHORE_SUBMIT_INFO | BUFFER_OPAQUE_CAPTURE_ADDRESS_CREATE_INFO |
  MEMORY_ALLOCATE_FLAGS_INFO | RENDER_PASS_ATTACHMENT_BEGIN_INFO | LOADER_DEVICE_CREATE_INFO |
  OTHER_STRUCTURE (v : Z).

Definition stype_value (t : VkStructureType) : Z :=
  match t with
  | PHYSICAL_DEVICE_FEATURES_2 => VK_STRUCTURE_TYPE_PHYSICAL_DEVICE_FEATURES_2
  | PHYSICAL_DEVICE_VULKAN_1_1_FEATURES => VK_STRUCTURE_TYPE_PHYSICAL_DEVICE_VULKAN_1_1_FEATURES
  | PHYSICAL_DEVICE_VULKAN_1_2_FEATURES => VK_STRUCTURE_TYPE_PHYSICAL_DEVICE_VULKAN_1_2_FEATURES
  | PHYSICAL_DEVICE_HOST_QUERY_RESET_FEATURES => VK_STRUCTURE_TYPE_PHYSICAL_DEVICE_HOST_QUERY_RESET_FEATURES
  | PHYSICAL_DEVICE_TIMELINE_SEMAPHORE_FEATURES => VK_STRUCTURE_TYPE_PHYSICAL_DEVICE_TIMELINE_SEMAPHORE_FEATURES
  | PHYSICAL_DEVICE_SYNCHRONIZATION_2_FEATURES => VK_STRUCTURE_TYPE_PHYSICAL_DEVICE_SYNCHRONIZATION_2_FEATURES
  | PHYSICAL_DEVICE_BUFFER_DEVICE_ADDRESS_FEATURES => VK_STRUCTURE_TYPE_PHYSICAL_DEVICE_BUFFER_DEVICE_ADDRESS_FEATURES
  | PHYSICAL_DEVICE_DESCRIPTOR_INDEXING_FEATURES => VK_STRUCTURE_TYPE_PHYSICAL_DEVICE_DESCRIPTOR_INDEXING_FEATURES
  | PHYSICAL_DEVICE_SEPARATE_DEPTH_STENCIL_LAYOUTS_FEATURES => VK_STRUCTURE_TYPE_PHYSICAL_DEVICE_SEPARATE_DEPTH_STENCIL_LAYOUTS_FEATURES
  | PHYSICAL_DEVICE_VULKAN_1_2_PROPERTIES => VK_STRUCTURE_TYPE_PHYSICAL_DEVICE_VULKAN_1_2_PROPERTIES
  | PHYSICAL_DEVICE_TIMELINE_SEMAPHORE_PROPERTIES => VK_STRUCTURE_TYPE_PHYSICAL_DEVICE_TIMELINE_SEMAPHORE_PROPERTIES
  | PHYSICAL_DEVICE_DEPTH_STENCIL_RESOLVE_PROPERTIES => VK_STRUCTURE_TYPE_PHYSICAL_DEVICE_DEPTH_STENCIL_RESOLVE_PROPERTIES
  | PHYSICAL_DEVICE_DESCRIPTOR_INDEXING_PROPERTIES => VK_STRUCTURE_TYPE_PHYSICAL_DEVICE_DESCRIPTOR_INDEXING_PROPERTIES
  | PHYSICAL_DEVICE_PROTECTED_MEMORY_FEATURES => VK_STRUCTURE_TYPE_PHYSICAL_DEVICE_PROTECTED_MEMORY_FEATURES
  | PHYSICAL_DEVICE_SAMPLER_YCBCR_CONVERSION_FEATURES => VK_STRUCTURE_TYPE_PHYSICAL_DEVICE_SAMPLER_YCBCR_CONVERSION_FEATURES
  | PHYSICAL_DEVICE_VULKAN_1_1_PROPERTIES => VK_STRUCTURE_TYPE_PHYSICAL_DEVICE_VULKAN_1_1_PROPERTIES
  | PHYSICAL_DEVICE_SUBGROUP_PROPERTIES => VK_STRUCTURE_TYPE_PHYSICAL_DEVICE_SUBGROUP_PROPERTIES
  | PHYSICAL_DEVICE_ID_PROPERTIES => VK_STRUCTURE_TYPE_PHYSICAL_DEVICE_ID_PROPERTIES
  | PHYSICAL_DEVICE_PROTECTED_MEMORY_PROPERTIES => VK_STRUCTURE_TYPE_PHYSICAL_DEVICE_PROTECTED_MEMORY_PROPERTIES
  | PHYSICAL_DEVICE_MAINTENANCE_3_PROPERTIES => VK_STRUCTURE_TYPE_PHYSICAL_DEVICE_MAINTENANCE_3_PROPERTIES
  | PHYSICAL_DEVICE_FRAGMENT_SHADING_RATE_FEATURES_KHR => VK_STRUCTURE_TYPE_PHYSICAL_DEVICE_FRAGMENT_SHADING_RATE_FEATURES_KHR
  | PHYSICAL_DEVICE_FRAGMENT_SHADING_RATE_PROPERTIES_KHR => VK_STRUCTURE_TYPE_PHYSICAL_DEVICE_FRAGMENT_SHADING_RATE_PROPERTIES_KHR
  | PHYSICAL_DEVICE_IMAGELESS_FRAMEBUFFER_FEATURES => VK_STRUCTURE_TYPE_PHYSICAL_DEVICE_IMAGELESS_FRAMEBUFFER_FEATURES
  | PHYSICAL_DEVICE_MULTIVIEW_FEATURES => VK_STRUCTURE_TYPE_PHYSICAL_DEVICE_MULTIVIEW_FEATURES
  | PHYSICAL_DEVICE_MULTIVIEW_PROPERTIES => VK_STRUCTURE_TYPE_PHYSICAL_DEVICE_MULTIVIEW_PROPERTIES
  | PHYSICAL_DEVICE_POINT_CLIPPING_PROPERTIES => VK_STRUCTURE_TYPE_PHYSICAL_DEVICE_POINT_CLIPPING_PROPERTIES
  | RENDER_PASS_INPUT_ATTACHMENT_ASPECT_CREATE_INFO => VK_STRUCTURE_TYPE_RENDER_PASS_INPUT_ATTACHMENT_ASPECT_CREATE_INFO
  | RENDER_PASS_MULTIVIEW_CREATE_INFO => VK_STRUCTURE_TYPE_RENDER_PASS_MULTIVIEW_CREATE_INFO
  | FRAGMENT_SHADING_RATE_ATTACHMENT_INFO_KHR => VK_STRUCTURE_TYPE_FRAGMENT_SHADING_RATE_ATTACHMENT_INFO_KHR
  | PIPELINE_FRAGMENT_SHADING_RATE_STATE_CREATE_INFO_KHR => VK_STRUCTURE_TYPE_PIPELINE_FRAGMENT_SHADING_RATE_STATE_CREATE_INFO_KHR
  | PIPELINE_TESSELLATION_DOMAIN_ORIGIN_STATE_CREATE_INFO => VK_STRUCTURE_TYPE_PIPELINE_TESSELLATION_DOMAIN_ORIGIN_STATE_CREATE_INFO
  | IMAGE_FORMAT_LIST_CREATE_INFO => VK_STRUCTURE_TYPE_IMAGE_FORMAT_LIST_CREATE_INFO
  | IMAGE_VIEW_USAGE_CREATE_INFO => VK_STRUCTURE_TYPE_IMAGE_VIEW_USAGE_CREATE_INFO
  | SAMPLER_YCBCR_CONVERSION_INFO => VK_STRUCTURE_TYPE_SAMPLER_YCBCR_CONVERSION_INFO
  | SAMPLER_YCBCR_CONVERSION_IMAGE_FORMAT_PROPERTIES => VK_STRUCTURE_TYPE_SAMPLER_YCBCR_CONVERSION_IMAGE_FORMAT_PROPERTIES
  | IMAGE_PLANE_MEMORY_REQUIREMENTS_INFO => VK_STRUCTURE_TYPE_IMAGE_PLANE_MEMORY_REQUIREMENTS_INFO
  | MEMORY_DEDICATED_REQUIREMENTS => VK_STRUCTURE_TYPE_MEMORY_DEDICATED_REQUIREMENTS
  | BIND_IMAGE_PLANE_MEMORY_INFO => VK_STRUCTURE_TYPE_BIND_IMAGE_PLANE_MEMORY_INFO
  | FRAMEBUFFER_ATTACHMENTS_CREATE_INFO => VK_STRUCTURE_TYPE_FRAMEBUFFER_ATTACHMENTS_CREATE_INFO
  | SEMAPHORE_TYPE_CREATE_INFO => VK_STRUCTURE_TYPE_SEMAPHORE_TYPE_CREATE_INFO
  | TIMELINE_SEMAPHORE_SUBMIT_INFO => VK_STRUCTURE_TYPE_TIMELINE_SEMAPHORE_SUBMIT_INFO
  | BUFFER_OPAQUE_CAPTURE_ADDRESS_CREATE_INFO => VK_STRUCTURE_TYPE_BUFFER_OPAQUE_CAPTURE_ADDRESS_CREATE_INFO
  | MEMORY_ALLOCATE_FLAGS_INFO => VK_STRUCTURE_TYPE_MEMORY_ALLOCATE_FLAGS_INFO
  | RENDER_PASS_ATTACHMENT_BEGIN_INFO => VK_STRUCTURE_TYPE_RENDER_PASS_ATTACHMENT_BEGIN_INFO
  | LOADER_DEVICE_CREATE_INFO => VK_STRUCTURE_TYPE_LOADER_DEVICE_CREATE_INFO
  | OTHER_STRUCTURE v => v
  end.

Definition named_structures : list VkStructureType :=
  [PHYSICAL_DEVICE_FEATURES_2; PHYSICAL_DEVICE_VULKAN_1_1_FEATURES;
   PHYSICAL_DEVICE_VULKAN_1_2_FEATURES; PHYSICAL_DEVICE_HOST_QUERY_RESET_FEATURES;
   PHYSICAL_DEVICE_TIMELINE_SEMAPHORE_FEATURES; PHYSICAL_DEVICE_SYNCHRONIZATION_2_FEATURES;
   PHYSICAL_DEVICE_BUFFER_DEVICE_ADDRESS_FEATURES; PHYSICAL_DEVICE_DESCRIPTOR_INDEXING_FEATURES;
   PHYSICAL_DEVICE_SEPARATE_DEPTH_STENCIL_LAYOUTS_FEATURES;
   PHYSICAL_DEVICE_VULKAN_1_2_PROPERTIES; PHYSICAL_DEVICE_TIMELINE_SEMAPHORE_PROPERTIES;
   PHYSICAL_DEVICE_DEPTH_STENCIL_RESOLVE_PROPERTIES;
   PHYSICAL_DEVICE_DESCRIPTOR_INDEXING_PROPERTIES; PHYSICAL_DEVICE_PROTECTED_MEMORY_FEATURES;
   PHYSICAL_DEVICE_SAMPLER_YCBCR_CONVERSION_FEATURES; PHYSICAL_DEVICE_VULKAN_1_1_PROPERTIES;
   PHYSICAL_DEVICE_SUBGROUP_PROPERTIES; PHYSICAL_DEVICE_ID_PROPERTIES;
   PHYSICAL_DEVICE_PROTECTED_MEMORY_PROPERTIES; PHYSICAL_DEVICE_MAINTENANCE_3_PROPERTIES;
   PHYSICAL_DEVICE_FRAGMENT_SHADING_RATE_FEATURES_KHR;
   PHYSICAL_DEVICE_FRAGMENT_SHADING_RATE_PROPERTIES_KHR;
   PHYSICAL_DEVICE_IMAGELESS_FRAMEBUFFER_FEATURES; PHYSICAL_DEVICE_MULTIVIEW_FEATURES;
   PHYSICAL_DEVICE_MULTIVIEW_PROPERTIES; PHYSICAL_DEVICE_POINT_CLIPPING_PROPERTIES;
   RENDER_PASS_INPUT_ATTACHMENT_ASPECT_CREATE_INFO; RENDER_PASS_MULTIVIEW_CREATE_INFO;
   FRAGMENT_SHADING_RATE_ATTACHMENT_INFO_KHR;
   PIPELINE_FRAGMENT_SHADING_RATE_STATE_CREATE_INFO_KHR;
   PIPELINE_TESSELLATION_DOMAIN_ORIGIN_STATE_CREATE_INFO; IMAGE_FORMAT_LIST_CREATE_INFO;
   IMAGE_VIEW_USAGE_CREATE_INFO; SAMPLER_YCBCR_CONVERSION_INFO;
   SAMPLER_YCBCR_CONVERSION_IMAGE_FORMAT_PROPERTIES; IMAGE_PLANE_MEMORY_REQUIREMENTS_INFO;
   MEMORY_DEDICATED_REQUIREMENTS; BIND_IMAGE_PLANE_MEMORY_INFO;
   FRAMEBUFFER_ATTACHMENTS_CREATE_INFO; SEMAPHORE_TYPE_CREATE_INFO;
   TIMELINE_SEMAPHORE_SUBMIT_INFO; BUFFER_OPAQUE_CAPTURE_ADDRESS_CREATE_INFO;
   MEMORY_ALLOCATE_FLAGS_INFO; RENDER_PASS_ATTACHMENT_BEGIN_INFO; LOADER_DEVICE_CREATE_INFO].

Definition stype_eqb (a b : VkStructureType) : bool := stype_value a =? stype_value b.

(** [static_cast<VkStructureType>(v)]. *)
Definition stype_of (v : Z) : VkStructureType :=
  match find (fun t => stype_value t =? v) named_structures with
  | Some t => t
  | None => OTHER_STRUCTURE v
  end.

(** marshal.cpp:252-339. *)
Definition pnext_allowed (context : PNextContext) (type : VkStructureType) : bool :=
  match context, type with
  | QueryFeaturesOutput, (PHYSICAL_DEVICE_FRAGMENT_SHADING_RATE_FEATURES_KHR |
      PHYSICAL_DEVICE_IMAGELESS_FRAMEBUFFER_FEATURES | PHYSICAL_DEVICE_MULTIVIEW_FEATURES |
      PHYSICAL_DEVICE_VULKAN_1_1_FEATURES | PHYSICAL_DEVICE_VULKAN_1_2_FEATURES |
      PHYSICAL_DEVICE_HOST_QUERY_RESET_FEATURES | PHYSICAL_DEVICE_TIMELINE_SEMAPHORE_FEATURES |
      PHYSICAL_DEVICE_SYNCHRONIZATION_2_FEATURES |
      PHYSICAL_DEVICE_BUFFER_DEVICE_ADDRESS_FEATURES |
      PHYSICAL_DEVICE_DESCRIPTOR_INDEXING_FEATURES |
      PHYSICAL_DEVICE_SEPARATE_DEPTH_STENCIL_LAYOUTS_FEATURES |
      PHYSICAL_DEVICE_PROTECTED_MEMORY_FEATURES |
      PHYSICAL_DEVICE_SAMPLER_YCBCR_CONVERSION_FEATURES) => true
  | ImageFormatPropertiesOutput, (SAMPLER_YCBCR_CONVERSION_IMAGE_FORMAT_PROPERTIES) => true
  | QueryPropertiesOutput, (PHYSICAL_DEVICE_FRAGMENT_SHADING_RATE_PROPERTIES_KHR |
      PHYSICAL_DEVICE_MULTIVIEW_PROPERTIES | PHYSICAL_DEVICE_POINT_CLIPPING_PROPERTIES |
      PHYSICAL_DEVICE_VULKAN_1_1_PROPERTIES | PHYSICAL_DEVICE_VULKAN_1_2_PROPERTIES |
      PHYSICAL_DEVICE_TIMELINE_SEMAPHORE_PROPERTIES |
      PHYSICAL_DEVICE_DEPTH_STENCIL_RESOLVE_PROPERTIES |
      PHYSICAL_DEVICE_DESCRIPTOR_INDEXING_PROPERTIES | PHYSICAL_DEVICE_SUBGROUP_PROPERTIES |
      PHYSICAL_DEVICE_ID_PROPERTIES | PHYSICAL_DEVICE_PROTECTED_MEMORY_PROPERTIES |
      PHYSICAL_DEVICE_MAINTENANCE_3_PROPERTIES) => true
  | DeviceCreate, (PHYSICAL_DEVICE_FEATURES_2 |
      PHYSICAL_DEVICE_FRAGMENT_SHADING_RATE_FEATURES_KHR |
      PHYSICAL_DEVICE_IMAGELESS_FRAMEBUFFER_FEATURES | PHYSICAL_DEVICE_MULTIVIEW_FEATURES |
      PHYSICAL_DEVICE_VULKAN_1_1_FEATURES | PHYSICAL_DEVICE_VULKAN_1_2_FEATURES |
      PHYSICAL_DEVICE_HOST_QUERY_RESET_FEATURES | PHYSICAL_DEVICE_TIMELINE_SEMAPHORE_FEATURES |
      PHYSICAL_DEVICE_SYNCHRONIZATION_2_FEATURES |
      PHYSICAL_DEVICE_BUFFER_DEVICE_ADDRESS_FEATURES |
      PHYSICAL_DEVICE_DESCRIPTOR_INDEXING_FEATURES |
      PHYSICAL_DEVICE_SEPARATE_DEPTH_STENCIL_LAYOUTS_FEATURES |
      PHYSICAL_DEVICE_PROTECTED_MEMORY_FEATURES |
      PHYSICAL_DEVICE_SAMPLER_YCBCR_CONVERSION_FEATURES) => true
  | RenderPass, (RENDER_PASS_INPUT_ATTACHMENT_ASPECT_CREATE_INFO |
      RENDER_PASS_MULTIVIEW_CREATE_INFO) => true
  | RenderPass2, (FRAGMENT_SHADING_RATE_ATTACHMENT_INFO_KHR) => true
  | GraphicsPipeline, (PIPELINE_FRAGMENT_SHADING_RATE_STATE_CREATE_INFO_KHR) => true
  | TessellationState, (PIPELINE_TESSELLATION_DOMAIN_ORIGIN_STATE_CREATE_INFO) => true
  | ImageCreate, (IMAGE_FORMAT_LIST_CREATE_INFO) => true
  | ImageViewCreate, (IMAGE_VIEW_USAGE_CREATE_INFO | SAMPLER_YCBCR_CONVERSION_INFO) => true
  | SamplerCreate, (SAMPLER_YCBCR_CONVERSION_INFO) => true
  | MemoryRequirements2, (IMAGE_PLANE_MEMORY_REQUIREMENTS_INFO | MEMORY_DEDICATED_REQUIREMENTS)
      => true
  | BindBufferMemory2, _ => false
  | BindImageMemory2, (BIND_IMAGE_PLANE_MEMORY_INFO) => true
  | DescriptorSetLayoutSupport, _ => false
  | FramebufferCreate, (FRAMEBUFFER_ATTACHMENTS_CREATE_INFO) => true
  | RenderPassBegin, (RENDER_PASS_ATTACHMENT_BEGIN_INFO) => true
  | SemaphoreCreate, (SEMAPHORE_TYPE_CREATE_INFO) => true
  | Submit, (TIMELINE_SEMAPHORE_SUBMIT_INFO) => true
  | BufferCreate, (BUFFER_OPAQUE_CAPTURE_ADDRESS_CREATE_INFO) => true
  | MemoryAllocate, (MEMORY_ALLOCATE_FLAGS_INFO) => true
  | ShaderModule, _ => false
  | _, _ => false
  end.

Section NodeSize.
Import NodeKinds.

(** marshal.cpp:341-434. *)
Definition pnext_node_size (type : VkStructureType) : nat :=
  match type with
  | PHYSICAL_DEVICE_FEATURES_2 => sizeof VkPhysicalDeviceFeatures2
  | PHYSICAL_DEVICE_VULKAN_1_1_FEATURES => sizeof VkPhysicalDeviceVulkan11Features
  | PHYSICAL_DEVICE_VULKAN_1_2_FEATURES => sizeof VkPhysicalDeviceVulkan12Features
  | PHYSICAL_DEVICE_HOST_QUERY_RESET_FEATURES =>
      sizeof VkPhysicalDeviceHostQueryResetFeatures
  | PHYSICAL_DEVICE_TIMELINE_SEMAPHORE_FEATURES =>
      sizeof VkPhysicalDeviceTimelineSemaphoreFeatures
  | PHYSICAL_DEVICE_SYNCHRONIZATION_2_FEATURES =>
      sizeof VkPhysicalDeviceSynchronization2Features
  | PHYSICAL_DEVICE_BUFFER_DEVICE_ADDRESS_FEATURES =>
      sizeof VkPhysicalDeviceBufferDeviceAddressFeatures
  | PHYSICAL_DEVICE_DESCRIPTOR_INDEXING_FEATURES =>
      sizeof VkPhysicalDeviceDescriptorIndexingFeatures
  | PHYSICAL_DEVICE_SEPARATE_DEPTH_STENCIL_LAYOUTS_FEATURES =>
      sizeof VkPhysicalDeviceSeparateDepthStencilLayoutsFeatures
  | PHYSICAL_DEVICE_VULKAN_1_2_PROPERTIES => sizeof VkPhysicalDeviceVulkan12Properties
  | PHYSICAL_DEVICE_TIMELINE_SEMAPHORE_PROPERTIES =>
      sizeof VkPhysicalDeviceTimelineSemaphoreProperties
  | PHYSICAL_DEVICE_DEPTH_STENCIL_RESOLVE_PROPERTIES =>
      sizeof VkPhysicalDeviceDepthStencilResolveProperties
  | PHYSICAL_DEVICE_DESCRIPTOR_INDEXING_PROPERTIES =>
      sizeof VkPhysicalDeviceDescriptorIndexingProperties
  | PHYSICAL_DEVICE_PROTECTED_MEMORY_FEATURES =>
      sizeof VkPhysicalDeviceProtectedMemoryFeatures
  | PHYSICAL_DEVICE_SAMPLER_YCBCR_CONVERSION_FEATURES =>
      sizeof VkPhysicalDeviceSamplerYcbcrConversionFeatures
  | PHYSICAL_DEVICE_VULKAN_1_1_PROPERTIES => sizeof VkPhysicalDeviceVulkan11Properties
  | PHYSICAL_DEVICE_SUBGROUP_PROPERTIES => sizeof VkPhysicalDeviceSubgroupProperties
  | PHYSICAL_DEVICE_ID_PROPERTIES => sizeof VkPhysicalDeviceIDProperties
  | PHYSICAL_DEVICE_PROTECTED_MEMORY_PROPERTIES =>
      sizeof VkPhysicalDeviceProtectedMemoryProperties
  | PHYSICAL_DEVICE_MAINTENANCE_3_PROPERTIES =>
      sizeof VkPhysicalDeviceMaintenance3Properties
  | PHYSICAL_DEVICE_FRAGMENT_SHADING_RATE_FEATURES_KHR =>
      sizeof VkPhysicalDeviceFragmentShadingRateFeaturesKHR
  | PHYSICAL_DEVICE_FRAGMENT_SHADING_RATE_PROPERTIES_KHR =>
      sizeof VkPhysicalDeviceFragmentShadingRatePropertiesKHR
  | PHYSICAL_DEVICE_IMAGELESS_FRAMEBUFFER_FEATURES =>
      sizeof VkPhysicalDeviceImagelessFramebufferFeatures
  | PHYSICAL_DEVICE_MULTIVIEW_FEATURES => sizeof VkPhysicalDeviceMultiviewFeatures
  | PHYSICAL_DEVICE_MULTIVIEW_PROPERTIES => sizeof VkPhysicalDeviceMultiviewProperties
  | PHYSICAL_DEVICE_POINT_CLIPPING_PROPERTIES =>
      sizeof VkPhysicalDevicePointClippingProperties
  | RENDER_PASS_INPUT_ATTACHMENT_ASPECT_CREATE_INFO =>
      sizeof VkRenderPassInputAttachmentAspectCreateInfo
  | RENDER_PASS_MULTIVIEW_CREATE_INFO => sizeof VkRenderPassMultiviewCreateInfo
  | FRAGMENT_SHADING_RATE_ATTACHMENT_INFO_KHR =>
      sizeof VkFragmentShadingRateAttachmentInfoKHR
  | PIPELINE_FRAGMENT_SHADING_RATE_STATE_CREATE_INFO_KHR =>
      sizeof VkPipelineFragmentShadingRateStateCreateInfoKHR
  | PIPELINE_TESSELLATION_DOMAIN_ORIGIN_STATE_CREATE_INFO =>
      sizeof VkPipelineTessellationDomainOriginStateCreateInfo
  | IMAGE_FORMAT_LIST_CREATE_INFO => sizeof VkImageFormatListCreateInfo
  | IMAGE_VIEW_USAGE_CREATE_INFO => sizeof VkImageViewUsageCreateInfo
  | SAMPLER_YCBCR_CONVERSION_INFO => sizeof VkSamplerYcbcrConversionInfo
  | SAMPLER_YCBCR_CONVERSION_IMAGE_FORMAT_PROPERTIES =>
      sizeof VkSamplerYcbcrConversionImageFormatProperties
  | IMAGE_PLANE_MEMORY_REQUIREMENTS_INFO => sizeof VkImagePlaneMemoryRequirementsInfo
  | MEMORY_DEDICATED_REQUIREMENTS => sizeof VkMemoryDedicatedRequirements
  | BIND_IMAGE_PLANE_MEMORY_INFO => sizeof VkBindImagePlaneMemoryInfo
  | FRAMEBUFFER_ATTACHMENTS_CREATE_INFO => sizeof VkFramebufferAttachmentsCreateInfo
  | SEMAPHORE_TYPE_CREATE_INFO => sizeof VkSemaphoreTypeCreateInfo
  | TIMELINE_SEMAPHORE_SUBMIT_INFO => sizeof VkTimelineSemaphoreSubmitInfo
  | BUFFER_OPAQUE_CAPTURE_ADDRESS_CREATE_INFO =>
      sizeof VkBufferOpaqueCaptureAddressCreateInfo
  | MEMORY_ALLOCATE_FLAGS_INFO => sizeof VkMemoryAllocateFlagsInfo
  | RENDER_PASS_ATTACHMENT_BEGIN_INFO => sizeof VkRenderPassAttachmentBeginInfo
  | _ => 0%nat
  end.
End NodeSize.

(** ** Nodes *)

(** [VkPhysicalDeviceFeatures]: 55 [VkBool32] members, which the code only
    ever handles as an array of words. *)
Module VkPhysicalDeviceFeatures.
Record t := mk { words : list Z }.
Definition count : nat := 55.
Definition zero : t := mk (replicate count 0).
#[global] Program Instance pod : Pod t := {
  pod_kinds := replicate count KU32;
  pod_to := fun _ s => words s;
  pod_of := mk;
  pod_flat := fun _ => True
}.
Next Obligation. by destruct s. Qed.
End VkPhysicalDeviceFeatures.

(** One structure of a chain with its members. Structures with a single member
    carry it directly; [Vulkan12Properties] and [DescriptorIndexingProperties]
    carry the bytes that follow their header. *)
Inductive pnext_node :=
  | Features2 (features : VkPhysicalDeviceFeatures.t)
  | Vulkan11Features (s : VkPhysicalDeviceVulkan11Features.t)
  | Vulkan12Features (s : VkPhysicalDeviceVulkan12Features.t)
  | HostQueryResetFeatures (hostQueryReset : Z)
  | TimelineSemaphoreFeatures (timelineSemaphore : Z)
  | Synchronization2Features (synchronization2 : Z)
  | BufferDeviceAddressFeatures (s : VkPhysicalDeviceBufferDeviceAddressFeatures.t)
  | DescriptorIndexingFeatures (s : VkPhysicalDeviceDescriptorIndexingFeatures.t)
  | SeparateDepthStencilLayoutsFeatures (separateDepthStencilLayouts : Z)
  | Vulkan12Properties (tail : list byte)
  | TimelineSemaphoreProperties (maxTimelineSemaphoreValueDifference : Z)
  | DepthStencilResolveProperties (s : VkPhysicalDeviceDepthStencilResolveProperties.t)
  | DescriptorIndexingProperties (tail : list byte)
  | ProtectedMemoryFeatures (protectedMemory : Z)
  | SamplerYcbcrConversionFeatures (samplerYcbcrConversion : Z)
  | Vulkan11Properties (s : VkPhysicalDeviceVulkan11Properties.t)
  | SubgroupProperties (s : VkPhysicalDeviceSubgroupProperties.t)
  | IDProperties (s : VkPhysicalDeviceIDProperties.t)
  | ProtectedMemoryProperties (protectedNoFault : Z)
  | Maintenance3Properties (s : VkPhysicalDeviceMaintenance3Properties.t)
  | FragmentShadingRateFeatures (s : VkPhysicalDeviceFragmentShadingRateFeaturesKHR.t)
  | FragmentShadingRateProperties (s : VkPhysicalDeviceFragmentShadingRatePropertiesKHR.t)
  | ImagelessFramebufferFeatures (imagelessFramebuffer : Z)
  | MultiviewFeatures (s : VkPhysicalDeviceMultiviewFeatures.t)
  | MultiviewProperties (s : VkPhysicalDeviceMultiviewProperties.t)
  | PointClippingProperties (pointClippingBehavior : Z)
  | InputAttachmentAspect (s : VkRenderPassInputAttachmentAspectCreateInfo.t)
  | RenderPassMultiview (s : VkRenderPassMultiviewCreateInfo.t)
  | FragmentShadingRateAttachment (s : VkFragmentShadingRateAttachmentInfoKHR.t)
  | PipelineFragmentShadingRate (s : VkPipelineFragmentShadingRateStateCreateInfoKHR.t)
  | TessellationDomainOrigin (domainOrigin : Z)
  | ImageFormatList (s : VkImageFormatListCreateInfo.t)
  | ImageViewUsage (usage : Z)
  | SamplerYcbcrConversion (conversion : Z)
  | SamplerYcbcrImageFormatProperties (combinedImageSamplerDescriptorCount : Z)
  | ImagePlaneMemoryRequirements (planeAspect : Z)
  | MemoryDedicatedRequirements (s : VkMemoryDedicatedRequirements.t)
  | BindImagePlaneMemory (planeAspect : Z)
  | FramebufferAttachments (s : VkFramebufferAttachmentsCreateInfo.t)
  | SemaphoreType (s : VkSemaphoreTypeCreateInfo.t)
  | TimelineSemaphoreSubmit (s : VkTimelineSemaphoreSubmitInfo.t)
  | BufferOpaqueCaptureAddress (opaqueCaptureAddress : Z)
  | MemoryAllocateFlags (s : VkMemoryAllocateFlagsInfo.t)
  | RenderPassAttachmentBegin (s : VkRenderPassAttachmentBeginInfo.t)
  | LoaderDeviceCreate
  | OtherStructure (sType : Z).

Definition chain := list pnext_node.

Definition node_type (n : pnext_node) : VkStructureType :=
  match n with
  | Features2 _ => PHYSICAL_DEVICE_FEATURES_2
  | Vulkan11Features _ => PHYSICAL_DEVICE_VULKAN_1_1_FEATURES
  | Vulkan12Features _ => PHYSICAL_DEVICE_VULKAN_1_2_FEATURES
  | HostQueryResetFeatures _ => PHYSICAL_DEVICE_HOST_QUERY_RESET_FEATURES
  | TimelineSemaphoreFeatures _ => PHYSICAL_DEVICE_TIMELINE_SEMAPHORE_FEATURES
  | Synchronization2Features _ => PHYSICAL_DEVICE_SYNCHRONIZATION_2_FEATURES
  | BufferDeviceAddressFeatures _ => PHYSICAL_DEVICE_BUFFER_DEVICE_ADDRESS_FEATURES
  | DescriptorIndexingFeatures _ => PHYSICAL_DEVICE_DESCRIPTOR_INDEXING_FEATURES
  | SeparateDepthStencilLayoutsFeatures _ => PHYSICAL_DEVICE_SEPARATE_DEPTH_STENCIL_LAYOUTS_FEATURES
  | Vulkan12Properties _ => PHYSICAL_DEVICE_VULKAN_1_2_PROPERTIES
  | TimelineSemaphoreProperties _ => PHYSICAL_DEVICE_TIMELINE_SEMAPHORE_PROPERTIES
  | DepthStencilResolveProperties _ => PHYSICAL_DEVICE_DEPTH_STENCIL_RESOLVE_PROPERTIES
  | DescriptorIndexingProperties _ => PHYSICAL_DEVICE_DESCRIPTOR_INDEXING_PROPERTIES
  | ProtectedMemoryFeatures _ => PHYSICAL_DEVICE_PROTECTED_MEMORY_FEATURES
  | SamplerYcbcrConversionFeatures _ => PHYSICAL_DEVICE_SAMPLER_YCBCR_CONVERSION_FEATURES
  | Vulkan11Properties _ => PHYSICAL_DEVICE_VULKAN_1_1_PROPERTIES
  | SubgroupProperties _ => PHYSICAL_DEVICE_SUBGROUP_PROPERTIES
  | IDProperties _ => PHYSICAL_DEVICE_ID_PROPERTIES
  | ProtectedMemoryProperties _ => PHYSICAL_DEVICE_PROTECTED_MEMORY_PROPERTIES
  | Maintenance3Properties _ => PHYSICAL_DEVICE_MAINTENANCE_3_PROPERTIES
  | FragmentShadingRateFeatures _ => PHYSICAL_DEVICE_FRAGMENT_SHADING_RATE_FEATURES_KHR
  | FragmentShadingRateProperties _ => PHYSICAL_DEVICE_FRAGMENT_SHADING_RATE_PROPERTIES_KHR
  | ImagelessFramebufferFeatures _ => PHYSICAL_DEVICE_IMAGELESS_FRAMEBUFFER_FEATURES
  | MultiviewFeatures _ => PHYSICAL_DEVICE_MULTIVIEW_FEATURES
  | MultiviewProperties _ => PHYSICAL_DEVICE_MULTIVIEW_PROPERTIES
  | PointClippingProperties _ => PHYSICAL_DEVICE_POINT_CLIPPING_PROPERTIES
  | InputAttachmentAspect _ => RENDER_PASS_INPUT_ATTACHMENT_ASPECT_CREATE_INFO
  | RenderPassMultiview _ => RENDER_PASS_MULTIVIEW_CREATE_INFO
  | FragmentShadingRateAttachment _ => FRAGMENT_SHADING_RATE_ATTACHMENT_INFO_KHR
  | PipelineFragmentShadingRate _ => PIPELINE_FRAGMENT_SHADING_RATE_STATE_CREATE_INFO_KHR
  | TessellationDomainOrigin _ => PIPELINE_TESSELLATION_DOMAIN_ORIGIN_STATE_CREATE_INFO
  | ImageFormatList _ => IMAGE_FORMAT_LIST_CREATE_INFO
  | ImageViewUsage _ => IMAGE_VIEW_USAGE_CREATE_INFO
  | SamplerYcbcrConversion _ => SAMPLER_YCBCR_CONVERSION_INFO
  | SamplerYcbcrImageFormatProperties _ => SAMPLER_YCBCR_CONVERSION_IMAGE_FORMAT_PROPERTIES
  | ImagePlaneMemoryRequirements _ => IMAGE_PLANE_MEMORY_REQUIREMENTS_INFO
  | MemoryDedicatedRequirements _ => MEMORY_DEDICATED_REQUIREMENTS
  | BindImagePlaneMemory _ => BIND_IMAGE_PLANE_MEMORY_INFO
  | FramebufferAttachments _ => FRAMEBUFFER_ATTACHMENTS_CREATE_INFO
  | SemaphoreType _ => SEMAPHORE_TYPE_CREATE_INFO
  | TimelineSemaphoreSubmit _ => TIMELINE_SEMAPHORE_SUBMIT_INFO
  | BufferOpaqueCaptureAddress _ => BUFFER_OPAQUE_CAPTURE_ADDRESS_CREATE_INFO
  | MemoryAllocateFlags _ => MEMORY_ALLOCATE_FLAGS_INFO
  | RenderPassAttachmentBegin _ => RENDER_PASS_ATTACHMENT_BEGIN_INFO
  | LoaderDeviceCreate => LOADER_DEVICE_CREATE_INFO
  | OtherStructure v => OTHER_STRUCTURE v
  end.

(** The nodes a chain pointer leads to. *)
Definition chain_nodes (p : ptr chain) : chain := match p with Ref c => c | _ => [] end.

(** ** Collecting a chain *)

(** marshal.cpp:436-442. *)
Definition valid_count (count element_size : Z) : bool :=
  (count <=? kMaxArrayElements) &&
  (if element_size =? 0 then count =? 0 else count <=? 18446744073709551615 / element_size).

(** marshal.cpp:444-456. *)
Fixpoint collect_chain (context : PNextContext) (head nodes : chain) : option chain :=
  match head with
  | [] => Some nodes
  | node :: next =>
      if (match context with DeviceCreate => true | _ => false end) &&
         stype_eqb (node_type node) LOADER_DEVICE_CREATE_INFO
      then collect_chain context next nodes
      else if (Z.of_nat (length nodes) =? kMaxPNextNodes) ||
              negb (pnext_allowed context (node_type node))
      then None
      else if existsb (fun previous => stype_eqb (node_type previous) (node_type node)) nodes
      then None
      else collect_chain context next (nodes ++ [node])
  end.

(** ** Field-wise encoding *)
Section Encode.
Context `{Abi}.
Import Writer.

(** The first [n] elements of an array; reading past its end is undefined. *)
Definition arr {A} (p : ptr (list A)) (n : Z) : list A :=
  match p with Ref xs => take (Z.to_nat n) xs | _ => [] end.

(** [count && !p]. *)
Definition missing {A} (n : Z) (p : ptr A) : bool := negb (n =? 0) && is_null p.

Definition u32s (vs : list Z) : list byte := concat (map u32 vs).
Definition u64s (vs : list Z) : list byte := concat (map u64 vs).
Definition i32s (vs : list Z) : list byte := concat (map i32 vs).

(** marshal.cpp:458-461. *)
Definition write_extent (e : VkExtent2D.t) : list byte :=
  u32 (VkExtent2D.width e) ++ u32 (VkExtent2D.height e).

(** marshal.cpp:469-474. *)
Definition write_attachment_reference2 (s : VkAttachmentReference2.t) : list byte :=
  i32 (VkAttachmentReference2.sType s) ++ u32 (VkAttachmentReference2.attachment s) ++
  i32 (VkAttachmentReference2.layout s) ++ u32 (VkAttachmentReference2.aspectMask s).

(** The bytes of a structure after its [sType]/[pNext] header. *)
Definition node_tail_size (t : VkStructureType) : nat := (pnext_node_size t - 16)%nat.

(** marshal.cpp:2483-2487. *)
Definition write_PhysicalDeviceFeatures (s : VkPhysicalDeviceFeatures.t) : list byte :=
  u32s (VkPhysicalDeviceFeatures.words s).

(** One [VkFramebufferAttachmentImageInfo]; marshal.cpp:624-630. *)
Definition write_attachment_image_info (a : VkFramebufferAttachmentImageInfo.t) : W :=
  let '(VkFramebufferAttachmentImageInfo.mk sType pNext flags usage width height layerCount
          viewFormatCount pViewFormats) := a in
  wguard (negb (negb (sType =? VK_STRUCTURE_TYPE_FRAMEBUFFER_ATTACHMENT_IMAGE_INFO) ||
                negb (is_null pNext) || negb (valid_count viewFormatCount 4) ||
                missing viewFormatCount pViewFormats)) ;;;
  emit (u32 flags ++ u32 usage ++ u32 width ++ u32 height ++ u32 layerCount ++
        u32 viewFormatCount ++ i32s (arr pViewFormats viewFormatCount)).

(** marshal.cpp:485-645. *)
Definition write_node_fields (node : pnext_node) (depth : Z) : W :=
  match node with
  | Features2 features => emit (write_PhysicalDeviceFeatures features)
  | Vulkan11Features s =>
      emit (u32 0 ++ u32 0 ++ u32 0 ++ u32 0 ++
        u32 (VkPhysicalDeviceVulkan11Features.multiview s) ++
        u32 (VkPhysicalDeviceVulkan11Features.multiviewGeometryShader s) ++
        u32 (VkPhysicalDeviceVulkan11Features.multiviewTessellationShader s) ++
        u32 0 ++ u32 0 ++ u32 0 ++
        u32 (VkPhysicalDeviceVulkan11Features.samplerYcbcrConversion s) ++ u32 0)
  | Vulkan12Features s => emit (u32s (vulkan12_words (apply_vulkan12_feature_policy s)))
  | HostQueryResetFeatures v | TimelineSemaphoreFeatures v | Synchronization2Features v
  | SeparateDepthStencilLayoutsFeatures v | SamplerYcbcrConversionFeatures v
  | ImagelessFramebufferFeatures v | ImageViewUsage v | SamplerYcbcrImageFormatProperties v
  | ImagePlaneMemoryRequirements v | BindImagePlaneMemory v => emit (u32 v)
  | BufferDeviceAddressFeatures s =>
      let '(VkPhysicalDeviceBufferDeviceAddressFeatures.mk a b c) :=
        apply_buffer_address_feature_policy s in
      emit (u32 a ++ u32 b ++ u32 c)
  | DescriptorIndexingFeatures s =>
      emit (u32s (VkPhysicalDeviceDescriptorIndexingFeatures.words
                    (apply_descriptor_indexing_feature_policy s)))
  | Vulkan12Properties tail => emit (bytes tail)
  | TimelineSemaphoreProperties v => emit (u64 v)
  | DepthStencilResolveProperties (VkPhysicalDeviceDepthStencilResolveProperties.mk a b c d) =>
      emit (u32 a ++ u32 b ++ u32 c ++ u32 d)
  | DescriptorIndexingProperties tail => emit (bytes (replicate (length tail) x00))
  | ProtectedMemoryFeatures _ | ProtectedMemoryProperties _ => emit (u32 0)
  | Vulkan11Properties (VkPhysicalDeviceVulkan11Properties.mk deviceUUID driverUUID deviceLUID
      deviceNodeMask deviceLUIDValid subgroupSize subgroupSupportedStages
      subgroupSupportedOperations subgroupQuadOperationsInAllStages pointClippingBehavior
      maxMultiviewViewCount maxMultiviewInstanceIndex _ maxPerSetDescriptors
      maxMemoryAllocationSize) =>
      emit (bytes deviceUUID ++ bytes driverUUID ++ bytes deviceLUID ++ u32 deviceNodeMask ++
        u32 deviceLUIDValid ++ u32 subgroupSize ++ u32 subgroupSupportedStages ++
        u32 subgroupSupportedOperations ++ u32 subgroupQuadOperationsInAllStages ++
        i32 pointClippingBehavior ++ u32 maxMultiviewViewCount ++
        u32 maxMultiviewInstanceIndex ++ u32 0 ++ u32 maxPerSetDescriptors ++
        u64 maxMemoryAllocationSize)
  | SubgroupProperties (VkPhysicalDeviceSubgroupProperties.mk a b c d) =>
      emit (u32 a ++ u32 b ++ u32 c ++ u32 d)
  | IDProperties (VkPhysicalDeviceIDProperties.mk deviceUUID driverUUID deviceLUID
      deviceNodeMask deviceLUIDValid) =>
      emit (bytes deviceUUID ++ bytes driverUUID ++ bytes deviceLUID ++ u32 deviceNodeMask ++
        u32 deviceLUIDValid)
  | Maintenance3Properties (VkPhysicalDeviceMaintenance3Properties.mk a b) =>
      emit (u32 a ++ u64 b)
  | FragmentShadingRateFeatures (VkPhysicalDeviceFragmentShadingRateFeaturesKHR.mk a b c) =>
      emit (u32 a ++ u32 b ++ u32 c)
  | FragmentShadingRateProperties (VkPhysicalDeviceFragmentShadingRatePropertiesKHR.mk
      minTexelSize maxTexelSize aspectRatio multipleViewports layered nonTrivial
      maxFragmentSize a b c d e f g h i j) =>
      emit (write_extent minTexelSize ++ write_extent maxTexelSize ++ u32 aspectRatio ++
        u32 multipleViewports ++ u32 layered ++ u32 nonTrivial ++
        write_extent maxFragmentSize ++ u32 a ++ u32 b ++ u32 c ++ u32 d ++ u32 e ++ u32 f ++
        u32 g ++ u32 h ++ u32 i ++ u32 j)
  | MultiviewFeatures (VkPhysicalDeviceMultiviewFeatures.mk a b c) =>
      emit (u32 a ++ u32 b ++ u32 c)
  | MultiviewProperties (VkPhysicalDeviceMultiviewProperties.mk a b) => emit (u32 a ++ u32 b)
  | PointClippingProperties v | TessellationDomainOrigin v => emit (i32 v)
  | InputAttachmentAspect (VkRenderPassInputAttachmentAspectCreateInfo.mk n p) =>
      wguard (negb (negb (valid_count n 12) || missing n p)) ;;;
      emit (u32 n ++
        concat (map (fun r => u32 (VkInputAttachmentAspectReference.subpass r) ++
                     u32 (VkInputAttachmentAspectReference.inputAttachmentIndex r) ++
                     u32 (VkInputAttachmentAspectReference.aspectMask r)) (arr p n)))
  | RenderPassMultiview (VkRenderPassMultiviewCreateInfo.mk n1 p1 n2 p2 n3 p3) =>
      wguard (negb (negb (valid_count n1 4) || negb (valid_count n2 4) ||
                    negb (valid_count n3 4) || missing n1 p1 || missing n2 p2 ||
                    missing n3 p3)) ;;;
      emit (u32 n1 ++ u32s (arr p1 n1) ++ u32 n2 ++ i32s (arr p2 n2) ++
            u32 n3 ++ u32s (arr p3 n3))
  | FragmentShadingRateAttachment (VkFragmentShadingRateAttachmentInfoKHR.mk p size) =>
      wguard (negb (kMaxPNextDepth <=? depth)) ;;;
      emit (u32 (if is_null p then 0 else 1)) ;;;
      match p with
      | Ref a =>
          wguard (is_null (VkAttachmentReference2.pNext a)) ;;;
          emit (write_attachment_reference2 a)
      | _ => emit []
      end ;;;
      emit (write_extent size)
  | PipelineFragmentShadingRate (VkPipelineFragmentShadingRateStateCreateInfoKHR.mk size a b) =>
      emit (write_extent size ++ i32 a ++ i32 b)
  | ImageFormatList (VkImageFormatListCreateInfo.mk n p) =>
      wguard (negb (negb (valid_count n 4) || missing n p)) ;;;
      emit (u32 n ++ i32s (arr p n))
  | SamplerYcbcrConversion v => emit (handle v)
  | MemoryDedicatedRequirements (VkMemoryDedicatedRequirements.mk prefers requires) =>
      emit (u32 prefers ++ u32 requires)
  | FramebufferAttachments (VkFramebufferAttachmentsCreateInfo.mk n p) =>
      wguard (negb (kMaxPNextDepth <=? depth)) ;;;
      wguard (negb (negb (valid_count n 48) || missing n p)) ;;;
      emit (u32 n) ;;; wfor write_attachment_image_info (arr p n)
  | SemaphoreType (VkSemaphoreTypeCreateInfo.mk type value) => emit (i32 type ++ u64 value)
  | TimelineSemaphoreSubmit (VkTimelineSemaphoreSubmitInfo.mk nw pw ns ps) =>
      wguard (negb (negb (valid_count nw 8) || negb (valid_count ns 8) || missing nw pw ||
                    missing ns ps)) ;;;
      emit (u32 nw ++ u64s (arr pw nw) ++ u32 ns ++ u64s (arr ps ns))
  | BufferOpaqueCaptureAddress v => emit (u64 v)
  | MemoryAllocateFlags (VkMemoryAllocateFlagsInfo.mk flags deviceMask) =>
      wguard (negb (negb (Z.ldiff flags VK_MEMORY_ALLOCATE_DEVICE_ADDRESS_BIT =? 0) ||
                    negb (deviceMask =? 0))) ;;;
      emit (u32 flags ++ u32 deviceMask)
  | RenderPassAttachmentBegin (VkRenderPassAttachmentBeginInfo.mk n p) =>
      wguard (negb (negb (valid_count n 8) || missing n p)) ;;;
      emit (u32 n ++ concat (map handle (arr p n)))
  | LoaderDeviceCreate | OtherStructure _ => wguard false
  end.

(** marshal.cpp:762-777; the nodes are encoded into a writer of their own. *)
Definition write_pnext_chain (context : PNextContext) (head : ptr chain) (depth : Z) : W :=
  transact
    (wguard (negb (kMaxPNextDepth <? depth)) ;;;
     match collect_chain context (chain_nodes head) [] with
     | None => wguard false
     | Some nodes =>
         emit (u32 (Z.of_nat (length nodes))) ;;;
         wfor (fun node => emit (i32 (stype_value (node_type node))) ;;;
                           write_node_fields node depth) nodes
     end).

(** marshal.cpp:808-814. *)
Definition write_pnext_output_topology (context : PNextContext) (head : ptr chain) : W :=
  match collect_chain context (chain_nodes head) [] with
  | None => wguard false
  | Some nodes =>
      emit (u32 (Z.of_nat (length nodes)) ++
            i32s (map (fun node => stype_value (node_type node)) nodes))
  end.

(** marshal.cpp:834-836. *)
Definition write_pnext_output_values (context : PNextContext) (head : ptr chain) : W :=
  write_pnext_chain context head 0.

End Encode.

(** ** Decoding *)
Section Decode.
Context {HR : HandleResolver}.

(** marshal.cpp:463-467. *)
Definition read_extent : Rd VkExtent2D.t :=
  w <- r_u32 ; h <- r_u32 ; r_ok ;! rret (VkExtent2D.mk w h).

(** marshal.cpp:476-483. *)
Definition read_attachment_reference2 : Rd VkAttachmentReference2.t :=
  sType <- r_i32 ; attachment <- r_u32 ; layout <- r_i32 ; aspectMask <- r_u32 ;
  r_ok ;! rguard (sType =? VK_STRUCTURE_TYPE_ATTACHMENT_REFERENCE_2) ;!
  rret (VkAttachmentReference2.mk sType Null attachment layout aspectMask).

(** marshal.cpp:2489-2494. *)
Definition read_PhysicalDeviceFeatures : Rd VkPhysicalDeviceFeatures.t :=
  vs <- rfor VkPhysicalDeviceFeatures.count r_u32 ; r_ok ;!
  rret (VkPhysicalDeviceFeatures.mk vs).

(** [n = r.u32(); if (!r.ok() || !valid_count(n, size)) return false;] *)
Definition read_count (element_size : Z) : Rd Z :=
  n <- r_u32 ; r_ok ;! rguard (valid_count n element_size) ;! rret n.

(** [p = count ? arena.array<T>(count) : nullptr]. *)
Definition arr_ptr {A} (xs : list A) : ptr (list A) :=
  match xs with [] => Null | _ => Ref xs end.

(** A count, then that many elements, read without checking in between. *)
Definition read_counted {A} (element_size : Z) (m : Rd A) : Rd (Z * ptr (list A)) :=
  n <- read_count element_size ; xs <- rfor (Z.to_nat n) m ; rret (n, arr_ptr xs).

(** [if (!r.bytes(&b, n) || b.size() != n) return false;] *)
Definition read_exact (n : nat) : Rd (list byte) :=
  b <- r_bytes (Z.of_nat n) ; rguard (Z.of_nat (length b) =? Z.of_nat n) ;! rret b.

(** marshal.cpp:100-115; each element is resolved. *)
Definition read_handle_array (count : Z) (resolve : Z -> Z) : Rd (ptr (list Z)) :=
  if count =? 0 then rret Null
  else
    rguard (negb (kMaxArrayElements <? count)) ;!
    xs <- rfor (Z.to_nat count)
            (id <- r_handle ; r_ok ;! rret (patch_handle resolve id)) ;
    rret (Ref xs).

Definition read_aspect_reference : Rd VkInputAttachmentAspectReference.t :=
  a <- r_u32 ; b <- r_u32 ; c <- r_u32 ; rret (VkInputAttachmentAspectReference.mk a b c).

(** One [VkFramebufferAttachmentImageInfo]; marshal.cpp:745-745. *)
Definition read_attachment_image_info : Rd VkFramebufferAttachmentImageInfo.t :=
  flags <- r_u32 ; usage <- r_u32 ; width <- r_u32 ; height <- r_u32 ; layerCount <- r_u32 ;
  formats <- read_counted 4 r_i32 ;
  rret (VkFramebufferAttachmentImageInfo.mk VK_STRUCTURE_TYPE_FRAMEBUFFER_ATTACHMENT_IMAGE_INFO
          Null flags usage width height layerCount (fst formats) (snd formats)).

(** The switch of [read_node_fields]; marshal.cpp:647-757. *)
Definition read_node_members (type : VkStructureType) (depth : Z) : Rd pnext_node :=
  match type with
  | PHYSICAL_DEVICE_FEATURES_2 => f <- read_PhysicalDeviceFeatures ; rret (Features2 f)
  | PHYSICAL_DEVICE_VULKAN_1_1_FEATURES =>
      a <- r_u32 ; b <- r_u32 ; c <- r_u32 ; d <- r_u32 ; e <- r_u32 ; f <- r_u32 ;
      g <- r_u32 ; h <- r_u32 ; i <- r_u32 ; j <- r_u32 ; k <- r_u32 ; l <- r_u32 ;
      rret (Vulkan11Features (VkPhysicalDeviceVulkan11Features.mk a b c d e f g h i j k l))
  | PHYSICAL_DEVICE_VULKAN_1_2_FEATURES =>
      vs <- rfor 48 r_u32 ;
      rret (Vulkan12Features (VkPhysicalDeviceVulkan12Features.of_words (take 47 vs)))
  | PHYSICAL_DEVICE_HOST_QUERY_RESET_FEATURES =>
      v <- r_u32 ; rret (HostQueryResetFeatures v)
  | PHYSICAL_DEVICE_TIMELINE_SEMAPHORE_FEATURES =>
      v <- r_u32 ; rret (TimelineSemaphoreFeatures v)
  | PHYSICAL_DEVICE_SYNCHRONIZATION_2_FEATURES =>
      v <- r_u32 ; rret (Synchronization2Features v)
  | PHYSICAL_DEVICE_BUFFER_DEVICE_ADDRESS_FEATURES =>
      a <- r_u32 ; b <- r_u32 ; c <- r_u32 ;
      rret (BufferDeviceAddressFeatures (VkPhysicalDeviceBufferDeviceAddressFeatures.mk a b c))
  | PHYSICAL_DEVICE_DESCRIPTOR_INDEXING_FEATURES =>
      vs <- rfor 20 r_u32 ;
      rret (DescriptorIndexingFeatures (VkPhysicalDeviceDescriptorIndexingFeatures.of_words vs))
  | PHYSICAL_DEVICE_SEPARATE_DEPTH_STENCIL_LAYOUTS_FEATURES =>
      v <- r_u32 ; rret (SeparateDepthStencilLayoutsFeatures v)
  | PHYSICAL_DEVICE_VULKAN_1_2_PROPERTIES =>
      b <- read_exact (node_tail_size PHYSICAL_DEVICE_VULKAN_1_2_PROPERTIES) ;
      rret (Vulkan12Properties b)
  | PHYSICAL_DEVICE_TIMELINE_SEMAPHORE_PROPERTIES =>
      v <- r_u64 ; rret (TimelineSemaphoreProperties v)
  | PHYSICAL_DEVICE_DEPTH_STENCIL_RESOLVE_PROPERTIES =>
      a <- r_u32 ; b <- r_u32 ; c <- r_u32 ; d <- r_u32 ;
      rret (DepthStencilResolveProperties
              (VkPhysicalDeviceDepthStencilResolveProperties.mk a b c d))
  | PHYSICAL_DEVICE_DESCRIPTOR_INDEXING_PROPERTIES =>
      b <- read_exact (node_tail_size PHYSICAL_DEVICE_DESCRIPTOR_INDEXING_PROPERTIES) ;
      rret (DescriptorIndexingProperties b)
  | PHYSICAL_DEVICE_PROTECTED_MEMORY_FEATURES =>
      v <- r_u32 ; rret (ProtectedMemoryFeatures v)
  | PHYSICAL_DEVICE_SAMPLER_YCBCR_CONVERSION_FEATURES =>
      v <- r_u32 ; rret (SamplerYcbcrConversionFeatures v)
  | PHYSICAL_DEVICE_VULKAN_1_1_PROPERTIES =>
      u1 <- read_exact 16 ; u2 <- read_exact 16 ; u3 <- read_exact 8 ;
      a <- r_u32 ; b <- r_u32 ; c <- r_u32 ; d <- r_u32 ; e <- r_u32 ; f <- r_u32 ;
      g <- r_i32 ; h <- r_u32 ; i <- r_u32 ; j <- r_u32 ; k <- r_u32 ; l <- r_u64 ;
      rret (Vulkan11Properties
              (VkPhysicalDeviceVulkan11Properties.mk u1 u2 u3 a b c d e f g h i j k l))
  | PHYSICAL_DEVICE_SUBGROUP_PROPERTIES =>
      a <- r_u32 ; b <- r_u32 ; c <- r_u32 ; d <- r_u32 ;
      rret (SubgroupProperties (VkPhysicalDeviceSubgroupProperties.mk a b c d))
  | PHYSICAL_DEVICE_ID_PROPERTIES =>
      u1 <- read_exact 16 ; u2 <- read_exact 16 ; u3 <- read_exact 8 ;
      a <- r_u32 ; b <- r_u32 ;
      rret (IDProperties (VkPhysicalDeviceIDProperties.mk u1 u2 u3 a b))
  | PHYSICAL_DEVICE_PROTECTED_MEMORY_PROPERTIES =>
      v <- r_u32 ; rret (ProtectedMemoryProperties v)
  | PHYSICAL_DEVICE_MAINTENANCE_3_PROPERTIES =>
      a <- r_u32 ; b <- r_u64 ;
      rret (Maintenance3Properties (VkPhysicalDeviceMaintenance3Properties.mk a b))
  | PHYSICAL_DEVICE_FRAGMENT_SHADING_RATE_FEATURES_KHR =>
      a <- r_u32 ; b <- r_u32 ; c <- r_u32 ;
      rret (FragmentShadingRateFeatures
              (VkPhysicalDeviceFragmentShadingRateFeaturesKHR.mk a b c))
  | PHYSICAL_DEVICE_FRAGMENT_SHADING_RATE_PROPERTIES_KHR =>
      e1 <- read_extent ; e2 <- read_extent ; v1 <- r_u32 ; v2 <- r_u32 ; v3 <- r_u32 ;
      v4 <- r_u32 ; e3 <- read_extent ; a <- r_u32 ; b <- r_u32 ; c <- r_u32 ; d <- r_u32 ;
      e <- r_u32 ; f <- r_u32 ; g <- r_u32 ; h <- r_u32 ; i <- r_u32 ; j <- r_u32 ;
      rret (FragmentShadingRateProperties
              (VkPhysicalDeviceFragmentShadingRatePropertiesKHR.mk e1 e2 v1 v2 v3 v4 e3
                 a b c d e f g h i j))
  | PHYSICAL_DEVICE_IMAGELESS_FRAMEBUFFER_FEATURES =>
      v <- r_u32 ; rret (ImagelessFramebufferFeatures v)
  | PHYSICAL_DEVICE_MULTIVIEW_FEATURES =>
      a <- r_u32 ; b <- r_u32 ; c <- r_u32 ;
      rret (MultiviewFeatures (VkPhysicalDeviceMultiviewFeatures.mk a b c))
  | PHYSICAL_DEVICE_MULTIVIEW_PROPERTIES =>
      a <- r_u32 ; b <- r_u32 ;
      rret (MultiviewProperties (VkPhysicalDeviceMultiviewProperties.mk a b))
  | PHYSICAL_DEVICE_POINT_CLIPPING_PROPERTIES =>
      v <- r_i32 ; rret (PointClippingProperties v)
  | RENDER_PASS_INPUT_ATTACHMENT_ASPECT_CREATE_INFO =>
      a <- read_counted 12 read_aspect_reference ;
      rret (InputAttachmentAspect
              (VkRenderPassInputAttachmentAspectCreateInfo.mk (fst a) (snd a)))
  | RENDER_PASS_MULTIVIEW_CREATE_INFO =>
      a <- read_counted 4 r_u32 ; b <- read_counted 4 r_i32 ; c <- read_counted 4 r_u32 ;
      rret (RenderPassMultiview (VkRenderPassMultiviewCreateInfo.mk
              (fst a) (snd a) (fst b) (snd b) (fst c) (snd c)))
  | FRAGMENT_SHADING_RATE_ATTACHMENT_INFO_KHR =>
      rguard (negb (kMaxPNextDepth <=? depth)) ;!
      present <- r_u32 ; r_ok ;! rguard (negb (1 <? present)) ;!
      p <- (if present =? 0 then rret Null
            else a <- read_attachment_reference2 ; rret (Ref a)) ;
      size <- read_extent ;
      rret (FragmentShadingRateAttachment (VkFragmentShadingRateAttachmentInfoKHR.mk p size))
  | PIPELINE_FRAGMENT_SHADING_RATE_STATE_CREATE_INFO_KHR =>
      size <- read_extent ; a <- r_i32 ; b <- r_i32 ;
      rret (PipelineFragmentShadingRate
              (VkPipelineFragmentShadingRateStateCreateInfoKHR.mk size a b))
  | PIPELINE_TESSELLATION_DOMAIN_ORIGIN_STATE_CREATE_INFO =>
      v <- r_i32 ; rret (TessellationDomainOrigin v)
  | IMAGE_FORMAT_LIST_CREATE_INFO =>
      a <- read_counted 4 r_i32 ;
      rret (ImageFormatList (VkImageFormatListCreateInfo.mk (fst a) (snd a)))
  | IMAGE_VIEW_USAGE_CREATE_INFO => v <- r_u32 ; rret (ImageViewUsage v)
  | SAMPLER_YCBCR_CONVERSION_IMAGE_FORMAT_PROPERTIES =>
      v <- r_u32 ; rret (SamplerYcbcrImageFormatProperties v)
  | SAMPLER_YCBCR_CONVERSION_INFO =>
      id <- r_handle ;
      rret (SamplerYcbcrConversion (patch_handle hr_sampler_ycbcr_conversion id))
  | IMAGE_PLANE_MEMORY_REQUIREMENTS_INFO =>
      v <- r_u32 ; rret (ImagePlaneMemoryRequirements v)
  | MEMORY_DEDICATED_REQUIREMENTS =>
      a <- r_u32 ; b <- r_u32 ;
      rret (MemoryDedicatedRequirements (VkMemoryDedicatedRequirements.mk a b))
  | BIND_IMAGE_PLANE_MEMORY_INFO => v <- r_u32 ; rret (BindImagePlaneMemory v)
  | FRAMEBUFFER_ATTACHMENTS_CREATE_INFO =>
      rguard (negb (kMaxPNextDepth <=? depth)) ;!
      n <- read_count 48 ; xs <- rfor (Z.to_nat n) read_attachment_image_info ;
      rret (FramebufferAttachments (VkFramebufferAttachmentsCreateInfo.mk n (arr_ptr xs)))
  | SEMAPHORE_TYPE_CREATE_INFO =>
      a <- r_i32 ; b <- r_u64 ; rret (SemaphoreType (VkSemaphoreTypeCreateInfo.mk a b))
  | TIMELINE_SEMAPHORE_SUBMIT_INFO =>
      a <- read_counted 8 r_u64 ; b <- read_counted 8 r_u64 ;
      rret (TimelineSemaphoreSubmit (VkTimelineSemaphoreSubmitInfo.mk
              (fst a) (snd a) (fst b) (snd b)))
  | BUFFER_OPAQUE_CAPTURE_ADDRESS_CREATE_INFO =>
      v <- r_u64 ; rret (BufferOpaqueCaptureAddress v)
  | MEMORY_ALLOCATE_FLAGS_INFO =>
      flags <- r_u32 ; deviceMask <- r_u32 ;
      rguard (negb (negb (Z.ldiff flags VK_MEMORY_ALLOCATE_DEVICE_ADDRESS_BIT =? 0) ||
                    negb (deviceMask =? 0))) ;!
      rret (MemoryAllocateFlags (VkMemoryAllocateFlagsInfo.mk flags deviceMask))
  | RENDER_PASS_ATTACHMENT_BEGIN_INFO =>
      n <- read_count 8 ; p <- read_handle_array n hr_image_view ;
      rret (RenderPassAttachmentBegin (VkRenderPassAttachmentBeginInfo.mk n p))
  | LOADER_DEVICE_CREATE_INFO | OTHER_STRUCTURE _ => rfail
  end.

(** marshal.cpp:647-758, with the final [return r.ok();]. *)
Definition read_node_fields (type : VkStructureType) (depth : Z) : Rd pnext_node :=
  node <- read_node_members type depth ; r_ok ;! rret node.

(** The loop of [read_pnext_chain]: [seen] are the types of the nodes so far. *)
Fixpoint read_nodes (n : nat) (context : PNextContext) (depth : Z)
    (seen : list VkStructureType) : Rd chain :=
  match n with
  | O => rret []
  | S k =>
      v <- r_i32 ; r_ok ;!
      rguard (pnext_allowed context (stype_of v)) ;!
      rguard (negb (existsb (fun s => stype_eqb s (stype_of v)) seen)) ;!
      rguard (negb (Nat.eqb (pnext_node_size (stype_of v)) 0)) ;!
      node <- read_node_fields (stype_of v) depth ;
      nodes <- read_nodes k context depth (seen ++ [stype_of v]) ;
      rret (node :: nodes)
  end.

(** marshal.cpp:779-806. *)
Definition read_pnext_chain (context : PNextContext) (depth : Z) : Rd (ptr chain) :=
  rguard (negb (kMaxPNextDepth <? depth)) ;!
  count <- r_u32 ; r_ok ;! rguard (negb (kMaxPNextNodes <? count)) ;!
  nodes <- read_nodes (Z.to_nat count) context depth [] ;
  r_ok ;! rret (arr_ptr nodes).

End Decode.

(** ** Output chains *)

(** A structure of the type with every byte after its header zero
    ([std::memset(storage, 0, size)]). *)
Definition zero_node (t : VkStructureType) : pnext_node :=
  match t with
  | PHYSICAL_DEVICE_FEATURES_2 => Features2 VkPhysicalDeviceFeatures.zero
  | PHYSICAL_DEVICE_VULKAN_1_1_FEATURES =>
      Vulkan11Features VkPhysicalDeviceVulkan11Features.zero
  | PHYSICAL_DEVICE_VULKAN_1_2_FEATURES =>
      Vulkan12Features VkPhysicalDeviceVulkan12Features.zero
  | PHYSICAL_DEVICE_HOST_QUERY_RESET_FEATURES => HostQueryResetFeatures 0
  | PHYSICAL_DEVICE_TIMELINE_SEMAPHORE_FEATURES => TimelineSemaphoreFeatures 0
  | PHYSICAL_DEVICE_SYNCHRONIZATION_2_FEATURES => Synchronization2Features 0
  | PHYSICAL_DEVICE_BUFFER_DEVICE_ADDRESS_FEATURES =>
      BufferDeviceAddressFeatures VkPhysicalDeviceBufferDeviceAddressFeatures.zero
  | PHYSICAL_DEVICE_DESCRIPTOR_INDEXING_FEATURES =>
      DescriptorIndexingFeatures VkPhysicalDeviceDescriptorIndexingFeatures.zero
  | PHYSICAL_DEVICE_SEPARATE_DEPTH_STENCIL_LAYOUTS_FEATURES =>
      SeparateDepthStencilLayoutsFeatures 0
  | PHYSICAL_DEVICE_VULKAN_1_2_PROPERTIES =>
      Vulkan12Properties (replicate (node_tail_size PHYSICAL_DEVICE_VULKAN_1_2_PROPERTIES) x00)
  | PHYSICAL_DEVICE_TIMELINE_SEMAPHORE_PROPERTIES => TimelineSemaphoreProperties 0
  | PHYSICAL_DEVICE_DEPTH_STENCIL_RESOLVE_PROPERTIES =>
      DepthStencilResolveProperties VkPhysicalDeviceDepthStencilResolveProperties.zero
  | PHYSICAL_DEVICE_DESCRIPTOR_INDEXING_PROPERTIES =>
      DescriptorIndexingProperties (replicate (node_tail_size PHYSICAL_DEVICE_DESCRIPTOR_INDEXING_PROPERTIES) x00)
  | PHYSICAL_DEVICE_PROTECTED_MEMORY_FEATURES => ProtectedMemoryFeatures 0
  | PHYSICAL_DEVICE_SAMPLER_YCBCR_CONVERSION_FEATURES => SamplerYcbcrConversionFeatures 0
  | PHYSICAL_DEVICE_VULKAN_1_1_PROPERTIES =>
      Vulkan11Properties VkPhysicalDeviceVulkan11Properties.zero
  | PHYSICAL_DEVICE_SUBGROUP_PROPERTIES =>
      SubgroupProperties VkPhysicalDeviceSubgroupProperties.zero
  | PHYSICAL_DEVICE_ID_PROPERTIES => IDProperties VkPhysicalDeviceIDProperties.zero
  | PHYSICAL_DEVICE_PROTECTED_MEMORY_PROPERTIES => ProtectedMemoryProperties 0
  | PHYSICAL_DEVICE_MAINTENANCE_3_PROPERTIES =>
      Maintenance3Properties VkPhysicalDeviceMaintenance3Properties.zero
  | PHYSICAL_DEVICE_FRAGMENT_SHADING_RATE_FEATURES_KHR =>
      FragmentShadingRateFeatures VkPhysicalDeviceFragmentShadingRateFeaturesKHR.zero
  | PHYSICAL_DEVICE_FRAGMENT_SHADING_RATE_PROPERTIES_KHR =>
      FragmentShadingRateProperties VkPhysicalDeviceFragmentShadingRatePropertiesKHR.zero
  | PHYSICAL_DEVICE_IMAGELESS_FRAMEBUFFER_FEATURES => ImagelessFramebufferFeatures 0
  | PHYSICAL_DEVICE_MULTIVIEW_FEATURES =>
      MultiviewFeatures VkPhysicalDeviceMultiviewFeatures.zero
  | PHYSICAL_DEVICE_MULTIVIEW_PROPERTIES =>
      MultiviewProperties VkPhysicalDeviceMultiviewProperties.zero
  | PHYSICAL_DEVICE_POINT_CLIPPING_PROPERTIES => PointClippingProperties 0
  | RENDER_PASS_INPUT_ATTACHMENT_ASPECT_CREATE_INFO =>
      InputAttachmentAspect VkRenderPassInputAttachmentAspectCreateInfo.zero
  | RENDER_PASS_MULTIVIEW_CREATE_INFO =>
      RenderPassMultiview VkRenderPassMultiviewCreateInfo.zero
  | FRAGMENT_SHADING_RATE_ATTACHMENT_INFO_KHR =>
      FragmentShadingRateAttachment VkFragmentShadingRateAttachmentInfoKHR.zero
  | PIPELINE_FRAGMENT_SHADING_RATE_STATE_CREATE_INFO_KHR =>
      PipelineFragmentShadingRate VkPipelineFragmentShadingRateStateCreateInfoKHR.zero
  | PIPELINE_TESSELLATION_DOMAIN_ORIGIN_STATE_CREATE_INFO => TessellationDomainOrigin 0
  | IMAGE_FORMAT_LIST_CREATE_INFO => ImageFormatList VkImageFormatListCreateInfo.zero
  | IMAGE_VIEW_USAGE_CREATE_INFO => ImageViewUsage 0
  | SAMPLER_YCBCR_CONVERSION_INFO => SamplerYcbcrConversion 0
  | SAMPLER_YCBCR_CONVERSION_IMAGE_FORMAT_PROPERTIES => SamplerYcbcrImageFormatProperties 0
  | IMAGE_PLANE_MEMORY_REQUIREMENTS_INFO => ImagePlaneMemoryRequirements 0
  | MEMORY_DEDICATED_REQUIREMENTS =>
      MemoryDedicatedRequirements VkMemoryDedicatedRequirements.zero
  | BIND_IMAGE_PLANE_MEMORY_INFO => BindImagePlaneMemory 0
  | FRAMEBUFFER_ATTACHMENTS_CREATE_INFO =>
      FramebufferAttachments VkFramebufferAttachmentsCreateInfo.zero
  | SEMAPHORE_TYPE_CREATE_INFO => SemaphoreType VkSemaphoreTypeCreateInfo.zero
  | TIMELINE_SEMAPHORE_SUBMIT_INFO => TimelineSemaphoreSubmit VkTimelineSemaphoreSubmitInfo.zero
  | BUFFER_OPAQUE_CAPTURE_ADDRESS_CREATE_INFO => BufferOpaqueCaptureAddress 0
  | MEMORY_ALLOCATE_FLAGS_INFO => MemoryAllocateFlags VkMemoryAllocateFlagsInfo.zero
  | RENDER_PASS_ATTACHMENT_BEGIN_INFO =>
      RenderPassAttachmentBegin VkRenderPassAttachmentBeginInfo.zero
  | LOADER_DEVICE_CREATE_INFO => LoaderDeviceCreate
  | OTHER_STRUCTURE v => OtherStructure v
  end.

Section Output.

Fixpoint read_topology_nodes (n : nat) (context : PNextContext)
    (seen : list VkStructureType) : Rd chain :=
  match n with
  | O => rret []
  | S k =>
      v <- r_i32 ; r_ok ;!
      rguard (pnext_allowed context (stype_of v)) ;!
      rguard (negb (existsb (fun s => stype_eqb s (stype_of v)) seen)) ;!
      rguard (negb (Nat.eqb (pnext_node_size (stype_of v)) 0)) ;!
      nodes <- read_topology_nodes k context (seen ++ [stype_of v]) ;
      rret (zero_node (stype_of v) :: nodes)
  end.

(** marshal.cpp:816-832. *)
Definition read_pnext_output_topology (context : PNextContext) : Rd (ptr chain) :=
  count <- r_u32 ; r_ok ;! rguard (negb (kMaxPNextNodes <? count)) ;!
  nodes <- read_topology_nodes (Z.to_nat count) context [] ;
  r_ok ;! rret (arr_ptr nodes).

(** The resolver that knows no handle; marshal.cpp:845-857. *)
Definition null_resolver : HandleResolver := {|
  hr_buffer _ := 0; hr_image _ := 0; hr_image_view _ := 0; hr_buffer_view _ := 0;
  hr_memory _ := 0; hr_render_pass _ := 0; hr_framebuffer _ := 0; hr_shader_module _ := 0;
  hr_pipeline _ := 0; hr_pipeline_layout _ := 0; hr_pipeline_cache _ := 0;
  hr_descriptor_set_layout _ := 0; hr_descriptor_pool _ := 0; hr_descriptor_set _ := 0;
  hr_sampler _ := 0; hr_sampler_ycbcr_conversion _ := 0; hr_semaphore _ := 0; hr_fence _ := 0;
  hr_event _ := 0; hr_query_pool _ := 0; hr_surface _ := 0; hr_swapchain _ := 0;
  hr_command_pool _ := 0; hr_command_buffer _ := 0 |}.

(** The cases of the [COPY_OUTPUT] switch; marshal.cpp:862-890. *)
Definition output_copied (t : VkStructureType) : bool :=
  match t with
  | PHYSICAL_DEVICE_FRAGMENT_SHADING_RATE_FEATURES_KHR | PHYSICAL_DEVICE_VULKAN_1_1_FEATURES
  | PHYSICAL_DEVICE_VULKAN_1_2_FEATURES | PHYSICAL_DEVICE_HOST_QUERY_RESET_FEATURES
  | PHYSICAL_DEVICE_TIMELINE_SEMAPHORE_FEATURES | PHYSICAL_DEVICE_SYNCHRONIZATION_2_FEATURES
  | PHYSICAL_DEVICE_BUFFER_DEVICE_ADDRESS_FEATURES
  | PHYSICAL_DEVICE_DESCRIPTOR_INDEXING_FEATURES
  | PHYSICAL_DEVICE_SEPARATE_DEPTH_STENCIL_LAYOUTS_FEATURES
  | PHYSICAL_DEVICE_VULKAN_1_1_PROPERTIES | PHYSICAL_DEVICE_VULKAN_1_2_PROPERTIES
  | PHYSICAL_DEVICE_TIMELINE_SEMAPHORE_PROPERTIES
  | PHYSICAL_DEVICE_DEPTH_STENCIL_RESOLVE_PROPERTIES
  | PHYSICAL_DEVICE_DESCRIPTOR_INDEXING_PROPERTIES | PHYSICAL_DEVICE_PROTECTED_MEMORY_FEATURES
  | PHYSICAL_DEVICE_SAMPLER_YCBCR_CONVERSION_FEATURES | PHYSICAL_DEVICE_SUBGROUP_PROPERTIES
  | PHYSICAL_DEVICE_ID_PROPERTIES | PHYSICAL_DEVICE_PROTECTED_MEMORY_PROPERTIES
  | PHYSICAL_DEVICE_MAINTENANCE_3_PROPERTIES
  | PHYSICAL_DEVICE_FRAGMENT_SHADING_RATE_PROPERTIES_KHR
  | PHYSICAL_DEVICE_IMAGELESS_FRAMEBUFFER_FEATURES | PHYSICAL_DEVICE_MULTIVIEW_FEATURES
  | PHYSICAL_DEVICE_MULTIVIEW_PROPERTIES | PHYSICAL_DEVICE_POINT_CLIPPING_PROPERTIES
  | MEMORY_DEDICATED_REQUIREMENTS | SAMPLER_YCBCR_CONVERSION_IMAGE_FORMAT_PROPERTIES => true
  | _ => false
  end.

(** One iteration of the loop of [apply_pnext_output_values]: the new value of
    the caller's node. *)
Definition apply_node (caller : pnext_node) : Rd pnext_node :=
  v <- r_i32 ; r_ok ;! rguard (stype_eqb (stype_of v) (node_type caller)) ;!
  temp <- read_node_fields (HR := null_resolver) (stype_of v) 0 ;
  rguard (output_copied (stype_of v)) ;! rret temp.

(** The loop: the nodes are overwritten one by one, so a failure leaves the
    ones before it changed. *)
Fixpoint apply_nodes (caller_nodes : chain) (r : reader) : bool * chain * reader :=
  match caller_nodes with
  | [] => (true, [], r)
  | node :: rest =>
      match apply_node node r with
      | (None, r') => (false, node :: rest, r')
      | (Some node', r') =>
          let '(res, rest', r'') := apply_nodes rest r' in (res, node' :: rest', r'')
      end
  end.

(** marshal.cpp:838-893, for the output contexts, in which the nodes collected
    are the caller's whole chain: the result, the caller's chain afterwards,
    and the reader. *)
Definition apply_pnext_output_values (context : PNextContext) (caller_head : ptr chain)
    (r : reader) : bool * ptr chain * reader :=
  match collect_chain context (chain_nodes caller_head) [] with
  | None => (false, caller_head, r)
  | Some caller_nodes =>
      match (count <- r_u32 ; r_ok ;!
             rguard (count =? Z.of_nat (length caller_nodes)) ;!
             rguard (negb (kMaxPNextNodes <? count))) r with
      | (None, r') => (false, caller_head, r')
      | (Some _, r') =>
          let '(res, nodes, r'') := apply_nodes caller_nodes r' in
          (res && Reader.ok r'', arr_ptr nodes, r'')
      end
  end.

End Output.
