(* ===== verification/PNextFacts.v ===== *)
(** What the pNext codec of PNext.v guarantees: round trips, the exact
    conditions under which a chain is refused, and what a decoder can produce
    from arbitrary bytes. *)

From stdpp Require Import list.
From S2P Require Import Prelude Wire Codec CLayout VkStructs ExtensionContract PNext.
Import ReaderFacts.
Open Scope wire_scope.

(** ** What a node looks like on the other side *)
Section Transport.
Context {HR : HandleResolver}.

Definition transport_ptr {A} (p : ptr (list A)) (n : Z) : ptr (list A) := arr_ptr (arr p n).

Definition transport_image_info (a : VkFramebufferAttachmentImageInfo.t) :=
  let '(VkFramebufferAttachmentImageInfo.mk sType _ flags usage width height layers n p) := a in
  VkFramebufferAttachmentImageInfo.mk sType Null flags usage width height layers n
    (transport_ptr p n).

(** The decoded node: hidden features and properties cleared, handles resolved,
    arrays of no element null. *)
Definition node_transport (node : pnext_node) : pnext_node :=
  match node with
  | Vulkan11Features s =>
      Vulkan11Features (VkPhysicalDeviceVulkan11Features.mk 0 0 0 0
        (VkPhysicalDeviceVulkan11Features.multiview s)
        (VkPhysicalDeviceVulkan11Features.multiviewGeometryShader s)
        (VkPhysicalDeviceVulkan11Features.multiviewTessellationShader s) 0 0 0
        (VkPhysicalDeviceVulkan11Features.samplerYcbcrConversion s) 0)
  | Vulkan12Features s => Vulkan12Features (apply_vulkan12_feature_policy s)
  | BufferDeviceAddressFeatures s =>
      BufferDeviceAddressFeatures (apply_buffer_address_feature_policy s)
  | DescriptorIndexingFeatures s =>
      DescriptorIndexingFeatures (apply_descriptor_indexing_feature_policy s)
  | DescriptorIndexingProperties tail =>
      DescriptorIndexingProperties (replicate (length tail) x00)
  | ProtectedMemoryFeatures _ => ProtectedMemoryFeatures 0
  | ProtectedMemoryProperties _ => ProtectedMemoryProperties 0
  | Vulkan11Properties (VkPhysicalDeviceVulkan11Properties.mk u1 u2 u3 a b c d e f g h i _ k l) =>
      Vulkan11Properties (VkPhysicalDeviceVulkan11Properties.mk u1 u2 u3 a b c d e f g h i 0 k l)
  | InputAttachmentAspect (VkRenderPassInputAttachmentAspectCreateInfo.mk n p) =>
      InputAttachmentAspect
        (VkRenderPassInputAttachmentAspectCreateInfo.mk n (transport_ptr p n))
  | RenderPassMultiview (VkRenderPassMultiviewCreateInfo.mk n1 p1 n2 p2 n3 p3) =>
      RenderPassMultiview (VkRenderPassMultiviewCreateInfo.mk
        n1 (transport_ptr p1 n1) n2 (transport_ptr p2 n2) n3 (transport_ptr p3 n3))
  | FragmentShadingRateAttachment (VkFragmentShadingRateAttachmentInfoKHR.mk p size) =>
      FragmentShadingRateAttachment (VkFragmentShadingRateAttachmentInfoKHR.mk
        match p with
        | Ref (VkAttachmentReference2.mk sType _ a b c) =>
            Ref (VkAttachmentReference2.mk sType Null a b c)
        | _ => Null
        end size)
  | ImageFormatList (VkImageFormatListCreateInfo.mk n p) =>
      ImageFormatList (VkImageFormatListCreateInfo.mk n (transport_ptr p n))
  | SamplerYcbcrConversion id =>
      SamplerYcbcrConversion (patch_handle hr_sampler_ycbcr_conversion id)
  | FramebufferAttachments (VkFramebufferAttachmentsCreateInfo.mk n p) =>
      FramebufferAttachments (VkFramebufferAttachmentsCreateInfo.mk n
        (arr_ptr (map transport_image_info (arr p n))))
  | TimelineSemaphoreSubmit (VkTimelineSemaphoreSubmitInfo.mk nw pw ns ps) =>
      TimelineSemaphoreSubmit (VkTimelineSemaphoreSubmitInfo.mk
        nw (transport_ptr pw nw) ns (transport_ptr ps ns))
  | RenderPassAttachmentBegin (VkRenderPassAttachmentBeginInfo.mk n p) =>
      RenderPassAttachmentBegin (VkRenderPassAttachmentBeginInfo.mk n
        (arr_ptr (map (patch_handle hr_image_view) (arr p n))))
  | _ => node
  end.

(** ** Well-typed nodes

    Every member is in the range of its C type, every array has at least the
    number of elements its count says, pointers are valid or null. *)

Definition arr_ok {A} (P : A -> Prop) (n : Z) (p : ptr (list A)) : Prop :=
  is_u32 n /\ Z.of_nat (length (arr p n)) = n /\ Forall P (arr p n).

Definition extent_ok (e : VkExtent2D.t) : Prop :=
  is_u32 (VkExtent2D.width e) /\ is_u32 (VkExtent2D.height e).

Definition aspect_ok (r : VkInputAttachmentAspectReference.t) : Prop :=
  let '(VkInputAttachmentAspectReference.mk a b c) := r in Forall is_u32 [a; b; c].

Definition reference2_ok (p : ptr VkAttachmentReference2.t) : Prop :=
  match p with
  | Null => True
  | Wild _ => False
  | Ref (VkAttachmentReference2.mk sType _ a b c) =>
      sType = VK_STRUCTURE_TYPE_ATTACHMENT_REFERENCE_2 /\ is_u32 a /\ is_i32 b /\ is_u32 c
  end.

Definition image_info_ok (a : VkFramebufferAttachmentImageInfo.t) : Prop :=
  let '(VkFramebufferAttachmentImageInfo.mk _ _ flags usage width height layers n p) := a in
  Forall is_u32 [flags; usage; width; height; layers] /\ arr_ok is_i32 n p.

Definition node_ok (node : pnext_node) : Prop :=
  match node with
  | Features2 f =>
      length (VkPhysicalDeviceFeatures.words f) = VkPhysicalDeviceFeatures.count /\
      Forall is_u32 (VkPhysicalDeviceFeatures.words f)
  | Vulkan11Features s =>
      Forall is_u32
        [VkPhysicalDeviceVulkan11Features.multiview s;
         VkPhysicalDeviceVulkan11Features.multiviewGeometryShader s;
         VkPhysicalDeviceVulkan11Features.multiviewTessellationShader s;
         VkPhysicalDeviceVulkan11Features.samplerYcbcrConversion s]
  | Vulkan12Features s => Forall is_u32 (VkPhysicalDeviceVulkan12Features.words s)
  | HostQueryResetFeatures v | TimelineSemaphoreFeatures v | Synchronization2Features v
  | SeparateDepthStencilLayoutsFeatures v | SamplerYcbcrConversionFeatures v
  | ImagelessFramebufferFeatures v | ImageViewUsage v | SamplerYcbcrImageFormatProperties v
  | ImagePlaneMemoryRequirements v | BindImagePlaneMemory v
  | ProtectedMemoryFeatures v | ProtectedMemoryProperties v => is_u32 v
  | BufferDeviceAddressFeatures s =>
      is_u32 (VkPhysicalDeviceBufferDeviceAddressFeatures.bufferDeviceAddress s)
  | DescriptorIndexingFeatures s =>
      Forall is_u32 (VkPhysicalDeviceDescriptorIndexingFeatures.words s)
  | Vulkan12Properties tail =>
      length tail = node_tail_size PHYSICAL_DEVICE_VULKAN_1_2_PROPERTIES
  | DescriptorIndexingProperties tail =>
      length tail = node_tail_size PHYSICAL_DEVICE_DESCRIPTOR_INDEXING_PROPERTIES
  | TimelineSemaphoreProperties v | BufferOpaqueCaptureAddress v
  | SamplerYcbcrConversion v => is_u64 v
  | DepthStencilResolveProperties (VkPhysicalDeviceDepthStencilResolveProperties.mk a b c d)
  | SubgroupProperties (VkPhysicalDeviceSubgroupProperties.mk a b c d) =>
      Forall is_u32 [a; b; c; d]
  | Vulkan11Properties
      (VkPhysicalDeviceVulkan11Properties.mk u1 u2 u3 a b c d e f g h i _ k l) =>
      (length u1 = 16 /\ length u2 = 16 /\ length u3 = 8)%nat /\
      Forall is_u32 [a; b; c; d; e; f; h; i; k] /\ is_i32 g /\ is_u64 l
  | IDProperties (VkPhysicalDeviceIDProperties.mk u1 u2 u3 a b) =>
      (length u1 = 16 /\ length u2 = 16 /\ length u3 = 8)%nat /\ Forall is_u32 [a; b]
  | Maintenance3Properties (VkPhysicalDeviceMaintenance3Properties.mk a b) =>
      is_u32 a /\ is_u64 b
  | FragmentShadingRateFeatures (VkPhysicalDeviceFragmentShadingRateFeaturesKHR.mk a b c)
  | MultiviewFeatures (VkPhysicalDeviceMultiviewFeatures.mk a b c) => Forall is_u32 [a; b; c]
  | FragmentShadingRateProperties (VkPhysicalDeviceFragmentShadingRatePropertiesKHR.mk
      e1 e2 v1 v2 v3 v4 e3 a b c d e f g h i j) =>
      extent_ok e1 /\ extent_ok e2 /\ extent_ok e3 /\
      Forall is_u32 [v1; v2; v3; v4; a; b; c; d; e; f; g; h; i; j]
  | MultiviewProperties (VkPhysicalDeviceMultiviewProperties.mk a b)
  | MemoryDedicatedRequirements (VkMemoryDedicatedRequirements.mk a b)
  | MemoryAllocateFlags (VkMemoryAllocateFlagsInfo.mk a b) => Forall is_u32 [a; b]
  | PointClippingProperties v | TessellationDomainOrigin v => is_i32 v
  | InputAttachmentAspect (VkRenderPassInputAttachmentAspectCreateInfo.mk n p) =>
      arr_ok aspect_ok n p
  | RenderPassMultiview (VkRenderPassMultiviewCreateInfo.mk n1 p1 n2 p2 n3 p3) =>
      arr_ok is_u32 n1 p1 /\ arr_ok is_i32 n2 p2 /\ arr_ok is_u32 n3 p3
  | FragmentShadingRateAttachment (VkFragmentShadingRateAttachmentInfoKHR.mk p size) =>
      reference2_ok p /\ extent_ok size
  | PipelineFragmentShadingRate
      (VkPipelineFragmentShadingRateStateCreateInfoKHR.mk size a b) =>
      extent_ok size /\ is_i32 a /\ is_i32 b
  | ImageFormatList (VkImageFormatListCreateInfo.mk n p) => arr_ok is_i32 n p
  | FramebufferAttachments (VkFramebufferAttachmentsCreateInfo.mk n p) =>
      arr_ok image_info_ok n p
  | SemaphoreType (VkSemaphoreTypeCreateInfo.mk a b) => is_i32 a /\ is_u64 b
  | TimelineSemaphoreSubmit (VkTimelineSemaphoreSubmitInfo.mk nw pw ns ps) =>
      arr_ok is_u64 nw pw /\ arr_ok is_u64 ns ps
  | RenderPassAttachmentBegin (VkRenderPassAttachmentBeginInfo.mk n p) => arr_ok is_u64 n p
  | LoaderDeviceCreate => True
  | OtherStructure v => is_i32 v
  end.

End Transport.

(** ** Decoding arrays *)
Section Arrays.

Lemma is_u32_0 : is_u32 0.
Proof. unfold is_u32. lia. Qed.

Lemma is_u32_1 : is_u32 1.
Proof. unfold is_u32. lia. Qed.

Lemma reads_map {A} rest (m : Rd A) (enc : A -> list byte) (P : A -> Prop) xs :
  (forall x rest, P x -> reads_at rest m (enc x) x) -> Forall P xs ->
  reads_at rest (rfor (length xs) m) (concat (map enc xs)) xs.
Proof.
  intros Hm HP. rewrite <- (map_id xs) at 3.
  apply (reads_for rest m (fun x b => P x /\ b = enc x) (fun x => x)).
  - induction HP; cbn; constructor; auto.
  - intros x b rest' [Hx ->]. auto.
Qed.

Lemma reads_u32s rest xs : Forall is_u32 xs ->
  reads_at rest (rfor (length xs) r_u32) (u32s xs) xs.
Proof. apply reads_map. intros. by apply reads_u32. Qed.

Lemma reads_i32s rest xs : Forall is_i32 xs ->
  reads_at rest (rfor (length xs) r_i32) (i32s xs) xs.
Proof. apply reads_map. intros. by apply reads_i32. Qed.

Lemma reads_u64s rest xs : Forall is_u64 xs ->
  reads_at rest (rfor (length xs) r_u64) (u64s xs) xs.
Proof. apply reads_map. intros. by apply reads_u64. Qed.

Lemma reads_exact rest n data :
  length data = n -> (Z.of_nat n <? 4096) = true -> reads_at rest (read_exact n) (Writer.bytes data) data.
Proof.
  intros Hl Hn. bool_hyps. unfold read_exact.
  eapply reads_bind_last; [apply reads_bytes; unfold is_u32; lia|].
  eapply reads_bind_nil; [apply reads_guard, Z.eqb_eq; lia|]. apply reads_ret.
Qed.

Lemma reads_read_count rest es n :
  is_u32 n -> valid_count n es = true -> reads_at rest (read_count es) (Writer.u32 n) n.
Proof.
  intros Hn Hv. unfold read_count. eapply reads_bind_last; [by apply reads_u32|].
  eapply reads_bind_nil; [apply reads_ok|]. eapply reads_bind_nil; [by apply reads_guard|].
  apply reads_ret.
Qed.

Lemma reads_counted {A B} rest es (m : Rd B) (xs : list A) n enc ys :
  is_u32 n -> valid_count n es = true -> Z.of_nat (length xs) = n ->
  reads_at rest (rfor (length xs) m) enc ys ->
  reads_at rest (read_counted es m) (Writer.u32 n ++ enc) (n, arr_ptr ys).
Proof.
  intros Hn Hv Hl Hm. unfold read_counted. eapply reads_bind; [by apply reads_read_count|].
  rewrite <- Hl, Nat2Z.id. eapply reads_bind_last; [exact Hm|]. apply reads_ret.
Qed.

Lemma reads_bind_counted {A B C} rest es (m : Rd B) (f : Z * ptr (list B) -> Rd C)
    (xs : list A) n enc ys b2 c :
  is_u32 n -> valid_count n es = true -> Z.of_nat (length xs) = n ->
  (forall rest, reads_at rest (rfor (length xs) m) enc ys) ->
  reads_at rest (f (n, arr_ptr ys)) b2 c ->
  reads_at rest (rbind (read_counted es m) f) (Writer.u32 n ++ enc ++ b2) c.
Proof.
  intros Hn Hv Hl Hm Hf. rewrite app_assoc.
  eapply reads_bind; [by eapply reads_counted|exact Hf].
Qed.

Lemma reads_extent rest e : extent_ok e -> reads_at rest read_extent (write_extent e) e.
Proof.
  intros [Hw Hh]. unfold read_extent, write_extent. destruct e as [w h]. cbn in *.
  eapply reads_bind; [by apply reads_u32|]. eapply reads_bind_last; [by apply reads_u32|].
  eapply reads_bind_nil; [apply reads_ok|]. apply reads_ret.
Qed.

Lemma reads_handle_array rest resolve xs n :
  is_u32 n -> valid_count n 8 = true -> Z.of_nat (length xs) = n -> Forall is_u64 xs ->
  reads_at rest (read_handle_array n resolve) (concat (map Writer.handle xs))
    (arr_ptr (map (patch_handle resolve) xs)).
Proof.
  intros Hn Hv Hl Hxs. unfold read_handle_array. destruct (Z.eqb_spec n 0) as [->|Hz].
  { destruct xs; [apply reads_ret|cbn in Hl; lia]. }
  unfold valid_count in Hv. bool_hyps.
  eapply reads_bind_nil; [apply reads_guard, negb_true_iff, Z.ltb_ge; lia|].
  rewrite <- Hl, Nat2Z.id. eapply reads_bind_last.
  - apply (reads_for _ _ (fun x b => is_u64 x /\ b = Writer.handle x) (patch_handle resolve)).
    + clear -Hxs. induction Hxs; cbn; constructor; auto.
    + intros x b rest' [Hx ->]. eapply reads_bind_last; [by apply reads_handle|].
      eapply reads_bind_nil; [apply reads_ok|]. apply reads_ret.
  - destruct xs; [cbn in Hl; lia|]. apply reads_ret.
Qed.

End Arrays.

(** ** One node *)

Ltac solve_side :=
  first [ assumption | apply is_u32_0 | apply is_u32_1 | reflexivity | lia ].

(** The read of one member. *)
Ltac read_one m :=
  lazymatch m with
  | r_u32 => apply reads_u32; solve_side
  | r_u64 => apply reads_u64; solve_side
  | r_i32 => apply reads_i32; solve_side
  | r_handle => apply reads_handle; solve_side
  | read_exact _ => apply reads_exact; [solve_side|vm_compute; reflexivity]
  | read_extent => apply reads_extent; solve_side
  end.

(** Walks a decoder along the encoding of its fixed-size members. *)
Ltac reads_node :=
  repeat lazymatch goal with
  | |- reads_at _ (rret _) _ _ => apply reads_ret
  | |- reads_at _ (rbind r_ok _) _ _ => eapply reads_bind_nil; [apply reads_ok|]
  | |- reads_at _ (rbind (rguard _) _) _ _ =>
      eapply reads_bind_nil; [apply reads_guard; solve_side|]
  | |- reads_at _ (rbind ?m _) (_ ++ _) _ => eapply reads_bind; [read_one m|cbv beta]
  | |- reads_at _ (rbind ?m _) _ _ => eapply reads_bind_last; [read_one m|cbv beta]
  end.

Section Node.
Context `{Abi} {HR : HandleResolver}.

Lemma vulkan12_words_ok s : Forall is_u32 (VkPhysicalDeviceVulkan12Features.words s) ->
  Forall is_u32 (vulkan12_words (apply_vulkan12_feature_policy s)).
Proof.
  intros Hs. unfold vulkan12_words. rewrite policy_words. apply Forall_app. split.
  - revert Hs. generalize (VkPhysicalDeviceVulkan12Features.words s) as ws.
    generalize vulkan12_kept as ks. intros ks ws Hs. revert ks.
    induction Hs; intros [|k ks]; cbn; constructor; [by destruct k|auto].
  - constructor; [|constructor]. apply le_value_4_range, length_pad.
Qed.

Lemma descriptor_indexing_words_ok s :
  Forall is_u32 (VkPhysicalDeviceDescriptorIndexingFeatures.words s) ->
  Forall is_u32 (VkPhysicalDeviceDescriptorIndexingFeatures.words
                   (apply_descriptor_indexing_feature_policy s)).
Proof.
  intros Hs. replace (VkPhysicalDeviceDescriptorIndexingFeatures.words _)
    with (take 10 (VkPhysicalDeviceDescriptorIndexingFeatures.words s) ++ replicate 10 0)
    by (by destruct s).
  apply Forall_app. split; [by apply Forall_take|]. apply Forall_replicate, is_u32_0.
Qed.

Lemma reads_image_info rest a bs :
  write_attachment_image_info a = (true, bs) -> image_info_ok a ->
  reads_at rest read_attachment_image_info bs (transport_image_info a).
Proof.
  destruct a as [sType pNext flags usage width height layers n p].
  cbn [write_attachment_image_info image_info_ok transport_image_info].
  intros Hw [Hf (Hn & Hl & Hp)]. winv. rewrite ?app_nil_l. bool_hyps. decompose_Forall_hyps.
  unfold read_attachment_image_info. reads_node.
  eapply reads_bind_last;
    [eapply reads_counted; [assumption|assumption|eassumption|by apply reads_i32s]|].
  apply reads_ret.
Qed.

Lemma reads_aspect_reference rest r : aspect_ok r ->
  reads_at rest read_aspect_reference
    (Writer.u32 (VkInputAttachmentAspectReference.subpass r) ++
     Writer.u32 (VkInputAttachmentAspectReference.inputAttachmentIndex r) ++
     Writer.u32 (VkInputAttachmentAspectReference.aspectMask r)) r.
Proof.
  destruct r as [a b c]. cbn. intros Hr. decompose_Forall_hyps.
  unfold read_aspect_reference. reads_node.
Qed.

(** The loops over nested elements. *)
Lemma reads_image_infos rest xs bs :
  wfor write_attachment_image_info xs = (true, bs) -> Forall image_info_ok xs ->
  reads_at rest (rfor (length xs) read_attachment_image_info) bs (map transport_image_info xs).
Proof.
  intros Hw Hxs. apply wfor_true in Hw as (bss & HF & ->).
  apply (reads_for rest _
    (fun x b => write_attachment_image_info x = (true, b) /\ image_info_ok x)
    transport_image_info).
  - clear -HF Hxs. induction HF; decompose_Forall_hyps; constructor; auto.
  - intros x b rest' [Hx Hk]. by apply reads_image_info.
Qed.

Lemma read_features_words rest vs :
  length vs = VkPhysicalDeviceFeatures.count -> Forall is_u32 vs ->
  reads_at rest read_PhysicalDeviceFeatures (u32s vs) (VkPhysicalDeviceFeatures.mk vs).
Proof.
  intros Hl Hv. unfold read_PhysicalDeviceFeatures. rewrite <- Hl.
  eapply reads_bind_last; [by apply reads_u32s|]. reads_node.
Qed.

(** The encoding and decoding of an optional attachment reference. *)
Lemma reads_optional_reference rest p b :
  match p with
  | Ref a => wguard (is_null (VkAttachmentReference2.pNext a)) ;;;
             emit (write_attachment_reference2 a)
  | _ => emit []
  end = (true, b) -> reference2_ok p ->
  reads_at rest
    (if (if is_null p then 0 else 1) =? 0 then rret Null
     else a <- read_attachment_reference2 ; rret (Ref a)) b
    match p with
    | Ref (VkAttachmentReference2.mk sType _ a b c) =>
        Ref (VkAttachmentReference2.mk sType Null a b c)
    | _ => Null
    end.
Proof.
  destruct p as [|w|[sType pNext a l m]]; cbn [is_null Z.eqb].
  - intros Hw _. winv. apply reads_ret.
  - intros _ [].
  - intros Hw (-> & Ha & Hb & Hc). winv. cbn [app].
    eapply reads_bind_last; [|apply reads_ret].
    unfold read_attachment_reference2, write_attachment_reference2.
    cbn [VkAttachmentReference2.sType VkAttachmentReference2.attachment
         VkAttachmentReference2.layout VkAttachmentReference2.aspectMask].
    eapply reads_bind; [apply reads_i32; by apply (bool_decide_unpack _)|]. reads_node.
Qed.

(** The structures that hold counted arrays. *)
Ltac read_elements :=
  intros;
  first [ apply reads_u32s; assumption | apply reads_i32s; assumption
        | apply reads_u64s; assumption
        | eapply (reads_map _ _ _ aspect_ok); [|assumption];
          intros; by apply reads_aspect_reference ].

Ltac read_counted_member :=
  first
    [ eapply reads_bind_last;
        [eapply reads_counted; [assumption|assumption|eassumption|read_elements]|]
    | eapply reads_bind_counted; [assumption|assumption|eassumption|read_elements|] ];
  cbn [fst snd].

Lemma reads_node_members rest node depth bs :
  write_node_fields node depth = (true, bs) -> node_ok node ->
  reads_at rest (read_node_members (node_type node) depth) bs (node_transport node).
Proof.
  destruct node as [[vs]|s|s| | | |[]|s| |tail| |[]|tail| | |[]|[]|[]| |[]|[]|[]| |[]|[]|
    |[n p]|[n1 p1 n2 p2 n3 p3]|[p size]|[size a b]| |[n p]| | | | |[]| |[n p]|[]|[nw pw ns ps]
    | |[]|[n p]| | ];
    cbn [write_node_fields node_ok node_type read_node_members node_transport
         apply_buffer_address_feature_policy];
    intros Hw Hok; winv; rewrite ?app_nil_l.
  all: try solve [destruct_and?; forall_hyps; reads_node].
  all: try match goal with Hf : false = true |- _ => discriminate Hf end.
  - (* Features2 *) destruct Hok. eapply reads_bind_last; [by apply read_features_words|].
    reads_node.
  - (* Vulkan12Features *)
    eapply reads_bind_last;
      [by apply (reads_u32s _ (vulkan12_words _)), vulkan12_words_ok|].
    destruct s; apply reads_ret.
  - (* DescriptorIndexingFeatures *)
    eapply reads_bind_last;
      [by apply (reads_u32s _ (VkPhysicalDeviceDescriptorIndexingFeatures.words _)),
          descriptor_indexing_words_ok|].
    rewrite VkPhysicalDeviceDescriptorIndexingFeatures.VkPhysicalDeviceDescriptorIndexingFeatures_words. apply reads_ret.
  - (* DescriptorIndexingProperties *)
    eapply reads_bind_last; [|apply reads_ret].
    apply reads_exact; [by rewrite length_replicate|by vm_compute].
  - (* InputAttachmentAspect *) destruct Hok as (? & ? & ?). bool_hyps.
    read_counted_member. reads_node.
  - (* RenderPassMultiview *) destruct Hok as ((? & ? & ?) & (? & ? & ?) & (? & ? & ?)).
    bool_hyps. do 3 read_counted_member. reads_node.
  - (* FragmentShadingRateAttachment *) destruct Hok as [Hp Hs].
    eapply reads_bind_nil; [by apply reads_guard|].
    eapply reads_bind; [apply reads_u32; destruct (is_null p); [apply is_u32_0|apply is_u32_1]|].
    eapply reads_bind_nil; [apply reads_ok|].
    eapply reads_bind_nil; [apply reads_guard; by destruct (is_null p)|].
    eapply reads_bind; [by apply reads_optional_reference|]. reads_node.
  - (* ImageFormatList *) destruct Hok as (? & ? & ?). bool_hyps.
    read_counted_member. reads_node.
  - (* FramebufferAttachments *) destruct Hok as (? & Hl & ?). bool_hyps.
    eapply reads_bind_nil; [apply reads_guard, negb_true_iff, Z.leb_gt; lia|].
    eapply reads_bind; [by apply reads_read_count|].
    replace (Z.to_nat n) with (length (arr p n)) by lia.
    eapply reads_bind_last; [by apply reads_image_infos|]. reads_node.
  - (* TimelineSemaphoreSubmit *) destruct Hok as ((? & ? & ?) & (? & ? & ?)). bool_hyps.
    do 2 read_counted_member. reads_node.
  - (* RenderPassAttachmentBegin *) destruct Hok as (? & ? & ?). bool_hyps.
    eapply reads_bind; [by apply reads_read_count|].
    eapply reads_bind_last; [by apply reads_handle_array|]. reads_node.
Qed.

Lemma reads_node_fields rest node depth bs :
  write_node_fields node depth = (true, bs) -> node_ok node ->
  reads_at rest (read_node_fields (node_type node) depth) bs (node_transport node).
Proof.
  intros Hw Hok. unfold read_node_fields.
  eapply reads_bind_last; [by apply reads_node_members|]. reads_node.
Qed.

End Node.

(** ** Whole chains *)

Definition is_loader (context : PNextContext) (node : pnext_node) : bool :=
  match context with
  | DeviceCreate => stype_eqb (node_type node) LOADER_DEVICE_CREATE_INFO
  | _ => false
  end.

(** The nodes that are transported: the loader's own node of a device creation
    is skipped. *)
Fixpoint kept (context : PNextContext) (c : chain) : chain :=
  match c with
  | [] => []
  | node :: c' => if is_loader context node then kept context c' else node :: kept context c'
  end.

Definition types (c : chain) : list Z := map (fun node => stype_value (node_type node)) c.

(** A chain the context accepts: at most [kMaxPNextNodes] nodes, all of allowed
    types, no type twice. *)
Definition acceptable (context : PNextContext) (c : chain) : Prop :=
  Z.of_nat (length c) <= kMaxPNextNodes /\
  Forall (fun node => pnext_allowed context (node_type node) = true) c /\
  NoDup (types c).

Section Chain.
Context `{Abi} {HR : HandleResolver}.

Lemma types_app c d : types (c ++ d) = types c ++ types d.
Proof. apply map_app. Qed.

Lemma seen_in (nodes : chain) node :
  existsb (fun previous => stype_eqb (node_type previous) (node_type node)) nodes = true
  <-> stype_value (node_type node) ∈ types nodes.
Proof.
  unfold types. rewrite existsb_exists, list_elem_of_fmap. unfold stype_eqb.
  split; intros (x & Hx & Hy); exists x; rewrite ?list_elem_of_In, ?Z.eqb_eq in *; auto.
Qed.

Lemma collect_chain_spec context : forall head nodes out,
  NoDup (types nodes) -> Z.of_nat (length nodes) <= kMaxPNextNodes ->
  collect_chain context head nodes = Some out <->
  out = nodes ++ kept context head /\ Z.of_nat (length out) <= kMaxPNextNodes /\
  Forall (fun node => pnext_allowed context (node_type node) = true) (kept context head) /\
  NoDup (types out).
Proof.
  induction head as [|node next IH]; intros nodes out Hn Hl.
  { cbn. rewrite app_nil_r. split; [intros [= <-]; auto|by intros (-> & _)]. }
  cbn [collect_chain kept].
  replace (_ && stype_eqb _ LOADER_DEVICE_CREATE_INFO) with (is_loader context node)
    by (by destruct context).
  destruct (is_loader context node); [by apply IH|].
  destruct (Z.of_nat (length nodes) =? kMaxPNextNodes) eqn:Hfull; cbn [orb].
  { bool_hyps. split; [done|]. intros (-> & Hlen & _). lens. lia. }
  destruct (pnext_allowed context (node_type node)) eqn:Hal; cbn [negb];
    [|split; [done|intros (_ & _ & Hf & _); forall_hyps; congruence]].
  destruct (existsb _ nodes) eqn:Hseen.
  { split; [done|]. intros (-> & _ & _ & Hd). apply seen_in in Hseen.
    rewrite types_app, NoDup_app in Hd. destruct Hd as (_ & Hd & _).
    exfalso. apply (Hd _ Hseen). left. }
  rewrite IH.
  - rewrite <- app_assoc. cbn [app]. rewrite Forall_cons. tauto.
  - rewrite types_app, NoDup_app. split; [done|]. split; [|apply NoDup_singleton].
    intros x Hx Hx'. apply list_elem_of_singleton in Hx' as ->.
    apply seen_in in Hx. congruence.
  - bool_hyps. lens. lia.
Qed.

Lemma collect_chain_acceptable context head out :
  collect_chain context head [] = Some out <->
  out = kept context head /\ acceptable context (kept context head).
Proof.
  rewrite collect_chain_spec; [|apply NoDup_nil_2|cbn; unfold kMaxPNextNodes; lia].
  unfold acceptable. cbn [app]. split; [intros (-> & ?); tauto|intros (-> & ?); tauto].
Qed.

(** *** Structure types on the wire *)

Lemma named_roundtrip t : In t named_structures -> stype_of (stype_value t) = t.
Proof. intros Ht. cbn in Ht. repeat (destruct Ht as [<-|Ht]; [reflexivity|]). done. Qed.

Lemma allowed_named context t : pnext_allowed context t = true -> In t named_structures.
Proof.
  intros Hal. destruct t; try (cbn; tauto). by destruct context.
Qed.

Lemma named_i32 t : In t named_structures -> is_i32 (stype_value t).
Proof.
  intros Ht. cbn in Ht.
  repeat (destruct Ht as [<-|Ht]; [by apply (bool_decide_unpack _)|]). done.
Qed.

Lemma allowed_size context t :
  pnext_allowed context t = true -> Nat.eqb (pnext_node_size t) 0 = false.
Proof. intros Hal. destruct t; try reflexivity; by destruct context. Qed.

(** *** The loop over the nodes *)

Lemma reads_nodes context depth rest : forall nodes seen bs,
  wfor (fun node => emit (Writer.i32 (stype_value (node_type node))) ;;;
                    write_node_fields node depth) nodes = (true, bs) ->
  Forall node_ok nodes ->
  Forall (fun node => pnext_allowed context (node_type node) = true) nodes ->
  NoDup (map stype_value seen ++ types nodes) ->
  reads_at rest (read_nodes (length nodes) context depth seen) bs (map node_transport nodes).
Proof.
  induction nodes as [|node nodes IH]; intros seen bs Hw Hok Hal Hd.
  { cbn in Hw. winv. apply reads_ret. }
  apply wfor_true_cons in Hw as (b1 & b2 & Hw1 & Hw2 & ->). winv. forall_hyps.
  assert (In (node_type node) named_structures) as Hn by (by eapply allowed_named).
  cbn [length read_nodes map]. rewrite <- app_assoc.
  eapply reads_bind; [by apply reads_i32, named_i32|].
  eapply reads_bind_nil; [apply reads_ok|]. cbv beta. rewrite named_roundtrip by done.
  eapply reads_bind_nil; [by apply reads_guard|].
  eapply reads_bind_nil.
  { apply reads_guard, negb_true_iff, not_true_iff_false. rewrite existsb_exists.
    intros (s & Hs & He). unfold stype_eqb in He. apply Z.eqb_eq in He.
    apply NoDup_app in Hd as (_ & Hd & _). apply (Hd (stype_value s)).
    - apply list_elem_of_fmap. exists s. split; [done|by apply list_elem_of_In].
    - rewrite He. left. }
  eapply reads_bind_nil; [apply reads_guard; by erewrite allowed_size|].
  eapply reads_bind; [by apply reads_node_fields|].
  eapply reads_bind_last; [apply IH; [done..|]|apply reads_ret].
  rewrite map_app, <- app_assoc. exact Hd.
Qed.

(** *** Encoding *)

Lemma write_pnext_chain_inv context head depth bs :
  write_pnext_chain context head depth = (true, bs) ->
  depth <= kMaxPNextDepth /\ acceptable context (kept context (chain_nodes head)) /\
  exists b, bs = Writer.u32 (Z.of_nat (length (kept context (chain_nodes head)))) ++ b /\
    wfor (fun node => emit (Writer.i32 (stype_value (node_type node))) ;;;
                      write_node_fields node depth) (kept context (chain_nodes head)) = (true, b).
Proof.
  unfold write_pnext_chain. intros Hw.
  apply transact_true, wseq_true in Hw as (b1 & b2 & Hg & Hw & ->).
  apply wguard_true in Hg as [Hg ->]. apply negb_true_iff, Z.ltb_ge in Hg.
  destruct (collect_chain _ _ _) as [nodes|] eqn:Hc; [|discriminate Hw].
  apply wseq_true in Hw as (b3 & b4 & He & Hw & ->). apply emit_true in He as ->.
  apply collect_chain_acceptable in Hc as [-> Hacc].
  split; [done|]. split; [done|]. by eexists.
Qed.

Lemma wfor_success {A} (f : A -> W) xs :
  fst (wfor f xs) = true <-> Forall (fun x => fst (f x) = true) xs.
Proof.
  induction xs as [|x xs IH]; [done|]. cbn [wfor]. unfold wseq. rewrite Forall_cons, <- IH.
  destruct (f x) as [[] b], (wfor f xs) as [? ?]; cbn; intuition congruence.
Qed.

End Chain.

Section ChainProperties.
Context `{Abi} {HR : HandleResolver}.

(** What the server makes of the chain a client sends, and when it can. *)
Definition chain_recv (context : PNextContext) (head : ptr chain) : ptr chain :=
  arr_ptr (map node_transport (kept context (chain_nodes head))).

Definition chain_ok (context : PNextContext) (head : ptr chain) : Prop :=
  Forall node_ok (kept context (chain_nodes head)).

Lemma reads_chain rest context head depth bs :
  write_pnext_chain context head depth = (true, bs) -> chain_ok context head ->
  reads_at rest (read_pnext_chain context depth) bs (chain_recv context head).
Proof.
  intros Hw Hok.
  apply write_pnext_chain_inv in Hw as (Hd & (Hl & Hal & Hnd) & b & -> & Hb).
  unfold read_pnext_chain.
  eapply reads_bind_nil; [apply reads_guard, negb_true_iff, Z.ltb_ge; lia|].
  unfold kMaxPNextNodes in *.
  eapply reads_bind; [apply reads_u32; unfold is_u32; lia|].
  eapply reads_bind_nil; [apply reads_ok|].
  eapply reads_bind_nil; [apply reads_guard, negb_true_iff, Z.ltb_ge; lia|].
  rewrite Nat2Z.id. eapply reads_bind_last; [by apply (reads_nodes _ _ _ _ [])|]. reads_node.
Qed.

(** C2: A pNext chain that the client encodes is decoded by the server as the
    same nodes in the same order, each with its transported members: hidden
    features and properties cleared, handles resolved, the loader's own node
    left out; and exactly the encoding is consumed, whatever follows it. *)
Theorem pnext_chain_roundtrip rest context head depth bs :
  write_pnext_chain context head depth = (true, bs) ->
  Forall node_ok (kept context (chain_nodes head)) ->
  exists r',
    read_pnext_chain context depth (Reader.make (bs ++ rest)) =
      (Some (arr_ptr (map node_transport (kept context (chain_nodes head)))), r') /\
    Reader.unread r' = rest.
Proof.
  intros Hw Hok. pose proof (unread_make (bs ++ rest)) as Hu.
  exists (Reader.advance (length bs) (Reader.make (bs ++ rest))).
  split; [|by eapply advance_ok; [apply make_wf|..]].
  apply (reads_at_elim rest); [by apply reads_chain|apply make_wf|done|done].
Qed.

(** The encoder accepts exactly the chains whose transported nodes number at
    most 16, are all allowed in the context, are of distinct types and can each
    be encoded at the nesting depth, itself at most 4; and when it refuses a
    chain it leaves the request unchanged. *)
Theorem write_pnext_chain_accepts context head depth :
  (fst (write_pnext_chain context head depth) = true <->
   depth <= kMaxPNextDepth /\ acceptable context (kept context (chain_nodes head)) /\
   Forall (fun node => fst (write_node_fields node depth) = true)
     (kept context (chain_nodes head))) /\
  (fst (write_pnext_chain context head depth) = false ->
   snd (write_pnext_chain context head depth) = []).
Proof.
  split.
  2:{ unfold write_pnext_chain. destruct (transact _) as [[] b] eqn:Ht; [done|]. intros _.
      by apply transact_false in Ht. }
  unfold write_pnext_chain.
  destruct (kMaxPNextDepth <? depth) eqn:Hd; cbn [negb wguard wseq transact fst]; bool_hyps.
  { split; [done|intros [? _]; lia]. }
  destruct (collect_chain context (chain_nodes head) []) as [nodes|] eqn:Hc.
  - apply collect_chain_acceptable in Hc as [-> Hacc].
    set (f := fun node => _). unfold emit at 1. cbn [wseq].
    pose proof (wfor_success f (kept context (chain_nodes head))) as Hf.
    destruct (wfor f _) as [ok b]. cbn [fst] in Hf.
    transitivity (ok = true); [by destruct ok|]. rewrite Hf. subst f.
    unfold emit; cbn [wseq]. split.
    + intros HF. split; [done|]. split; [done|]. eapply Forall_impl; [exact HF|].
      intros node. cbn. by destruct (write_node_fields node depth).
    + intros (_ & _ & HF). eapply Forall_impl; [exact HF|].
      intros node. cbn. by destruct (write_node_fields node depth).
  - split; [done|]. intros (_ & Hacc & _).
    assert (collect_chain context (chain_nodes head) []
            = Some (kept context (chain_nodes head))) by (by apply collect_chain_acceptable).
    congruence.
Qed.

End ChainProperties.

(** ** What the decoder can produce *)

(** A pointer to exactly [n] elements, each satisfying [P], or null. *)
Definition array_of {A} (P : A -> Prop) (n : Z) (p : ptr (list A)) : Prop :=
  n <= kMaxArrayElements /\
  match p with
  | Null => n = 0
  | Wild _ => False
  | Ref xs => Z.of_nat (length xs) = n /\ Forall P xs
  end.

Definition image_info_wf (a : VkFramebufferAttachmentImageInfo.t) : Prop :=
  let '(VkFramebufferAttachmentImageInfo.mk sType pNext _ _ _ _ _ n p) := a in
  sType = VK_STRUCTURE_TYPE_FRAMEBUFFER_ATTACHMENT_IMAGE_INFO /\ pNext = Null /\
  array_of (fun _ => True) n p.

(** Every pointer of the node is null or leads to an object of this process,
    and every count is the number of elements behind its pointer. *)
Definition node_wf (node : pnext_node) : Prop :=
  match node with
  | InputAttachmentAspect (VkRenderPassInputAttachmentAspectCreateInfo.mk n p) =>
      array_of (fun _ => True) n p
  | RenderPassMultiview (VkRenderPassMultiviewCreateInfo.mk n1 p1 n2 p2 n3 p3) =>
      array_of (fun _ => True) n1 p1 /\ array_of (fun _ => True) n2 p2 /\
      array_of (fun _ => True) n3 p3
  | FragmentShadingRateAttachment (VkFragmentShadingRateAttachmentInfoKHR.mk p _) =>
      match p with
      | Null => True
      | Wild _ => False
      | Ref a => VkAttachmentReference2.pNext a = Null /\
          VkAttachmentReference2.sType a = VK_STRUCTURE_TYPE_ATTACHMENT_REFERENCE_2
      end
  | ImageFormatList (VkImageFormatListCreateInfo.mk n p) => array_of (fun _ => True) n p
  | FramebufferAttachments (VkFramebufferAttachmentsCreateInfo.mk n p) =>
      array_of image_info_wf n p
  | TimelineSemaphoreSubmit (VkTimelineSemaphoreSubmitInfo.mk nw pw ns ps) =>
      array_of (fun _ => True) nw pw /\ array_of (fun _ => True) ns ps
  | MemoryAllocateFlags (VkMemoryAllocateFlagsInfo.mk flags deviceMask) =>
      Z.ldiff flags VK_MEMORY_ALLOCATE_DEVICE_ADDRESS_BIT = 0 /\ deviceMask = 0
  | RenderPassAttachmentBegin (VkRenderPassAttachmentBeginInfo.mk n p) =>
      array_of (fun _ => True) n p
  | _ => True
  end.

Section Decoded.
Context {HR : HandleResolver}.

Lemma array_of_arr_ptr {A} (P : A -> Prop) n xs :
  n <= kMaxArrayElements -> Z.of_nat (length xs) = n -> Forall P xs ->
  array_of P n (arr_ptr xs).
Proof. intros Hn Hl HP. split; [done|]. by destruct xs. Qed.

Lemma is_u32_to_nat n : is_u32 n -> Z.of_nat (Z.to_nat n) = n.
Proof. unfold is_u32. lia. Qed.

Lemma ensures_u32 : rd_ensures r_u32 is_u32.
Proof.
  apply ensures_intro. intros r v r'. unfold r_u32, get, Reader.u32.
  pose proof (read_range 4 r) as Hr. destruct (Reader.read 4 r) as [v' r1].
  by intros [= <- _].
Qed.

Lemma ensures_u64 : rd_ensures r_u64 is_u64.
Proof.
  apply ensures_intro. intros r v r'. unfold r_u64, get, Reader.u64.
  pose proof (read_range 8 r) as Hr. destruct (Reader.read 8 r) as [v' r1].
  by intros [= <- _].
Qed.

Lemma ensures_count es :
  rd_ensures (read_count es) (fun n => is_u32 n /\ n <= kMaxArrayElements).
Proof.
  unfold read_count. eapply ensures_bind; [apply ensures_u32|]. intros n Hn.
  apply ensures_bind_any. intros _. apply ensures_bind_guard. intros Hv. apply ensures_ret.
  unfold valid_count in Hv. bool_hyps. done.
Qed.

Lemma ensures_counted {A} es (m : Rd A) P :
  rd_ensures m P ->
  rd_ensures (read_counted es m) (fun a => array_of P (fst a) (snd a)).
Proof.
  intros Hm. unfold read_counted. eapply ensures_bind; [apply ensures_count|].
  intros n [Hn Hmax]. eapply ensures_bind; [by apply ensures_for|]. intros xs [Hl HP].
  apply ensures_ret. apply array_of_arr_ptr; [done| |done]. rewrite Hl. by apply is_u32_to_nat.
Qed.

Lemma ensures_true {A} (m : Rd A) : rd_ensures m (fun _ => True).
Proof. apply ensures_any. Qed.

Lemma ensures_image_info : rd_ensures read_attachment_image_info image_info_wf.
Proof.
  unfold read_attachment_image_info. do 5 (apply ensures_bind_any; intros ?).
  eapply ensures_bind; [apply ensures_counted, ensures_true|]. intros formats Hf.
  by apply ensures_ret.
Qed.

Lemma ensures_reference2 : rd_ensures read_attachment_reference2 (fun a =>
  VkAttachmentReference2.pNext a = Null /\
  VkAttachmentReference2.sType a = VK_STRUCTURE_TYPE_ATTACHMENT_REFERENCE_2).
Proof.
  unfold read_attachment_reference2. do 5 (apply ensures_bind_any; intros ?).
  apply ensures_bind_guard. intros Hs. apply ensures_ret. by bool_hyps.
Qed.

Lemma ensures_handle_array n resolve :
  is_u32 n -> n <= kMaxArrayElements ->
  rd_ensures (read_handle_array n resolve) (array_of (fun _ => True) n).
Proof.
  intros Hn Hmax. unfold read_handle_array. apply ensures_if; intros Hz; bool_hyps.
  { apply ensures_ret. by split. }
  apply ensures_bind_guard. intros _.
  eapply ensures_bind; [apply ensures_for, ensures_true|]. intros xs [Hl _].
  apply ensures_ret. split; [done|]. rewrite Hl. split; [by apply is_u32_to_nat|].
  by apply Forall_true.
Qed.

Ltac ensures_node :=
  repeat lazymatch goal with
  | |- rd_ensures (rret _) _ => apply ensures_ret; split; [reflexivity|cbn [node_wf]; tauto]
  | |- rd_ensures rfail _ => apply ensures_fail
  | |- rd_ensures (rbind (rguard _) _) _ => apply ensures_bind_guard; intros ?
  | |- rd_ensures (rbind (read_counted _ _) _) _ =>
      eapply ensures_bind; [apply ensures_counted, ensures_true|intros ? ?]
  | |- rd_ensures (rbind _ _) _ => apply ensures_bind_any; intros ?
  end.

Lemma ensures_node_members type depth :
  rd_ensures (read_node_members type depth) (fun n => node_type n = type /\ node_wf n).
Proof.
  destruct type; cbn [read_node_members].
  all: try solve [ensures_node].
  - (* FragmentShadingRateAttachment *)
    apply ensures_bind_guard; intros _. apply ensures_bind_any; intros present.
    apply ensures_bind_any; intros _. apply ensures_bind_guard; intros _.
    eapply ensures_bind with (Q := fun p => match p with
      | Null => True | Wild _ => False
      | Ref a => VkAttachmentReference2.pNext a = Null /\
          VkAttachmentReference2.sType a = VK_STRUCTURE_TYPE_ATTACHMENT_REFERENCE_2 end).
    + apply ensures_if; intros _; [by apply ensures_ret|].
      eapply ensures_bind; [apply ensures_reference2|]. intros a Ha. by apply ensures_ret.
    + intros p Hp. ensures_node.
  - (* FramebufferAttachments *)
    apply ensures_bind_guard; intros _.
    eapply ensures_bind; [apply ensures_count|]. intros n [Hn Hmax].
    eapply ensures_bind; [apply ensures_for, ensures_image_info|]. intros xs [Hl Hxs].
    apply ensures_ret. split; [done|]. apply array_of_arr_ptr; [done| |done].
    rewrite Hl. by apply is_u32_to_nat.
  - (* MemoryAllocateFlags *)
    do 2 (apply ensures_bind_any; intros ?). apply ensures_bind_guard. intros Hg.
    apply ensures_ret. bool_hyps. done.
  - (* RenderPassAttachmentBegin *)
    eapply ensures_bind; [apply ensures_count|]. intros n [Hn Hmax].
    eapply ensures_bind; [by apply ensures_handle_array|]. intros p Hp. by apply ensures_ret.
Qed.

Lemma ensures_node_fields type depth :
  rd_ensures (read_node_fields type depth) (fun n => node_type n = type /\ node_wf n).
Proof.
  unfold read_node_fields. eapply ensures_bind; [apply ensures_node_members|].
  intros n Hn. apply ensures_bind_any. intros _. by apply ensures_ret.
Qed.

End Decoded.

(** ** No decoder leaves its buffer *)
Section Safety.
Context {HR : HandleResolver}.

Lemma safe_extent : rd_safe read_extent.
Proof. unfold read_extent. rd_safe_tac. Qed.

Lemma safe_count es : rd_safe (read_count es).
Proof. unfold read_count. rd_safe_tac. Qed.

Lemma safe_exact n : rd_safe (read_exact n).
Proof. unfold read_exact. rd_safe_tac. Qed.

#[local] Hint Resolve safe_extent safe_count safe_exact : rdsafe.

Lemma safe_counted {A} es (m : Rd A) : rd_safe m -> rd_safe (read_counted es m).
Proof. intros Hm. unfold read_counted. rd_safe_tac. Qed.

Lemma safe_handle_array n resolve : rd_safe (read_handle_array n resolve).
Proof. unfold read_handle_array. rd_safe_tac. Qed.

Lemma safe_features : rd_safe read_PhysicalDeviceFeatures.
Proof. unfold read_PhysicalDeviceFeatures. rd_safe_tac. Qed.

Lemma safe_reference2 : rd_safe read_attachment_reference2.
Proof. unfold read_attachment_reference2. rd_safe_tac. Qed.

#[local] Hint Resolve safe_counted safe_handle_array safe_features safe_reference2 : rdsafe.

Lemma safe_aspect_reference : rd_safe read_aspect_reference.
Proof. unfold read_aspect_reference. rd_safe_tac. Qed.

Lemma safe_image_info : rd_safe read_attachment_image_info.
Proof. unfold read_attachment_image_info. rd_safe_tac. Qed.

#[local] Hint Resolve safe_aspect_reference safe_image_info : rdsafe.

Lemma safe_node_fields type depth : rd_safe (read_node_fields type depth).
Proof.
  unfold read_node_fields. apply safe_bind; [|intros; rd_safe_tac].
  destruct type; cbn [read_node_members]; rd_safe_tac.
Qed.

#[local] Hint Resolve safe_node_fields : rdsafe.

Lemma safe_nodes context depth n : forall seen, rd_safe (read_nodes n context depth seen).
Proof. induction n as [|n IH]; intros seen; cbn [read_nodes]; rd_safe_tac. Qed.

#[local] Hint Resolve safe_nodes : rdsafe.

Lemma safe_pnext_chain context depth : rd_safe (read_pnext_chain context depth).
Proof. unfold read_pnext_chain. rd_safe_tac. Qed.

Lemma safe_topology_nodes context n : forall seen, rd_safe (read_topology_nodes n context seen).
Proof. induction n as [|n IH]; intros seen; cbn [read_topology_nodes]; rd_safe_tac. Qed.

Lemma safe_output_topology context : rd_safe (read_pnext_output_topology context).
Proof.
  unfold read_pnext_output_topology. pose proof safe_topology_nodes. rd_safe_tac.
Qed.

End Safety.

#[export] Hint Resolve safe_extent safe_count safe_exact safe_counted safe_handle_array
  safe_features safe_reference2 safe_node_fields safe_nodes safe_pnext_chain
  safe_output_topology : rdsafe.

(** ** Chains from arbitrary bytes *)
Section DecodedChain.
Context {HR : HandleResolver}.

Lemma types_seen (seen : list VkStructureType) t :
  existsb (fun s => stype_eqb s t) seen = false -> stype_value t ∉ map stype_value seen.
Proof.
  intros Hs Hin. apply list_elem_of_fmap in Hin as (s & He & Hin).
  apply not_true_iff_false in Hs. apply Hs, existsb_exists. exists s.
  split; [by apply list_elem_of_In|]. unfold stype_eqb. by apply Z.eqb_eq.
Qed.

Lemma ensures_nodes context depth n : forall seen,
  NoDup (map stype_value seen) ->
  rd_ensures (read_nodes n context depth seen) (fun nodes =>
    length nodes = n /\
    Forall (fun node => pnext_allowed context (node_type node) = true) nodes /\
    NoDup (map stype_value seen ++ types nodes) /\ Forall node_wf nodes).
Proof.
  induction n as [|n IH]; intros seen Hd; cbn [read_nodes].
  { apply ensures_ret. rewrite app_nil_r. by split_and!. }
  apply ensures_bind_any. intros v. apply ensures_bind_any. intros _.
  apply ensures_bind_guard. intros Hal. apply ensures_bind_guard. intros Hseen.
  apply ensures_bind_guard. intros _. apply negb_true_iff, types_seen in Hseen.
  eapply ensures_bind; [apply ensures_node_fields|]. intros node [Ht Hwf].
  eapply ensures_bind; [apply IH|].
  - rewrite map_app. apply NoDup_app. split; [done|]. split; [|apply NoDup_singleton].
    intros x Hx Hx'. apply list_elem_of_singleton in Hx' as ->. done.
  - intros nodes (Hl & Hals & Hdn & Hwfs). apply ensures_ret. split_and!.
    + cbn. lia.
    + constructor; [by rewrite Ht|done].
    + rewrite map_app, <- app_assoc in Hdn. cbn [types map]. rewrite Ht. exact Hdn.
    + by constructor.
Qed.

(** C3: Whatever bytes a peer sends, a chain that decodes has at most 16 nodes,
    all of types the context allows and no type twice; every pointer in it is
    null or leads to an array of exactly the announced number of elements; and
    the reader has not left its buffer. *)
Theorem read_pnext_chain_wellformed context depth r p r' :
  read_pnext_chain context depth r = (Some p, r') -> Reader.wf r ->
  acceptable context (chain_nodes p) /\ Forall node_wf (chain_nodes p) /\
  ptr_clean p /\ depth <= kMaxPNextDepth /\ Reader.later r r'.
Proof.
  intros Hr Hw.
  assert (Reader.later r r') as Hlater.
  { pose proof (safe_pnext_chain context depth r Hw) as Hs. by rewrite Hr in Hs. }
  enough (rd_ensures (read_pnext_chain context depth) (fun p =>
    acceptable context (chain_nodes p) /\ Forall node_wf (chain_nodes p) /\
    ptr_clean p /\ depth <= kMaxPNextDepth)) as He.
  { destruct (ensures_elim _ _ _ _ _ He Hr) as (? & ? & ? & ?). done. }
  unfold read_pnext_chain. apply ensures_bind_guard. intros Hd.
  eapply ensures_bind; [apply ensures_u32|]. intros n Hn. apply ensures_bind_any. intros _.
  apply ensures_bind_guard. intros Hmax.
  eapply ensures_bind; [apply ensures_nodes, NoDup_nil_2|]. intros nodes (Hl & Hal & Hnd & Hwf).
  apply ensures_bind_any. intros _. apply ensures_ret.
  replace (chain_nodes (arr_ptr nodes)) with nodes by (by destruct nodes).
  bool_hyps. split_and!; [split_and!|done|by destruct nodes|lia]; [|done..].
  pose proof (is_u32_to_nat n Hn). lia.
Qed.

End DecodedChain.

(** ** Output chains *)

Definition output_context (context : PNextContext) : Prop :=
  match context with
  | QueryFeaturesOutput | QueryPropertiesOutput | ImageFormatPropertiesOutput
  | MemoryRequirements2 => True
  | _ => False
  end.

Section Output.
Context `{Abi}.

Lemma kept_output context c : output_context context -> kept context c = c.
Proof.
  intros Hc. induction c as [|node c IH]; [done|]. cbn [kept].
  replace (is_loader context node) with false by (by destruct context). by rewrite IH.
Qed.

(** The types of a chain pointer that leads to a list. *)
Lemma chain_nodes_arr_ptr (c : chain) : chain_nodes (arr_ptr c) = c.
Proof. by destruct c. Qed.

Lemma reads_topology_nodes context rest : forall nodes seen,
  Forall (fun node => pnext_allowed context (node_type node) = true) nodes ->
  NoDup (map stype_value seen ++ types nodes) ->
  reads_at rest (read_topology_nodes (length nodes) context seen) (i32s (types nodes))
    (map (fun node => zero_node (node_type node)) nodes).
Proof.
  induction nodes as [|node nodes IH]; intros seen Hal Hd; [apply reads_ret|]. forall_hyps.
  assert (In (node_type node) named_structures) as Hn by (by eapply allowed_named).
  cbn [length read_topology_nodes map types]. unfold i32s. cbn [map concat].
  eapply reads_bind; [by apply reads_i32, named_i32|].
  eapply reads_bind_nil; [apply reads_ok|]. cbv beta. rewrite named_roundtrip by done.
  eapply reads_bind_nil; [by apply reads_guard|].
  eapply reads_bind_nil.
  { apply reads_guard, negb_true_iff, not_true_iff_false. rewrite existsb_exists.
    intros (s & Hs & He). unfold stype_eqb in He. apply Z.eqb_eq in He.
    apply NoDup_app in Hd as (_ & Hd & _). apply (Hd (stype_value s)).
    - apply list_elem_of_fmap. exists s. split; [done|by apply list_elem_of_In].
    - rewrite He. left. }
  eapply reads_bind_nil; [apply reads_guard; by erewrite allowed_size|].
  eapply reads_bind_last; [apply IH; [done|]|apply reads_ret].
  rewrite map_app, <- app_assoc. exact Hd.
Qed.

(** The topology of an output chain reaches the server as the same sequence
    of structure types, each structure zero-initialised. *)
Theorem output_topology_roundtrip rest context head bs :
  output_context context -> write_pnext_output_topology context head = (true, bs) ->
  reads_at rest (read_pnext_output_topology context) bs
    (arr_ptr (map (fun node => zero_node (node_type node)) (chain_nodes head))).
Proof.
  intros Hc. unfold write_pnext_output_topology.
  destruct (collect_chain _ _ _) as [nodes|] eqn:Hn; [|done].
  apply collect_chain_acceptable in Hn as [-> (Hl & Hal & Hd)].
  rewrite kept_output in * by done. intros Hw. apply emit_true in Hw as ->.
  unfold read_pnext_output_topology, kMaxPNextNodes in *.
  eapply reads_bind; [apply reads_u32; unfold is_u32; lia|].
  eapply reads_bind_nil; [apply reads_ok|].
  eapply reads_bind_nil; [apply reads_guard, negb_true_iff, Z.ltb_ge; lia|].
  rewrite Nat2Z.id. eapply reads_bind_last; [by apply reads_topology_nodes|]. reads_node.
Qed.

(** *** Applying a reply *)

Lemma reads_apply_node rest caller node bs :
  stype_value (node_type node) = stype_value (node_type caller) ->
  In (node_type node) named_structures -> output_copied (node_type node) = true ->
  write_node_fields node 0 = (true, bs) -> node_ok node ->
  reads_at rest (apply_node caller) (Writer.i32 (stype_value (node_type node)) ++ bs)
    (node_transport (HR := null_resolver) node).
Proof.
  intros He Hn Ho Hw Hok. unfold apply_node.
  eapply reads_bind; [by apply reads_i32, named_i32|].
  eapply reads_bind_nil; [apply reads_ok|]. cbv beta. rewrite named_roundtrip by done.
  eapply reads_bind_nil; [apply reads_guard; unfold stype_eqb; by rewrite He, Z.eqb_refl|].
  eapply reads_bind_last; [by apply reads_node_fields|].
  eapply reads_bind_nil; [by apply reads_guard|]. apply reads_ret.
Qed.

Lemma apply_nodes_correct rest : forall filled caller bs r,
  types filled = types caller ->
  Forall (fun node => In (node_type node) named_structures /\
                      output_copied (node_type node) = true /\ node_ok node) filled ->
  wfor (fun node => emit (Writer.i32 (stype_value (node_type node))) ;;;
                    write_node_fields node 0) filled = (true, bs) ->
  Reader.wf r -> m_failed r = false -> Reader.unread r = bs ++ rest ->
  apply_nodes caller r =
    (true, map (node_transport (HR := null_resolver)) filled, Reader.advance (length bs) r).
Proof.
  induction filled as [|node filled IH]; intros [|c caller] bs r Ht Hf Hw Hwf Hnf Hu;
    try discriminate Ht.
  { injection Hw as <-. cbn. by rewrite advance_0. }
  injection Ht as Hc Ht. apply Forall_cons in Hf as [(Hn & Ho & Hok) Hf].
  apply wfor_true_cons in Hw as (b1 & b2 & Hw1 & Hw2 & ->).
  apply wseq_true in Hw1 as (b3 & b4 & He & Hw1 & ->). apply emit_true in He as ->.
  rewrite <- !app_assoc in Hu. cbn [apply_nodes map].
  rewrite (reads_at_elim _ _ _ _ _ (reads_apply_node (b2 ++ rest) c node b4 Hc Hn Ho Hw1 Hok))
    by (rewrite <- ?app_assoc; assumption).
  edestruct (advance_ok (length (Writer.i32 (stype_value (node_type node)) ++ b4)) r)
    as (Hwf' & Hnf' & Hu'); [done|done|rewrite <- app_assoc; exact Hu|done|].
  rewrite (IH caller b2 _ Ht Hf Hw2 Hwf' Hnf' Hu'), advance_advance. by rewrite !length_app.
Qed.

(** When the driver has filled the structures of an output chain, the reply
    the server encodes sets exactly those values in the caller's chain, in
    place: the call succeeds, and node by node the caller sees the transported
    members of the server's node of the same type. *)
Theorem output_values_applied rest context caller filled bs r :
  output_context context ->
  write_pnext_output_values context filled = (true, bs) ->
  types (chain_nodes filled) = types (chain_nodes caller) ->
  acceptable context (chain_nodes caller) ->
  Forall (fun node => output_copied (node_type node) = true /\ node_ok node)
    (chain_nodes filled) ->
  Reader.wf r -> m_failed r = false -> Reader.unread r = bs ++ rest ->
  apply_pnext_output_values context caller r =
    (true, arr_ptr (map (node_transport (HR := null_resolver)) (chain_nodes filled)),
     Reader.advance (length bs) r).
Proof.
  intros Hctx Hw Ht Hacc Hok Hwf Hnf Hu. unfold write_pnext_output_values in Hw.
  apply write_pnext_chain_inv in Hw as (_ & (Hl & Hal & _) & b & -> & Hb).
  rewrite kept_output in * by done. unfold apply_pnext_output_values.
  assert (collect_chain context (chain_nodes caller) [] = Some (chain_nodes caller)) as ->.
  { apply collect_chain_acceptable. by rewrite kept_output. }
  rewrite <- app_assoc in Hu. unfold kMaxPNextNodes in *.
  assert (length (chain_nodes caller) = length (chain_nodes filled)) as Hlen.
  { pose proof (f_equal length Ht) as Hln. unfold types in Hln. by rewrite !length_map in Hln. }
  rewrite Hlen.
  rewrite (reads_at_elim (b ++ rest) _
    (Writer.u32 (Z.of_nat (length (chain_nodes filled)))) tt r); [|
    eapply reads_bind_last; [apply reads_u32; unfold is_u32; lia|];
    eapply reads_bind_nil; [apply reads_ok|];
    eapply reads_bind_nil; [apply reads_guard, Z.eqb_eq; lia|];
    apply reads_guard, negb_true_iff, Z.ltb_ge; lia|done..].
  destruct (advance_ok _ r _ _ Hwf Hnf Hu eq_refl) as (Hwf' & Hnf' & Hu').
  rewrite (apply_nodes_correct rest (chain_nodes filled) (chain_nodes caller) b);
    [|done| |done..].
  - unfold Reader.ok. rewrite advance_advance. cbn [m_failed Reader.advance]. rewrite Hnf.
    by rewrite length_app.
  - rewrite Forall_forall in *. intros node Hin. destruct (Hok node Hin).
    split; [by eapply allowed_named, Hal|done].
Qed.

(** A reply, whatever its bytes, never changes the structure types or the
    links of the caller's output chain. *)
Theorem apply_output_keeps_topology context caller r :
  output_context context ->
  types (chain_nodes (snd (fst (apply_pnext_output_values context caller r)))) =
  types (chain_nodes caller).
Proof.
  intros Hctx. unfold apply_pnext_output_values.
  destruct (collect_chain _ _ _) as [nodes|] eqn:Hc; [|done].
  apply collect_chain_acceptable in Hc as [-> _]. rewrite kept_output by done.
  destruct (rbind _ _ _) as [[u|] r1]; [|done].
  enough (forall caller r, types (snd (fst (apply_nodes caller r))) = types caller) as He.
  { specialize (He (chain_nodes caller) r1). destruct (apply_nodes _ _) as [[? ?] ?].
    cbn [fst snd] in *. by rewrite chain_nodes_arr_ptr. }
  clear. induction caller as [|node caller IH]; intros r; [done|]. cbn [apply_nodes].
  destruct (apply_node node r) as [[node'|] r'] eqn:Ha; [|done].
  specialize (IH r'). destruct (apply_nodes caller r') as [[res rest] r'']. cbn in IH |- *.
  rewrite IH. f_equal. clear IH.
  assert (rd_ensures (apply_node node)
    (fun n => stype_value (node_type n) = stype_value (node_type node))) as He.
  { unfold apply_node. apply ensures_bind_any. intros v. apply ensures_bind_any. intros _.
    apply ensures_bind_guard. intros Hv.
    eapply ensures_bind; [apply ensures_node_fields|]. intros n [Hn _].
    apply ensures_bind_guard. intros _. apply ensures_ret. unfold stype_eqb in Hv.
    rewrite Hn. by apply Z.eqb_eq. }
  exact (ensures_elim _ _ _ _ _ He Ha).
Qed.

End Output.

(** Every structure type the query contexts accept in an output chain is also
    copied back to the caller, the only exception being the image-plane input
    structure that the memory-requirements context shares with its input chain. *)
Theorem output_context_copied context t :
  output_context context -> pnext_allowed context t = true ->
  (output_copied t = true <-> t <> IMAGE_PLANE_MEMORY_REQUIREMENTS_INFO).
Proof. by destruct context, t. Qed.

(** ** Concrete instances *)
Module Instances.

#[export] Instance abi : Abi :=
  {| pad_byte := fun _ => xcc; ref_addr := 4096; ref_addr_ok := conj eq_refl eq_refl |}.

(** A resolver that knows every handle: it maps an id to a distinct value. *)
#[export] Instance resolver : HandleResolver :=
  let f kind id := kind * 1000 + id in
  {| hr_buffer := f 1; hr_image := f 2; hr_image_view := f 3; hr_buffer_view := f 4;
     hr_memory := f 5; hr_render_pass := f 6; hr_framebuffer := f 7; hr_shader_module := f 8;
     hr_pipeline := f 9; hr_pipeline_layout := f 10; hr_pipeline_cache := f 11;
     hr_descriptor_set_layout := f 12; hr_descriptor_pool := f 13; hr_descriptor_set := f 14;
     hr_sampler := f 15; hr_sampler_ycbcr_conversion := f 16; hr_semaphore := f 17;
     hr_fence := f 18; hr_event := f 19; hr_query_pool := f 20; hr_surface := f 21;
     hr_swapchain := f 22; hr_command_pool := f 23; hr_command_buffer := f 24 |}.

Definition device_chain : ptr chain :=
  Ref [LoaderDeviceCreate; TimelineSemaphoreFeatures 1; ProtectedMemoryFeatures 1].

Definition begin_chain : ptr chain :=
  Ref [RenderPassAttachmentBegin (VkRenderPassAttachmentBeginInfo.mk 2 (Ref [7; 0]))].

Definition query_chain : ptr chain :=
  Ref [MultiviewProperties (VkPhysicalDeviceMultiviewProperties.mk 6 255);
       PointClippingProperties 1].

End Instances.

Lemma small_u32 v : (0 <=? v) && (v <? 4294967296) = true -> is_u32 v.
Proof. intros H. bool_hyps. split; lia. Qed.

Lemma small_u64 v : (0 <=? v) && (v <? 18446744073709551616) = true -> is_u64 v.
Proof. intros H. bool_hyps. split; lia. Qed.

Lemma small_i32 v : (-2147483648 <=? v) && (v <? 2147483648) = true -> is_i32 v.
Proof. intros H. bool_hyps. split; lia. Qed.

(** Discharges range conditions on literals. *)
Ltac ranges :=
  repeat first
    [ progress split_and?
    | match goal with |- Forall _ _ => constructor end
    | apply small_u32; reflexivity | apply small_u64; reflexivity
    | apply small_i32; reflexivity | reflexivity | exact I
    | progress unfold is_u32, is_u64, is_i32, arr_ok | lia | progress cbn ].

Section Witnesses.
Import Instances.

Lemma pnext_chain_roundtrip_witness : exists bs,
  write_pnext_chain RenderPassBegin begin_chain 0 = (true, bs) /\
  exists r',
    read_pnext_chain RenderPassBegin 0 (Reader.make (bs ++ [x07])) =
      (Some (Ref [RenderPassAttachmentBegin
                    (VkRenderPassAttachmentBeginInfo.mk 2 (Ref [3007; 0]))]), r') /\
    Reader.unread r' = [x07].
Proof.
  eexists. split; [vm_compute; reflexivity|].
  refine (pnext_chain_roundtrip [x07] RenderPassBegin begin_chain 0 _ _ _);
    [vm_compute; reflexivity|]. cbn. ranges.
Defined.

Lemma write_pnext_chain_accepts_witness :
  fst (write_pnext_chain DeviceCreate device_chain 0) = true /\
  snd (write_pnext_chain SamplerCreate device_chain 0) = [].
Proof.
  split; [vm_compute; reflexivity|].
  apply (proj2 (write_pnext_chain_accepts SamplerCreate device_chain 0)).
  vm_compute; reflexivity.
Defined.

Definition device_chain_bytes : list byte :=
  snd (write_pnext_chain DeviceCreate device_chain 0).

Lemma read_pnext_chain_wellformed_witness : exists p r',
  read_pnext_chain DeviceCreate 0 (Reader.make device_chain_bytes) = (Some p, r') /\
  acceptable DeviceCreate (chain_nodes p).
Proof.
  eexists _, _. split; [vm_compute; reflexivity|].
  refine (proj1 (read_pnext_chain_wellformed DeviceCreate 0 (Reader.make device_chain_bytes)
                   _ _ _ _)); [vm_compute; reflexivity|apply make_wf].
Defined.

Lemma output_topology_roundtrip_witness : exists bs,
  write_pnext_output_topology QueryPropertiesOutput query_chain = (true, bs) /\
  reads_at [] (read_pnext_output_topology QueryPropertiesOutput) bs
    (Ref [MultiviewProperties VkPhysicalDeviceMultiviewProperties.zero;
          PointClippingProperties 0]).
Proof.
  eexists. split; [vm_compute; reflexivity|].
  refine (output_topology_roundtrip [] QueryPropertiesOutput query_chain _ I _).
  vm_compute; reflexivity.
Defined.

Definition query_caller : ptr chain :=
  Ref [MultiviewProperties VkPhysicalDeviceMultiviewProperties.zero; PointClippingProperties 0].

Definition query_reply : list byte :=
  snd (write_pnext_output_values QueryPropertiesOutput query_chain).

Lemma output_values_applied_witness :
  apply_pnext_output_values QueryPropertiesOutput query_caller (Reader.make query_reply) =
  (true, query_chain, Reader.advance (length query_reply) (Reader.make query_reply)).
Proof.
  refine (output_values_applied [] QueryPropertiesOutput query_caller query_chain query_reply
            (Reader.make query_reply) I _ _ _ _ _ _ _).
  - vm_compute; reflexivity.
  - reflexivity.
  - split; [vm_compute; discriminate|]. split; [cbn; ranges|].
    apply (bool_decide_unpack _). vm_compute. exact I.
  - cbn. ranges.
  - apply make_wf.
  - reflexivity.
  - by rewrite unread_make, app_nil_r.
Defined.

Lemma apply_output_keeps_topology_witness :
  types (chain_nodes (snd (fst (apply_pnext_output_values QueryPropertiesOutput query_caller
    (Reader.make [x01; x02]))))) = types (chain_nodes query_caller).
Proof. apply (apply_output_keeps_topology QueryPropertiesOutput). exact I. Defined.

Lemma output_context_copied_witness :
  output_copied PHYSICAL_DEVICE_ID_PROPERTIES = true.
Proof.
  apply (output_context_copied QueryPropertiesOutput PHYSICAL_DEVICE_ID_PROPERTIES I).
  - reflexivity.
  - discriminate.
Defined.

End Witnesses.
