(* ===== verification/VkCreateInfos.v ===== *)
(** The remaining structs of the Vulkan headers: those whose pNext chain the
    marshalling code transports ([pNext : ptr chain], see PNext.v), and those
    encoded member by member.  Same conventions as VkStructs.v. *)

From S2P Require Import Prelude Wire CLayout VkStructs PNext.

(** [VkDeviceCreateInfo] *)
Module VkDeviceCreateInfo.
Record t := mk {
  sType : Z;
  pNext : ptr chain;
  flags : Z;
  queueCreateInfoCount : Z;
  pQueueCreateInfos : ptr (list VkDeviceQueueCreateInfo.t);
  enabledLayerCount : Z;
  ppEnabledLayerNames : ptr (list (list byte));
  enabledExtensionCount : Z;
  ppEnabledExtensionNames : ptr (list (list byte));
  pEnabledFeatures : ptr VkPhysicalDeviceFeatures.t
}.
Definition zero : t := mk
  0 Null 0 0 Null 0 Null 0 Null Null.
Definition set_pNext (v : ptr chain) (s : t) : t := mk
  (sType s) v (flags s) (queueCreateInfoCount s) (pQueueCreateInfos s) (enabledLayerCount s)
  (ppEnabledLayerNames s) (enabledExtensionCount s) (ppEnabledExtensionNames s)
  (pEnabledFeatures s).
Definition set_pQueueCreateInfos (v : ptr (list VkDeviceQueueCreateInfo.t)) (s : t) : t := mk
  (sType s) (pNext s) (flags s) (queueCreateInfoCount s) v (enabledLayerCount s)
  (ppEnabledLayerNames s) (enabledExtensionCount s) (ppEnabledExtensionNames s)
  (pEnabledFeatures s).
Definition set_ppEnabledLayerNames (v : ptr (list (list byte))) (s : t) : t := mk
  (sType s) (pNext s) (flags s) (queueCreateInfoCount s) (pQueueCreateInfos s)
  (enabledLayerCount s) v (enabledExtensionCount s) (ppEnabledExtensionNames s)
  (pEnabledFeatures s).
Definition set_ppEnabledExtensionNames (v : ptr (list (list byte))) (s : t) : t := mk
  (sType s) (pNext s) (flags s) (queueCreateInfoCount s) (pQueueCreateInfos s)
  (enabledLayerCount s) (ppEnabledLayerNames s) (enabledExtensionCount s) v (pEnabledFeatures s).
Definition set_pEnabledFeatures (v : ptr VkPhysicalDeviceFeatures.t) (s : t) : t := mk
  (sType s) (pNext s) (flags s) (queueCreateInfoCount s) (pQueueCreateInfos s)
  (enabledLayerCount s) (ppEnabledLayerNames s) (enabledExtensionCount s)
  (ppEnabledExtensionNames s) v.
Definition kinds : list kind :=
  [KI32; KU64; KU32; KU32; KU64; KU32; KU64; KU32; KU64; KU64].
Definition to_raw `{Abi} (s : t) : list Z :=
  [sType s; ptr_addr (pNext s); flags s; queueCreateInfoCount s; ptr_addr (pQueueCreateInfos s); enabledLayerCount s; ptr_addr (ppEnabledLayerNames s); enabledExtensionCount s; ptr_addr (ppEnabledExtensionNames s); ptr_addr (pEnabledFeatures s)].
Definition of_raw (vs : list Z) : t :=
  match vs with
  | [v0; v1; v2; v3; v4; v5; v6; v7; v8; v9] =>
      mk v0 (ptr_of_addr v1) v2 v3 (ptr_of_addr v4) v5 (ptr_of_addr v6) v7 (ptr_of_addr v8)
        (ptr_of_addr v9)
  | _ => zero
  end.
Definition flat (s : t) : Prop :=
  ptr_flat (pNext s) /\ ptr_flat (pQueueCreateInfos s) /\ ptr_flat (ppEnabledLayerNames s) /\
  ptr_flat (ppEnabledExtensionNames s) /\ ptr_flat (pEnabledFeatures s).
#[global] Program Instance pod : Pod t := {|
  pod_kinds := kinds; pod_to := @to_raw; pod_of := of_raw; pod_flat := flat |}.
Next Obligation. intros. by apply_of_raw. Qed.
End VkDeviceCreateInfo.

(** [VkImageViewCreateInfo] *)
Module VkImageViewCreateInfo.
Record t := mk {
  sType : Z;
  pNext : ptr chain;
  flags : Z;
  image : Z;
  viewType : Z;
  format : Z;
  components : VkComponentMapping.t;
  subresourceRange : VkImageSubresourceRange.t
}.
Definition zero : t := mk
  0 Null 0 0 0 0 VkComponentMapping.zero VkImageSubresourceRange.zero.
Definition set_pNext (v : ptr chain) (s : t) : t := mk
  (sType s) v (flags s) (image s) (viewType s) (format s) (components s) (subresourceRange s).
Definition set_image (v : Z) (s : t) : t := mk
  (sType s) (pNext s) (flags s) v (viewType s) (format s) (components s) (subresourceRange s).
Definition kinds : list kind :=
  [KI32; KU64; KU32; KU64] ++ replicate 6 KI32 ++ [KU32; KU32; KU32; KU32; KU32].
Definition to_raw `{Abi} (s : t) : list Z :=
  [sType s; ptr_addr (pNext s); flags s; image s; viewType s; format s] ++
  VkComponentMapping.to_raw (components s) ++
  VkImageSubresourceRange.to_raw (subresourceRange s).
Definition of_raw (vs : list Z) : t :=
  match vs with
  | [v0; v1; v2; v3; v4; v5; v6; v7; v8; v9; v10; v11; v12; v13; v14] =>
      mk v0 (ptr_of_addr v1) v2 v3 v4 v5 (VkComponentMapping.mk v6 v7 v8 v9)
        (VkImageSubresourceRange.mk v10 v11 v12 v13 v14)
  | _ => zero
  end.
Definition flat (s : t) : Prop :=
  ptr_flat (pNext s).
#[global] Program Instance pod : Pod t := {|
  pod_kinds := kinds; pod_to := @to_raw; pod_of := of_raw; pod_flat := flat |}.
Next Obligation. intros. by apply_of_raw. Qed.
End VkImageViewCreateInfo.

(** [VkRenderPassCreateInfo] *)
Module VkRenderPassCreateInfo.
Record t := mk {
  sType : Z;
  pNext : ptr chain;
  flags : Z;
  attachmentCount : Z;
  pAttachments : ptr (list VkAttachmentDescription.t);
  subpassCount : Z;
  pSubpasses : ptr (list VkSubpassDescription.t);
  dependencyCount : Z;
  pDependencies : ptr (list VkSubpassDependency.t)
}.
Definition zero : t := mk
  0 Null 0 0 Null 0 Null 0 Null.
Definition set_pNext (v : ptr chain) (s : t) : t := mk
  (sType s) v (flags s) (attachmentCount s) (pAttachments s) (subpassCount s) (pSubpasses s)
  (dependencyCount s) (pDependencies s).
Definition set_pAttachments (v : ptr (list VkAttachmentDescription.t)) (s : t) : t := mk
  (sType s) (pNext s) (flags s) (attachmentCount s) v (subpassCount s) (pSubpasses s)
  (dependencyCount s) (pDependencies s).
Definition set_pSubpasses (v : ptr (list VkSubpassDescription.t)) (s : t) : t := mk
  (sType s) (pNext s) (flags s) (attachmentCount s) (pAttachments s) (subpassCount s) v
  (dependencyCount s) (pDependencies s).
Definition set_pDependencies (v : ptr (list VkSubpassDependency.t)) (s : t) : t := mk
  (sType s) (pNext s) (flags s) (attachmentCount s) (pAttachments s) (subpassCount s)
  (pSubpasses s) (dependencyCount s) v.
Definition kinds : list kind :=
  [KI32; KU64; KU32; KU32; KU64; KU32; KU64; KU32; KU64].
Definition to_raw `{Abi} (s : t) : list Z :=
  [sType s; ptr_addr (pNext s); flags s; attachmentCount s; ptr_addr (pAttachments s); subpassCount s; ptr_addr (pSubpasses s); dependencyCount s; ptr_addr (pDependencies s)].
Definition of_raw (vs : list Z) : t :=
  match vs with
  | [v0; v1; v2; v3; v4; v5; v6; v7; v8] =>
      mk v0 (ptr_of_addr v1) v2 v3 (ptr_of_addr v4) v5 (ptr_of_addr v6) v7 (ptr_of_addr v8)
  | _ => zero
  end.
Definition flat (s : t) : Prop :=
  ptr_flat (pNext s) /\ ptr_flat (pAttachments s) /\ ptr_flat (pSubpasses s) /\
  ptr_flat (pDependencies s).
#[global] Program Instance pod : Pod t := {|
  pod_kinds := kinds; pod_to := @to_raw; pod_of := of_raw; pod_flat := flat |}.
Next Obligation. intros. by apply_of_raw. Qed.
End VkRenderPassCreateInfo.

(** [VkPipelineTessellationStateCreateInfo] *)
Module VkPipelineTessellationStateCreateInfo.
Record t := mk {
  sType : Z;
  pNext : ptr chain;
  flags : Z;
  patchControlPoints : Z
}.
Definition zero : t := mk
  0 Null 0 0.
Definition set_pNext (v : ptr chain) (s : t) : t := mk
  (sType s) v (flags s) (patchControlPoints s).
Definition kinds : list kind :=
  [KI32; KU64; KU32; KU32].
Definition to_raw `{Abi} (s : t) : list Z :=
  [sType s; ptr_addr (pNext s); flags s; patchControlPoints s].
Definition of_raw (vs : list Z) : t :=
  match vs with
  | [v0; v1; v2; v3] =>
      mk v0 (ptr_of_addr v1) v2 v3
  | _ => zero
  end.
Definition flat (s : t) : Prop :=
  ptr_flat (pNext s).
#[global] Program Instance pod : Pod t := {|
  pod_kinds := kinds; pod_to := @to_raw; pod_of := of_raw; pod_flat := flat |}.
Next Obligation. intros. by apply_of_raw. Qed.
End VkPipelineTessellationStateCreateInfo.

(** [VkGraphicsPipelineCreateInfo] *)
Module VkGraphicsPipelineCreateInfo.
Record t := mk {
  sType : Z;
  pNext : ptr chain;
  flags : Z;
  stageCount : Z;
  pStages : ptr (list VkPipelineShaderStageCreateInfo.t);
  pVertexInputState : ptr VkPipelineVertexInputStateCreateInfo.t;
  pInputAssemblyState : ptr VkPipelineInputAssemblyStateCreateInfo.t;
  pTessellationState : ptr VkPipelineTessellationStateCreateInfo.t;
  pViewportState : ptr VkPipelineViewportStateCreateInfo.t;
  pRasterizationState : ptr VkPipelineRasterizationStateCreateInfo.t;
  pMultisampleState : ptr VkPipelineMultisampleStateCreateInfo.t;
  pDepthStencilState : ptr VkPipelineDepthStencilStateCreateInfo.t;
  pColorBlendState : ptr VkPipelineColorBlendStateCreateInfo.t;
  pDynamicState : ptr VkPipelineDynamicStateCreateInfo.t;
  layout : Z;
  renderPass : Z;
  subpass : Z;
  basePipelineHandle : Z;
  basePipelineIndex : Z
}.
Definition zero : t := mk
  0 Null 0 0 Null Null Null Null Null Null Null Null Null Null 0 0 0 0 0.
Definition set_pNext (v : ptr chain) (s : t) : t := mk
  (sType s) v (flags s) (stageCount s) (pStages s) (pVertexInputState s)
  (pInputAssemblyState s) (pTessellationState s) (pViewportState s) (pRasterizationState s)
  (pMultisampleState s) (pDepthStencilState s) (pColorBlendState s) (pDynamicState s)
  (layout s) (renderPass s) (subpass s) (basePipelineHandle s) (basePipelineIndex s).
Definition set_pStages (v : ptr (list VkPipelineShaderStageCreateInfo.t)) (s : t) : t := mk
  (sType s) (pNext s) (flags s) (stageCount s) v (pVertexInputState s) (pInputAssemblyState s)
  (pTessellationState s) (pViewportState s) (pRasterizationState s) (pMultisampleState s)
  (pDepthStencilState s) (pColorBlendState s) (pDynamicState s) (layout s) (renderPass s)
  (subpass s) (basePipelineHandle s) (basePipelineIndex s).
Definition set_pVertexInputState (v : ptr VkPipelineVertexInputStateCreateInfo.t) (s : t) : t := mk
  (sType s) (pNext s) (flags s) (stageCount s) (pStages s) v (pInputAssemblyState s)
  (pTessellationState s) (pViewportState s) (pRasterizationState s) (pMultisampleState s)
  (pDepthStencilState s) (pColorBlendState s) (pDynamicState s) (layout s) (renderPass s)
  (subpass s) (basePipelineHandle s) (basePipelineIndex s).
Definition set_pInputAssemblyState (v : ptr VkPipelineInputAssemblyStateCreateInfo.t) (s : t) : t := mk
  (sType s) (pNext s) (flags s) (stageCount s) (pStages s) (pVertexInputState s) v
  (pTessellationState s) (pViewportState s) (pRasterizationState s) (pMultisampleState s)
  (pDepthStencilState s) (pColorBlendState s) (pDynamicState s) (layout s) (renderPass s)
  (subpass s) (basePipelineHandle s) (basePipelineIndex s).
Definition set_pTessellationState (v : ptr VkPipelineTessellationStateCreateInfo.t) (s : t) : t := mk
  (sType s) (pNext s) (flags s) (stageCount s) (pStages s) (pVertexInputState s)
  (pInputAssemblyState s) v (pViewportState s) (pRasterizationState s) (pMultisampleState s)
  (pDepthStencilState s) (pColorBlendState s) (pDynamicState s) (layout s) (renderPass s)
  (subpass s) (basePipelineHandle s) (basePipelineIndex s).
Definition set_pViewportState (v : ptr VkPipelineViewportStateCreateInfo.t) (s : t) : t := mk
  (sType s) (pNext s) (flags s) (stageCount s) (pStages s) (pVertexInputState s)
  (pInputAssemblyState s) (pTessellationState s) v (pRasterizationState s)
  (pMultisampleState s) (pDepthStencilState s) (pColorBlendState s) (pDynamicState s)
  (layout s) (renderPass s) (subpass s) (basePipelineHandle s) (basePipelineIndex s).
Definition set_pRasterizationState (v : ptr VkPipelineRasterizationStateCreateInfo.t) (s : t) : t := mk
  (sType s) (pNext s) (flags s) (stageCount s) (pStages s) (pVertexInputState s)
  (pInputAssemblyState s) (pTessellationState s) (pViewportState s) v (pMultisampleState s)
  (pDepthStencilState s) (pColorBlendState s) (pDynamicState s) (layout s) (renderPass s)
  (subpass s) (basePipelineHandle s) (basePipelineIndex s).
Definition set_pMultisampleState (v : ptr VkPipelineMultisampleStateCreateInfo.t) (s : t) : t := mk
  (sType s) (pNext s) (flags s) (stageCount s) (pStages s) (pVertexInputState s)
  (pInputAssemblyState s) (pTessellationState s) (pViewportState s) (pRasterizationState s) v
  (pDepthStencilState s) (pColorBlendState s) (pDynamicState s) (layout s) (renderPass s)
  (subpass s) (basePipelineHandle s) (basePipelineIndex s).
Definition set_pDepthStencilState (v : ptr VkPipelineDepthStencilStateCreateInfo.t) (s : t) : t := mk
  (sType s) (pNext s) (flags s) (stageCount s) (pStages s) (pVertexInputState s)
  (pInputAssemblyState s) (pTessellationState s) (pViewportState s) (pRasterizationState s)
  (pMultisampleState s) v (pColorBlendState s) (pDynamicState s) (layout s) (renderPass s)
  (subpass s) (basePipelineHandle s) (basePipelineIndex s).
Definition set_pColorBlendState (v : ptr VkPipelineColorBlendStateCreateInfo.t) (s : t) : t := mk
  (sType s) (pNext s) (flags s) (stageCount s) (pStages s) (pVertexInputState s)
  (pInputAssemblyState s) (pTessellationState s) (pViewportState s) (pRasterizationState s)
  (pMultisampleState s) (pDepthStencilState s) v (pDynamicState s) (layout s) (renderPass s)
  (subpass s) (basePipelineHandle s) (basePipelineIndex s).
Definition set_pDynamicState (v : ptr VkPipelineDynamicStateCreateInfo.t) (s : t) : t := mk
  (sType s) (pNext s) (flags s) (stageCount s) (pStages s) (pVertexInputState s)
  (pInputAssemblyState s) (pTessellationState s) (pViewportState s) (pRasterizationState s)
  (pMultisampleState s) (pDepthStencilState s) (pColorBlendState s) v (layout s) (renderPass s)
  (subpass s) (basePipelineHandle s) (basePipelineIndex s).
Definition set_layout (v : Z) (s : t) : t := mk
  (sType s) (pNext s) (flags s) (stageCount s) (pStages s) (pVertexInputState s)
  (pInputAssemblyState s) (pTessellationState s) (pViewportState s) (pRasterizationState s)
  (pMultisampleState s) (pDepthStencilState s) (pColorBlendState s) (pDynamicState s) v
  (renderPass s) (subpass s) (basePipelineHandle s) (basePipelineIndex s).
Definition set_renderPass (v : Z) (s : t) : t := mk
  (sType s) (pNext s) (flags s) (stageCount s) (pStages s) (pVertexInputState s)
  (pInputAssemblyState s) (pTessellationState s) (pViewportState s) (pRasterizationState s)
  (pMultisampleState s) (pDepthStencilState s) (pColorBlendState s) (pDynamicState s)
  (layout s) v (subpass s) (basePipelineHandle s) (basePipelineIndex s).
Definition set_basePipelineHandle (v : Z) (s : t) : t := mk
  (sType s) (pNext s) (flags s) (stageCount s) (pStages s) (pVertexInputState s)
  (pInputAssemblyState s) (pTessellationState s) (pViewportState s) (pRasterizationState s)
  (pMultisampleState s) (pDepthStencilState s) (pColorBlendState s) (pDynamicState s)
  (layout s) (renderPass s) (subpass s) v (basePipelineIndex s).
Definition kinds : list kind :=
  [KI32; KU64; KU32; KU32] ++ replicate 12 KU64 ++ [KU32; KU64; KI32].
Definition to_raw `{Abi} (s : t) : list Z :=
  [sType s; ptr_addr (pNext s); flags s; stageCount s; ptr_addr (pStages s); ptr_addr (pVertexInputState s); ptr_addr (pInputAssemblyState s); ptr_addr (pTessellationState s); ptr_addr (pViewportState s); ptr_addr (pRasterizationState s); ptr_addr (pMultisampleState s); ptr_addr (pDepthStencilState s); ptr_addr (pColorBlendState s); ptr_addr (pDynamicState s); layout s; renderPass s; subpass s; basePipelineHandle s; basePipelineIndex s].
Definition of_raw (vs : list Z) : t :=
  match vs with
  | [v0; v1; v2; v3; v4; v5; v6; v7; v8; v9; v10; v11; v12; v13; v14; v15; v16; v17; v18] =>
      mk v0 (ptr_of_addr v1) v2 v3 (ptr_of_addr v4) (ptr_of_addr v5) (ptr_of_addr v6)
        (ptr_of_addr v7) (ptr_of_addr v8) (ptr_of_addr v9) (ptr_of_addr v10) (ptr_of_addr v11)
        (ptr_of_addr v12) (ptr_of_addr v13) v14 v15 v16 v17 v18
  | _ => zero
  end.
Definition flat (s : t) : Prop :=
  ptr_flat (pNext s) /\ ptr_flat (pStages s) /\ ptr_flat (pVertexInputState s) /\
  ptr_flat (pInputAssemblyState s) /\ ptr_flat (pTessellationState s) /\
  ptr_flat (pViewportState s) /\ ptr_flat (pRasterizationState s) /\
  ptr_flat (pMultisampleState s) /\ ptr_flat (pDepthStencilState s) /\
  ptr_flat (pColorBlendState s) /\ ptr_flat (pDynamicState s).
#[global] Program Instance pod : Pod t := {|
  pod_kinds := kinds; pod_to := @to_raw; pod_of := of_raw; pod_flat := flat |}.
Next Obligation. intros. by apply_of_raw. Qed.
End VkGraphicsPipelineCreateInfo.

(** [VkFramebufferCreateInfo] *)
Module VkFramebufferCreateInfo.
Record t := mk {
  sType : Z;
  pNext : ptr chain;
  flags : Z;
  renderPass : Z;
  attachmentCount : Z;
  pAttachments : ptr (list Z);
  width : Z;
  height : Z;
  layers : Z
}.
Definition zero : t := mk
  0 Null 0 0 0 Null 0 0 0.
Definition set_pNext (v : ptr chain) (s : t) : t := mk
  (sType s) v (flags s) (renderPass s) (attachmentCount s) (pAttachments s) (width s)
  (height s) (layers s).
Definition set_pAttachments (v : ptr (list Z)) (s : t) : t := mk
  (sType s) (pNext s) (flags s) (renderPass s) (attachmentCount s) v (width s) (height s)
  (layers s).
Definition set_renderPass (v : Z) (s : t) : t := mk
  (sType s) (pNext s) (flags s) v (attachmentCount s) (pAttachments s) (width s) (height s)
  (layers s).
Definition kinds : list kind :=
  [KI32; KU64; KU32; KU64; KU32; KU64; KU32; KU32; KU32].
Definition to_raw `{Abi} (s : t) : list Z :=
  [sType s; ptr_addr (pNext s); flags s; renderPass s; attachmentCount s; ptr_addr (pAttachments s); width s; height s; layers s].
Definition of_raw (vs : list Z) : t :=
  match vs with
  | [v0; v1; v2; v3; v4; v5; v6; v7; v8] =>
      mk v0 (ptr_of_addr v1) v2 v3 v4 (ptr_of_addr v5) v6 v7 v8
  | _ => zero
  end.
Definition flat (s : t) : Prop :=
  ptr_flat (pNext s) /\ ptr_flat (pAttachments s).
#[global] Program Instance pod : Pod t := {|
  pod_kinds := kinds; pod_to := @to_raw; pod_of := of_raw; pod_flat := flat |}.
Next Obligation. intros. by apply_of_raw. Qed.
End VkFramebufferCreateInfo.

(** [VkRenderPassBeginInfo] *)
Module VkRenderPassBeginInfo.
Record t := mk {
  sType : Z;
  pNext : ptr chain;
  renderPass : Z;
  framebuffer : Z;
  renderArea : VkRect2D.t;
  clearValueCount : Z;
  pClearValues : ptr (list VkClearValue.t)
}.
Definition zero : t := mk
  0 Null 0 0 VkRect2D.zero 0 Null.
Definition set_pNext (v : ptr chain) (s : t) : t := mk
  (sType s) v (renderPass s) (framebuffer s) (renderArea s) (clearValueCount s) (pClearValues s).
Definition set_pClearValues (v : ptr (list VkClearValue.t)) (s : t) : t := mk
  (sType s) (pNext s) (renderPass s) (framebuffer s) (renderArea s) (clearValueCount s) v.
Definition set_renderPass (v : Z) (s : t) : t := mk
  (sType s) (pNext s) v (framebuffer s) (renderArea s) (clearValueCount s) (pClearValues s).
Definition set_framebuffer (v : Z) (s : t) : t := mk
  (sType s) (pNext s) (renderPass s) v (renderArea s) (clearValueCount s) (pClearValues s).
Definition kinds : list kind :=
  [KI32; KU64; KU64; KU64; KI32; KI32; KU32; KU32; KU32; KU64].
Definition to_raw `{Abi} (s : t) : list Z :=
  [sType s; ptr_addr (pNext s); renderPass s; framebuffer s] ++
  VkRect2D.to_raw (renderArea s) ++ [clearValueCount s; ptr_addr (pClearValues s)].
Definition of_raw (vs : list Z) : t :=
  match vs with
  | [v0; v1; v2; v3; v4; v5; v6; v7; v8; v9] =>
      mk v0 (ptr_of_addr v1) v2 v3 (VkRect2D.mk (VkOffset2D.mk v4 v5) (VkExtent2D.mk v6 v7)) v8
        (ptr_of_addr v9)
  | _ => zero
  end.
Definition flat (s : t) : Prop :=
  ptr_flat (pNext s) /\ ptr_flat (pClearValues s).
#[global] Program Instance pod : Pod t := {|
  pod_kinds := kinds; pod_to := @to_raw; pod_of := of_raw; pod_flat := flat |}.
Next Obligation. intros. by apply_of_raw. Qed.
End VkRenderPassBeginInfo.

(** [VkBufferCreateInfo] *)
Module VkBufferCreateInfo.
Record t := mk {
  sType : Z;
  pNext : ptr chain;
  flags : Z;
  size : Z;
  usage : Z;
  sharingMode : Z;
  queueFamilyIndexCount : Z;
  pQueueFamilyIndices : ptr (list Z)
}.
Definition zero : t := mk
  0 Null 0 0 0 0 0 Null.
Definition set_pNext (v : ptr chain) (s : t) : t := mk
  (sType s) v (flags s) (size s) (usage s) (sharingMode s) (queueFamilyIndexCount s)
  (pQueueFamilyIndices s).
Definition set_pQueueFamilyIndices (v : ptr (list Z)) (s : t) : t := mk
  (sType s) (pNext s) (flags s) (size s) (usage s) (sharingMode s) (queueFamilyIndexCount s) v.
Definition kinds : list kind :=
  [KI32; KU64; KU32; KU64; KU32; KI32; KU32; KU64].
Definition to_raw `{Abi} (s : t) : list Z :=
  [sType s; ptr_addr (pNext s); flags s; size s; usage s; sharingMode s; queueFamilyIndexCount s; ptr_addr (pQueueFamilyIndices s)].
Definition of_raw (vs : list Z) : t :=
  match vs with
  | [v0; v1; v2; v3; v4; v5; v6; v7] =>
      mk v0 (ptr_of_addr v1) v2 v3 v4 v5 v6 (ptr_of_addr v7)
  | _ => zero
  end.
Definition flat (s : t) : Prop :=
  ptr_flat (pNext s) /\ ptr_flat (pQueueFamilyIndices s).
#[global] Program Instance pod : Pod t := {|
  pod_kinds := kinds; pod_to := @to_raw; pod_of := of_raw; pod_flat := flat |}.
Next Obligation. intros. by apply_of_raw. Qed.
End VkBufferCreateInfo.

(** [VkImageCreateInfo] *)
Module VkImageCreateInfo.
Record t := mk {
  sType : Z;
  pNext : ptr chain;
  flags : Z;
  imageType : Z;
  format : Z;
  extent : VkExtent3D.t;
  mipLevels : Z;
  arrayLayers : Z;
  samples : Z;
  tiling : Z;
  usage : Z;
  sharingMode : Z;
  queueFamilyIndexCount : Z;
  pQueueFamilyIndices : ptr (list Z);
  initialLayout : Z
}.
Definition zero : t := mk
  0 Null 0 0 0 VkExtent3D.zero 0 0 0 0 0 0 0 Null 0.
Definition set_pNext (v : ptr chain) (s : t) : t := mk
  (sType s) v (flags s) (imageType s) (format s) (extent s) (mipLevels s) (arrayLayers s)
  (samples s) (tiling s) (usage s) (sharingMode s) (queueFamilyIndexCount s)
  (pQueueFamilyIndices s) (initialLayout s).
Definition set_pQueueFamilyIndices (v : ptr (list Z)) (s : t) : t := mk
  (sType s) (pNext s) (flags s) (imageType s) (format s) (extent s) (mipLevels s)
  (arrayLayers s) (samples s) (tiling s) (usage s) (sharingMode s) (queueFamilyIndexCount s) v
  (initialLayout s).
Definition kinds : list kind :=
  [KI32; KU64; KU32; KI32; KI32] ++ replicate 6 KU32 ++ [KI32; KU32; KI32; KU32; KU64; KI32].
Definition to_raw `{Abi} (s : t) : list Z :=
  [sType s; ptr_addr (pNext s); flags s; imageType s; format s] ++
  VkExtent3D.to_raw (extent s) ++
  [mipLevels s; arrayLayers s; samples s; tiling s; usage s; sharingMode s; queueFamilyIndexCount s; ptr_addr (pQueueFamilyIndices s); initialLayout s].
Definition of_raw (vs : list Z) : t :=
  match vs with
  | [v0; v1; v2; v3; v4; v5; v6; v7; v8; v9; v10; v11; v12; v13; v14; v15; v16] =>
      mk v0 (ptr_of_addr v1) v2 v3 v4 (VkExtent3D.mk v5 v6 v7) v8 v9 v10 v11 v12 v13 v14
        (ptr_of_addr v15) v16
  | _ => zero
  end.
Definition flat (s : t) : Prop :=
  ptr_flat (pNext s) /\ ptr_flat (pQueueFamilyIndices s).
#[global] Program Instance pod : Pod t := {|
  pod_kinds := kinds; pod_to := @to_raw; pod_of := of_raw; pod_flat := flat |}.
Next Obligation. intros. by apply_of_raw. Qed.
End VkImageCreateInfo.

(** [VkMemoryAllocateInfo] *)
Module VkMemoryAllocateInfo.
Record t := mk {
  sType : Z;
  pNext : ptr chain;
  allocationSize : Z;
  memoryTypeIndex : Z
}.
Definition zero : t := mk
  0 Null 0 0.
Definition set_pNext (v : ptr chain) (s : t) : t := mk
  (sType s) v (allocationSize s) (memoryTypeIndex s).
Definition kinds : list kind :=
  [KI32; KU64; KU64; KU32].
Definition to_raw `{Abi} (s : t) : list Z :=
  [sType s; ptr_addr (pNext s); allocationSize s; memoryTypeIndex s].
Definition of_raw (vs : list Z) : t :=
  match vs with
  | [v0; v1; v2; v3] =>
      mk v0 (ptr_of_addr v1) v2 v3
  | _ => zero
  end.
Definition flat (s : t) : Prop :=
  ptr_flat (pNext s).
#[global] Program Instance pod : Pod t := {|
  pod_kinds := kinds; pod_to := @to_raw; pod_of := of_raw; pod_flat := flat |}.
Next Obligation. intros. by apply_of_raw. Qed.
End VkMemoryAllocateInfo.

(** [VkSamplerCreateInfo] *)
Module VkSamplerCreateInfo.
Record t := mk {
  sType : Z;
  pNext : ptr chain;
  flags : Z;
  magFilter : Z;
  minFilter : Z;
  mipmapMode : Z;
  addressModeU : Z;
  addressModeV : Z;
  addressModeW : Z;
  mipLodBias : Z;
  anisotropyEnable : Z;
  maxAnisotropy : Z;
  compareEnable : Z;
  compareOp : Z;
  minLod : Z;
  maxLod : Z;
  borderColor : Z;
  unnormalizedCoordinates : Z
}.
Definition zero : t := mk
  0 Null 0 0 0 0 0 0 0 0 0 0 0 0 0 0 0 0.
Definition set_pNext (v : ptr chain) (s : t) : t := mk
  (sType s) v (flags s) (magFilter s) (minFilter s) (mipmapMode s) (addressModeU s)
  (addressModeV s) (addressModeW s) (mipLodBias s) (anisotropyEnable s) (maxAnisotropy s)
  (compareEnable s) (compareOp s) (minLod s) (maxLod s) (borderColor s)
  (unnormalizedCoordinates s).
Definition kinds : list kind :=
  [KI32; KU64; KU32] ++ replicate 6 KI32 ++ [KU32; KU32; KU32; KU32; KI32; KU32; KU32; KI32; KU32].
Definition to_raw `{Abi} (s : t) : list Z :=
  [sType s; ptr_addr (pNext s); flags s; magFilter s; minFilter s; mipmapMode s; addressModeU s; addressModeV s; addressModeW s; mipLodBias s; anisotropyEnable s; maxAnisotropy s; compareEnable s; compareOp s; minLod s; maxLod s; borderColor s; unnormalizedCoordinates s].
Definition of_raw (vs : list Z) : t :=
  match vs with
  | [v0; v1; v2; v3; v4; v5; v6; v7; v8; v9; v10; v11; v12; v13; v14; v15; v16; v17] =>
      mk v0 (ptr_of_addr v1) v2 v3 v4 v5 v6 v7 v8 v9 v10 v11 v12 v13 v14 v15 v16 v17
  | _ => zero
  end.
Definition flat (s : t) : Prop :=
  ptr_flat (pNext s).
#[global] Program Instance pod : Pod t := {|
  pod_kinds := kinds; pod_to := @to_raw; pod_of := of_raw; pod_flat := flat |}.
Next Obligation. intros. by apply_of_raw. Qed.
End VkSamplerCreateInfo.

(** [VkSemaphoreCreateInfo] *)
Module VkSemaphoreCreateInfo.
Record t := mk {
  sType : Z;
  pNext : ptr chain;
  flags : Z
}.
Definition zero : t := mk
  0 Null 0.
Definition set_pNext (v : ptr chain) (s : t) : t := mk
  (sType s) v (flags s).
Definition kinds : list kind :=
  [KI32; KU64; KU32].
Definition to_raw `{Abi} (s : t) : list Z :=
  [sType s; ptr_addr (pNext s); flags s].
Definition of_raw (vs : list Z) : t :=
  match vs with
  | [v0; v1; v2] =>
      mk v0 (ptr_of_addr v1) v2
  | _ => zero
  end.
Definition flat (s : t) : Prop :=
  ptr_flat (pNext s).
#[global] Program Instance pod : Pod t := {|
  pod_kinds := kinds; pod_to := @to_raw; pod_of := of_raw; pod_flat := flat |}.
Next Obligation. intros. by apply_of_raw. Qed.
End VkSemaphoreCreateInfo.

(** [VkShaderModuleCreateInfo] *)
Module VkShaderModuleCreateInfo.
Record t := mk {
  sType : Z;
  pNext : ptr chain;
  flags : Z;
  codeSize : Z;
  pCode : ptr (list Z)
}.
Definition zero : t := mk
  0 Null 0 0 Null.
End VkShaderModuleCreateInfo.

(** [VkBufferViewCreateInfo] *)
Module VkBufferViewCreateInfo.
Record t := mk {
  sType : Z;
  pNext : ptr void;
  flags : Z;
  buffer : Z;
  format : Z;
  offset : Z;
  range : Z
}.
Definition zero : t := mk
  0 Null 0 0 0 0 0.
End VkBufferViewCreateInfo.

(** [VkQueryPoolCreateInfo] *)
Module VkQueryPoolCreateInfo.
Record t := mk {
  sType : Z;
  pNext : ptr void;
  flags : Z;
  queryType : Z;
  queryCount : Z;
  pipelineStatistics : Z
}.
Definition zero : t := mk
  0 Null 0 0 0 0.
End VkQueryPoolCreateInfo.

(** [VkEventCreateInfo] *)
Module VkEventCreateInfo.
Record t := mk {
  sType : Z;
  pNext : ptr void;
  flags : Z
}.
Definition zero : t := mk
  0 Null 0.
End VkEventCreateInfo.

(** [VkCommandBufferInheritanceInfo] *)
Module VkCommandBufferInheritanceInfo.
Record t := mk {
  sType : Z;
  pNext : ptr void;
  renderPass : Z;
  subpass : Z;
  framebuffer : Z;
  occlusionQueryEnable : Z;
  queryFlags : Z;
  pipelineStatistics : Z
}.
Definition zero : t := mk
  0 Null 0 0 0 0 0 0.
End VkCommandBufferInheritanceInfo.

(** [VkCommandBufferBeginInfo] *)
Module VkCommandBufferBeginInfo.
Record t := mk {
  sType : Z;
  pNext : ptr void;
  flags : Z;
  pInheritanceInfo : ptr VkCommandBufferInheritanceInfo.t
}.
Definition zero : t := mk
  0 Null 0 Null.
End VkCommandBufferBeginInfo.

(** [VkSubpassBeginInfo] *)
Module VkSubpassBeginInfo.
Record t := mk {
  sType : Z;
  pNext : ptr chain;
  contents : Z
}.
Definition zero : t := mk
  0 Null 0.
End VkSubpassBeginInfo.

(** [VkSubpassEndInfo] *)
Module VkSubpassEndInfo.
Record t := mk {
  sType : Z;
  pNext : ptr chain
}.
Definition zero : t := mk
  0 Null.
End VkSubpassEndInfo.

(** [VkAttachmentDescription2] *)
Module VkAttachmentDescription2.
Record t := mk {
  sType : Z;
  pNext : ptr void;
  flags : Z;
  format : Z;
  samples : Z;
  loadOp : Z;
  storeOp : Z;
  stencilLoadOp : Z;
  stencilStoreOp : Z;
  initialLayout : Z;
  finalLayout : Z
}.
Definition zero : t := mk
  0 Null 0 0 0 0 0 0 0 0 0.
End VkAttachmentDescription2.

(** [VkSubpassDescription2] *)
Module VkSubpassDescription2.
Record t := mk {
  sType : Z;
  pNext : ptr chain;
  flags : Z;
  pipelineBindPoint : Z;
  viewMask : Z;
  inputAttachmentCount : Z;
  pInputAttachments : ptr (list VkAttachmentReference2.t);
  colorAttachmentCount : Z;
  pColorAttachments : ptr (list VkAttachmentReference2.t);
  pResolveAttachments : ptr (list VkAttachmentReference2.t);
  pDepthStencilAttachment : ptr VkAttachmentReference2.t;
  preserveAttachmentCount : Z;
  pPreserveAttachments : ptr (list Z)
}.
Definition zero : t := mk
  0 Null 0 0 0 0 Null 0 Null Null Null 0 Null.
End VkSubpassDescription2.

(** [VkSubpassDependency2] *)
Module VkSubpassDependency2.
Record t := mk {
  sType : Z;
  pNext : ptr void;
  srcSubpass : Z;
  dstSubpass : Z;
  srcStageMask : Z;
  dstStageMask : Z;
  srcAccessMask : Z;
  dstAccessMask : Z;
  dependencyFlags : Z;
  viewOffset : Z
}.
Definition zero : t := mk
  0 Null 0 0 0 0 0 0 0 0.
End VkSubpassDependency2.

(** [VkRenderPassCreateInfo2] *)
Module VkRenderPassCreateInfo2.
Record t := mk {
  sType : Z;
  pNext : ptr chain;
  flags : Z;
  attachmentCount : Z;
  pAttachments : ptr (list VkAttachmentDescription2.t);
  subpassCount : Z;
  pSubpasses : ptr (list VkSubpassDescription2.t);
  dependencyCount : Z;
  pDependencies : ptr (list VkSubpassDependency2.t);
  correlatedViewMaskCount : Z;
  pCorrelatedViewMasks : ptr (list Z)
}.
Definition zero : t := mk
  0 Null 0 0 Null 0 Null 0 Null 0 Null.
End VkRenderPassCreateInfo2.

(** [VkDescriptorUpdateTemplateEntry] *)
Module VkDescriptorUpdateTemplateEntry.
Record t := mk {
  dstBinding : Z;
  dstArrayElement : Z;
  descriptorCount : Z;
  descriptorType : Z;
  offset : Z;
  stride : Z
}.
Definition zero : t := mk
  0 0 0 0 0 0.
End VkDescriptorUpdateTemplateEntry.

(** [VkDescriptorUpdateTemplateCreateInfo] *)
Module VkDescriptorUpdateTemplateCreateInfo.
Record t := mk {
  sType : Z;
  pNext : ptr void;
  flags : Z;
  descriptorUpdateEntryCount : Z;
  pDescriptorUpdateEntries : ptr (list VkDescriptorUpdateTemplateEntry.t);
  templateType : Z;
  descriptorSetLayout : Z;
  pipelineBindPoint : Z;
  pipelineLayout : Z;
  set_ : Z
}.
Definition zero : t := mk
  0 Null 0 0 Null 0 0 0 0 0.
End VkDescriptorUpdateTemplateCreateInfo.

(** [VkSamplerYcbcrConversionCreateInfo] *)
Module VkSamplerYcbcrConversionCreateInfo.
Record t := mk {
  sType : Z;
  pNext : ptr void;
  format : Z;
  ycbcrModel : Z;
  ycbcrRange : Z;
  components : VkComponentMapping.t;
  xChromaOffset : Z;
  yChromaOffset : Z;
  chromaFilter : Z;
  forceExplicitReconstruction : Z
}.
Definition zero : t := mk
  0 Null 0 0 0 VkComponentMapping.zero 0 0 0 0.
End VkSamplerYcbcrConversionCreateInfo.

(** [VkMemoryBarrier2] *)
Module VkMemoryBarrier2.
Record t := mk {
  sType : Z;
  pNext : ptr void;
  srcStageMask : Z;
  srcAccessMask : Z;
  dstStageMask : Z;
  dstAccessMask : Z
}.
Definition zero : t := mk
  0 Null 0 0 0 0.
End VkMemoryBarrier2.

(** [VkBufferMemoryBarrier2] *)
Module VkBufferMemoryBarrier2.
Record t := mk {
  sType : Z;
  pNext : ptr void;
  srcStageMask : Z;
  srcAccessMask : Z;
  dstStageMask : Z;
  dstAccessMask : Z;
  srcQueueFamilyIndex : Z;
  dstQueueFamilyIndex : Z;
  buffer : Z;
  offset : Z;
  size : Z
}.
Definition zero : t := mk
  0 Null 0 0 0 0 0 0 0 0 0.
End VkBufferMemoryBarrier2.

(** [VkImageMemoryBarrier2] *)
Module VkImageMemoryBarrier2.
Record t := mk {
  sType : Z;
  pNext : ptr void;
  srcStageMask : Z;
  srcAccessMask : Z;
  dstStageMask : Z;
  dstAccessMask : Z;
  oldLayout : Z;
  newLayout : Z;
  srcQueueFamilyIndex : Z;
  dstQueueFamilyIndex : Z;
  image : Z;
  subresourceRange : VkImageSubresourceRange.t
}.
Definition zero : t := mk
  0 Null 0 0 0 0 0 0 0 0 0 VkImageSubresourceRange.zero.
End VkImageMemoryBarrier2.

(** [VkDependencyInfo] *)
Module VkDependencyInfo.
Record t := mk {
  sType : Z;
  pNext : ptr void;
  dependencyFlags : Z;
  memoryBarrierCount : Z;
  pMemoryBarriers : ptr (list VkMemoryBarrier2.t);
  bufferMemoryBarrierCount : Z;
  pBufferMemoryBarriers : ptr (list VkBufferMemoryBarrier2.t);
  imageMemoryBarrierCount : Z;
  pImageMemoryBarriers : ptr (list VkImageMemoryBarrier2.t)
}.
Definition zero : t := mk
  0 Null 0 0 Null 0 Null 0 Null.
End VkDependencyInfo.

(** [VkSemaphoreSubmitInfo] *)
Module VkSemaphoreSubmitInfo.
Record t := mk {
  sType : Z;
  pNext : ptr void;
  semaphore : Z;
  value : Z;
  stageMask : Z;
  deviceIndex : Z
}.
Definition zero : t := mk
  0 Null 0 0 0 0.
End VkSemaphoreSubmitInfo.

(** [VkCommandBufferSubmitInfo] *)
Module VkCommandBufferSubmitInfo.
Record t := mk {
  sType : Z;
  pNext : ptr void;
  commandBuffer : Z;
  deviceMask : Z
}.
Definition zero : t := mk
  0 Null 0 0.
End VkCommandBufferSubmitInfo.

(** [VkSubmitInfo2] *)
Module VkSubmitInfo2.
Record t := mk {
  sType : Z;
  pNext : ptr void;
  flags : Z;
  waitSemaphoreInfoCount : Z;
  pWaitSemaphoreInfos : ptr (list VkSemaphoreSubmitInfo.t);
  commandBufferInfoCount : Z;
  pCommandBufferInfos : ptr (list VkCommandBufferSubmitInfo.t);
  signalSemaphoreInfoCount : Z;
  pSignalSemaphoreInfos : ptr (list VkSemaphoreSubmitInfo.t)
}.
Definition zero : t := mk
  0 Null 0 0 Null 0 Null 0 Null.
End VkSubmitInfo2.

(** [VkSurfaceFormatKHR] *)
Module VkSurfaceFormatKHR.
Record t := mk {
  format : Z;
  colorSpace : Z
}.
Definition zero : t := mk
  0 0.
End VkSurfaceFormatKHR.

(** [VkMemoryType] *)
Module VkMemoryType.
Record t := mk {
  propertyFlags : Z;
  heapIndex : Z
}.
Definition zero : t := mk
  0 0.
End VkMemoryType.

(** [VkMemoryHeap] *)
Module VkMemoryHeap.
Record t := mk {
  size : Z;
  flags : Z
}.
Definition zero : t := mk
  0 0.
End VkMemoryHeap.

(** [VkFormatProperties] *)
Module VkFormatProperties.
Record t := mk {
  linearTilingFeatures : Z;
  optimalTilingFeatures : Z;
  bufferFeatures : Z
}.
Definition zero : t := mk
  0 0 0.
End VkFormatProperties.

(** [VkImageFormatProperties] *)
Module VkImageFormatProperties.
Record t := mk {
  maxExtent : VkExtent3D.t;
  maxMipLevels : Z;
  maxArrayLayers : Z;
  sampleCounts : Z;
  maxResourceSize : Z
}.
Definition zero : t := mk
  VkExtent3D.zero 0 0 0 0.
End VkImageFormatProperties.

(** [VkQueueFamilyProperties] *)
Module VkQueueFamilyProperties.
Record t := mk {
  queueFlags : Z;
  queueCount : Z;
  timestampValidBits : Z;
  minImageTransferGranularity : VkExtent3D.t
}.
Definition zero : t := mk
  0 0 0 VkExtent3D.zero.
End VkQueueFamilyProperties.

(** [VkSparseImageFormatProperties] *)
Module VkSparseImageFormatProperties.
Record t := mk {
  aspectMask : Z;
  imageGranularity : VkExtent3D.t;
  flags : Z
}.
Definition zero : t := mk
  0 VkExtent3D.zero 0.
End VkSparseImageFormatProperties.

(** [VkExtensionProperties] *)
Module VkExtensionProperties.
Record t := mk {
  extensionName : list byte;
  specVersion : Z
}.
Definition zero : t := mk
  (replicate 256 x00) 0.
End VkExtensionProperties.

