(* ===== verification/VkLimits.v ===== *)
(** The structs behind [VkPhysicalDeviceProperties], with the member lists that
    [src/common/marshal.cpp] defines as macros (lines 2249-2363): the encoder and
    the decoder walk the same list. *)

From S2P Require Import Prelude Wire CLayout VkStructs PNext VkCreateInfos.

(** [VkPhysicalDeviceLimits] *)
Module VkPhysicalDeviceLimits.
Record t := mk {
  maxImageDimension1D : Z;
  maxImageDimension2D : Z;
  maxImageDimension3D : Z;
  maxImageDimensionCube : Z;
  maxImageArrayLayers : Z;
  maxTexelBufferElements : Z;
  maxUniformBufferRange : Z;
  maxStorageBufferRange : Z;
  maxPushConstantsSize : Z;
  maxMemoryAllocationCount : Z;
  maxSamplerAllocationCount : Z;
  bufferImageGranularity : Z;
  sparseAddressSpaceSize : Z;
  maxBoundDescriptorSets : Z;
  maxPerStageDescriptorSamplers : Z;
  maxPerStageDescriptorUniformBuffers : Z;
  maxPerStageDescriptorStorageBuffers : Z;
  maxPerStageDescriptorSampledImages : Z;
  maxPerStageDescriptorStorageImages : Z;
  maxPerStageDescriptorInputAttachments : Z;
  maxPerStageResources : Z;
  maxDescriptorSetSamplers : Z;
  maxDescriptorSetUniformBuffers : Z;
  maxDescriptorSetUniformBuffersDynamic : Z;
  maxDescriptorSetStorageBuffers : Z;
  maxDescriptorSetStorageBuffersDynamic : Z;
  maxDescriptorSetSampledImages : Z;
  maxDescriptorSetStorageImages : Z;
  maxDescriptorSetInputAttachments : Z;
  maxVertexInputAttributes : Z;
  maxVertexInputBindings : Z;
  maxVertexInputAttributeOffset : Z;
  maxVertexInputBindingStride : Z;
  maxVertexOutputComponents : Z;
  maxTessellationGenerationLevel : Z;
  maxTessellationPatchSize : Z;
  maxTessellationControlPerVertexInputComponents : Z;
  maxTessellationControlPerVertexOutputComponents : Z;
  maxTessellationControlPerPatchOutputComponents : Z;
  maxTessellationControlTotalOutputComponents : Z;
  maxTessellationEvaluationInputComponents : Z;
  maxTessellationEvaluationOutputComponents : Z;
  maxGeometryShaderInvocations : Z;
  maxGeometryInputComponents : Z;
  maxGeometryOutputComponents : Z;
  maxGeometryOutputVertices : Z;
  maxGeometryTotalOutputComponents : Z;
  maxFragmentInputComponents : Z;
  maxFragmentOutputAttachments : Z;
  maxFragmentDualSrcAttachments : Z;
  maxFragmentCombinedOutputResources : Z;
  maxComputeSharedMemorySize : Z;
  maxComputeWorkGroupCount_0 : Z;
  maxComputeWorkGroupCount_1 : Z;
  maxComputeWorkGroupCount_2 : Z;
  maxComputeWorkGroupInvocations : Z;
  maxComputeWorkGroupSize_0 : Z;
  maxComputeWorkGroupSize_1 : Z;
  maxComputeWorkGroupSize_2 : Z;
  subPixelPrecisionBits : Z;
  subTexelPrecisionBits : Z;
  mipmapPrecisionBits : Z;
  maxDrawIndexedIndexValue : Z;
  maxDrawIndirectCount : Z;
  maxSamplerLodBias : Z;
  maxSamplerAnisotropy : Z;
  maxViewports : Z;
  maxViewportDimensions_0 : Z;
  maxViewportDimensions_1 : Z;
  viewportBoundsRange_0 : Z;
  viewportBoundsRange_1 : Z;
  viewportSubPixelBits : Z;
  minMemoryMapAlignment : Z;
  minTexelBufferOffsetAlignment : Z;
  minUniformBufferOffsetAlignment : Z;
  minStorageBufferOffsetAlignment : Z;
  minTexelOffset : Z;
  maxTexelOffset : Z;
  minTexelGatherOffset : Z;
  maxTexelGatherOffset : Z;
  minInterpolationOffset : Z;
  maxInterpolationOffset : Z;
  subPixelInterpolationOffsetBits : Z;
  maxFramebufferWidth : Z;
  maxFramebufferHeight : Z;
  maxFramebufferLayers : Z;
  framebufferColorSampleCounts : Z;
  framebufferDepthSampleCounts : Z;
  framebufferStencilSampleCounts : Z;
  framebufferNoAttachmentsSampleCounts : Z;
  maxColorAttachments : Z;
  sampledImageColorSampleCounts : Z;
  sampledImageIntegerSampleCounts : Z;
  sampledImageDepthSampleCounts : Z;
  sampledImageStencilSampleCounts : Z;
  storageImageSampleCounts : Z;
  maxSampleMaskWords : Z;
  timestampComputeAndGraphics : Z;
  timestampPeriod : Z;
  maxClipDistances : Z;
  maxCullDistances : Z;
  maxCombinedClipAndCullDistances : Z;
  discreteQueuePriorities : Z;
  pointSizeRange_0 : Z;
  pointSizeRange_1 : Z;
  lineWidthRange_0 : Z;
  lineWidthRange_1 : Z;
  pointSizeGranularity : Z;
  lineWidthGranularity : Z;
  strictLines : Z;
  standardSampleLocations : Z;
  optimalBufferCopyOffsetAlignment : Z;
  optimalBufferCopyRowPitchAlignment : Z;
  nonCoherentAtomSize : Z
}.
Definition zero : t := mk
  0 0 0 0 0 0 0 0 0 0 0 0 0 0 0 0 0 0 0 0 0 0 0 0 0 0 0 0 0 0 0 0 0 0 0 0 0 0 0 0 0 0 0 0 0 0 0
  0 0 0 0 0 0 0 0 0 0 0 0 0 0 0 0 0 0 0 0 0 0 0 0 0 0 0 0 0 0 0 0 0 0 0 0 0 0 0 0 0 0 0 0 0 0 0
  0 0 0 0 0 0 0 0 0 0 0 0 0 0 0 0 0 0 0 0.
(** marshal.cpp:2249-2331. *)
Definition u32_fields (s : t) : list Z := [
  maxImageDimension1D s; maxImageDimension2D s; maxImageDimension3D s; maxImageDimensionCube s;
  maxImageArrayLayers s; maxTexelBufferElements s; maxUniformBufferRange s;
  maxStorageBufferRange s; maxPushConstantsSize s; maxMemoryAllocationCount s;
  maxSamplerAllocationCount s; maxBoundDescriptorSets s; maxPerStageDescriptorSamplers s;
  maxPerStageDescriptorUniformBuffers s; maxPerStageDescriptorStorageBuffers s;
  maxPerStageDescriptorSampledImages s; maxPerStageDescriptorStorageImages s;
  maxPerStageDescriptorInputAttachments s; maxPerStageResources s; maxDescriptorSetSamplers s;
  maxDescriptorSetUniformBuffers s; maxDescriptorSetUniformBuffersDynamic s;
  maxDescriptorSetStorageBuffers s; maxDescriptorSetStorageBuffersDynamic s;
  maxDescriptorSetSampledImages s; maxDescriptorSetStorageImages s;
  maxDescriptorSetInputAttachments s; maxVertexInputAttributes s; maxVertexInputBindings s;
  maxVertexInputAttributeOffset s; maxVertexInputBindingStride s; maxVertexOutputComponents s;
  maxTessellationGenerationLevel s; maxTessellationPatchSize s;
  maxTessellationControlPerVertexInputComponents s;
  maxTessellationControlPerVertexOutputComponents s;
  maxTessellationControlPerPatchOutputComponents s;
  maxTessellationControlTotalOutputComponents s; maxTessellationEvaluationInputComponents s;
  maxTessellationEvaluationOutputComponents s; maxGeometryShaderInvocations s;
  maxGeometryInputComponents s; maxGeometryOutputComponents s; maxGeometryOutputVertices s;
  maxGeometryTotalOutputComponents s; maxFragmentInputComponents s;
  maxFragmentOutputAttachments s; maxFragmentDualSrcAttachments s;
  maxFragmentCombinedOutputResources s; maxComputeSharedMemorySize s;
  maxComputeWorkGroupInvocations s; subPixelPrecisionBits s; subTexelPrecisionBits s;
  mipmapPrecisionBits s; maxDrawIndexedIndexValue s; maxDrawIndirectCount s; maxViewports s;
  viewportSubPixelBits s; maxTexelOffset s; maxTexelGatherOffset s;
  subPixelInterpolationOffsetBits s; maxFramebufferWidth s; maxFramebufferHeight s;
  maxFramebufferLayers s; framebufferColorSampleCounts s; framebufferDepthSampleCounts s;
  framebufferStencilSampleCounts s; framebufferNoAttachmentsSampleCounts s;
  maxColorAttachments s; sampledImageColorSampleCounts s; sampledImageIntegerSampleCounts s;
  sampledImageDepthSampleCounts s; sampledImageStencilSampleCounts s;
  storageImageSampleCounts s; maxSampleMaskWords s; timestampComputeAndGraphics s;
  maxClipDistances s; maxCullDistances s; maxCombinedClipAndCullDistances s;
  discreteQueuePriorities s; strictLines s; standardSampleLocations s].
(** marshal.cpp:2333-2341. *)
Definition u64_fields (s : t) : list Z := [
  bufferImageGranularity s; sparseAddressSpaceSize s; minTexelBufferOffsetAlignment s;
  minUniformBufferOffsetAlignment s; minStorageBufferOffsetAlignment s;
  optimalBufferCopyOffsetAlignment s; optimalBufferCopyRowPitchAlignment s;
  nonCoherentAtomSize s].
(** marshal.cpp:2343-2350. *)
Definition f32_fields (s : t) : list Z := [
  maxSamplerLodBias s; maxSamplerAnisotropy s; minInterpolationOffset s;
  maxInterpolationOffset s; timestampPeriod s; pointSizeGranularity s; lineWidthGranularity s].
(** The array members, element by element. *)
Definition work_groups (s : t) : list Z := [
  maxComputeWorkGroupCount_0 s; maxComputeWorkGroupCount_1 s; maxComputeWorkGroupCount_2 s;
  maxComputeWorkGroupSize_0 s; maxComputeWorkGroupSize_1 s; maxComputeWorkGroupSize_2 s;
  maxViewportDimensions_0 s; maxViewportDimensions_1 s].
Definition bounds_range (s : t) : list Z := [viewportBoundsRange_0 s; viewportBoundsRange_1 s].
Definition size_ranges (s : t) : list Z := [
  pointSizeRange_0 s; pointSizeRange_1 s; lineWidthRange_0 s; lineWidthRange_1 s].
(** The struct whose members are given, list by list. *)
Definition of_fields (us ul fs ws bs : list Z) (min_map min_texel min_gather : Z)
    (rs : list Z) : t :=
  match us, ul, fs, ws, bs, rs with
  | [a0; a1; a2; a3; a4; a5; a6; a7; a8; a9; a10; a11; a12; a13; a14; a15; a16; a17; a18; a19;
     a20; a21; a22; a23; a24; a25; a26; a27; a28; a29; a30; a31; a32; a33; a34; a35; a36; a37;
     a38; a39; a40; a41; a42; a43; a44; a45; a46; a47; a48; a49; a50; a51; a52; a53; a54; a55;
     a56; a57; a58; a59; a60; a61; a62; a63; a64; a65; a66; a67; a68; a69; a70; a71; a72; a73;
     a74; a75; a76; a77; a78; a79; a80; a81],
    [b0; b1; b2; b3; b4; b5; b6; b7],
    [c0; c1; c2; c3; c4; c5; c6],
    [d0; d1; d2; d3; d4; d5; d6; d7],
    [e0; e1],
    [f0; f1; f2; f3] =>
      mk a0 a1 a2 a3 a4 a5 a6 a7 a8 a9 a10 b0 b1 a11 a12 a13 a14 a15 a16 a17 a18 a19 a20 a21 a22
        a23 a24 a25 a26 a27 a28 a29 a30 a31 a32 a33 a34 a35 a36 a37 a38 a39 a40 a41 a42 a43 a44
        a45 a46 a47 a48 a49 d0 d1 d2 a50 d3 d4 d5 a51 a52 a53 a54 a55 c0 c1 a56 d6 d7 e0 e1 a57
        min_map b2 b3 b4 min_texel a58 min_gather a59 c2 c3 a60 a61 a62 a63 a64 a65 a66 a67 a68
        a69 a70 a71 a72 a73 a74 a75 c4 a76 a77 a78 a79 f0 f1 f2 f3 c5 c6 a80 a81 b5 b6 b7
  | _, _, _, _, _, _ => zero
  end.

Lemma of_fields_id s :
  of_fields (u32_fields s) (u64_fields s) (f32_fields s) (work_groups s) (bounds_range s)
    (minMemoryMapAlignment s) (minTexelOffset s) (minTexelGatherOffset s) (size_ranges s) = s.
Proof. by destruct s. Qed.
End VkPhysicalDeviceLimits.

(** [VkPhysicalDeviceSparseProperties] *)
Module VkPhysicalDeviceSparseProperties.
Record t := mk {
  residencyStandard2DBlockShape : Z;
  residencyStandard2DMultisampleBlockShape : Z;
  residencyStandard3DBlockShape : Z;
  residencyAlignedMipSize : Z;
  residencyNonResidentStrict : Z
}.
Definition zero : t := mk
  0 0 0 0 0.
(** marshal.cpp:2352-2357. *)
Definition words (s : t) : list Z := [
  residencyStandard2DBlockShape s; residencyStandard2DMultisampleBlockShape s;
  residencyStandard3DBlockShape s; residencyAlignedMipSize s; residencyNonResidentStrict s].
Definition of_words (vs : list Z) : t :=
  match vs with
  | [v0; v1; v2; v3; v4] =>
      mk v0 v1 v2 v3 v4
  | _ => zero
  end.
Lemma VkPhysicalDeviceSparseProperties_words s : of_words (words s) = s.
Proof. by destruct s. Qed.
End VkPhysicalDeviceSparseProperties.

(** [VkPhysicalDeviceProperties] *)
Module VkPhysicalDeviceProperties.
Record t := mk {
  apiVersion : Z;
  driverVersion : Z;
  vendorID : Z;
  deviceID : Z;
  deviceType : Z;
  deviceName : list byte;
  pipelineCacheUUID : list byte;
  limits : VkPhysicalDeviceLimits.t;
  sparseProperties : VkPhysicalDeviceSparseProperties.t
}.
Definition zero : t := mk
  0 0 0 0 0 (replicate 256 x00) (replicate 16 x00) VkPhysicalDeviceLimits.zero
  VkPhysicalDeviceSparseProperties.zero.
Definition set_deviceName (v : list byte) (s : t) : t := mk
  (apiVersion s) (driverVersion s) (vendorID s) (deviceID s) (deviceType s) v
  (pipelineCacheUUID s) (limits s) (sparseProperties s).
End VkPhysicalDeviceProperties.

(** [VkPhysicalDeviceMemoryProperties]: 32 memory types and 16 heaps, of which the
    counts say how many are valid. *)
Module VkPhysicalDeviceMemoryProperties.
Record t := mk {
  memoryTypeCount : Z;
  memoryTypes : list VkMemoryType.t;
  memoryHeapCount : Z;
  memoryHeaps : list VkMemoryHeap.t
}.
Definition zero : t := mk
  0 (replicate (Z.to_nat VK_MAX_MEMORY_TYPES) VkMemoryType.zero)
  0 (replicate (Z.to_nat VK_MAX_MEMORY_HEAPS) VkMemoryHeap.zero).
End VkPhysicalDeviceMemoryProperties.
