(* ===== verification/MarshalBase.v ===== *)
(** The building blocks of [src/common/marshal.cpp] (lines 10-246): raw structs,
    counted and optional arrays of raw structs, handle and string arrays, and
    the structs nested in other structs.

    A struct sent raw is a copy whose pointers are nulled; the pointed-to
    arrays follow it. Reading fills a struct from its raw bytes, then replaces
    its pointers. *)

From stdpp Require Import list.
From S2P Require Import Prelude Wire Codec CLayout VkStructs PNext PNextFacts.
Import ReaderFacts.
Open Scope wire_scope.

Section Raw.
Context `{Abi}.

(** [w.bytes(&tmp, sizeof(tmp))]. *)
Definition write_raw {T} `{Pod T} (s : T) : list byte := Writer.bytes (pod_bytes s).

(** marshal.cpp:23-29. *)
Definition read_raw T `{Pod T} : Rd T :=
  buf <- r_bytes u32_max ;
  rguard (Z.of_nat (length buf) =? Z.of_nat (pod_size T)) ;!
  rret (pod_read buf).

(** The [n] elements whose images [bs] holds. *)
Fixpoint pod_list T `{Pod T} (n : nat) (bs : list byte) : list T :=
  match n with
  | O => []
  | S k => pod_read (take (pod_size T) bs) :: pod_list T k (drop (pod_size T) bs)
  end.

(** marshal.cpp:31-34. *)
Definition write_pod_array {T} `{Pod T} (p : ptr (list T)) (count : Z) : list byte :=
  Writer.bytes (concat (map pod_bytes (arr p count))).

(** marshal.cpp:36-52. *)
Definition read_pod_array T `{Pod T} (count : Z) : Rd (ptr (list T)) :=
  rguard (negb (kMaxArrayElements <? count)) ;!
  buf <- r_bytes u32_max ;
  rguard (Z.of_nat (length buf) =? count * Z.of_nat (pod_size T)) ;!
  rret (if count =? 0 then Null else Ref (pod_list T (Z.to_nat count) buf)).

(** marshal.cpp:56-60. *)
Definition write_opt_pod_array {T} `{Pod T} (p : ptr (list T)) (count : Z) : list byte :=
  Writer.u32 (if is_null p then 0 else 1) ++
  (if is_null p then [] else write_pod_array p count).

(** marshal.cpp:62-71. *)
Definition read_opt_pod_array T `{Pod T} (count : Z) : Rd (ptr (list T)) :=
  present <- r_u32 ; r_ok ;! rguard (negb (kMaxArrayElements <? count)) ;!
  if present =? 0 then rret Null else read_pod_array T count.

(** marshal.cpp:73-77. *)
Definition write_opt_pod {T} `{Pod T} (p : ptr T) : list byte :=
  Writer.u32 (if is_null p then 0 else 1) ++
  match p with Ref s => write_raw s | _ => [] end.

(** marshal.cpp:79-93. *)
Definition read_opt_pod T `{Pod T} : Rd (ptr T) :=
  present <- r_u32 ; r_ok ;!
  if present =? 0 then rret Null else s <- read_raw T ; rret (Ref s).

(** A presence flag and what follows it, with [enc] and [m] for the struct. *)
Definition write_present {A} (enc : A -> list byte) (p : ptr A) : list byte :=
  Writer.u32 (if is_null p then 0 else 1) ++ match p with Ref s => enc s | _ => [] end.

Definition read_present {A} (m : Rd A) : Rd (ptr A) :=
  present <- r_u32 ; r_ok ;!
  if present =? 0 then rret Null else s <- m ; rret (Ref s).

(** marshal.cpp:95-98. *)
Definition write_handle_array (p : ptr (list Z)) (count : Z) : list byte :=
  concat (map Writer.handle (arr p count)).

(** marshal.cpp:117-119. *)
Definition write_string_array (p : ptr (list (list byte))) (count : Z) : list byte :=
  concat (map (fun s => Writer.string (Some s)) (arr p count)).

(** marshal.cpp:121-137. *)
Definition read_string_array (count : Z) : Rd (ptr (list (list byte))) :=
  if count =? 0 then rret Null
  else
    rguard (negb (kMaxArrayElements <? count)) ;!
    xs <- rfor (Z.to_nat count) r_string ; rret (Ref xs).

(** [n = r.u32(); if (n > kMaxArrayElements || n > r.remaining() / size) return
    false;], with or without a check of [r.ok()] first. *)
Definition read_limit (checked : bool) (size : Z) : Rd Z :=
  n <- r_u32 ; (if checked then r_ok else rret tt) ;! left <- r_remaining ;
  rguard (negb ((kMaxArrayElements <? n) || (left / size <? n))) ;! rret n.

(** A count bounded by the bytes left, then that many elements. *)
Definition read_bounded {A} (checked : bool) (size : Z) (m : Rd A) : Rd (Z * ptr (list A)) :=
  n <- read_limit checked size ; xs <- rfor (Z.to_nat n) m ; rret (n, arr_ptr xs).

(** marshal.cpp:139-151. *)
Definition read_bytes_to_arena (expected_size : Z) : Rd (ptr (list byte)) :=
  buf <- r_bytes u32_max ; rguard (Z.of_nat (length buf) =? expected_size) ;!
  rret (if expected_size =? 0 then Null else Ref buf).

End Raw.

(** ** Round trips of the building blocks *)
Section RawFacts.
Context `{Abi}.

(** What a raw copy delivers: the scalars, and the pointers as addresses. *)
Definition raw_copy {T} `{Pod T} (s : T) : T := pod_of (pod_to s).

(** A struct that can be sent: its scalars in range, its image within a
    message. *)
Definition raw_ok {T} `{Pod T} (s : T) : Prop :=
  pod_okb s = true /\ is_u32 (Z.of_nat (pod_size T)).

Lemma pod_read_raw {T} `{Pod T} (s : T) : pod_okb s = true -> pod_read (pod_bytes s) = raw_copy s.
Proof.
  intros Hs. unfold pod_read, pod_bytes, raw_copy. by rewrite raw_values_bytes.
Qed.

Lemma raw_copy_flat {T} `{Pod T} (s : T) : pod_flat s -> raw_copy s = s.
Proof. apply pod_of_to. Qed.

Lemma reads_raw {T} `{Pod T} rest (s : T) : raw_ok s ->
  reads_at rest (read_raw T) (write_raw s) (raw_copy s).
Proof.
  intros [Hs Hsz]. unfold read_raw, write_raw. pose proof (length_pod_bytes s Hs) as Hl.
  eapply reads_bind_last; [apply reads_bytes; rewrite Hl; [|done]; unfold u32_max, is_u32 in *; lia|].
  eapply reads_bind_nil; [apply reads_guard, Z.eqb_eq; lia|].
  rewrite pod_read_raw by done. apply reads_ret.
Qed.

(** The scalars of a decoded struct are in the ranges of their types. *)
Lemma ensures_raw {T} `{Pod T} : rd_ensures (read_raw T) (fun s =>
  exists vs, kinds_okb pod_kinds vs = true /\ s = pod_of vs).
Proof.
  unfold read_raw. apply ensures_bind_any. intros buf. apply ensures_bind_guard. intros _.
  apply ensures_ret. eexists. split; [|reflexivity]. apply raw_values_ok.
Qed.

(** An array of [n] structs behind [p] that fits a message. *)
Definition pods_ok {T} `{Pod T} (n : Z) (p : ptr (list T)) : Prop :=
  0 <= n <= kMaxArrayElements /\ Z.of_nat (length (arr p n)) = n /\
  Forall (fun x => pod_okb x = true /\ pod_flat x) (arr p n) /\
  is_u32 (n * Z.of_nat (pod_size T)).

Lemma length_pods {T} `{Pod T} (xs : list T) :
  Forall (fun x => pod_okb x = true /\ pod_flat x) xs ->
  length (concat (map pod_bytes xs)) = (length xs * pod_size T)%nat.
Proof.
  induction 1 as [|x xs [Hx _] _ IH]; [done|]. cbn [map concat]. rewrite length_app, IH.
  rewrite length_pod_bytes by done. cbn. lia.
Qed.

Lemma pod_list_bytes {T} `{Pod T} (xs : list T) :
  Forall (fun x => pod_okb x = true /\ pod_flat x) xs ->
  pod_list T (length xs) (concat (map pod_bytes xs)) = xs.
Proof.
  induction 1 as [|x xs [Hx Hf] _ IH]; [done|]. cbn [map concat length pod_list].
  rewrite take_app_length', drop_app_length' by (by rewrite length_pod_bytes).
  by rewrite pod_read_bytes, IH.
Qed.

Lemma reads_pod_array {T} `{Pod T} rest n (p : ptr (list T)) : pods_ok n p ->
  reads_at rest (read_pod_array T n) (write_pod_array p n) (arr_ptr (arr p n)).
Proof.
  intros (Hn & Hl & Hxs & Hsz). unfold read_pod_array, write_pod_array.
  pose proof (length_pods _ Hxs) as Hlen.
  eapply reads_bind_nil; [apply reads_guard, negb_true_iff, Z.ltb_ge; lia|].
  assert (Z.of_nat (length (concat (map pod_bytes (arr p n)))) = n * Z.of_nat (pod_size T)) as Hz
    by lia.
  eapply reads_bind_last; [apply reads_bytes; rewrite Hz; [|done]; unfold u32_max, is_u32 in *; lia|].
  eapply reads_bind_nil; [apply reads_guard, Z.eqb_eq; lia|].
  replace (if n =? 0 then _ else _) with (arr_ptr (arr p n)); [apply reads_ret|].
  replace (Z.to_nat n) with (length (arr p n)) by lia. rewrite pod_list_bytes by done.
  destruct (Z.eqb_spec n 0); destruct (arr p n); cbn in Hl; try lia; done.
Qed.

(** The optional forms: absence is independent of the count. *)
Definition opt_pods_ok {T} `{Pod T} (n : Z) (p : ptr (list T)) : Prop :=
  0 <= n <= kMaxArrayElements /\
  match p with Null => True | Wild _ => False | Ref _ => pods_ok n p end.

Lemma reads_opt_pod_array {T} `{Pod T} rest n (p : ptr (list T)) : opt_pods_ok n p ->
  reads_at rest (read_opt_pod_array T n) (write_opt_pod_array p n) (arr_ptr (arr p n)).
Proof.
  intros [Hn Hp]. unfold read_opt_pod_array, write_opt_pod_array.
  destruct p as [|a|xs]; [|done|]; cbn [is_null].
  - eapply reads_bind; [apply reads_u32, is_u32_0|].
    eapply reads_bind_nil; [apply reads_ok|].
    eapply reads_bind_nil; [apply reads_guard, negb_true_iff, Z.ltb_ge; lia|]. apply reads_ret.
  - eapply reads_bind; [apply reads_u32, is_u32_1|].
    eapply reads_bind_nil; [apply reads_ok|].
    eapply reads_bind_nil; [apply reads_guard, negb_true_iff, Z.ltb_ge; lia|].
    cbn [Z.eqb]. by apply reads_pod_array.
Qed.

Definition opt_raw_ok {T} `{Pod T} (p : ptr T) : Prop :=
  match p with Null => True | Wild _ => False | Ref s => raw_ok s end.

Definition opt_raw_copy {T} `{Pod T} (p : ptr T) : ptr T :=
  match p with Ref s => Ref (raw_copy s) | _ => Null end.

Lemma reads_opt_pod {T} `{Pod T} rest (p : ptr T) : opt_raw_ok p ->
  reads_at rest (read_opt_pod T) (write_opt_pod p) (opt_raw_copy p).
Proof.
  intros Hp. unfold read_opt_pod, write_opt_pod.
  destruct p as [|a|s]; [|done|]; cbn [is_null opt_raw_copy].
  - eapply reads_bind; [apply reads_u32, is_u32_0|].
    eapply reads_bind_nil; [apply reads_ok|]. apply reads_ret.
  - eapply reads_bind; [apply reads_u32, is_u32_1|].
    eapply reads_bind_nil; [apply reads_ok|]. cbn [Z.eqb].
    eapply reads_bind_last; [by apply reads_raw|]. apply reads_ret.
Qed.

Lemma kMaxArrayElements_value : kMaxArrayElements = 1048576.
Proof. reflexivity. Qed.

(** Handles. *)
Definition handles_ok (n : Z) (p : ptr (list Z)) : Prop :=
  0 <= n <= kMaxArrayElements /\ Z.of_nat (length (arr p n)) = n /\ Forall is_u64 (arr p n).

Definition handles_recv (resolve : Z -> Z) (n : Z) (p : ptr (list Z)) : ptr (list Z) :=
  arr_ptr (map (patch_handle resolve) (arr p n)).

Lemma reads_handles rest resolve n p : handles_ok n p ->
  reads_at rest (read_handle_array n resolve) (write_handle_array p n) (handles_recv resolve n p).
Proof.
  intros (Hn & Hl & Hxs). rewrite kMaxArrayElements_value in Hn.
  apply reads_handle_array; [unfold is_u32; lia| |done|done].
  unfold valid_count. change (18446744073709551615 / 8) with 2305843009213693951.
  apply andb_true_iff. split; apply Z.leb_le; rewrite ?kMaxArrayElements_value; lia.
Qed.

(** Strings: a C string of length [strlen] comes back as its characters. *)
Definition cstring_ok (s : list byte) : Prop := is_u32 (Z.of_nat (length s)).

Lemma strlen_prefix_length s : (length (Writer.strlen_prefix s) <= length s)%nat.
Proof. induction s as [|b s IH]; [done|]. cbn. case_decide; cbn; lia. Qed.

Lemma reads_string_opt rest o :
  match o with Some s => cstring_ok s | None => True end ->
  reads_at rest r_string (Writer.string o)
    (match o with Some s => Writer.strlen_prefix s | None => [] end).
Proof.
  intros Hs. change r_string with (r_bytes u32_max).
  change (Writer.string o) with
    (Writer.bytes (match o with Some cs => Writer.strlen_prefix cs | None => [] end)).
  assert (is_u32 (Z.of_nat (length (match o with Some s => Writer.strlen_prefix s
                                            | None => [] end)))) as Hu.
  { destruct o as [s|]; [|apply is_u32_0]. unfold cstring_ok, is_u32 in *.
    pose proof (strlen_prefix_length s). lia. }
  apply reads_bytes; [|exact Hu]. unfold is_u32, u32_max in *. lia.
Qed.

Definition strings_ok (n : Z) (p : ptr (list (list byte))) : Prop :=
  0 <= n <= kMaxArrayElements /\ Z.of_nat (length (arr p n)) = n /\ Forall cstring_ok (arr p n).

Definition strings_recv (n : Z) (p : ptr (list (list byte))) : ptr (list (list byte)) :=
  arr_ptr (map Writer.strlen_prefix (arr p n)).

Lemma reads_string_array rest n p : strings_ok n p ->
  reads_at rest (read_string_array n) (write_string_array p n) (strings_recv n p).
Proof.
  intros (Hn & Hl & Hs). unfold read_string_array, write_string_array, strings_recv.
  destruct (Z.eqb_spec n 0) as [->|Hz].
  { destruct (arr p 0); [apply reads_ret|cbn in Hl; lia]. }
  eapply reads_bind_nil; [apply reads_guard, negb_true_iff, Z.ltb_ge; lia|].
  replace (Z.to_nat n) with (length (arr p n)) by lia. eapply reads_bind_last.
  - apply (reads_for _ _ (fun s b => cstring_ok s /\ b = Writer.string (Some s))
             Writer.strlen_prefix).
    + clear -Hs. induction Hs; cbn; constructor; auto.
    + intros s b rest' [Hk ->]. by apply (reads_string_opt _ (Some s)).
  - destruct (arr p n); [cbn in Hl; lia|]. apply reads_ret.
Qed.

Definition blob_ok (n : Z) (p : ptr (list byte)) : Prop :=
  is_u32 n /\ Z.of_nat (length (arr p n)) = n.

Lemma reads_blob rest n p : blob_ok n p ->
  reads_at rest (read_bytes_to_arena n) (Writer.bytes (arr p n)) (arr_ptr (arr p n)).
Proof.
  intros [Hn Hl]. unfold read_bytes_to_arena.
  eapply reads_bind_last; [apply reads_bytes; rewrite Hl; [|done]; unfold is_u32, u32_max in *; lia|].
  eapply reads_bind_nil; [apply reads_guard, Z.eqb_eq; lia|].
  replace (if n =? 0 then _ else _) with (arr_ptr (arr p n)); [apply reads_ret|].
  destruct (Z.eqb_spec n 0); destruct (arr p n); cbn in Hl; try lia; done.
Qed.

(** An optional struct: a flag, then the struct when it is present. *)
Definition opt_ok {A} (ok : A -> Prop) (p : ptr A) : Prop :=
  match p with Null => True | Wild _ => False | Ref s => ok s end.

Definition opt_recv {A B} (recv : A -> B) (p : ptr A) : ptr B :=
  match p with Ref s => Ref (recv s) | _ => Null end.

Lemma reads_present {A B} rest (m : Rd B) (enc : A -> list byte) (ok : A -> Prop) (recv : A -> B) p :
  (forall rest s, ok s -> reads_at rest m (enc s) (recv s)) -> opt_ok ok p ->
  reads_at rest (read_present m) (write_present enc p) (opt_recv recv p).
Proof.
  intros Hm Hp. unfold read_present, write_present.
  destruct p as [|a|s]; [|done|]; cbn [is_null opt_recv].
  - eapply reads_bind; [apply reads_u32, is_u32_0|].
    eapply reads_bind_nil; [apply reads_ok|]. apply reads_ret.
  - eapply reads_bind; [apply reads_u32, is_u32_1|].
    eapply reads_bind_nil; [apply reads_ok|]. cbn [Z.eqb].
    eapply reads_bind_last; [by apply Hm|]. apply reads_ret.
Qed.

(** Arrays of structs with arrays of their own, decoded one by one. *)
Definition structs_ok {A} (ok : A -> Prop) (n : Z) (p : ptr (list A)) : Prop :=
  0 <= n <= kMaxArrayElements /\ Z.of_nat (length (arr p n)) = n /\ Forall ok (arr p n).

Definition structs_recv {A B} (recv : A -> B) (n : Z) (p : ptr (list A)) : ptr (list B) :=
  arr_ptr (map recv (arr p n)).

Lemma reads_structs {A B} rest (m : Rd B) (enc : A -> list byte) (ok : A -> Prop)
    (recv : A -> B) n p :
  (forall rest x, ok x -> reads_at rest m (enc x) (recv x)) -> structs_ok ok n p ->
  reads_at rest (rfor (Z.to_nat n) m) (concat (map enc (arr p n))) (map recv (arr p n)).
Proof.
  intros Hm (Hn & Hl & Hok). replace (Z.to_nat n) with (length (arr p n)) by lia.
  apply (reads_for _ _ (fun x b => ok x /\ b = enc x)).
  - clear -Hok. induction Hok; cbn; constructor; auto.
  - intros x b rest' [Hk ->]. by apply Hm.
Qed.

Lemma concat_length_ge {A} (P : A -> list byte -> Prop) (size : Z) xs bss :
  (forall x b, P x b -> size <= Z.of_nat (length b)) -> Forall2 P xs bss ->
  size * Z.of_nat (length xs) <= Z.of_nat (length (concat bss)).
Proof.
  intros Hsz. induction 1 as [|x b xs bss Hx _ IH]; [cbn; lia|].
  cbn [concat length]. rewrite length_app. specialize (Hsz x b Hx). lia.
Qed.

Lemma concat_map_length_ge {A} (ok : A -> Prop) (enc : A -> list byte) (size : Z) xs :
  (forall x, ok x -> size <= Z.of_nat (length (enc x))) -> Forall ok xs ->
  size * Z.of_nat (length xs) <= Z.of_nat (length (concat (map enc xs))).
Proof.
  intros Hsz. induction 1 as [|x xs Hx _ IH]; [cbn; lia|].
  cbn [map concat length]. rewrite length_app. specialize (Hsz x Hx). lia.
Qed.

Lemma reads_limit rest checked size n :
  0 < size -> 0 <= n <= kMaxArrayElements -> size * n <= Z.of_nat (length rest) ->
  reads_at rest (read_limit checked size) (Writer.u32 n) n.
Proof.
  intros Hs Hn Hl. rewrite kMaxArrayElements_value in Hn. unfold read_limit.
  eapply reads_bind_last; [apply reads_u32; unfold is_u32; lia|].
  eapply reads_bind_nil; [destruct checked; [apply reads_ok|apply reads_ret]|].
  eapply reads_bind_nil; [apply reads_remaining|].
  eapply reads_bind_nil; [|apply reads_ret]. cbn [app].
  apply reads_guard, negb_true_iff, orb_false_iff. rewrite kMaxArrayElements_value.
  split; apply Z.ltb_ge; [lia|]. apply Z.div_le_lower_bound; lia.
Qed.

(** Elements written and checked one by one, each of at least [size] bytes. *)
Lemma reads_bounded {A B} rest checked size (m : Rd B) (w : A -> W) (ok : A -> Prop)
    (g : A -> B) n p bs :
  (forall rest x b, w x = (true, b) -> ok x -> reads_at rest m b (g x)) ->
  (forall x b, w x = (true, b) -> size <= Z.of_nat (length b)) ->
  0 < size -> structs_ok ok n p -> wfor w (arr p n) = (true, bs) ->
  reads_at rest (read_bounded checked size m) (Writer.u32 n ++ bs) (n, structs_recv g n p).
Proof.
  intros Hm Hsz Hpos (Hn & Hl & Hok) Hw. apply wfor_true in Hw as (bss & HF & ->).
  pose proof (concat_length_ge _ size _ _ Hsz HF) as Hlen.
  unfold read_bounded. eapply reads_bind.
  { apply reads_limit; [done..|]. rewrite length_app. lia. }
  replace (Z.to_nat n) with (length (arr p n)) by lia.
  eapply reads_bind_last; [|apply reads_ret].
  apply (reads_for _ _ (fun x b => w x = (true, b) /\ ok x)).
  - clear -HF Hok. induction HF; forall_hyps; constructor; auto.
  - intros x b rest' [Hx Hk]. by apply Hm.
Qed.

(** The same with elements that are always written. *)
Lemma reads_bounded_emit {A B} rest checked size (m : Rd B) (enc : A -> list byte)
    (ok : A -> Prop) (g : A -> B) n p :
  (forall rest x, ok x -> reads_at rest m (enc x) (g x)) ->
  (forall x, size <= Z.of_nat (length (enc x))) ->
  0 < size -> structs_ok ok n p ->
  reads_at rest (read_bounded checked size m) (Writer.u32 n ++ concat (map enc (arr p n)))
    (n, structs_recv g n p).
Proof.
  intros Hm Hsz Hpos Hok. apply reads_bounded with (w := fun x => emit (enc x)) (ok := ok);
    [|intros x b Hb; apply emit_true in Hb as ->; apply Hsz|done|done|apply wfor_emit].
  intros rest' x b Hb Hx. apply emit_true in Hb as ->. by apply Hm.
Qed.

(** A raw struct, its chain, and what follows. *)
Lemma chained_true a m z bs :
  transact (emit a ;;; m ;;; emit z) = (true, bs) ->
  exists b, m = (true, b) /\ bs = a ++ b ++ z.
Proof.
  intros Hw. apply transact_true, emit_then_true in Hw as (b1 & Hw & ->).
  apply wseq_true in Hw as (b & b2 & Hm & Hz & ->). apply emit_true in Hz as ->. eauto.
Qed.

Lemma chained_last_true a m bs :
  transact (emit a ;;; m) = (true, bs) -> exists b, m = (true, b) /\ bs = a ++ b.
Proof. intros Hw. by apply transact_true, emit_then_true in Hw as (b & Hw & ->); eauto. Qed.

End RawFacts.

(** ** Safety of the building blocks *)
Section RawSafe.
Context `{Abi}.

Lemma safe_raw {T} `{Pod T} : rd_safe (read_raw T).
Proof. unfold read_raw. rd_safe_tac. Qed.

Lemma safe_pod_array {T} `{Pod T} n : rd_safe (read_pod_array T n).
Proof. unfold read_pod_array. rd_safe_tac. Qed.

Lemma safe_opt_pod_array {T} `{Pod T} n : rd_safe (read_opt_pod_array T n).
Proof. unfold read_opt_pod_array. pose proof (safe_pod_array (T := T) n). rd_safe_tac. Qed.

Lemma safe_opt_pod {T} `{Pod T} : rd_safe (read_opt_pod T).
Proof. unfold read_opt_pod. pose proof (safe_raw (T := T)). rd_safe_tac. Qed.

Lemma safe_string_array n : rd_safe (read_string_array n).
Proof. unfold read_string_array. rd_safe_tac. Qed.

Lemma safe_present {A} (m : Rd A) : rd_safe m -> rd_safe (read_present m).
Proof. intros Hm. unfold read_present. rd_safe_tac. Qed.

Lemma safe_bounded {A} checked size (m : Rd A) :
  rd_safe m -> rd_safe (read_bounded checked size m).
Proof. intros Hm. unfold read_bounded, read_limit. rd_safe_tac. Qed.

Lemma safe_blob n : rd_safe (read_bytes_to_arena n).
Proof. unfold read_bytes_to_arena. rd_safe_tac. Qed.

End RawSafe.

#[export] Hint Resolve safe_raw safe_pod_array safe_opt_pod_array safe_opt_pod safe_string_array
  safe_present safe_bounded safe_blob safe_handle_array : rdsafe.
