(* ===== verification/Marshal.v ===== *)
(** The structs of [src/common/marshal.cpp] that carry no pNext chain of their
    own: those nested in pipelines and render passes, and those sent raw with
    their arrays after them.  For a struct [X]:

    - [tmp_X s] is the copy whose pointers are nulled,
    - [write_X], [read_X] are the functions of the source,
    - [X_ok s]: the members are in range and the arrays as long as their counts,
    - [recv_X s] is what the peer reconstructs. *)

From stdpp Require Import list.
From S2P Require Import Prelude Wire Codec CLayout VkStructs PNext PNextFacts MarshalBase.
Import ReaderFacts.
Open Scope wire_scope.

(** The read of one part of a struct. *)
Ltac read_part m :=
  lazymatch m with
  | read_raw _ => apply reads_raw; assumption
  | read_pod_array _ _ => apply reads_pod_array; assumption
  | read_opt_pod_array _ _ => apply reads_opt_pod_array; assumption
  | read_opt_pod _ => apply reads_opt_pod; assumption
  | read_handle_array _ _ => apply reads_handles; assumption
  | read_string_array _ => apply reads_string_array; assumption
  | read_bytes_to_arena _ => apply reads_blob; assumption
  | read_pnext_chain _ _ => eapply reads_chain; eassumption
  | _ => read_one m
  end.

(** Drops the copy of a struct without pointers. *)
Ltac flatten_copy := rewrite ?raw_copy_flat by (hnf; cbn; tauto).

Ltac reads_parts :=
  repeat lazymatch goal with
  | |- reads_at _ (rret _) _ _ => apply reads_ret
  | |- reads_at _ (rbind r_ok _) _ _ => eapply reads_bind_nil; [apply reads_ok|cbv beta]
  | |- reads_at _ (rbind (rguard _) _) _ _ =>
      eapply reads_bind_nil; [apply reads_guard; solve_side|cbv beta]
  | |- reads_at _ (rbind ?m _) (_ ++ _) _ =>
      eapply reads_bind; [read_part m|flatten_copy; cbv beta]
  | |- reads_at _ (rbind ?m _) _ _ =>
      eapply reads_bind_last; [read_part m|flatten_copy; cbv beta]
  end.

(** ** Structs nested in other structs *)
Section Nested.
Context `{Abi} {HR : HandleResolver}.

Section SpecializationInfo.
Import VkSpecializationInfo.

Definition tmp_SpecializationInfo (s : t) : t := set_pMapEntries Null (set_pData Null s).

(** marshal.cpp:155-162. *)
Definition write_SpecializationInfo (s : t) : list byte :=
  write_raw (tmp_SpecializationInfo s) ++ write_pod_array (pMapEntries s) (mapEntryCount s) ++
  Writer.bytes (arr (pData s) (dataSize s)).

(** marshal.cpp:164-173. *)
Definition read_SpecializationInfo : Rd t :=
  out <- read_raw t ;
  entries <- read_pod_array VkSpecializationMapEntry.t (mapEntryCount out) ;
  data <- read_bytes_to_arena (dataSize out) ;
  rret (set_pData data (set_pMapEntries entries out)).

Definition SpecializationInfo_ok (s : t) : Prop :=
  raw_ok (tmp_SpecializationInfo s) /\ pods_ok (mapEntryCount s) (pMapEntries s) /\
  blob_ok (dataSize s) (pData s).

Definition recv_SpecializationInfo (s : t) : t :=
  set_pData (arr_ptr (arr (pData s) (dataSize s)))
    (set_pMapEntries (arr_ptr (arr (pMapEntries s) (mapEntryCount s))) s).

Lemma reads_SpecializationInfo rest s : SpecializationInfo_ok s ->
  reads_at rest read_SpecializationInfo (write_SpecializationInfo s)
    (recv_SpecializationInfo s).
Proof.
  intros (Hr & He & Hd). unfold read_SpecializationInfo, write_SpecializationInfo. reads_parts.
Qed.

Lemma safe_SpecializationInfo : rd_safe read_SpecializationInfo.
Proof. unfold read_SpecializationInfo. rd_safe_tac. Qed.
End SpecializationInfo.

Section ShaderStage.
Import VkPipelineShaderStageCreateInfo.

Definition tmp_PipelineShaderStageCreateInfo (s : t) : t :=
  set_pNext Null (set_pName Null (set_pSpecializationInfo Null s)).

(** marshal.cpp:177-186. *)
Definition write_PipelineShaderStageCreateInfo (s : t) : list byte :=
  write_raw (tmp_PipelineShaderStageCreateInfo s) ++
  Writer.string (match pName s with Ref n => Some n | _ => None end) ++
  Writer.u32 (if is_null (pSpecializationInfo s) then 0 else 1) ++
  match pSpecializationInfo s with Ref i => write_SpecializationInfo i | _ => [] end.

(** marshal.cpp:188-210. *)
Definition read_PipelineShaderStageCreateInfo : Rd t :=
  out <- read_raw t ;
  name <- r_string ;
  present <- r_u32 ; r_ok ;!
  info <- (if present =? 0 then rret Null
           else si <- read_SpecializationInfo ; rret (Ref si)) ;
  let module_id := module out in
  let module' := patch_handle hr_shader_module module_id in
  rguard ((module_id =? 0) || negb (module' =? 0)) ;!
  rret (set_module module' (set_pSpecializationInfo info (set_pName (Ref name) out))).

Definition name_of (p : ptr (list byte)) : list byte :=
  match p with Ref n => n | _ => [] end.

Definition PipelineShaderStageCreateInfo_ok (s : t) : Prop :=
  raw_ok (tmp_PipelineShaderStageCreateInfo s) /\ cstring_ok (name_of (pName s)) /\
  match pSpecializationInfo s with
  | Null => True | Wild _ => False | Ref i => SpecializationInfo_ok i
  end /\
  (module s = 0 \/ hr_shader_module (module s) <> 0).

Definition recv_PipelineShaderStageCreateInfo (s : t) : t :=
  set_module (patch_handle hr_shader_module (module s))
    (set_pSpecializationInfo
       (match pSpecializationInfo s with Ref i => Ref (recv_SpecializationInfo i) | _ => Null end)
       (set_pName (Ref (Writer.strlen_prefix (name_of (pName s))))
          (tmp_PipelineShaderStageCreateInfo s))).

Lemma reads_name rest p : cstring_ok (name_of p) ->
  reads_at rest r_string (Writer.string (match p with Ref n => Some n | _ => None end))
    (Writer.strlen_prefix (name_of p)).
Proof.
  intros Hn. pose proof (reads_string_opt rest
    (match p with Ref n => Some n | _ => None end)) as Hs. destruct p; by apply Hs.
Qed.

(** The check that a non-null id resolves. *)
Lemma resolved_guard resolve id :
  id = 0 \/ resolve id <> 0 -> (id =? 0) || negb (patch_handle resolve id =? 0) = true.
Proof.
  unfold patch_handle. destruct (Z.eqb_spec id 0); [done|]. intros [|Hr]; [done|].
  cbn. by apply negb_true_iff, Z.eqb_neq.
Qed.

Lemma reads_PipelineShaderStageCreateInfo rest s : PipelineShaderStageCreateInfo_ok s ->
  reads_at rest read_PipelineShaderStageCreateInfo (write_PipelineShaderStageCreateInfo s)
    (recv_PipelineShaderStageCreateInfo s).
Proof.
  intros (Hr & Hn & Hi & Hm).
  unfold read_PipelineShaderStageCreateInfo, write_PipelineShaderStageCreateInfo.
  eapply reads_bind; [by apply reads_raw|]. flatten_copy.
  eapply reads_bind; [by apply reads_name|].
  eapply reads_bind;
    [apply reads_u32; destruct (is_null _); [apply is_u32_0|apply is_u32_1]|].
  eapply reads_bind_nil; [apply reads_ok|].
  eapply reads_bind_last with
    (a := match pSpecializationInfo s with Ref i => Ref (recv_SpecializationInfo i)
          | _ => Null end).
  - destruct (pSpecializationInfo s) as [|a|i]; [apply reads_ret|done|].
    eapply reads_bind_last; [by apply reads_SpecializationInfo|]. apply reads_ret.
  - eapply reads_bind_nil; [apply reads_guard; by apply resolved_guard|]. apply reads_ret.
Qed.

Lemma safe_PipelineShaderStageCreateInfo : rd_safe read_PipelineShaderStageCreateInfo.
Proof.
  unfold read_PipelineShaderStageCreateInfo. pose proof safe_SpecializationInfo. rd_safe_tac.
Qed.
End ShaderStage.

Section SubpassDescription.
Import VkSubpassDescription.

Definition tmp_SubpassDescription (s : t) : t :=
  set_pInputAttachments Null (set_pColorAttachments Null (set_pResolveAttachments Null
    (set_pDepthStencilAttachment Null (set_pPreserveAttachments Null s)))).

(** marshal.cpp:214-227. *)
Definition write_SubpassDescription (s : t) : list byte :=
  write_raw (tmp_SubpassDescription s) ++
  write_pod_array (pInputAttachments s) (inputAttachmentCount s) ++
  write_pod_array (pColorAttachments s) (colorAttachmentCount s) ++
  write_opt_pod_array (pResolveAttachments s) (colorAttachmentCount s) ++
  write_opt_pod (pDepthStencilAttachment s) ++
  write_pod_array (H0 := pod_u32) (pPreserveAttachments s) (preserveAttachmentCount s).

(** marshal.cpp:229-246. *)
Definition read_SubpassDescription : Rd t :=
  out <- read_raw t ;
  input <- read_pod_array VkAttachmentReference.t (inputAttachmentCount out) ;
  color <- read_pod_array VkAttachmentReference.t (colorAttachmentCount out) ;
  resolve <- read_opt_pod_array VkAttachmentReference.t (colorAttachmentCount out) ;
  depth <- read_opt_pod VkAttachmentReference.t ;
  preserve <- read_pod_array Z (H0 := pod_u32) (preserveAttachmentCount out) ;
  rret (set_pPreserveAttachments preserve (set_pDepthStencilAttachment depth
    (set_pResolveAttachments resolve (set_pColorAttachments color
      (set_pInputAttachments input out))))).

Definition SubpassDescription_ok (s : t) : Prop :=
  raw_ok (tmp_SubpassDescription s) /\
  pods_ok (inputAttachmentCount s) (pInputAttachments s) /\
  pods_ok (colorAttachmentCount s) (pColorAttachments s) /\
  opt_pods_ok (colorAttachmentCount s) (pResolveAttachments s) /\
  opt_raw_ok (pDepthStencilAttachment s) /\
  pods_ok (H0 := pod_u32) (preserveAttachmentCount s) (pPreserveAttachments s).

Definition recv_SubpassDescription (s : t) : t :=
  set_pPreserveAttachments (arr_ptr (arr (pPreserveAttachments s) (preserveAttachmentCount s)))
    (set_pDepthStencilAttachment (opt_raw_copy (pDepthStencilAttachment s))
    (set_pResolveAttachments (arr_ptr (arr (pResolveAttachments s) (colorAttachmentCount s)))
    (set_pColorAttachments (arr_ptr (arr (pColorAttachments s) (colorAttachmentCount s)))
    (set_pInputAttachments (arr_ptr (arr (pInputAttachments s) (inputAttachmentCount s))) s)))).

Lemma reads_SubpassDescription rest s : SubpassDescription_ok s ->
  reads_at rest read_SubpassDescription (write_SubpassDescription s)
    (recv_SubpassDescription s).
Proof.
  intros (Hr & Hi & Hc & Hres & Hd & Hp).
  unfold read_SubpassDescription, write_SubpassDescription. reads_parts.
Qed.

Lemma safe_SubpassDescription : rd_safe read_SubpassDescription.
Proof. unfold read_SubpassDescription. rd_safe_tac. Qed.
End SubpassDescription.

End Nested.

#[export] Hint Resolve safe_SpecializationInfo safe_PipelineShaderStageCreateInfo
  safe_SubpassDescription : rdsafe.

(** ** Structs sent raw with their arrays *)
Section WithArrays.
Context `{Abi} {HR : HandleResolver}.

Section DeviceQueueCreateInfo.
Import VkDeviceQueueCreateInfo.

Definition tmp_DeviceQueueCreateInfo (s : t) : t := set_pNext Null (set_pQueuePriorities Null s).

(** marshal.cpp:899-905. *)
Definition write_DeviceQueueCreateInfo (s : t) : list byte :=
  write_raw (tmp_DeviceQueueCreateInfo s) ++
  write_pod_array (H0 := pod_f32) (pQueuePriorities s) (queueCount s).

(** marshal.cpp:907-911. *)
Definition read_DeviceQueueCreateInfo : Rd t :=
  out <- read_raw t ;
  p <- read_pod_array Z (H0 := pod_f32) (queueCount out) ;
  rret (set_pQueuePriorities p out).

Definition DeviceQueueCreateInfo_ok (s : t) : Prop :=
  raw_ok (tmp_DeviceQueueCreateInfo s) /\
  pods_ok (H0 := pod_f32) (queueCount s) (pQueuePriorities s).

Definition recv_DeviceQueueCreateInfo (s : t) : t :=
  set_pQueuePriorities (arr_ptr (arr (pQueuePriorities s) (queueCount s)))
    (tmp_DeviceQueueCreateInfo s).

Lemma reads_DeviceQueueCreateInfo rest s : DeviceQueueCreateInfo_ok s ->
  reads_at rest read_DeviceQueueCreateInfo (write_DeviceQueueCreateInfo s)
    (recv_DeviceQueueCreateInfo s).
Proof.
  intros (? & ?). unfold read_DeviceQueueCreateInfo, write_DeviceQueueCreateInfo. reads_parts.
Qed.

Lemma safe_DeviceQueueCreateInfo : rd_safe read_DeviceQueueCreateInfo.
Proof. unfold read_DeviceQueueCreateInfo. rd_safe_tac. Qed.
End DeviceQueueCreateInfo.

Section SwapchainCreateInfoKHR.
Import VkSwapchainCreateInfoKHR.

Definition tmp_SwapchainCreateInfoKHR (s : t) : t :=
  set_pNext Null (set_pQueueFamilyIndices Null s).

(** marshal.cpp:955-961. *)
Definition write_SwapchainCreateInfoKHR (s : t) : list byte :=
  write_raw (tmp_SwapchainCreateInfoKHR s) ++
  write_pod_array (H0 := pod_u32) (pQueueFamilyIndices s) (queueFamilyIndexCount s).

(** marshal.cpp:963-972. *)
Definition read_SwapchainCreateInfoKHR : Rd t :=
  out <- read_raw t ;
  p <- read_pod_array Z (H0 := pod_u32) (queueFamilyIndexCount out) ;
  rret (set_oldSwapchain (patch_handle hr_swapchain (oldSwapchain out))
    (set_surface (patch_handle hr_surface (surface out)) (set_pQueueFamilyIndices p out))).

Definition SwapchainCreateInfoKHR_ok (s : t) : Prop :=
  raw_ok (tmp_SwapchainCreateInfoKHR s) /\
  pods_ok (H0 := pod_u32) (queueFamilyIndexCount s) (pQueueFamilyIndices s).

Definition recv_SwapchainCreateInfoKHR (s : t) : t :=
  set_oldSwapchain (patch_handle hr_swapchain (oldSwapchain s))
    (set_surface (patch_handle hr_surface (surface s))
      (set_pQueueFamilyIndices (arr_ptr (arr (pQueueFamilyIndices s) (queueFamilyIndexCount s)))
        (tmp_SwapchainCreateInfoKHR s))).

Lemma reads_SwapchainCreateInfoKHR rest s : SwapchainCreateInfoKHR_ok s ->
  reads_at rest read_SwapchainCreateInfoKHR (write_SwapchainCreateInfoKHR s)
    (recv_SwapchainCreateInfoKHR s).
Proof.
  intros (? & ?). unfold read_SwapchainCreateInfoKHR, write_SwapchainCreateInfoKHR. reads_parts.
Qed.

Lemma safe_SwapchainCreateInfoKHR : rd_safe read_SwapchainCreateInfoKHR.
Proof. unfold read_SwapchainCreateInfoKHR. rd_safe_tac. Qed.
End SwapchainCreateInfoKHR.

Section PipelineLayoutCreateInfo.
Import VkPipelineLayoutCreateInfo.

Definition tmp_PipelineLayoutCreateInfo (s : t) : t :=
  set_pNext Null (set_pSetLayouts Null (set_pPushConstantRanges Null s)).

(** marshal.cpp:1147-1155. *)
Definition write_PipelineLayoutCreateInfo (s : t) : list byte :=
  write_raw (tmp_PipelineLayoutCreateInfo s) ++
  write_handle_array (pSetLayouts s) (setLayoutCount s) ++
  write_pod_array (pPushConstantRanges s) (pushConstantRangeCount s).

(** marshal.cpp:1157-1167. *)
Definition read_PipelineLayoutCreateInfo : Rd t :=
  out <- read_raw t ;
  layouts <- read_handle_array (setLayoutCount out) hr_descriptor_set_layout ;
  ranges <- read_pod_array VkPushConstantRange.t (pushConstantRangeCount out) ;
  rret (set_pPushConstantRanges ranges (set_pSetLayouts layouts out)).

Definition PipelineLayoutCreateInfo_ok (s : t) : Prop :=
  raw_ok (tmp_PipelineLayoutCreateInfo s) /\
  handles_ok (setLayoutCount s) (pSetLayouts s) /\
  pods_ok (pushConstantRangeCount s) (pPushConstantRanges s).

Definition recv_PipelineLayoutCreateInfo (s : t) : t :=
  set_pPushConstantRanges (arr_ptr (arr (pPushConstantRanges s) (pushConstantRangeCount s)))
    (set_pSetLayouts (handles_recv hr_descriptor_set_layout (setLayoutCount s) (pSetLayouts s))
      (tmp_PipelineLayoutCreateInfo s)).

Lemma reads_PipelineLayoutCreateInfo rest s : PipelineLayoutCreateInfo_ok s ->
  reads_at rest read_PipelineLayoutCreateInfo (write_PipelineLayoutCreateInfo s)
    (recv_PipelineLayoutCreateInfo s).
Proof.
  intros (? & ? & ?). unfold read_PipelineLayoutCreateInfo, write_PipelineLayoutCreateInfo.
  reads_parts.
Qed.

Lemma safe_PipelineLayoutCreateInfo : rd_safe read_PipelineLayoutCreateInfo.
Proof. unfold read_PipelineLayoutCreateInfo. rd_safe_tac. Qed.
End PipelineLayoutCreateInfo.

Section ComputePipelineCreateInfo.
Import VkComputePipelineCreateInfo.
Import VkPipelineShaderStageCreateInfo(module).

Definition tmp_ComputePipelineCreateInfo (s : t) : t := set_pNext Null s.

(** marshal.cpp:1415-1420. *)
Definition write_ComputePipelineCreateInfo (s : t) : list byte :=
  write_raw (tmp_ComputePipelineCreateInfo s) ++ write_PipelineShaderStageCreateInfo (stage s).

(** marshal.cpp:1422-1436. *)
Definition read_ComputePipelineCreateInfo : Rd t :=
  out <- read_raw t ;
  let module_id := module (stage out) in
  let layout_id := layout out in
  let base_pipeline_id := basePipelineHandle out in
  stage' <- read_PipelineShaderStageCreateInfo ;
  let stage' := VkPipelineShaderStageCreateInfo.set_pNext Null stage' in
  let layout' := patch_handle hr_pipeline_layout layout_id in
  let base' := patch_handle hr_pipeline base_pipeline_id in
  rguard (((module_id =? 0) || negb (module stage' =? 0)) &&
          ((layout_id =? 0) || negb (layout' =? 0)) &&
          ((base_pipeline_id =? 0) || negb (base' =? 0))) ;!
  rret (set_basePipelineHandle base' (set_layout layout' (set_stage stage' (set_pNext Null out)))).

Definition ComputePipelineCreateInfo_ok (s : t) : Prop :=
  raw_ok (tmp_ComputePipelineCreateInfo s) /\ PipelineShaderStageCreateInfo_ok (stage s) /\
  (layout s = 0 \/ hr_pipeline_layout (layout s) <> 0) /\
  (basePipelineHandle s = 0 \/ hr_pipeline (basePipelineHandle s) <> 0).

Definition recv_ComputePipelineCreateInfo (s : t) : t :=
  set_basePipelineHandle (patch_handle hr_pipeline (basePipelineHandle s))
    (set_layout (patch_handle hr_pipeline_layout (layout s))
      (set_stage (recv_PipelineShaderStageCreateInfo (stage s)) (set_pNext Null s))).

(** The compute pipeline's base struct is copied with the pointers of its
    embedded stage; the decoder replaces the whole stage. *)
Lemma raw_copy_compute s :
  let out := raw_copy (tmp_ComputePipelineCreateInfo s) in
  module (stage out) = module (stage s) /\ layout out = layout s /\
  basePipelineHandle out = basePipelineHandle s /\
  (forall b l st, set_basePipelineHandle b (set_layout l (set_stage st (set_pNext Null out))) =
                  set_basePipelineHandle b (set_layout l (set_stage st (set_pNext Null s)))).
Proof. destruct s as [? ? ? [] ? ? ?]. by split_and!. Qed.

Lemma reads_ComputePipelineCreateInfo rest s : ComputePipelineCreateInfo_ok s ->
  reads_at rest read_ComputePipelineCreateInfo (write_ComputePipelineCreateInfo s)
    (recv_ComputePipelineCreateInfo s).
Proof.
  intros (Hr & Hs & Hl & Hb).
  unfold read_ComputePipelineCreateInfo, write_ComputePipelineCreateInfo.
  eapply reads_bind; [by apply reads_raw|]. cbv beta zeta.
  destruct (raw_copy_compute s) as (-> & -> & -> & Hset).
  eapply reads_bind_last; [by apply reads_PipelineShaderStageCreateInfo|]. cbv beta zeta.
  eapply reads_bind_nil; [apply reads_guard|].
  - destruct Hs as (_ & _ & _ & Hm). rewrite !andb_true_iff. split_and!;
      [by apply resolved_guard|by apply resolved_guard|by apply resolved_guard].
  - rewrite Hset. apply reads_ret.
Qed.

Lemma safe_ComputePipelineCreateInfo : rd_safe read_ComputePipelineCreateInfo.
Proof. unfold read_ComputePipelineCreateInfo. rd_safe_tac. Qed.
End ComputePipelineCreateInfo.

End WithArrays.

#[export] Hint Resolve safe_DeviceQueueCreateInfo safe_SwapchainCreateInfoKHR
  safe_PipelineLayoutCreateInfo safe_ComputePipelineCreateInfo : rdsafe.

(** ** Descriptors *)
Section Descriptors.
Context `{Abi} {HR : HandleResolver}.

Section CommandBufferAllocateInfo.
Import VkCommandBufferAllocateInfo.

(** marshal.cpp:1520-1524. *)
Definition write_CommandBufferAllocateInfo (s : t) : list byte := write_raw (set_pNext Null s).

(** marshal.cpp:1526-1535. *)
Definition read_CommandBufferAllocateInfo : Rd t :=
  out <- read_raw t ;
  rguard (negb (kMaxArrayElements <? commandBufferCount out)) ;!
  rret (set_commandPool (patch_handle hr_command_pool (commandPool out)) out).

Definition recv_CommandBufferAllocateInfo (s : t) : t :=
  set_commandPool (patch_handle hr_command_pool (commandPool s)) (set_pNext Null s).

Lemma reads_CommandBufferAllocateInfo rest s :
  raw_ok (set_pNext Null s) -> commandBufferCount s <= kMaxArrayElements ->
  reads_at rest read_CommandBufferAllocateInfo (write_CommandBufferAllocateInfo s)
    (recv_CommandBufferAllocateInfo s).
Proof.
  intros Hr Hc. unfold read_CommandBufferAllocateInfo, write_CommandBufferAllocateInfo.
  eapply reads_bind_last; [by apply reads_raw|]. flatten_copy.
  eapply reads_bind_nil; [apply reads_guard, negb_true_iff, Z.ltb_ge, Hc|]. apply reads_ret.
Qed.
Lemma safe_CommandBufferAllocateInfo : rd_safe read_CommandBufferAllocateInfo.
Proof. unfold read_CommandBufferAllocateInfo. rd_safe_tac. Qed.
End CommandBufferAllocateInfo.

Section LayoutBinding.
Import VkDescriptorSetLayoutBinding.

(** One binding; marshal.cpp:1654-1661. *)
Definition write_layout_binding (b : t) : list byte :=
  write_raw (set_pImmutableSamplers Null b) ++
  Writer.u32 (if is_null (pImmutableSamplers b) then 0 else 1) ++
  (if is_null (pImmutableSamplers b) then []
   else write_handle_array (pImmutableSamplers b) (descriptorCount b)).

(** One binding; marshal.cpp:1671-1684. *)
Definition read_layout_binding : Rd t :=
  b <- read_raw t ; present <- r_u32 ; r_ok ;!
  p <- (if present =? 0 then rret Null else read_handle_array (descriptorCount b) hr_sampler) ;
  rret (set_pImmutableSamplers p b).

Definition layout_binding_ok (b : t) : Prop :=
  raw_ok (set_pImmutableSamplers Null b) /\
  match pImmutableSamplers b with
  | Null => True | Wild _ => False
  | Ref _ => handles_ok (descriptorCount b) (pImmutableSamplers b)
  end.

Definition recv_layout_binding (b : t) : t :=
  set_pImmutableSamplers
    (handles_recv hr_sampler (descriptorCount b) (pImmutableSamplers b)) b.

Lemma reads_layout_binding rest b : layout_binding_ok b ->
  reads_at rest read_layout_binding (write_layout_binding b) (recv_layout_binding b).
Proof.
  intros [Hr Hp]. unfold read_layout_binding, write_layout_binding, recv_layout_binding.
  eapply reads_bind; [by apply reads_raw|]. flatten_copy.
  destruct (pImmutableSamplers b) as [|a|xs] eqn:He; [|done|]; cbn [is_null].
  - eapply reads_bind; [apply reads_u32, is_u32_0|]. eapply reads_bind_nil; [apply reads_ok|].
    cbn [Z.eqb]. eapply reads_bind_last; [apply reads_ret|]. apply reads_ret.
  - eapply reads_bind; [apply reads_u32, is_u32_1|]. eapply reads_bind_nil; [apply reads_ok|].
    cbn [Z.eqb]. eapply reads_bind_last; [by apply reads_handles|]. apply reads_ret.
Qed.

Lemma safe_layout_binding : rd_safe read_layout_binding.
Proof. unfold read_layout_binding. rd_safe_tac. Qed.

Lemma layout_binding_length b : raw_ok (set_pImmutableSamplers Null b) ->
  (32 <= length (write_layout_binding b))%nat.
Proof.
  intros [Hb _]. unfold write_layout_binding, write_raw. pose proof (length_pod_bytes _ Hb) as Hl.
  change (pod_size t) with 24%nat in Hl. rewrite !length_app, length_writer_bytes, Hl.
  rewrite length_writer_u32. lia.
Qed.
End LayoutBinding.

Section DescriptorSetLayoutCreateInfo.
Import VkDescriptorSetLayoutCreateInfo.

Definition tmp_DescriptorSetLayoutCreateInfo (s : t) : t := set_pNext Null (set_pBindings Null s).

(** marshal.cpp:1648-1663; the function returns without writing when the layout asks
    for an extension structure or update-after-bind. *)
Definition write_DescriptorSetLayoutCreateInfo (s : t) : list byte :=
  if negb (is_null (pNext s)) ||
     negb (Z.land (flags s) VK_DESCRIPTOR_SET_LAYOUT_CREATE_UPDATE_AFTER_BIND_POOL_BIT =? 0)
  then []
  else write_raw (tmp_DescriptorSetLayoutCreateInfo s) ++
       concat (map write_layout_binding (arr (pBindings s) (bindingCount s))).

(** marshal.cpp:1665-1687. *)
Definition read_DescriptorSetLayoutCreateInfo : Rd t :=
  out <- read_raw t ;
  left <- r_remaining ;
  rguard (negb ((kMaxArrayElements <? bindingCount out) || (left / 4 <? bindingCount out))) ;!
  bindings <- rfor (Z.to_nat (bindingCount out)) read_layout_binding ;
  rret (set_pBindings (arr_ptr bindings) out).

Definition DescriptorSetLayoutCreateInfo_ok (s : t) : Prop :=
  is_null (pNext s) = true /\
  Z.land (flags s) VK_DESCRIPTOR_SET_LAYOUT_CREATE_UPDATE_AFTER_BIND_POOL_BIT = 0 /\
  raw_ok (tmp_DescriptorSetLayoutCreateInfo s) /\ 0 <= bindingCount s <= kMaxArrayElements /\
  Z.of_nat (length (arr (pBindings s) (bindingCount s))) = bindingCount s /\
  Forall layout_binding_ok (arr (pBindings s) (bindingCount s)).

Definition recv_DescriptorSetLayoutCreateInfo (s : t) : t :=
  set_pBindings (arr_ptr (map recv_layout_binding (arr (pBindings s) (bindingCount s))))
    (tmp_DescriptorSetLayoutCreateInfo s).

Lemma layout_bindings_length bs : Forall layout_binding_ok bs ->
  (32 * length bs <= length (concat (map write_layout_binding bs)))%nat.
Proof.
  induction 1 as [|b bs [Hb _] _ IH]; [done|]. cbn [map concat length]. rewrite length_app.
  pose proof (layout_binding_length b Hb). lia.
Qed.

Lemma reads_DescriptorSetLayoutCreateInfo rest s : DescriptorSetLayoutCreateInfo_ok s ->
  reads_at rest read_DescriptorSetLayoutCreateInfo (write_DescriptorSetLayoutCreateInfo s)
    (recv_DescriptorSetLayoutCreateInfo s).
Proof.
  intros (Hp & Hf & Hr & Hn & Hl & Hb).
  unfold read_DescriptorSetLayoutCreateInfo, write_DescriptorSetLayoutCreateInfo.
  rewrite Hp, Hf. cbn [negb orb Z.eqb].
  eapply reads_bind; [by apply reads_raw|]. flatten_copy.
  eapply reads_bind_nil; [apply reads_remaining|]. cbv beta.
  pose proof (layout_bindings_length _ Hb) as Hlen.
  eapply reads_bind_nil.
  { apply reads_guard, negb_true_iff, orb_false_iff.
    change (bindingCount (tmp_DescriptorSetLayoutCreateInfo s)) with (bindingCount s).
    split; apply Z.ltb_ge; [lia|]. apply Z.div_le_lower_bound; [lia|]. rewrite length_app. lia. }
  change (bindingCount (tmp_DescriptorSetLayoutCreateInfo s)) with (bindingCount s).
  replace (Z.to_nat (bindingCount s)) with (length (arr (pBindings s) (bindingCount s))) by lia.
  eapply reads_bind_last; [|apply reads_ret].
  apply (reads_for _ _ (fun b bs => layout_binding_ok b /\ bs = write_layout_binding b)).
  - clear -Hb. induction Hb; cbn; constructor; auto.
  - intros b bs rest' [Hk ->]. by apply reads_layout_binding.
Qed.

Lemma safe_DescriptorSetLayoutCreateInfo : rd_safe read_DescriptorSetLayoutCreateInfo.
Proof.
  unfold read_DescriptorSetLayoutCreateInfo. pose proof safe_layout_binding. rd_safe_tac.
Qed.
End DescriptorSetLayoutCreateInfo.

Section DescriptorPoolCreateInfo.
Import VkDescriptorPoolCreateInfo.

Definition tmp_DescriptorPoolCreateInfo (s : t) : t := set_pNext Null (set_pPoolSizes Null s).

(** marshal.cpp:1737-1744. *)
Definition write_DescriptorPoolCreateInfo (s : t) : list byte :=
  if negb (is_null (pNext s)) ||
     negb (Z.land (flags s) VK_DESCRIPTOR_POOL_CREATE_UPDATE_AFTER_BIND_BIT =? 0)
  then []
  else write_raw (tmp_DescriptorPoolCreateInfo s) ++
       write_pod_array (pPoolSizes s) (poolSizeCount s).

(** marshal.cpp:1746-1751. *)
Definition read_DescriptorPoolCreateInfo : Rd t :=
  out <- read_raw t ;
  p <- read_pod_array VkDescriptorPoolSize.t (poolSizeCount out) ;
  rret (set_pPoolSizes p out).

Definition DescriptorPoolCreateInfo_ok (s : t) : Prop :=
  is_null (pNext s) = true /\
  Z.land (flags s) VK_DESCRIPTOR_POOL_CREATE_UPDATE_AFTER_BIND_BIT = 0 /\
  raw_ok (tmp_DescriptorPoolCreateInfo s) /\ pods_ok (poolSizeCount s) (pPoolSizes s).

Definition recv_DescriptorPoolCreateInfo (s : t) : t :=
  set_pPoolSizes (arr_ptr (arr (pPoolSizes s) (poolSizeCount s)))
    (tmp_DescriptorPoolCreateInfo s).

Lemma reads_DescriptorPoolCreateInfo rest s : DescriptorPoolCreateInfo_ok s ->
  reads_at rest read_DescriptorPoolCreateInfo (write_DescriptorPoolCreateInfo s)
    (recv_DescriptorPoolCreateInfo s).
Proof.
  intros (Hp & Hf & ? & ?).
  unfold read_DescriptorPoolCreateInfo, write_DescriptorPoolCreateInfo.
  rewrite Hp, Hf. cbn [negb orb Z.eqb]. reads_parts.
Qed.

Lemma safe_DescriptorPoolCreateInfo : rd_safe read_DescriptorPoolCreateInfo.
Proof. unfold read_DescriptorPoolCreateInfo. rd_safe_tac. Qed.
End DescriptorPoolCreateInfo.

Section DescriptorSetAllocateInfo.
Import VkDescriptorSetAllocateInfo.

Definition tmp_DescriptorSetAllocateInfo (s : t) : t := set_pNext Null (set_pSetLayouts Null s).

(** marshal.cpp:1753-1760. *)
Definition write_DescriptorSetAllocateInfo (s : t) : list byte :=
  if negb (is_null (pNext s)) then []
  else write_raw (tmp_DescriptorSetAllocateInfo s) ++
       write_handle_array (pSetLayouts s) (descriptorSetCount s).

(** marshal.cpp:1762-1776. *)
Definition read_DescriptorSetAllocateInfo : Rd t :=
  out <- read_raw t ;
  rguard (negb (kMaxArrayElements <? descriptorSetCount out)) ;!
  let pool_id := descriptorPool out in
  layouts <- read_handle_array (descriptorSetCount out) hr_descriptor_set_layout ;
  rguard (forallb (fun l => negb (l =? 0)) (arr layouts (descriptorSetCount out))) ;!
  let pool := patch_handle hr_descriptor_pool pool_id in
  rguard (negb (pool_id =? 0) && negb (pool =? 0)) ;!
  rret (set_descriptorPool pool (set_pSetLayouts layouts out)).

Lemma safe_DescriptorSetAllocateInfo : rd_safe read_DescriptorSetAllocateInfo.
Proof. unfold read_DescriptorSetAllocateInfo. rd_safe_tac. Qed.
End DescriptorSetAllocateInfo.

End Descriptors.

#[export] Hint Resolve safe_CommandBufferAllocateInfo safe_layout_binding
 safe_DescriptorSetLayoutCreateInfo
  safe_DescriptorPoolCreateInfo safe_DescriptorSetAllocateInfo : rdsafe.
