(* ===== verification/MarshalChained.v ===== *)
(** The structs of [src/common/marshal.cpp] sent raw with their pNext chain and
    arrays after them.  Same naming as Marshal.v.  [write_X] is a [W] where the
    C++ returns a boolean; where it returns [void] and gives up silently, it is
    the bytes appended. *)

From stdpp Require Import list.
From S2P Require Import Prelude Wire Codec CLayout VkStructs PNext PNextFacts MarshalBase Marshal.
From S2P Require Import VkCreateInfos.
Import ReaderFacts.
Open Scope wire_scope.

Section Chained.
Context `{Abi} {HR : HandleResolver}.

Section ImageViewCreateInfo.
Import VkImageViewCreateInfo.

Definition tmp_ImageViewCreateInfo (s : t) : t := set_pNext Null s.

(** marshal.cpp:974-977. *)
Definition write_ImageViewCreateInfo (s : t) : W :=
  transact
    (emit (write_raw (tmp_ImageViewCreateInfo s)) ;;;
     write_pnext_chain ImageViewCreate (pNext s) 0).

(** marshal.cpp:979-984. *)
Definition read_ImageViewCreateInfo : Rd t :=
  out <- read_raw t ;
  next <- read_pnext_chain ImageViewCreate 0 ;
  rret (set_image (patch_handle hr_image (image out))
    (set_pNext next out)).

Definition ImageViewCreateInfo_ok (s : t) : Prop :=
  raw_ok (tmp_ImageViewCreateInfo s) /\
  chain_ok ImageViewCreate (pNext s).

Definition recv_ImageViewCreateInfo (s : t) : t :=
  set_image (patch_handle hr_image (image s))
    (set_pNext (chain_recv ImageViewCreate (pNext s)) (tmp_ImageViewCreateInfo s)).

Lemma reads_ImageViewCreateInfo rest s bs : write_ImageViewCreateInfo s = (true, bs) -> ImageViewCreateInfo_ok s ->
  reads_at rest read_ImageViewCreateInfo bs (recv_ImageViewCreateInfo s).
Proof.
  intros Hw (Hr & Hc). apply chained_last_true in Hw as (b & Hb & ->).
  unfold read_ImageViewCreateInfo. reads_parts.
Qed.

Lemma safe_ImageViewCreateInfo : rd_safe read_ImageViewCreateInfo.
Proof. unfold read_ImageViewCreateInfo. rd_safe_tac. Qed.
End ImageViewCreateInfo.

Section RenderPassBeginInfo.
Import VkRenderPassBeginInfo.

Definition tmp_RenderPassBeginInfo (s : t) : t := set_pNext Null (set_pClearValues Null s).

(** marshal.cpp:1586-1596. *)
Definition write_RenderPassBeginInfo (s : t) : W :=
  transact
    (emit (write_raw (tmp_RenderPassBeginInfo s)) ;;;
     write_pnext_chain RenderPassBegin (pNext s) 0 ;;;
     emit (write_pod_array (pClearValues s) (clearValueCount s))).

(** marshal.cpp:1598-1608. *)
Definition read_RenderPassBeginInfo : Rd t :=
  out <- read_raw t ;
  next <- read_pnext_chain RenderPassBegin 0 ;
  p <- read_pod_array VkClearValue.t (clearValueCount out) ;
  rret (set_framebuffer (patch_handle hr_framebuffer (framebuffer out))
    (set_renderPass (patch_handle hr_render_pass (renderPass out))
    (set_pClearValues p (set_pNext next out)))).

Definition RenderPassBeginInfo_ok (s : t) : Prop :=
  raw_ok (tmp_RenderPassBeginInfo s) /\
  chain_ok RenderPassBegin (pNext s) /\
  pods_ok (clearValueCount s) (pClearValues s).

Definition recv_RenderPassBeginInfo (s : t) : t :=
  set_framebuffer (patch_handle hr_framebuffer (framebuffer s))
    (set_renderPass (patch_handle hr_render_pass (renderPass s))
    (set_pClearValues (arr_ptr (arr (pClearValues s) (clearValueCount s)))
    (set_pNext (chain_recv RenderPassBegin (pNext s)) (tmp_RenderPassBeginInfo s)))).

Lemma reads_RenderPassBeginInfo rest s bs : write_RenderPassBeginInfo s = (true, bs) -> RenderPassBeginInfo_ok s ->
  reads_at rest read_RenderPassBeginInfo bs (recv_RenderPassBeginInfo s).
Proof.
  intros Hw (Hr & Hc & Ha). apply chained_true in Hw as (b & Hb & ->).
  unfold read_RenderPassBeginInfo. reads_parts.
Qed.

Lemma safe_RenderPassBeginInfo : rd_safe read_RenderPassBeginInfo.
Proof. unfold read_RenderPassBeginInfo. rd_safe_tac. Qed.
End RenderPassBeginInfo.

Section BufferCreateInfo.
Import VkBufferCreateInfo.

Definition tmp_BufferCreateInfo (s : t) : t := set_pNext Null (set_pQueueFamilyIndices Null s).

(** marshal.cpp:2071-2078. *)
Definition write_BufferCreateInfo (s : t) : list byte :=
  snd (transact
    (emit (write_raw (tmp_BufferCreateInfo s)) ;;;
     write_pnext_chain BufferCreate (pNext s) 0 ;;;
     emit (write_pod_array (H0 := pod_u32) (pQueueFamilyIndices s) (queueFamilyIndexCount s)))).

(** marshal.cpp:2080-2086. *)
Definition read_BufferCreateInfo : Rd t :=
  out <- read_raw t ;
  next <- read_pnext_chain BufferCreate 0 ;
  p <- read_pod_array Z (H0 := pod_u32) (queueFamilyIndexCount out) ;
  rret (set_pQueueFamilyIndices p (set_pNext next out)).

Definition BufferCreateInfo_ok (s : t) : Prop :=
  raw_ok (tmp_BufferCreateInfo s) /\
  chain_ok BufferCreate (pNext s) /\
  fst (write_pnext_chain BufferCreate (pNext s) 0) = true /\
  pods_ok (H0 := pod_u32) (queueFamilyIndexCount s) (pQueueFamilyIndices s).

Definition recv_BufferCreateInfo (s : t) : t :=
  set_pQueueFamilyIndices (arr_ptr (arr (pQueueFamilyIndices s) (queueFamilyIndexCount s)))
    (set_pNext (chain_recv BufferCreate (pNext s)) (tmp_BufferCreateInfo s)).

Lemma reads_BufferCreateInfo rest s : BufferCreateInfo_ok s ->
  reads_at rest read_BufferCreateInfo (write_BufferCreateInfo s) (recv_BufferCreateInfo s).
Proof.
  intros (Hr & Hc & Hw & Ha). unfold read_BufferCreateInfo, write_BufferCreateInfo.
  destruct (write_pnext_chain _ _ _) as [[] b] eqn:Hb; [|discriminate Hw]. cbn [wseq emit transact snd].
  reads_parts.
Qed.

Lemma safe_BufferCreateInfo : rd_safe read_BufferCreateInfo.
Proof. unfold read_BufferCreateInfo. rd_safe_tac. Qed.
End BufferCreateInfo.

Section ImageCreateInfo.
Import VkImageCreateInfo.

Definition tmp_ImageCreateInfo (s : t) : t := set_pNext Null (set_pQueueFamilyIndices Null s).

(** marshal.cpp:2088-2092. *)
Definition write_ImageCreateInfo (s : t) : W :=
  transact
    (emit (write_raw (tmp_ImageCreateInfo s)) ;;;
     write_pnext_chain ImageCreate (pNext s) 0 ;;;
     emit (write_pod_array (H0 := pod_u32) (pQueueFamilyIndices s) (queueFamilyIndexCount s))).

(** marshal.cpp:2094-2098. *)
Definition read_ImageCreateInfo : Rd t :=
  out <- read_raw t ;
  next <- read_pnext_chain ImageCreate 0 ;
  p <- read_pod_array Z (H0 := pod_u32) (queueFamilyIndexCount out) ;
  rret (set_pQueueFamilyIndices p (set_pNext next out)).

Definition ImageCreateInfo_ok (s : t) : Prop :=
  raw_ok (tmp_ImageCreateInfo s) /\
  chain_ok ImageCreate (pNext s) /\
  pods_ok (H0 := pod_u32) (queueFamilyIndexCount s) (pQueueFamilyIndices s).

Definition recv_ImageCreateInfo (s : t) : t :=
  set_pQueueFamilyIndices (arr_ptr (arr (pQueueFamilyIndices s) (queueFamilyIndexCount s)))
    (set_pNext (chain_recv ImageCreate (pNext s)) (tmp_ImageCreateInfo s)).

Lemma reads_ImageCreateInfo rest s bs : write_ImageCreateInfo s = (true, bs) -> ImageCreateInfo_ok s ->
  reads_at rest read_ImageCreateInfo bs (recv_ImageCreateInfo s).
Proof.
  intros Hw (Hr & Hc & Ha). apply chained_true in Hw as (b & Hb & ->).
  unfold read_ImageCreateInfo. reads_parts.
Qed.

Lemma safe_ImageCreateInfo : rd_safe read_ImageCreateInfo.
Proof. unfold read_ImageCreateInfo. rd_safe_tac. Qed.
End ImageCreateInfo.

Section MemoryAllocateInfo.
Import VkMemoryAllocateInfo.

Definition tmp_MemoryAllocateInfo (s : t) : t := set_pNext Null s.

(** marshal.cpp:2100-2105. *)
Definition write_MemoryAllocateInfo (s : t) : list byte :=
  snd (transact
    (emit (write_raw (tmp_MemoryAllocateInfo s)) ;;;
     write_pnext_chain MemoryAllocate (pNext s) 0)).

(** marshal.cpp:2107-2111. *)
Definition read_MemoryAllocateInfo : Rd t :=
  out <- read_raw t ;
  next <- read_pnext_chain MemoryAllocate 0 ;
  rret (set_pNext next out).

Definition MemoryAllocateInfo_ok (s : t) : Prop :=
  raw_ok (tmp_MemoryAllocateInfo s) /\
  chain_ok MemoryAllocate (pNext s) /\
  fst (write_pnext_chain MemoryAllocate (pNext s) 0) = true.

Definition recv_MemoryAllocateInfo (s : t) : t :=
  set_pNext (chain_recv MemoryAllocate (pNext s)) (tmp_MemoryAllocateInfo s).

Lemma reads_MemoryAllocateInfo rest s : MemoryAllocateInfo_ok s ->
  reads_at rest read_MemoryAllocateInfo (write_MemoryAllocateInfo s) (recv_MemoryAllocateInfo s).
Proof.
  intros (Hr & Hc & Hw). unfold read_MemoryAllocateInfo, write_MemoryAllocateInfo.
  destruct (write_pnext_chain _ _ _) as [[] b] eqn:Hb; [|discriminate Hw]. cbn [wseq emit transact snd].
  reads_parts.
Qed.

Lemma safe_MemoryAllocateInfo : rd_safe read_MemoryAllocateInfo.
Proof. unfold read_MemoryAllocateInfo. rd_safe_tac. Qed.
End MemoryAllocateInfo.

Section SamplerCreateInfo.
Import VkSamplerCreateInfo.

Definition tmp_SamplerCreateInfo (s : t) : t := set_pNext Null s.

(** marshal.cpp:2113-2118. *)
Definition write_SamplerCreateInfo (s : t) : list byte :=
  snd (transact
    (emit (write_raw (tmp_SamplerCreateInfo s)) ;;;
     write_pnext_chain SamplerCreate (pNext s) 0)).

(** marshal.cpp:2120-2124. *)
Definition read_SamplerCreateInfo : Rd t :=
  out <- read_raw t ;
  next <- read_pnext_chain SamplerCreate 0 ;
  rret (set_pNext next out).

Definition SamplerCreateInfo_ok (s : t) : Prop :=
  raw_ok (tmp_SamplerCreateInfo s) /\
  chain_ok SamplerCreate (pNext s) /\
  fst (write_pnext_chain SamplerCreate (pNext s) 0) = true.

Definition recv_SamplerCreateInfo (s : t) : t :=
  set_pNext (chain_recv SamplerCreate (pNext s)) (tmp_SamplerCreateInfo s).

Lemma reads_SamplerCreateInfo rest s : SamplerCreateInfo_ok s ->
  reads_at rest read_SamplerCreateInfo (write_SamplerCreateInfo s) (recv_SamplerCreateInfo s).
Proof.
  intros (Hr & Hc & Hw). unfold read_SamplerCreateInfo, write_SamplerCreateInfo.
  destruct (write_pnext_chain _ _ _) as [[] b] eqn:Hb; [|discriminate Hw]. cbn [wseq emit transact snd].
  reads_parts.
Qed.

Lemma safe_SamplerCreateInfo : rd_safe read_SamplerCreateInfo.
Proof. unfold read_SamplerCreateInfo. rd_safe_tac. Qed.
End SamplerCreateInfo.

Section SemaphoreCreateInfo.
Import VkSemaphoreCreateInfo.

Definition tmp_SemaphoreCreateInfo (s : t) : t := set_pNext Null s.

(** marshal.cpp:2136-2141. *)
Definition write_SemaphoreCreateInfo (s : t) : list byte :=
  snd (transact
    (emit (write_raw (tmp_SemaphoreCreateInfo s)) ;;;
     write_pnext_chain SemaphoreCreate (pNext s) 0)).

(** marshal.cpp:2143-2147. *)
Definition read_SemaphoreCreateInfo : Rd t :=
  out <- read_raw t ;
  next <- read_pnext_chain SemaphoreCreate 0 ;
  rret (set_pNext next out).

Definition SemaphoreCreateInfo_ok (s : t) : Prop :=
  raw_ok (tmp_SemaphoreCreateInfo s) /\
  chain_ok SemaphoreCreate (pNext s) /\
  fst (write_pnext_chain SemaphoreCreate (pNext s) 0) = true.

Definition recv_SemaphoreCreateInfo (s : t) : t :=
  set_pNext (chain_recv SemaphoreCreate (pNext s)) (tmp_SemaphoreCreateInfo s).

Lemma reads_SemaphoreCreateInfo rest s : SemaphoreCreateInfo_ok s ->
  reads_at rest read_SemaphoreCreateInfo (write_SemaphoreCreateInfo s) (recv_SemaphoreCreateInfo s).
Proof.
  intros (Hr & Hc & Hw). unfold read_SemaphoreCreateInfo, write_SemaphoreCreateInfo.
  destruct (write_pnext_chain _ _ _) as [[] b] eqn:Hb; [|discriminate Hw]. cbn [wseq emit transact snd].
  reads_parts.
Qed.

Lemma safe_SemaphoreCreateInfo : rd_safe read_SemaphoreCreateInfo.
Proof. unfold read_SemaphoreCreateInfo. rd_safe_tac. Qed.
End SemaphoreCreateInfo.

Section DeviceCreateInfo.
Import VkDeviceCreateInfo.

Definition tmp_DeviceCreateInfo (s : t) : t :=
  set_pNext Null (set_pQueueCreateInfos Null (set_ppEnabledLayerNames Null
    (set_ppEnabledExtensionNames Null (set_pEnabledFeatures Null s)))).

(** marshal.cpp:913-932. *)
Definition write_DeviceCreateInfo (s : t) : W :=
  transact
    (emit (write_raw (tmp_DeviceCreateInfo s)) ;;;
     write_pnext_chain DeviceCreate (pNext s) 0 ;;;
     emit (concat (map write_DeviceQueueCreateInfo
                     (arr (pQueueCreateInfos s) (queueCreateInfoCount s))) ++
           write_string_array (ppEnabledLayerNames s) (enabledLayerCount s) ++
           write_string_array (ppEnabledExtensionNames s) (enabledExtensionCount s) ++
           write_opt_pod (pEnabledFeatures s))).

(** marshal.cpp:934-953. *)
Definition read_DeviceCreateInfo : Rd t :=
  out <- read_raw t ;
  next <- read_pnext_chain DeviceCreate 0 ;
  rguard (negb (kMaxArrayElements <? queueCreateInfoCount out)) ;!
  queues <- rfor (Z.to_nat (queueCreateInfoCount out)) read_DeviceQueueCreateInfo ;
  layers <- read_string_array (enabledLayerCount out) ;
  extensions <- read_string_array (enabledExtensionCount out) ;
  features <- read_opt_pod VkPhysicalDeviceFeatures.t ;
  rret (set_pEnabledFeatures features (set_ppEnabledExtensionNames extensions
    (set_ppEnabledLayerNames layers (set_pQueueCreateInfos (arr_ptr queues)
      (set_pNext next out))))).

Definition DeviceCreateInfo_ok (s : t) : Prop :=
  raw_ok (tmp_DeviceCreateInfo s) /\ chain_ok DeviceCreate (pNext s) /\
  structs_ok DeviceQueueCreateInfo_ok (queueCreateInfoCount s) (pQueueCreateInfos s) /\
  strings_ok (enabledLayerCount s) (ppEnabledLayerNames s) /\
  strings_ok (enabledExtensionCount s) (ppEnabledExtensionNames s) /\
  opt_raw_ok (pEnabledFeatures s).

Definition recv_DeviceCreateInfo (s : t) : t :=
  set_pEnabledFeatures (opt_raw_copy (pEnabledFeatures s))
    (set_ppEnabledExtensionNames
       (strings_recv (enabledExtensionCount s) (ppEnabledExtensionNames s))
    (set_ppEnabledLayerNames (strings_recv (enabledLayerCount s) (ppEnabledLayerNames s))
    (set_pQueueCreateInfos
       (structs_recv recv_DeviceQueueCreateInfo (queueCreateInfoCount s) (pQueueCreateInfos s))
    (set_pNext (chain_recv DeviceCreate (pNext s)) (tmp_DeviceCreateInfo s))))).

Lemma reads_DeviceCreateInfo rest s bs : write_DeviceCreateInfo s = (true, bs) ->
  DeviceCreateInfo_ok s -> reads_at rest read_DeviceCreateInfo bs (recv_DeviceCreateInfo s).
Proof.
  intros Hw (Hr & Hc & Hq & Hl & He & Hf). apply chained_true in Hw as (b & Hb & ->).
  unfold read_DeviceCreateInfo.
  eapply reads_bind; [by apply reads_raw|]. flatten_copy.
  eapply reads_bind; [by apply reads_chain|].
  eapply reads_bind_nil; [apply reads_guard, negb_true_iff, Z.ltb_ge, Hq|].
  eapply reads_bind; [by apply (reads_structs _ _ _ _ _ _ _ reads_DeviceQueueCreateInfo)|].
  cbv beta. reads_parts.
Qed.

Lemma safe_DeviceCreateInfo : rd_safe read_DeviceCreateInfo.
Proof. unfold read_DeviceCreateInfo. rd_safe_tac. Qed.
End DeviceCreateInfo.

Section RenderPassCreateInfo.
Import VkRenderPassCreateInfo.

Definition tmp_RenderPassCreateInfo (s : t) : t :=
  set_pNext Null (set_pAttachments Null (set_pSubpasses Null (set_pDependencies Null s))).

(** marshal.cpp:986-994. *)
Definition write_RenderPassCreateInfo (s : t) : W :=
  transact
    (emit (write_raw (tmp_RenderPassCreateInfo s)) ;;;
     write_pnext_chain RenderPass (pNext s) 0 ;;;
     emit (write_pod_array (pAttachments s) (attachmentCount s) ++
           concat (map write_SubpassDescription (arr (pSubpasses s) (subpassCount s))) ++
           write_pod_array (pDependencies s) (dependencyCount s))).

(** marshal.cpp:996-1012. *)
Definition read_RenderPassCreateInfo : Rd t :=
  out <- read_raw t ;
  next <- read_pnext_chain RenderPass 0 ;
  attachments <- read_pod_array VkAttachmentDescription.t (attachmentCount out) ;
  rguard (negb (kMaxArrayElements <? subpassCount out)) ;!
  subpasses <- rfor (Z.to_nat (subpassCount out)) read_SubpassDescription ;
  dependencies <- read_pod_array VkSubpassDependency.t (dependencyCount out) ;
  rret (set_pDependencies dependencies (set_pSubpasses (arr_ptr subpasses)
    (set_pAttachments attachments (set_pNext next out)))).

Definition RenderPassCreateInfo_ok (s : t) : Prop :=
  raw_ok (tmp_RenderPassCreateInfo s) /\ chain_ok RenderPass (pNext s) /\
  pods_ok (attachmentCount s) (pAttachments s) /\
  structs_ok SubpassDescription_ok (subpassCount s) (pSubpasses s) /\
  pods_ok (dependencyCount s) (pDependencies s).

Definition recv_RenderPassCreateInfo (s : t) : t :=
  set_pDependencies (arr_ptr (arr (pDependencies s) (dependencyCount s)))
    (set_pSubpasses (structs_recv recv_SubpassDescription (subpassCount s) (pSubpasses s))
    (set_pAttachments (arr_ptr (arr (pAttachments s) (attachmentCount s)))
    (set_pNext (chain_recv RenderPass (pNext s)) (tmp_RenderPassCreateInfo s)))).

Lemma reads_RenderPassCreateInfo rest s bs : write_RenderPassCreateInfo s = (true, bs) ->
  RenderPassCreateInfo_ok s ->
  reads_at rest read_RenderPassCreateInfo bs (recv_RenderPassCreateInfo s).
Proof.
  intros Hw (Hr & Hc & Ha & Hs & Hd). apply chained_true in Hw as (b & Hb & ->).
  unfold read_RenderPassCreateInfo.
  eapply reads_bind; [by apply reads_raw|]. flatten_copy.
  eapply reads_bind; [by apply reads_chain|].
  eapply reads_bind; [by apply reads_pod_array|].
  eapply reads_bind_nil; [apply reads_guard, negb_true_iff, Z.ltb_ge, Hs|].
  eapply reads_bind; [by apply (reads_structs _ _ _ _ _ _ _ reads_SubpassDescription)|].
  cbv beta. reads_parts.
Qed.

Lemma safe_RenderPassCreateInfo : rd_safe read_RenderPassCreateInfo.
Proof. unfold read_RenderPassCreateInfo. rd_safe_tac. Qed.
End RenderPassCreateInfo.

Section FramebufferCreateInfo.
Import VkFramebufferCreateInfo.

Definition tmp_FramebufferCreateInfo (s : t) : t := set_pNext Null (set_pAttachments Null s).

Definition imageless (s : t) : bool :=
  negb (Z.land (flags s) VK_FRAMEBUFFER_CREATE_IMAGELESS_BIT =? 0).

(** marshal.cpp:1438-1443. *)
Definition write_FramebufferCreateInfo (s : t) : W :=
  transact
    (emit (write_raw (tmp_FramebufferCreateInfo s)) ;;;
     write_pnext_chain FramebufferCreate (pNext s) 0 ;;;
     emit (if imageless s then [] else write_handle_array (pAttachments s) (attachmentCount s))).

(** marshal.cpp:1445-1455. *)
Definition read_FramebufferCreateInfo : Rd t :=
  out <- read_raw t ;
  next <- read_pnext_chain FramebufferCreate 0 ;
  attachments <- (if imageless out then rret Null
                  else read_handle_array (attachmentCount out) hr_image_view) ;
  rret (set_renderPass (patch_handle hr_render_pass (renderPass out))
    (set_pAttachments attachments (set_pNext next out))).

Definition FramebufferCreateInfo_ok (s : t) : Prop :=
  raw_ok (tmp_FramebufferCreateInfo s) /\ chain_ok FramebufferCreate (pNext s) /\
  (imageless s = false -> handles_ok (attachmentCount s) (pAttachments s)).

Definition recv_FramebufferCreateInfo (s : t) : t :=
  set_renderPass (patch_handle hr_render_pass (renderPass s))
    (set_pAttachments (if imageless s then Null
                       else handles_recv hr_image_view (attachmentCount s) (pAttachments s))
    (set_pNext (chain_recv FramebufferCreate (pNext s)) (tmp_FramebufferCreateInfo s))).

Lemma reads_FramebufferCreateInfo rest s bs : write_FramebufferCreateInfo s = (true, bs) ->
  FramebufferCreateInfo_ok s ->
  reads_at rest read_FramebufferCreateInfo bs (recv_FramebufferCreateInfo s).
Proof.
  intros Hw (Hr & Hc & Ha). apply chained_true in Hw as (b & Hb & ->).
  unfold read_FramebufferCreateInfo.
  eapply reads_bind; [by apply reads_raw|]. flatten_copy.
  eapply reads_bind; [by apply reads_chain|].
  eapply reads_bind_last with
    (a := if imageless s then Null
          else handles_recv hr_image_view (attachmentCount s) (pAttachments s));
    [|apply reads_ret].
  change (imageless (tmp_FramebufferCreateInfo s)) with (imageless s).
  destruct (imageless s); [apply reads_ret|]. by apply reads_handles, Ha.
Qed.

Lemma safe_FramebufferCreateInfo : rd_safe read_FramebufferCreateInfo.
Proof. unfold read_FramebufferCreateInfo. rd_safe_tac. Qed.
End FramebufferCreateInfo.

Section SubpassBeginInfo.
Import VkSubpassBeginInfo.

(** marshal.cpp:1610-1619. *)
Definition write_SubpassBeginInfo (s : t) : W :=
  transact
    (emit (Writer.i32 (sType s) ++ Writer.i32 (contents s)) ;;;
     wguard (sType s =? VK_STRUCTURE_TYPE_SUBPASS_BEGIN_INFO) ;;;
     write_pnext_chain RenderPass2 (pNext s) 0).

(** marshal.cpp:1621-1628. *)
Definition read_SubpassBeginInfo : Rd t :=
  sType <- r_i32 ; contents <- r_i32 ;
  r_ok ;! rguard (sType =? VK_STRUCTURE_TYPE_SUBPASS_BEGIN_INFO) ;!
  next <- read_pnext_chain RenderPass2 0 ;
  rret (mk sType next contents).

Lemma reads_SubpassBeginInfo rest s bs : write_SubpassBeginInfo s = (true, bs) ->
  is_i32 (sType s) -> is_i32 (contents s) -> chain_ok RenderPass2 (pNext s) ->
  reads_at rest read_SubpassBeginInfo bs
    (mk (sType s) (chain_recv RenderPass2 (pNext s)) (contents s)).
Proof.
  intros Hw ? ? Hc. apply chained_last_true in Hw as (b & Hb & ->).
  apply guarded_true in Hb as [Hg Hb]. rewrite <- app_assoc.
  unfold read_SubpassBeginInfo. reads_parts.
Qed.

Lemma safe_SubpassBeginInfo : rd_safe read_SubpassBeginInfo.
Proof. unfold read_SubpassBeginInfo. rd_safe_tac. Qed.
End SubpassBeginInfo.

Section SubpassEndInfo.
Import VkSubpassEndInfo.

(** marshal.cpp:1630-1638. *)
Definition write_SubpassEndInfo (s : t) : W :=
  transact
    (emit (Writer.i32 (sType s)) ;;;
     wguard (sType s =? VK_STRUCTURE_TYPE_SUBPASS_END_INFO) ;;;
     write_pnext_chain RenderPass2 (pNext s) 0).

(** marshal.cpp:1640-1646. *)
Definition read_SubpassEndInfo : Rd t :=
  sType <- r_i32 ; r_ok ;! rguard (sType =? VK_STRUCTURE_TYPE_SUBPASS_END_INFO) ;!
  next <- read_pnext_chain RenderPass2 0 ;
  rret (mk sType next).

Lemma reads_SubpassEndInfo rest s bs : write_SubpassEndInfo s = (true, bs) ->
  is_i32 (sType s) -> chain_ok RenderPass2 (pNext s) ->
  reads_at rest read_SubpassEndInfo bs (mk (sType s) (chain_recv RenderPass2 (pNext s))).
Proof.
  intros Hw ? Hc. apply chained_last_true in Hw as (b & Hb & ->).
  apply guarded_true in Hb as [Hg Hb]. unfold read_SubpassEndInfo. reads_parts.
Qed.

Lemma safe_SubpassEndInfo : rd_safe read_SubpassEndInfo.
Proof. unfold read_SubpassEndInfo. rd_safe_tac. Qed.
End SubpassEndInfo.

Section ShaderModuleCreateInfo.
Import VkShaderModuleCreateInfo.

(** marshal.cpp:1104-1120. *)
Definition write_ShaderModuleCreateInfo (s : t) : W :=
  wguard (negb (negb (sType s =? VK_STRUCTURE_TYPE_SHADER_MODULE_CREATE_INFO) ||
                (codeSize s =? 0) || negb (codeSize s mod 4 =? 0) ||
                (kMaxShaderCodeBytes <? codeSize s) || is_null (pCode s) ||
                negb (ptr_addr (pCode s) mod 4 =? 0))) ;;;
  transact
    (emit (Writer.i32 (sType s) ++ Writer.u32 (flags s)) ;;;
     write_pnext_chain ShaderModule (pNext s) 0 ;;;
     emit (Writer.u64 (codeSize s) ++ u32s (arr (pCode s) (codeSize s / 4)))).

(** marshal.cpp:1122-1145. *)
Definition read_ShaderModuleCreateInfo : Rd t :=
  sType <- r_i32 ; flags <- r_u32 ;
  r_ok ;! rguard (sType =? VK_STRUCTURE_TYPE_SHADER_MODULE_CREATE_INFO) ;!
  next <- read_pnext_chain ShaderModule 0 ;
  code_size <- r_u64 ; r_ok ;! left <- r_remaining ;
  rguard (negb ((code_size =? 0) || negb (code_size mod 4 =? 0) ||
                (kMaxShaderCodeBytes <? code_size) || negb (code_size =? left))) ;!
  code <- rfor (Z.to_nat (code_size / 4)) r_u32 ;
  r_ok ;! left <- r_remaining ; rguard (left =? 0) ;!
  rret (mk sType next flags code_size (Ref code)).

Lemma safe_ShaderModuleCreateInfo : rd_safe read_ShaderModuleCreateInfo.
Proof. unfold read_ShaderModuleCreateInfo. rd_safe_tac. Qed.

Lemma length_u32s xs : length (u32s xs) = (4 * length xs)%nat.
Proof.
  unfold u32s. induction xs as [|x xs IH]; [done|].
  cbn [map concat length]. rewrite length_app, IH, length_writer_u32. lia.
Qed.

(** Shader code that the client accepts (at most 16 MiB, a whole number of
    words) reaches the server word for word, provided it ends the request, as
    the decoder requires. *)
Theorem shader_module_roundtrip s bs : write_ShaderModuleCreateInfo s = (true, bs) ->
  is_i32 (sType s) -> is_u32 (flags s) -> is_u64 (codeSize s) ->
  chain_ok ShaderModule (pNext s) ->
  Z.of_nat (length (arr (pCode s) (codeSize s / 4))) = codeSize s / 4 ->
  Forall is_u32 (arr (pCode s) (codeSize s / 4)) ->
  read_ShaderModuleCreateInfo (Reader.make bs) =
    (Some (mk (sType s) (chain_recv ShaderModule (pNext s)) (flags s) (codeSize s)
             (Ref (arr (pCode s) (codeSize s / 4)))),
     Reader.advance (length bs) (Reader.make bs)).
Proof.
  intros Hw Hs Hf Hn Hc Hl Hx. apply guarded_true in Hw as [Hg Hw].
  apply chained_true in Hw as (b & Hb & ->). apply reads_at_run. rewrite <- !app_assoc.
  set (code := arr (pCode s) (codeSize s / 4)) in *. set (n := codeSize s) in *.
  apply negb_true_iff in Hg. repeat (apply orb_false_iff in Hg as [Hg ?]). bool_hyps.
  assert (n = 4 * (n / 4)) as Hn4 by (apply Z.div_exact; lia).
  pose proof (length_u32s code) as Hlen.
  unfold read_ShaderModuleCreateInfo.
  eapply reads_bind; [by apply reads_i32|]. eapply reads_bind; [by apply reads_u32|].
  eapply reads_bind_nil; [apply reads_ok|].
  eapply reads_bind_nil; [by apply reads_guard, Z.eqb_eq|].
  eapply reads_bind; [by apply reads_chain|]. eapply reads_bind; [by apply reads_u64|].
  eapply reads_bind_nil; [apply reads_ok|]. eapply reads_bind_nil; [apply reads_remaining|].
  eapply reads_bind_nil.
  { apply reads_guard, negb_true_iff. rewrite app_nil_r, !orb_false_iff, !negb_false_iff.
    split_and!; [by apply Z.eqb_neq|by apply Z.eqb_eq|by apply Z.ltb_ge|apply Z.eqb_eq; lia]. }
  replace (Z.to_nat (n / 4)) with (length code) by lia.
  eapply reads_bind_last; [by apply reads_u32s|].
  eapply reads_bind_nil; [apply reads_ok|]. eapply reads_bind_nil; [apply reads_remaining|].
  eapply reads_bind_nil; [by apply reads_guard|]. apply reads_ret.
Qed.

(** Whatever bytes arrive, a decoded shader module holds a whole positive
    number of words, at most 16 MiB, all of them behind its code pointer. *)
Theorem read_shader_module_bounds r s r' :
  read_ShaderModuleCreateInfo r = (Some s, r') ->
  0 < codeSize s <= kMaxShaderCodeBytes /\
  exists code, pCode s = Ref code /\ codeSize s = 4 * Z.of_nat (length code).
Proof.
  revert r s r'. apply ensures_spec. unfold read_ShaderModuleCreateInfo.
  do 2 (apply ensures_bind_any; intros ?). apply ensures_bind_any; intros _.
  apply ensures_bind_any; intros _. apply ensures_bind_any; intros next.
  eapply ensures_bind; [apply ensures_u64|]. intros n [Hn _].
  apply ensures_bind_any; intros _. apply ensures_bind_any; intros left.
  apply ensures_bind_guard. intros Hg. apply negb_true_iff in Hg.
  repeat (apply orb_false_iff in Hg as [Hg ?]). bool_hyps.
  eapply ensures_bind; [apply ensures_for_length|]. cbv beta. intros code Hl.
  do 3 (apply ensures_bind_any; intros ?). apply ensures_ret. cbn [codeSize pCode].
  assert (n = 4 * (n / 4)) as Hn4 by (apply Z.div_exact; lia).
  split; [lia|]. exists code. split; [done|]. lia.
Qed.
End ShaderModuleCreateInfo.

End Chained.

#[export] Hint Resolve safe_ImageViewCreateInfo safe_RenderPassBeginInfo safe_BufferCreateInfo safe_ImageCreateInfo safe_MemoryAllocateInfo safe_SamplerCreateInfo safe_SemaphoreCreateInfo safe_DeviceCreateInfo safe_RenderPassCreateInfo safe_FramebufferCreateInfo safe_SubpassBeginInfo safe_SubpassEndInfo safe_ShaderModuleCreateInfo : rdsafe.
