(* ===== verification/MarshalDescriptor.v ===== *)
(** Descriptor updates of [src/common/marshal.cpp]: [VkWriteDescriptorSet],
    [VkCopyDescriptorSet], update templates, and the barrier structs.  Every
    handle of a descriptor update must be present on the client and resolve on
    the server. *)

From stdpp Require Import list.
From S2P Require Import Prelude Wire Codec CLayout VkStructs PNext PNextFacts MarshalBase Marshal.
From S2P Require Import VkCreateInfos.
Import ReaderFacts.
Open Scope wire_scope.

Section WriteDescriptorSet.
Context `{Abi} {HR : HandleResolver}.
Import VkWriteDescriptorSet.

(** The array a descriptor type uses: image infos (1), buffer infos (2) or
    texel buffer views (3); the switch of marshal.cpp:1850-1871. *)
Definition descriptor_kind (type : Z) : option Z :=
  if existsb (Z.eqb type)
       [VK_DESCRIPTOR_TYPE_SAMPLER; VK_DESCRIPTOR_TYPE_COMBINED_IMAGE_SAMPLER;
        VK_DESCRIPTOR_TYPE_SAMPLED_IMAGE; VK_DESCRIPTOR_TYPE_STORAGE_IMAGE;
        VK_DESCRIPTOR_TYPE_INPUT_ATTACHMENT] then Some 1
  else if existsb (Z.eqb type)
       [VK_DESCRIPTOR_TYPE_UNIFORM_BUFFER; VK_DESCRIPTOR_TYPE_STORAGE_BUFFER;
        VK_DESCRIPTOR_TYPE_UNIFORM_BUFFER_DYNAMIC;
        VK_DESCRIPTOR_TYPE_STORAGE_BUFFER_DYNAMIC] then Some 2
  else if existsb (Z.eqb type)
       [VK_DESCRIPTOR_TYPE_UNIFORM_TEXEL_BUFFER; VK_DESCRIPTOR_TYPE_STORAGE_TEXEL_BUFFER]
  then Some 3
  else None.

Definition sampler_used (type : Z) : bool :=
  (type =? VK_DESCRIPTOR_TYPE_SAMPLER) || (type =? VK_DESCRIPTOR_TYPE_COMBINED_IMAGE_SAMPLER).

Definition view_used (type : Z) : bool := negb (type =? VK_DESCRIPTOR_TYPE_SAMPLER).

(** One image descriptor; marshal.cpp:1798-1810. *)
Definition write_image_info (type : Z) (info : VkDescriptorImageInfo.t) : W :=
  let '(VkDescriptorImageInfo.mk sampler imageView imageLayout) := info in
  wguard (negb ((sampler_used type && (sampler =? 0)) || (view_used type && (imageView =? 0)))) ;;;
  emit (Writer.handle (if sampler_used type then sampler else 0) ++
        Writer.handle (if view_used type then imageView else 0) ++ Writer.i32 imageLayout).

(** One buffer descriptor; marshal.cpp:1818-1824. *)
Definition write_buffer_info (info : VkDescriptorBufferInfo.t) : W :=
  let '(VkDescriptorBufferInfo.mk buffer offset range) := info in
  wguard (negb (buffer =? 0)) ;;;
  emit (Writer.handle buffer ++ Writer.u64 offset ++ Writer.u64 range).

(** One texel buffer view; marshal.cpp:1830-1833. *)
Definition write_texel_view (view : Z) : W :=
  wguard (negb (view =? 0)) ;;; emit (Writer.handle view).

Definition tmp_WriteDescriptorSet (s : t) : t :=
  set_pNext Null (set_pImageInfo Null (set_pBufferInfo Null (set_pTexelBufferView Null s))).

(** marshal.cpp:1778-1840. *)
Definition write_WriteDescriptorSet (s : t) : W :=
  transact
    (wguard (negb ((kMaxArrayElements <? descriptorCount s) || (dstSet s =? 0))) ;;;
     emit (write_raw (tmp_WriteDescriptorSet s)) ;;;
     match descriptor_kind (descriptorType s) with
     | Some 1 =>
         wguard (negb (negb (descriptorCount s =? 0) && is_null (pImageInfo s))) ;;;
         emit (Writer.u32 1) ;;;
         wfor (write_image_info (descriptorType s)) (arr (pImageInfo s) (descriptorCount s))
     | Some 2 =>
         wguard (negb (negb (descriptorCount s =? 0) && is_null (pBufferInfo s))) ;;;
         emit (Writer.u32 2) ;;;
         wfor write_buffer_info (arr (pBufferInfo s) (descriptorCount s))
     | Some _ =>
         wguard (negb (negb (descriptorCount s =? 0) && is_null (pTexelBufferView s))) ;;;
         emit (Writer.u32 3) ;;;
         wfor write_texel_view (arr (pTexelBufferView s) (descriptorCount s))
     | None => wguard false
     end).

(** One image descriptor; marshal.cpp:1881-1898. *)
Definition read_image_info (type : Z) : Rd VkDescriptorImageInfo.t :=
  sampler_id <- r_handle ; view_id <- r_handle ; layout <- r_i32 ; r_ok ;!
  let sampler := if sampler_used type && negb (sampler_id =? 0) then hr_sampler sampler_id else 0 in
  let view := if view_used type && negb (view_id =? 0) then hr_image_view view_id else 0 in
  rguard (negb ((sampler_used type && ((sampler_id =? 0) || (sampler =? 0))) ||
                (view_used type && ((view_id =? 0) || (view =? 0))))) ;!
  rret (VkDescriptorImageInfo.mk sampler view layout).

(** One buffer descriptor; marshal.cpp:1904-1912. *)
Definition read_buffer_info : Rd VkDescriptorBufferInfo.t :=
  buffer_id <- r_handle ; offset <- r_u64 ; range <- r_u64 ; r_ok ;!
  let buffer := patch_handle hr_buffer buffer_id in
  rguard (negb ((buffer_id =? 0) || (buffer =? 0))) ;!
  rret (VkDescriptorBufferInfo.mk buffer offset range).

(** One texel buffer view; marshal.cpp:1918-1922. *)
Definition read_texel_view : Rd Z :=
  id <- r_handle ; r_ok ;! rguard (negb ((id =? 0) || (hr_buffer_view id =? 0))) ;!
  rret (hr_buffer_view id).

(** marshal.cpp:1842-1930. *)
Definition read_WriteDescriptorSet : Rd t :=
  out <- read_raw t ;
  rguard (negb (kMaxArrayElements <? descriptorCount out)) ;!
  let dst_set_id := dstSet out in
  let n := Z.to_nat (descriptorCount out) in
  kind <- r_u32 ;
  match descriptor_kind (descriptorType out) with
  | None => rfail
  | Some expected_kind =>
      r_ok ;! rguard (kind =? expected_kind) ;!
      let out := set_pTexelBufferView Null (set_pBufferInfo Null (set_pImageInfo Null out)) in
      out' <-
        (if kind =? 1 then
           infos <- rfor n (read_image_info (descriptorType out)) ;
           rret (set_pImageInfo (arr_ptr infos) out)
         else if kind =? 2 then
           infos <- rfor n read_buffer_info ; rret (set_pBufferInfo (arr_ptr infos) out)
         else if kind =? 3 then
           views <- rfor n read_texel_view ; rret (set_pTexelBufferView (arr_ptr views) out)
         else rfail) ;
      let dst := patch_handle hr_descriptor_set dst_set_id in
      rguard (negb (dst_set_id =? 0) && negb (dst =? 0)) ;!
      rret (set_dstSet dst out')
  end.

(** *** Round trip *)

Definition image_info_recv (type : Z) (info : VkDescriptorImageInfo.t) : VkDescriptorImageInfo.t :=
  let '(VkDescriptorImageInfo.mk sampler imageView imageLayout) := info in
  VkDescriptorImageInfo.mk (if sampler_used type then hr_sampler sampler else 0)
    (if view_used type then hr_image_view imageView else 0) imageLayout.

Definition buffer_info_recv (info : VkDescriptorBufferInfo.t) : VkDescriptorBufferInfo.t :=
  let '(VkDescriptorBufferInfo.mk buffer offset range) := info in
  VkDescriptorBufferInfo.mk (hr_buffer buffer) offset range.

(** In range, and the handles the descriptor type uses resolve. *)
Definition image_info_sendable (type : Z) (info : VkDescriptorImageInfo.t) : Prop :=
  let '(VkDescriptorImageInfo.mk sampler imageView imageLayout) := info in
  is_u64 sampler /\ is_u64 imageView /\ is_i32 imageLayout /\
  (sampler_used type = true -> hr_sampler sampler <> 0) /\
  (view_used type = true -> hr_image_view imageView <> 0).

Definition buffer_info_sendable (info : VkDescriptorBufferInfo.t) : Prop :=
  let '(VkDescriptorBufferInfo.mk buffer offset range) := info in
  is_u64 buffer /\ is_u64 offset /\ is_u64 range /\ hr_buffer buffer <> 0.

Definition texel_view_sendable (view : Z) : Prop := is_u64 view /\ hr_buffer_view view <> 0.

Lemma reads_descriptor_image rest type info bs :
  write_image_info type info = (true, bs) -> image_info_sendable type info ->
  reads_at rest (read_image_info type) bs (image_info_recv type info).
Proof.
  destruct info as [sampler view layout]. cbn [write_image_info image_info_sendable image_info_recv].
  intros Hw (Hs & Hv & Hl & Hrs & Hrv). apply guarded_true in Hw as [Hg Hw].
  apply emit_true in Hw as ->. unfold read_image_info.
  apply negb_true_iff, orb_false_iff in Hg as [H1 H2].
  destruct (sampler_used type), (view_used type); cbn [andb] in *;
    repeat (eapply reads_bind;
      [first [apply reads_handle; first [assumption | unfold is_u64; lia]]|cbv beta]);
    (eapply reads_bind_last; [by apply reads_i32|cbv beta]);
    (eapply reads_bind_nil; [apply reads_ok|cbv beta zeta]);
    rewrite ?H1, ?H2; cbn [negb orb andb];
    rewrite ?(proj2 (Z.eqb_neq (hr_sampler sampler) 0)), ?(proj2 (Z.eqb_neq (hr_image_view view) 0))
      by auto;
    (eapply reads_bind_nil; [by apply reads_guard|]); apply reads_ret.
Qed.

Lemma reads_descriptor_buffer rest info bs :
  write_buffer_info info = (true, bs) -> buffer_info_sendable info ->
  reads_at rest read_buffer_info bs (buffer_info_recv info).
Proof.
  destruct info as [buffer offset range]. cbn [write_buffer_info buffer_info_sendable].
  intros Hw (Hb & Ho & Hr & Hres). apply guarded_true in Hw as [H1 Hw].
  apply emit_true in Hw as ->. apply negb_true_iff in H1.
  unfold read_buffer_info. eapply reads_bind; [by apply reads_handle|]. reads_node.
  unfold patch_handle, buffer_info_recv. rewrite H1. cbn [orb].
  rewrite (proj2 (Z.eqb_neq _ _)) by done.
  eapply reads_bind_nil; [by apply reads_guard|]. apply reads_ret.
Qed.

Lemma reads_descriptor_view rest view bs :
  write_texel_view view = (true, bs) -> texel_view_sendable view ->
  reads_at rest read_texel_view bs (hr_buffer_view view).
Proof.
  intros Hw [Hv Hr]. apply guarded_true in Hw as [H1 Hw].
  apply emit_true in Hw as ->. apply negb_true_iff in H1. unfold read_texel_view.
  eapply reads_bind_last; [by apply reads_handle|].
  eapply reads_bind_nil; [apply reads_ok|]. rewrite H1, (proj2 (Z.eqb_neq _ _)) by done.
  eapply reads_bind_nil; [by apply reads_guard|]. apply reads_ret.
Qed.

(** The elements of one descriptor array, in a loop that checks each. *)
Lemma reads_checked {A B} rest (w : A -> W) (m : Rd B) (P : A -> Prop) (g : A -> B) xs bs :
  (forall x b rest, w x = (true, b) -> P x -> reads_at rest m b (g x)) ->
  wfor w xs = (true, bs) -> Forall P xs ->
  reads_at rest (rfor (length xs) m) bs (map g xs).
Proof.
  intros Hm Hw HP. apply wfor_true in Hw as (bss & HF & ->).
  apply (reads_for rest m (fun x b => w x = (true, b) /\ P x)).
  - clear -HF HP. induction HF; forall_hyps; constructor; auto.
  - intros x b rest' [Hx Hk]. by apply Hm.
Qed.

Definition WriteDescriptorSet_ok (s : t) : Prop :=
  raw_ok (tmp_WriteDescriptorSet s) /\ 0 <= descriptorCount s /\
  hr_descriptor_set (dstSet s) <> 0 /\
  match descriptor_kind (descriptorType s) with
  | Some 1 =>
      Z.of_nat (length (arr (pImageInfo s) (descriptorCount s))) = descriptorCount s /\
      Forall (image_info_sendable (descriptorType s)) (arr (pImageInfo s) (descriptorCount s))
  | Some 2 =>
      Z.of_nat (length (arr (pBufferInfo s) (descriptorCount s))) = descriptorCount s /\
      Forall buffer_info_sendable (arr (pBufferInfo s) (descriptorCount s))
  | Some _ =>
      Z.of_nat (length (arr (pTexelBufferView s) (descriptorCount s))) = descriptorCount s /\
      Forall texel_view_sendable (arr (pTexelBufferView s) (descriptorCount s))
  | None => True
  end.

(** The server's struct: only the array of the descriptor's kind, with its
    handles resolved. *)
Definition recv_WriteDescriptorSet (s : t) : t :=
  let out := set_dstSet (hr_descriptor_set (dstSet s)) (tmp_WriteDescriptorSet s) in
  match descriptor_kind (descriptorType s) with
  | Some 1 => set_pImageInfo (arr_ptr (map (image_info_recv (descriptorType s))
                                (arr (pImageInfo s) (descriptorCount s)))) out
  | Some 2 => set_pBufferInfo (arr_ptr (map buffer_info_recv
                                (arr (pBufferInfo s) (descriptorCount s)))) out
  | _ => set_pTexelBufferView (arr_ptr (map hr_buffer_view
                                (arr (pTexelBufferView s) (descriptorCount s)))) out
  end.

Lemma descriptor_kind_cases type :
  descriptor_kind type = Some 1 \/ descriptor_kind type = Some 2 \/
  descriptor_kind type = Some 3 \/ descriptor_kind type = None.
Proof. unfold descriptor_kind. repeat case_match; auto. Qed.

(** The arrays of the three kinds. *)
Lemma reads_descriptors rest s bs :
  write_WriteDescriptorSet s = (true, bs) -> WriteDescriptorSet_ok s ->
  exists kind b, descriptor_kind (descriptorType s) = Some kind /\ is_u32 kind /\
    bs = write_raw (tmp_WriteDescriptorSet s) ++ Writer.u32 kind ++ b /\
    descriptorCount s <= kMaxArrayElements /\ dstSet s <> 0 /\
    reads_at rest
      (let n := Z.to_nat (descriptorCount s) in
       if kind =? 1 then
         infos <- rfor n (read_image_info (descriptorType s)) ;
         rret (set_pImageInfo (arr_ptr infos) (tmp_WriteDescriptorSet s))
       else if kind =? 2 then
         infos <- rfor n read_buffer_info ;
         rret (set_pBufferInfo (arr_ptr infos) (tmp_WriteDescriptorSet s))
       else if kind =? 3 then
         views <- rfor n read_texel_view ;
         rret (set_pTexelBufferView (arr_ptr views) (tmp_WriteDescriptorSet s))
       else rfail) b (set_dstSet (dstSet s) (recv_WriteDescriptorSet s)).
Proof.
  intros Hw (Hr & Hn & Hd & Hk). apply transact_true, guarded_true in Hw as [Hg Hw].
  apply negb_true_iff, orb_false_iff in Hg as [Hc Hds].
  apply Z.ltb_ge in Hc. apply Z.eqb_neq in Hds.
  apply emit_then_true in Hw as (b1 & Hw & ->). unfold recv_WriteDescriptorSet.
  destruct (descriptor_kind_cases (descriptorType s)) as [E|[E|[E|E]]]; rewrite E in *;
    [| | |discriminate Hw]; apply guarded_true in Hw as [_ Hw];
    apply emit_then_true in Hw as (b & Hw & ->); destruct Hk as [Hl Hk].
  - exists 1, b. do 5 (split; [done || unfold is_u32; lia|]). cbn [Z.eqb].
    replace (Z.to_nat (descriptorCount s))
      with (length (arr (pImageInfo s) (descriptorCount s))) by lia. eapply reads_bind_last; [|apply reads_ret].
    apply (reads_checked _ _ _ _ _ _ _ (fun x b rest => reads_descriptor_image rest _ x b) Hw Hk).
  - exists 2, b. do 5 (split; [done || unfold is_u32; lia|]). cbn [Z.eqb].
    replace (Z.to_nat (descriptorCount s))
      with (length (arr (pBufferInfo s) (descriptorCount s))) by lia. eapply reads_bind_last; [|apply reads_ret].
    apply (reads_checked _ _ _ _ _ _ _ (fun x b rest => reads_descriptor_buffer rest x b) Hw Hk).
  - exists 3, b. do 5 (split; [done || unfold is_u32; lia|]). cbn [Z.eqb].
    replace (Z.to_nat (descriptorCount s))
      with (length (arr (pTexelBufferView s) (descriptorCount s))) by lia. eapply reads_bind_last; [|apply reads_ret].
    apply (reads_checked _ _ _ _ _ _ _ (fun x b rest => reads_descriptor_view rest x b) Hw Hk).
Qed.

Lemma set_dstSet_recv s d :
  set_dstSet (hr_descriptor_set (dstSet s)) (set_dstSet d (recv_WriteDescriptorSet s)) =
  recv_WriteDescriptorSet s.
Proof. unfold recv_WriteDescriptorSet. repeat case_match; reflexivity. Qed.

(** A descriptor write that the client can encode reaches the server as the
    same update with exactly the array its descriptor type uses, every used
    handle replaced by the server's, every unused one null. *)
Theorem write_descriptor_set_roundtrip rest s bs :
  write_WriteDescriptorSet s = (true, bs) -> WriteDescriptorSet_ok s ->
  reads_at rest read_WriteDescriptorSet bs (recv_WriteDescriptorSet s).
Proof.
  intros Hw Hok. destruct (reads_descriptors rest s bs Hw Hok)
    as (kind & b & E & Hu & -> & Hc & Hds & Hread).
  destruct Hok as (Hr & Hn & Hd & _). unfold read_WriteDescriptorSet.
  eapply reads_bind; [by apply reads_raw|]. flatten_copy.
  eapply reads_bind_nil; [apply reads_guard, negb_true_iff, Z.ltb_ge, Hc|]. cbv beta zeta.
  eapply reads_bind; [by apply reads_u32|]. cbv beta.
  change (descriptorType (tmp_WriteDescriptorSet s)) with (descriptorType s). rewrite E.
  eapply reads_bind_nil; [apply reads_ok|].
  eapply reads_bind_nil; [apply reads_guard, Z.eqb_refl|].
  eapply reads_bind_last; [exact Hread|]. cbv beta zeta.
  change (dstSet (tmp_WriteDescriptorSet s)) with (dstSet s).
  assert (patch_handle hr_descriptor_set (dstSet s) = hr_descriptor_set (dstSet s)) as ->.
  { unfold patch_handle. by rewrite (proj2 (Z.eqb_neq _ _)). }
  eapply reads_bind_nil.
  { apply reads_guard. by rewrite !(proj2 (Z.eqb_neq _ _)). }
  rewrite set_dstSet_recv. apply reads_ret.
Qed.

Lemma ensures_image_resolved type : rd_ensures (read_image_info type) (fun i =>
  (sampler_used type = true -> VkDescriptorImageInfo.sampler i <> 0) /\
  (view_used type = true -> VkDescriptorImageInfo.imageView i <> 0)).
Proof.
  unfold read_image_info. do 4 (apply ensures_bind_any; intros ?).
  apply ensures_bind_guard. intros Hg. apply ensures_ret.
  cbn [VkDescriptorImageInfo.sampler VkDescriptorImageInfo.imageView].
  apply negb_true_iff, orb_false_iff in Hg as [H1 H2].
  split; intros Hu; rewrite Hu in *; cbn [andb] in *;
    [apply orb_false_iff in H1 as [Hi H1]|apply orb_false_iff in H2 as [Hi H2]];
    rewrite Hi in *; cbn [negb] in *; by apply Z.eqb_neq.
Qed.

Lemma ensures_buffer_resolved :
  rd_ensures read_buffer_info (fun i => VkDescriptorBufferInfo.buffer i <> 0).
Proof.
  unfold read_buffer_info. do 4 (apply ensures_bind_any; intros ?).
  apply ensures_bind_guard. intros Hg. apply ensures_ret.
  apply negb_true_iff, orb_false_iff in Hg as [_ Hg]. by apply Z.eqb_neq.
Qed.

Lemma ensures_view_resolved : rd_ensures read_texel_view (fun v => v <> 0).
Proof.
  unfold read_texel_view. do 2 (apply ensures_bind_any; intros ?).
  apply ensures_bind_guard. intros Hg. apply ensures_ret.
  apply negb_true_iff, orb_false_iff in Hg as [_ Hg]. by apply Z.eqb_neq.
Qed.

Lemma write_count_range vs :
  kinds_okb kinds vs = true -> 0 <= descriptorCount (of_raw vs).
Proof.
  intros Hk. pose proof (kinds_okb_length _ _ Hk) as Hl.
  do 11 (destruct vs as [|? vs]; try discriminate Hl). cbn in Hk |- *. bool_hyps. lia.
Qed.

(** Whatever bytes arrive, a decoded descriptor write names a descriptor set
    the server knows, has at most 2^20 descriptors, and holds exactly one array,
    of exactly that length, in which every handle the type uses is non-null. *)
Theorem read_descriptor_set_resolved r s r' :
  read_WriteDescriptorSet r = (Some s, r') ->
  dstSet s <> 0 /\ descriptorCount s <= kMaxArrayElements /\
  match descriptor_kind (descriptorType s) with
  | Some 1 => array_of (fun i =>
      (sampler_used (descriptorType s) = true -> VkDescriptorImageInfo.sampler i <> 0) /\
      (view_used (descriptorType s) = true -> VkDescriptorImageInfo.imageView i <> 0))
      (descriptorCount s) (pImageInfo s) /\ pBufferInfo s = Null /\ pTexelBufferView s = Null
  | Some 2 => array_of (fun i => VkDescriptorBufferInfo.buffer i <> 0)
      (descriptorCount s) (pBufferInfo s) /\ pImageInfo s = Null /\ pTexelBufferView s = Null
  | Some _ => array_of (fun v => v <> 0) (descriptorCount s) (pTexelBufferView s) /\
      pImageInfo s = Null /\ pBufferInfo s = Null
  | None => False
  end.
Proof.
  revert r s r'. apply ensures_spec. unfold read_WriteDescriptorSet.
  eapply ensures_bind; [apply ensures_raw|]. intros out (vs & Hvs & Hout).
  assert (0 <= descriptorCount out) as Hnn by (subst out; by apply write_count_range).
  apply ensures_bind_guard. intros Hc. apply negb_true_iff, Z.ltb_ge in Hc.
  apply ensures_bind_any. intros kind.
  destruct (descriptor_kind_cases (descriptorType out)) as [E|[E|[E|E]]]; rewrite E;
    [| | |apply ensures_fail];
    apply ensures_bind_any; intros _; apply ensures_bind_guard; intros Hk;
    apply Z.eqb_eq in Hk as ->; cbn [Z.eqb Pos.eqb]; apply ensures_bind_assoc;
    (eapply ensures_bind; [apply ensures_for;
       first [apply ensures_image_resolved | apply ensures_buffer_resolved
             | apply ensures_view_resolved]|]);
    intros xs [Hl Hxs]; apply ensures_ret_bind;
    apply ensures_bind_guard; intros Hd; apply ensures_ret;
    apply andb_true_iff in Hd as [_ Hd]; apply negb_true_iff, Z.eqb_neq in Hd;
    cbn [dstSet descriptorCount descriptorType pImageInfo pBufferInfo pTexelBufferView
         set_dstSet set_pImageInfo set_pBufferInfo set_pTexelBufferView]; rewrite E;
    (split; [exact Hd|]); (split; [exact Hc|]); (split; [|by split]);
    (apply array_of_arr_ptr; [exact Hc|lia|exact Hxs]).
Qed.

Lemma safe_WriteDescriptorSet : rd_safe read_WriteDescriptorSet.
Proof.
  unfold read_WriteDescriptorSet, read_image_info, read_buffer_info, read_texel_view. rd_safe_tac.
Qed.

End WriteDescriptorSet.

(** ** Copies and barriers, sent raw *)
Section CopyDescriptorSet.
Context `{Abi} {HR : HandleResolver}.
Import VkCopyDescriptorSet.

(** marshal.cpp:1932-1936. *)
Definition write_CopyDescriptorSet (s : t) : list byte := write_raw (set_pNext Null s).

(** marshal.cpp:1938-1947. *)
Definition read_CopyDescriptorSet : Rd t :=
  out <- read_raw t ;
  let src_set_id := srcSet out in
  let dst_set_id := dstSet out in
  let src := patch_handle hr_descriptor_set src_set_id in
  let dst := patch_handle hr_descriptor_set dst_set_id in
  rguard (negb (src_set_id =? 0) && negb (src =? 0) &&
          negb (dst_set_id =? 0) && negb (dst =? 0)) ;!
  rret (set_dstSet dst (set_srcSet src out)).

Definition CopyDescriptorSet_ok (s : t) : Prop :=
  raw_ok (set_pNext Null s) /\ srcSet s <> 0 /\ dstSet s <> 0 /\
  hr_descriptor_set (srcSet s) <> 0 /\ hr_descriptor_set (dstSet s) <> 0.

Lemma reads_CopyDescriptorSet rest s : CopyDescriptorSet_ok s ->
  reads_at rest read_CopyDescriptorSet (write_CopyDescriptorSet s)
    (set_dstSet (hr_descriptor_set (dstSet s))
      (set_srcSet (hr_descriptor_set (srcSet s)) (set_pNext Null s))).
Proof.
  intros (Hr & Hs & Hd & Hrs & Hrd). unfold read_CopyDescriptorSet, write_CopyDescriptorSet.
  eapply reads_bind_last; [by apply reads_raw|]. flatten_copy. cbv zeta. unfold patch_handle.
  change (srcSet (set_pNext Null s)) with (srcSet s).
  change (dstSet (set_pNext Null s)) with (dstSet s).
  rewrite (proj2 (Z.eqb_neq (srcSet s) 0)), (proj2 (Z.eqb_neq (dstSet s) 0)) by done.
  eapply reads_bind_nil; [|apply reads_ret].
  apply reads_guard. by rewrite !(proj2 (Z.eqb_neq (hr_descriptor_set _) 0)).
Qed.

Lemma safe_CopyDescriptorSet : rd_safe read_CopyDescriptorSet.
Proof. unfold read_CopyDescriptorSet. rd_safe_tac. Qed.
End CopyDescriptorSet.

Section Barriers.
Context `{Abi} {HR : HandleResolver}.

(** marshal.cpp:1949-1953. *)
Definition write_ImageMemoryBarrier (s : VkImageMemoryBarrier.t) : list byte :=
  write_raw (VkImageMemoryBarrier.set_pNext Null s).

(** marshal.cpp:1955-1960. *)
Definition read_ImageMemoryBarrier : Rd VkImageMemoryBarrier.t :=
  out <- read_raw VkImageMemoryBarrier.t ;
  rret (VkImageMemoryBarrier.set_image
          (patch_handle hr_image (VkImageMemoryBarrier.image out)) out).

(** marshal.cpp:1962-1966. *)
Definition write_BufferMemoryBarrier (s : VkBufferMemoryBarrier.t) : list byte :=
  write_raw (VkBufferMemoryBarrier.set_pNext Null s).

(** marshal.cpp:1968-1973. *)
Definition read_BufferMemoryBarrier : Rd VkBufferMemoryBarrier.t :=
  out <- read_raw VkBufferMemoryBarrier.t ;
  rret (VkBufferMemoryBarrier.set_buffer
          (patch_handle hr_buffer (VkBufferMemoryBarrier.buffer out)) out).

(** marshal.cpp:1975-1979. *)
Definition write_MemoryBarrier (s : VkMemoryBarrier.t) : list byte :=
  write_raw (VkMemoryBarrier.set_pNext Null s).

(** marshal.cpp:1981-1983. *)
Definition read_MemoryBarrier : Rd VkMemoryBarrier.t := read_raw VkMemoryBarrier.t.

Lemma reads_ImageMemoryBarrier rest s : raw_ok (VkImageMemoryBarrier.set_pNext Null s) ->
  reads_at rest read_ImageMemoryBarrier (write_ImageMemoryBarrier s)
    (VkImageMemoryBarrier.set_image (patch_handle hr_image (VkImageMemoryBarrier.image s))
       (VkImageMemoryBarrier.set_pNext Null s)).
Proof. intros Hr. unfold read_ImageMemoryBarrier, write_ImageMemoryBarrier. reads_parts. Qed.

Lemma reads_BufferMemoryBarrier rest s : raw_ok (VkBufferMemoryBarrier.set_pNext Null s) ->
  reads_at rest read_BufferMemoryBarrier (write_BufferMemoryBarrier s)
    (VkBufferMemoryBarrier.set_buffer (patch_handle hr_buffer (VkBufferMemoryBarrier.buffer s))
       (VkBufferMemoryBarrier.set_pNext Null s)).
Proof. intros Hr. unfold read_BufferMemoryBarrier, write_BufferMemoryBarrier. reads_parts. Qed.

Lemma reads_MemoryBarrier rest s : raw_ok (VkMemoryBarrier.set_pNext Null s) ->
  reads_at rest read_MemoryBarrier (write_MemoryBarrier s) (VkMemoryBarrier.set_pNext Null s).
Proof.
  intros Hr. unfold read_MemoryBarrier, write_MemoryBarrier.
  rewrite <- (raw_copy_flat (VkMemoryBarrier.set_pNext Null s)) at 2 by (hnf; cbn; tauto).
  by apply reads_raw.
Qed.

Lemma safe_ImageMemoryBarrier : rd_safe read_ImageMemoryBarrier.
Proof. unfold read_ImageMemoryBarrier. rd_safe_tac. Qed.

Lemma safe_BufferMemoryBarrier : rd_safe read_BufferMemoryBarrier.
Proof. unfold read_BufferMemoryBarrier. rd_safe_tac. Qed.

Lemma safe_MemoryBarrier : rd_safe read_MemoryBarrier.
Proof. unfold read_MemoryBarrier. rd_safe_tac. Qed.
End Barriers.

(** ** Update templates *)
Section DescriptorUpdateTemplate.
Context {HR : HandleResolver}.
Import VkDescriptorUpdateTemplateCreateInfo.

(** One entry; marshal.cpp:1695-1697. *)
Definition write_template_entry (x : VkDescriptorUpdateTemplateEntry.t) : list byte :=
  let '(VkDescriptorUpdateTemplateEntry.mk dstBinding dstArrayElement descriptorCount
          descriptorType offset stride) := x in
  Writer.u32 dstBinding ++ Writer.u32 dstArrayElement ++ Writer.u32 descriptorCount ++
  Writer.i32 descriptorType ++ Writer.u64 offset ++ Writer.u64 stride.

(** marshal.cpp:1689-1702. *)
Definition write_DescriptorUpdateTemplateCreateInfo (s : t) : W :=
  wguard (negb (negb (sType s =? VK_STRUCTURE_TYPE_DESCRIPTOR_UPDATE_TEMPLATE_CREATE_INFO) ||
                negb (is_null (pNext s)) || negb (valid_count (descriptorUpdateEntryCount s) 32) ||
                missing (descriptorUpdateEntryCount s) (pDescriptorUpdateEntries s))) ;;;
  emit (Writer.i32 (sType s) ++ Writer.u32 (flags s) ++
        Writer.u32 (descriptorUpdateEntryCount s) ++
        concat (map write_template_entry
                  (arr (pDescriptorUpdateEntries s) (descriptorUpdateEntryCount s))) ++
        Writer.i32 (templateType s) ++ Writer.handle (descriptorSetLayout s) ++
        Writer.i32 (pipelineBindPoint s) ++ Writer.handle (pipelineLayout s) ++
        Writer.u32 (set_ s)).

(** One entry; marshal.cpp:1712-1712. *)
Definition read_template_entry : Rd VkDescriptorUpdateTemplateEntry.t :=
  a <- r_u32 ; b <- r_u32 ; c <- r_u32 ; d <- r_i32 ; e <- r_u64 ; f <- r_u64 ;
  rret (VkDescriptorUpdateTemplateEntry.mk a b c d e f).

(** marshal.cpp:1704-1717. *)
Definition read_DescriptorUpdateTemplateCreateInfo : Rd t :=
  sType <- r_i32 ; flags <- r_u32 ; count <- r_u32 ; r_ok ;! left <- r_remaining ;
  rguard (negb (negb (sType =? VK_STRUCTURE_TYPE_DESCRIPTOR_UPDATE_TEMPLATE_CREATE_INFO) ||
                negb (valid_count count 32) || (left / 32 <? count))) ;!
  entries <- rfor (Z.to_nat count) read_template_entry ;
  templateType <- r_i32 ; layout <- r_handle ; bindPoint <- r_i32 ; pipeline <- r_handle ;
  set_index <- r_u32 ; r_ok ;!
  rret (mk sType Null flags count (arr_ptr entries) templateType
          (patch_handle hr_descriptor_set_layout layout) bindPoint
          (patch_handle hr_pipeline_layout pipeline) set_index).

Definition template_entry_ok (x : VkDescriptorUpdateTemplateEntry.t) : Prop :=
  let '(VkDescriptorUpdateTemplateEntry.mk a b c d e f) := x in
  is_u32 a /\ is_u32 b /\ is_u32 c /\ is_i32 d /\ is_u64 e /\ is_u64 f.

Lemma reads_template_entry rest x : template_entry_ok x ->
  reads_at rest read_template_entry (write_template_entry x) x.
Proof.
  destruct x. intros (? & ? & ? & ? & ? & ?).
  unfold read_template_entry, write_template_entry. reads_parts.
Qed.

Lemma length_template_entries xs :
  length (concat (map write_template_entry xs)) = (32 * length xs)%nat.
Proof.
  induction xs as [|[] xs IH]; [done|]. cbn [map concat length write_template_entry].
  rewrite !length_app, IH, ?length_writer_u32, ?length_writer_i32, ?length_writer_u64. lia.
Qed.

Definition DescriptorUpdateTemplateCreateInfo_ok (s : t) : Prop :=
  is_i32 (sType s) /\ is_u32 (flags s) /\ is_i32 (templateType s) /\
  is_u64 (descriptorSetLayout s) /\ is_i32 (pipelineBindPoint s) /\
  is_u64 (pipelineLayout s) /\ is_u32 (set_ s) /\
  structs_ok template_entry_ok (descriptorUpdateEntryCount s) (pDescriptorUpdateEntries s).

(** A descriptor update template that the client can encode is the one the
    server builds: every entry unchanged, both layouts resolved. *)
Theorem update_template_roundtrip rest s bs :
  write_DescriptorUpdateTemplateCreateInfo s = (true, bs) ->
  DescriptorUpdateTemplateCreateInfo_ok s ->
  reads_at rest read_DescriptorUpdateTemplateCreateInfo bs
    (mk (sType s) Null (flags s) (descriptorUpdateEntryCount s)
       (arr_ptr (arr (pDescriptorUpdateEntries s) (descriptorUpdateEntryCount s)))
       (templateType s) (patch_handle hr_descriptor_set_layout (descriptorSetLayout s))
       (pipelineBindPoint s) (patch_handle hr_pipeline_layout (pipelineLayout s)) (set_ s)).
Proof.
  intros Hw (? & ? & ? & ? & ? & ? & ? & Hn & Hl & He).
  apply guarded_true in Hw as [Hg Hw]. apply emit_true in Hw as ->.
  apply negb_true_iff in Hg. repeat (apply orb_false_iff in Hg as [Hg ?]).
  rewrite kMaxArrayElements_value in Hn.
  unfold read_DescriptorUpdateTemplateCreateInfo.
  do 3 (eapply reads_bind; [first [by apply reads_i32|apply reads_u32; unfold is_u32 in *; lia]|]).
  eapply reads_bind_nil; [apply reads_ok|]. eapply reads_bind_nil; [apply reads_remaining|].
  pose proof (length_template_entries
    (arr (pDescriptorUpdateEntries s) (descriptorUpdateEntryCount s))) as Hlen.
  eapply reads_bind_nil.
  { apply reads_guard, negb_true_iff. rewrite Hg. bool_hyps.
    rewrite (proj2 (negb_false_iff _)) by assumption. apply Z.ltb_ge, Z.div_le_lower_bound; [lia|].
    rewrite !length_app. lia. }
  replace (Z.to_nat _) with
    (length (arr (pDescriptorUpdateEntries s) (descriptorUpdateEntryCount s))) by lia.
  eapply reads_bind; [apply (reads_map _ _ _ template_entry_ok); [|done]|].
  { intros. by apply reads_template_entry. }
  reads_parts.
Qed.

Lemma safe_DescriptorUpdateTemplateCreateInfo : rd_safe read_DescriptorUpdateTemplateCreateInfo.
Proof.
  unfold read_DescriptorUpdateTemplateCreateInfo, read_template_entry. rd_safe_tac.
Qed.
End DescriptorUpdateTemplate.

Section SamplerYcbcrConversion.
Import VkSamplerYcbcrConversionCreateInfo.

(** marshal.cpp:1719-1724. *)
Definition write_SamplerYcbcrConversionCreateInfo (s : t) : list byte :=
  let '(VkComponentMapping.mk r g b a) := components s in
  Writer.i32 (sType s) ++ Writer.i32 (format s) ++ Writer.i32 (ycbcrModel s) ++
  Writer.i32 (ycbcrRange s) ++ Writer.i32 r ++ Writer.i32 g ++ Writer.i32 b ++ Writer.i32 a ++
  Writer.i32 (xChromaOffset s) ++ Writer.i32 (yChromaOffset s) ++ Writer.i32 (chromaFilter s) ++
  Writer.u32 (forceExplicitReconstruction s).

(** marshal.cpp:1726-1735. *)
Definition read_SamplerYcbcrConversionCreateInfo : Rd t :=
  sType <- r_i32 ; format <- r_i32 ; model <- r_i32 ; range <- r_i32 ;
  r <- r_i32 ; g <- r_i32 ; b <- r_i32 ; a <- r_i32 ;
  x <- r_i32 ; y <- r_i32 ; filter <- r_i32 ; force <- r_u32 ;
  r_ok ;! rguard (sType =? VK_STRUCTURE_TYPE_SAMPLER_YCBCR_CONVERSION_CREATE_INFO) ;!
  rret (mk sType Null format model range (VkComponentMapping.mk r g b a) x y filter force).

Lemma reads_SamplerYcbcrConversionCreateInfo rest s :
  sType s = VK_STRUCTURE_TYPE_SAMPLER_YCBCR_CONVERSION_CREATE_INFO ->
  pNext s = Null ->
  Forall is_i32 [sType s; format s; ycbcrModel s; ycbcrRange s; VkComponentMapping.r (components s);
    VkComponentMapping.g (components s); VkComponentMapping.b (components s);
    VkComponentMapping.a (components s); xChromaOffset s; yChromaOffset s; chromaFilter s] ->
  is_u32 (forceExplicitReconstruction s) ->
  reads_at rest read_SamplerYcbcrConversionCreateInfo (write_SamplerYcbcrConversionCreateInfo s) s.
Proof.
  destruct s as [sType pNext ? ? ? [] ? ? ? ?]. cbn. intros Hs -> Hi Hf. forall_hyps.
  unfold read_SamplerYcbcrConversionCreateInfo, write_SamplerYcbcrConversionCreateInfo. cbn.
  apply Z.eqb_eq in Hs. reads_parts.
Qed.

Lemma safe_SamplerYcbcrConversionCreateInfo : rd_safe read_SamplerYcbcrConversionCreateInfo.
Proof. unfold read_SamplerYcbcrConversionCreateInfo. rd_safe_tac. Qed.
End SamplerYcbcrConversion.

#[export] Hint Resolve safe_WriteDescriptorSet safe_CopyDescriptorSet safe_ImageMemoryBarrier safe_BufferMemoryBarrier
  safe_MemoryBarrier safe_DescriptorUpdateTemplateCreateInfo
  safe_SamplerYcbcrConversionCreateInfo : rdsafe.
