(* ===== verification/MarshalSync.v ===== *)
(** Synchronization2 of [src/common/marshal.cpp] (lines 1985-2065): barriers and
    submissions are encoded member by member, the counts bounded by the bytes
    that are left.  Unlike the chain-bearing structs, these are written straight
    to the request: a refusal leaves the bytes written so far. *)

From stdpp Require Import list.
From S2P Require Import Prelude Wire Codec CLayout VkStructs PNext PNextFacts MarshalBase Marshal.
From S2P Require Import VkCreateInfos.
Import ReaderFacts.
Open Scope wire_scope.

(** [if (id && !handle) return false;] after [handle = hr.f(id)]. *)
Definition dangling (id handle : Z) : bool := negb (id =? 0) && (handle =? 0).

Definition resolvable (resolve : Z -> Z) (id : Z) : Prop := id = 0 \/ resolve id <> 0.

Lemma not_dangling resolve id : resolvable resolve id -> negb (dangling id (resolve id)) = true.
Proof.
  unfold dangling. intros [->|Hr]; [done|]. apply negb_true_iff, andb_false_iff. right.
  by apply Z.eqb_neq.
Qed.

(** The packed wire structs.

    marshal.cpp:1987-1992. *)
Definition MemoryBarrier2Wire : list kind := [KU64; KU64; KU64; KU64].
(** marshal.cpp:1994-2004. *)
Definition BufferMemoryBarrier2Wire : list kind :=
  [KU64; KU64; KU64; KU64; KU32; KU32; KU64; KU64; KU64].
(** marshal.cpp:2006-2021. *)
Definition ImageMemoryBarrier2Wire : list kind :=
  [KU64; KU64; KU64; KU64; KI32; KI32; KU32; KU32; KU64; KU32; KU32; KU32; KU32; KU32].
(** marshal.cpp:2023-2028. *)
Definition SemaphoreSubmitInfoWire : list kind := [KU64; KU64; KU64; KU32].
(** marshal.cpp:2030-2033. *)
Definition CommandBufferSubmitInfoWire : list kind := [KU64; KU32].

(** [sizeof] under [#pragma pack(1)]. *)
Definition packed_size (ks : list kind) : Z := Z.of_nat (sum_list_with ksize ks).

(** marshal.cpp:2036-2036. *)
Definition kMemoryBarrier2WireBytes : Z := packed_size MemoryBarrier2Wire.
(** marshal.cpp:2037-2037. *)
Definition kBufferMemoryBarrier2WireBytes : Z := packed_size BufferMemoryBarrier2Wire.
(** marshal.cpp:2038-2038. *)
Definition kImageMemoryBarrier2WireBytes : Z := packed_size ImageMemoryBarrier2Wire.
(** marshal.cpp:2039-2039. *)
Definition kSemaphoreSubmitInfoWireBytes : Z := packed_size SemaphoreSubmitInfoWire.
(** marshal.cpp:2040-2040. *)
Definition kCommandBufferSubmitInfoWireBytes : Z := packed_size CommandBufferSubmitInfoWire.

(** A checked element: the guard gives the structure type. *)
Lemma stype_guard sType v (nonnull : bool) bs x :
  wguard (negb (negb (sType =? v) || nonnull)) ;;; emit x = (true, bs) -> sType = v /\ bs = x.
Proof.
  intros Hw. apply guarded_true in Hw as [Hg Hw]. apply emit_true in Hw as ->.
  apply negb_true_iff, orb_false_iff in Hg as [Hg _]. bool_hyps. done.
Qed.

(** The length of an encoded element. *)
Ltac wire_length :=
  intros x b Hw; destruct x;
  repeat match goal with y : VkImageSubresourceRange.t |- _ => destruct y end;
  apply stype_guard in Hw as [_ ->]; rewrite !length_app; rewrite ?length_writer_u32, ?length_writer_u64, ?length_writer_i32, ?length_writer_handle;
  vm_compute; discriminate.

(** ** Barriers *)
Section DependencyInfo.
Context {HR : HandleResolver}.
Import VkDependencyInfo.

(** One barrier; marshal.cpp:2053-2053. *)
Definition write_memory_barrier2 (x : VkMemoryBarrier2.t) : W :=
  let '(VkMemoryBarrier2.mk sType pNext a b c d) := x in
  wguard (negb (negb (sType =? VK_STRUCTURE_TYPE_MEMORY_BARRIER_2) || negb (is_null pNext))) ;;;
  emit (Writer.u64 a ++ Writer.u64 b ++ Writer.u64 c ++ Writer.u64 d).

(** One barrier; marshal.cpp:2055-2055. *)
Definition write_buffer_barrier2 (x : VkBufferMemoryBarrier2.t) : W :=
  let '(VkBufferMemoryBarrier2.mk sType pNext a b c d e f buffer offset size) := x in
  wguard (negb (negb (sType =? VK_STRUCTURE_TYPE_BUFFER_MEMORY_BARRIER_2) ||
                negb (is_null pNext))) ;;;
  emit (Writer.u64 a ++ Writer.u64 b ++ Writer.u64 c ++ Writer.u64 d ++ Writer.u32 e ++
        Writer.u32 f ++ Writer.handle buffer ++ Writer.u64 offset ++ Writer.u64 size).

(** One barrier; marshal.cpp:2057-2057. *)
Definition write_image_barrier2 (x : VkImageMemoryBarrier2.t) : W :=
  let '(VkImageMemoryBarrier2.mk sType pNext a b c d oldLayout newLayout e f image
          (VkImageSubresourceRange.mk g h i j k)) := x in
  wguard (negb (negb (sType =? VK_STRUCTURE_TYPE_IMAGE_MEMORY_BARRIER_2) ||
                negb (is_null pNext))) ;;;
  emit (Writer.u64 a ++ Writer.u64 b ++ Writer.u64 c ++ Writer.u64 d ++ Writer.i32 oldLayout ++
        Writer.i32 newLayout ++ Writer.u32 e ++ Writer.u32 f ++ Writer.handle image ++
        Writer.u32 g ++ Writer.u32 h ++ Writer.u32 i ++ Writer.u32 j ++ Writer.u32 k).

(** marshal.cpp:2043-2059. *)
Definition write_DependencyInfo (s : t) : W :=
  wguard (negb (negb (sType s =? VK_STRUCTURE_TYPE_DEPENDENCY_INFO) || negb (is_null (pNext s)) ||
                (kMaxArrayElements <? memoryBarrierCount s) ||
                (kMaxArrayElements <? bufferMemoryBarrierCount s) ||
                (kMaxArrayElements <? imageMemoryBarrierCount s) ||
                missing (memoryBarrierCount s) (pMemoryBarriers s) ||
                missing (bufferMemoryBarrierCount s) (pBufferMemoryBarriers s) ||
                missing (imageMemoryBarrierCount s) (pImageMemoryBarriers s))) ;;;
  emit (Writer.u32 (dependencyFlags s)) ;;;
  (emit (Writer.u32 (memoryBarrierCount s)) ;;;
   wfor write_memory_barrier2 (arr (pMemoryBarriers s) (memoryBarrierCount s))) ;;;
  (emit (Writer.u32 (bufferMemoryBarrierCount s)) ;;;
   wfor write_buffer_barrier2 (arr (pBufferMemoryBarriers s) (bufferMemoryBarrierCount s))) ;;;
  (emit (Writer.u32 (imageMemoryBarrierCount s)) ;;;
   wfor write_image_barrier2 (arr (pImageMemoryBarriers s) (imageMemoryBarrierCount s))).

(** One element; marshal.cpp:2061-2061. *)
Definition read_memory_barrier2 : Rd VkMemoryBarrier2.t :=
  a <- r_u64 ; b <- r_u64 ; c <- r_u64 ; d <- r_u64 ;
  rret (VkMemoryBarrier2.mk VK_STRUCTURE_TYPE_MEMORY_BARRIER_2 Null a b c d).

(** One element; marshal.cpp:2061-2061. *)
Definition read_buffer_barrier2 : Rd VkBufferMemoryBarrier2.t :=
  a <- r_u64 ; b <- r_u64 ; c <- r_u64 ; d <- r_u64 ; e <- r_u32 ; f <- r_u32 ;
  id <- r_handle ; offset <- r_u64 ; size <- r_u64 ;
  rguard (negb (dangling id (hr_buffer id))) ;!
  rret (VkBufferMemoryBarrier2.mk VK_STRUCTURE_TYPE_BUFFER_MEMORY_BARRIER_2 Null a b c d e f
          (hr_buffer id) offset size).

(** One element; marshal.cpp:2061-2061. *)
Definition read_image_barrier2 : Rd VkImageMemoryBarrier2.t :=
  a <- r_u64 ; b <- r_u64 ; c <- r_u64 ; d <- r_u64 ; oldLayout <- r_i32 ; newLayout <- r_i32 ;
  e <- r_u32 ; f <- r_u32 ; id <- r_handle ;
  g <- r_u32 ; h <- r_u32 ; i <- r_u32 ; j <- r_u32 ; k <- r_u32 ;
  rguard (negb (dangling id (hr_image id))) ;!
  rret (VkImageMemoryBarrier2.mk VK_STRUCTURE_TYPE_IMAGE_MEMORY_BARRIER_2 Null a b c d
          oldLayout newLayout e f (hr_image id) (VkImageSubresourceRange.mk g h i j k)).

(** marshal.cpp:2061-2061. *)
Definition read_DependencyInfo : Rd t :=
  flags <- r_u32 ;
  m <- read_bounded false kMemoryBarrier2WireBytes read_memory_barrier2 ;
  b <- read_bounded false kBufferMemoryBarrier2WireBytes read_buffer_barrier2 ;
  i <- read_bounded false kImageMemoryBarrier2WireBytes read_image_barrier2 ;
  r_ok ;!
  rret (mk VK_STRUCTURE_TYPE_DEPENDENCY_INFO Null flags (fst m) (snd m) (fst b) (snd b)
          (fst i) (snd i)).

Definition memory_barrier2_ok (x : VkMemoryBarrier2.t) : Prop :=
  let '(VkMemoryBarrier2.mk _ _ a b c d) := x in Forall is_u64 [a; b; c; d].

Definition buffer_barrier2_ok (x : VkBufferMemoryBarrier2.t) : Prop :=
  let '(VkBufferMemoryBarrier2.mk _ _ a b c d e f buffer offset size) := x in
  Forall is_u64 [a; b; c; d; buffer; offset; size] /\ Forall is_u32 [e; f] /\
  resolvable hr_buffer buffer.

Definition image_barrier2_ok (x : VkImageMemoryBarrier2.t) : Prop :=
  let '(VkImageMemoryBarrier2.mk _ _ a b c d oldLayout newLayout e f image
          (VkImageSubresourceRange.mk g h i j k)) := x in
  Forall is_u64 [a; b; c; d; image] /\ Forall is_i32 [oldLayout; newLayout] /\
  Forall is_u32 [e; f; g; h; i; j; k] /\ resolvable hr_image image.

(** The received barrier: same members, no chain, the server's handle. *)
Definition memory_barrier2_recv (x : VkMemoryBarrier2.t) : VkMemoryBarrier2.t :=
  let '(VkMemoryBarrier2.mk sType _ a b c d) := x in VkMemoryBarrier2.mk sType Null a b c d.

Definition buffer_barrier2_recv (x : VkBufferMemoryBarrier2.t) : VkBufferMemoryBarrier2.t :=
  let '(VkBufferMemoryBarrier2.mk sType _ a b c d e f buffer offset size) := x in
  VkBufferMemoryBarrier2.mk sType Null a b c d e f (hr_buffer buffer) offset size.

Definition image_barrier2_recv (x : VkImageMemoryBarrier2.t) : VkImageMemoryBarrier2.t :=
  let '(VkImageMemoryBarrier2.mk sType _ a b c d oldLayout newLayout e f image range) := x in
  VkImageMemoryBarrier2.mk sType Null a b c d oldLayout newLayout e f (hr_image image) range.

Lemma reads_memory_barrier2 rest x b : write_memory_barrier2 x = (true, b) ->
  memory_barrier2_ok x -> reads_at rest read_memory_barrier2 b (memory_barrier2_recv x).
Proof.
  destruct x. intros Hw Hok. apply stype_guard in Hw as [-> ->]. cbn in Hok. forall_hyps.
  unfold read_memory_barrier2. reads_parts.
Qed.

Lemma reads_buffer_barrier2 rest x b : write_buffer_barrier2 x = (true, b) ->
  buffer_barrier2_ok x -> reads_at rest read_buffer_barrier2 b (buffer_barrier2_recv x).
Proof.
  destruct x. intros Hw (H1 & H2 & Hres). apply stype_guard in Hw as [-> ->]. forall_hyps.
  apply not_dangling in Hres. unfold read_buffer_barrier2. reads_parts.
Qed.

Lemma reads_image_barrier2 rest x b : write_image_barrier2 x = (true, b) ->
  image_barrier2_ok x -> reads_at rest read_image_barrier2 b (image_barrier2_recv x).
Proof.
  destruct x as [? ? ? ? ? ? ? ? ? ? ? []]. intros Hw (H1 & H2 & H3 & Hres).
  apply stype_guard in Hw as [-> ->]. forall_hyps. apply not_dangling in Hres.
  unfold read_image_barrier2. reads_parts.
Qed.

Lemma memory_barrier2_length x b : write_memory_barrier2 x = (true, b) ->
  kMemoryBarrier2WireBytes <= Z.of_nat (length b).
Proof. revert x b. wire_length. Qed.

Lemma buffer_barrier2_length x b : write_buffer_barrier2 x = (true, b) ->
  kBufferMemoryBarrier2WireBytes <= Z.of_nat (length b).
Proof. revert x b. wire_length. Qed.

Lemma image_barrier2_length x b : write_image_barrier2 x = (true, b) ->
  kImageMemoryBarrier2WireBytes <= Z.of_nat (length b).
Proof. revert x b. wire_length. Qed.

Definition DependencyInfo_ok (s : t) : Prop :=
  is_u32 (dependencyFlags s) /\
  structs_ok memory_barrier2_ok (memoryBarrierCount s) (pMemoryBarriers s) /\
  structs_ok buffer_barrier2_ok (bufferMemoryBarrierCount s) (pBufferMemoryBarriers s) /\
  structs_ok image_barrier2_ok (imageMemoryBarrierCount s) (pImageMemoryBarriers s).

(** A dependency the client can encode reaches the server barrier by
    barrier, buffers and images resolved; the packed sizes that bound the
    counts are the sizes of the encodings, so no well-formed request is
    refused by them. *)
Theorem dependency_info_roundtrip rest s bs :
  write_DependencyInfo s = (true, bs) -> DependencyInfo_ok s ->
  reads_at rest read_DependencyInfo bs
    (mk (sType s) Null (dependencyFlags s)
       (memoryBarrierCount s)
       (structs_recv memory_barrier2_recv (memoryBarrierCount s) (pMemoryBarriers s))
       (bufferMemoryBarrierCount s)
       (structs_recv buffer_barrier2_recv (bufferMemoryBarrierCount s) (pBufferMemoryBarriers s))
       (imageMemoryBarrierCount s)
       (structs_recv image_barrier2_recv (imageMemoryBarrierCount s) (pImageMemoryBarriers s))).
Proof.
  intros Hw (Hf & Hm & Hb & Hi). apply guarded_true in Hw as [Hg Hw].
  apply negb_true_iff in Hg. do 7 (apply orb_false_iff in Hg as [Hg _]). bool_hyps.
  apply emit_then_true in Hw as (b0 & Hw & ->).
  apply wseq_true in Hw as (b1 & b' & H1 & Hw & ->).
  apply wseq_true in Hw as (b2 & b3 & H2 & H3 & ->).
  apply emit_then_true in H1 as (c1 & H1 & ->). apply emit_then_true in H2 as (c2 & H2 & ->).
  apply emit_then_true in H3 as (c3 & H3 & ->).
  unfold read_DependencyInfo. eapply reads_bind; [by apply reads_u32|].
  eapply reads_bind.
  { eapply (reads_bounded _ _ _ _ _ _ _ _ _ _ reads_memory_barrier2 memory_barrier2_length);
      by try eassumption. }
  eapply reads_bind.
  { eapply (reads_bounded _ _ _ _ _ _ _ _ _ _ reads_buffer_barrier2 buffer_barrier2_length);
      by try eassumption. }
  eapply reads_bind_last.
  { eapply (reads_bounded _ _ _ _ _ _ _ _ _ _ reads_image_barrier2 image_barrier2_length);
      by try eassumption. }
  eapply reads_bind_nil; [apply reads_ok|]. rewrite Hg. apply reads_ret.
Qed.

Lemma safe_DependencyInfo : rd_safe read_DependencyInfo.
Proof.
  unfold read_DependencyInfo, read_memory_barrier2, read_buffer_barrier2, read_image_barrier2.
  rd_safe_tac.
Qed.
End DependencyInfo.

(** ** Submissions *)
Section SubmitInfo2.
Context {HR : HandleResolver}.
Import VkSubmitInfo2.

(** One semaphore; marshal.cpp:2063-2063. *)
Definition write_semaphore_submit (x : VkSemaphoreSubmitInfo.t) : W :=
  let '(VkSemaphoreSubmitInfo.mk sType pNext semaphore value stageMask deviceIndex) := x in
  wguard (negb (negb (sType =? VK_STRUCTURE_TYPE_SEMAPHORE_SUBMIT_INFO) ||
                negb (is_null pNext))) ;;;
  emit (Writer.handle semaphore ++ Writer.u64 value ++ Writer.u64 stageMask ++
        Writer.u32 deviceIndex).

(** One command buffer: a dispatchable handle, whose id the caller's function
    knows; marshal.cpp:2063-2063. *)
Definition write_command_buffer_submit (command_buffer_id : option (Z -> Z))
    (x : VkCommandBufferSubmitInfo.t) : W :=
  let '(VkCommandBufferSubmitInfo.mk sType pNext commandBuffer deviceMask) := x in
  wguard (negb (negb (sType =? VK_STRUCTURE_TYPE_COMMAND_BUFFER_SUBMIT_INFO) ||
                negb (is_null pNext))) ;;;
  emit (Writer.handle (match command_buffer_id with
                       | Some f => f commandBuffer | None => commandBuffer end) ++
        Writer.u32 deviceMask).

(** marshal.cpp:2063-2063. *)
Definition write_SubmitInfo2 (s : t) (command_buffer_id : option (Z -> Z)) : W :=
  wguard (negb (negb (sType s =? VK_STRUCTURE_TYPE_SUBMIT_INFO_2) || negb (is_null (pNext s)) ||
                (kMaxArrayElements <? waitSemaphoreInfoCount s) ||
                (kMaxArrayElements <? commandBufferInfoCount s) ||
                (kMaxArrayElements <? signalSemaphoreInfoCount s) ||
                missing (waitSemaphoreInfoCount s) (pWaitSemaphoreInfos s) ||
                missing (commandBufferInfoCount s) (pCommandBufferInfos s) ||
                missing (signalSemaphoreInfoCount s) (pSignalSemaphoreInfos s))) ;;;
  emit (Writer.u32 (flags s)) ;;;
  (emit (Writer.u32 (waitSemaphoreInfoCount s)) ;;;
   wfor write_semaphore_submit (arr (pWaitSemaphoreInfos s) (waitSemaphoreInfoCount s))) ;;;
  (emit (Writer.u32 (commandBufferInfoCount s)) ;;;
   wfor (write_command_buffer_submit command_buffer_id)
     (arr (pCommandBufferInfos s) (commandBufferInfoCount s))) ;;;
  (emit (Writer.u32 (signalSemaphoreInfoCount s)) ;;;
   wfor write_semaphore_submit (arr (pSignalSemaphoreInfos s) (signalSemaphoreInfoCount s))).

(** One element; marshal.cpp:2065-2065. *)
Definition read_semaphore_submit : Rd VkSemaphoreSubmitInfo.t :=
  id <- r_handle ; value <- r_u64 ; stageMask <- r_u64 ; deviceIndex <- r_u32 ;
  rguard (negb (dangling id (hr_semaphore id))) ;!
  rret (VkSemaphoreSubmitInfo.mk VK_STRUCTURE_TYPE_SEMAPHORE_SUBMIT_INFO Null (hr_semaphore id)
          value stageMask deviceIndex).

(** One element; marshal.cpp:2065-2065. *)
Definition read_command_buffer_submit : Rd VkCommandBufferSubmitInfo.t :=
  id <- r_handle ; deviceMask <- r_u32 ;
  rguard (negb (dangling id (hr_command_buffer id))) ;!
  rret (VkCommandBufferSubmitInfo.mk VK_STRUCTURE_TYPE_COMMAND_BUFFER_SUBMIT_INFO Null
          (hr_command_buffer id) deviceMask).

(** marshal.cpp:2065-2065. *)
Definition read_SubmitInfo2 : Rd t :=
  flags <- r_u32 ;
  w <- read_bounded false kSemaphoreSubmitInfoWireBytes read_semaphore_submit ;
  c <- read_bounded false kCommandBufferSubmitInfoWireBytes read_command_buffer_submit ;
  s <- read_bounded false kSemaphoreSubmitInfoWireBytes read_semaphore_submit ;
  r_ok ;!
  rret (mk VK_STRUCTURE_TYPE_SUBMIT_INFO_2 Null flags (fst w) (snd w) (fst c) (snd c)
          (fst s) (snd s)).

Definition semaphore_submit_ok (x : VkSemaphoreSubmitInfo.t) : Prop :=
  let '(VkSemaphoreSubmitInfo.mk _ _ semaphore value stageMask deviceIndex) := x in
  Forall is_u64 [semaphore; value; stageMask] /\ is_u32 deviceIndex /\
  resolvable hr_semaphore semaphore.

Definition command_buffer_submit_ok (id_of : Z -> Z) (x : VkCommandBufferSubmitInfo.t) : Prop :=
  let '(VkCommandBufferSubmitInfo.mk _ _ commandBuffer deviceMask) := x in
  is_u64 (id_of commandBuffer) /\ is_u32 deviceMask /\
  resolvable hr_command_buffer (id_of commandBuffer).

Definition semaphore_submit_recv (x : VkSemaphoreSubmitInfo.t) : VkSemaphoreSubmitInfo.t :=
  let '(VkSemaphoreSubmitInfo.mk sType _ semaphore value stageMask deviceIndex) := x in
  VkSemaphoreSubmitInfo.mk sType Null (hr_semaphore semaphore) value stageMask deviceIndex.

Definition command_buffer_submit_recv (id_of : Z -> Z) (x : VkCommandBufferSubmitInfo.t) :
    VkCommandBufferSubmitInfo.t :=
  let '(VkCommandBufferSubmitInfo.mk sType _ commandBuffer deviceMask) := x in
  VkCommandBufferSubmitInfo.mk sType Null (hr_command_buffer (id_of commandBuffer)) deviceMask.

(** The id of a command buffer, as the caller's function gives it. *)
Definition id_function (f : option (Z -> Z)) : Z -> Z :=
  match f with Some g => g | None => fun cb => cb end.

Lemma reads_semaphore_submit rest x b : write_semaphore_submit x = (true, b) ->
  semaphore_submit_ok x -> reads_at rest read_semaphore_submit b (semaphore_submit_recv x).
Proof.
  destruct x. intros Hw (H1 & H2 & Hres). apply stype_guard in Hw as [-> ->]. forall_hyps.
  apply not_dangling in Hres. unfold read_semaphore_submit. reads_parts.
Qed.

Lemma reads_command_buffer_submit f rest x b : write_command_buffer_submit f x = (true, b) ->
  command_buffer_submit_ok (id_function f) x ->
  reads_at rest read_command_buffer_submit b (command_buffer_submit_recv (id_function f) x).
Proof.
  destruct x. intros Hw (H1 & H2 & Hres). apply stype_guard in Hw as [-> ->].
  apply not_dangling in Hres. unfold read_command_buffer_submit.
  destruct f; cbn [id_function] in *; reads_parts.
Qed.

Lemma semaphore_submit_length x b : write_semaphore_submit x = (true, b) ->
  kSemaphoreSubmitInfoWireBytes <= Z.of_nat (length b).
Proof. revert x b. wire_length. Qed.

Lemma command_buffer_submit_length f x b : write_command_buffer_submit f x = (true, b) ->
  kCommandBufferSubmitInfoWireBytes <= Z.of_nat (length b).
Proof. revert x b. wire_length. Qed.

Definition SubmitInfo2_ok (id_of : Z -> Z) (s : t) : Prop :=
  is_u32 (flags s) /\
  structs_ok semaphore_submit_ok (waitSemaphoreInfoCount s) (pWaitSemaphoreInfos s) /\
  structs_ok (command_buffer_submit_ok id_of) (commandBufferInfoCount s) (pCommandBufferInfos s) /\
  structs_ok semaphore_submit_ok (signalSemaphoreInfoCount s) (pSignalSemaphoreInfos s).

(** A submission the client can encode reaches the server with the same wait
    and signal values, in the same order, every semaphore and command buffer
    resolved from its id. *)
Theorem submit_info2_roundtrip rest s f bs :
  write_SubmitInfo2 s f = (true, bs) -> SubmitInfo2_ok (id_function f) s ->
  reads_at rest read_SubmitInfo2 bs
    (mk (sType s) Null (flags s)
       (waitSemaphoreInfoCount s)
       (structs_recv semaphore_submit_recv (waitSemaphoreInfoCount s) (pWaitSemaphoreInfos s))
       (commandBufferInfoCount s)
       (structs_recv (command_buffer_submit_recv (id_function f)) (commandBufferInfoCount s)
          (pCommandBufferInfos s))
       (signalSemaphoreInfoCount s)
       (structs_recv semaphore_submit_recv (signalSemaphoreInfoCount s)
          (pSignalSemaphoreInfos s))).
Proof.
  intros Hw (Hf & Hm & Hb & Hi). apply guarded_true in Hw as [Hg Hw].
  apply negb_true_iff in Hg. do 7 (apply orb_false_iff in Hg as [Hg _]). bool_hyps.
  apply emit_then_true in Hw as (b0 & Hw & ->).
  apply wseq_true in Hw as (b1 & b' & H1 & Hw & ->).
  apply wseq_true in Hw as (b2 & b3 & H2 & H3 & ->).
  apply emit_then_true in H1 as (c1 & H1 & ->). apply emit_then_true in H2 as (c2 & H2 & ->).
  apply emit_then_true in H3 as (c3 & H3 & ->).
  unfold read_SubmitInfo2. eapply reads_bind; [by apply reads_u32|].
  eapply reads_bind.
  { eapply (reads_bounded _ _ _ _ _ _ _ _ _ _ reads_semaphore_submit semaphore_submit_length);
      by try eassumption. }
  eapply reads_bind.
  { eapply (reads_bounded _ _ _ _ _ _ _ _ _ _ (reads_command_buffer_submit f)
              (command_buffer_submit_length f)); by try eassumption. }
  eapply reads_bind_last.
  { eapply (reads_bounded _ _ _ _ _ _ _ _ _ _ reads_semaphore_submit semaphore_submit_length);
      by try eassumption. }
  eapply reads_bind_nil; [apply reads_ok|]. rewrite Hg. apply reads_ret.
Qed.

Lemma safe_SubmitInfo2 : rd_safe read_SubmitInfo2.
Proof.
  unfold read_SubmitInfo2, read_semaphore_submit, read_command_buffer_submit. rd_safe_tac.
Qed.
End SubmitInfo2.

#[export] Hint Resolve safe_DependencyInfo safe_SubmitInfo2 : rdsafe.
