(* ===== verification/MarshalRenderPass2.v ===== *)
(** [VkRenderPassCreateInfo2] of [src/common/marshal.cpp] (lines 1014-1102),
    encoded member by member down to the attachment references. *)

From stdpp Require Import list.
From S2P Require Import Prelude Wire Codec CLayout VkStructs PNext PNextFacts MarshalBase Marshal.
From S2P Require Import VkCreateInfos MarshalSync.
Import ReaderFacts.
Open Scope wire_scope.

(** ** Attachment references *)
Section References.

(** marshal.cpp:1016-1020. *)
Definition write_attachment_reference2_full (s : VkAttachmentReference2.t) : W :=
  wguard (negb (negb (VkAttachmentReference2.sType s =? VK_STRUCTURE_TYPE_ATTACHMENT_REFERENCE_2) ||
                negb (is_null (VkAttachmentReference2.pNext s)))) ;;;
  emit (write_attachment_reference2 s).

Definition attachment_reference2_ok (s : VkAttachmentReference2.t) : Prop :=
  is_u32 (VkAttachmentReference2.attachment s) /\ is_i32 (VkAttachmentReference2.layout s) /\
  is_u32 (VkAttachmentReference2.aspectMask s).

Definition recv_attachment_reference2 (s : VkAttachmentReference2.t) : VkAttachmentReference2.t :=
  let '(VkAttachmentReference2.mk sType _ attachment layout aspectMask) := s in
  VkAttachmentReference2.mk sType Null attachment layout aspectMask.

Lemma reads_attachment_reference2 rest s b : write_attachment_reference2_full s = (true, b) ->
  attachment_reference2_ok s ->
  reads_at rest read_attachment_reference2 b (recv_attachment_reference2 s).
Proof.
  destruct s. intros Hw (Ha & Hl & Hm). apply stype_guard in Hw as [Hs ->]. cbn in *.
  unfold read_attachment_reference2, write_attachment_reference2. cbn.
  eapply reads_bind; [apply reads_i32; rewrite Hs; by apply small_i32|].
  apply Z.eqb_eq in Hs. reads_parts.
Qed.

Lemma attachment_reference2_length s b : write_attachment_reference2_full s = (true, b) ->
  16 <= Z.of_nat (length b).
Proof.
  intros Hw. apply stype_guard in Hw as [_ ->]. unfold write_attachment_reference2.
  rewrite !length_app. rewrite ?length_writer_u32, ?length_writer_i32. lia.
Qed.

(** A counted array of references. *)
Lemma reads_references rest n p bs : structs_ok attachment_reference2_ok n p ->
  wfor write_attachment_reference2_full (arr p n) = (true, bs) ->
  reads_at rest (read_bounded true 16 read_attachment_reference2) (Writer.u32 n ++ bs)
    (n, structs_recv recv_attachment_reference2 n p).
Proof.
  intros Hok Hw. eapply (reads_bounded _ _ _ _ _ _ _ _ _ _ reads_attachment_reference2
    attachment_reference2_length); by try eassumption.
Qed.

(** The same after its count. *)
Lemma reads_references_body rest n p bs : structs_ok attachment_reference2_ok n p ->
  wfor write_attachment_reference2_full (arr p n) = (true, bs) ->
  reads_at rest (rfor (Z.to_nat n) read_attachment_reference2) bs
    (map recv_attachment_reference2 (arr p n)).
Proof.
  intros (Hn & Hl & Hok) Hw. apply wfor_true in Hw as (bss & HF & ->).
  replace (Z.to_nat n) with (length (arr p n)) by lia.
  apply (reads_for _ _ (fun x b => write_attachment_reference2_full x = (true, b) /\
                                   attachment_reference2_ok x)).
  - clear -HF Hok. induction HF; forall_hyps; constructor; auto.
  - intros x b rest' [Hx Hk]. by apply reads_attachment_reference2.
Qed.

End References.

(** ** Subpasses *)
Section Subpass.
Context `{Abi} {HR : HandleResolver}.
Import VkSubpassDescription2.

(** marshal.cpp:1022-1050. *)
Definition write_subpass_description2 (s : t) : W :=
  wguard (negb (negb (sType s =? VK_STRUCTURE_TYPE_SUBPASS_DESCRIPTION_2) ||
                (kMaxArrayElements <? inputAttachmentCount s) ||
                (kMaxArrayElements <? colorAttachmentCount s) ||
                (kMaxArrayElements <? preserveAttachmentCount s) ||
                missing (inputAttachmentCount s) (pInputAttachments s) ||
                missing (colorAttachmentCount s) (pColorAttachments s) ||
                missing (preserveAttachmentCount s) (pPreserveAttachments s))) ;;;
  transact
    (emit (Writer.i32 (sType s) ++ Writer.u32 (flags s) ++ Writer.i32 (pipelineBindPoint s) ++
           Writer.u32 (viewMask s)) ;;;
     write_pnext_chain RenderPass2 (pNext s) 0 ;;;
     (emit (Writer.u32 (inputAttachmentCount s)) ;;;
      wfor write_attachment_reference2_full
        (arr (pInputAttachments s) (inputAttachmentCount s))) ;;;
     (emit (Writer.u32 (colorAttachmentCount s)) ;;;
      wfor write_attachment_reference2_full
        (arr (pColorAttachments s) (colorAttachmentCount s))) ;;;
     (emit (Writer.u32 (if is_null (pResolveAttachments s) then 0 else 1)) ;;;
      (if is_null (pResolveAttachments s) then emit []
       else wfor write_attachment_reference2_full
              (arr (pResolveAttachments s) (colorAttachmentCount s)))) ;;;
     (emit (Writer.u32 (if is_null (pDepthStencilAttachment s) then 0 else 1)) ;;;
      match pDepthStencilAttachment s with
      | Ref a => write_attachment_reference2_full a
      | _ => emit []
      end) ;;;
     emit (Writer.u32 (preserveAttachmentCount s) ++
           u32s (arr (pPreserveAttachments s) (preserveAttachmentCount s)))).

(** marshal.cpp:1052-1073. *)
Definition read_subpass_description2 : Rd t :=
  sType <- r_i32 ; flags <- r_u32 ; bindPoint <- r_i32 ; viewMask <- r_u32 ;
  r_ok ;! rguard (sType =? VK_STRUCTURE_TYPE_SUBPASS_DESCRIPTION_2) ;!
  next <- read_pnext_chain RenderPass2 0 ;
  input <- read_bounded true 16 read_attachment_reference2 ;
  color <- read_bounded true 16 read_attachment_reference2 ;
  present <- r_u32 ; r_ok ;! rguard (negb (1 <? present)) ;!
  resolve <- (if present =? 0 then rret Null
              else xs <- rfor (Z.to_nat (fst color)) read_attachment_reference2 ;
                   rret (arr_ptr xs)) ;
  present <- r_u32 ; r_ok ;! rguard (negb (1 <? present)) ;!
  depth <- (if present =? 0 then rret Null
            else a <- read_attachment_reference2 ; rret (Ref a)) ;
  preserve <- read_bounded true 4 r_u32 ;
  r_ok ;!
  rret (mk sType next flags bindPoint viewMask (fst input) (snd input) (fst color) (snd color)
          resolve depth (fst preserve) (snd preserve)).

Definition opt_reference_ok (p : ptr VkAttachmentReference2.t) : Prop :=
  match p with Null => True | Wild _ => False | Ref a => attachment_reference2_ok a end.

Definition opt_references_ok (n : Z) (p : ptr (list VkAttachmentReference2.t)) : Prop :=
  match p with
  | Null => True | Wild _ => False | Ref _ => structs_ok attachment_reference2_ok n p
  end.

Definition subpass_description2_ok (s : t) : Prop :=
  Forall is_i32 [sType s; pipelineBindPoint s] /\ Forall is_u32 [flags s; viewMask s] /\
  chain_ok RenderPass2 (pNext s) /\
  structs_ok attachment_reference2_ok (inputAttachmentCount s) (pInputAttachments s) /\
  structs_ok attachment_reference2_ok (colorAttachmentCount s) (pColorAttachments s) /\
  opt_references_ok (colorAttachmentCount s) (pResolveAttachments s) /\
  opt_reference_ok (pDepthStencilAttachment s) /\
  structs_ok is_u32 (preserveAttachmentCount s) (pPreserveAttachments s).

Definition recv_subpass_description2 (s : t) : t :=
  mk (sType s) (chain_recv RenderPass2 (pNext s)) (flags s) (pipelineBindPoint s) (viewMask s)
    (inputAttachmentCount s)
    (structs_recv recv_attachment_reference2 (inputAttachmentCount s) (pInputAttachments s))
    (colorAttachmentCount s)
    (structs_recv recv_attachment_reference2 (colorAttachmentCount s) (pColorAttachments s))
    (structs_recv recv_attachment_reference2 (colorAttachmentCount s) (pResolveAttachments s))
    (match pDepthStencilAttachment s with
     | Ref a => Ref (recv_attachment_reference2 a) | _ => Null end)
    (preserveAttachmentCount s)
    (structs_recv (fun v => v) (preserveAttachmentCount s) (pPreserveAttachments s)).

(** The optional arrays: a flag, then the references when it is 1. *)
Lemma reads_opt_references {B} rest n p bs b2 (f : ptr (list VkAttachmentReference2.t) -> Rd B) y :
  (emit (Writer.u32 (if is_null p then 0 else 1)) ;;;
   (if is_null p then emit [] else wfor write_attachment_reference2_full (arr p n)))
    = (true, bs) ->
  opt_references_ok n p ->
  reads_at rest (f (structs_recv recv_attachment_reference2 n p)) b2 y ->
  reads_at rest
    (present <- r_u32 ; r_ok ;! rguard (negb (1 <? present)) ;!
     resolve <- (if present =? 0 then rret Null
                 else xs <- rfor (Z.to_nat n) read_attachment_reference2 ; rret (arr_ptr xs)) ;
     f resolve) (bs ++ b2) y.
Proof.
  intros Hw Hok Hf. apply emit_then_true in Hw as (b & Hw & ->). rewrite <- app_assoc.
  destruct p as [|a|xs]; cbn [is_null] in *; [|done|].
  - apply emit_true in Hw as ->. eapply reads_bind; [apply reads_u32, is_u32_0|].
    eapply reads_bind_nil; [apply reads_ok|]. eapply reads_bind_nil; [by apply reads_guard|].
    cbn [Z.eqb]. eapply reads_bind_nil; [apply reads_ret|]. exact Hf.
  - eapply reads_bind; [apply reads_u32, is_u32_1|].
    eapply reads_bind_nil; [apply reads_ok|]. eapply reads_bind_nil; [by apply reads_guard|].
    cbn [Z.eqb]. eapply reads_bind; [|exact Hf].
    eapply reads_bind_last; [by apply reads_references_body|]. apply reads_ret.
Qed.

Lemma reads_opt_reference {B} rest p bs b2 (f : ptr VkAttachmentReference2.t -> Rd B) y :
  (emit (Writer.u32 (if is_null p then 0 else 1)) ;;;
   match p with Ref a => write_attachment_reference2_full a | _ => emit [] end) = (true, bs) ->
  opt_reference_ok p ->
  reads_at rest (f (match p with Ref a => Ref (recv_attachment_reference2 a) | _ => Null end))
    b2 y ->
  reads_at rest
    (present <- r_u32 ; r_ok ;! rguard (negb (1 <? present)) ;!
     depth <- (if present =? 0 then rret Null
               else a <- read_attachment_reference2 ; rret (Ref a)) ;
     f depth) (bs ++ b2) y.
Proof.
  intros Hw Hok Hf. apply emit_then_true in Hw as (b & Hw & ->). rewrite <- app_assoc.
  destruct p as [|a|a]; cbn [is_null] in *; [|done|].
  - apply emit_true in Hw as ->. eapply reads_bind; [apply reads_u32, is_u32_0|].
    eapply reads_bind_nil; [apply reads_ok|]. eapply reads_bind_nil; [by apply reads_guard|].
    cbn [Z.eqb]. eapply reads_bind_nil; [apply reads_ret|]. exact Hf.
  - eapply reads_bind; [apply reads_u32, is_u32_1|].
    eapply reads_bind_nil; [apply reads_ok|]. eapply reads_bind_nil; [by apply reads_guard|].
    cbn [Z.eqb]. eapply reads_bind; [|exact Hf].
    eapply reads_bind_last; [by apply reads_attachment_reference2|]. apply reads_ret.
Qed.

Lemma reads_preserve rest n p : structs_ok is_u32 n p ->
  reads_at rest (read_bounded true 4 r_u32) (Writer.u32 n ++ u32s (arr p n))
    (n, structs_recv (fun v => v) n p).
Proof.
  intros Hok. apply (reads_bounded_emit _ _ _ _ _ is_u32); [|intros x|done|done].
  - intros. by apply reads_u32.
  - by rewrite length_writer_u32.
Qed.

Lemma reads_subpass_description2 rest s bs : write_subpass_description2 s = (true, bs) ->
  subpass_description2_ok s ->
  reads_at rest read_subpass_description2 bs (recv_subpass_description2 s).
Proof.
  intros Hw (Hi & Hu & Hc & Hin & Hcol & Hres & Hdep & Hpre).
  apply guarded_true in Hw as [Hg Hw]. apply negb_true_iff in Hg.
  do 6 (apply orb_false_iff in Hg as [Hg _]). apply negb_false_iff in Hg.
  apply transact_true, emit_then_true in Hw as (b & Hw & ->). rewrite <- !app_assoc.
  apply wseq_true in Hw as (b1 & b1' & H1 & Hw & ->).
  apply wseq_true in Hw as (b2 & b2' & H2 & Hw & ->).
  apply wseq_true in Hw as (b3 & b3' & H3 & Hw & ->).
  apply wseq_true in Hw as (b4 & b4' & H4 & Hw & ->).
  apply wseq_true in Hw as (b5 & b5' & H5 & Hw & ->). apply emit_true in Hw as ->.
  apply emit_then_true in H2 as (c2 & H2 & ->). apply emit_then_true in H3 as (c3 & H3 & ->).
  forall_hyps. unfold read_subpass_description2.
  do 4 (eapply reads_bind; [first [by apply reads_i32|by apply reads_u32]|]).
  eapply reads_bind_nil; [apply reads_ok|]. eapply reads_bind_nil; [by apply reads_guard|].
  eapply reads_bind; [by apply reads_chain|].
  eapply reads_bind; [by apply reads_references|]. eapply reads_bind; [by apply reads_references|].
  cbn [fst]. eapply reads_opt_references; [exact H4|done|].
  eapply reads_opt_reference; [exact H5|done|].
  eapply reads_bind_last; [by apply reads_preserve|]. eapply reads_bind_nil; [apply reads_ok|].
  apply reads_ret.
Qed.

Lemma safe_subpass_description2 : rd_safe read_subpass_description2.
Proof. unfold read_subpass_description2. rd_safe_tac. Qed.
End Subpass.

#[export] Hint Resolve safe_subpass_description2 : rdsafe.

(** ** The render pass *)
Section RenderPassCreateInfo2.
Context `{Abi} {HR : HandleResolver}.
Import VkRenderPassCreateInfo2.

(** One attachment; marshal.cpp:1086-1086. *)
Definition write_attachment_description2 (a : VkAttachmentDescription2.t) : W :=
  let '(VkAttachmentDescription2.mk sType pNext flags f1 f2 f3 f4 f5 f6 f7 f8) := a in
  wguard (negb (negb (sType =? VK_STRUCTURE_TYPE_ATTACHMENT_DESCRIPTION_2) ||
                negb (is_null pNext))) ;;;
  emit (Writer.i32 sType ++ Writer.u32 flags ++ Writer.i32 f1 ++ Writer.i32 f2 ++
        Writer.i32 f3 ++ Writer.i32 f4 ++ Writer.i32 f5 ++ Writer.i32 f6 ++ Writer.i32 f7 ++
        Writer.i32 f8).

(** One dependency; marshal.cpp:1089-1089. *)
Definition write_subpass_dependency2 (d : VkSubpassDependency2.t) : W :=
  let '(VkSubpassDependency2.mk sType pNext m1 m2 m3 m4 m5 m6 m7 viewOffset) := d in
  wguard (negb (negb (sType =? VK_STRUCTURE_TYPE_SUBPASS_DEPENDENCY_2) ||
                negb (is_null pNext))) ;;;
  emit (Writer.i32 sType ++ Writer.u32 m1 ++ Writer.u32 m2 ++ Writer.u32 m3 ++ Writer.u32 m4 ++
        Writer.u32 m5 ++ Writer.u32 m6 ++ Writer.u32 m7 ++ Writer.i32 viewOffset).

(** marshal.cpp:1077-1091. *)
Definition write_RenderPassCreateInfo2 (s : t) : W :=
  wguard (negb (negb (sType s =? VK_STRUCTURE_TYPE_RENDER_PASS_CREATE_INFO_2) ||
                (kMaxArrayElements <? attachmentCount s) ||
                (kMaxArrayElements <? subpassCount s) ||
                (kMaxArrayElements <? dependencyCount s) ||
                (kMaxArrayElements <? correlatedViewMaskCount s) ||
                missing (attachmentCount s) (pAttachments s) ||
                missing (subpassCount s) (pSubpasses s) ||
                missing (dependencyCount s) (pDependencies s) ||
                missing (correlatedViewMaskCount s) (pCorrelatedViewMasks s))) ;;;
  transact
    (emit (Writer.i32 (sType s) ++ Writer.u32 (flags s)) ;;;
     write_pnext_chain RenderPass (pNext s) 0 ;;;
     (emit (Writer.u32 (attachmentCount s)) ;;;
      wfor write_attachment_description2 (arr (pAttachments s) (attachmentCount s))) ;;;
     (emit (Writer.u32 (subpassCount s)) ;;;
      wfor write_subpass_description2 (arr (pSubpasses s) (subpassCount s))) ;;;
     (emit (Writer.u32 (dependencyCount s)) ;;;
      wfor write_subpass_dependency2 (arr (pDependencies s) (dependencyCount s))) ;;;
     emit (Writer.u32 (correlatedViewMaskCount s) ++
           u32s (arr (pCorrelatedViewMasks s) (correlatedViewMaskCount s)))).

(** One attachment; marshal.cpp:1097-1097. *)
Definition read_attachment_description2 : Rd VkAttachmentDescription2.t :=
  sType <- r_i32 ; flags <- r_u32 ; f1 <- r_i32 ; f2 <- r_i32 ; f3 <- r_i32 ; f4 <- r_i32 ;
  f5 <- r_i32 ; f6 <- r_i32 ; f7 <- r_i32 ; f8 <- r_i32 ;
  r_ok ;! rguard (sType =? VK_STRUCTURE_TYPE_ATTACHMENT_DESCRIPTION_2) ;!
  rret (VkAttachmentDescription2.mk sType Null flags f1 f2 f3 f4 f5 f6 f7 f8).

(** One dependency; marshal.cpp:1100-1100. *)
Definition read_subpass_dependency2 : Rd VkSubpassDependency2.t :=
  sType <- r_i32 ; m1 <- r_u32 ; m2 <- r_u32 ; m3 <- r_u32 ; m4 <- r_u32 ; m5 <- r_u32 ;
  m6 <- r_u32 ; m7 <- r_u32 ; viewOffset <- r_i32 ;
  r_ok ;! rguard (sType =? VK_STRUCTURE_TYPE_SUBPASS_DEPENDENCY_2) ;!
  rret (VkSubpassDependency2.mk sType Null m1 m2 m3 m4 m5 m6 m7 viewOffset).

(** marshal.cpp:1093-1102. *)
Definition read_RenderPassCreateInfo2 : Rd t :=
  sType <- r_i32 ; flags <- r_u32 ;
  r_ok ;! rguard (sType =? VK_STRUCTURE_TYPE_RENDER_PASS_CREATE_INFO_2) ;!
  next <- read_pnext_chain RenderPass 0 ;
  attachments <- read_bounded true 40 read_attachment_description2 ;
  count <- r_u32 ; r_ok ;! rguard (negb (kMaxArrayElements <? count)) ;!
  subpasses <- rfor (Z.to_nat count) read_subpass_description2 ;
  dependencies <- read_bounded true 36 read_subpass_dependency2 ;
  masks <- read_bounded true 4 r_u32 ;
  r_ok ;!
  rret (mk sType next flags (fst attachments) (snd attachments) count (arr_ptr subpasses)
          (fst dependencies) (snd dependencies) (fst masks) (snd masks)).

Definition attachment_description2_ok (a : VkAttachmentDescription2.t) : Prop :=
  let '(VkAttachmentDescription2.mk _ _ flags f1 f2 f3 f4 f5 f6 f7 f8) := a in
  is_u32 flags /\ Forall is_i32 [f1; f2; f3; f4; f5; f6; f7; f8].

Definition subpass_dependency2_ok (d : VkSubpassDependency2.t) : Prop :=
  let '(VkSubpassDependency2.mk _ _ m1 m2 m3 m4 m5 m6 m7 viewOffset) := d in
  Forall is_u32 [m1; m2; m3; m4; m5; m6; m7] /\ is_i32 viewOffset.

Definition recv_attachment_description2 (a : VkAttachmentDescription2.t) :=
  let '(VkAttachmentDescription2.mk sType _ flags f1 f2 f3 f4 f5 f6 f7 f8) := a in
  VkAttachmentDescription2.mk sType Null flags f1 f2 f3 f4 f5 f6 f7 f8.

Definition recv_subpass_dependency2 (d : VkSubpassDependency2.t) :=
  let '(VkSubpassDependency2.mk sType _ m1 m2 m3 m4 m5 m6 m7 viewOffset) := d in
  VkSubpassDependency2.mk sType Null m1 m2 m3 m4 m5 m6 m7 viewOffset.

Lemma reads_attachment_description2 rest x b : write_attachment_description2 x = (true, b) ->
  attachment_description2_ok x ->
  reads_at rest read_attachment_description2 b (recv_attachment_description2 x).
Proof.
  destruct x as [sType ? ? ? ? ? ? ? ? ? ?]. intros Hw (Hu & Hi).
  apply stype_guard in Hw as [Hs ->]. forall_hyps.
  assert (is_i32 sType) by (rewrite Hs; by apply small_i32).
  unfold read_attachment_description2. apply Z.eqb_eq in Hs. reads_parts.
Qed.

Lemma reads_subpass_dependency2 rest x b : write_subpass_dependency2 x = (true, b) ->
  subpass_dependency2_ok x ->
  reads_at rest read_subpass_dependency2 b (recv_subpass_dependency2 x).
Proof.
  destruct x as [sType ? ? ? ? ? ? ? ? ?]. intros Hw (Hu & Hi).
  apply stype_guard in Hw as [Hs ->]. forall_hyps.
  assert (is_i32 sType) by (rewrite Hs; by apply small_i32).
  unfold read_subpass_dependency2. apply Z.eqb_eq in Hs. reads_parts.
Qed.

Lemma attachment_description2_length x b : write_attachment_description2 x = (true, b) ->
  40 <= Z.of_nat (length b).
Proof. revert x b. wire_length. Qed.

Lemma subpass_dependency2_length x b : write_subpass_dependency2 x = (true, b) ->
  36 <= Z.of_nat (length b).
Proof. revert x b. wire_length. Qed.

Lemma reads_subpasses rest n p bs : structs_ok subpass_description2_ok n p ->
  wfor write_subpass_description2 (arr p n) = (true, bs) ->
  reads_at rest (rfor (Z.to_nat n) read_subpass_description2) bs
    (map recv_subpass_description2 (arr p n)).
Proof.
  intros (Hn & Hl & Hok) Hw. apply wfor_true in Hw as (bss & HF & ->).
  replace (Z.to_nat n) with (length (arr p n)) by lia.
  apply (reads_for _ _ (fun x b => write_subpass_description2 x = (true, b) /\
                                   subpass_description2_ok x)).
  - clear -HF Hok. induction HF; forall_hyps; constructor; auto.
  - intros x b rest' [Hx Hk]. by apply reads_subpass_description2.
Qed.

Definition RenderPassCreateInfo2_ok (s : t) : Prop :=
  is_u32 (flags s) /\ chain_ok RenderPass (pNext s) /\
  structs_ok attachment_description2_ok (attachmentCount s) (pAttachments s) /\
  structs_ok subpass_description2_ok (subpassCount s) (pSubpasses s) /\
  structs_ok subpass_dependency2_ok (dependencyCount s) (pDependencies s) /\
  structs_ok is_u32 (correlatedViewMaskCount s) (pCorrelatedViewMasks s).

Definition recv_RenderPassCreateInfo2 (s : t) : t :=
  mk (sType s) (chain_recv RenderPass (pNext s)) (flags s)
    (attachmentCount s)
    (structs_recv recv_attachment_description2 (attachmentCount s) (pAttachments s))
    (subpassCount s)
    (structs_recv recv_subpass_description2 (subpassCount s) (pSubpasses s))
    (dependencyCount s)
    (structs_recv recv_subpass_dependency2 (dependencyCount s) (pDependencies s))
    (correlatedViewMaskCount s)
    (structs_recv (fun v => v) (correlatedViewMaskCount s) (pCorrelatedViewMasks s)).

(** A version 2 render pass that the client can encode is rebuilt by the
    server in full: the chains of the pass and of each subpass, every
    attachment, reference, dependency and view mask, in order. *)
Theorem render_pass2_roundtrip rest s bs :
  write_RenderPassCreateInfo2 s = (true, bs) -> RenderPassCreateInfo2_ok s ->
  reads_at rest read_RenderPassCreateInfo2 bs (recv_RenderPassCreateInfo2 s).
Proof.
  intros Hw (Hf & Hc & Ha & Hs & Hd & Hm).
  apply guarded_true in Hw as [Hg Hw]. apply negb_true_iff in Hg.
  do 8 (apply orb_false_iff in Hg as [Hg _]). apply negb_false_iff in Hg.
  pose proof Hg as Ht. apply Z.eqb_eq in Ht.
  apply transact_true, emit_then_true in Hw as (b & Hw & ->). rewrite <- !app_assoc.
  apply wseq_true in Hw as (b1 & b1' & H1 & Hw & ->).
  apply wseq_true in Hw as (b2 & b2' & H2 & Hw & ->).
  apply wseq_true in Hw as (b3 & b3' & H3 & Hw & ->).
  apply wseq_true in Hw as (b4 & b4' & H4 & Hw & ->). apply emit_true in Hw as ->.
  apply emit_then_true in H2 as (c2 & H2 & ->). apply emit_then_true in H3 as (c3 & H3 & ->).
  apply emit_then_true in H4 as (c4 & H4 & ->). rewrite <- (app_assoc (Writer.u32 (subpassCount s))).
  unfold read_RenderPassCreateInfo2.
  eapply reads_bind; [apply reads_i32; rewrite Ht; by apply small_i32|].
  eapply reads_bind; [by apply reads_u32|].
  eapply reads_bind_nil; [apply reads_ok|]. eapply reads_bind_nil; [by apply reads_guard|].
  eapply reads_bind; [by apply reads_chain|].
  eapply reads_bind.
  { eapply (reads_bounded _ _ _ _ _ _ _ _ _ _ reads_attachment_description2
      attachment_description2_length); by try eassumption. }
  destruct Hs as ((Hs0 & Hs1) & Hsl & Hso). rewrite kMaxArrayElements_value in Hs1.
  eapply reads_bind; [apply reads_u32; unfold is_u32; lia|].
  eapply reads_bind_nil; [apply reads_ok|].
  eapply reads_bind_nil; [apply reads_guard, negb_true_iff, Z.ltb_ge, Hs1|].
  eapply reads_bind; [by apply reads_subpasses|].
  eapply reads_bind.
  { eapply (reads_bounded _ _ _ _ _ _ _ _ _ _ reads_subpass_dependency2
      subpass_dependency2_length); by try eassumption. }
  eapply reads_bind_last; [by apply reads_preserve|].
  eapply reads_bind_nil; [apply reads_ok|]. apply reads_ret.
Qed.

Lemma safe_RenderPassCreateInfo2 : rd_safe read_RenderPassCreateInfo2.
Proof.
  unfold read_RenderPassCreateInfo2, read_attachment_description2, read_subpass_dependency2.
  rd_safe_tac.
Qed.
End RenderPassCreateInfo2.

#[export] Hint Resolve safe_RenderPassCreateInfo2 : rdsafe.
