(* ===== verification/MarshalPipeline.v ===== *)
(** [VkGraphicsPipelineCreateInfo] of [src/common/marshal.cpp] (lines
    1169-1413): the base struct raw, the shader stages, each optional state with
    its arrays, then the chain of the pipeline and that of the tessellation
    state. *)

From stdpp Require Import list.
From S2P Require Import Prelude Wire Codec CLayout VkStructs PNext PNextFacts MarshalBase Marshal.
From S2P Require Import VkCreateInfos.
Import ReaderFacts.
Open Scope wire_scope.

(** ** The states with arrays *)
Section States.
Context `{Abi}.

Section VertexInput.
Import VkPipelineVertexInputStateCreateInfo.

Definition tmp_vertex_input (s : t) : t :=
  set_pNext Null (set_pVertexBindingDescriptions Null (set_pVertexAttributeDescriptions Null s)).

(** marshal.cpp:1219-1228. *)
Definition write_vertex_input (s : t) : list byte :=
  write_raw (tmp_vertex_input s) ++
  write_pod_array (pVertexBindingDescriptions s) (vertexBindingDescriptionCount s) ++
  write_pod_array (pVertexAttributeDescriptions s) (vertexAttributeDescriptionCount s).

(** marshal.cpp:1305-1316. *)
Definition read_vertex_input : Rd t :=
  vi <- read_raw t ;
  b <- read_pod_array VkVertexInputBindingDescription.t (vertexBindingDescriptionCount vi) ;
  a <- read_pod_array VkVertexInputAttributeDescription.t (vertexAttributeDescriptionCount vi) ;
  rret (set_pVertexAttributeDescriptions a (set_pVertexBindingDescriptions b vi)).

Definition vertex_input_ok (s : t) : Prop :=
  raw_ok (tmp_vertex_input s) /\
  pods_ok (vertexBindingDescriptionCount s) (pVertexBindingDescriptions s) /\
  pods_ok (vertexAttributeDescriptionCount s) (pVertexAttributeDescriptions s).

Definition recv_vertex_input (s : t) : t :=
  set_pVertexAttributeDescriptions
    (arr_ptr (arr (pVertexAttributeDescriptions s) (vertexAttributeDescriptionCount s)))
    (set_pVertexBindingDescriptions
       (arr_ptr (arr (pVertexBindingDescriptions s) (vertexBindingDescriptionCount s)))
       (tmp_vertex_input s)).

Lemma reads_vertex_input rest s : vertex_input_ok s ->
  reads_at rest read_vertex_input (write_vertex_input s) (recv_vertex_input s).
Proof. intros (? & ? & ?). unfold read_vertex_input, write_vertex_input. reads_parts. Qed.

(** The counts the encoder accepts. *)
Definition vertex_input_refused (s : t) : bool :=
  negb (valid_count (vertexBindingDescriptionCount s)
          (Z.of_nat (pod_size VkVertexInputBindingDescription.t))) ||
  missing (vertexBindingDescriptionCount s) (pVertexBindingDescriptions s) ||
  (negb (valid_count (vertexAttributeDescriptionCount s)
           (Z.of_nat (pod_size VkVertexInputAttributeDescription.t))) ||
   missing (vertexAttributeDescriptionCount s) (pVertexAttributeDescriptions s)).
End VertexInput.

Section Viewport.
Import VkPipelineViewportStateCreateInfo.

Definition tmp_viewport_state (s : t) : t :=
  set_pNext Null (set_pViewports Null (set_pScissors Null s)).

(** marshal.cpp:1234-1243. *)
Definition write_viewport_state (s : t) : list byte :=
  write_raw (tmp_viewport_state s) ++
  write_opt_pod_array (pViewports s) (viewportCount s) ++
  write_opt_pod_array (pScissors s) (scissorCount s).

(** marshal.cpp:1332-1341. *)
Definition read_viewport_state : Rd t :=
  vp <- read_raw t ;
  v <- read_opt_pod_array VkViewport.t (viewportCount vp) ;
  c <- read_opt_pod_array VkRect2D.t (scissorCount vp) ;
  rret (set_pScissors c (set_pViewports v vp)).

Definition viewport_state_ok (s : t) : Prop :=
  raw_ok (tmp_viewport_state s) /\ opt_pods_ok (viewportCount s) (pViewports s) /\
  opt_pods_ok (scissorCount s) (pScissors s).

Definition recv_viewport_state (s : t) : t :=
  set_pScissors (arr_ptr (arr (pScissors s) (scissorCount s)))
    (set_pViewports (arr_ptr (arr (pViewports s) (viewportCount s))) (tmp_viewport_state s)).

Lemma reads_viewport_state rest s : viewport_state_ok s ->
  reads_at rest read_viewport_state (write_viewport_state s) (recv_viewport_state s).
Proof. intros (? & ? & ?). unfold read_viewport_state, write_viewport_state. reads_parts. Qed.

Definition viewport_state_refused (s : t) : bool :=
  negb (valid_count (viewportCount s) (Z.of_nat (pod_size VkViewport.t))) ||
  negb (valid_count (scissorCount s) (Z.of_nat (pod_size VkRect2D.t))).
End Viewport.

Section Multisample.
Import VkPipelineMultisampleStateCreateInfo.

Definition tmp_multisample_state (s : t) : t := set_pNext Null (set_pSampleMask Null s).

(** [(samples + 31) / 32], and the samples that are refused: outside 1..64 or
    not a power of two. *)
Definition mask_words (samples : Z) : Z := (samples + 31) / 32.

Definition samples_refused (samples : Z) : bool :=
  (samples <? VK_SAMPLE_COUNT_1_BIT) || (VK_SAMPLE_COUNT_64_BIT <? samples) ||
  negb (Z.land samples (samples - 1) =? 0).

(** marshal.cpp:1248-1256. *)
Definition write_multisample_state (s : t) : list byte :=
  write_raw (tmp_multisample_state s) ++
  write_opt_pod_array (H0 := pod_u32) (pSampleMask s)
    (mask_words (wrap32 (rasterizationSamples s))).

(** marshal.cpp:1353-1362. *)
Definition read_multisample_state : Rd t :=
  ms <- read_raw t ;
  let samples := wrap32 (rasterizationSamples ms) in
  rguard (negb (samples_refused samples)) ;!
  m <- read_opt_pod_array Z (H0 := pod_u32) (mask_words samples) ;
  rret (set_pSampleMask m ms).

Definition multisample_state_ok (s : t) : Prop :=
  raw_ok (tmp_multisample_state s) /\ samples_refused (wrap32 (rasterizationSamples s)) = false /\
  opt_pods_ok (H0 := pod_u32) (mask_words (wrap32 (rasterizationSamples s))) (pSampleMask s).

Definition recv_multisample_state (s : t) : t :=
  set_pSampleMask
    (arr_ptr (arr (pSampleMask s) (mask_words (wrap32 (rasterizationSamples s)))))
    (tmp_multisample_state s).

Lemma reads_multisample_state rest s : multisample_state_ok s ->
  reads_at rest read_multisample_state (write_multisample_state s) (recv_multisample_state s).
Proof.
  intros (? & Hs & ?). apply negb_true_iff in Hs.
  unfold read_multisample_state, write_multisample_state. reads_parts.
Qed.
End Multisample.

Section ColorBlend.
Import VkPipelineColorBlendStateCreateInfo.

Definition tmp_color_blend_state (s : t) : t := set_pNext Null (set_pAttachments Null s).

(** marshal.cpp:1261-1268. *)
Definition write_color_blend_state (s : t) : list byte :=
  write_raw (tmp_color_blend_state s) ++ write_pod_array (pAttachments s) (attachmentCount s).

(** marshal.cpp:1374-1381. *)
Definition read_color_blend_state : Rd t :=
  cb <- read_raw t ;
  a <- read_pod_array VkPipelineColorBlendAttachmentState.t (attachmentCount cb) ;
  rret (set_pAttachments a cb).

Definition color_blend_state_ok (s : t) : Prop :=
  raw_ok (tmp_color_blend_state s) /\ pods_ok (attachmentCount s) (pAttachments s).

Definition recv_color_blend_state (s : t) : t :=
  set_pAttachments (arr_ptr (arr (pAttachments s) (attachmentCount s))) (tmp_color_blend_state s).

Lemma reads_color_blend_state rest s : color_blend_state_ok s ->
  reads_at rest read_color_blend_state (write_color_blend_state s) (recv_color_blend_state s).
Proof. intros (? & ?). unfold read_color_blend_state, write_color_blend_state. reads_parts. Qed.

Definition color_blend_state_refused (s : t) : bool :=
  negb (valid_count (attachmentCount s)
          (Z.of_nat (pod_size VkPipelineColorBlendAttachmentState.t))) ||
  missing (attachmentCount s) (pAttachments s).
End ColorBlend.

Section Dynamic.
Import VkPipelineDynamicStateCreateInfo.

Definition tmp_dynamic_state (s : t) : t := set_pNext Null (set_pDynamicStates Null s).

(** marshal.cpp:1271-1278. *)
Definition write_dynamic_state (s : t) : list byte :=
  write_raw (tmp_dynamic_state s) ++
  write_pod_array (H0 := pod_i32) (pDynamicStates s) (dynamicStateCount s).

(** marshal.cpp:1388-1394. *)
Definition read_dynamic_state : Rd t :=
  ds <- read_raw t ;
  a <- read_pod_array Z (H0 := pod_i32) (dynamicStateCount ds) ;
  rret (set_pDynamicStates a ds).

Definition dynamic_state_ok (s : t) : Prop :=
  raw_ok (tmp_dynamic_state s) /\ pods_ok (H0 := pod_i32) (dynamicStateCount s) (pDynamicStates s).

Definition recv_dynamic_state (s : t) : t :=
  set_pDynamicStates (arr_ptr (arr (pDynamicStates s) (dynamicStateCount s)))
    (tmp_dynamic_state s).

Lemma reads_dynamic_state rest s : dynamic_state_ok s ->
  reads_at rest read_dynamic_state (write_dynamic_state s) (recv_dynamic_state s).
Proof. intros (? & ?). unfold read_dynamic_state, write_dynamic_state. reads_parts. Qed.

Definition dynamic_state_refused (s : t) : bool :=
  negb (valid_count (dynamicStateCount s) 4) || missing (dynamicStateCount s) (pDynamicStates s).
End Dynamic.

Lemma safe_vertex_input : rd_safe read_vertex_input.
Proof. unfold read_vertex_input. rd_safe_tac. Qed.

Lemma safe_viewport_state : rd_safe read_viewport_state.
Proof. unfold read_viewport_state. rd_safe_tac. Qed.

Lemma safe_multisample_state : rd_safe read_multisample_state.
Proof. unfold read_multisample_state. rd_safe_tac. Qed.

Lemma safe_color_blend_state : rd_safe read_color_blend_state.
Proof. unfold read_color_blend_state. rd_safe_tac. Qed.

Lemma safe_dynamic_state : rd_safe read_dynamic_state.
Proof. unfold read_dynamic_state. rd_safe_tac. Qed.

End States.

#[export] Hint Resolve safe_vertex_input safe_viewport_state safe_multisample_state
  safe_color_blend_state safe_dynamic_state : rdsafe.

(** ** The pipeline *)
Section GraphicsPipeline.
Context `{Abi} {HR : HandleResolver}.
Import VkGraphicsPipelineCreateInfo.

Definition tmp_GraphicsPipelineCreateInfo (s : t) : t :=
  set_pNext Null (set_pStages Null (set_pVertexInputState Null (set_pInputAssemblyState Null
    (set_pTessellationState Null (set_pViewportState Null (set_pRasterizationState Null
      (set_pMultisampleState Null (set_pDepthStencilState Null (set_pColorBlendState Null
        (set_pDynamicState Null s)))))))))).

(** The state is present and refused. *)
Definition when_present {A} (refused : A -> bool) (p : ptr A) : bool :=
  match p with Ref s => refused s | _ => false end.

(** The first condition of the encoder; marshal.cpp:1170-1201. *)
Definition pipeline_refused (s : t) : bool :=
  negb (valid_count (stageCount s) (Z.of_nat (pod_size VkPipelineShaderStageCreateInfo.t))) ||
  missing (stageCount s) (pStages s) ||
  when_present vertex_input_refused (pVertexInputState s) ||
  when_present viewport_state_refused (pViewportState s) ||
  when_present (fun ms => samples_refused
      (VkPipelineMultisampleStateCreateInfo.rasterizationSamples ms)) (pMultisampleState s) ||
  when_present color_blend_state_refused (pColorBlendState s) ||
  when_present dynamic_state_refused (pDynamicState s).

(** The tessellation state's own chain; marshal.cpp:1280-1283. *)
Definition write_tessellation_chain (p : ptr VkPipelineTessellationStateCreateInfo.t) : W :=
  match p with
  | Ref ts => write_pnext_chain TessellationState (VkPipelineTessellationStateCreateInfo.pNext ts) 0
  | _ => emit []
  end.

(** marshal.cpp:1169-1286. *)
Definition write_GraphicsPipelineCreateInfo (s : t) : W :=
  wguard (negb (pipeline_refused s)) ;;;
  transact
    (emit (write_raw (tmp_GraphicsPipelineCreateInfo s) ++
           concat (map write_PipelineShaderStageCreateInfo (arr (pStages s) (stageCount s))) ++
           write_present write_vertex_input (pVertexInputState s) ++
           write_opt_pod (pInputAssemblyState s) ++
           write_opt_pod (pTessellationState s) ++
           write_present write_viewport_state (pViewportState s) ++
           write_opt_pod (pRasterizationState s) ++
           write_present write_multisample_state (pMultisampleState s) ++
           write_opt_pod (pDepthStencilState s) ++
           write_present write_color_blend_state (pColorBlendState s) ++
           write_present write_dynamic_state (pDynamicState s)) ;;;
     write_pnext_chain GraphicsPipeline (pNext s) 0 ;;;
     write_tessellation_chain (pTessellationState s)).

(** marshal.cpp:1400-1406. *)
Definition read_tessellation_chain (p : ptr VkPipelineTessellationStateCreateInfo.t) :
    Rd (ptr VkPipelineTessellationStateCreateInfo.t) :=
  match p with
  | Ref ts =>
      next <- read_pnext_chain TessellationState 0 ;
      rret (Ref (VkPipelineTessellationStateCreateInfo.set_pNext next ts))
  | p => rret p
  end.

(** marshal.cpp:1288-1413. *)
Definition read_GraphicsPipelineCreateInfo : Rd t :=
  out <- read_raw t ;
  let layout_id := layout out in
  let render_pass_id := renderPass out in
  let base_pipeline_id := basePipelineHandle out in
  r_ok ;! left <- r_remaining ;
  rguard (negb ((kMaxArrayElements <? stageCount out) || (left / 12 <? stageCount out))) ;!
  stages <- rfor (Z.to_nat (stageCount out)) read_PipelineShaderStageCreateInfo ;
  vi <- read_present read_vertex_input ;
  ia <- read_opt_pod VkPipelineInputAssemblyStateCreateInfo.t ;
  ts <- read_opt_pod VkPipelineTessellationStateCreateInfo.t ;
  vp <- read_present read_viewport_state ;
  rs <- read_opt_pod VkPipelineRasterizationStateCreateInfo.t ;
  ms <- read_present read_multisample_state ;
  ds <- read_opt_pod VkPipelineDepthStencilStateCreateInfo.t ;
  cb <- read_present read_color_blend_state ;
  dyn <- read_present read_dynamic_state ;
  next <- read_pnext_chain GraphicsPipeline 0 ;
  ts' <- read_tessellation_chain ts ;
  let layout' := patch_handle hr_pipeline_layout layout_id in
  let render_pass' := patch_handle hr_render_pass render_pass_id in
  let base' := patch_handle hr_pipeline base_pipeline_id in
  rguard (((layout_id =? 0) || negb (layout' =? 0)) &&
          ((render_pass_id =? 0) || negb (render_pass' =? 0)) &&
          ((base_pipeline_id =? 0) || negb (base' =? 0))) ;!
  rret (mk (sType out) next (flags out) (stageCount out) (arr_ptr stages) vi ia ts' vp rs ms ds
          cb dyn layout' render_pass' (subpass out) base' (basePipelineIndex out)).

Definition tessellation_ok (ts : VkPipelineTessellationStateCreateInfo.t) : Prop :=
  raw_ok ts /\ chain_ok TessellationState (VkPipelineTessellationStateCreateInfo.pNext ts).

Definition recv_tessellation (ts : VkPipelineTessellationStateCreateInfo.t) :=
  VkPipelineTessellationStateCreateInfo.set_pNext
    (chain_recv TessellationState (VkPipelineTessellationStateCreateInfo.pNext ts)) (raw_copy ts).

Definition GraphicsPipelineCreateInfo_ok (s : t) : Prop :=
  raw_ok (tmp_GraphicsPipelineCreateInfo s) /\
  structs_ok PipelineShaderStageCreateInfo_ok (stageCount s) (pStages s) /\
  opt_ok vertex_input_ok (pVertexInputState s) /\ opt_raw_ok (pInputAssemblyState s) /\
  opt_ok tessellation_ok (pTessellationState s) /\ opt_ok viewport_state_ok (pViewportState s) /\
  opt_raw_ok (pRasterizationState s) /\ opt_ok multisample_state_ok (pMultisampleState s) /\
  opt_raw_ok (pDepthStencilState s) /\ opt_ok color_blend_state_ok (pColorBlendState s) /\
  opt_ok dynamic_state_ok (pDynamicState s) /\ chain_ok GraphicsPipeline (pNext s) /\
  (layout s = 0 \/ hr_pipeline_layout (layout s) <> 0) /\
  (renderPass s = 0 \/ hr_render_pass (renderPass s) <> 0) /\
  (basePipelineHandle s = 0 \/ hr_pipeline (basePipelineHandle s) <> 0).

(** The server's pipeline.  The input assembly, rasterization and depth-stencil
    states are raw copies, their [pNext] included. *)
Definition recv_GraphicsPipelineCreateInfo (s : t) : t :=
  mk (sType s) (chain_recv GraphicsPipeline (pNext s)) (flags s) (stageCount s)
    (structs_recv recv_PipelineShaderStageCreateInfo (stageCount s) (pStages s))
    (opt_recv recv_vertex_input (pVertexInputState s)) (opt_raw_copy (pInputAssemblyState s))
    (opt_recv recv_tessellation (pTessellationState s))
    (opt_recv recv_viewport_state (pViewportState s)) (opt_raw_copy (pRasterizationState s))
    (opt_recv recv_multisample_state (pMultisampleState s)) (opt_raw_copy (pDepthStencilState s))
    (opt_recv recv_color_blend_state (pColorBlendState s))
    (opt_recv recv_dynamic_state (pDynamicState s))
    (patch_handle hr_pipeline_layout (layout s)) (patch_handle hr_render_pass (renderPass s))
    (subpass s) (patch_handle hr_pipeline (basePipelineHandle s)) (basePipelineIndex s).

Lemma stage_length s : PipelineShaderStageCreateInfo_ok s ->
  12 <= Z.of_nat (length (write_PipelineShaderStageCreateInfo s)).
Proof.
  intros ([Hs _] & _). unfold write_PipelineShaderStageCreateInfo, write_raw.
  pose proof (length_pod_bytes _ Hs) as Hl.
  change (pod_size VkPipelineShaderStageCreateInfo.t) with 48%nat in Hl.
  rewrite !length_app, length_writer_bytes, Hl. lia.
Qed.

(** The stages, after the check of their count. *)
Lemma reads_stages {B} rest s b2 (f : list VkPipelineShaderStageCreateInfo.t -> Rd B) y :
  structs_ok PipelineShaderStageCreateInfo_ok (stageCount s) (pStages s) ->
  reads_at rest (f (map recv_PipelineShaderStageCreateInfo (arr (pStages s) (stageCount s)))) b2 y ->
  reads_at rest
    (r_ok ;! left <- r_remaining ;
     rguard (negb ((kMaxArrayElements <? stageCount s) || (left / 12 <? stageCount s))) ;!
     stages <- rfor (Z.to_nat (stageCount s)) read_PipelineShaderStageCreateInfo ; f stages)
    (concat (map write_PipelineShaderStageCreateInfo (arr (pStages s) (stageCount s))) ++ b2) y.
Proof.
  intros Hs Hf. pose proof Hs as (Hn & Hl & Hok).
  pose proof (concat_map_length_ge _ _ 12 _ stage_length Hok) as Hlen.
  eapply reads_bind_nil; [apply reads_ok|]. eapply reads_bind_nil; [apply reads_remaining|].
  eapply reads_bind_nil.
  { apply reads_guard, negb_true_iff, orb_false_iff. split; apply Z.ltb_ge; [lia|].
    apply Z.div_le_lower_bound; [lia|]. rewrite !length_app. lia. }
  eapply reads_bind; [|exact Hf].
  by apply (reads_structs _ _ _ _ _ _ _ reads_PipelineShaderStageCreateInfo).
Qed.

(** The tessellation state is read raw, its chain after the states. *)
Lemma reads_tessellation rest p bs : opt_ok tessellation_ok p ->
  write_tessellation_chain p = (true, bs) ->
  reads_at rest (read_tessellation_chain (opt_raw_copy p)) bs (opt_recv recv_tessellation p).
Proof.
  intros Hp Hw. destruct p as [|a|ts]; [|done|].
  - apply emit_true in Hw as ->. apply reads_ret.
  - cbn [opt_raw_copy read_tessellation_chain opt_recv] in *. destruct Hp as [_ Hc].
    eapply reads_bind_last; [by eapply reads_chain|]. apply reads_ret.
Qed.

Lemma tessellation_raw_ok p : opt_ok tessellation_ok p -> opt_raw_ok p.
Proof. by destruct p as [|a|ts]; [|done|intros [? _]]. Qed.

(** The references of the base struct resolve. *)
Lemma pipeline_handles_guard s :
  (layout s = 0 \/ hr_pipeline_layout (layout s) <> 0) ->
  (renderPass s = 0 \/ hr_render_pass (renderPass s) <> 0) ->
  (basePipelineHandle s = 0 \/ hr_pipeline (basePipelineHandle s) <> 0) ->
  ((layout s =? 0) || negb (patch_handle hr_pipeline_layout (layout s) =? 0)) &&
  ((renderPass s =? 0) || negb (patch_handle hr_render_pass (renderPass s) =? 0)) &&
  ((basePipelineHandle s =? 0) || negb (patch_handle hr_pipeline (basePipelineHandle s) =? 0))
  = true.
Proof. intros. rewrite !andb_true_iff. split_and!; by apply resolved_guard. Qed.

(** C4: A graphics pipeline that the client can encode reaches the server with
    every stage, every optional state and its arrays, both chains, and its
    layout, render pass and base pipeline resolved. *)
Theorem graphics_pipeline_roundtrip rest s bs :
  write_GraphicsPipelineCreateInfo s = (true, bs) -> GraphicsPipelineCreateInfo_ok s ->
  reads_at rest read_GraphicsPipelineCreateInfo bs (recv_GraphicsPipelineCreateInfo s).
Proof.
  intros Hw (Hr & Hst & Hvi & Hia & Hts & Hvp & Hrs & Hms & Hds & Hcb & Hdy & Hc & Hl & Hrp & Hb).
  apply guarded_true in Hw as [_ Hw]. apply transact_true, emit_then_true in Hw as (b & Hw & ->).
  apply wseq_true in Hw as (b1 & b2 & H1 & H2 & ->). rewrite <- !app_assoc.
  unfold read_GraphicsPipelineCreateInfo.
  eapply reads_bind; [by apply reads_raw|]. flatten_copy. cbv zeta.
  change (stageCount (tmp_GraphicsPipelineCreateInfo s)) with (stageCount s).
  apply reads_stages; [done|].
  eapply reads_bind; [by apply (reads_present _ _ _ _ _ _ reads_vertex_input)|].
  eapply reads_bind; [by apply reads_opt_pod|].
  eapply reads_bind; [by apply reads_opt_pod, tessellation_raw_ok|].
  eapply reads_bind; [by apply (reads_present _ _ _ _ _ _ reads_viewport_state)|].
  eapply reads_bind; [by apply reads_opt_pod|].
  eapply reads_bind; [by apply (reads_present _ _ _ _ _ _ reads_multisample_state)|].
  eapply reads_bind; [by apply reads_opt_pod|].
  eapply reads_bind; [by apply (reads_present _ _ _ _ _ _ reads_color_blend_state)|].
  eapply reads_bind; [by apply (reads_present _ _ _ _ _ _ reads_dynamic_state)|].
  eapply reads_bind; [by eapply reads_chain|].
  eapply reads_bind_last; [by apply reads_tessellation|].
  eapply reads_bind_nil; [by apply reads_guard, (pipeline_handles_guard s)|]. apply reads_ret.
Qed.

Lemma safe_GraphicsPipelineCreateInfo : rd_safe read_GraphicsPipelineCreateInfo.
Proof.
  unfold read_GraphicsPipelineCreateInfo, read_tessellation_chain.
  pose proof safe_PipelineShaderStageCreateInfo. rd_safe_tac.
Qed.

End GraphicsPipeline.

#[export] Hint Resolve safe_GraphicsPipelineCreateInfo : rdsafe.
