(* ===== verification/MarshalValues.v ===== *)
(** The rest of [src/common/marshal.cpp]: small create infos, structs copied raw
    and the query results the server sends back. *)

From stdpp Require Import list.
From S2P Require Import Prelude Wire Codec CLayout VkStructs PNext PNextFacts MarshalBase Marshal.
From S2P Require Import VkCreateInfos VkLimits MarshalSync.
Import ReaderFacts.
Open Scope wire_scope.

(** ** Small create infos *)
Section BufferViewCreateInfo.
Context {HR : HandleResolver}.
Import VkBufferViewCreateInfo.

(** marshal.cpp:1457-1468. *)
Definition write_BufferViewCreateInfo (s : t) : W :=
  transact
    (emit (Writer.i32 (sType s) ++ Writer.u32 (flags s) ++ Writer.handle (buffer s) ++
           Writer.i32 (format s) ++ Writer.u64 (offset s) ++ Writer.u64 (range s)) ;;;
     wguard (negb (negb (sType s =? VK_STRUCTURE_TYPE_BUFFER_VIEW_CREATE_INFO) ||
                   negb (is_null (pNext s))))).

(** marshal.cpp:1470-1482. *)
Definition read_BufferViewCreateInfo : Rd t :=
  sType <- r_i32 ; flags <- r_u32 ; buffer_id <- r_handle ; format <- r_i32 ;
  offset <- r_u64 ; range <- r_u64 ;
  let buffer := patch_handle hr_buffer buffer_id in
  r_ok ;! rguard ((sType =? VK_STRUCTURE_TYPE_BUFFER_VIEW_CREATE_INFO) && negb (buffer =? 0)) ;!
  rret (mk sType Null flags buffer format offset range).

Lemma reads_BufferViewCreateInfo rest s bs : write_BufferViewCreateInfo s = (true, bs) ->
  is_i32 (sType s) -> is_u32 (flags s) -> is_u64 (buffer s) -> is_i32 (format s) ->
  is_u64 (offset s) -> is_u64 (range s) ->
  buffer s <> 0 -> hr_buffer (buffer s) <> 0 ->
  reads_at rest read_BufferViewCreateInfo bs
    (mk (sType s) Null (flags s) (hr_buffer (buffer s)) (format s) (offset s) (range s)).
Proof.
  intros Hw ? ? ? ? ? ? Hz Hres. apply transact_true, emit_then_true in Hw as (b & Hw & ->).
  apply wguard_true in Hw as [Hg ->]. rewrite app_nil_r.
  apply negb_true_iff, orb_false_iff in Hg as [Hg _]. apply negb_false_iff in Hg.
  assert (patch_handle hr_buffer (buffer s) = hr_buffer (buffer s)) as Hp.
  { unfold patch_handle. by rewrite (proj2 (Z.eqb_neq _ _)). }
  unfold read_BufferViewCreateInfo. reads_parts. rewrite Hp. apply reads_ret.
Qed.

Lemma safe_BufferViewCreateInfo : rd_safe read_BufferViewCreateInfo.
Proof. unfold read_BufferViewCreateInfo. rd_safe_tac. Qed.
End BufferViewCreateInfo.

Section QueryPoolCreateInfo.
Import VkQueryPoolCreateInfo.

(** marshal.cpp:1484-1491. *)
Definition write_QueryPoolCreateInfo (s : t) : list byte :=
  Writer.i32 (sType s) ++ Writer.u32 (flags s) ++ Writer.i32 (queryType s) ++
  Writer.u32 (queryCount s) ++ Writer.u32 (pipelineStatistics s) ++
  Writer.u32 (if is_null (pNext s) then 0 else 1).

(** marshal.cpp:1493-1504. *)
Definition read_QueryPoolCreateInfo : Rd t :=
  sType <- r_i32 ; flags <- r_u32 ; queryType <- r_i32 ; queryCount <- r_u32 ;
  pipelineStatistics <- r_u32 ; has_pnext <- r_u32 ;
  r_ok ;! rguard ((sType =? VK_STRUCTURE_TYPE_QUERY_POOL_CREATE_INFO) && (has_pnext =? 0) &&
                  negb (queryCount =? 0) && (queryCount <=? kMaxArrayElements)) ;!
  rret (mk sType Null flags queryType queryCount pipelineStatistics).

Definition QueryPoolCreateInfo_ok (s : t) : Prop :=
  sType s = VK_STRUCTURE_TYPE_QUERY_POOL_CREATE_INFO /\ pNext s = Null /\ is_u32 (flags s) /\
  is_i32 (queryType s) /\ 0 < queryCount s <= kMaxArrayElements /\ is_u32 (pipelineStatistics s).

Lemma reads_QueryPoolCreateInfo rest s : QueryPoolCreateInfo_ok s ->
  reads_at rest read_QueryPoolCreateInfo (write_QueryPoolCreateInfo s) s.
Proof.
  destruct s as [sType pNext ? ? n ?]. intros (Hs & Hp & ? & ? & Hn & ?). cbn in *. subst pNext.
  rewrite kMaxArrayElements_value in Hn.
  assert (is_i32 sType) by (rewrite Hs; by apply small_i32).
  assert (is_u32 n) by (unfold is_u32; lia).
  unfold read_QueryPoolCreateInfo, write_QueryPoolCreateInfo. cbn. reads_parts.
  eapply reads_bind_nil; [|apply reads_ret]. apply reads_guard.
  rewrite !andb_true_iff, negb_true_iff, kMaxArrayElements_value.
  split_and!; [by apply Z.eqb_eq|done|apply Z.eqb_neq; lia|apply Z.leb_le; lia].
Qed.

(** Without the checks the two encoders would lose a chain: it is refused. *)
Lemma ensures_QueryPoolCreateInfo : rd_ensures read_QueryPoolCreateInfo (fun s =>
  pNext s = Null /\ 0 < queryCount s <= kMaxArrayElements).
Proof.
  unfold read_QueryPoolCreateInfo. do 3 (apply ensures_bind_any; intros ?).
  eapply ensures_bind; [apply ensures_u32|]. intros n [Hn _].
  do 2 (apply ensures_bind_any; intros ?). apply ensures_bind_any; intros _.
  apply ensures_bind_guard. intros Hg. apply ensures_ret. cbn. bool_hyps. split; [done|lia].
Qed.

Lemma safe_QueryPoolCreateInfo : rd_safe read_QueryPoolCreateInfo.
Proof. unfold read_QueryPoolCreateInfo. rd_safe_tac. Qed.
End QueryPoolCreateInfo.

Section EventCreateInfo.
Import VkEventCreateInfo.

(** marshal.cpp:1506-1510. *)
Definition write_EventCreateInfo (s : t) : list byte :=
  Writer.i32 (sType s) ++ Writer.u32 (flags s) ++
  Writer.u32 (if is_null (pNext s) then 0 else 1).

(** marshal.cpp:1512-1518. *)
Definition read_EventCreateInfo : Rd t :=
  sType <- r_i32 ; flags <- r_u32 ; has_pnext <- r_u32 ;
  r_ok ;! rguard ((sType =? VK_STRUCTURE_TYPE_EVENT_CREATE_INFO) && (has_pnext =? 0)) ;!
  rret (mk sType Null flags).

Lemma reads_EventCreateInfo rest s :
  sType s = VK_STRUCTURE_TYPE_EVENT_CREATE_INFO -> pNext s = Null -> is_u32 (flags s) ->
  reads_at rest read_EventCreateInfo (write_EventCreateInfo s) s.
Proof.
  destruct s as [sType pNext flags]. cbn. intros Hs -> Hf.
  assert (is_i32 sType) by (rewrite Hs; by apply small_i32).
  unfold read_EventCreateInfo, write_EventCreateInfo. cbn. subst sType. reads_parts.
Qed.

Lemma safe_EventCreateInfo : rd_safe read_EventCreateInfo.
Proof. unfold read_EventCreateInfo. rd_safe_tac. Qed.
End EventCreateInfo.

(** ** Command buffer recording *)
Section CommandBufferBeginInfo.
Context {HR : HandleResolver}.
Import VkCommandBufferBeginInfo.

(** The inheritance info; marshal.cpp:1544-1551. *)
Definition write_inheritance (i : VkCommandBufferInheritanceInfo.t) : list byte :=
  let '(VkCommandBufferInheritanceInfo.mk sType pNext renderPass subpass framebuffer
          occlusionQueryEnable queryFlags pipelineStatistics) := i in
  Writer.i32 sType ++ Writer.u32 (if is_null pNext then 0 else 1) ++ Writer.handle renderPass ++
  Writer.u32 subpass ++ Writer.handle framebuffer ++ Writer.u32 occlusionQueryEnable ++
  Writer.u32 queryFlags ++ Writer.u32 pipelineStatistics.

(** marshal.cpp:1537-1553. *)
Definition write_CommandBufferBeginInfo (s : t) : list byte :=
  Writer.i32 (sType s) ++ Writer.u32 (flags s) ++
  Writer.u32 (if is_null (pNext s) then 0 else 1) ++
  write_present write_inheritance (pInheritanceInfo s).

(** marshal.cpp:1567-1581. *)
Definition read_inheritance : Rd VkCommandBufferInheritanceInfo.t :=
  sType <- r_i32 ; inheritance_pnext <- r_u32 ; render_pass <- r_handle ; subpass <- r_u32 ;
  framebuffer <- r_handle ; occlusion <- r_u32 ; queryFlags <- r_u32 ; statistics <- r_u32 ;
  r_ok ;! rguard (negb (negb (sType =? VK_STRUCTURE_TYPE_COMMAND_BUFFER_INHERITANCE_INFO) ||
                        negb (inheritance_pnext =? 0))) ;!
  let renderPass := patch_handle hr_render_pass render_pass in
  let framebuffer' := patch_handle hr_framebuffer framebuffer in
  rguard (negb (dangling render_pass renderPass || dangling framebuffer framebuffer')) ;!
  rret (VkCommandBufferInheritanceInfo.mk sType Null renderPass subpass framebuffer' occlusion
          queryFlags statistics).

(** marshal.cpp:1555-1584. *)
Definition read_CommandBufferBeginInfo : Rd t :=
  sType <- r_i32 ; flags <- r_u32 ; has_pnext <- r_u32 ; has_inheritance <- r_u32 ;
  r_ok ;! rguard (negb (negb (sType =? VK_STRUCTURE_TYPE_COMMAND_BUFFER_BEGIN_INFO) ||
                        (0 <? has_pnext) || (1 <? has_inheritance))) ;!
  if has_inheritance =? 0 then rret (mk sType Null flags Null)
  else i <- read_inheritance ; rret (mk sType Null flags (Ref i)).

Definition inheritance_ok (i : VkCommandBufferInheritanceInfo.t) : Prop :=
  let '(VkCommandBufferInheritanceInfo.mk sType pNext renderPass subpass framebuffer
          occlusion queryFlags statistics) := i in
  sType = VK_STRUCTURE_TYPE_COMMAND_BUFFER_INHERITANCE_INFO /\ pNext = Null /\
  is_u64 renderPass /\ is_u64 framebuffer /\
  Forall is_u32 [subpass; occlusion; queryFlags; statistics] /\
  resolvable hr_render_pass renderPass /\ resolvable hr_framebuffer framebuffer.

Definition recv_inheritance (i : VkCommandBufferInheritanceInfo.t) :=
  let '(VkCommandBufferInheritanceInfo.mk sType pNext renderPass subpass framebuffer
          occlusion queryFlags statistics) := i in
  VkCommandBufferInheritanceInfo.mk sType Null (patch_handle hr_render_pass renderPass) subpass
    (patch_handle hr_framebuffer framebuffer) occlusion queryFlags statistics.

Definition CommandBufferBeginInfo_ok (s : t) : Prop :=
  sType s = VK_STRUCTURE_TYPE_COMMAND_BUFFER_BEGIN_INFO /\ pNext s = Null /\ is_u32 (flags s) /\
  opt_ok inheritance_ok (pInheritanceInfo s).

Lemma patched_not_dangling resolve id :
  resolvable resolve id -> dangling id (patch_handle resolve id) = false.
Proof.
  unfold dangling, patch_handle. destruct (Z.eqb_spec id 0); [done|]. intros [|Hr]; [done|].
  by apply Z.eqb_neq.
Qed.

Lemma reads_inheritance rest i : inheritance_ok i ->
  reads_at rest read_inheritance (write_inheritance i) (recv_inheritance i).
Proof.
  destruct i as [sType pNext ? ? ? ? ? ?]. intros (Hs & -> & ? & ? & Hu & Hr & Hf). forall_hyps.
  assert (is_i32 sType) by (rewrite Hs; by apply small_i32).
  unfold read_inheritance, write_inheritance. cbn [is_null]. subst sType. reads_parts.
  rewrite (patched_not_dangling _ _ Hr), (patched_not_dangling _ _ Hf).
  eapply reads_bind_nil; [by apply reads_guard|]. apply reads_ret.
Qed.

(** A command buffer begins on the server exactly as recorded on the client:
    same flags, and the inherited render pass and framebuffer resolved. *)
Theorem begin_info_roundtrip rest s : CommandBufferBeginInfo_ok s ->
  reads_at rest read_CommandBufferBeginInfo (write_CommandBufferBeginInfo s)
    (mk (sType s) Null (flags s) (opt_recv recv_inheritance (pInheritanceInfo s))).
Proof.
  destruct s as [sType pNext flags p]. intros (Hs & Hn & Hf & Hp). cbn in *. subst pNext.
  assert (is_i32 sType) by (rewrite Hs; by apply small_i32).
  unfold read_CommandBufferBeginInfo, write_CommandBufferBeginInfo, write_present. cbn.
  subst sType. destruct p as [|a|i]; [|done|]; cbn [opt_recv is_null].
  - do 3 (eapply reads_bind; [first [by apply reads_i32|apply reads_u32; solve_side]|]).
    eapply reads_bind; [apply reads_u32, is_u32_0|]. eapply reads_bind_nil; [apply reads_ok|].
    eapply reads_bind_nil; [by apply reads_guard|]. apply reads_ret.
  - do 3 (eapply reads_bind; [first [by apply reads_i32|apply reads_u32; solve_side]|]).
    eapply reads_bind; [apply reads_u32, is_u32_1|]. eapply reads_bind_nil; [apply reads_ok|].
    eapply reads_bind_nil; [by apply reads_guard|]. cbn [Z.eqb].
    eapply reads_bind_last; [by apply reads_inheritance|]. apply reads_ret.
Qed.

(** Whatever bytes arrive, a decoded begin info carries no chain, and an
    inheritance info only with a render pass and framebuffer the server knows
    (or none). *)
Theorem read_begin_info_clean r s r' :
  read_CommandBufferBeginInfo r = (Some s, r') ->
  sType s = VK_STRUCTURE_TYPE_COMMAND_BUFFER_BEGIN_INFO /\ pNext s = Null /\
  match pInheritanceInfo s with
  | Null => True
  | Wild _ => False
  | Ref i => VkCommandBufferInheritanceInfo.pNext i = Null /\
      exists rp fb, VkCommandBufferInheritanceInfo.renderPass i = patch_handle hr_render_pass rp /\
        VkCommandBufferInheritanceInfo.framebuffer i = patch_handle hr_framebuffer fb /\
        resolvable hr_render_pass rp /\ resolvable hr_framebuffer fb
  end.
Proof.
  revert r s r'. apply ensures_spec. unfold read_CommandBufferBeginInfo.
  do 4 (apply ensures_bind_any; intros ?). apply ensures_bind_any; intros _.
  apply ensures_bind_guard. intros Hg. apply negb_true_iff in Hg.
  do 2 (apply orb_false_iff in Hg as [Hg _]). bool_hyps.
  apply ensures_if; intros _; [by apply ensures_ret|]. unfold read_inheritance.
  apply ensures_bind_assoc. apply ensures_bind_any; intros ?.
  apply ensures_bind_assoc. apply ensures_bind_any; intros ?.
  apply ensures_bind_assoc. apply ensures_bind_any; intros rp.
  apply ensures_bind_assoc. apply ensures_bind_any; intros ?.
  apply ensures_bind_assoc. apply ensures_bind_any; intros fb.
  do 3 (apply ensures_bind_assoc; apply ensures_bind_any; intros ?).
  apply ensures_bind_assoc. apply ensures_bind_any; intros _.
  apply ensures_bind_assoc. apply ensures_bind_guard; intros _. cbv zeta.
  apply ensures_bind_assoc. apply ensures_bind_guard; intros Hd.
  apply ensures_ret_bind, ensures_ret. cbn. apply negb_true_iff, orb_false_iff in Hd as [H1 H2].
  split; [done|]. split; [done|]. split; [done|]. exists rp, fb.
  split; [done|]. split; [done|]. unfold resolvable, dangling, patch_handle in *.
  destruct (Z.eqb_spec rp 0), (Z.eqb_spec fb 0); cbn in *; bool_hyps; auto.
Qed.

Lemma safe_CommandBufferBeginInfo : rd_safe read_CommandBufferBeginInfo.
Proof. unfold read_CommandBufferBeginInfo, read_inheritance. rd_safe_tac. Qed.
End CommandBufferBeginInfo.

(** ** Structs copied raw *)
Section RawCopies.
Context `{Abi} {HR : HandleResolver}.

(** marshal.cpp:2126-2130. *)
Definition write_FenceCreateInfo (s : VkFenceCreateInfo.t) : list byte := write_raw (VkFenceCreateInfo.set_pNext Null s).

(** marshal.cpp:2132-2134. *)
Definition read_FenceCreateInfo : Rd VkFenceCreateInfo.t := read_raw VkFenceCreateInfo.t.

(** marshal.cpp:2149-2153. *)
Definition write_CommandPoolCreateInfo (s : VkCommandPoolCreateInfo.t) : list byte := write_raw (VkCommandPoolCreateInfo.set_pNext Null s).

(** marshal.cpp:2155-2158. *)
Definition read_CommandPoolCreateInfo : Rd VkCommandPoolCreateInfo.t := read_raw VkCommandPoolCreateInfo.t.

(** marshal.cpp:2177-2177. *)
Definition write_BufferImageCopy (s : VkBufferImageCopy.t) : list byte := write_raw s.

(** marshal.cpp:2179-2181. *)
Definition read_BufferImageCopy : Rd VkBufferImageCopy.t := read_raw VkBufferImageCopy.t.

(** marshal.cpp:2183-2183. *)
Definition write_ImageCopy (s : VkImageCopy.t) : list byte := write_raw s.

(** marshal.cpp:2185-2187. *)
Definition read_ImageCopy : Rd VkImageCopy.t := read_raw VkImageCopy.t.

(** marshal.cpp:2189-2189. *)
Definition write_ImageBlit (s : VkImageBlit.t) : list byte := write_raw s.

(** marshal.cpp:2191-2193. *)
Definition read_ImageBlit : Rd VkImageBlit.t := read_raw VkImageBlit.t.

(** marshal.cpp:2195-2195. *)
Definition write_BufferCopy (s : VkBufferCopy.t) : list byte := write_raw s.

(** marshal.cpp:2197-2199. *)
Definition read_BufferCopy : Rd VkBufferCopy.t := read_raw VkBufferCopy.t.

(** marshal.cpp:2201-2201. *)
Definition write_Viewport (s : VkViewport.t) : list byte := write_raw s.

(** marshal.cpp:2203-2205. *)
Definition read_Viewport : Rd VkViewport.t := read_raw VkViewport.t.

(** marshal.cpp:2207-2207. *)
Definition write_Rect2D (s : VkRect2D.t) : list byte := write_raw s.

(** marshal.cpp:2209-2211. *)
Definition read_Rect2D : Rd VkRect2D.t := read_raw VkRect2D.t.

(** marshal.cpp:2213-2215. *)
Definition write_MemoryRequirements (s : VkMemoryRequirements.t) : list byte := write_raw s.

(** marshal.cpp:2217-2220. *)
Definition read_MemoryRequirements : Rd VkMemoryRequirements.t := read_raw VkMemoryRequirements.t.

(** marshal.cpp:2222-2222. *)
Definition write_SubresourceLayout (s : VkSubresourceLayout.t) : list byte := write_raw s.

(** marshal.cpp:2224-2227. *)
Definition read_SubresourceLayout : Rd VkSubresourceLayout.t := read_raw VkSubresourceLayout.t.

(** marshal.cpp:2229-2231. *)
Definition write_SurfaceCapabilitiesKHR (s : VkSurfaceCapabilitiesKHR.t) : list byte := write_raw s.

(** marshal.cpp:2233-2236. *)
Definition read_SurfaceCapabilitiesKHR : Rd VkSurfaceCapabilitiesKHR.t := read_raw VkSurfaceCapabilitiesKHR.t.

Lemma raw_roundtrip rest {T} `{Pod T} (s : T) : raw_ok s -> pod_flat s ->
  reads_at rest (read_raw T) (write_raw s) s.
Proof. intros Hr Hf. rewrite <- (raw_copy_flat s Hf) at 2. by apply reads_raw. Qed.

(** Every struct that is copied raw (copy and blit regions, viewports,
    scissors, memory requirements, layouts, surface capabilities) arrives as it
    was sent. *)
Theorem raw_structs_roundtrip rest :
  (forall s, raw_ok s -> reads_at rest read_BufferImageCopy (write_BufferImageCopy s) s) /\
  (forall s, raw_ok s -> reads_at rest read_ImageCopy (write_ImageCopy s) s) /\
  (forall s, raw_ok s -> reads_at rest read_ImageBlit (write_ImageBlit s) s) /\
  (forall s, raw_ok s -> reads_at rest read_BufferCopy (write_BufferCopy s) s) /\
  (forall s, raw_ok s -> reads_at rest read_Viewport (write_Viewport s) s) /\
  (forall s, raw_ok s -> reads_at rest read_Rect2D (write_Rect2D s) s) /\
  (forall s, raw_ok s -> reads_at rest read_MemoryRequirements (write_MemoryRequirements s) s) /\
  (forall s, raw_ok s -> reads_at rest read_SubresourceLayout (write_SubresourceLayout s) s) /\
  (forall s, raw_ok s ->
     reads_at rest read_SurfaceCapabilitiesKHR (write_SurfaceCapabilitiesKHR s) s).
Proof. split_and!; intros s Hs; apply raw_roundtrip; first [exact Hs|hnf; cbn; tauto]. Qed.

Lemma reads_FenceCreateInfo rest s : raw_ok (VkFenceCreateInfo.set_pNext Null s) ->
  reads_at rest read_FenceCreateInfo (write_FenceCreateInfo s) (VkFenceCreateInfo.set_pNext Null s).
Proof. intros Hr. apply raw_roundtrip; [exact Hr|hnf; cbn; tauto]. Qed.

Lemma reads_CommandPoolCreateInfo rest s : raw_ok (VkCommandPoolCreateInfo.set_pNext Null s) ->
  reads_at rest read_CommandPoolCreateInfo (write_CommandPoolCreateInfo s)
    (VkCommandPoolCreateInfo.set_pNext Null s).
Proof. intros Hr. apply raw_roundtrip; [exact Hr|hnf; cbn; tauto]. Qed.

(** A raw decoder does not clear the chain pointer: a peer that sends a fence
    create info with a non-null [pNext] makes the server hold that value as a
    pointer of its own. *)
Theorem raw_decoder_keeps_pnext rest sType address flags :
  is_i32 sType -> is_u64 address -> address <> 0 -> is_u32 flags ->
  let s := VkFenceCreateInfo.mk sType (Wild address) flags in
  reads_at rest read_FenceCreateInfo (write_raw s) s.
Proof.
  intros Ht Ha Hz Hf s. apply raw_roundtrip; [|exact Hz].
  split; [|by apply small_u32]. unfold is_i32, is_u64, is_u32 in *.
  unfold pod_okb. cbn. rewrite !andb_true_iff, !Z.leb_le, !Z.ltb_lt. lia.
Qed.

Section PipelineCacheCreateInfo.
Import VkPipelineCacheCreateInfo.

Definition tmp_PipelineCacheCreateInfo (s : t) : t := set_pNext Null (set_pInitialData Null s).

(** marshal.cpp:2160-2166. *)
Definition write_PipelineCacheCreateInfo (s : t) : list byte :=
  write_raw (tmp_PipelineCacheCreateInfo s) ++
  Writer.bytes (arr (pInitialData s) (initialDataSize s)).

(** marshal.cpp:2168-2175. *)
Definition read_PipelineCacheCreateInfo : Rd t :=
  out <- read_raw t ;
  data <- read_bytes_to_arena (initialDataSize out) ;
  rret (set_pInitialData data out).

Lemma reads_PipelineCacheCreateInfo rest s :
  raw_ok (tmp_PipelineCacheCreateInfo s) -> blob_ok (initialDataSize s) (pInitialData s) ->
  reads_at rest read_PipelineCacheCreateInfo (write_PipelineCacheCreateInfo s)
    (set_pInitialData (arr_ptr (arr (pInitialData s) (initialDataSize s)))
       (tmp_PipelineCacheCreateInfo s)).
Proof.
  intros Hr Hb. unfold read_PipelineCacheCreateInfo, write_PipelineCacheCreateInfo. reads_parts.
Qed.

Lemma safe_PipelineCacheCreateInfo : rd_safe read_PipelineCacheCreateInfo.
Proof. unfold read_PipelineCacheCreateInfo. rd_safe_tac. Qed.
End PipelineCacheCreateInfo.

End RawCopies.

(** ** Query results, encoded member by member *)
Section QueryResults.

(** marshal.cpp:2238-2241. *)
Definition write_SurfaceFormatKHR (s : VkSurfaceFormatKHR.t) : list byte :=
  let '(VkSurfaceFormatKHR.mk format colorSpace) := s in
  Writer.i32 format ++ Writer.i32 colorSpace.

(** marshal.cpp:2243-2247. *)
Definition read_SurfaceFormatKHR : Rd VkSurfaceFormatKHR.t :=
  format <- r_i32 ; colorSpace <- r_i32 ; r_ok ;! rret (VkSurfaceFormatKHR.mk format colorSpace).

(** marshal.cpp:2496-2500. *)
Definition write_FormatProperties (s : VkFormatProperties.t) : list byte :=
  let '(VkFormatProperties.mk linear optimal buffer) := s in
  Writer.u32 linear ++ Writer.u32 optimal ++ Writer.u32 buffer.

(** marshal.cpp:2502-2508. *)
Definition read_FormatProperties : Rd VkFormatProperties.t :=
  linear <- r_u32 ; optimal <- r_u32 ; buffer <- r_u32 ; r_ok ;!
  rret (VkFormatProperties.mk linear optimal buffer).

(** marshal.cpp:2510-2514. *)
Definition write_ImageFormatProperties (s : VkImageFormatProperties.t) : list byte :=
  let '(VkImageFormatProperties.mk (VkExtent3D.mk w h d) levels layers samples size) := s in
  Writer.u32 w ++ Writer.u32 h ++ Writer.u32 d ++ Writer.u32 levels ++ Writer.u32 layers ++
  Writer.u32 samples ++ Writer.u64 size.

(** marshal.cpp:2516-2522. *)
Definition read_ImageFormatProperties : Rd VkImageFormatProperties.t :=
  w <- r_u32 ; h <- r_u32 ; d <- r_u32 ; levels <- r_u32 ; layers <- r_u32 ; samples <- r_u32 ;
  size <- r_u64 ; r_ok ;!
  rret (VkImageFormatProperties.mk (VkExtent3D.mk w h d) levels layers samples size).

(** marshal.cpp:2524-2528. *)
Definition write_QueueFamilyProperties (s : VkQueueFamilyProperties.t) : list byte :=
  let '(VkQueueFamilyProperties.mk flags count bits (VkExtent3D.mk w h d)) := s in
  Writer.u32 flags ++ Writer.u32 count ++ Writer.u32 bits ++ Writer.u32 w ++ Writer.u32 h ++
  Writer.u32 d.

(** marshal.cpp:2530-2537. *)
Definition read_QueueFamilyProperties : Rd VkQueueFamilyProperties.t :=
  flags <- r_u32 ; count <- r_u32 ; bits <- r_u32 ; w <- r_u32 ; h <- r_u32 ; d <- r_u32 ;
  r_ok ;! rret (VkQueueFamilyProperties.mk flags count bits (VkExtent3D.mk w h d)).

(** marshal.cpp:2539-2542. *)
Definition write_SparseImageFormatProperties (s : VkSparseImageFormatProperties.t) : list byte :=
  let '(VkSparseImageFormatProperties.mk aspect (VkExtent3D.mk w h d) flags) := s in
  Writer.u32 aspect ++ Writer.u32 w ++ Writer.u32 h ++ Writer.u32 d ++ Writer.u32 flags.

(** marshal.cpp:2544-2550. *)
Definition read_SparseImageFormatProperties : Rd VkSparseImageFormatProperties.t :=
  aspect <- r_u32 ; w <- r_u32 ; h <- r_u32 ; d <- r_u32 ; flags <- r_u32 ; r_ok ;!
  rret (VkSparseImageFormatProperties.mk aspect (VkExtent3D.mk w h d) flags).

(** marshal.cpp:2552-2555. *)
Definition write_ExtensionProperties (s : VkExtensionProperties.t) : list byte :=
  Writer.string (Some (VkExtensionProperties.extensionName s)) ++
  Writer.u32 (VkExtensionProperties.specVersion s).

(** marshal.cpp:2557-2565. *)
Definition read_ExtensionProperties : Rd VkExtensionProperties.t :=
  name <- r_string ;
  rguard (negb (VK_MAX_EXTENSION_NAME_SIZE <=? Z.of_nat (length name))) ;!
  version <- r_u32 ;
  rret (VkExtensionProperties.mk
          (name ++ replicate (Z.to_nat VK_MAX_EXTENSION_NAME_SIZE - length name) x00) version).

Definition extent_ok3 (e : VkExtent3D.t) : Prop :=
  Forall is_u32 [VkExtent3D.width e; VkExtent3D.height e; VkExtent3D.depth e].

(** The small query results (surface formats, format, image format, queue
    family and sparse image properties) arrive as the server sent them. *)
Theorem query_results_roundtrip rest :
  (forall s, is_i32 (VkSurfaceFormatKHR.format s) -> is_i32 (VkSurfaceFormatKHR.colorSpace s) ->
     reads_at rest read_SurfaceFormatKHR (write_SurfaceFormatKHR s) s) /\
  (forall s, Forall is_u32 [VkFormatProperties.linearTilingFeatures s;
       VkFormatProperties.optimalTilingFeatures s; VkFormatProperties.bufferFeatures s] ->
     reads_at rest read_FormatProperties (write_FormatProperties s) s) /\
  (forall s, extent_ok3 (VkImageFormatProperties.maxExtent s) ->
     Forall is_u32 [VkImageFormatProperties.maxMipLevels s;
       VkImageFormatProperties.maxArrayLayers s; VkImageFormatProperties.sampleCounts s] ->
     is_u64 (VkImageFormatProperties.maxResourceSize s) ->
     reads_at rest read_ImageFormatProperties (write_ImageFormatProperties s) s) /\
  (forall s, extent_ok3 (VkQueueFamilyProperties.minImageTransferGranularity s) ->
     Forall is_u32 [VkQueueFamilyProperties.queueFlags s; VkQueueFamilyProperties.queueCount s;
       VkQueueFamilyProperties.timestampValidBits s] ->
     reads_at rest read_QueueFamilyProperties (write_QueueFamilyProperties s) s) /\
  (forall s, extent_ok3 (VkSparseImageFormatProperties.imageGranularity s) ->
     Forall is_u32 [VkSparseImageFormatProperties.aspectMask s;
       VkSparseImageFormatProperties.flags s] ->
     reads_at rest read_SparseImageFormatProperties (write_SparseImageFormatProperties s) s).
Proof.
  unfold extent_ok3, read_SurfaceFormatKHR, read_FormatProperties, read_ImageFormatProperties,
    read_QueueFamilyProperties, read_SparseImageFormatProperties. split_and!.
  - intros []; cbn; intros. reads_parts.
  - intros []; cbn; intros. forall_hyps. reads_parts.
  - intros [[]]; cbn; intros. forall_hyps. reads_parts.
  - intros [? ? ? []]; cbn; intros. forall_hyps. reads_parts.
  - intros [? []]; cbn; intros. forall_hyps. reads_parts.
Qed.

Lemma strlen_prefix_le (s : list byte) : (length (Writer.strlen_prefix s) <= length s)%nat.
Proof. apply strlen_prefix_length. Qed.

(** An extension name shorter than 256 bytes arrives terminated and padded
    with zeros, and no decoded name overflows the array. *)
Theorem extension_properties_roundtrip rest s :
  Z.of_nat (length (Writer.strlen_prefix (VkExtensionProperties.extensionName s)))
    < VK_MAX_EXTENSION_NAME_SIZE ->
  is_u32 (Z.of_nat (length (VkExtensionProperties.extensionName s))) ->
  is_u32 (VkExtensionProperties.specVersion s) ->
  let name := Writer.strlen_prefix (VkExtensionProperties.extensionName s) in
  let padded := name ++ replicate (256 - length name) x00 in
  length padded = 256%nat /\
  reads_at rest read_ExtensionProperties (write_ExtensionProperties s)
    (VkExtensionProperties.mk padded (VkExtensionProperties.specVersion s)).
Proof.
  intros Hl Hn Hv name padded. change VK_MAX_EXTENSION_NAME_SIZE with 256 in Hl.
  split; [subst padded; rewrite length_app, length_replicate; subst name; lia|].
  unfold read_ExtensionProperties, write_ExtensionProperties.
  eapply reads_bind; [by apply (reads_string_opt _ (Some _))|]. fold name.
  eapply reads_bind_nil.
  { apply reads_guard, negb_true_iff. change VK_MAX_EXTENSION_NAME_SIZE with 256.
    apply Z.leb_gt. exact Hl. }
  eapply reads_bind_last; [by apply reads_u32|]. apply reads_ret.
Qed.
End QueryResults.

(** ** Physical device properties *)
Section PhysicalDeviceProperties.
Import VkPhysicalDeviceProperties.
Import VkPhysicalDeviceLimits(u32_fields, u64_fields, f32_fields, work_groups, bounds_range,
  size_ranges, of_fields, minMemoryMapAlignment, minTexelOffset, minTexelGatherOffset).

Definition f32s (vs : list Z) : list byte := concat (map Writer.f32 vs).

(** marshal.cpp:2359-2391. *)
Definition write_PhysicalDeviceProperties (s : t) : list byte :=
  let l := limits s in
  Writer.u32 (apiVersion s) ++ Writer.u32 (driverVersion s) ++ Writer.u32 (vendorID s) ++
  Writer.u32 (deviceID s) ++ Writer.i32 (deviceType s) ++ Writer.bytes (deviceName s) ++
  Writer.bytes (pipelineCacheUUID s) ++
  u32s (u32_fields l) ++ u64s (u64_fields l) ++ f32s (f32_fields l) ++
  u32s (work_groups l) ++ f32s (bounds_range l) ++
  Writer.u64 (minMemoryMapAlignment l) ++ Writer.i32 (minTexelOffset l) ++
  Writer.i32 (minTexelGatherOffset l) ++ f32s (size_ranges l) ++
  u32s (VkPhysicalDeviceSparseProperties.words (sparseProperties s)).

(** [deviceName[sizeof(deviceName) - 1] = 0]. *)
Definition terminate (name : list byte) : list byte := take (length name - 1) name ++ [x00].

(** marshal.cpp:2393-2442. *)
Definition read_PhysicalDeviceProperties : Rd t :=
  apiVersion <- r_u32 ; driverVersion <- r_u32 ; vendorID <- r_u32 ; deviceID <- r_u32 ;
  deviceType <- r_i32 ;
  name <- read_exact (Z.to_nat VK_MAX_PHYSICAL_DEVICE_NAME_SIZE) ;
  uuid <- read_exact (Z.to_nat VK_UUID_SIZE) ;
  us <- rfor 82 r_u32 ; ul <- rfor 8 r_u64 ; fs <- rfor 7 r_f32 ;
  ws <- rfor 8 r_u32 ; bs <- rfor 2 r_f32 ;
  min_map <- r_u64 ; rguard (min_map <=? 18446744073709551615) ;!
  min_texel <- r_i32 ; min_gather <- r_i32 ;
  rs <- rfor 4 r_f32 ; sparse <- rfor 5 r_u32 ; r_ok ;!
  rret (mk apiVersion driverVersion vendorID deviceID deviceType (terminate name) uuid
          (of_fields us ul fs ws bs min_map min_texel min_gather rs)
          (VkPhysicalDeviceSparseProperties.of_words sparse)).

Definition limits_ok (l : VkPhysicalDeviceLimits.t) : Prop :=
  Forall is_u32 (u32_fields l) /\ Forall is_u64 (u64_fields l) /\ Forall is_u32 (f32_fields l) /\
  Forall is_u32 (work_groups l) /\ Forall is_u32 (bounds_range l) /\
  is_u64 (minMemoryMapAlignment l) /\ is_i32 (minTexelOffset l) /\
  is_i32 (minTexelGatherOffset l) /\ Forall is_u32 (size_ranges l).

Definition PhysicalDeviceProperties_ok (s : t) : Prop :=
  Forall is_u32 [apiVersion s; driverVersion s; vendorID s; deviceID s] /\
  is_i32 (deviceType s) /\
  length (deviceName s) = Z.to_nat VK_MAX_PHYSICAL_DEVICE_NAME_SIZE /\
  length (pipelineCacheUUID s) = Z.to_nat VK_UUID_SIZE /\ limits_ok (limits s) /\
  Forall is_u32 (VkPhysicalDeviceSparseProperties.words (sparseProperties s)).

Lemma reads_f32s rest xs : Forall is_u32 xs -> reads_at rest (rfor (length xs) r_f32) (f32s xs) xs.
Proof. apply reads_map. intros. by apply reads_f32. Qed.

(** The properties of a device arrive member for member (all 106 limits and
    5 sparse properties included), the device name terminated whatever the
    server sent. *)
Theorem device_properties_roundtrip rest s : PhysicalDeviceProperties_ok s ->
  reads_at rest read_PhysicalDeviceProperties (write_PhysicalDeviceProperties s)
    (set_deviceName (terminate (deviceName s)) s) /\
  length (terminate (deviceName s)) = 256%nat /\ last (terminate (deviceName s)) = Some x00.
Proof.
  intros (Hu & Hi & Hname & Huuid & (L1 & L2 & L3 & L4 & L5 & L6 & L7 & L8 & L9) & Hsp).
  change (Z.to_nat VK_MAX_PHYSICAL_DEVICE_NAME_SIZE) with 256%nat in Hname.
  change (Z.to_nat VK_UUID_SIZE) with 16%nat in Huuid.
  split; [|unfold terminate; rewrite length_app, length_take, last_snoc, Hname; by split].
  unfold read_PhysicalDeviceProperties, write_PhysicalDeviceProperties. cbv zeta. forall_hyps.
  do 5 (eapply reads_bind; [first [by apply reads_u32|by apply reads_i32]|]).
  do 2 (eapply reads_bind; [by apply reads_exact|]).
  eapply reads_bind; [exact (reads_u32s _ _ L1)|]. eapply reads_bind; [exact (reads_u64s _ _ L2)|].
  eapply reads_bind; [exact (reads_f32s _ _ L3)|]. eapply reads_bind; [exact (reads_u32s _ _ L4)|].
  eapply reads_bind; [exact (reads_f32s _ _ L5)|]. eapply reads_bind; [by apply reads_u64|].
  eapply reads_bind_nil; [apply reads_guard, Z.leb_le; unfold is_u64 in L6; lia|].
  do 2 (eapply reads_bind; [by apply reads_i32|]).
  eapply reads_bind; [exact (reads_f32s _ _ L9)|].
  eapply reads_bind_last; [exact (reads_u32s _ _ Hsp)|]. eapply reads_bind_nil; [apply reads_ok|].
  rewrite VkPhysicalDeviceLimits.of_fields_id.
  rewrite VkPhysicalDeviceSparseProperties.VkPhysicalDeviceSparseProperties_words.
  apply reads_ret.
Qed.

Lemma safe_PhysicalDeviceProperties : rd_safe read_PhysicalDeviceProperties.
Proof.
  pose proof safe_exact. unfold read_PhysicalDeviceProperties. rd_safe_tac.
Qed.
End PhysicalDeviceProperties.

(** ** Memory properties *)
Section PhysicalDeviceMemoryProperties.
Import VkPhysicalDeviceMemoryProperties.

Definition write_memory_type (x : VkMemoryType.t) : list byte :=
  let '(VkMemoryType.mk propertyFlags heapIndex) := x in
  Writer.u32 propertyFlags ++ Writer.u32 heapIndex.

Definition write_memory_heap (x : VkMemoryHeap.t) : list byte :=
  let '(VkMemoryHeap.mk size flags) := x in Writer.u64 size ++ Writer.u32 flags.

(** marshal.cpp:2449-2460. *)
Definition write_PhysicalDeviceMemoryProperties (s : t) : list byte :=
  Writer.u32 (memoryTypeCount s) ++
  concat (map write_memory_type (take (Z.to_nat (memoryTypeCount s)) (memoryTypes s))) ++
  Writer.u32 (memoryHeapCount s) ++
  concat (map write_memory_heap (take (Z.to_nat (memoryHeapCount s)) (memoryHeaps s))).

Definition read_memory_type : Rd VkMemoryType.t :=
  f <- r_u32 ; h <- r_u32 ; rret (VkMemoryType.mk f h).

Definition read_memory_heap : Rd VkMemoryHeap.t :=
  s <- r_u64 ; f <- r_u32 ; rret (VkMemoryHeap.mk s f).

(** The first [n] elements of a zeroed array of [max], assigned. *)
Definition fill {A} (zero : A) (max : Z) (xs : list A) : list A :=
  xs ++ replicate (Z.to_nat max - length xs) zero.

(** [if (!r.ok() || n > max || n > r.remaining() / size) return false;] *)
Definition read_capped (max size : Z) : Rd Z :=
  n <- r_u32 ; r_ok ;! left <- r_remaining ;
  rguard (negb ((max <? n) || (left / size <? n))) ;! rret n.

(** marshal.cpp:2462-2481. *)
Definition read_PhysicalDeviceMemoryProperties : Rd t :=
  type_count <- read_capped VK_MAX_MEMORY_TYPES 8 ;
  types <- rfor (Z.to_nat type_count) read_memory_type ;
  heap_count <- read_capped VK_MAX_MEMORY_HEAPS 12 ;
  heaps <- rfor (Z.to_nat heap_count) read_memory_heap ;
  r_ok ;!
  rret (mk type_count (fill VkMemoryType.zero VK_MAX_MEMORY_TYPES types)
           heap_count (fill VkMemoryHeap.zero VK_MAX_MEMORY_HEAPS heaps)).

Definition memory_type_ok (x : VkMemoryType.t) : Prop :=
  is_u32 (VkMemoryType.propertyFlags x) /\ is_u32 (VkMemoryType.heapIndex x).

Definition memory_heap_ok (x : VkMemoryHeap.t) : Prop :=
  is_u64 (VkMemoryHeap.size x) /\ is_u32 (VkMemoryHeap.flags x).

(** What a driver reports: counts within the arrays, unused elements zero. *)
Definition memory_properties_ok (s : t) : Prop :=
  exists types heaps,
    memoryTypes s = fill VkMemoryType.zero VK_MAX_MEMORY_TYPES types /\
    memoryHeaps s = fill VkMemoryHeap.zero VK_MAX_MEMORY_HEAPS heaps /\
    memoryTypeCount s = Z.of_nat (length types) /\ memoryHeapCount s = Z.of_nat (length heaps) /\
    Z.of_nat (length types) <= VK_MAX_MEMORY_TYPES /\
    Z.of_nat (length heaps) <= VK_MAX_MEMORY_HEAPS /\
    Forall memory_type_ok types /\ Forall memory_heap_ok heaps.

Lemma take_fill {A} (zero : A) max xs : take (length xs) (fill zero max xs) = xs.
Proof. apply take_app_exact. Qed.

Lemma length_fill {A} (zero : A) max xs :
  0 <= max -> Z.of_nat (length xs) <= max -> Z.of_nat (length (fill zero max xs)) = max.
Proof. intros Hm Hl. unfold fill. rewrite length_app, length_replicate. lia. Qed.

(** A capped count followed by the elements. *)
Lemma reads_capped_array {A B} rest max size (m : Rd A) (enc : A -> list byte) (ok : A -> Prop)
    xs b2 (f : list A -> Z -> Rd B) y :
  0 < size -> max <= 256 ->
  (forall x rest, ok x -> reads_at rest m (enc x) x) ->
  (forall x, size <= Z.of_nat (length (enc x))) ->
  Z.of_nat (length xs) <= max -> Forall ok xs ->
  reads_at rest (f xs (Z.of_nat (length xs))) b2 y ->
  reads_at rest
    (n <- read_capped max size ; ys <- rfor (Z.to_nat n) m ; f ys n)
    (Writer.u32 (Z.of_nat (length xs)) ++ concat (map enc xs) ++ b2) y.
Proof.
  intros Hs Hmax Hm Hsz Hl Hok Hf.
  pose proof (concat_map_length_ge ok enc size xs (fun x _ => Hsz x) Hok) as Hlen.
  eapply reads_bind.
  - unfold read_capped. eapply reads_bind_last; [apply reads_u32; unfold is_u32; lia|].
    eapply reads_bind_nil; [apply reads_ok|]. eapply reads_bind_nil; [apply reads_remaining|].
    eapply reads_bind_nil; [|apply reads_ret]. cbn [app].
    apply reads_guard, negb_true_iff, orb_false_iff. split; apply Z.ltb_ge; [lia|].
    apply Z.div_le_lower_bound; [lia|]. rewrite !length_app. lia.
  - rewrite Nat2Z.id. eapply reads_bind; [by apply (reads_map _ _ _ ok)|]. exact Hf.
Qed.

(** The memory types and heaps of a device arrive as the server sent them,
    in the first elements of zeroed arrays of 32 and 16. *)
Theorem memory_properties_roundtrip rest s : memory_properties_ok s ->
  reads_at rest read_PhysicalDeviceMemoryProperties (write_PhysicalDeviceMemoryProperties s) s.
Proof.
  destruct s as [n1 ts n2 hs]. intros (types & heaps & H1 & H2 & H3 & H4 & H5 & H6 & Ht & Hh).
  cbn in H1, H2, H3, H4. subst ts hs n1 n2.
  unfold write_PhysicalDeviceMemoryProperties, read_PhysicalDeviceMemoryProperties.
  cbn [memoryTypeCount memoryTypes memoryHeapCount memoryHeaps].
  rewrite !Nat2Z.id, !take_fill.
  apply (reads_capped_array _ _ 8 _ _ memory_type_ok); try done.
  { intros [] r [? ?]. cbn in *. unfold read_memory_type. reads_parts. }
  { intros []. cbn. rewrite length_app, !length_writer_u32. lia. }
  rewrite <- (app_nil_r (concat (map write_memory_heap heaps))).
  apply (reads_capped_array _ _ 12 _ _ memory_heap_ok); try done.
  { intros [] r [? ?]. cbn in *. unfold read_memory_heap. reads_parts. }
  { intros []. cbn. rewrite length_app, length_writer_u32, length_writer_u64. lia. }
  eapply reads_bind_nil; [apply reads_ok|]. apply reads_ret.
Qed.

(** Whatever bytes arrive, decoded memory properties have at most 32 types
    and 16 heaps, and full arrays to index. *)
Theorem read_memory_properties_bounds r s r' :
  read_PhysicalDeviceMemoryProperties r = (Some s, r') ->
  0 <= memoryTypeCount s <= VK_MAX_MEMORY_TYPES /\
  0 <= memoryHeapCount s <= VK_MAX_MEMORY_HEAPS /\
  Z.of_nat (length (memoryTypes s)) = VK_MAX_MEMORY_TYPES /\
  Z.of_nat (length (memoryHeaps s)) = VK_MAX_MEMORY_HEAPS.
Proof.
  revert r s r'. apply ensures_spec.
  assert (forall max size, rd_ensures (read_capped max size) (fun n => 0 <= n <= max)) as Hcap.
  { intros max size. unfold read_capped. eapply ensures_bind; [apply ensures_u32|].
    intros n [Hn _]. do 2 (apply ensures_bind_any; intros ?). apply ensures_bind_guard. intros Hg.
    apply ensures_ret. apply negb_true_iff, orb_false_iff in Hg as [Hg _]. bool_hyps. lia. }
  unfold read_PhysicalDeviceMemoryProperties.
  eapply ensures_bind; [apply Hcap|]. intros n1 H1.
  eapply ensures_bind; [apply ensures_for_length|]. intros types Ht. cbn in Ht.
  eapply ensures_bind; [apply Hcap|]. intros n2 H2.
  eapply ensures_bind; [apply ensures_for_length|]. intros heaps Hh. cbn in Hh.
  apply ensures_bind_any; intros _. apply ensures_ret.
  cbn [memoryTypeCount memoryTypes memoryHeapCount memoryHeaps].
  cbv beta in *. split; [done|]. split; [done|]. change VK_MAX_MEMORY_TYPES with 32 in *.
  change VK_MAX_MEMORY_HEAPS with 16 in *. split; apply length_fill; lia.
Qed.

Lemma safe_PhysicalDeviceMemoryProperties : rd_safe read_PhysicalDeviceMemoryProperties.
Proof.
  unfold read_PhysicalDeviceMemoryProperties, read_capped, read_memory_type, read_memory_heap.
  rd_safe_tac.
Qed.
End PhysicalDeviceMemoryProperties.

#[export] Hint Resolve safe_BufferViewCreateInfo safe_QueryPoolCreateInfo safe_EventCreateInfo
  safe_CommandBufferBeginInfo safe_PipelineCacheCreateInfo safe_PhysicalDeviceProperties
  safe_PhysicalDeviceMemoryProperties : rdsafe.
