(* ===== verification/MarshalFacts.v ===== *)
(** All the decoders of [src/common/marshal.cpp] together, and the properties of
    the marshalling code at concrete structs. *)

From stdpp Require Import list.
From S2P Require Import Prelude Wire Codec CLayout VkStructs PNext PNextFacts MarshalBase Marshal.
From S2P Require Import VkCreateInfos VkLimits MarshalChained MarshalDescriptor MarshalSync.
From S2P Require Import MarshalRenderPass2 MarshalPipeline MarshalValues.
Import ReaderFacts.
Open Scope wire_scope.

Section Decoders.
Context `{Abi} {HR : HandleResolver}.

(** A decoder of some struct. *)
Definition decoder : Type := { A : Type & Rd A }.
Definition dec {A} (m : Rd A) : decoder := existT A m.

(** The [read_] functions of marshal.hpp. *)
Definition decoders : list decoder :=
  [dec read_DeviceQueueCreateInfo; dec read_DeviceCreateInfo; dec read_SwapchainCreateInfoKHR;
   dec read_ImageViewCreateInfo; dec read_RenderPassCreateInfo; dec read_RenderPassCreateInfo2;
   dec read_ShaderModuleCreateInfo; dec read_PipelineLayoutCreateInfo;
   dec read_GraphicsPipelineCreateInfo; dec read_ComputePipelineCreateInfo;
   dec read_FramebufferCreateInfo; dec read_BufferViewCreateInfo; dec read_QueryPoolCreateInfo;
   dec read_EventCreateInfo; dec read_CommandBufferAllocateInfo; dec read_CommandBufferBeginInfo;
   dec read_RenderPassBeginInfo; dec read_SubpassBeginInfo; dec read_SubpassEndInfo;
   dec read_DescriptorSetLayoutCreateInfo; dec read_DescriptorUpdateTemplateCreateInfo;
   dec read_SamplerYcbcrConversionCreateInfo; dec read_DescriptorPoolCreateInfo;
   dec read_DescriptorSetAllocateInfo; dec read_WriteDescriptorSet; dec read_CopyDescriptorSet;
   dec read_ImageMemoryBarrier; dec read_BufferMemoryBarrier; dec read_MemoryBarrier;
   dec read_DependencyInfo; dec read_SubmitInfo2; dec read_BufferCreateInfo;
   dec read_ImageCreateInfo; dec read_MemoryAllocateInfo; dec read_SamplerCreateInfo;
   dec read_FenceCreateInfo; dec read_SemaphoreCreateInfo; dec read_CommandPoolCreateInfo;
   dec read_PipelineCacheCreateInfo; dec read_BufferImageCopy; dec read_ImageCopy;
   dec read_ImageBlit; dec read_BufferCopy; dec read_Viewport; dec read_Rect2D;
   dec read_MemoryRequirements; dec read_SubresourceLayout; dec read_SurfaceCapabilitiesKHR;
   dec read_SurfaceFormatKHR; dec read_PhysicalDeviceProperties;
   dec read_PhysicalDeviceMemoryProperties; dec read_PhysicalDeviceFeatures;
   dec read_FormatProperties; dec read_ImageFormatProperties; dec read_QueueFamilyProperties;
   dec read_SparseImageFormatProperties; dec read_ExtensionProperties].

Lemma decoders_safe : Forall (fun d => rd_safe (projT2 d)) decoders.
Proof.
  unfold decoders, dec.
  repeat (apply Forall_cons; split; [cbn [projT2]|]); [..|apply Forall_nil];
    first [ solve [auto with rdsafe]
          | match goal with |- rd_safe ?m => unfold m end; rd_safe_tac ].
Qed.

(** Whatever bytes a peer sends, no decoder of the marshalling code moves
    its reader backwards or past the end of the message, and a reader that has
    failed stays failed. *)
Theorem decoders_stay_in_bounds r d :
  Reader.wf r -> In d decoders -> Reader.later r (snd (projT2 d r)).
Proof.
  intros Hw Hd. pose proof decoders_safe as Hs. rewrite Forall_forall in Hs.
  by apply Hs; [apply list_elem_of_In|].
Qed.

(** The create infos that carry a chain: what the client can encode reaches
    the server with its chain, arrays and strings. *)
Theorem create_infos_roundtrip rest :
  (forall s bs, write_DeviceCreateInfo s = (true, bs) -> DeviceCreateInfo_ok s ->
     reads_at rest read_DeviceCreateInfo bs (recv_DeviceCreateInfo s)) /\
  (forall s bs, write_RenderPassCreateInfo s = (true, bs) -> RenderPassCreateInfo_ok s ->
     reads_at rest read_RenderPassCreateInfo bs (recv_RenderPassCreateInfo s)) /\
  (forall s bs, write_FramebufferCreateInfo s = (true, bs) -> FramebufferCreateInfo_ok s ->
     reads_at rest read_FramebufferCreateInfo bs (recv_FramebufferCreateInfo s)) /\
  (forall s bs, write_RenderPassBeginInfo s = (true, bs) -> RenderPassBeginInfo_ok s ->
     reads_at rest read_RenderPassBeginInfo bs (recv_RenderPassBeginInfo s)) /\
  (forall s bs, write_ImageCreateInfo s = (true, bs) -> ImageCreateInfo_ok s ->
     reads_at rest read_ImageCreateInfo bs (recv_ImageCreateInfo s)) /\
  (forall s bs, write_ImageViewCreateInfo s = (true, bs) -> ImageViewCreateInfo_ok s ->
     reads_at rest read_ImageViewCreateInfo bs (recv_ImageViewCreateInfo s)) /\
  (forall s, BufferCreateInfo_ok s ->
     reads_at rest read_BufferCreateInfo (write_BufferCreateInfo s) (recv_BufferCreateInfo s)).
Proof.
  split_and!; intros;
    first [ by apply reads_DeviceCreateInfo | by apply reads_RenderPassCreateInfo
          | by apply reads_FramebufferCreateInfo | by apply reads_RenderPassBeginInfo
          | by apply reads_ImageCreateInfo | by apply reads_ImageViewCreateInfo
          | by apply reads_BufferCreateInfo ].
Qed.

End Decoders.

(** ** Concrete requests *)
(** Discharges the conditions on a concrete struct. *)
Ltac concrete :=
  lazymatch goal with
  | |- True => exact I
  | |- _ /\ _ => split; concrete
  | |- is_u32 _ => apply small_u32; vm_compute; reflexivity
  | |- is_u64 _ => apply small_u64; vm_compute; reflexivity
  | |- is_i32 _ => apply small_i32; vm_compute; reflexivity
  | |- raw_ok _ => split; concrete
  | |- Forall _ _ => repeat constructor; concrete
  | |- _ = _ => vm_compute; reflexivity
  | |- _ <> _ => vm_compute; discriminate
  | |- Z.le _ _ => vm_compute; discriminate
  | |- Z.lt _ _ => vm_compute; reflexivity
  | |- _ \/ _ => first [solve [left; concrete] | solve [right; concrete]]
  | |- _ -> _ => intros; concrete
  | |- _ => progress hnf; concrete
  end.

Section Requests.
Import Instances.

Definition uniform_write : VkWriteDescriptorSet.t :=
  VkWriteDescriptorSet.mk 35 Null 7 0 0 1 VK_DESCRIPTOR_TYPE_UNIFORM_BUFFER Null
    (Ref [VkDescriptorBufferInfo.mk 9 0 64]) Null.

Definition uniform_bytes : list byte := snd (write_WriteDescriptorSet uniform_write).

Lemma write_descriptor_set_roundtrip_witness : exists bs,
  write_WriteDescriptorSet uniform_write = (true, bs) /\
  reads_at [] read_WriteDescriptorSet bs (recv_WriteDescriptorSet uniform_write).
Proof.
  eexists. split; [vm_compute; reflexivity|].
  refine (write_descriptor_set_roundtrip [] uniform_write _ _ _); [vm_compute; reflexivity|].
  concrete.
Defined.

Lemma read_descriptor_set_resolved_witness : exists s r',
  read_WriteDescriptorSet (Reader.make uniform_bytes) = (Some s, r') /\
  VkWriteDescriptorSet.dstSet s <> 0.
Proof.
  do 2 eexists. split; [vm_compute; reflexivity|].
  eapply (proj1 (read_descriptor_set_resolved (Reader.make uniform_bytes) _ _ _)).
  Unshelve. 2: vm_compute; reflexivity.
Defined.

Definition shader : VkShaderModuleCreateInfo.t :=
  VkShaderModuleCreateInfo.mk VK_STRUCTURE_TYPE_SHADER_MODULE_CREATE_INFO Null 0 8
    (Ref [119734787; 65536]).

Definition shader_bytes : list byte := snd (write_ShaderModuleCreateInfo shader).

Lemma shader_module_roundtrip_witness : exists bs,
  write_ShaderModuleCreateInfo shader = (true, bs) /\
  fst (read_ShaderModuleCreateInfo (Reader.make bs)) = Some shader.
Proof.
  eexists. split; [vm_compute; reflexivity|].
  refine (f_equal fst (shader_module_roundtrip shader _ _ _ _ _ _ _ _));
    [vm_compute; reflexivity|concrete..].
Defined.

Lemma read_shader_module_bounds_witness : exists s r',
  read_ShaderModuleCreateInfo (Reader.make shader_bytes) = (Some s, r') /\
  0 < VkShaderModuleCreateInfo.codeSize s <= kMaxShaderCodeBytes.
Proof.
  do 2 eexists. split; [vm_compute; reflexivity|].
  eapply (proj1 (read_shader_module_bounds (Reader.make shader_bytes) _ _ _)).
  Unshelve. 2: vm_compute; reflexivity.
Defined.

Definition dependency : VkDependencyInfo.t :=
  VkDependencyInfo.mk VK_STRUCTURE_TYPE_DEPENDENCY_INFO Null 0
    1 (Ref [VkMemoryBarrier2.mk VK_STRUCTURE_TYPE_MEMORY_BARRIER_2 Null 1 2 3 4])
    1 (Ref [VkBufferMemoryBarrier2.mk VK_STRUCTURE_TYPE_BUFFER_MEMORY_BARRIER_2 Null 1 2 3 4 0 0
              8 0 256]) 0 Null.

Lemma dependency_info_roundtrip_witness : exists bs,
  write_DependencyInfo dependency = (true, bs) /\
  reads_at [] read_DependencyInfo bs
    (VkDependencyInfo.mk VK_STRUCTURE_TYPE_DEPENDENCY_INFO Null 0
       1 (Ref [VkMemoryBarrier2.mk VK_STRUCTURE_TYPE_MEMORY_BARRIER_2 Null 1 2 3 4])
       1 (Ref [VkBufferMemoryBarrier2.mk VK_STRUCTURE_TYPE_BUFFER_MEMORY_BARRIER_2 Null 1 2 3 4 0 0
                 1008 0 256]) 0 Null).
Proof.
  eexists. split; [vm_compute; reflexivity|].
  refine (dependency_info_roundtrip [] dependency _ _ _); [vm_compute; reflexivity|concrete].
Defined.

Definition submission : VkSubmitInfo2.t :=
  VkSubmitInfo2.mk VK_STRUCTURE_TYPE_SUBMIT_INFO_2 Null 0
    1 (Ref [VkSemaphoreSubmitInfo.mk VK_STRUCTURE_TYPE_SEMAPHORE_SUBMIT_INFO Null 3 41 1 0])
    1 (Ref [VkCommandBufferSubmitInfo.mk VK_STRUCTURE_TYPE_COMMAND_BUFFER_SUBMIT_INFO Null 5 0])
    0 Null.

Lemma submit_info2_roundtrip_witness : exists bs,
  write_SubmitInfo2 submission (Some (fun cb => cb + 100)) = (true, bs) /\
  reads_at [] read_SubmitInfo2 bs
    (VkSubmitInfo2.mk VK_STRUCTURE_TYPE_SUBMIT_INFO_2 Null 0
       1 (Ref [VkSemaphoreSubmitInfo.mk VK_STRUCTURE_TYPE_SEMAPHORE_SUBMIT_INFO Null 17003 41 1 0])
       1 (Ref [VkCommandBufferSubmitInfo.mk VK_STRUCTURE_TYPE_COMMAND_BUFFER_SUBMIT_INFO Null
                 24105 0]) 0 Null).
Proof.
  eexists. split; [vm_compute; reflexivity|].
  refine (submit_info2_roundtrip [] submission (Some (fun cb => cb + 100)) _ _ _);
    [vm_compute; reflexivity|concrete].
Defined.

Definition color_reference : VkAttachmentReference2.t :=
  VkAttachmentReference2.mk VK_STRUCTURE_TYPE_ATTACHMENT_REFERENCE_2 Null 0 2 1.

Definition render_pass2 : VkRenderPassCreateInfo2.t :=
  VkRenderPassCreateInfo2.mk VK_STRUCTURE_TYPE_RENDER_PASS_CREATE_INFO_2 Null 0
    1 (Ref [VkAttachmentDescription2.mk VK_STRUCTURE_TYPE_ATTACHMENT_DESCRIPTION_2 Null 0 37 1 1 0
              2 1 0 1000001002])
    1 (Ref [VkSubpassDescription2.mk VK_STRUCTURE_TYPE_SUBPASS_DESCRIPTION_2 Null 0 0 0 0 Null
              1 (Ref [color_reference]) Null Null 0 Null])
    0 Null 1 (Ref [3]).

Lemma render_pass2_roundtrip_witness : exists bs,
  write_RenderPassCreateInfo2 render_pass2 = (true, bs) /\
  reads_at [] read_RenderPassCreateInfo2 bs render_pass2.
Proof.
  eexists. split; [vm_compute; reflexivity|].
  refine (render_pass2_roundtrip [] render_pass2 _ _ _); [vm_compute; reflexivity|concrete].
Defined.

Definition pipeline : VkGraphicsPipelineCreateInfo.t :=
  VkGraphicsPipelineCreateInfo.mk 28 Null 0
    1 (Ref [VkPipelineShaderStageCreateInfo.mk 18 Null 0 1 6 (Ref [x6d; x00]) Null])
    Null (Ref (VkPipelineInputAssemblyStateCreateInfo.mk 20 Null 0 3 0))
    (Ref (VkPipelineTessellationStateCreateInfo.mk 21 (Ref [TessellationDomainOrigin 1]) 0 3))
    Null Null Null Null Null
    (Ref (VkPipelineDynamicStateCreateInfo.mk 27 Null 0 2 (Ref [0; 1]))) 4 5 0 0 0.

Lemma graphics_pipeline_roundtrip_witness : exists bs,
  write_GraphicsPipelineCreateInfo pipeline = (true, bs) /\
  reads_at [] read_GraphicsPipelineCreateInfo bs (recv_GraphicsPipelineCreateInfo pipeline).
Proof.
  eexists. split; [vm_compute; reflexivity|].
  refine (graphics_pipeline_roundtrip [] pipeline _ _ _); [vm_compute; reflexivity|concrete].
Defined.

Definition secondary_begin : VkCommandBufferBeginInfo.t :=
  VkCommandBufferBeginInfo.mk VK_STRUCTURE_TYPE_COMMAND_BUFFER_BEGIN_INFO Null 2
    (Ref (VkCommandBufferInheritanceInfo.mk VK_STRUCTURE_TYPE_COMMAND_BUFFER_INHERITANCE_INFO Null
            11 0 12 0 0 0)).

Lemma begin_info_roundtrip_witness :
  reads_at [] read_CommandBufferBeginInfo (write_CommandBufferBeginInfo secondary_begin)
    (VkCommandBufferBeginInfo.mk VK_STRUCTURE_TYPE_COMMAND_BUFFER_BEGIN_INFO Null 2
       (Ref (VkCommandBufferInheritanceInfo.mk VK_STRUCTURE_TYPE_COMMAND_BUFFER_INHERITANCE_INFO
               Null 6011 0 7012 0 0 0))).
Proof. refine (begin_info_roundtrip [] secondary_begin _). concrete. Defined.

Lemma read_begin_info_clean_witness : exists s r',
  read_CommandBufferBeginInfo (Reader.make (write_CommandBufferBeginInfo secondary_begin)) =
    (Some s, r') /\ VkCommandBufferBeginInfo.pNext s = Null.
Proof.
  do 2 eexists. split; [vm_compute; reflexivity|].
  eapply (proj1 (proj2 (read_begin_info_clean
    (Reader.make (write_CommandBufferBeginInfo secondary_begin)) _ _ _))).
  Unshelve. 2: vm_compute; reflexivity.
Defined.

Lemma raw_decoder_keeps_pnext_witness :
  reads_at [] read_FenceCreateInfo (write_raw (VkFenceCreateInfo.mk 8 (Wild 3735928559) 1))
    (VkFenceCreateInfo.mk 8 (Wild 3735928559) 1).
Proof. apply (raw_decoder_keeps_pnext [] 8 3735928559 1); concrete. Defined.

Definition device_properties : VkPhysicalDeviceProperties.t :=
  VkPhysicalDeviceProperties.mk 4202496 1 4098 29823 2 (replicate 256 x41) (replicate 16 x07)
    VkPhysicalDeviceLimits.zero VkPhysicalDeviceSparseProperties.zero.

Lemma device_properties_roundtrip_witness :
  reads_at [] read_PhysicalDeviceProperties (write_PhysicalDeviceProperties device_properties)
    (VkPhysicalDeviceProperties.set_deviceName (replicate 255 x41 ++ [x00]) device_properties).
Proof. refine (proj1 (device_properties_roundtrip [] device_properties _)). concrete. Defined.

Definition memory_properties : VkPhysicalDeviceMemoryProperties.t :=
  VkPhysicalDeviceMemoryProperties.mk
    2 (fill VkMemoryType.zero VK_MAX_MEMORY_TYPES [VkMemoryType.mk 1 0; VkMemoryType.mk 6 1])
    2 (fill VkMemoryHeap.zero VK_MAX_MEMORY_HEAPS [VkMemoryHeap.mk 8589934592 1;
                                                  VkMemoryHeap.mk 17179869184 0]).

Lemma memory_properties_roundtrip_witness :
  reads_at [] read_PhysicalDeviceMemoryProperties
    (write_PhysicalDeviceMemoryProperties memory_properties) memory_properties.
Proof.
  refine (memory_properties_roundtrip [] memory_properties _).
  exists [VkMemoryType.mk 1 0; VkMemoryType.mk 6 1],
         [VkMemoryHeap.mk 8589934592 1; VkMemoryHeap.mk 17179869184 0]. concrete.
Defined.

Lemma read_memory_properties_bounds_witness : exists s r',
  read_PhysicalDeviceMemoryProperties
    (Reader.make (write_PhysicalDeviceMemoryProperties memory_properties)) = (Some s, r') /\
  0 <= VkPhysicalDeviceMemoryProperties.memoryTypeCount s <= VK_MAX_MEMORY_TYPES.
Proof.
  do 2 eexists. split; [vm_compute; reflexivity|].
  eapply (proj1 (read_memory_properties_bounds
    (Reader.make (write_PhysicalDeviceMemoryProperties memory_properties)) _ _ _)).
  Unshelve. 2: vm_compute; reflexivity.
Defined.

Lemma decoders_stay_in_bounds_witness :
  Reader.later (Reader.make [x01]) (snd (read_SubmitInfo2 (Reader.make [x01]))).
Proof.
  refine (decoders_stay_in_bounds (Reader.make [x01]) (dec read_SubmitInfo2) _ _);
    [apply make_wf|]. unfold decoders. do 30 right. left. reflexivity.
Defined.

Definition device : VkDeviceCreateInfo.t :=
  VkDeviceCreateInfo.mk 3 device_chain 0
    1 (Ref [VkDeviceQueueCreateInfo.mk 2 Null 0 0 1 (Ref [1065353216])])
    0 Null 1 (Ref [[x56; x4b; x00]]) Null.

Lemma create_infos_roundtrip_witness : exists bs,
  write_DeviceCreateInfo device = (true, bs) /\
  reads_at [] read_DeviceCreateInfo bs (recv_DeviceCreateInfo device).
Proof.
  eexists. split; [vm_compute; reflexivity|].
  refine (proj1 (create_infos_roundtrip []) device _ _ _); [vm_compute; reflexivity|concrete].
Defined.

End Requests.
