(* ===== verification/Objects.v ===== *)
(** The server's object tables: [src/server/objects.hpp] and the teardown of
    [src/server/session.cpp].

    [Table] maps ids to driver handles; ids are never reused.  [ObjectTables] is
    one connection's state, a table per kind of object.  The teardown functions
    return the driver calls they make, in order. *)

From stdpp Require Import list gmap.
From S2P Require Import Prelude PNext VkCreateInfos.

(** ** Tables *)
Module Table.

(** A slot and its owner; the two vectors of the class.

    objects.hpp:84-86. *)
Record t := mk { m_slots : list Z; m_owners : list Z }.

Definition empty : t := mk [] [].

Section Ops.
Variable T : t.

(** objects.hpp:77-77. *)
Definition size : Z := Z.of_nat (length (m_slots T)).

(** [id == 0 || id > m_slots.size()]. *)
Definition outside (id : Z) (xs : list Z) : bool := (id =? 0) || (Z.of_nat (length xs) <? id).

Definition slot (id : Z) : nat := Z.to_nat (id - 1).

(** objects.hpp:44-47. *)
Definition get (id : Z) : Z :=
  if outside id (m_slots T) then 0 else default 0 (m_slots T !! slot id).

(** objects.hpp:59-62. *)
Definition owner (id : Z) : Z :=
  if outside id (m_owners T) then 0 else default 0 (m_owners T !! slot id).

(** objects.hpp:64-66. *)
Definition owned_by (id device : Z) : bool := negb (get id =? 0) && (owner id =? device).

(** objects.hpp:30-34. *)
Definition add (value device : Z) : Z * t :=
  let T' := mk (m_slots T ++ [value]) (m_owners T ++ [device]) in
  (Z.of_nat (length (m_slots T')), T').

(** The first slot that holds [value] for [device]. *)
Fixpoint search (value device : Z) (i : Z) (slots owners : list Z) : option Z :=
  match slots, owners with
  | v :: slots', o :: owners' =>
      if (v =? value) && (o =? device) then Some (i + 1)
      else search value device (i + 1) slots' owners'
  | _, _ => None
  end.

(** objects.hpp:36-42. *)
Definition add_unique (value device : Z) : Z * t :=
  match search value device 0 (m_slots T) (m_owners T) with
  | Some id => (id, T)
  | None => add value device
  end.

(** objects.hpp:51-57. *)
Definition take (id : Z) : Z * t :=
  if outside id (m_slots T) then (0, T)
  else (default 0 (m_slots T !! slot id),
        mk (<[slot id := 0]> (m_slots T)) (<[slot id := 0]> (m_owners T))).

(** objects.hpp:68-75. *)
Definition retire_owned (device : Z) : t :=
  mk (zip_with (fun v o => if o =? device then 0 else v) (m_slots T) (m_owners T))
     (map (fun o => if o =? device then 0 else o) (m_owners T)).

End Ops.

(** The two vectors have one element per id. *)
Definition wf (T : t) : Prop := length (m_slots T) = length (m_owners T).

(** *** What each operation does to each id *)
Section Facts.
Implicit Types T : t.

Lemma wf_empty : wf empty.
Proof. done. Qed.

Lemma outside_spec id xs : 0 <= id ->
  outside id xs = false <-> 1 <= id <= Z.of_nat (length xs).
Proof.
  intros Hid. unfold outside. rewrite orb_false_iff, Z.eqb_neq, Z.ltb_ge. lia.
Qed.

Lemma get_in T id : 1 <= id <= size T -> get T id = default 0 (m_slots T !! slot id).
Proof.
  intros Hid. unfold get, size in *.
  by assert (outside id (m_slots T) = false) as -> by (apply outside_spec; lia).
Qed.

Lemma get_out T id : 0 <= id -> ~ (1 <= id <= size T) -> get T id = 0.
Proof.
  intros H0 Hid. unfold get, size in *. destruct (outside id _) eqn:E; [done|].
  apply outside_spec in E; lia.
Qed.

Lemma owner_in T id : wf T -> 1 <= id <= size T ->
  owner T id = default 0 (m_owners T !! slot id).
Proof.
  intros Hw Hid. unfold owner, size, wf in *.
  by assert (outside id (m_owners T) = false) as -> by (apply outside_spec; lia).
Qed.

Lemma owner_out T id : wf T -> 0 <= id -> ~ (1 <= id <= size T) -> owner T id = 0.
Proof.
  intros Hw H0 Hid. unfold owner, size, wf in *. destruct (outside id _) eqn:E; [done|].
  apply outside_spec in E; lia.
Qed.

Lemma get_nonzero_in T id : 0 <= id -> get T id <> 0 -> 1 <= id <= size T.
Proof.
  intros H0 Hg. destruct (decide (1 <= id <= size T)) as [|Hn]; [done|].
  by rewrite get_out in Hg.
Qed.

Lemma add_wf T v d : wf T -> wf (snd (add T v d)).
Proof. unfold wf. cbn. intros. rewrite !length_app. cbn. lia. Qed.

Lemma add_id T v d : fst (add T v d) = size T + 1.
Proof. cbn. unfold size. rewrite length_app. cbn. lia. Qed.

Lemma size_add T v d : size (snd (add T v d)) = size T + 1.
Proof. unfold size. cbn. rewrite length_app. cbn. lia. Qed.

Lemma get_add T v d id : 0 <= id ->
  get (snd (add T v d)) id = if id =? size T + 1 then v else get T id.
Proof.
  intros H0. destruct (Z.eqb_spec id (size T + 1)) as [->|Hn].
  - rewrite get_in by (rewrite size_add; unfold size; lia). cbn. unfold slot, size.
    replace (Z.to_nat _) with (length (m_slots T)) by lia.
    by rewrite list_lookup_middle.
  - destruct (decide (1 <= id <= size T)) as [Hin|Hout].
    + rewrite !get_in by (rewrite ?size_add; lia). cbn. unfold slot, size in *.
      by rewrite lookup_app_l by lia.
    + rewrite !get_out; [done|done|done|done|]. rewrite size_add. lia.
Qed.

Lemma owner_add T v d id : wf T -> 0 <= id ->
  owner (snd (add T v d)) id = if id =? size T + 1 then d else owner T id.
Proof.
  intros Hw H0. pose proof (add_wf T v d Hw) as Hw'.
  destruct (Z.eqb_spec id (size T + 1)) as [->|Hn].
  - rewrite owner_in by (rewrite ?size_add; unfold size; done || lia). cbn. unfold slot, size, wf in *.
    replace (Z.to_nat _) with (length (m_owners T)) by lia.
    by rewrite list_lookup_middle.
  - destruct (decide (1 <= id <= size T)) as [Hin|Hout].
    + rewrite !owner_in by (rewrite ?size_add; done || lia). cbn. unfold slot, size, wf in *.
      by rewrite lookup_app_l by lia.
    + rewrite !owner_out; try done. rewrite size_add. lia.
Qed.

Lemma take_wf T id : wf T -> wf (snd (take T id)).
Proof. unfold wf, take. case_match; cbn; [done|]. by rewrite !length_insert. Qed.

Lemma size_take T id : size (snd (take T id)) = size T.
Proof. unfold take, size. case_match; cbn; [done|]. by rewrite length_insert. Qed.

Lemma take_value T id : fst (take T id) = get T id.
Proof. unfold take, get. by case_match. Qed.

Lemma get_take T id id' : 0 <= id -> 0 <= id' ->
  get (snd (take T id)) id' = if id' =? id then 0 else get T id'.
Proof.
  intros H0 H0'. destruct (decide (1 <= id' <= size T)) as [Hin|Hout].
  2:{ rewrite !get_out; try done; [by case_match|by rewrite size_take]. }
  rewrite !get_in by (rewrite ?size_take; done). unfold take.
  destruct (outside id (m_slots T)) eqn:E; cbn.
  - destruct (Z.eqb_spec id' id) as [->|]; [|done].
    assert (outside id (m_slots T) = false); [|congruence]. by apply outside_spec.
  - apply outside_spec in E; [|done]. unfold size, slot in *.
    destruct (Z.eqb_spec id' id) as [->|Hn].
    + by rewrite list_lookup_insert_eq by lia.
    + by rewrite list_lookup_insert_ne by lia.
Qed.

Lemma owner_take T id id' : wf T -> 0 <= id -> 0 <= id' ->
  owner (snd (take T id)) id' = if id' =? id then 0 else owner T id'.
Proof.
  intros Hw H0 H0'. pose proof (take_wf T id Hw) as Hw'.
  destruct (decide (1 <= id' <= size T)) as [Hin|Hout].
  2:{ rewrite !owner_out; try done; [by case_match|by rewrite size_take]. }
  rewrite !owner_in by (rewrite ?size_take; done). unfold take, wf in *.
  destruct (outside id (m_slots T)) eqn:E; cbn.
  - destruct (Z.eqb_spec id' id) as [->|]; [|done].
    assert (outside id (m_slots T) = false); [|congruence]. by apply outside_spec.
  - apply outside_spec in E; [|done]. unfold size, slot in *.
    destruct (Z.eqb_spec id' id) as [->|Hn].
    + by rewrite list_lookup_insert_eq by lia.
    + by rewrite list_lookup_insert_ne by lia.
Qed.

Lemma retire_wf T d : wf T -> wf (retire_owned T d).
Proof. unfold wf, retire_owned. cbn. rewrite length_zip_with, length_map. lia. Qed.

Lemma size_retire T d : wf T -> size (retire_owned T d) = size T.
Proof. unfold wf, size, retire_owned. cbn. rewrite length_zip_with. lia. Qed.

Lemma get_retire T d id : wf T -> 0 <= id ->
  get (retire_owned T d) id =
  if (1 <=? id) && (id <=? size T) && (owner T id =? d) then 0 else get T id.
Proof.
  intros Hw H0. destruct (decide (1 <= id <= size T)) as [Hin|Hout].
  - rewrite (proj2 (Z.leb_le 1 id)), (proj2 (Z.leb_le id _)) by lia. cbn [andb].
    rewrite !get_in, owner_in by (rewrite ?size_retire; done). unfold retire_owned. cbn.
    rewrite lookup_zip_with. unfold wf, size, slot in *.
    destruct (lookup_lt_is_Some_2 (m_slots T) (Z.to_nat (id - 1))) as [v Hv]; [lia|].
    destruct (lookup_lt_is_Some_2 (m_owners T) (Z.to_nat (id - 1))) as [o Ho]; [lia|].
    rewrite Hv, Ho. done.
  - rewrite !get_out; try done; [by case_match|by rewrite size_retire].
Qed.

Lemma owner_retire T d id : wf T -> 0 <= id -> d <> 0 ->
  owner (retire_owned T d) id = if owner T id =? d then 0 else owner T id.
Proof.
  intros Hw H0 Hd. pose proof (retire_wf T d Hw) as Hw'.
  destruct (decide (1 <= id <= size T)) as [Hin|Hout].
  - rewrite !owner_in by (rewrite ?size_retire; done). unfold retire_owned. cbn.
    rewrite list_lookup_fmap. unfold wf, size, slot in *.
    destruct (lookup_lt_is_Some_2 (m_owners T) (Z.to_nat (id - 1))) as [o Ho]; [lia|].
    by rewrite Ho.
  - rewrite !owner_out; try done; [by case_match|by rewrite size_retire].
Qed.

(** The search finds the slot it returns. *)
Lemma search_spec v d : forall slots owners i id,
  search v d i slots owners = Some id ->
  exists n, id = i + 1 + Z.of_nat n /\ slots !! n = Some v /\ owners !! n = Some d.
Proof.
  induction slots as [|w slots IH]; intros [|o owners] i id; cbn; try done.
  destruct ((w =? v) && (o =? d)) eqn:E.
  - intros [= <-]. bool_hyps. subst. exists 0%nat. split; [lia|done].
  - intros Hs. apply IH in Hs as (n & -> & Hv & Ho). exists (S n). split; [lia|done].
Qed.

(** The id [add_unique] returns names the value. *)
Lemma add_unique_get T v d : wf T -> let (id, T') := add_unique T v d in
  1 <= id <= size T' /\ get T' id = v /\ owner T' id = d.
Proof.
  intros Hw. unfold add_unique. destruct (search v d 0 _ _) as [id|] eqn:E.
  - apply search_spec in E as (n & -> & Hv & Ho).
    pose proof (lookup_lt_Some _ _ _ Hv) as Hl. unfold size.
    assert (1 <= 0 + 1 + Z.of_nat n <= size T) as Hin by (unfold size; lia).
    split; [lia|]. rewrite get_in, owner_in by done. unfold slot.
    replace (Z.to_nat (0 + 1 + Z.of_nat n - 1)) with n by lia. by rewrite Hv, Ho.
  - pose proof (get_add T v d (size T + 1)) as Hg. pose proof (owner_add T v d (size T + 1)) as Ho.
    pose proof (size_add T v d) as Hs. rewrite Z.eqb_refl in Hg, Ho.
    pose proof (add_id T v d) as Hid. destruct (add T v d) as [id T']. cbn in *. subst id.
    unfold size in *. split_and!; [lia|lia|apply Hg; lia|apply Ho; [done|lia]].
Qed.

End Facts.

(** *** Ids are never reused *)
Section Steps.

(** The calls a connection makes on a table. *)
Inductive call :=
  | Add (value device : Z)
  | AddUnique (value device : Z)
  | Take (id : Z)
  | RetireOwned (device : Z).

Definition perform (T : t) (c : call) : t :=
  match c with
  | Add v d => snd (add T v d)
  | AddUnique v d => snd (add_unique T v d)
  | Take id => snd (take T id)
  | RetireOwned d => retire_owned T d
  end.

(** Ids are unsigned. *)
Definition call_ok (c : call) : Prop := match c with Take id => 0 <= id | _ => True end.

Definition run (T : t) (cs : list call) : t := fold_left perform cs T.

Lemma add_unique_shape T v d :
  snd (add_unique T v d) = T \/ snd (add_unique T v d) = snd (add T v d).
Proof. unfold add_unique. case_match; auto. Qed.

Lemma perform_wf T c : wf T -> wf (perform T c).
Proof.
  destruct c; cbn; intros; [by apply add_wf| |by apply take_wf|by apply retire_wf].
  destruct (add_unique_shape T value device) as [-> | ->]; [done|by apply add_wf].
Qed.

(** One call: the table only grows, and an id it knew keeps its object or loses
    it. *)
Lemma perform_keeps T c : wf T -> call_ok c ->
  size T <= size (perform T c) /\
  forall id, 1 <= id <= size T -> get (perform T c) id = get T id \/ get (perform T c) id = 0.
Proof.
  intros Hw Hc.
  assert (forall v d, size T <= size (snd (add T v d)) /\ forall id, 1 <= id <= size T ->
            get (snd (add T v d)) id = get T id \/ get (snd (add T v d)) id = 0) as Hadd.
  { intros v d. rewrite size_add. split; [lia|]. intros id Hid. left.
    rewrite get_add by lia. by rewrite (proj2 (Z.eqb_neq _ _)) by lia. }
  destruct c as [v d|v d|i|d]; cbn [perform].
  - apply Hadd.
  - destruct (add_unique_shape T v d) as [-> | ->]; [split; [lia|auto]|apply Hadd].
  - rewrite size_take. split; [lia|]. intros id Hid. rewrite get_take by (done || lia).
    case_match; auto.
  - rewrite size_retire by done. split; [lia|]. intros id Hid. rewrite get_retire by (done || lia).
    case_match; auto.
Qed.

(** C5: Ids are never reused: whatever a connection does with a table, every id
    already handed out names the object it named or none, so a destroyed id
    stays dead; and an id handed out later is a fresh one. *)
Theorem ids_never_reused T cs :
  wf T -> Forall call_ok cs ->
  (forall id, 1 <= id <= size T -> get (run T cs) id = get T id \/ get (run T cs) id = 0) /\
  (forall v d, size T < fst (add (run T cs) v d)).
Proof.
  intros Hw Hcs.
  assert (size T <= size (run T cs) /\ forall id, 1 <= id <= size T ->
            get (run T cs) id = get T id \/ get (run T cs) id = 0) as [Hs Hg].
  { unfold run. revert T Hw. induction Hcs as [|c cs Hc _ IH]; intros T Hw; cbn.
    - split; [lia|auto].
    - destruct (perform_keeps T c Hw Hc) as [Hs Hk].
      destruct (IH _ (perform_wf T c Hw)) as [Hs' Hk']. split; [lia|].
      intros id Hid. destruct (Hk' id) as [-> | ->]; [lia| |by right]. by apply Hk. }
  split; [exact Hg|]. intros v d. rewrite add_id. lia.
Qed.

Lemma ids_never_reused_witness :
  let T := snd (add (snd (add empty 11 5)) 12 5) in
  get (run T [Take 1; Add 11 5; AddUnique 12 5]) 1 = get T 1 \/
  get (run T [Take 1; Add 11 5; AddUnique 12 5]) 1 = 0.
Proof.
  intros T. assert (Forall call_ok [Take 1; Add 11 5; AddUnique 12 5]) as Hok.
  { apply Forall_forall. intros c Hc. apply list_elem_of_In in Hc.
    repeat destruct Hc as [<-|Hc]; cbn; try done; lia. }
  apply (proj1 (ids_never_reused T _ eq_refl Hok)). split; vm_compute; discriminate.
Defined.

End Steps.
End Table.

(** ** One connection's objects *)

(** The member tables of [ObjectTables]; objects.hpp:107-140. *)
Inductive kind :=
  | devices | queues | command_pools | command_buffers | buffers | images | image_views
  | buffer_views | memories | render_passes | framebuffers | shader_modules | pipelines
  | pipeline_layouts | pipeline_caches | descriptor_set_layouts | descriptor_pools
  | descriptor_sets | samplers | descriptor_update_templates | sampler_ycbcr_conversions
  | semaphores | fences | events | query_pools | surfaces | swapchains.

#[export] Instance kind_eq_dec : EqDecision kind.
Proof. solve_decision. Defined.

(** objects.hpp:91-98. *)
Record ServerMemory := {
  sm_handle : Z; sm_owner : Z; sm_size : Z; sm_property_flags : Z; sm_map_alignment : Z;
  sm_non_coherent_atom_size : Z }.

(** objects.hpp:100-103. *)
Record DescriptorSetOwner := { dso_device : Z; dso_pool : Z }.

(** [unordered_map] members become finite maps.

    objects.hpp:105-154. *)
Record ObjectTables := {
  capabilities : Z;
  table : kind -> Table.t;
  memory_metadata : gmap Z ServerMemory;
  device_physical_devices : gmap Z Z;
  command_buffer_devices : gmap Z Z;
  descriptor_set_owners : gmap Z DescriptorSetOwner;
  descriptor_update_template_owners : gmap Z Z;
  descriptor_update_template_entries : gmap Z (list VkDescriptorUpdateTemplateEntry.t);
  sampler_ycbcr_conversion_owners : gmap Z Z;
  swapchain_devices : gmap Z Z;
  swapchain_surfaces : gmap Z Z;
  swapchain_image_ids : gmap Z (list Z) }.

(** The lookups of the decoders; objects.hpp:156-185. *)
Definition resolver_of (t : ObjectTables) : HandleResolver :=
  let f k := Table.get (table t k) in
  {| hr_buffer := f buffers; hr_image := f images; hr_image_view := f image_views;
     hr_buffer_view := f buffer_views; hr_memory := f memories; hr_render_pass := f render_passes;
     hr_framebuffer := f framebuffers; hr_shader_module := f shader_modules;
     hr_pipeline := f pipelines; hr_pipeline_layout := f pipeline_layouts;
     hr_pipeline_cache := f pipeline_caches;
     hr_descriptor_set_layout := f descriptor_set_layouts;
     hr_descriptor_pool := f descriptor_pools; hr_descriptor_set := f descriptor_sets;
     hr_sampler := f samplers; hr_sampler_ycbcr_conversion := f sampler_ycbcr_conversions;
     hr_semaphore := f semaphores; hr_fence := f fences; hr_event := f events;
     hr_query_pool := f query_pools; hr_surface := f surfaces; hr_swapchain := f swapchains;
     hr_command_pool := f command_pools; hr_command_buffer := f command_buffers |}.

(** ** Teardown *)

(** The driver calls of a teardown. *)
Inductive driver_call :=
  | DeviceWaitIdle (device : Z)
  | Destroy (k : kind) (device handle : Z)
  | DestroyDevice (device : Z)
  | DestroySurface (handle : Z).

Section Teardown.

Definition set_table (k : kind) (T : Table.t) (t : ObjectTables) : ObjectTables :=
  {| capabilities := capabilities t;
     table := fun k' => if decide (k' = k) then T else table t k';
     memory_metadata := memory_metadata t;
     device_physical_devices := device_physical_devices t;
     command_buffer_devices := command_buffer_devices t;
     descriptor_set_owners := descriptor_set_owners t;
     descriptor_update_template_owners := descriptor_update_template_owners t;
     descriptor_update_template_entries := descriptor_update_template_entries t;
     sampler_ycbcr_conversion_owners := sampler_ycbcr_conversion_owners t;
     swapchain_devices := swapchain_devices t; swapchain_surfaces := swapchain_surfaces t;
     swapchain_image_ids := swapchain_image_ids t |}.

(** [1 .. size]. *)
Definition ids (T : Table.t) : list Z := map (fun n => Z.of_nat n + 1) (seq 0 (length (Table.m_slots T))).

(** One turn of the loop of [DESTROY_OWNED]: the table and the objects passed to
    the destroy function so far. *)
Definition destroy_slot (device : Z) (acc : Table.t * list Z) (id : Z) : Table.t * list Z :=
  let '(T, out) := acc in
  if Table.owned_by T id device then
    let (object, T') := Table.take T id in
    (T', if object =? 0 then out else out ++ [object])
  else (T, out).

(** session.cpp:87-94. *)
Definition destroy_owned (device : Z) (T : Table.t) : Table.t * list Z :=
  fold_left (destroy_slot device) (ids T) (T, []).

Definition destroy_kind (device : Z) (acc : ObjectTables * list driver_call) (k : kind) :
    ObjectTables * list driver_call :=
  let '(t, calls) := acc in
  let (T', objects) := destroy_owned device (table t k) in
  (set_table k T' t, calls ++ map (Destroy k device) objects).

(** The order of destruction; session.cpp:97-115. *)
Definition destroyed_first : list kind :=
  [framebuffers; pipelines; descriptor_pools; descriptor_update_templates; image_views;
   buffer_views; samplers; shader_modules; pipeline_layouts; descriptor_set_layouts;
   render_passes; pipeline_caches; query_pools; events; fences; semaphores;
   sampler_ycbcr_conversions; command_pools; buffers].

(** session.cpp:121-123. *)
Definition destroyed_last : list kind := [images; swapchains; memories].

(** The ids of the swapchain images cached for the device's swapchains. *)
Definition borrowed_images (device : Z) (t : ObjectTables) : list Z :=
  concat (map snd (filter (fun '(sc, _) => Table.owner (table t swapchains) sc = device)
                     (map_to_list (swapchain_image_ids t)))).

(** session.cpp:117-120. *)
Definition retire_borrowed (device : Z) (t : ObjectTables) : ObjectTables :=
  set_table images
    (fold_left (fun T id => snd (Table.take T id)) (borrowed_images device t) (table t images)) t.

(** The pool-owned children and the maps; session.cpp:126-160. *)
Definition forget_device (device : Z) (t : ObjectTables) : ObjectTables :=
  let table' k := if decide (k = command_buffers \/ k = descriptor_sets \/ k = queues)
                  then Table.retire_owned (table t k) device else table t k in
  {| capabilities := capabilities t;
     table := table';
     memory_metadata := filter (fun '(_, m) => sm_owner m <> device) (memory_metadata t);
     device_physical_devices := delete device (device_physical_devices t);
     command_buffer_devices := filter (fun '(_, d) => d <> device) (command_buffer_devices t);
     descriptor_set_owners :=
       filter (fun '(_, o) => dso_device o <> device) (descriptor_set_owners t);
     descriptor_update_template_owners :=
       filter (fun '(_, d) => d <> device) (descriptor_update_template_owners t);
     descriptor_update_template_entries :=
       filter (fun '(id, _) => descriptor_update_template_owners t !! id <> Some device)
         (descriptor_update_template_entries t);
     sampler_ycbcr_conversion_owners :=
       filter (fun '(_, d) => d <> device) (sampler_ycbcr_conversion_owners t);
     swapchain_devices := filter (fun '(_, d) => d <> device) (swapchain_devices t);
     swapchain_surfaces :=
       filter (fun '(sc, _) => swapchain_devices t !! sc <> Some device) (swapchain_surfaces t);
     swapchain_image_ids :=
       filter (fun '(id, _) => Table.owner (table t swapchains) id <> 0) (swapchain_image_ids t) |}.

(** session.cpp:83-163; [None] when the device is null. *)
Definition destroy_device_objects (t : ObjectTables) (device : Z) :
    option (ObjectTables * list driver_call) :=
  if device =? 0 then None
  else
    let acc := fold_left (destroy_kind device) destroyed_first (t, [DeviceWaitIdle device]) in
    let acc := (retire_borrowed device (fst acc), snd acc) in
    let '(t, calls) := fold_left (destroy_kind device) destroyed_last acc in
    Some (forget_device device t, calls ++ [DestroyDevice device]).

(** One device of the connection; session.cpp:417-420. *)
Definition destroy_session_device (acc : ObjectTables * list driver_call) (id : Z) :
    ObjectTables * list driver_call :=
  let '(t, calls) := acc in
  let (device, D) := Table.take (table t devices) id in
  let t := set_table devices D t in
  match destroy_device_objects t device with
  | Some (t', calls') => (t', calls ++ calls')
  | None => (t, calls)
  end.

(** session.cpp:415-427. *)
Definition destroy_session_objects (t : ObjectTables) : ObjectTables * list driver_call :=
  let '(t, calls) := fold_left destroy_session_device (ids (table t devices)) (t, []) in
  (t, calls ++ map DestroySurface
        (filter (fun s => s <> 0) (Table.m_slots (table t surfaces)))).

End Teardown.
