(* ===== verification/Teardown.v ===== *)
(** Teardown of a device and of a connection ([src/server/session.cpp]): every
    live object is destroyed once, children before what they refer to, borrowed
    swapchain images never, and no other device's object is touched. *)

From stdpp Require Import list gmap sorting.
From S2P Require Import Prelude PNext Objects.

Lemma filter_ext_in {A} (P Q : A -> Prop) `{!forall x, Decision (P x), !forall x, Decision (Q x)}
    (l : list A) :
  (forall x, x ∈ l -> P x <-> Q x) -> filter P l = filter Q l.
Proof.
  induction l as [|x l IH]; [done|]. intros Hl. rewrite !filter_cons.
  rewrite IH by (intros y Hy; apply Hl; by right).
  assert (P x <-> Q x) as Hx by (apply Hl; left). repeat case_decide; tauto.
Qed.

(** ** What a teardown may do to a table: empty slots, nothing else *)
Section Shrink.
Implicit Types T : Table.t.

Definition shrinks T T' : Prop :=
  Table.wf T' /\ Table.size T' = Table.size T /\
  forall id, 0 <= id -> Table.get T' id = 0 \/
    (Table.get T' id = Table.get T id /\ Table.owner T' id = Table.owner T id).

Lemma shrinks_refl T : Table.wf T -> shrinks T T.
Proof. intros Hw. split; [done|]. split; [done|]. auto. Qed.

Lemma shrinks_trans T1 T2 T3 : shrinks T1 T2 -> shrinks T2 T3 -> shrinks T1 T3.
Proof.
  intros (_ & Hs & Hg) (Hw' & Hs' & Hg'). split; [done|]. split; [congruence|].
  intros id Hid. destruct (Hg' id Hid) as [|[-> ->]]; [by left|]. by apply Hg.
Qed.

Lemma shrinks_take T id : Table.wf T -> 0 <= id -> shrinks T (snd (Table.take T id)).
Proof.
  intros Hw H0. split; [by apply Table.take_wf|]. split; [apply Table.size_take|].
  intros id' H0'. rewrite Table.get_take, Table.owner_take by done. case_match; auto.
Qed.

Lemma owner_nonzero_in T id : Table.wf T -> 0 <= id -> Table.owner T id <> 0 ->
  1 <= id <= Table.size T.
Proof.
  intros Hw H0 Ho. destruct (decide (1 <= id <= Table.size T)) as [|Hn]; [done|].
  by rewrite Table.owner_out in Ho.
Qed.

Lemma shrinks_retire T d : Table.wf T -> d <> 0 -> shrinks T (Table.retire_owned T d).
Proof.
  intros Hw Hd. split; [by apply Table.retire_wf|]. split; [by apply Table.size_retire|].
  intros id H0. rewrite Table.get_retire, Table.owner_retire by done.
  destruct (Table.owner T id =? d) eqn:E; [|rewrite andb_false_r; auto]. left.
  apply Z.eqb_eq in E. assert (1 <= id <= Table.size T) by (apply owner_nonzero_in; congruence).
  by rewrite (proj2 (Z.leb_le 1 id)), (proj2 (Z.leb_le id _)) by lia.
Qed.

Lemma owned_by_spec T id d :
  Table.owned_by T id d = true <-> Table.get T id <> 0 /\ Table.owner T id = d.
Proof. unfold Table.owned_by. by rewrite andb_true_iff, negb_true_iff, Z.eqb_neq, Z.eqb_eq. Qed.

(** A slot that only shrinks does not become owned. *)
Lemma shrinks_owned T T' id d : shrinks T T' -> 0 <= id ->
  Table.owned_by T' id d = true -> Table.owned_by T id d = true.
Proof.
  intros (_ & _ & Hg) H0. rewrite !owned_by_spec. intros [Hn Ho].
  destruct (Hg id H0) as [|[<- <-]]; done.
Qed.

Lemma elem_ids T id : id ∈ ids T <-> 1 <= id <= Table.size T.
Proof.
  unfold ids, Table.size. rewrite list_elem_of_fmap. split.
  - intros (n & -> & Hn). apply elem_of_seq in Hn. lia.
  - intros Hid. exists (Z.to_nat (id - 1)). split; [lia|]. apply elem_of_seq. lia.
Qed.

Lemma NoDup_ids T : NoDup (ids T).
Proof.
  assert (Inj eq eq (fun n => Z.of_nat n + 1)) by (intros x y; lia).
  apply (NoDup_fmap_2 (fun n => Z.of_nat n + 1)), NoDup_seq.
Qed.

Lemma ids_size T T' : Table.size T' = Table.size T -> ids T' = ids T.
Proof. unfold ids, Table.size. intros. f_equal. f_equal. lia. Qed.

End Shrink.

(** ** One table *)
Section DestroyOwned.
Variable device : Z.
Implicit Types T : Table.t.

(** The objects of the table the device owns, in id order. *)
Definition live (T : Table.t) : list Z :=
  map (Table.get T) (filter (fun id => Table.owned_by T id device = true) (ids T)).

Lemma destroy_slot_eq T out id : 0 <= id ->
  destroy_slot device (T, out) id =
  if Table.owned_by T id device then (snd (Table.take T id), out ++ [Table.get T id])
  else (T, out).
Proof.
  intros H0. unfold destroy_slot. destruct (Table.owned_by T id device) eqn:E; [|done].
  apply owned_by_spec in E as [Hg _]. pose proof (Table.take_value T id) as Hv.
  destruct (Table.take T id) as [object T']. cbn in *. subst object.
  by rewrite (proj2 (Z.eqb_neq _ _)).
Qed.

(** Emptying one slot leaves the others as they were. *)
Lemma owned_by_take T id id' : Table.wf T -> 0 <= id -> 0 <= id' -> id' <> id ->
  Table.owned_by (snd (Table.take T id)) id' device = Table.owned_by T id' device /\
  Table.get (snd (Table.take T id)) id' = Table.get T id'.
Proof.
  intros Hw H0 H0' Hn. unfold Table.owned_by. rewrite Table.get_take, Table.owner_take by done.
  by rewrite (proj2 (Z.eqb_neq id' id) Hn).
Qed.

Lemma destroy_loop : forall L T out,
  Table.wf T -> NoDup L -> Forall (fun id => 0 <= id) L ->
  let (T', out') := fold_left (destroy_slot device) L (T, out) in
  shrinks T T' /\
  (forall id, 0 <= id -> Table.owned_by T' id device = Table.owned_by T id device && bool_decide (id ∉ L)) /\
  (forall id, 0 <= id -> Table.owner T id <> device -> Table.get T' id = Table.get T id) /\
  out' = out ++ map (Table.get T) (filter (fun id => Table.owned_by T id device = true) L).
Proof.
  induction L as [|id L IH]; intros T out Hw Hnd Hpos; cbn [fold_left].
  { split_and!; [by apply shrinks_refl| |done|by rewrite app_nil_r].
    intros id _. rewrite bool_decide_true by apply not_elem_of_nil. by rewrite andb_true_r. }
  apply NoDup_cons in Hnd as [Hid Hnd]. apply Forall_cons in Hpos as [H0 Hpos].
  rewrite destroy_slot_eq by done. rewrite filter_cons.
  destruct (Table.owned_by T id device) eqn:E.
  - specialize (IH (snd (Table.take T id)) (out ++ [Table.get T id]) (Table.take_wf _ _ Hw) Hnd Hpos).
    destruct (fold_left _ L _) as [T' out']. destruct IH as (Hs & Ho & Hu & ->). split_and!.
    + eapply shrinks_trans; [by apply shrinks_take|done].
    + intros id' H0'. rewrite Ho by done. destruct (decide (id' = id)) as [->|Hn].
      * rewrite (bool_decide_false (id ∉ id :: L)) by (intros Hx; apply Hx; left).
        rewrite andb_false_r. unfold Table.owned_by. rewrite Table.get_take by done.
        by rewrite Z.eqb_refl.
      * rewrite (proj1 (owned_by_take T id id' Hw H0 H0' Hn)). f_equal.
        apply bool_decide_ext. rewrite not_elem_of_cons. tauto.
    + intros id' H0' Hne. apply owned_by_spec in E as [_ E].
      assert (id' <> id) as Hn by congruence. rewrite Hu by
        (done || (rewrite Table.owner_take by done; by rewrite (proj2 (Z.eqb_neq id' id) Hn))).
      by apply owned_by_take.
    + rewrite <- app_assoc. f_equal. cbn [decide map]. rewrite decide_True by done. cbn. f_equal.
      rewrite (filter_ext_in _ (fun id' => Table.owned_by T id' device = true)).
      * apply map_ext_in. intros id' Hin. apply list_elem_of_In, list_elem_of_filter in Hin as [_ Hin].
        rewrite Forall_forall in Hpos. apply owned_by_take; [done|done|by apply Hpos|congruence].
      * intros id' Hin. rewrite Forall_forall in Hpos.
        rewrite (proj1 (owned_by_take T id id' Hw H0 (Hpos _ Hin) ltac:(congruence))). done.
  - specialize (IH T out Hw Hnd Hpos). destruct (fold_left _ L _) as [T' out'].
    destruct IH as (Hs & Ho & Hu & ->). split_and!; [done| |done|].
    + intros id' H0'. rewrite Ho by done. destruct (decide (id' = id)) as [->|Hn].
      * by rewrite E.
      * f_equal. apply bool_decide_ext. rewrite not_elem_of_cons. tauto.
    + rewrite decide_False by done. done.
Qed.

Lemma destroy_owned_spec T : Table.wf T ->
  let (T', objects) := destroy_owned device T in
  shrinks T T' /\ (forall id, 0 <= id -> Table.owned_by T' id device = false) /\
  (forall id, 0 <= id -> Table.owner T id <> device -> Table.get T' id = Table.get T id) /\
  objects = live T.
Proof.
  intros Hw. unfold destroy_owned.
  pose proof (destroy_loop (ids T) T [] Hw (NoDup_ids T)) as Hl.
  destruct (fold_left _ _ _) as [T' out].
  destruct Hl as (Hs & Ho & Hu & ->).
  { apply Forall_forall. intros id Hid. apply elem_ids in Hid. lia. }
  split_and!; [done| |done|done]. intros id H0. rewrite Ho by done.
  destruct (Table.owned_by T id device) eqn:E; [|done]. apply owned_by_spec in E as [Hg _].
  rewrite bool_decide_false; [done|]. intros Hn. apply Hn, elem_ids.
  by apply Table.get_nonzero_in.
Qed.

End DestroyOwned.

(** ** All tables *)
Section DestroyKinds.
Variable device : Z.
Hypothesis device_nonnull : device <> 0.

Definition tables_wf (t : ObjectTables) : Prop := forall k, Table.wf (table t k).

(** The effect on a table that [destroy_owned] has emptied of the device's
    objects. *)
Definition emptied (T T' : Table.t) : Prop :=
  shrinks T T' /\ (forall id, 0 <= id -> Table.owned_by T' id device = false) /\
  (forall id, 0 <= id -> Table.owner T id <> device -> Table.get T' id = Table.get T id).

Definition calls_of (t : ObjectTables) (k : kind) : list driver_call :=
  map (Destroy k device) (live device (table t k)).

Lemma destroy_kinds ks : forall t calls, tables_wf t -> NoDup ks ->
  let (t', calls') := fold_left (destroy_kind device) ks (t, calls) in
  (forall k, k ∈ ks -> emptied (table t k) (table t' k)) /\
  (forall k, k ∉ ks -> table t' k = table t k) /\
  swapchain_image_ids t' = swapchain_image_ids t /\
  calls' = calls ++ concat (map (calls_of t) ks).
Proof.
  induction ks as [|k ks IH]; intros t calls Hw Hnd; cbn [fold_left].
  { split_and!; [by intros k Hk; apply not_elem_of_nil in Hk|done|done|by rewrite app_nil_r]. }
  apply NoDup_cons in Hnd as [Hk Hnd]. unfold destroy_kind at 2.
  pose proof (destroy_owned_spec device (table t k) (Hw k)) as Hd.
  destruct (destroy_owned device (table t k)) as [T' objects].
  destruct Hd as (Hs & Ho & Hu & ->).
  assert (tables_wf (set_table k T' t)) as Hw'.
  { intros k'. cbn. case_decide; [by destruct Hs|apply Hw]. }
  specialize (IH _ (calls ++ map (Destroy k device) (live device (table t k))) Hw' Hnd).
  destruct (fold_left _ ks _) as [t' calls']. destruct IH as (H1 & H2 & H3 & ->). split_and!.
  - intros k' Hk'. apply elem_of_cons in Hk' as [->|Hk'].
    + rewrite H2 by done. cbn. by rewrite decide_True.
    + specialize (H1 k' Hk'). cbn in H1. by rewrite decide_False in H1 by congruence.
  - intros k' Hk'. apply not_elem_of_cons in Hk' as [Hn Hk']. rewrite H2 by done. cbn.
    by rewrite decide_False.
  - by rewrite H3.
  - cbn [map concat]. rewrite <- app_assoc. do 2 f_equal. f_equal. apply map_ext_in.
    intros k' Hk'. apply list_elem_of_In in Hk'. unfold calls_of. cbn.
    by rewrite decide_False by congruence.
Qed.

(** Retiring borrowed images: their slots are emptied, the rest kept. *)
Lemma take_all_spec : forall L T, Table.wf T -> Forall (fun id => 0 <= id) L ->
  let T' := fold_left (fun T id => snd (Table.take T id)) L T in
  shrinks T T' /\ forall id, 0 <= id ->
    (id ∈ L -> Table.get T' id = 0) /\
    (id ∉ L -> Table.get T' id = Table.get T id /\ Table.owner T' id = Table.owner T id).
Proof.
  induction L as [|i L IH]; intros T Hw Hpos; cbn [fold_left].
  { split; [by apply shrinks_refl|]. intros id H0.
    split; [by intros Hi; apply not_elem_of_nil in Hi|done]. }
  apply Forall_cons in Hpos as [H0 Hpos].
  destruct (IH (snd (Table.take T i)) (Table.take_wf _ _ Hw) Hpos) as [Hs Hg].
  split; [eapply shrinks_trans; [by apply shrinks_take|done]|].
  intros id Hid. destruct (Hg id Hid) as [Hin Hout]. rewrite elem_of_cons. split.
  - intros [->|Hi]; [|by apply Hin]. destruct (decide (i ∈ L)) as [Hi|Hi]; [by apply Hin|].
    rewrite (proj1 (Hout Hi)), Table.get_take, Z.eqb_refl by done. done.
  - intros Hn. apply not_elem_of_cons in Hn || idtac.
    assert (id <> i /\ id ∉ L) as [Hne Hi] by tauto. destruct (Hout Hi) as [-> ->].
    rewrite Table.get_take, Table.owner_take by done. by rewrite (proj2 (Z.eqb_neq id i) Hne).
Qed.

End DestroyKinds.

(** ** One device *)
Section Device.
Variable device : Z.
Hypothesis device_nonnull : device <> 0.

(** The cached swapchain image ids are ids. *)
Definition cached_ids_ok (t : ObjectTables) : Prop :=
  map_Forall (fun _ l => Forall (fun id => 0 <= id) l) (swapchain_image_ids t).

(** The objects of a kind that a teardown of the device destroys: the live ones
    it owns, except the images that belong to a swapchain. *)
Definition doomed (t : ObjectTables) (k : kind) : list Z :=
  map (Table.get (table t k))
    (filter (fun id => Table.owned_by (table t k) id device = true /\
                       (k = images -> id ∉ borrowed_images device t)) (ids (table t k))).

Definition teardown_calls (t : ObjectTables) : list driver_call :=
  DeviceWaitIdle device ::
  concat (map (fun k => map (Destroy k device) (doomed t k)) (destroyed_first ++ destroyed_last)) ++
  [DestroyDevice device].

Lemma borrowed_nonneg t : cached_ids_ok t -> Forall (fun id => 0 <= id) (borrowed_images device t).
Proof.
  intros Hc. unfold borrowed_images. apply Forall_concat, Forall_map, Forall_forall.
  intros [sc l] Hin. apply list_elem_of_filter in Hin as [_ Hin].
  apply elem_of_map_to_list in Hin. by apply (Hc sc).
Qed.

Lemma live_doomed t k : k <> images -> live device (table t k) = doomed t k.
Proof.
  intros Hk. unfold live, doomed. f_equal. apply filter_ext_in. intros id _. tauto.
Qed.

(** After the borrowed images are retired, the device's images are the doomed. *)
Lemma live_retired t : tables_wf t -> cached_ids_ok t ->
  live device (table (retire_borrowed device t) images) = doomed t images.
Proof.
  intros Hw Hc. unfold live, doomed. cbn [retire_borrowed set_table table].
  rewrite decide_True by done.
  destruct (take_all_spec (borrowed_images device t) (table t images) (Hw images)
              (borrowed_nonneg t Hc)) as [(_ & Hsz & _) Hg].
  set (T' := fold_left _ _ _) in *. rewrite (ids_size (table t images) T') by done.
  assert (forall id, id ∈ ids (table t images) ->
            (Table.owned_by T' id device = true <->
             Table.owned_by (table t images) id device = true /\
             id ∉ borrowed_images device t) /\
            (id ∉ borrowed_images device t -> Table.get T' id = Table.get (table t images) id))
    as Hid.
  { intros id Hin. apply elem_ids in Hin. destruct (Hg id ltac:(lia)) as [H1 H2].
    rewrite !owned_by_spec. split; [|intros Hn; by apply H2].
    destruct (decide (id ∈ borrowed_images device t)) as [Hb|Hb].
    - rewrite (H1 Hb). split; [by intros [? _]|by intros [_ ?]].
    - destruct (H2 Hb) as [-> ->]. tauto. }
  rewrite (filter_ext_in (fun id => Table.owned_by T' id device = true)
             (fun id => Table.owned_by (table t images) id device = true /\
                        (images = images -> id ∉ borrowed_images device t))).
  - apply map_ext_in. intros id Hin. apply list_elem_of_In, list_elem_of_filter in Hin as [[_ Hb] Hin].
    apply Hid; [done|by apply Hb].
  - intros id Hin. rewrite (proj1 (Hid id Hin)). tauto.
Qed.

Lemma retire_borrowed_table t k : k <> images -> table (retire_borrowed device t) k = table t k.
Proof. intros Hk. cbn. by rewrite decide_False. Qed.

Lemma emptied_refl_wf T T' : emptied device T T' -> Table.wf T'.
Proof. by intros ((? & _) & _). Qed.

Lemma NoDup_first : NoDup destroyed_first.
Proof. by apply (bool_decide_unpack _). Qed.

Lemma NoDup_last : NoDup destroyed_last.
Proof. by apply (bool_decide_unpack _). Qed.

(** The table of each kind at the end. *)
Lemma forget_table t k : tables_wf t ->
  shrinks (table t k) (table (forget_device device t) k) /\
  ((k = command_buffers \/ k = descriptor_sets \/ k = queues) ->
     forall id, 0 <= id -> Table.owned_by (table (forget_device device t) k) id device = false) /\
  (forall id, 0 <= id -> Table.owner (table t k) id <> device ->
     Table.get (table (forget_device device t) k) id = Table.get (table t k) id).
Proof.
  intros Hw. cbn [forget_device table].
  destruct (decide (k = command_buffers \/ k = descriptor_sets \/ k = queues)) as [Hk|Hk].
  - split; [by apply shrinks_retire|]. split.
    + intros _ id H0. unfold Table.owned_by. rewrite Table.owner_retire by done.
      destruct (Table.owner (table t k) id =? device) eqn:E.
      * by rewrite (proj2 (Z.eqb_neq 0 device)), andb_false_r by congruence.
      * by rewrite E, andb_false_r.
    + intros id H0 Hn. rewrite Table.get_retire by done.
      by rewrite (proj2 (Z.eqb_neq _ _) Hn), andb_false_r.
  - split; [by apply shrinks_refl|]. split; [done|done].
Qed.

Lemma images_not_first : images ∉ destroyed_first.
Proof. by refine (bool_decide_eq_true_1 (images ∉ destroyed_first) _). Qed.

Lemma swapchains_not_first : swapchains ∉ destroyed_first.
Proof. by refine (bool_decide_eq_true_1 (swapchains ∉ destroyed_first) _). Qed.

Lemma first_last_disjoint k : k ∈ destroyed_last -> k ∉ destroyed_first.
Proof.
  intros Hk%(bool_decide_eq_true_2 (k ∈ destroyed_last)).
  refine (bool_decide_eq_true_1 (k ∉ destroyed_first) _). by destruct k.
Qed.

(** The tables after [retire_borrowed]: the images lose the borrowed ones. *)
Lemma retire_borrowed_spec t : tables_wf t -> cached_ids_ok t ->
  tables_wf (retire_borrowed device t) /\
  (forall k, shrinks (table t k) (table (retire_borrowed device t) k)) /\
  (forall k id, 0 <= id -> (k = images -> id ∉ borrowed_images device t) ->
     Table.get (table (retire_borrowed device t) k) id = Table.get (table t k) id /\
     Table.owner (table (retire_borrowed device t) k) id = Table.owner (table t k) id) /\
  (forall id, 0 <= id -> id ∈ borrowed_images device t ->
     Table.get (table (retire_borrowed device t) images) id = 0).
Proof.
  intros Hw Hc.
  destruct (take_all_spec (borrowed_images device t) (table t images) (Hw images)
              (borrowed_nonneg t Hc)) as [Hs Hg].
  assert (forall k, shrinks (table t k) (table (retire_borrowed device t) k) /\
    forall id, 0 <= id -> (k = images -> id ∉ borrowed_images device t) ->
     Table.get (table (retire_borrowed device t) k) id = Table.get (table t k) id /\
     Table.owner (table (retire_borrowed device t) k) id = Table.owner (table t k) id) as H.
  { intros k. destruct (decide (k = images)) as [->|Hk].
    - cbn. rewrite decide_True by done.
      split; [exact Hs|]. intros id H0 Hb. by apply Hg, Hb.
    - rewrite retire_borrowed_table by done. split; [by apply shrinks_refl|done]. }
  split_and!; [intros k; by destruct (H k) as [[? _] _]|apply H|intros k; apply H|].
  intros id H0. cbn. rewrite decide_True by done. by apply Hg.
Qed.

(** What happens to each table before [forget_device]. *)
Lemma destroy_tables t : tables_wf t -> cached_ids_ok t ->
  exists t3, destroy_device_objects t device = Some (forget_device device t3, teardown_calls t) /\
    (forall k, shrinks (table t k) (table t3 k)) /\
    (forall k id, k ∈ destroyed_first ++ destroyed_last -> 0 <= id ->
       Table.owned_by (table t3 k) id device = false) /\
    (forall k id, 0 <= id -> Table.owner (table t k) id <> device ->
       (k = images -> id ∉ borrowed_images device t) ->
       Table.get (table t3 k) id = Table.get (table t k) id) /\
    (forall k, k ∉ destroyed_first ++ destroyed_last -> table t3 k = table t k) /\
    swapchain_image_ids t3 = swapchain_image_ids t /\
    (forall id, 0 <= id -> id ∈ borrowed_images device t -> Table.get (table t3 images) id = 0).
Proof.
  intros Hw Hc. unfold destroy_device_objects. rewrite (proj2 (Z.eqb_neq _ _) device_nonnull).
  pose proof (destroy_kinds device destroyed_first t [DeviceWaitIdle device] Hw NoDup_first) as H1.
  destruct (fold_left _ destroyed_first _) as [t1 calls1]. destruct H1 as (He1 & Hs1 & Hi1 & ->).
  cbn [fst snd].
  assert (tables_wf t1) as Hw1.
  { intros k. destruct (decide (k ∈ destroyed_first)) as [Hk|Hk];
      [by eapply emptied_refl_wf, He1|by rewrite Hs1]. }
  assert (borrowed_images device t1 = borrowed_images device t) as Hb.
  { unfold borrowed_images. by rewrite Hi1, (Hs1 _ swapchains_not_first). }
  assert (cached_ids_ok t1) as Hc1 by (unfold cached_ids_ok; by rewrite Hi1).
  destruct (retire_borrowed_spec t1 Hw1 Hc1) as (Hw2 & Hsh & Hkeep & Hz). rewrite Hb in Hkeep, Hz.
  pose proof (destroy_kinds device destroyed_last (retire_borrowed device t1)
    ([DeviceWaitIdle device] ++ concat (map (calls_of device t) destroyed_first)) Hw2 NoDup_last) as H3.
  destruct (fold_left _ destroyed_last _) as [t3 calls3]. destruct H3 as (He3 & Hs3 & Hi3 & ->).
  assert (forall k, shrinks (table t k) (table t1 k)) as Hsh1.
  { intros k. destruct (decide (k ∈ destroyed_first)) as [Hk|Hk]; [by apply He1|].
    rewrite Hs1 by done. by apply shrinks_refl. }
  exists t3. split_and!.
  - f_equal. f_equal. unfold teardown_calls. rewrite map_app, concat_app, <- !app_assoc.
    cbn [app]. do 2 f_equal; [|f_equal]; f_equal; apply map_ext_in; intros k Hk;
      apply list_elem_of_In in Hk; unfold calls_of.
    + rewrite live_doomed; [done|]. intros ->. by apply images_not_first in Hk.
    + f_equal. apply first_last_disjoint in Hk. destruct (decide (k = images)) as [->|Hki].
      * rewrite live_retired by done. unfold doomed. by rewrite Hb, Hs1.
      * rewrite retire_borrowed_table, Hs1 by done. by apply live_doomed.
  - intros k. eapply shrinks_trans; [apply Hsh1|]. eapply shrinks_trans; [apply Hsh|].
    destruct (decide (k ∈ destroyed_last)) as [Hk|Hk]; [by apply He3|].
    rewrite Hs3 by done. by apply shrinks_refl.
  - intros k id Hk H0. apply elem_of_app in Hk.
    destruct (decide (k ∈ destroyed_last)) as [Hl|Hl]; [by apply He3|].
    rewrite Hs3 by done. destruct Hk as [Hk|]; [|done].
    rewrite retire_borrowed_table; [by apply He1|]. intros ->. by apply images_not_first in Hk.
  - intros k id H0 Hn Hbi. destruct (Hkeep k id H0 Hbi) as [Hg Ho].
    assert (Table.get (table t1 k) id = Table.get (table t k) id /\
            (k ∉ destroyed_first -> table t1 k = table t k)) as [Hg1 Ht1].
    { destruct (decide (k ∈ destroyed_first)) as [Hk|Hk]; [|by rewrite Hs1].
      split; [by apply (He1 k Hk)|done]. }
    destruct (decide (k ∈ destroyed_last)) as [Hl|Hl]; [|by rewrite Hs3, Hg].
    destruct (He3 k Hl) as (_ & _ & Hu). rewrite Hu; [by rewrite Hg|done|].
    by rewrite Ho, Ht1 by (by apply first_last_disjoint).
  - intros k Hk. apply not_elem_of_app in Hk as [Hf Hl]. rewrite Hs3 by done.
    rewrite retire_borrowed_table; [by apply Hs1|]. intros ->. apply Hl. left.
  - by rewrite Hi3.
  - intros id H0 Hin. assert (images ∈ destroyed_last) as Hl by left.
    destruct (He3 images Hl) as ((_ & _ & Hx) & _).
    destruct (Hx id H0) as [|[-> _]]; [done|by apply Hz].
Qed.

Lemma kind_destroyed k : k <> devices -> k <> surfaces ->
  k ∈ destroyed_first ++ destroyed_last \/
  (k = command_buffers \/ k = descriptor_sets \/ k = queues).
Proof.
  intros Hd Hs.
  refine (bool_decide_eq_true_1 (k ∈ destroyed_first ++ destroyed_last \/
    (k = command_buffers \/ k = descriptor_sets \/ k = queues)) _). by destruct k.
Qed.

(** The whole effect of a teardown on the tables. *)
Lemma teardown_spec t : tables_wf t -> cached_ids_ok t ->
  exists t' : ObjectTables, destroy_device_objects t device = Some (t', teardown_calls t) /\
    (forall k, shrinks (table t k) (table t' k)) /\
    (forall k id, k <> devices -> k <> surfaces -> 0 <= id ->
       Table.owned_by (table t' k) id device = false) /\
    (forall k id, 0 <= id -> Table.owner (table t k) id <> device ->
       (k = images -> id ∉ borrowed_images device t) ->
       Table.get (table t' k) id = Table.get (table t k) id) /\
    (forall k, k = devices \/ k = surfaces -> table t' k = table t k) /\
    cached_ids_ok t' /\
    (forall id, 0 <= id -> id ∈ borrowed_images device t -> Table.get (table t' images) id = 0).
Proof.
  intros Hw Hc. destruct (destroy_tables t Hw Hc) as (t3 & Hd & Hs & He & Hu & Hr & Hi & Hbz).
  assert (tables_wf t3) as Hw3 by (intros k; apply Hs).
  assert (forall k, shrinks (table t k) (table (forget_device device t3) k)) as Hs'.
  { intros k. eapply shrinks_trans; [apply Hs|by apply forget_table]. }
  exists (forget_device device t3). split_and!; [done|exact Hs'| | | | |].
  - intros k id Hkd Hks H0. destruct (kind_destroyed k Hkd Hks) as [Hk|Hk].
    + destruct (Table.owned_by _ id device) eqn:E; [|done]. rewrite <- (He k id Hk H0).
      symmetry. eapply shrinks_owned; [by apply (forget_table t3 k)|done|done].
    + by apply forget_table.
  - intros k id H0 Hn Hb. destruct (forget_table t3 k Hw3) as (_ & _ & Hg).
    destruct (decide (Table.get (table t3 k) id = 0)) as [Hz|Hz].
    + rewrite <- Hu, Hz by done. destruct (forget_table t3 k Hw3) as ((_ & _ & Hx) & _ & _).
      destruct (Hx id H0) as [|[-> _]]; done.
    + rewrite Hg; [by apply Hu|done|]. destruct (Hs k) as (_ & _ & Hx).
      destruct (Hx id H0) as [|[_ ->]]; done.
  - intros k Hk. cbn. rewrite decide_False by (destruct Hk as [-> | ->]; by intros [|[|]]).
    apply Hr. destruct Hk as [-> | ->];
      by refine (bool_decide_eq_true_1 (_ ∉ destroyed_first ++ destroyed_last) _).
  - unfold cached_ids_ok. cbn. rewrite Hi. intros sc l Hl.
    apply map_lookup_filter_Some in Hl as [Hl _]. by apply (Hc sc).
  - intros id H0 Hin. cbn. rewrite decide_False by (by intros [|[|]]). by apply Hbz.
Qed.

(** The same maps with other tables. *)
Definition other_tables (f : kind -> Table.t) (t : ObjectTables) : ObjectTables :=
  {| capabilities := capabilities t; table := f; memory_metadata := memory_metadata t;
     device_physical_devices := device_physical_devices t;
     command_buffer_devices := command_buffer_devices t;
     descriptor_set_owners := descriptor_set_owners t;
     descriptor_update_template_owners := descriptor_update_template_owners t;
     descriptor_update_template_entries := descriptor_update_template_entries t;
     sampler_ycbcr_conversion_owners := sampler_ycbcr_conversion_owners t;
     swapchain_devices := swapchain_devices t; swapchain_surfaces := swapchain_surfaces t;
     swapchain_image_ids := swapchain_image_ids t |}.

(** Until the maps' turn comes a teardown touches tables only. *)
Lemma destroy_kinds_maps ks : forall t calls,
  exists f, (fold_left (destroy_kind device) ks (t, calls)).1 = other_tables f t.
Proof.
  induction ks as [|k ks IH]; intros t calls; cbn [fold_left].
  { exists (table t). by destruct t. }
  unfold destroy_kind at 2. destruct (destroy_owned device (table t k)) as [T objects].
  destruct (IH (set_table k T t) (calls ++ map (Destroy k device) objects)) as [f ->].
  by exists f.
Qed.

Lemma teardown_forgets t t' calls :
  destroy_device_objects t device = Some (t', calls) ->
  exists f, t' = forget_device device (other_tables f t).
Proof.
  unfold destroy_device_objects. case_match; [done|].
  destruct (destroy_kinds_maps destroyed_first t [DeviceWaitIdle device]) as [f ->].
  match goal with |- context[fold_left _ destroyed_last (?a, ?c)] =>
    destruct (destroy_kinds_maps destroyed_last a c) as [f' Hf] end.
  destruct (fold_left _ destroyed_last _) as [t3 c]. cbn [fst] in Hf. subst t3.
  intros [= <- _]. by exists f'.
Qed.

(** [m'] holds exactly the entries of [m] with [P]. *)
Definition keeps {V} (P : Z -> V -> Prop) (m m' : gmap Z V) : Prop :=
  forall i x, m' !! i = Some x <-> m !! i = Some x /\ P i x.

Lemma keeps_filter {V} (P : Z * V -> Prop) `{!forall x, Decision (P x)} (m : gmap Z V) :
  keeps (fun i x => P (i, x)) m (filter P m).
Proof. intros i x. apply map_lookup_filter_Some. Qed.

(** What a teardown of the device leaves of the maps kept beside the tables. *)
Definition forgotten (t t' : ObjectTables) : Prop :=
  keeps (fun d _ => d <> device) (device_physical_devices t) (device_physical_devices t') /\
  keeps (fun _ d => d <> device) (command_buffer_devices t) (command_buffer_devices t') /\
  keeps (fun _ m => sm_owner m <> device) (memory_metadata t) (memory_metadata t') /\
  keeps (fun _ o => dso_device o <> device) (descriptor_set_owners t) (descriptor_set_owners t') /\
  keeps (fun _ d => d <> device)
    (descriptor_update_template_owners t) (descriptor_update_template_owners t') /\
  keeps (fun i _ => descriptor_update_template_owners t !! i <> Some device)
    (descriptor_update_template_entries t) (descriptor_update_template_entries t') /\
  keeps (fun _ d => d <> device)
    (sampler_ycbcr_conversion_owners t) (sampler_ycbcr_conversion_owners t') /\
  keeps (fun _ d => d <> device) (swapchain_devices t) (swapchain_devices t') /\
  keeps (fun i _ => swapchain_devices t !! i <> Some device)
    (swapchain_surfaces t) (swapchain_surfaces t') /\
  keeps (fun i _ => Table.owner (table t' swapchains) i <> 0)
    (swapchain_image_ids t) (swapchain_image_ids t').

Lemma teardown_maps t t' calls :
  destroy_device_objects t device = Some (t', calls) -> forgotten t t'.
Proof.
  intros [f ->]%teardown_forgets. unfold forgotten. cbn -[Table.owner].
  split_and!; try exact (keeps_filter _ _). intros i x. rewrite lookup_delete_Some. naive_solver.
Qed.

(** C6: Tearing a device down waits for it, destroys every live object it owns
    exactly once and then the device; borrowed swapchain images are retired
    without being destroyed. Afterwards no table of its children holds an object
    of the device, and the objects of every other device still have their ids.
    The maps kept beside the tables (memories, physical devices, command
    buffers, descriptor sets, update templates with their entries, ycbcr
    conversions, swapchains with their surfaces) lose exactly the entries of the
    device, and the cached image ids exactly those of swapchains no longer
    there. *)
Theorem device_teardown_complete t : tables_wf t -> cached_ids_ok t ->
  exists t' : ObjectTables, destroy_device_objects t device = Some (t', teardown_calls t) /\
    (forall k id, k <> devices -> k <> surfaces -> 0 <= id ->
       Table.owned_by (table t' k) id device = false) /\
    (forall k id, 0 <= id -> Table.owner (table t k) id <> device ->
       (k = images -> id ∉ borrowed_images device t) ->
       Table.get (table t' k) id = Table.get (table t k) id) /\
    (forall id, 0 <= id -> id ∈ borrowed_images device t -> Table.get (table t' images) id = 0) /\
    forgotten t t'.
Proof.
  intros Hw Hc. destruct (teardown_spec t Hw Hc) as (t' & Hd & _ & He & Hu & _ & _ & Hb).
  exists t'. split_and!; [done..|by eapply teardown_maps].
Qed.

(** *** The order of destruction *)

(** The position of a kind in the order. *)
Definition rank (k : kind) : nat :=
  default 0%nat (fst <$> list_find (fun k' => k' = k) (destroyed_first ++ destroyed_last)).

(** The kinds Vulkan makes an object of a kind from.  A descriptor set layout
    may also name immutable samplers; the teardown destroys samplers first. *)
Definition made_from (k : kind) : list kind :=
  match k with
  | framebuffers => [image_views; render_passes]
  | pipelines => [pipeline_layouts; render_passes; shader_modules; pipeline_caches]
  | descriptor_pools =>
      [descriptor_set_layouts; samplers; image_views; buffer_views; buffers]
  | descriptor_update_templates => [descriptor_set_layouts; pipeline_layouts]
  | pipeline_layouts => [descriptor_set_layouts]
  | image_views => [images; sampler_ycbcr_conversions; swapchains]
  | buffer_views => [buffers]
  | samplers => [sampler_ycbcr_conversions]
  | images | buffers => [memories]
  | _ => []
  end.

Definition call_rank (c : driver_call) : nat :=
  match c with
  | DeviceWaitIdle _ => 0%nat
  | Destroy k _ _ => rank k
  | DestroyDevice _ | DestroySurface _ => length (destroyed_first ++ destroyed_last)
  end.

(** A block of calls of each rank, in increasing rank, is sorted. *)
Lemma blocks_sorted (f : kind -> list Z) ks :
  StronglySorted lt (map rank ks) ->
  StronglySorted le (map call_rank (concat (map (fun k => map (Destroy k device) (f k)) ks))).
Proof.
  induction ks as [|k ks IH]; intros Hs; cbn; [constructor|].
  apply StronglySorted_inv in Hs as [Hs Hk]. rewrite map_app.
  assert (map call_rank (map (Destroy k device) (f k)) = map (fun _ => rank k) (f k)) as ->
    by (rewrite map_map; done).
  induction (f k) as [|h l IHl]; cbn; [by apply IH|]. constructor; [done|].
  apply Forall_app. split.
  - apply Forall_forall. intros r Hr. apply list_elem_of_fmap in Hr as (_ & -> & _). done.
  - apply Forall_forall. intros r Hr. apply list_elem_of_fmap in Hr as (c & -> & Hc).
    apply list_elem_of_In, in_concat in Hc as (x & Hx & Hc).
    apply in_map_iff in Hx as (k' & <- & Hk'). apply in_map_iff in Hc as (h' & <- & _). cbn.
    rewrite Forall_forall in Hk. apply Nat.lt_le_incl, Hk, list_elem_of_fmap.
    exists k'. split; [done|by apply list_elem_of_In].
Qed.

Lemma made_from_rank k k' : k' ∈ made_from k -> (rank k < rank k')%nat.
Proof.
  intros Hk. apply Nat.ltb_lt. revert Hk. rewrite list_elem_of_In.
  destruct k; cbn [made_from In]; intros Hk;
    repeat (destruct Hk as [<-|Hk]; [reflexivity|]); done.
Qed.

Lemma ranks_sorted : StronglySorted lt (map rank (destroyed_first ++ destroyed_last)).
Proof. apply Sorted_StronglySorted; [exact Nat.lt_trans|]. repeat constructor. Qed.

(** A sorted sequence has no inversion. *)
Lemma sorted_no_inversion (l1 l2 l3 : list driver_call) c c' :
  StronglySorted le (map call_rank (l1 ++ c :: l2 ++ c' :: l3)) -> (call_rank c <= call_rank c')%nat.
Proof.
  rewrite map_app. intros Hs. apply StronglySorted_app in Hs as (_ & _ & Hs).
  cbn in Hs. apply StronglySorted_inv in Hs as [_ Hf]. rewrite Forall_forall in Hf.
  apply Hf, list_elem_of_fmap. exists c'. split; [done|]. apply elem_of_app. right. left.
Qed.

Lemma teardown_sorted t : StronglySorted le (map call_rank (teardown_calls t)).
Proof.
  unfold teardown_calls. cbn [map call_rank]. constructor.
  2:{ apply Forall_forall. intros. lia. }
  rewrite map_app. apply StronglySorted_app. split_and!.
  - intros x y Hx Hy. cbn in Hy. apply list_elem_of_singleton in Hy as ->.
    apply list_elem_of_fmap in Hx as (c & -> & Hc).
    apply list_elem_of_In, in_concat in Hc as (z & Hz & Hc).
    apply in_map_iff in Hz as (k & <- & Hk). apply in_map_iff in Hc as (h & <- & _).
    cbn [call_rank]. clear. apply Nat.leb_le. by destruct k.
  - apply blocks_sorted, ranks_sorted.
  - repeat constructor.
Qed.

(** The teardown destroys an object before the objects it was made from: no
    call destroys an object of a kind that another kind is made from before an
    object of that other kind; and the device is destroyed after everything. *)
Theorem teardown_order t l1 l2 l3 :
  (forall k k' h h', k' ∈ made_from k ->
     teardown_calls t <> l1 ++ Destroy k' device h' :: l2 ++ Destroy k device h :: l3) /\
  (forall k h,
     teardown_calls t <> l1 ++ DestroyDevice device :: l2 ++ Destroy k device h :: l3).
Proof.
  split.
  - intros k k' h h' Hk Heq. apply made_from_rank in Hk. pose proof (teardown_sorted t) as Hs.
    rewrite Heq in Hs. apply sorted_no_inversion in Hs. cbn [call_rank] in Hs. lia.
  - intros k h Heq. pose proof (teardown_sorted t) as Hs.
    rewrite Heq in Hs. apply sorted_no_inversion in Hs. cbn [call_rank] in Hs. revert Hs.
    apply Nat.lt_nge, Nat.ltb_lt. by destruct k.
Qed.

End Device.

(** ** A whole connection *)
Section Session.

(** The objects of a device of the connection whose ids are in [L]. *)
Definition owner_among (L : list Z) (t : ObjectTables) (k : kind) (id : Z) : Prop :=
  Table.owner (table t k) id <> 0 /\
  exists i, i ∈ L /\ Table.get (table t devices) i = Table.owner (table t k) id.

(** The image is not one of a swapchain's. *)
Definition uncached (t : ObjectTables) (id : Z) : Prop :=
  map_Forall (fun _ l => id ∉ l) (swapchain_image_ids t).

Definition the_call (t : ObjectTables) (k : kind) (id : Z) : driver_call :=
  Destroy k (Table.owner (table t k) id) (Table.get (table t k) id).

(** The devices with ids [L] have been torn down: their children are gone, each
    destroyed by a call of its own, and no other object was destroyed. *)
Definition torn_down (L : list Z) (t t' : ObjectTables) (calls : list driver_call) : Prop :=
  (forall k id, k <> devices -> k <> surfaces -> 0 <= id -> owner_among L t k id ->
     Table.get (table t' k) id = 0 /\
     (Table.get (table t k) id <> 0 -> k ∈ destroyed_first ++ destroyed_last ->
      (k = images -> uncached t id) -> the_call t k id ∈ calls)) /\
  (forall k d object, Destroy k d object ∈ calls ->
     exists id, 0 <= id /\ Table.get (table t k) id = object /\ Table.owner (table t k) id = d /\
                object <> 0 /\ owner_among L t k id) /\
  (forall i, i ∈ L -> Table.get (table t devices) i <> 0 ->
     DestroyDevice (Table.get (table t devices) i) ∈ calls).

Lemma elem_teardown_calls d t k object :
  Destroy k d object ∈ teardown_calls d t <->
  k ∈ destroyed_first ++ destroyed_last /\ object ∈ doomed d t k.
Proof.
  unfold teardown_calls. rewrite elem_of_cons, elem_of_app, list_elem_of_singleton.
  rewrite list_elem_of_In, in_concat. split.
  - intros [|[(l & Hl & Hi)|]]; [done| |done]. apply in_map_iff in Hl as (k' & <- & Hk').
    apply in_map_iff in Hi as (o & [= -> ->] & Ho). rewrite (list_elem_of_In _ k). split; [done|by apply list_elem_of_In].
  - intros [Hk Ho]. right. left. exists (map (Destroy k d) (doomed d t k)).
    apply list_elem_of_In in Hk. split; [by apply (in_map (fun k => map (Destroy k d) (doomed d t k)))|].
    by apply in_map, list_elem_of_In.
Qed.

Lemma elem_doomed d t k object : object ∈ doomed d t k <->
  exists id, 1 <= id <= Table.size (table t k) /\ Table.owned_by (table t k) id d = true /\
    (k = images -> id ∉ borrowed_images d t) /\ object = Table.get (table t k) id.
Proof.
  unfold doomed. rewrite list_elem_of_In, in_map_iff. split.
  - intros (id & <- & Hid). apply list_elem_of_In, list_elem_of_filter in Hid as [[Ho Hb] Hid].
    exists id. split; [by apply elem_ids|done].
  - intros (id & Hid & Ho & Hb & ->). exists id. split; [done|].
    apply list_elem_of_In, list_elem_of_filter. split; [done|by apply elem_ids].
Qed.

Lemma uncached_borrowed d t id : uncached t id -> id ∉ borrowed_images d t.
Proof.
  intros Hu Hin. unfold borrowed_images in Hin.
  apply list_elem_of_In, in_concat in Hin as (l & Hl & Hin). apply in_map_iff in Hl as ([sc l'] & <- & Hl).
  apply list_elem_of_In, list_elem_of_filter in Hl as [_ Hl]. apply elem_of_map_to_list in Hl.
  by apply (Hu sc l' Hl), list_elem_of_In.
Qed.

Lemma set_devices_table D t k : k <> devices -> table (set_table devices D t) k = table t k.
Proof. intros Hk. cbn. by rewrite decide_False. Qed.

(** One device of the loop. *)
Lemma session_device_step i t calls : tables_wf t -> cached_ids_ok t -> 0 <= i ->
  let (t', calls') := destroy_session_device (t, calls) i in
  (forall k, shrinks (table t k) (table t' k)) /\ cached_ids_ok t' /\
  (forall id, uncached t id -> uncached t' id) /\
  table t' devices = snd (Table.take (table t devices) i) /\
  table t' surfaces = table t surfaces /\
  (forall k id, k <> devices -> 0 <= id ->
     Table.owner (table t k) id <> Table.get (table t devices) i ->
     (k = images -> uncached t id) -> Table.get (table t' k) id = Table.get (table t k) id) /\
  exists extra, calls' = calls ++ extra /\ torn_down [i] t t' extra.
Proof.
  intros Hw Hc H0. cbn [destroy_session_device].
  pose proof (Table.take_value (table t devices) i) as Hv.
  destruct (Table.take (table t devices) i) as [d D] eqn:HD. cbn in Hv.
  assert (D = snd (Table.take (table t devices) i)) as HD' by (by rewrite HD). clear HD.
  set (t1 := set_table devices D t).
  assert (forall k, shrinks (table t k) (table t1 k)) as Hs1.
  { intros k. unfold t1. cbn. case_decide as Hk; [|by apply shrinks_refl].
    rewrite HD', Hk. by apply shrinks_take. }
  assert (tables_wf t1) as Hw1 by (intros k; apply Hs1).
  destruct (decide (d = 0)) as [Hd|Hd].
  - unfold destroy_device_objects. rewrite Hd. cbn [Z.eqb].
    split_and!; [done|done|done|by unfold t1; cbn; rewrite decide_True|done| |].
    + intros k id Hk _ _ _. unfold t1. by rewrite set_devices_table.
    + exists []. rewrite app_nil_r. split; [done|]. split_and!.
      * intros k id _ _ _ [Hn (j & ->%list_elem_of_singleton & Hj)]. congruence.
      * intros k d' o Hin. by apply not_elem_of_nil in Hin.
      * intros j ->%list_elem_of_singleton Hn. congruence.
  - destruct (teardown_spec d Hd t1 Hw1 Hc) as (t' & Ht' & Hs & He & Hu & Hkeep & Hc' & _).
    rewrite Ht'. apply teardown_maps in Ht' as Hm.
    split_and!; [intros k; by eapply shrinks_trans|done| | | | |].
    + intros id Hid sc l Hl. apply Hm in Hl as [Hl _]. by apply (Hid sc l).
    + rewrite Hkeep by auto. unfold t1. cbn. by rewrite decide_True.
    + by rewrite Hkeep by auto.
    + intros k id Hk Hid Hn Hb. rewrite Hu; unfold t1; rewrite ?set_devices_table by done; [done..|congruence|].
      intros Hi. by apply (uncached_borrowed d t1), Hb.
    + exists (teardown_calls d t1). split; [done|]. split_and!.
      * intros k id Hk Hks Hid [_ (j & ->%list_elem_of_singleton & Hj)].
        assert (Table.owner (table t k) id = d) as Ho by congruence. split.
        { destruct (decide (Table.get (table t' k) id = 0)) as [|Hn]; [done|]. exfalso.
          specialize (He k id Hk Hks Hid). destruct (Hs k) as (_ & _ & Hx).
          destruct (Hx id Hid) as [|[_ Ho']]; [done|]. unfold t1 in Ho'.
          rewrite set_devices_table, Ho in Ho' by done.
          assert (Table.owned_by (table t' k) id d = true) by (by apply owned_by_spec). congruence. }
        intros Hn Hin Hb. unfold the_call. rewrite Ho. apply elem_teardown_calls. split; [done|].
        apply elem_doomed. exists id. unfold t1. rewrite set_devices_table by done.
        split; [by apply Table.get_nonzero_in|]. split_and!; [by apply owned_by_spec| |done].
        intros Hi. by apply (uncached_borrowed d t1), Hb.
      * intros k d' o Hin.
        assert (d' = d) as ->.
        { unfold teardown_calls in Hin. apply elem_of_cons in Hin as [|Hin]; [done|].
          apply elem_of_app in Hin as [Hin|Hin]; [|by apply list_elem_of_singleton in Hin].
          apply list_elem_of_In, in_concat in Hin as (l & Hl & Hin).
          apply in_map_iff in Hl as (k' & <- & _). by apply in_map_iff in Hin as (? & [= -> -> ->] & _). }
        apply elem_teardown_calls in Hin as [Hk Ho]. apply elem_doomed in Ho as (id & Hid & Ho & _ & ->).
        apply owned_by_spec in Ho as [Hg Ho].
        assert (k <> devices) as Hkd.
        { intros ->. by apply (bool_decide_eq_true_2 (_ ∈ _)) in Hk. }
        unfold t1 in Hg, Ho, Hid |- *. rewrite set_devices_table in Hg, Ho, Hid |- * by done.
        exists id. split_and!; [lia|done|done|done|]. split; [congruence|].
        exists i. split; [by apply list_elem_of_singleton|congruence].
      * intros j ->%list_elem_of_singleton _. rewrite <- Hv. unfold teardown_calls.
        right. apply elem_of_app. right. left.
Qed.

Lemma session_devices L : forall t calls,
  tables_wf t -> cached_ids_ok t -> NoDup L -> Forall (fun i => 0 <= i) L ->
  let (t', calls') := fold_left destroy_session_device L (t, calls) in
  (forall k, shrinks (table t k) (table t' k)) /\
  table t' surfaces = table t surfaces /\
  (forall i, 0 <= i -> i ∈ L -> Table.get (table t' devices) i = 0) /\
  exists extra, calls' = calls ++ extra /\ torn_down L t t' extra.
Proof.
  induction L as [|i L IH]; intros t calls Hw Hc Hnd HL; cbn [fold_left].
  { split_and!; [intros; by apply shrinks_refl|done|intros i _ Hi; by apply not_elem_of_nil in Hi|].
    exists []. rewrite app_nil_r. split; [done|]. split_and!.
    - intros k id _ _ _ [_ (j & Hj & _)]. by apply not_elem_of_nil in Hj.
    - intros k d o Hin. by apply not_elem_of_nil in Hin.
    - intros j Hj. by apply not_elem_of_nil in Hj. }
  apply NoDup_cons in Hnd as [Hi Hnd]. apply Forall_cons in HL as [H0 HL].
  pose proof (session_device_step i t calls Hw Hc H0) as Hstep.
  destruct (destroy_session_device (t, calls) i) as [t1 calls1].
  destruct Hstep as (Hs1 & Hc1 & Hu1 & HD & HS & Hk1 & extra & -> & He1 & Hf1 & Hd1).
  specialize (IH t1 (calls ++ extra) ltac:(intros k; apply Hs1) Hc1 Hnd HL).
  destruct (fold_left _ L _) as [t' calls'].
  destruct IH as (Hs & HS' & Hg & extra' & -> & He & Hf & Hd).
  assert (forall j, j ∈ L -> Table.get (table t1 devices) j = Table.get (table t devices) j) as Hne.
  { intros j Hj. rewrite Forall_forall in HL. rewrite HD, Table.get_take by auto.
    rewrite (proj2 (Z.eqb_neq j i)); [done|congruence]. }
  split_and!; [intros k; by eapply shrinks_trans|congruence| |].
  { intros j Hj0 Hj. apply elem_of_cons in Hj as [->|Hj]; [|by apply Hg].
    destruct (Hs devices) as (_ & _ & Hx). destruct (Hx i H0) as [|[-> _]]; [done|].
    by rewrite HD, Table.get_take, Z.eqb_refl. }
  exists (extra ++ extra'). rewrite app_assoc. split; [done|]. split_and!.
  - intros k id Hk Hks Hid [Hn (j & Hj & Hjo)].
    destruct (Hs k) as (_ & _ & Hx). destruct (Hs1 k) as (_ & _ & Hx1).
    destruct (decide (Table.owner (table t k) id = Table.get (table t devices) i)) as [Heq|Hdiff].
    + assert (owner_among [i] t k id) as Ho by (split; [done|]; exists i; split; [by apply list_elem_of_singleton|done]).
      destruct (He1 k id Hk Hks Hid Ho) as [Hz Hcall]. split.
      * destruct (Hx id Hid) as [|[-> _]]; done.
      * intros. apply elem_of_app. left. by apply Hcall.
    + assert (j ∈ L) as HjL by (apply elem_of_cons in Hj as [->|]; [congruence|done]).
      destruct (Hx1 id Hid) as [Hz|[Hg1 Ho1]].
      * split; [destruct (Hx id Hid) as [|[-> _]]; done|]. intros Hn' _ Hb.
        by rewrite Hk1 in Hz.
      * assert (owner_among L t1 k id) as Ho.
        { split; [congruence|]. exists j. split; [done|]. rewrite Hne by done. congruence. }
        destruct (He k id Hk Hks Hid Ho) as [Hz Hcall]. split; [done|]. intros Hn' Hin Hb.
        apply elem_of_app. right. unfold the_call in *. rewrite Hg1, Ho1 in Hcall. auto.
  - intros k d o Hin. apply elem_of_app in Hin as [Hin|Hin].
    + destruct (Hf1 k d o Hin) as (id & Hid & <- & <- & Hn & Hn' & j & ->%list_elem_of_singleton & Hj).
      exists id. split_and!; [done..|]. split; [done|]. exists i. split; [left|done].
    + destruct (Hf k d o Hin) as (id & Hid & Hgo & Hoo & Hn & Hn' & j & HjL & Hj).
      destruct (Hs1 k) as (_ & _ & Hx1). destruct (Hx1 id Hid) as [|[Hg1 Ho1]]; [congruence|].
      exists id. split_and!; [done|by rewrite <- Hg1|by rewrite <- Ho1|done|]. split; [by rewrite <- Ho1|].
      exists j. split; [by right|]. rewrite <- Hne by done. congruence.
  - intros j Hj Hn. apply elem_of_app. apply elem_of_cons in Hj as [->|Hj]; [left; apply Hd1; [by left|done]|right].
    rewrite <- (Hne j) in Hn |- * by done. by apply Hd.
Qed.

(** C7: When a connection ends, every device in its table is torn down, and after
    all of them every live surface is destroyed. No device is left in the table;
    every object owned by one of these devices has lost its id, and, unless it is
    a queue or belongs to a pool or a swapchain, was destroyed by a driver call
    that names its owner. No call destroys anything but a live object of a device
    of the connection. *)
Theorem session_teardown_complete t : tables_wf t -> cached_ids_ok t ->
  exists t' calls, destroy_session_objects t =
      (t', calls ++ map DestroySurface (filter (fun s => s <> 0) (Table.m_slots (table t surfaces)))) /\
    (forall i, 0 <= i -> Table.get (table t' devices) i = 0) /\
    torn_down (ids (table t devices)) t t' calls.
Proof.
  intros Hw Hc. unfold destroy_session_objects.
  assert (Forall (fun i => 0 <= i) (ids (table t devices))) as Hpos.
  { apply Forall_forall. intros i Hi. apply elem_ids in Hi. lia. }
  pose proof (session_devices _ t [] Hw Hc (NoDup_ids _) Hpos) as Hl.
  destruct (fold_left _ _ _) as [t' calls]. destruct Hl as (Hs & HS & Hg & extra & -> & Ht).
  exists t', extra. split_and!; [by rewrite HS| |done]. intros i Hi.
  destruct (Hs devices) as (_ & _ & Hx). destruct (Hx i Hi) as [|[Hgi _]]; [done|].
  destruct (decide (Table.get (table t devices) i = 0)) as [|Hn]; [congruence|].
  apply Hg; [done|]. by apply elem_ids, Table.get_nonzero_in.
Qed.

End Session.

(** *** Witnesses *)
Section Witnesses.

(** A connection with device 5, which owns fence 9, and one surface. *)
Definition one_device : ObjectTables :=
  {| capabilities := 0;
     table := fun k =>
       match k with
       | devices => snd (Table.add Table.empty 5 0)
       | fences => snd (Table.add Table.empty 9 5)
       | surfaces => snd (Table.add Table.empty 77 0)
       | _ => Table.empty
       end;
     memory_metadata := ∅; device_physical_devices := {[ 5 := 3 ]};
     command_buffer_devices := ∅; descriptor_set_owners := ∅;
     descriptor_update_template_owners := ∅; descriptor_update_template_entries := ∅;
     sampler_ycbcr_conversion_owners := ∅; swapchain_devices := ∅; swapchain_surfaces := ∅;
     swapchain_image_ids := ∅ |}.

Lemma one_device_wf : tables_wf one_device.
Proof. by intros []. Qed.

Lemma one_device_ids : cached_ids_ok one_device.
Proof. apply map_Forall_empty. Qed.

Lemma get_empty id : 0 <= id -> Table.get Table.empty id = 0.
Proof. intros. apply Table.get_out; [done|]. unfold Table.size. cbn. lia. Qed.

Lemma device_teardown_complete_witness :
  exists t', destroy_device_objects one_device 5 =
      Some (t', [DeviceWaitIdle 5; Destroy fences 5 9; DestroyDevice 5]) /\
    Table.owned_by (table t' fences) 1 5 = false.
Proof.
  destruct (device_teardown_complete 5 ltac:(done) one_device one_device_wf one_device_ids)
    as (t' & Hd & Ho & _).
  exists t'. split; [exact Hd|]. by apply Ho.
Defined.

Lemma teardown_order_witness :
  teardown_calls 5 one_device <> [] ++ Destroy images 5 2 :: [] ++ Destroy image_views 5 1 :: [].
Proof.
  apply (proj1 (teardown_order 5 one_device [] [] [])). left.
Defined.

Lemma session_teardown_complete_witness :
  exists t' calls, destroy_session_objects one_device = (t', calls ++ [DestroySurface 77]) /\
    Destroy fences 5 9 ∈ calls /\ DestroyDevice 5 ∈ calls /\ Table.get (table t' fences) 1 = 0.
Proof.
  destruct (session_teardown_complete one_device one_device_wf one_device_ids)
    as (t' & calls & Hd & _ & Hf & _ & Hc).
  exists t', calls. split; [exact Hd|].
  destruct (Hf fences 1) as [Hz Hcall]; [done..| |].
  { split; [done|]. exists 1. split; [left|done]. }
  split; [|split; [|exact Hz]].
  - apply Hcall; [done| |done]. by apply (bool_decide_unpack _).
  - apply (Hc 1); [left|done].
Defined.

End Witnesses.
