(* ===== verification/Workers.v ===== *)
(** The connection's worker pool: [RequestWorkers] of [src/server/session.cpp].

    Jobs of one lane run one after the other in the order they were accepted;
    jobs without a lane run as threads become free.  A job is its request id and
    its lane; the closure it runs is abstract.  The step relation has one step
    per critical section of the class's mutex. *)

From stdpp Require Import list gmap.
From S2P Require Import Prelude.

#[local] Set Warnings "-clear-no-such-hyp".

(** ** State *)
Module RequestWorkers.

(** session.cpp:569-569. *)
Record Job := mkJob { request_id : Z; lane : Z }.

(** The members of the class, and of each thread the local [job] between its
    two critical sections.

    session.cpp:604-611. *)
Record t := mk {
  jobs : list Job;
  lane_jobs : gmap Z (list Job);
  active_lanes : gset Z;
  active_ids : gset Z;
  stopping : bool;
  threads : list (option Job) }.

(** session.cpp:570-570. *)
Definition kMaxJobs : nat := 64.

(** session.cpp:532-536. *)
Definition init (count : nat) : t := mk [] ∅ ∅ ∅ false (replicate count None).

(** ** Operations *)
Section Ops.
Variable w : t.

(** session.cpp:540-553. *)
Definition submit (id ln : Z) : bool * t :=
  if stopping w || bool_decide (id ∈ active_ids w) || (kMaxJobs <=? size (active_ids w))%nat
  then (false, w)
  else
    let ids := {[id]} ∪ active_ids w in
    if (ln =? 0) || negb (bool_decide (ln ∈ active_lanes w)) then
      let lanes := if ln =? 0 then active_lanes w else {[ln]} ∪ active_lanes w in
      (true, mk (jobs w ++ [mkJob id ln]) (lane_jobs w) lanes ids (stopping w) (threads w))
    else
      (true, mk (jobs w)
               (<[ln := default [] (lane_jobs w !! ln) ++ [mkJob id ln]]> (lane_jobs w))
               (active_lanes w) ids (stopping w) (threads w)).

(** The first critical section of [run]: thread [i] takes a job, if there is one
    and the pool is not stopping.

    session.cpp:572-584. *)
Definition start (i : nat) : option (Job * t) :=
  match threads w !! i with
  | Some None =>
      if stopping w then None
      else match jobs w with
           | [] => None
           | j :: js => Some (j, mk js (lane_jobs w) (active_lanes w) (active_ids w) (stopping w)
                                   (<[i := Some j]> (threads w)))
           end
  | _ => None
  end.

(** What finishing a job does to its lane: the queue, the waiting jobs and the
    active lanes.

    session.cpp:589-599. *)
Definition release_lane (ln : Z) : list Job * gmap Z (list Job) * gset Z :=
  if ln =? 0 then (jobs w, lane_jobs w, active_lanes w)
  else match lane_jobs w !! ln with
       | Some (j :: []) => (jobs w ++ [j], delete ln (lane_jobs w), active_lanes w)
       | Some (j :: rest) => (jobs w ++ [j], <[ln := rest]> (lane_jobs w), active_lanes w)
       | _ => (jobs w, lane_jobs w, active_lanes w ∖ {[ln]})
       end.

(** The second critical section of [run]: thread [i] has run its job.

    session.cpp:585-602. *)
Definition finish (i : nat) : option (Job * t) :=
  match threads w !! i with
  | Some (Some j) =>
      let '(js, ljs, lanes) := release_lane (lane j) in
      Some (j, mk js ljs lanes (active_ids w ∖ {[request_id j]}) (stopping w)
                 (<[i := None]> (threads w)))
  | _ => None
  end.

(** session.cpp:555-566. *)
Definition stop : t :=
  if stopping w then w
  else mk [] ∅ (active_lanes w) (active_ids w) true (threads w).

End Ops.

(** ** Steps *)

Inductive event :=
  | Accepted (j : Job)
  | Refused (id : Z)
  | Began (j : Job)
  | Finished (j : Job)
  | Stopped.

(** Request ids and lanes are unsigned. *)
Inductive step : t -> event -> t -> Prop :=
  | step_accept w id ln w' : submit w id ln = (true, w') -> step w (Accepted (mkJob id ln)) w'
  | step_refuse w id ln w' : submit w id ln = (false, w') -> step w (Refused id) w'
  | step_start w i j w' : start w i = Some (j, w') -> step w (Began j) w'
  | step_finish w i j w' : finish w i = Some (j, w') -> step w (Finished j) w'
  | step_stop w : step w Stopped (stop w).

Inductive reachable (n : nat) : list event -> t -> Prop :=
  | reachable_init : reachable n [] (init n)
  | reachable_step tr w e w' : reachable n tr w -> step w e w' -> reachable n (tr ++ [e]) w'.

(** ** The invariant *)

Definition run_jobs (ths : list (option Job)) : list Job := omap id ths.
Definition running (w : t) : list Job := run_jobs (threads w).
Definition inflight (w : t) : list Job := jobs w ++ running w.
Definition waiting (m : gmap Z (list Job)) (l : Z) : list Job := default [] (m !! l).
Definition waiting_all (m : gmap Z (list Job)) : list Job := concat (map snd (map_to_list m)).
Definition all_jobs (w : t) : list Job := inflight w ++ waiting_all (lane_jobs w).
Definition of_lane (l : Z) (js : list Job) : list Job := filter (fun j => lane j = l) js.

Record running_ok (w : t) : Prop := {
  ro_bound : (size (active_ids w) <= kMaxJobs)%nat;
  ro_ids : NoDup (map request_id (running w));
  ro_lane : forall l, l <> 0 -> (length (of_lane l (running w)) <= 1)%nat }.

(** While the pool accepts jobs. *)
Record open_ok (w : t) : Prop := {
  oo_bound : (size (active_ids w) <= kMaxJobs)%nat;
  oo_ids : map request_id (all_jobs w) ≡ₚ elements (active_ids w);
  oo_zero : 0 ∉ active_lanes w;
  oo_lane : forall l, l <> 0 ->
    length (of_lane l (inflight w)) = if decide (l ∈ active_lanes w) then 1%nat else 0%nat;
  oo_waiting : forall l q, lane_jobs w !! l = Some q ->
    l ∈ active_lanes w /\ q <> [] /\ Forall (fun j => lane j = l) q }.

Definition closed_ok (w : t) : Prop := jobs w = [] /\ lane_jobs w = ∅ /\ running_ok w.

Definition ok (w : t) : Prop := if stopping w then closed_ok w else open_ok w.

(** *** Threads *)

Lemma run_jobs_split ths i o : ths !! i = Some o ->
  run_jobs ths ≡ₚ run_jobs [o] ++ run_jobs (delete i ths).
Proof.
  intros H. unfold run_jobs. rewrite <- (take_drop_middle ths i o) at 1 by done.
  rewrite delete_take_drop, !omap_app. cbn [app].
  assert (omap id (o :: drop (S i) ths) = omap id [o] ++ omap id (drop (S i) ths)) as ->
    by (by rewrite <- omap_app). by rewrite !app_assoc, (Permutation_app_comm (omap id [o])).
Qed.

Lemma run_jobs_insert ths i o o' : ths !! i = Some o ->
  run_jobs (<[i := o']> ths) ≡ₚ run_jobs [o'] ++ run_jobs (delete i ths).
Proof.
  intros H. pose proof (lookup_lt_Some _ _ _ H) as Hl.
  rewrite (run_jobs_split _ i o') by (by apply list_lookup_insert_eq).
  apply Permutation_app_head. unfold run_jobs. rewrite !delete_take_drop.
  by rewrite take_insert_ge, drop_insert_lt by lia.
Qed.

Lemma running_start w i j js ljs lanes ids b : threads w !! i = Some None ->
  running (mk js ljs lanes ids b (<[i := Some j]> (threads w))) ≡ₚ j :: running w.
Proof.
  intros H. unfold running. cbn [threads].
  by rewrite (run_jobs_insert _ i None), (run_jobs_split (threads w) i None) by done.
Qed.

Lemma running_finish w i j js ljs lanes ids b : threads w !! i = Some (Some j) ->
  running w ≡ₚ j :: running (mk js ljs lanes ids b (<[i := None]> (threads w))).
Proof.
  intros H. unfold running. cbn [threads].
  by rewrite (run_jobs_insert _ i (Some j)), (run_jobs_split (threads w) i (Some j)) by done.
Qed.

(** *** The waiting jobs *)

Lemma waiting_all_split m l : waiting_all m ≡ₚ waiting m l ++ waiting_all (delete l m).
Proof.
  unfold waiting, waiting_all. destruct (m !! l) as [q|] eqn:E; cbn [default].
  - rewrite <- (map_to_list_delete m l q) at 1 by done. done.
  - by rewrite delete_id.
Qed.

Lemma waiting_all_insert m l q : waiting_all (<[l := q]> m) ≡ₚ q ++ waiting_all (delete l m).
Proof.
  rewrite (waiting_all_split _ l). unfold waiting. by rewrite lookup_insert_eq, delete_insert_eq.
Qed.

Lemma of_lane_app l a b : of_lane l (a ++ b) = of_lane l a ++ of_lane l b.
Proof. apply filter_app. Qed.

Lemma of_lane_one l id : of_lane l [mkJob id l] = [mkJob id l].
Proof. unfold of_lane. by rewrite filter_cons, decide_True. Qed.

Lemma of_lane_other l j : lane j <> l -> of_lane l [j] = [].
Proof. intros H. unfold of_lane. by rewrite filter_cons, decide_False. Qed.

Lemma of_lane_all l q : Forall (fun j => lane j = l) q -> of_lane l q = q.
Proof.
  induction 1 as [|j q Hj _ IH]; [done|]. unfold of_lane in *. by rewrite filter_cons, decide_True, IH.
Qed.

Lemma length_of_lane_perm l a b : a ≡ₚ b -> length (of_lane l a) = length (of_lane l b).
Proof. intros H. unfold of_lane. by rewrite H. Qed.

(** *** Each step keeps the invariant *)

Lemma init_ok n : ok (init n).
Proof.
  unfold ok. cbn [init stopping].
  assert (running (init n) = []) as Hr.
  { unfold running, run_jobs. cbn [init threads]. induction n; [done|]. cbn. apply IHn. }
  assert (inflight (init n) = []) as Hi by (unfold inflight; by rewrite Hr).
  constructor.
  - cbn. rewrite size_empty. unfold kMaxJobs. lia.
  - unfold all_jobs. rewrite Hi. cbn. by rewrite elements_empty.
  - cbn. set_solver.
  - intros l _. rewrite Hi. cbn [of_lane init active_lanes]. by rewrite decide_False by set_solver.
  - intros l q H. cbn in H. by rewrite lookup_empty in H.
Qed.

Lemma submit_accepts w id ln w' : submit w id ln = (true, w') ->
  stopping w = false /\ (id ∉ active_ids w) /\ (size (active_ids w) < kMaxJobs)%nat.
Proof.
  unfold submit. destruct (stopping w); [done|]. destruct (bool_decide _) eqn:E; [done|].
  destruct (_ <=? _)%nat eqn:F; [done|]. intros _.
  apply bool_decide_eq_false in E. apply Nat.leb_gt in F. done.
Qed.

Lemma elements_add (X : gset Z) x L :
  x ∉ X -> L ≡ₚ elements X -> x :: L ≡ₚ elements ({[x]} ∪ X).
Proof. intros Hx HL. by rewrite elements_union_singleton, HL. Qed.

Lemma submit_ok w id ln w' : open_ok w -> submit w id ln = (true, w') -> open_ok w'.
Proof.
  intros Ho Hs. destruct (submit_accepts _ _ _ _ Hs) as (Hst & Hid & Hsz).
  unfold submit in Hs. rewrite Hst, bool_decide_false in Hs by done.
  rewrite (proj2 (Nat.leb_gt _ _) Hsz) in Hs. cbn [orb] in Hs. destruct Ho as [_ Hids H0 Hl Hw].
  assert ((size ({[id]} ∪ active_ids w) <= kMaxJobs)%nat) as Hb.
  { rewrite size_union, size_singleton by set_solver. lia. }
  destruct ((ln =? 0) || negb (bool_decide (ln ∈ active_lanes w))) eqn:Hlane.
  - injection Hs as <-. constructor; cbn [active_ids active_lanes lane_jobs].
    + done.
    + unfold all_jobs, inflight, running. cbn [jobs threads lane_jobs].
      rewrite !map_app. cbn [map request_id].
      rewrite <- elements_add with (L := map request_id (all_jobs w)) by done.
      unfold all_jobs, inflight, running. rewrite !map_app, <- !app_assoc.
      symmetry. apply Permutation_middle.
    + destruct (ln =? 0) eqn:E; [done|]. apply Z.eqb_neq in E. set_solver.
    + intros l Hnz. unfold inflight, running. cbn [jobs threads].
      rewrite !of_lane_app, !length_app. specialize (Hl l Hnz).
      unfold inflight, running in Hl. rewrite of_lane_app, length_app in Hl.
      destruct (decide (ln = l)) as [->|Hne].
      * rewrite of_lane_one. cbn [length]. rewrite (proj2 (Z.eqb_neq l 0) Hnz) in *.
        cbn [orb] in Hlane. apply negb_true_iff, bool_decide_eq_false in Hlane.
        rewrite decide_False in Hl by done. rewrite decide_True by set_solver. lia.
      * rewrite of_lane_other by done. cbn [length].
        assert (l ∈ (if ln =? 0 then active_lanes w else {[ln]} ∪ active_lanes w) <->
                l ∈ active_lanes w) as Hiff by (destruct (ln =? 0); set_solver).
        rewrite (decide_ext _ _ _ _ Hiff). lia.
    + intros l q Hq. destruct (Hw l q Hq) as (? & ? & ?). split_and!; [|done..].
      destruct (ln =? 0); set_solver.
  - apply orb_false_iff in Hlane as [Hnz Hin]. apply Z.eqb_neq in Hnz.
    apply negb_false_iff, bool_decide_eq_true in Hin.
    injection Hs as <-. constructor; cbn [active_ids active_lanes lane_jobs].
    + done.
    + unfold all_jobs, inflight, running. cbn [jobs threads lane_jobs].
      rewrite waiting_all_insert, !map_app. cbn [map request_id].
      rewrite <- elements_add with (L := map request_id (all_jobs w)) by done.
      unfold all_jobs, inflight, running. rewrite (waiting_all_split (lane_jobs w) ln). unfold waiting.
      rewrite !map_app, <- !app_assoc. cbn [app]. solve_Permutation.
    + done.
    + exact Hl.
    + intros l q Hq. destruct (decide (l = ln)) as [->|Hne].
      * rewrite lookup_insert_eq in Hq. injection Hq as <-. split_and!; [done|by intros [_ ?]%app_eq_nil|].
        apply Forall_app. split; [|by constructor].
        destruct (lane_jobs w !! ln) as [q|] eqn:E; [|constructor]. by apply (Hw ln).
      * rewrite lookup_insert_ne in Hq by done. by apply Hw.
Qed.

Lemma start_shape w i j w' : start w i = Some (j, w') ->
  threads w !! i = Some None /\ stopping w = false /\ exists js, jobs w = j :: js /\
  w' = mk js (lane_jobs w) (active_lanes w) (active_ids w) false (<[i := Some j]> (threads w)).
Proof.
  unfold start. destruct (threads w !! i) as [[|]|] eqn:E; try done.
  destruct (stopping w) eqn:F; [done|]. destruct (jobs w) as [|j' js] eqn:G; [done|].
  intros [= <- <-]. split_and!; [done|done|]. exists js. done.
Qed.

Lemma start_inflight w i j w' : start w i = Some (j, w') -> inflight w ≡ₚ inflight w'.
Proof.
  intros Hs. apply start_shape in Hs as (Hi & _ & js & Hj & ->). unfold inflight.
  rewrite Hj, running_start by done. cbn [jobs]. by rewrite <- Permutation_middle.
Qed.

Lemma start_ok w i j w' : open_ok w -> start w i = Some (j, w') -> open_ok w'.
Proof.
  intros [Hb Hids H0 Hl Hw] Hs. pose proof (start_inflight _ _ _ _ Hs) as Hin.
  apply start_shape in Hs as (_ & _ & js & _ & ->). constructor; try done.
  - unfold all_jobs in *. by rewrite <- Hin.
  - intros l Hnz. rewrite <- (length_of_lane_perm _ _ _ Hin). by apply Hl.
Qed.

(** Releasing the lane of a running job. *)
Lemma finish_shape w i j w' : finish w i = Some (j, w') ->
  threads w !! i = Some (Some j) /\
  let '(js, ljs, lanes) := release_lane w (lane j) in
  w' = mk js ljs lanes (active_ids w ∖ {[request_id j]}) (stopping w) (<[i := None]> (threads w)).
Proof.
  unfold finish. destruct (threads w !! i) as [[j'|]|] eqn:E; try done.
  destruct (release_lane w (lane j')) as [[js ljs] lanes] eqn:F.
  intros [= -> <-]. split; [done|]. by rewrite F.
Qed.

(** A released lane hands its next job to the queue. *)
Lemma release_cases w ln (P : list Job * gmap Z (list Job) * gset Z -> Prop) :
  open_ok w ->
  (ln = 0 -> P (jobs w, lane_jobs w, active_lanes w)) ->
  (ln <> 0 -> lane_jobs w !! ln = None -> P (jobs w, lane_jobs w, active_lanes w ∖ {[ln]})) ->
  (forall j rest m, ln <> 0 -> lane_jobs w !! ln = Some (j :: rest) -> lane j = ln ->
     waiting m ln = rest -> (forall l, l <> ln -> m !! l = lane_jobs w !! l) ->
     delete ln m = delete ln (lane_jobs w) -> m !! ln <> Some [] ->
     P (jobs w ++ [j], m, active_lanes w)) ->
  P (release_lane w ln).
Proof.
  intros Ho H0 Hn Hs. unfold release_lane. destruct (Z.eqb_spec ln 0) as [->|Hnz]; [by apply H0|].
  destruct (lane_jobs w !! ln) as [q|] eqn:E; [|by apply Hn].
  destruct (oo_waiting w Ho ln q E) as (_ & Hne & Hall). destruct q as [|j rest]; [done|].
  apply Forall_cons in Hall as [Hj _]. destruct rest as [|j' rest].
  - apply (Hs j []); try done.
    + unfold waiting. by rewrite lookup_delete_eq.
    + intros l Hl. by rewrite lookup_delete_ne.
    + by rewrite delete_delete_eq.
    + by rewrite lookup_delete_eq.
  - apply (Hs j (j' :: rest)); try done.
    + unfold waiting. by rewrite lookup_insert_eq.
    + intros l Hl. by rewrite lookup_insert_ne.
    + by rewrite delete_insert_eq.
    + by rewrite lookup_insert_eq.
Qed.

Lemma elements_remove (X : gset Z) x L : x :: L ≡ₚ elements X -> L ≡ₚ elements (X ∖ {[x]}).
Proof.
  intros H. assert (x ∈ X) as Hx by (apply elem_of_elements; rewrite <- H; left).
  apply (Permutation_cons_inv (a := x)). rewrite H.
  rewrite (union_difference_singleton_L x X) at 1 by done.
  by rewrite elements_union_singleton by set_solver.
Qed.

Lemma of_lane_cons_length l j js :
  length (of_lane l (j :: js)) = ((if decide (lane j = l) then 1 else 0) + length (of_lane l js))%nat.
Proof. unfold of_lane. rewrite filter_cons. by case_decide. Qed.

Lemma of_lane_snoc_length l j a b :
  length (of_lane l ((a ++ [j]) ++ b)) =
  ((if decide (lane j = l) then 1 else 0) + length (of_lane l (a ++ b)))%nat.
Proof.
  rewrite <- of_lane_cons_length. apply length_of_lane_perm. rewrite <- app_assoc. cbn.
  by rewrite <- Permutation_middle.
Qed.

Lemma finish_ok w i j w' : stopping w = false -> open_ok w -> finish w i = Some (j, w') -> open_ok w'.
Proof.
  intros Hst Ho Hf. apply finish_shape in Hf as [Hi Hw']. rewrite Hst in Hw'.
  destruct (release_lane w (lane j)) as [[js ljs] lanes] eqn:Hr.
  pose proof (running_finish w i j js ljs lanes (active_ids w ∖ {[request_id j]}) false Hi) as HR.
  rewrite <- Hw' in HR.
  assert (js = jobs w' /\ ljs = lane_jobs w' /\ lanes = active_lanes w' /\
          active_ids w' = active_ids w ∖ {[request_id j]}) as (Hjs & Hljs & Hlanes & Hids')
    by (by rewrite Hw').
  clear Hw'. pose proof Ho as [Hb Hids H0 Hl Hwt].
  assert ((size (active_ids w') <= kMaxJobs)%nat) as Hb'.
  { rewrite Hids'. etrans; [apply subseteq_size|exact Hb]. set_solver. }
  assert (forall l, l <> 0 -> ((if decide (lane j = l) then 1 else 0) +
            length (of_lane l (jobs w ++ running w')))%nat =
            if decide (l ∈ active_lanes w) then 1%nat else 0%nat) as Hcount.
  { intros l Hnz. rewrite <- Hl, <- of_lane_cons_length by done. apply length_of_lane_perm.
    unfold inflight. by rewrite HR, <- Permutation_middle. }
  assert (map request_id (jobs w ++ running w' ++ waiting_all (lane_jobs w)) ≡ₚ
          elements (active_ids w')) as Hrest.
  { rewrite Hids'. apply elements_remove. rewrite <- Hids. unfold all_jobs, inflight.
    rewrite HR, !map_app. cbn [map]. solve_Permutation. }
  revert Hr.
  apply (release_cases w (lane j) (fun r => r = (js, ljs, lanes) -> open_ok w')); [done|..].
  - intros Hz [= <- <- <-]. constructor; rewrite <- ?Hljs, <- ?Hlanes; try done.
    + unfold all_jobs, inflight. by rewrite <- Hjs, <- Hljs, <- app_assoc.
    + intros l Hnz. unfold inflight. rewrite <- Hjs, <- Hcount by done.
      by rewrite decide_False by congruence.
  - intros Hz Hnone [= <- <- <-]. constructor; rewrite <- ?Hljs, <- ?Hlanes; try done.
    + unfold all_jobs, inflight. by rewrite <- Hjs, <- Hljs, <- app_assoc.
    + set_solver.
    + intros l Hnz. unfold inflight. rewrite <- Hjs. specialize (Hcount l Hnz).
      destruct (decide (lane j = l)) as [<-|Hne].
      * rewrite (decide_False (P := lane j ∈ active_lanes w ∖ _)) by set_solver.
        destruct (decide (lane j ∈ active_lanes w)); lia.
      * rewrite (decide_ext _ (l ∈ active_lanes w)) by set_solver. lia.
    + intros l q Hq. destruct (Hwt l q Hq) as (? & ? & ?). split_and!; try done.
      assert (l <> lane j) by congruence. set_solver.
  - intros j' rest m Hz Hq Hj' Hm Hother Hdel Hne [= <- <- <-].
    constructor; rewrite <- ?Hljs, <- ?Hlanes; try done.
    + rewrite <- Hrest. unfold all_jobs, inflight. rewrite <- Hjs, <- Hljs.
      rewrite (waiting_all_split m (lane j)), (waiting_all_split (lane_jobs w) (lane j)), Hm, Hdel.
      unfold waiting. rewrite Hq. cbn [default]. rewrite !map_app. cbn [map app]. solve_Permutation.
    + intros l Hnz. unfold inflight. rewrite <- Hjs, of_lane_snoc_length, Hj'. by apply Hcount.
    + intros l q Hl'. destruct (decide (l = lane j)) as [->|Hn].
      * destruct (Hwt _ _ Hq) as (? & _ & Hall). apply Forall_cons in Hall as [_ Hall].
        unfold waiting in Hm. rewrite Hl' in Hm. cbn in Hm. subst q.
        split_and!; [done| |done]. intros ->. by apply Hne.
      * rewrite Hother in Hl' by done. by apply Hwt.
Qed.

(** A stopped pool only finishes what runs. *)
Lemma stop_ok w : ok w -> ok (stop w).
Proof.
  intros Ho. unfold stop. destruct (stopping w) eqn:Hst; [done|]. unfold ok in *. rewrite Hst in Ho.
  cbn [stopping]. split_and!; [done|done|]. destruct Ho as [Hb Hids _ Hl _].
  constructor; cbn [active_ids]; [done| |].
  - change (running (mk _ _ _ _ _ _)) with (running w).
    assert (NoDup (map request_id (all_jobs w))) as Hnd by (rewrite Hids; apply NoDup_elements).
    unfold all_jobs, inflight in Hnd. rewrite !map_app in Hnd.
    by apply NoDup_app in Hnd as [(_ & _ & ?)%NoDup_app _].
  - intros l Hnz. change (running (mk _ _ _ _ _ _)) with (running w).
    specialize (Hl l Hnz). unfold inflight in Hl. rewrite of_lane_app, length_app in Hl.
    case_decide; lia.
Qed.

Lemma closed_finish_ok w i j w' : stopping w = true -> closed_ok w -> finish w i = Some (j, w') ->
  closed_ok w'.
Proof.
  intros Hst (Hjs & Hljs & [Hb Hnd Hl]) Hf. apply finish_shape in Hf as [Hi Hw'].
  assert (release_lane w (lane j) =
          (jobs w, lane_jobs w, if lane j =? 0 then active_lanes w else active_lanes w ∖ {[lane j]}))
    as Hr.
  { unfold release_lane. rewrite Hljs, lookup_empty. by destruct (lane j =? 0). }
  rewrite Hr in Hw'.
  assert (running w ≡ₚ j :: running w') as HR by (rewrite Hw'; by apply running_finish).
  split_and!; [by rewrite Hw'|by rewrite Hw'|]. constructor.
  - rewrite Hw'. cbn [active_ids]. etrans; [apply subseteq_size|exact Hb]. set_solver.
  - rewrite HR in Hnd. cbn in Hnd. by apply NoDup_cons in Hnd as [_ ?].
  - intros l Hnz. specialize (Hl l Hnz). rewrite (length_of_lane_perm _ _ _ HR), of_lane_cons_length in Hl.
    lia.
Qed.

Lemma submit_refuses w id ln w' : submit w id ln = (false, w') -> w' = w.
Proof. unfold submit. repeat case_match; congruence. Qed.

Lemma submit_stopping w id ln w' : submit w id ln = (true, w') -> stopping w' = false.
Proof.
  intros Hs. destruct (submit_accepts _ _ _ _ Hs) as (Hst & _). unfold submit in Hs.
  repeat case_match; by simplify_eq.
Qed.

Lemma finish_stopping w i j w' : finish w i = Some (j, w') -> stopping w' = stopping w.
Proof. unfold finish. repeat case_match; intros; simplify_eq; done. Qed.

Lemma step_ok w e w' : ok w -> step w e w' -> ok w'.
Proof.
  intros Ho Hs. destruct Hs as [w id ln w' Hs|w id ln w' Hs|w i j w' Hs|w i j w' Hs|w].
  - unfold ok in *. rewrite (submit_stopping _ _ _ _ Hs).
    rewrite (proj1 (submit_accepts _ _ _ _ Hs)) in Ho. by eapply submit_ok.
  - by apply submit_refuses in Hs as ->.
  - unfold ok in *. destruct (start_shape _ _ _ _ Hs) as (_ & Hst & js & _ & Hw').
    rewrite Hst in Ho. rewrite Hw'. cbn [stopping]. rewrite <- Hw'. by eapply start_ok.
  - unfold ok in *. rewrite (finish_stopping _ _ _ _ Hs).
    destruct (stopping w) eqn:Hst; [by eapply closed_finish_ok|by eapply finish_ok].
  - by apply stop_ok.
Qed.

Lemma reachable_ok n tr w : reachable n tr w -> ok w.
Proof. induction 1; [apply init_ok|by eapply step_ok]. Qed.

Lemma open_exclusive w : open_ok w -> running_ok w.
Proof.
  intros [Hb Hids _ Hl _]. constructor; [done| |].
  - assert (NoDup (map request_id (all_jobs w))) as Hnd by (rewrite Hids; apply NoDup_elements).
    unfold all_jobs, inflight in Hnd. rewrite !map_app in Hnd.
    by apply NoDup_app in Hnd as [(_ & _ & ?)%NoDup_app _].
  - intros l Hnz. specialize (Hl l Hnz). unfold inflight in Hl.
    rewrite of_lane_app, length_app in Hl. case_decide; lia.
Qed.

(** ** Order *)

Definition accepted_job (e : event) : option Job := match e with Accepted j => Some j | _ => None end.
Definition begun_job (e : event) : option Job := match e with Began j => Some j | _ => None end.

Definition accepted (l : Z) (tr : list event) : list Job := of_lane l (omap accepted_job tr).
Definition begun (l : Z) (tr : list event) : list Job := of_lane l (omap begun_job tr).

(** What a lane has accepted is what it has begun, then its job in the queue,
    then its waiting jobs. *)
Definition in_order (l : Z) (tr : list event) (w : t) : Prop :=
  if stopping w then begun l tr `prefix_of` accepted l tr
  else accepted l tr = begun l tr ++ of_lane l (jobs w) ++ waiting (lane_jobs w) l.

Lemma accepted_snoc l tr e : accepted l (tr ++ [e]) =
  accepted l tr ++ match e with Accepted j => of_lane l [j] | _ => [] end.
Proof.
  unfold accepted. rewrite omap_app, of_lane_app. by destruct e.
Qed.

Lemma begun_snoc l tr e : begun l (tr ++ [e]) =
  begun l tr ++ match e with Began j => of_lane l [j] | _ => [] end.
Proof.
  unfold begun. rewrite omap_app, of_lane_app. by destruct e.
Qed.

Lemma of_lane_cons l j js : of_lane l (j :: js) = of_lane l [j] ++ of_lane l js.
Proof. by rewrite <- of_lane_app. Qed.

(** A lane with no job in flight has no job waiting. *)
Lemma no_waiting w l : open_ok w -> l ∉ active_lanes w -> waiting (lane_jobs w) l = [].
Proof.
  intros Ho Hl. unfold waiting. destruct (lane_jobs w !! l) as [q|] eqn:E; [|done].
  by destruct (oo_waiting w Ho l q E).
Qed.

Lemma submit_in_order l tr w id ln w' : open_ok w -> in_order l tr w -> submit w id ln = (true, w') ->
  in_order l (tr ++ [Accepted (mkJob id ln)]) w'.
Proof.
  intros Ho Hio Hs. destruct (submit_accepts _ _ _ _ Hs) as (Hst & Hid & Hsz).
  unfold in_order in *. rewrite (submit_stopping _ _ _ _ Hs), accepted_snoc, begun_snoc, app_nil_r.
  rewrite Hst in Hio. rewrite Hio.
  unfold submit in Hs. rewrite Hst, bool_decide_false in Hs by done.
  rewrite (proj2 (Nat.leb_gt _ _) Hsz) in Hs. cbn [orb] in Hs.
  destruct ((ln =? 0) || negb (bool_decide (ln ∈ active_lanes w))) eqn:Hlane;
    injection Hs as <-; cbn [jobs lane_jobs]; rewrite <- !app_assoc; f_equal.
  - rewrite of_lane_app, <- app_assoc. f_equal. destruct (decide (ln = l)) as [->|Hn].
    + rewrite no_waiting, app_nil_r; [done|done|]. apply orb_true_iff in Hlane as [Hz|Hin].
      * apply Z.eqb_eq in Hz as ->. apply (oo_zero w Ho).
      * by apply negb_true_iff, bool_decide_eq_false in Hin.
    + by rewrite of_lane_other, app_nil_r.
  - f_equal. unfold waiting. destruct (decide (ln = l)) as [->|Hn].
    + by rewrite lookup_insert_eq, of_lane_one.
    + by rewrite lookup_insert_ne, of_lane_other, app_nil_r.
Qed.

Lemma finish_in_order l tr w i j w' : stopping w = false -> open_ok w -> in_order l tr w ->
  finish w i = Some (j, w') -> in_order l (tr ++ [Finished j]) w'.
Proof.
  intros Hst Ho Hio Hf. pose proof (finish_stopping _ _ _ _ Hf) as Hst'.
  apply finish_shape in Hf as [Hi Hw']. unfold in_order in *.
  rewrite Hst', accepted_snoc, begun_snoc, !app_nil_r. rewrite Hst in *. rewrite Hio. f_equal.
  destruct (release_lane w (lane j)) as [[js ljs] lanes] eqn:Hr. rewrite Hw'. cbn [jobs lane_jobs].
  revert Hr. apply (release_cases w (lane j) (fun r => r = (js, ljs, lanes) ->
    of_lane l (jobs w) ++ waiting (lane_jobs w) l = of_lane l js ++ waiting ljs l)); [done|..].
  - by intros _ [= <- <- <-].
  - by intros _ _ [= <- <- <-].
  - intros j' rest m Hnz Hq Hj' Hm Hother _ _ [= <- <- <-]. rewrite of_lane_app.
    destruct (decide (l = lane j)) as [->|Hn].
    + assert (of_lane (lane j) (jobs w) = []) as ->.
      { pose proof (oo_lane w Ho (lane j) Hnz) as Hl. unfold inflight in Hl.
        rewrite of_lane_app, length_app in Hl.
        rewrite (length_of_lane_perm _ (running w) _
          (running_finish w i j [] ∅ ∅ ∅ false Hi)), of_lane_cons_length, decide_True in Hl by done.
        apply length_zero_iff_nil. case_decide; lia. }
      rewrite Hm. unfold waiting. rewrite Hq. cbn [default].
      by rewrite (of_lane_all _ [j']) by (by constructor).
    + rewrite of_lane_other, app_nil_r by congruence. f_equal. unfold waiting. by rewrite Hother.
Qed.

Lemma step_in_order l tr w e w' : ok w -> in_order l tr w -> step w e w' -> in_order l (tr ++ [e]) w'.
Proof.
  intros Ho Hio Hs. destruct Hs as [w id ln w' Hs|w id ln w' Hs|w i j w' Hs|w i j w' Hs|w].
  - unfold ok in Ho. rewrite (proj1 (submit_accepts _ _ _ _ Hs)) in Ho. by eapply submit_in_order.
  - apply submit_refuses in Hs as ->. unfold in_order in *.
    by rewrite accepted_snoc, begun_snoc, !app_nil_r.
  - destruct (start_shape _ _ _ _ Hs) as (_ & Hst & js & Hj & ->). unfold in_order in *.
    rewrite Hst in Hio. cbn [stopping jobs lane_jobs]. rewrite accepted_snoc, begun_snoc, app_nil_r, Hio, Hj.
    rewrite (of_lane_cons l j js). by rewrite <- !app_assoc.
  - unfold ok in Ho. destruct (stopping w) eqn:Hst; [|by eapply finish_in_order].
    unfold in_order in *. rewrite (finish_stopping _ _ _ _ Hs), Hst in *.
    by rewrite accepted_snoc, begun_snoc, !app_nil_r.
  - unfold in_order, stop in *. rewrite accepted_snoc, begun_snoc, !app_nil_r.
    destruct (stopping w) eqn:Hst; [by rewrite Hst|]. cbn [stopping]. rewrite Hio. by eexists.
Qed.

(** Within a lane, jobs begin in the order they were accepted, with none
    skipped: the jobs begun are a prefix of the jobs accepted, and while the pool
    is open the rest are exactly the lane's queued job and its waiting ones. *)
Theorem lanes_in_order n tr w l :
  reachable n tr w ->
  begun l tr `prefix_of` accepted l tr /\
  (stopping w = false ->
   accepted l tr = begun l tr ++ of_lane l (jobs w) ++ waiting (lane_jobs w) l).
Proof.
  intros Hr. assert (in_order l tr w) as Hio.
  { induction Hr as [|tr w e w' Hr IH Hs]; [done|].
    by apply (step_in_order l tr w e w' (reachable_ok _ _ _ Hr)). }
  unfold in_order in Hio. destruct (stopping w); [done|]. split; [|done]. rewrite Hio. by eexists.
Qed.

(** C8: In every state the pool can reach, at most 64 requests are active, the
    jobs being run have distinct request ids, and no two of them are of the same
    lane; the jobs of a lane begin in the order they were accepted, none skipped.

    Jobs without a lane (lane 0) may run at the same time as any other.  The loop
    gives a lane to waits for a queue only, and what the loop itself executes, such
    as a submission, does not pass through the pool. *)
Theorem workers_exclusive n tr w :
  reachable n tr w ->
  (size (active_ids w) <= kMaxJobs)%nat /\
  NoDup (map request_id (running w)) /\
  (forall l, l <> 0 -> (length (of_lane l (running w)) <= 1)%nat) /\
  (forall l, begun l tr `prefix_of` accepted l tr /\
     (stopping w = false ->
      accepted l tr = begun l tr ++ of_lane l (jobs w) ++ waiting (lane_jobs w) l)).
Proof.
  intros Hr. pose proof (reachable_ok _ _ _ Hr) as Ho. unfold ok in Ho.
  assert (running_ok w) as [] by (destruct (stopping w); [apply Ho|by apply open_exclusive]).
  split_and!; try done. intros l. by apply (lanes_in_order n).
Qed.

(** ** Progress *)

(** Without new requests and before the pool stops. *)
Inductive internal : t -> t -> Prop :=
  | internal_start w i j w' : start w i = Some (j, w') -> internal w w'
  | internal_finish w i j w' : finish w i = Some (j, w') -> internal w w'.

Inductive runs : nat -> t -> t -> Prop :=
  | runs_done w : runs 0 w w
  | runs_step k w w' w'' : internal w w' -> runs k w' w'' -> runs (S k) w w''.

(** A queued or waiting job takes two steps, a running one takes one. *)
Definition work (w : t) : nat := (length (all_jobs w) + length (jobs w) + length (waiting_all (lane_jobs w)))%nat.

Lemma internal_event w w' : internal w w' -> exists e, step w e w'.
Proof. destruct 1; eexists; by econstructor. Qed.

Lemma internal_open w w' : stopping w = false -> open_ok w -> internal w w' ->
  stopping w' = false /\ open_ok w'.
Proof.
  intros Hst Ho Hi. destruct Hi as [w i j w' Hs|w i j w' Hs].
  - destruct (start_shape _ _ _ _ Hs) as (_ & _ & js & _ & Hw'). split; [by rewrite Hw'|].
    by eapply start_ok.
  - split; [by rewrite (finish_stopping _ _ _ _ Hs)|]. by eapply finish_ok.
Qed.

(** The jobs that are left after one finishes. *)
Lemma finish_all_jobs w i j w' : stopping w = false -> open_ok w -> finish w i = Some (j, w') ->
  S (length (all_jobs w')) = length (all_jobs w).
Proof.
  intros Hst Ho Hf. pose proof (finish_ok _ _ _ _ Hst Ho Hf) as Ho'.
  assert (request_id j ∈ active_ids w) as Hj.
  { apply elem_of_elements. rewrite <- (oo_ids w Ho). apply list_elem_of_fmap. exists j. split; [done|].
    apply finish_shape in Hf as [Hi _]. unfold all_jobs, inflight.
    rewrite (running_finish w i j [] ∅ ∅ ∅ false Hi), !elem_of_app, elem_of_cons. auto. }
  assert (active_ids w' = active_ids w ∖ {[request_id j]}) as Hids.
  { apply finish_shape in Hf as [_ Hw']. destruct (release_lane w (lane j)) as [[? ?] ?].
    by rewrite Hw'. }
  rewrite <- (length_map request_id (all_jobs w)), <- (length_map request_id (all_jobs w')).
  rewrite (oo_ids w Ho), (oo_ids w' Ho'), Hids.
  rewrite (union_difference_singleton_L (request_id j) (active_ids w)) at 2 by done.
  by rewrite elements_union_singleton by set_solver.
Qed.

Lemma finish_queued w i j w' : open_ok w -> finish w i = Some (j, w') ->
  (length (jobs w') + length (waiting_all (lane_jobs w')))%nat =
  (length (jobs w) + length (waiting_all (lane_jobs w)))%nat.
Proof.
  intros Ho Hf. apply finish_shape in Hf as [_ Hw'].
  destruct (release_lane w (lane j)) as [[js ljs] lanes] eqn:Hr. rewrite Hw'. cbn [jobs lane_jobs].
  revert Hr. apply (release_cases w (lane j) (fun r => r = (js, ljs, lanes) ->
    (length js + length (waiting_all ljs))%nat =
    (length (jobs w) + length (waiting_all (lane_jobs w)))%nat)); [done|..].
  - by intros _ [= <- <- <-].
  - by intros _ _ [= <- <- <-].
  - intros j' rest m _ Hq _ Hm _ Hdel _ [= <- <- <-].
    rewrite (waiting_all_split m (lane j)), (waiting_all_split (lane_jobs w) (lane j)), Hm, Hdel.
    unfold waiting. rewrite Hq, !length_app. cbn. lia.
Qed.

Lemma internal_work w w' : stopping w = false -> open_ok w -> internal w w' -> (work w' < work w)%nat.
Proof.
  intros Hst Ho Hi. unfold work. destruct Hi as [w i j w' Hs|w i j w' Hs].
  - pose proof (Permutation_length (start_inflight _ _ _ _ Hs)) as Hl.
    apply start_shape in Hs as (_ & _ & js & Hj & ->).
    unfold all_jobs. rewrite !length_app, Hl, Hj. cbn. lia.
  - pose proof (finish_all_jobs _ _ _ _ Hst Ho Hs). pose proof (finish_queued _ _ _ _ Ho Hs). lia.
Qed.

Lemma start_threads w i j w' : start w i = Some (j, w') -> length (threads w') = length (threads w).
Proof.
  intros Hs. apply start_shape in Hs as (_ & _ & js & _ & ->). cbn [threads]. apply length_insert.
Qed.

Lemma finish_threads w i j w' : finish w i = Some (j, w') -> length (threads w') = length (threads w).
Proof.
  intros Hf. apply finish_shape in Hf as [_ Hw'].
  destruct (release_lane w (lane j)) as [[? ?] ?]. rewrite Hw'. cbn [threads]. apply length_insert.
Qed.

Lemma internal_threads w w' : internal w w' -> length (threads w') = length (threads w).
Proof. destruct 1; [by eapply start_threads|by eapply finish_threads]. Qed.

(** An open pool with an active request can move. *)
Lemma open_progress w : stopping w = false -> open_ok w -> (0 < length (threads w))%nat ->
  active_ids w <> ∅ -> exists w', internal w w'.
Proof.
  intros Hst Ho Hn Hact.
  destruct (threads w) as [|o ths] eqn:Hth; [cbn in Hn; lia|].
  destruct o as [j|].
  { assert (exists w', finish w 0 = Some (j, w')) as [w' Hf].
    { unfold finish. rewrite Hth. cbn. destruct (release_lane w (lane j)) as [[? ?] ?]. by eexists. }
    exists w'. by apply internal_finish with 0%nat j. }
  destruct (jobs w) as [|j js] eqn:Hj.
  2:{ assert (exists w', start w 0 = Some (j, w')) as [w' Hf].
      { unfold start. rewrite Hth, Hst, Hj. cbn. by eexists. }
      exists w'. by apply internal_start with 0%nat j. }
  assert (running w <> []) as Hrun.
  { intros Hr. apply Hact. apply leibniz_equiv, elements_empty_inv, Permutation_nil_r.
    rewrite <- (oo_ids w Ho). unfold all_jobs, inflight. rewrite Hj, Hr. cbn [app map].
    assert (lane_jobs w = ∅) as ->; [|done].
    apply map_eq. intros l. rewrite lookup_empty.
    destruct (lane_jobs w !! l) as [q|] eqn:E; [|done].
    destruct (oo_waiting w Ho l q E) as (Hin & _). pose proof (oo_zero w Ho).
    assert (l <> 0) as Hnz by congruence. pose proof (oo_lane w Ho l Hnz) as Hl.
    unfold inflight in Hl. rewrite Hj, Hr, decide_True in Hl by done. done. }
  destruct (running w) as [|j js] eqn:Hr; [done|].
  assert (j ∈ running w) as Hin by (rewrite Hr; left). unfold running, run_jobs in Hin.
  apply list_elem_of_omap in Hin as (o & Ho' & Heq). cbn in Heq. subst o.
  apply list_elem_of_lookup in Ho' as [i Hi].
  assert (exists w', finish w i = Some (j, w')) as [w' Hf].
  { unfold finish. rewrite Hi. destruct (release_lane w (lane j)) as [[? ?] ?]. by eexists. }
  exists w'. by apply internal_finish with i j.
Qed.

Lemma reachable_threads n tr w : reachable n tr w -> length (threads w) = n.
Proof.
  induction 1 as [|tr w e w' _ IH Hs]; [apply length_replicate|]. rewrite <- IH.
  destruct Hs as [w id ln w' Hs|w id ln w' Hs|w i j w' Hs|w i j w' Hs|w].
  - unfold submit in Hs. repeat case_match; by simplify_eq.
  - by apply submit_refuses in Hs as ->.
  - by eapply start_threads.
  - by eapply finish_threads.
  - unfold stop. by case_match.
Qed.

(** A pool without jobs has no active lane. *)
Lemma no_lane w : open_ok w -> all_jobs w = [] -> active_lanes w = ∅.
Proof.
  intros Ho Hj. apply app_eq_nil in Hj as [Hin _]. apply leibniz_equiv. intros l. split; [|set_solver].
  intros Hl. assert (l <> 0) as Hnz by (intros ->; by apply (oo_zero w Ho)).
  pose proof (oo_lane w Ho l Hnz) as Hlen. by rewrite Hin, decide_True in Hlen.
Qed.

(** C9: No accepted request is stuck: from any state an open pool with a thread
    reaches, every run of its threads without new requests is finite, with at most
    [work] steps, and a run that can go no further leaves no active request, no job
    queued, waiting or running, and no active lane. *)
Theorem workers_drain n tr w k w' :
  (0 < n)%nat -> reachable n tr w -> stopping w = false -> runs k w w' ->
  (k <= work w)%nat /\
  ((forall w'', ~ internal w' w'') -> active_ids w' = ∅ /\ all_jobs w' = [] /\ active_lanes w' = ∅).
Proof.
  intros Hn Hr Hst Hk. assert (open_ok w) as Ho.
  { apply reachable_ok in Hr. unfold ok in Hr. by rewrite Hst in Hr. }
  apply reachable_threads in Hr. clear tr.
  induction Hk as [w|k w w1 w' Hi Hk IH].
  - split; [lia|]. intros Hstuck.
    assert (active_ids w = ∅) as Ha.
    { destruct (decide (active_ids w = ∅)) as [|Hne]; [done|]. exfalso.
      destruct (open_progress w Hst Ho ltac:(lia) Hne) as [w'' Hi]. by apply (Hstuck w''). }
    pose proof (oo_ids w Ho) as Hids. rewrite Ha, elements_empty in Hids.
    apply Permutation_nil_r, map_eq_nil in Hids. split_and!; [done|done|]. by apply no_lane.
  - destruct (internal_open _ _ Hst Ho Hi) as [Hst1 Ho1].
    pose proof (internal_work _ _ Hst Ho Hi). apply internal_threads in Hi as Ht.
    destruct IH as [Hl Hend]; [congruence..|]. split; [lia|done].
Qed.

(** *** Witnesses: two jobs of lane 7 and one of no lane. *)
Section Witnesses.

Definition demo_actions : t :=
  snd (submit (snd (submit (snd (submit (init 2) 1 7)) 2 7)) 3 0).

Definition demo_trace : list event :=
  [Accepted (mkJob 1 7); Accepted (mkJob 2 7); Accepted (mkJob 3 0)].

Lemma demo_reachable : reachable 2 demo_trace demo_actions.
Proof.
  apply (reachable_step 2 [_; _] (snd (submit (snd (submit (init 2) 1 7)) 2 7))).
  2:{ by apply step_accept. }
  apply (reachable_step 2 [_] (snd (submit (init 2) 1 7))).
  2:{ by apply step_accept. }
  apply (reachable_step 2 [] (init 2)); [constructor|by apply step_accept].
Qed.

Lemma workers_exclusive_witness :
  (size (active_ids demo_actions) <= kMaxJobs)%nat /\
  accepted 7 demo_trace = begun 7 demo_trace ++ [mkJob 1 7] ++ [mkJob 2 7].
Proof.
  destruct (workers_exclusive 2 demo_trace demo_actions demo_reachable) as (Hs & _ & _ & Ho).
  split; [exact Hs|]. apply (Ho 7). by vm_compute.
Defined.

(** Both threads run until nothing is left: the second job of lane 7 after the
    first. *)
Definition after (x : option (Job * t)) : t := match x with Some (_, w) => w | None => init 0 end.

Definition demo_one_done : t := after (finish (after (start (after (start demo_actions 0)) 1)) 0).
Definition demo_end : t := after (finish (after (start (after (finish demo_one_done 1)) 0)) 0).

Lemma demo_runs : runs 6 demo_actions demo_end.
Proof.
  eapply runs_step; [apply (internal_start _ 0 (mkJob 1 7)); reflexivity|].
  eapply runs_step; [apply (internal_start _ 1 (mkJob 3 0)); reflexivity|].
  eapply runs_step; [apply (internal_finish _ 0 (mkJob 1 7)); reflexivity|].
  eapply runs_step; [apply (internal_finish _ 1 (mkJob 3 0)); reflexivity|].
  eapply runs_step; [apply (internal_start _ 0 (mkJob 2 7)); reflexivity|].
  eapply runs_step; [apply (internal_finish _ 0 (mkJob 2 7)); reflexivity|]. constructor.
Qed.

Lemma demo_stuck w : ~ internal demo_end w.
Proof.
  assert (threads demo_end = [None; None] /\ jobs demo_end = []) as [Ht Hj] by (by vm_compute).
  intros Hi. inversion Hi as [w0 i j w' Hs|w0 i j w' Hs]; subst.
  - apply start_shape in Hs as (_ & _ & js & Hjs & _). by rewrite Hj in Hjs.
  - apply finish_shape in Hs as [Hi' _]. rewrite Ht in Hi'. by destruct i as [|[|[|i]]].
Qed.

Lemma workers_drain_witness :
  (6 <= work demo_actions)%nat /\ active_ids demo_end = ∅ /\ all_jobs demo_end = [] /\ active_lanes demo_end = ∅.
Proof.
  destruct (workers_drain 2 demo_trace demo_actions 6 demo_end ltac:(lia) demo_reachable) as [Hk Hend].
  - by vm_compute.
  - exact demo_runs.
  - split; [exact Hk|]. apply Hend, demo_stuck.
Defined.

End Witnesses.

End RequestWorkers.
