(* ===== verification/Connection.v ===== *)
(** The client's connection: [Connection] of [src/client/remote_objects.cpp].

    Application threads, the receiver thread and the watchdog share a table of
    pending requests.  A step of the system is one critical section of a mutex;
    the [Pending] objects they share live in a store. *)

From stdpp Require Import list gmap.
From S2P Require Import Prelude Wire.

#[local] Set Warnings "-clear-no-such-hyp".

Module Connection.

(** ** State *)

(** A shared [Connection::Pending].

    remote_objects.hpp:36-43. *)
Record Pending := mkPending {
  opcode : Z; reply : list byte; done : bool; ok : bool }.

(** The members of the class.  [pending] maps request ids to positions of the
    store [waiters], which stands for the shared pointers.

    remote_objects.hpp:45-55. *)
Record t := mk {
  waiters : list Pending;
  pending : gmap Z nat;
  next_request_id : Z;
  failed : bool;
  stopping : bool;
  heartbeat_enabled : bool;
  application_pending : nat;
  heartbeat_id : Z }.

Definition init : t := mk [] ∅ 1 false false false 0 0.

(** [Opcode::Ping] of the generated command table. *)
Section WithPing.
Variable Ping : Z.

(** ** Operations *)

(** [do { id = next_request_id++; } while (id == 0 || pending.count(id))];
    [None] when the fuel runs out.

    remote_objects.cpp:250-250. *)
Fixpoint fresh_id (fuel : nat) (p : gmap Z nat) (next : Z) : option (Z * Z) :=
  match fuel with
  | O => None
  | S fuel =>
      let id := next in
      let next := wrap64 (next + 1) in
      if (id =? 0) || bool_decide (is_Some (p !! id)) then fresh_id fuel p next
      else Some (id, next)
  end.

(** Enough turns to find an id among those of [p] and 0. *)
Definition id_fuel (p : gmap Z nat) : nat := size p + 2.

(** [std::make_shared<Pending>()] and its insertion under a fresh id: the new
    position, the id and the state. *)
Definition insert_waiter (op : Z) (c : t) : option (nat * Z * t) :=
  match fresh_id (id_fuel (pending c)) (pending c) (next_request_id c) with
  | None => None
  | Some (id, next) =>
      let w := length (waiters c) in
      Some (w, id,
        mk (waiters c ++ [mkPending op [] false false]) (<[id := w]> (pending c)) next
           (failed c) (stopping c) (heartbeat_enabled c) (application_pending c) (heartbeat_id c))
  end.

Definition set_application (n : nat) (c : t) : t :=
  mk (waiters c) (pending c) (next_request_id c) (failed c) (stopping c) (heartbeat_enabled c) n
     (heartbeat_id c).

Definition set_heartbeat (id : Z) (c : t) : t :=
  mk (waiters c) (pending c) (next_request_id c) (failed c) (stopping c) (heartbeat_enabled c)
     (application_pending c) id.

Definition set_waiters (ws : list Pending) (c : t) : t :=
  mk ws (pending c) (next_request_id c) (failed c) (stopping c) (heartbeat_enabled c)
     (application_pending c) (heartbeat_id c).

Definition set_pending (p : gmap Z nat) (c : t) : t :=
  mk (waiters c) p (next_request_id c) (failed c) (stopping c) (heartbeat_enabled c)
     (application_pending c) (heartbeat_id c).

(** The first critical section of [round_trip] and [try_round_trip].

    remote_objects.cpp:244-254. *)
Definition register (op : Z) (c : t) : option (nat * Z * t) :=
  if failed c || (1024 <=? size (pending c))%nat then None
  else match insert_waiter op c with
       | None => None
       | Some (w, id, c') => Some (w, id, set_application (S (application_pending c')) c')
       end.

(** The request of [try_round_trip] that found the socket busy is withdrawn.

    remote_objects.cpp:298-301. *)
Definition cancel (id : Z) (c : t) : t :=
  set_application (pred (application_pending c)) (set_pending (delete id (pending c)) c).

(** remote_objects.cpp:57-63. *)
Definition enable_heartbeat (c : t) : t :=
  mk (waiters c) (pending c) (next_request_id c) (failed c) (stopping c) true
     (application_pending c) (heartbeat_id c).

(** The watchdog's wait condition held for a whole interval and no heartbeat is
    outstanding: it registers a ping.

    remote_objects.cpp:99-115. *)
Definition ping (c : t) : option (nat * Z * t) :=
  if stopping c || failed c || negb (heartbeat_enabled c) || (application_pending c =? 0)%nat
     || negb (heartbeat_id c =? 0) then None
  else match insert_waiter Ping c with
       | None => None
       | Some (w, id, c') => Some (w, id, set_heartbeat id c')
       end.

(** What the watchdog does when its wait for the pong of [id] ends. *)
Inductive verdict := Fail | AwaitLatePong | Continue.

(** remote_objects.cpp:128-152. *)
Definition pong_verdict (completed : bool) (id : Z) (c : t) : verdict :=
  if negb completed && (heartbeat_id c =? id) && negb (application_pending c =? 0)%nat
     && negb (stopping c) && negb (failed c) then Fail
  else if negb completed && (heartbeat_id c =? id) then AwaitLatePong
  else Continue.

(** After [AwaitLatePong], once the wait ends.

    remote_objects.cpp:157-165. *)
Definition late_verdict (c : t) : verdict :=
  if negb (application_pending c =? 0)%nat && negb (heartbeat_id c =? 0)
     && negb (stopping c) && negb (failed c) then Fail
  else Continue.

(** The critical section of [fail_all]: the waiters to notify.

    remote_objects.cpp:75-86. *)
Definition fail_all (c : t) : list nat * t :=
  if failed c then ([], c)
  else (map snd (map_to_list (pending c)),
        mk (waiters c) ∅ (next_request_id c) true true (heartbeat_enabled c) 0 0).

(** remote_objects.cpp:87-93. *)
Definition notify_failed (w : nat) (c : t) : t :=
  match waiters c !! w with
  | None => c
  | Some p => set_waiters (<[w := mkPending (opcode p) (reply p) true false]> (waiters c)) c
  end.

(** The receiver's critical section for a frame with this header; [None] ends
    the loop.

    remote_objects.cpp:176-191. *)
Definition claim (id op : Z) (c : t) : option (nat * t) :=
  match pending c !! id with
  | None => None
  | Some w =>
      match waiters c !! w with
      | None => None
      | Some p =>
          if (id =? 0) || negb (op =? opcode p) then None
          else
            let c' := if id =? heartbeat_id c then set_heartbeat 0 c
                      else set_application (pred (application_pending c)) c in
            Some (w, set_pending (delete id (pending c)) c')
      end
  end.

(** The reply starts with [Status::Ok].

    remote_objects.cpp:192-197. *)
Definition status_ok (payload : list byte) : bool :=
  (4 <=? length payload)%nat && (le_value (take 4 payload) =? status_code Ok).

(** remote_objects.cpp:198-204. *)
Definition deliver (w : nat) (payload : list byte) (c : t) : t :=
  match waiters c !! w with
  | None => c
  | Some p => set_waiters (<[w := mkPending (opcode p) payload true (status_ok payload)]> (waiters c)) c
  end.

(** What the caller gets once its waiter is done: [*reply] and the result;
    [None] while it waits.

    remote_objects.cpp:265-269. *)
Definition outcome (w : nat) (c : t) : option (bool * list byte) :=
  match waiters c !! w with
  | Some p => if done p then Some (ok p, reply p) else None
  | None => None
  end.

(** ** The system *)

(** The connection, what its threads hold between two critical sections, and
    what has happened: the reply the receiver is about to deliver, the waiters
    [fail_all] has yet to notify, the requests registered and not sent, the
    withdrawn ones, the id of each waiter and the frames received. *)
Record system := Sys {
  conn : t;
  receiving : option (nat * list byte);
  failing : list nat;
  unsent : gset Z;
  cancelled : list nat;
  ids : list Z;
  log : list (Z * Z * list byte) }.

Definition start : system := Sys init None [] ∅ [] [] [].

Inductive label :=
  | LRegister (w : nat) | LPing (w : nat) | LEnable | LSend (id : Z) | LCancel (id : Z)
  | LReceive (id op : Z) (payload : list byte) | LDeliver (w : nat) | LFail | LNotify (w : nat).

(** [honest]: the peer replies only to requests that were sent. *)
Inductive step (honest : bool) : system -> label -> system -> Prop :=
  | step_register s op w id c : register op (conn s) = Some (w, id, c) ->
      step honest s (LRegister w)
        (Sys c (receiving s) (failing s) ({[id]} ∪ unsent s) (cancelled s) (ids s ++ [id]) (log s))
  | step_ping s w id c : ping (conn s) = Some (w, id, c) ->
      step honest s (LPing w)
        (Sys c (receiving s) (failing s) (unsent s) (cancelled s) (ids s ++ [id]) (log s))
  | step_enable s :
      step honest s LEnable
        (Sys (enable_heartbeat (conn s)) (receiving s) (failing s) (unsent s) (cancelled s) (ids s)
             (log s))
  | step_send s id : id ∈ unsent s ->
      step honest s (LSend id)
        (Sys (conn s) (receiving s) (failing s) (unsent s ∖ {[id]}) (cancelled s) (ids s) (log s))
  | step_cancel s id : id ∈ unsent s ->
      step honest s (LCancel id)
        (Sys (cancel id (conn s)) (receiving s) (failing s) (unsent s ∖ {[id]})
             (match pending (conn s) !! id with Some w => [w] | None => [] end ++ cancelled s)
             (ids s) (log s))
  | step_receive s id op payload w c : receiving s = None ->
      (honest = true -> id ∉ unsent s) -> claim id op (conn s) = Some (w, c) ->
      step honest s (LReceive id op payload)
        (Sys c (Some (w, payload)) (failing s) (unsent s) (cancelled s) (ids s)
             (log s ++ [(id, op, payload)]))
  | step_deliver s w payload : receiving s = Some (w, payload) ->
      step honest s (LDeliver w)
        (Sys (deliver w payload (conn s)) None (failing s) (unsent s) (cancelled s) (ids s) (log s))
  | step_fail s ws c : fail_all (conn s) = (ws, c) ->
      step honest s LFail
        (Sys c (receiving s) (failing s ++ ws) (unsent s) (cancelled s) (ids s) (log s))
  | step_notify s w ws : failing s = w :: ws ->
      step honest s (LNotify w)
        (Sys (notify_failed w (conn s)) (receiving s) ws (unsent s) (cancelled s) (ids s) (log s)).

Definition reachable (honest : bool) (s : system) : Prop :=
  exists ls, steps (step honest) start ls s.

(** ** Fresh ids *)

Lemma fresh_id_spec fuel p next id next' :
  is_u64 next -> fresh_id fuel p next = Some (id, next') ->
  id <> 0 /\ p !! id = None /\ is_u64 id /\ is_u64 next'.
Proof.
  revert next. induction fuel as [|fuel IH]; intros next Hn; cbn; [done|].
  destruct ((next =? 0) || _) eqn:E; [apply IH, wrap64_range|].
  intros [= <- <-]. apply orb_false_iff in E as [Ez Ep]. apply Z.eqb_neq in Ez.
  apply bool_decide_eq_false in Ep. split_and!; [done| |done|apply wrap64_range].
  by apply eq_None_not_Some.
Qed.

Lemma wrap64_succ a k : wrap64 (wrap64 (a + 1) + k) = wrap64 (a + (k + 1)).
Proof. unfold wrap64. rewrite Zplus_mod_idemp_l. f_equal. lia. Qed.

(** A search that runs out of fuel has tried as many ids, all taken. *)
Lemma fresh_id_none fuel : forall p next, is_u64 next -> fresh_id fuel p next = None ->
  forall k, (k < fuel)%nat -> wrap64 (next + Z.of_nat k) ∈ ({[0]} ∪ dom p : gset Z).
Proof.
  induction fuel as [|fuel IH]; intros p next Hn Hf k Hk; [lia|]. cbn in Hf.
  destruct ((next =? 0) || bool_decide (is_Some (p !! next))) eqn:E; [|done].
  destruct k as [|k].
  - rewrite Z.add_0_r, wrap64_id by done. apply orb_true_iff in E as [E|E].
    + apply Z.eqb_eq in E as ->. set_solver.
    + apply bool_decide_eq_true in E. apply elem_of_union_r. by apply elem_of_dom.
  - specialize (IH p _ (wrap64_range (next + 1)) Hf k ltac:(lia)).
    rewrite wrap64_succ in IH. by replace (next + Z.of_nat (S k)) with (next + (Z.of_nat k + 1)) by lia.
Qed.

Lemma tried_distinct next fuel : Z.of_nat fuel <= 18446744073709551616 ->
  NoDup (map (fun k => wrap64 (next + Z.of_nat k)) (seq 0 fuel)).
Proof.
  intros Hf. apply NoDup_ListNoDup, NoDup_map_NoDup_ForallPairs; [|apply NoDup_ListNoDup, NoDup_seq].
  intros a b Ha Hb Heq. apply in_seq in Ha, Hb. unfold wrap64 in Heq.
  assert ((Z.of_nat a - Z.of_nat b) mod 18446744073709551616 = 0) as Hz.
  { replace (Z.of_nat a - Z.of_nat b) with ((next + Z.of_nat a) - (next + Z.of_nat b)) by lia.
    by rewrite Zminus_mod, Heq, Z.sub_diag. }
  apply Z_div_exact_full_2 in Hz; [|lia]. nia.
Qed.

(** C12: Looking for an unused request id terminates: among as many consecutive
    64-bit ids as there are pending requests and two more, one is neither 0 nor
    pending, also when the counter wraps around. *)
Theorem fresh_id_terminates p next :
  is_u64 next -> Z.of_nat (size p) + 2 <= 18446744073709551616 ->
  exists id next', fresh_id (id_fuel p) p next = Some (id, next') /\
    id <> 0 /\ p !! id = None /\ is_u64 id /\ is_u64 next'.
Proof.
  intros Hn Hsz. destruct (fresh_id (id_fuel p) p next) as [[id next']|] eqn:E.
  - exists id, next'. split; [done|]. by eapply fresh_id_spec.
  - exfalso. pose proof (fresh_id_none _ _ _ Hn E) as Hin. unfold id_fuel in *.
    pose proof (tried_distinct next (size p + 2) ltac:(lia)) as Hnd.
    assert (length (map (fun k => wrap64 (next + Z.of_nat k)) (seq 0 (size p + 2))) <=
            length (elements (({[0%Z]} ∪ dom p) : gset Z)))%nat as Hle.
    { apply submseteq_length, NoDup_submseteq; [done|]. intros x Hx.
      apply list_elem_of_fmap in Hx as (k & -> & Hk). apply elem_of_seq in Hk.
      apply elem_of_elements, Hin. lia. }
    rewrite length_map, length_seq in Hle.
    assert (length (elements (({[0%Z]} ∪ dom p) : gset Z)) <= 1 + size p)%nat; [|lia].
    change (length (elements ?X)) with (size X). rewrite size_union_alt, size_singleton.
    rewrite <- (size_dom p (D := gset Z)). apply Nat.add_le_mono_l, subseteq_size. set_solver.
Qed.

Lemma fresh_id_terminates_witness :
  exists id next', fresh_id 4 {[ 1 := 0%nat; 18446744073709551615 := 1%nat ]} 18446744073709551615 =
      Some (id, next') /\ id = 2.
Proof.
  destruct (fresh_id_terminates {[ 1 := 0%nat; 18446744073709551615 := 1%nat ]} 18446744073709551615)
    as (id & next' & H & _); [by vm_compute|by vm_compute|].
  exists id, next'. split; [exact H|]. vm_compute in H. by injection H.
Defined.

(** ** Who owes a waiter its result *)

(** The waiters that are not done. *)
Definition undone (ws : list Pending) : list nat :=
  filter (fun i => done <$> ws !! i = Some false) (seq 0 (length ws)).

Lemma elem_undone ws i : i ∈ undone ws <-> exists p, ws !! i = Some p /\ done p = false.
Proof.
  unfold undone. rewrite list_elem_of_filter, elem_of_seq. split.
  - intros [H _]. apply fmap_Some in H as (p & Hp & Hd). by exists p.
  - intros (p & Hp & Hd). split; [by rewrite Hp; cbn; rewrite Hd|].
    apply lookup_lt_Some in Hp. lia.
Qed.

Lemma NoDup_undone ws : NoDup (undone ws).
Proof. apply NoDup_filter, NoDup_seq. Qed.

Lemma undone_snoc ws p : done p = false -> undone (ws ++ [p]) ≡ₚ length ws :: undone ws.
Proof.
  intros Hd. apply NoDup_Permutation; [apply NoDup_undone| |].
  - constructor; [|apply NoDup_undone]. intros (q & Hq & _)%elem_undone.
    apply lookup_lt_Some in Hq. lia.
  - intros i. rewrite elem_of_cons, !elem_undone. split.
    + intros (q & Hq & Hdq). apply lookup_snoc_Some in Hq as [[_ Hq]|[-> ->]]; eauto.
    + intros [->|(q & Hq & Hdq)]; [exists p|exists q]; (split; [|done]); apply lookup_snoc_Some; auto.
      left. split; [|done]. by apply lookup_lt_Some in Hq.
Qed.

Lemma undone_done ws w p p' : ws !! w = Some p -> done p = false -> done p' = true ->
  undone ws ≡ₚ w :: undone (<[w := p']> ws).
Proof.
  intros Hw Hd Hd'. pose proof (lookup_lt_Some _ _ _ Hw) as Hl.
  apply NoDup_Permutation; [apply NoDup_undone| |].
  - constructor; [|apply NoDup_undone]. intros (q & Hq & Hdq)%elem_undone.
    rewrite list_lookup_insert_eq in Hq by done. injection Hq as <-. congruence.
  - intros i. rewrite elem_of_cons, !elem_undone. destruct (decide (i = w)) as [->|Hn].
    + split; [by left|intros _; by exists p].
    + rewrite list_lookup_insert_ne by done. split; [by right|by intros [?|?]].
Qed.

Definition pending_waiters (m : gmap Z nat) : list nat := map snd (map_to_list m).

Lemma pending_insert m id w : m !! id = None ->
  pending_waiters (<[id := w]> m) ≡ₚ w :: pending_waiters m.
Proof. intros H. unfold pending_waiters. by rewrite map_to_list_insert by done. Qed.

Lemma pending_delete m id w : m !! id = Some w ->
  pending_waiters m ≡ₚ w :: pending_waiters (delete id m).
Proof. intros H. unfold pending_waiters. by rewrite <- (map_to_list_delete m id w) by done. Qed.

(** Everyone who holds a waiter: the table, the receiver, [fail_all], or a
    caller that gave up before sending. *)
Definition holders (s : system) : list nat :=
  pending_waiters (pending (conn s)) ++ option_list (fst <$> receiving s) ++ failing s ++ cancelled s.

Record delivery_ok (s : system) : Prop := {
  d_holders : holders s ≡ₚ undone (waiters (conn s));
  d_ids : length (ids s) = length (waiters (conn s));
  d_next : is_u64 (next_request_id (conn s));
  d_pending : map_Forall (fun id w => id <> 0 /\ ids s !! w = Some id) (pending (conn s));
  d_receiving : forall w payload, receiving s = Some (w, payload) ->
    exists id p, ids s !! w = Some id /\ waiters (conn s) !! w = Some p /\
                 (id, opcode p, payload) ∈ log s;
  d_done : forall w p, waiters (conn s) !! w = Some p -> done p = true -> ok p = true ->
    exists id, ids s !! w = Some id /\ (id, opcode p, reply p) ∈ log s /\ status_ok (reply p) = true }.

Lemma start_delivery : delivery_ok start.
Proof.
  constructor; cbn; try done.
Qed.

Lemma insert_waiter_shape op c w id c' : is_u64 (next_request_id c) ->
  insert_waiter op c = Some (w, id, c') ->
  w = length (waiters c) /\ id <> 0 /\ pending c !! id = None /\ exists next, is_u64 next /\
  c' = mk (waiters c ++ [mkPending op [] false false]) (<[id := w]> (pending c)) next
          (failed c) (stopping c) (heartbeat_enabled c) (application_pending c) (heartbeat_id c).
Proof.
  intros Hn. unfold insert_waiter. destruct (fresh_id _ _ _) as [[id' next]|] eqn:E; [|done].
  intros [= <- <- <-]. apply fresh_id_spec in E as (? & ? & _ & ?); [|done].
  split_and!; try done. by exists next.
Qed.

(** A new waiter, however the counters change. *)
Lemma insert_delivery s op w id c0 c u : delivery_ok s ->
  insert_waiter op (conn s) = Some (w, id, c0) ->
  waiters c = waiters c0 -> pending c = pending c0 -> next_request_id c = next_request_id c0 ->
  delivery_ok (Sys c (receiving s) (failing s) u (cancelled s) (ids s ++ [id]) (log s)).
Proof.
  intros [Hh Hi Hn Hp Hr Hd] Hins Hw Hpd Hnx.
  destruct (insert_waiter_shape _ _ _ _ _ Hn Hins) as (-> & Hid & Hnone & next & Hnext & ->).
  cbn in Hw, Hpd, Hnx. constructor; cbn [conn receiving failing cancelled ids log].
  - unfold holders in *. cbn [conn receiving failing cancelled]. rewrite Hpd, Hw.
    rewrite pending_insert, undone_snoc by done. by rewrite <- Hh.
  - rewrite Hw, !length_app, Hi. done.
  - by rewrite Hnx.
  - rewrite Hpd. apply map_Forall_insert_2.
    + split; [done|]. rewrite <- Hi. apply list_lookup_middle. done.
    + intros id' w' Hl. destruct (Hp _ _ Hl) as [? Hl']. split; [done|].
      by apply lookup_app_l_Some.
  - intros w payload Hrc. destruct (Hr _ _ Hrc) as (id' & q & H1 & H2 & H3). exists id', q.
    rewrite Hw. split_and!; [by apply lookup_app_l_Some|by apply lookup_app_l_Some|done].
  - intros w q Hq Hdq Hok. rewrite Hw in Hq. apply lookup_snoc_Some in Hq as [[_ Hq]|[_ <-]]; [|done].
    destruct (Hd _ _ Hq Hdq Hok) as (id' & H1 & H2 & H3). exists id'.
    split_and!; [by apply lookup_app_l_Some|done|done].
Qed.

(** A waiter that somebody holds is set. *)
Lemma holder_done s s' w p p' :
  delivery_ok s -> w :: holders s' ≡ₚ holders s -> waiters (conn s) !! w = Some p ->
  opcode p' = opcode p -> done p' = true ->
  (ok p' = true -> exists id, ids s !! w = Some id /\ (id, opcode p', reply p') ∈ log s /\
                              status_ok (reply p') = true) ->
  conn s' = set_waiters (<[w := p']> (waiters (conn s))) (conn s) ->
  ids s' = ids s -> log s' = log s ->
  (forall v payload, receiving s' = Some (v, payload) -> receiving s = Some (v, payload)) ->
  delivery_ok s'.
Proof.
  intros [Hh Hi Hn Hp Hr Hd] Hhold Hw Hop Hdone Hok Hc Hids Hlog Hrec.
  assert (w ∈ undone (waiters (conn s))) as Hund by (rewrite <- Hh, <- Hhold; left).
  apply elem_undone in Hund as (p0 & Hp0 & Hd0). assert (p0 = p) as -> by congruence.
  constructor; rewrite ?Hc, ?Hids, ?Hlog.
  - cbn [waiters set_waiters]. apply (Permutation_cons_inv (a := w)).
    by rewrite <- (undone_done _ w p p'), <- Hh by done.
  - cbn. by rewrite length_insert.
  - done.
  - done.
  - intros v payload Hv. destruct (Hr _ _ (Hrec _ _ Hv)) as (id & q & H1 & H2 & H3).
    cbn [waiters set_waiters]. destruct (decide (v = w)) as [->|Hne].
    + exists id, p'. rewrite list_lookup_insert_eq by (by eapply lookup_lt_Some).
      assert (q = p) as -> by congruence. by rewrite Hop.
    + exists id, q. by rewrite list_lookup_insert_ne.
  - intros v q Hv Hdq Hoq. cbn [waiters set_waiters] in Hv. destruct (decide (v = w)) as [->|Hne].
    + rewrite list_lookup_insert_eq in Hv by (by eapply lookup_lt_Some). injection Hv as <-. by apply Hok.
    + rewrite list_lookup_insert_ne in Hv by done. by apply Hd.
Qed.

(** The table loses an entry to somebody else. *)
Lemma delivery_same_waiters s s' :
  delivery_ok s -> holders s' ≡ₚ holders s -> waiters (conn s') = waiters (conn s) ->
  is_u64 (next_request_id (conn s')) -> pending (conn s') ⊆ pending (conn s) -> ids s' = ids s ->
  (forall e, e ∈ log s -> e ∈ log s') ->
  (forall w payload, receiving s' = Some (w, payload) ->
    receiving s = Some (w, payload) \/ exists id p, ids s !! w = Some id /\
      waiters (conn s) !! w = Some p /\ (id, opcode p, payload) ∈ log s') ->
  delivery_ok s'.
Proof.
  intros [Hh Hi Hn Hp Hr Hd] Hhold Hw Hnx Hsub Hids Hlog Hrec. constructor; rewrite ?Hids, ?Hw; try done.
  - by rewrite Hhold.
  - intros id w Hl. apply Hp. by eapply lookup_weaken.
  - intros w payload Hv. destruct (Hrec _ _ Hv) as [Hv'|(id & p & ? & ? & ?)]; [|by exists id, p].
    destruct (Hr _ _ Hv') as (id & p & ? & ? & ?). exists id, p. auto.
  - intros w p Hwp Hdp Hop. destruct (Hd _ _ Hwp Hdp Hop) as (id & ? & ? & ?). exists id. auto.
Qed.

Lemma claim_shape id op c w c' : claim id op c = Some (w, c') ->
  exists p, pending c !! id = Some w /\ waiters c !! w = Some p /\ op = opcode p /\ id <> 0 /\
  c' = set_pending (delete id (pending c))
         (if id =? heartbeat_id c then set_heartbeat 0 c
          else set_application (pred (application_pending c)) c).
Proof.
  unfold claim. destruct (pending c !! id) as [w'|]; [|done].
  destruct (waiters c !! w') as [p|] eqn:Hw; [|done].
  destruct ((id =? 0) || negb (op =? opcode p)) eqn:E; [done|]. intros [= -> <-].
  bool_hyps. by exists p.
Qed.

Lemma claim_waiters id op c w c' : claim id op c = Some (w, c') ->
  waiters c' = waiters c /\ pending c' = delete id (pending c) /\
  next_request_id c' = next_request_id c /\ failed c' = failed c.
Proof.
  intros H. apply claim_shape in H as (p & _ & _ & _ & _ & ->). by destruct (id =? _).
Qed.

Lemma fail_delivery s ws c : delivery_ok s -> fail_all (conn s) = (ws, c) ->
  delivery_ok (Sys c (receiving s) (failing s ++ ws) (unsent s) (cancelled s) (ids s) (log s)).
Proof.
  intros Hd Hf. unfold fail_all in Hf. destruct (failed (conn s)).
  - injection Hf as <- <-. rewrite app_nil_r. by destruct s.
  - injection Hf as <- <-. eapply (delivery_same_waiters s); try done; cbn; auto.
    + unfold holders. cbn. fold (pending_waiters (pending (conn s))). solve_Permutation.
    + apply (d_next s Hd).
    + apply map_empty_subseteq.
Qed.

Lemma cancel_delivery s id : delivery_ok s ->
  delivery_ok (Sys (cancel id (conn s)) (receiving s) (failing s) (unsent s ∖ {[id]})
    (match pending (conn s) !! id with Some w => [w] | None => [] end ++ cancelled s) (ids s) (log s)).
Proof.
  intros Hd. eapply (delivery_same_waiters s); try done; cbn; auto.
  - unfold holders. cbn. destruct (pending (conn s) !! id) as [w|] eqn:E.
    + rewrite (pending_delete (pending (conn s)) id w) by done. cbn [app]. solve_Permutation.
    + by rewrite delete_id.
  - apply (d_next s Hd).
  - apply delete_subseteq.
Qed.

Lemma receive_delivery s id op payload w c : delivery_ok s -> receiving s = None ->
  claim id op (conn s) = Some (w, c) ->
  delivery_ok (Sys c (Some (w, payload)) (failing s) (unsent s) (cancelled s) (ids s)
                   (log s ++ [(id, op, payload)])).
Proof.
  intros Hd Hr Hc. destruct (claim_waiters _ _ _ _ _ Hc) as (Hw & Hp & Hn & _).
  apply claim_shape in Hc as (p & Hl & Hwp & Hop & _ & _).
  apply (delivery_same_waiters s); cbn; try done.
  - unfold holders. cbn. rewrite Hr, Hp, (pending_delete (pending (conn s)) id w) by done. cbn. solve_Permutation.
  - rewrite Hn. apply (d_next s Hd).
  - rewrite Hp. apply delete_subseteq.
  - intros e He. apply elem_of_app. by left.
  - intros w' pl [= <- <-]. right. exists id, p. destruct (d_pending s Hd _ _ Hl) as [_ Hids].
    split_and!; [done|done|]. apply elem_of_app. right. rewrite <- Hop. left.
Qed.

Lemma deliver_delivery s w payload : delivery_ok s -> receiving s = Some (w, payload) ->
  delivery_ok (Sys (deliver w payload (conn s)) None (failing s) (unsent s) (cancelled s) (ids s)
                   (log s)).
Proof.
  intros Hd Hr. destruct (d_receiving s Hd _ _ Hr) as (id & p & Hids & Hw & Hlog).
  eapply (holder_done s _ w p (mkPending (opcode p) payload true (status_ok payload))); try done.
  - unfold holders. cbn. rewrite Hr. cbn. rewrite Permutation_middle.
    unfold deliver. rewrite Hw. done.
  - intros Hok. cbn in Hok. exists id. done.
  - cbn. unfold deliver. by rewrite Hw.
Qed.

Lemma notify_delivery s w ws : delivery_ok s -> failing s = w :: ws ->
  delivery_ok (Sys (notify_failed w (conn s)) (receiving s) ws (unsent s) (cancelled s) (ids s)
                   (log s)).
Proof.
  intros Hd Hf.
  assert (w ∈ undone (waiters (conn s))) as Hund.
  { rewrite <- (d_holders s Hd). unfold holders. rewrite Hf, !elem_of_app, elem_of_cons. auto. }
  apply elem_undone in Hund as (p & Hw & _).
  eapply (holder_done s _ w p (mkPending (opcode p) (reply p) true false)); try done.
  - unfold holders. cbn. rewrite Hf. unfold notify_failed. rewrite Hw. cbn. solve_Permutation.
  - cbn. unfold notify_failed. by rewrite Hw.
Qed.

Lemma step_delivery honest s l s' : delivery_ok s -> step honest s l s' -> delivery_ok s'.
Proof.
  intros Hd Hs. destruct Hs as [s op w id c Hr|s w id c Hr|s|s id Hid|s id Hid|s id op payload w c Hr _ Hc
    |s w payload Hr|s ws c Hf|s w ws Hf].
  - unfold register in Hr. destruct (_ || _); [done|].
    destruct (insert_waiter op (conn s)) as [[[w' id'] c']|] eqn:E; [|done].
    injection Hr as -> -> <-. by eapply insert_delivery.
  - unfold ping in Hr. destruct (_ || _); [done|].
    destruct (insert_waiter Ping (conn s)) as [[[w' id'] c']|] eqn:E; [|done].
    injection Hr as -> -> <-. by eapply insert_delivery.
  - eapply (delivery_same_waiters s); try done; cbn; auto. apply (d_next s Hd).
  - eapply (delivery_same_waiters s); try done; cbn; auto. apply (d_next s Hd).
  - by apply cancel_delivery.
  - by apply receive_delivery.
  - by apply deliver_delivery.
  - by apply fail_delivery.
  - by eapply notify_delivery.
Qed.

Lemma reachable_delivery honest s : reachable honest s -> delivery_ok s.
Proof.
  intros [ls Hs]. eapply steps_invariant; [apply start_delivery| |exact Hs].
  intros a l b. apply step_delivery.
Qed.

(** C10: A reply reaches the call it answers: when a round trip returns success,
    a frame was received whose request id is the one that call was registered
    under, whose opcode is its opcode, whose payload is the reply it returns and
    which carries [Status::Ok]; whatever the peer sends. *)
Theorem reply_correlated s w bs :
  reachable false s -> outcome w (conn s) = Some (true, bs) ->
  exists id op, ids s !! w = Some id /\ opcode <$> waiters (conn s) !! w = Some op /\
    (id, op, bs) ∈ log s /\ status_ok bs = true.
Proof.
  intros Hr Ho. apply reachable_delivery in Hr. unfold outcome in Ho.
  destruct (waiters (conn s) !! w) as [p|] eqn:Hw; [|done]. destruct (done p) eqn:Hdn; [|done].
  injection Ho as Hok <-. destruct (d_done s Hr _ _ Hw Hdn Hok) as (id & ? & ? & ?).
  exists id, (opcode p). done.
Qed.

(** ** Counting *)

(** The application requests of the table. *)
Definition application_requests (c : t) : nat := size (delete (heartbeat_id c) (pending c)).

Record counting_ok (honest : bool) (s : system) : Prop := {
  c_failed : failed (conn s) = true ->
    pending (conn s) = ∅ /\ application_pending (conn s) = 0%nat /\ heartbeat_id (conn s) = 0;
  c_size : (size (pending (conn s)) <= if (heartbeat_id (conn s) =? 0)%Z then 1024 else 1025)%nat;
  c_zero : pending (conn s) !! 0 = None;
  c_honest : honest = true ->
    application_pending (conn s) = application_requests (conn s) /\
    (heartbeat_id (conn s) <> 0 -> is_Some (pending (conn s) !! heartbeat_id (conn s))) /\
    (failed (conn s) = false -> forall id, id ∈ unsent s ->
       is_Some (pending (conn s) !! id) /\ id <> heartbeat_id (conn s)) }.

Lemma start_counting honest : counting_ok honest start.
Proof.
  constructor; cbn [start conn init failed pending heartbeat_id application_pending unsent].
  - done.
  - rewrite map_size_empty. cbn. lia.
  - done.
  - intros _. split_and!; [done|done|]. intros _ id Hid. by apply not_elem_of_empty in Hid.
Qed.

Lemma size_delete_le {A} (m : gmap Z A) i : (size (delete i m) <= size m)%nat.
Proof. rewrite map_size_delete. destruct (m !! i); [apply Nat.le_pred_l|done]. Qed.

Lemma size_delete_lt {A} (m : gmap Z A) i : is_Some (m !! i) -> S (size (delete i m)) = size m.
Proof.
  intros [x Hx]. rewrite map_size_delete, Hx. assert (size m <> 0)%nat; [|lia].
  intros Hz. apply map_size_empty_inv in Hz. by rewrite Hz, lookup_empty in Hx.
Qed.

Lemma register_counting honest s op w id c : is_u64 (next_request_id (conn s)) ->
  counting_ok honest s -> register op (conn s) = Some (w, id, c) ->
  counting_ok honest
    (Sys c (receiving s) (failing s) ({[id]} ∪ unsent s) (cancelled s) (ids s ++ [id]) (log s)).
Proof.
  intros Hn [Hf Hs Hz Hh] Hr. unfold register in Hr.
  destruct (failed (conn s)) eqn:Hfl; [done|]. destruct (1024 <=? _)%nat eqn:Hsz; [done|].
  cbn [orb] in Hr. apply Nat.leb_gt in Hsz.
  destruct (insert_waiter op (conn s)) as [[[w' id'] c']|] eqn:E; [|done].
  destruct (insert_waiter_shape _ _ _ _ _ Hn E) as (_ & Hid & Hnone & next & _ & ->).
  injection Hr as -> -> <-.
  constructor; cbn [conn failed pending heartbeat_id application_pending set_application unsent].
  - congruence.
  - rewrite map_size_insert_None by done. case_if; lia.
  - by rewrite lookup_insert_ne.
  - intros Ht. destruct (Hh Ht) as (Happ & Hhb & Huns).
    assert (id <> heartbeat_id (conn s)) as Hne.
    { intros ->. destruct (Hhb Hid) as [? Hx]. congruence. }
    split_and!.
    + rewrite Happ. unfold application_requests. cbn [pending heartbeat_id set_application].
      rewrite delete_insert_ne by done. rewrite map_size_insert_None; [done|].
      by rewrite lookup_delete_ne.
    + intros Hnz. rewrite lookup_insert_ne by done. by apply Hhb.
    + intros _ id2 [->%elem_of_singleton|Hin]%elem_of_union.
      * by rewrite lookup_insert_eq.
      * destruct (Huns eq_refl id2 Hin) as [[x Hx] ?]. split; [|done].
        rewrite lookup_insert_ne by congruence. by eexists.
Qed.

Lemma ping_counting honest s w id c : is_u64 (next_request_id (conn s)) ->
  counting_ok honest s -> ping (conn s) = Some (w, id, c) ->
  counting_ok honest
    (Sys c (receiving s) (failing s) (unsent s) (cancelled s) (ids s ++ [id]) (log s)).
Proof.
  intros Hn [Hf Hs Hz Hh] Hr. unfold ping in Hr.
  destruct (stopping (conn s) || failed (conn s) || negb (heartbeat_enabled (conn s))
            || (application_pending (conn s) =? 0)%nat || negb (heartbeat_id (conn s) =? 0)) eqn:G;
    [done|]. bool_hyps. match goal with H : heartbeat_id (conn s) = 0 |- _ => rename H into Hhb0 end.
  destruct (insert_waiter Ping (conn s)) as [[[w' id'] c']|] eqn:E; [|done].
  destruct (insert_waiter_shape _ _ _ _ _ Hn E) as (_ & Hid & Hnone & next & _ & ->).
  injection Hr as -> -> <-. rewrite Hhb0 in *.
  constructor; cbn [conn failed pending heartbeat_id application_pending set_heartbeat unsent].
  - congruence.
  - rewrite map_size_insert_None by done. rewrite (proj2 (Z.eqb_neq id 0) Hid). cbn in Hs. lia.
  - by rewrite lookup_insert_ne.
  - intros Ht. destruct (Hh Ht) as (Happ & _ & Huns). split_and!.
    + rewrite Happ. unfold application_requests. cbn [pending heartbeat_id set_heartbeat].
      rewrite Hhb0, delete_insert_eq, !delete_id by done. done.
    + intros _. rewrite lookup_insert_eq. by eexists.
    + intros Hfl id2 Hin. destruct (Huns Hfl id2 Hin) as [[x Hx] ?].
      assert (id2 <> id) by congruence. split; [|done]. rewrite lookup_insert_ne by done. by eexists.
Qed.

Lemma cancel_counting honest s id : counting_ok honest s -> id ∈ unsent s ->
  counting_ok honest
    (Sys (cancel id (conn s)) (receiving s) (failing s) (unsent s ∖ {[id]})
       (match pending (conn s) !! id with Some w => [w] | None => [] end ++ cancelled s) (ids s) (log s)).
Proof.
  intros [Hf Hs Hz Hh] Hin. unfold cancel.
  constructor; cbn [conn failed pending heartbeat_id application_pending set_application set_pending unsent].
  - intros Hfl. destruct (Hf Hfl) as (-> & -> & ->). split_and!; [apply delete_empty|done|done].
  - pose proof (size_delete_le (pending (conn s)) id). lia.
  - by apply lookup_delete_None; right.
  - intros Ht. destruct (Hh Ht) as (Happ & Hhb & Huns). destruct (failed (conn s)) eqn:Hfl.
    + destruct (Hf eq_refl) as (Hp & Ha & H0). rewrite Hp, Ha, H0. split_and!; done.
    + destruct (Huns eq_refl id Hin) as [Hsome Hne]. split_and!.
      * rewrite Happ. unfold application_requests. cbn [pending heartbeat_id set_application set_pending].
        rewrite delete_delete. rewrite <- (size_delete_lt (delete (heartbeat_id (conn s)) _) id); [done|].
        by rewrite lookup_delete_ne.
      * intros Hnz. rewrite lookup_delete_ne by done. by apply Hhb.
      * intros _ id2 [Hin2 Hn2]%elem_of_difference. rewrite elem_of_singleton in Hn2.
        rewrite lookup_delete_ne by done. by apply Huns.
Qed.

Lemma receive_counting honest s id op payload w c : counting_ok honest s ->
  (honest = true -> id ∉ unsent s) -> claim id op (conn s) = Some (w, c) ->
  counting_ok honest
    (Sys c (Some (w, payload)) (failing s) (unsent s) (cancelled s) (ids s) (log s ++ [(id, op, payload)])).
Proof.
  intros [Hf Hs Hz Hh] Hhon Hc. apply claim_shape in Hc as (p & Hl & _ & _ & Hid & ->).
  assert (is_Some (pending (conn s) !! id)) as Hsome by (by eexists).
  assert (failed (conn s) = false) as Hfl.
  { destruct (failed (conn s)); [|done]. destruct (Hf eq_refl) as (Hp & _). by rewrite Hp in Hl. }
  pose proof (size_delete_lt _ _ Hsome) as Hsz.
  destruct (Z.eqb_spec id (heartbeat_id (conn s))) as [Heq|Hne].
  - constructor; cbn [conn failed pending heartbeat_id application_pending set_heartbeat set_pending unsent].
    + congruence.
    + rewrite (proj2 (Z.eqb_neq (heartbeat_id (conn s)) 0)) in Hs by congruence. cbn. lia.
    + apply lookup_delete_None. by right.
    + intros Ht. destruct (Hh Ht) as (Happ & Hhb & Huns). split_and!; [|done|].
      * rewrite Happ. unfold application_requests. cbn [pending heartbeat_id set_heartbeat set_pending].
        rewrite Heq, (delete_id _ 0); [done|]. apply lookup_delete_None. by right.
      * intros _ id2 Hin. destruct (Huns Hfl id2 Hin) as [[x Hx] Hn2].
        assert (id2 <> 0) by congruence. rewrite lookup_delete_ne by congruence. by split; [eexists|].
  - constructor; cbn [conn failed pending heartbeat_id application_pending set_application set_pending unsent].
    + congruence.
    + lia.
    + apply lookup_delete_None. by right.
    + intros Ht. destruct (Hh Ht) as (Happ & Hhb & Huns). split_and!.
      * rewrite Happ. unfold application_requests. cbn [pending heartbeat_id set_application set_pending].
        rewrite delete_delete. rewrite <- (size_delete_lt (delete (heartbeat_id (conn s)) _) id); [done|].
        by rewrite lookup_delete_ne.
      * intros Hnz. rewrite lookup_delete_ne by done. by apply Hhb.
      * intros _ id2 Hin. destruct (Huns Hfl id2 Hin) as [Hx Hn2]. split; [|done].
        rewrite lookup_delete_ne; [done|]. intros ->. by apply (Hhon Ht).
Qed.

Lemma fail_counting honest s ws c : counting_ok honest s -> fail_all (conn s) = (ws, c) ->
  counting_ok honest
    (Sys c (receiving s) (failing s ++ ws) (unsent s) (cancelled s) (ids s) (log s)).
Proof.
  intros Hc Hf. unfold fail_all in Hf. destruct (failed (conn s)).
  - injection Hf as <- <-. rewrite app_nil_r. by destruct s, Hc; constructor.
  - injection Hf as <- <-. constructor; cbn [conn failed pending heartbeat_id application_pending unsent].
    + done.
    + rewrite map_size_empty. cbn. lia.
    + apply lookup_empty.
    + intros _. split_and!; [|done|done]. unfold application_requests. cbn. by rewrite delete_empty, map_size_empty.
Qed.

(** Steps that only touch the waiters or the unsent requests. *)
Lemma counting_frame honest s s' : counting_ok honest s ->
  failed (conn s') = failed (conn s) -> pending (conn s') = pending (conn s) ->
  heartbeat_id (conn s') = heartbeat_id (conn s) ->
  application_pending (conn s') = application_pending (conn s) -> unsent s' ⊆ unsent s ->
  counting_ok honest s'.
Proof.
  intros [Hf Hs Hz Hh] Ef Ep Eh Ea Hu. constructor; unfold application_requests in *;
    rewrite ?Ef, ?Ep, ?Eh, ?Ea; try done.
  intros Ht. destruct (Hh Ht) as (? & ? & Huns). split_and!; [done|done|].
  intros Hfl id Hin. by apply Huns, Hu.
Qed.

Lemma step_counting honest s l s' : delivery_ok s -> counting_ok honest s -> step honest s l s' ->
  counting_ok honest s'.
Proof.
  intros Hd Hc Hs. pose proof (d_next s Hd) as Hn.
  destruct Hs as [s op w id c Hr|s w id c Hr|s|s id Hid|s id Hid|s id op payload w c Hr Hhon Hcl
    |s w payload Hr|s ws c Hf|s w ws Hf].
  - by eapply register_counting.
  - by eapply ping_counting.
  - by eapply counting_frame.
  - eapply counting_frame; try done. cbn. set_solver.
  - by apply cancel_counting.
  - by eapply receive_counting.
  - eapply counting_frame; try done; cbn; unfold deliver; by case_match.
  - by apply fail_counting.
  - eapply counting_frame; try done; cbn; unfold notify_failed; by case_match.
Qed.

Lemma connection_ok honest s : reachable honest s -> delivery_ok s /\ counting_ok honest s.
Proof.
  intros [ls Hs].
  apply (steps_invariant (step honest) (fun s => delivery_ok s /\ counting_ok honest s) start ls s);
    [|clear|done].
  - split; [apply start_delivery|apply start_counting].
  - intros a l b [Hd Hc] Hs. split; [by eapply step_delivery|by eapply step_counting].
Qed.

(** C11: No caller hangs: in every reachable state each call that has no result
    yet is held by exactly one of the table of pending requests, the receiver
    about to deliver, [fail_all] about to notify, or has given up by itself; so
    once the connection has failed and those two have finished, every call that
    did not give up has its result. *)
Theorem no_caller_hangs s :
  reachable false s ->
  NoDup (holders s) /\
  (forall w, outcome w (conn s) = None -> (w < length (waiters (conn s)))%nat -> w ∈ holders s) /\
  (failed (conn s) = true -> receiving s = None -> failing s = [] ->
   forall w, (w < length (waiters (conn s)))%nat -> w ∉ cancelled s -> is_Some (outcome w (conn s))).
Proof.
  intros Hr. apply connection_ok in Hr as [Hr Hcnt]. pose proof (d_holders s Hr) as Hh.
  assert (forall w, outcome w (conn s) = None -> (w < length (waiters (conn s)))%nat -> w ∈ holders s)
    as Hown.
  { intros w Ho Hl. rewrite Hh, elem_undone. destruct (lookup_lt_is_Some_2 _ _ Hl) as [p Hp].
    exists p. split; [done|]. unfold outcome in Ho. rewrite Hp in Ho. by destruct (done p). }
  split_and!; [rewrite Hh; apply NoDup_undone|done|].
  intros Hf Hrec Hfl w Hl Hc. destruct (c_failed _ s Hcnt Hf) as (Hp & _).
  destruct (outcome w (conn s)) eqn:E; [done|]. exfalso. apply Hc.
  specialize (Hown w E Hl). unfold holders in Hown. by rewrite Hp, Hrec, Hfl in Hown.
Qed.

(** With a peer that answers only what it was sent, the counter the watchdog
    goes by is the number of application requests in flight, of which there are
    at most 1024; so an idle connection is never pinged and never failed by the
    watchdog, however late a pong is. *)
Theorem idle_connection_survives s :
  reachable true s ->
  application_pending (conn s) = application_requests (conn s) /\
  (size (pending (conn s)) <= 1025)%nat /\
  (application_requests (conn s) = 0%nat ->
     ping (conn s) = None /\ late_verdict (conn s) <> Fail /\
     forall completed id, pong_verdict completed id (conn s) <> Fail).
Proof.
  intros Hr. apply connection_ok in Hr as [_ Hc]. destruct (c_honest _ s Hc eq_refl) as (Ha & _).
  split_and!; [done| |].
  - pose proof (c_size _ s Hc). destruct (heartbeat_id (conn s) =? 0); lia.
  - intros Hz. rewrite Hz in Ha. unfold ping, late_verdict, pong_verdict. rewrite Ha. cbn [Nat.eqb negb].
    split_and!.
    + by rewrite orb_true_r.
    + done.
    + intros completed id. rewrite !andb_false_r. by destruct (negb completed && _).
Qed.

End WithPing.

(** ** Witnesses: one request of opcode 7, answered. *)
Section Witnesses.

Definition answer : list byte := le_bytes 4 0 ++ [x2a].

Definition registered : t := mk [mkPending 7 [] false false] {[ 1 := 0%nat ]} 2 false false false 1 0.

Definition answered : system :=
  Sys (mk [mkPending 7 answer true true] ∅ 2 false false false 0 0) None [] ∅ [] [1] [(1, 7, answer)].

Lemma answered_reachable honest : reachable 3 honest answered.
Proof.
  set (s1 := Sys registered None [] {[ 1 ]} [] [1] []).
  set (s2 := Sys registered None [] ∅ [] [1] []).
  set (s3 := Sys (mk [mkPending 7 [] false false] ∅ 2 false false false 0 0) (Some (0%nat, answer)) [] ∅
               [] [1] [(1, 7, answer)]).
  exists ([] ++ [LRegister 0] ++ [LSend 1] ++ [LReceive 1 7 answer] ++ [LDeliver 0]).
  rewrite !app_assoc. apply steps_snoc with s3; [apply steps_snoc with s2; [apply steps_snoc with s1;
    [apply steps_snoc with start; [constructor|]|]|]|].
  - assert (s1 = Sys registered (receiving start) (failing start) ({[1]} ∪ unsent start) (cancelled start)
                   (ids start ++ [1]) (log start)) as ->.
    { unfold s1. cbn. by rewrite (right_id_L ∅ (∪)). }
    by apply (step_register 3 honest start 7 0 1 registered).
  - assert (s2 = Sys (conn s1) (receiving s1) (failing s1) (unsent s1 ∖ {[1]}) (cancelled s1) (ids s1)
                   (log s1)) as -> by done.
    apply step_send. set_solver.
  - by apply (step_receive 3 honest s2 1 7 answer 0).
  - by apply (step_deliver 3 honest s3 0 answer).
Qed.

Lemma reply_correlated_witness :
  exists id op, ids answered !! 0%nat = Some id /\
    opcode <$> waiters (conn answered) !! 0%nat = Some op /\ (id, op, answer) ∈ log answered.
Proof.
  destruct (reply_correlated 3 answered 0 answer (answered_reachable false)) as (id & op & ? & ? & ? & _);
    [by vm_compute|]. by exists id, op.
Defined.

Lemma no_caller_hangs_witness : NoDup (holders answered).
Proof. apply (no_caller_hangs 3 answered (answered_reachable false)). Defined.

Lemma idle_connection_survives_witness : ping 3 (conn answered) = None.
Proof.
  apply (proj2 (proj2 (idle_connection_survives 3 answered (answered_reachable true)))). by vm_compute.
Defined.

End Witnesses.
End Connection.
