(* ===== verification/HostMemory.v ===== *)
(** Mapped memory on the client: [src/client/remote_objects.cpp] (ranges,
    [flush_mapped], [download_mapped], [publish_coherent_mapped],
    [acquire_coherent_mapped]) and the range checks of [src/client/memory.cpp].

    A mapping has a shadow, the bytes the application sees, and, when its
    coherence is emulated, a baseline: the bytes last exchanged with the server.
    The server is the interface [Remote] and its law [MappedServer]. *)

From stdpp Require Import list gmap.
From S2P Require Import Prelude Wire.

(** ** Bytes of an allocation *)

(** [data] written at [off]. *)
Definition patch (off : nat) (data mem : list byte) : list byte :=
  take off mem ++ data ++ drop (off + length data) mem.

Lemma length_patch off data mem : (off + length data <= length mem)%nat ->
  length (patch off data mem) = length mem.
Proof. intros H. unfold patch. rewrite !length_app, length_take, length_drop. lia. Qed.

Lemma lookup_patch off data mem i : (off + length data <= length mem)%nat ->
  patch off data mem !! i =
  if bool_decide (off <= i < off + length data)%nat then data !! (i - off)%nat else mem !! i.
Proof.
  intros H. unfold patch. destruct (decide (i < off)%nat) as [Hlt|Hge].
  - rewrite bool_decide_false by lia. rewrite lookup_app_l by (rewrite length_take; lia).
    by rewrite lookup_take_lt.
  - rewrite lookup_app_r by (rewrite length_take; lia). rewrite length_take, Nat.min_l by lia.
    destruct (decide (i < off + length data)%nat) as [Hin|Hout].
    + rewrite bool_decide_true by lia. by rewrite lookup_app_l by lia.
    + rewrite bool_decide_false by lia. rewrite lookup_app_r by lia. rewrite lookup_drop.
      f_equal. lia.
Qed.

(** The bytes of a window. *)
Definition window (off len : nat) (mem : list byte) : list byte := take len (drop off mem).

Lemma length_window off len mem : (off + len <= length mem)%nat -> length (window off len mem) = len.
Proof. intros H. unfold window. rewrite length_take, length_drop. lia. Qed.

Lemma lookup_window off len mem i : (i < len)%nat -> window off len mem !! i = mem !! (off + i)%nat.
Proof. intros H. unfold window. by rewrite lookup_take_lt, lookup_drop by done. Qed.

(** ** Ranges *)

Definition VK_WHOLE_SIZE : Z := u64_max.
Definition VK_SUCCESS : Z := 0.
Definition VK_ERROR_DEVICE_LOST : Z := -4.

(** The members the code below uses.

    remote_objects.hpp:73-79. *)
Record MemoryAllocation := mkAllocation {
  ma_size : Z; ma_property_flags : Z; ma_non_coherent_atom_size : Z; ma_emulated_coherent : bool }.

(** [shadow] is the bytes it points to, [mr_size] of them.

    remote_objects.hpp:83-92. *)
Record MappedRange := mkRange {
  memory_id : Z; mr_offset : Z; mr_size : Z; shadow : list byte; mr_emulated_coherent : bool;
  transfer_ready : bool; baseline : list byte }.

(** [VkMappedMemoryRange]; the memory is its id. *)
Record VkMappedMemoryRange := mkRequest { rq_memory : Z; rq_offset : Z; rq_size : Z }.

(** The position of the mapping, the offset and the size.

    remote_objects.cpp:37-54. *)
Fixpoint resolve_range (i : nat) (mapped : list MappedRange) (requested : VkMappedMemoryRange) :
    option (nat * Z * Z) :=
  match mapped with
  | [] => None
  | candidate :: rest =>
      if negb (memory_id candidate =? rq_memory requested) then resolve_range (S i) rest requested
      else if rq_offset requested <? mr_offset candidate then None
      else
        let local := rq_offset requested - mr_offset candidate in
        if mr_size candidate <? local then None
        else
          let available := mr_size candidate - local in
          let resolved := if rq_size requested =? VK_WHOLE_SIZE then available
                          else rq_size requested in
          if available <? resolved then None else Some (i, rq_offset requested, resolved)
  end.

(** memory.cpp:33-44. *)
Definition resolve_allocation_range (allocation_size offset requested : Z) : option Z :=
  if allocation_size <=? offset then None
  else
    let available := allocation_size - offset in
    if requested =? VK_WHOLE_SIZE then Some available
    else if (requested =? 0) || (available <? requested) then None
    else Some requested.

(** One range of [validate_explicit_ranges]; 64-bit additions wrap around.

    memory.cpp:49-60. *)
Definition explicit_range_ok (memories : gmap Z MemoryAllocation) (r : VkMappedMemoryRange) : bool :=
  match memories !! rq_memory r with
  | None => false
  | Some a =>
      match resolve_allocation_range (ma_size a) (rq_offset r) (rq_size r) with
      | None => false
      | Some size =>
          if ma_emulated_coherent a then true
          else
            let atom := ma_non_coherent_atom_size a in
            if (atom =? 0) || negb (rq_offset r mod atom =? 0) then false
            else
              let fin := wrap64 (rq_offset r + size) in
              (fin =? ma_size a) || (size mod atom =? 0)
      end
  end.

(** memory.cpp:46-62. *)
Definition validate_explicit_ranges (memories : gmap Z MemoryAllocation)
    (ranges : list VkMappedMemoryRange) : bool :=
  forallb (explicit_range_ok memories) ranges.

(** *** The address of a shadow *)

(** The shadow pointer of [MapMemory] in the block [base]; [alignment] is a
    power of two.

    memory.cpp:148-151. *)
Definition shadow_address (base offset alignment : Z) : Z :=
  let residue := Z.land offset (alignment - 1) in
  let adjustment := Z.land (wrap64 (residue - base)) (alignment - 1) in
  base + adjustment.

(** ** Transfers *)

(** remote_objects.cpp:25-25. *)
Definition kMaxMappedChunk : Z := 64 * 1024 * 1024 - 64.

(** What [Connection::round_trip] does to the rest of the world: [None] when it
    returns false, else the reply. *)
Class Remote := {
  world : Type;
  FlushMappedMemory : Z;
  DownloadMappedMemory : Z;
  round_trip : Z -> list byte -> world -> option (list byte) * world }.

Section Transfers.
Context `{Remote}.
(** [remote_id] of the device. *)
Variable remote_id : Z.

(** remote_objects.cpp:329-335. *)
Definition flush_request (memory offset : Z) (data : list byte) : list byte :=
  Writer.handle remote_id ++ Writer.handle memory ++ Writer.u64 (wrap64 offset) ++
  Writer.u64 (Z.of_nat (length data)) ++ Writer.bytes data.

(** [None]: the device is lost; otherwise the result of the server.

    remote_objects.cpp:337-344. *)
Definition flush_reply (reply : option (list byte)) : option Z :=
  match reply with
  | None => None
  | Some bs =>
      let (status, r) := Reader.u32 (Reader.make bs) in
      if negb (status =? status_code Ok) then None
      else let (result, r) := Reader.i32 r in
           if Reader.ok r then Some result else None
  end.

Definition flush_chunk (memory offset : Z) (data : list byte) (w : world) : option Z * world :=
  let (reply, w) := round_trip FlushMappedMemory (flush_request memory offset data) w in
  (flush_reply reply, w).

(** remote_objects.cpp:451-455. *)
Definition download_request (memory offset size : Z) : list byte :=
  Writer.handle remote_id ++ Writer.handle memory ++ Writer.u64 (wrap64 offset) ++ Writer.u64 size.

(** The bytes of the chunk, or the error the call returns.

    remote_objects.cpp:457-467. *)
Definition download_reply (size : Z) (reply : option (list byte)) : Z + list byte :=
  match reply with
  | None => inl VK_ERROR_DEVICE_LOST
  | Some bs =>
      let (status, r) := Reader.u32 (Reader.make bs) in
      if negb (status =? status_code Ok) then inl VK_ERROR_DEVICE_LOST
      else
        let (result, r) := Reader.i32 r in
        if negb (Reader.ok r) then inl VK_ERROR_DEVICE_LOST
        else if negb (result =? VK_SUCCESS) then inl result
        else
          let (bytes, r) := Reader.bytes size r in
          match bytes with
          | None => inl VK_ERROR_DEVICE_LOST
          | Some bytes =>
              if negb (Z.of_nat (length bytes) =? size) || negb (Reader.ok r)
              then inl VK_ERROR_DEVICE_LOST else inr bytes
          end
  end.

Definition download_chunk (memory offset size : Z) (w : world) : (Z + list byte) * world :=
  let (reply, w) := round_trip DownloadMappedMemory (download_request memory offset size) w in
  (download_reply size reply, w).

(** The size of the next chunk of an explicit transfer; chunks that do not end
    the range are multiples of the atom size.

    remote_objects.cpp:321-328. *)
Definition next_chunk (memories : gmap Z MemoryAllocation) (memory left : Z) : option Z :=
  let chunk := Z.min kMaxMappedChunk left in
  if chunk <? left then
    match memories !! memory with
    | None => None
    | Some a =>
        let chunk := chunk - chunk mod ma_non_coherent_atom_size a in
        if chunk =? 0 then None else Some chunk
    end
  else Some chunk.

(** The loop over one range; [left] bytes of [m]'s shadow from [local] on.  One
    unit of fuel per chunk.

    remote_objects.cpp:320-346. *)
Fixpoint flush_loop (fuel : nat) (memories : gmap Z MemoryAllocation) (m : MappedRange)
    (local left : Z) (w : world) : Z * world :=
  match fuel with
  | O => (VK_ERROR_DEVICE_LOST, w)
  | S fuel =>
      if 0 <? left then
        match next_chunk memories (memory_id m) left with
        | None => (VK_ERROR_DEVICE_LOST, w)
        | Some chunk =>
            let data := window (Z.to_nat local) (Z.to_nat chunk) (shadow m) in
            let (result, w) := flush_chunk (memory_id m) (mr_offset m + local) data w in
            match result with
            | None => (VK_ERROR_DEVICE_LOST, w)
            | Some r => if negb (r =? VK_SUCCESS) then (r, w)
                        else flush_loop fuel memories m (local + chunk) (left - chunk) w
            end
        end
      else (VK_SUCCESS, w)
  end.

(** Enough chunks: each moves at least one byte. *)
Definition chunk_fuel (size : Z) : nat := S (Z.to_nat size).

(** remote_objects.cpp:312-349. *)
Fixpoint flush_mapped (memories : gmap Z MemoryAllocation) (mapped : list MappedRange)
    (ranges : list VkMappedMemoryRange) (w : world) : Z * world :=
  match ranges with
  | [] => (VK_SUCCESS, w)
  | r :: ranges =>
      match resolve_range 0 mapped r with
      | None => (VK_ERROR_DEVICE_LOST, w)
      | Some (i, offset, size) =>
          match mapped !! i with
          | None => (VK_ERROR_DEVICE_LOST, w)
          | Some m =>
              let (result, w) := flush_loop (chunk_fuel size) memories m (offset - mr_offset m) size w in
              if negb (result =? VK_SUCCESS) then (result, w)
              else flush_mapped memories mapped ranges w
          end
      end
  end.

(** [std::memcpy] of a downloaded chunk into the shadow and, for an emulated
    coherent mapping, the baseline.

    remote_objects.cpp:468-472. *)
Definition store_chunk (m : MappedRange) (local : Z) (bytes : list byte) : MappedRange :=
  mkRange (memory_id m) (mr_offset m) (mr_size m) (patch (Z.to_nat local) bytes (shadow m))
    (mr_emulated_coherent m) (transfer_ready m)
    (if mr_emulated_coherent m && (Z.of_nat (length (baseline m)) =? mr_size m)
     then patch (Z.to_nat local) bytes (baseline m) else baseline m).

(** remote_objects.cpp:442-474. *)
Fixpoint download_loop (fuel : nat) (memories : gmap Z MemoryAllocation) (m : MappedRange)
    (local left : Z) (w : world) : Z * MappedRange * world :=
  match fuel with
  | O => (VK_ERROR_DEVICE_LOST, m, w)
  | S fuel =>
      if 0 <? left then
        match next_chunk memories (memory_id m) left with
        | None => (VK_ERROR_DEVICE_LOST, m, w)
        | Some chunk =>
            let (result, w) := download_chunk (memory_id m) (mr_offset m + local) chunk w in
            match result with
            | inl e => (e, m, w)
            | inr bytes =>
                download_loop fuel memories (store_chunk m local bytes) (local + chunk) (left - chunk) w
            end
        end
      else (VK_SUCCESS, m, w)
  end.

(** remote_objects.cpp:434-477. *)
Fixpoint download_mapped (memories : gmap Z MemoryAllocation) (mapped : list MappedRange)
    (ranges : list VkMappedMemoryRange) (w : world) : Z * list MappedRange * world :=
  match ranges with
  | [] => (VK_SUCCESS, mapped, w)
  | r :: ranges =>
      match resolve_range 0 mapped r with
      | None => (VK_ERROR_DEVICE_LOST, mapped, w)
      | Some (i, offset, size) =>
          match mapped !! i with
          | None => (VK_ERROR_DEVICE_LOST, mapped, w)
          | Some m =>
              let '(result, m, w) :=
                download_loop (chunk_fuel size) memories m (offset - mr_offset m) size w in
              let mapped := <[i := m]> mapped in
              if negb (result =? VK_SUCCESS) then (result, mapped, w)
              else download_mapped memories mapped ranges w
          end
      end
  end.

(** ** Emulated coherence *)

(** *** Scanning *)

(** [while (p(i)) ++i]. *)
Fixpoint scan (fuel : nat) (p : nat -> bool) (i : nat) : nat :=
  match fuel with
  | O => i
  | S fuel => if p i then scan fuel p (S i) else i
  end.

Section Scan.
Variables s b : list byte.
Let n := length s.

Definition same (i : nat) : bool := bool_decide (s !! i = b !! i).

(** remote_objects.cpp:358-358. *)
Definition next_changed (i : nat) : nat := scan n (fun i => (i <? n)%nat && same i) i.

(** remote_objects.cpp:363-365. *)
Definition gap_end (g : nat) : nat :=
  scan n (fun i => (i <? n)%nat && same i && (i - g <? 4096)%nat) g.

(** remote_objects.cpp:370-370. *)
Definition next_same (i : nat) : nat := scan n (fun i => (i <? n)%nat && negb (same i)) i.

(** The end of the run that starts before [e].

    remote_objects.cpp:360-371. *)
Fixpoint run_end (fuel : nat) (e : nat) : nat :=
  match fuel with
  | O => e
  | S fuel =>
      if (e <? n)%nat then
        let e' := gap_end e in
        if (e' =? n)%nat || (e' - e =? 4096)%nat then e else run_end fuel (next_same e')
      else e
  end.

End Scan.

(** *** Publishing *)

(** One run: the bytes of [m]'s shadow from [first] to [last].

    remote_objects.cpp:372-388. *)
Fixpoint publish_run (fuel : nat) (m : MappedRange) (first last : nat) (w : world) :
    bool * MappedRange * world :=
  match fuel with
  | O => (false, m, w)
  | S fuel =>
      if (first <? last)%nat then
        let chunk := Z.to_nat (Z.min kMaxMappedChunk (Z.of_nat (last - first))) in
        let data := window first chunk (shadow m) in
        let (result, w) := flush_chunk (memory_id m) (mr_offset m + Z.of_nat first) data w in
        match result with
        | Some r =>
            if r =? VK_SUCCESS then
              publish_run fuel
                (mkRange (memory_id m) (mr_offset m) (mr_size m) (shadow m) (mr_emulated_coherent m)
                   (transfer_ready m) (patch first data (baseline m)))
                (first + chunk) last w
            else (false, m, w)
        | None => (false, m, w)
        end
      else (true, m, w)
  end.

(** The runs of one mapping, from [first] on.

    remote_objects.cpp:356-390. *)
Fixpoint publish_range (fuel : nat) (m : MappedRange) (first : nat) (w : world) :
    bool * MappedRange * world :=
  match fuel with
  | O => (false, m, w)
  | S fuel =>
      let n := length (shadow m) in
      if (first <? n)%nat then
        let first := next_changed (shadow m) (baseline m) first in
        if (first =? n)%nat then (true, m, w)
        else
          let last := run_end (shadow m) (baseline m) n (S first) in
          let '(ok, m, w) := publish_run (S (last - first)) m first last w in
          if ok then publish_range fuel m last w else (false, m, w)
      else (true, m, w)
  end.

(** remote_objects.cpp:351-394. *)
Fixpoint publish_coherent_mapped (mapped : list MappedRange) (w : world) :
    bool * list MappedRange * world :=
  match mapped with
  | [] => (true, [], w)
  | m :: rest =>
      if negb (mr_emulated_coherent m) || negb (transfer_ready m) then
        let '(ok, rest, w) := publish_coherent_mapped rest w in (ok, m :: rest, w)
      else
        let '(ok, m, w) := publish_range (S (length (shadow m))) m 0 w in
        if ok then let '(ok, rest, w) := publish_coherent_mapped rest w in (ok, m :: rest, w)
        else (false, m :: rest, w)
  end.

(** *** Acquiring *)

(** The bytes the host has not touched take the device's value; the baseline
    always does.

    remote_objects.cpp:421-427. *)
Fixpoint merge_bytes (s b bytes : list byte) : list byte :=
  match s, b, bytes with
  | x :: s, y :: b, d :: bytes => (if decide (x = y) then d else x) :: merge_bytes s b bytes
  | s, _, _ => s
  end.

Definition merge_chunk (m : MappedRange) (base : nat) (bytes : list byte) : MappedRange :=
  mkRange (memory_id m) (mr_offset m) (mr_size m)
    (patch base (merge_bytes (window base (length bytes) (shadow m))
                             (window base (length bytes) (baseline m)) bytes) (shadow m))
    (mr_emulated_coherent m) (transfer_ready m) (patch base bytes (baseline m)).

(** remote_objects.cpp:402-430. *)
Fixpoint acquire_range (fuel : nat) (m : MappedRange) (done : nat) (w : world) :
    bool * MappedRange * world :=
  match fuel with
  | O => (false, m, w)
  | S fuel =>
      let n := length (shadow m) in
      if (done <? n)%nat then
        let chunk := Z.min kMaxMappedChunk (Z.of_nat (n - done)) in
        let (result, w) := download_chunk (memory_id m) (mr_offset m + Z.of_nat done) chunk w in
        match result with
        | inl _ => (false, m, w)
        | inr bytes => acquire_range fuel (merge_chunk m done bytes) (done + Z.to_nat chunk) w
        end
      else (true, m, w)
  end.

(** [None] for [memory_ids]: every mapping.

    remote_objects.cpp:396-432. *)
Fixpoint acquire_coherent_mapped (memory_ids : option (gset Z)) (mapped : list MappedRange) (w : world) :
    bool * list MappedRange * world :=
  match mapped with
  | [] => (true, [], w)
  | m :: rest =>
      if negb (mr_emulated_coherent m) || negb (transfer_ready m)
         || match memory_ids with Some ids => bool_decide (memory_id m ∉ ids) | None => false end
      then let '(ok, rest, w) := acquire_coherent_mapped memory_ids rest w in (ok, m :: rest, w)
      else
        let '(ok, m, w) := acquire_range (S (length (shadow m))) m 0 w in
        if ok then let '(ok, rest, w) := acquire_coherent_mapped memory_ids rest w in (ok, m :: rest, w)
        else (false, m :: rest, w)
  end.

End Transfers.

(** ** Mapping and unmapping *)

Definition VK_MEMORY_PROPERTY_HOST_VISIBLE_BIT : Z := 2.
Definition VK_ERROR_OUT_OF_HOST_MEMORY : Z := -1.
Definition VK_ERROR_MEMORY_MAP_FAILED : Z := -5.
Definition alignof_pointer : Z := 8.

(** memory.cpp:218-224. *)
Definition remove_first (memory : Z) : list MappedRange -> list MappedRange :=
  fix go mapped :=
    match mapped with
    | [] => []
    | m :: rest => if memory_id m =? memory then rest else m :: go rest
    end.

Section Mapping.
Context `{Remote}.
Variable remote_id : Z.

(** The block [std::malloc] returns: its address and its bytes. *)
Variable malloc : Z -> option (Z * list byte).

(** The mapping once its first download has arrived.

    memory.cpp:184-194. *)
Fixpoint make_ready (memory : Z) (mapped : list MappedRange) : list MappedRange :=
  match mapped with
  | [] => []
  | m :: rest =>
      if memory_id m =? memory
      then mkRange (memory_id m) (mr_offset m) (mr_size m) (shadow m) (mr_emulated_coherent m) true
             (shadow m) :: rest
      else m :: make_ready memory rest
  end.

(** [*ppData] on success; the device's mappings.

    memory.cpp:118-198. *)
Definition MapMemory (memories : gmap Z MemoryAllocation) (map_alignment : Z) (mapped : list MappedRange)
    (memory offset size : Z) (w : world) : (Z * option Z) * list MappedRange * world :=
  let fail e := ((e, None), mapped, w) in
  if memory =? 0 then fail VK_ERROR_MEMORY_MAP_FAILED
  else match memories !! memory with
  | None => fail VK_ERROR_MEMORY_MAP_FAILED
  | Some a =>
      if Z.land (ma_property_flags a) VK_MEMORY_PROPERTY_HOST_VISIBLE_BIT =? 0
      then fail VK_ERROR_MEMORY_MAP_FAILED
      else match resolve_allocation_range (ma_size a) offset size with
      | None => fail VK_ERROR_MEMORY_MAP_FAILED
      | Some real_size =>
          if existsb (fun m => memory_id m =? memory) mapped then fail VK_ERROR_MEMORY_MAP_FAILED
          else
            let emulated := ma_emulated_coherent a in
            let alignment := if alignof_pointer <? map_alignment then map_alignment else alignof_pointer in
            if u64_max - (alignment - 1) <? real_size then fail VK_ERROR_OUT_OF_HOST_MEMORY
            else match malloc (real_size + alignment - 1) with
            | None => fail VK_ERROR_OUT_OF_HOST_MEMORY
            | Some (base, block) =>
                let address := shadow_address base offset alignment in
                let bytes := window (Z.to_nat (address - base)) (Z.to_nat real_size) block in
                let m := mkRange memory offset real_size bytes emulated (negb emulated)
                           (if emulated then replicate (Z.to_nat real_size) x00 else []) in
                let mapped' := mapped ++ [m] in
                if emulated then
                  let '(result, mapped', w') :=
                    download_mapped remote_id memories mapped' [mkRequest memory offset real_size] w in
                  if negb (result =? VK_SUCCESS)
                  then ((VK_ERROR_MEMORY_MAP_FAILED, None), remove_first memory mapped', w')
                  else ((VK_SUCCESS, Some address), make_ready memory mapped', w')
                else ((VK_SUCCESS, Some address), mapped', w)
            end
      end
  end.

(** memory.cpp:200-225. *)
Definition UnmapMemory (memories : gmap Z MemoryAllocation) (mapped : list MappedRange) (memory : Z)
    (w : world) : list MappedRange * world :=
  let w' :=
    match find (fun m => (memory_id m =? memory) && mr_emulated_coherent m) mapped with
    | None => w
    | Some m =>
        if memory =? 0 then w else
        snd (flush_mapped remote_id memories mapped [mkRequest memory (mr_offset m) (mr_size m)] w)
    end in
  (remove_first memory mapped, w').

End Mapping.

(** ** What the server promises *)

(** The bytes of an allocation, and how the two transfers act on them.  Only a
    transfer that reports success is described. *)
Class MappedServer `{Remote} (remote_id : Z) := {
  contents : world -> Z -> option (list byte);
  flush_law : forall memory offset data w mem reply w',
    contents w memory = Some mem -> 0 <= offset -> (0 < length data)%nat ->
    offset + Z.of_nat (length data) <= Z.of_nat (length mem) < 18446744073709551616 ->
    Z.of_nat (length data) <= kMaxMappedChunk ->
    round_trip FlushMappedMemory (flush_request remote_id memory offset data) w = (reply, w') ->
    flush_reply reply = Some VK_SUCCESS ->
    contents w' memory = Some (patch (Z.to_nat offset) data mem) /\
    forall memory', memory' <> memory -> contents w' memory' = contents w memory';
  download_law : forall memory offset size w mem reply w' bytes,
    contents w memory = Some mem -> 0 <= offset -> 0 < size <= kMaxMappedChunk ->
    offset + size <= Z.of_nat (length mem) < 18446744073709551616 ->
    round_trip DownloadMappedMemory (download_request remote_id memory offset size) w = (reply, w') ->
    download_reply size reply = inr bytes ->
    contents w' = contents w /\ bytes = window (Z.to_nat offset) (Z.to_nat size) mem }.

(** ** Lemmas on bytes *)

Lemma window_app off a b mem :
  window off (a + b) mem = window off a mem ++ window (off + a) b mem.
Proof.
  unfold window. rewrite <- drop_drop.
  rewrite <- (take_drop a (take (a + b) (drop off mem))) at 1.
  rewrite take_take, Nat.min_l by lia. f_equal. rewrite skipn_firstn_comm. f_equal. lia.
Qed.

Lemma patch_app off a b mem : (off + length a + length b <= length mem)%nat ->
  patch (off + length a) b (patch off a mem) = patch off (a ++ b) mem.
Proof.
  intros Hl. apply list_eq. intros i.
  rewrite !lookup_patch by (rewrite ?length_patch, ?length_app; lia). rewrite length_app.
  destruct (decide (i < off)%nat); [by rewrite !bool_decide_false by lia|].
  destruct (decide (i < off + length a)%nat).
  { rewrite (bool_decide_false (off + length a <= _ < _)%nat), !bool_decide_true by lia.
    by rewrite lookup_app_l by lia. }
  destruct (decide (i < off + length a + length b)%nat).
  - rewrite !bool_decide_true by lia. rewrite lookup_app_r by lia. f_equal. lia.
  - by rewrite !bool_decide_false by lia.
Qed.

Lemma patch_nil off mem : (off <= length mem)%nat -> patch off [] mem = mem.
Proof. intros. unfold patch. cbn. by rewrite Nat.add_0_r, take_drop. Qed.

Lemma patch_window off len mem : (off + len <= length mem)%nat ->
  patch off (window off len mem) mem = mem.
Proof.
  intros Hl. apply list_eq. intros i. rewrite lookup_patch by (rewrite length_window; lia).
  rewrite length_window by lia. case_bool_decide; [|done]. rewrite lookup_window by lia. f_equal. lia.
Qed.

(** ** Scans *)

Lemma scan_spec fuel p : forall i, let j := scan fuel p i in
  (i <= j <= i + fuel)%nat /\ (forall k, (i <= k < j)%nat -> p k = true) /\
  ((j < i + fuel)%nat -> p j = false).
Proof.
  induction fuel as [|fuel IH]; intros i; cbn [scan]; [split_and!; [lia|lia|lia|lia]|].
  destruct (p i) eqn:E.
  - specialize (IH (S i)). destruct IH as (H1 & H2 & H3). split_and!; [lia|lia| |intros; apply H3; lia].
    intros k Hk. destruct (decide (k = i)) as [->|]; [done|]. apply H2. lia.
  - split_and!; [lia|lia|lia|done].
Qed.

(** A scan that never passes [n] stops where its condition fails. *)
Lemma scan_stops n p i : (i <= n)%nat -> (forall k, p k = true -> (k < n)%nat) ->
  let j := scan n p i in (i <= j <= n)%nat /\ (forall k, (i <= k < j)%nat -> p k = true) /\ p j = false.
Proof.
  intros Hi Hp j. destruct (scan_spec n p i) as (H1 & H2 & H3). fold j in H1, H2, H3.
  assert (j <= n)%nat as Hj.
  { destruct (decide (j = i)) as [|Hne]; [lia|].
    assert (p (j - 1)%nat = true) as Hk by (apply H2; lia). apply Hp in Hk. lia. }
  split_and!; [lia|lia|done|]. destruct (decide (j < i + n)%nat) as [|Hn]; [by apply H3|].
  destruct (p j) eqn:E; [|done]. apply Hp in E. lia.
Qed.

Section ScanFacts.
Variables s b : list byte.

Lemma same_spec i : same s b i = true <-> s !! i = b !! i.
Proof. apply bool_decide_eq_true. Qed.

Lemma next_changed_spec i : (i <= length s)%nat -> let j := next_changed s b i in
  (i <= j <= length s)%nat /\ (forall k, (i <= k < j)%nat -> same s b k = true) /\
  (j = length s \/ same s b j = false).
Proof.
  intros Hi. unfold next_changed.
  destruct (scan_stops (length s) (fun i => (i <? length s)%nat && same s b i) i Hi) as (H1 & H2 & H3).
  { intros k Hk. bool_hyps. lia. }
  split_and!; [lia|lia| |].
  - intros k Hk. specialize (H2 k Hk). by apply andb_true_iff in H2 as [_ ?].
  - apply andb_false_iff in H3 as [H3|H3]; [left; bool_hyps; lia|by right].
Qed.

Lemma next_same_spec i : (i <= length s)%nat -> let j := next_same s b i in
  (i <= j <= length s)%nat /\ (forall k, (i <= k < j)%nat -> same s b k = false).
Proof.
  intros Hi. unfold next_same.
  destruct (scan_stops (length s) (fun i => (i <? length s)%nat && negb (same s b i)) i Hi) as (H1 & H2 & H3).
  { intros k Hk. bool_hyps. lia. }
  split_and!; [lia|lia|]. intros k Hk. specialize (H2 k Hk). by apply andb_true_iff in H2 as [_ ?%negb_true_iff].
Qed.

Lemma gap_end_spec g : (g <= length s)%nat -> let e := gap_end s b g in
  (g <= e <= length s)%nat /\ (e - g <= 4096)%nat /\
  (forall k, (g <= k < e)%nat -> same s b k = true) /\
  (e = length s \/ (e - g = 4096)%nat \/ same s b e = false).
Proof.
  intros Hg. unfold gap_end.
  destruct (scan_stops (length s) (fun i => (i <? length s)%nat && same s b i && (i - g <? 4096)%nat) g Hg)
    as (H1 & H2 & H3).
  { intros k Hk. bool_hyps. lia. }
  set (e := scan _ _ g) in *.
  assert (e - g <= 4096)%nat as Hle.
  { destruct (decide (e = g)) as [|Hne]; [lia|]. specialize (H2 (e - 1)%nat ltac:(lia)). bool_hyps. lia. }
  split_and!; [lia|lia|done| |].
  - intros k Hk. specialize (H2 k Hk). by bool_hyps.
  - apply andb_false_iff in H3 as [H3|H3]; [apply andb_false_iff in H3 as [H3|H3]|].
    + left. bool_hyps. lia.
    + by right; right.
    + right. left. bool_hyps. lia.
Qed.

Lemma next_same_changed i : (i < length s)%nat -> same s b i = false ->
  let j := next_same s b i in
  (i < j <= length s)%nat /\ (forall k, (i <= k < j)%nat -> same s b k = false).
Proof.
  intros Hi Hc. cbn zeta. destruct (next_same_spec i ltac:(lia)) as [H1 H2].
  split; [|done]. split; [|lia]. unfold next_same in *.
  destruct (length s) as [|n] eqn:Hn; [lia|]. cbn [scan] in *.
  rewrite (proj2 (Nat.ltb_lt i (S n))), Hc in * by lia. cbn [negb andb] in *.
  destruct (scan_spec n (fun i => (i <? S n)%nat && negb (same s b i)) (S i)) as (? & _). lia.
Qed.

(** A run ends with a changed byte, contains one in every 4096 bytes, and is
    followed by 4096 unchanged ones or the unchanged end of the mapping. *)
Lemma run_end_spec fuel : forall e0, (1 <= e0 <= length s)%nat -> (length s - e0 <= fuel)%nat ->
  same s b (e0 - 1) = false ->
  let e := run_end s b fuel e0 in
  (e0 <= e <= length s)%nat /\ same s b (e - 1) = false /\
  (forall g, (e0 <= g)%nat -> (g + 4096 <= e)%nat -> exists k, (g <= k < g + 4096)%nat /\ same s b k = false) /\
  (forall k, (e <= k < length s)%nat -> (k < e + 4096)%nat -> same s b k = true).
Proof.
  induction fuel as [|fuel IH]; intros e0 He Hf Hc; cbn [run_end].
  { split_and!; [lia|lia|done|intros; lia|intros; lia]. }
  destruct (e0 <? length s)%nat eqn:Hlt; bool_hyps.
  2:{ split_and!; [lia|lia|done|intros; lia|intros; lia]. }
  destruct (gap_end_spec e0 ltac:(lia)) as (H1 & H2 & H3 & H4).
  set (e' := gap_end s b e0) in *.
  destruct ((e' =? length s)%nat || (e' - e0 =? 4096)%nat) eqn:Hstop.
  { split_and!; [lia|lia|done|intros; lia|]. intros k Hk Hk'. apply H3.
    apply orb_true_iff in Hstop as [Hs|Hs]; bool_hyps; lia. }
  bool_hyps. assert (same s b e' = false) as Hc'
    by (destruct H4 as [?|[?|?]]; [lia|lia|done]).
  destruct (next_same_changed e' ltac:(lia) Hc') as [H5 H6]. set (e1 := next_same s b e') in *.
  destruct (IH e1) as (I1 & I2 & I3 & I4); [lia|lia|apply H6; lia|].
  split_and!; [lia|lia|done| |done].
  intros g Hg Hg'. destruct (decide (e1 <= g)%nat) as [Hge|Hge]; [by apply I3|].
  destruct (decide (g <= e')%nat) as [Hle|Hle]; [exists e'|exists g]; (split; [lia|]); [done|].
  apply H6. lia.
Qed.
End ScanFacts.

(** ** Publishing and acquiring *)
Section Coherence.
Context `{HM : MappedServer}.

(** A mapping inside its allocation, whose bytes at the server are [mem]. *)
Definition mapping_ok (m : MappedRange) (mem : list byte) : Prop :=
  0 <= mr_offset m /\ mr_size m = Z.of_nat (length (shadow m)) /\
  length (baseline m) = length (shadow m) /\
  mr_offset m + mr_size m <= Z.of_nat (length mem) /\
  Z.of_nat (length mem) < 18446744073709551616.

(** The server's bytes of a mapping. *)
Definition server_window (m : MappedRange) (mem : list byte) : list byte :=
  window (Z.to_nat (mr_offset m)) (length (shadow m)) mem.

Definition with_baseline (m : MappedRange) (bs : list byte) : MappedRange :=
  mkRange (memory_id m) (mr_offset m) (mr_size m) (shadow m) (mr_emulated_coherent m)
    (transfer_ready m) bs.

(** A server transition that only changes one allocation. *)
Definition only_changes (id : Z) (w w' : world) : Prop :=
  forall id', id' <> id -> contents w' id' = contents w id'.

Lemma only_changes_trans id w1 w2 w3 :
  only_changes id w1 w2 -> only_changes id w2 w3 -> only_changes id w1 w3.
Proof. intros H1 H2 id' Hn. by rewrite H2, H1. Qed.

Lemma flush_chunk_ok m mem first len w r w' :
  mapping_ok m mem -> contents w (memory_id m) = Some mem ->
  (first + len <= length (shadow m))%nat -> (0 < len)%nat -> Z.of_nat len <= kMaxMappedChunk ->
  flush_chunk remote_id (memory_id m) (mr_offset m + Z.of_nat first) (window first len (shadow m)) w
    = (Some r, w') -> r = VK_SUCCESS ->
  contents w' (memory_id m) =
    Some (patch (Z.to_nat (mr_offset m) + first) (window first len (shadow m)) mem) /\
  only_changes (memory_id m) w w'.
Proof.
  intros (H0 & Hsz & Hb & Hin & Hmax) Hc Hl Hpos Hk Hf ->. unfold flush_chunk in Hf.
  destruct (round_trip _ _ w) as [reply w1] eqn:Hrt. injection Hf as Hr <-.
  eapply flush_law in Hrt as (Hp & Ho); rewrite ?length_window by lia; [|exact Hc|lia|lia|lia|lia|done].
  split; [|exact Ho]. rewrite Hp. do 2 f_equal. lia.
Qed.

(** The chunks of one run. *)
Lemma publish_run_ok fuel : forall m mem first last w m' w',
  mapping_ok m mem -> contents w (memory_id m) = Some mem ->
  (first <= last <= length (shadow m))%nat ->
  publish_run remote_id fuel m first last w = (true, m', w') ->
  let data := window first (last - first) (shadow m) in
  m' = with_baseline m (patch first data (baseline m)) /\
  contents w' (memory_id m) = Some (patch (Z.to_nat (mr_offset m) + first) data mem) /\
  only_changes (memory_id m) w w'.
Proof.
  induction fuel as [|fuel IH]; intros m mem first last w m' w' Hok Hc Hl; cbn [publish_run]; [done|].
  pose proof Hok as (H0 & Hsz & Hb & Hin & Hmax).
  destruct (first <? last)%nat eqn:Hlt; bool_hyps.
  2:{ intros [= <- <-]. assert (last = first) as -> by lia. rewrite Nat.sub_diag.
      assert (window first 0 (shadow m) = []) as -> by done. cbn zeta.
      rewrite !patch_nil by lia. destruct m; done. }
  set (chunk := Z.to_nat (Z.min kMaxMappedChunk (Z.of_nat (last - first)))).
  assert (0 < chunk <= last - first)%nat as Hchunk by (unfold chunk, kMaxMappedChunk; lia).
  assert (Z.of_nat chunk <= kMaxMappedChunk) as Hmaxc by (unfold chunk, kMaxMappedChunk; lia).
  destruct (flush_chunk _ _ _ _ w) as [[r|] w1] eqn:Hf; [|done].
  destruct (r =? VK_SUCCESS) eqn:Hr; [|done]. apply Z.eqb_eq in Hr. intros Hrun.
  destruct (flush_chunk_ok m mem first chunk w r w1 Hok Hc ltac:(lia) ltac:(lia) Hmaxc Hf Hr) as [Hc1 Ho1].
  assert (length (window first chunk (shadow m)) = chunk) as Hwl by (apply length_window; lia).
  apply IH with (mem := patch (Z.to_nat (mr_offset m) + first) (window first chunk (shadow m)) mem) in Hrun
    as (-> & Hc2 & Ho2); cbn [memory_id mr_offset mr_size shadow baseline] in *.
  - assert (last - first = chunk + (last - (first + chunk)))%nat as Heq by lia.
    rewrite Heq, window_app. split_and!.
    + unfold with_baseline. cbn. f_equal. rewrite <- patch_app by (rewrite ?length_window; lia). by rewrite Hwl.
    + rewrite Hc2. f_equal. rewrite <- patch_app by (rewrite ?length_window; lia). rewrite Hwl. f_equal. lia.
    + by eapply only_changes_trans.
  - unfold mapping_ok. cbn. rewrite !length_patch by (rewrite ?Hwl; lia). split_and!; lia.
  - done.
  - lia.
Qed.

(** What publishing from [first] on does to each byte. *)
Record published (m m' : MappedRange) (first : nat) (mem mem' : list byte) : Prop := {
  p_range : m' = with_baseline m (baseline m');
  p_blen : length (baseline m') = length (baseline m);
  p_len : length mem' = length mem;
  p_base : forall i, (i < length (shadow m))%nat ->
    baseline m' !! i = if (i <? first)%nat then baseline m !! i else shadow m !! i;
  p_bytes : forall i, (i < length (shadow m))%nat ->
    (mem' !! (Z.to_nat (mr_offset m) + i)%nat = mem !! (Z.to_nat (mr_offset m) + i)%nat /\
     ((i < first)%nat \/ shadow m !! i = baseline m !! i)) \/
    mem' !! (Z.to_nat (mr_offset m) + i)%nat = shadow m !! i;
  p_outside : forall j, (j < Z.to_nat (mr_offset m) \/ Z.to_nat (mr_offset m) + length (shadow m) <= j)%nat ->
    mem' !! j = mem !! j }.

(** Nothing left to publish. *)
Lemma published_nothing m first mem : length (baseline m) = length (shadow m) ->
  (forall i, (first <= i < length (shadow m))%nat -> shadow m !! i = baseline m !! i) ->
  published m m first mem mem.
Proof.
  intros Hb Hs. constructor; try done; [by destruct m| |].
  - intros i Hi. destruct (i <? first)%nat eqn:E; [done|]. bool_hyps. symmetry. apply Hs. lia.
  - intros i Hi. left. split; [done|]. destruct (decide (i < first)%nat); [by left|right; apply Hs; lia].
Qed.

(** A run, then the rest. *)
Lemma published_run m m' first first' last mem mem' :
  let data := window first' (last - first') (shadow m) in
  mapping_ok m mem -> (first <= first' <= last)%nat -> (last <= length (shadow m))%nat ->
  (forall i, (first <= i < first')%nat -> shadow m !! i = baseline m !! i) ->
  published (with_baseline m (patch first' data (baseline m))) m' last
    (patch (Z.to_nat (mr_offset m) + first') data mem) mem' ->
  published m m' first mem mem'.
Proof.
  intros data (H0 & Hsz & Hb & Hin & Hmax) Hf Hl Heq [Hr Hbl Hlen Hbase Hbytes Hout].
  cbn [mr_offset shadow baseline with_baseline] in *.
  assert (length data = last - first')%nat as Hd by (unfold data; apply length_window; lia).
  assert (forall i, (first' <= i < last)%nat -> data !! (i - first')%nat = shadow m !! i) as Hdata.
  { intros i Hi. unfold data. rewrite lookup_window by lia. f_equal. lia. }
  rewrite length_patch in Hbl by lia. rewrite length_patch in Hlen by lia.
  constructor; [exact Hr|done|done| | |].
  - intros i Hi. rewrite Hbase by done. rewrite lookup_patch by lia. rewrite Hd.
    destruct (i <? last)%nat eqn:E1; destruct (i <? first)%nat eqn:E2; bool_hyps; try lia.
    + by rewrite bool_decide_false by lia.
    + destruct (decide (first' <= i)%nat) as [Hge|Hlt].
      * rewrite bool_decide_true by lia. apply Hdata. lia.
      * rewrite bool_decide_false by lia. symmetry. apply Heq. lia.
    + done.
  - intros i Hi. destruct (Hbytes i Hi) as [[-> Hc]|]; [|by right].
    rewrite lookup_patch by lia. rewrite Hd.
    destruct (decide (first' <= i < last)%nat) as [Hin'|Hout'].
    + right. rewrite bool_decide_true by lia.
      replace (Z.to_nat (mr_offset m) + i - (Z.to_nat (mr_offset m) + first'))%nat with (i - first')%nat by lia.
      apply Hdata. lia.
    + left. rewrite bool_decide_false by lia. split; [done|].
      destruct (decide (i < first)%nat); [by left|]. right.
      destruct (decide (i < first')%nat); [apply Heq; lia|].
      destruct Hc as [Hc|Hc]; [lia|]. rewrite lookup_patch in Hc by lia.
      rewrite bool_decide_false in Hc by lia. done.
  - intros j Hj. rewrite Hout by done. rewrite lookup_patch by lia. by rewrite bool_decide_false by lia.
Qed.

Lemma publish_range_ok fuel : forall m mem first w m' w',
  mapping_ok m mem -> contents w (memory_id m) = Some mem -> (first <= length (shadow m))%nat ->
  publish_range remote_id fuel m first w = (true, m', w') ->
  exists mem', contents w' (memory_id m) = Some mem' /\ only_changes (memory_id m) w w' /\
    published m m' first mem mem'.
Proof.
  induction fuel as [|fuel IH]; intros m mem first w m' w' Hok Hc Hf; cbn [publish_range]; [done|].
  pose proof Hok as (H0 & Hsz & Hb & Hin & Hmax).
  destruct (first <? length (shadow m))%nat eqn:Hlt; bool_hyps.
  2:{ intros [= <- <-]. exists mem. split_and!; [done|done|]. apply published_nothing; [done|intros; lia]. }
  destruct (next_changed_spec (shadow m) (baseline m) first Hf) as (H1 & H2 & H3).
  set (first' := next_changed _ _ first) in *.
  assert (forall i, (first <= i < first')%nat -> shadow m !! i = baseline m !! i) as Heq.
  { intros i Hi. by apply same_spec, H2. }
  destruct (first' =? length (shadow m))%nat eqn:Hend; bool_hyps.
  { intros [= <- <-]. exists mem. split_and!; [done|done|]. apply published_nothing; [done|].
    intros i Hi. apply Heq. lia. }
  destruct H3 as [|Hch]; [done|].
  destruct (run_end_spec (shadow m) (baseline m) (length (shadow m)) (S first')) as (R1 & _);
    [lia|lia|by rewrite Nat.sub_1_r|].
  set (last := run_end _ _ _ (S first')) in *.
  destruct (publish_run _ _ m first' last w) as [[[|] m1] w1] eqn:Hrun; [|done].
  apply (publish_run_ok _ _ mem) in Hrun as (-> & Hc1 & Ho1); [|done|done|lia].
  intros Hrest. eapply IH in Hrest as (mem' & Hc2 & Ho2 & Hp); [| |exact Hc1|cbn; lia].
  - exists mem'. split_and!; [done|by eapply only_changes_trans|].
    apply (published_run m m' first first' last); [done|lia|lia|done|done].
  - assert (length (window first' (last - first') (shadow m)) = last - first')%nat as Hwl
      by (apply length_window; lia).
    unfold mapping_ok. cbn. rewrite !length_patch by (rewrite ?Hwl; lia). done.
Qed.

(** *** Acquiring *)

Lemma lookup_merge_bytes : forall sh b d i, length b = length sh -> length d = length sh ->
  merge_bytes sh b d !! i = if decide (sh !! i = b !! i) then d !! i else sh !! i.
Proof.
  induction sh as [|x sh IH]; intros [|y b] [|v d] i Hb Hd; try done.
  - cbn [merge_bytes]. destruct i as [|i]; cbn.
    + repeat case_decide; congruence.
    + apply IH; cbn in *; lia.
Qed.

Lemma length_merge_bytes : forall sh b d, length (merge_bytes sh b d) = length sh.
Proof. induction sh as [|x sh IH]; intros [|y b] [|v d]; cbn; congruence. Qed.

(** What acquiring from [done] on does to a mapping when the server holds [D]. *)
Record acquired (m m' : MappedRange) (done : nat) (D : list byte) : Prop := {
  a_range : m' = mkRange (memory_id m) (mr_offset m) (mr_size m) (shadow m') (mr_emulated_coherent m)
                   (transfer_ready m) (baseline m');
  a_slen : length (shadow m') = length (shadow m);
  a_blen : length (baseline m') = length (shadow m);
  a_shadow : forall i, (i < length (shadow m))%nat -> shadow m' !! i =
    if (i <? done)%nat then shadow m !! i
    else if decide (shadow m !! i = baseline m !! i) then D !! i else shadow m !! i;
  a_base : forall i, (i < length (shadow m))%nat -> baseline m' !! i =
    if (i <? done)%nat then baseline m !! i else D !! i }.

Lemma merge_chunk_ok m mem first len :
  mapping_ok m mem -> (first + len <= length (shadow m))%nat ->
  let bytes := window (Z.to_nat (mr_offset m) + first) len mem in
  let m1 := merge_chunk m first bytes in
  mapping_ok m1 mem /\ length (shadow m1) = length (shadow m) /\
  forall i, (i < length (shadow m))%nat ->
    shadow m1 !! i = (if bool_decide (first <= i < first + len)%nat
                      then if decide (shadow m !! i = baseline m !! i)
                           then server_window m mem !! i else shadow m !! i
                      else shadow m !! i) /\
    baseline m1 !! i = (if bool_decide (first <= i < first + len)%nat
                        then server_window m mem !! i else baseline m !! i).
Proof.
  intros (H0 & Hsz & Hb & Hin & Hmax) Hl bytes m1.
  assert (length bytes = len) as Hlen by (unfold bytes; apply length_window; lia).
  assert (length (window first len (shadow m)) = len) as Hws by (apply length_window; lia).
  assert (length (window first len (baseline m)) = len) as Hwb by (apply length_window; lia).
  unfold m1, merge_chunk, mapping_ok. cbn [shadow baseline mr_offset mr_size]. rewrite Hlen.
  rewrite !length_patch by (rewrite ?length_merge_bytes, ?Hws, ?Hlen; lia).
  split_and!; [lia|lia|lia|lia|lia|done|]. intros i Hi.
  rewrite !lookup_patch by (rewrite ?length_merge_bytes, ?Hws, ?Hlen; lia).
  rewrite length_merge_bytes, Hws, Hlen. case_bool_decide; [|done].
  rewrite lookup_merge_bytes by (rewrite ?Hws, ?Hwb, ?Hlen; lia).
  rewrite !lookup_window by lia. replace (first + (i - first))%nat with i by lia.
  unfold bytes, server_window. rewrite !lookup_window by lia.
  replace (Z.to_nat (mr_offset m) + first + (i - first))%nat with (Z.to_nat (mr_offset m) + i)%nat by lia.
  done.
Qed.

Lemma download_chunk_ok m mem first len w bytes w' :
  mapping_ok m mem -> contents w (memory_id m) = Some mem ->
  (first + len <= length (shadow m))%nat -> 0 < Z.of_nat len <= kMaxMappedChunk ->
  download_chunk remote_id (memory_id m) (mr_offset m + Z.of_nat first) (Z.of_nat len) w
    = (inr bytes, w') ->
  bytes = window (Z.to_nat (mr_offset m) + first) len mem /\ contents w' = contents w.
Proof.
  intros (H0 & Hsz & Hb & Hin & Hmax) Hc Hl Hk Hf. unfold download_chunk in Hf.
  destruct (round_trip _ _ w) as [reply w1] eqn:Hrt. injection Hf as Hr <-.
  eapply download_law in Hrt as (Hsame & ->); [|exact Hc|lia|lia|lia|done]. split; [|done]. unfold window. f_equal; [lia|]. f_equal. lia.
Qed.

Lemma acquire_range_ok fuel : forall m mem first w m' w',
  mapping_ok m mem -> contents w (memory_id m) = Some mem -> (first <= length (shadow m))%nat ->
  acquire_range remote_id fuel m first w = (true, m', w') ->
  contents w' = contents w /\ acquired m m' first (server_window m mem).
Proof.
  induction fuel as [|fuel IH]; intros m mem first w m' w' Hok Hc Hf; cbn [acquire_range]; [done|].
  pose proof Hok as (H0 & Hsz & Hb & Hin & Hmax).
  destruct (first <? length (shadow m))%nat eqn:Hlt; bool_hyps.
  2:{ intros [= <- <-]. split; [done|]. constructor; try done; [by destruct m| |];
      intros i Hi; by rewrite (proj2 (Nat.ltb_lt i first)) by lia. }
  set (chunk := Z.min kMaxMappedChunk (Z.of_nat (length (shadow m) - first))).
  set (len := Z.to_nat chunk).
  assert (0 < len <= length (shadow m) - first)%nat as Hlen by (unfold len, chunk, kMaxMappedChunk; lia).
  assert (chunk = Z.of_nat len) as Hchunk by (unfold len, chunk, kMaxMappedChunk; lia).
  assert (0 < Z.of_nat len <= kMaxMappedChunk) as Hk by (unfold len, chunk, kMaxMappedChunk in *; lia).
  rewrite Hchunk.
  destruct (download_chunk _ _ _ _ w) as [[e|bytes] w1] eqn:Hd; [done|]. intros Hrest.
  destruct (download_chunk_ok m mem first len w bytes w1 Hok Hc ltac:(lia) Hk Hd) as [-> Hc1].
  destruct (merge_chunk_ok m mem first len Hok ltac:(lia)) as (Hok1 & Hlen1 & Hm1).
  set (m1 := merge_chunk m first _) in *.
  apply (IH m1 mem) in Hrest as [Hc2 [Ar Asl Abl Ash Aba]]; [|done|by rewrite Hc1|rewrite Hlen1; fold len; lia].
  rewrite Hlen1 in *. split; [by rewrite Hc2|].
  change (server_window m1 mem) with (window (Z.to_nat (mr_offset m)) (length (shadow m1)) mem) in *.
  rewrite Hlen1 in *. fold (server_window m mem) in *.
  constructor; [exact Ar|done|done| |]; intros i Hi; destruct (Hm1 i Hi) as [Hs Hb1].
  - rewrite Ash by done. destruct (i <? first)%nat eqn:E; bool_hyps.
    + rewrite (proj2 (Nat.ltb_lt i (first + len))) by lia. rewrite Hs. by rewrite bool_decide_false by lia.
    + destruct (i <? first + len)%nat eqn:E2; bool_hyps; rewrite Hs, ?Hb1.
      * by rewrite bool_decide_true by lia.
      * by rewrite !bool_decide_false by lia.
  - rewrite Aba by done. destruct (i <? first)%nat eqn:E; bool_hyps.
    + rewrite (proj2 (Nat.ltb_lt i (first + len))) by lia. rewrite Hb1. by rewrite bool_decide_false by lia.
    + destruct (i <? first + len)%nat eqn:E2; bool_hyps; rewrite ?Hb1; [|done].
      by rewrite bool_decide_true by lia.
Qed.

(** ** The properties *)

(** The effect of publishing on one mapping of the list. *)
Definition publish_effect (w w' : world) (m m' : MappedRange) : Prop :=
  if mr_emulated_coherent m && transfer_ready m then
    exists mem mem', contents w (memory_id m) = Some mem /\ contents w' (memory_id m) = Some mem' /\
      shadow m' = shadow m /\ baseline m' = shadow m /\ published m m' 0 mem mem' /\
      (server_window m mem = baseline m -> server_window m mem' = shadow m)
  else m' = m /\ contents w' (memory_id m) = contents w (memory_id m).

Lemma published_all m m' mem mem' : mapping_ok m mem -> published m m' 0 mem mem' ->
  shadow m' = shadow m /\ baseline m' = shadow m /\
  (server_window m mem = baseline m -> server_window m mem' = shadow m).
Proof.
  intros (H0 & Hsz & Hb & Hin & Hmax) [Hr Hbl Hlen Hbase Hbytes Hout].
  split_and!; [by rewrite Hr| |].
  - apply list_eq. intros i. destruct (decide (i < length (shadow m))%nat); [by apply Hbase|].
    by rewrite !lookup_ge_None_2 by lia.
  - intros Hw. apply list_eq. intros i. destruct (decide (i < length (shadow m))%nat) as [Hi|Hi].
    + unfold server_window in *. rewrite lookup_window by done.
      destruct (Hbytes i Hi) as [[-> [?| ->]] | ->]; [lia| |done].
      rewrite <- Hw. by rewrite lookup_window.
    + rewrite !lookup_ge_None_2; [done|lia|]. unfold server_window. rewrite length_window by lia. lia.
Qed.

(** Publishing coherent memory: when it succeeds, every emulated mapping's
    baseline is its shadow, each byte the host changed is at the server, no byte
    outside the mappings is touched, and where the server held the baseline it
    now holds the shadow exactly. *)
Lemma publish_coherent_ok : forall mapped w mapped' w',
  NoDup (map memory_id mapped) ->
  Forall (fun m => exists mem, contents w (memory_id m) = Some mem /\ mapping_ok m mem) mapped ->
  publish_coherent_mapped remote_id mapped w = (true, mapped', w') ->
  Forall2 (publish_effect w w') mapped mapped' /\
  (forall id, id ∉ map memory_id mapped -> contents w' id = contents w id).
Proof.
  induction mapped as [|m mapped IH]; intros w mapped' w' Hnd Hall; cbn [publish_coherent_mapped].
  { intros [= <- <-]. split; [constructor|done]. }
  apply NoDup_cons in Hnd as [Hid Hnd]. apply Forall_cons in Hall as [(mem & Hc & Hok) Hall].
  assert (forall w1 rest w2, only_changes (memory_id m) w w1 ->
    publish_coherent_mapped remote_id mapped w1 = (true, rest, w2) ->
    Forall2 (publish_effect w w2) mapped rest /\ contents w2 (memory_id m) = contents w1 (memory_id m) /\
    (forall id, id ∉ map memory_id (m :: mapped) -> contents w2 id = contents w id)) as Hrest.
  { intros w1 rest w2 Ho Hp.
    assert (forall m', m' ∈ mapped -> contents w1 (memory_id m') = contents w (memory_id m')) as Hsame.
    { intros m' Hm'. apply Ho. intros Heq. apply Hid. rewrite <- Heq. apply list_elem_of_fmap. by exists m'. }
    apply IH in Hp as [Hp Hout]; [|done|].
    - split_and!; [|by apply Hout|].
      + apply Forall2_same_length_lookup in Hp as [Hlen Hp]. apply Forall2_same_length_lookup.
        split; [done|]. intros i x y Hx Hy. specialize (Hp i x y Hx Hy).
        unfold publish_effect in *. rewrite Hsame in Hp by (by eapply list_elem_of_lookup_2). done.
      + intros id Hn. apply not_elem_of_cons in Hn as [Hn1 Hn2]. rewrite Hout by done. by apply Ho.
    - rewrite Forall_forall in Hall |- *. intros m' Hm'. rewrite Hsame by done. by apply Hall. }
  assert (forall a b, negb a || negb b = negb (a && b)) as Hneg by (by intros [] []).
  rewrite Hneg. destruct (mr_emulated_coherent m && transfer_ready m) eqn:Hem; cbn [negb].
  - destruct (publish_range _ _ m 0 w) as [[[|] m1] w1] eqn:Hr; [|done].
    destruct (publish_coherent_mapped remote_id mapped w1) as [[ok rest] w2] eqn:Hp. intros [= -> <- <-].
    apply (publish_range_ok _ m mem) in Hr as (mem1 & Hc1 & Ho1 & Hpub); [|done|done|lia].
    destruct (Hrest w1 rest w2 Ho1 Hp) as (HF & Hkeep & Hout). split; [|done].
    constructor; [|done]. unfold publish_effect. rewrite Hem. exists mem, mem1.
    rewrite Hkeep. split_and!; [done|done| | |done|]; by eapply published_all.
  - destruct (publish_coherent_mapped remote_id mapped w) as [[ok rest] w2] eqn:Hp. intros [= -> <- <-].
    destruct (Hrest w rest w2 ltac:(done) Hp) as (HF & Hkeep & Hout). split; [|done].
    constructor; [|done]. unfold publish_effect. by rewrite Hem.
Qed.

(** The effect of acquiring on one mapping of the list; the server's bytes stay. *)
Definition acquire_effect (ids : option (gset Z)) (w : world) (m m' : MappedRange) : Prop :=
  if mr_emulated_coherent m && transfer_ready m &&
     match ids with Some ids => bool_decide (memory_id m ∈ ids) | None => true end
  then exists mem, contents w (memory_id m) = Some mem /\ acquired m m' 0 (server_window m mem)
  else m' = m.

Definition mapped_ok (w : world) (mapped : list MappedRange) : Prop :=
  Forall (fun m => exists mem, contents w (memory_id m) = Some mem /\ mapping_ok m mem) mapped.

Lemma acquire_coherent_ok ids : forall mapped w mapped' w', mapped_ok w mapped ->
  acquire_coherent_mapped remote_id ids mapped w = (true, mapped', w') ->
  contents w' = contents w /\ Forall2 (acquire_effect ids w) mapped mapped'.
Proof.
  induction mapped as [|m mapped IH]; intros w mapped' w' Hok; cbn [acquire_coherent_mapped].
  { intros [= <- <-]. split; [done|constructor]. }
  apply Forall_cons in Hok as [(mem & Hc & Hm) Hok].
  assert (negb (mr_emulated_coherent m) || negb (transfer_ready m)
    || match ids with Some ids => bool_decide (memory_id m ∉ ids) | None => false end =
    negb (mr_emulated_coherent m && transfer_ready m &&
     match ids with Some ids => bool_decide (memory_id m ∈ ids) | None => true end)) as ->.
  { rewrite !negb_andb. f_equal. destruct ids; [|done]. by rewrite bool_decide_not. }
  destruct (_ && _ && _) eqn:Hin; cbn [negb].
  - destruct (acquire_range _ _ m 0 w) as [[[|] m1] w1] eqn:Hr; [|done].
    apply (acquire_range_ok _ m mem) in Hr as [Hcw Hacq]; [|done|done|lia].
    destruct (acquire_coherent_mapped _ _ mapped w1) as [[ok rest] w2] eqn:Ha. intros [= -> <- <-].
    apply IH in Ha as [Hcw2 HF]; [|unfold mapped_ok; by rewrite Hcw].
    rewrite Hcw2, Hcw. split; [done|]. constructor; [unfold acquire_effect; rewrite Hin; by exists mem|].
    unfold acquire_effect in *. by rewrite Hcw in HF.
  - destruct (acquire_coherent_mapped _ _ mapped w) as [[ok rest] w2] eqn:Ha. intros [= -> <- <-].
    apply IH in Ha as [Hcw HF]; [|done]. split; [done|]. constructor; [|done].
    unfold acquire_effect. by rewrite Hin.
Qed.

(** C19: Acquiring and then publishing a mapping makes both sides agree: a byte
    the host had stored keeps the host's value, every other byte takes the
    device's, on the client and at the server. *)
Theorem exchange_agrees m mem w m1 w1 m2 w2 :
  mapping_ok m mem -> contents w (memory_id m) = Some mem ->
  acquire_range remote_id (S (length (shadow m))) m 0 w = (true, m1, w1) ->
  publish_range remote_id (S (length (shadow m1))) m1 0 w1 = (true, m2, w2) ->
  exists mem', contents w2 (memory_id m) = Some mem' /\ server_window m mem' = shadow m2 /\
    baseline m2 = shadow m2 /\
    forall i, (i < length (shadow m))%nat -> shadow m2 !! i =
      if decide (shadow m !! i = baseline m !! i) then server_window m mem !! i else shadow m !! i.
Proof.
  intros Hok Hc Ha Hp.
  apply (acquire_range_ok _ m mem) in Ha as [Hc1 [Ar Asl Abl Ash Aba]]; [|done|done|lia].
  pose proof Hok as (H0 & Hsz & Hb & Hin & Hmax).
  assert (memory_id m1 = memory_id m /\ mr_offset m1 = mr_offset m /\ mr_size m1 = mr_size m)
    as (Hid & Hoff & Hsz1) by (rewrite Ar; done).
  assert (mapping_ok m1 mem) as Hok1.
  { unfold mapping_ok. rewrite Hoff, Hsz1, Asl, Abl. split_and!; lia. }
  apply (publish_range_ok _ m1 mem) in Hp as (mem' & Hc2 & _ & Hpub);
    [|done|by rewrite Hc1, Hid|lia].
  destruct (published_all _ _ _ _ Hok1 Hpub) as (Hs2 & Hb2 & Hw2).
  exists mem'. rewrite <- Hid. split_and!; [done| |congruence|].
  - rewrite Hs2, <- Hw2.
    + unfold server_window. by rewrite Hoff, Asl.
    + unfold server_window. rewrite Hoff, Asl. apply list_eq. intros i.
      destruct (decide (i < length (shadow m))%nat) as [Hi|Hi]; [by rewrite Aba|].
      rewrite !lookup_ge_None_2; [done|lia|]. rewrite length_window by lia. lia.
  - intros i Hi. rewrite Hs2. by apply Ash.
Qed.

(** A run that publishing sends is tight: it starts and ends with a byte the
    host changed, every 4096 consecutive bytes of it contain one, and it is
    followed by 4096 unchanged bytes or by nothing but unchanged bytes. *)
Theorem runs_tight (s b : list byte) first :
  (first < length s)%nat -> same s b first = false ->
  let last := run_end s b (length s) (S first) in
  (first < last <= length s)%nat /\ same s b (last - 1) = false /\
  (forall g, (first <= g)%nat -> (g + 4096 <= last)%nat ->
     exists k, (g <= k < g + 4096)%nat /\ same s b k = false) /\
  (forall k, (last <= k < length s)%nat -> (k < last + 4096)%nat -> same s b k = true).
Proof.
  intros Hl Hc last.
  destruct (run_end_spec s b (length s) (S first)) as (R1 & R2 & R3 & R4);
    [lia|lia|by rewrite Nat.sub_1_r|]. fold last in R1, R2, R3, R4.
  split_and!; [lia|lia|done| |done]. intros g Hg Hg'.
  destruct (decide (g = first)) as [->|Hne]; [exists first; split; [lia|done]|apply R3; lia].
Qed.

(** *** Explicit ranges *)

(** The allocation of a mapping has a positive atom size; [AllocateMemory]
    refuses a server that says 0. *)
Definition atoms_ok (memories : gmap Z MemoryAllocation) : Prop :=
  map_Forall (fun _ a => 0 < ma_non_coherent_atom_size a) memories.

Lemma next_chunk_spec memories id left c : atoms_ok memories -> 0 < left ->
  next_chunk memories id left = Some c ->
  0 < c <= left /\ c <= kMaxMappedChunk /\
  (c < left -> exists a, memories !! id = Some a /\ c mod ma_non_coherent_atom_size a = 0).
Proof.
  intros Ha Hl. unfold next_chunk. set (c0 := Z.min kMaxMappedChunk left).
  assert (0 < c0 <= left /\ c0 <= kMaxMappedChunk) as [H1 H2] by (unfold c0, kMaxMappedChunk; lia).
  destruct (c0 <? left) eqn:E; bool_hyps.
  - destruct (memories !! id) as [a|] eqn:Hm; [|done]. specialize (Ha id a Hm). cbn in Ha.
    pose proof (Z.mod_pos_bound c0 (ma_non_coherent_atom_size a) Ha).
    pose proof (Z.mod_le c0 (ma_non_coherent_atom_size a) ltac:(lia) Ha).
    destruct (c0 - c0 mod ma_non_coherent_atom_size a =? 0) eqn:Ez; [done|]. bool_hyps.
    intros [= <-]. split_and!; [lia|lia|lia|]. intros _. exists a. split; [done|].
    by rewrite Zminus_mod_idemp_r, Z.sub_diag, Z.mod_0_l by lia.
  - intros [= <-]. split_and!; [lia|lia|lia|lia].
Qed.

Lemma flush_loop_ok memories fuel : atoms_ok memories -> forall m mem local left w w',
  mapping_ok m mem -> contents w (memory_id m) = Some mem -> 0 <= local -> 0 <= left ->
  local + left <= mr_size m ->
  flush_loop remote_id fuel memories m local left w = (VK_SUCCESS, w') ->
  contents w' (memory_id m) =
    Some (patch (Z.to_nat (mr_offset m + local)) (window (Z.to_nat local) (Z.to_nat left) (shadow m)) mem) /\
  only_changes (memory_id m) w w'.
Proof.
  intros Hat. induction fuel as [|fuel IH]; intros m mem local left w w' Hok Hc Hl0 Hr0 Hin;
    cbn [flush_loop]; [done|].
  pose proof Hok as (H0 & Hsz & Hb & Hmem & Hmax).
  destruct (0 <? left) eqn:Hleft; bool_hyps.
  2:{ intros [= <-]. assert (left = 0) as -> by lia. cbn [Z.to_nat window take].
      rewrite patch_nil by lia. split; done. }
  destruct (next_chunk memories (memory_id m) left) as [c|] eqn:Hn; [|done].
  destruct (next_chunk_spec _ _ _ _ Hat Hleft Hn) as (Hcl & Hck & _).
  replace (mr_offset m + local) with (mr_offset m + Z.of_nat (Z.to_nat local)) by lia.
  destruct (flush_chunk _ _ _ _ w) as [[r|] w1] eqn:Hf; [|done].
  destruct (r =? VK_SUCCESS) eqn:Hr; cbn [negb].
  2:{ intros [= -> ->]. done. }
  apply Z.eqb_eq in Hr. intros Hrest.
  destruct (flush_chunk_ok m mem (Z.to_nat local) (Z.to_nat c) w r w1) as [Hc1 Ho1]; [done|done|lia|lia|lia|done|done|].
  assert (length (window (Z.to_nat local) (Z.to_nat c) (shadow m)) = Z.to_nat c) as Hwl
    by (apply length_window; lia).
  apply (IH m (patch (Z.to_nat (mr_offset m) + Z.to_nat local) (window (Z.to_nat local) (Z.to_nat c) (shadow m)) mem))
    in Hrest as [Hc2 Ho2]; [| |done|lia|lia|lia].
  - split; [|by eapply only_changes_trans]. rewrite Hc2. f_equal.
    replace (Z.to_nat left) with (Z.to_nat c + Z.to_nat (left - c))%nat by lia.
    rewrite window_app, <- patch_app by (rewrite ?length_window; lia). rewrite Hwl.
    replace (Z.to_nat (local + c)) with (Z.to_nat local + Z.to_nat c)%nat by lia.
    f_equal; [lia|]. f_equal. lia.
  - unfold mapping_ok. rewrite length_patch by (rewrite Hwl; lia). done.
Qed.

(** A range that resolves lies inside the mapping it names, which is the
    first one of that memory; no 64-bit subtraction of [resolve_range] can wrap. *)
Theorem resolve_range_inside mapped r i offset size :
  Forall (fun m => 0 <= mr_size m) mapped -> is_u64 (rq_size r) ->
  resolve_range 0 mapped r = Some (i, offset, size) ->
  exists m, mapped !! i = Some m /\ memory_id m = rq_memory r /\ offset = rq_offset r /\
    0 <= offset - mr_offset m /\ 0 <= size /\ offset - mr_offset m + size <= mr_size m /\
    forall j m', (j < i)%nat -> mapped !! j = Some m' -> memory_id m' <> rq_memory r.
Proof.
  intros Hall Hu. assert (forall k, resolve_range k mapped r = Some (i, offset, size) ->
    exists m j, i = (k + j)%nat /\ mapped !! j = Some m /\ memory_id m = rq_memory r /\
      offset = rq_offset r /\ 0 <= offset - mr_offset m /\ 0 <= size /\
      offset - mr_offset m + size <= mr_size m /\
      forall j' m', (j' < j)%nat -> mapped !! j' = Some m' -> memory_id m' <> rq_memory r) as Hgen.
  { induction Hall as [|m mapped Hm Hall IH]; intros k; cbn [resolve_range]; [done|].
    destruct (memory_id m =? rq_memory r) eqn:Hid; cbn [negb].
    - destruct (rq_offset r <? mr_offset m) eqn:E1; [done|].
      destruct (mr_size m <? _) eqn:E2; [done|].
      destruct (mr_size m - (rq_offset r - mr_offset m) <? _) eqn:E3; [done|].
      intros [= <- <- <-]. bool_hyps. exists m, 0%nat. split_and!; try done; try lia.
      destruct (rq_size r =? VK_WHOLE_SIZE); unfold is_u64 in Hu; lia.
    - intros Hr. apply IH in Hr as (m' & j & -> & Hj & H1 & H2 & H3 & H4 & H5 & H6).
      exists m', (S j). split_and!; try done; [lia|]. intros [|j'] m'' Hlt Hl; cbn in Hl.
      + injection Hl as <-. by bool_hyps.
      + apply (H6 j'); [lia|done]. }
  intros Hr. destruct (Hgen 0%nat Hr) as (m & j & -> & ?). by exists m.
Qed.

(** Flushing a range of a mapping puts exactly its bytes at the server: all
    of the range, whether or not the host changed it, and nothing else. *)
Theorem flush_writes_range memories m mem rest r w w' :
  atoms_ok memories -> mapping_ok m mem -> contents w (memory_id m) = Some mem ->
  rq_memory r = memory_id m -> mr_offset m <= rq_offset r -> is_u64 (rq_size r) ->
  flush_mapped remote_id memories (m :: rest) [r] w = (VK_SUCCESS, w') ->
  let local := rq_offset r - mr_offset m in
  let size := if rq_size r =? VK_WHOLE_SIZE then mr_size m - local else rq_size r in
  local + size <= mr_size m /\
  contents w' (memory_id m) =
    Some (patch (Z.to_nat (rq_offset r)) (window (Z.to_nat local) (Z.to_nat size) (shadow m)) mem) /\
  only_changes (memory_id m) w w'.
Proof.
  intros Hat Hok Hc Hid Hoff Hu. cbn [flush_mapped resolve_range]. cbn zeta.
  rewrite Hid, Z.eqb_refl. cbn [negb]. rewrite (proj2 (Z.ltb_ge _ _) Hoff).
  destruct (mr_size m <? _) eqn:E1; [done|]. destruct (_ <? (if _ : bool then _ else _)) eqn:E2; [done|].
  cbn [lookup list_lookup]. destruct (flush_loop _ _ _ m _ _ w) as [res w1] eqn:Hf.
  destruct (res =? VK_SUCCESS) eqn:Hres; cbn [negb].
  2:{ intros [= -> ->]. done. }
  apply Z.eqb_eq in Hres as ->. intros [= <-]. bool_hyps.
  assert (0 <= if rq_size r =? VK_WHOLE_SIZE then mr_size m - (rq_offset r - mr_offset m) else rq_size r)
    by (destruct (rq_size r =? VK_WHOLE_SIZE); unfold is_u64 in Hu; lia).
  apply (flush_loop_ok memories _ Hat m mem) in Hf; [|done|done|lia|done|lia].
  split; [lia|]. by replace (mr_offset m + (rq_offset r - mr_offset m)) with (rq_offset r) in Hf by lia.
Qed.

Lemma store_chunk_app m local a b :
  (Z.to_nat local + length a + length b <= length (shadow m))%nat -> 0 <= local ->
  length (baseline m) = length (shadow m) ->
  store_chunk (store_chunk m local a) (local + Z.of_nat (length a)) b = store_chunk m local (a ++ b).
Proof.
  intros Hl H0 Hb. unfold store_chunk. cbn [memory_id mr_offset mr_size shadow mr_emulated_coherent
    transfer_ready baseline].
  replace (Z.to_nat (local + Z.of_nat (length a))) with (Z.to_nat local + length a)%nat by lia.
  rewrite patch_app by lia. f_equal.
  destruct (mr_emulated_coherent m && (Z.of_nat (length (baseline m)) =? mr_size m)) eqn:E.
  - rewrite length_patch by lia. rewrite E. by rewrite patch_app by lia.
  - by rewrite E.
Qed.

Lemma store_chunk_ok m mem local bytes : mapping_ok m mem -> 0 <= local ->
  (Z.to_nat local + length bytes <= length (shadow m))%nat -> mapping_ok (store_chunk m local bytes) mem.
Proof.
  intros (H0 & Hsz & Hb & Hin & Hmax) Hl Hlen. unfold mapping_ok, store_chunk. cbn.
  rewrite length_patch by lia. split_and!; try lia. case_match; [by rewrite length_patch by lia|done].
Qed.

Lemma download_loop_ok memories fuel : atoms_ok memories -> forall m mem local left w m' w',
  mapping_ok m mem -> contents w (memory_id m) = Some mem -> 0 <= local -> 0 <= left ->
  local + left <= mr_size m ->
  download_loop remote_id fuel memories m local left w = (VK_SUCCESS, m', w') ->
  contents w' = contents w /\
  m' = store_chunk m local (window (Z.to_nat (mr_offset m + local)) (Z.to_nat left) mem).
Proof.
  intros Hat. induction fuel as [|fuel IH]; intros m mem local left w m' w' Hok Hc Hl0 Hr0 Hin;
    cbn [download_loop]; [done|].
  pose proof Hok as (H0 & Hsz & Hb & Hmem & Hmax).
  destruct (0 <? left) eqn:Hleft; bool_hyps.
  2:{ intros [= <- <-]. assert (left = 0) as -> by lia. split; [done|].
      unfold store_chunk. cbn [Z.to_nat window take]. rewrite !patch_nil by lia.
      destruct m; cbn. f_equal. by case_match. }
  destruct (next_chunk memories (memory_id m) left) as [c|] eqn:Hn; [|done].
  destruct (next_chunk_spec _ _ _ _ Hat Hleft Hn) as (Hcl & Hck & _).
  destruct (download_chunk _ _ _ _ w) as [[e|bytes] w1] eqn:Hd.
  { intros [= -> -> ->]. exfalso. unfold download_chunk in Hd.
    destruct (round_trip _ _ w) as [reply w2]. injection Hd as Hd _. unfold download_reply in Hd.
    repeat case_match; simplify_eq; bool_hyps; congruence. }
  intros Hrest.
  replace (mr_offset m + local) with (mr_offset m + Z.of_nat (Z.to_nat local)) in Hd by lia.
  replace c with (Z.of_nat (Z.to_nat c)) in Hd by lia.
  destruct (download_chunk_ok m mem (Z.to_nat local) (Z.to_nat c) w bytes w1) as [Hby Hc1];
    [done|done|lia|lia|done|].
  assert (length bytes = Z.to_nat c) as Hlb by (rewrite Hby; apply length_window; lia).
  apply (IH _ mem) in Hrest as [Hc2 ->]; [|by apply store_chunk_ok; [done|lia|lia]|by rewrite Hc1|lia|lia|cbn; lia].
  split; [by rewrite Hc2|]. cbn [mr_offset store_chunk].
  replace (local + c) with (local + Z.of_nat (length bytes)) by lia.
  rewrite store_chunk_app; [|rewrite length_window; lia|lia|done]. f_equal.
  replace (Z.to_nat left) with (Z.to_nat c + Z.to_nat (left - c))%nat by lia.
  rewrite window_app, Hlb. f_equal; [rewrite Hby; f_equal; lia|f_equal; lia].
Qed.

(** *** Mapping *)

Lemma land_bound a b : 0 <= b -> 0 <= Z.land a b <= b.
Proof.
  intros Hb. apply Z.ldiff_le; [done|].
  apply Z.bits_inj'. intros n Hn. rewrite Z.ldiff_spec, Z.land_spec, Z.bits_0.
  by destruct (Z.testbit a n), (Z.testbit b n).
Qed.

Lemma shadow_in_block base offset alignment : 0 < alignment ->
  0 <= shadow_address base offset alignment - base <= alignment - 1.
Proof.
  intros Ha. unfold shadow_address.
  pose proof (land_bound (wrap64 (Z.land offset (alignment - 1) - base)) (alignment - 1) ltac:(lia)). lia.
Qed.

(** The shadow pointer that mapping returns lies in the block it allocates,
    with room for every byte of the range, and is congruent to the mapped offset
    modulo the required alignment (a power of two), also when the 64-bit
    subtraction wraps around. *)
Theorem shadow_aligned base offset k real_size :
  0 <= k <= 64 -> is_u64 base -> 0 <= offset ->
  let alignment := 2 ^ k in
  let address := shadow_address base offset alignment in
  (address - offset) mod alignment = 0 /\ base <= address /\
  address + real_size <= base + (real_size + alignment - 1).
Proof.
  intros Hk Hb Ho alignment address.
  assert (0 < alignment) as Ha by (apply Z.pow_pos_nonneg; lia).
  pose proof (shadow_in_block base offset alignment Ha) as Hin. fold address in Hin.
  split_and!; [|lia|lia]. unfold address, shadow_address, alignment.
  rewrite Z.sub_1_r, <- Z.ones_equiv.
  rewrite !Z.land_ones by lia. unfold wrap64.
  assert ((2 ^ k | 18446744073709551616)) as Hdiv.
  { exists (2 ^ (64 - k)). rewrite <- Z.pow_add_r by lia. by replace (64 - k + k) with 64 by lia. }
  rewrite Z.mod_mod_divide by done.
  rewrite <- Zminus_mod_idemp_l, Zplus_mod_idemp_r, Zminus_mod_idemp_l.
  replace (base + (offset mod 2 ^ k - base) - offset) with (offset mod 2 ^ k - offset) by lia.
  rewrite Zminus_mod_idemp_l, Z.sub_diag. apply Zmod_0_l.
Qed.


Lemma existsb_memory mapped id : existsb (fun m => memory_id m =? id) mapped = false ->
  id ∉ map memory_id mapped.
Proof.
  intros He Hin. apply list_elem_of_fmap in Hin as (m & -> & Hm).
  assert (existsb (fun m' => memory_id m' =? memory_id m) mapped = true); [|congruence].
  apply existsb_exists. exists m. split; [by apply list_elem_of_In|apply Z.eqb_refl].
Qed.

Lemma resolve_new mapped id m size : id ∉ map memory_id mapped -> memory_id m = id ->
  0 <= size -> mr_size m = size -> forall k,
  resolve_range k (mapped ++ [m]) (mkRequest id (mr_offset m) size) =
    Some ((k + length mapped)%nat, mr_offset m, size) \/ size = VK_WHOLE_SIZE.
Proof.
  intros Hn Hm H0 Hs. induction mapped as [|m' mapped IH]; intros k; cbn [app resolve_range].
  - cbn [rq_memory rq_offset rq_size length]. rewrite Hm, Z.eqb_refl, Z.ltb_irrefl, Z.sub_diag. cbn [negb].
    rewrite Hs, (proj2 (Z.ltb_ge size 0)) by done. rewrite Z.sub_0_r.
    destruct (size =? VK_WHOLE_SIZE) eqn:E; bool_hyps; [by right|].
    left. by rewrite Z.ltb_irrefl, Nat.add_0_r.
  - apply not_elem_of_cons in Hn as [Hne Hn]. cbn [rq_memory].
    rewrite (proj2 (Z.eqb_neq (memory_id m') id)) by congruence. cbn [negb length].
    destruct (IH Hn (S k)) as [->|]; [left|by right]. do 3 f_equal. lia.
Qed.

Lemma make_ready_last mapped id m : id ∉ map memory_id mapped -> memory_id m = id ->
  make_ready id (mapped ++ [m]) =
  mapped ++ [mkRange (memory_id m) (mr_offset m) (mr_size m) (shadow m) (mr_emulated_coherent m) true (shadow m)].
Proof.
  intros Hn Hm. induction mapped as [|m' mapped IH]; cbn.
  - by rewrite Hm, Z.eqb_refl.
  - apply not_elem_of_cons in Hn as [Hne Hn]. rewrite (proj2 (Z.eqb_neq (memory_id m') id)) by congruence.
    by rewrite IH.
Qed.

(** Mapping emulated coherent memory starts coherent: when it succeeds there
    is one new mapping, of memory that was not mapped, ready for transfers, whose
    shadow and baseline are both the server's bytes of the range; the server is
    as it was. *)
Theorem map_starts_coherent (malloc : Z -> option (Z * list byte)) memories align mapped a mem
    memory offset size w address mapped' w' :
  atoms_ok memories -> memories !! memory = Some a -> ma_emulated_coherent a = true ->
  contents w memory = Some mem -> ma_size a = Z.of_nat (length mem) -> ma_size a < VK_WHOLE_SIZE ->
  0 <= offset -> is_u64 size -> NoDup (map memory_id mapped) ->
  (forall n base block, malloc n = Some (base, block) -> Z.of_nat (length block) = n) ->
  MapMemory remote_id malloc memories align mapped memory offset size w
    = ((VK_SUCCESS, Some address), mapped', w') ->
  exists m, mapped' = mapped ++ [m] /\ NoDup (map memory_id mapped') /\
    memory_id m = memory /\ mr_offset m = offset /\ transfer_ready m = true /\ mapping_ok m mem /\
    shadow m = server_window m mem /\ baseline m = shadow m /\ contents w' = contents w.
Proof.
  intros Hat Ha Hem Hc Hlen Hmax H0 Hu Hnd Hmalloc. unfold MapMemory.
  destruct (memory =? 0); [done|]. rewrite Ha.
  destruct (Z.land _ _ =? 0); [done|].
  destruct (resolve_allocation_range (ma_size a) offset size) as [real|] eqn:Hres; [|done].
  assert (0 < real /\ offset + real <= ma_size a) as [Hreal Hin].
  { unfold resolve_allocation_range in Hres. destruct (ma_size a <=? offset) eqn:E; [done|].
    destruct (size =? VK_WHOLE_SIZE); [injection Hres as <-; bool_hyps; lia|].
    destruct ((size =? 0) || _) eqn:E2; [done|]. injection Hres as <-. bool_hyps. unfold is_u64 in Hu. lia. }
  destruct (existsb _ mapped) eqn:Hex; [done|]. apply existsb_memory in Hex. rewrite Hem. cbn [negb].
  set (al := if alignof_pointer <? align then align else alignof_pointer) in *.
  destruct (u64_max - (al - 1) <? real); [done|].
  destruct (malloc (real + al - 1)) as [[base block]|] eqn:Hml; [|done].
  apply Hmalloc in Hml. pose proof (shadow_in_block base offset al ltac:(unfold al, alignof_pointer; case_if; bool_hyps; lia)) as Hadj.
  set (m0 := mkRange memory offset real _ true false _).
  assert (length (shadow m0) = Z.to_nat real) as Hsl.
  { unfold m0. cbn [shadow]. apply length_window. lia. }
  assert (mapping_ok m0 mem) as Hok0.
  { unfold mapping_ok. rewrite Hsl. unfold m0. cbn [mr_offset mr_size baseline].
    rewrite length_replicate. split_and!; unfold VK_WHOLE_SIZE, u64_max in *; lia. }
  cbn [download_mapped].
  destruct (resolve_new mapped memory m0 real Hex eq_refl ltac:(lia) eq_refl 0) as [Hrr|]; [|lia].
  change (mr_offset m0) with offset in Hrr. rewrite Hrr. cbn [Nat.add].
  rewrite (list_lookup_middle mapped [] m0) by done. change (mr_offset m0) with offset. rewrite Z.sub_diag.
  destruct (download_loop _ _ _ m0 0 real w) as [[res m1] w1] eqn:Hdl.
  destruct (res =? VK_SUCCESS) eqn:Hr; cbn [negb].
  2:{ rewrite Hr. cbn [negb]. done. }
  apply Z.eqb_eq in Hr as ->. rewrite Z.eqb_refl. cbn [negb]. intros [= <- <- <-].
  apply (download_loop_ok memories _ Hat m0 mem) in Hdl as [Hcw ->];
    [|done|done|lia|lia|unfold m0; cbn; lia].
  rewrite <- (Nat.add_0_r (length mapped)), insert_app_r. cbn [insert list_insert].
  rewrite make_ready_last by done.
  eexists. split; [done|]. cbn [memory_id mr_offset mr_size mr_emulated_coherent transfer_ready baseline shadow store_chunk].
  set (bytes := window (Z.to_nat (mr_offset m0 + 0)) (Z.to_nat real) mem).
  assert (length bytes = Z.to_nat real) as Hbl by (unfold bytes, m0; cbn [mr_offset]; apply length_window; lia).
  assert (patch (Z.to_nat 0) bytes (shadow m0) = bytes) as Hpb.
  { unfold patch. cbn [Z.to_nat take app]. rewrite drop_ge by lia. apply app_nil_r. }
  rewrite Hpb. split_and!; try done.
  - rewrite map_app. cbn. apply NoDup_app. split_and!; [done| |apply NoDup_singleton].
    intros x Hx ->%list_elem_of_singleton. done.
  - unfold mapping_ok. cbn [mr_offset mr_size shadow baseline]. rewrite Hbl. destruct Hok0 as (?&?&?&?&?).
    rewrite Hsl in *. split_and!; try lia; done.
  - unfold server_window. cbn [mr_offset shadow]. rewrite Hbl. unfold bytes. f_equal. unfold m0. cbn. lia.
Qed.

End Coherence.

Lemma runs_tight_witness :
  run_end [xaa; x02; xbb; x04] [x01; x02; x03; x04] 4 1 = 3%nat /\
  same [xaa; x02; xbb; x04] [x01; x02; x03; x04] 2 = false.
Proof.
  split; [by vm_compute|].
  destruct (runs_tight [xaa; x02; xbb; x04] [x01; x02; x03; x04] 0) as (_ & Hr & _); [cbn; lia|done|].
  exact Hr.
Defined.

Lemma shadow_aligned_witness :
  shadow_address 1000 2 16 = 1010 /\ (1010 - 2) mod 16 = 0.
Proof.
  split; [by vm_compute|]. change 1010 with (shadow_address 1000 2 (2 ^ 4)).
  apply (shadow_aligned 1000 2 4 100); [lia|by apply (bool_decide_unpack _)|lia].
Defined.
