(* ===== verification/Decode.v ===== *)
(** Decoding whole messages: what each [Reader] call returns on a message that
    starts with what the matching [Writer] call produced.  Used where a request
    or a reply of one component is decoded by another. *)

From stdpp Require Import list.
From S2P Require Import Prelude Wire Codec.
Import ReaderFacts.

(** A sound reader with [rest] left to read. *)
Definition at_rest (r : reader) (rest : list byte) : Prop :=
  Reader.wf r /\ m_failed r = false /\ Reader.unread r = rest.

Lemma at_make bs : at_rest (Reader.make bs) bs.
Proof. split; [apply make_wf|done]. Qed.

Lemma at_ok r rest : at_rest r rest -> Reader.ok r = true.
Proof. intros (_ & Hf & _). unfold Reader.ok. by rewrite Hf. Qed.

Lemma at_remaining r rest : at_rest r rest -> Reader.remaining r = length rest.
Proof. intros (_ & Hf & Hu). unfold Reader.remaining. by rewrite Hf, <- Hu, length_unread. Qed.

(** A primitive that always produces a value. *)
Lemma at_get {A} (m : reader -> A * reader) bs v r rest :
  reads_at rest (get m) bs v -> at_rest r (bs ++ rest) ->
  exists r', m r = (v, r') /\ at_rest r' rest.
Proof.
  intros Hm (Hw & Hf & Hu). pose proof (reads_at_elim _ _ _ _ r Hm Hw Hf Hu) as H.
  unfold get in H. destruct (m r) as [a r'] eqn:E. injection H as -> ->.
  eexists. split; [done|]. by apply (advance_ok _ r bs rest).
Qed.

Lemma at_u32 v r rest : is_u32 v -> at_rest r (Writer.u32 v ++ rest) ->
  exists r', Reader.u32 r = (v, r') /\ at_rest r' rest.
Proof. intros Hv. apply at_get. by apply reads_u32. Qed.

Lemma at_u64 v r rest : is_u64 v -> at_rest r (Writer.u64 v ++ rest) ->
  exists r', Reader.u64 r = (v, r') /\ at_rest r' rest.
Proof. intros Hv. apply at_get. by apply reads_u64. Qed.

Lemma at_handle v r rest : is_u64 v -> at_rest r (Writer.handle v ++ rest) ->
  exists r', Reader.handle r = (v, r') /\ at_rest r' rest.
Proof. intros Hv. apply at_get. by apply reads_handle. Qed.

Lemma at_i32 v r rest : is_i32 v -> at_rest r (Writer.i32 v ++ rest) ->
  exists r', Reader.i32 r = (v, r') /\ at_rest r' rest.
Proof. intros Hv. apply at_get. by apply reads_i32. Qed.

Lemma at_bytes max data r rest : Z.of_nat (length data) <= max -> is_u32 (Z.of_nat (length data)) ->
  at_rest r (Writer.bytes data ++ rest) ->
  exists r', Reader.bytes max r = (Some data, r') /\ at_rest r' rest.
Proof.
  intros Hm Hd (Hw & Hf & Hu).
  pose proof (reads_at_elim _ _ _ _ r (reads_bytes rest max data Hm Hd) Hw Hf Hu) as H.
  exists (Reader.advance (length (Writer.bytes data)) r). split; [exact H|].
  by apply (advance_ok _ r (Writer.bytes data) rest).
Qed.

(** [decode H]: one field; [H] then speaks of the reader after it. *)
Ltac decode H :=
  let field lemma :=
    let r := fresh "r" in let E := fresh "E" in
    apply lemma in H as (r & E & H); [rewrite ?E; clear E | try done ..] in
  lazymatch type of H with
  | at_rest _ (Writer.u32 _ ++ _) => field at_u32
  | at_rest _ (Writer.u64 _ ++ _) => field at_u64
  | at_rest _ (Writer.i32 _ ++ _) => field at_i32
  | at_rest _ (Writer.handle _ ++ _) => field at_handle
  | at_rest _ (Writer.bytes _ ++ _) => field at_bytes
  end.
