(* ===== verification/Session.v ===== *)
(** One message on the server: [Session] of [src/server/session.hpp], and the
    loop [Server::serve] of [src/server/session.cpp] that decodes headers,
    gates on the handshake, hands waits to the worker pool and runs handlers.

    A handler is a function on the session; [W] is the state of the Vulkan
    driver behind it. *)

From stdpp Require Import list gmap.
From S2P Require Import Prelude Wire Decode PNext Objects Workers.

(** A frame the server sends: opcode, payload and request id. *)
Definition frame : Type := Z * list byte * Z.

(** ** Session *)

(** session.hpp:139-155. *)
Record Session {W : Type} := mkSession {
  reader : Wire.reader; writer : list byte; tables : ObjectTables; oneway_errors : Z;
  opcode : Z; request_id : Z; replied : bool; close_connection : bool;
  sent : list frame; driver : W }.
Arguments Session : clear implicits.

Module Handler.
Section Ops.
Context {W : Type}.
Implicit Type c : Session W.

Definition set_reader (r : Wire.reader) c : Session W :=
  mkSession _ r (writer c) (tables c) (oneway_errors c) (opcode c) (request_id c) (replied c)
    (close_connection c) (sent c) (driver c).
Definition set_tables (t : ObjectTables) c : Session W :=
  mkSession _ (reader c) (writer c) t (oneway_errors c) (opcode c) (request_id c) (replied c)
    (close_connection c) (sent c) (driver c).
Definition set_driver (w : W) c : Session W :=
  mkSession _ (reader c) (writer c) (tables c) (oneway_errors c) (opcode c) (request_id c) (replied c)
    (close_connection c) (sent c) w.
(** [c.writer.u32(...)] and the like. *)
Definition write (bs : list byte) c : Session W :=
  mkSession _ (reader c) (writer c ++ bs) (tables c) (oneway_errors c) (opcode c) (request_id c)
    (replied c) (close_connection c) (sent c) (driver c).
Definition set_close c : Session W :=
  mkSession _ (reader c) (writer c) (tables c) (oneway_errors c) (opcode c) (request_id c) (replied c)
    true (sent c) (driver c).

(** session.hpp:157-167. *)
Definition reply c : Session W :=
  if replied c then c
  else
    mkSession _ (reader c) (writer c) (tables c) (oneway_errors c) (opcode c) (request_id c) true
      (close_connection c)
      (if request_id c =? 0 then sent c else sent c ++ [(opcode c, writer c, request_id c)])
      (driver c).

(** session.hpp:168-171. *)
Definition reply_status (s : Status) c : Session W := reply (write (Writer.u32 (status_code s)) c).

(** session.hpp:174-178. *)
Definition mark_oneway_error c : Session W :=
  mkSession _ (reader c) (writer c) (tables c) (wrap32 (oneway_errors c + 1)) (opcode c) (request_id c)
    (replied c) (close_connection c) (sent c) (driver c).

(** Reading a field advances the session's reader. *)
Definition rd {A} (f : Wire.reader -> A * Wire.reader) c : A * Session W :=
  let (v, r) := f (reader c) in (v, set_reader r c).

End Ops.

(** session.hpp:188-190. *)
Definition count_fits (r : Wire.reader) (count : Z) (min_wire_bytes : Z) : bool :=
  count <=? Z.of_nat (Reader.remaining r) / (if min_wire_bytes =? 0 then 1 else min_wire_bytes).

(** *** Replies *)

Section Facts.
Context {W : Type}.
Implicit Type c : Session W.

(** What a handler may do to the connection's output: nothing, or one frame that
    answers its own request. *)
Definition answers c c' : Prop :=
  opcode c' = opcode c /\ request_id c' = request_id c /\
  (replied c = true -> replied c' = true /\ sent c' = sent c) /\
  (replied c' = false -> sent c' = sent c) /\
  (sent c' = sent c \/
   (request_id c <> 0 /\ exists payload, sent c' = sent c ++ [(opcode c, payload, request_id c)])).

Lemma answers_refl c : answers c c.
Proof. unfold answers. tauto. Qed.

Lemma answers_trans c1 c2 c3 : answers c1 c2 -> answers c2 c3 -> answers c1 c3.
Proof.
  intros (O1 & I1 & R1 & N1 & S1) (O2 & I2 & R2 & N2 & S2). unfold answers.
  rewrite O1 in *. rewrite I1 in *. rewrite O2, I2. split_and!; try done.
  - intros H. destruct (R1 H) as [H2 E1]. destruct (R2 H2) as [H3 E2]. split; [done|congruence].
  - intros H. assert (replied c2 = false) as H2.
    { destruct (replied c2) eqn:E; [|done]. destruct (R2 eq_refl) as [? _]. congruence. }
    rewrite N2, N1 by done. done.
  - destruct S1 as [E1|(Hid & p & E1)].
    + rewrite <- E1. exact S2.
    + destruct (replied c2) eqn:E.
      * destruct (R2 eq_refl) as [_ ->]. right. by eauto.
      * specialize (N1 eq_refl). rewrite E1 in N1. apply (f_equal length) in N1.
        rewrite length_app in N1. cbn in N1. lia.
Qed.

(** Steps that leave the output alone. *)
Lemma answers_silent c c' : opcode c' = opcode c -> request_id c' = request_id c ->
  replied c' = replied c -> sent c' = sent c -> answers c c'.
Proof. intros Ho Hi Hr Hs. unfold answers. rewrite Ho, Hi, Hr, Hs. tauto. Qed.

Lemma answers_reply c : answers c (reply c).
Proof.
  unfold answers, reply. destruct (replied c) eqn:E; [rewrite E; tauto|]. cbn.
  split_and!; try done. destruct (request_id c =? 0) eqn:Ez; [by left|right].
  bool_hyps. split; [done|by eexists].
Qed.

Lemma answers_reply_status s c : answers c (reply_status s c).
Proof.
  eapply answers_trans; [|apply answers_reply]. by apply answers_silent.
Qed.

Lemma answers_rd {A} (f : Wire.reader -> A * Wire.reader) c : answers c (snd (rd f c)).
Proof. unfold rd. destruct (f (reader c)). by apply answers_silent. Qed.

(** A reply to a request that expects one. *)
Lemma reply_sent c : replied c = false -> request_id c <> 0 ->
  sent (reply c) = sent c ++ [(opcode c, writer c, request_id c)] /\ replied (reply c) = true.
Proof.
  intros Hr Hi. unfold reply. rewrite Hr. cbn. by rewrite (proj2 (Z.eqb_neq _ _) Hi).
Qed.

(** Counts that fit are backed by bytes of the message. *)
Lemma count_fits_spec r count min_wire_bytes : 0 <= count -> 0 < min_wire_bytes ->
  count_fits r count min_wire_bytes = true -> count * min_wire_bytes <= Z.of_nat (Reader.remaining r).
Proof.
  intros H0 Hm Hc. unfold count_fits in Hc. rewrite (proj2 (Z.eqb_neq _ 0)) in Hc by lia. bool_hyps.
  etrans; [apply Z.mul_le_mono_nonneg_r; [lia|done]|]. rewrite Z.mul_comm. apply Z.mul_div_le. lia.
Qed.

End Facts.
End Handler.

#[export] Hint Resolve Handler.answers_refl Handler.answers_reply Handler.answers_reply_status
  Handler.answers_rd : answers.

(** ** The connection's loop *)

(** The commands of the generated table that the loop treats itself. *)
Class LoopOpcodes := {
  Handshake : Z; Ping : Z; vkQueueWaitIdle : Z; vkDeviceWaitIdle : Z; vkWaitForFences : Z;
  vkWaitSemaphores : Z;
  loop_opcodes_distinct :
    NoDup [Handshake; Ping; vkQueueWaitIdle; vkDeviceWaitIdle; vkWaitForFences; vkWaitSemaphores] }.

(** What a job submitted to the pool captures. *)
Inductive WaitJob :=
  | IdleJob (queue device errors : Z)
  | FenceJob (device : Z) (wait_all : bool) (timeout : Z) (fences : list Z)
  | SemaphoreJob (device flags timeout : Z) (semaphores : list (Z * Z)).

(** The state of [serve]: its locals, the frames sent and the jobs accepted. *)
Record Loop {W : Type} := mkLoop {
  l_tables : ObjectTables; l_errors : Z; handshake_complete : bool; workers : RequestWorkers.t;
  jobs : list (Z * WaitJob); l_sent : list frame; l_driver : W }.
Arguments Loop : clear implicits.

Section Serve.
Context `{LoopOpcodes}.
Context {W : Type}.

(** [find_handler], the table the handlers register themselves in. *)
Variable find_handler : Z -> option (Session W -> Session W).

(** [vkGetDeviceProcAddr(device, "vkWaitSemaphores")] is not null. *)
Variable has_vkWaitSemaphores : Z -> W -> bool.

Implicit Type l : Loop W.

(** A [Session] on this message.

    session.cpp:890-893. *)
Definition new_session (h : MessageHeader) (payload : list byte) l : Session W :=
  mkSession _ (Reader.make payload) [] (l_tables l) (l_errors l) (Wire.opcode h) (Wire.request_id h)
    false false (l_sent l) (l_driver l).

(** What a session leaves in the connection. *)
Definition leave (c : Session W) l : Loop W :=
  mkLoop _ (tables c) (oneway_errors c) (handshake_complete l) (workers l) (jobs l) (sent c) (driver c).

Definition send (f : frame) l : Loop W :=
  mkLoop _ (l_tables l) (l_errors l) (handshake_complete l) (workers l) (jobs l) (l_sent l ++ [f])
    (l_driver l).

Definition status_payload (s : Status) : list byte := Writer.u32 (status_code s).

(** The replies of the loop itself.

    session.cpp:672-675. *)
Definition refuse (s : Status) (h : MessageHeader) l : Loop W :=
  leave (Handler.reply_status s (new_session h [] l)) l.

(** session.cpp:637-647. *)
Definition on_ping (h : MessageHeader) (payload : list byte) l : Loop W :=
  let status := if negb (Wire.request_id h =? 0) && (length payload =? 0)%nat then Ok else DecodeError in
  if negb (Wire.request_id h =? 0)
  then send (Wire.opcode h, status_payload status, Wire.request_id h) l else l.

(** The submission of a decoded wait; a refusal is answered at once.

    session.cpp:707-713. *)
Definition submit_wait (h : MessageHeader) (job : WaitJob) (lane : Z) l : Loop W :=
  let (submitted, ws) := RequestWorkers.submit (workers l) (Wire.request_id h) lane in
  if submitted
  then mkLoop _ (l_tables l) (l_errors l) (handshake_complete l) ws
         (jobs l ++ [(Wire.request_id h, job)]) (l_sent l) (l_driver l)
  else send (Wire.opcode h, status_payload DecodeError, Wire.request_id h) l.

Definition clear_errors l : Loop W :=
  mkLoop _ (l_tables l) 0 (handshake_complete l) (workers l) (jobs l) (l_sent l) (l_driver l).

(** session.cpp:660-715. *)
Definition on_idle (h : MessageHeader) (payload : list byte) l : Loop W :=
  let (object_id, r) := Reader.handle (Reader.make payload) in
  let is_queue := Wire.opcode h =? vkQueueWaitIdle in
  let is_device := Wire.opcode h =? vkDeviceWaitIdle in
  let queue := if is_queue then Table.get (table (l_tables l) queues) object_id else 0 in
  let device := if is_device then Table.get (table (l_tables l) devices) object_id else 0 in
  if negb (Wire.request_id h =? 0) && Reader.ok r && (Reader.remaining r =? 0)%nat
     && (negb (queue =? 0) || negb (device =? 0))
  then
    let errors := if is_device then l_errors l else 0 in
    let l := if is_device then clear_errors l else l in
    submit_wait h (IdleJob queue device errors) (if negb (queue =? 0) then queue else 0) l
  else refuse DecodeError h l.

(** The loop over the fences: the handles while all are valid.

    session.cpp:724-728. *)
Fixpoint read_fences (t : ObjectTables) (n : nat) (r : Wire.reader) : bool * list Z * Wire.reader :=
  match n with
  | O => (true, [], r)
  | S n =>
      let (id, r) := Reader.handle r in
      let fence := Table.get (table t fences) id in
      if fence =? 0 then (false, [], r)
      else let '(valid, rest, r) := read_fences t n r in (valid, fence :: rest, r)
  end.

(** session.cpp:717-789. *)
Definition on_wait_fences (h : MessageHeader) (payload : list byte) l : Loop W :=
  let (device_id, r) := Reader.handle (Reader.make payload) in
  let device := Table.get (table (l_tables l) devices) device_id in
  let (wait_all, r) := Reader.u32 r in
  let (count, r) := Reader.u32 r in
  if negb (Wire.request_id h =? 0) && negb (device =? 0) && negb (count =? 0)
     && (count <=? kMaxArrayElements) && Handler.count_fits r count 8
  then
    let '(valid, handles, r) := read_fences (l_tables l) (Z.to_nat count) r in
    if valid then
      let (timeout, r) := Reader.u64 r in
      if Reader.ok r && (Reader.remaining r =? 0)%nat
      then submit_wait h (FenceJob device (negb (wait_all =? 0)) timeout handles) 0 l
      else refuse DecodeError h l
    else refuse DecodeError h l
  else refuse DecodeError h l.

(** session.cpp:809-815. *)
Fixpoint read_semaphores (t : ObjectTables) (n : nat) (r : Wire.reader) :
    bool * list (Z * Z) * Wire.reader :=
  match n with
  | O => (true, [], r)
  | S n =>
      let (id, r) := Reader.handle r in
      let semaphore := Table.get (table t semaphores) id in
      let (value, r) := Reader.u64 r in
      if semaphore =? 0 then (false, [], r)
      else let '(valid, rest, r) := read_semaphores t n r in (valid, (semaphore, value) :: rest, r)
  end.

(** session.cpp:791-888. *)
Definition on_wait_semaphores (h : MessageHeader) (payload : list byte) l : Loop W :=
  if Wire.request_id h =? 0 then refuse DecodeError h l
  else
    let (device_id, r) := Reader.handle (Reader.make payload) in
    let device := Table.get (table (l_tables l) devices) device_id in
    let (flags, r) := Reader.u32 r in
    let (count, r) := Reader.u32 r in
    if negb (device =? 0) && (count <=? kMaxArrayElements) && Handler.count_fits r count 16
    then
      let '(valid, handles, r) := read_semaphores (l_tables l) (Z.to_nat count) r in
      if valid then
        let (timeout, r) := Reader.u64 r in
        if Reader.ok r && (Reader.remaining r =? 0)%nat then
          if has_vkWaitSemaphores device (l_driver l)
          then submit_wait h (SemaphoreJob device flags timeout handles) 0 l
          else refuse UnsupportedCommand h l
        else refuse DecodeError h l
      else refuse DecodeError h l
    else refuse DecodeError h l.

Definition complete_handshake l : Loop W :=
  mkLoop _ (l_tables l) (l_errors l) true (workers l) (jobs l) (l_sent l) (l_driver l).

(** The state after the handler, and whether the loop goes on.

    session.cpp:890-902. *)
Definition on_command (handler : Session W -> Session W) (h : MessageHeader) (payload : list byte) l :
    bool * Loop W :=
  let c := handler (new_session h payload l) in
  let l := leave c l in
  let l := if (Wire.opcode h =? Handshake) && negb (close_connection c) then complete_handshake l else l in
  (negb (close_connection c), l).

(** One turn of the loop: [None] when it ends without serving the message.

    session.cpp:628-903. *)
Definition on_message (h : MessageHeader) (payload : list byte) l : option (bool * Loop W) :=
  let opcode := Wire.opcode h in
  if negb (handshake_complete l) && negb (opcode =? Handshake) then None
  else if handshake_complete l && (opcode =? Handshake) then None
  else if (opcode =? Handshake) && (Wire.request_id h =? 0) then None
  else if opcode =? Ping then Some (true, on_ping h payload l)
  else match find_handler opcode with
  | None => Some (true, refuse UnsupportedCommand h l)
  | Some handler =>
      if (opcode =? vkQueueWaitIdle) || (opcode =? vkDeviceWaitIdle) then Some (true, on_idle h payload l)
      else if opcode =? vkWaitForFences then Some (true, on_wait_fences h payload l)
      else if opcode =? vkWaitSemaphores then Some (true, on_wait_semaphores h payload l)
      else Some (on_command handler h payload l)
  end.

(** The messages until the loop ends.

    session.cpp:616-628. *)
Fixpoint serve (messages : list (MessageHeader * list byte)) l : Loop W :=
  match messages with
  | [] => l
  | (h, payload) :: messages =>
      match on_message h payload l with
      | None => l
      | Some (goes_on, l) => if goes_on then serve messages l else l
      end
  end.

(** What the end of the connection does: the pool stops, then everything the
    connection created is destroyed.

    session.cpp:905-907. *)
Definition disconnect l : RequestWorkers.t * (ObjectTables * list driver_call) :=
  (RequestWorkers.stop (workers l), destroy_session_objects (l_tables l)).

(** ** The jobs *)

Definition VK_TIMEOUT : Z := 2.
Definition VK_ERROR_DEVICE_LOST : Z := -4.

(** session.cpp:743-743. *)
Definition kSliceNs : Z := 100000000.

(** What one turn of the wait loop sees: the flag [closing], the nanoseconds
    since the start, and the result of the driver's wait. *)
Record observation := mkObservation { ob_closing : bool; ob_spent : Z; ob_result : Z }.

(** The sliced wait: its result and the slices it waited; [None] while it has
    not ended.

    session.cpp:743-764. *)
Fixpoint wait_loop (obs : list observation) (timeout : Z) (first : bool) (result : Z) :
    option (Z * list Z) :=
  match obs with
  | [] => None
  | o :: obs =>
      if ob_closing o then Some (VK_ERROR_DEVICE_LOST, [])
      else if negb (timeout =? u64_max) && negb first && (timeout <=? ob_spent o) then Some (result, [])
      else
        let slice := if timeout =? u64_max then kSliceNs
                     else if timeout <=? ob_spent o then 0
                     else Z.min kSliceNs (timeout - ob_spent o) in
        if negb (ob_result o =? VK_TIMEOUT) then Some (ob_result o, [slice])
        else match wait_loop obs timeout false (ob_result o) with
             | None => None
             | Some (r, slices) => Some (r, slice :: slices)
             end
  end.

(** The frame a finished job sends.

    session.cpp:690-696. *)
Definition job_frame (id : Z) (job : WaitJob) (result : Z) : frame :=
  let head := status_payload Ok ++ Writer.i32 result in
  match job with
  | IdleJob queue device errors =>
      if negb (queue =? 0) then (vkQueueWaitIdle, head, id)
      else (vkDeviceWaitIdle, head ++ Writer.u32 errors, id)
  | FenceJob _ _ _ _ => (vkWaitForFences, head, id)
  | SemaphoreJob _ _ _ _ => (vkWaitSemaphores, head, id)
  end.

End Serve.

(** ** Waiting *)

(** A turn that neither finds the connection closing or the timeout passed nor
    has a result from the driver. *)
Definition waits_on (timeout : Z) (i : nat) (o : observation) : Prop :=
  ob_closing o = false /\ (timeout = u64_max \/ i = 0%nat \/ ob_spent o < timeout) /\ ob_result o = VK_TIMEOUT.

(** How the last turn ends the wait, after it the slices of [n] turns. *)
Definition ends_wait (timeout : Z) (i : nat) (o : observation) (result : Z) (n : nat) : Prop :=
  if ob_closing o then result = VK_ERROR_DEVICE_LOST /\ n = i
  else if decide (timeout = u64_max \/ i = 0%nat \/ ob_spent o < timeout)
  then ob_result o <> VK_TIMEOUT /\ result = ob_result o /\ n = S i
  else result = VK_TIMEOUT /\ n = i.

(** A slice of the turn: within 100 ms and the timeout, and not empty while the
    timeout has not passed. *)
Definition slice_ok (timeout : Z) (o : observation) (slice : Z) : Prop :=
  0 <= slice <= kSliceNs /\
  (timeout <> u64_max -> ob_spent o + slice <= Z.max timeout (ob_spent o)) /\
  (timeout = u64_max \/ ob_spent o < timeout -> 0 < slice).

Lemma wait_loop_spec timeout result : is_u64 timeout -> forall obs first i slices,
  first = bool_decide (i = 0%nat) -> Forall (fun o => 0 <= ob_spent o) obs ->
  wait_loop obs timeout first VK_TIMEOUT = Some (result, slices) ->
  (forall k s, slices !! k = Some s -> exists o, obs !! k = Some o /\ slice_ok timeout o s) /\
  exists n o, obs !! n = Some o /\
    (forall k o', (k < n)%nat -> obs !! k = Some o' -> waits_on timeout (i + k) o') /\
    ends_wait timeout (i + n) o result (i + length slices).
Proof.
  intros Hu. induction obs as [|o obs IH]; intros first i slices Hf Hs; cbn [wait_loop]; [done|].
  apply Forall_cons in Hs as [Ho Hs].
  assert (forall k o', (k < 0)%nat -> (o :: obs) !! k = Some o' -> waits_on timeout (i + k) o') as Hnone
    by (intros; lia).
  destruct (ob_closing o) eqn:Ec.
  { intros [= <- <-]. split; [by intros|]. exists 0%nat, o. split; [done|]. split; [done|].
    unfold ends_wait. rewrite Ec. split; [done|cbn; lia]. }
  destruct (negb (timeout =? u64_max) && negb first && (timeout <=? ob_spent o)) eqn:Estop.
  { intros [= <- <-]. rewrite !andb_true_iff, !negb_true_iff in Estop. destruct Estop as [[E1 E2] E3].
    apply Z.eqb_neq in E1. apply Z.leb_le in E3. subst first. apply bool_decide_eq_false in E2.
    split; [by intros|]. exists 0%nat, o. split; [done|]. split; [done|].
    unfold ends_wait. rewrite Ec, decide_False by lia. split; [done|cbn; lia]. }
  assert (timeout = u64_max \/ (i + 0)%nat = 0%nat \/ ob_spent o < timeout) as Hgo.
  { subst first. destruct (decide (timeout = u64_max)) as [|Hne]; [by left|right].
    rewrite (proj2 (Z.eqb_neq _ _) Hne) in Estop. cbn in Estop.
    destruct (decide (i = 0%nat)) as [->|Hi]; [by left|right].
    rewrite bool_decide_false in Estop by done. cbn in Estop. by apply Z.leb_gt. }
  set (slice := if timeout =? u64_max then kSliceNs else _).
  assert (slice_ok timeout o slice) as Hsl.
  { unfold slice_ok, slice, kSliceNs, is_u64, u64_max in *. destruct (timeout =? _) eqn:E1; bool_hyps; [lia|].
    destruct (timeout <=? ob_spent o) eqn:E2; bool_hyps; lia. }
  destruct (negb (ob_result o =? VK_TIMEOUT)) eqn:Er; bool_hyps.
  { intros [= <- <-]. split.
    - intros [|k] s Hk; cbn in Hk; [injection Hk as <-; by exists o|done].
    - exists 0%nat, o. split; [done|]. split; [done|]. unfold ends_wait.
      rewrite Ec, decide_True by done. cbn. split_and!; [done|done|lia]. }
  rewrite Er. destruct (wait_loop obs timeout false VK_TIMEOUT) as [[r sl]|] eqn:Hw; [|done].
  intros [= -> <-].
  destruct (IH false (S i) sl ltac:(by rewrite bool_decide_false) Hs Hw) as (H2 & n & o' & Hn & Hb & He).
  split.
  - intros [|k] s Hk; cbn in Hk; [injection Hk as <-; by exists o|by apply H2].
  - exists (S n), o'. split; [done|]. split.
    + intros [|k] o1 Hk Hl; cbn in Hl; [injection Hl as <-; by split_and!|].
      replace (i + S k)%nat with (S i + k)%nat by lia. apply Hb; [lia|done].
    + replace (i + S n)%nat with (S i + n)%nat by lia.
      replace (i + length (slice :: sl))%nat with (S i + length sl)%nat by (cbn; lia). done.
Qed.

(** C40: The sliced wait keeps the contract of the call it stands for. No slice
    is longer than 100 ms or reaches past the timeout, and none is empty before
    it. Turn after turn the driver is asked again while the connection is not
    closing, the timeout has not passed (the first turn asks whatever it is) and
    the driver says VK_TIMEOUT. The first turn that is not so ends the wait: with
    VK_ERROR_DEVICE_LOST exactly when it finds the connection closing, without
    asking the driver; else with VK_TIMEOUT when the timeout has passed, also
    without asking; else with the driver's own result. *)
Theorem wait_honours_timeout obs timeout result slices :
  is_u64 timeout -> Forall (fun o => 0 <= ob_spent o) obs ->
  wait_loop obs timeout true VK_TIMEOUT = Some (result, slices) ->
  (forall k s, slices !! k = Some s -> exists o, obs !! k = Some o /\ slice_ok timeout o s) /\
  exists n o, obs !! n = Some o /\
    (forall k o', (k < n)%nat -> obs !! k = Some o' -> waits_on timeout k o') /\
    ends_wait timeout n o result (length slices).
Proof. intros Hu Hs Hw. by apply (wait_loop_spec timeout result Hu obs true 0). Qed.

(** The sliced wait ends: if, after its first turn, some turn finds the
    connection closing, the finite timeout passed, or a result other than
    VK_TIMEOUT from the driver, it returns, within that many turns. *)
Theorem wait_ends obs timeout first result k o :
  obs !! k = Some o -> (0 < k)%nat ->
  ob_closing o = true \/ (timeout <> u64_max /\ timeout <= ob_spent o) \/ ob_result o <> VK_TIMEOUT ->
  exists r slices, wait_loop obs timeout first result = Some (r, slices) /\ (length slices <= S k)%nat.
Proof.
  revert obs first result. induction k as [|k IH]; [lia|]. intros [|o1 obs] first result Ho _ Hend; [done|].
  cbn [wait_loop]. cbn in Ho.
  destruct (ob_closing o1); [by exists VK_ERROR_DEVICE_LOST, []; split; [|cbn; lia]|].
  destruct (negb (timeout =? u64_max) && negb first && (timeout <=? ob_spent o1));
    [by exists result, []; split; [|cbn; lia]|].
  destruct (negb (ob_result o1 =? VK_TIMEOUT)); [by eexists _, [_]; split; [|cbn; lia]|].
  assert (exists r slices, wait_loop obs timeout false (ob_result o1) = Some (r, slices) /\
            (length slices <= S k)%nat) as (r & slices & -> & Hl).
  { destruct k as [|k]; [|by apply (IH obs false _); [done|lia|done]].
    destruct obs as [|o2 obs]; [done|]. cbn in Ho. injection Ho as ->. cbn [wait_loop].
    destruct (ob_closing o) eqn:Ec; [by exists VK_ERROR_DEVICE_LOST, []; split; [|cbn; lia]|].
    destruct (negb (timeout =? u64_max) && negb false && (timeout <=? ob_spent o)) eqn:Es;
      [by eexists _, []; split; [|cbn; lia]|].
    destruct Hend as [|[[Hne Ht]|Hr]]; [done| |].
    - rewrite (proj2 (Z.eqb_neq _ _) Hne), (proj2 (Z.leb_le _ _) Ht) in Es. done.
    - rewrite (proj2 (Z.eqb_neq _ _) Hr). by eexists _, [_]; split; [|cbn; lia]. }
  eexists r, (_ :: slices). split; [done|cbn; lia].
Qed.

(** ** The loop *)
Section LoopFacts.
Context `{LoopOpcodes} {W : Type}.
Variable find_handler : Z -> option (Session W -> Session W).
Variable has_vkWaitSemaphores : Z -> W -> bool.

(** The frames and jobs that answer request [id]. *)
Definition count {A} (key : A -> Z) (id : Z) (xs : list A) : nat :=
  length (filter (fun x => key x = id) xs).

Definition answers_of (id : Z) (l : Loop W) : nat :=
  (count snd id (l_sent l) + count fst id (jobs l))%nat.

(** One message adds at most one answer, its own. *)
Definition one_answer (id : Z) (l l' : Loop W) : Prop :=
  (l_sent l' = l_sent l /\ jobs l' = jobs l) \/
  (id <> 0 /\
   ((exists op payload, l_sent l' = l_sent l ++ [(op, payload, id)] /\ jobs l' = jobs l) \/
    (exists job, l_sent l' = l_sent l /\ jobs l' = jobs l ++ [(id, job)] /\
       id ∉ RequestWorkers.active_ids (workers l)))).

(** ... exactly one. *)
Definition answered (id : Z) (l l' : Loop W) : Prop :=
  (exists op payload, l_sent l' = l_sent l ++ [(op, payload, id)] /\ jobs l' = jobs l) \/
  (exists job, l_sent l' = l_sent l /\ jobs l' = jobs l ++ [(id, job)]).

Lemma refuse_answer s h l : one_answer (Wire.request_id h) l (refuse s h l) /\
  (Wire.request_id h <> 0 -> answered (Wire.request_id h) l (refuse s h l)).
Proof.
  unfold refuse, one_answer, answered, Handler.reply_status, Handler.reply. cbn.
  destruct (Wire.request_id h =? 0) eqn:E; bool_hyps.
  - split; [by left|done].
  - split; [right; split; [done|]; left|intros _; left]; by eexists _, _.
Qed.

Lemma submit_wait_answer h job lane l : Wire.request_id h <> 0 ->
  one_answer (Wire.request_id h) l (submit_wait h job lane l) /\
  answered (Wire.request_id h) l (submit_wait h job lane l).
Proof.
  intros Hid. unfold submit_wait.
  destruct (RequestWorkers.submit (workers l) (Wire.request_id h) lane) as [[|] ws] eqn:Hs.
  - apply RequestWorkers.submit_accepts in Hs as (_ & Hn & _). cbn.
    split; [right; split; [done|]; right|right]; by eexists.
  - cbn. split; [right; split; [done|]; left|left]; by eexists _, _.
Qed.

(** Clearing the error counter adds no answer. *)
Lemma submit_cleared_answer h job lane l : Wire.request_id h <> 0 ->
  one_answer (Wire.request_id h) l (submit_wait h job lane (clear_errors l)) /\
  answered (Wire.request_id h) l (submit_wait h job lane (clear_errors l)).
Proof. intros Hid. exact (submit_wait_answer h job lane (clear_errors l) Hid). Qed.

Lemma on_idle_answer h payload l :
  one_answer (Wire.request_id h) l (on_idle h payload l) /\
  (Wire.request_id h <> 0 -> answered (Wire.request_id h) l (on_idle h payload l)).
Proof.
  unfold on_idle. destruct (Reader.handle _) as [object_id r].
  destruct (negb (Wire.request_id h =? 0) && _ && _ && _) eqn:E; [|apply refuse_answer].
  bool_hyps. destruct (Wire.opcode h =? vkDeviceWaitIdle).
  - split; [|intros _]; by apply submit_cleared_answer.
  - split; [|intros _]; by apply submit_wait_answer.
Qed.

Lemma on_wait_fences_answer h payload l :
  one_answer (Wire.request_id h) l (on_wait_fences h payload l) /\
  (Wire.request_id h <> 0 -> answered (Wire.request_id h) l (on_wait_fences h payload l)).
Proof.
  unfold on_wait_fences. destruct (Reader.handle _) as [d r]. destruct (Reader.u32 r) as [wa r1].
  destruct (Reader.u32 r1) as [n r2].
  destruct (negb (Wire.request_id h =? 0) && _ && _ && _ && _) eqn:E; [|apply refuse_answer].
  destruct (read_fences _ _ _) as [[[|] hs] r3]; [|apply refuse_answer].
  destruct (Reader.u64 r3) as [t r4]. destruct (Reader.ok r4 && _); [|apply refuse_answer].
  bool_hyps. split; [|intros _]; by apply submit_wait_answer.
Qed.

Lemma on_wait_semaphores_answer h payload l :
  one_answer (Wire.request_id h) l (on_wait_semaphores has_vkWaitSemaphores h payload l) /\
  (Wire.request_id h <> 0 ->
   answered (Wire.request_id h) l (on_wait_semaphores has_vkWaitSemaphores h payload l)).
Proof.
  unfold on_wait_semaphores. destruct (Wire.request_id h =? 0) eqn:Hid; [apply refuse_answer|].
  destruct (Reader.handle _) as [d r]. destruct (Reader.u32 r) as [fl r1]. destruct (Reader.u32 r1) as [n r2].
  destruct (_ && _ && _); [|apply refuse_answer].
  destruct (read_semaphores _ _ _) as [[[|] hs] r3]; [|apply refuse_answer].
  destruct (Reader.u64 r3) as [t r4]. destruct (Reader.ok r4 && _); [|apply refuse_answer].
  destruct (has_vkWaitSemaphores _ _); [|apply refuse_answer].
  bool_hyps. split; [|intros _]; by apply submit_wait_answer.
Qed.

Lemma on_ping_answer h payload l :
  one_answer (Wire.request_id h) l (on_ping h payload l) /\
  (Wire.request_id h <> 0 -> answered (Wire.request_id h) l (on_ping h payload l)).
Proof.
  unfold on_ping. destruct (Wire.request_id h =? 0) eqn:E; cbn [negb]; bool_hyps.
  - split; [by left|done].
  - split; [right; split; [done|]; left|intros _; left]; by eexists _, _.
Qed.

Lemma on_command_answer f h payload l : (forall c, Handler.answers c (f c)) ->
  one_answer (Wire.request_id h) l (snd (on_command f h payload l)).
Proof.
  intros Hf. unfold on_command. destruct (Hf (new_session h payload l)) as (_ & _ & _ & _ & Hs).
  assert (forall l0, one_answer (Wire.request_id h) l l0 ->
            one_answer (Wire.request_id h) l (complete_handshake l0)) as Hc by (intros; done).
  cbn [snd]. destruct (_ && _); [apply Hc|]; unfold one_answer, leave; cbn in *;
    (destruct Hs as [->|(? & p & ->)]; [by left|right; split; [done|]; left; by eexists _, _]).
Qed.

Lemma on_message_answer h payload l b l' :
  (forall f, find_handler (Wire.opcode h) = Some f -> forall c, Handler.answers c (f c)) ->
  on_message find_handler has_vkWaitSemaphores h payload l = Some (b, l') ->
  one_answer (Wire.request_id h) l l'.
Proof.
  intros Hha. unfold on_message. repeat (destruct (_ && _); [done|]).
  destruct (Wire.opcode h =? Ping); [intros [= <- <-]; apply on_ping_answer|].
  destruct (find_handler (Wire.opcode h)) as [f|] eqn:Hf; [|intros [= <- <-]; apply refuse_answer].
  destruct (_ || _); [intros [= <- <-]; apply on_idle_answer|].
  destruct (_ =? vkWaitForFences); [intros [= <- <-]; apply on_wait_fences_answer|].
  destruct (_ =? vkWaitSemaphores); [intros [= <- <-]; apply on_wait_semaphores_answer|].
  intros Hoc. apply (inj Some) in Hoc. pose proof (on_command_answer f h payload l (Hha f eq_refl)) as Hoca.
  by rewrite Hoc in Hoca.
Qed.

Lemma count_snoc {A} (key : A -> Z) id xs x :
  count key id (xs ++ [x]) = (count key id xs + if decide (key x = id) then 1 else 0)%nat.
Proof. unfold count. rewrite filter_app, length_app, filter_cons. by case_decide. Qed.

Lemma one_answer_counts id id' l l' : one_answer id l l' ->
  (answers_of id' l' <= answers_of id' l + (if decide (id = id') then 1 else 0))%nat /\
  (id' = 0 -> answers_of id' l' = answers_of id' l).
Proof.
  unfold answers_of. intros [[-> ->]|[Hid [(op & p & -> & ->)|(job & -> & -> & _)]]]; [split; [lia|done]| |];
    rewrite count_snoc; cbn [snd fst];
    (split; [|intros ->]; case_decide; first [lia|congruence]).
Qed.

(** The messages of a request. *)
Definition requests_of (id : Z) (messages : list (MessageHeader * list byte)) : nat :=
  count (fun m => Wire.request_id m.1) id messages.

(** When the handlers of the messages answer at most once, so does the loop. *)
Lemma serve_answers id messages : forall l,
  (forall h payload f, (h, payload) ∈ messages -> find_handler (Wire.opcode h) = Some f ->
     forall c, Handler.answers c (f c)) ->
  (answers_of id (serve find_handler has_vkWaitSemaphores messages l) <=
     answers_of id l + requests_of id messages)%nat /\
  answers_of 0 (serve find_handler has_vkWaitSemaphores messages l) = answers_of 0 l.
Proof.
  induction messages as [|[h payload] messages IH]; intros l Hha; cbn [serve]; [split; [lia|done]|].
  assert (requests_of id ((h, payload) :: messages) =
          (if decide (Wire.request_id h = id) then 1 else 0) + requests_of id messages)%nat as ->
    by (unfold requests_of, count; rewrite filter_cons; repeat case_decide; first [done|congruence]).
  destruct (on_message _ _ h payload l) as [[b l1]|] eqn:E; [|split; [lia|done]].
  apply on_message_answer in E; [|intros f Hf; apply (Hha h payload f); [left|done]].
  destruct (one_answer_counts _ id _ _ E) as [Hc _].
  destruct (one_answer_counts _ 0 _ _ E) as [_ H0]. specialize (H0 eq_refl).
  assert (forall h payload f, (h, payload) ∈ messages -> find_handler (Wire.opcode h) = Some f ->
            forall c, Handler.answers c (f c)) as Hrest by (intros h' p' f Hin; apply (Hha h' p' f); by right).
  destruct b; [destruct (IH l1 Hrest) as [H1 H2]; split; [lia|congruence]|split; [lia|done]].
Qed.

(** C39: Once the handshake is done, the loop never drops a request it treats
    itself: a ping, a command no
    handler is registered for, or a wait, with a request id, is answered at once
    or its wait is accepted by the pool, exactly one of the two, also when it is
    malformed or the pool is full; and the loop goes on. *)
Theorem loop_requests_answered h payload l :
  handshake_complete l = true -> Wire.opcode h <> Handshake -> Wire.request_id h <> 0 ->
  Wire.opcode h = Ping \/ find_handler (Wire.opcode h) = None \/
  Wire.opcode h ∈ [vkQueueWaitIdle; vkDeviceWaitIdle; vkWaitForFences; vkWaitSemaphores] ->
  exists l', on_message find_handler has_vkWaitSemaphores h payload l = Some (true, l') /\
    answered (Wire.request_id h) l l'.
Proof.
  intros Hh Ho Hid Hop. unfold on_message. rewrite Hh, (proj2 (Z.eqb_neq _ _) Ho). cbn [negb andb].
  destruct (Wire.opcode h =? Ping) eqn:Ep; [eexists; split; [done|by apply on_ping_answer]|].
  apply Z.eqb_neq in Ep.
  destruct (find_handler (Wire.opcode h)) as [f|] eqn:Hf;
    [|eexists; split; [done|by apply refuse_answer]].
  destruct ((Wire.opcode h =? vkQueueWaitIdle) || (Wire.opcode h =? vkDeviceWaitIdle)) eqn:E1;
    [eexists; split; [done|by apply on_idle_answer]|].
  destruct (Wire.opcode h =? vkWaitForFences) eqn:E2;
    [eexists; split; [done|by apply on_wait_fences_answer]|].
  destruct (Wire.opcode h =? vkWaitSemaphores) eqn:E3;
    [eexists; split; [done|by apply on_wait_semaphores_answer]|].
  exfalso. bool_hyps. destruct Hop as [|[|Hin]]; [done|done|].
  rewrite !elem_of_cons in Hin. by destruct Hin as [|[|[|[|Hin]]]]; [..|apply not_elem_of_nil in Hin].
Qed.

(** The handshake gates everything: until one has been served, any other
    first message ends the connection with nothing sent, created or accepted;
    once one has, a second one ends it. *)
Theorem handshake_gates h payload messages l :
  (handshake_complete l = false -> Wire.opcode h <> Handshake ->
   serve find_handler has_vkWaitSemaphores ((h, payload) :: messages) l = l) /\
  (handshake_complete l = true -> Wire.opcode h = Handshake ->
   serve find_handler has_vkWaitSemaphores ((h, payload) :: messages) l = l) /\
  (Wire.opcode h = Handshake -> Wire.request_id h = 0 ->
   serve find_handler has_vkWaitSemaphores ((h, payload) :: messages) l = l).
Proof.
  cbn [serve]. unfold on_message. split_and!.
  - intros -> Ho. by rewrite (proj2 (Z.eqb_neq _ _) Ho).
  - intros -> ->. by rewrite Z.eqb_refl.
  - intros -> ->. rewrite Z.eqb_refl. by destruct (handshake_complete l).
Qed.

(** A device wait the pool refuses loses the errors it should have reported:
    the one-way error counter is reset although the refusal does not carry it. *)
Theorem refused_idle_loses_errors h object_id (l : Loop W) :
  Wire.opcode h = vkDeviceWaitIdle -> Wire.request_id h <> 0 -> is_u64 object_id ->
  Table.get (table (l_tables l) devices) object_id <> 0 ->
  RequestWorkers.stopping (workers l) = false ->
  (RequestWorkers.kMaxJobs <= size (RequestWorkers.active_ids (workers l)))%nat ->
  let l' := on_idle h (Writer.handle object_id) l in
  l_errors l' = 0 /\ jobs l' = jobs l /\
  l_sent l' = l_sent l ++ [(vkDeviceWaitIdle, status_payload DecodeError, Wire.request_id h)].
Proof.
  intros Ho Hid Hu Hd Hst Hfull. unfold on_idle.
  pose proof (at_make (Writer.handle object_id ++ [])) as Hat.
  rewrite (app_nil_r (Writer.handle object_id)) in Hat at 1. decode Hat.
  rewrite Ho, Z.eqb_refl.
  assert (vkDeviceWaitIdle <> vkQueueWaitIdle) as Hne.
  { pose proof loop_opcodes_distinct as Hnd. intros Heq. rewrite Heq in Hnd.
    apply NoDup_cons in Hnd as [_ Hnd]. apply NoDup_cons in Hnd as [_ Hnd].
    apply NoDup_cons in Hnd as [Hn _]. apply Hn. left. }
  rewrite (proj2 (Z.eqb_neq _ _) Hne), (proj2 (Z.eqb_neq _ _) Hid), (proj2 (Z.eqb_neq _ _) Hd).
  rewrite (at_ok _ _ Hat), (at_remaining _ _ Hat). cbn [negb andb orb Z.eqb length Nat.eqb].
  unfold submit_wait. cbn [clear_errors workers]. unfold RequestWorkers.submit. rewrite Hst. cbn [orb].
  rewrite (proj2 (Nat.leb_le _ _) Hfull), orb_true_r. cbn. rewrite Ho. done.
Qed.

End LoopFacts.

(** *** Witnesses: a connection that owns one device and has a full or an empty
    pool. *)
Section Witnesses.

#[local] Instance demo_opcodes : LoopOpcodes.
Proof.
  refine {| Handshake := 1; Ping := 2; vkQueueWaitIdle := 3; vkDeviceWaitIdle := 4; vkWaitForFences := 5;
            vkWaitSemaphores := 6 |}.
  by apply (bool_decide_unpack _).
Defined.

Definition demo_tables : ObjectTables :=
  {| capabilities := 0;
     table := fun k => if decide (k = devices) then snd (Table.add Table.empty 5 0) else Table.empty;
     memory_metadata := ∅; device_physical_devices := ∅; command_buffer_devices := ∅;
     descriptor_set_owners := ∅; descriptor_update_template_owners := ∅;
     descriptor_update_template_entries := ∅; sampler_ycbcr_conversion_owners := ∅;
     swapchain_devices := ∅; swapchain_surfaces := ∅; swapchain_image_ids := ∅ |}.

Definition demo_loop (ws : RequestWorkers.t) : Loop unit := mkLoop _ demo_tables 3 true ws [] [] tt.

(** A handler for every opcode: it replies. *)
Definition demo_handler (op : Z) : option (Session unit -> Session unit) :=
  Some (Handler.reply_status Ok).

Definition idle_header : MessageHeader := mk_header 4 8 9.

Definition full_pool : RequestWorkers.t :=
  RequestWorkers.mk [] ∅ ∅ (list_to_set (map Z.of_nat (seq 1 64))) false [].

(** One wait that times out, and one that the end of the connection cuts short. *)
Lemma wait_honours_timeout_witness :
  (exists slices, wait_loop [mkObservation false 0 2; mkObservation false 150 2] 100 true VK_TIMEOUT
     = Some (VK_TIMEOUT, slices) /\ Forall (fun s => s <= kSliceNs) slices) /\
  exists n o, [mkObservation false 0 2; mkObservation true 50 0] !! n = Some o /\
    ends_wait 100 n o VK_ERROR_DEVICE_LOST 1.
Proof.
  split.
  - exists [100]. split; [done|].
    destruct (wait_honours_timeout [mkObservation false 0 2; mkObservation false 150 2] 100 VK_TIMEOUT [100])
      as [Hs _]; [by vm_compute|repeat constructor; cbn; lia|by vm_compute|].
    apply Forall_lookup. intros i s Hi. destruct (Hs i s Hi) as (o & _ & [_ ?] & _). done.
  - destruct (wait_honours_timeout [mkObservation false 0 2; mkObservation true 50 0] 100 VK_ERROR_DEVICE_LOST [100])
      as [_ (n & o & Hn & _ & He)]; [by vm_compute|repeat constructor; cbn; lia|by vm_compute|].
    by exists n, o.
Defined.

Lemma wait_ends_witness :
  exists r slices, wait_loop [mkObservation false 0 2; mkObservation false 150 2] 100 true VK_TIMEOUT
    = Some (r, slices) /\ (length slices <= 2)%nat.
Proof.
  apply (wait_ends _ 100 true VK_TIMEOUT 1 (mkObservation false 150 2)); [done|lia|].
  right. left. by split; vm_compute.
Defined.

Lemma loop_requests_answered_witness :
  exists l', on_message demo_handler (fun _ _ => true) idle_header (Writer.handle 1)
      (demo_loop (RequestWorkers.init 8)) = Some (true, l') /\
    answered 9 (demo_loop (RequestWorkers.init 8)) l'.
Proof.
  apply (loop_requests_answered demo_handler (fun _ _ => true) idle_header (Writer.handle 1)
           (demo_loop (RequestWorkers.init 8))); [done|done|done|].
  right. right. right. left.
Defined.

Lemma handshake_gates_witness :
  serve demo_handler (fun _ _ => true) [(mk_header 1 0 7, [])] (demo_loop (RequestWorkers.init 8))
  = demo_loop (RequestWorkers.init 8).
Proof.
  by apply (proj1 (proj2 (handshake_gates demo_handler (fun _ _ => true) (mk_header 1 0 7) [] []
                            (demo_loop (RequestWorkers.init 8))))).
Defined.

Lemma refused_idle_loses_errors_witness :
  l_errors (demo_loop full_pool) = 3 /\
  l_errors (on_idle idle_header (Writer.handle 1) (demo_loop full_pool)) = 0.
Proof.
  split; [done|].
  apply (refused_idle_loses_errors idle_header 1 (demo_loop full_pool)); [done|done|by vm_compute|done|done|].
  apply Nat.leb_le. by vm_compute.
Defined.

End Witnesses.
