(* ===== verification/ServerMemory.v ===== *)
(** Memory on the server: [src/server/handlers_memory.cpp].

    Allocation, mapped transfers, binding and requirements, as functions on the
    [Session].  The Vulkan driver is the interface [MemoryDriver].  Every request
    is answered; what the transfers do to the memory is in [ServerMapped]. *)

From stdpp Require Import list gmap.
From S2P Require Import Prelude Wire Codec CLayout VkStructs ExtensionContract PNext Decode.
From S2P Require Import VkCreateInfos VkLimits MarshalChained Objects Workers Connection.
From S2P Require Import HostMemory Session.

(** ** The driver *)

(** [VkSparseImageMemoryRequirements]. *)
Record SparseRequirements := mkSparse {
  sp_aspectMask : Z; sp_width : Z; sp_height : Z; sp_depth : Z; sp_flags : Z; sp_first_lod : Z;
  sp_tail_size : Z; sp_tail_offset : Z; sp_tail_stride : Z }.

(** [vkMapMemory] returns the result and the address; [host_store] and
    [host_load] are [std::memcpy] to and from a mapped address.  A call that fills
    a chain of output structures returns the filled chain; one that enumerates is
    its count and, given the capacity, the count and the array it leaves.  An
    [option] is an entry point [vkGetDeviceProcAddr] may not find. *)
Class MemoryDriver (W : Type) := {
  vkMapMemory : Z -> Z -> Z -> W -> Z * Z * W;
  vkUnmapMemory : Z -> Z -> W -> W;
  vkFlushMappedMemoryRanges : Z -> VkMappedMemoryRange -> W -> Z * W;
  vkInvalidateMappedMemoryRanges : Z -> VkMappedMemoryRange -> W -> Z * W;
  host_store : Z -> list byte -> W -> W;
  host_load : Z -> Z -> W -> list byte;
  vkGetPhysicalDeviceMemoryProperties : Z -> W -> VkPhysicalDeviceMemoryProperties.t;
  vkGetPhysicalDeviceProperties : Z -> W -> VkPhysicalDeviceProperties.t;
  vkAllocateMemory : Z -> VkMemoryAllocateInfo.t -> W -> Z * Z * W;
  vkFreeMemory : Z -> Z -> W -> W;
  vkBindBufferMemory : Z -> Z -> Z -> Z -> W -> Z * W;
  vkBindImageMemory : Z -> Z -> Z -> Z -> W -> Z * W;
  vkGetBufferMemoryRequirements : Z -> Z -> W -> VkMemoryRequirements.t;
  vkGetImageMemoryRequirements : Z -> Z -> W -> VkMemoryRequirements.t;
  vkGetDeviceMemoryCommitment : Z -> Z -> W -> Z;
  sparse_count : Z -> Z -> W -> Z;
  sparse_values : Z -> Z -> Z -> W -> Z * list SparseRequirements;
  vkBindBufferMemory2 : Z -> option (list (Z * Z * Z) -> W -> Z * W);
  vkBindImageMemory2 : Z -> option (list (Z * Z * Z * ptr chain) -> W -> Z * W);
  vkGetBufferMemoryRequirements2 :
    Z -> option (Z -> ptr chain -> W -> VkMemoryRequirements.t * ptr chain);
  vkGetImageMemoryRequirements2 :
    Z -> option (Z -> ptr chain -> ptr chain -> W -> VkMemoryRequirements.t * ptr chain);
  sparse_count2 : Z -> option (Z -> W -> Z);
  sparse_values2 : Z -> Z -> Z -> W -> Z * list SparseRequirements;
  vkGetBufferDeviceAddress : Z -> option (Z -> W -> Z);
  vkGetBufferDeviceAddressKHR : Z -> option (Z -> W -> Z) }.

(** ** Mapped transfers *)

(** 64-bit [value & ~(alignment - 1)].

    handlers_memory.cpp:23-25. *)
Definition align_down (value alignment : Z) : Z :=
  Z.land value (wrap64 (Z.lnot (wrap64 (alignment - 1)))).

(** handlers_memory.cpp:27-38. *)
Definition validate_transfer (t : ObjectTables) (device_id memory_id offset size : Z) :
    option ServerMemory :=
  match memory_metadata t !! memory_id with
  | None => None
  | Some md =>
      let device := Table.get (table t devices) device_id in
      if (device =? 0) || negb (sm_owner md =? device)
         || (Z.land (sm_property_flags md) VK_MEMORY_PROPERTY_HOST_VISIBLE_BIT =? 0)
         || (size =? 0) || (kMaxMappedChunk <? size) || (sm_size md <? offset)
         || (sm_size md - offset <? size)
      then None else Some md
  end.

(** handlers_memory.cpp:43-46. *)
Definition native_map_offset (md : ServerMemory) (offset : Z) : Z :=
  align_down offset
    (if sm_non_coherent_atom_size md <? sm_map_alignment md then sm_map_alignment md
     else sm_non_coherent_atom_size md).

(** The range of the native flush or invalidate.

    handlers_memory.cpp:53-64. *)
Definition native_range (md : ServerMemory) (offset size : Z) : VkMappedMemoryRange :=
  let start := align_down offset (sm_non_coherent_atom_size md) in
  let requested_end := wrap64 (offset + size) in
  mkRequest (sm_handle md) start
    (if requested_end =? sm_size md then VK_WHOLE_SIZE
     else
       let atom := sm_non_coherent_atom_size md in
       let rounded := Z.land (wrap64 (requested_end + atom - 1)) (wrap64 (Z.lnot (wrap64 (atom - 1)))) in
       wrap64 (rounded - start)).

Definition host_coherent (md : ServerMemory) : bool :=
  negb (Z.land (sm_property_flags md) VK_MEMORY_PROPERTY_HOST_COHERENT_BIT =? 0).

Section Handlers.
Context {W : Type} `{MemoryDriver W} `{Abi}.
Implicit Type c : Session W.
Import Handler.

(** The result and, for a download that succeeds, the bytes.

    handlers_memory.cpp:40-79. *)
Definition map_transfer (md : ServerMemory) (offset size : Z) (upload : option (list byte)) (w : W) :
    Z * list byte * W :=
  let map_offset := native_map_offset md offset in
  let '(result, mapped, w) := vkMapMemory (sm_owner md) (sm_handle md) map_offset w in
  if negb (result =? VK_SUCCESS) then (result, [], w)
  else
    let coherent := host_coherent md in
    let range := native_range md offset size in
    let bytes := mapped + (offset - map_offset) in
    let '(result, download, w) :=
      match upload with
      | Some data =>
          let w := host_store bytes data w in
          let (result, w) :=
            if coherent then (result, w) else vkFlushMappedMemoryRanges (sm_owner md) range w in
          (result, [], w)
      | None =>
          let (result, w) :=
            if coherent then (result, w) else vkInvalidateMappedMemoryRanges (sm_owner md) range w in
          (result, if result =? VK_SUCCESS then host_load bytes size w else [], w)
      end in
    (result, download, vkUnmapMemory (sm_owner md) (sm_handle md) w).

(** [c.writer.u32(Ok)]. *)
Definition write_ok c : Session W := write (Writer.u32 (status_code Ok)) c.

(** A handle of the request, resolved. *)
Definition rd_object (k : kind) c : Z * Session W :=
  let (id, c) := rd Reader.handle c in (Table.get (table (tables c) k) id, c).

(** handlers_memory.cpp:142-158. *)
Definition handle_FlushMappedMemory c : Session W :=
  let (device_id, c) := rd Reader.handle c in
  let (memory_id, c) := rd Reader.handle c in
  let (offset, c) := rd Reader.u64 c in
  let (size, c) := rd Reader.u64 c in
  let (bytes, c) := rd (Reader.bytes kMaxMappedChunk) c in
  match bytes with
  | None => reply_status DecodeError c
  | Some bytes =>
      if negb (Z.of_nat (length bytes) =? size) || negb (Reader.ok (reader c))
      then reply_status DecodeError c
      else match validate_transfer (tables c) device_id memory_id offset size with
      | None => reply_status DecodeError c
      | Some memory =>
          let '(result, _, w) := map_transfer memory offset size (Some bytes) (driver c) in
          reply (write (Writer.i32 result) (write_ok (set_driver w c)))
      end
  end.

(** handlers_memory.cpp:160-176. *)
Definition handle_DownloadMappedMemory c : Session W :=
  let (device_id, c) := rd Reader.handle c in
  let (memory_id, c) := rd Reader.handle c in
  let (offset, c) := rd Reader.u64 c in
  let (size, c) := rd Reader.u64 c in
  if negb (Reader.ok (reader c)) then reply_status DecodeError c
  else match validate_transfer (tables c) device_id memory_id offset size with
  | None => reply_status DecodeError c
  | Some memory =>
      let '(result, data, w) := map_transfer memory offset size None (driver c) in
      reply (write (Writer.bytes data) (write (Writer.i32 result) (write_ok (set_driver w c))))
  end.

(** ** Allocation *)

(** The tables with another map of metadata. *)
Definition set_metadata (m : gmap Z ServerMemory) (t : ObjectTables) : ObjectTables :=
  {| capabilities := capabilities t; table := table t; memory_metadata := m;
     device_physical_devices := device_physical_devices t;
     command_buffer_devices := command_buffer_devices t;
     descriptor_set_owners := descriptor_set_owners t;
     descriptor_update_template_owners := descriptor_update_template_owners t;
     descriptor_update_template_entries := descriptor_update_template_entries t;
     sampler_ycbcr_conversion_owners := sampler_ycbcr_conversion_owners t;
     swapchain_devices := swapchain_devices t; swapchain_surfaces := swapchain_surfaces t;
     swapchain_image_ids := swapchain_image_ids t |}.

(** The id of the new allocation.

    handlers_memory.cpp:113-117. *)
Definition record_allocation (memory device : Z) (md : ServerMemory) (t : ObjectTables) :
    Z * ObjectTables :=
  let (id, T) := Table.add (table t memories) memory device in
  (id, set_metadata (<[id := md]> (memory_metadata t)) (set_table memories T t)).

(** handlers_memory.cpp:80-125. *)
Definition handle_AllocateMemory c : Session W :=
  let (device, c) := rd_object devices c in
  if negb (Reader.ok (reader c)) || (device =? 0) then reply_status DecodeError c
  else
    let (info, c) := rd (read_MemoryAllocateInfo (HR := resolver_of (tables c))) c in
    match info with
    | None => reply_status DecodeError c
    | Some info =>
        match device_physical_devices (tables c) !! device with
        | None => reply_status DecodeError c
        | Some physical =>
            let memory_properties := vkGetPhysicalDeviceMemoryProperties physical (driver c) in
            let limits := VkPhysicalDeviceProperties.limits
                            (vkGetPhysicalDeviceProperties physical (driver c)) in
            let index := VkMemoryAllocateInfo.memoryTypeIndex info in
            if VkPhysicalDeviceMemoryProperties.memoryTypeCount memory_properties <=? index
            then reply_status DecodeError c
            else
              let '(result, memory, w) := vkAllocateMemory device info (driver c) in
              let c := set_driver w c in
              let flags := VkMemoryType.propertyFlags
                (default VkMemoryType.zero
                   (VkPhysicalDeviceMemoryProperties.memoryTypes memory_properties !! Z.to_nat index)) in
              let public_flags := public_memory_property_flags flags (capabilities (tables c)) in
              let map_alignment := VkPhysicalDeviceLimits.minMemoryMapAlignment limits in
              let atom_size := VkPhysicalDeviceLimits.nonCoherentAtomSize limits in
              let (id, t) :=
                if result =? VK_SUCCESS
                then record_allocation memory device
                       {| sm_handle := memory; sm_owner := device;
                          sm_size := VkMemoryAllocateInfo.allocationSize info;
                          sm_property_flags := flags; sm_map_alignment := map_alignment;
                          sm_non_coherent_atom_size := atom_size |} (tables c)
                else (0, tables c) in
              reply (write (Writer.i32 result ++ Writer.handle id ++ Writer.u32 public_flags ++
                            Writer.u64 map_alignment ++ Writer.u64 atom_size)
                       (write_ok (set_tables t c)))
        end
    end.

(** handlers_memory.cpp:127-140. *)
Definition handle_FreeMemory c : Session W :=
  let (device, c) := rd_object devices c in
  let (id, c) := rd Reader.handle c in
  match memory_metadata (tables c) !! id with
  | None => mark_oneway_error c
  | Some md =>
      if negb (Reader.ok (reader c)) || (device =? 0) || negb (sm_owner md =? device)
      then mark_oneway_error c
      else
        let (memory, T) := Table.take (table (tables c) memories) id in
        let t := set_metadata (delete id (memory_metadata (tables c))) (set_table memories T (tables c)) in
        set_driver (vkFreeMemory device memory (driver c)) (set_tables t c)
  end.

(** ** Binding and requirements *)

(** [vkBindBufferMemory] and [vkBindImageMemory] differ in the table and the call.

    handlers_memory.cpp:178-184. *)
Definition handle_BindBufferMemory c : Session W :=
  let (device, c) := rd_object devices c in
  let (buffer, c) := rd_object buffers c in
  let (memory, c) := rd_object memories c in
  let (offset, c) := rd Reader.u64 c in
  if negb (Reader.ok (reader c)) || (device =? 0) then reply_status DecodeError c
  else
    let (result, w) := vkBindBufferMemory device buffer memory offset (driver c) in
    reply (write (Writer.i32 result) (write_ok (set_driver w c))).

(** handlers_memory.cpp:186-192. *)
Definition handle_BindImageMemory c : Session W :=
  let (device, c) := rd_object devices c in
  let (image, c) := rd_object images c in
  let (memory, c) := rd_object memories c in
  let (offset, c) := rd Reader.u64 c in
  if negb (Reader.ok (reader c)) || (device =? 0) then reply_status DecodeError c
  else
    let (result, w) := vkBindImageMemory device image memory offset (driver c) in
    reply (write (Writer.i32 result) (write_ok (set_driver w c))).

(** handlers_memory.cpp:194-196. *)
Definition write_memory_requirements (r : VkMemoryRequirements.t) : list byte :=
  Writer.u64 (VkMemoryRequirements.size r) ++ Writer.u64 (VkMemoryRequirements.alignment r) ++
  Writer.u32 (VkMemoryRequirements.memoryTypeBits r).

(** handlers_memory.cpp:198-204. *)
Definition handle_GetBufferMemoryRequirements c : Session W :=
  let (device, c) := rd_object devices c in
  let (buffer, c) := rd_object buffers c in
  if negb (Reader.ok (reader c)) || (device =? 0) then reply_status DecodeError c
  else
    let reqs := vkGetBufferMemoryRequirements device buffer (driver c) in
    reply (write (write_memory_requirements reqs) (write_ok c)).

(** handlers_memory.cpp:206-212. *)
Definition handle_GetImageMemoryRequirements c : Session W :=
  let (device, c) := rd_object devices c in
  let (image, c) := rd_object images c in
  if negb (Reader.ok (reader c)) || (device =? 0) then reply_status DecodeError c
  else
    let reqs := vkGetImageMemoryRequirements device image (driver c) in
    reply (write (write_memory_requirements reqs) (write_ok c)).

(** handlers_memory.cpp:214-222. *)
Definition handle_GetDeviceMemoryCommitment c : Session W :=
  let (device, c) := rd_object devices c in
  let (memory, c) := rd_object memories c in
  if negb (Reader.ok (reader c)) || (device =? 0) || (memory =? 0) then reply_status DecodeError c
  else
    let committed := vkGetDeviceMemoryCommitment device memory (driver c) in
    reply (write (Writer.u64 committed) (write_ok c)).

(** One element of the reply.

    handlers_memory.cpp:236-242. *)
Definition write_sparse (v : SparseRequirements) : list byte :=
  Writer.u32 (sp_aspectMask v) ++ Writer.u32 (sp_width v) ++ Writer.u32 (sp_height v) ++
  Writer.u32 (sp_depth v) ++ Writer.u32 (sp_flags v) ++ Writer.u32 (sp_first_lod v) ++
  Writer.u64 (sp_tail_size v) ++ Writer.u64 (sp_tail_offset v) ++ Writer.u64 (sp_tail_stride v).

(** handlers_memory.cpp:224-245. *)
Definition handle_GetImageSparseMemoryRequirements c : Session W :=
  let (device, c) := rd_object devices c in
  let (image, c) := rd_object images c in
  if negb (Reader.ok (reader c)) || (device =? 0) || (image =? 0) then reply_status DecodeError c
  else
    let count := sparse_count device image (driver c) in
    if kMaxArrayElements <? count then reply_status DecodeError c
    else
      let (count, values) := if negb (count =? 0) then sparse_values device image count (driver c)
                             else (count, []) in
      reply (write (Writer.u32 count ++ concat (map write_sparse (take (Z.to_nat count) values)))
               (write_ok c)).

(** One binding: buffer, memory and offset.

    handlers_memory.cpp:247-247. *)
Definition rd_binding (k : kind) c : (Z * Z * Z) * Session W :=
  let (object, c) := rd_object k c in
  let (memory, c) := rd_object memories c in
  let (offset, c) := rd Reader.u64 c in
  ((object, memory, offset), c).

(** [for (auto& x : v)]. *)
Fixpoint rd_each {A} (n : nat) (f : Session W -> A * Session W) c : list A * Session W :=
  match n with
  | O => ([], c)
  | S n => let (x, c) := f c in let (xs, c) := rd_each n f c in (x :: xs, c)
  end.

(** handlers_memory.cpp:247-247. *)
Definition handle_BindBufferMemory2 c : Session W :=
  let (d, c) := rd_object devices c in
  let (n, c) := rd Reader.u32 c in
  if (kMaxArrayElements <? n) || negb (count_fits (reader c) n 24) then reply_status DecodeError c
  else
    let (v, c) := rd_each (Z.to_nat n) (rd_binding buffers) c in
    if negb (Reader.ok (reader c)) || (d =? 0) then reply_status DecodeError c
    else match vkBindBufferMemory2 d with
    | None => reply_status UnsupportedCommand c
    | Some fn =>
        let (result, w) := fn v (driver c) in
        reply (write (Writer.i32 result) (write_ok (set_driver w c)))
    end.

(** The loop over the image bindings; once one has failed, the chains of the
    others are not read.

    handlers_memory.cpp:248-248. *)
Fixpoint rd_image_bindings (n : nat) (ok : bool) c : bool * list (Z * Z * Z * ptr chain) * Session W :=
  match n with
  | O => (ok, [], c)
  | S n =>
      let (x, c) := rd_binding images c in
      let (next, c) :=
        if ok then rd (read_pnext_chain (HR := resolver_of (tables c)) BindImageMemory2 0) c
        else (None, c) in
      let '(ok, xs, c) := rd_image_bindings n (ok && bool_decide (is_Some next)) c in
      (ok, (x, default Null next) :: xs, c)
  end.

(** handlers_memory.cpp:248-248. *)
Definition handle_BindImageMemory2 c : Session W :=
  let (d, c) := rd_object devices c in
  let (n, c) := rd Reader.u32 c in
  if (kMaxArrayElements <? n) || negb (count_fits (reader c) n 28) then reply_status DecodeError c
  else
    let '(ok, v, c) := rd_image_bindings (Z.to_nat n) (negb (d =? 0)) c in
    if negb ok || negb (Reader.ok (reader c)) then reply_status DecodeError c
    else match vkBindImageMemory2 d with
    | None => reply_status UnsupportedCommand c
    | Some fn =>
        let (result, w) := fn v (driver c) in
        reply (write (Writer.i32 result) (write_ok (set_driver w c)))
    end.

(** The reply with a filled chain; a chain that cannot be written adds nothing.

    handlers_memory.cpp:249-249. *)
Definition reply_requirements (out : VkMemoryRequirements.t * ptr chain) c : Session W :=
  reply (write (write_memory_requirements (fst out) ++
                snd (write_pnext_output_values MemoryRequirements2 (snd out))) (write_ok c)).

(** handlers_memory.cpp:249-249. *)
Definition handle_GetBufferMemoryRequirements2 c : Session W :=
  let (d, c) := rd_object devices c in
  let (buffer, c) := rd_object buffers c in
  if d =? 0 then reply_status DecodeError c
  else
    let (topology, c) := rd (read_pnext_output_topology MemoryRequirements2) c in
    match topology with
    | None => reply_status DecodeError c
    | Some output =>
        match vkGetBufferMemoryRequirements2 d with
        | None => reply_status UnsupportedCommand c
        | Some fn => reply_requirements (fn buffer output (driver c)) c
        end
    end.

(** handlers_memory.cpp:250-250. *)
Definition handle_GetImageMemoryRequirements2 c : Session W :=
  let (d, c) := rd_object devices c in
  let (image, c) := rd_object images c in
  if d =? 0 then reply_status DecodeError c
  else
    let (input, c) := rd (read_pnext_chain (HR := resolver_of (tables c)) MemoryRequirements2 0) c in
    match input with
    | None => reply_status DecodeError c
    | Some input =>
        let (topology, c) := rd (read_pnext_output_topology MemoryRequirements2) c in
        match topology with
        | None => reply_status DecodeError c
        | Some output =>
            match vkGetImageMemoryRequirements2 d with
            | None => reply_status UnsupportedCommand c
            | Some fn => reply_requirements (fn image input output (driver c)) c
            end
        end
    end.

(** The count is the second call's, the elements are as many as the first
    announced.

    handlers_memory.cpp:251-251. *)
Definition handle_GetImageSparseMemoryRequirements2 c : Session W :=
  let (d, c) := rd_object devices c in
  let (image, c) := rd_object images c in
  if negb (Reader.ok (reader c)) || (d =? 0) || (image =? 0) then reply_status DecodeError c
  else match sparse_count2 d with
  | None => reply_status UnsupportedCommand c
  | Some fn =>
      let n := fn image (driver c) in
      if kMaxArrayElements <? n then reply_status DecodeError c
      else
        let (n, v) := if negb (n =? 0) then sparse_values2 d image n (driver c) else (n, []) in
        reply (write (Writer.u32 n ++ concat (map write_sparse v)) (write_ok c))
  end.

(** handlers_memory.cpp:253-253. *)
Definition handle_GetBufferDeviceAddress c : Session W :=
  let (d, c) := rd_object devices c in
  let (b, c) := rd_object buffers c in
  if negb (Reader.ok (reader c)) || negb (Reader.remaining (reader c) =? 0)%nat || (d =? 0) || (b =? 0)
  then reply_status DecodeError c
  else
    let fn := match vkGetBufferDeviceAddress d with
              | None => vkGetBufferDeviceAddressKHR d
              | fn => fn
              end in
    match fn with
    | None => reply_status UnsupportedCommand c
    | Some fn => reply (write (Writer.u64 (fn b (driver c))) (write_ok c))
    end.

(** handlers_memory.cpp:254-254. *)
Definition handle_GetBufferOpaqueCaptureAddress c : Session W :=
  let (d, c) := rd_object devices c in
  let (b, c) := rd_object buffers c in
  if negb (Reader.ok (reader c)) || (d =? 0) || (b =? 0) then reply_status DecodeError c
  else reply (write (Writer.u64 0) (write_ok c)).

(** handlers_memory.cpp:255-255. *)
Definition handle_GetDeviceMemoryOpaqueCaptureAddress c : Session W :=
  let (d, c) := rd_object devices c in
  let (m, c) := rd_object memories c in
  if negb (Reader.ok (reader c)) || (d =? 0) || (m =? 0) then reply_status DecodeError c
  else reply (write (Writer.u64 0) (write_ok c)).

(** The registered handlers that reply; [vkFreeMemory] is one-way.

    handlers_memory.cpp:259-277. *)
Definition replying_handlers : list (Session W -> Session W) :=
  [handle_AllocateMemory; handle_FlushMappedMemory; handle_DownloadMappedMemory;
   handle_BindBufferMemory; handle_BindImageMemory; handle_GetBufferMemoryRequirements;
   handle_GetImageMemoryRequirements; handle_GetDeviceMemoryCommitment;
   handle_GetImageSparseMemoryRequirements; handle_BindBufferMemory2; handle_BindImageMemory2;
   handle_GetBufferMemoryRequirements2; handle_GetImageMemoryRequirements2;
   handle_GetImageSparseMemoryRequirements2; handle_GetBufferDeviceAddress;
   handle_GetBufferOpaqueCaptureAddress; handle_GetDeviceMemoryOpaqueCaptureAddress].

End Handlers.

(** ** Every request is answered *)
Section Answers.
Context {W : Type} `{MemoryDriver W} `{Abi}.
Implicit Type c : Session W.
Import Handler.

(** [c'] comes from [c] and has replied. *)
Definition replies c c' : Prop := answers c c' /\ replied c' = true.

Lemma replies_reply c c' : answers c c' -> replies c (reply c').
Proof.
  intros Ha. split; [eapply answers_trans; [exact Ha|apply answers_reply]|].
  unfold reply. by destruct (replied c') eqn:E.
Qed.

Lemma answers_write bs c c' : answers c c' -> answers c (write bs c').
Proof. intros. eapply answers_trans; [done|by apply answers_silent]. Qed.

Lemma answers_set_driver w c c' : answers c c' -> answers c (set_driver w c').
Proof. intros. eapply answers_trans; [done|by apply answers_silent]. Qed.

Lemma answers_set_tables t c c' : answers c c' -> answers c (set_tables t c').
Proof. intros. eapply answers_trans; [done|by apply answers_silent]. Qed.

Lemma replies_status s c c' : answers c c' -> replies c (reply_status s c').
Proof. intros. by apply replies_reply, answers_write. Qed.

Lemma rd_answers {A} (f : Wire.reader -> A * Wire.reader) c0 c v c' :
  rd f c = (v, c') -> answers c0 c -> answers c0 c'.
Proof. intros E Ha. eapply answers_trans; [exact Ha|]. pose proof (answers_rd f c) as H1. by rewrite E in H1. Qed.

Lemma rd_object_answers k c0 c v c' : rd_object k c = (v, c') -> answers c0 c -> answers c0 c'.
Proof.
  unfold rd_object. destruct (rd _ c) as [id c1] eqn:E. intros [= _ <-]. by apply (rd_answers _ _ _ _ _ E).
Qed.

Lemma rd_binding_answers k c0 c v c' : rd_binding k c = (v, c') -> answers c0 c -> answers c0 c'.
Proof.
  unfold rd_binding. destruct (rd_object k c) as [o c1] eqn:E1. destruct (rd_object memories c1) as [m c2] eqn:E2.
  destruct (rd Reader.u64 c2) as [x c3] eqn:E3. intros [= _ <-] Ha.
  by eapply rd_answers, rd_object_answers, rd_object_answers.
Qed.

Lemma rd_each_answers {A} n (f : Session W -> A * Session W) c0 :
  (forall c v c', f c = (v, c') -> answers c0 c -> answers c0 c') ->
  forall c v c', rd_each n f c = (v, c') -> answers c0 c -> answers c0 c'.
Proof.
  intros Hf. induction n as [|n IH]; intros c v c'; cbn [rd_each]; [by intros [= _ <-]|].
  destruct (f c) as [x c1] eqn:E1. destruct (rd_each n f c1) as [xs c2] eqn:E2. intros [= _ <-] Ha.
  by eapply IH, Hf.
Qed.

Lemma rd_image_bindings_answers n c0 : forall ok c v c',
  rd_image_bindings n ok c = (v, c') -> answers c0 c -> answers c0 c'.
Proof.
  induction n as [|n IH]; intros ok c v c'; cbn [rd_image_bindings]; [by intros [= _ <-]|].
  destruct (rd_binding images c) as [x c1] eqn:E1.
  destruct (if ok then _ else _) as [next c2] eqn:E2.
  destruct (rd_image_bindings n _ c2) as [[ok' xs] c3] eqn:E3. intros [= _ <-] Ha.
  assert (answers c0 c2); [|by eapply IH].
  apply (rd_binding_answers _ _ _ _ _ E1) in Ha. destruct ok; [by eapply rd_answers|by injection E2 as _ <-].
Qed.

#[local] Hint Resolve answers_refl answers_write answers_set_driver answers_set_tables replies_reply
  replies_status : answers.

(** One read, one branch or the final reply of a handler. *)
Ltac handler_step :=
  match goal with
  | |- context [rd ?f ?c] =>
      let E := fresh in destruct (rd f c) eqn:E; eapply rd_answers in E; [|eassumption]
  | |- context [rd_object ?k ?c] =>
      let E := fresh in destruct (rd_object k c) eqn:E; eapply rd_object_answers in E; [|eassumption]
  | |- context [rd_each ?n (rd_binding ?k) ?c] =>
      let E := fresh in destruct (rd_each n (rd_binding k) c) eqn:E;
      eapply (rd_each_answers n (rd_binding k) _ (rd_binding_answers k _)) in E; [|eassumption]
  | |- context [rd_image_bindings ?n ?ok ?c] =>
      let E := fresh in destruct (rd_image_bindings n ok c) as [[? ?] ?] eqn:E;
      eapply rd_image_bindings_answers in E; [|eassumption]
  | |- replies _ (reply_status _ _) => solve [auto with answers nocore]
  | |- replies _ (reply _) => unfold write_ok; solve [auto 6 with answers nocore]
  | |- replies _ (match ?x with _ => _ end) => destruct x
  | |- replies _ (let (_, _) := ?x in _) => destruct x
  end.

(** Every memory request is answered: each registered handler but the
    one-way vkFreeMemory replies, whatever the payload holds, the tables contain
    or the driver returns; it sends at most one frame, which carries the opcode
    and id of its own request. *)
Theorem memory_requests_answered c h : h ∈ replying_handlers ->
  answers c (h c) /\ replied (h c) = true.
Proof.
  intros Hh. change (replies c (h c)). pose proof (answers_refl c) as Hc.
  unfold replying_handlers in Hh.
  repeat (apply elem_of_cons in Hh as [->|Hh]); [..|by apply not_elem_of_nil in Hh];
    unfold handle_AllocateMemory, handle_FlushMappedMemory, handle_DownloadMappedMemory, handle_BindBufferMemory,
      handle_BindImageMemory, handle_GetBufferMemoryRequirements,
      handle_GetImageMemoryRequirements, handle_GetDeviceMemoryCommitment,
      handle_GetImageSparseMemoryRequirements, handle_BindBufferMemory2,
      handle_BindImageMemory2, handle_GetBufferMemoryRequirements2,
      handle_GetImageMemoryRequirements2, handle_GetImageSparseMemoryRequirements2,
      handle_GetBufferDeviceAddress, handle_GetBufferOpaqueCaptureAddress,
      handle_GetDeviceMemoryOpaqueCaptureAddress, reply_requirements;
    cbn zeta;
    repeat handler_step.
Qed.

End Answers.
