(* ===== verification/ServerMapped.v ===== *)
(** Mapped transfers end to end: the handlers of [ServerMemory] behind the loop of
    [Session] implement [MappedServer], the contract the client's coherence is
    proved against in [HostMemory].

    What the transfers rely on of the driver is [MemoryDriverLaws].  A concrete
    driver at the end satisfies the laws and instantiates the client's theorems. *)

From stdpp Require Import list gmap.
From S2P Require Import Prelude Wire Codec CLayout VkStructs PNext PNextFacts Decode.
From S2P Require Import VkLimits Objects Workers HostMemory Session ServerMemory.

(** ** The native range of a transfer *)

Lemma align_down_pow2 v k : is_u64 v -> 0 <= k < 64 ->
  align_down v (2 ^ k) = v - v mod 2 ^ k.
Proof.
  intros Hv Hk. unfold align_down. assert (0 < 2 ^ k < 2 ^ 64) as Hp.
  { split; [apply Z.pow_pos_nonneg; lia|apply Z.pow_lt_mono_r; lia]. }
  assert (forall x, wrap64 x = Z.land x (Z.ones 64)) as Hw by (intros; by rewrite Z.land_ones by lia).
  rewrite (Hw (2 ^ k - 1)), Z.land_ones, Z.mod_small by lia. rewrite Hw.
  rewrite (Z.land_comm (Z.lnot _)), Z.land_assoc, Z.land_ones by lia.
  rewrite (Z.mod_small v) by (unfold is_u64 in Hv; lia).
  rewrite Z.sub_1_r, <- Z.ones_equiv, <- Z.ldiff_land.
  rewrite Z.ldiff_ones_r, Z.shiftl_mul_pow2, Z.shiftr_div_pow2 by lia.
  pose proof (Z.div_mod v (2 ^ k)). lia.
Qed.

(** What [VkMappedMemoryRange] must satisfy for memory of [size] bytes, mapped
    from [start] on, on a device with this atom size. *)
Definition native_valid (atom size start : Z) (r : VkMappedMemoryRange) : Prop :=
  start <= rq_offset r < size /\ rq_offset r mod atom = 0 /\
  (rq_size r = VK_WHOLE_SIZE \/
   (0 < rq_size r /\ rq_size r mod atom = 0 /\ rq_offset r + rq_size r <= size)).

(** The range contains the bytes [offset .. offset + len). *)
Definition covers (r : VkMappedMemoryRange) (offset len : Z) : Prop :=
  rq_offset r <= offset /\ (rq_size r = VK_WHOLE_SIZE \/ offset + len <= rq_offset r + rq_size r).

(** The limits of a device are powers of two. *)
Definition pow2_64 (x : Z) : Prop := 0 < x < 18446744073709551616 /\ x = 2 ^ Z.log2 x.

#[export] Instance pow2_64_dec x : Decision (pow2_64 x).
Proof. unfold pow2_64. apply _. Defined.

Lemma pow2_64_exp x : pow2_64 x -> exists k, x = 2 ^ k /\ 0 <= k < 64.
Proof.
  intros [Hx Hp]. exists (Z.log2 x). split; [done|]. split; [apply Z.log2_nonneg|].
  apply Z.log2_lt_pow2; [lia|]. change (2 ^ 64) with 18446744073709551616. lia.
Qed.

(** Native flushes need whole atoms inside the allocation. *)
Definition metadata_ok (md : ServerMemory) : Prop :=
  (pow2_64 (sm_non_coherent_atom_size md) /\ pow2_64 (sm_map_alignment md)) /\
  0 < sm_size md < 18446744073709551616 /\ sm_size md mod sm_non_coherent_atom_size md = 0.

Lemma mod_multiple v a b : 0 < a -> (a | b) -> (v - v mod b) mod a = 0.
Proof.
  intros Ha Hd. rewrite Zminus_mod, Z.mod_mod_divide by done. by rewrite Z.sub_diag, Z.mod_0_l by lia.
Qed.

(** Different multiples are at least one unit apart. *)
Lemma multiples_apart p x n : 0 < p -> (p | x) -> (p | n) -> x < n -> x + p <= n.
Proof.
  intros Hp [a ->] [b ->] Hlt. apply Z.mul_lt_mono_pos_r in Hlt; [|done].
  replace (a * p + p) with ((a + 1) * p) by lia. apply Z.mul_le_mono_nonneg_r; lia.
Qed.

Lemma round_down_le v a b : 0 < a -> 0 < b -> (a | b) -> 0 <= v -> v - v mod b <= v - v mod a.
Proof.
  intros Ha Hb [q Hd] Hv. subst b. rewrite (Z.mul_comm q a). rewrite Z.rem_mul_r by nia.
  pose proof (Z.mod_pos_bound (v / a) q ltac:(nia)). nia.
Qed.

Lemma native_range_valid_aux md offset len :
  metadata_ok md -> 0 <= offset -> 0 < len -> offset + len <= sm_size md ->
  let r := native_range md offset len in
  let start := native_map_offset md offset in
  rq_memory r = sm_handle md /\ covers r offset len /\ 0 <= start <= offset /\
  native_valid (sm_non_coherent_atom_size md) (sm_size md) start r.
Proof.
  intros (((a & Ha & Hka)%pow2_64_exp & (m & Hm & Hkm)%pow2_64_exp) & Hsz & Hmod) Ho Hl Hin r start.
  assert (0 < 2 ^ a) as Hpa by (apply Z.pow_pos_nonneg; lia).
  assert (0 < 2 ^ m) as Hpm by (apply Z.pow_pos_nonneg; lia).
  assert (is_u64 offset) as Hou by (unfold is_u64; lia).
  pose proof (Z.mod_pos_bound offset (2 ^ a) Hpa) as Hma.
  pose proof (Z.mod_le offset (2 ^ a) Ho Hpa) as Hla.
  assert (exists k, 0 <= k < 64 /\ start = offset - offset mod 2 ^ k /\ (2 ^ a | 2 ^ k)) as (k & Hk & Hst & Hdv).
  { unfold start, native_map_offset. rewrite Ha, Hm.
    destruct (2 ^ a <? 2 ^ m) eqn:E; bool_hyps; [exists m|exists a]; split_and!;
      try (by apply align_down_pow2); try lia; [|done].
    apply Z.pow_lt_mono_r_iff in E; [|lia|lia]. exists (2 ^ (m - a)).
    rewrite <- Z.pow_add_r by lia. f_equal. lia. }
  assert (0 < 2 ^ k) as Hpk by (apply Z.pow_pos_nonneg; lia).
  pose proof (Z.mod_pos_bound offset (2 ^ k) Hpk) as Hmk.
  pose proof (Z.mod_le offset (2 ^ k) Ho Hpk) as Hlk.
  pose proof (round_down_le offset (2 ^ a) (2 ^ k) Hpa Hpk Hdv Ho) as Hle.
  assert (rq_offset r = offset - offset mod 2 ^ a) as Hro.
  { unfold r, native_range. cbn [rq_offset]. rewrite Ha. by apply align_down_pow2. }
  unfold covers, native_valid. rewrite Hro, Ha. rewrite Ha in Hmod.
  enough (rq_size r = VK_WHOLE_SIZE \/ 0 < rq_size r /\ rq_size r mod 2 ^ a = 0 /\
          offset + len <= rq_offset r + rq_size r <= sm_size md) as Hs.
  { rewrite Hro in Hs. split_and!; try done; try lia.
    apply mod_multiple; [done|apply Z.divide_refl]. }
  unfold r, native_range. cbn [rq_size rq_offset].
  replace (wrap64 (offset + len)) with (offset + len) by (unfold wrap64; rewrite Z.mod_small; lia).
  case_if; [by left|right]. bool_hyps.
  rewrite Ha. set (fin := offset + len) in *.
  assert (sm_size md + 2 ^ a <= 18446744073709551616) as Hroom.
  { apply multiples_apart; [done|by apply Z.mod_divide; [lia|]| |lia].
    exists (2 ^ (64 - a)). rewrite <- Z.pow_add_r by lia. by replace (64 - a + a) with 64 by lia. }
  replace (wrap64 (fin + 2 ^ a - 1)) with (fin + 2 ^ a - 1) by (unfold wrap64; rewrite Z.mod_small; lia).
  change (Z.land ?x (wrap64 (Z.lnot (wrap64 (2 ^ a - 1))))) with (align_down x (2 ^ a)).
  rewrite !align_down_pow2 by (unfold is_u64; lia).
  set (rounded := fin + 2 ^ a - 1 - (fin + 2 ^ a - 1) mod 2 ^ a).
  pose proof (Z.mod_pos_bound (fin + 2 ^ a - 1) (2 ^ a) Hpa).
  assert (rounded mod 2 ^ a = 0) as Hr0 by (apply mod_multiple; [done|apply Z.divide_refl]).
  assert (rounded <= sm_size md) as Hrs.
  { destruct (Z.le_gt_cases rounded (sm_size md)) as [|Hgt]; [done|].
    apply (multiples_apart (2 ^ a)) in Hgt; [lia|done|..]; apply Z.mod_divide; by try lia. }
  assert (0 < rounded - (offset - offset mod 2 ^ a)) by lia.
  unfold wrap64. rewrite Z.mod_small by lia. split_and!; try lia.
  rewrite Zminus_mod, Hr0, mod_multiple by (done || apply Z.divide_refl). apply Z.mod_0_l. lia.
Qed.

(** The native range of a transfer is valid usage: for memory whose size is a
    multiple of the atom size it contains every byte requested, starts on an atom
    at or after the start of the mapping, ends on an atom or is VK_WHOLE_SIZE, and
    stays inside the allocation; no 64-bit operation on the way wraps. *)
Theorem native_range_valid md offset len :
  metadata_ok md -> 0 <= offset -> 0 < len -> offset + len <= sm_size md ->
  let r := native_range md offset len in
  let start := native_map_offset md offset in
  rq_memory r = sm_handle md /\ covers r offset len /\ 0 <= start <= offset /\
  native_valid (sm_non_coherent_atom_size md) (sm_size md) start r.
Proof. apply native_range_valid_aux. Qed.

Lemma native_range_valid_witness :
  let md := {| sm_handle := 7; sm_owner := 5; sm_size := 256; sm_property_flags := 2;
               sm_map_alignment := 128; sm_non_coherent_atom_size := 64 |} in
  rq_offset (native_range md 70 10) = 64 /\ rq_size (native_range md 70 10) = 64 /\
  covers (native_range md 70 10) 70 10.
Proof.
  intros md. split; [by vm_compute|]. split; [by vm_compute|].
  apply (native_range_valid md 70 10); [|lia|lia|vm_compute; discriminate].
  split; [split; by apply (bool_decide_unpack _)|]. cbn. split; [lia|done].
Defined.

(** Memory whose size is not a multiple of the atom size can be sent past its
    end: the rounding does not stop at the size. *)
Lemma native_range_overruns :
  let md := {| sm_handle := 7; sm_owner := 5; sm_size := 100; sm_property_flags := 2;
               sm_map_alignment := 64; sm_non_coherent_atom_size := 64 |} in
  sm_size md < rq_offset (native_range md 64 16) + rq_size (native_range md 64 16).
Proof. by vm_compute. Qed.

(** ** Transfers reach the memory *)

(** What the transfers rely on, as the Vulkan specification states it.
    [device_bytes] are the bytes of an allocation as the device sees them;
    [mapped_at] is, while it is mapped, the address of its first byte and the
    offset the mapping starts from. *)
Class MemoryDriverLaws (W : Type) `{MemoryDriver W} := {
  device_bytes : W -> Z -> option (list byte);
  mapped_at : W -> Z -> option (Z * Z);
  memory_coherent : Z -> bool;
  atom_of : Z -> Z;
  results_law : forall device memory offset range w,
    is_i32 (fst (fst (vkMapMemory device memory offset w))) /\
    is_i32 (fst (vkFlushMappedMemoryRanges device range w)) /\
    is_i32 (fst (vkInvalidateMappedMemoryRanges device range w));
  map_law : forall device memory offset w mapped w' mem,
    device_bytes w memory = Some mem -> 0 <= offset < Z.of_nat (length mem) ->
    vkMapMemory device memory offset w = (VK_SUCCESS, mapped, w') ->
    device_bytes w' = device_bytes w /\
    exists base, mapped_at w' memory = Some (base, offset) /\ mapped = base + offset;
  unmap_law : forall device memory w, device_bytes (vkUnmapMemory device memory w) = device_bytes w;
  store_coherent_law : forall memory base start offset data w mem,
    mapped_at w memory = Some (base, start) -> memory_coherent memory = true ->
    device_bytes w memory = Some mem -> start <= offset ->
    offset + Z.of_nat (length data) <= Z.of_nat (length mem) ->
    let w' := host_store (base + offset) data w in
    device_bytes w' memory = Some (patch (Z.to_nat offset) data mem) /\
    forall memory', memory' <> memory -> device_bytes w' memory' = device_bytes w memory';
  store_flush_law : forall device memory base start offset data range w mem w',
    mapped_at w memory = Some (base, start) -> device_bytes w memory = Some mem ->
    start <= offset -> offset + Z.of_nat (length data) <= Z.of_nat (length mem) ->
    rq_memory range = memory -> native_valid (atom_of memory) (Z.of_nat (length mem)) start range ->
    covers range offset (Z.of_nat (length data)) ->
    vkFlushMappedMemoryRanges device range (host_store (base + offset) data w) = (VK_SUCCESS, w') ->
    device_bytes w' memory = Some (patch (Z.to_nat offset) data mem) /\
    forall memory', memory' <> memory -> device_bytes w' memory' = device_bytes w memory';
  load_coherent_law : forall memory base start offset size w mem,
    mapped_at w memory = Some (base, start) -> memory_coherent memory = true ->
    device_bytes w memory = Some mem -> 0 <= start <= offset -> 0 <= size ->
    offset + size <= Z.of_nat (length mem) ->
    host_load (base + offset) size w = window (Z.to_nat offset) (Z.to_nat size) mem;
  invalidate_load_law : forall device memory base start offset size range w mem w',
    mapped_at w memory = Some (base, start) -> device_bytes w memory = Some mem ->
    0 <= start <= offset -> 0 <= size -> offset + size <= Z.of_nat (length mem) ->
    rq_memory range = memory -> native_valid (atom_of memory) (Z.of_nat (length mem)) start range ->
    covers range offset size ->
    vkInvalidateMappedMemoryRanges device range w = (VK_SUCCESS, w') ->
    device_bytes w' = device_bytes w /\
    host_load (base + offset) size w' = window (Z.to_nat offset) (Z.to_nat size) mem }.

Section Transfers.
Context {W : Type} {HD : MemoryDriver W} {HL : MemoryDriverLaws W}.

(** What the server recorded about an allocation is what the driver has. *)
Definition describes (md : ServerMemory) (mem : list byte) : Prop :=
  sm_size md = Z.of_nat (length mem) /\ sm_size md < 18446744073709551616 /\
  (pow2_64 (sm_non_coherent_atom_size md) /\ pow2_64 (sm_map_alignment md)) /\
  sm_non_coherent_atom_size md = atom_of (sm_handle md) /\
  (host_coherent md = true -> memory_coherent (sm_handle md) = true) /\
  (host_coherent md = false -> sm_size md mod sm_non_coherent_atom_size md = 0).

#[export] Instance describes_dec md mem : Decision (describes md mem).
Proof. unfold describes. apply _. Defined.

Lemma map_offset_le md mem offset : describes md mem -> 0 <= offset < 18446744073709551616 ->
  0 <= native_map_offset md offset <= offset.
Proof.
  intros (_ & _ & ((a & Ha & Hka)%pow2_64_exp & (m & Hm & Hkm)%pow2_64_exp) & _) Ho. unfold native_map_offset. rewrite Ha, Hm.
  assert (forall k, 0 <= k < 64 -> 0 <= align_down offset (2 ^ k) <= offset) as Hd.
  { intros k Hk. assert (0 < 2 ^ k) by (apply Z.pow_pos_nonneg; lia).
    rewrite align_down_pow2 by (unfold is_u64; lia || done).
    pose proof (Z.mod_le offset (2 ^ k)). pose proof (Z.mod_pos_bound offset (2 ^ k)). lia. }
  case_if; by apply Hd.
Qed.

(** The native call of non-coherent memory is valid. *)
Lemma describes_native md mem offset len : describes md mem -> host_coherent md = false ->
  0 <= offset -> 0 < len -> offset + len <= sm_size md ->
  let r := native_range md offset len in
  rq_memory r = sm_handle md /\ covers r offset len /\
  native_valid (atom_of (sm_handle md)) (Z.of_nat (length mem)) (native_map_offset md offset) r.
Proof.
  intros (Hsz & Hmax & Hal & Hat & _ & Hco) Hnc Ho Hl Hin r. specialize (Hco Hnc).
  destruct (native_range_valid_aux md offset len) as (H1 & H2 & _ & H4);
    [split; [exact Hal|split; [lia|exact Hco]]|done|done|done|].
  rewrite <- Hat, <- Hsz. done.
Qed.

Lemma map_transfer_result md offset size upload (w : W) :
  is_i32 (fst (fst (map_transfer md offset size upload w))).
Proof.
  unfold map_transfer.
  destruct (results_law (sm_owner md) (sm_handle md) (native_map_offset md offset)
              (native_range md offset size) w) as (Hr & _).
  destruct (vkMapMemory _ _ _ w) as [[r mapped] w1]. cbn [fst] in Hr. case_if; [done|].
  assert (forall w, is_i32 (fst (vkFlushMappedMemoryRanges (sm_owner md) (native_range md offset size) w)) /\
    is_i32 (fst (vkInvalidateMappedMemoryRanges (sm_owner md) (native_range md offset size) w))) as Hf.
  { intros w0. by destruct (results_law (sm_owner md) 0 0 (native_range md offset size) w0) as (_ & ? & ?). }
  destruct upload as [data|]; destruct (host_coherent md); try done.
  - match goal with |- context [vkFlushMappedMemoryRanges _ _ ?w] => destruct (Hf w) as [Hr1 _] end.
    by destruct (vkFlushMappedMemoryRanges _ _ _).
  - destruct (Hf w1) as [_ Hr1]. by destruct (vkInvalidateMappedMemoryRanges _ _ _).
Qed.

(** An upload that succeeds replaces exactly its bytes. *)
Lemma upload_ok md mem offset data (w : W) download w' :
  describes md mem -> device_bytes w (sm_handle md) = Some mem ->
  0 <= offset -> (0 < length data)%nat -> offset + Z.of_nat (length data) <= sm_size md ->
  map_transfer md offset (Z.of_nat (length data)) (Some data) w = (VK_SUCCESS, download, w') ->
  device_bytes w' (sm_handle md) = Some (patch (Z.to_nat offset) data mem) /\
  forall h, h <> sm_handle md -> device_bytes w' h = device_bytes w h.
Proof.
  intros Hd Hm Ho Hl Hin. unfold map_transfer. pose proof Hd as (Hsz & Hmax & _ & _ & Hco & _).
  pose proof (map_offset_le md mem offset Hd ltac:(lia)) as Hmo.
  destruct (vkMapMemory _ _ _ w) as [[r0 mapped] w1] eqn:Hmap.
  destruct (r0 =? VK_SUCCESS) eqn:Hr0; cbn [negb]; bool_hyps; [subst r0|congruence].
  apply (map_law _ _ _ _ _ _ mem Hm) in Hmap as [Hb (base & Hat & ->)]; [|lia].
  replace (base + native_map_offset md offset + (offset - native_map_offset md offset)) with (base + offset) by lia.
  destruct (host_coherent md) eqn:Hc.
  - intros [= _ <-]. rewrite unmap_law.
    destruct (store_coherent_law (sm_handle md) base _ offset data w1 mem Hat (Hco eq_refl)) as [H1 H2];
      [by rewrite Hb|lia|lia|]. split; [exact H1|]. intros h Hh. by rewrite H2, Hb.
  - destruct (vkFlushMappedMemoryRanges _ _ _) as [r w2] eqn:Hf. intros [= -> _ <-]. rewrite unmap_law.
    destruct (describes_native md mem offset (Z.of_nat (length data)) Hd Hc) as (R1 & R2 & R3); [lia|lia|lia|].
    destruct (store_flush_law _ _ base _ offset data _ w1 mem w2 Hat ltac:(by rewrite Hb) ltac:(lia) ltac:(lia) R1 R3 R2 Hf)
      as [H1 H2]. split; [exact H1|]. intros h Hh. by rewrite H2, Hb.
Qed.

(** A download that succeeds returns the device's bytes and changes none. *)
Lemma download_ok md mem offset size (w : W) download w' :
  describes md mem -> device_bytes w (sm_handle md) = Some mem ->
  0 <= offset -> 0 < size -> offset + size <= sm_size md ->
  map_transfer md offset size None w = (VK_SUCCESS, download, w') ->
  device_bytes w' = device_bytes w /\ download = window (Z.to_nat offset) (Z.to_nat size) mem.
Proof.
  intros Hd Hm Ho Hl Hin. unfold map_transfer. pose proof Hd as (Hsz & Hmax & _ & _ & Hco & _).
  pose proof (map_offset_le md mem offset Hd ltac:(lia)) as Hmo.
  destruct (vkMapMemory _ _ _ w) as [[r0 mapped] w1] eqn:Hmap.
  destruct (r0 =? VK_SUCCESS) eqn:Hr0; cbn [negb]; bool_hyps; [subst r0|congruence].
  apply (map_law _ _ _ _ _ _ mem Hm) in Hmap as [Hb (base & Hat & ->)]; [|lia].
  replace (base + native_map_offset md offset + (offset - native_map_offset md offset)) with (base + offset) by lia.
  destruct (host_coherent md) eqn:Hc.
  - intros [= <- <-]. rewrite unmap_law. split; [done|].
    eapply load_coherent_law; [exact Hat|by apply Hco|by rewrite Hb|lia..].
  - destruct (vkInvalidateMappedMemoryRanges _ _ _) as [r w2] eqn:Hf. intros [= -> <- <-].
    rewrite unmap_law, Z.eqb_refl.
    destruct (describes_native md mem offset size Hd Hc) as (R1 & R2 & R3); [lia|lia|lia|].
    destruct (invalidate_load_law _ _ base _ offset size _ w1 mem w2 Hat ltac:(by rewrite Hb) ltac:(lia) ltac:(lia) ltac:(lia) R1 R3 R2 Hf)
      as [H1 H2]. split; [by rewrite H1|exact H2].
Qed.

End Transfers.

(** ** The server behind a connection *)

Definition loop_opcodes `{LoopOpcodes} : list Z :=
  [Handshake; Ping; vkQueueWaitIdle; vkDeviceWaitIdle; vkWaitForFences; vkWaitSemaphores].

(** The two transfer commands, apart from those the loop treats itself. *)
Class TransferOpcodes `{LoopOpcodes} := {
  op_FlushMappedMemory : Z; op_DownloadMappedMemory : Z;
  transfer_opcodes_distinct :
    (op_FlushMappedMemory ∉ loop_opcodes) /\ (op_DownloadMappedMemory ∉ loop_opcodes) }.

Section Server.
Context {W : Type} {HD : MemoryDriver W} `{TransferOpcodes}.
Variable find_handler : Z -> option (Session W -> Session W).
Variable has_vkWaitSemaphores : Z -> W -> bool.

(** A request with id 1 on the loop, and the payload of the frame it sends. *)
Definition loop_round_trip (op : Z) (payload : list byte) (l : Loop W) : option (list byte) * Loop W :=
  match on_message find_handler has_vkWaitSemaphores (mk_header op (Z.of_nat (length payload)) 1) payload l with
  | None => (None, l)
  | Some (_, l') =>
      (match drop (length (l_sent l)) (l_sent l') with
       | (_, reply, _) :: _ => Some reply
       | [] => None
       end, l')
  end.

#[export] Instance server_remote : Remote :=
  {| world := Loop W; FlushMappedMemory := op_FlushMappedMemory;
     DownloadMappedMemory := op_DownloadMappedMemory; round_trip := loop_round_trip |}.

Context {HL : MemoryDriverLaws W}.
Hypothesis flush_registered : find_handler op_FlushMappedMemory = Some handle_FlushMappedMemory.
Hypothesis download_registered : find_handler op_DownloadMappedMemory = Some handle_DownloadMappedMemory.

(** Memory the device [remote_id] can transfer: recorded as the driver has it,
    host visible, and no other id names it. *)
Definition transferable (remote_id : Z) (t : ObjectTables) (id : Z) (md : ServerMemory) (mem : list byte) : Prop :=
  is_u64 id /\ sm_owner md = Table.get (table t devices) remote_id /\ sm_owner md <> 0 /\
  Z.land (sm_property_flags md) VK_MEMORY_PROPERTY_HOST_VISIBLE_BIT <> 0 /\ describes md mem /\
  map_Forall (fun id' md' => id' <> id -> sm_handle md' <> sm_handle md) (memory_metadata t).

#[export] Instance transferable_dec remote_id t id md mem : Decision (transferable remote_id t id md mem).
Proof. unfold transferable. apply _. Defined.

Definition server_bytes (remote_id : Z) (ready : bool) (t : ObjectTables)
    (bytes : Z -> option (list byte)) (id : Z) : option (list byte) :=
  if negb ready then None
  else match memory_metadata t !! id with
  | None => None
  | Some md =>
      match bytes (sm_handle md) with
      | None => None
      | Some mem => if decide (transferable remote_id t id md mem) then Some mem else None
      end
  end.

(** The bytes the client's memory [id] has at the server. *)
Definition server_contents (remote_id : Z) (l : Loop W) : Z -> option (list byte) :=
  server_bytes remote_id (handshake_complete l) (l_tables l) (device_bytes (l_driver l)).

Lemma server_contents_some remote_id l id mem : server_contents remote_id l id = Some mem ->
  handshake_complete l = true /\ exists md, memory_metadata (l_tables l) !! id = Some md /\
    device_bytes (l_driver l) (sm_handle md) = Some mem /\ transferable remote_id (l_tables l) id md mem.
Proof.
  unfold server_contents, server_bytes. destruct (handshake_complete l); [cbn [negb]|done].
  destruct (_ !! id) as [md|]; [|done]. destruct (device_bytes _ _) as [mem'|] eqn:Hb; [|done].
  case_decide; [|done]. intros [= <-]. split; [done|]. by exists md.
Qed.

Lemma validate_ok remote_id t id md mem offset size : transferable remote_id t id md mem ->
  memory_metadata t !! id = Some md -> 0 < size <= kMaxMappedChunk -> 0 <= offset -> offset + size <= sm_size md ->
  validate_transfer t remote_id id offset size = Some md.
Proof.
  intros (_ & Ho & Hn & Hv & _) Hmd Hs Hoff Hin. unfold validate_transfer. rewrite Hmd, <- Ho.
  rewrite (proj2 (Z.eqb_neq _ _) Hn), Z.eqb_refl, (proj2 (Z.eqb_neq _ _) Hv), (proj2 (Z.eqb_neq size 0)) by lia.
  rewrite !(proj2 (Z.ltb_ge _ _)) by lia. done.
Qed.

(** A command with a handler of its own goes to it; its reply is the frame the
    session sent. *)
Lemma loop_round_trip_handled op handler payload l (reply : list byte) c' :
  op ∉ loop_opcodes ->
  find_handler op = Some handler -> handshake_complete l = true ->
  handler (new_session (mk_header op (Z.of_nat (length payload)) 1) payload l) = c' ->
  sent c' = l_sent l ++ [(op, reply, 1)] ->
  loop_round_trip op payload l = (Some reply, leave c' l).
Proof.
  intros Hop Hf Hh <- Hsent. unfold loop_round_trip, on_message. cbn [Wire.opcode].
  unfold loop_opcodes in Hop. rewrite !not_elem_of_cons in Hop. destruct Hop as (H1 & H2 & H3 & H4 & H5 & H6 & _).
  rewrite Hh, !(proj2 (Z.eqb_neq op _)) by done. cbn [negb andb orb]. rewrite Hf. unfold on_command.
  cbn [Wire.opcode]. rewrite (proj2 (Z.eqb_neq op Handshake)) by done. cbn [andb leave l_sent].
  rewrite Hsent. by rewrite drop_app_length.
Qed.

(** What the upload handler does with a request of the client. *)
Lemma flush_handled remote_id op l id md mem offset data :
  is_u64 remote_id -> memory_metadata (l_tables l) !! id = Some md ->
  transferable remote_id (l_tables l) id md mem -> 0 <= offset -> (0 < length data)%nat ->
  offset + Z.of_nat (length data) <= sm_size md -> Z.of_nat (length data) <= kMaxMappedChunk ->
  let payload := flush_request remote_id id offset data in
  let c' := handle_FlushMappedMemory (new_session (mk_header op (Z.of_nat (length payload)) 1) payload l) in
  exists result download w',
    map_transfer md offset (Z.of_nat (length data)) (Some data) (l_driver l) = (result, download, w') /\
    sent c' = l_sent l ++ [(op, Writer.u32 (status_code Ok) ++ Writer.i32 result, 1)] /\
    tables c' = l_tables l /\ driver c' = w'.
Proof.
  intros Hrid Hmd Ht Hoff Hl Hin Hmax payload c'.
  pose proof Ht as (Hid & _ & _ & _ & (Hsz & Hmx & _) & _).
  unfold kMaxMappedChunk in Hmax. set (len := Z.of_nat (length data)) in *.
  assert (is_u64 offset) as Ho by (unfold is_u64; lia). assert (is_u64 len) as Hlen by (unfold is_u64; lia).
  assert (at_rest (Reader.make payload) (Writer.handle remote_id ++ Writer.handle id ++ Writer.u64 offset ++
            Writer.u64 len ++ Writer.bytes data ++ [])) as Hat.
  { replace (_ ++ _) with payload; [apply at_make|]. unfold payload, flush_request.
    rewrite (wrap64_id offset), app_nil_r by done. done. }
  unfold c', handle_FlushMappedMemory, Handler.rd. cbn [reader new_session].
  decode Hat. cbn [reader Handler.set_reader]. decode Hat. cbn [reader Handler.set_reader].
  decode Hat. cbn [reader Handler.set_reader]. decode Hat. cbn [reader Handler.set_reader].
  apply (at_bytes kMaxMappedChunk) in Hat as (rb & Er & Hat); [|unfold kMaxMappedChunk; lia|unfold is_u32; lia].
  rewrite Er. cbn [reader Handler.set_reader].
  rewrite (at_ok _ _ Hat). rewrite Z.eqb_refl. cbn [negb orb tables Handler.set_reader new_session driver].
  rewrite (validate_ok remote_id _ _ md mem) by (done || unfold kMaxMappedChunk; lia).
  destruct (map_transfer _ _ _ _ _) as [[result download] w'].
  exists result, download, w'. done.
Qed.

(** What the download handler does with a request of the client. *)
Lemma download_handled remote_id op l id md mem offset size :
  is_u64 remote_id -> memory_metadata (l_tables l) !! id = Some md ->
  transferable remote_id (l_tables l) id md mem -> 0 <= offset -> 0 < size <= kMaxMappedChunk ->
  offset + size <= sm_size md ->
  let payload := download_request remote_id id offset size in
  let c' := handle_DownloadMappedMemory (new_session (mk_header op (Z.of_nat (length payload)) 1) payload l) in
  exists result download w',
    map_transfer md offset size None (l_driver l) = (result, download, w') /\
    sent c' = l_sent l ++
      [(op, Writer.u32 (status_code Ok) ++ Writer.i32 result ++ Writer.bytes download, 1)] /\
    tables c' = l_tables l /\ driver c' = w'.
Proof.
  intros Hrid Hmd Ht Hoff Hl Hin payload c'.
  pose proof Ht as (Hid & _ & _ & _ & (Hsz & Hmx & _) & _).
  assert (is_u64 offset) as Ho by (unfold is_u64; lia). assert (is_u64 size) as Hlen by (unfold is_u64; lia).
  assert (at_rest (Reader.make payload) (Writer.handle remote_id ++ Writer.handle id ++ Writer.u64 offset ++
            Writer.u64 size ++ [])) as Hat.
  { replace (_ ++ _) with payload; [apply at_make|]. unfold payload, download_request.
    rewrite (wrap64_id offset), app_nil_r by done. done. }
  unfold c', handle_DownloadMappedMemory, Handler.rd. cbn [reader new_session].
  decode Hat. cbn [reader Handler.set_reader]. decode Hat. cbn [reader Handler.set_reader].
  decode Hat. cbn [reader Handler.set_reader]. decode Hat. cbn [reader Handler.set_reader].
  rewrite (at_ok _ _ Hat). cbn [negb orb tables Handler.set_reader new_session driver].
  rewrite (validate_ok remote_id _ _ md mem) by (done || lia).
  destruct (map_transfer _ _ _ _ _) as [[result download] w'].
  exists result, download, w'. split; [done|]. split; [|done].
  cbn. by rewrite <- !app_assoc.
Qed.

Lemma flush_reply_ok result : is_i32 result ->
  flush_reply (Some (Writer.u32 (status_code Ok) ++ Writer.i32 result)) = Some result.
Proof.
  intros Hr. unfold flush_reply.
  pose proof (at_make (Writer.u32 (status_code Ok) ++ Writer.i32 result ++ [])) as Hat.
  rewrite (app_nil_r (Writer.i32 result)) in Hat at 1. decode Hat. rewrite Z.eqb_refl. cbn [negb].
  decode Hat. by rewrite (at_ok _ _ Hat).
Qed.

Lemma download_reply_ok size result data bytes : is_i32 result -> 0 <= size <= kMaxMappedChunk ->
  (result = VK_SUCCESS -> Z.of_nat (length data) = size) ->
  download_reply size (Some (Writer.u32 (status_code Ok) ++ Writer.i32 result ++ Writer.bytes data))
    = inr bytes -> result = VK_SUCCESS /\ bytes = data.
Proof.
  intros Hr Hs Hd. unfold download_reply, kMaxMappedChunk in *.
  pose proof (at_make (Writer.u32 (status_code Ok) ++ Writer.i32 result ++ Writer.bytes data ++ [])) as Hat.
  rewrite (app_nil_r (Writer.bytes data)) in Hat at 1. decode Hat. rewrite Z.eqb_refl. cbn [negb].
  decode Hat. rewrite (at_ok _ _ Hat). cbn [negb].
  destruct (result =? VK_SUCCESS) eqn:E; cbn [negb]; [|done]. bool_hyps. specialize (Hd E).
  apply (at_bytes size) in Hat as (rb & Er & Hat); [|lia|unfold is_u32; lia]. rewrite Er.
  case_if; [done|]. by intros [= <-].
Qed.

(** An upload keeps the length of the memory. *)
Lemma transferable_patch remote_id t id md mem offset data : transferable remote_id t id md mem ->
  0 <= offset -> offset + Z.of_nat (length data) <= Z.of_nat (length mem) ->
  transferable remote_id t id md (patch (Z.to_nat offset) data mem).
Proof.
  intros (H1 & H2 & H3 & H4 & (H5 & H6) & H7) Hoff Hin. unfold transferable, describes.
  rewrite length_patch by lia. done.
Qed.

Lemma map_transfer_result_of md offset size upload (w w' : W) result download :
  map_transfer md offset size upload w = (result, download, w') -> is_i32 result.
Proof. intros E. pose proof (map_transfer_result md offset size upload w) as H1. by rewrite E in H1. Qed.

(** An upload the client sees succeed has put its bytes there, and no other. *)
Lemma flush_served remote_id : is_u64 remote_id -> forall id offset data l mem reply l',
  server_contents remote_id l id = Some mem -> 0 <= offset -> (0 < length data)%nat ->
  offset + Z.of_nat (length data) <= Z.of_nat (length mem) < 18446744073709551616 ->
  Z.of_nat (length data) <= kMaxMappedChunk ->
  loop_round_trip op_FlushMappedMemory (flush_request remote_id id offset data) l = (reply, l') ->
  flush_reply reply = Some VK_SUCCESS ->
  server_contents remote_id l' id = Some (patch (Z.to_nat offset) data mem) /\
  forall id', id' <> id -> server_contents remote_id l' id' = server_contents remote_id l id'.
Proof.
  intros Hrid id offset data l mem reply l' Hc Hoff Hlen Hin Hmax Hrt Hok.
  apply server_contents_some in Hc as (Hh & md & Hmd & Hb & Ht).
  pose proof Ht as (_ & _ & _ & _ & Hd & Huniq). pose proof Hd as (Hsz & _).
  destruct (flush_handled remote_id op_FlushMappedMemory l id md mem offset data)
    as (result & download & w' & Hmt & Hsent & Htab & Hdrv); [done|done|done|done|lia|lia|lia|].
  rewrite (loop_round_trip_handled _ _ _ _ _ _ (proj1 transfer_opcodes_distinct) flush_registered Hh eq_refl Hsent) in Hrt.
  apply (inj2 pair) in Hrt as [<- <-].
  rewrite flush_reply_ok in Hok by (by eapply map_transfer_result_of). injection Hok as ->.
  apply (upload_ok md mem) in Hmt as [H1 H2]; [|done|done|done|lia|lia].
  unfold server_contents, leave. cbn [handshake_complete l_tables l_driver]. rewrite Htab, Hdrv, Hh.
  unfold server_bytes. cbn [negb]. rewrite Hmd, H1. split.
  + rewrite decide_True; [done|]. apply transferable_patch; [exact Ht|done|lia].
  + intros id' Hne. destruct (memory_metadata _ !! id') as [md'|] eqn:Hmd'; [|done].
    by rewrite (H2 _ (Huniq id' md' Hmd' Hne)).
Qed.

(** A download the client sees succeed has returned the bytes, and changed none. *)
Lemma download_served remote_id : is_u64 remote_id -> forall id offset size l mem reply l' bytes,
  server_contents remote_id l id = Some mem -> 0 <= offset -> 0 < size <= kMaxMappedChunk ->
  offset + size <= Z.of_nat (length mem) < 18446744073709551616 ->
  loop_round_trip op_DownloadMappedMemory (download_request remote_id id offset size) l = (reply, l') ->
  download_reply size reply = inr bytes ->
  server_contents remote_id l' = server_contents remote_id l /\
  bytes = window (Z.to_nat offset) (Z.to_nat size) mem.
Proof.
  intros Hrid id offset size l mem reply l' bytes Hc Hoff Hlen Hin Hrt Hok.
  apply server_contents_some in Hc as (Hh & md & Hmd & Hb & Ht).
  pose proof Ht as (_ & _ & _ & _ & Hd & _). pose proof Hd as (Hsz & _).
  destruct (download_handled remote_id op_DownloadMappedMemory l id md mem offset size)
    as (result & download & w' & Hmt & Hsent & Htab & Hdrv); [done|done|done|done|lia|lia|].
  rewrite (loop_round_trip_handled _ _ _ _ _ _ (proj2 transfer_opcodes_distinct) download_registered Hh eq_refl Hsent) in Hrt.
  apply (inj2 pair) in Hrt as [<- <-].
  assert (result = VK_SUCCESS -> device_bytes w' = device_bytes (l_driver l) /\
            download = window (Z.to_nat offset) (Z.to_nat size) mem) as Hdl.
  { intros ->. apply (download_ok md mem) in Hmt; [done|done|done|done|lia|lia]. }
  apply download_reply_ok in Hok as [Hr ->]; [|by eapply map_transfer_result_of|lia|].
  + destruct (Hdl Hr) as [Hdb Hwin]. split; [|done].
    unfold server_contents, leave. cbn [handshake_complete l_tables l_driver]. by rewrite Htab, Hdrv, Hdb.
  + intros Hr. destruct (Hdl Hr) as [_ ->]. rewrite length_window; lia.
Qed.

(** The server's loop and handlers are a [MappedServer]: what the client's
    coherence is proved against. *)
Definition server_mapped remote_id (Hrid : is_u64 remote_id) : MappedServer remote_id :=
  {| contents := server_contents remote_id; flush_law := flush_served remote_id Hrid;
     download_law := download_served remote_id Hrid |}.

(** C37: The server implements what the client assumes of it: a request the client
    encodes, served by the loop, decoded and checked by the handler and carried
    out by a driver that keeps the Vulkan rules for mapped memory, is the abstract
    transfer. An upload the client sees succeed replaces exactly its bytes of that
    allocation, a download returns exactly the bytes asked for and changes nothing.

    This is of a connection past its handshake and of an allocation of the client's
    device that is host visible, is known under one id only and is recorded with
    the driver's own size and atom (both alignments powers of two), and which is
    coherent or else has a size that is a multiple of the atom: a transfer to
    other non-coherent memory may flush past the allocation's end, and nothing is
    claimed of it. The range lies within the allocation and one chunk. *)
Theorem server_refines_mapped remote_id id offset size data l mem :
  is_u64 remote_id -> server_contents remote_id l id = Some mem -> 0 <= offset ->
  Z.of_nat (length data) = size -> 0 < size <= kMaxMappedChunk ->
  offset + size <= Z.of_nat (length mem) < 18446744073709551616 ->
  let (up, l1) := loop_round_trip op_FlushMappedMemory (flush_request remote_id id offset data) l in
  let (down, l2) := loop_round_trip op_DownloadMappedMemory (download_request remote_id id offset size) l in
  (flush_reply up = Some VK_SUCCESS ->
     server_contents remote_id l1 id = Some (patch (Z.to_nat offset) data mem) /\
     forall id', id' <> id -> server_contents remote_id l1 id' = server_contents remote_id l id') /\
  (forall bytes, download_reply size down = inr bytes ->
     server_contents remote_id l2 = server_contents remote_id l /\
     bytes = window (Z.to_nat offset) (Z.to_nat size) mem).
Proof.
  intros Hrid Hc Hoff Hlen Hsize Hin.
  destruct (loop_round_trip op_FlushMappedMemory _ l) as [up l1] eqn:Hup.
  destruct (loop_round_trip op_DownloadMappedMemory _ l) as [down l2] eqn:Hdown. split.
  - apply (flush_served remote_id Hrid id offset data l mem up l1); [done|done|lia|lia|lia|done].
  - intros bytes. by apply (download_served remote_id Hrid id offset size l mem down l2 bytes).
Qed.

End Server.

(** ** A concrete server

    One device (id 1) with one allocation (id 1) of coherent memory of eight
    bytes, mapped at address 4096; the other calls of this driver do nothing. *)
Section Demo.

Record demo_memory := mkDemo { dm_bytes : list byte; dm_start : option Z }.

#[local] Instance demo_driver : MemoryDriver demo_memory := {|
  vkMapMemory _ _ offset w := (VK_SUCCESS, 4096 + offset, mkDemo (dm_bytes w) (Some offset));
  vkUnmapMemory _ _ w := mkDemo (dm_bytes w) None;
  vkFlushMappedMemoryRanges _ _ w := (VK_SUCCESS, w);
  vkInvalidateMappedMemoryRanges _ _ w := (VK_SUCCESS, w);
  host_store a data w := mkDemo (patch (Z.to_nat (a - 4096)) data (dm_bytes w)) (dm_start w);
  host_load a size w := window (Z.to_nat (a - 4096)) (Z.to_nat size) (dm_bytes w);
  vkGetPhysicalDeviceMemoryProperties _ _ := VkPhysicalDeviceMemoryProperties.zero;
  vkGetPhysicalDeviceProperties _ _ := VkPhysicalDeviceProperties.zero;
  vkAllocateMemory _ _ w := (VK_ERROR_OUT_OF_HOST_MEMORY, 0, w);
  vkFreeMemory _ _ w := w;
  vkBindBufferMemory _ _ _ _ w := (VK_SUCCESS, w);
  vkBindImageMemory _ _ _ _ w := (VK_SUCCESS, w);
  vkGetBufferMemoryRequirements _ _ _ := VkMemoryRequirements.zero;
  vkGetImageMemoryRequirements _ _ _ := VkMemoryRequirements.zero;
  vkGetDeviceMemoryCommitment _ _ _ := 0;
  sparse_count _ _ _ := 0; sparse_values _ _ _ _ := (0, []);
  vkBindBufferMemory2 _ := None; vkBindImageMemory2 _ := None;
  vkGetBufferMemoryRequirements2 _ := None; vkGetImageMemoryRequirements2 _ := None;
  sparse_count2 _ := None; sparse_values2 _ _ _ _ := (0, []);
  vkGetBufferDeviceAddress _ := None; vkGetBufferDeviceAddressKHR _ := None |}.

Definition demo_bytes (w : demo_memory) (memory : Z) : option (list byte) :=
  if memory =? 7 then Some (dm_bytes w) else None.

Definition demo_mapped_at (w : demo_memory) (memory : Z) : option (Z * Z) :=
  match dm_start w with Some start => Some (4096, start) | None => None end.

Lemma demo_bytes_some w memory mem : demo_bytes w memory = Some mem -> memory = 7 /\ dm_bytes w = mem.
Proof. unfold demo_bytes. destruct (memory =? 7) eqn:E; [|done]. intros [= <-]. by bool_hyps. Qed.

Lemma demo_mapped_base w memory base start : demo_mapped_at w memory = Some (base, start) -> base = 4096.
Proof. unfold demo_mapped_at. destruct (dm_start w); [|done]. by intros [= <- _]. Qed.

Lemma demo_store base start offset data w memory mem :
  demo_mapped_at w memory = Some (base, start) -> demo_bytes w memory = Some mem ->
  demo_bytes (host_store (base + offset) data w) memory = Some (patch (Z.to_nat offset) data mem) /\
  forall memory', memory' <> memory ->
    demo_bytes (host_store (base + offset) data w) memory' = demo_bytes w memory'.
Proof.
  intros ->%demo_mapped_base [-> <-]%demo_bytes_some. cbn. replace (4096 + offset - 4096) with offset by lia.
  split; [done|]. intros memory' Hn. unfold demo_bytes. by rewrite (proj2 (Z.eqb_neq memory' 7)).
Qed.

Lemma demo_load base start offset size w memory mem :
  demo_mapped_at w memory = Some (base, start) -> demo_bytes w memory = Some mem ->
  host_load (base + offset) size w = window (Z.to_nat offset) (Z.to_nat size) mem.
Proof.
  intros ->%demo_mapped_base [-> <-]%demo_bytes_some. cbn. by replace (4096 + offset - 4096) with offset by lia.
Qed.

#[local] Instance demo_laws : MemoryDriverLaws demo_memory.
Proof.
  refine {| device_bytes := demo_bytes; mapped_at := demo_mapped_at; memory_coherent _ := true; atom_of _ := 64 |}.
  - intros. split_and!; by apply (bool_decide_unpack _).
  - intros device memory offset w mapped w' mem _ _ [= <- <-]. split; [done|]. by exists 4096.
  - done.
  - intros. by eapply demo_store.
  - intros * Hm Hb _ _ _ _ _ [= <-]. by eapply demo_store.
  - intros. by eapply demo_load.
  - intros * Hm Hb _ _ _ _ _ _ [= <-]. split; [done|]. by eapply demo_load.
Defined.

#[local] Instance demo_loop_opcodes : LoopOpcodes.
Proof.
  refine {| Handshake := 1; Ping := 2; vkQueueWaitIdle := 3; vkDeviceWaitIdle := 4; vkWaitForFences := 5;
            vkWaitSemaphores := 6 |}.
  by apply (bool_decide_unpack _).
Defined.

#[local] Instance demo_transfer_opcodes : TransferOpcodes.
Proof.
  refine {| op_FlushMappedMemory := 7; op_DownloadMappedMemory := 8 |}.
  split; by apply (bool_decide_unpack _).
Defined.

Definition demo_find_handler (op : Z) : option (Session demo_memory -> Session demo_memory) :=
  if op =? 7 then Some handle_FlushMappedMemory
  else if op =? 8 then Some handle_DownloadMappedMemory else None.

Definition demo_metadata : ServerMemory :=
  {| sm_handle := 7; sm_owner := 5; sm_size := 8; sm_property_flags := 6; sm_map_alignment := 64;
     sm_non_coherent_atom_size := 64 |}.

Definition demo_device_bytes : list byte := [x01; x02; x03; x04; x05; x06; x07; x08].

Definition demo_server : Loop demo_memory :=
  mkLoop _ (set_metadata {[1 := demo_metadata]} demo_tables) 0 true (RequestWorkers.init 8) [] []
    (mkDemo demo_device_bytes None).

Lemma demo_remote_id : is_u64 1.
Proof. by apply (bool_decide_unpack _). Qed.

#[local] Instance demo_remote : Remote := server_remote demo_find_handler (fun _ _ => false).
#[local] Instance demo_mapped : MappedServer 1 :=
  server_mapped demo_find_handler (fun _ _ => false) eq_refl eq_refl 1 demo_remote_id.

Lemma demo_contents : server_contents 1 demo_server 1 = Some demo_device_bytes.
Proof. by vm_compute. Qed.

Lemma memory_requests_answered_witness :
  let c := new_session (mk_header 8 0 3) [x01] demo_server in
  replied (handle_DownloadMappedMemory c) = true.
Proof.
  intros c. apply (proj2 (A := Handler.answers c (handle_DownloadMappedMemory c))), (memory_requests_answered
    (H0 := Instances.abi)).
  unfold replying_handlers. right. right. left.
Defined.

(** The same allocation, one atom of 64 bytes, recorded as non-coherent: its
    transfers flush and invalidate. *)
Definition noncoherent_server : Loop demo_memory :=
  mkLoop _ (set_metadata {[1 := {| sm_handle := 7; sm_owner := 5; sm_size := 64; sm_property_flags := 2;
      sm_map_alignment := 64; sm_non_coherent_atom_size := 64 |}]} demo_tables)
    0 true (RequestWorkers.init 8) [] [] (mkDemo (replicate 64 x00) None).

Lemma noncoherent_contents : server_contents 1 noncoherent_server 1 = Some (replicate 64 x00).
Proof. by vm_compute. Qed.

Lemma server_refines_mapped_witness :
  (let (up, l1) := loop_round_trip demo_find_handler (fun _ _ => false) 7 (flush_request 1 1 2 [xff; xfe]) demo_server in
   flush_reply up = Some VK_SUCCESS /\
   server_contents 1 l1 1 = Some [x01; x02; xff; xfe; x05; x06; x07; x08]) /\
  (let (up, l1) := loop_round_trip demo_find_handler (fun _ _ => false) 7 (flush_request 1 1 2 [xff; xfe])
                     noncoherent_server in
   flush_reply up = Some VK_SUCCESS /\
   server_contents 1 l1 1 = Some ([x00; x00; xff; xfe] ++ replicate 60 x00)).
Proof.
  split.
  2: { pose proof (server_refines_mapped demo_find_handler (fun _ _ => false) eq_refl eq_refl 1 1 2 2 [xff; xfe]
                noncoherent_server (replicate 64 x00) demo_remote_id noncoherent_contents) as Hr.
  change op_FlushMappedMemory with 7 in Hr. change op_DownloadMappedMemory with 8 in Hr.
  destruct (loop_round_trip _ _ 7 _ noncoherent_server) as [up l1] eqn:Hup.
  destruct (loop_round_trip _ _ 8 _ noncoherent_server) as [down l2].
  assert (flush_reply up = Some VK_SUCCESS) as Hok.
  { apply (f_equal fst) in Hup. cbn [fst] in Hup. rewrite <- Hup. by vm_compute. }
  split; [done|]. apply Hr; [lia|done|by unfold kMaxMappedChunk|by vm_compute|done]. }
  pose proof (server_refines_mapped demo_find_handler (fun _ _ => false) eq_refl eq_refl 1 1 2 2 [xff; xfe]
                demo_server demo_device_bytes demo_remote_id demo_contents) as Hr.
  change op_FlushMappedMemory with 7 in Hr. change op_DownloadMappedMemory with 8 in Hr.
  destruct (loop_round_trip _ _ 7 _ demo_server) as [up l1] eqn:Hup.
  destruct (loop_round_trip _ _ 8 _ demo_server) as [down l2].
  assert (flush_reply up = Some VK_SUCCESS) as Hok.
  { apply (f_equal fst) in Hup. cbn [fst] in Hup. rewrite <- Hup. by vm_compute. }
  split; [done|]. apply Hr; [lia|done|by unfold kMaxMappedChunk|by vm_compute|done].
Defined.

(** The state of the server as the client's world. *)
Definition demo_world : world (Remote := demo_remote) := demo_server.

(** The client's mapping of bytes 2 to 5; the host has stored two of them. *)
Definition demo_range (sh : list byte) : MappedRange := mkRange 1 2 4 sh true true [x03; x04; x05; x06].

Definition demo_shadow : list byte := [x03; xaa; x05; xbb].

Lemma demo_range_ok : mapping_ok (demo_range demo_shadow) demo_device_bytes.
Proof. unfold mapping_ok. cbn. lia. Qed.

Lemma first_true {A B} (x : bool * A * B) : fst (fst x) = true -> x = (true, snd (fst x), snd x).
Proof. by destruct x as [[? ?] ?]; cbn; intros ->. Qed.

Lemma exchange_agrees_witness :
  let r1 := acquire_range 1 5 (demo_range demo_shadow) 0 demo_world in
  let r2 := publish_range 1 5 (snd (fst r1)) 0 (snd r1) in
  exists mem, contents (snd r2) 1 = Some mem /\
    server_window (demo_range demo_shadow) mem = shadow (snd (fst r2)).
Proof.
  intros r1 r2.
  destruct (exchange_agrees (demo_range demo_shadow) demo_device_bytes demo_world (snd (fst r1)) (snd r1)
              (snd (fst r2)) (snd r2)) as (mem & H1 & H2 & _).
  - exact demo_range_ok.
  - exact demo_contents.
  - apply first_true. by vm_compute.
  - replace (S (length (shadow (snd (fst r1))))) with 5%nat by (by vm_compute). apply first_true. by vm_compute.
  - exists mem. split; [exact H1|exact H2].
Defined.

Lemma flush_writes_range_witness :
  let r := flush_mapped 1 ∅ [demo_range demo_shadow] [mkRequest 1 3 2] demo_world in
  contents (snd r) 1 = Some (patch 3 [xaa; x05] demo_device_bytes).
Proof.
  intros r.
  apply (flush_writes_range ∅ (demo_range demo_shadow) demo_device_bytes [] (mkRequest 1 3 2) demo_world (snd r)).
  - apply map_Forall_empty.
  - exact demo_range_ok.
  - exact demo_contents.
  - reflexivity.
  - cbn. lia.
  - by apply (bool_decide_unpack _).
  - assert (fst r = VK_SUCCESS) as <- by (by vm_compute). apply surjective_pairing.
Defined.

Definition demo_allocation : MemoryAllocation := mkAllocation 8 6 64 true.

Definition demo_malloc (n : Z) : option (Z * list byte) := 
  if n <? 0 then None else Some (1000, replicate (Z.to_nat n) xcc).

Lemma map_starts_coherent_witness :
  let r := MapMemory 1 demo_malloc {[1 := demo_allocation]} 16 [] 1 2 4 demo_world in
  exists m, snd (fst r) = [m] /\ shadow m = [x03; x04; x05; x06] /\ baseline m = shadow m.
Proof.
  intros r.
  destruct (map_starts_coherent demo_malloc {[1 := demo_allocation]} 16 [] demo_allocation demo_device_bytes
              1 2 4 demo_world (default 0 (snd (fst (fst r)))) (snd (fst r)) (snd r))
    as (m & Hm & _ & Hid & Hoff & _ & Hok & Hsh & Hb & _).
  - by apply map_Forall_singleton.
  - apply lookup_singleton_eq.
  - reflexivity.
  - exact demo_contents.
  - reflexivity.
  - by vm_compute.
  - lia.
  - by apply (bool_decide_unpack _).
  - constructor.
  - intros n base block. unfold demo_malloc. destruct (n <? 0) eqn:E; [done|]. intros [= <- <-].
    bool_hyps. rewrite length_replicate. lia.
  - replace (VK_SUCCESS, Some (default 0 (snd (fst (fst r))))) with (fst (fst r)) by (by vm_compute).
    fold r. by rewrite <- !surjective_pairing.
  - exists m. split; [exact Hm|]. split; [|exact Hb]. rewrite Hsh. unfold server_window. rewrite Hoff.
    apply (f_equal (map (fun m => length (shadow m)))) in Hm.
    assert (map (fun m => length (shadow m)) (snd (fst r)) = [4%nat]) as E by (by vm_compute).
    rewrite E in Hm. cbn [app map] in Hm. injection Hm as <-. by vm_compute.
Defined.

(** A device byte in a gap between two host stores is lost: the run that
    publishes the stores carries the stale byte between them. *)
Lemma publish_overwrites_gap :
  let r := publish_coherent_mapped 1 [mkRange 1 2 4 [xaa; x04; x05; xbb] true true [x03; x04; x05; x06]]
             (leave (Handler.set_driver (mkDemo [x01; x02; x03; xdd; x05; x06; x07; x08] None)
                       (new_session (mk_header 7 0 0) [] demo_server)) demo_server : world (Remote := demo_remote)) in
  fst (fst r) = true /\ contents (snd r) 1 = Some [x01; x02; xaa; x04; x05; xbb; x07; x08].
Proof. by vm_compute. Qed.

(** Unmapping flushes the whole shadow: what the device wrote since the last
    acquire is lost although the host stored nothing. *)
Lemma unmap_overwrites :
  let r := UnmapMemory 1 ∅ [demo_range [x03; x04; x05; x06]] 1
             (leave (Handler.set_driver (mkDemo [x01; x02; x03; xdd; x05; x06; x07; x08] None)
                       (new_session (mk_header 7 0 0) [] demo_server)) demo_server : world (Remote := demo_remote)) in
  contents (snd r) 1 = Some demo_device_bytes.
Proof. by vm_compute. Qed.

End Demo.
