(* ===== verification/Tracking.v ===== *)
(** Which memory the device may have written: the bookkeeping of
    [src/client/device.cpp] behind emulated coherence.

    Every submission is planned against the recorded state and, once the server
    has accepted it, committed.  A queue, a fence and a semaphore each remember
    the allocations written by the work they stand for, so that waiting for them
    downloads no more than those.  A wait that comes before its signal is
    recorded and served when the signal is submitted. *)

From stdpp Require Import list gmap.
From S2P Require Import Prelude.

#[local] Set Warnings "-clear-no-such-hyp".

(** ** Data *)

(** [DescriptorResource]; only the storage types can be written.

    remote_objects.hpp:128-131. *)
Inductive DescriptorType := StorageBuffer | StorageBufferDynamic | StorageImage | StorageTexelBuffer | OtherDescriptor.
Record DescriptorResource := mkResource { dr_type : DescriptorType; resource_id : Z }.

(** remote_objects.hpp:147-151. *)
Record PendingCoherentWrites := mkPending { pw_queue_id : Z; pw_submission_serial : Z; pw_memory_ids : gset Z }.

(** remote_objects.hpp:158-163. *)
Record TimelineSignalWrites := mkTimeline {
  ts_value : Z; ts_queue_id : Z; ts_submission_serial : Z; ts_memory_ids : gset Z }.

(** remote_objects.hpp:165-170. *)
Record PendingSemaphoreWait := mkWait {
  sw_value : Z; sw_queue_id : Z; sw_submission_serial : Z; downstream_semaphores : list Z }.

(** remote_objects.hpp:172-182. *)
Record SemaphoreProvenance := mkSemaphore {
  timeline : bool; binary_signaled : bool; binary_queue_id : Z; binary_submission_serial : Z;
  binary_writes : gset Z; timeline_writes : list TimelineSignalWrites; acquired_timeline_value : Z;
  acquired_timeline_writes : gset Z; pending_waits : list PendingSemaphoreWait }.

(** A new record of [unordered_map::operator[]]. *)
Definition new_semaphore : SemaphoreProvenance := mkSemaphore false false 0 0 ∅ [] 0 ∅ [].

(** The members of [RemoteDevice] that record writes.  An absent entry of
    [queue_writes] is an empty set.  The serial is a 64-bit counter that only
    wraps after 2^64 submissions; it is unbounded here.

    remote_objects.hpp:184-212. *)
Record Device := mkDevice {
  buffer_bindings : gmap Z Z; image_bindings : gmap Z Z;
  descriptor_resources : gmap Z (gmap Z DescriptorResource);
  image_view_images : gmap Z Z; buffer_view_buffers : gmap Z Z;
  semaphores : gmap Z SemaphoreProvenance; next_submission_serial : Z;
  queue_writes : gmap Z (gset Z); fence_writes : gmap Z PendingCoherentWrites }.

(** The members of [RemoteCommandBuffer] a submission reads.

    remote_objects.hpp:228-239. *)
Record CommandBuffer := mkCommandBuffer {
  writable_descriptor_sets : gset Z; descriptor_writes_host_visible : bool; host_visible_writes : gset Z }.

(** One element of [pSubmits]: the semaphores with the value of the timeline
    structure or of [VkSemaphoreSubmitInfo], [None] when there is none. *)
Record Submit := mkSubmit {
  su_commands : list CommandBuffer; su_waits : list (Z * option Z); su_signals : list (Z * option Z) }.

Module Tracking.

Definition set_semaphores (m : gmap Z SemaphoreProvenance) (d : Device) : Device :=
  mkDevice (buffer_bindings d) (image_bindings d) (descriptor_resources d) (image_view_images d)
    (buffer_view_buffers d) m (next_submission_serial d) (queue_writes d) (fence_writes d).
Definition set_serial (n : Z) (d : Device) : Device :=
  mkDevice (buffer_bindings d) (image_bindings d) (descriptor_resources d) (image_view_images d)
    (buffer_view_buffers d) (semaphores d) n (queue_writes d) (fence_writes d).
Definition set_queue_writes (m : gmap Z (gset Z)) (d : Device) : Device :=
  mkDevice (buffer_bindings d) (image_bindings d) (descriptor_resources d) (image_view_images d)
    (buffer_view_buffers d) (semaphores d) (next_submission_serial d) m (fence_writes d).
Definition set_fence_writes (m : gmap Z PendingCoherentWrites) (d : Device) : Device :=
  mkDevice (buffer_bindings d) (image_bindings d) (descriptor_resources d) (image_view_images d)
    (buffer_view_buffers d) (semaphores d) (next_submission_serial d) (queue_writes d) m.

Definition queue_set (d : Device) (q : Z) : gset Z := default ∅ (queue_writes d !! q).
Definition semaphore_at (d : Device) (id : Z) : SemaphoreProvenance := default new_semaphore (semaphores d !! id).

(** ** What a submission writes *)

(** The allocation behind a descriptor; 0 for none.

    device.cpp:387-404. *)
Definition resource_memory (d : Device) (r : DescriptorResource) : Z :=
  match dr_type r with
  | StorageBuffer | StorageBufferDynamic => default 0 (buffer_bindings d !! resource_id r)
  | StorageImage =>
      match image_view_images d !! resource_id r with
      | Some image => default 0 (image_bindings d !! image)
      | None => 0
      end
  | StorageTexelBuffer =>
      match buffer_view_buffers d !! resource_id r with
      | Some buffer => default 0 (buffer_bindings d !! buffer)
      | None => 0
      end
  | OtherDescriptor => 0
  end.

(** The allocations the descriptors of a set name.

    device.cpp:382-407. *)
Definition set_memory (d : Device) (set_id : Z) : gset Z :=
  match descriptor_resources d !! set_id with
  | None => ∅
  | Some resources =>
      list_to_set (filter (fun m => m <> 0) (map (fun item => resource_memory d item.2) (map_to_list resources)))
  end.

(** device.cpp:377-408. *)
Definition command_writes (d : Device) (cb : CommandBuffer) : gset Z :=
  host_visible_writes cb ∪
  (if descriptor_writes_host_visible cb
   then ⋃ map (set_memory d) (elements (writable_descriptor_sets cb)) else ∅).

Definition own_writes (d : Device) (s : Submit) : gset Z := ⋃ map (command_writes d) (su_commands s).

(** ** Planning *)

(** The first signal of at least this value.

    device.cpp:420-425. *)
Definition first_signal (records : list TimelineSignalWrites) (value : Z) : option TimelineSignalWrites :=
  find (fun r => value <=? ts_value r) records.

(** What a wait adds to the writes, and whether its signal is known; the serial
    of the signal it takes writes from.

    device.cpp:413-431. *)
Definition resolve_wait (sem : SemaphoreProvenance) (value : option Z) : gset Z * bool * option Z :=
  if timeline sem then
    match value with
    | None => (∅, false, None)
    | Some v =>
        if v <=? acquired_timeline_value sem then (acquired_timeline_writes sem, true, None)
        else match first_signal (timeline_writes sem) v with
             | Some r => (acquired_timeline_writes sem ∪ ts_memory_ids r, true, Some (ts_submission_serial r))
             | None => (acquired_timeline_writes sem, false, None)
             end
    end
  else (binary_writes sem, binary_signaled sem,
        if binary_signaled sem then Some (binary_submission_serial sem) else None).

(** The value a pending wait carries; [vkQueueSubmit] records 0 for a binary
    semaphore.

    device.cpp:433-435. *)
Definition pending_value (v2 : bool) (sem : SemaphoreProvenance) (value : option Z) : Z :=
  if v2 || timeline sem then default 0 value else 0.

(** The plan of a submission.

    device.cpp:354-369. *)
Record Plan := mkPlan {
  pl_writes : gset Z; pl_consumed : list Z; pl_waits : list (Z * PendingSemaphoreWait);
  pl_signals : list (Z * bool * Z * Z * gset Z) }.

(** One wait of a submission: the writes it adds and its part of the plan.

    device.cpp:409-442. *)
Definition plan_wait (v2 : bool) (d : Device) (q serial : Z) (downstream : list Z) (w : Z * option Z) :
    gset Z * list Z * list (Z * PendingSemaphoreWait) :=
  match semaphores d !! w.1 with
  | None => (∅, [], [])
  | Some sem =>
      let '(writes, resolved, _) := resolve_wait sem w.2 in
      (writes, if timeline sem then [] else [w.1],
       if resolved then [] else [(w.1, mkWait (pending_value v2 sem w.2) q serial downstream)])
  end.

(** One signal: id, whether it is a timeline, value, serial and writes.

    device.cpp:444-456. *)
Definition plan_signal (d : Device) (serial : Z) (writes : gset Z) (s : Z * option Z) :
    Z * bool * Z * Z * gset Z :=
  let is_timeline := match semaphores d !! s.1 with Some sem => timeline sem | None => false end in
  (s.1, is_timeline, if is_timeline then default 0 s.2 else 0, serial, writes).

(** One element of the submission.

    device.cpp:370-457. *)
Definition plan_submit (v2 : bool) (d : Device) (q serial : Z) (p : Plan) (s : Submit) : Plan :=
  let waits := map (plan_wait v2 d q serial (map fst (su_signals s))) (su_waits s) in
  let writes := pl_writes p ∪ own_writes d s ∪ ⋃ map (fun w => w.1.1) waits in
  mkPlan writes (pl_consumed p ++ concat (map (fun w => w.1.2) waits))
    (pl_waits p ++ concat (map (fun w => w.2) waits))
    (pl_signals p ++ map (plan_signal d serial writes) (su_signals s)).

Fixpoint plan_loop (v2 : bool) (d : Device) (q serial : Z) (p : Plan) (submits : list Submit) : Plan :=
  match submits with
  | [] => p
  | s :: submits => plan_loop v2 d q (serial + 1) (plan_submit v2 d q serial p s) submits
  end.

(** The plan and the serial of its fence; the device has handed out the serials.

    device.cpp:361-365. *)
Definition plan (v2 : bool) (d : Device) (q : Z) (submits : list Submit) : Plan * Z * Device :=
  let first := next_submission_serial d in
  let count := Z.of_nat (length submits) in
  (plan_loop v2 d q first (mkPlan (queue_set d q) [] [] []) submits,
   if count =? 0 then first else first + count - 1,
   set_serial (first + (if count =? 0 then 1 else count)) d).

(** ** Committing *)

(** [if (queue matches && serial >= after) insert]. *)
Definition extend (queue_id serial q after : Z) (writes set : gset Z) : gset Z :=
  if (queue_id =? q) && (after <=? serial) then set ∪ writes else set.

Definition extend_timeline (q after : Z) (writes : gset Z) (r : TimelineSignalWrites) : TimelineSignalWrites :=
  mkTimeline (ts_value r) (ts_queue_id r) (ts_submission_serial r)
    (extend (ts_queue_id r) (ts_submission_serial r) q after writes (ts_memory_ids r)).

Definition extend_fence (q after : Z) (writes : gset Z) (p : PendingCoherentWrites) : PendingCoherentWrites :=
  mkPending (pw_queue_id p) (pw_submission_serial p)
    (extend (pw_queue_id p) (pw_submission_serial p) q after writes (pw_memory_ids p)).

Definition with_sets (sem : SemaphoreProvenance) (binary : gset Z) (records : list TimelineSignalWrites) :
    SemaphoreProvenance :=
  mkSemaphore (timeline sem) (binary_signaled sem) (binary_queue_id sem) (binary_submission_serial sem)
    binary records (acquired_timeline_value sem) (acquired_timeline_writes sem) (pending_waits sem).

Definition extend_binary (q after : Z) (writes : gset Z) (sem : SemaphoreProvenance) : gset Z :=
  if binary_signaled sem
  then extend (binary_queue_id sem) (binary_submission_serial sem) q after writes (binary_writes sem)
  else binary_writes sem.

Definition extend_semaphore (q after : Z) (writes : gset Z) (sem : SemaphoreProvenance) : SemaphoreProvenance :=
  with_sets sem (extend_binary q after writes sem) (map (extend_timeline q after writes) (timeline_writes sem)).

(** device.cpp:91-109. *)
Definition propagate_queue_writes (d : Device) (q after : Z) (writes : gset Z) : Device :=
  set_semaphores (extend_semaphore q after writes <$> semaphores d)
    (set_fence_writes (extend_fence q after writes <$> fence_writes d)
       (set_queue_writes (<[q := queue_set d q ∪ writes]> (queue_writes d)) d)).

(** A semaphore the waiting submission signals; an unknown one is created.

    device.cpp:494-506. *)
Definition extend_downstream (w : PendingSemaphoreWait) (writes : gset Z) (d : Device) (id : Z) : Device :=
  let sem := semaphore_at d id in
  let sem :=
    if timeline sem
    then with_sets sem (binary_writes sem)
           (map (extend_timeline (sw_queue_id w) (sw_submission_serial w) writes) (timeline_writes sem))
    else with_sets sem (extend_binary (sw_queue_id w) (sw_submission_serial w) writes sem) (timeline_writes sem) in
  set_semaphores (<[id := sem]> (semaphores d)) d.

(** A pending wait that the signal satisfies.

    device.cpp:489-508. *)
Definition serve_wait (is_timeline : bool) (value : Z) (writes : gset Z) (d : Device) (w : PendingSemaphoreWait) :
    Device :=
  if is_timeline && (value <? sw_value w) then d
  else fold_left (extend_downstream w writes) (downstream_semaphores w)
         (propagate_queue_writes d (sw_queue_id w) (sw_submission_serial w) writes).

(** The record of the signal itself.

    device.cpp:479-488. *)
Definition record_signal (q : Z) (is_timeline : bool) (value serial : Z) (writes : gset Z)
    (sem : SemaphoreProvenance) : SemaphoreProvenance :=
  if is_timeline
  then mkSemaphore (timeline sem) (binary_signaled sem) (binary_queue_id sem) (binary_submission_serial sem)
         (binary_writes sem) (timeline_writes sem ++ [mkTimeline value q serial writes])
         (acquired_timeline_value sem) (acquired_timeline_writes sem) (pending_waits sem)
  else mkSemaphore (timeline sem) true q serial writes (timeline_writes sem)
         (acquired_timeline_value sem) (acquired_timeline_writes sem) (pending_waits sem).

Definition set_pending_waits (ws : list PendingSemaphoreWait) (sem : SemaphoreProvenance) : SemaphoreProvenance :=
  mkSemaphore (timeline sem) (binary_signaled sem) (binary_queue_id sem) (binary_submission_serial sem)
    (binary_writes sem) (timeline_writes sem) (acquired_timeline_value sem) (acquired_timeline_writes sem) ws.

(** [device->semaphores[id]] replaced by [f] of it. *)
Definition alter_semaphore (f : SemaphoreProvenance -> SemaphoreProvenance) (id : Z) (d : Device) : Device :=
  set_semaphores (<[id := f (semaphore_at d id)]> (semaphores d)) d.

(** The waits a signal satisfies are served and removed.

    device.cpp:489-514. *)
Definition serve_waits (id : Z) (is_timeline : bool) (value : Z) (writes : gset Z) (d : Device) : Device :=
  let d := fold_left (serve_wait is_timeline value writes) (pending_waits (semaphore_at d id)) d in
  alter_semaphore (fun sem =>
    set_pending_waits (filter (fun w => is_timeline && (value <? sw_value w)) (pending_waits sem)) sem) id d.

(** One planned signal.

    device.cpp:478-515. *)
Definition commit_signal (q : Z) (d : Device) (s : Z * bool * Z * Z * gset Z) : Device :=
  let '(id, is_timeline, value, serial, writes) := s in
  serve_waits id is_timeline value writes
    (alter_semaphore (record_signal q is_timeline value serial writes) id d).

(** device.cpp:472-477. *)
Definition consume_binary (sem : SemaphoreProvenance) : SemaphoreProvenance :=
  mkSemaphore (timeline sem) false 0 0 ∅ (timeline_writes sem) (acquired_timeline_value sem)
    (acquired_timeline_writes sem) (pending_waits sem).

(** What an accepted submission records.

    device.cpp:468-521. *)
Definition commit (q fence fence_serial : Z) (p : Plan) (d : Device) : Device :=
  let d := set_queue_writes (<[q := pl_writes p]> (queue_writes d)) d in
  let d := fold_left (fun d w => alter_semaphore (fun sem => set_pending_waits (pending_waits sem ++ [w.2]) sem) w.1 d)
             (pl_waits p) d in
  let d := fold_left (fun d id => alter_semaphore consume_binary id d) (pl_consumed p) d in
  let d := fold_left (commit_signal q) (pl_signals p) d in
  if fence =? 0 then d
  else set_fence_writes (<[fence := mkPending q fence_serial (pl_writes p)]> (fence_writes d)) d.

(** A submission nobody interferes with. *)
Definition submit (v2 : bool) (q fence : Z) (submits : list Submit) (d : Device) : Device :=
  let '(p, serial, d) := plan v2 d q submits in commit q fence serial p d.

(** ** Waiting on the host *)

(** The recorded writes of a fence; none for a fence without a record.

    device.cpp:903-908. *)
Definition fence_set (d : Device) (fence : Z) : gset Z :=
  match fence_writes d !! fence with Some p => pw_memory_ids p | None => ∅ end.

(** device.cpp:911-911. *)
Definition erase_fence (fence : Z) (d : Device) : Device := set_fence_writes (delete fence (fence_writes d)) d.

(** The writes to acquire when the fences in [completed] are found signaled.

    device.cpp:958-965. *)
Definition fences_set (d : Device) (completed : list Z) : gset Z := ⋃ map (fence_set d) completed.

(** device.cpp:968-968. *)
Definition erase_fences (completed : list Z) (d : Device) : Device := fold_right erase_fence d completed.

(** A queue found idle.

    device.cpp:797-797. *)
Definition queue_idle (q : Z) (d : Device) : Device := set_queue_writes (<[q := ∅]> (queue_writes d)) d.

(** device.cpp:818-819. *)
Definition device_idle (d : Device) : Device := set_fence_writes ∅ (set_queue_writes ∅ d).

(** The writes to acquire when a timeline semaphore has reached [value]; [None]
    for an unknown semaphore, which acquires nothing.

    device.cpp:112-123. *)
Definition timeline_set (d : Device) (id value : Z) : option (gset Z) :=
  match semaphores d !! id with
  | None => None
  | Some sem =>
      Some (acquired_timeline_writes sem ∪
            ⋃ map ts_memory_ids (filter (fun r => ts_value r <= value) (timeline_writes sem)))
  end.

(** What is left of the semaphore once [completed] has been acquired.

    device.cpp:125-140. *)
Definition timeline_reached (value : Z) (completed : gset Z) (sem : SemaphoreProvenance) : SemaphoreProvenance :=
  mkSemaphore (timeline sem) (binary_signaled sem) (binary_queue_id sem) (binary_submission_serial sem)
    (binary_writes sem) (filter (fun r => ~ ts_value r <= value) (timeline_writes sem))
    (Z.max (acquired_timeline_value sem) value) (acquired_timeline_writes sem ∪ completed) (pending_waits sem).

Definition reach_timeline (id value : Z) (completed : gset Z) (d : Device) : Device :=
  match semaphores d !! id with
  | None => d
  | Some _ => alter_semaphore (timeline_reached value completed) id d
  end.

(** A signal by the host: the waits it satisfies need no writes.

    device.cpp:1020-1020. *)
Definition host_signal (id value : Z) (d : Device) : Device :=
  match semaphores d !! id with
  | None => d
  | Some _ =>
      alter_semaphore (fun sem => set_pending_waits (filter (fun w => ~ sw_value w <= value) (pending_waits sem)) sem)
        id d
  end.

(** A created semaphore; an id has no older record.

    device.cpp:990-998. *)
Definition create_semaphore (id : Z) (is_timeline : bool) (d : Device) : Device :=
  alter_semaphore (fun sem => mkSemaphore is_timeline (binary_signaled sem) (binary_queue_id sem)
    (binary_submission_serial sem) (binary_writes sem) (timeline_writes sem) (acquired_timeline_value sem)
    (acquired_timeline_writes sem) (pending_waits sem)) id d.

(** device.cpp:1013-1013. *)
Definition destroy_semaphore (id : Z) (d : Device) : Device :=
  set_semaphores (delete id (semaphores d)) d.

(** *** Sparse binding *)

(** One wait of [vkQueueBindSparse], which takes effect at once.

    device.cpp:695-730. *)
Definition sparse_wait (q serial : Z) (downstream : list Z) (d : Device) (w : Z * option Z) : Device :=
  match semaphores d !! w.1 with
  | None => d
  | Some sem =>
      let add writes d := set_queue_writes (<[q := queue_set d q ∪ writes]> (queue_writes d)) d in
      let pend d := alter_semaphore (fun sem =>
        set_pending_waits (pending_waits sem ++
          [mkWait (if timeline sem then default 0 w.2 else 0) q serial downstream]) sem) w.1 d in
      if timeline sem then
        let '(writes, resolved, _) := resolve_wait sem w.2 in
        let d := add writes d in if resolved then d else pend d
      else if binary_signaled sem then
        alter_semaphore (fun sem => mkSemaphore (timeline sem) false (binary_queue_id sem)
            (binary_submission_serial sem) ∅ (timeline_writes sem) (acquired_timeline_value sem)
            (acquired_timeline_writes sem) (pending_waits sem)) w.1 (add (binary_writes sem) d)
      else pend d
  end.

(** One signal of [vkQueueBindSparse]; a timeline signal without a value leaves
    no record.

    device.cpp:731-768. *)
Definition sparse_signal (q serial : Z) (d : Device) (s : Z * option Z) : Device :=
  let is_timeline := timeline (semaphore_at d s.1) in
  let writes := queue_set d q in
  let value := if is_timeline then default 0 s.2 else 0 in
  let d := alter_semaphore (fun sem =>
             if is_timeline && bool_decide (s.2 = None) then sem
             else record_signal q is_timeline value serial writes sem) s.1 d in
  serve_waits s.1 is_timeline value writes d.

(** The waits, then the signals of one element.

    device.cpp:687-769. *)
Definition sparse_info (q serial : Z) (d : Device) (info : list (Z * option Z) * list (Z * option Z)) : Device :=
  fold_left (sparse_signal q serial) info.2
    (fold_left (sparse_wait q serial (map fst info.2)) info.1 d).

(** What an accepted sparse binding records: one serial for the whole call.

    device.cpp:684-772. *)
Definition bind_sparse (q fence : Z) (infos : list (list (Z * option Z) * list (Z * option Z))) (d : Device) : Device :=
  let serial := next_submission_serial d in
  let d := fold_left (sparse_info q serial) infos (set_serial (serial + 1) d) in
  if fence =? 0 then d
  else set_fence_writes (<[fence := mkPending q serial (queue_set d q)]> (fence_writes d)) d.

End Tracking.
