(* ===== verification/TrackingFacts.v ===== *)
(** What the bookkeeping of [Tracking] guarantees: whoever waits for work to
    finish downloads everything that work, and all work that happened before it,
    has written.

    The history is a log of batches with the edges the program can see when a
    batch is submitted: the order of its queue and the signals its waits found. *)

From stdpp Require Import list gmap.
From S2P Require Import Prelude Tracking.
Import Tracking.

#[local] Set Warnings "-clear-no-such-hyp".

(** ** The history *)

(** A submitted batch: its queue, the allocations it writes, and the batches
    whose signals its waits found. *)
Record Batch := mkBatch { bt_queue : Z; bt_own : gset Z; bt_deps : gset Z }.

Abbreviation Log := (gmap Z Batch).

(** Batch [a] has happened when batch [t] has. *)
Inductive before (G : Log) : Z -> Z -> Prop :=
  | before_self t : before G t t
  | before_queue a s t bs bt :
      G !! s = Some bs -> G !! t = Some bt -> bt_queue bs = bt_queue bt -> s < t ->
      before G a s -> before G a t
  | before_wait a s t bt : G !! t = Some bt -> s ∈ bt_deps bt -> before G a s -> before G a t.

(** *** What has been submitted

    The history is kept from the calls alone: it does not look at the records. *)

(** A semaphore: its type, the batch that has signaled it if it is binary and not
    yet waited for, the signals of a timeline not yet found reached, oldest first,
    with their batches, and the greatest value found reached. *)
Record Sem := mkSem {
  h_timeline : bool; h_signaled : option Z; h_signals : list (Z * Z); h_reached : Z }.

Definition new_sem : Sem := mkSem false None [] 0.

(** The batches, the serial of the next one, the last batch of each fence's
    submission, and the semaphores. *)
Record History := mkHistory { batches : Log; next : Z; fenced : gmap Z Z; sems : Z -> Sem }.

Definition new_history : History := mkHistory ∅ 1 ∅ (fun _ => new_sem).

Definition update (id : Z) (f : Sem -> Sem) (m : Z -> Sem) : Z -> Sem :=
  fun i => if decide (i = id) then f (m i) else m i.

(** The batch whose signal a wait finds: that of a signaled binary semaphore, the
    first signal of a timeline that reaches the value. *)
Definition found_signal (m : Z -> Sem) (w : Z * option Z) : option Z :=
  let sem := m w.1 in
  if h_timeline sem then
    match w.2 with
    | Some v => if v <=? h_reached sem then None else snd <$> List.find (fun r => v <=? r.1) (h_signals sem)
    | None => None
    end
  else h_signaled sem.

Definition found_signals (m : Z -> Sem) (waits : list (Z * option Z)) : gset Z :=
  list_to_set (omap (found_signal m) waits).

(** A wait resets a binary semaphore. *)
Definition consume (sem : Sem) : Sem :=
  if h_timeline sem then sem else mkSem false None (h_signals sem) (h_reached sem).

(** A signal of batch [serial]. *)
Definition signal (tl : bool) (value serial : Z) (sem : Sem) : Sem :=
  if tl then mkSem (h_timeline sem) (h_signaled sem) (h_signals sem ++ [(value, serial)]) (h_reached sem)
  else mkSem (h_timeline sem) (Some serial) (h_signals sem) (h_reached sem).

Fixpoint log_batches (deps : Submit -> gset Z) (d : Device) (q serial : Z) (submits : list Submit) (G : Log) : Log :=
  match submits with
  | [] => G
  | s :: submits => log_batches deps d q (serial + 1) submits (<[serial := mkBatch q (own_writes d s) (deps s)]> G)
  end.

(** A call without batches still takes a serial, for its fence. *)
Definition log_submit (deps : Submit -> gset Z) (d : Device) (q n : Z) (submits : list Submit) (G : Log) : Log :=
  match submits with
  | [] => <[n := mkBatch q ∅ ∅]> G
  | _ => log_batches deps d q n submits G
  end.

(** The signals of the batches from [serial] on. *)
Fixpoint signals_from (serial : Z) (submits : list Submit) : list (Z * (Z * option Z)) :=
  match submits with
  | [] => []
  | s :: submits => map (pair serial) (su_signals s) ++ signals_from (serial + 1) submits
  end.

Definition consume_all (waits : list (Z * option Z)) (m : Z -> Sem) : Z -> Sem :=
  fold_left (fun m w => update w.1 consume m) waits m.

Definition set_fence (fence serial : Z) (m : gmap Z Z) : gmap Z Z := if fence =? 0 then m else <[fence := serial]> m.

(** A submission: what it writes goes by the bindings of the moment; its waits find
    the signals of earlier calls. *)
Definition submitted (d : Device) (q fence : Z) (submits : list Submit) (h : History) : History :=
  let n := next h in
  let count := Z.of_nat (length submits) in
  let tl id := h_timeline (sems h id) in
  mkHistory (log_submit (fun s => found_signals (sems h) (su_waits s)) d q n submits (batches h))
    (n + (if count =? 0 then 1 else count))
    (set_fence fence (if count =? 0 then n else n + count - 1) (fenced h))
    (fold_left (fun m s => update s.2.1 (signal (tl s.2.1) (if tl s.2.1 then default 0 s.2.2 else 0) s.1) m)
       (signals_from n submits)
       (consume_all (concat (map su_waits submits)) (sems h))).

(** The signal of a sparse binding; none of a timeline without a value. *)
Definition sparse_signaled (serial : Z) (m : Z -> Sem) (s : Z * option Z) : Z -> Sem :=
  let tl := h_timeline (m s.1) in
  if tl && bool_decide (s.2 = None) then m
  else update s.1 (signal tl (if tl then default 0 s.2 else 0) serial) m.

Definition sparse_element (serial : Z) (m : Z -> Sem) (info : list (Z * option Z) * list (Z * option Z)) : Z -> Sem :=
  fold_left (sparse_signaled serial) info.2 (consume_all info.1 m).

(** A sparse binding is one batch, which writes nothing, behind the signals that the
    waits of its first element find. *)
Definition bound (q fence : Z) (infos : list (list (Z * option Z) * list (Z * option Z))) (h : History) : History :=
  let n := next h in
  mkHistory (<[n := mkBatch q ∅ (found_signals (sems h) (from_option fst [] (head infos)))]> (batches h)) (n + 1)
    (set_fence fence n (fenced h)) (fold_left (sparse_element n) infos (sems h)).

(** The set accounts for all that happened before batch [t], unless the host has
    seen it already. *)
Definition covers (G : Log) (A : Z -> Prop) (t : Z) (M : gset Z) : Prop :=
  forall a b, before G a t -> G !! a = Some b -> bt_own b ⊆ M \/ A a.

(** *** What waiting establishes *)

(** Calls that find work finished. *)
Inductive wait_event :=
  | FenceSignaled (fence : Z)
  | QueueIdle (queue : Z)
  | TimelineReached (id value : Z).

(** The batches the call proves finished. *)
Definition finished (h : History) (e : wait_event) (a : Z) : Prop :=
  match e with
  | FenceSignaled f => exists s, fenced h !! f = Some s /\ before (batches h) a s
  | QueueIdle q => exists s b, batches h !! s = Some b /\ bt_queue b = q /\ before (batches h) a s
  | TimelineReached id v =>
      exists v' s, (v', s) ∈ h_signals (sems h id) /\ v' <= v /\ before (batches h) a s
  end.

(** What it downloads. *)
Definition acquired (d : Device) (e : wait_event) : gset Z :=
  match e with
  | FenceSignaled f => fence_set d f
  | QueueIdle q => queue_set d q
  | TimelineReached id v => default ∅ (timeline_set d id v)
  end.

Definition after_wait (d : Device) (e : wait_event) : Device :=
  match e with
  | FenceSignaled f => erase_fence f d
  | QueueIdle q => queue_idle q d
  | TimelineReached id v => reach_timeline id v (acquired d e) d
  end.

(** The signals found reached need not be found again. *)
Definition reach (v : Z) (sem : Sem) : Sem :=
  mkSem (h_timeline sem) (h_signaled sem) (filter (fun r => ~ r.1 <= v) (h_signals sem)) (Z.max (h_reached sem) v).

Definition set_fenced (m : gmap Z Z) (h : History) : History := mkHistory (batches h) (next h) m (sems h).
Definition set_sems (m : Z -> Sem) (h : History) : History := mkHistory (batches h) (next h) (fenced h) m.

Definition waited (e : wait_event) (h : History) : History :=
  match e with
  | FenceSignaled f => set_fenced (delete f (fenced h)) h
  | QueueIdle q => h
  | TimelineReached id v => set_sems (update id (reach v) (sems h)) h
  end.

Definition created (id : Z) (tl : bool) (h : History) : History :=
  set_sems (update id (fun sem => mkSem tl (h_signaled sem) (h_signals sem) (h_reached sem)) (sems h)) h.

(** The same records; the bindings and descriptors are the application's to
    change. *)
Definition same_records (d d' : Device) : Prop :=
  semaphores d' = semaphores d /\ next_submission_serial d' = next_submission_serial d /\
  queue_writes d' = queue_writes d /\ fence_writes d' = fence_writes d.

(** The states of a device used from one thread at a time, with their history
    and the batches the host has been told are finished. *)
Inductive reachable : Device -> History -> (Z -> Prop) -> Prop :=
  | reach_init d : semaphores d = ∅ -> next_submission_serial d = 1 -> queue_writes d = ∅ ->
      fence_writes d = ∅ -> reachable d new_history (fun _ => False)
  | reach_submit v2 q fence submits d h A : reachable d h A ->
      reachable (submit v2 q fence submits d) (submitted d q fence submits h) A
  | reach_bind_sparse q fence infos d h A : reachable d h A ->
      reachable (bind_sparse q fence infos d) (bound q fence infos h) A
  | reach_wait e d h A : reachable d h A ->
      reachable (after_wait d e) (waited e h) (fun a => A a \/ finished h e a)
  | reach_device_idle d h A : reachable d h A ->
      reachable (device_idle d) (set_fenced ∅ h) (fun a => A a \/ is_Some (batches h !! a))
  | reach_forget_fence f d h A : reachable d h A ->
      reachable (erase_fence f d) (set_fenced (delete f (fenced h)) h) A
  | reach_host_signal id v d h A : reachable d h A -> reachable (host_signal id v d) h A
  | reach_create id tl d h A : reachable d h A -> reachable (create_semaphore id tl d) (created id tl h) A
  | reach_destroy id d h A : reachable d h A ->
      reachable (destroy_semaphore id d) (set_sems (update id (fun _ => new_sem) (sems h)) h) A
  | reach_bind d d' h A : reachable d h A -> same_records d d' -> reachable d' h A.

(** ** The invariant *)

(** Serials below [n]; edges point to older batches. *)
Definition log_ok (n : Z) (G : Log) : Prop :=
  forall t b, G !! t = Some b -> t < n /\ forall s, s ∈ bt_deps b -> s < t.

Definition semaphore_ok (n : Z) (G : Log) (A : Z -> Prop) (sem : SemaphoreProvenance) : Prop :=
  (binary_signaled sem = true -> binary_submission_serial sem < n /\
     covers G A (binary_submission_serial sem) (binary_writes sem)) /\
  Forall (fun r => ts_submission_serial r < n /\ covers G A (ts_submission_serial r) (ts_memory_ids r))
    (timeline_writes sem).

Definition fence_ok (n : Z) (G : Log) (A : Z -> Prop) (p : PendingCoherentWrites) : Prop :=
  pw_submission_serial p < n /\ covers G A (pw_submission_serial p) (pw_memory_ids p).

Definition queues_ok (G : Log) (A : Z -> Prop) (d : Device) : Prop :=
  forall s b, G !! s = Some b -> covers G A s (queue_set d (bt_queue b)).

Definition records_ok (n : Z) (G : Log) (A : Z -> Prop) (d : Device) : Prop :=
  next_submission_serial d = n /\
  map_Forall (fun _ => semaphore_ok n G A) (semaphores d) /\
  map_Forall (fun _ => fence_ok n G A) (fence_writes d) /\ queues_ok G A d.

Section Covers.
Implicit Types (G : Log) (A : Z -> Prop) (M : gset Z).

Lemma covers_mono G A t M M' : covers G A t M -> M ⊆ M' -> covers G A t M'.
Proof. intros Hc Hs a b Hb Hl. destruct (Hc a b Hb Hl); [left; set_solver|by right]. Qed.

Lemma covers_seen G A A' t M : covers G A t M -> (forall a, A a -> A' a) -> covers G A' t M.
Proof. intros Hc Hs a b Hb Hl. destruct (Hc a b Hb Hl); [by left|right; auto]. Qed.

Lemma before_trans G a s t : before G a s -> before G s t -> before G a t.
Proof.
  intros Ha Hs. revert Ha. induction Hs as [|s u t bu bt Hu Ht Hq Hlt Hb IH|s u t bt Ht Hd Hb IH]; intros Ha.
  - done.
  - exact (before_queue _ _ _ _ _ _ Hu Ht Hq Hlt (IH Ha)).
  - exact (before_wait _ _ _ _ _ Ht Hd (IH Ha)).
Qed.

Lemma before_le n G a t : log_ok n G -> before G a t -> a <= t.
Proof.
  intros Hok Hb. induction Hb as [|a s t bs bt Hs Ht Hq Hlt Hb IH|a s t bt Ht Hd Hb IH]; [lia|lia|].
  pose proof (proj2 (Hok _ _ Ht) s Hd). lia.
Qed.

(** A new batch adds nothing to what happened before the old ones. *)
Lemma before_old n b G a t : log_ok n G -> t < n -> before (<[n := b]> G) a t -> before G a t.
Proof.
  intros Hok Ht Hb. revert Ht.
  induction Hb as [|a s t bs bt Hs Hbt Hq Hlt Hb IH|a s t bt Hbt Hd Hb IH]; intros Ht.
  - apply before_self.
  - rewrite lookup_insert_ne in Hbt, Hs by lia. exact (before_queue _ _ _ _ _ _ Hs Hbt Hq Hlt (IH ltac:(lia))).
  - rewrite lookup_insert_ne in Hbt by lia. pose proof (proj2 (Hok _ _ Hbt) s Hd) as Hs.
    exact (before_wait _ _ _ _ _ Hbt Hd (IH ltac:(lia))).
Qed.

Lemma covers_old n b G A t M : log_ok n G -> t < n -> covers G A t M -> covers (<[n := b]> G) A t M.
Proof.
  intros Hok Ht Hc a ba Hb Hl. apply before_old in Hb; [|done|done].
  rewrite lookup_insert_ne in Hl; [by eapply Hc|]. pose proof (before_le _ _ _ _ Hok Hb). lia.
Qed.

Lemma log_ok_insert n q own deps G : log_ok n G -> (forall s, s ∈ deps -> s < n) ->
  log_ok (n + 1) (<[n := mkBatch q own deps]> G).
Proof.
  intros Hok Hd t b. destruct (decide (t = n)) as [->|].
  - rewrite lookup_insert_eq. intros [= <-]. split; [lia|exact Hd].
  - rewrite lookup_insert_ne by done. intros Hl. destruct (Hok t b Hl). split; [lia|done].
Qed.

Lemma semaphore_ok_old n b G A sem : log_ok n G -> semaphore_ok n G A sem ->
  semaphore_ok (n + 1) (<[n := b]> G) A sem.
Proof.
  intros Hok [Hb Ht]. split.
  - intros Hs. destruct (Hb Hs). split; [lia|by apply covers_old].
  - eapply Forall_impl; [exact Ht|]. intros r [? ?]. split; [lia|by apply covers_old].
Qed.

Lemma fence_ok_old n b G A p : log_ok n G -> fence_ok n G A p -> fence_ok (n + 1) (<[n := b]> G) A p.
Proof. intros Hok [? ?]. split; [lia|by apply covers_old]. Qed.

Lemma new_semaphore_ok n G A : semaphore_ok n G A new_semaphore.
Proof. split; [done|constructor]. Qed.

End Covers.

(** The signal planning finds for a wait. *)
Definition wait_deps (d : Device) (w : Z * option Z) : option Z :=
  match semaphores d !! w.1 with Some sem => (resolve_wait sem w.2).2 | None => None end.

(** ** The records follow the history *)

Definition sem_of (sem : SemaphoreProvenance) (reached : Z) : Sem :=
  mkSem (timeline sem) (if binary_signaled sem then Some (binary_submission_serial sem) else None)
    (map (fun r => (ts_value r, ts_submission_serial r)) (timeline_writes sem)) reached.

Definition sem_tracks (sem : SemaphoreProvenance) (g : Sem) : Prop :=
  g = sem_of sem (h_reached g) /\ acquired_timeline_value sem <= h_reached g.

(** The records stand for exactly these serials, fences and semaphores. *)
Definition tracks (d : Device) (n : Z) (F : gmap Z Z) (m : Z -> Sem) : Prop :=
  next_submission_serial d = n /\ pw_submission_serial <$> fence_writes d = F /\
  forall id, sem_tracks (semaphore_at d id) (m id).

Section Tracks.
Context (n : Z) (F : gmap Z Z).
Implicit Types (d : Device) (m : Z -> Sem).

Lemma semaphore_at_insert d id sem i :
  semaphore_at (set_semaphores (<[id := sem]> (semaphores d)) d) i = if decide (i = id) then sem else semaphore_at d i.
Proof.
  unfold semaphore_at. cbn. case_decide as E; [subst; by rewrite lookup_insert_eq|by rewrite lookup_insert_ne].
Qed.

Lemma tracks_insert d m id sem f : tracks d n F m -> sem_tracks sem (f (m id)) ->
  tracks (set_semaphores (<[id := sem]> (semaphores d)) d) n F (update id f m).
Proof.
  intros (H1 & H2 & H3) Hs. split_and!; [done|done|]. intros i. rewrite semaphore_at_insert. unfold update.
  case_decide as E; [by subst|done].
Qed.

Lemma tracks_pointwise d m m' : tracks d n F m -> (forall id, m id = m' id) -> tracks d n F m'.
Proof. intros (H1 & H2 & H3) He. split_and!; [done|done|]. intros i. by rewrite <- He. Qed.

Lemma tracks_insert_same d m id sem : tracks d n F m -> sem_tracks sem (m id) ->
  tracks (set_semaphores (<[id := sem]> (semaphores d)) d) n F m.
Proof.
  intros Ht Hs. eapply tracks_pointwise; [by apply (tracks_insert d m id sem (fun g => g))|].
  intros i. unfold update. by case_decide.
Qed.

Lemma tracks_alter d m id f g : tracks d n F m ->
  (forall sem h, sem_tracks sem h -> sem_tracks (f sem) (g h)) -> tracks (alter_semaphore f id d) n F (update id g m).
Proof. intros Ht Hf. apply tracks_insert; [done|]. apply Hf, Ht. Qed.

Lemma tracks_alter_same d m id f : tracks d n F m ->
  (forall sem h, sem_tracks sem h -> sem_tracks (f sem) h) -> tracks (alter_semaphore f id d) n F m.
Proof. intros Ht Hf. apply tracks_insert_same; [done|]. apply Hf, Ht. Qed.

(** Sets of writes are not part of the history. *)
Lemma sets_tracks sem g W rs : sem_tracks sem g ->
  map (fun r => (ts_value r, ts_submission_serial r)) rs =
    map (fun r => (ts_value r, ts_submission_serial r)) (timeline_writes sem) ->
  sem_tracks (with_sets sem W rs) g.
Proof. intros [-> Hle] Hr. split; [|done]. unfold sem_of, with_sets. cbn. by rewrite Hr. Qed.

Lemma extend_keys q after W rs :
  map (fun r => (ts_value r, ts_submission_serial r)) (map (extend_timeline q after W) rs) =
  map (fun r => (ts_value r, ts_submission_serial r)) rs.
Proof. rewrite map_map. by apply map_ext. Qed.

Lemma tracks_propagate d m q after W : tracks d n F m -> tracks (propagate_queue_writes d q after W) n F m.
Proof.
  intros (H1 & H2 & H3). split_and!; [done| |].
  - rewrite <- H2. cbn. rewrite <- map_fmap_compose. by apply map_fmap_ext.
  - intros id. specialize (H3 id). unfold semaphore_at in *. cbn. rewrite lookup_fmap.
    destruct (semaphores d !! id) as [sem|]; [|done]. cbn in *. by apply sets_tracks, extend_keys.
Qed.

Lemma tracks_downstream d m w W id : tracks d n F m -> tracks (extend_downstream w W d id) n F m.
Proof.
  intros Ht. apply tracks_insert_same; [done|]. destruct Ht as (_ & _ & Hs).
  case_match; apply sets_tracks; [apply Hs|apply extend_keys|apply Hs|done].
Qed.

Lemma tracks_fold {B} (f : Device -> B -> Device) xs : forall d m,
  (forall d x, tracks d n F m -> tracks (f d x) n F m) -> tracks d n F m -> tracks (fold_left f xs d) n F m.
Proof. induction xs as [|x xs IH]; intros d m Hf Hd; [done|]. cbn. apply IH; auto. Qed.

Lemma tracks_serve_waits d m id tl v W : tracks d n F m -> tracks (serve_waits id tl v W d) n F m.
Proof.
  intros Ht. apply tracks_alter_same; [|by intros sem h [-> ?]].
  apply tracks_fold; [|done]. intros d' w Hd'. unfold serve_wait. case_match; [done|].
  apply tracks_fold; [intros; by apply tracks_downstream|by apply tracks_propagate].
Qed.

Lemma tracks_record q tl v serial W sem g : sem_tracks sem g ->
  sem_tracks (record_signal q tl v serial W sem) (signal tl v serial g).
Proof.
  intros [-> Hle]. unfold record_signal, signal. destruct tl; split; try done.
  unfold sem_of. cbn. by rewrite map_app.
Qed.

Lemma tracks_signal q d m id tl v serial W : tracks d n F m ->
  tracks (commit_signal q d (id, tl, v, serial, W)) n F (update id (signal tl v serial) m).
Proof. intros Ht. apply tracks_serve_waits, tracks_alter; [done|]. intros. by apply tracks_record. Qed.

Lemma tracks_consume sem g : timeline sem = false -> sem_tracks sem g -> sem_tracks (consume_binary sem) (consume g).
Proof. intros Ht [-> Hle]. unfold consume. cbn. rewrite Ht. split; [|done]. unfold sem_of. cbn. by rewrite Ht. Qed.

(** The signal a wait finds is one the planning finds. *)
Lemma found_wait_deps d m w s : tracks d n F m -> found_signal m w = Some s -> wait_deps d w = Some s.
Proof.
  intros (_ & _ & Hs). specialize (Hs w.1). unfold found_signal, wait_deps, semaphore_at in *.
  destruct (semaphores d !! w.1) as [sem|]; cbn [default] in Hs; destruct Hs as [-> Hle]; cbn; [|done].
  unfold resolve_wait. destruct (timeline sem); [|done].
  destruct w.2 as [v|]; [|done]. revert Hle. cbn. generalize (h_reached (m w.1)). intros r Hle.
  destruct (Z.leb_spec v r); [done|]. rewrite (proj2 (Z.leb_gt _ _)) by lia.
  unfold first_signal. induction (timeline_writes sem) as [|x l IH]; [done|]. cbn.
  destruct (v <=? ts_value x); [done|exact IH].
Qed.

End Tracks.

(** Reads of a whole submission. *)
Section TracksSubmit.
Context (F : gmap Z Z).

Definition signal_key (x : Z * bool * Z * Z * gset Z) : Z * bool * Z * Z := x.1.

(** The planned signals and consumed semaphores are those of the batches. *)
Lemma plan_loop_keys v2 d q m submits : (forall id, sem_tracks (semaphore_at d id) (m id)) -> forall serial p,
  let tl id := h_timeline (m id) in
  let p' := plan_loop v2 d q serial p submits in
  map signal_key (pl_signals p') = map signal_key (pl_signals p) ++
    map (fun s => (s.2.1, tl s.2.1, if tl s.2.1 then default 0 s.2.2 else 0, s.1)) (signals_from serial submits) /\
  pl_consumed p' = pl_consumed p ++
    concat (map (fun w => match semaphores d !! w.1 with
                          | Some sem => if timeline sem then [] else [w.1]
                          | None => []
                          end) (concat (map su_waits submits))).
Proof.
  intros Hs. cbv zeta. induction submits as [|s0 submits IH]; intros serial p.
  { cbn. by rewrite !app_nil_r. }
  cbn [plan_loop]. destruct (IH (serial + 1) (plan_submit v2 d q serial p s0)) as [-> ->]. split.
  - unfold plan_submit at 1. cbn [pl_signals signals_from]. rewrite !map_app, !map_map, <- app_assoc. f_equal. f_equal.
    apply map_ext. intros s. unfold signal_key, plan_signal. cbn [fst snd].
    assert (match semaphores d !! s.1 with Some sem => timeline sem | None => false end = h_timeline (m s.1)) as ->.
    { destruct (Hs s.1) as [-> _]. unfold semaphore_at. cbn. by destruct (semaphores d !! s.1). }
    done.
  - unfold plan_submit at 1. cbn [pl_consumed map concat]. rewrite map_app, concat_app, <- app_assoc. f_equal. f_equal.
    rewrite map_map. f_equal. apply map_ext. intros w. unfold plan_wait.
    destruct (semaphores d !! w.1) as [sem|]; [|done]. by destruct (resolve_wait sem w.2) as [[? ?] ?].
Qed.

End TracksSubmit.

(** Consuming the waits of the calls on [d0]. *)
Section TracksCommit.
Context (n : Z) (F : gmap Z Z) (d0 : Device).

Definition consumed_by (w : Z * option Z) : list Z :=
  match semaphores d0 !! w.1 with Some sem => if timeline sem then [] else [w.1] | None => [] end.

Definition alike (d : Device) : Prop :=
  forall id, timeline (semaphore_at d id) = timeline (semaphore_at d0 id) /\
    (semaphores d0 !! id = None -> binary_signaled (semaphore_at d id) = false).

Lemma tracks_consume_all ws : forall d m, tracks d n F m -> alike d ->
  tracks (fold_left (fun d id => alter_semaphore consume_binary id d) (concat (map consumed_by ws)) d) n F
    (consume_all ws m).
Proof.
  induction ws as [|w ws IH]; intros d m Ht Ha; [done|]. cbn [map concat consume_all fold_left].
  unfold consumed_by at 1. destruct (Ha w.1) as [Htl Hnone].
  assert (forall g : Sem, sem_tracks (semaphore_at d w.1) g ->
            (timeline (semaphore_at d w.1) = true \/ binary_signaled (semaphore_at d w.1) = false) ->
            consume g = g) as Hid.
  { intros g [-> _] Hc. unfold consume, sem_of. cbn. destruct (timeline _); [done|].
    destruct Hc as [|Hc]; [done|]. by rewrite Hc. }
  destruct (semaphores d0 !! w.1) as [sem|] eqn:E.
  - unfold semaphore_at in Htl at 2. rewrite E in Htl. cbn in Htl. destruct (timeline sem).
    + apply IH; [|done]. eapply tracks_pointwise; [exact Ht|]. intros i. unfold update. case_decide as Ei; [|done].
      subst. symmetry. apply Hid; [apply Ht|by left].
    + cbn [app fold_left]. apply IH.
      * apply tracks_insert; [done|]. apply tracks_consume; [done|apply Ht].
      * intros i. unfold alter_semaphore. rewrite semaphore_at_insert. case_decide as Ei; [|apply Ha].
        subst. cbn. split; [apply Ha|done].
  - apply IH; [|done]. eapply tracks_pointwise; [exact Ht|]. intros i. unfold update. case_decide as Ei; [|done].
    subst. symmetry. apply Hid; [apply Ht|right; auto].
Qed.

Lemma tracks_signals q ss : forall d m, tracks d n F m ->
  tracks (fold_left (commit_signal q) ss d) n F
    (fold_left (fun m (s : Z * bool * Z * Z) => let '(id, tl, v, serial) := s in update id (signal tl v serial) m)
       (map signal_key ss) m).
Proof.
  induction ss as [|[[[[id tl] v] serial] W] ss IH]; intros d m Ht; [done|]. cbn. apply IH. by apply tracks_signal.
Qed.

End TracksCommit.

Lemma tracks_fences d n F m fence q serial W : tracks d n F m ->
  tracks (if fence =? 0 then d else set_fence_writes (<[fence := mkPending q serial W]> (fence_writes d)) d) n
    (set_fence fence serial F) m.
Proof.
  intros (H1 & H2 & H3). unfold set_fence. case_match; [done|]. split_and!; [done| |done]. cbn. by rewrite fmap_insert, H2.
Qed.

Definition follows (d : Device) (h : History) : Prop := tracks d (next h) (fenced h) (sems h).

Lemma follows_submit v2 q fence submits d h : follows d h ->
  follows (submit v2 q fence submits d) (submitted d q fence submits h).
Proof.
  intros Ht. destruct Ht as (Hn & Hf & Hs) eqn:E. clear E. unfold submit, plan, follows, submitted. cbv zeta. rewrite Hn. cbn [next fenced sems].
  set (n' := next h + (if Z.of_nat (length submits) =? 0 then 1 else Z.of_nat (length submits))). set (p := plan_loop v2 d q (next h) _ submits).
  destruct (plan_loop_keys v2 d q (sems h) submits Hs (next h) (mkPlan (queue_set d q) [] [] [])) as [Hk Hc].
  fold p in Hk, Hc. cbn [pl_signals pl_consumed map app] in Hk, Hc.
  unfold commit. cbn zeta. set (d1 := set_queue_writes _ _).
  assert (tracks d1 n' (fenced h) (sems h)) as H1 by (by split_and!).
  set (d2 := fold_left _ (pl_waits p) d1).
  assert (tracks d2 n' (fenced h) (sems h) /\ alike d d2) as [H2 Ha].
  { assert (alike d d1) as Ha1. { intros i. split; [done|]. intros Hi. unfold semaphore_at. cbn. by rewrite Hi. }
    unfold d2. clear -H1 Ha1. clearbody n' p. revert H1 Ha1. generalize d1. clear d1.
    induction (pl_waits p) as [|w ws IH]; intros d1 H1 Ha1; [done|].
    cbn. apply IH.
    - apply tracks_alter_same; [done|]. by intros sem g [-> ?].
    - intros i. unfold alter_semaphore. rewrite semaphore_at_insert. case_decide; [|apply Ha1]. subst. apply Ha1. }
  assert (forall serial, (if Z.of_nat (length submits) =? 0 then next h else next h + Z.of_nat (length submits) - 1) = serial ->
    tracks (if fence =? 0 then fold_left (commit_signal q) (pl_signals p)
        (fold_left (fun d id => alter_semaphore consume_binary id d) (pl_consumed p) d2)
      else set_fence_writes (<[fence := mkPending q serial (pl_writes p)]>
             (fence_writes (fold_left (commit_signal q) (pl_signals p)
                (fold_left (fun d id => alter_semaphore consume_binary id d) (pl_consumed p) d2))))
             (fold_left (commit_signal q) (pl_signals p)
                (fold_left (fun d id => alter_semaphore consume_binary id d) (pl_consumed p) d2))) n'
      (set_fence fence serial (fenced h))
      (fold_left (fun m s => update s.2.1 (signal (h_timeline (sems h s.2.1))
           (if h_timeline (sems h s.2.1) then default 0 s.2.2 else 0) s.1) m)
         (signals_from (next h) submits) (consume_all (concat (map su_waits submits)) (sems h)))) as Hgoal.
  { intros serial _. apply tracks_fences.
    pose proof (tracks_consume_all n' (fenced h) d (concat (map su_waits submits)) d2 (sems h) H2 Ha) as H3.
    change (concat (map (consumed_by d) (concat (map su_waits submits)))) with
      (concat (map (fun w => match semaphores d !! w.1 with Some sem => if timeline sem then [] else [w.1] | None => [] end)
         (concat (map su_waits submits)))) in H3. rewrite <- Hc in H3.
    apply (tracks_signals n' (fenced h) q (pl_signals p)) in H3. rewrite Hk in H3.
    eapply tracks_pointwise; [exact H3|]. intros id. clear. generalize (consume_all (concat (map su_waits submits)) (sems h)).
    induction (signals_from (next h) submits) as [|s l IH]; intros m; [done|]. cbn. apply IH. }
  apply Hgoal. done.
Qed.

(** *** Sparse bindings *)
Lemma follows_bind_sparse q fence infos d h : follows d h -> follows (bind_sparse q fence infos d) (bound q fence infos h).
Proof.
  intros (Hn & Hf & Hs). unfold bind_sparse, follows, bound. rewrite Hn. cbn [next fenced sems]. cbv zeta.
  apply tracks_fences. set (n := next h).
  assert (tracks (set_serial (n + 1) d) (n + 1) (fenced h) (sems h)) as Ht by done. revert Ht.
  generalize (set_serial (n + 1) d) as d1, (sems h) as m. clear.
  induction infos as [|info infos IH]; intros d m Ht; [done|]. cbn [fold_left]. apply IH.
  unfold sparse_info, sparse_element. set (down := map fst info.2). clearbody down.
  assert (tracks (fold_left (sparse_wait q n down) info.1 d) (n + 1) (fenced h) (consume_all info.1 m)) as H1.
  { revert d m Ht. clear IH. induction info.1 as [|w ws IHw]; intros d m Ht; [done|]. cbn [fold_left consume_all].
    apply IHw. destruct Ht as (H1 & H2 & H3) eqn:E. clear E. pose proof (H3 w.1) as Hw. unfold semaphore_at in Hw.
    assert (forall f, (forall sem g, sem_tracks sem g -> sem_tracks (f sem) g) ->
      forall d', tracks d' (n + 1) (fenced h) m -> tracks (alter_semaphore f w.1 d') (n + 1) (fenced h) m) as Hsame
      by (intros; by apply tracks_alter_same).
    assert ((timeline (semaphore_at d w.1) = true \/ binary_signaled (semaphore_at d w.1) = false) ->
      forall d', tracks d' (n + 1) (fenced h) m -> tracks d' (n + 1) (fenced h) (update w.1 consume m)) as Hid.
    { intros Hc d' Hd'. eapply tracks_pointwise; [exact Hd'|]. intros i. unfold update. case_decide; [|done]. subst.
      destruct (H3 w.1) as [-> _]. unfold consume, sem_of. cbn. destruct (timeline (semaphore_at d w.1)); [done|].
      destruct Hc as [|Hc]; [done|]. by rewrite Hc. }
    unfold sparse_wait. destruct (semaphores d !! w.1) as [sem|] eqn:Es; cbn [default] in Hw.
    2: { apply Hid; [|done]. right. unfold semaphore_at. by rewrite Es. }
    assert (semaphore_at d w.1 = sem) as Hat by (unfold semaphore_at; by rewrite Es).
    destruct (timeline sem) eqn:Etl.
    - destruct (resolve_wait sem w.2) as [[W r] x]. apply Hid; [left; congruence|].
      destruct r; [done|]. apply Hsame; [by intros ? ? [-> ?]|done].
    - destruct (binary_signaled sem) eqn:Eb.
      + apply (tracks_insert _ _ _ _ _ _ consume); [done|]. change (semaphore_at _ w.1) with (semaphore_at d w.1).
        rewrite Hat. destruct Hw as [-> Hle]. split; unfold consume, sem_of; cbn; by rewrite Etl.
      + apply Hid; [right; congruence|]. apply Hsame; [by intros ? ? [-> ?]|done]. }
  revert H1. generalize (fold_left (sparse_wait q n down) info.1 d) as d1, (consume_all info.1 m) as m1. clear.
  induction info.2 as [|s ss IHs]; intros d m Ht; [done|]. cbn [fold_left]. apply IHs. unfold sparse_signal, sparse_signaled.
  destruct (proj2 (proj2 Ht) s.1) as [Hg _].
  assert (h_timeline (m s.1) = timeline (semaphore_at d s.1)) as -> by (by rewrite Hg).
  apply tracks_serve_waits. destruct (timeline (semaphore_at d s.1) && bool_decide (s.2 = None)).
  - by apply tracks_alter_same.
  - apply tracks_alter; [done|]. intros. by apply tracks_record.
Qed.

(** *** Every reachable state *)
Lemma reachable_follows d h A : reachable d h A -> follows d h.
Proof.
  induction 1 as [d Hs Hn Hq Hf|v2 q fence submits d h A _ IH|q fence infos d h A _ IH|e d h A _ IH|d h A _ IH
    |f d h A _ IH|id v d h A _ IH|id tl d h A _ IH|id d h A _ IH|d d' h A _ IH (Hs & Hn & Hq & Hf)].
  - split_and!; [done|by rewrite Hf|]. intros id. unfold semaphore_at. rewrite Hs. by split.
  - by apply follows_submit.
  - by apply follows_bind_sparse.
  - destruct e as [f|q|id v]; [|done|]; cbn [after_wait waited].
    + destruct IH as (H1 & H2 & H3). split_and!; [done| |done]. cbn. by rewrite fmap_delete, H2.
    + unfold reach_timeline. destruct (semaphores d !! id) as [sem|] eqn:E.
      * apply tracks_alter; [done|]. intros sem' g [Hg Hle]. split; [|by apply Z.max_le_compat_r].
        rewrite Hg. unfold sem_of, reach. cbn [h_timeline h_signaled h_signals h_reached]. cbn. f_equal.
        clear. induction (timeline_writes sem') as [|r l IHl]; [done|]. cbn [map]. rewrite !filter_cons. cbn [fst].
        repeat case_decide; cbn [map]; by rewrite ?IHl.
      * destruct IH as (H1 & H2 & H3). split_and!; [done|done|]. intros i. cbn. unfold update. case_decide; [|done].
        subst. destruct (H3 id) as [Hg Hle]. unfold semaphore_at in *. rewrite E in *. cbn in *. rewrite Hg.
        split; [done|cbn; lia].
  - destruct IH as (H1 & H2 & H3). split_and!; [done|by apply fmap_empty|done].
  - destruct IH as (H1 & H2 & H3). split_and!; [done| |done]. cbn. by rewrite fmap_delete, H2.
  - unfold host_signal. case_match; [|done]. apply tracks_alter_same; [done|]. by intros ? ? [-> ?].
  - apply tracks_alter; [done|]. by intros sem g [-> ?].
  - destruct IH as (H1 & H2 & H3). split_and!; [done|done|]. intros i. unfold semaphore_at, update. cbn. case_decide as E.
    + subst. rewrite lookup_delete_eq. by split.
    + rewrite lookup_delete_ne by done. apply H3.
  - destruct IH as (H1 & H2 & H3). unfold follows, tracks, semaphore_at in *. rewrite Hs, Hn, Hf. done.
Qed.

(** ** Planning *)

Definition signal_ok (n : Z) (G : Log) (A : Z -> Prop) (s : Z * bool * Z * Z * gset Z) : Prop :=
  let '(_, _, _, serial, writes) := s in serial < n /\ covers G A serial writes.

Section Planning.
Context (A : Z -> Prop).

Lemma resolve_wait_ok n G sem value W r s : semaphore_ok n G A sem ->
  resolve_wait sem value = (W, r, Some s) -> s < n /\ covers G A s W.
Proof.
  intros [Hb Ht]. unfold resolve_wait. destruct (timeline sem).
  - destruct value as [v|]; [|done]. case_match; [done|].
    destruct (first_signal _ v) as [rec|] eqn:Hf; [|done]. intros [= <- _ <-].
    apply find_some in Hf as [Hin _]. apply list_elem_of_In in Hin.
    rewrite Forall_forall in Ht. destruct (Ht rec Hin). split; [done|]. eapply covers_mono; [done|set_solver].
  - destruct (binary_signaled sem) eqn:E; intros [= <- _ <-]. by apply Hb.
Qed.

Lemma wait_deps_ok v2 d q n G w s downstream serial : map_Forall (fun _ => semaphore_ok n G A) (semaphores d) ->
  wait_deps d w = Some s ->
  s < n /\ covers G A s (plan_wait v2 d q serial downstream w).1.1.
Proof.
  intros Hall. unfold wait_deps, plan_wait. destruct (semaphores d !! w.1) as [sem|] eqn:Hs; [|done].
  specialize (Hall _ _ Hs). destruct (resolve_wait sem w.2) as [[W r] [s'|]] eqn:Hr; [|done].
  intros [= ->]. cbn [fst]. apply (resolve_wait_ok n G sem w.2 W r s); [exact Hall|exact Hr].
Qed.

Context (v2 : bool) (d : Device) (q : Z) (deps : Submit -> gset Z).
Hypothesis deps_found : forall s0 s, s ∈ deps s0 -> exists w, w ∈ su_waits s0 /\ wait_deps d w = Some s.

(** The new batch is covered by the writes planned so far. *)
Lemma plan_submit_covers serial G p s0 :
  log_ok serial G -> map_Forall (fun _ => semaphore_ok serial G A) (semaphores d) ->
  (forall s b, G !! s = Some b -> bt_queue b = q -> covers G A s (pl_writes p)) ->
  let G' := <[serial := mkBatch q (own_writes d s0) (deps s0)]> G in
  let p' := plan_submit v2 d q serial p s0 in
  covers G' A serial (pl_writes p').
Proof.
  intros Hok Hsem Hq G' p' a b Hb Hl.
  assert (forall t M, t < serial -> before G' a t -> covers G A t M -> bt_own b ⊆ M \/ A a) as Hold.
  { intros t M Ht Hbt Hc. by apply (covers_old _ _ _ _ _ _ Hok Ht Hc a b Hbt). }
  inversion Hb as [|? s ? bs bt Hs Ht Heq Hlt Hbs|? s ? bt Ht Hd Hbs]; subst.
  - unfold G' in Hl. rewrite lookup_insert_eq in Hl. injection Hl as <-. left. unfold p', plan_submit.
    cbn [bt_own pl_writes]. set_solver.
  - unfold G' in Ht. rewrite lookup_insert_eq in Ht. injection Ht as <-. cbn [bt_queue] in Heq.
    unfold G' in Hs. rewrite lookup_insert_ne in Hs by lia.
    destruct (Hold s _ Hlt Hbs (Hq s bs Hs Heq)); [left|by right].
    unfold p', plan_submit. cbn [pl_writes]. set_solver.
  - unfold G' in Ht. rewrite lookup_insert_eq in Ht. injection Ht as <-. cbn [bt_deps] in Hd.
    apply deps_found in Hd as (w & Hw & Hwd).
    destruct (wait_deps_ok v2 d q serial G w s (map fst (su_signals s0)) serial Hsem Hwd) as [Hlt Hc].
    destruct (Hold s _ Hlt Hbs Hc) as [Hsub|]; [left|by right].
    unfold p', plan_submit. cbn [pl_writes]. etrans; [exact Hsub|]. apply union_subseteq_r'.
    apply elem_of_subseteq. intros x Hx. apply elem_of_union_list.
    eexists. split; [|exact Hx]. apply list_elem_of_fmap. eexists. split; [done|].
    apply list_elem_of_fmap. by exists w.
Qed.

Lemma submit_deps_lt serial G s0 s : map_Forall (fun _ => semaphore_ok serial G A) (semaphores d) ->
  s ∈ deps s0 -> s < serial.
Proof.
  intros Hsem (w & Hw & Hwd)%deps_found. by apply (wait_deps_ok v2 d q serial G w s [] serial Hsem).
Qed.

Lemma plan_loop_ok submits : forall serial G p,
  log_ok serial G -> map_Forall (fun _ => semaphore_ok serial G A) (semaphores d) ->
  (forall s b, G !! s = Some b -> bt_queue b = q -> covers G A s (pl_writes p)) ->
  Forall (signal_ok serial G A) (pl_signals p) ->
  let p' := plan_loop v2 d q serial p submits in
  let G' := log_batches deps d q serial submits G in
  let n := serial + Z.of_nat (length submits) in
  log_ok n G' /\
  (forall t M, t < serial -> covers G A t M -> covers G' A t M) /\
  (forall s b, G' !! s = Some b -> G !! s = Some b /\ s < serial \/ bt_queue b = q) /\
  (forall s b, G' !! s = Some b -> bt_queue b = q -> covers G' A s (pl_writes p')) /\
  Forall (signal_ok n G' A) (pl_signals p') /\
  (submits <> [] -> covers G' A (n - 1) (pl_writes p')).
Proof.
  induction submits as [|s0 submits IH]; intros serial G p Hok Hsem Hq Hsig; cbn [plan_loop log_batches length].
  { rewrite Z.add_0_r. split_and!; try done. intros s b Hl. left. split; [done|]. by apply (Hok s b). }
  pose proof (plan_submit_covers serial G p s0 Hok Hsem Hq) as Hnew. cbn zeta in Hnew.
  set (b0 := mkBatch q (own_writes d s0) (deps s0)) in *. set (p1 := plan_submit v2 d q serial p s0) in *.
  assert (pl_writes p ⊆ pl_writes p1) as Hsub by (unfold p1, plan_submit; cbn [pl_writes]; set_solver).
  destruct (IH (serial + 1) (<[serial := b0]> G) p1) as (I1 & I2 & I3 & I4 & I5 & I6).
  - apply log_ok_insert; [done|]. intros s. by apply submit_deps_lt with (G := G).
  - intros i sem Hi. apply semaphore_ok_old; [done|]. by apply (Hsem i).
  - intros s b Hl Hbq. destruct (decide (s = serial)) as [->|]; [exact Hnew|].
    rewrite lookup_insert_ne in Hl by done. eapply covers_mono; [|exact Hsub].
    apply covers_old; [done|by apply (Hok s b)|]. by eapply Hq.
  - unfold p1, plan_submit. cbn [pl_signals]. apply Forall_app. split.
    + eapply Forall_impl; [exact Hsig|]. intros [[[[? ?] ?] ?] ?] [? ?]. split; [lia|by apply covers_old].
    + apply Forall_forall. intros x Hx. apply list_elem_of_fmap in Hx as (sg & -> & _).
      split; [lia|]. exact Hnew.
  - replace (serial + Z.of_nat (S (length submits))) with (serial + 1 + Z.of_nat (length submits)) by lia.
    split_and!; try done.
    + intros t M Ht Hc. apply I2; [lia|]. by apply covers_old.
    + intros s b Hl. destruct (I3 s b Hl) as [[Hl' Hs]|]; [|by right].
      destruct (decide (s = serial)) as [->|].
      * rewrite lookup_insert_eq in Hl'. injection Hl' as <-. by right.
      * rewrite lookup_insert_ne in Hl' by done. left. split; [done|lia].
    + intros _. destruct submits as [|s1 submits]; [|by apply I6]. cbn [log_batches plan_loop length].
      replace (serial + 1 + Z.of_nat 0 - 1) with serial by lia. exact Hnew.
Qed.

End Planning.

(** ** Committing *)
Lemma extend_sub qid s q after W M : M ⊆ extend qid s q after W M.
Proof. unfold extend. case_match; set_solver. Qed.

Lemma extend_binary_sub q after W sem : binary_writes sem ⊆ extend_binary q after W sem.
Proof. unfold extend_binary. case_match; [apply extend_sub|done]. Qed.

Section Commit.
Context (n : Z) (G : Log) (A : Z -> Prop).
#[local] Abbreviation rok := (records_ok n G A).
#[local] Abbreviation sok := (semaphore_ok n G A).

Lemma fold_left_ok {B C} (P : B -> Prop) (f : B -> C -> B) xs : forall b,
  P b -> (forall b x, x ∈ xs -> P b -> P (f b x)) -> P (fold_left f xs b).
Proof.
  induction xs as [|x xs IH]; intros b Hb Hf; [done|]. cbn. apply IH.
  - apply Hf; [left|done].
  - intros b' x' Hx. apply Hf. by right.
Qed.

Lemma semaphore_at_ok d id : rok d -> sok (semaphore_at d id).
Proof.
  intros (_ & Hs & _). unfold semaphore_at. destruct (semaphores d !! id) as [sem|] eqn:E; [|apply new_semaphore_ok].
  exact (Hs id sem E).
Qed.

Lemma set_semaphores_ok d m : rok d -> map_Forall (fun _ => sok) m -> rok (set_semaphores m d).
Proof. by intros (H1 & _ & H3 & H4) Hm. Qed.

Lemma alter_semaphore_ok f id d : rok d -> (forall sem, sok sem -> sok (f sem)) -> rok (alter_semaphore f id d).
Proof.
  intros Hd Hf. apply set_semaphores_ok; [done|]. apply map_Forall_insert_2.
  - apply Hf. by apply semaphore_at_ok.
  - apply Hd.
Qed.

(** Sets that only grow keep a semaphore accounted for. *)
Lemma with_sets_ok sem W rs : sok sem -> binary_writes sem ⊆ W ->
  Forall2 (fun r r' => ts_submission_serial r' = ts_submission_serial r /\ ts_memory_ids r ⊆ ts_memory_ids r')
    (timeline_writes sem) rs -> sok (with_sets sem W rs).
Proof.
  intros [Hb Ht] HW Hrs. split; cbn.
  - intros Hs. destruct (Hb Hs). split; [done|by eapply covers_mono].
  - induction Hrs as [|r r' l l' [Hser Hsub] _ IH]; [constructor|].
    apply Forall_cons in Ht as [[Hlt Hc] Ht]. constructor; [|by apply IH].
    rewrite Hser. split; [done|by eapply covers_mono].
Qed.

Lemma extend_records_sub q after W rs :
  Forall2 (fun r r' => ts_submission_serial r' = ts_submission_serial r /\ ts_memory_ids r ⊆ ts_memory_ids r')
    rs (map (extend_timeline q after W) rs).
Proof. induction rs as [|r rs IH]; constructor; [|done]. split; [done|apply extend_sub]. Qed.

Lemma same_records_sub rs :
  Forall2 (fun r r' => ts_submission_serial r' = ts_submission_serial r /\ ts_memory_ids r ⊆ ts_memory_ids r') rs rs.
Proof. by induction rs; constructor. Qed.

Lemma extend_semaphore_ok q after W sem : sok sem -> sok (extend_semaphore q after W sem).
Proof. intros Hs. apply with_sets_ok; [done|apply extend_binary_sub|apply extend_records_sub]. Qed.

Lemma queue_set_insert d q M q' : queue_set (set_queue_writes (<[q := M]> (queue_writes d)) d) q' =
  if decide (q' = q) then M else queue_set d q'.
Proof.
  unfold queue_set. cbn. case_decide as E; [subst; by rewrite lookup_insert_eq|by rewrite lookup_insert_ne].
Qed.

Lemma propagate_ok d q after W : rok d -> rok (propagate_queue_writes d q after W).
Proof.
  intros (H1 & Hs & Hf & Hq). split; [done|]. split; [|split].
  - cbn. intros i sem Hi. rewrite lookup_fmap in Hi. apply fmap_Some in Hi as (sem0 & Hi & ->).
    apply extend_semaphore_ok. exact (Hs i sem0 Hi).
  - cbn. intros i p Hi. rewrite lookup_fmap in Hi. apply fmap_Some in Hi as (p0 & Hi & ->).
    destruct (Hf i p0 Hi) as [Hlt Hc]. split; [done|]. cbn. eapply covers_mono; [exact Hc|apply extend_sub].
  - intros s b Hl. unfold propagate_queue_writes.
    change (queue_set _ ?q') with (queue_set (set_queue_writes (<[q := queue_set d q ∪ W]> (queue_writes d)) d) q').
    rewrite queue_set_insert. case_decide as E; [|by apply Hq].
    eapply covers_mono; [by apply Hq|]. rewrite E. set_solver.
Qed.

Lemma extend_downstream_ok w W d id : rok d -> rok (extend_downstream w W d id).
Proof.
  intros Hd. apply set_semaphores_ok; [done|]. apply map_Forall_insert_2; [|apply Hd].
  pose proof (semaphore_at_ok d id Hd) as Hs. case_match.
  - apply with_sets_ok; [done|done|apply extend_records_sub].
  - apply with_sets_ok; [done|apply extend_binary_sub|apply same_records_sub].
Qed.

Lemma serve_wait_ok tl v W d w : rok d -> rok (serve_wait tl v W d w).
Proof.
  intros Hd. unfold serve_wait. case_match; [done|].
  apply fold_left_ok; [by apply propagate_ok|]. intros. by apply extend_downstream_ok.
Qed.

Lemma serve_waits_ok id tl v W d : rok d -> rok (serve_waits id tl v W d).
Proof.
  intros Hd. apply alter_semaphore_ok; [|done].
  apply fold_left_ok; [done|]. intros. by apply serve_wait_ok.
Qed.

Lemma commit_signal_ok q d s : rok d -> signal_ok n G A s -> rok (commit_signal q d s).
Proof.
  destruct s as [[[[id tl] v] serial] W]. intros Hd [Hlt Hc]. apply serve_waits_ok, alter_semaphore_ok; [done|].
  intros sem [Hb Ht]. unfold record_signal. destruct tl; split; cbn; try done.
  apply Forall_app. split; [done|]. by apply Forall_singleton.
Qed.

Lemma commit_ok q fence fserial p d :
  next_submission_serial d = n -> map_Forall (fun _ => sok) (semaphores d) ->
  map_Forall (fun _ => fence_ok n G A) (fence_writes d) ->
  (forall s b, G !! s = Some b -> bt_queue b <> q -> covers G A s (queue_set d (bt_queue b))) ->
  (forall s b, G !! s = Some b -> bt_queue b = q -> covers G A s (pl_writes p)) ->
  Forall (signal_ok n G A) (pl_signals p) -> fserial < n -> covers G A fserial (pl_writes p) ->
  rok (commit q fence fserial p d).
Proof.
  intros Hn Hs Hf Hother Hq Hsig Hflt Hfc. unfold commit. cbn zeta.
  set (d1 := set_queue_writes _ d).
  assert (rok d1) as H1.
  { split; [done|]. split; [done|]. split; [done|]. intros s b Hl. unfold d1. rewrite queue_set_insert.
    case_decide; [by eapply Hq|by eapply Hother]. }
  set (d2 := fold_left _ (pl_waits p) d1).
  assert (rok d2) as H2 by (apply fold_left_ok; [done|]; intros; by apply alter_semaphore_ok).
  set (d3 := fold_left _ (pl_consumed p) d2).
  assert (rok d3) as H3.
  { apply fold_left_ok; [done|]. intros. apply alter_semaphore_ok; [done|].
    intros sem [_ Ht]. split; [done|exact Ht]. }
  set (d4 := fold_left _ (pl_signals p) d3).
  assert (rok d4) as H4.
  { apply fold_left_ok; [done|]. intros d' s Hin Hd'. apply commit_signal_ok; [done|].
    rewrite Forall_forall in Hsig. by apply Hsig. }
  case_match; [done|]. destruct H4 as (? & ? & Hf4 & ?). split; [done|]. split; [done|]. split; [|done].
  apply map_Forall_insert_2; [done|done].
Qed.

End Commit.

(** ** Every reachable state *)

Lemma records_ok_seen n G A A' d : (forall a, A a -> A' a) -> records_ok n G A d -> records_ok n G A' d.
Proof.
  intros Hs (H1 & H2 & H3 & H4). split_and!; [done|..].
  - intros i sem Hi. destruct (H2 i sem Hi) as [Hb Ht]. split.
    + intros Hsg. destruct (Hb Hsg). split; [done|by eapply covers_seen].
    + eapply Forall_impl; [exact Ht|]. intros r [? ?]. split; [done|by eapply covers_seen].
  - intros i p Hi. destruct (H3 i p Hi). split; [done|by eapply covers_seen].
  - intros s b Hl. eapply covers_seen; [by apply H4|done].
Qed.

Lemma found_deps d h : follows d h -> forall waits s, s ∈ found_signals (sems h) waits ->
  exists w, w ∈ waits /\ wait_deps d w = Some s.
Proof.
  intros Hfo waits s. unfold found_signals. rewrite elem_of_list_to_set, list_elem_of_omap. intros (w & Hw & Hs).
  exists w. split; [done|]. by apply (found_wait_deps _ _ _ _ _ _ Hfo).
Qed.

Lemma submit_records_ok v2 q fence submits d h G A : follows d h -> log_ok (next_submission_serial d) G ->
  records_ok (next_submission_serial d) G A d ->
  let d' := submit v2 q fence submits d in
  let G' := log_submit (fun s => found_signals (sems h) (su_waits s)) d q (next h) submits G in
  log_ok (next_submission_serial d') G' /\ records_ok (next_submission_serial d') G' A d'.
Proof.
  intros Hfo Hok (_ & Hs & Hf & Hq). rewrite <- (proj1 Hfo). cbv zeta.
  set (deps := fun s => found_signals (sems h) (su_waits s)).
  assert (forall s0 s, s ∈ deps s0 -> exists w, w ∈ su_waits s0 /\ wait_deps d w = Some s) as Hdeps
    by (intros s0 s; by apply found_deps).
  set (n := next_submission_serial d) in *.
  set (p0 := mkPlan (queue_set d q) [] [] []).
  assert (forall s b, G !! s = Some b -> bt_queue b = q -> covers G A s (pl_writes p0)) as Hq0
    by (intros s b Hl <-; by apply Hq).
  assert (forall n' G' p fserial,
    log_ok n' G' -> n + 1 <= n' -> (forall t M, t < n -> covers G A t M -> covers G' A t M) ->
    (forall s b, G' !! s = Some b -> G !! s = Some b /\ s < n \/ bt_queue b = q) ->
    (forall s b, G' !! s = Some b -> bt_queue b = q -> covers G' A s (pl_writes p)) ->
    Forall (signal_ok n' G' A) (pl_signals p) -> fserial < n' -> covers G' A fserial (pl_writes p) ->
    let d' := commit q fence fserial p (set_serial n' d) in
    log_ok (next_submission_serial d') G' /\ records_ok (next_submission_serial d') G' A d') as Hgen.
  { intros n' G' p fserial L Hn Hold Hlk Hqs Hsig Hfl Hfc d'.
    assert (records_ok n' G' A d') as Hr.
    { apply commit_ok; try done.
      - intros i sem Hi. destruct (Hs i sem Hi) as [Hb Ht]. split.
        + intros Hsg. destruct (Hb Hsg). split; [lia|by apply Hold].
        + eapply Forall_impl; [exact Ht|]. intros r [? ?]. split; [lia|by apply Hold].
      - intros i pw Hi. destruct (Hf i pw Hi). split; [lia|by apply Hold].
      - intros s b Hl Hne. destruct (Hlk s b Hl) as [[Hl' Hlt]|]; [|done]. apply Hold; [done|]. by apply Hq. }
    rewrite (proj1 Hr). done. }
  unfold submit, plan, log_submit. fold n p0. destruct submits as [|s0 submits].
  - assert (covers (<[n := mkBatch q ∅ ∅]> G) A n (pl_writes p0)) as Hempty.
    { pose proof (plan_submit_covers A v2 d q deps Hdeps n G p0 (mkSubmit [] [] []) Hok Hs Hq0) as Hc.
      eapply covers_mono; [exact Hc|]. cbn. set_solver. }
    cbn [length plan_loop]. change (Z.of_nat 0 =? 0) with true. cbv iota. apply Hgen; try done; try lia.
    + by apply log_ok_insert.
    + intros t M Ht Hc. by apply covers_old.
    + intros s b. destruct (decide (s = n)) as [->|].
      * rewrite lookup_insert_eq. intros [= <-]. by right.
      * rewrite lookup_insert_ne by done. intros Hl. left. split; [done|]. by apply (Hok s b).
    + intros s b. destruct (decide (s = n)) as [->|]; [done|]. rewrite lookup_insert_ne by done. intros Hl Hbq.
      apply covers_old; [done|by apply (Hok s b)|by eapply Hq0].
  - destruct (plan_loop_ok A v2 d q deps Hdeps (s0 :: submits) n G p0) as (I1 & I2 & I3 & I4 & I5 & I6);
      [done|done|done|constructor|].
    rewrite (proj2 (Z.eqb_neq _ 0)) by (cbn [length]; lia).
    apply Hgen; try done; try (cbn [length]; lia).
    by apply I6.
Qed.

(** *** Sparse bindings *)
Section Sparse.
Context (q serial : Z) (down : list Z).

Lemma queue_set_add d q0 M q' : queue_set d q' ⊆ queue_set (set_queue_writes (<[q0 := queue_set d q0 ∪ M]> (queue_writes d)) d) q'.
Proof. rewrite queue_set_insert. case_decide; [subst; set_solver|done]. Qed.

Lemma sparse_wait_ok n G A d w : records_ok n G A d -> records_ok n G A (sparse_wait q serial down d w).
Proof.
  intros Hd. unfold sparse_wait. destruct (semaphores d !! w.1) as [sem|] eqn:E; [|done].
  assert (forall M, records_ok n G A (set_queue_writes (<[q := queue_set d q ∪ M]> (queue_writes d)) d)) as Hadd.
  { intros M. destruct Hd as (H1 & H2 & H3 & H4). split_and!; try done. intros s b Hl.
    eapply covers_mono; [by apply H4|apply queue_set_add]. }
  assert (forall f d', (forall sem, semaphore_ok n G A sem -> semaphore_ok n G A (f sem)) ->
    records_ok n G A d' -> records_ok n G A (alter_semaphore f w.1 d')) as Halter by (intros; by apply alter_semaphore_ok).
  destruct (timeline sem).
  - destruct (resolve_wait sem w.2) as [[M r] x]. destruct r; [done|]. by apply Halter.
  - destruct (binary_signaled sem); (apply Halter; [|done]); intros sem' [Hb Ht]; by split.
Qed.

(** What planning would have found of the semaphore is still there, or was taken. *)
Definition untouched (d d1 : Device) : Prop :=
  forall id sem, semaphores d !! id = Some sem ->
    (exists ws, semaphores d1 !! id = Some (set_pending_waits ws sem)) \/
    (timeline sem = false /\ binary_writes sem ⊆ queue_set d1 q).

Definition taken (G : Log) (A : Z -> Prop) (d d1 : Device) (w : Z * option Z) : Prop :=
  forall s, wait_deps d w = Some s -> exists M, covers G A s M /\ M ⊆ queue_set d1 q.

Lemma sparse_wait_grows d w q' : queue_set d q' ⊆ queue_set (sparse_wait q serial down d w) q'.
Proof.
  unfold sparse_wait. destruct (semaphores d !! w.1) as [sem|]; [|done].
  destruct (timeline sem).
  - destruct (resolve_wait sem w.2) as [[M r] x]. destruct r; apply queue_set_add.
  - destruct (binary_signaled sem); [apply (queue_set_add d q _ q')|done].
Qed.

Lemma sparse_wait_takes n G A d d1 w : records_ok n G A d -> untouched d d1 ->
  untouched d (sparse_wait q serial down d1 w) /\ taken G A d (sparse_wait q serial down d1 w) w.
Proof.
  intros Hd Hu. split.
  - intros id sem Hs. pose proof (sparse_wait_grows d1 w q) as Hgrow. destruct (Hu id sem Hs) as [(ws & H1)|[Htl Hsub]].
    2: { right. split; [done|]. by etrans. }
    revert Hgrow. unfold sparse_wait. destruct (decide (id = w.1)) as [->|Hne].
    + rewrite H1. change (timeline (set_pending_waits ws sem)) with (timeline sem).
      change (binary_signaled (set_pending_waits ws sem)) with (binary_signaled sem).
      assert (forall f d', semaphores d' = semaphores d1 ->
        semaphores (alter_semaphore f w.1 d') !! w.1 = Some (f (set_pending_waits ws sem))) as Hat.
      { intros f d' Hd'. unfold alter_semaphore, semaphore_at. cbn. by rewrite lookup_insert_eq, Hd', H1. }
      destruct (timeline sem) eqn:Etl.
      * destruct (resolve_wait _ w.2) as [[M r] x]. intros _. left. destruct r; [by exists ws|]. rewrite Hat by done. by eexists.
      * destruct (binary_signaled sem); intros Hgrow.
        -- right. split; [done|]. change (queue_set (alter_semaphore _ _ ?d') q) with (queue_set d' q).
           rewrite queue_set_insert, decide_True by done. cbn. set_solver.
        -- left. rewrite Hat by done. by eexists.
    + intros _. left. exists ws. destruct (semaphores d1 !! w.1) as [sem1|]; [|done].
      assert (forall f d', semaphores d' = semaphores d1 -> semaphores (alter_semaphore f w.1 d') !! id = semaphores d1 !! id)
        as Hat by (intros f d' Hd'; unfold alter_semaphore; cbn; by rewrite lookup_insert_ne, Hd' by done).
      destruct (timeline sem1); [destruct (resolve_wait sem1 w.2) as [[M []] x]|destruct (binary_signaled sem1)];
        rewrite ?Hat; done.
  - intros s. unfold wait_deps. destruct (semaphores d !! w.1) as [sem|] eqn:Hs; [|done].
    destruct (resolve_wait sem w.2) as [[M r] [s'|]] eqn:Hr; [|done]. intros [= ->].
    destruct Hd as (_ & Hsem & _). exists M. split; [by apply (resolve_wait_ok A n G sem w.2 M r s (Hsem _ _ Hs))|].
    destruct (Hu w.1 sem Hs) as [(ws & H1)|[Htl Hsub]].
    + unfold sparse_wait. rewrite H1. change (timeline (set_pending_waits ws sem)) with (timeline sem).
      change (resolve_wait (set_pending_waits ws sem) w.2) with (resolve_wait sem w.2). rewrite Hr.
      change (binary_signaled (set_pending_waits ws sem)) with (binary_signaled sem).
      change (binary_writes (set_pending_waits ws sem)) with (binary_writes sem).
      unfold resolve_wait in Hr. destruct (timeline sem) eqn:Etl.
      * destruct r; (etrans; [|apply reflexivity]); change (queue_set (alter_semaphore _ _ ?d') q) with (queue_set d' q);
          rewrite queue_set_insert, decide_True by done; set_solver.
      * destruct (binary_signaled sem); [|done]. injection Hr as <- _ _.
        change (queue_set (alter_semaphore _ _ ?d') q) with (queue_set d' q).
        rewrite queue_set_insert, decide_True by done. set_solver.
    + unfold resolve_wait in Hr. rewrite Htl in Hr. injection Hr as <- _ _. etrans; [exact Hsub|apply sparse_wait_grows].
Qed.

Lemma sparse_waits_take n G A d ws : forall d1, records_ok n G A d -> untouched d d1 ->
  let d2 := fold_left (sparse_wait q serial down) ws d1 in
  queue_set d1 q ⊆ queue_set d2 q /\ forall w, w ∈ ws -> taken G A d d2 w.
Proof.
  induction ws as [|w ws IH]; intros d1 Hd Hu; cbn [fold_left].
  { split; [done|]. intros w Hw. by apply not_elem_of_nil in Hw. }
  destruct (sparse_wait_takes n G A d d1 w Hd Hu) as [Hu' Hw].
  destruct (IH (sparse_wait q serial down d1 w) Hd Hu') as [Hg Ht]. split.
  - etrans; [apply sparse_wait_grows|exact Hg].
  - intros w' Hin. apply elem_of_cons in Hin as [->|Hin]; [|by apply Ht]. intros s Hs.
    destruct (Hw s Hs) as (M & HM & Hsub). exists M. split; [done|]. by etrans.
Qed.

Lemma sparse_wait_serial k d w :
  sparse_wait q serial down (set_serial k d) w = set_serial k (sparse_wait q serial down d w).
Proof.
  unfold sparse_wait. change (semaphores (set_serial k d)) with (semaphores d).
  destruct (semaphores d !! w.1) as [sem|]; [|done].
  destruct (timeline sem); [destruct (resolve_wait sem w.2) as [[M []] x]|destruct (binary_signaled sem)]; done.
Qed.

Lemma sparse_waits_serial k ws : forall d,
  fold_left (sparse_wait q serial down) ws (set_serial k d) = set_serial k (fold_left (sparse_wait q serial down) ws d).
Proof. induction ws as [|w ws IH]; intros d; [done|]. cbn [fold_left]. by rewrite sparse_wait_serial, IH. Qed.

End Sparse.

Section SparseCall.
Context (q : Z).

(** Past the waits of the first element the new batch is accounted for, and stays. *)
Lemma sparse_signal_ok n G A d b s : G !! n = Some b -> bt_queue b = q ->
  records_ok (n + 1) G A d -> records_ok (n + 1) G A (sparse_signal q n d s).
Proof.
  intros Hl Hq Hd. unfold sparse_signal. apply serve_waits_ok, alter_semaphore_ok; [done|].
  intros sem Hs. case_match; [done|]. destruct Hs as [Hb Ht].
  assert (n < n + 1 /\ covers G A n (queue_set d q)) as Hn.
  { split; [lia|]. rewrite <- Hq. by apply Hd. }
  unfold record_signal. destruct (timeline _); split; cbn; try done.
  apply Forall_app. split; [done|]. by apply Forall_singleton.
Qed.

Lemma sparse_signals_ok n G A b ss : forall d, G !! n = Some b -> bt_queue b = q ->
  records_ok (n + 1) G A d -> records_ok (n + 1) G A (fold_left (sparse_signal q n) ss d).
Proof. intros d Hl Hq Hd. apply fold_left_ok; [done|]. intros d' s _. by eapply sparse_signal_ok. Qed.

Lemma sparse_infos_ok n G A b infos : forall d, G !! n = Some b -> bt_queue b = q ->
  records_ok (n + 1) G A d -> records_ok (n + 1) G A (fold_left (sparse_info q n) infos d).
Proof.
  intros d Hl Hq Hd. apply fold_left_ok; [done|]. intros d' info _ Hd'. eapply sparse_signals_ok; [done|done|].
  apply fold_left_ok; [done|]. intros d2 w _. apply sparse_wait_ok.
Qed.

(** The new batch behind the signals its waits have taken. *)
Lemma sparse_batch_ok n G A d d2 deps : log_ok n G -> records_ok n G A d -> records_ok n G A d2 ->
  (forall s, s ∈ deps -> s < n /\ exists M, covers G A s M /\ M ⊆ queue_set d2 q) ->
  let G' := <[n := mkBatch q ∅ deps]> G in
  log_ok (n + 1) G' /\ records_ok (n + 1) G' A (set_serial (n + 1) d2).
Proof.
  intros Hok Hd (_ & Hs & Hf & Hq) Hdeps G'. split; [by apply log_ok_insert; [|intros s Hin; apply Hdeps]|].
  split_and!; [done| | |].
  - intros i sem Hi. apply semaphore_ok_old; [done|]. by apply (Hs i).
  - intros i p Hi. apply fence_ok_old; [done|]. by apply (Hf i).
  - intros s b Hl. change (queue_set (set_serial _ d2) ?q') with (queue_set d2 q').
    destruct (decide (s = n)) as [->|Hne].
    2: { unfold G' in Hl. rewrite lookup_insert_ne in Hl by done. apply covers_old; [done|by apply (Hok s b)|by apply Hq]. }
    unfold G' in Hl. rewrite lookup_insert_eq in Hl. injection Hl as <-. cbn [bt_queue].
    intros a ba Hb Hla. assert (forall t M, t < n -> before G' a t -> covers G A t M -> bt_own ba ⊆ M \/ A a) as Hold.
    { intros t M Ht Hbt Hc. by apply (covers_old _ (mkBatch q ∅ deps) _ _ _ _ Hok Ht Hc a ba Hbt). }
    inversion Hb as [|? s ? bs bt Hbs Ht Heq Hlt Hbf|? s ? bt Ht Hdp Hbf]; subst.
    + unfold G' in Hla. rewrite lookup_insert_eq in Hla. injection Hla as <-. left. cbn. set_solver.
    + unfold G' in Ht. rewrite lookup_insert_eq in Ht. injection Ht as <-. cbn [bt_queue] in Heq.
      unfold G' in Hbs. rewrite lookup_insert_ne in Hbs by lia.
      rewrite <- Heq. exact (Hold s _ Hlt Hbf (Hq s bs Hbs)).
    + unfold G' in Ht. rewrite lookup_insert_eq in Ht. injection Ht as <-. cbn [bt_deps] in Hdp.
      destruct (Hdeps s Hdp) as (Hlt & M & HM & Hsub).
      destruct (Hold s M Hlt Hbf HM); [left; by etrans|by right].
Qed.

Lemma bind_sparse_ok fence infos d h G A : follows d h -> log_ok (next_submission_serial d) G ->
  records_ok (next_submission_serial d) G A d ->
  let d' := bind_sparse q fence infos d in
  let G' := <[next h := mkBatch q ∅ (found_signals (sems h) (from_option fst [] (head infos)))]> G in
  log_ok (next_submission_serial d') G' /\ records_ok (next_submission_serial d') G' A d'.
Proof.
  intros Hfo Hok Hd. rewrite <- (proj1 Hfo). cbv zeta. set (n := next_submission_serial d) in *.
  set (waits := from_option fst [] (head infos)). set (G' := <[n := _]> G). unfold bind_sparse. fold n.
  set (down := match infos with i :: _ => map fst i.2 | [] => [] end).
  set (d2 := fold_left (sparse_wait q n down) waits d).
  assert (records_ok n G A d2) as Hd2 by (apply fold_left_ok; [done|]; intros d' w _; apply sparse_wait_ok).
  destruct (sparse_batch_ok n G A d d2 (found_signals (sems h) waits) Hok Hd Hd2) as [HL HR].
  { intros s (w & Hw & Hs)%(found_deps d h Hfo). split; [by apply (wait_deps_ok A false d q n G w s [] n (proj1 (proj2 Hd)))|].
    assert (untouched q d d) as Hu.
    { intros id sem Hi. left. exists (pending_waits sem). rewrite Hi. by destruct sem. }
    by apply (proj2 (sparse_waits_take q n down n G A d waits d Hd Hu) w Hw s). }
  fold G' in HL, HR.
  assert (G' !! n = Some (mkBatch q ∅ (found_signals (sems h) waits))) as Hn by (unfold G'; by rewrite lookup_insert_eq).
  assert (records_ok (n + 1) G' A (fold_left (sparse_info q n) infos (set_serial (n + 1) d))) as Hr.
  { unfold d2, waits, down in HR. destruct infos as [|info infos]; [exact HR|]. cbn [fold_left head from_option] in HR |- *.
    eapply sparse_infos_ok; [done|done|]. unfold sparse_info. rewrite sparse_waits_serial.
    by eapply sparse_signals_ok. }
  assert (records_ok (n + 1) G' A (bind_sparse q fence infos d)) as Hall.
  { unfold bind_sparse. fold n. cbv zeta. case_match; [done|]. destruct Hr as (H1 & H2 & H3 & H4). split_and!; try done.
    apply map_Forall_insert_2; [|done]. split; [cbn; lia|]. cbn. exact (H4 n _ Hn). }
  unfold bind_sparse in Hall. fold n in Hall. cbv zeta in Hall. rewrite (proj1 Hall). done.
Qed.

End SparseCall.

(** Removing records keeps the rest accounted for. *)
Lemma reach_timeline_ok n G A id v M d : records_ok n G A d -> records_ok n G A (reach_timeline id v M d).
Proof.
  intros Hd. unfold reach_timeline. case_match; [|done]. apply alter_semaphore_ok; [done|].
  intros sem [Hb Ht]. split; [done|]. cbn. apply Forall_forall. intros r Hr.
  apply list_elem_of_filter in Hr as [_ Hr]. rewrite Forall_forall in Ht. by apply Ht.
Qed.

Lemma erase_fence_ok n G A f d : records_ok n G A d -> records_ok n G A (erase_fence f d).
Proof.
  intros (H1 & H2 & H3 & H4). split_and!; try done. intros i p Hi. cbn in Hi.
  apply lookup_delete_Some in Hi as [_ Hi]. exact (H3 i p Hi).
Qed.

Lemma after_wait_ok h A e d : let n := next_submission_serial d in
  log_ok n (batches h) -> records_ok n (batches h) A d ->
  records_ok n (batches h) (fun a => A a \/ finished h e a) (after_wait d e).
Proof.
  intros n Hok Hd. assert (records_ok n (batches h) (fun a => A a \/ finished h e a) d) as Hd'
    by (eapply records_ok_seen; [|exact Hd]; by left).
  destruct e as [f|q|id v]; cbn [after_wait].
  - by apply erase_fence_ok.
  - destruct Hd' as (H1 & H2 & H3 & H4). split_and!; try done. intros s b Hl. unfold queue_idle.
    rewrite queue_set_insert. case_decide as E; [|by apply H4]. intros a ba Hb Hla. right. right.
    exists s, b. done.
  - by apply reach_timeline_ok.
Qed.

(** All batches so far are finished: no record needs to account for them. *)
Lemma device_idle_ok n G A d : records_ok n G A d ->
  records_ok n G (fun a => A a \/ is_Some (G !! a)) (device_idle d).
Proof.
  intros (H1 & H2 & H3 & H4).
  assert (forall t M, covers G (fun a => A a \/ is_Some (G !! a)) t M) as Hc
    by (intros t M a b _ Hl; right; right; by exists b).
  split_and!; [done| |done|by intros s b _].
  intros i sem Hi. destruct (H2 i sem Hi) as [Hb Ht]. split.
  - intros Hsg. by destruct (Hb Hsg).
  - eapply Forall_impl; [exact Ht|]. by intros r [? _].
Qed.

Lemma tracking_ok d h A : reachable d h A ->
  log_ok (next_submission_serial d) (batches h) /\ records_ok (next_submission_serial d) (batches h) A d.
Proof.
  intros Hr. induction Hr as [d Hs Hn Hq Hf|v2 q fence submits d h A Hre [Hok Hr]|q fence infos d h A Hre [Hok Hr]
    |e d h A _ [Hok Hr]|d h A _ [Hok Hr]
    |f d h A _ [Hok Hr]|id v d h A _ [Hok Hr]|id tl d h A _ [Hok Hr]|id d h A _ [Hok Hr]
    |d d' h A _ [Hok Hr] (Hs & Hn & Hq & Hf)].
  - split; [done|]. unfold records_ok. rewrite Hs, Hf. split_and!; try done.
  - apply submit_records_ok; [by eapply reachable_follows|done|done].
  - apply bind_sparse_ok; [by eapply reachable_follows|done|done].
  - assert (records_ok (next_submission_serial d) (batches h) (fun a => A a \/ finished h e a) (after_wait d e)) as Ha
      by (by apply after_wait_ok). rewrite (proj1 Ha). by destruct e.
  - split; [done|]. by apply device_idle_ok.
  - split; [done|by apply erase_fence_ok].
  - unfold host_signal. case_match; [|done]. split; [done|]. apply alter_semaphore_ok; [done|]. by intros sem ?.
  - split; [done|]. apply alter_semaphore_ok; [done|]. by intros sem ?.
  - split; [done|]. destruct Hr as (H1 & H2 & H3 & H4). split_and!; try done. intros i sem Hi. cbn in Hi.
    apply lookup_delete_Some in Hi as [_ Hi]. exact (H2 i sem Hi).
  - unfold records_ok, queues_ok, queue_set in *. rewrite Hs, Hn, Hf, Hq. done.
Qed.

(** The records of finished work cover it. *)
Lemma finished_covered d h A e a b : reachable d h A ->
  finished h e a -> batches h !! a = Some b -> bt_own b ⊆ acquired d e \/ A a.
Proof.
  intros Hr Hf Hl. destruct (tracking_ok d h A Hr) as [_ (_ & Hs & Hfe & Hq)].
  destruct (reachable_follows d h A Hr) as (_ & HF & HS). destruct e as [f|q|id v]; cbn in *.
  - destruct Hf as (s & Hp & Hb). rewrite <- HF, lookup_fmap in Hp. apply fmap_Some in Hp as (p & Hp & ->).
    unfold fence_set. rewrite Hp. exact (proj2 (Hfe f p Hp) a b Hb Hl).
  - destruct Hf as (s & bs & Hs' & <- & Hb). exact (Hq s bs Hs' a b Hb Hl).
  - destruct Hf as (v' & s & Hin & Hv & Hb). destruct (HS id) as [Hg _]. rewrite Hg in Hin. cbn in Hin.
    apply list_elem_of_fmap in Hin as (r & [= -> ->] & Hin). unfold timeline_set, semaphore_at in *.
    destruct (semaphores d !! id) as [sem|] eqn:Hsem; [|by apply not_elem_of_nil in Hin]. cbn in *.
    destruct (Hs id sem Hsem) as [_ Ht]. rewrite Forall_forall in Ht.
    destruct (proj2 (Ht r Hin) a b Hb Hl) as [Hsub|]; [left|by right].
    etrans; [exact Hsub|]. apply union_subseteq_r'. apply elem_of_subseteq. intros x Hx.
    apply elem_of_union_list. exists (ts_memory_ids r). split; [|done].
    apply list_elem_of_fmap. exists r. split; [done|]. by apply list_elem_of_filter.
Qed.

(** C21: Waiting downloads what was written. Take any sequence of the device's
    calls made one after the other (from one thread at a time): submissions of
    both versions, sparse bindings, waits, resets and destructions of fences,
    creations, destructions and host signals of semaphores. When a fence is then
    found signaled, a queue idle or a timeline semaphore at a value, every
    allocation written by the finished batches is among those the call downloads,
    and so is every one written by batches ordered before them: earlier ones of
    the same queue, and those whose signal a batch's wait found already submitted
    by an earlier call (of a sparse binding, the waits of its first element). The
    exception are batches that an earlier wait or vkDeviceWaitIdle has already
    found finished. A signal submitted after its wait is not one of these edges
    (through two such waits the writes can be lost, a finding), nor are calls
    that race (another finding). *)
Theorem waiting_acquires_writes d h A e a b :
  reachable d h A -> finished h e a -> batches h !! a = Some b ->
  bt_own b ⊆ acquired d e \/ A a.
Proof. apply finished_covered. Qed.

(** ** A wait before its signal *)
Section Late.
Context (w : PendingSemaphoreWait) (W : gset Z).

(** The record belongs to the waiting submission or a later one of its queue. *)
Definition downstream_of (queue serial : Z) : Prop :=
  queue = sw_queue_id w /\ sw_submission_serial w <= serial.

(** A semaphore's records of that work contain the writes. *)
Definition semaphore_reached (sem : SemaphoreProvenance) : Prop :=
  (binary_signaled sem = true -> downstream_of (binary_queue_id sem) (binary_submission_serial sem) ->
     W ⊆ binary_writes sem) /\
  Forall (fun r => downstream_of (ts_queue_id r) (ts_submission_serial r) -> W ⊆ ts_memory_ids r)
    (timeline_writes sem).

(** Every record of that work contains the writes. *)
Definition reached (d : Device) : Prop :=
  W ⊆ queue_set d (sw_queue_id w) /\
  map_Forall (fun _ p => downstream_of (pw_queue_id p) (pw_submission_serial p) -> W ⊆ pw_memory_ids p)
    (fence_writes d) /\
  map_Forall (fun _ => semaphore_reached) (semaphores d).

Lemma fold_left_reaches {B C} (P : B -> Prop) (f : B -> C -> B) x xs : forall b,
  x ∈ xs -> (forall b, P (f b x)) -> (forall b y, P b -> P (f b y)) -> P (fold_left f xs b).
Proof.
  induction xs as [|y xs IH]; intros b Hx Hreach Hkeep; [by apply not_elem_of_nil in Hx|].
  cbn. apply elem_of_cons in Hx as [->|Hx].
  - apply fold_left_ok; [apply Hreach|]. intros; by apply Hkeep.
  - by apply IH.
Qed.

Lemma semaphore_at_reached d id : reached d -> semaphore_reached (semaphore_at d id).
Proof.
  intros (_ & _ & Hs). unfold semaphore_at. destruct (semaphores d !! id) as [sem|] eqn:E.
  - exact (Hs id sem E).
  - split; [done|constructor].
Qed.

Lemma with_sets_reached sem M rs : semaphore_reached sem -> binary_writes sem ⊆ M ->
  Forall2 (fun r r' => ts_queue_id r' = ts_queue_id r /\ ts_submission_serial r' = ts_submission_serial r /\
                       ts_memory_ids r ⊆ ts_memory_ids r') (timeline_writes sem) rs ->
  semaphore_reached (with_sets sem M rs).
Proof.
  intros [Hb Ht] HM Hrs. split; cbn.
  - intros Hs Hd. etrans; [by apply Hb|done].
  - induction Hrs as [|r r' l l' (Hq & Hser & Hsub) _ IH]; [constructor|].
    apply Forall_cons in Ht as [Hc Ht]. constructor; [|by apply IH].
    rewrite Hq, Hser. intros Hd. etrans; [by apply Hc|done].
Qed.

Lemma extend_records q after M rs :
  Forall2 (fun r r' => ts_queue_id r' = ts_queue_id r /\ ts_submission_serial r' = ts_submission_serial r /\
                       ts_memory_ids r ⊆ ts_memory_ids r') rs (map (extend_timeline q after M) rs).
Proof.
  induction rs as [|r rs IH]; cbn; constructor; [|exact IH].
  split; [done|]. split; [done|apply extend_sub].
Qed.

Lemma alter_semaphore_reached f id d : reached d ->
  (forall sem, semaphore_reached sem -> semaphore_reached (f sem)) -> reached (alter_semaphore f id d).
Proof.
  intros Hd Hf. pose proof (Hf _ (semaphore_at_reached d id Hd)) as Hn. destruct Hd as (H1 & H2 & H3).
  split_and!; [done|done|]. by apply map_Forall_insert_2.
Qed.

Lemma propagate_keeps d q after M : reached d -> reached (propagate_queue_writes d q after M).
Proof.
  intros (H1 & H2 & H3). split_and!.
  - change (queue_set _ ?q') with (queue_set (set_queue_writes (<[q := queue_set d q ∪ M]> (queue_writes d)) d) q').
    rewrite queue_set_insert. case_decide; [subst; set_solver|done].
  - cbn. intros i p Hi. rewrite lookup_fmap in Hi. apply fmap_Some in Hi as (p0 & Hi & ->). cbn. intros Hd.
    etrans; [by apply (H2 i p0 Hi)|apply extend_sub].
  - cbn. intros i sem Hi. rewrite lookup_fmap in Hi. apply fmap_Some in Hi as (sem0 & Hi & ->).
    apply with_sets_reached; [exact (H3 i sem0 Hi)|apply extend_binary_sub|apply extend_records].
Qed.

Lemma extend_here qid serial M : downstream_of qid serial ->
  W ⊆ extend qid serial (sw_queue_id w) (sw_submission_serial w) W M.
Proof. intros [-> Hle]. unfold extend. rewrite Z.eqb_refl, (proj2 (Z.leb_le _ _) Hle). cbn. set_solver. Qed.

Lemma propagate_reaches d : reached (propagate_queue_writes d (sw_queue_id w) (sw_submission_serial w) W).
Proof.
  split_and!.
  - change (queue_set _ ?q') with (queue_set (set_queue_writes (<[sw_queue_id w := queue_set d (sw_queue_id w) ∪ W]> (queue_writes d)) d) q').
    rewrite queue_set_insert, decide_True by done. set_solver.
  - cbn. intros i p Hi. rewrite lookup_fmap in Hi. apply fmap_Some in Hi as (p0 & Hi & ->). cbn. apply extend_here.
  - cbn. intros i sem Hi. rewrite lookup_fmap in Hi. apply fmap_Some in Hi as (sem0 & Hi & ->). split; cbn.
    + intros Hsg. unfold extend_binary. rewrite Hsg. apply extend_here.
    + apply Forall_forall. intros r Hr. apply list_elem_of_fmap in Hr as (r0 & -> & _). cbn. apply extend_here.
Qed.

Lemma extend_downstream_keeps w' M d id : reached d -> reached (extend_downstream w' M d id).
Proof.
  intros Hd. pose proof (semaphore_at_reached d id Hd) as Hs. destruct Hd as (H1 & H2 & H3).
  split_and!; [done|done|]. apply map_Forall_insert_2; [|done]. case_match.
  - apply with_sets_reached; [done|done|apply extend_records].
  - apply with_sets_reached; [done|apply extend_binary_sub|]. by induction (timeline_writes _); constructor.
Qed.

Lemma serve_wait_keeps tl v M d w' : reached d -> reached (serve_wait tl v M d w').
Proof.
  intros Hd. unfold serve_wait. case_match; [done|].
  apply fold_left_ok; [by apply propagate_keeps|]. intros. by apply extend_downstream_keeps.
Qed.

Lemma serve_wait_reaches (tl : bool) v d : (tl = true -> sw_value w <= v) -> reached (serve_wait tl v W d w).
Proof.
  intros Hv. unfold serve_wait. assert (tl && (v <? sw_value w) = false) as ->.
  { destruct tl; [|done]. cbn. apply Z.ltb_ge. by apply Hv. }
  apply fold_left_ok; [apply propagate_reaches|]. intros. by apply extend_downstream_keeps.
Qed.

End Late.

(** A signal submitted after its wait still counts: committing it adds its
    writes to the waiting submission's queue and to every fence, binary and
    timeline record of that submission and the later ones of its queue; the wait
    is served once. *)
Theorem late_signal_propagates q d id (tl : bool) value serial W w :
  w ∈ pending_waits (semaphore_at d id) -> (tl = true -> sw_value w <= value) ->
  let d' := commit_signal q d (id, tl, value, serial, W) in
  reached w W d' /\ w ∉ pending_waits (semaphore_at d' id).
Proof.
  intros Hw Hv d'. unfold d', commit_signal, serve_waits. cbn zeta.
  set (d1 := alter_semaphore (record_signal q tl value serial W) id d).
  assert (w ∈ pending_waits (semaphore_at d1 id)) as Hw1.
  { unfold d1, alter_semaphore, semaphore_at at 1. cbn. rewrite lookup_insert_eq. cbn. by destruct tl. }
  split.
  - apply alter_semaphore_reached; [|by intros sem ?].
    apply (fold_left_reaches _ _ w); [done|intros b; by apply serve_wait_reaches|].
    intros. by apply serve_wait_keeps.
  - unfold alter_semaphore, semaphore_at at 1. cbn. rewrite lookup_insert_eq. cbn.
    rewrite list_elem_of_filter. intros [Hf _]. apply Is_true_true, andb_true_iff in Hf as [-> Hlt].
    apply Z.ltb_lt in Hlt. specialize (Hv eq_refl). lia.
Qed.

(** ** Concrete histories *)
Section Demo.

Definition demo_device : Device :=
  create_semaphore 7 true (create_semaphore 8 true (mkDevice ∅ ∅ ∅ ∅ ∅ ∅ 1 ∅ ∅)).

(** A batch that writes one allocation. *)
Definition demo_submit (memory : Z) (waits signals : list (Z * option Z)) : Submit :=
  mkSubmit [mkCommandBuffer ∅ false {[memory]}] waits signals.

Definition demo_history : History := created 7 true (created 8 true new_history).

Lemma demo_tracked : reachable demo_device demo_history (fun _ => False).
Proof. apply reach_create, reach_create. by apply reach_init. Qed.

(** Queue 1 writes allocation 100 and signals; queue 2 waits, writes 200 and has
    a fence. *)
Definition demo_first : Device := submit false 1 0 [demo_submit 100 [] [(7, Some 1)]] demo_device.
Definition demo_second : Device := submit false 2 9 [demo_submit 200 [(7, Some 1)] []] demo_first.
Definition demo_log : History :=
  submitted demo_first 2 9 [demo_submit 200 [(7, Some 1)] []]
    (submitted demo_device 1 0 [demo_submit 100 [] [(7, Some 1)]] demo_history).

(** The device idle in between would be an exception; a later batch is not. *)
Definition demo_third : Device := submit false 1 5 [demo_submit 300 [] []] (device_idle demo_second).
Definition demo_later : History := submitted (device_idle demo_second) 1 5 [demo_submit 300 [] []] (set_fenced ∅ demo_log).

Lemma waiting_acquires_writes_witness :
  100 ∈ acquired demo_second (FenceSignaled 9) /\ 300 ∈ acquired demo_third (FenceSignaled 5).
Proof.
  assert (reachable demo_second demo_log (fun _ => False)) as Hr
    by exact (reach_submit _ _ _ _ _ _ _ (reach_submit _ _ _ _ _ _ _ demo_tracked)).
  assert (reachable demo_third demo_later (fun a => False \/ is_Some (batches demo_log !! a))) as Hr3
    by exact (reach_submit _ _ _ _ _ _ _ (reach_device_idle _ _ _ Hr)).
  split.
  - destruct (waiting_acquires_writes demo_second demo_log (fun _ => False) (FenceSignaled 9) 1
                (mkBatch 1 {[100]} ∅) Hr) as [Hs|Hs].
    + exists 2. split; [by vm_compute|].
      apply (before_wait _ _ 1 _ (mkBatch 2 {[200]} {[1]})); [by vm_compute|set_solver|constructor].
    + by vm_compute.
    + apply Hs. cbn. set_solver.
    + done.
  - destruct (waiting_acquires_writes demo_third demo_later _ (FenceSignaled 5) 3
                (mkBatch 1 {[300]} ∅) Hr3) as [Hs|Hs].
    + exists 3. split; [by vm_compute|constructor].
    + by vm_compute.
    + apply Hs. cbn. set_solver.
    + exfalso. destruct Hs as [[]|[x Hx]]. revert Hx. by vm_compute.
Defined.

(** Queue 1 waits for value 1 and has a fence; queue 2 signals it later. *)
Lemma late_signal_propagates_witness :
  let d := submit false 1 9 [demo_submit 200 [(7, Some 1)] []] demo_device in
  100 ∈ fence_set (commit_signal 2 d (7, true, 1, 2, {[100]})) 9.
Proof.
  intros d.
  destruct (late_signal_propagates 2 d 7 true 1 2 {[100]} (mkWait 1 1 1 [])) as [(_ & Hf & _) _].
  - assert (pending_waits (semaphore_at d 7) = [mkWait 1 1 1 []]) as -> by (by vm_compute). left.
  - intros _. cbn. lia.
  - destruct (fence_writes (commit_signal 2 d (7, true, 1, 2, {[100]})) !! 9) as [p|] eqn:E.
    + assert (Some p = Some (mkPending 1 1 {[100; 200]})) as [= ->] by (rewrite <- E; by vm_compute).
      unfold fence_set. rewrite E. apply (Hf 9 _ E); [by split|set_solver].
    + exfalso. revert E. by vm_compute.
Defined.

(** Two waits ahead of their signals: queue 3's fence stands for the work of
    queue 1 through queue 2, but not for the allocation queue 1 writes. *)
Lemma two_level_wait_lost :
  let d1 := submit false 2 0 [demo_submit 200 [(7, Some 1)] [(8, Some 1)]] demo_device in
  let d2 := submit false 3 9 [demo_submit 300 [(8, Some 1)] []] d1 in
  let d3 := submit false 1 0 [demo_submit 100 [] [(7, Some 1)]] d2 in
  fence_set d3 9 = {[200; 300]} /\ queue_set d3 2 = {[100; 200]}.
Proof. by vm_compute. Qed.

(** Between plan and commit another thread's signal extends the queue's writes;
    the commit restores the planned ones. *)
Lemma racing_commit_loses_writes :
  let d1 := submit false 1 0 [demo_submit 200 [(7, Some 1)] []] demo_device in
  let '(p, serial, d2) := plan false d1 1 [demo_submit 300 [] []] in
  let d3 := submit false 2 0 [demo_submit 100 [] [(7, Some 1)]] d2 in
  let d4 := commit 1 9 serial p d3 in
  queue_set d3 1 = {[100; 200]} /\ queue_set d4 1 = {[200; 300]} /\ fence_set d4 9 = {[200; 300]}.
Proof. by vm_compute. Qed.

End Demo.
