(* ===== verification/ClientSync.v ===== *)
(** Submission and synchronization on the client: the entry points of
    [src/client/device.cpp] around the bookkeeping of [Tracking].

    An entry point checks its arguments, encodes a request, sends it, decodes the
    reply and, on success, updates the records and downloads what the finished
    work has written into the mappings of [HostMemory]. *)

From stdpp Require Import list gmap.
From S2P Require Import Prelude Wire Codec CLayout VkStructs PNext PNextFacts VkCreateInfos.
From S2P Require Import MarshalBase MarshalChained MarshalSync MarshalValues.
From S2P Require Import HostMemory Decode Tracking TrackingFacts.

(** ** The client's side of a device *)

(** Commands of the generated table. *)
Class SyncOpcodes := {
  vkGetDeviceQueue : Z; vkQueueBindSparse : Z; vkQueueSubmit : Z; vkQueueSubmit2 : Z; vkQueueWaitIdle : Z; vkDeviceWaitIdle : Z; vkCreateFence : Z;
  vkDestroyFence : Z; vkResetFences : Z; vkGetFenceStatus : Z; vkWaitForFences : Z;
  vkCreateSemaphore : Z; vkDestroySemaphore : Z; vkGetSemaphoreCounterValue : Z; vkWaitSemaphores : Z;
  vkSignalSemaphore : Z }.

(** Sending a one-way message. *)
Class OneWay `{Remote} := { send_oneway : Z -> list byte -> world -> world }.

Definition VK_NOT_READY : Z := 1.
Definition VK_ERROR_INITIALIZATION_FAILED : Z := -3.
Definition VK_ERROR_FEATURE_NOT_PRESENT : Z := -8.

(** A device with its mappings, and the world behind its connection.

    remote_objects.hpp:184-219. *)
Record Client `{Remote} := mkClient {
  cl_records : Device; cl_mapped : list MappedRange; cl_queues : list Z; cl_world : world }.

(** What [VkCommandBuffer] points to: its id and its recorded writes.

    remote_objects.hpp:228-239. *)
Record RemoteCommandBuffer := mkRemoteCommandBuffer { cb_remote_id : Z; cb_writes : CommandBuffer }.

(** [VkSubmitInfo]; command buffers are addresses. *)
Record VkSubmitInfo := mkSubmitInfo {
  si_sType : Z; si_pNext : ptr chain; waitSemaphoreCount : Z; pWaitSemaphores : ptr (list Z);
  pWaitDstStageMask : ptr (list Z); commandBufferCount : Z; pCommandBuffers : ptr (list Z);
  signalSemaphoreCount : Z; pSignalSemaphores : ptr (list Z) }.

(** [VkSparseMemoryBind]. *)
Record VkSparseMemoryBind := mkMemoryBind {
  resourceOffset : Z; sb_size : Z; sb_memory : Z; sb_memoryOffset : Z; sb_flags : Z }.

(** [VkSparseImageMemoryBind]; subresource, offset and extent by component. *)
Record VkSparseImageMemoryBind := mkImageBind {
  ib_subresource : Z * Z * Z; ib_offset : Z * Z * Z; ib_extent : Z * Z * Z;
  ib_memory : Z; ib_memoryOffset : Z; ib_flags : Z }.

(** [VkSparseBufferMemoryBindInfo] and the two of images. *)
Record SparseBinds (A : Type) := mkBinds { sr_resource : Z; sr_bindCount : Z; sr_pBinds : ptr (list A) }.
Arguments sr_resource {A}. Arguments sr_bindCount {A}. Arguments sr_pBinds {A}.

(** [VkBindSparseInfo]. *)
Record VkBindSparseInfo := mkBindSparse {
  bs_pNext : ptr chain; bs_waitSemaphoreCount : Z; bs_pWaitSemaphores : ptr (list Z);
  bufferBindCount : Z; pBufferBinds : ptr (list (SparseBinds VkSparseMemoryBind));
  imageOpaqueBindCount : Z; pImageOpaqueBinds : ptr (list (SparseBinds VkSparseMemoryBind));
  imageBindCount : Z; pImageBinds : ptr (list (SparseBinds VkSparseImageMemoryBind));
  bs_signalSemaphoreCount : Z; bs_pSignalSemaphores : ptr (list Z) }.

Definition VK_STRUCTURE_TYPE_SUBMIT_INFO : Z := 4.

(** *** Replies *)

(** The reader after the status word.

    device.cpp:40-44. *)
Definition payload_reader (reply : list byte) : Wire.reader := snd (Reader.u32 (Reader.make reply)).

(** A reply that holds a result, and what follows it. *)
Definition reply_result (reply : option (list byte)) : option (Z * Wire.reader) :=
  match reply with
  | None => None
  | Some bs => Some (Reader.i32 (payload_reader bs))
  end.

Section Entry.
Context `{OneWay} `{SyncOpcodes} `{Abi}.
(** [remote_id] of the device. *)
Variable remote_id : Z.
(** What a command buffer's address points to. *)
Variable to_cmd : Z -> RemoteCommandBuffer.
Implicit Type c : Client.

Definition set_records (d : Device) c : Client := mkClient _ d (cl_mapped c) (cl_queues c) (cl_world c).
Definition set_mapped (m : list MappedRange) c : Client := mkClient _ (cl_records c) m (cl_queues c) (cl_world c).
Definition set_queues (qs : list Z) c : Client := mkClient _ (cl_records c) (cl_mapped c) qs (cl_world c).
Definition set_world (w : world) c : Client := mkClient _ (cl_records c) (cl_mapped c) (cl_queues c) w.

Definition request (op : Z) (payload : list byte) c : option (list byte) * Client :=
  let (reply, w) := round_trip op payload (cl_world c) in (reply, set_world w c).

Definition oneway (op : Z) (payload : list byte) c : Client := set_world (send_oneway op payload (cl_world c)) c.

Definition publish c : bool * Client :=
  let '(ok, m, w) := publish_coherent_mapped remote_id (cl_mapped c) (cl_world c) in
  (ok, set_world w (set_mapped m c)).

Definition acquire (ids : option (gset Z)) c : bool * Client :=
  let '(ok, m, w) := acquire_coherent_mapped remote_id ids (cl_mapped c) (cl_world c) in
  (ok, set_world w (set_mapped m c)).

(** ** Submission *)

(** No handle of the array is null. *)
Definition handles_ok (n : Z) (p : ptr (list Z)) : bool := forallb (fun h => negb (h =? 0)) (arr p n).

(** device.cpp:299-320. *)
Definition submit_info_ok (s : VkSubmitInfo) : bool :=
  negb (negb (si_sType s =? VK_STRUCTURE_TYPE_SUBMIT_INFO)
        || (kMaxArrayElements <? waitSemaphoreCount s) || (kMaxArrayElements <? commandBufferCount s)
        || (kMaxArrayElements <? signalSemaphoreCount s)
        || (negb (waitSemaphoreCount s =? 0)
            && (is_null (pWaitSemaphores s) || is_null (pWaitDstStageMask s)))
        || missing (commandBufferCount s) (pCommandBuffers s)
        || missing (signalSemaphoreCount s) (pSignalSemaphores s))
  && handles_ok (waitSemaphoreCount s) (pWaitSemaphores s)
  && handles_ok (commandBufferCount s) (pCommandBuffers s)
  && handles_ok (signalSemaphoreCount s) (pSignalSemaphores s).

(** One element of the request.

    device.cpp:332-350. *)
Definition write_submit_info (s : VkSubmitInfo) : W :=
  write_pnext_chain PNext.Submit (si_pNext s) 0 ;;;
  emit (Writer.u32 (waitSemaphoreCount s) ++
        concat (map (fun w => Writer.handle w.1 ++ Writer.u32 w.2)
                  (zip (arr (pWaitSemaphores s) (waitSemaphoreCount s))
                       (arr (pWaitDstStageMask s) (waitSemaphoreCount s)))) ++
        Writer.u32 (commandBufferCount s) ++
        concat (map (fun cb => Writer.handle (cb_remote_id (to_cmd cb)))
                  (arr (pCommandBuffers s) (commandBufferCount s))) ++
        Writer.u32 (signalSemaphoreCount s) ++
        concat (map Writer.handle (arr (pSignalSemaphores s) (signalSemaphoreCount s)))).

(** device.cpp:327-352. *)
Definition write_queue_submit (queue fence submitCount : Z) (submits : list VkSubmitInfo) : W :=
  emit (Writer.handle queue ++ Writer.handle fence ++ Writer.u32 submitCount) ;;;
  wfor write_submit_info submits.

(** The last timeline structure of the chain.

    device.cpp:372-376. *)
Definition timeline_info (p : ptr chain) : option VkTimelineSemaphoreSubmitInfo.t :=
  fold_left (fun acc node => match node with TimelineSemaphoreSubmit t => Some t | _ => acc end)
    (chain_nodes p) None.

(** The semaphores with the value at the same index. *)
Definition with_values (ids : list Z) (values : list Z) : list (Z * option Z) :=
  imap (fun i id => (id, values !! i)) ids.

(** What [Tracking] sees of an element. *)
Definition submit_of (s : VkSubmitInfo) : Submit :=
  let waits := arr (pWaitSemaphores s) (waitSemaphoreCount s) in
  let signals := arr (pSignalSemaphores s) (signalSemaphoreCount s) in
  let commands := map (fun cb => cb_writes (to_cmd cb)) (arr (pCommandBuffers s) (commandBufferCount s)) in
  match timeline_info (si_pNext s) with
  | Some (VkTimelineSemaphoreSubmitInfo.mk nw pw ns ps) =>
      mkSubmit commands (with_values waits (arr pw nw)) (with_values signals (arr ps ns))
  | None => mkSubmit commands (with_values waits []) (with_values signals [])
  end.

(** The end of a submission: plan, send, commit.

    device.cpp:353-521. *)
Definition submit_planned (v2 : bool) (op queue fence : Z) (payload : list byte) (submits : list Submit) c :
    Z * Client :=
  let (ok, c) := publish c in
  if negb ok then (VK_ERROR_DEVICE_LOST, c)
  else
    let '(p, serial, d) := Tracking.plan v2 (cl_records c) queue submits in
    let c := set_records d c in
    let (reply, c) := request op payload c in
    match reply_result reply with
    | None => (VK_ERROR_DEVICE_LOST, c)
    | Some (result, r) =>
        let (oneway_errors, r) := Reader.u32 r in
        if negb (Reader.ok r) || negb (Reader.remaining r =? 0)%nat then (VK_ERROR_DEVICE_LOST, c)
        else if negb (result =? VK_SUCCESS) then (result, c)
        else (result, set_records (Tracking.commit queue fence serial p (cl_records c)) c)
    end.

(** The request is only sent when every element could be encoded.  [handle] is
    the id behind the queue's handle.

    device.cpp:291-522. *)
Definition QueueSubmit (handle : option Z) (fence : Z) (pSubmits : ptr (list VkSubmitInfo)) (submitCount : Z) c : Z * Client :=
  match handle with
  | None => (VK_ERROR_INITIALIZATION_FAILED, c)
  | Some queue =>
    if (kMaxArrayElements <? submitCount) || missing submitCount pSubmits
    then (VK_ERROR_INITIALIZATION_FAILED, c)
    else
    let submits := arr pSubmits submitCount in
    if negb (forallb submit_info_ok submits) then (VK_ERROR_INITIALIZATION_FAILED, c)
    else match write_queue_submit queue fence submitCount submits with
    | (false, _) => (VK_ERROR_FEATURE_NOT_PRESENT, c)
    | (true, payload) => submit_planned false vkQueueSubmit queue fence payload (map submit_of submits) c
    end
  end.

(** device.cpp:529-540. *)
Definition submit_info2_ok (s : VkSubmitInfo2.t) : bool :=
  forallb (fun i => negb (VkSemaphoreSubmitInfo.semaphore i =? 0))
    (arr (VkSubmitInfo2.pWaitSemaphoreInfos s) (VkSubmitInfo2.waitSemaphoreInfoCount s))
  && forallb (fun i => negb (VkCommandBufferSubmitInfo.commandBuffer i =? 0))
       (arr (VkSubmitInfo2.pCommandBufferInfos s) (VkSubmitInfo2.commandBufferInfoCount s))
  && forallb (fun i => negb (VkSemaphoreSubmitInfo.semaphore i =? 0))
       (arr (VkSubmitInfo2.pSignalSemaphoreInfos s) (VkSubmitInfo2.signalSemaphoreInfoCount s)).

(** device.cpp:548-550. *)
Definition command_buffer_id (h : Z) : Z := if h =? 0 then 0 else cb_remote_id (to_cmd h).

Definition semaphore_values (p : ptr (list VkSemaphoreSubmitInfo.t)) (n : Z) : list (Z * option Z) :=
  map (fun i => (VkSemaphoreSubmitInfo.semaphore i, Some (VkSemaphoreSubmitInfo.value i))) (arr p n).

Definition submit_of2 (s : VkSubmitInfo2.t) : Submit :=
  mkSubmit
    (map (fun i => cb_writes (to_cmd (VkCommandBufferSubmitInfo.commandBuffer i)))
       (arr (VkSubmitInfo2.pCommandBufferInfos s) (VkSubmitInfo2.commandBufferInfoCount s)))
    (semaphore_values (VkSubmitInfo2.pWaitSemaphoreInfos s) (VkSubmitInfo2.waitSemaphoreInfoCount s))
    (semaphore_values (VkSubmitInfo2.pSignalSemaphoreInfos s) (VkSubmitInfo2.signalSemaphoreInfoCount s)).

(** device.cpp:544-553. *)
Definition write_queue_submit2 (queue fence submitCount : Z) (submits : list VkSubmitInfo2.t) : W :=
  emit (Writer.handle queue ++ Writer.handle fence ++ Writer.u32 submitCount) ;;;
  wfor (fun s => write_SubmitInfo2 s (Some command_buffer_id)) submits.

(** device.cpp:524-657. *)
Definition QueueSubmit2 (handle : option Z) (fence : Z) (pSubmits : ptr (list VkSubmitInfo2.t)) (submitCount : Z) c : Z * Client :=
  match handle with
  | None => (VK_ERROR_INITIALIZATION_FAILED, c)
  | Some queue =>
    if (kMaxArrayElements <? submitCount) || missing submitCount pSubmits
    then (VK_ERROR_INITIALIZATION_FAILED, c)
    else
    let submits := arr pSubmits submitCount in
    if negb (forallb submit_info2_ok submits) then (VK_ERROR_INITIALIZATION_FAILED, c)
    else
      match write_queue_submit2 queue fence submitCount submits with
      | (false, _) => (VK_ERROR_FEATURE_NOT_PRESENT, c)
      | (true, payload) => submit_planned true vkQueueSubmit2 queue fence payload (map submit_of2 submits) c
      end
  end.

(** *** Sparse binding *)

(** The recorded part of [VkBindSparseInfo]. *)
Definition bind_of (s : VkBindSparseInfo) : list (Z * option Z) * list (Z * option Z) :=
  let waits := arr (bs_pWaitSemaphores s) (bs_waitSemaphoreCount s) in
  let signals := arr (bs_pSignalSemaphores s) (bs_signalSemaphoreCount s) in
  match timeline_info (bs_pNext s) with
  | Some (VkTimelineSemaphoreSubmitInfo.mk nw pw ns ps) =>
      (with_values waits (arr pw nw), with_values signals (arr ps ns))
  | None => (with_values waits [], with_values signals [])
  end.

(** [x.pBufferBinds[j].pBinds[k]].

    device.cpp:671-671. *)
Definition write_memory_bind (b : VkSparseMemoryBind) : list byte :=
  Writer.u64 (resourceOffset b) ++ Writer.u64 (sb_size b) ++ Writer.handle (sb_memory b) ++
  Writer.u64 (sb_memoryOffset b) ++ Writer.u32 (sb_flags b).

(** device.cpp:673-673. *)
Definition write_image_bind (b : VkSparseImageMemoryBind) : list byte :=
  let '(aspect, mip, layer) := ib_subresource b in
  let '(x, y, z) := ib_offset b in
  let '(width, height, depth) := ib_extent b in
  Writer.u32 aspect ++ Writer.u32 mip ++ Writer.u32 layer ++
  Writer.i32 x ++ Writer.i32 y ++ Writer.i32 z ++
  Writer.u32 width ++ Writer.u32 height ++ Writer.u32 depth ++
  Writer.handle (ib_memory b) ++ Writer.u64 (ib_memoryOffset b) ++ Writer.u32 (ib_flags b).

(** A resource with its binds. *)
Definition write_binds {A} (f : A -> list byte) (r : SparseBinds A) : list byte :=
  Writer.handle (sr_resource r) ++ Writer.u32 (sr_bindCount r) ++ concat (map f (arr (sr_pBinds r) (sr_bindCount r))).

(** device.cpp:669-674. *)
Definition write_bind_sparse_info (s : VkBindSparseInfo) : W :=
  write_pnext_chain PNext.Submit (bs_pNext s) 0 ;;;
  emit (Writer.u32 (bs_waitSemaphoreCount s) ++
        concat (map Writer.handle (arr (bs_pWaitSemaphores s) (bs_waitSemaphoreCount s))) ++
        Writer.u32 (bufferBindCount s) ++
        concat (map (write_binds write_memory_bind) (arr (pBufferBinds s) (bufferBindCount s))) ++
        Writer.u32 (imageOpaqueBindCount s) ++
        concat (map (write_binds write_memory_bind) (arr (pImageOpaqueBinds s) (imageOpaqueBindCount s))) ++
        Writer.u32 (imageBindCount s) ++
        concat (map (write_binds write_image_bind) (arr (pImageBinds s) (imageBindCount s))) ++
        Writer.u32 (bs_signalSemaphoreCount s) ++
        concat (map Writer.handle (arr (bs_pSignalSemaphores s) (bs_signalSemaphoreCount s)))).

(** device.cpp:658-774. *)
Definition QueueBindSparse (queue fence : Z) (pBindInfo : ptr (list VkBindSparseInfo)) (bindInfoCount : Z) c :
    Z * Client :=
  if (kMaxArrayElements <? bindInfoCount) || missing bindInfoCount pBindInfo
  then (VK_ERROR_INITIALIZATION_FAILED, c)
  else
    let infos := arr pBindInfo bindInfoCount in
    let head := Writer.handle queue ++ Writer.handle fence ++ Writer.u32 bindInfoCount in
    match (emit head ;;; wfor write_bind_sparse_info infos) with
    | (false, _) => (VK_ERROR_FEATURE_NOT_PRESENT, c)
    | (true, payload) =>
        let (ok, c) := publish c in
        if negb ok then (VK_ERROR_DEVICE_LOST, c)
        else
          let (reply, c) := request vkQueueBindSparse payload c in
          match reply_result reply with
          | None => (VK_ERROR_DEVICE_LOST, c)
          | Some (result, r) =>
              let (oneway_errors, r) := Reader.u32 r in
              if negb (Reader.ok r) then (VK_ERROR_DEVICE_LOST, c)
              else if negb (result =? VK_SUCCESS) then (result, c)
              else (result, set_records (Tracking.bind_sparse queue fence (map bind_of infos) (cl_records c)) c)
          end
    end.

(** ** Queues *)

(** A queue the device has returned before keeps its object.

    device.cpp:255-286. *)
Definition GetDeviceQueue (family index : Z) c : option Z * Client :=
  let (reply, c) := request vkGetDeviceQueue (Writer.handle remote_id ++ Writer.u32 family ++ Writer.u32 index) c in
  match reply with
  | None => (None, c)
  | Some bs =>
      let (id, r) := Reader.handle (payload_reader bs) in
      if negb (Reader.ok r) then (None, c)
      else if existsb (Z.eqb id) (cl_queues c) then (Some id, c)
      else (Some id, set_queues (cl_queues c ++ [id]) c)
  end.

(** device.cpp:776-800. *)
Definition QueueWaitIdle (queue : Z) c : Z * Client :=
  let (reply, c) := request vkQueueWaitIdle (Writer.handle queue) c in
  match reply_result reply with
  | None => (VK_ERROR_DEVICE_LOST, c)
  | Some (result, r) =>
      if negb (Reader.ok r) then (VK_ERROR_DEVICE_LOST, c)
      else if result =? VK_SUCCESS then
        let (ok, c) := acquire (Some (Tracking.queue_set (cl_records c) queue)) c in
        if negb ok then (VK_ERROR_DEVICE_LOST, c)
        else (result, set_records (Tracking.queue_idle queue (cl_records c)) c)
      else (result, c)
  end.

(** device.cpp:802-822. *)
Definition DeviceWaitIdle c : Z * Client :=
  let (reply, c) := request vkDeviceWaitIdle (Writer.handle remote_id) c in
  match reply_result reply with
  | None => (VK_ERROR_DEVICE_LOST, c)
  | Some (result, r) =>
      let (oneway_errors, r) := Reader.u32 r in
      if negb (Reader.ok r) then (VK_ERROR_DEVICE_LOST, c)
      else if result =? VK_SUCCESS then
        let (ok, c) := acquire None c in
        if negb ok then (VK_ERROR_DEVICE_LOST, c)
        else (result, set_records (Tracking.device_idle (cl_records c)) c)
      else (result, c)
  end.

(** ** Fences *)

(** The created handle; the reply's length is not looked at.

    device.cpp:828-845. *)
Definition CreateFence (info : VkFenceCreateInfo.t) c : (Z * option Z) * Client :=
  let (reply, c) := request vkCreateFence (Writer.handle remote_id ++ write_FenceCreateInfo info) c in
  match reply_result reply with
  | None => ((VK_ERROR_INITIALIZATION_FAILED, None), c)
  | Some (result, r) =>
      let (id, _) := Reader.handle r in
      ((result, if result =? VK_SUCCESS then Some id else None), c)
  end.

(** device.cpp:847-860. *)
Definition DestroyFence (fence : Z) c : Client :=
  if fence =? 0 then c
  else oneway vkDestroyFence (Writer.handle remote_id ++ Writer.handle fence)
         (set_records (Tracking.erase_fence fence (cl_records c)) c).

(** The arguments of a call on [count] fences; [handle] is the device's.

    device.cpp:864-870. *)
Definition fences_ok (count : Z) (pFences : ptr (list Z)) : bool :=
  negb ((count =? 0) || (kMaxArrayElements <? count) || is_null pFences) && handles_ok count pFences.

(** device.cpp:862-887. *)
Definition ResetFences (count : Z) (pFences : ptr (list Z)) c : Z * Client :=
  if negb (fences_ok count pFences) then (VK_ERROR_INITIALIZATION_FAILED, c)
  else
    let fences := arr pFences count in
    let payload := Writer.handle remote_id ++ Writer.u32 count ++ concat (map Writer.handle fences) in
    let (reply, c) := request vkResetFences payload c in
    match reply_result reply with
    | None => (VK_ERROR_DEVICE_LOST, c)
    | Some (result, r) =>
        if negb (Reader.ok r && (Reader.remaining r =? 0)%nat) then (VK_ERROR_DEVICE_LOST, c)
        else if result =? VK_SUCCESS
        then (result, set_records (Tracking.erase_fences fences (cl_records c)) c)
        else (result, c)
    end.

Definition fence_status_request (fence : Z) : list byte := Writer.handle remote_id ++ Writer.handle fence.

(** device.cpp:889-914. *)
Definition GetFenceStatus (fence : Z) c : Z * Client :=
  if fence =? 0 then (VK_ERROR_INITIALIZATION_FAILED, c)
  else
    let (reply, c) := request vkGetFenceStatus (fence_status_request fence) c in
    match reply_result reply with
    | None => (VK_ERROR_DEVICE_LOST, c)
    | Some (result, r) =>
        if negb (Reader.ok r) then (VK_ERROR_DEVICE_LOST, c)
        else if result =? VK_SUCCESS then
          let (ok, c) := acquire (Some (Tracking.fence_set (cl_records c) fence)) c in
          if negb ok then (VK_ERROR_DEVICE_LOST, c)
          else (result, set_records (Tracking.erase_fence fence (cl_records c)) c)
        else (result, c)
    end.

(** The fences found signaled after a wait, or the error the call returns.  With
    [waitAll] every fence is; otherwise each is asked for.

    device.cpp:940-965. *)
Fixpoint signaled_fences (waitAll : bool) (fences : list Z) c : (Z + list Z) * Client :=
  match fences with
  | [] => (inr [], c)
  | fence :: fences =>
      let keep c :=
        let (rest, c) := signaled_fences waitAll fences c in
        (match rest with inl e => inl e | inr ids => inr (fence :: ids) end, c) in
      if waitAll then keep c
      else
        let (reply, c) := request vkGetFenceStatus (fence_status_request fence) c in
        match reply_result reply with
        | None => (inl VK_ERROR_DEVICE_LOST, c)
        | Some (status, r) =>
            if negb (Reader.ok r) then (inl VK_ERROR_DEVICE_LOST, c)
            else if status =? VK_NOT_READY then signaled_fences waitAll fences c
            else if negb (status =? VK_SUCCESS) then (inl status, c)
            else keep c
        end
  end.

(** device.cpp:916-971. *)
Definition WaitForFences (count : Z) (pFences : ptr (list Z)) (waitAll : bool) (timeout : Z) c : Z * Client :=
  if negb (fences_ok count pFences) then (VK_ERROR_INITIALIZATION_FAILED, c)
  else
    let fences := arr pFences count in
    let payload := Writer.handle remote_id ++ Writer.u32 (if waitAll then 1 else 0) ++ Writer.u32 count ++
                   concat (map Writer.handle fences) ++ Writer.u64 timeout in
    let (reply, c) := request vkWaitForFences payload c in
    match reply_result reply with
    | None => (VK_ERROR_DEVICE_LOST, c)
    | Some (result, r) =>
        if negb (Reader.ok r) then (VK_ERROR_DEVICE_LOST, c)
        else if result =? VK_SUCCESS then
          let (found, c) := signaled_fences waitAll fences c in
          match found with
          | inl e => (e, c)
          | inr completed =>
              let (ok, c) := acquire (Some (Tracking.fences_set (cl_records c) completed)) c in
              if negb ok then (VK_ERROR_DEVICE_LOST, c)
              else (result, set_records (Tracking.erase_fences completed (cl_records c)) c)
          end
        else (result, c)
    end.

(** ** Semaphores *)

Definition VK_SEMAPHORE_TYPE_TIMELINE : Z := 1.
Definition VK_SEMAPHORE_WAIT_ANY_BIT : Z := 1.

(** The type the last structure of the chain asks for.

    device.cpp:990-996. *)
Definition wants_timeline (p : ptr chain) : bool :=
  fold_left (fun acc node => match node with
                             | SemaphoreType (VkSemaphoreTypeCreateInfo.mk type _) => type =? VK_SEMAPHORE_TYPE_TIMELINE
                             | _ => acc end) (chain_nodes p) false.

(** device.cpp:973-1001. *)
Definition CreateSemaphore (info : VkSemaphoreCreateInfo.t) c : (Z * option Z) * Client :=
  let (reply, c) := request vkCreateSemaphore (Writer.handle remote_id ++ write_SemaphoreCreateInfo info) c in
  match reply_result reply with
  | None => ((VK_ERROR_INITIALIZATION_FAILED, None), c)
  | Some (result, r) =>
      let (id, _) := Reader.handle r in
      if result =? VK_SUCCESS
      then ((result, Some id),
            set_records (Tracking.create_semaphore id (wants_timeline (VkSemaphoreCreateInfo.pNext info)) (cl_records c)) c)
      else ((result, None), c)
  end.

(** device.cpp:1003-1016. *)
Definition DestroySemaphore (semaphore : Z) c : Client :=
  if semaphore =? 0 then c
  else oneway vkDestroySemaphore (Writer.handle remote_id ++ Writer.handle semaphore)
         (set_records (Tracking.destroy_semaphore semaphore (cl_records c)) c).

(** device.cpp:111-141. *)
Definition acquire_timeline_writes (semaphore value : Z) c : bool * Client :=
  match Tracking.timeline_set (cl_records c) semaphore value with
  | None => (true, c)
  | Some completed =>
      let (ok, c) := acquire (Some completed) c in
      if negb ok then (false, c)
      else (true, set_records (Tracking.reach_timeline semaphore value completed (cl_records c)) c)
  end.

(** [*value] when it is stored.

    device.cpp:1018-1018. *)
Definition GetSemaphoreCounterValue (semaphore : Z) c : (Z * option Z) * Client :=
  let (reply, c) := request vkGetSemaphoreCounterValue (Writer.handle remote_id ++ Writer.handle semaphore) c in
  match reply_result reply with
  | None => ((VK_ERROR_DEVICE_LOST, None), c)
  | Some (result, r) =>
      let (v, r) := Reader.u64 r in
      if negb (Reader.ok r) then ((VK_ERROR_DEVICE_LOST, None), c)
      else if result =? VK_SUCCESS then
        let (ok, c) := acquire_timeline_writes semaphore v c in
        if negb ok then ((VK_ERROR_DEVICE_LOST, Some v), c) else ((result, Some v), c)
      else ((result, None), c)
  end.

(** [VkSemaphoreWaitInfo]; the structures of its chain are not looked at. *)
Record VkSemaphoreWaitInfo := mkSemaphoreWaitInfo {
  wi_chained : bool; wi_flags : Z; semaphoreCount : Z; pSemaphores : ptr (list Z); pValues : ptr (list Z) }.

(** The semaphores a successful wait has found at their values.

    device.cpp:1019-1019. *)
Fixpoint acquire_waited (any : bool) (waits : list (Z * Z)) c : bool * Client :=
  match waits with
  | [] => (true, c)
  | (semaphore, value) :: waits =>
      let reached_at v c :=
        let (ok, c) := acquire_timeline_writes semaphore v c in
        if negb ok then (false, c) else acquire_waited any waits c in
      if any then
        let '((query, counter), c) := GetSemaphoreCounterValue semaphore c in
        let reached := default value counter in
        if negb (query =? VK_SUCCESS) || (reached <? value) then acquire_waited any waits c
        else reached_at reached c
      else reached_at value c
  end.

(** device.cpp:1019-1019. *)
Definition WaitSemaphores (info : VkSemaphoreWaitInfo) (timeout : Z) c : Z * Client :=
  let n := semaphoreCount info in
  if wi_chained info || (kMaxArrayElements <? n) || (negb (n =? 0) && (is_null (pSemaphores info) || is_null (pValues info)))
  then (VK_ERROR_INITIALIZATION_FAILED, c)
  else
    let waits := zip (arr (pSemaphores info) n) (arr (pValues info) n) in
    let payload := Writer.handle remote_id ++ Writer.u32 (wi_flags info) ++ Writer.u32 n ++
                   concat (map (fun w => Writer.handle w.1 ++ Writer.u64 w.2) waits) ++ Writer.u64 timeout in
    let (reply, c) := request vkWaitSemaphores payload c in
    match reply_result reply with
    | None => (VK_ERROR_DEVICE_LOST, c)
    | Some (result, r) =>
        if negb (Reader.ok r) then (VK_ERROR_DEVICE_LOST, c)
        else if result =? VK_SUCCESS then
          let any := negb (Z.land (wi_flags info) VK_SEMAPHORE_WAIT_ANY_BIT =? 0) in
          let (ok, c) := acquire_waited any waits c in
          if negb ok then (VK_ERROR_DEVICE_LOST, c) else (result, c)
        else (result, c)
    end.

(** device.cpp:1020-1020. *)
Definition SignalSemaphore (chained : bool) (semaphore value : Z) c : Z * Client :=
  if chained then (VK_ERROR_INITIALIZATION_FAILED, c)
  else
    let (ok, c) := publish c in
    if negb ok then (VK_ERROR_DEVICE_LOST, c)
    else
      let payload := Writer.handle remote_id ++ Writer.handle semaphore ++ Writer.u64 value in
      let (reply, c) := request vkSignalSemaphore payload c in
      match reply_result reply with
      | None => (VK_ERROR_DEVICE_LOST, c)
      | Some (result, r) =>
          if negb (Reader.ok r) then (VK_ERROR_DEVICE_LOST, c)
          else if result =? VK_SUCCESS
          then (result, set_records (Tracking.host_signal semaphore value (cl_records c)) c)
          else (result, c)
      end.

End Entry.
