(* ===== verification/ClientSyncFacts.v ===== *)
(** What the entry points of [ClientSync] guarantee: a submission reaches the
    server after the host's stores and is recorded as [Tracking] specifies, a wait
    makes the finished work's output visible, and a call that fails keeps the
    records. *)

From stdpp Require Import list gmap.
From S2P Require Import Prelude Wire Codec CLayout VkStructs PNext PNextFacts VkCreateInfos.
From S2P Require Import MarshalBase MarshalSync HostMemory Decode Tracking TrackingFacts ClientSync.
Import Tracking.

(** ** Submissions *)

(** The two forms of [pSubmits]. *)
Inductive submission :=
  | SubmitInfos (pSubmits : ptr (list VkSubmitInfo))
  | SubmitInfos2 (pSubmits : ptr (list VkSubmitInfo2.t)).

(** Calls that wait for the device and may find work finished. *)
Inductive wait_call :=
  | CallQueueWaitIdle (queue : Z)
  | CallGetFenceStatus (fence : Z)
  | CallWaitForFences (count : Z) (pFences : ptr (list Z)) (timeout : Z)
  | CallGetSemaphoreCounterValue (semaphore : Z).

(** Calls on the records that only succeed or fail. *)
Inductive sync_call :=
  | CallSubmit (handle : option Z) (fence : Z) (s : submission) (count : Z)
  | CallBindSparse (queue fence : Z) (pBindInfo : ptr (list VkBindSparseInfo)) (count : Z)
  | CallWait (k : wait_call)
  | CallWaitForAnyFence (count : Z) (pFences : ptr (list Z)) (timeout : Z)
  | CallDeviceWaitIdle
  | CallResetFences (count : Z) (pFences : ptr (list Z))
  | CallCreateFence (info : VkFenceCreateInfo.t)
  | CallCreateSemaphore (info : VkSemaphoreCreateInfo.t)
  | CallSignalSemaphore (chained : bool) (semaphore value : Z).

(** What a successful wait has found; [counter] is the value a counter query
    returned. *)
Definition wait_events (k : wait_call) (counter : option Z) : list wait_event :=
  match k with
  | CallQueueWaitIdle q => [QueueIdle q]
  | CallGetFenceStatus f => [FenceSignaled f]
  | CallWaitForFences n p _ => map FenceSignaled (arr p n)
  | CallGetSemaphoreCounterValue s => match counter with Some v => [TimelineReached s v] | None => [] end
  end.

Lemma request_eq `{Remote} op payload c :
  request op payload c =
  ((round_trip op payload (cl_world c)).1, set_world (round_trip op payload (cl_world c)).2 c).
Proof. unfold request. by destruct (round_trip op payload (cl_world c)). Qed.

(** Follows a call to its end, the failing branches first. *)
Ltac branches :=
  repeat match goal with
  | |- context [request ?op ?p ?c] => rewrite (request_eq op p c)
  | |- context [let (_, _) := ?x in _] => destruct x eqn:?
  | |- context [match ?x with _ => _ end] => destruct x eqn:?
  end.

Section Calls.
Context `{OneWay} `{SyncOpcodes} `{Abi}.
Variable remote_id : Z.
Variable to_cmd : Z -> RemoteCommandBuffer.

Definition run_submission (handle : option Z) (fence : Z) (s : submission) (count : Z) (c : Client) : Z * Client :=
  match s with
  | SubmitInfos p => QueueSubmit remote_id to_cmd handle fence p count c
  | SubmitInfos2 p => QueueSubmit2 remote_id to_cmd handle fence p count c
  end.

Definition run_wait (k : wait_call) (c : Client) : (Z * option Z) * Client :=
  match k with
  | CallQueueWaitIdle q => let (r, c) := QueueWaitIdle remote_id q c in ((r, None), c)
  | CallGetFenceStatus f => let (r, c) := GetFenceStatus remote_id f c in ((r, None), c)
  | CallWaitForFences n p t => let (r, c) := WaitForFences remote_id n p true t c in ((r, None), c)
  | CallGetSemaphoreCounterValue s => GetSemaphoreCounterValue remote_id s c
  end.

Definition run_sync (k : sync_call) (c : Client) : Z * Client :=
  match k with
  | CallSubmit handle fence s n => run_submission handle fence s n c
  | CallBindSparse q fence p n => QueueBindSparse remote_id q fence p n c
  | CallWait k => let '((r, _), c) := run_wait k c in (r, c)
  | CallWaitForAnyFence n p t => WaitForFences remote_id n p false t c
  | CallDeviceWaitIdle => DeviceWaitIdle remote_id c
  | CallResetFences n p => ResetFences remote_id n p c
  | CallCreateFence info => let '((r, _), c) := CreateFence remote_id info c in (r, c)
  | CallCreateSemaphore info => let '((r, _), c) := CreateSemaphore remote_id info c in (r, c)
  | CallSignalSemaphore chained s v => SignalSemaphore remote_id chained s v c
  end.

(** The request of a submission and what [Tracking] sees of it. *)
Definition submission_op (s : submission) : Z :=
  match s with SubmitInfos _ => vkQueueSubmit | SubmitInfos2 _ => vkQueueSubmit2 end.

Definition submission_request (queue fence : Z) (s : submission) (n : Z) : bool * list byte :=
  match s with
  | SubmitInfos p => write_queue_submit to_cmd queue fence n (arr p n)
  | SubmitInfos2 p => write_queue_submit2 to_cmd queue fence n (arr p n)
  end.

Definition submission_batches (s : submission) (n : Z) : list Submit :=
  match s with
  | SubmitInfos p => map (submit_of to_cmd) (arr p n)
  | SubmitInfos2 p => map (submit_of2 to_cmd) (arr p n)
  end.

Definition submission_v2 (s : submission) : bool :=
  match s with SubmitInfos _ => false | SubmitInfos2 _ => true end.

(** *** The parts of a call *)

(** Only the world of a client differs. *)
Definition same_client (c c' : Client) : Prop :=
  cl_records c' = cl_records c /\ cl_mapped c' = cl_mapped c /\ cl_queues c' = cl_queues c.

Lemma request_same op payload c : same_client c (request op payload c).2.
Proof. by rewrite request_eq. Qed.

Lemma acquire_records ids c : cl_records (acquire remote_id ids c).2 = cl_records c.
Proof. unfold acquire. by destruct (acquire_coherent_mapped _ _ _ _) as [[? ?] ?]. Qed.

Lemma publish_records c : cl_records (publish remote_id c).2 = cl_records c.
Proof. unfold publish. by destruct (publish_coherent_mapped _ _ _) as [[? ?] ?]. Qed.

Lemma signaled_fences_records any fences : forall c,
  cl_records (signaled_fences remote_id any fences c).2 = cl_records c.
Proof.
  induction fences as [|f fs IH]; intros c; [done|]. cbn [signaled_fences]. destruct any.
  - specialize (IH c). by destruct (signaled_fences _ _ fs c) as [[?|?] ?].
  - rewrite request_eq. cbv beta iota. set (c1 := set_world _ c).
    assert (cl_records (signaled_fences remote_id false fs c1).2 = cl_records c) as IH1 by (by rewrite IH).
    destruct (reply_result _) as [[r rd]|]; [|done]. destruct (negb (Reader.ok rd)); [done|].
    destruct (r =? VK_NOT_READY); [done|]. destruct (negb (r =? VK_SUCCESS)); [done|].
    by destruct (signaled_fences _ _ fs c1) as [[?|?] ?].
Qed.

Lemma signaled_all fences c : signaled_fences remote_id true fences c = (inr fences, c).
Proof. induction fences as [|f fs IH]; [done|]. cbn [signaled_fences]. by rewrite IH. Qed.

(** The serials handed out are not taken back. *)
Definition keeps_records (c c' : Client) : Prop :=
  exists n, next_submission_serial (cl_records c) <= n /\ cl_records c' = set_serial n (cl_records c).

Lemma keeps_same c c' : cl_records c' = cl_records c -> keeps_records c c'.
Proof. intros E. exists (next_submission_serial (cl_records c)). split; [lia|]. rewrite E. by destruct (cl_records c). Qed.

Lemma acquire_timeline_fails s v c c' : acquire_timeline_writes remote_id s v c = (false, c') ->
  cl_records c' = cl_records c.
Proof.
  unfold acquire_timeline_writes. destruct (timeline_set _ s v) as [ids|]; [|done].
  pose proof (acquire_records (Some ids) c) as Ha. destruct (acquire _ _ c) as [[] c1]; [done|].
  by intros [= <-].
Qed.

Lemma submit_planned_fails v2 op q fence payload subs c e c' :
  submit_planned remote_id v2 op q fence payload subs c = (e, c') -> e <> VK_SUCCESS -> keeps_records c c'.
Proof.
  unfold submit_planned. pose proof (publish_records c) as Hp. destruct (publish _ c) as [[] c1]; cbn in Hp; cbn [negb].
  2:{ intros [= <- <-] _. by apply keeps_same. }
  unfold plan. rewrite request_eq. set (n := next_submission_serial (cl_records c1) + _).
  assert (next_submission_serial (cl_records c) <= n) as Hn by (unfold n; rewrite Hp; case_match; lia).
  assert (forall w, keeps_records c (set_world w (set_records (set_serial n (cl_records c1)) c1))) as Hk.
  { intros w. exists n. split; [done|]. cbn. by rewrite Hp. }
  branches; intros [= <- <-]; try (by intros _; apply Hk). all: bool_hyps; congruence.
Qed.

Lemma submit_planned_ok v2 op q fence payload subs c c' :
  submit_planned remote_id v2 op q fence payload subs c = (VK_SUCCESS, c') ->
  exists w1 reply,
    publish_coherent_mapped remote_id (cl_mapped c) (cl_world c) = (true, cl_mapped c', w1) /\
    round_trip op payload w1 = (Some reply, cl_world c') /\
    cl_records c' = submit v2 q fence subs (cl_records c).
Proof.
  unfold submit_planned, publish.
  destruct (publish_coherent_mapped _ _ _) as [[[] m1] w1]; cbn [negb]; [|done].
  unfold submit. cbn [cl_records set_world set_mapped].
  destruct (plan v2 (cl_records c) q subs) as [[p serial] d]. rewrite request_eq.
  change (cl_world (set_records d (set_world w1 (set_mapped m1 c)))) with w1.
  unfold reply_result. destruct (round_trip op payload w1) as [[reply|] w2] eqn:Hr; cbn [fst snd]; [|done].
  branches; intros E; injection E as E1 <-; try done.
  - by subst.
  - by exists w1, reply.
Qed.

Lemma run_submission_ok handle fence s n c e c' : run_submission handle fence s n c = (e, c') ->
  e <> VK_SUCCESS /\ c' = c \/
  exists q payload, handle = Some q /\ submission_request q fence s n = (true, payload) /\
    submit_planned remote_id (submission_v2 s) (submission_op s) q fence payload (submission_batches s n) c = (e, c').
Proof.
  assert (forall r, r <> VK_SUCCESS -> (r, c) = (e, c') -> e <> VK_SUCCESS /\ c' = c) as Hl
    by (by intros r Hr [= <- <-]).
  destruct s as [p|p]; cbn [run_submission submission_request submission_op submission_batches submission_v2];
    [unfold QueueSubmit|unfold QueueSubmit2];
    (destruct handle as [q|]; [|intros E; left; by apply (Hl VK_ERROR_INITIALIZATION_FAILED)]);
    (destruct (_ || _); [intros E; left; by apply (Hl VK_ERROR_INITIALIZATION_FAILED)|]);
    (destruct (negb _); [intros E; left; by apply (Hl VK_ERROR_INITIALIZATION_FAILED)|]);
    (destruct (write_queue_submit _ _ _ _ _) as [[] payload] eqn:Ew
     || destruct (write_queue_submit2 _ _ _ _ _) as [[] payload] eqn:Ew);
    intros E; ((left; by apply (Hl VK_ERROR_FEATURE_NOT_PRESENT)) || (right; by exists q, payload)).
Qed.

End Calls.

(** ** The properties *)
Section Submitting.
Context `{OW : OneWay} `{SyncOpcodes} `{Abi}.
Variable remote_id : Z.
Context `{HM : !MappedServer remote_id}.
Variable to_cmd : Z -> RemoteCommandBuffer.

(** C22: A submission that succeeds, in either version of the call: the host's
    stores to every emulated coherent mapping were at the server before the request
    was sent, the request is the encoding of the batches, and the records are those
    the bookkeeping specifies for a submission. *)
Theorem submission_committed handle fence s n c c' :
  NoDup (map memory_id (cl_mapped c)) -> mapped_ok (cl_world c) (cl_mapped c) ->
  run_submission remote_id to_cmd handle fence s n c = (VK_SUCCESS, c') ->
  exists q payload w1 reply, handle = Some q /\
    Forall2 (publish_effect (cl_world c) w1) (cl_mapped c) (cl_mapped c') /\
    submission_request to_cmd q fence s n = (true, payload) /\
    round_trip (submission_op s) payload w1 = (Some reply, cl_world c') /\
    cl_records c' = submit (submission_v2 s) q fence (submission_batches to_cmd s n) (cl_records c).
Proof.
  intros Hnd Hok [[Hf _]|(q & payload & Hq & Hw & Hs)]%run_submission_ok; [done|].
  apply submit_planned_ok in Hs as (w1 & reply & Hp & Hr & Hrec).
  exists q, payload, w1, reply. split_and!; try done.
  by apply publish_coherent_ok in Hp as [HF _].
Qed.

End Submitting.

(** *** Waiting *)
Section Waiting.
Context `{OW : OneWay} `{SyncOpcodes} `{Abi}.
Variable remote_id : Z.
Context `{HM : !MappedServer remote_id}.


(** The requests a wait sends. *)
Definition wait_ops : list Z := [vkQueueWaitIdle; vkGetFenceStatus; vkWaitForFences; vkGetSemaphoreCounterValue].

(** The allocations outlive these requests; the device may write into them. *)
Definition waits_keep_allocations : Prop :=
  forall op payload w id mem, op ∈ wait_ops -> contents w id = Some mem ->
    exists mem', contents (round_trip op payload w).2 id = Some mem' /\ length mem' = length mem.

Lemma mapped_ok_after op payload w mapped : waits_keep_allocations -> op ∈ wait_ops ->
  mapped_ok w mapped -> mapped_ok (round_trip op payload w).2 mapped.
Proof.
  intros Hkeep Hop Hall. eapply Forall_impl; [exact Hall|]. intros m (mem & Hc & Hm).
  destruct (Hkeep op payload w _ _ Hop Hc) as (mem' & Hc' & Hl). exists mem'. split; [done|].
  unfold mapping_ok in *. by rewrite Hl.
Qed.

(** What a successful wait has done: one download from the world its request
    left, of at least what each event has to bring. *)
Definition wait_effect (evs : list wait_event) (c c' : Client) : Prop :=
  exists w1, mapped_ok w1 (cl_mapped c) /\
    cl_records c' = fold_right (fun e d => after_wait d e) (cl_records c) evs /\
    ((exists ids, acquire_coherent_mapped remote_id (Some ids) (cl_mapped c) w1 = (true, cl_mapped c', cl_world c') /\
        forall e, e ∈ evs -> acquired (cl_records c) e ⊆ ids) \/
     forall e, e ∈ evs -> acquired (cl_records c) e = ∅).

Lemma acquire_effective (g : Device -> Device) ids c w1 c' evs :
  acquire remote_id (Some ids) (set_world w1 c) = (true, c') -> mapped_ok w1 (cl_mapped c) ->
  g (cl_records c) = fold_right (fun e d => after_wait d e) (cl_records c) evs ->
  (forall e, e ∈ evs -> acquired (cl_records c) e ⊆ ids) ->
  wait_effect evs c (set_records (g (cl_records c')) c').
Proof.
  unfold acquire. cbn [cl_mapped cl_world set_world].
  destruct (acquire_coherent_mapped _ _ _ _) as [[ok m] w2] eqn:Ha. intros [= -> <-] Hm Hg He.
  exists w1. split; [done|]. split; [done|]. left. by exists ids.
Qed.

Lemma acquired_singleton d e ids : acquired d e = ids -> forall e', e' ∈ [e] -> acquired d e' ⊆ ids.
Proof. by intros <- e' ->%list_elem_of_singleton. Qed.

Lemma acquired_fences d fences e : e ∈ map FenceSignaled fences -> acquired d e ⊆ fences_set d fences.
Proof.
  intros (f & -> & Hf)%list_elem_of_fmap. unfold fences_set. cbn. apply elem_of_subseteq. intros x Hx.
  apply elem_of_union_list. exists (fence_set d f). split; [|done]. apply list_elem_of_fmap. by exists f.
Qed.

Lemma erase_fences_events d fences :
  erase_fences fences d = fold_right (fun e d => after_wait d e) d (map FenceSignaled fences).
Proof. induction fences as [|f fs IH]; [done|]. cbn. by rewrite <- IH. Qed.

Lemma run_wait_ok k c v c' : waits_keep_allocations -> mapped_ok (cl_world c) (cl_mapped c) ->
  run_wait remote_id k c = ((VK_SUCCESS, v), c') -> wait_effect (wait_events k v) c c'.
Proof.
  intros Hkeep Hok.
  assert (forall op payload, op ∈ wait_ops -> mapped_ok (round_trip op payload (cl_world c)).2 (cl_mapped c)) as Hw
    by (intros; by apply mapped_ok_after).
  destruct k as [q|f|n p t|s]; cbn [run_wait wait_events].
  - unfold QueueWaitIdle. rewrite request_eq.
    specialize (Hw vkQueueWaitIdle (Writer.handle q) ltac:(set_solver)).
    destruct (reply_result _) as [[r rd]|]; [|done]. destruct (negb (Reader.ok rd)); [done|].
    destruct (r =? VK_SUCCESS) eqn:Hr; [|intros [= ->]; bool_hyps; done].
    destruct (acquire _ _ _) as [[] c1] eqn:Ha; cbn [negb]; [|done]. intros [= -> <- <-].
    by apply (acquire_effective (queue_idle q) _ _ _ _ _ Ha); [..|apply acquired_singleton].
  - unfold GetFenceStatus. destruct (f =? 0); [done|]. rewrite request_eq.
    specialize (Hw vkGetFenceStatus (fence_status_request remote_id f) ltac:(set_solver)).
    destruct (reply_result _) as [[r rd]|]; [|done]. destruct (negb (Reader.ok rd)); [done|].
    destruct (r =? VK_SUCCESS) eqn:Hr; [|intros [= ->]; bool_hyps; done].
    destruct (acquire _ _ _) as [[] c1] eqn:Ha; cbn [negb]; [|done]. intros [= -> <- <-].
    by apply (acquire_effective (erase_fence f) _ _ _ _ _ Ha); [..|apply acquired_singleton].
  - unfold WaitForFences. destruct (negb _); [done|]. set (payload := _ ++ _). rewrite request_eq.
    specialize (Hw vkWaitForFences payload ltac:(set_solver)).
    destruct (reply_result _) as [[r rd]|]; [|done]. destruct (negb (Reader.ok rd)); [done|].
    destruct (r =? VK_SUCCESS) eqn:Hr; [|intros [= ->]; bool_hyps; done]. rewrite signaled_all.
    destruct (acquire _ _ _) as [[] c1] eqn:Ha; cbn [negb]; [|done]. intros [= -> <- <-].
    apply (acquire_effective (erase_fences (arr p n)) _ _ _ _ _ Ha); [done|apply erase_fences_events|].
    intros e. apply acquired_fences.
  - unfold GetSemaphoreCounterValue. rewrite request_eq.
    specialize (Hw vkGetSemaphoreCounterValue (Writer.handle remote_id ++ Writer.handle s) ltac:(set_solver)).
    destruct (reply_result _) as [[r rd]|]; [|done]. destruct (Reader.u64 rd) as [cv rd'].
    destruct (negb (Reader.ok rd')); [done|].
    destruct (r =? VK_SUCCESS) eqn:Hr; [|intros [= ->]; bool_hyps; done].
    set (c1 := set_world _ c) in *. unfold acquire_timeline_writes. change (cl_records c1) with (cl_records c).
    destruct (timeline_set (cl_records c) s cv) as [ids|] eqn:Ht; cbn [negb].
    + destruct (acquire _ _ c1) as [[] c2] eqn:Ha; cbn [negb]; [|done]. intros [= -> <- <-].
      assert (acquired (cl_records c) (TimelineReached s cv) = ids) as Hids by (cbn; by rewrite Ht).
      apply (acquire_effective (reach_timeline s cv ids) _ _ _ _ _ Ha); [done| |by apply acquired_singleton].
      cbn [fold_right after_wait]. by rewrite Hids.
    + intros [= -> <- <-]. exists (cl_world c1). split; [done|]. split; [|right].
      * cbn. unfold reach_timeline, timeline_set in *. by destruct (semaphores (cl_records c) !! s).
      * intros e ->%list_elem_of_singleton. cbn. by rewrite Ht.
Qed.

(** C20: The end of a wait, end to end. A queue, a fence, a set of fences or a
    timeline counter is found finished by the client, whose records are those of
    some sequence of calls made one after the other (as in the property before),
    and the allocations outlive the request. Then every emulated mapping, with its
    baseline, of an allocation that a finished batch has written, or a batch before
    it in its queue or behind a signal that a wait found when it was submitted, is
    brought up to date: each byte the host had not stored to is the one the server
    has when the call returns, bytes the host had stored to are kept, and the
    whole baseline is the server's. The exception are batches that an earlier wait
    or vkDeviceWaitIdle had already found finished. The records are those after
    the wait. Signals submitted after the waits for them are not such edges. *)
Theorem waited_writes_visible k v c c' h A e a b i m :
  reachable (cl_records c) h A -> waits_keep_allocations -> mapped_ok (cl_world c) (cl_mapped c) ->
  run_wait remote_id k c = ((VK_SUCCESS, v), c') ->
  e ∈ wait_events k v -> finished h e a -> batches h !! a = Some b -> memory_id m ∈ bt_own b ->
  cl_mapped c !! i = Some m -> mr_emulated_coherent m = true -> transfer_ready m = true ->
  cl_records c' = fold_right (fun e d => after_wait d e) (cl_records c) (wait_events k v) /\
  (A a \/ exists m' mem, cl_mapped c' !! i = Some m' /\ contents (cl_world c') (memory_id m) = Some mem /\
     baseline m' = server_window m mem /\ length (shadow m') = length (shadow m) /\
     forall j, (j < length (shadow m))%nat -> shadow m' !! j =
       if decide (shadow m !! j = baseline m !! j) then server_window m mem !! j else shadow m !! j).
Proof.
  intros Hr Hkeep Hok Hrun He Hfin Ha Hm Hi Hem Hready.
  destruct (run_wait_ok k c v c' Hkeep Hok Hrun) as (w1 & Hok1 & Hrec & Hacq). split; [done|].
  destruct (finished_covered _ _ _ e a b Hr Hfin Ha) as [Hsub|]; [right|by left].
  destruct Hacq as [(ids & Hd & Hids)|Hnone]; [|specialize (Hnone e He); set_solver].
  apply acquire_coherent_ok in Hd as [Hc HF]; [|done].
  apply (Forall2_lookup_l _ _ _ _ _ HF) in Hi as (m' & Hi' & Heff).
  unfold acquire_effect in Heff. rewrite Hem, Hready in Heff. cbn [andb] in Heff.
  rewrite bool_decide_true in Heff by (specialize (Hids e He); set_solver).
  destruct Heff as (mem & Hmem & [_ Hs Hb Hsh Hba]). exists m', mem. rewrite Hc.
  split_and!; [done|done| |done|exact Hsh].
  apply list_eq. intros j. destruct (decide (j < length (shadow m))%nat) as [Hj|Hj]; [exact (Hba j Hj)|].
  unfold server_window, window. rewrite !lookup_ge_None_2; [done|rewrite length_take; lia|lia].
Qed.

End Waiting.

(** *** Failing *)
Section Failing.
Context `{OW : OneWay} `{SyncOpcodes} `{Abi}.
Variable remote_id : Z.
Variable to_cmd : Z -> RemoteCommandBuffer.

Lemma acquire_eq ids c b c1 : acquire remote_id ids c = (b, c1) -> cl_records c1 = cl_records c.
Proof. intros E. by rewrite <- (acquire_records remote_id ids c), E. Qed.

Lemma publish_eq c b c1 : publish remote_id c = (b, c1) -> cl_records c1 = cl_records c.
Proof. intros E. by rewrite <- (publish_records remote_id c), E. Qed.

Lemma signaled_eq any fences c r c1 : signaled_fences remote_id any fences c = (r, c1) -> cl_records c1 = cl_records c.
Proof. intros E. by rewrite <- (signaled_fences_records remote_id any fences c), E. Qed.

(** Branches of a call: a success contradicts the failure, every other branch
    returns before the records are touched. *)
Ltac fails :=
  branches; intros; simplify_eq;
  repeat match goal with
  | E : acquire _ _ _ = _ |- _ => apply acquire_eq in E
  | E : publish _ _ = _ |- _ => apply publish_eq in E
  | E : signaled_fences _ _ _ _ = _ |- _ => apply signaled_eq in E
  | E : acquire_timeline_writes _ _ _ _ = (?b, _), B : negb ?b = true |- _ =>
      destruct b; [done|]; apply acquire_timeline_fails in E
  end;
  bool_hyps; first [done | apply keeps_same; cbn in *; congruence].

Lemma wait_for_fences_fails all n p t c e c' :
  WaitForFences remote_id n p all t c = (e, c') -> e <> VK_SUCCESS -> keeps_records c c'.
Proof. unfold WaitForFences. fails. Qed.

Lemma run_wait_fails k c e v c' : run_wait remote_id k c = ((e, v), c') -> e <> VK_SUCCESS -> keeps_records c c'.
Proof.
  assert (forall f : Z * Client, (forall e c', f = (e, c') -> e <> VK_SUCCESS -> keeps_records c c') ->
    (let (r, c) := f in ((r, @None Z), c)) = ((e, v), c') -> e <> VK_SUCCESS -> keeps_records c c') as Hplain.
  { intros [r c1] Hf [= -> <- <-]. by apply Hf. }
  destruct k as [q|f|n p t|s]; cbn [run_wait].
  - apply Hplain. intros e0 c0. unfold QueueWaitIdle. fails.
  - apply Hplain. intros e0 c0. unfold GetFenceStatus. fails.
  - apply Hplain. apply wait_for_fences_fails.
  - unfold GetSemaphoreCounterValue. fails.
Qed.

Lemma run_submission_fails handle fence s n c e c' :
  run_submission remote_id to_cmd handle fence s n c = (e, c') -> e <> VK_SUCCESS -> keeps_records c c'.
Proof.
  intros [[_ ->]|(q & payload & _ & _ & Hs)]%run_submission_ok He; [by apply keeps_same|].
  by apply (submit_planned_fails _ _ _ _ _ _ _ _ _ _ Hs).
Qed.

(** C23: A call that fails keeps every record of unseen writes: submissions, sparse
    bindings, waits on fences, queues, the device and counters, resets, creations
    and host signals change nothing but the next serial. *)
Theorem failed_call_keeps_records k c e c' :
  run_sync remote_id to_cmd k c = (e, c') -> e <> VK_SUCCESS -> keeps_records c c'.
Proof.
  destruct k as [handle fence s n|q fence p n|k|n p t| |n p|info|info|chained s v]; cbn [run_sync].
  - apply run_submission_fails.
  - unfold QueueBindSparse. fails.
  - destruct (run_wait _ k c) as [[r v] c1] eqn:E. intros [= -> <-]. by apply (run_wait_fails _ _ _ _ _ E).
  - apply wait_for_fences_fails.
  - unfold DeviceWaitIdle. fails.
  - unfold ResetFences. fails.
  - destruct (CreateFence _ info c) as [[r v] c1] eqn:E. intros [= -> <-]. revert E. unfold CreateFence. fails.
  - destruct (CreateSemaphore _ info c) as [[r v] c1] eqn:E. intros [= -> <-]. revert E. unfold CreateSemaphore. fails.
  - unfold SignalSemaphore. fails.
Qed.

End Failing.

(** ** A concrete server

    One device (id 1) with one allocation (id 5).  The device writes a byte of it
    when a batch is submitted. *)
Module SyncDemo.

#[local] Existing Instance Instances.abi.

Definition ops : SyncOpcodes :=
  {| vkGetDeviceQueue := 10; vkQueueBindSparse := 11; vkQueueSubmit := 12; vkQueueSubmit2 := 13; vkQueueWaitIdle := 14;
     vkDeviceWaitIdle := 15; vkCreateFence := 16; vkDestroyFence := 17; vkResetFences := 18; vkGetFenceStatus := 19;
     vkWaitForFences := 20; vkCreateSemaphore := 21; vkDestroySemaphore := 22; vkGetSemaphoreCounterValue := 23;
     vkWaitSemaphores := 24; vkSignalSemaphore := 25 |}.

Definition reply_ok : list byte := Writer.u32 (status_code Ok) ++ Writer.i32 VK_SUCCESS.

Definition flush (payload bytes : list byte) : option (list byte) * list byte :=
  let r := Reader.make payload in
  let (_, r) := Reader.handle r in
  let (memory, r) := Reader.handle r in
  let (offset, r) := Reader.u64 r in
  let (_, r) := Reader.u64 r in
  let (data, _) := Reader.bytes kMaxMappedChunk r in
  match data with
  | Some data => if memory =? 5 then (Some reply_ok, patch (Z.to_nat offset) data bytes) else (None, bytes)
  | None => (None, bytes)
  end.

Definition download (payload bytes : list byte) : option (list byte) * list byte :=
  let r := Reader.make payload in
  let (_, r) := Reader.handle r in
  let (memory, r) := Reader.handle r in
  let (offset, r) := Reader.u64 r in
  let (size, _) := Reader.u64 r in
  if memory =? 5
  then (Some (reply_ok ++ Writer.bytes (window (Z.to_nat offset) (Z.to_nat size) bytes)), bytes) else (None, bytes).

Definition call (op : Z) (payload bytes : list byte) : option (list byte) * list byte :=
  if op =? 7 then flush payload bytes
  else if op =? 8 then download payload bytes
  else (Some (reply_ok ++ Writer.u32 0),
        if (op =? 12) && (8 <=? length bytes)%nat then patch 6 [xee] bytes else bytes).

#[export] Instance remote : Remote :=
  {| world := list byte; FlushMappedMemory := 7; DownloadMappedMemory := 8; round_trip := call |}.
#[export] Instance oneways : OneWay := {| send_oneway _ _ w := w |}.
#[export] Instance opcodes : SyncOpcodes := ops.

Lemma flush_parsed offset data bytes : is_u64 offset -> Z.of_nat (length data) <= kMaxMappedChunk ->
  flush (flush_request 1 5 offset data) bytes = (Some reply_ok, patch (Z.to_nat offset) data bytes).
Proof.
  intros Ho Hd. assert (is_u32 (Z.of_nat (length data))) as Hu by (unfold is_u32, kMaxMappedChunk in *; lia).
  assert (is_u64 (Z.of_nat (length data))) as Hu' by (unfold is_u64, is_u32 in *; lia).
  assert (is_u64 1) as H1 by (by apply (bool_decide_unpack _)).
  assert (is_u64 5) as H5 by (by apply (bool_decide_unpack _)).
  unfold flush. pose proof (at_make (flush_request 1 5 offset data)) as Hat.
  revert Hat. generalize (Reader.make (flush_request 1 5 offset data)) as r. intros r Hat.
  unfold flush_request in Hat. rewrite (wrap64_id offset) in Hat by done.
  rewrite <- (app_nil_r (Writer.bytes data)) in Hat.
  decode Hat. decode Hat. decode Hat. decode Hat.
  apply (at_bytes kMaxMappedChunk) in Hat as (r4 & -> & Hat); [|done|done]. by rewrite Z.eqb_refl.
Qed.

Lemma download_parsed offset size bytes : is_u64 offset -> is_u64 size ->
  download (download_request 1 5 offset size) bytes =
  (Some (reply_ok ++ Writer.bytes (window (Z.to_nat offset) (Z.to_nat size) bytes)), bytes).
Proof.
  intros Ho Hs. assert (is_u64 1) as H1 by (by apply (bool_decide_unpack _)).
  assert (is_u64 5) as H5 by (by apply (bool_decide_unpack _)).
  unfold download. pose proof (at_make (download_request 1 5 offset size)) as Hat.
  revert Hat. generalize (Reader.make (download_request 1 5 offset size)) as r. intros r Hat.
  unfold download_request in Hat. rewrite (wrap64_id offset) in Hat by done.
  rewrite <- (app_nil_r (Writer.u64 size)) in Hat.
  decode Hat. decode Hat. decode Hat. decode Hat. by rewrite Z.eqb_refl.
Qed.

(** A reply with bytes yields them. *)
Lemma reply_downloads size bytes : size = Z.of_nat (length bytes) -> is_u32 size ->
  download_reply size (Some (reply_ok ++ Writer.bytes bytes)) = inr bytes.
Proof.
  intros -> Hs. unfold download_reply. set (m := reply_ok ++ _). pose proof (at_make m) as Hat. revert Hat.
  generalize (Reader.make m) as r. intros r Hat. unfold m, reply_ok in Hat. rewrite <- app_assoc in Hat.
  rewrite <- (app_nil_r (Writer.bytes bytes)) in Hat.
  assert (is_u32 (status_code Ok)) as Hk by (by apply (bool_decide_unpack _)).
  assert (is_i32 VK_SUCCESS) as Hv by (by apply (bool_decide_unpack _)).
  decode Hat. rewrite Z.eqb_refl. cbn [negb]. decode Hat. rewrite (at_ok _ _ Hat), Z.eqb_refl. cbn [negb].
  apply (at_bytes (Z.of_nat (length bytes))) in Hat as (r4 & -> & Hat); [|lia|done].
  by rewrite Z.eqb_refl, (at_ok _ _ Hat).
Qed.

Definition contents_of (w : list byte) (id : Z) : option (list byte) := if id =? 5 then Some w else None.

Lemma contents_some w id mem : contents_of w id = Some mem -> id = 5 /\ mem = w.
Proof. unfold contents_of. destruct (id =? 5) eqn:E; [|done]. intros [= <-]. by bool_hyps. Qed.

#[export] Instance server : MappedServer 1.
Proof.
  refine {| contents := contents_of : world -> Z -> option (list byte) |}.
  - intros memory offset data w mem reply w' Hc H0 Hl Hin Hk Hr _. apply contents_some in Hc as [-> ->].
    change (flush (flush_request 1 5 offset data) w = (reply, w')) in Hr.
    rewrite flush_parsed in Hr by (done || unfold is_u64; lia). injection Hr as <- <-.
    split; [done|]. intros memory' Hn. unfold contents_of. by rewrite (proj2 (Z.eqb_neq memory' 5)).
  - intros memory offset size w mem reply w' bytes Hc H0 Hsz Hin Hr Hd. apply contents_some in Hc as [-> ->].
    change (download (download_request 1 5 offset size) w = (reply, w')) in Hr.
    rewrite download_parsed in Hr by (unfold is_u64, kMaxMappedChunk in *; lia). injection Hr as <- <-.
    rewrite reply_downloads in Hd.
    + by injection Hd as <-.
    + rewrite length_window by lia. lia.
    + unfold is_u32, kMaxMappedChunk in *. lia.
Defined.

(** A mapping of bytes 2 to 7; the host has stored byte 3. *)
Definition mapping : MappedRange :=
  mkRange 5 2 6 [x03; xaa; x05; x06; x07; x08] true true [x03; x04; x05; x06; x07; x08].

Definition commands (h : Z) : RemoteCommandBuffer :=
  mkRemoteCommandBuffer 77 (mkCommandBuffer ∅ false {[5]}).

Definition fresh : Device := mkDevice ∅ ∅ ∅ ∅ ∅ ∅ 1 ∅ ∅.

Definition client : Client :=
  mkClient _ fresh [mapping] [3] [x01; x02; x03; x04; x05; x06; x07; x08].

(** One batch with one command buffer. *)
Definition batch : VkSubmitInfo := mkSubmitInfo 4 Null 0 Null Null 1 (Ref [4096]) 0 Null.

Definition submission : submission := SubmitInfos (Ref [batch]).

Lemma mapping_fits : mapped_ok (cl_world client) (cl_mapped client).
Proof. constructor; [|constructor]. eexists. split; [by vm_compute|]. unfold mapping_ok. cbn. lia. Qed.

Lemma pair_of {A B} (x : A * B) a : x.1 = a -> x = (a, x.2).
Proof. by destruct x; cbn; intros ->. Qed.

Definition submitted : Client := (run_submission 1 commands (Some 3) 9 submission 1 client).2.

Lemma submission_committed_witness :
  cl_world submitted = [x01; x02; x03; xaa; x05; x06; xee; x08] /\
  fence_set (cl_records submitted) 9 = {[5]}.
Proof.
  split; [by vm_compute|].
  destruct (submission_committed 1 commands (Some 3) 9 submission 1 client submitted)
    as (q & payload & w1 & reply & [= <-] & _ & _ & _ & ->).
  - by apply (bool_decide_unpack _).
  - exact mapping_fits.
  - apply pair_of. by vm_compute.
  - by vm_compute.
Defined.

Lemma submitted_reachable : exists h, reachable (cl_records submitted) h (fun _ => False) /\
  batches h !! 1 = Some (mkBatch 3 {[5]} ∅) /\ fenced h !! 9 = Some 1.
Proof.
  exists (TrackingFacts.submitted fresh 3 9 (submission_batches commands submission 1) new_history).
  split; [|by vm_compute].
  assert (cl_records submitted = submit false 3 9 (submission_batches commands submission 1) fresh) as -> by (by vm_compute).
  by apply reach_submit, reach_init.
Qed.

Definition waited : Client := (run_wait 1 (CallGetFenceStatus 9) submitted).2.

(** The fence is signaled: the byte the device wrote appears in the mapping. *)
Lemma waited_writes_visible_witness :
  exists m', cl_mapped waited !! 0%nat = Some m' /\ shadow m' !! 4%nat = Some xee.
Proof.
  destruct submitted_reachable as (h & Hh & Hb & Hf).
  set (m := mkRange 5 2 6 [x03; xaa; x05; x06; x07; x08] true true [x03; xaa; x05; x06; x07; x08]).
  destruct (waited_writes_visible 1 (CallGetFenceStatus 9) None submitted waited h (fun _ => False) (FenceSignaled 9) 1
    (mkBatch 3 {[5]} ∅) 0%nat m Hh) as [_ [[]|(m' & mem & Hm' & Hmem & _ & _ & Hsh)]].
  - intros op payload w id mem Hop Hc. exists mem. split; [|done]. apply contents_some in Hc as [-> ->].
    cbn [round_trip remote].
    repeat (apply elem_of_cons in Hop as [->|Hop]; [done|]). by apply not_elem_of_nil in Hop.
  - assert (cl_mapped submitted = [m]) as -> by (by vm_compute). constructor; [|constructor].
    exists [x01; x02; x03; xaa; x05; x06; xee; x08]. split; [by vm_compute|]. unfold mapping_ok. cbn. lia.
  - unfold waited. destruct (run_wait 1 (CallGetFenceStatus 9) submitted) as [[r v] c'] eqn:E. cbn [snd].
    assert ((r, v) = (VK_SUCCESS, None)) as [= -> ->]; [|done].
    change (r, v) with ((r, v, c').1). rewrite <- E. by vm_compute.
  - left.
  - exists 1. split; [exact Hf|constructor].
  - exact Hb.
  - set_solver.
  - by vm_compute.
  - done.
  - done.
  - exists m'. split; [done|]. rewrite Hsh by (cbn; lia).
    assert (mem = [x01; x02; x03; xaa; x05; x06; xee; x08]) as -> by (apply contents_some in Hmem as [_ ->]; by vm_compute).
    by vm_compute.
Defined.

(** The device is lost: the records stay. *)
Lemma failed_call_keeps_records_witness :
  keeps_records client (run_sync 1 commands (CallResetFences 0 Null) client).2.
Proof.
  apply (failed_call_keeps_records 1 commands (CallResetFences 0 Null) client VK_ERROR_INITIALIZATION_FAILED); done.
Defined.

End SyncDemo.
