(* ===== verification/VkCommands.v ===== *)
(** The commands a command buffer records, as data: what an application passes
    to the client's [vkCmd*] functions and what the server passes to its driver.
    On the client objects are ids, on the server they are the driver's handles.

    A count and the array it counts are one list; a [float] is its 32 bits. *)

From stdpp Require Import list strings.
From S2P Require Import Prelude CLayout VkStructs PNext VkCreateInfos.

(** ** Structs sent member by member

    They have no raw image on the wire; members as in the Vulkan headers. *)

Record VkImageResolve := mkResolve {
  rs_srcSubresource : VkImageSubresourceLayers.t; rs_srcOffset : VkOffset3D.t;
  rs_dstSubresource : VkImageSubresourceLayers.t; rs_dstOffset : VkOffset3D.t;
  rs_extent : VkExtent3D.t }.

Record VkClearDepthStencilValue := mkDepthStencil { cd_depth : Z; cd_stencil : Z }.

Record VkClearAttachment := mkClearAttachment {
  ca_aspectMask : Z; ca_colorAttachment : Z; ca_clearValue : VkClearValue.t }.

Record VkClearRect := mkClearRect { cr_rect : VkRect2D.t; cr_baseArrayLayer : Z; cr_layerCount : Z }.

(** [VkClearColorValue]: the four words of the union. *)
Abbreviation VkClearColorValue := VkClearValue.t.

(** ** Commands *)

Inductive command :=
  | vkCmdBeginRenderPass (info : VkRenderPassBeginInfo.t) (contents : Z)
  | vkCmdNextSubpass (contents : Z)
  | vkCmdEndRenderPass
  | vkCmdBeginRenderPass2 (info : VkRenderPassBeginInfo.t) (subpass : VkSubpassBeginInfo.t)
  | vkCmdNextSubpass2 (begin_info : VkSubpassBeginInfo.t) (end_info : VkSubpassEndInfo.t)
  | vkCmdEndRenderPass2 (end_info : VkSubpassEndInfo.t)
  | vkCmdSetFragmentShadingRateKHR (size : VkExtent2D.t) (op0 op1 : Z)
  | vkCmdSetDeviceMask (mask : Z)
  | vkCmdDispatchBase (bx by_ bz x y z : Z)
  | vkCmdBindPipeline (bind_point pipeline : Z)
  | vkCmdBindDescriptorSets (bind_point layout first_set : Z) (sets offsets : list Z)
  | vkCmdBindVertexBuffers (first : Z) (buffers : list (Z * Z))
  | vkCmdBindIndexBuffer (buffer offset index_type : Z)
  | vkCmdSetViewport (first : Z) (viewports : list VkViewport.t)
  | vkCmdSetScissor (first : Z) (scissors : list VkRect2D.t)
  | vkCmdDraw (vertex_count instance_count first_vertex first_instance : Z)
  | vkCmdDispatch (x y z : Z)
  | vkCmdDrawIndexed (index_count instance_count first_index vertex_offset first_instance : Z)
  | vkCmdPipelineBarrier (src_stage dst_stage dep_flags : Z) (memory : list VkMemoryBarrier.t)
      (buffers : list VkBufferMemoryBarrier.t) (images : list VkImageMemoryBarrier.t)
  | vkCmdCopyBuffer (src dst : Z) (regions : list VkBufferCopy.t)
  | vkCmdCopyBufferToImage (src dst layout : Z) (regions : list VkBufferImageCopy.t)
  | vkCmdCopyImageToBuffer (src layout dst : Z) (regions : list VkBufferImageCopy.t)
  | vkCmdCopyImage (src src_layout dst dst_layout : Z) (regions : list VkImageCopy.t)
  | vkCmdBlitImage (src src_layout dst dst_layout : Z) (regions : list VkImageBlit.t) (filter : Z)
  | vkCmdFillBuffer (dst offset size data : Z)
  | vkCmdUpdateBuffer (dst offset : Z) (data : list byte)
  | vkCmdClearColorImage (image layout : Z) (color : VkClearColorValue)
      (ranges : list VkImageSubresourceRange.t)
  | vkCmdDrawIndirect (buffer offset count stride : Z)
  | vkCmdDrawIndexedIndirect (buffer offset count stride : Z)
  | vkCmdDrawIndirectCount (buffer offset count_buffer count_offset max_draws stride : Z)
  | vkCmdDrawIndexedIndirectCount (buffer offset count_buffer count_offset max_draws stride : Z)
  | vkCmdDispatchIndirect (buffer offset : Z)
  | vkCmdExecuteCommands (commands : list Z)
  | vkCmdBeginQuery (pool query flags : Z)
  | vkCmdEndQuery (pool query : Z)
  | vkCmdResetQueryPool (pool first count : Z)
  | vkCmdWriteTimestamp (stage pool query : Z)
  | vkCmdCopyQueryPoolResults (pool first count buffer offset stride flags : Z)
  | vkCmdSetEvent (event stage : Z)
  | vkCmdResetEvent (event stage : Z)
  | vkCmdSetLineWidth (width : Z)
  | vkCmdSetDepthBias (constant clamp slope : Z)
  | vkCmdSetBlendConstants (r g b a : Z)
  | vkCmdSetDepthBounds (min max : Z)
  | vkCmdSetStencilCompareMask (face mask : Z)
  | vkCmdSetStencilWriteMask (face mask : Z)
  | vkCmdSetStencilReference (face reference : Z)
  | vkCmdResolveImage (src src_layout dst dst_layout : Z) (regions : list VkImageResolve)
  | vkCmdClearDepthStencilImage (image layout : Z) (value : VkClearDepthStencilValue)
      (ranges : list VkImageSubresourceRange.t)
  | vkCmdClearAttachments (attachments : list VkClearAttachment) (rects : list VkClearRect)
  | vkCmdWaitEvents (events : list Z) (src_stage dst_stage : Z) (memory : list VkMemoryBarrier.t)
      (buffers : list VkBufferMemoryBarrier.t) (images : list VkImageMemoryBarrier.t)
  | vkCmdPipelineBarrier2 (info : VkDependencyInfo.t)
  | vkCmdSetEvent2 (event : Z) (info : VkDependencyInfo.t)
  | vkCmdResetEvent2 (event stage : Z)
  | vkCmdWaitEvents2 (events : list (Z * VkDependencyInfo.t))
  | vkCmdWriteTimestamp2 (stage pool query : Z)
  | vkCmdPushConstants (layout stage_flags offset : Z) (values : list byte).

(** marshal.hpp:59-59. *)
Definition kMaxPushConstantBytes : Z := 65536.

(** The largest inline update. *)
Definition kMaxUpdateBytes : Z := 65536.
