(* ===== verification/ClientCommands.v ===== *)
(** Command recording on the client: [src/client/commands.cpp].

    A recording call encodes the command and sends it one-way; nobody waits for
    it.  Beside the message it keeps, per command buffer, which allocations the
    recorded work may write and which of those writes the work makes visible to
    the host: what a submission later plans with ([Tracking]). *)

From stdpp Require Import list gmap strings.
From S2P Require Import Prelude Wire Codec CLayout VkStructs PNext VkCreateInfos VkCommands.
From S2P Require Import MarshalBase Marshal MarshalChained MarshalDescriptor MarshalSync MarshalValues.
From S2P Require Import HostMemory Tracking ClientSync.

(** ** Command buffers *)

(** remote_objects.hpp:153-156. *)
Record FramebufferMetadata := mkFramebuffer { imageless : bool; image_views : list Z }.

(** [RemoteCommandBuffer]; [recorded] are the members a submission reads.

    remote_objects.hpp:228-239. *)
Record Recording := mkRecording {
  rc_remote_id : Z; command_pool_id : Z; bound_graphics_sets : gmap Z Z;
  bound_compute_sets : gmap Z Z; pending_writes : gset Z; recorded : CommandBuffer }.

(** What the server is sent: the opcode's name and the payload; [None] when the
    call is dropped. *)
Definition Sent : Type := option (string * list byte).

Definition VK_PIPELINE_STAGE_HOST_BIT : Z := 16384.
Definition VK_ACCESS_HOST_READ_BIT : Z := 8192.
Definition VK_ACCESS_HOST_WRITE_BIT : Z := 16384.
Definition VK_PIPELINE_BIND_POINT_GRAPHICS : Z := 0.
Definition VK_PIPELINE_BIND_POINT_COMPUTE : Z := 1.

Module Mark.

Definition set_pending (s : gset Z) (cb : Recording) : Recording :=
  mkRecording (rc_remote_id cb) (command_pool_id cb) (bound_graphics_sets cb) (bound_compute_sets cb) s
    (recorded cb).
Definition set_recorded (r : CommandBuffer) (cb : Recording) : Recording :=
  mkRecording (rc_remote_id cb) (command_pool_id cb) (bound_graphics_sets cb) (bound_compute_sets cb)
    (pending_writes cb) r.
Definition set_graphics (m : gmap Z Z) (cb : Recording) : Recording :=
  mkRecording (rc_remote_id cb) (command_pool_id cb) m (bound_compute_sets cb) (pending_writes cb)
    (recorded cb).
Definition set_compute (m : gmap Z Z) (cb : Recording) : Recording :=
  mkRecording (rc_remote_id cb) (command_pool_id cb) (bound_graphics_sets cb) m (pending_writes cb)
    (recorded cb).

(** A command buffer with nothing recorded: what begin and reset leave.

    commands.cpp:132-137. *)
Definition clear (cb : Recording) : Recording :=
  mkRecording (rc_remote_id cb) (command_pool_id cb) ∅ ∅ ∅ (mkCommandBuffer ∅ false ∅).

(** [pending_writes.insert]. *)
Definition add_pending (ms : gset Z) (cb : Recording) : Recording :=
  set_pending (pending_writes cb ∪ ms) cb.

(** [host_visible_writes.insert]. *)
Definition add_visible (ms : gset Z) (cb : Recording) : Recording :=
  let r := recorded cb in
  set_recorded (mkCommandBuffer (writable_descriptor_sets r) (descriptor_writes_host_visible r)
                  (host_visible_writes r ∪ ms)) cb.

(** commands.cpp:66-69. *)
Definition mark_descriptor_writes (sets : gmap Z Z) (cb : Recording) : Recording :=
  let r := recorded cb in
  set_recorded (mkCommandBuffer (writable_descriptor_sets r ∪ map_img sets)
                  (descriptor_writes_host_visible r) (host_visible_writes r)) cb.

Section Marks.
(** The metadata of the device. *)
Variable d : Device.
Variable framebuffers : gmap Z FramebufferMetadata.

(** The allocation behind a buffer or an image, if it is bound.

    commands.cpp:504-506. *)
Definition bound_memory (bindings : gmap Z Z) (id : Z) : gset Z :=
  match bindings !! id with Some m => {[m]} | None => ∅ end.

Definition mark_buffer (buffer : Z) : Recording -> Recording :=
  add_pending (bound_memory (buffer_bindings d) buffer).
Definition mark_image (image : Z) : Recording -> Recording :=
  add_pending (bound_memory (image_bindings d) image).

(** The first attachment list of the chain.

    commands.cpp:45-54. *)
Definition attachment_views (info : VkRenderPassBeginInfo.t) : option (list Z) :=
  fold_right (fun node rest => match node with
                               | RenderPassAttachmentBegin a =>
                                   Some (arr (VkRenderPassAttachmentBeginInfo.pAttachments a)
                                           (VkRenderPassAttachmentBeginInfo.attachmentCount a))
                               | _ => rest
                               end) None (chain_nodes (VkRenderPassBeginInfo.pNext info)).

(** commands.cpp:57-61. *)
Definition view_memory (view : Z) : gset Z :=
  match image_view_images d !! view with
  | Some image => bound_memory (image_bindings d) image
  | None => ∅
  end.

(** commands.cpp:36-64. *)
Definition mark_framebuffer_writes (info : VkRenderPassBeginInfo.t) (cb : Recording) : Recording :=
  match framebuffers !! VkRenderPassBeginInfo.framebuffer info with
  | None => cb
  | Some f =>
      let views := if imageless f then default (image_views f) (attachment_views info) else image_views f in
      add_pending (⋃ map view_memory views) cb
  end.

(** *** Barriers *)

(** commands.cpp:431-433. *)
Definition host_access (dstAccessMask : Z) : bool :=
  negb (Z.land dstAccessMask (Z.lor VK_ACCESS_HOST_READ_BIT VK_ACCESS_HOST_WRITE_BIT) =? 0).

(** A barrier over all memory.

    commands.cpp:434-435. *)
Definition mark_general (cb : Recording) : Recording :=
  let r := recorded cb in
  set_recorded (mkCommandBuffer (writable_descriptor_sets r) true (host_visible_writes r ∪ pending_writes cb)) cb.

(** A descriptor through which this buffer is written.

    commands.cpp:452-460. *)
Definition descriptor_names_buffer (buffer : Z) (r : DescriptorResource) : bool :=
  match dr_type r with
  | StorageBuffer | StorageBufferDynamic => resource_id r =? buffer
  | StorageTexelBuffer => bool_decide (buffer_view_buffers d !! resource_id r = Some buffer)
  | _ => false
  end.

(** commands.cpp:480-483. *)
Definition descriptor_names_image (image : Z) (r : DescriptorResource) : bool :=
  match dr_type r with
  | StorageImage => bool_decide (image_view_images d !! resource_id r = Some image)
  | _ => false
  end.

(** Some written descriptor set names the resource.

    commands.cpp:447-463. *)
Definition set_names (names : DescriptorResource -> bool) (cb : Recording) : bool :=
  existsb (fun set_id =>
    match descriptor_resources d !! set_id with
    | None => false
    | Some resources => existsb (fun item => names item.2) (map_to_list resources)
    end) (elements (writable_descriptor_sets (recorded cb))).

(** A barrier on one resource, bound to [m]: pending writes to [m] and writes
    through a descriptor of the resource become visible.

    commands.cpp:443-464. *)
Definition mark_resource (bindings : gmap Z Z) (id : Z) (names : DescriptorResource -> bool)
    (cb : Recording) : Recording :=
  match bindings !! id with
  | None => cb
  | Some m =>
      if bool_decide (m ∈ pending_writes cb) || set_names names cb then add_visible {[m]} cb else cb
  end.

(** commands.cpp:438-465. *)
Definition mark_buffer_barrier (cb : Recording) (b : VkBufferMemoryBarrier.t) : Recording :=
  let buffer := VkBufferMemoryBarrier.buffer b in
  if host_access (VkBufferMemoryBarrier.dstAccessMask b)
  then mark_resource (buffer_bindings d) buffer (descriptor_names_buffer buffer) cb else cb.

(** commands.cpp:466-488. *)
Definition mark_image_barrier (cb : Recording) (b : VkImageMemoryBarrier.t) : Recording :=
  let image := VkImageMemoryBarrier.image b in
  if host_access (VkImageMemoryBarrier.dstAccessMask b)
  then mark_resource (image_bindings d) image (descriptor_names_image image) cb else cb.

(** commands.cpp:432-437. *)
Definition mark_memory_barrier (cb : Recording) (b : VkMemoryBarrier.t) : Recording :=
  if host_access (VkMemoryBarrier.dstAccessMask b) then mark_general cb else cb.

(** The marks of a barrier or of a wait for events, which repeat the same code.

    commands.cpp:430-489. *)
Definition mark_barrier (dstStageMask : Z) (memory : list VkMemoryBarrier.t)
    (buffers : list VkBufferMemoryBarrier.t) (images : list VkImageMemoryBarrier.t) (cb : Recording) :
    Recording :=
  if Z.land dstStageMask VK_PIPELINE_STAGE_HOST_BIT =? 0 then cb
  else fold_left mark_image_barrier images
         (fold_left mark_buffer_barrier buffers (fold_left mark_memory_barrier memory cb)).

(** The masks of the second form of barriers: same bits, in 64.

    commands.cpp:716-717. *)
Definition host_masks (dstStageMask dstAccessMask : Z) : bool :=
  negb (Z.land dstStageMask VK_PIPELINE_STAGE_HOST_BIT =? 0) && host_access dstAccessMask.

(** commands.cpp:724-724. *)
Definition mark_buffer_barrier2 (cb : Recording) (b : VkBufferMemoryBarrier2.t) : Recording :=
  if host_masks (VkBufferMemoryBarrier2.dstStageMask b) (VkBufferMemoryBarrier2.dstAccessMask b)
  then add_visible (bound_memory (buffer_bindings d) (VkBufferMemoryBarrier2.buffer b)) cb else cb.

(** commands.cpp:725-725. *)
Definition mark_image_barrier2 (cb : Recording) (b : VkImageMemoryBarrier2.t) : Recording :=
  if host_masks (VkImageMemoryBarrier2.dstStageMask b) (VkImageMemoryBarrier2.dstAccessMask b)
  then add_visible (bound_memory (image_bindings d) (VkImageMemoryBarrier2.image b)) cb else cb.

Definition host_barrier2 (b : VkMemoryBarrier2.t) : bool :=
  host_masks (VkMemoryBarrier2.dstStageMask b) (VkMemoryBarrier2.dstAccessMask b).

(** commands.cpp:714-726. *)
Definition mark_dependency (info : VkDependencyInfo.t) (cb : Recording) : Recording :=
  let general_host := existsb host_barrier2 (arr (VkDependencyInfo.pMemoryBarriers info)
                                               (VkDependencyInfo.memoryBarrierCount info)) in
  let cb := if general_host then mark_general cb else cb in
  let cb := fold_left mark_buffer_barrier2 (arr (VkDependencyInfo.pBufferMemoryBarriers info)
                                              (VkDependencyInfo.bufferMemoryBarrierCount info)) cb in
  fold_left mark_image_barrier2 (arr (VkDependencyInfo.pImageMemoryBarriers info)
                                   (VkDependencyInfo.imageMemoryBarrierCount info)) cb.

End Marks.
End Mark.

Open Scope wire_scope.

(** ** Recording calls *)

(** Handles in the order of the array, and the like. *)
Definition write_each {A} (write : A -> list byte) (count : Z) (p : ptr (list A)) : list byte :=
  Writer.u32 count ++ concat (map write (arr p count)).

Section Recording.
Context `{Abi}.
Variable d : Device.
Variable framebuffers : gmap Z FramebufferMetadata.
(** What a [VkCommandBuffer] points to. *)
Variable to_cmd : Z -> Recording.
Implicit Type cb : Recording.
Import Mark.

(** [w.handle(cb->remote_id)], the arguments, [send_oneway]. *)
Definition send (name : string) (args : list byte) cb : Sent :=
  Some (name, Writer.handle (rc_remote_id cb) ++ args).

(** A call that only sends. *)
Definition sends (name : string) (args : list byte) cb : Sent * Recording := (send name args cb, cb).

(** [return] before anything is sent. *)
Definition dropped cb : Sent * Recording := (None, cb).

(** *** Render passes *)

(** commands.cpp:198-208. *)
Definition CmdBeginRenderPass (info : VkRenderPassBeginInfo.t) (contents : Z) cb : Sent * Recording :=
  match write_RenderPassBeginInfo info with
  | (false, _) => dropped cb
  | (true, bs) =>
      (send "vkCmdBeginRenderPass" (bs ++ Writer.i32 contents) cb, mark_framebuffer_writes d framebuffers info cb)
  end.

(** commands.cpp:210-216. *)
Definition CmdNextSubpass (contents : Z) cb : Sent * Recording :=
  sends "vkCmdNextSubpass" (Writer.i32 contents) cb.

(** commands.cpp:218-223. *)
Definition CmdEndRenderPass cb : Sent * Recording := sends "vkCmdEndRenderPass" [] cb.

(** commands.cpp:225-235. *)
Definition CmdBeginRenderPass2 (info : VkRenderPassBeginInfo.t) (subpass : VkSubpassBeginInfo.t) cb :
    Sent * Recording :=
  match (write_RenderPassBeginInfo info ;;; write_SubpassBeginInfo subpass) with
  | (false, _) => dropped cb
  | (true, bs) => (send "vkCmdBeginRenderPass2" bs cb, mark_framebuffer_writes d framebuffers info cb)
  end.

(** commands.cpp:237-247. *)
Definition CmdNextSubpass2 (begin_info : VkSubpassBeginInfo.t) (end_info : VkSubpassEndInfo.t) cb :
    Sent * Recording :=
  match (write_SubpassBeginInfo begin_info ;;; write_SubpassEndInfo end_info) with
  | (false, _) => dropped cb
  | (true, bs) => sends "vkCmdNextSubpass2" bs cb
  end.

(** commands.cpp:249-256. *)
Definition CmdEndRenderPass2 (end_info : VkSubpassEndInfo.t) cb : Sent * Recording :=
  match write_SubpassEndInfo end_info with
  | (false, _) => dropped cb
  | (true, bs) => sends "vkCmdEndRenderPass2" bs cb
  end.

(** [combinerOps] is an array of two.

    commands.cpp:258-266. *)
Definition CmdSetFragmentShadingRateKHR (size : ptr VkExtent2D.t) (ops : ptr (Z * Z)) cb : Sent * Recording :=
  match size, ops with
  | Ref size, Ref (op0, op1) =>
      sends "vkCmdSetFragmentShadingRateKHR"
        (Writer.u32 (VkExtent2D.width size) ++ Writer.u32 (VkExtent2D.height size) ++
         Writer.i32 op0 ++ Writer.i32 op1) cb
  | _, _ => dropped cb
  end.

(** *** Binding and state *)

(** commands.cpp:268-268. *)
Definition CmdSetDeviceMask (mask : Z) cb : Sent * Recording :=
  sends "vkCmdSetDeviceMask" (Writer.u32 mask) cb.

(** commands.cpp:271-280. *)
Definition CmdBindPipeline (bind_point pipeline : Z) cb : Sent * Recording :=
  sends "vkCmdBindPipeline" (Writer.i32 bind_point ++ Writer.handle pipeline) cb.

(** [bound[firstSet + i] = id], in 32 bits.

    commands.cpp:309-310. *)
Definition bind_sets (first_set : Z) (sets : list Z) (bound : gmap Z Z) : gmap Z Z :=
  fold_left (fun bound item => <[item.1 := item.2]> bound)
    (imap (fun i id => (wrap32 (first_set + Z.of_nat i), id)) sets) bound.

(** commands.cpp:282-312. *)
Definition CmdBindDescriptorSets (bind_point layout first_set count : Z) (sets : ptr (list Z))
    (dynamic_count : Z) (offsets : ptr (list Z)) cb : Sent * Recording :=
  if (layout =? 0) || (kMaxArrayElements <? count) || (kMaxArrayElements <? dynamic_count)
     || missing count sets || missing dynamic_count offsets
     || existsb (fun set => set =? 0) (arr sets count)
  then dropped cb
  else
    (send "vkCmdBindDescriptorSets"
       (Writer.i32 bind_point ++ Writer.handle layout ++ Writer.u32 first_set ++
        write_each Writer.handle count sets ++ write_each Writer.u32 dynamic_count offsets) cb,
     if bind_point =? VK_PIPELINE_BIND_POINT_COMPUTE
     then set_compute (bind_sets first_set (arr sets count) (bound_compute_sets cb)) cb
     else set_graphics (bind_sets first_set (arr sets count) (bound_graphics_sets cb)) cb).

(** commands.cpp:314-331. *)
Definition CmdBindVertexBuffers (first count : Z) (buffers offsets : ptr (list Z)) cb : Sent * Recording :=
  if (kMaxArrayElements <? count) || (negb (count =? 0) && (is_null buffers || is_null offsets))
  then dropped cb
  else
    sends "vkCmdBindVertexBuffers"
      (Writer.u32 first ++ Writer.u32 count ++
       concat (map (fun b => Writer.handle b.1 ++ Writer.u64 b.2) (zip (arr buffers count) (arr offsets count)))) cb.

(** commands.cpp:333-343. *)
Definition CmdBindIndexBuffer (buffer offset index_type : Z) cb : Sent * Recording :=
  if buffer =? 0 then dropped cb
  else sends "vkCmdBindIndexBuffer" (Writer.handle buffer ++ Writer.u64 offset ++ Writer.i32 index_type) cb.

(** commands.cpp:345-354. *)
Definition CmdSetViewport (first count : Z) (viewports : ptr (list VkViewport.t)) cb : Sent * Recording :=
  sends "vkCmdSetViewport" (Writer.u32 first ++ write_each write_Viewport count viewports) cb.

(** commands.cpp:356-365. *)
Definition CmdSetScissor (first count : Z) (scissors : ptr (list VkRect2D.t)) cb : Sent * Recording :=
  sends "vkCmdSetScissor" (Writer.u32 first ++ write_each write_Rect2D count scissors) cb.

(** commands.cpp:692-692. *)
Definition CmdSetLineWidth (width : Z) cb : Sent * Recording :=
  sends "vkCmdSetLineWidth" (Writer.f32 width) cb.

(** commands.cpp:693-693. *)
Definition CmdSetDepthBias (a b c : Z) cb : Sent * Recording :=
  sends "vkCmdSetDepthBias" (Writer.f32 a ++ Writer.f32 b ++ Writer.f32 c) cb.

(** commands.cpp:694-694. *)
Definition CmdSetBlendConstants (r g b a : Z) cb : Sent * Recording :=
  sends "vkCmdSetBlendConstants" (Writer.f32 r ++ Writer.f32 g ++ Writer.f32 b ++ Writer.f32 a) cb.

(** commands.cpp:695-695. *)
Definition CmdSetDepthBounds (a b : Z) cb : Sent * Recording :=
  sends "vkCmdSetDepthBounds" (Writer.f32 a ++ Writer.f32 b) cb.

(** commands.cpp:696-696. *)
Definition CmdSetStencilCompareMask (face mask : Z) cb : Sent * Recording :=
  sends "vkCmdSetStencilCompareMask" (Writer.u32 face ++ Writer.u32 mask) cb.

(** commands.cpp:697-697. *)
Definition CmdSetStencilWriteMask (face mask : Z) cb : Sent * Recording :=
  sends "vkCmdSetStencilWriteMask" (Writer.u32 face ++ Writer.u32 mask) cb.

(** commands.cpp:698-698. *)
Definition CmdSetStencilReference (face reference : Z) cb : Sent * Recording :=
  sends "vkCmdSetStencilReference" (Writer.u32 face ++ Writer.u32 reference) cb.

(** commands.cpp:735-750. *)
Definition CmdPushConstants (layout stage_flags offset size : Z) (values : ptr (list byte)) cb :
    Sent * Recording :=
  if (layout =? 0) || (size =? 0) || (kMaxPushConstantBytes <? size)
     || negb (Z.land offset 3 =? 0) || negb (Z.land size 3 =? 0) || is_null values
  then dropped cb
  else
    sends "vkCmdPushConstants"
      (Writer.handle layout ++ Writer.u32 stage_flags ++ Writer.u32 offset ++ Writer.bytes (arr values size)) cb.

(** *** Work that writes through descriptors *)

(** A call that draws, with the graphics sets. *)
Definition draws (name : string) (args : list byte) cb : Sent * Recording :=
  (send name args cb, mark_descriptor_writes (bound_graphics_sets cb) cb).

(** A call that dispatches, with the compute sets. *)
Definition dispatches (name : string) (args : list byte) cb : Sent * Recording :=
  (send name args cb, mark_descriptor_writes (bound_compute_sets cb) cb).

(** commands.cpp:269-269. *)
Definition CmdDispatchBase (bx by_ bz x y z : Z) cb : Sent * Recording :=
  dispatches "vkCmdDispatchBase"
    (Writer.u32 bx ++ Writer.u32 by_ ++ Writer.u32 bz ++ Writer.u32 x ++ Writer.u32 y ++ Writer.u32 z) cb.

(** commands.cpp:367-379. *)
Definition CmdDraw (vertex_count instance_count first_vertex first_instance : Z) cb : Sent * Recording :=
  draws "vkCmdDraw"
    (Writer.u32 vertex_count ++ Writer.u32 instance_count ++ Writer.u32 first_vertex ++
     Writer.u32 first_instance) cb.

(** commands.cpp:381-391. *)
Definition CmdDispatch (x y z : Z) cb : Sent * Recording :=
  dispatches "vkCmdDispatch" (Writer.u32 x ++ Writer.u32 y ++ Writer.u32 z) cb.

(** commands.cpp:393-406. *)
Definition CmdDrawIndexed (index_count instance_count first_index vertex_offset first_instance : Z) cb :
    Sent * Recording :=
  draws "vkCmdDrawIndexed"
    (Writer.u32 index_count ++ Writer.u32 instance_count ++ Writer.u32 first_index ++
     Writer.i32 vertex_offset ++ Writer.u32 first_instance) cb.

(** commands.cpp:662-666. *)
Definition CmdDrawIndirect (buffer offset count stride : Z) cb : Sent * Recording :=
  draws "vkCmdDrawIndirect"
    (Writer.handle buffer ++ Writer.u64 offset ++ Writer.u32 count ++ Writer.u32 stride) cb.

(** commands.cpp:667-671. *)
Definition CmdDrawIndexedIndirect (buffer offset count stride : Z) cb : Sent * Recording :=
  draws "vkCmdDrawIndexedIndirect"
    (Writer.handle buffer ++ Writer.u64 offset ++ Writer.u32 count ++ Writer.u32 stride) cb.

(** commands.cpp:672-672. *)
Definition CmdDrawIndirectCount (buffer offset count_buffer count_offset max_draws stride : Z) cb :
    Sent * Recording :=
  draws "vkCmdDrawIndirectCount"
    (Writer.handle buffer ++ Writer.u64 offset ++ Writer.handle count_buffer ++ Writer.u64 count_offset ++
     Writer.u32 max_draws ++ Writer.u32 stride) cb.

(** commands.cpp:673-673. *)
Definition CmdDrawIndexedIndirectCount (buffer offset count_buffer count_offset max_draws stride : Z) cb :
    Sent * Recording :=
  draws "vkCmdDrawIndexedIndirectCount"
    (Writer.handle buffer ++ Writer.u64 offset ++ Writer.handle count_buffer ++ Writer.u64 count_offset ++
     Writer.u32 max_draws ++ Writer.u32 stride) cb.

(** commands.cpp:674-678. *)
Definition CmdDispatchIndirect (buffer offset : Z) cb : Sent * Recording :=
  dispatches "vkCmdDispatchIndirect" (Writer.handle buffer ++ Writer.u64 offset) cb.

(** *** Work that writes its destination *)

(** A call that writes the buffer [dst]. *)
Definition writes_buffer (name : string) (args : list byte) (dst : Z) cb : Sent * Recording :=
  (send name args cb, mark_buffer d dst cb).

(** A call that writes the image [dst]. *)
Definition writes_image (name : string) (args : list byte) (dst : Z) cb : Sent * Recording :=
  (send name args cb, mark_image d dst cb).

(** commands.cpp:493-509. *)
Definition CmdCopyBuffer (src dst count : Z) (regions : ptr (list VkBufferCopy.t)) cb : Sent * Recording :=
  writes_buffer "vkCmdCopyBuffer"
    (Writer.handle src ++ Writer.handle dst ++ write_each write_BufferCopy count regions) dst cb.

(** commands.cpp:511-530. *)
Definition CmdCopyBufferToImage (src dst layout count : Z) (regions : ptr (list VkBufferImageCopy.t)) cb :
    Sent * Recording :=
  writes_image "vkCmdCopyBufferToImage"
    (Writer.handle src ++ Writer.handle dst ++ Writer.i32 layout ++
     write_each write_BufferImageCopy count regions) dst cb.

(** commands.cpp:532-551. *)
Definition CmdCopyImageToBuffer (src layout dst count : Z) (regions : ptr (list VkBufferImageCopy.t)) cb :
    Sent * Recording :=
  writes_buffer "vkCmdCopyImageToBuffer"
    (Writer.handle src ++ Writer.i32 layout ++ Writer.handle dst ++
     write_each write_BufferImageCopy count regions) dst cb.

(** commands.cpp:553-573. *)
Definition CmdCopyImage (src src_layout dst dst_layout count : Z) (regions : ptr (list VkImageCopy.t)) cb :
    Sent * Recording :=
  writes_image "vkCmdCopyImage"
    (Writer.handle src ++ Writer.i32 src_layout ++ Writer.handle dst ++ Writer.i32 dst_layout ++
     write_each write_ImageCopy count regions) dst cb.

(** commands.cpp:575-596. *)
Definition CmdBlitImage (src src_layout dst dst_layout count : Z) (regions : ptr (list VkImageBlit.t))
    (filter : Z) cb : Sent * Recording :=
  writes_image "vkCmdBlitImage"
    (Writer.handle src ++ Writer.i32 src_layout ++ Writer.handle dst ++ Writer.i32 dst_layout ++
     write_each write_ImageBlit count regions ++ Writer.i32 filter) dst cb.

(** commands.cpp:598-615. *)
Definition CmdFillBuffer (dst offset size data : Z) cb : Sent * Recording :=
  writes_buffer "vkCmdFillBuffer"
    (Writer.handle dst ++ Writer.u64 offset ++ Writer.u64 size ++ Writer.u32 data) dst cb.

(** An update the command cannot hold is sent without its bytes, for the server
    to refuse.

    commands.cpp:617-638. *)
Definition CmdUpdateBuffer (dst offset size : Z) (data : ptr (list byte)) cb : Sent * Recording :=
  writes_buffer "vkCmdUpdateBuffer"
    (Writer.handle dst ++ Writer.u64 offset ++ Writer.u64 size ++
     Writer.bytes (if negb (size =? 0) && (size <=? kMaxUpdateBytes) && (Z.land size 3 =? 0) && negb (is_null data)
                   then arr data size else [])) dst cb.

(** commands.cpp:640-660. *)
Definition CmdClearColorImage (image layout : Z) (color : VkClearColorValue) (count : Z)
    (ranges : ptr (list VkImageSubresourceRange.t)) cb : Sent * Recording :=
  writes_image "vkCmdClearColorImage"
    (Writer.handle image ++ Writer.i32 layout ++ write_raw color ++ write_each write_raw count ranges) image cb.

(** A subresource range, member by member.

    commands.cpp:701-701. *)
Definition write_range (r : VkImageSubresourceRange.t) : list byte :=
  let '(VkImageSubresourceRange.mk a b c d e) := r in
  Writer.u32 a ++ Writer.u32 b ++ Writer.u32 c ++ Writer.u32 d ++ Writer.u32 e.

(** commands.cpp:701-701. *)
Definition CmdClearDepthStencilImage (image layout : Z) (value : ptr VkClearDepthStencilValue) (count : Z)
    (ranges : ptr (list VkImageSubresourceRange.t)) cb : Sent * Recording :=
  match value with
  | Ref value =>
      writes_image "vkCmdClearDepthStencilImage"
        (Writer.handle image ++ Writer.i32 layout ++ Writer.f32 (cd_depth value) ++
         Writer.u32 (cd_stencil value) ++ write_each write_range count ranges) image cb
  | _ => dropped cb
  end.

(** commands.cpp:700-700. *)
Definition write_layers (s : VkImageSubresourceLayers.t) : list byte :=
  let '(VkImageSubresourceLayers.mk a b c d) := s in
  Writer.u32 a ++ Writer.u32 b ++ Writer.u32 c ++ Writer.u32 d.

(** commands.cpp:700-700. *)
Definition write_offset (o : VkOffset3D.t) : list byte :=
  let '(VkOffset3D.mk x y z) := o in Writer.i32 x ++ Writer.i32 y ++ Writer.i32 z.

(** commands.cpp:700-700. *)
Definition write_ImageResolve (r : VkImageResolve) : list byte :=
  write_layers (rs_srcSubresource r) ++ write_offset (rs_srcOffset r) ++
  write_layers (rs_dstSubresource r) ++ write_offset (rs_dstOffset r) ++
  Writer.u32 (VkExtent3D.width (rs_extent r)) ++ Writer.u32 (VkExtent3D.height (rs_extent r)) ++
  Writer.u32 (VkExtent3D.depth (rs_extent r)).

(** commands.cpp:700-700. *)
Definition CmdResolveImage (src src_layout dst dst_layout count : Z) (regions : ptr (list VkImageResolve)) cb :
    Sent * Recording :=
  writes_image "vkCmdResolveImage"
    (Writer.handle src ++ Writer.i32 src_layout ++ Writer.handle dst ++ Writer.i32 dst_layout ++
     write_each write_ImageResolve count regions) dst cb.

(** commands.cpp:702-702. *)
Definition write_ClearAttachment (a : VkClearAttachment) : list byte :=
  Writer.u32 (ca_aspectMask a) ++ Writer.u32 (ca_colorAttachment a) ++ write_raw (ca_clearValue a).

(** commands.cpp:702-702. *)
Definition write_ClearRect (r : VkClearRect) : list byte :=
  let '(VkRect2D.mk (VkOffset2D.mk x y) (VkExtent2D.mk w h)) := cr_rect r in
  Writer.i32 x ++ Writer.i32 y ++ Writer.u32 w ++ Writer.u32 h ++
  Writer.u32 (cr_baseArrayLayer r) ++ Writer.u32 (cr_layerCount r).

(** Attachments were marked when the render pass began.

    commands.cpp:702-702. *)
Definition CmdClearAttachments (attachment_count : Z) (attachments : ptr (list VkClearAttachment))
    (rect_count : Z) (rects : ptr (list VkClearRect)) cb : Sent * Recording :=
  sends "vkCmdClearAttachments"
    (write_each write_ClearAttachment attachment_count attachments ++
     write_each write_ClearRect rect_count rects) cb.

(** *** Queries and events *)

(** commands.cpp:685-685. *)
Definition CmdBeginQuery (pool query flags : Z) cb : Sent * Recording :=
  sends "vkCmdBeginQuery" (Writer.handle pool ++ Writer.u32 query ++ Writer.u32 flags) cb.

(** commands.cpp:686-686. *)
Definition CmdEndQuery (pool query : Z) cb : Sent * Recording :=
  sends "vkCmdEndQuery" (Writer.handle pool ++ Writer.u32 query) cb.

(** commands.cpp:687-687. *)
Definition CmdResetQueryPool (pool first count : Z) cb : Sent * Recording :=
  sends "vkCmdResetQueryPool" (Writer.handle pool ++ Writer.u32 first ++ Writer.u32 count) cb.

(** commands.cpp:688-688. *)
Definition CmdWriteTimestamp (stage pool query : Z) cb : Sent * Recording :=
  sends "vkCmdWriteTimestamp" (Writer.u32 stage ++ Writer.handle pool ++ Writer.u32 query) cb.

(** commands.cpp:733-733. *)
Definition CmdWriteTimestamp2 (stage pool query : Z) cb : Sent * Recording :=
  sends "vkCmdWriteTimestamp2" (Writer.u64 stage ++ Writer.handle pool ++ Writer.u32 query) cb.

(** commands.cpp:689-689. *)
Definition CmdCopyQueryPoolResults (pool first count buffer offset stride flags : Z) cb : Sent * Recording :=
  writes_buffer "vkCmdCopyQueryPoolResults"
    (Writer.handle pool ++ Writer.u32 first ++ Writer.u32 count ++ Writer.handle buffer ++
     Writer.u64 offset ++ Writer.u64 stride ++ Writer.u32 flags) buffer cb.

(** commands.cpp:690-690. *)
Definition CmdSetEvent (event stage : Z) cb : Sent * Recording :=
  sends "vkCmdSetEvent" (Writer.handle event ++ Writer.u32 stage) cb.

(** commands.cpp:691-691. *)
Definition CmdResetEvent (event stage : Z) cb : Sent * Recording :=
  sends "vkCmdResetEvent" (Writer.handle event ++ Writer.u32 stage) cb.

(** commands.cpp:731-731. *)
Definition CmdResetEvent2 (event stage : Z) cb : Sent * Recording :=
  sends "vkCmdResetEvent2" (Writer.handle event ++ Writer.u64 stage) cb.

(** commands.cpp:730-730. *)
Definition CmdSetEvent2 (event : Z) (info : ptr VkDependencyInfo.t) cb : Sent * Recording :=
  match info with
  | Ref info =>
      match write_DependencyInfo info with
      | (false, _) => dropped cb
      | (true, bs) => sends "vkCmdSetEvent2" (Writer.handle event ++ bs) cb
      end
  | _ => dropped cb
  end.

(** *** Barriers *)

(** The arrays of a barrier. *)
Definition write_barriers (memory_count : Z) (memory : ptr (list VkMemoryBarrier.t)) (buffer_count : Z)
    (buffers : ptr (list VkBufferMemoryBarrier.t)) (image_count : Z)
    (images : ptr (list VkImageMemoryBarrier.t)) : list byte :=
  write_each write_MemoryBarrier memory_count memory ++
  write_each write_BufferMemoryBarrier buffer_count buffers ++
  write_each write_ImageMemoryBarrier image_count images.

(** commands.cpp:408-491. *)
Definition CmdPipelineBarrier (src_stage dst_stage dep_flags memory_count : Z)
    (memory : ptr (list VkMemoryBarrier.t)) (buffer_count : Z)
    (buffers : ptr (list VkBufferMemoryBarrier.t)) (image_count : Z)
    (images : ptr (list VkImageMemoryBarrier.t)) cb : Sent * Recording :=
  (send "vkCmdPipelineBarrier"
     (Writer.u32 src_stage ++ Writer.u32 dst_stage ++ Writer.u32 dep_flags ++
      write_barriers memory_count memory buffer_count buffers image_count images) cb,
   mark_barrier d dst_stage (arr memory memory_count) (arr buffers buffer_count) (arr images image_count) cb).

(** commands.cpp:703-703. *)
Definition CmdWaitEvents (event_count : Z) (events : ptr (list Z)) (src_stage dst_stage memory_count : Z)
    (memory : ptr (list VkMemoryBarrier.t)) (buffer_count : Z)
    (buffers : ptr (list VkBufferMemoryBarrier.t)) (image_count : Z)
    (images : ptr (list VkImageMemoryBarrier.t)) cb : Sent * Recording :=
  (send "vkCmdWaitEvents"
     (write_each Writer.handle event_count events ++ Writer.u32 src_stage ++ Writer.u32 dst_stage ++
      write_barriers memory_count memory buffer_count buffers image_count images) cb,
   mark_barrier d dst_stage (arr memory memory_count) (arr buffers buffer_count) (arr images image_count) cb).

(** commands.cpp:705-728. *)
Definition CmdPipelineBarrier2 (info : ptr VkDependencyInfo.t) cb : Sent * Recording :=
  match info with
  | Ref info =>
      match write_DependencyInfo info with
      | (false, _) => dropped cb
      | (true, bs) => (send "vkCmdPipelineBarrier2" bs cb, mark_dependency d info cb)
      end
  | _ => dropped cb
  end.

(** The loop over the events; what was marked before an element that cannot be
    encoded stays marked.

    commands.cpp:732-732. *)
Fixpoint wait_events2 (items : list (Z * VkDependencyInfo.t)) (out : list byte) cb :
    option (list byte) * Recording :=
  match items with
  | [] => (Some out, cb)
  | (event, info) :: items =>
      match write_DependencyInfo info with
      | (false, _) => (None, cb)
      | (true, bs) => wait_events2 items (out ++ Writer.handle event ++ bs) (mark_dependency d info cb)
      end
  end.

(** commands.cpp:732-732. *)
Definition CmdWaitEvents2 (count : Z) (events : ptr (list Z)) (infos : ptr (list VkDependencyInfo.t)) cb :
    Sent * Recording :=
  if (kMaxArrayElements <? count) || (negb (count =? 0) && (is_null events || is_null infos)) then dropped cb
  else
    let (out, cb) := wait_events2 (zip (arr events count) (arr infos count)) (Writer.u32 count) cb in
    (match out with Some args => send "vkCmdWaitEvents2" args cb | None => None end, cb).

(** *** Secondary command buffers *)

(** One turn of the loop.

    commands.cpp:682-682. *)
Definition execute_secondary cb (secondary : Recording) : Recording :=
  let r := recorded cb in
  let s := recorded secondary in
  set_recorded (mkCommandBuffer (writable_descriptor_sets r ∪ writable_descriptor_sets s)
                  (descriptor_writes_host_visible r || descriptor_writes_host_visible s)
                  (host_visible_writes r ∪ host_visible_writes s))
    (add_pending (pending_writes secondary) cb).

(** commands.cpp:679-684. *)
Definition CmdExecuteCommands (count : Z) (commands : ptr (list Z)) cb : Sent * Recording :=
  (send "vkCmdExecuteCommands"
     (Writer.u32 count ++ concat (map (fun c => Writer.handle (rc_remote_id (to_cmd c))) (arr commands count))) cb,
   fold_left (fun cb c => execute_secondary cb (to_cmd c)) (arr commands count) cb).

(** *** The calls that begin and end a command buffer *)

(** commands.cpp:126-140. *)
Definition BeginCommandBuffer (info : VkCommandBufferBeginInfo.t) cb : Sent * Recording :=
  (send "vkBeginCommandBuffer" (write_CommandBufferBeginInfo info) cb, clear cb).

(** commands.cpp:142-148. *)
Definition EndCommandBuffer cb : Sent * Recording := sends "vkEndCommandBuffer" [] cb.

(** commands.cpp:150-164. *)
Definition ResetCommandBuffer (flags : Z) cb : Sent * Recording :=
  (send "vkResetCommandBuffer" (Writer.u32 flags) cb, clear cb).

End Recording.

(** ** Command pools *)

(** Sending, and the commands of the generated table by their names. *)
Class CommandChannel `{Remote} := {
  command_opcode : string -> Z;
  send_command : Z -> list byte -> world -> world }.

(** The command buffers of a device: the objects behind the handles, the device's
    list of them, and the world behind the connection.

    remote_objects.hpp:191-191. *)
Record CommandClient `{Remote} := mkCommandClient {
  heap : gmap Z Recording; command_buffers : list Z; cc_world : world }.

Section Pools.
Context `{CommandChannel} `{Abi}.
(** [remote_id] of the device. *)
Variable remote_id : Z.
(** [operator new]. *)
Variable new_address : gmap Z Recording -> Z.
Implicit Type c : CommandClient.

Definition pool_request (name : string) (payload : list byte) c : option (list byte) * CommandClient :=
  let (reply, w) := round_trip (command_opcode name) payload (cc_world c) in
  (reply, mkCommandClient _ (heap c) (command_buffers c) w).

Definition pool_oneway (name : string) (payload : list byte) c : CommandClient :=
  mkCommandClient _ (heap c) (command_buffers c) (send_command (command_opcode name) payload (cc_world c)).

(** A recording call on the command buffer behind [handle]; [None] when the
    handle names no object, which the code dereferences all the same. *)
Definition on_command_buffer (handle : Z) (call : Recording -> Sent * Recording) c : option CommandClient :=
  match heap c !! handle with
  | None => None
  | Some cb =>
      let (message, cb) := call cb in
      let c := mkCommandClient _ (<[handle := cb]> (heap c)) (command_buffers c) (cc_world c) in
      Some (match message with Some (name, payload) => pool_oneway name payload c | None => c end)
  end.

(** The object of one id of the reply.

    commands.cpp:87-96. *)
Definition new_command_buffer (id pool : Z) c : Z * CommandClient :=
  let address := new_address (heap c) in
  (address,
   mkCommandClient _
     (<[address := mkRecording id pool ∅ ∅ ∅ (mkCommandBuffer ∅ false ∅)]> (heap c))
     (command_buffers c ++ [address]) (cc_world c)).

(** commands.cpp:86-97. *)
Fixpoint new_command_buffers (n : nat) (r : Wire.reader) (pool : Z) c : list Z * CommandClient :=
  match n with
  | O => ([], c)
  | S n =>
      let (id, r) := Reader.handle r in
      let (address, c) := new_command_buffer id pool c in
      let (rest, c) := new_command_buffers n r pool c in
      (address :: rest, c)
  end.

(** The result and what is left in [pCommandBuffers].

    commands.cpp:71-99. *)
Definition AllocateCommandBuffers (info : VkCommandBufferAllocateInfo.t) c : Z * list Z * CommandClient :=
  let (reply, c) := pool_request "vkAllocateCommandBuffers"
                      (Writer.handle remote_id ++ write_CommandBufferAllocateInfo info) c in
  match reply with
  | None => (VK_ERROR_OUT_OF_HOST_MEMORY, [], c)
  | Some reply =>
      let (result, r) := Reader.i32 (payload_reader reply) in
      let (count, r) := Reader.u32 r in
      let n := Z.min count (VkCommandBufferAllocateInfo.commandBufferCount info) in
      let (handles, c) := new_command_buffers (Z.to_nat n) r (VkCommandBufferAllocateInfo.commandPool info) c in
      (result, handles, c)
  end.

(** The ids behind handles; [None] when one names no object. *)
Fixpoint remote_ids (handles : list Z) c : option (list Z) :=
  match handles with
  | [] => Some []
  | h :: handles =>
      match heap c !! h, remote_ids handles c with
      | Some cb, Some ids => Some (rc_remote_id cb :: ids)
      | _, _ => None
      end
  end.

(** [None] when an element is not a command buffer of the heap: the code
    dereferences it.

    commands.cpp:101-124. *)
Definition FreeCommandBuffers (pool count : Z) (handles : ptr (list Z)) c : option CommandClient :=
  match remote_ids (arr handles count) c with
  | None => None
  | Some ids =>
      let c := pool_oneway "vkFreeCommandBuffers"
                 (Writer.handle remote_id ++ Writer.handle pool ++ Writer.u32 count ++
                  concat (map Writer.handle ids)) c in
      let retired := arr handles count in
      Some (mkCommandClient _ (fold_left (fun h a => delete a h) retired (heap c))
              (fold_left (fun l a => filter (fun b => b <> a) l) retired (command_buffers c)) (cc_world c))
  end.

(** commands.cpp:166-166. *)
Definition TrimCommandPool (pool flags : Z) c : CommandClient :=
  pool_oneway "vkTrimCommandPool" (Writer.handle remote_id ++ Writer.handle pool ++ Writer.u32 flags) c.

(** One turn of the loop over the device's command buffers.

    commands.cpp:184-193. *)
Definition reset_in_pool (pool : Z) (h : gmap Z Recording) (address : Z) : gmap Z Recording :=
  alter (fun cb => if command_pool_id cb =? pool then Mark.clear cb else cb) address h.

(** commands.cpp:168-196. *)
Definition ResetCommandPool (pool flags : Z) c : Z * CommandClient :=
  let (reply, c) := pool_request "vkResetCommandPool"
                      (Writer.handle remote_id ++ Writer.handle pool ++ Writer.u32 flags) c in
  match reply with
  | None => (VK_ERROR_DEVICE_LOST, c)
  | Some reply =>
      let (result, r) := Reader.i32 (payload_reader reply) in
      let c :=
        if Reader.ok r && (result =? VK_SUCCESS)
        then mkCommandClient _ (fold_left (reset_in_pool pool) (command_buffers c) (heap c))
               (command_buffers c) (cc_world c)
        else c in
      (if Reader.ok r then result else VK_ERROR_DEVICE_LOST, c)
  end.

End Pools.

(** The functions an application can ask for by name, each with the opcode it
    sends.

    commands.cpp:754-838. *)
Definition get_command_entries : list (string * string) :=
  let D := map (fun name : string => (name, name)) in
  D ["vkAllocateCommandBuffers"; "vkFreeCommandBuffers"; "vkBeginCommandBuffer"; "vkEndCommandBuffer";
     "vkResetCommandBuffer"; "vkResetCommandPool"; "vkTrimCommandPool"] ++
  [("vkTrimCommandPoolKHR", "vkTrimCommandPool")] ++
  D ["vkCmdBeginRenderPass"; "vkCmdNextSubpass"; "vkCmdEndRenderPass"; "vkCmdBeginRenderPass2"] ++
  [("vkCmdBeginRenderPass2KHR", "vkCmdBeginRenderPass2")] ++ D ["vkCmdNextSubpass2"] ++
  [("vkCmdNextSubpass2KHR", "vkCmdNextSubpass2")] ++ D ["vkCmdEndRenderPass2"] ++
  [("vkCmdEndRenderPass2KHR", "vkCmdEndRenderPass2")] ++
  D ["vkCmdSetFragmentShadingRateKHR"; "vkCmdSetDeviceMask"] ++
  [("vkCmdSetDeviceMaskKHR", "vkCmdSetDeviceMask")] ++ D ["vkCmdDispatchBase"] ++
  [("vkCmdDispatchBaseKHR", "vkCmdDispatchBase")] ++
  D ["vkCmdBindPipeline"; "vkCmdBindDescriptorSets"; "vkCmdBindVertexBuffers"; "vkCmdBindIndexBuffer";
     "vkCmdSetViewport"; "vkCmdSetScissor"; "vkCmdDraw"; "vkCmdDispatch"; "vkCmdDrawIndexed";
     "vkCmdDrawIndirect"; "vkCmdDrawIndexedIndirect"; "vkCmdDrawIndirectCount"] ++
  [("vkCmdDrawIndirectCountKHR", "vkCmdDrawIndirectCount")] ++ D ["vkCmdDrawIndexedIndirectCount"] ++
  [("vkCmdDrawIndexedIndirectCountKHR", "vkCmdDrawIndexedIndirectCount")] ++
  D ["vkCmdDispatchIndirect"; "vkCmdExecuteCommands"; "vkCmdBeginQuery"; "vkCmdEndQuery";
     "vkCmdResetQueryPool"; "vkCmdWriteTimestamp"; "vkCmdCopyQueryPoolResults"; "vkCmdSetEvent";
     "vkCmdResetEvent"; "vkCmdSetLineWidth"; "vkCmdSetDepthBias"; "vkCmdSetBlendConstants";
     "vkCmdSetDepthBounds"; "vkCmdSetStencilCompareMask"; "vkCmdSetStencilWriteMask";
     "vkCmdSetStencilReference"; "vkCmdPipelineBarrier"; "vkCmdPipelineBarrier2"] ++
  [("vkCmdPipelineBarrier2KHR", "vkCmdPipelineBarrier2")] ++ D ["vkCmdSetEvent2"] ++
  [("vkCmdSetEvent2KHR", "vkCmdSetEvent2")] ++ D ["vkCmdResetEvent2"] ++
  [("vkCmdResetEvent2KHR", "vkCmdResetEvent2")] ++ D ["vkCmdWaitEvents2"] ++
  [("vkCmdWaitEvents2KHR", "vkCmdWaitEvents2")] ++ D ["vkCmdWriteTimestamp2"] ++
  [("vkCmdWriteTimestamp2KHR", "vkCmdWriteTimestamp2")] ++
  D ["vkCmdCopyBuffer"; "vkCmdCopyBufferToImage"; "vkCmdCopyImageToBuffer"; "vkCmdCopyImage";
     "vkCmdBlitImage"; "vkCmdFillBuffer"; "vkCmdUpdateBuffer"; "vkCmdClearColorImage";
     "vkCmdClearDepthStencilImage"; "vkCmdClearAttachments"; "vkCmdResolveImage"; "vkCmdWaitEvents";
     "vkCmdPushConstants"].
