(* ===== verification/ServerCommands.v ===== *)
(** Command buffers on the server: [src/server/handlers_command.cpp].

    A recording handler decodes the command with the connection's tables, then
    makes one driver call; a request it cannot decode is counted and nothing is
    called.  The handlers of recording calls are decoders ([Rd]): what they read
    and check, and the command buffer and command they would pass on.  [issue]
    and its two variants, which look an entry point up first, are the rest. *)

From stdpp Require Import list gmap strings.
From S2P Require Import Prelude Wire Codec CLayout VkStructs PNext VkCreateInfos VkCommands.
From S2P Require Import MarshalBase Marshal MarshalChained MarshalDescriptor MarshalSync MarshalValues.
From S2P Require Import HostMemory Objects Session.
Open Scope wire_scope.

(** ** The driver *)

(** [vkCmd cb x] is the recording call [x] on the command buffer [cb];
    [vkGetDeviceProcAddr] says whether the entry point exists. *)
Class CommandDriver (W : Type) := {
  vkCmd : Z -> command -> W -> W;
  vkGetDeviceProcAddr : Z -> string -> W -> bool;
  vkCreateCommandPool : Z -> VkCommandPoolCreateInfo.t -> W -> Z * Z * W;
  vkDestroyCommandPool : Z -> Z -> W -> W;
  vkAllocateCommandBuffers : Z -> VkCommandBufferAllocateInfo.t -> W -> Z * list Z * W;
  vkFreeCommandBuffers : Z -> Z -> list Z -> W -> W;
  vkBeginCommandBuffer : Z -> VkCommandBufferBeginInfo.t -> W -> Z * W;
  vkEndCommandBuffer : Z -> W -> Z * W;
  vkResetCommandBuffer : Z -> Z -> W -> Z * W;
  vkTrimCommandPool : Z -> Z -> Z -> W -> W;
  vkResetCommandPool : Z -> Z -> Z -> W -> Z * W }.

(** ** What the recording handlers decode *)
Section Decoders.
Context `{Abi} {HR : HandleResolver}.

(** [c.tables.x(c.reader.handle())]. *)
Definition r_object (resolve : Z -> Z) : Rd Z := id <- r_handle ; rret (resolve id).

(** [!= VK_NULL_HANDLE]. *)
Definition valid (h : Z) : bool := negb (h =? 0).

(** A count that [count_fits] the message; [limited]: no more than
    [kMaxArrayElements].

    session.hpp:188-190. *)
Definition r_length (limited : bool) (min_wire_bytes : Z) : Rd nat :=
  n <- r_u32 ; left <- r_remaining ;
  rguard (negb (limited && (kMaxArrayElements <? n)) && (n <=? left / min_wire_bytes)) ;!
  rret (Z.to_nat n).

(** [c.reader.remaining() != 0]. *)
Definition r_end : Rd unit := left <- r_remaining ; rguard (left =? 0).

(** *** Render passes *)

(** handlers_command.cpp:152-167. *)
Definition handle_CmdBeginRenderPass : Rd (Z * command) :=
  cb <- r_object hr_command_buffer ; r_ok ;! rguard (valid cb) ;!
  info <- read_RenderPassBeginInfo ; contents <- r_i32 ; r_ok ;!
  rret (cb, vkCmdBeginRenderPass info contents).

(** handlers_command.cpp:169-177. *)
Definition handle_CmdNextSubpass : Rd (Z * command) :=
  cb <- r_object hr_command_buffer ; contents <- r_i32 ; r_ok ;! rguard (valid cb) ;!
  rret (cb, vkCmdNextSubpass contents).

(** handlers_command.cpp:179-186. *)
Definition handle_CmdEndRenderPass : Rd (Z * command) :=
  cb <- r_object hr_command_buffer ; r_ok ;! rguard (valid cb) ;! rret (cb, vkCmdEndRenderPass).

(** handlers_command.cpp:188-198. *)
Definition handle_CmdBeginRenderPass2 : Rd (Z * command) :=
  cb <- r_object hr_command_buffer ; r_ok ;! rguard (valid cb) ;!
  info <- read_RenderPassBeginInfo ; subpass <- read_SubpassBeginInfo ;
  rret (cb, vkCmdBeginRenderPass2 info subpass).

(** handlers_command.cpp:207-217. *)
Definition handle_CmdNextSubpass2 : Rd (Z * command) :=
  cb <- r_object hr_command_buffer ; r_ok ;! rguard (valid cb) ;!
  begin_info <- read_SubpassBeginInfo ; end_info <- read_SubpassEndInfo ;
  rret (cb, vkCmdNextSubpass2 begin_info end_info).

(** handlers_command.cpp:226-235. *)
Definition handle_CmdEndRenderPass2 : Rd (Z * command) :=
  cb <- r_object hr_command_buffer ; r_ok ;! rguard (valid cb) ;!
  end_info <- read_SubpassEndInfo ; rret (cb, vkCmdEndRenderPass2 end_info).

(** handlers_command.cpp:243-247. *)
Definition handle_CmdSetFragmentShadingRateKHR : Rd (Z * command) :=
  cb <- r_object hr_command_buffer ; width <- r_u32 ; height <- r_u32 ; op0 <- r_i32 ; op1 <- r_i32 ;
  r_ok ;! rguard (valid cb) ;!
  rret (cb, vkCmdSetFragmentShadingRateKHR (VkExtent2D.mk width height) op0 op1).

(** handlers_command.cpp:252-252. *)
Definition handle_CmdSetDeviceMask : Rd (Z * command) :=
  cb <- r_object hr_command_buffer ; mask <- r_u32 ; r_ok ;! rguard (valid cb) ;!
  rret (cb, vkCmdSetDeviceMask mask).

(** handlers_command.cpp:253-253. *)
Definition handle_CmdDispatchBase : Rd (Z * command) :=
  cb <- r_object hr_command_buffer ; bx <- r_u32 ; by_ <- r_u32 ; bz <- r_u32 ;
  x <- r_u32 ; y <- r_u32 ; z <- r_u32 ; r_ok ;! rguard (valid cb) ;!
  rret (cb, vkCmdDispatchBase bx by_ bz x y z).

(** *** Binding and state *)

(** handlers_command.cpp:255-264. *)
Definition handle_CmdBindPipeline : Rd (Z * command) :=
  cb <- r_object hr_command_buffer ; bind_point <- r_i32 ; pipeline <- r_object hr_pipeline ;
  r_ok ;! rguard (valid cb) ;! rret (cb, vkCmdBindPipeline bind_point pipeline).

(** handlers_command.cpp:266-297. *)
Definition handle_CmdBindDescriptorSets : Rd (Z * command) :=
  cb <- r_object hr_command_buffer ; bind_point <- r_i32 ; layout <- r_object hr_pipeline_layout ;
  first_set <- r_u32 ; n <- r_length true 8 ; sets <- rfor n (r_object hr_descriptor_set) ;
  m <- r_length true 4 ; offsets <- rfor m r_u32 ; r_ok ;! r_end ;!
  rguard (valid cb && valid layout && ((bind_point =? 0) || (bind_point =? 1)) && forallb valid sets) ;!
  rret (cb, vkCmdBindDescriptorSets bind_point layout first_set sets offsets).

(** handlers_command.cpp:310-312. *)
Definition read_vertex_buffer : Rd (Z * Z) :=
  buffer <- r_object hr_buffer ; offset <- r_u64 ; rret (buffer, offset).

(** handlers_command.cpp:299-320. *)
Definition handle_CmdBindVertexBuffers : Rd (Z * command) :=
  cb <- r_object hr_command_buffer ; first <- r_u32 ; n <- r_length true 16 ;
  bound <- rfor n read_vertex_buffer ; r_ok ;!
  rguard (valid cb && forallb (fun b => valid b.1) bound) ;!
  rret (cb, vkCmdBindVertexBuffers first bound).

(** handlers_command.cpp:322-335. *)
Definition handle_CmdBindIndexBuffer : Rd (Z * command) :=
  cb <- r_object hr_command_buffer ; buffer <- r_object hr_buffer ; offset <- r_u64 ; index_type <- r_i32 ;
  r_ok ;! rguard (valid cb && valid buffer && ((index_type =? 0) || (index_type =? 1))) ;!
  rret (cb, vkCmdBindIndexBuffer buffer offset index_type).

(** handlers_command.cpp:337-356. *)
Definition handle_CmdSetViewport : Rd (Z * command) :=
  cb <- r_object hr_command_buffer ; first <- r_u32 ; n <- r_length false 4 ; r_ok ;!
  viewports <- rfor n read_Viewport ; rguard (valid cb) ;! rret (cb, vkCmdSetViewport first viewports).

(** handlers_command.cpp:358-377. *)
Definition handle_CmdSetScissor : Rd (Z * command) :=
  cb <- r_object hr_command_buffer ; first <- r_u32 ; n <- r_length false 4 ; r_ok ;!
  scissors <- rfor n read_Rect2D ; rguard (valid cb) ;! rret (cb, vkCmdSetScissor first scissors).

(** handlers_command.cpp:379-390. *)
Definition handle_CmdDraw : Rd (Z * command) :=
  cb <- r_object hr_command_buffer ; vertex_count <- r_u32 ; instance_count <- r_u32 ;
  first_vertex <- r_u32 ; first_instance <- r_u32 ; r_ok ;! rguard (valid cb) ;!
  rret (cb, vkCmdDraw vertex_count instance_count first_vertex first_instance).

(** handlers_command.cpp:392-402. *)
Definition handle_CmdDispatch : Rd (Z * command) :=
  cb <- r_object hr_command_buffer ; x <- r_u32 ; y <- r_u32 ; z <- r_u32 ; r_ok ;! rguard (valid cb) ;!
  rret (cb, vkCmdDispatch x y z).

(** handlers_command.cpp:404-416. *)
Definition handle_CmdDrawIndexed : Rd (Z * command) :=
  cb <- r_object hr_command_buffer ; index_count <- r_u32 ; instance_count <- r_u32 ;
  first_index <- r_u32 ; vertex_offset <- r_i32 ; first_instance <- r_u32 ; r_ok ;! rguard (valid cb) ;!
  rret (cb, vkCmdDrawIndexed index_count instance_count first_index vertex_offset first_instance).

(** handlers_command.cpp:675-675. *)
Definition handle_CmdSetLineWidth : Rd (Z * command) :=
  cb <- r_object hr_command_buffer ; v <- r_f32 ; r_ok ;! rguard (valid cb) ;! rret (cb, vkCmdSetLineWidth v).

(** handlers_command.cpp:676-676. *)
Definition handle_CmdSetDepthBias : Rd (Z * command) :=
  cb <- r_object hr_command_buffer ; a <- r_f32 ; b <- r_f32 ; d <- r_f32 ; r_ok ;! rguard (valid cb) ;!
  rret (cb, vkCmdSetDepthBias a b d).

(** handlers_command.cpp:677-677. *)
Definition handle_CmdSetBlendConstants : Rd (Z * command) :=
  cb <- r_object hr_command_buffer ; r <- r_f32 ; g <- r_f32 ; b <- r_f32 ; a <- r_f32 ;
  r_ok ;! rguard (valid cb) ;! rret (cb, vkCmdSetBlendConstants r g b a).

(** handlers_command.cpp:678-678. *)
Definition handle_CmdSetDepthBounds : Rd (Z * command) :=
  cb <- r_object hr_command_buffer ; a <- r_f32 ; b <- r_f32 ; r_ok ;! rguard (valid cb) ;!
  rret (cb, vkCmdSetDepthBounds a b).

(** handlers_command.cpp:679-679. *)
Definition handle_CmdSetStencilCompareMask : Rd (Z * command) :=
  cb <- r_object hr_command_buffer ; f <- r_u32 ; m <- r_u32 ; r_ok ;! rguard (valid cb) ;!
  rret (cb, vkCmdSetStencilCompareMask f m).

(** handlers_command.cpp:680-680. *)
Definition handle_CmdSetStencilWriteMask : Rd (Z * command) :=
  cb <- r_object hr_command_buffer ; f <- r_u32 ; m <- r_u32 ; r_ok ;! rguard (valid cb) ;!
  rret (cb, vkCmdSetStencilWriteMask f m).

(** handlers_command.cpp:681-681. *)
Definition handle_CmdSetStencilReference : Rd (Z * command) :=
  cb <- r_object hr_command_buffer ; f <- r_u32 ; m <- r_u32 ; r_ok ;! rguard (valid cb) ;!
  rret (cb, vkCmdSetStencilReference f m).

(** handlers_command.cpp:688-702. *)
Definition handle_CmdPushConstants : Rd (Z * command) :=
  cb <- r_object hr_command_buffer ; layout <- r_object hr_pipeline_layout ; stage_flags <- r_u32 ;
  offset <- r_u32 ; values <- r_bytes kMaxPushConstantBytes ; r_ok ;! r_end ;!
  rguard (valid cb && valid layout && negb (length values =? 0)%nat && (Z.land offset 3 =? 0)
          && (Z.land (Z.of_nat (length values)) 3 =? 0)) ;!
  rret (cb, vkCmdPushConstants layout stage_flags offset values).

(** *** Indirect work *)

(** handlers_command.cpp:662-662. *)
Definition handle_CmdDrawIndirect : Rd (Z * command) :=
  cb <- r_object hr_command_buffer ; b <- r_object hr_buffer ; off <- r_u64 ; n <- r_u32 ; stride <- r_u32 ;
  r_ok ;! rguard (valid cb && valid b) ;! rret (cb, vkCmdDrawIndirect b off n stride).

(** handlers_command.cpp:663-663. *)
Definition handle_CmdDrawIndexedIndirect : Rd (Z * command) :=
  cb <- r_object hr_command_buffer ; b <- r_object hr_buffer ; off <- r_u64 ; n <- r_u32 ; stride <- r_u32 ;
  r_ok ;! rguard (valid cb && valid b) ;! rret (cb, vkCmdDrawIndexedIndirect b off n stride).

(** handlers_command.cpp:664-664. *)
Definition handle_CmdDispatchIndirect : Rd (Z * command) :=
  cb <- r_object hr_command_buffer ; b <- r_object hr_buffer ; off <- r_u64 ;
  r_ok ;! rguard (valid cb && valid b) ;! rret (cb, vkCmdDispatchIndirect b off).

(** handlers_command.cpp:665-665. *)
Definition handle_CmdDrawIndirectCount : Rd (Z * command) :=
  cb <- r_object hr_command_buffer ; b <- r_object hr_buffer ; off <- r_u64 ; count <- r_object hr_buffer ;
  count_offset <- r_u64 ; max_draws <- r_u32 ; stride <- r_u32 ;
  r_ok ;! rguard (valid cb && valid b && valid count) ;!
  rret (cb, vkCmdDrawIndirectCount b off count count_offset max_draws stride).

(** handlers_command.cpp:666-666. *)
Definition handle_CmdDrawIndexedIndirectCount : Rd (Z * command) :=
  cb <- r_object hr_command_buffer ; b <- r_object hr_buffer ; off <- r_u64 ; count <- r_object hr_buffer ;
  count_offset <- r_u64 ; max_draws <- r_u32 ; stride <- r_u32 ;
  r_ok ;! rguard (valid cb && valid b && valid count) ;!
  rret (cb, vkCmdDrawIndexedIndirectCount b off count count_offset max_draws stride).

(** handlers_command.cpp:667-667. *)
Definition handle_CmdExecuteCommands : Rd (Z * command) :=
  cb <- r_object hr_command_buffer ; n <- r_length true 8 ; v <- rfor n (r_object hr_command_buffer) ;
  r_ok ;! rguard (valid cb) ;! rret (cb, vkCmdExecuteCommands v).

(** *** Barriers and events *)

(** handlers_command.cpp:438-476. *)
Definition handle_CmdPipelineBarrier : Rd (Z * command) :=
  cb <- r_object hr_command_buffer ; src_stage <- r_u32 ; dst_stage <- r_u32 ; dep_flags <- r_u32 ;
  mem_count <- r_length false 4 ; r_ok ;! mem_barriers <- rfor mem_count read_MemoryBarrier ;
  buf_count <- r_length false 4 ; buf_barriers <- rfor buf_count read_BufferMemoryBarrier ;
  img_count <- r_length false 4 ; img_barriers <- rfor img_count read_ImageMemoryBarrier ;
  rguard (valid cb) ;!
  rret (cb, vkCmdPipelineBarrier src_stage dst_stage dep_flags mem_barriers buf_barriers img_barriers).

(** handlers_command.cpp:686-686. *)
Definition handle_CmdWaitEvents : Rd (Z * command) :=
  cb <- r_object hr_command_buffer ; en <- r_length true 8 ; events <- rfor en (r_object hr_event) ;
  src <- r_u32 ; dst <- r_u32 ;
  mn <- r_length true 4 ; m <- rfor mn read_MemoryBarrier ;
  bn <- r_length true 4 ; b <- rfor bn read_BufferMemoryBarrier ;
  im <- r_length true 4 ; i <- rfor im read_ImageMemoryBarrier ;
  r_ok ;! rguard (valid cb) ;! rret (cb, vkCmdWaitEvents events src dst m b i).

(** handlers_command.cpp:673-673. *)
Definition handle_CmdSetEvent : Rd (Z * command) :=
  cb <- r_object hr_command_buffer ; e <- r_object hr_event ; stage <- r_u32 ;
  r_ok ;! rguard (valid cb && valid e) ;! rret (cb, vkCmdSetEvent e stage).

(** handlers_command.cpp:674-674. *)
Definition handle_CmdResetEvent : Rd (Z * command) :=
  cb <- r_object hr_command_buffer ; e <- r_object hr_event ; stage <- r_u32 ;
  r_ok ;! rguard (valid cb && valid e) ;! rret (cb, vkCmdResetEvent e stage).

(** handlers_command.cpp:418-426. *)
Definition handle_CmdPipelineBarrier2 : Rd (Z * command) :=
  cb <- r_object hr_command_buffer ; rguard (valid cb) ;! info <- read_DependencyInfo ; r_ok ;! r_end ;!
  rret (cb, vkCmdPipelineBarrier2 info).

(** handlers_command.cpp:433-433. *)
Definition handle_CmdSetEvent2 : Rd (Z * command) :=
  cb <- r_object hr_command_buffer ; event <- r_object hr_event ; rguard (valid cb && valid event) ;!
  info <- read_DependencyInfo ; r_ok ;! r_end ;! rret (cb, vkCmdSetEvent2 event info).

(** handlers_command.cpp:434-434. *)
Definition handle_CmdResetEvent2 : Rd (Z * command) :=
  cb <- r_object hr_command_buffer ; event <- r_object hr_event ; stage <- r_u64 ;
  rguard (valid cb && valid event) ;! r_ok ;! r_end ;! rret (cb, vkCmdResetEvent2 event stage).

(** *** Copies, clears and fills *)

(** handlers_command.cpp:478-498. *)
Definition handle_CmdCopyBuffer : Rd (Z * command) :=
  cb <- r_object hr_command_buffer ; src <- r_object hr_buffer ; dst <- r_object hr_buffer ;
  n <- r_length false 4 ; r_ok ;! regions <- rfor n read_BufferCopy ;
  rguard (valid cb) ;! rret (cb, vkCmdCopyBuffer src dst regions).

(** handlers_command.cpp:500-522. *)
Definition handle_CmdCopyBufferToImage : Rd (Z * command) :=
  cb <- r_object hr_command_buffer ; src <- r_object hr_buffer ; dst <- r_object hr_image ;
  layout <- r_i32 ; n <- r_length false 4 ; r_ok ;! regions <- rfor n read_BufferImageCopy ;
  rguard (valid cb) ;! rret (cb, vkCmdCopyBufferToImage src dst layout regions).

(** handlers_command.cpp:524-546. *)
Definition handle_CmdCopyImageToBuffer : Rd (Z * command) :=
  cb <- r_object hr_command_buffer ; src <- r_object hr_image ; layout <- r_i32 ;
  dst <- r_object hr_buffer ; n <- r_length false 4 ; r_ok ;! regions <- rfor n read_BufferImageCopy ;
  rguard (valid cb) ;! rret (cb, vkCmdCopyImageToBuffer src layout dst regions).

(** [count == 0 || !count_fits]. *)
Definition r_nonempty (min_wire_bytes : Z) : Rd nat :=
  n <- r_length false min_wire_bytes ; rguard (negb (n =? 0)%nat) ;! rret n.

(** handlers_command.cpp:548-571. *)
Definition handle_CmdCopyImage : Rd (Z * command) :=
  cb <- r_object hr_command_buffer ; src <- r_object hr_image ; src_layout <- r_i32 ;
  dst <- r_object hr_image ; dst_layout <- r_i32 ; n <- r_nonempty 4 ; r_ok ;!
  regions <- rfor n read_ImageCopy ; rguard (valid cb && valid src && valid dst) ;!
  rret (cb, vkCmdCopyImage src src_layout dst dst_layout regions).

(** handlers_command.cpp:573-599. *)
Definition handle_CmdBlitImage : Rd (Z * command) :=
  cb <- r_object hr_command_buffer ; src <- r_object hr_image ; src_layout <- r_i32 ;
  dst <- r_object hr_image ; dst_layout <- r_i32 ; n <- r_nonempty 4 ; r_ok ;!
  regions <- rfor n read_ImageBlit ; filter <- r_i32 ; r_ok ;!
  rguard (valid cb && valid src && valid dst) ;!
  rret (cb, vkCmdBlitImage src src_layout dst dst_layout regions filter).

(** handlers_command.cpp:601-613. *)
Definition handle_CmdFillBuffer : Rd (Z * command) :=
  cb <- r_object hr_command_buffer ; dst <- r_object hr_buffer ; dst_offset <- r_u64 ; size <- r_u64 ;
  data <- r_u32 ; r_ok ;!
  rguard (valid cb && valid dst && (Z.land dst_offset 3 =? 0) &&
          ((size =? VK_WHOLE_SIZE) || (negb (size =? 0) && (Z.land size 3 =? 0)))) ;!
  rret (cb, vkCmdFillBuffer dst dst_offset size data).

(** handlers_command.cpp:615-629. *)
Definition handle_CmdUpdateBuffer : Rd (Z * command) :=
  cb <- r_object hr_command_buffer ; dst <- r_object hr_buffer ; dst_offset <- r_u64 ; data_size <- r_u64 ;
  data <- r_bytes kMaxUpdateBytes ; r_ok ;!
  rguard (valid cb && valid dst && (Z.land dst_offset 3 =? 0) && negb (data_size =? 0) &&
          (data_size <=? kMaxUpdateBytes) && (Z.land data_size 3 =? 0) &&
          (Z.of_nat (length data) =? data_size)) ;!
  rret (cb, vkCmdUpdateBuffer dst dst_offset data).

(** The image itself is not checked.

    handlers_command.cpp:631-660. *)
Definition handle_CmdClearColorImage : Rd (Z * command) :=
  cb <- r_object hr_command_buffer ; image <- r_object hr_image ; layout <- r_i32 ;
  color_bytes <- r_bytes u32_max ; n <- r_length false 4 ;
  ranges <- rfor n (read_raw VkImageSubresourceRange.t) ; r_ok ;!
  rguard (valid cb && (length color_bytes =? pod_size VkClearValue.t)%nat) ;!
  rret (cb, vkCmdClearColorImage image layout (pod_read color_bytes) ranges).

(** handlers_command.cpp:684-684. *)
Definition read_range : Rd VkImageSubresourceRange.t :=
  a <- r_u32 ; b <- r_u32 ; c <- r_u32 ; d <- r_u32 ; e <- r_u32 ;
  rret (VkImageSubresourceRange.mk a b c d e).

(** handlers_command.cpp:684-684. *)
Definition handle_CmdClearDepthStencilImage : Rd (Z * command) :=
  cb <- r_object hr_command_buffer ; image <- r_object hr_image ; layout <- r_i32 ;
  depth <- r_f32 ; stencil <- r_u32 ; n <- r_length true 20 ; ranges <- rfor n read_range ;
  r_ok ;! rguard (valid cb && valid image) ;!
  rret (cb, vkCmdClearDepthStencilImage image layout (mkDepthStencil depth stencil) ranges).

(** handlers_command.cpp:683-683. *)
Definition read_layers : Rd VkImageSubresourceLayers.t :=
  a <- r_u32 ; b <- r_u32 ; c <- r_u32 ; d <- r_u32 ; rret (VkImageSubresourceLayers.mk a b c d).

(** handlers_command.cpp:683-683. *)
Definition read_offset : Rd VkOffset3D.t :=
  x <- r_i32 ; y <- r_i32 ; z <- r_i32 ; rret (VkOffset3D.mk x y z).

(** handlers_command.cpp:683-683. *)
Definition read_ImageResolve : Rd VkImageResolve :=
  src_layers <- read_layers ; src_offset <- read_offset ; dst_layers <- read_layers ; dst_offset <- read_offset ;
  w <- r_u32 ; h <- r_u32 ; depth <- r_u32 ;
  rret (mkResolve src_layers src_offset dst_layers dst_offset (VkExtent3D.mk w h depth)).

(** handlers_command.cpp:683-683. *)
Definition handle_CmdResolveImage : Rd (Z * command) :=
  cb <- r_object hr_command_buffer ; src <- r_object hr_image ; sl <- r_i32 ; dst <- r_object hr_image ;
  dl <- r_i32 ; n <- r_length true 64 ; v <- rfor n read_ImageResolve ;
  r_ok ;! rguard (valid cb && valid src && valid dst) ;! rret (cb, vkCmdResolveImage src sl dst dl v).

(** handlers_command.cpp:685-685. *)
Definition read_ClearAttachment : Rd VkClearAttachment :=
  a <- r_u32 ; b <- r_u32 ; bytes <- r_bytes (Z.of_nat (pod_size VkClearValue.t)) ;
  rguard (length bytes =? pod_size VkClearValue.t)%nat ;! rret (mkClearAttachment a b (pod_read bytes)).

(** handlers_command.cpp:685-685. *)
Definition read_ClearRect : Rd VkClearRect :=
  x <- r_i32 ; y <- r_i32 ; w <- r_u32 ; h <- r_u32 ; layer <- r_u32 ; count <- r_u32 ;
  rret (mkClearRect (VkRect2D.mk (VkOffset2D.mk x y) (VkExtent2D.mk w h)) layer count).

(** handlers_command.cpp:685-685. *)
Definition handle_CmdClearAttachments : Rd (Z * command) :=
  cb <- r_object hr_command_buffer ; an <- r_length true 12 ; a <- rfor an read_ClearAttachment ;
  rn <- r_length true 24 ; r <- rfor rn read_ClearRect ;
  r_ok ;! rguard (valid cb) ;! rret (cb, vkCmdClearAttachments a r).

(** *** Queries *)

(** handlers_command.cpp:668-668. *)
Definition handle_CmdBeginQuery : Rd (Z * command) :=
  cb <- r_object hr_command_buffer ; p <- r_object hr_query_pool ; q <- r_u32 ; f <- r_u32 ;
  r_ok ;! rguard (valid cb && valid p) ;! rret (cb, vkCmdBeginQuery p q f).

(** handlers_command.cpp:669-669. *)
Definition handle_CmdEndQuery : Rd (Z * command) :=
  cb <- r_object hr_command_buffer ; p <- r_object hr_query_pool ; q <- r_u32 ;
  r_ok ;! rguard (valid cb && valid p) ;! rret (cb, vkCmdEndQuery p q).

(** handlers_command.cpp:670-670. *)
Definition handle_CmdResetQueryPool : Rd (Z * command) :=
  cb <- r_object hr_command_buffer ; p <- r_object hr_query_pool ; first <- r_u32 ; n <- r_u32 ;
  r_ok ;! rguard (valid cb && valid p) ;! rret (cb, vkCmdResetQueryPool p first n).

(** handlers_command.cpp:671-671. *)
Definition handle_CmdWriteTimestamp : Rd (Z * command) :=
  cb <- r_object hr_command_buffer ; stage <- r_u32 ; p <- r_object hr_query_pool ; q <- r_u32 ;
  r_ok ;! rguard (valid cb && valid p) ;! rret (cb, vkCmdWriteTimestamp stage p q).

(** handlers_command.cpp:672-672. *)
Definition handle_CmdCopyQueryPoolResults : Rd (Z * command) :=
  cb <- r_object hr_command_buffer ; p <- r_object hr_query_pool ; first <- r_u32 ; n <- r_u32 ;
  b <- r_object hr_buffer ; off <- r_u64 ; stride <- r_u64 ; flags <- r_u32 ;
  r_ok ;! rguard (valid cb && valid p && valid b) ;!
  rret (cb, vkCmdCopyQueryPoolResults p first n b off stride flags).

(** *** The two that look their entry point up before they check *)

(** The command buffer and the number of events.

    handlers_command.cpp:435-435. *)
Definition read_wait_events2_head : Rd (Z * nat) :=
  cb <- r_object hr_command_buffer ; rguard (valid cb) ;! n <- r_length true 12 ; rret (cb, n).

(** handlers_command.cpp:435-435. *)
Definition read_wait_event2 : Rd (Z * VkDependencyInfo.t) :=
  event <- r_object hr_event ; rguard (valid event) ;! info <- read_DependencyInfo ; rret (event, info).

(** handlers_command.cpp:435-435. *)
Definition read_wait_events2 (n : nat) : Rd (list (Z * VkDependencyInfo.t)) :=
  items <- rfor n read_wait_event2 ; r_ok ;! r_end ;! rret items.

End Decoders.

(** ** Handlers *)
Section Handlers.
Context `{Abi} {W : Type} {D : CommandDriver W}.
Implicit Type c : Session W.
Import Handler.

(** A decoder on the session. *)
Definition decode_with {A} (m : HandleResolver -> Rd A) c : option A * Session W :=
  rd (m (resolver_of (tables c))) c.

Definition call (cb : Z) (x : command) c : Session W := set_driver (vkCmd cb x (driver c)) c.

(** Decode, then call or count the error. *)
Definition issue (m : HandleResolver -> Rd (Z * command)) c : Session W :=
  match decode_with m c with
  | (Some (cb, x), c) => call cb x c
  | (None, c) => mark_oneway_error c
  end.

(** The same, with an entry point of the device that [command_buffer_devices.find]
    gives for the command buffer.

    handlers_command.cpp:199-204. *)
Definition issue_found (name : string) (m : HandleResolver -> Rd (Z * command)) c : Session W :=
  match decode_with m c with
  | (None, c) => mark_oneway_error c
  | (Some (cb, x), c) =>
      match command_buffer_devices (tables c) !! cb with
      | None => mark_oneway_error c
      | Some device => if vkGetDeviceProcAddr device name (driver c) then call cb x c else mark_oneway_error c
      end
  end.

Definition set_command_buffer_devices (m : gmap Z Z) (t : ObjectTables) : ObjectTables :=
  {| capabilities := capabilities t; table := table t; memory_metadata := memory_metadata t;
     device_physical_devices := device_physical_devices t; command_buffer_devices := m;
     descriptor_set_owners := descriptor_set_owners t;
     descriptor_update_template_owners := descriptor_update_template_owners t;
     descriptor_update_template_entries := descriptor_update_template_entries t;
     sampler_ycbcr_conversion_owners := sampler_ycbcr_conversion_owners t;
     swapchain_devices := swapchain_devices t; swapchain_surfaces := swapchain_surfaces t;
     swapchain_image_ids := swapchain_image_ids t |}.

(** [vkGetDeviceProcAddr(command_buffer_devices[cb], name)]: [operator[]] makes
    an entry with a null device for a command buffer that has none.

    handlers_command.cpp:427-428. *)
Definition device_proc (cb : Z) (name : string) c : bool * Session W :=
  let owners := command_buffer_devices (tables c) in
  let device := default 0 (owners !! cb) in
  (vkGetDeviceProcAddr device name (driver c),
   set_tables (set_command_buffer_devices (<[cb := device]> owners) (tables c)) c).

(** handlers_command.cpp:427-430. *)
Definition issue_indexed (name : string) (m : HandleResolver -> Rd (Z * command)) c : Session W :=
  match decode_with m c with
  | (None, c) => mark_oneway_error c
  | (Some (cb, x), c) =>
      let (fn, c) := device_proc cb name c in if fn then call cb x c else mark_oneway_error c
  end.

(** handlers_command.cpp:435-435. *)
Definition handle_CmdWaitEvents2 c : Session W :=
  match decode_with (fun _ => read_wait_events2_head) c with
  | (None, c) => mark_oneway_error c
  | (Some (cb, n), c) =>
      let (items, c) := decode_with (fun _ => read_wait_events2 n) c in
      let (fn, c) := device_proc cb "vkCmdWaitEvents2KHR" c in
      match items with
      | Some items => if fn then call cb (vkCmdWaitEvents2 items) c else mark_oneway_error c
      | None => mark_oneway_error c
      end
  end.

(** handlers_command.cpp:436-436. *)
Definition handle_CmdWriteTimestamp2 c : Session W :=
  let r := resolver_of (tables c) in
  let (id, c) := rd Reader.handle c in
  let cb := hr_command_buffer (HandleResolver := r) id in
  let (stage, c) := rd Reader.u64 c in
  let (pool_id, c) := rd Reader.handle c in
  let pool := hr_query_pool (HandleResolver := r) pool_id in
  let (query, c) := rd Reader.u32 c in
  let (fn, c) := if valid cb then device_proc cb "vkCmdWriteTimestamp2KHR" c else (false, c) in
  if negb fn || (pool =? 0) || negb (Reader.ok (reader c)) || negb (Reader.remaining (reader c) =? 0)%nat
  then mark_oneway_error c
  else call cb (vkCmdWriteTimestamp2 stage pool query) c.

(** *** Command pools and the life of a command buffer *)

(** [c.tables.table.owned_by]-style requests start with the device. *)
Definition rd_device c : Z * Session W :=
  let (id, c) := rd Reader.handle c in (Table.get (table (tables c) devices) id, c).

(** handlers_command.cpp:22-39. *)
Definition handle_CreateCommandPool c : Session W :=
  let (device, c) := rd_device c in
  if negb (Reader.ok (reader c)) || (device =? 0) then reply_status DecodeError c
  else match rd read_CommandPoolCreateInfo c with
  | (None, c) => reply_status DecodeError c
  | (Some info, c) =>
      let '(result, obj, w) := vkCreateCommandPool device info (driver c) in
      let c := set_driver w c in
      let (id, t) :=
        if result =? VK_SUCCESS
        then let (id, T) := Table.add (table (tables c) command_pools) obj device in
             (id, set_table command_pools T (tables c))
        else (0, tables c) in
      reply (write (Writer.u32 (status_code Ok) ++ Writer.i32 result ++ Writer.handle id) (set_tables t c))
  end.

(** handlers_command.cpp:41-53. *)
Definition handle_DestroyCommandPool c : Session W :=
  let (device, c) := rd_device c in
  let (id, c) := rd Reader.handle c in
  if negb (Reader.ok (reader c)) || (device =? 0)
     || negb (Table.owned_by (table (tables c) command_pools) id device)
  then mark_oneway_error c
  else
    let (obj, T) := Table.take (table (tables c) command_pools) id in
    set_driver (vkDestroyCommandPool device obj (driver c)) (set_tables (set_table command_pools T (tables c)) c).

(** The id of a new command buffer, and its device.

    handlers_command.cpp:78-79. *)
Definition record_command_buffer (device : Z) (t : ObjectTables) (cb : Z) : Z * ObjectTables :=
  let (id, T) := Table.add (table t command_buffers) cb device in
  let t := set_table command_buffers T t in
  (id, if id =? 0 then t else set_command_buffer_devices (<[cb := device]> (command_buffer_devices t)) t).

(** handlers_command.cpp:77-81. *)
Fixpoint record_command_buffers (device : Z) (cbs : list Z) (t : ObjectTables) : list Z * ObjectTables :=
  match cbs with
  | [] => ([], t)
  | cb :: cbs =>
      let (id, t) := record_command_buffer device t cb in
      let (ids, t) := record_command_buffers device cbs t in
      (id :: ids, t)
  end.

(** A refused request is answered by nothing: the status is written, but not
    sent.

    handlers_command.cpp:62-83. *)
Definition handle_AllocateCommandBuffers c : Session W :=
  let (device, c) := rd_device c in
  let refuse c := write (Writer.u32 (status_code DecodeError)) c in
  if negb (Reader.ok (reader c)) || (device =? 0) then refuse c
  else match decode_with (fun _ => read_CommandBufferAllocateInfo) c with
  | (None, c) => refuse c
  | (Some info, c) =>
      let count := VkCommandBufferAllocateInfo.commandBufferCount info in
      let '(result, cbs, w) := vkAllocateCommandBuffers device info (driver c) in
      let c := set_driver w c in
      let cbs := take (Z.to_nat count) (cbs ++ replicate (Z.to_nat count) 0) in
      let (ids, t) :=
        if result =? VK_SUCCESS then record_command_buffers device cbs (tables c)
        else (replicate (Z.to_nat count) 0, tables c) in
      reply (write (Writer.u32 (status_code Ok) ++ Writer.i32 result ++ Writer.u32 count ++
                    concat (map Writer.handle ids)) (set_tables t c))
  end.

(** handlers_command.cpp:95-98. *)
Fixpoint take_command_buffers (n : nat) c : list Z * Session W :=
  match n with
  | O => ([], c)
  | S n =>
      let (id, c) := rd Reader.handle c in
      let (cb, T) := Table.take (table (tables c) command_buffers) id in
      let t := set_table command_buffers T (tables c) in
      let t := set_command_buffer_devices (delete cb (command_buffer_devices t)) t in
      let (cbs, c) := take_command_buffers n (set_tables t c) in
      (cb :: cbs, c)
  end.

(** handlers_command.cpp:85-104. *)
Definition handle_FreeCommandBuffers c : Session W :=
  let (device, c) := rd_device c in
  let (pool_id, c) := rd Reader.handle c in
  let pool := Table.get (table (tables c) command_pools) pool_id in
  let (count, c) := rd Reader.u32 c in
  if negb (count_fits (reader c) count 8) then mark_oneway_error c
  else
    let (cbs, c) := take_command_buffers (Z.to_nat count) c in
    if negb (Reader.ok (reader c)) || (device =? 0) then mark_oneway_error c
    else set_driver (vkFreeCommandBuffers device pool cbs (driver c)) c.

(** [if (result != VK_SUCCESS) mark_oneway_error(c)]. *)
Definition checked (call : W -> Z * W) c : Session W :=
  let (result, w) := call (driver c) in
  let c := set_driver w c in if result =? VK_SUCCESS then c else mark_oneway_error c.

(** handlers_command.cpp:107-111. *)
Definition read_BeginCommandBuffer {HR : HandleResolver} : Rd (Z * VkCommandBufferBeginInfo.t) :=
  cb <- r_object hr_command_buffer ; r_ok ;! rguard (valid cb) ;!
  info <- read_CommandBufferBeginInfo ; rret (cb, info).

(** handlers_command.cpp:106-116. *)
Definition handle_BeginCommandBuffer c : Session W :=
  match decode_with (fun _ => read_BeginCommandBuffer) c with
  | (None, c) => mark_oneway_error c
  | (Some (cb, info), c) => checked (vkBeginCommandBuffer cb info) c
  end.

(** handlers_command.cpp:118-125. *)
Definition handle_EndCommandBuffer c : Session W :=
  match decode_with (fun HR => cb <- r_object hr_command_buffer ; r_ok ;! rguard (valid cb) ;! rret cb) c with
  | (None, c) => mark_oneway_error c
  | (Some cb, c) => checked (vkEndCommandBuffer cb) c
  end.

(** handlers_command.cpp:127-135. *)
Definition handle_ResetCommandBuffer c : Session W :=
  match decode_with (fun HR => cb <- r_object hr_command_buffer ; flags <- r_u32 ; r_ok ;!
                               rguard (valid cb) ;! rret (cb, flags)) c with
  | (None, c) => mark_oneway_error c
  | (Some (cb, flags), c) => checked (vkResetCommandBuffer cb flags) c
  end.

(** handlers_command.cpp:137-137. *)
Definition handle_TrimCommandPool c : Session W :=
  let (d, c) := rd_device c in
  let (pool_id, c) := rd Reader.handle c in
  let p := Table.get (table (tables c) command_pools) pool_id in
  let (flags, c) := rd Reader.u32 c in
  if negb (Reader.ok (reader c)) || (d =? 0) || (p =? 0) then mark_oneway_error c
  else if vkGetDeviceProcAddr d "vkTrimCommandPool" (driver c)
  then set_driver (vkTrimCommandPool d p flags (driver c)) c
  else mark_oneway_error c.

(** handlers_command.cpp:139-150. *)
Definition handle_ResetCommandPool c : Session W :=
  let (device, c) := rd_device c in
  let (pool_id, c) := rd Reader.handle c in
  let pool := Table.get (table (tables c) command_pools) pool_id in
  let (flags, c) := rd Reader.u32 c in
  if negb (Reader.ok (reader c)) || (device =? 0) || (pool =? 0) then reply_status DecodeError c
  else
    let (result, w) := vkResetCommandPool device pool flags (driver c) in
    reply (write (Writer.u32 (status_code Ok) ++ Writer.i32 result) (set_driver w c)).

(** handlers_command.cpp:707-715. *)
Definition lifecycle_handlers : list (string * (Session W -> Session W)) :=
  [("vkCreateCommandPool", handle_CreateCommandPool);
   ("vkDestroyCommandPool", handle_DestroyCommandPool);
   ("vkAllocateCommandBuffers", handle_AllocateCommandBuffers);
   ("vkFreeCommandBuffers", handle_FreeCommandBuffers);
   ("vkBeginCommandBuffer", handle_BeginCommandBuffer);
   ("vkEndCommandBuffer", handle_EndCommandBuffer);
   ("vkResetCommandBuffer", handle_ResetCommandBuffer);
   ("vkResetCommandPool", handle_ResetCommandPool);
   ("vkTrimCommandPool", handle_TrimCommandPool)].

(** handlers_command.cpp:716-772. *)
Definition recording_handlers : list (string * (Session W -> Session W)) :=
  [("vkCmdBeginRenderPass", issue (fun _ => handle_CmdBeginRenderPass));
   ("vkCmdNextSubpass", issue (fun _ => handle_CmdNextSubpass));
   ("vkCmdEndRenderPass", issue (fun _ => handle_CmdEndRenderPass));
   ("vkCmdBeginRenderPass2", issue_found "vkCmdBeginRenderPass2KHR" (fun _ => handle_CmdBeginRenderPass2));
   ("vkCmdNextSubpass2", issue_found "vkCmdNextSubpass2KHR" (fun _ => handle_CmdNextSubpass2));
   ("vkCmdEndRenderPass2", issue_found "vkCmdEndRenderPass2KHR" (fun _ => handle_CmdEndRenderPass2));
   ("vkCmdSetFragmentShadingRateKHR", issue_found "vkCmdSetFragmentShadingRateKHR" (fun _ => handle_CmdSetFragmentShadingRateKHR));
   ("vkCmdSetDeviceMask", issue_found "vkCmdSetDeviceMask" (fun _ => handle_CmdSetDeviceMask));
   ("vkCmdDispatchBase", issue_found "vkCmdDispatchBase" (fun _ => handle_CmdDispatchBase));
   ("vkCmdBindPipeline", issue (fun _ => handle_CmdBindPipeline));
   ("vkCmdBindDescriptorSets", issue (fun _ => handle_CmdBindDescriptorSets));
   ("vkCmdBindVertexBuffers", issue (fun _ => handle_CmdBindVertexBuffers));
   ("vkCmdBindIndexBuffer", issue (fun _ => handle_CmdBindIndexBuffer));
   ("vkCmdSetViewport", issue (fun _ => handle_CmdSetViewport));
   ("vkCmdSetScissor", issue (fun _ => handle_CmdSetScissor));
   ("vkCmdDraw", issue (fun _ => handle_CmdDraw));
   ("vkCmdDispatch", issue (fun _ => handle_CmdDispatch));
   ("vkCmdDrawIndexed", issue (fun _ => handle_CmdDrawIndexed));
   ("vkCmdDrawIndirect", issue (fun _ => handle_CmdDrawIndirect));
   ("vkCmdDrawIndexedIndirect", issue (fun _ => handle_CmdDrawIndexedIndirect));
   ("vkCmdDrawIndirectCount", issue_indexed "vkCmdDrawIndirectCount" (fun _ => handle_CmdDrawIndirectCount));
   ("vkCmdDrawIndexedIndirectCount", issue_indexed "vkCmdDrawIndexedIndirectCount" (fun _ => handle_CmdDrawIndexedIndirectCount));
   ("vkCmdDispatchIndirect", issue (fun _ => handle_CmdDispatchIndirect));
   ("vkCmdExecuteCommands", issue (fun _ => handle_CmdExecuteCommands));
   ("vkCmdBeginQuery", issue (fun _ => handle_CmdBeginQuery));
   ("vkCmdEndQuery", issue (fun _ => handle_CmdEndQuery));
   ("vkCmdResetQueryPool", issue (fun _ => handle_CmdResetQueryPool));
   ("vkCmdWriteTimestamp", issue (fun _ => handle_CmdWriteTimestamp));
   ("vkCmdCopyQueryPoolResults", issue (fun _ => handle_CmdCopyQueryPoolResults));
   ("vkCmdSetEvent", issue (fun _ => handle_CmdSetEvent));
   ("vkCmdResetEvent", issue (fun _ => handle_CmdResetEvent));
   ("vkCmdSetLineWidth", issue (fun _ => handle_CmdSetLineWidth));
   ("vkCmdSetDepthBias", issue (fun _ => handle_CmdSetDepthBias));
   ("vkCmdSetBlendConstants", issue (fun _ => handle_CmdSetBlendConstants));
   ("vkCmdSetDepthBounds", issue (fun _ => handle_CmdSetDepthBounds));
   ("vkCmdSetStencilCompareMask", issue (fun _ => handle_CmdSetStencilCompareMask));
   ("vkCmdSetStencilWriteMask", issue (fun _ => handle_CmdSetStencilWriteMask));
   ("vkCmdSetStencilReference", issue (fun _ => handle_CmdSetStencilReference));
   ("vkCmdPipelineBarrier", issue (fun _ => handle_CmdPipelineBarrier));
   ("vkCmdPipelineBarrier2", issue_indexed "vkCmdPipelineBarrier2KHR" (fun _ => handle_CmdPipelineBarrier2));
   ("vkCmdSetEvent2", issue_indexed "vkCmdSetEvent2KHR" (fun _ => handle_CmdSetEvent2));
   ("vkCmdResetEvent2", issue_indexed "vkCmdResetEvent2KHR" (fun _ => handle_CmdResetEvent2));
   ("vkCmdWaitEvents2", handle_CmdWaitEvents2);
   ("vkCmdWriteTimestamp2", handle_CmdWriteTimestamp2);
   ("vkCmdCopyBuffer", issue (fun _ => handle_CmdCopyBuffer));
   ("vkCmdCopyBufferToImage", issue (fun _ => handle_CmdCopyBufferToImage));
   ("vkCmdCopyImageToBuffer", issue (fun _ => handle_CmdCopyImageToBuffer));
   ("vkCmdCopyImage", issue (fun _ => handle_CmdCopyImage));
   ("vkCmdBlitImage", issue (fun _ => handle_CmdBlitImage));
   ("vkCmdFillBuffer", issue (fun _ => handle_CmdFillBuffer));
   ("vkCmdUpdateBuffer", issue (fun _ => handle_CmdUpdateBuffer));
   ("vkCmdClearColorImage", issue (fun _ => handle_CmdClearColorImage));
   ("vkCmdClearDepthStencilImage", issue (fun _ => handle_CmdClearDepthStencilImage));
   ("vkCmdClearAttachments", issue (fun _ => handle_CmdClearAttachments));
   ("vkCmdResolveImage", issue (fun _ => handle_CmdResolveImage));
   ("vkCmdWaitEvents", issue (fun _ => handle_CmdWaitEvents));
   ("vkCmdPushConstants", issue (fun _ => handle_CmdPushConstants))].

(** The entries of this file in the table of [find_handler]. *)
Definition command_handlers : list (string * (Session W -> Session W)) := lifecycle_handlers ++ recording_handlers.

Fixpoint find_entry {A} (entries : list (string * A)) (name : string) : option A :=
  match entries with
  | [] => None
  | (n, a) :: entries => if bool_decide (n = name) then Some a else find_entry entries name
  end.

End Handlers.
