(* ===== verification/RecordingFacts.v ===== *)
(** What the recording calls of [ClientCommands] record: which writes reach the
    set of allocations a submission plans with, and that a command buffer only
    ever names allocations its device has bound. *)

From stdpp Require Import list gmap strings.
From S2P Require Import Prelude Wire Codec CLayout VkStructs PNext VkCreateInfos VkCommands.
From S2P Require Import MarshalBase Marshal MarshalChained MarshalDescriptor MarshalSync MarshalValues.
From S2P Require Import PNextFacts Tracking ClientCommands.
Import Mark.

#[local] Set Warnings "-clear-no-such-hyp".

(** ** The application's call *)

Section Calls.
Context `{Abi}.
Variable d : Device.
Variable framebuffers : gmap Z FramebufferMetadata.
Variable to_cmd : Z -> Recording.

Definition len {A} (xs : list A) : Z := Z.of_nat (length xs).

Lemma arr_all {A} (xs : list A) : arr (Ref xs) (len xs) = xs.
Proof. unfold arr, len. by rewrite Nat2Z.id, take_ge. Qed.

(** The entry point called with this command's arguments. *)
Definition record_call (x : command) (cb : Recording) : Sent * Recording :=
  match x with
  | vkCmdBeginRenderPass info contents => CmdBeginRenderPass d framebuffers info contents cb
  | vkCmdNextSubpass contents => CmdNextSubpass contents cb
  | vkCmdEndRenderPass => CmdEndRenderPass cb
  | vkCmdBeginRenderPass2 info subpass => CmdBeginRenderPass2 d framebuffers info subpass cb
  | vkCmdNextSubpass2 b e => CmdNextSubpass2 b e cb
  | vkCmdEndRenderPass2 e => CmdEndRenderPass2 e cb
  | vkCmdSetFragmentShadingRateKHR size a b => CmdSetFragmentShadingRateKHR (Ref size) (Ref (a, b)) cb
  | vkCmdSetDeviceMask mask => CmdSetDeviceMask mask cb
  | vkCmdDispatchBase a b e x y z => CmdDispatchBase a b e x y z cb
  | vkCmdBindPipeline point pipeline => CmdBindPipeline point pipeline cb
  | vkCmdBindDescriptorSets point layout first sets offsets =>
      CmdBindDescriptorSets point layout first (len sets) (Ref sets) (len offsets) (Ref offsets) cb
  | vkCmdBindVertexBuffers first bound =>
      CmdBindVertexBuffers first (len bound) (Ref (map fst bound)) (Ref (map snd bound)) cb
  | vkCmdBindIndexBuffer buffer offset index_type => CmdBindIndexBuffer buffer offset index_type cb
  | vkCmdSetViewport first xs => CmdSetViewport first (len xs) (Ref xs) cb
  | vkCmdSetScissor first xs => CmdSetScissor first (len xs) (Ref xs) cb
  | vkCmdDraw a b e f => CmdDraw a b e f cb
  | vkCmdDispatch x y z => CmdDispatch x y z cb
  | vkCmdDrawIndexed a b e f g => CmdDrawIndexed a b e f g cb
  | vkCmdPipelineBarrier src dst flags ms bs im =>
      CmdPipelineBarrier d src dst flags (len ms) (Ref ms) (len bs) (Ref bs) (len im) (Ref im) cb
  | vkCmdCopyBuffer src dst xs => CmdCopyBuffer d src dst (len xs) (Ref xs) cb
  | vkCmdCopyBufferToImage src dst layout xs => CmdCopyBufferToImage d src dst layout (len xs) (Ref xs) cb
  | vkCmdCopyImageToBuffer src layout dst xs => CmdCopyImageToBuffer d src layout dst (len xs) (Ref xs) cb
  | vkCmdCopyImage src sl dst dl xs => CmdCopyImage d src sl dst dl (len xs) (Ref xs) cb
  | vkCmdBlitImage src sl dst dl xs filter => CmdBlitImage d src sl dst dl (len xs) (Ref xs) filter cb
  | vkCmdFillBuffer dst offset size data => CmdFillBuffer d dst offset size data cb
  | vkCmdUpdateBuffer dst offset data => CmdUpdateBuffer d dst offset (len data) (Ref data) cb
  | vkCmdClearColorImage image layout color xs => CmdClearColorImage d image layout color (len xs) (Ref xs) cb
  | vkCmdDrawIndirect a b e f => CmdDrawIndirect a b e f cb
  | vkCmdDrawIndexedIndirect a b e f => CmdDrawIndexedIndirect a b e f cb
  | vkCmdDrawIndirectCount a b e f g h => CmdDrawIndirectCount a b e f g h cb
  | vkCmdDrawIndexedIndirectCount a b e f g h => CmdDrawIndexedIndirectCount a b e f g h cb
  | vkCmdDispatchIndirect a b => CmdDispatchIndirect a b cb
  | vkCmdExecuteCommands xs => CmdExecuteCommands to_cmd (len xs) (Ref xs) cb
  | vkCmdBeginQuery p q f => CmdBeginQuery p q f cb
  | vkCmdEndQuery p q => CmdEndQuery p q cb
  | vkCmdResetQueryPool p a b => CmdResetQueryPool p a b cb
  | vkCmdWriteTimestamp s p q => CmdWriteTimestamp s p q cb
  | vkCmdCopyQueryPoolResults p a b buffer off stride flags =>
      CmdCopyQueryPoolResults d p a b buffer off stride flags cb
  | vkCmdSetEvent e s => CmdSetEvent e s cb
  | vkCmdResetEvent e s => CmdResetEvent e s cb
  | vkCmdSetLineWidth a => CmdSetLineWidth a cb
  | vkCmdSetDepthBias a b e => CmdSetDepthBias a b e cb
  | vkCmdSetBlendConstants r g b a => CmdSetBlendConstants r g b a cb
  | vkCmdSetDepthBounds a b => CmdSetDepthBounds a b cb
  | vkCmdSetStencilCompareMask a b => CmdSetStencilCompareMask a b cb
  | vkCmdSetStencilWriteMask a b => CmdSetStencilWriteMask a b cb
  | vkCmdSetStencilReference a b => CmdSetStencilReference a b cb
  | vkCmdResolveImage src sl dst dl xs => CmdResolveImage d src sl dst dl (len xs) (Ref xs) cb
  | vkCmdClearDepthStencilImage image layout value xs =>
      CmdClearDepthStencilImage d image layout (Ref value) (len xs) (Ref xs) cb
  | vkCmdClearAttachments xs ys => CmdClearAttachments (len xs) (Ref xs) (len ys) (Ref ys) cb
  | vkCmdWaitEvents es src dst ms bs im =>
      CmdWaitEvents d (len es) (Ref es) src dst (len ms) (Ref ms) (len bs) (Ref bs) (len im) (Ref im) cb
  | vkCmdPipelineBarrier2 info => CmdPipelineBarrier2 d (Ref info) cb
  | vkCmdSetEvent2 e info => CmdSetEvent2 e (Ref info) cb
  | vkCmdResetEvent2 e s => CmdResetEvent2 e s cb
  | vkCmdWaitEvents2 xs => CmdWaitEvents2 d (len xs) (Ref (map fst xs)) (Ref (map snd xs)) cb
  | vkCmdWriteTimestamp2 s p q => CmdWriteTimestamp2 s p q cb
  | vkCmdPushConstants layout flags offset values =>
      CmdPushConstants layout flags offset (len values) (Ref values) cb
  end.

End Calls.

(** ** Recording only adds *)

(** Nothing recorded is forgotten; the command buffer stays the same one. *)
Definition grows (cb cb' : Recording) : Prop :=
  rc_remote_id cb' = rc_remote_id cb /\ command_pool_id cb' = command_pool_id cb /\
  pending_writes cb ⊆ pending_writes cb' /\
  host_visible_writes (recorded cb) ⊆ host_visible_writes (recorded cb') /\
  writable_descriptor_sets (recorded cb) ⊆ writable_descriptor_sets (recorded cb') /\
  (descriptor_writes_host_visible (recorded cb) = true -> descriptor_writes_host_visible (recorded cb') = true).

#[export] Instance grows_preorder : PreOrder grows.
Proof.
  split; [intros cb; unfold grows; set_solver|].
  intros a b c (A1 & A2 & A3 & A4 & A5 & A6) (B1 & B2 & B3 & B4 & B5 & B6).
  unfold grows. rewrite B1, B2, A1, A2. split_and!; try done; set_solver.
Qed.

Create HintDb recording.

Lemma grows_refl cb : grows cb cb.
Proof. reflexivity. Qed.

Lemma grows_pending ms cb : grows cb (add_pending ms cb).
Proof. unfold grows; cbn; set_solver. Qed.

Lemma grows_visible ms cb : grows cb (add_visible ms cb).
Proof. unfold grows; cbn; set_solver. Qed.

Lemma grows_descriptors sets cb : grows cb (mark_descriptor_writes sets cb).
Proof. unfold grows; cbn; set_solver. Qed.

Lemma grows_general cb : grows cb (mark_general cb).
Proof. unfold grows; cbn; set_solver. Qed.

Lemma grows_secondary cb s : grows cb (execute_secondary cb s).
Proof. unfold grows; cbn. split_and!; try done; try set_solver. by intros ->. Qed.

Lemma grows_graphics m cb : grows cb (set_graphics m cb).
Proof. unfold grows; cbn; set_solver. Qed.

Lemma grows_compute m cb : grows cb (set_compute m cb).
Proof. unfold grows; cbn; set_solver. Qed.

#[export] Hint Resolve grows_refl grows_pending grows_visible grows_descriptors grows_general grows_secondary
  grows_graphics grows_compute : recording.

Lemma grows_fold {A} (f : Recording -> A -> Recording) xs : (forall cb x, grows cb (f cb x)) ->
  forall cb, grows cb (fold_left f xs cb).
Proof.
  intros Hf. induction xs as [|x xs IH]; intros cb; [reflexivity|]. cbn. etrans; [apply Hf|apply IH].
Qed.

(** The entry point of the call in the goal, case by case. *)
Ltac entry_cases :=
  let rec head t := lazymatch t with ?f _ => head f | _ => t end in
  lazymatch goal with |- context [snd ?t] => let h := head t in unfold h end;
  unfold dropped, sends, draws, dispatches, writes_buffer, writes_image, mark_buffer, mark_image;
  repeat case_match; cbn [snd].

Section Grows.
Context `{Abi}.
Variable d : Device.
Variable framebuffers : gmap Z FramebufferMetadata.
Variable to_cmd : Z -> Recording.

Lemma grows_resource bindings id names cb : grows cb (mark_resource d bindings id names cb).
Proof. unfold mark_resource. repeat case_match; auto with recording. Qed.

Lemma grows_memory_barrier cb b : grows cb (mark_memory_barrier cb b).
Proof. unfold mark_memory_barrier. case_if; auto with recording. Qed.

Lemma grows_buffer_barrier cb b : grows cb (mark_buffer_barrier d cb b).
Proof. unfold mark_buffer_barrier. case_if; [apply grows_resource|reflexivity]. Qed.

Lemma grows_image_barrier cb b : grows cb (mark_image_barrier d cb b).
Proof. unfold mark_image_barrier. case_if; [apply grows_resource|reflexivity]. Qed.

Lemma grows_buffer_barrier2 cb b : grows cb (mark_buffer_barrier2 d cb b).
Proof. unfold mark_buffer_barrier2. case_if; auto with recording. Qed.

Lemma grows_image_barrier2 cb b : grows cb (mark_image_barrier2 d cb b).
Proof. unfold mark_image_barrier2. case_if; auto with recording. Qed.

Lemma grows_barrier stage ms bs im cb : grows cb (mark_barrier d stage ms bs im cb).
Proof.
  unfold mark_barrier. case_if; [reflexivity|].
  etrans; [apply (grows_fold mark_memory_barrier), grows_memory_barrier|].
  etrans; [apply (grows_fold (mark_buffer_barrier d)), grows_buffer_barrier|].
  apply (grows_fold (mark_image_barrier d)), grows_image_barrier.
Qed.

Lemma grows_dependency info cb : grows cb (mark_dependency d info cb).
Proof.
  unfold mark_dependency. etrans; [|etrans].
  2: apply (grows_fold (mark_buffer_barrier2 d)), grows_buffer_barrier2.
  2: apply (grows_fold (mark_image_barrier2 d)), grows_image_barrier2.
  case_if; auto with recording.
Qed.

Lemma grows_wait_events2 items : forall out cb, grows cb (snd (wait_events2 d items out cb)).
Proof.
  induction items as [|[e info] items IH]; intros out cb; [reflexivity|]. cbn [wait_events2].
  destruct (write_DependencyInfo info) as [[] bs]; [|reflexivity].
  etrans; [apply grows_dependency|apply IH].
Qed.

Lemma grows_framebuffer info cb : grows cb (mark_framebuffer_writes d framebuffers info cb).
Proof. unfold mark_framebuffer_writes. case_match; auto with recording. Qed.

Hint Resolve grows_barrier grows_dependency grows_framebuffer : recording.

(** Every recording call only adds. *)
Lemma record_grows x cb : grows cb (snd (record_call d framebuffers to_cmd x cb)).
Proof.
  destruct x; cbn [record_call]; entry_cases; try solve [auto with recording].
  all: try match goal with Hw : wait_events2 _ ?i ?o ?c = _ |- _ =>
         pose proof (grows_wait_events2 i o c) as Hg; rewrite Hw in Hg; exact Hg end.
  apply (grows_fold (fun cb c => execute_secondary cb (to_cmd c))). auto with recording.
Qed.

End Grows.

(** A condition that one of the elements establishes and that later ones keep. *)
Lemma fold_reaches {A} (f : Recording -> A -> Recording) (P : Recording -> Prop) xs x cb :
  (forall cb x, grows cb (f cb x)) -> (forall a b, grows a b -> P a -> P b) ->
  x ∈ xs -> (forall cb', grows cb cb' -> P (f cb' x)) -> P (fold_left f xs cb).
Proof.
  intros Hg Hp. revert cb. induction xs as [|y xs IH]; intros cb Hx Hf; [by apply not_elem_of_nil in Hx|].
  cbn. apply elem_of_cons in Hx as [->|Hx].
  - eapply Hp; [by apply grows_fold|]. apply Hf. reflexivity.
  - apply IH; [done|]. intros cb' Hc. apply Hf. etrans; [apply Hg|done].
Qed.

(** ** Writes and the barriers that make them visible *)

(** A buffer or an image. *)
Inductive resource := Buffer (id : Z) | Image (id : Z).

Section Reach.
Context `{Abi}.
Variable d : Device.
Variable framebuffers : gmap Z FramebufferMetadata.
Variable to_cmd : Z -> Recording.

(** The allocation it is bound to. *)
Definition bound_to (r : resource) : option Z :=
  match r with Buffer id => buffer_bindings d !! id | Image id => image_bindings d !! id end.

(** A shader may write the resource through the descriptor. *)
Definition descriptor_writes (item : DescriptorResource) (r : resource) : Prop :=
  match r with
  | Buffer id =>
      (dr_type item = StorageBuffer \/ dr_type item = StorageBufferDynamic) /\ resource_id item = id \/
      dr_type item = StorageTexelBuffer /\ buffer_view_buffers d !! resource_id item = Some id
  | Image id => dr_type item = StorageImage /\ image_view_images d !! resource_id item = Some id
  end.

(** The set holds a descriptor through which the resource is written. *)
Definition set_writes (s : Z) (r : resource) : Prop :=
  exists resources k item, descriptor_resources d !! s = Some resources /\ resources !! k = Some item /\
    descriptor_writes item r.

(** The allocations the device writes when it executes the command itself. *)
Definition transfer_writes (x : command) : gset Z :=
  match x with
  | vkCmdBeginRenderPass info _ | vkCmdBeginRenderPass2 info _ =>
      match framebuffers !! VkRenderPassBeginInfo.framebuffer info with
      | None => ∅
      | Some f => ⋃ map (view_memory d)
                    (if imageless f then default (image_views f) (attachment_views info) else image_views f)
      end
  | vkCmdCopyBuffer _ dst _ | vkCmdCopyImageToBuffer _ _ dst _ | vkCmdFillBuffer dst _ _ _
  | vkCmdUpdateBuffer dst _ _ | vkCmdCopyQueryPoolResults _ _ _ dst _ _ _ => bound_memory (buffer_bindings d) dst
  | vkCmdCopyBufferToImage _ dst _ _ | vkCmdCopyImage _ _ dst _ _ | vkCmdBlitImage _ _ dst _ _ _
  | vkCmdClearColorImage dst _ _ _ | vkCmdResolveImage _ _ dst _ _ | vkCmdClearDepthStencilImage dst _ _ _ =>
      bound_memory (image_bindings d) dst
  | _ => ∅
  end.

(** The bind point whose descriptor sets it uses. *)
Definition uses_sets (x : command) : option Z :=
  match x with
  | vkCmdDraw _ _ _ _ | vkCmdDrawIndexed _ _ _ _ _ | vkCmdDrawIndirect _ _ _ _
  | vkCmdDrawIndexedIndirect _ _ _ _ | vkCmdDrawIndirectCount _ _ _ _ _ _
  | vkCmdDrawIndexedIndirectCount _ _ _ _ _ _ => Some VK_PIPELINE_BIND_POINT_GRAPHICS
  | vkCmdDispatch _ _ _ | vkCmdDispatchBase _ _ _ _ _ _ | vkCmdDispatchIndirect _ _ =>
      Some VK_PIPELINE_BIND_POINT_COMPUTE
  | _ => None
  end.

(** The set the call binds to the slot: only a call with a layout, no null set and
    no array beyond the limit binds anything. *)
Definition binds (point slot : Z) (x : command) : option Z :=
  match x with
  | vkCmdBindDescriptorSets p layout first sets offsets =>
      if bool_decide (p = point /\ layout <> 0 /\ len sets <= kMaxArrayElements /\ len offsets <= kMaxArrayElements /\
                      Forall (fun s => s <> 0) sets)
      then sets !! Z.to_nat (wrap32 (slot - first)) else None
  | _ => None
  end.

(** Vulkan 1.2 has two bind points. *)
Definition point_ok (point : Z) : Prop :=
  point = VK_PIPELINE_BIND_POINT_GRAPHICS \/ point = VK_PIPELINE_BIND_POINT_COMPUTE.

Definition known_point (x : command) : Prop :=
  match x with vkCmdBindDescriptorSets p _ _ _ _ => point_ok p | _ => True end.

(** The set of a slot after the calls: the last one bound there. *)
Inductive bound_set (point slot : Z) : list command -> Z -> Prop :=
  | bound_last xs x s : binds point slot x = Some s -> bound_set point slot (xs ++ [x]) s
  | bound_earlier xs x s : binds point slot x = None -> known_point x ->
      bound_set point slot xs s -> bound_set point slot (xs ++ [x]) s.

(** A barrier towards host access of all memory. *)
Definition general_barrier (x : command) : Prop :=
  match x with
  | vkCmdPipelineBarrier _ dst _ ms _ _ | vkCmdWaitEvents _ _ dst ms _ _ =>
      Z.land dst VK_PIPELINE_STAGE_HOST_BIT <> 0 /\
      exists b, b ∈ ms /\ host_access (VkMemoryBarrier.dstAccessMask b) = true
  | vkCmdPipelineBarrier2 info =>
      exists b, b ∈ arr (VkDependencyInfo.pMemoryBarriers info) (VkDependencyInfo.memoryBarrierCount info) /\
        host_barrier2 b = true
  | vkCmdWaitEvents2 items =>
      exists item b, item ∈ items /\
        b ∈ arr (VkDependencyInfo.pMemoryBarriers item.2) (VkDependencyInfo.memoryBarrierCount item.2) /\
        host_barrier2 b = true
  | _ => False
  end.

(** The resource barriers of an info. *)
Definition dependency_on (info : VkDependencyInfo.t) (r : resource) : Prop :=
  match r with
  | Buffer id =>
      exists b, b ∈ arr (VkDependencyInfo.pBufferMemoryBarriers info) (VkDependencyInfo.bufferMemoryBarrierCount info) /\
        VkBufferMemoryBarrier2.buffer b = id /\
        host_masks (VkBufferMemoryBarrier2.dstStageMask b) (VkBufferMemoryBarrier2.dstAccessMask b) = true
  | Image id =>
      exists b, b ∈ arr (VkDependencyInfo.pImageMemoryBarriers info) (VkDependencyInfo.imageMemoryBarrierCount info) /\
        VkImageMemoryBarrier2.image b = id /\
        host_masks (VkImageMemoryBarrier2.dstStageMask b) (VkImageMemoryBarrier2.dstAccessMask b) = true
  end.

(** A barrier towards host access of one resource. *)
Definition barrier_on (x : command) (r : resource) : Prop :=
  match x with
  | vkCmdPipelineBarrier _ dst _ _ bs im | vkCmdWaitEvents _ _ dst _ bs im =>
      Z.land dst VK_PIPELINE_STAGE_HOST_BIT <> 0 /\
      match r with
      | Buffer id => exists b, b ∈ bs /\ VkBufferMemoryBarrier.buffer b = id /\
                       host_access (VkBufferMemoryBarrier.dstAccessMask b) = true
      | Image id => exists b, b ∈ im /\ VkImageMemoryBarrier.image b = id /\
                      host_access (VkImageMemoryBarrier.dstAccessMask b) = true
      end
  | vkCmdPipelineBarrier2 info => dependency_on info r
  | vkCmdWaitEvents2 items => exists item, item ∈ items /\ dependency_on item.2 r
  | _ => False
  end.

Abbreviation record x cb := (record_call d framebuffers to_cmd x cb).

(** The state after a sequence of calls. *)
Definition record_all (xs : list command) (cb : Recording) : Recording :=
  fold_left (fun cb x => snd (record x cb)) xs cb.

Lemma record_all_grows xs cb : grows cb (record_all xs cb).
Proof. apply (grows_fold (fun cb x => snd (record x cb))). intros. apply record_grows. Qed.

Lemma record_all_app xs ys cb : record_all (xs ++ ys) cb = record_all ys (record_all xs cb).
Proof. apply fold_left_app. Qed.

(** *** Writes are noted *)

Lemma transfer_noted x cb : fst (record x cb) <> None ->
  transfer_writes x ⊆ pending_writes (snd (record x cb)).
Proof.
  destruct x; cbn [transfer_writes]; try set_solver; cbn [record_call]; try (cbn; set_solver).
  all: unfold CmdBeginRenderPass, CmdBeginRenderPass2; case_match; case_match; try done; intros _; cbn [snd].
  all: unfold mark_framebuffer_writes; case_match; set_solver.
Qed.

(** The sets bound at a point, as the recorder keeps them. *)
Definition bound_sets (point : Z) (cb : Recording) : gmap Z Z :=
  if point =? VK_PIPELINE_BIND_POINT_COMPUTE then bound_compute_sets cb else bound_graphics_sets cb.

Lemma descriptors_noted x point cb : uses_sets x = Some point ->
  map_img (bound_sets point cb) ⊆ writable_descriptor_sets (recorded (snd (record x cb))).
Proof. destruct x; try done; intros [= <-]; cbn; set_solver. Qed.

Lemma bind_sets_lookup first sets slot : Z.of_nat (length sets) <= 2 ^ 20 -> is_u32 slot ->
  forall bound, bind_sets first sets bound !! slot =
    match sets !! Z.to_nat (wrap32 (slot - first)) with Some s => Some s | None => bound !! slot end.
Proof.
  intros Hl Hs. assert (forall (sets : list Z) (k : nat) (bound : gmap Z Z), Z.of_nat k + Z.of_nat (length sets) <= 2 ^ 20 ->
    fold_left (fun bound item => <[item.1 := item.2]> bound)
      (imap (fun i id => (wrap32 (first + Z.of_nat (k + i)), id)) sets) bound !! slot =
    match (if decide (Z.of_nat k <= wrap32 (slot - first)) then sets !! (Z.to_nat (wrap32 (slot - first)) - k)%nat else None) with
    | Some s => Some s | None => bound !! slot end) as Hgen.
  2: { intros bound. etrans; [exact (Hgen sets 0%nat bound ltac:(lia))|]. rewrite Nat.sub_0_r.
       rewrite decide_True; [done|]. pose proof (wrap32_range (slot - first)) as Hw. unfold is_u32 in Hw. lia. }
  clear Hl sets. induction sets as [|x sets IH]; intros k bound Hl; cbn [imap fold_left].
  { by case_decide. }
  pose proof (IH (S k) (<[wrap32 (first + Z.of_nat (k + 0)) := x]> bound)) as HI.
  assert (imap ((fun i id => (wrap32 (first + Z.of_nat (k + i)), id)) ∘ S) sets =
          imap (fun i id => (wrap32 (first + Z.of_nat (S k + i)), id)) sets) as ->.
  { apply imap_ext. intros i y _. cbn. do 3 f_equal. lia. }
  cbn [fst snd]. rewrite HI by (cbn [length] in Hl; lia). clear HI IH.
  assert (wrap32 (slot - first) = Z.of_nat k <-> wrap32 (first + Z.of_nat (k + 0)) = slot) as Heq.
  { cbn [length] in Hl. unfold wrap32, is_u32 in *. rewrite Nat.add_0_r. split; intros E.
    - assert (slot = (first + (slot - first) mod 4294967296) mod 4294967296) as Ex.
      { rewrite Zplus_mod_idemp_r. rewrite Z.mod_small; [lia|]. split; lia. }
      rewrite E in Ex. done.
    - rewrite <- E. rewrite Zminus_mod_idemp_l. replace (first + Z.of_nat k - first) with (Z.of_nat k) by lia.
      apply Z.mod_small. lia. }
  destruct (decide (wrap32 (slot - first) = Z.of_nat k)) as [E|E].
  - rewrite (proj1 Heq E), lookup_insert_eq. rewrite decide_False by lia. rewrite decide_True by lia.
    rewrite E. by replace (Z.to_nat (Z.of_nat k) - k)%nat with 0%nat by lia.
  - rewrite lookup_insert_ne by tauto. destruct (decide (Z.of_nat k <= wrap32 (slot - first))) as [Hk|Hk].
    + rewrite decide_True by lia.
      by replace (Z.to_nat (wrap32 (slot - first)) - k)%nat with (S (Z.to_nat (wrap32 (slot - first)) - S k))%nat by lia.
    + by rewrite decide_False by lia.
Qed.

(** Nothing else changes what is bound. *)
Definition same_sets (a b : Recording) : Prop := forall point, bound_sets point b = bound_sets point a.

Lemma same_sets_trans a b c : same_sets a b -> same_sets b c -> same_sets a c.
Proof. intros H1 H2 p. by rewrite H2, H1. Qed.

Lemma same_sets_fold {A} (f : Recording -> A -> Recording) xs : (forall cb x, same_sets cb (f cb x)) ->
  forall cb, same_sets cb (fold_left f xs cb).
Proof. intros Hf. induction xs as [|x xs IH]; intros cb; [done|]. cbn. eapply same_sets_trans; [apply Hf|apply IH]. Qed.

Lemma same_sets_resource bindings id names cb : same_sets cb (mark_resource d bindings id names cb).
Proof. unfold mark_resource. by repeat case_match. Qed.

Lemma same_sets_barrier stage ms bs im cb : same_sets cb (mark_barrier d stage ms bs im cb).
Proof.
  unfold mark_barrier. case_if; [done|].
  assert (same_sets cb (fold_left mark_memory_barrier ms cb)) as H1.
  { apply (same_sets_fold mark_memory_barrier). intros c b. unfold mark_memory_barrier. by case_if. }
  eapply same_sets_trans; [exact H1|]. eapply same_sets_trans.
  - apply (same_sets_fold (mark_buffer_barrier d)). intros c b. unfold mark_buffer_barrier.
    case_if; [apply same_sets_resource|done].
  - apply (same_sets_fold (mark_image_barrier d)). intros c b. unfold mark_image_barrier.
    case_if; [apply same_sets_resource|done].
Qed.

Lemma same_sets_dependency info cb : same_sets cb (mark_dependency d info cb).
Proof.
  unfold mark_dependency. cbv zeta.
  set (cb1 := if existsb host_barrier2 _ then mark_general cb else cb). assert (same_sets cb cb1) as H1 by (unfold cb1; by case_if).
  eapply same_sets_trans; [exact H1|]. eapply same_sets_trans.
  - apply (same_sets_fold (mark_buffer_barrier2 d)). intros c b. unfold mark_buffer_barrier2. by case_if.
  - apply (same_sets_fold (mark_image_barrier2 d)). intros c b. unfold mark_image_barrier2. by case_if.
Qed.

Lemma same_sets_wait_events2 items : forall out cb, same_sets cb (snd (wait_events2 d items out cb)).
Proof.
  induction items as [|[e info] items IH]; intros out cb; [done|]. cbn [wait_events2].
  destruct (write_DependencyInfo info) as [[] bs]; [|done].
  eapply same_sets_trans; [apply same_sets_dependency|apply IH].
Qed.

Lemma record_same_sets x cb : match x with vkCmdBindDescriptorSets _ _ _ _ _ => False | _ => True end ->
  same_sets cb (snd (record x cb)).
Proof.
  destruct x; try done; intros _; cbn [record_call]; entry_cases; try done.
  all: try first [apply same_sets_barrier|apply same_sets_dependency
                 |unfold mark_framebuffer_writes; by case_match
                 |by apply (same_sets_fold (fun cb c => execute_secondary cb (to_cmd c)))].
  all: match goal with Hw : wait_events2 _ ?i ?o ?c = _ |- _ =>
         pose proof (same_sets_wait_events2 i o c) as Hg; rewrite Hw in Hg; exact Hg end.
Qed.

Lemma bound_sets_step x point slot cb : point_ok point -> is_u32 slot ->
  known_point x \/ binds point slot x <> None ->
  bound_sets point (snd (record x cb)) !! slot =
    match binds point slot x with Some s => Some s | None => bound_sets point cb !! slot end.
Proof.
  intros Hp Hs Hk. destruct x.
  all: try match goal with |- context [bound_sets _ (snd (record_call _ _ _ ?x _))] =>
         exact (f_equal (lookup slot) (record_same_sets x cb I point)) end.
  match goal with |- context [vkCmdBindDescriptorSets ?p ?l ?f ?ss ?os] =>
    rename p into point'; rename l into layout0; rename f into first0; rename ss into sets0; rename os into offsets0 end.
  cbn [record_call binds]. unfold CmdBindDescriptorSets. rewrite !arr_all. unfold missing. cbn [is_null].
  rewrite !andb_false_r, !orb_false_r.
  destruct ((layout0 =? 0) || (kMaxArrayElements <? len sets0) || (kMaxArrayElements <? len offsets0)
            || existsb (fun set => set =? 0) sets0) eqn:E.
  - rewrite bool_decide_false; [done|]. intros (_ & H1 & H2 & H3 & H4).
    rewrite !orb_true_iff, Z.eqb_eq, !Z.ltb_lt, existsb_exists in E.
    destruct E as [[[E|E]|E]|(x & Hx & E)]; [done|lia|lia|]. apply list_elem_of_In in Hx.
    rewrite Forall_forall in H4. apply (H4 x Hx). by apply Z.eqb_eq.
  - rewrite !orb_false_iff, Z.eqb_neq, !Z.ltb_ge in E. destruct E as [[[E1 E2] E3] E4].
    assert (Forall (fun s => s <> 0) sets0) as E5.
    { apply Forall_forall. intros x Hx ->.
      assert (existsb (fun set => set =? 0) sets0 = true); [|congruence].
      apply existsb_exists. exists 0. split; [by apply list_elem_of_In|done]. }
    assert (Z.of_nat (length sets0) <= 2 ^ 20) as Hlen by exact E2.
    cbn [known_point binds] in Hk.
    assert (point_ok point') as Hp'.
    { destruct Hk as [|Hk]; [done|]. case_bool_decide as Hb; [|done]. by destruct Hb as (-> & _). }
    cbn [snd]. unfold bound_sets.
    destruct (decide (point' = point)) as [->|Hne].
    + rewrite bool_decide_true by done.
      destruct (point =? VK_PIPELINE_BIND_POINT_COMPUTE); cbn; by apply bind_sets_lookup.
    + rewrite bool_decide_false by (by intros (? & _)).
      destruct Hp as [-> | ->], Hp' as [-> | ->]; done.
Qed.

Lemma bound_set_recorded point slot base info xs s : point_ok point -> is_u32 slot -> bound_set point slot xs s ->
  bound_sets point (record_all xs (snd (BeginCommandBuffer info base))) !! slot = Some s.
Proof.
  intros Hp Hs. induction 1 as [xs x s Hb|xs x s Hb Hk _ IH]; rewrite record_all_app; cbn [record_all fold_left].
  - rewrite bound_sets_step by (done || right; congruence). by rewrite Hb.
  - rewrite bound_sets_step by (done || by left). by rewrite Hb.
Qed.


(** *** Barriers take effect *)

(** Everything pending is visible, and everything written through descriptors. *)
Definition all_visible (ps : gset Z) (cb : Recording) : Prop :=
  ps ⊆ host_visible_writes (recorded cb) /\ descriptor_writes_host_visible (recorded cb) = true.

Lemma all_visible_grows ps a b : grows a b -> all_visible ps a -> all_visible ps b.
Proof. intros (_ & _ & _ & Hv & _ & Hf) [H1 H2]. split; [set_solver|auto]. Qed.

Lemma general_visible ps cb : ps ⊆ pending_writes cb -> all_visible ps (mark_general cb).
Proof. intros Hp. split; [cbn; set_solver|done]. Qed.

Lemma barrier_general dst ms bs im cb : Z.land dst VK_PIPELINE_STAGE_HOST_BIT <> 0 ->
  (exists b, b ∈ ms /\ host_access (VkMemoryBarrier.dstAccessMask b) = true) ->
  all_visible (pending_writes cb) (mark_barrier d dst ms bs im cb).
Proof.
  intros Hd (b & Hb & Ha). unfold mark_barrier. rewrite (proj2 (Z.eqb_neq _ _) Hd).
  eapply all_visible_grows; [apply (grows_fold (mark_image_barrier d)), grows_image_barrier|].
  eapply all_visible_grows; [apply (grows_fold (mark_buffer_barrier d)), grows_buffer_barrier|].
  apply (fold_reaches _ _ _ b); [apply grows_memory_barrier|apply all_visible_grows|done|].
  intros cb' (_ & _ & Hp & _). unfold mark_memory_barrier. rewrite Ha. by apply general_visible.
Qed.

Lemma dependency_general info ps cb : ps ⊆ pending_writes cb ->
  (exists b, b ∈ arr (VkDependencyInfo.pMemoryBarriers info) (VkDependencyInfo.memoryBarrierCount info) /\
     host_barrier2 b = true) ->
  all_visible ps (mark_dependency d info cb).
Proof.
  intros Hp (b & Hb & Ha). unfold mark_dependency.
  eapply all_visible_grows; [apply (grows_fold (mark_image_barrier2 d)), grows_image_barrier2|].
  eapply all_visible_grows; [apply (grows_fold (mark_buffer_barrier2 d)), grows_buffer_barrier2|].
  replace (existsb host_barrier2 _) with true; [by apply general_visible|].
  symmetry. apply existsb_exists. exists b. split; [by apply list_elem_of_In|done].
Qed.

(** A wait that is sent has marked every event. *)
Lemma wait_events2_reaches (P : Recording -> Prop) item items : forall out cb,
  fst (wait_events2 d items out cb) <> None -> (forall a b, grows a b -> P a -> P b) -> item ∈ items ->
  (forall cb', grows cb cb' -> P (mark_dependency d item.2 cb')) -> P (snd (wait_events2 d items out cb)).
Proof.
  induction items as [|[e info] items IH]; intros out cb Hs Hp Hi Hf; [by apply not_elem_of_nil in Hi|].
  cbn [wait_events2] in *. destruct (write_DependencyInfo info) as [[] bs]; [|done].
  apply elem_of_cons in Hi as [->|Hi].
  - eapply Hp; [apply grows_wait_events2|]. apply (Hf cb). reflexivity.
  - apply IH; [done..|]. intros cb' Hc. apply Hf. etrans; [apply grows_dependency|done].
Qed.

Lemma wait_events2_works items (P : Recording -> Prop) item cb :
  fst (CmdWaitEvents2 d (len items) (Ref (map fst items)) (Ref (map snd items)) cb) <> None ->
  (forall a b, grows a b -> P a -> P b) -> item ∈ items ->
  (forall cb', grows cb cb' -> P (mark_dependency d item.2 cb')) ->
  P (snd (CmdWaitEvents2 d (len items) (Ref (map fst items)) (Ref (map snd items)) cb)).
Proof.
  unfold CmdWaitEvents2. case_if; [done|]. unfold arr, len.
  rewrite Nat2Z.id, !take_ge, zip_fst_snd by (by rewrite length_map). intros Hs Hp Hi Hf.
  pose proof (wait_events2_reaches P item items (Writer.u32 (Z.of_nat (length items))) cb) as Hr.
  destruct (wait_events2 _ _ _ _) as [[args|] cb']; cbn in *; [|done]. by apply Hr.
Qed.

Lemma general_works x cb : fst (record x cb) <> None -> general_barrier x ->
  all_visible (pending_writes cb) (snd (record x cb)).
Proof.
  destruct x; try done; cbn [record_call general_barrier]; intros Hs Hb.
  - destruct Hb. cbn [snd CmdPipelineBarrier]. rewrite !arr_all. by apply barrier_general.
  - destruct Hb. cbn [snd CmdWaitEvents]. rewrite !arr_all. by apply barrier_general.
  - unfold CmdPipelineBarrier2 in *. case_match. case_match; [|done]. by apply dependency_general.
  - destruct Hb as (item & b & Hi & Hb). apply (wait_events2_works _ _ item); [done|apply all_visible_grows|done|].
    intros cb' (_ & _ & Hp & _). apply dependency_general; [done|by exists b].
Qed.

(** What a barrier on the resource makes visible. *)
Definition written (r : resource) (m : Z) (cb : Recording) : Prop :=
  m ∈ pending_writes cb \/ exists s, s ∈ writable_descriptor_sets (recorded cb) /\ set_writes s r.

Definition visible (m : Z) (cb : Recording) : Prop := m ∈ host_visible_writes (recorded cb).

Lemma written_grows r m a b : grows a b -> written r m a -> written r m b.
Proof. intros (_ & _ & Hp & _ & Hw & _) [Hm|(s & Hs & Hr)]; [left; set_solver|right]. exists s. set_solver. Qed.

Lemma visible_grows m a b : grows a b -> visible m a -> visible m b.
Proof. unfold visible. intros (_ & _ & _ & Hv & _). set_solver. Qed.

Lemma set_names_true names cb s resources k item : s ∈ writable_descriptor_sets (recorded cb) ->
  descriptor_resources d !! s = Some resources -> resources !! k = Some item -> names item = true ->
  set_names d names cb = true.
Proof.
  intros Hs Hr Hk Hn. apply existsb_exists. exists s.
  split; [apply list_elem_of_In, elem_of_elements, Hs|]. rewrite Hr. apply existsb_exists.
  exists (k, item). split; [by apply list_elem_of_In, elem_of_map_to_list|done].
Qed.

(** The recorder's test of a descriptor. *)
Definition names_resource (r : resource) : DescriptorResource -> bool :=
  match r with Buffer id => descriptor_names_buffer d id | Image id => descriptor_names_image d id end.

Lemma descriptor_writes_names item r : descriptor_writes item r -> names_resource r item = true.
Proof.
  destruct r as [id|id]; cbn; unfold descriptor_names_buffer, descriptor_names_image.
  - intros [[[-> | ->] ->]|[-> Hv]]; [apply Z.eqb_refl..|by apply bool_decide_eq_true].
  - intros [-> Hv]. by apply bool_decide_eq_true.
Qed.

(** The allocation of a descriptor's resource is what a submission plans with. *)
Lemma descriptor_writes_memory item r m : descriptor_writes item r -> bound_to r = Some m ->
  Tracking.resource_memory d item = m.
Proof.
  unfold Tracking.resource_memory. destruct r as [id|id]; cbn.
  - intros [[[-> | ->] ->]|[-> ->]] ->; done.
  - by intros [-> ->] ->.
Qed.

Lemma set_writes_memory s r m : set_writes s r -> bound_to r = Some m -> m <> 0 -> m ∈ Tracking.set_memory d s.
Proof.
  intros (resources & k & item & Hr & Hk & Hw) Hb Hm. unfold Tracking.set_memory. rewrite Hr.
  apply elem_of_list_to_set, list_elem_of_filter. split; [done|]. apply list_elem_of_fmap.
  exists (k, item). split; [symmetry; by eapply descriptor_writes_memory|by apply elem_of_map_to_list].
Qed.

Lemma resource_marked r m cb : bound_to r = Some m -> written r m cb ->
  visible m (match r with
             | Buffer id => mark_resource d (buffer_bindings d) id (descriptor_names_buffer d id) cb
             | Image id => mark_resource d (image_bindings d) id (descriptor_names_image d id) cb
             end).
Proof.
  intros Hb Hw. destruct r as [id|id]; cbn in Hb; unfold mark_resource; rewrite Hb.
  all: replace (bool_decide _ || _) with true; [unfold visible; cbn; set_solver|].
  all: symmetry; apply orb_true_iff; destruct Hw as [Hm|(s & Hs & rs & k & item & H1 & H2 & H3)];
    [left; by apply bool_decide_eq_true|right; eapply set_names_true; [done..|by apply (descriptor_writes_names _ (Buffer id)) || by apply (descriptor_writes_names _ (Image id))]].
Qed.

Lemma barrier_visible dst ms bs im r m cb : Z.land dst VK_PIPELINE_STAGE_HOST_BIT <> 0 ->
  match r with
  | Buffer id => exists b, b ∈ bs /\ VkBufferMemoryBarrier.buffer b = id /\
                   host_access (VkBufferMemoryBarrier.dstAccessMask b) = true
  | Image id => exists b, b ∈ im /\ VkImageMemoryBarrier.image b = id /\
                  host_access (VkImageMemoryBarrier.dstAccessMask b) = true
  end -> bound_to r = Some m -> written r m cb -> visible m (mark_barrier d dst ms bs im cb).
Proof.
  intros Hd Hr Hb Hw. unfold mark_barrier. rewrite (proj2 (Z.eqb_neq _ _) Hd).
  pose proof (grows_fold mark_memory_barrier ms grows_memory_barrier cb) as G1.
  destruct r as [id|id]; destruct Hr as (b & Hin & <- & Ha).
  - eapply visible_grows; [apply (grows_fold (mark_image_barrier d)), grows_image_barrier|].
    apply (fold_reaches _ _ _ b); [apply grows_buffer_barrier|apply visible_grows|done|].
    intros cb' Hc. unfold mark_buffer_barrier. rewrite Ha. apply (resource_marked (Buffer _)); [done|].
    eapply written_grows; [|exact Hw]. etrans; [exact G1|exact Hc].
  - apply (fold_reaches _ _ _ b); [apply grows_image_barrier|apply visible_grows|done|].
    intros cb' Hc. unfold mark_image_barrier. rewrite Ha. apply (resource_marked (Image _)); [done|].
    eapply written_grows; [|exact Hw]. etrans; [exact G1|].
    etrans; [apply (grows_fold (mark_buffer_barrier d)), grows_buffer_barrier|exact Hc].
Qed.

Lemma dependency_visible info r m cb : dependency_on info r -> bound_to r = Some m ->
  visible m (mark_dependency d info cb).
Proof.
  intros Hr Hb. unfold mark_dependency. destruct r as [id|id]; destruct Hr as (b & Hin & <- & Ha).
  - eapply visible_grows; [apply (grows_fold (mark_image_barrier2 d)), grows_image_barrier2|].
    apply (fold_reaches _ _ _ b); [apply grows_buffer_barrier2|apply visible_grows|done|].
    intros cb' _. unfold mark_buffer_barrier2, bound_memory. cbn in Hb. rewrite Ha, Hb.
    unfold visible; cbn; set_solver.
  - apply (fold_reaches _ _ _ b); [apply grows_image_barrier2|apply visible_grows|done|].
    intros cb' _. unfold mark_image_barrier2, bound_memory. cbn in Hb. rewrite Ha, Hb.
    unfold visible; cbn; set_solver.
Qed.

Lemma resource_works x r m cb : fst (record x cb) <> None -> barrier_on x r -> bound_to r = Some m ->
  written r m cb -> visible m (snd (record x cb)).
Proof.
  destruct x; try done; cbn [record_call barrier_on]; intros Hs Hr Hb Hw.
  - destruct Hr. cbn [snd CmdPipelineBarrier]. rewrite !arr_all. by eapply barrier_visible.
  - destruct Hr. cbn [snd CmdWaitEvents]. rewrite !arr_all. by eapply barrier_visible.
  - unfold CmdPipelineBarrier2 in *. case_match. case_match; [|done]. by eapply dependency_visible.
  - destruct Hr as (item & Hi & Hr). apply (wait_events2_works _ _ item); [done|apply visible_grows|done|].
    intros cb' _. by eapply dependency_visible.
Qed.

(** *** Recorded writes reach a submission *)

(** What a command writes: an allocation it names itself, or whatever a descriptor
    set holds. *)
Inductive effect := Transfer (m : Z) | Through (s : Z).

(** The call is not dropped. *)
Definition sent_after (xs : list command) (w : command) (start : Recording) : Prop :=
  fst (record w (record_all xs start)) <> None.

(** The command, recorded after these calls since the begin of its command buffer,
    writes when it is executed; a command that executes secondary command buffers
    writes what is recorded in them. *)
Inductive performs : list command -> command -> effect -> Prop :=
  | performs_itself xs w m : m ∈ transfer_writes w -> performs xs w (Transfer m)
  | performs_through xs w point slot s : uses_sets w = Some point -> is_u32 slot -> bound_set point slot xs s ->
      performs xs w (Through s)
  | performs_secondary xs cs c info base ys w zs e : c ∈ cs ->
      to_cmd c = record_all (ys ++ [w] ++ zs) (snd (BeginCommandBuffer info base)) ->
      sent_after ys w (snd (BeginCommandBuffer info base)) -> performs ys w e ->
      performs xs (vkCmdExecuteCommands cs) e.

(** The barrier makes the allocation [m], so written, available to the host. *)
Inductive made_available (b : command) (m : Z) : effect -> Prop :=
  | general_transfer : general_barrier b -> made_available b m (Transfer m)
  | general_descriptor s r : general_barrier b -> set_writes s r -> bound_to r = Some m -> m <> 0 ->
      made_available b m (Through s)
  | resource_transfer r : barrier_on b r -> bound_to r = Some m -> made_available b m (Transfer m)
  | resource_descriptor r s : barrier_on b r -> bound_to r = Some m -> set_writes s r -> made_available b m (Through s).

(** Somewhere in the calls since its begin, or within a secondary command buffer it
    executes, the command buffer writes [m] and then makes it available to the host. *)
Inductive host_reads : list command -> VkCommandBufferBeginInfo.t -> Recording -> Z -> Prop :=
  | reads_here xs w ys b zs info base m e :
      let start := snd (BeginCommandBuffer info base) in
      sent_after xs w start -> performs xs w e -> sent_after (xs ++ [w] ++ ys) b start -> made_available b m e ->
      host_reads (xs ++ [w] ++ ys ++ [b] ++ zs) info base m
  | reads_secondary xs cs c zs info base ys info' base' m : c ∈ cs ->
      to_cmd c = record_all ys (snd (BeginCommandBuffer info' base')) -> host_reads ys info' base' m ->
      host_reads (xs ++ [vkCmdExecuteCommands cs] ++ zs) info base m.

(** The recorder has noted the effect. *)
Definition noted (e : effect) (cb : Recording) : Prop :=
  match e with
  | Transfer m => m ∈ pending_writes cb
  | Through s => s ∈ writable_descriptor_sets (recorded cb)
  end.

Lemma noted_grows e a b : grows a b -> noted e a -> noted e b.
Proof. intros (_ & _ & Hp & _ & Hw & _). destruct e; cbn; set_solver. Qed.

Lemma secondary_merged cs c cb (P : Recording -> Prop) : c ∈ cs -> (forall a b, grows a b -> P a -> P b) ->
  (forall cb', P (execute_secondary cb' (to_cmd c))) -> P (snd (record (vkCmdExecuteCommands cs) cb)).
Proof.
  intros Hc Hg Hm. cbn [record_call CmdExecuteCommands snd]. rewrite arr_all.
  apply (fold_reaches (fun cb c => execute_secondary cb (to_cmd c)) P cs c); [|done|done|by intros cb' _].
  intros. apply grows_secondary.
Qed.

Lemma performs_noted xs w e : performs xs w e -> forall info base,
  sent_after xs w (snd (BeginCommandBuffer info base)) ->
  noted e (snd (record w (record_all xs (snd (BeginCommandBuffer info base))))).
Proof.
  induction 1 as [xs w m Hm|xs w point slot s Hu Hs Hb|xs cs c info' base' ys w zs e Hc Hto Hsent Hp IH];
    intros info base Hsn.
  - by apply transfer_noted.
  - assert (point_ok point) as Hp by (destruct w; try done; injection Hu as <-; first [by left|by right]).
    apply (bound_set_recorded point slot base info xs s Hp Hs) in Hb.
    apply (descriptors_noted _ _ _ Hu). by eapply (elem_of_map_img_2 (SA := gset Z)).
  - apply (secondary_merged cs c); [done|intros; by eapply noted_grows|]. intros cb'.
    specialize (IH info' base' Hsent).
    assert (noted e (to_cmd c)) as Hn.
    { rewrite Hto, record_all_app. eapply noted_grows; [|exact IH].
      apply (record_all_grows zs (snd (record w (record_all ys (snd (BeginCommandBuffer info' base')))))). }
    destruct e; cbn in *; set_solver.
Qed.

Lemma available_planned b m e cb zs : fst (record b cb) <> None -> noted e cb -> made_available b m e ->
  m ∈ Tracking.command_writes d (recorded (record_all zs (snd (record b cb)))).
Proof.
  intros Hb Hn Ha. pose proof (record_all_grows zs (snd (record b cb))) as Gz.
  pose proof (record_grows d framebuffers to_cmd b cb) as Gb. unfold Tracking.command_writes.
  destruct Ha as [Hg|s r Hg Hsr Hbd Hm|r Hr Hbd|r s Hr Hbd Hsr]; cbn [noted] in Hn.
  - destruct (all_visible_grows _ _ _ Gz (general_works b cb Hb Hg)) as [Hv _]. set_solver.
  - destruct (all_visible_grows _ _ _ Gz (general_works b cb Hb Hg)) as [_ ->].
    apply elem_of_union_r, elem_of_union_list. exists (Tracking.set_memory d s).
    split; [|by eapply set_writes_memory]. apply list_elem_of_fmap. exists s. split; [done|].
    apply elem_of_elements. destruct Gb as (_ & _ & _ & _ & W2 & _), Gz as (_ & _ & _ & _ & W3 & _). set_solver.
  - apply elem_of_union_l. eapply visible_grows; [exact Gz|]. eapply resource_works; [done..|]. by left.
  - apply elem_of_union_l. eapply visible_grows; [exact Gz|]. eapply resource_works; [done..|].
    right. by exists s.
Qed.

(** What a submission plans only grows as more is recorded. *)
Lemma planned_grows m a b : grows a b ->
  m ∈ Tracking.command_writes d (recorded a) -> m ∈ Tracking.command_writes d (recorded b).
Proof.
  intros (_ & _ & _ & Hv & Hw & Hf). unfold Tracking.command_writes. intros [Hm|Hm]%elem_of_union; [set_solver|].
  apply elem_of_union_r. destruct (descriptor_writes_host_visible (recorded a)); [|set_solver]. rewrite Hf by done.
  apply elem_of_union_list in Hm as (X & HX & Hm). apply list_elem_of_fmap in HX as (s & -> & Hs).
  apply elem_of_union_list. exists (Tracking.set_memory d s). split; [|done]. apply list_elem_of_fmap.
  exists s. split; [done|]. apply elem_of_elements in Hs. apply elem_of_elements. set_solver.
Qed.

Lemma planned_secondary m cb s : m ∈ Tracking.command_writes d (recorded s) ->
  m ∈ Tracking.command_writes d (recorded (execute_secondary cb s)).
Proof.
  unfold Tracking.command_writes. cbn. intros [Hm|Hm]%elem_of_union; [set_solver|].
  apply elem_of_union_r. destruct (descriptor_writes_host_visible (recorded s)); [|set_solver].
  rewrite orb_true_r. apply elem_of_union_list in Hm as (X & HX & Hm). apply list_elem_of_fmap in HX as (i & -> & Hi).
  apply elem_of_union_list. exists (Tracking.set_memory d i). split; [|done]. apply list_elem_of_fmap.
  exists i. split; [done|]. apply elem_of_elements in Hi. apply elem_of_elements. set_solver.
Qed.

(** C24: A write the device performs and then makes available to the host is
    never missed. Take the calls recorded on a command buffer since its begin.
    When one of them writes the allocation [m], by itself (a transfer, a clear, a
    render pass), through a storage descriptor of a set that the last
    vkCmdBindDescriptorSets of the slot bound for draws or for dispatches, or by
    executing a secondary command buffer that does so, and a later barrier towards
    the host covers the write; or when both happen within a secondary command
    buffer it executes; then whatever else is recorded, a submission of the
    command buffer plans [m] among its writes. Bindings, views and descriptors are
    those of the time of the recording. *)
Theorem recorded_writes_reach_host xs info base m : host_reads xs info base m ->
  m ∈ Tracking.command_writes d (recorded (record_all xs (snd (BeginCommandBuffer info base)))).
Proof.
  induction 1 as [xs w ys b zs info base m e start Hw Hp Hb Ha|xs cs c zs info base ys info' base' m Hc Hto _ IH].
  - fold start.
    assert (record_all (xs ++ [w] ++ ys ++ [b] ++ zs) start =
            record_all zs (snd (record b (record_all ys (snd (record w (record_all xs start)))))))
      as -> by (by rewrite !record_all_app).
    apply (available_planned b m e); [|eapply noted_grows; [apply record_all_grows|by apply performs_noted]|done].
    unfold sent_after in Hb. by rewrite record_all_app in Hb.
  - set (start := snd (BeginCommandBuffer info base)).
    assert (record_all (xs ++ [vkCmdExecuteCommands cs] ++ zs) start =
            record_all zs (snd (record (vkCmdExecuteCommands cs) (record_all xs start))))
      as -> by (by rewrite !record_all_app).
    eapply planned_grows; [apply record_all_grows|].
    apply (secondary_merged cs c _ (fun cb => m ∈ Tracking.command_writes d (recorded cb))); [done|intros; by eapply planned_grows|].
    intros cb'. apply planned_secondary. by rewrite Hto.
Qed.

End Reach.

(** ** Only bound allocations *)
Section Typed.
Context `{Abi}.
Variable d : Device.
Variable framebuffers : gmap Z FramebufferMetadata.
Variable to_cmd : Z -> Recording.

(** The allocations some buffer or image is bound to. *)
Definition bound_memories : gset Z := map_img (buffer_bindings d) ∪ map_img (image_bindings d).

(** A command buffer names bound allocations only. *)
Definition well_typed (cb : Recording) : Prop :=
  pending_writes cb ⊆ bound_memories /\ host_visible_writes (recorded cb) ⊆ bound_memories.

Lemma bound_buffer id : bound_memory (buffer_bindings d) id ⊆ bound_memories.
Proof.
  unfold bound_memory, bound_memories. case_match eqn:E; [|set_solver].
  apply (elem_of_map_img_2 (SA := gset Z)) in E. set_solver.
Qed.

Lemma bound_image id : bound_memory (image_bindings d) id ⊆ bound_memories.
Proof.
  unfold bound_memory, bound_memories. case_match eqn:E; [|set_solver].
  apply (elem_of_map_img_2 (SA := gset Z)) in E. set_solver.
Qed.

Lemma typed_pending ms cb : ms ⊆ bound_memories -> well_typed cb -> well_typed (add_pending ms cb).
Proof. unfold well_typed; cbn; set_solver. Qed.

Lemma typed_visible ms cb : ms ⊆ bound_memories -> well_typed cb -> well_typed (add_visible ms cb).
Proof. unfold well_typed; cbn; set_solver. Qed.

Lemma typed_descriptors sets cb : well_typed cb -> well_typed (mark_descriptor_writes sets cb).
Proof. done. Qed.

Lemma typed_general cb : well_typed cb -> well_typed (mark_general cb).
Proof. unfold well_typed; cbn; set_solver. Qed.

Lemma typed_secondary cb s : well_typed s -> well_typed cb -> well_typed (execute_secondary cb s).
Proof. unfold well_typed; cbn; set_solver. Qed.

Lemma typed_graphics m cb : well_typed cb -> well_typed (set_graphics m cb).
Proof. done. Qed.

Lemma typed_compute m cb : well_typed cb -> well_typed (set_compute m cb).
Proof. done. Qed.

Hint Resolve bound_buffer bound_image typed_pending typed_visible typed_descriptors typed_general
  typed_secondary typed_graphics typed_compute : recording.

Lemma typed_fold {A} (f : Recording -> A -> Recording) xs :
  (forall cb x, well_typed cb -> well_typed (f cb x)) -> forall cb, well_typed cb -> well_typed (fold_left f xs cb).
Proof. intros Hf. induction xs as [|x xs IH]; intros cb Hc; [done|]. cbn. auto. Qed.

Lemma typed_resource r cb : well_typed cb -> well_typed
  (match r with
   | Buffer id => mark_resource d (buffer_bindings d) id (descriptor_names_buffer d id) cb
   | Image id => mark_resource d (image_bindings d) id (descriptor_names_image d id) cb
   end).
Proof.
  intros Hc. destruct r as [id|id]; unfold mark_resource.
  - pose proof (bound_buffer id) as Hb. unfold bound_memory in Hb. repeat case_match; auto with recording.
  - pose proof (bound_image id) as Hb. unfold bound_memory in Hb. repeat case_match; auto with recording.
Qed.

Lemma typed_barrier stage ms bs im cb : well_typed cb -> well_typed (mark_barrier d stage ms bs im cb).
Proof.
  intros Hc. unfold mark_barrier. case_if; [done|]. apply typed_fold; [|apply typed_fold; [|apply typed_fold; [|done]]].
  - intros c b Ht. unfold mark_image_barrier. case_if; [by apply (typed_resource (Image _))|done].
  - intros c b Ht. unfold mark_buffer_barrier. case_if; [by apply (typed_resource (Buffer _))|done].
  - intros c b Ht. unfold mark_memory_barrier. case_if; auto with recording.
Qed.

Lemma typed_dependency info cb : well_typed cb -> well_typed (mark_dependency d info cb).
Proof.
  intros Hc. unfold mark_dependency. apply typed_fold; [|apply typed_fold; [|case_if; auto with recording]].
  - intros c b Ht. unfold mark_image_barrier2. case_if; auto with recording.
  - intros c b Ht. unfold mark_buffer_barrier2. case_if; auto with recording.
Qed.

Lemma typed_wait_events2 items : forall out cb, well_typed cb -> well_typed (snd (wait_events2 d items out cb)).
Proof.
  induction items as [|[e info] items IH]; intros out cb Hc; [done|]. cbn [wait_events2].
  destruct (write_DependencyInfo info) as [[] bs]; [|done]. by apply IH, typed_dependency.
Qed.

Lemma typed_framebuffer info cb : well_typed cb -> well_typed (mark_framebuffer_writes d framebuffers info cb).
Proof.
  intros Hc. unfold mark_framebuffer_writes. case_match; [|done]. apply typed_pending; [|done].
  intros m (ms & (v & -> & _)%list_elem_of_fmap & Hm)%elem_of_union_list. unfold view_memory in Hm.
  case_match; [by eapply bound_image|set_solver].
Qed.

Hint Resolve typed_barrier typed_dependency typed_framebuffer : recording.

Lemma record_typed x cb : (forall a, well_typed (to_cmd a)) -> well_typed cb -> well_typed (snd (record_call d framebuffers to_cmd x cb)).
Proof.
  intros Hsec Hc. destruct x; cbn [record_call]; entry_cases; try solve [auto with recording].
  all: try match goal with Hw : wait_events2 _ ?i ?o ?c = _ |- _ =>
         pose proof (typed_wait_events2 i o c Hc) as Hg; rewrite Hw in Hg; exact Hg end.
  apply (typed_fold (fun cb c => execute_secondary cb (to_cmd c))); [|done]. auto with recording.
Qed.

Lemma record_all_typed xs cb : (forall a, well_typed (to_cmd a)) -> well_typed cb ->
  well_typed (record_all d framebuffers to_cmd xs cb).
Proof.
  intros Hsec. apply (typed_fold (fun cb x => snd (record_call d framebuffers to_cmd x cb))).
  intros c x. by apply record_typed.
Qed.

(** A descriptor's allocation is bound. *)
Lemma resource_memory_bound r : Tracking.resource_memory d r <> 0 -> Tracking.resource_memory d r ∈ bound_memories.
Proof.
  assert (forall (bindings : gmap Z Z) id, default 0 (bindings !! id) <> 0 ->
            default 0 (bindings !! id) ∈ (map_img bindings : gset Z)) as Hb.
  { intros bindings id. destruct (bindings !! id) eqn:E; [|done]. intros _. cbn.
    by apply (elem_of_map_img_2 (SA := gset Z)) in E. }
  unfold Tracking.resource_memory, bound_memories. intros Hr.
  repeat case_match; try done; apply Hb in Hr; set_solver.
Qed.

(** C25: A submission of a command buffer only plans writes to allocations that
    buffers or images are bound to: from the call that begins it on, whatever
    is recorded, as long as the secondary command buffers it executes are of
    that kind themselves. *)
Theorem recorded_writes_bound info xs cb :
  (forall a, well_typed (to_cmd a)) ->
  let cb' := record_all d framebuffers to_cmd xs (snd (BeginCommandBuffer info cb)) in
  well_typed cb' /\ Tracking.command_writes d (recorded cb') ⊆ bound_memories.
Proof.
  intros Hsec cb'. assert (well_typed cb') as Ht by (apply record_all_typed; [done|split; cbn; set_solver]).
  split; [done|]. unfold Tracking.command_writes. apply union_subseteq. split; [apply Ht|].
  case_if; [|set_solver]. intros m (ms & (s & -> & _)%list_elem_of_fmap & Hm)%elem_of_union_list.
  unfold Tracking.set_memory in Hm. case_match; [|set_solver].
  apply elem_of_list_to_set, list_elem_of_filter in Hm as [Hm (i & -> & _)%list_elem_of_fmap].
  by apply resource_memory_bound.
Qed.

End Typed.

(** ** A concrete recording: work that writes a buffer bound to the allocation 5,
    then a barrier towards the host. *)
Module RecordingDemo.

#[local] Existing Instance PNextFacts.Instances.abi.

Definition records : Device :=
  mkDevice {[ 2 := 5 ]} ∅ {[ 30 := {[ 0 := mkResource StorageBuffer 2 ]} ]} ∅ ∅ ∅ 1 ∅ ∅.

Definition fresh : Recording := mkRecording 1 0 ∅ ∅ ∅ (mkCommandBuffer ∅ false ∅).

Definition copy : command := vkCmdCopyBuffer 1 2 [VkBufferCopy.mk 0 0 64].

(** Transfer writes towards host reads. *)
Definition barrier : command :=
  vkCmdPipelineBarrier 4096 16384 0 [VkMemoryBarrier.mk 46 Null 4096 8192] [] [].

Definition info : VkCommandBufferBeginInfo.t := VkCommandBufferBeginInfo.mk 42 Null 0 Null.
Definition start : Recording := snd (BeginCommandBuffer info fresh).

(** A secondary command buffer dispatches with the set 30, which holds the buffer. *)
Definition dispatching : list command :=
  [vkCmdBindDescriptorSets 1 7 0 [30] []] ++ [vkCmdDispatch 1 1 1] ++ [].
Definition secondary (_ : Z) : Recording := record_all records ∅ (fun _ => fresh) dispatching start.

Lemma recorded_writes_reach_host_witness :
  5 ∈ Tracking.command_writes records
        (recorded (record_all records ∅ secondary
                     ([] ++ [vkCmdExecuteCommands [4096]] ++ [vkCmdDraw 3 1 0 0] ++ [barrier] ++ []) start)).
Proof.
  apply (recorded_writes_reach_host records ∅ secondary _ info fresh).
  apply (reads_here _ _ _ [] (vkCmdExecuteCommands [4096]) [vkCmdDraw 3 1 0 0] barrier [] info fresh 5 (Through 30)).
  - done.
  - apply (performs_secondary _ _ _ _ _ 4096 info fresh [vkCmdBindDescriptorSets 1 7 0 [30] []]
             (vkCmdDispatch 1 1 1) []); [left|done|done|].
    apply (performs_through _ _ _ _ _ 1 0); [done|by apply (bool_decide_unpack _)|].
    apply (bound_last _ _ []). by vm_compute.
  - done.
  - apply (general_descriptor _ _ _ 30 (Buffer 2)); [|exists {[ 0 := mkResource StorageBuffer 2 ]}, 0, (mkResource StorageBuffer 2)|by vm_compute|done].
    + split; [done|]. exists (VkMemoryBarrier.mk 46 Null 4096 8192). split; [left|done].
    + split; [by vm_compute|]. split; [by vm_compute|]. left. split; [by left|done].
Defined.

Lemma recorded_writes_bound_witness :
  5 ∈ pending_writes (record_all records ∅ (fun _ => fresh) [copy]
                        (snd (BeginCommandBuffer (VkCommandBufferBeginInfo.mk 42 Null 0 Null) fresh))) /\
  well_typed records (record_all records ∅ (fun _ => fresh) [copy]
                        (snd (BeginCommandBuffer (VkCommandBufferBeginInfo.mk 42 Null 0 Null) fresh))).
Proof.
  split; [by apply (bool_decide_unpack _)|].
  apply (recorded_writes_bound records ∅ (fun _ => fresh)). intros a. split; cbn; set_solver.
Defined.

End RecordingDemo.
