(* ===== verification/CommandFacts.v ===== *)
(** Recording end to end: what a recording call of [ClientCommands] sends, the
    handler of [ServerCommands] turns into the same command on the driver, with
    the connection's objects in place of the ids; and what a handler does with
    any other message. *)

From stdpp Require Import list gmap strings.
From S2P Require Import Prelude Wire Codec CLayout VkStructs PNext PNextFacts VkCreateInfos VkCommands.
From S2P Require Import MarshalBase Marshal MarshalChained MarshalDescriptor MarshalSync MarshalValues.
From S2P Require Import HostMemory Decode Objects Session Tracking ClientCommands RecordingFacts.
From S2P Require Import ServerCommands.
Open Scope wire_scope.

(** ** What arrives, and what may be asked for *)

Section Calls.
Context `{Abi} {HR : HandleResolver}.
Variable to_cmd : Z -> Recording.

(** marshal.cpp:2061-2061. *)
Definition recv_DependencyInfo (s : VkDependencyInfo.t) : VkDependencyInfo.t :=
  let '(VkDependencyInfo.mk sType _ flags m pm b pb i pi) := s in
  VkDependencyInfo.mk sType Null flags m (structs_recv memory_barrier2_recv m pm)
    b (structs_recv buffer_barrier2_recv b pb) i (structs_recv image_barrier2_recv i pi).

Definition recv_subpass_begin (s : VkSubpassBeginInfo.t) : VkSubpassBeginInfo.t :=
  VkSubpassBeginInfo.mk (VkSubpassBeginInfo.sType s) (chain_recv RenderPass2 (VkSubpassBeginInfo.pNext s))
    (VkSubpassBeginInfo.contents s).
Definition recv_subpass_end (s : VkSubpassEndInfo.t) : VkSubpassEndInfo.t :=
  VkSubpassEndInfo.mk (VkSubpassEndInfo.sType s) (chain_recv RenderPass2 (VkSubpassEndInfo.pNext s)).
Definition recv_memory_barrier (s : VkMemoryBarrier.t) : VkMemoryBarrier.t := VkMemoryBarrier.set_pNext Null s.
Definition recv_buffer_barrier (s : VkBufferMemoryBarrier.t) : VkBufferMemoryBarrier.t :=
  VkBufferMemoryBarrier.set_buffer (patch_handle hr_buffer (VkBufferMemoryBarrier.buffer s))
    (VkBufferMemoryBarrier.set_pNext Null s).
Definition recv_image_barrier (s : VkImageMemoryBarrier.t) : VkImageMemoryBarrier.t :=
  VkImageMemoryBarrier.set_image (patch_handle hr_image (VkImageMemoryBarrier.image s))
    (VkImageMemoryBarrier.set_pNext Null s).

(** The same command with the server's objects. *)
Definition received (x : command) : command :=
  match x with
  | vkCmdBeginRenderPass info contents => vkCmdBeginRenderPass (recv_RenderPassBeginInfo info) contents
  | vkCmdBeginRenderPass2 info subpass =>
      vkCmdBeginRenderPass2 (recv_RenderPassBeginInfo info) (recv_subpass_begin subpass)
  | vkCmdNextSubpass2 b e => vkCmdNextSubpass2 (recv_subpass_begin b) (recv_subpass_end e)
  | vkCmdEndRenderPass2 e => vkCmdEndRenderPass2 (recv_subpass_end e)
  | vkCmdBindPipeline point pipeline => vkCmdBindPipeline point (hr_pipeline pipeline)
  | vkCmdBindDescriptorSets point layout first sets offsets =>
      vkCmdBindDescriptorSets point (hr_pipeline_layout layout) first (map hr_descriptor_set sets) offsets
  | vkCmdBindVertexBuffers first bound =>
      vkCmdBindVertexBuffers first (map (fun b => (hr_buffer b.1, b.2)) bound)
  | vkCmdBindIndexBuffer buffer offset t => vkCmdBindIndexBuffer (hr_buffer buffer) offset t
  | vkCmdPipelineBarrier src dst flags ms bs im =>
      vkCmdPipelineBarrier src dst flags (map recv_memory_barrier ms) (map recv_buffer_barrier bs)
        (map recv_image_barrier im)
  | vkCmdCopyBuffer src dst xs => vkCmdCopyBuffer (hr_buffer src) (hr_buffer dst) xs
  | vkCmdCopyBufferToImage src dst layout xs => vkCmdCopyBufferToImage (hr_buffer src) (hr_image dst) layout xs
  | vkCmdCopyImageToBuffer src layout dst xs => vkCmdCopyImageToBuffer (hr_image src) layout (hr_buffer dst) xs
  | vkCmdCopyImage src sl dst dl xs => vkCmdCopyImage (hr_image src) sl (hr_image dst) dl xs
  | vkCmdBlitImage src sl dst dl xs f => vkCmdBlitImage (hr_image src) sl (hr_image dst) dl xs f
  | vkCmdFillBuffer dst offset size data => vkCmdFillBuffer (hr_buffer dst) offset size data
  | vkCmdUpdateBuffer dst offset data => vkCmdUpdateBuffer (hr_buffer dst) offset data
  | vkCmdClearColorImage image layout color xs => vkCmdClearColorImage (hr_image image) layout color xs
  | vkCmdDrawIndirect a b e f => vkCmdDrawIndirect (hr_buffer a) b e f
  | vkCmdDrawIndexedIndirect a b e f => vkCmdDrawIndexedIndirect (hr_buffer a) b e f
  | vkCmdDrawIndirectCount a b e f g h => vkCmdDrawIndirectCount (hr_buffer a) b (hr_buffer e) f g h
  | vkCmdDrawIndexedIndirectCount a b e f g h =>
      vkCmdDrawIndexedIndirectCount (hr_buffer a) b (hr_buffer e) f g h
  | vkCmdDispatchIndirect a b => vkCmdDispatchIndirect (hr_buffer a) b
  | vkCmdExecuteCommands xs =>
      vkCmdExecuteCommands (map (fun a => hr_command_buffer (rc_remote_id (to_cmd a))) xs)
  | vkCmdBeginQuery p q f => vkCmdBeginQuery (hr_query_pool p) q f
  | vkCmdEndQuery p q => vkCmdEndQuery (hr_query_pool p) q
  | vkCmdResetQueryPool p a b => vkCmdResetQueryPool (hr_query_pool p) a b
  | vkCmdWriteTimestamp s p q => vkCmdWriteTimestamp s (hr_query_pool p) q
  | vkCmdCopyQueryPoolResults p a b buffer off stride flags =>
      vkCmdCopyQueryPoolResults (hr_query_pool p) a b (hr_buffer buffer) off stride flags
  | vkCmdSetEvent e s => vkCmdSetEvent (hr_event e) s
  | vkCmdResetEvent e s => vkCmdResetEvent (hr_event e) s
  | vkCmdResolveImage src sl dst dl xs => vkCmdResolveImage (hr_image src) sl (hr_image dst) dl xs
  | vkCmdClearDepthStencilImage image layout value xs =>
      vkCmdClearDepthStencilImage (hr_image image) layout value xs
  | vkCmdWaitEvents es src dst ms bs im =>
      vkCmdWaitEvents (map hr_event es) src dst (map recv_memory_barrier ms) (map recv_buffer_barrier bs)
        (map recv_image_barrier im)
  | vkCmdPipelineBarrier2 info => vkCmdPipelineBarrier2 (recv_DependencyInfo info)
  | vkCmdSetEvent2 e info => vkCmdSetEvent2 (hr_event e) (recv_DependencyInfo info)
  | vkCmdResetEvent2 e s => vkCmdResetEvent2 (hr_event e) s
  | vkCmdWaitEvents2 xs => vkCmdWaitEvents2 (map (fun x => (hr_event x.1, recv_DependencyInfo x.2)) xs)
  | vkCmdWriteTimestamp2 s p q => vkCmdWriteTimestamp2 s (hr_query_pool p) q
  | vkCmdPushConstants layout flags offset values =>
      vkCmdPushConstants (hr_pipeline_layout layout) flags offset values
  | x => x
  end.

(** *** What may be asked for *)

(** An id of a live object. *)
Definition live (resolve : Z -> Z) (id : Z) : Prop := is_u64 id /\ id <> 0 /\ resolve id <> 0.

Definition array_ok {A} (P : A -> Prop) (xs : list A) : Prop :=
  len xs <= kMaxArrayElements /\ Forall P xs.

Definition range_ok (r : VkImageSubresourceRange.t) : Prop :=
  let '(VkImageSubresourceRange.mk a b c d e) := r in Forall is_u32 [a; b; c; d; e].
Definition layers_ok (s : VkImageSubresourceLayers.t) : Prop :=
  let '(VkImageSubresourceLayers.mk a b c d) := s in Forall is_u32 [a; b; c; d].
Definition offset_ok (o : VkOffset3D.t) : Prop :=
  let '(VkOffset3D.mk x y z) := o in Forall is_i32 [x; y; z].
Definition extent_ok (e : VkExtent3D.t) : Prop :=
  let '(VkExtent3D.mk w h d) := e in Forall is_u32 [w; h; d].
Definition resolve_ok (r : VkImageResolve) : Prop :=
  layers_ok (rs_srcSubresource r) /\ offset_ok (rs_srcOffset r) /\ layers_ok (rs_dstSubresource r) /\
  offset_ok (rs_dstOffset r) /\ extent_ok (rs_extent r).
Definition clear_attachment_ok (a : VkClearAttachment) : Prop :=
  Forall is_u32 [ca_aspectMask a; ca_colorAttachment a] /\ raw_ok (ca_clearValue a).
Definition clear_rect_ok (r : VkClearRect) : Prop :=
  let '(VkRect2D.mk (VkOffset2D.mk x y) (VkExtent2D.mk w h)) := cr_rect r in
  Forall is_i32 [x; y] /\ Forall is_u32 [w; h; cr_baseArrayLayer r; cr_layerCount r].
Definition barriers_ok (ms : list VkMemoryBarrier.t) (bs : list VkBufferMemoryBarrier.t)
    (im : list VkImageMemoryBarrier.t) : Prop :=
  array_ok (fun s => raw_ok (VkMemoryBarrier.set_pNext Null s)) ms /\
  array_ok (fun s => raw_ok (VkBufferMemoryBarrier.set_pNext Null s)) bs /\
  array_ok (fun s => raw_ok (VkImageMemoryBarrier.set_pNext Null s)) im.
Definition subpass_begin_ok (s : VkSubpassBeginInfo.t) : Prop :=
  is_i32 (VkSubpassBeginInfo.sType s) /\ is_i32 (VkSubpassBeginInfo.contents s) /\
  chain_ok RenderPass2 (VkSubpassBeginInfo.pNext s).
Definition subpass_end_ok (s : VkSubpassEndInfo.t) : Prop :=
  is_i32 (VkSubpassEndInfo.sType s) /\ chain_ok RenderPass2 (VkSubpassEndInfo.pNext s).

(** Valid usage, as far as the server relies on it: values of their C types,
    arrays within the protocol's limit, live objects where null is refused. *)
Definition call_ok (x : command) : Prop :=
  match x with
  | vkCmdBeginRenderPass info contents => RenderPassBeginInfo_ok info /\ is_i32 contents
  | vkCmdNextSubpass contents => is_i32 contents
  | vkCmdEndRenderPass => True
  | vkCmdBeginRenderPass2 info subpass => RenderPassBeginInfo_ok info /\ subpass_begin_ok subpass
  | vkCmdNextSubpass2 b e => subpass_begin_ok b /\ subpass_end_ok e
  | vkCmdEndRenderPass2 e => subpass_end_ok e
  | vkCmdSetFragmentShadingRateKHR size a b =>
      Forall is_u32 [VkExtent2D.width size; VkExtent2D.height size] /\ Forall is_i32 [a; b]
  | vkCmdSetDeviceMask mask => is_u32 mask
  | vkCmdDispatchBase a b e x y z => Forall is_u32 [a; b; e; x; y; z]
  | vkCmdBindPipeline point pipeline => is_i32 point /\ is_u64 pipeline
  | vkCmdBindDescriptorSets point layout first sets offsets =>
      (point = 0 \/ point = 1) /\ live hr_pipeline_layout layout /\ is_u32 first /\
      array_ok (live hr_descriptor_set) sets /\ array_ok is_u32 offsets
  | vkCmdBindVertexBuffers first bound =>
      is_u32 first /\ array_ok (fun b => live hr_buffer b.1 /\ is_u64 b.2) bound
  | vkCmdBindIndexBuffer buffer offset t => live hr_buffer buffer /\ is_u64 offset /\ (t = 0 \/ t = 1)
  | vkCmdSetViewport first xs => is_u32 first /\ array_ok raw_ok xs
  | vkCmdSetScissor first xs => is_u32 first /\ array_ok raw_ok xs
  | vkCmdDraw a b e f => Forall is_u32 [a; b; e; f]
  | vkCmdDispatch x y z => Forall is_u32 [x; y; z]
  | vkCmdDrawIndexed a b e f g => Forall is_u32 [a; b; e; g] /\ is_i32 f
  | vkCmdPipelineBarrier src dst flags ms bs im => Forall is_u32 [src; dst; flags] /\ barriers_ok ms bs im
  | vkCmdCopyBuffer src dst xs => is_u64 src /\ is_u64 dst /\ array_ok raw_ok xs
  | vkCmdCopyBufferToImage src dst layout xs =>
      is_u64 src /\ is_u64 dst /\ is_i32 layout /\ array_ok raw_ok xs
  | vkCmdCopyImageToBuffer src layout dst xs =>
      is_u64 src /\ is_u64 dst /\ is_i32 layout /\ array_ok raw_ok xs
  | vkCmdCopyImage src sl dst dl xs =>
      live hr_image src /\ live hr_image dst /\ Forall is_i32 [sl; dl] /\ xs <> [] /\ array_ok raw_ok xs
  | vkCmdBlitImage src sl dst dl xs f =>
      live hr_image src /\ live hr_image dst /\ Forall is_i32 [sl; dl; f] /\ xs <> [] /\ array_ok raw_ok xs
  | vkCmdFillBuffer dst offset size data =>
      live hr_buffer dst /\ Forall is_u64 [offset; size] /\ is_u32 data /\ Z.land offset 3 = 0 /\
      (size = VK_WHOLE_SIZE \/ size <> 0 /\ Z.land size 3 = 0)
  | vkCmdUpdateBuffer dst offset data =>
      live hr_buffer dst /\ is_u64 offset /\ Z.land offset 3 = 0 /\ 0 < len data <= kMaxUpdateBytes /\
      Z.land (len data) 3 = 0
  | vkCmdClearColorImage image layout color xs =>
      is_u64 image /\ is_i32 layout /\ raw_ok color /\ array_ok raw_ok xs
  | vkCmdDrawIndirect a b e f => live hr_buffer a /\ is_u64 b /\ Forall is_u32 [e; f]
  | vkCmdDrawIndexedIndirect a b e f => live hr_buffer a /\ is_u64 b /\ Forall is_u32 [e; f]
  | vkCmdDrawIndirectCount a b e f g h =>
      live hr_buffer a /\ live hr_buffer e /\ Forall is_u64 [b; f] /\ Forall is_u32 [g; h]
  | vkCmdDrawIndexedIndirectCount a b e f g h =>
      live hr_buffer a /\ live hr_buffer e /\ Forall is_u64 [b; f] /\ Forall is_u32 [g; h]
  | vkCmdDispatchIndirect a b => live hr_buffer a /\ is_u64 b
  | vkCmdExecuteCommands xs => array_ok (fun a => is_u64 (rc_remote_id (to_cmd a))) xs
  | vkCmdBeginQuery p q f => live hr_query_pool p /\ Forall is_u32 [q; f]
  | vkCmdEndQuery p q => live hr_query_pool p /\ is_u32 q
  | vkCmdResetQueryPool p a b => live hr_query_pool p /\ Forall is_u32 [a; b]
  | vkCmdWriteTimestamp s p q => live hr_query_pool p /\ Forall is_u32 [s; q]
  | vkCmdCopyQueryPoolResults p a b buffer off stride flags =>
      live hr_query_pool p /\ live hr_buffer buffer /\ Forall is_u32 [a; b; flags] /\ Forall is_u64 [off; stride]
  | vkCmdSetEvent e s => live hr_event e /\ is_u32 s
  | vkCmdResetEvent e s => live hr_event e /\ is_u32 s
  | vkCmdSetLineWidth a => is_u32 a
  | vkCmdSetDepthBias a b e => Forall is_u32 [a; b; e]
  | vkCmdSetBlendConstants r g b a => Forall is_u32 [r; g; b; a]
  | vkCmdSetDepthBounds a b => Forall is_u32 [a; b]
  | vkCmdSetStencilCompareMask a b => Forall is_u32 [a; b]
  | vkCmdSetStencilWriteMask a b => Forall is_u32 [a; b]
  | vkCmdSetStencilReference a b => Forall is_u32 [a; b]
  | vkCmdResolveImage src sl dst dl xs =>
      live hr_image src /\ live hr_image dst /\ Forall is_i32 [sl; dl] /\ array_ok resolve_ok xs
  | vkCmdClearDepthStencilImage image layout value xs =>
      live hr_image image /\ is_i32 layout /\ Forall is_u32 [cd_depth value; cd_stencil value] /\
      array_ok range_ok xs
  | vkCmdClearAttachments xs ys => array_ok clear_attachment_ok xs /\ array_ok clear_rect_ok ys
  | vkCmdWaitEvents es src dst ms bs im =>
      array_ok is_u64 es /\ Forall is_u32 [src; dst] /\ barriers_ok ms bs im
  | vkCmdPipelineBarrier2 info => DependencyInfo_ok info
  | vkCmdSetEvent2 e info => live hr_event e /\ DependencyInfo_ok info
  | vkCmdResetEvent2 e s => live hr_event e /\ is_u64 s
  | vkCmdWaitEvents2 xs => array_ok (fun x => live hr_event x.1 /\ DependencyInfo_ok x.2) xs
  | vkCmdWriteTimestamp2 s p q => is_u64 s /\ live hr_query_pool p /\ is_u32 q
  | vkCmdPushConstants layout flags offset values =>
      live hr_pipeline_layout layout /\ Forall is_u32 [flags; offset] /\ Z.land offset 3 = 0 /\
      0 < len values <= kMaxPushConstantBytes /\ Z.land (len values) 3 = 0
  end.

End Calls.

(** ** Round trips *)

Section Lengths.

Lemma length_writer_f32 v : length (Writer.f32 v) = 4%nat.
Proof. exact (length_writer_u32 v). Qed.

Lemma length_write_raw `{Abi} {T} `{Pod T} (s : T) : 4 <= len (write_raw s).
Proof. unfold len, write_raw. rewrite length_writer_bytes. lia. Qed.

Lemma length_dependency s bs : write_DependencyInfo s = (true, bs) -> 4 <= len bs.
Proof.
  intros Hw. apply guarded_true in Hw as [_ Hw]. apply emit_then_true in Hw as (b & _ & ->).
  unfold len. rewrite length_app, length_writer_u32. lia.
Qed.

End Lengths.

Section Reads.
Context `{Abi} {HR : HandleResolver}.

Lemma reads_object rest f id : is_u64 id -> reads_at rest (r_object f) (Writer.handle id) (f id).
Proof. intros Hi. eapply reads_bind_last; [by apply reads_handle|]. apply reads_ret. Qed.

Lemma reads_end : reads_at [] r_end [] tt.
Proof. eapply reads_bind_nil; [apply reads_remaining|]. by apply reads_guard. Qed.

(** A decoder of the count of [xs], when that many elements follow. *)
Definition counts {A} (head : Rd nat) (min : Z) (xs : list A) : Prop :=
  forall rest, len xs * min <= Z.of_nat (length rest) ->
    reads_at rest head (Writer.u32 (len xs)) (length xs).

Lemma counts_length {A} limited min (xs : list A) :
  len xs <= kMaxArrayElements -> 0 < min -> counts (r_length limited min) min xs.
Proof.
  intros Hn Hm rest Hr. rewrite kMaxArrayElements_value in Hn.
  eapply reads_bind_last; [apply reads_u32; unfold is_u32, len in *; lia|].
  eapply reads_bind_nil; [apply reads_remaining|].
  eapply reads_bind_nil; [apply reads_guard, andb_true_iff; split|unfold len; rewrite Nat2Z.id; apply reads_ret].
  - apply negb_true_iff, andb_false_iff. right. apply Z.ltb_ge. by rewrite kMaxArrayElements_value.
  - apply Z.leb_le, Z.div_le_lower_bound; [done|]. rewrite Z.mul_comm. exact Hr.
Qed.

Lemma counts_nonempty {A} min (xs : list A) :
  xs <> [] -> len xs <= kMaxArrayElements -> 0 < min -> counts (r_nonempty min) min xs.
Proof.
  intros Hx Hn Hm rest Hr. eapply reads_bind_last; [by apply (counts_length false)|].
  eapply reads_bind_nil; [|apply reads_ret]. apply reads_guard. by destruct xs.
Qed.

(** What a loop over elements of the array decodes. *)
Definition element {A B} (min : Z) (write : A -> list byte) (m : Rd B) (g : A -> B) (x : A) : Prop :=
  min <= len (write x) /\ forall rest, reads_at rest m (write x) (g x).

Lemma reads_elements {A B} rest min (write : A -> list byte) (m : Rd B) (g : A -> B) xs :
  Forall (element min write m g) xs ->
  reads_at rest (rfor (length xs) m) (concat (map write xs)) (map g xs) /\
  len xs * min <= len (concat (map write xs)).
Proof.
  unfold len. induction 1 as [|x xs [Hl Hx] _ [IH IHl]]; [split; [apply reads_ret|done]|].
  unfold len in Hl. cbn [map concat].
  split; [|rewrite length_app, length_cons, Nat2Z.inj_succ, Z.mul_succ_l; lia].
  cbn [length rfor].
  eapply reads_bind; [apply Hx|]. eapply reads_bind_last; [exact IH|]. apply reads_ret.
Qed.

Lemma write_each_all {A} (write : A -> list byte) xs :
  write_each write (len xs) (Ref xs) = Writer.u32 (len xs) ++ concat (map write xs).
Proof. unfold write_each, len. cbn [arr]. by rewrite Nat2Z.id, take_ge. Qed.

(** A counted array and what follows. *)
Section Array.
Context {A B C : Type} (rest : list byte) (head : Rd nat) (min : Z) (write : A -> list byte) (m : Rd B)
  (g : A -> B) (xs : list A) (k : list B -> Rd C) (c : C).
Hypothesis Hhead : counts head min xs.
Hypothesis Hxs : Forall (element min write m g) xs.

Lemma reads_array_steps (k' : nat -> Rd C) bs :
  (forall rest' bs', reads_at rest' (ys <- rfor (length xs) m ; k ys) bs' c ->
     reads_at rest' (k' (length xs)) bs' c) ->
  reads_at rest (k (map g xs)) bs c ->
  reads_at rest (n <- head ; k' n) (write_each write (len xs) (Ref xs) ++ bs) c.
Proof.
  intros Hk' Hk. rewrite write_each_all, <- app_assoc.
  destruct (reads_elements (bs ++ rest) _ _ _ _ _ Hxs) as [Hr Hl].
  eapply reads_bind; [apply Hhead; rewrite !length_app; unfold len in Hl |- *; lia|].
  apply Hk'. eapply reads_bind; [exact Hr|exact Hk].
Qed.

Lemma reads_array bs : reads_at rest (k (map g xs)) bs c ->
  reads_at rest (n <- head ; ys <- rfor n m ; k ys) (write_each write (len xs) (Ref xs) ++ bs) c.
Proof. by apply (reads_array_steps (fun n => ys <- rfor n m ; k ys)). Qed.

Lemma reads_array_ok bs : reads_at rest (k (map g xs)) bs c ->
  reads_at rest (n <- head ; r_ok ;! ys <- rfor n m ; k ys) (write_each write (len xs) (Ref xs) ++ bs) c.
Proof.
  apply (reads_array_steps (fun n => r_ok ;! ys <- rfor n m ; k ys)). intros rest' bs' Hr.
  eapply reads_bind_nil; [apply reads_ok|exact Hr].
Qed.

Lemma reads_array_last : reads_at rest (k (map g xs)) [] c ->
  reads_at rest (n <- head ; ys <- rfor n m ; k ys) (write_each write (len xs) (Ref xs)) c.
Proof. rewrite <- (app_nil_r (write_each _ _ _)). apply reads_array. Qed.

Lemma reads_array_ok_last : reads_at rest (k (map g xs)) [] c ->
  reads_at rest (n <- head ; r_ok ;! ys <- rfor n m ; k ys) (write_each write (len xs) (Ref xs)) c.
Proof. rewrite <- (app_nil_r (write_each _ _ _)). apply reads_array_ok. Qed.
End Array.

(** *** Elements *)

Lemma elements {A B} (P : A -> Prop) min (write : A -> list byte) (m : Rd B) (g : A -> B) xs :
  Forall P xs -> (forall x, P x -> min <= len (write x)) ->
  (forall x rest, P x -> reads_at rest m (write x) (g x)) -> Forall (element min write m g) xs.
Proof. intros Hxs Hl Hr. eapply Forall_impl; [exact Hxs|]. intros x Hx. split; auto. Qed.

Lemma elements_raw {T} `{Pod T} (xs : list T) : Forall raw_ok xs -> (forall x : T, pod_flat x) ->
  Forall (element 4 write_raw (read_raw T) id) xs.
Proof.
  intros Hxs Hf. apply (elements _ _ _ _ _ _ Hxs); [intros; apply length_write_raw|].
  intros x rest Hx. by apply raw_roundtrip.
Qed.

Lemma elements_object f ids : Forall is_u64 ids ->
  Forall (element 8 Writer.handle (r_object f) f) ids.
Proof.
  intros Hi. apply (elements _ _ _ _ _ _ Hi); [|intros; by apply reads_object].
  intros x _. unfold len. by rewrite length_writer_handle.
Qed.

Lemma elements_u32 vs : Forall is_u32 vs -> Forall (element 4 Writer.u32 r_u32 id) vs.
Proof.
  intros Hv. apply (elements _ _ _ _ _ _ Hv); [|intros; by apply reads_u32].
  intros x _. unfold len. by rewrite length_writer_u32.
Qed.

End Reads.

(** The length of an encoding without its variable parts. *)
Ltac encoded_length :=
  unfold len; rewrite ?length_app; rewrite ?length_writer_u32, ?length_writer_u64, ?length_writer_i32,
    ?length_writer_f32, ?length_writer_handle, ?length_writer_bytes; lia.

(** ** Every call decodes *)

Section Decoding.
Context `{Abi} {HR : HandleResolver}.
Variable d : Device.
Variable framebuffers : gmap Z FramebufferMetadata.
Variable to_cmd : Z -> Recording.

(** The decoder of the command, if its handler is [issue] or a variant of it. *)
Definition decoder (x : command) : option (Rd (Z * command)) :=
  match x with
  | vkCmdBeginRenderPass _ _ => Some handle_CmdBeginRenderPass
  | vkCmdNextSubpass _ => Some handle_CmdNextSubpass
  | vkCmdEndRenderPass => Some handle_CmdEndRenderPass
  | vkCmdBeginRenderPass2 _ _ => Some handle_CmdBeginRenderPass2
  | vkCmdNextSubpass2 _ _ => Some handle_CmdNextSubpass2
  | vkCmdEndRenderPass2 _ => Some handle_CmdEndRenderPass2
  | vkCmdSetFragmentShadingRateKHR _ _ _ => Some handle_CmdSetFragmentShadingRateKHR
  | vkCmdSetDeviceMask _ => Some handle_CmdSetDeviceMask
  | vkCmdDispatchBase _ _ _ _ _ _ => Some handle_CmdDispatchBase
  | vkCmdBindPipeline _ _ => Some handle_CmdBindPipeline
  | vkCmdBindDescriptorSets _ _ _ _ _ => Some handle_CmdBindDescriptorSets
  | vkCmdBindVertexBuffers _ _ => Some handle_CmdBindVertexBuffers
  | vkCmdBindIndexBuffer _ _ _ => Some handle_CmdBindIndexBuffer
  | vkCmdSetViewport _ _ => Some handle_CmdSetViewport
  | vkCmdSetScissor _ _ => Some handle_CmdSetScissor
  | vkCmdDraw _ _ _ _ => Some handle_CmdDraw
  | vkCmdDispatch _ _ _ => Some handle_CmdDispatch
  | vkCmdDrawIndexed _ _ _ _ _ => Some handle_CmdDrawIndexed
  | vkCmdPipelineBarrier _ _ _ _ _ _ => Some handle_CmdPipelineBarrier
  | vkCmdCopyBuffer _ _ _ => Some handle_CmdCopyBuffer
  | vkCmdCopyBufferToImage _ _ _ _ => Some handle_CmdCopyBufferToImage
  | vkCmdCopyImageToBuffer _ _ _ _ => Some handle_CmdCopyImageToBuffer
  | vkCmdCopyImage _ _ _ _ _ => Some handle_CmdCopyImage
  | vkCmdBlitImage _ _ _ _ _ _ => Some handle_CmdBlitImage
  | vkCmdFillBuffer _ _ _ _ => Some handle_CmdFillBuffer
  | vkCmdUpdateBuffer _ _ _ => Some handle_CmdUpdateBuffer
  | vkCmdClearColorImage _ _ _ _ => Some handle_CmdClearColorImage
  | vkCmdDrawIndirect _ _ _ _ => Some handle_CmdDrawIndirect
  | vkCmdDrawIndexedIndirect _ _ _ _ => Some handle_CmdDrawIndexedIndirect
  | vkCmdDrawIndirectCount _ _ _ _ _ _ => Some handle_CmdDrawIndirectCount
  | vkCmdDrawIndexedIndirectCount _ _ _ _ _ _ => Some handle_CmdDrawIndexedIndirectCount
  | vkCmdDispatchIndirect _ _ => Some handle_CmdDispatchIndirect
  | vkCmdExecuteCommands _ => Some handle_CmdExecuteCommands
  | vkCmdBeginQuery _ _ _ => Some handle_CmdBeginQuery
  | vkCmdEndQuery _ _ => Some handle_CmdEndQuery
  | vkCmdResetQueryPool _ _ _ => Some handle_CmdResetQueryPool
  | vkCmdWriteTimestamp _ _ _ => Some handle_CmdWriteTimestamp
  | vkCmdCopyQueryPoolResults _ _ _ _ _ _ _ => Some handle_CmdCopyQueryPoolResults
  | vkCmdSetEvent _ _ => Some handle_CmdSetEvent
  | vkCmdResetEvent _ _ => Some handle_CmdResetEvent
  | vkCmdSetLineWidth _ => Some handle_CmdSetLineWidth
  | vkCmdSetDepthBias _ _ _ => Some handle_CmdSetDepthBias
  | vkCmdSetBlendConstants _ _ _ _ => Some handle_CmdSetBlendConstants
  | vkCmdSetDepthBounds _ _ => Some handle_CmdSetDepthBounds
  | vkCmdSetStencilCompareMask _ _ => Some handle_CmdSetStencilCompareMask
  | vkCmdSetStencilWriteMask _ _ => Some handle_CmdSetStencilWriteMask
  | vkCmdSetStencilReference _ _ => Some handle_CmdSetStencilReference
  | vkCmdResolveImage _ _ _ _ _ => Some handle_CmdResolveImage
  | vkCmdClearDepthStencilImage _ _ _ _ => Some handle_CmdClearDepthStencilImage
  | vkCmdClearAttachments _ _ => Some handle_CmdClearAttachments
  | vkCmdWaitEvents _ _ _ _ _ _ => Some handle_CmdWaitEvents
  | vkCmdPipelineBarrier2 _ => Some handle_CmdPipelineBarrier2
  | vkCmdSetEvent2 _ _ => Some handle_CmdSetEvent2
  | vkCmdResetEvent2 _ _ => Some handle_CmdResetEvent2
  | vkCmdPushConstants _ _ _ _ => Some handle_CmdPushConstants
  | vkCmdWaitEvents2 _ | vkCmdWriteTimestamp2 _ _ _ => None
  end.

(** The conditions the handlers check hold of the ids of live objects. *)
Lemma valid_live f id : live f id -> valid (f id) = true.
Proof. intros (_ & _ & Hf). by apply negb_true_iff, Z.eqb_neq. Qed.

Lemma not_null f id : live f id -> (f id =? 0) = false.
Proof. intros (_ & _ & Hf). by apply Z.eqb_neq. Qed.

Lemma live_u64 f id : live f id -> is_u64 id.
Proof. by intros [? _]. Qed.

Lemma live_all f ids : Forall (live f) ids -> forallb valid (map f ids) = true /\ Forall is_u64 ids.
Proof.
  induction 1 as [|id ids Hi _ [IH1 IH2]]; [done|]. cbn. rewrite valid_live by done.
  split; [done|]. constructor; [by eapply live_u64|done].
Qed.

Lemma not_zero f id : live f id -> (id =? 0) = false.
Proof. intros (_ & Hz & _). by apply Z.eqb_neq. Qed.

End Decoding.

Create HintDb commands.
#[export] Hint Resolve valid_live live_u64 : commands.

Ltac guard_side :=
  repeat (apply andb_true_iff; split);
  first [ done | by eauto with commands | by apply Z.eqb_eq
        | apply orb_true_iff; first [by left; apply Z.eqb_eq|by right; apply Z.eqb_eq] ].

(** Walks a handler along the payload of its call; arrays are left as goals. *)
Ltac call_steps :=
  repeat lazymatch goal with
  | |- reads_at _ (rret _) [] _ => apply reads_ret
  | |- reads_at _ (rbind r_ok _) _ _ => eapply reads_bind_nil; [apply reads_ok|cbv beta]
  | |- reads_at _ (rbind r_end _) [] _ => eapply reads_bind_nil; [apply reads_end|cbv beta]
  | |- reads_at _ (rbind (rguard _) _) _ _ => eapply reads_bind_nil; [apply reads_guard; guard_side|cbv beta]
  | |- reads_at _ (rbind (r_object _) _) (_ ++ _) _ =>
      eapply reads_bind; [apply reads_object; by eauto with commands|cbv beta]
  | |- reads_at _ (rbind (r_object _) _) _ _ =>
      eapply reads_bind_last; [apply reads_object; by eauto with commands|cbv beta]
  | |- reads_at _ (rbind (r_length _ _) _) _ _ => fail
  | |- reads_at _ (rbind _ _) (_ ++ _) _ => eapply reads_bind; [by reads_prim|cbv beta]
  | |- reads_at _ (rbind _ _) _ _ => eapply reads_bind_last; [by reads_prim|cbv beta]
  end.

Ltac unfold_handler :=
  let rec head t := lazymatch t with ?f _ => head f | _ => t end in
  lazymatch goal with |- reads_at _ ?m _ _ => let h := head m in unfold h end.

Ltac split_hyps :=
  repeat match goal with H : _ /\ _ |- _ => destruct H end; forall_hyps.

Section Scalars.
Context `{Abi} {HR : HandleResolver}.
Variable d : Device.
Variable framebuffers : gmap Z FramebufferMetadata.
Variable to_cmd : Z -> Recording.

(** Commands without arrays or structs. *)
Definition scalar (x : command) : bool :=
  match x with
  | vkCmdNextSubpass _ | vkCmdEndRenderPass | vkCmdSetFragmentShadingRateKHR _ _ _ | vkCmdSetDeviceMask _
  | vkCmdDispatchBase _ _ _ _ _ _ | vkCmdBindPipeline _ _ | vkCmdBindIndexBuffer _ _ _
  | vkCmdDraw _ _ _ _ | vkCmdDispatch _ _ _ | vkCmdDrawIndexed _ _ _ _ _ | vkCmdFillBuffer _ _ _ _
  | vkCmdDrawIndirect _ _ _ _ | vkCmdDrawIndexedIndirect _ _ _ _ | vkCmdDrawIndirectCount _ _ _ _ _ _
  | vkCmdDrawIndexedIndirectCount _ _ _ _ _ _ | vkCmdDispatchIndirect _ _ | vkCmdBeginQuery _ _ _
  | vkCmdEndQuery _ _ | vkCmdResetQueryPool _ _ _ | vkCmdWriteTimestamp _ _ _
  | vkCmdCopyQueryPoolResults _ _ _ _ _ _ _ | vkCmdSetEvent _ _ | vkCmdResetEvent _ _
  | vkCmdSetLineWidth _ | vkCmdSetDepthBias _ _ _ | vkCmdSetBlendConstants _ _ _ _
  | vkCmdSetDepthBounds _ _ | vkCmdSetStencilCompareMask _ _ | vkCmdSetStencilWriteMask _ _
  | vkCmdSetStencilReference _ _ | vkCmdResetEvent2 _ _ => true
  | _ => false
  end.

Lemma decodes_scalar x m cb name payload cb' :
  scalar x = true -> decoder x = Some m ->
  record_call d framebuffers to_cmd x cb = (Some (name, payload), cb') ->
  call_ok to_cmd x -> live hr_command_buffer (rc_remote_id cb) ->
  reads_at [] m payload (hr_command_buffer (rc_remote_id cb), received to_cmd x).
Proof.
  intros Hs Hm Hr Hok Hcb. destruct x; try discriminate Hs; injection Hm as <-;
    cbn [record_call] in Hr; cbn [call_ok] in Hok; split_hyps.
  all: try (injection Hr as <- <- <-; cbn [received]; solve [unfold_handler; call_steps]).
  - destruct size. injection Hr as <- <- <-. unfold_handler. call_steps.
  - unfold CmdBindIndexBuffer in Hr. erewrite not_zero in Hr by eassumption.
    injection Hr as <- <- <-. assert (is_i32 index_type) by (unfold is_i32; lia).
    destruct H2; unfold_handler; call_steps.
  - injection Hr as <- <- <-.
    assert ((size =? VK_WHOLE_SIZE) || (negb (size =? 0) && (Z.land size 3 =? 0)) = true).
    { apply orb_true_iff. destruct H4 as [->|[? ?]]; [by left|right].
      apply andb_true_iff. split; [by apply negb_true_iff, Z.eqb_neq|by apply Z.eqb_eq]. }
    unfold_handler. call_steps.
Qed.

End Scalars.

(** An array of the payload. *)
Ltac read_array el :=
  first
    [ eapply reads_array_ok; [counts_side|exact el|cbv beta; rewrite ?map_id]
    | eapply reads_array; [counts_side|exact el|cbv beta; rewrite ?map_id]
    | eapply reads_array_ok_last; [counts_side|exact el|cbv beta; rewrite ?map_id]
    | eapply reads_array_last; [counts_side|exact el|cbv beta; rewrite ?map_id] ]
with counts_side := first [by apply counts_length|by apply counts_nonempty].

Tactic Notation "array_hyp" constr(P) "as" ident(Hn) ident(Hxs) :=
  match goal with H : array_ok P _ |- _ => destruct H as [Hn Hxs] end.

Section Arrays.
Context `{Abi} {HR : HandleResolver}.
Variable d : Device.
Variable framebuffers : gmap Z FramebufferMetadata.
Variable to_cmd : Z -> Recording.

(** Copies, blits and the state that takes an array of plain structs. *)
Definition raw_array (x : command) : bool :=
  match x with
  | vkCmdSetViewport _ _ | vkCmdSetScissor _ _ | vkCmdCopyBuffer _ _ _ | vkCmdCopyBufferToImage _ _ _ _
  | vkCmdCopyImageToBuffer _ _ _ _ | vkCmdCopyImage _ _ _ _ _ | vkCmdBlitImage _ _ _ _ _ _
  | vkCmdClearColorImage _ _ _ _ => true
  | _ => false
  end.

Lemma decodes_raw_array x m cb name payload cb' :
  raw_array x = true -> decoder x = Some m ->
  record_call d framebuffers to_cmd x cb = (Some (name, payload), cb') ->
  call_ok to_cmd x -> live hr_command_buffer (rc_remote_id cb) ->
  reads_at [] m payload (hr_command_buffer (rc_remote_id cb), received to_cmd x).
Proof.
  intros Hs Hm Hr Hok Hcb. destruct x; try discriminate Hs; injection Hm as <-;
    cbn [record_call] in Hr; cbn [call_ok] in Hok; split_hyps; injection Hr as <- <- <-;
    cbn [received]; unfold_handler; call_steps.
  all: match goal with H : array_ok raw_ok ?xs |- _ => destruct H as [Hn Hxs] end.
  all: try (read_array (elements_raw _ Hxs ltac:(intros x; hnf; cbn; tauto)); call_steps).
  rewrite pod_read_bytes; [apply reads_ret|by destruct H2|done].
Qed.

(** Commands with arrays of objects or of structs sent member by member. *)
Definition other_array (x : command) : bool :=
  match x with
  | vkCmdBindDescriptorSets _ _ _ _ _ | vkCmdBindVertexBuffers _ _ | vkCmdExecuteCommands _
  | vkCmdResolveImage _ _ _ _ _ | vkCmdClearDepthStencilImage _ _ _ _ | vkCmdClearAttachments _ _
  | vkCmdPipelineBarrier _ _ _ _ _ _ | vkCmdWaitEvents _ _ _ _ _ _ => true
  | _ => false
  end.

Lemma elements_vertex_buffers xs : Forall (fun b => live hr_buffer b.1 /\ is_u64 b.2) xs ->
  Forall (element 16 (fun b => Writer.handle b.1 ++ Writer.u64 b.2) read_vertex_buffer
            (fun b => (hr_buffer b.1, b.2))) xs.
Proof.
  intros Hxs. apply (elements _ _ _ _ _ _ Hxs); [intros; encoded_length|].
  intros [b o] rest [Hb Ho]. unfold read_vertex_buffer. call_steps.
Qed.

Lemma elements_range xs : Forall range_ok xs -> Forall (element 20 write_range read_range id) xs.
Proof.
  intros Hxs. apply (elements _ _ _ _ _ _ Hxs); [intros [] ?; cbn [write_range]; encoded_length|].
  intros [] rest Hx. cbn in Hx. forall_hyps. unfold read_range, write_range. call_steps.
Qed.

Lemma reads_layers rest x : layers_ok x -> reads_at rest read_layers (write_layers x) x.
Proof. destruct x. intros Hx. cbn in Hx. forall_hyps. unfold read_layers, write_layers. call_steps. Qed.

Lemma reads_offset rest x : offset_ok x -> reads_at rest read_offset (write_offset x) x.
Proof. destruct x. intros Hx. cbn in Hx. forall_hyps. unfold read_offset, write_offset. call_steps. Qed.

Lemma elements_resolve xs : Forall resolve_ok xs -> Forall (element 64 write_ImageResolve read_ImageResolve id) xs.
Proof.
  intros Hxs. apply (elements _ _ _ _ _ _ Hxs).
  - intros [[] [] [] [] []] ?. unfold write_ImageResolve. cbn. encoded_length.
  - intros [s so e eo []] rest (H1 & H2 & H3 & H4 & Hx). cbn in Hx. forall_hyps.
    unfold read_ImageResolve, write_ImageResolve. cbn.
    eapply reads_bind; [by apply reads_layers|]. eapply reads_bind; [by apply reads_offset|].
    eapply reads_bind; [by apply reads_layers|]. eapply reads_bind; [by apply reads_offset|]. call_steps.
Qed.

Lemma elements_clear_attachment xs : Forall clear_attachment_ok xs ->
  Forall (element 12 write_ClearAttachment read_ClearAttachment id) xs.
Proof.
  intros Hxs. apply (elements _ _ _ _ _ _ Hxs).
  - intros [a b v] _. unfold write_ClearAttachment, write_raw. encoded_length.
  - intros [a b v] rest [Hu Hv]. cbn in Hu, Hv. forall_hyps.
    unfold read_ClearAttachment, write_ClearAttachment, write_raw. cbn [ca_aspectMask ca_colorAttachment ca_clearValue]. call_steps.
    rewrite pod_read_bytes; [apply reads_ret|by destruct Hv|done].
Qed.

Lemma elements_clear_rect xs : Forall clear_rect_ok xs ->
  Forall (element 24 write_ClearRect read_ClearRect id) xs.
Proof.
  intros Hxs. apply (elements _ _ _ _ _ _ Hxs).
  - intros [[[] []]] _. unfold write_ClearRect. cbn. encoded_length.
  - intros [[[] []]] rest [H1 H2]. cbn in H1, H2. forall_hyps.
    unfold read_ClearRect, write_ClearRect. cbn. call_steps.
Qed.

Lemma elements_memory_barrier xs : Forall (fun s => raw_ok (VkMemoryBarrier.set_pNext Null s)) xs ->
  Forall (element 4 write_MemoryBarrier read_MemoryBarrier recv_memory_barrier) xs.
Proof.
  intros Hxs. apply (elements _ _ _ _ _ _ Hxs); [intros; apply length_write_raw|].
  intros; by apply reads_MemoryBarrier.
Qed.

Lemma elements_buffer_barrier xs : Forall (fun s => raw_ok (VkBufferMemoryBarrier.set_pNext Null s)) xs ->
  Forall (element 4 write_BufferMemoryBarrier read_BufferMemoryBarrier recv_buffer_barrier) xs.
Proof.
  intros Hxs. apply (elements _ _ _ _ _ _ Hxs); [intros; apply length_write_raw|].
  intros; by apply reads_BufferMemoryBarrier.
Qed.

Lemma elements_image_barrier xs : Forall (fun s => raw_ok (VkImageMemoryBarrier.set_pNext Null s)) xs ->
  Forall (element 4 write_ImageMemoryBarrier read_ImageMemoryBarrier recv_image_barrier) xs.
Proof.
  intros Hxs. apply (elements _ _ _ _ _ _ Hxs); [intros; apply length_write_raw|].
  intros; by apply reads_ImageMemoryBarrier.
Qed.

Lemma write_vertex_buffers first (bound : list (Z * Z)) cb :
  len bound <= kMaxArrayElements ->
  CmdBindVertexBuffers first (len bound) (Ref (map fst bound)) (Ref (map snd bound)) cb =
  sends "vkCmdBindVertexBuffers"
    (Writer.u32 first ++ write_each (fun b => Writer.handle b.1 ++ Writer.u64 b.2) (len bound) (Ref bound)) cb.
Proof.
  intros Hn. unfold CmdBindVertexBuffers. rewrite (proj2 (Z.ltb_ge _ _)) by done. cbn [orb is_null].
  rewrite andb_false_r, write_each_all. do 2 f_equal. unfold arr, len.
  rewrite Nat2Z.id, !take_ge by (by rewrite length_map). do 3 f_equal.
  induction bound as [|[] bound IH]; [done|]. cbn. rewrite IH; [done|]. unfold len in *. cbn in Hn. lia.
Qed.

Lemma bind_sets_sent point layout first sets offsets cb :
  live hr_pipeline_layout layout -> array_ok (live hr_descriptor_set) sets -> array_ok is_u32 offsets ->
  fst (CmdBindDescriptorSets point layout first (len sets) (Ref sets) (len offsets) (Ref offsets) cb) =
  send "vkCmdBindDescriptorSets"
    (Writer.i32 point ++ Writer.handle layout ++ Writer.u32 first ++
     write_each Writer.handle (len sets) (Ref sets) ++ write_each Writer.u32 (len offsets) (Ref offsets)) cb.
Proof.
  intros Hl [Hn Hs] [Hm _]. unfold CmdBindDescriptorSets. rewrite (not_zero _ _ Hl).
  rewrite !(proj2 (Z.ltb_ge _ _)) by done. unfold missing, arr, len. cbn [is_null].
  rewrite !andb_false_r, Nat2Z.id, take_ge by done. cbn [orb].
  replace (existsb _ sets) with false; [done|]. symmetry. clear Hn.
  induction Hs as [|s sets Hs _ IH]; [done|]. cbn. by rewrite (not_zero _ _ Hs).
Qed.

Lemma decodes_other_array x m cb name payload cb' :
  other_array x = true -> decoder x = Some m ->
  record_call d framebuffers to_cmd x cb = (Some (name, payload), cb') ->
  call_ok to_cmd x -> live hr_command_buffer (rc_remote_id cb) ->
  reads_at [] m payload (hr_command_buffer (rc_remote_id cb), received to_cmd x).
Proof.
  intros Hs Hm Hr Hok Hcb. destruct x; try discriminate Hs; injection Hm as <-;
    cbn [record_call] in Hr; cbn [call_ok] in Hok; split_hyps.
  - apply (f_equal fst) in Hr. rewrite bind_sets_sent in Hr by done. injection Hr as <- <-.
    assert (is_i32 bind_point) by (unfold is_i32; lia).
    destruct H3 as [Hn [Hv Hu]%live_all], H4 as [Hm Ho]. cbn [received]. unfold_handler. call_steps.
    read_array (elements_object hr_descriptor_set _ Hu). read_array (elements_u32 _ Ho).
    destruct H0; call_steps.
  - destruct H1 as [Hn Hxs]. rewrite write_vertex_buffers in Hr by done. injection Hr as <- <- <-.
    cbn [received]. unfold_handler. call_steps. read_array (elements_vertex_buffers _ Hxs).
    assert (forallb (fun b => valid b.1) (map (fun b => (hr_buffer b.1, b.2)) buffers) = true).
    { clear Hn Hs. induction Hxs as [|b xs [Hb _] _ IH]; [done|]. cbn. by rewrite (valid_live _ _ Hb). }
    call_steps.
  - injection Hr as <- <- <-. cbn [received]. unfold_handler. unfold write_barriers. call_steps.
    destruct H1 as ([Hn1 Hm] & [Hn2 Hb] & [Hn3 Hi]). read_array (elements_memory_barrier _ Hm).
    read_array (elements_buffer_barrier _ Hb). read_array (elements_image_barrier _ Hi). call_steps.
  - destruct Hok as [Hn Hxs]. injection Hr as <- <- <-. cbn [received]. unfold_handler. call_steps.
    assert (Forall (element 8 (fun a => Writer.handle (rc_remote_id (to_cmd a))) (r_object hr_command_buffer)
              (fun a => hr_command_buffer (rc_remote_id (to_cmd a)))) commands) as Hel.
    { apply (elements _ _ _ _ _ _ Hxs); [intros; encoded_length|]. intros; by apply reads_object. }
    change (Writer.u32 (len commands) ++ _) with
      (write_each (fun a => Writer.handle (rc_remote_id (to_cmd a))) (len commands) (Ref commands)).
    read_array Hel. call_steps.
  - array_hyp resolve_ok as Hn Hxs. injection Hr as <- <- <-. cbn [received]. unfold_handler. call_steps.
    read_array (elements_resolve _ Hxs). call_steps.
  - array_hyp range_ok as Hn Hxs. destruct value. injection Hr as <- <- <-. cbn [received]. unfold_handler. call_steps.
    read_array (elements_range _ Hxs). call_steps.
  - array_hyp clear_attachment_ok as Hn Hxs. array_hyp clear_rect_ok as Hm Hys. injection Hr as <- <- <-. cbn [received]. unfold_handler.
    call_steps. read_array (elements_clear_attachment _ Hxs). read_array (elements_clear_rect _ Hys).
    call_steps.
  - array_hyp is_u64 as Hn Hxs. injection Hr as <- <- <-. cbn [received]. unfold_handler. unfold write_barriers.
    call_steps. read_array (elements_object hr_event _ Hxs). call_steps.
    match goal with H : barriers_ok _ _ _ |- _ => destruct H as ([Hn1 Hm] & [Hn2 Hb] & [Hn3 Hi]) end. read_array (elements_memory_barrier _ Hm).
    read_array (elements_buffer_barrier _ Hb). read_array (elements_image_barrier _ Hi). call_steps.
Qed.

End Arrays.

Section Structs.
Context `{Abi} {HR : HandleResolver}.
Variable d : Device.
Variable framebuffers : gmap Z FramebufferMetadata.
Variable to_cmd : Z -> Recording.

Lemma reads_dependency rest s bs : write_DependencyInfo s = (true, bs) -> DependencyInfo_ok s ->
  reads_at rest read_DependencyInfo bs (recv_DependencyInfo s).
Proof. intros Hw Hok. pose proof (dependency_info_roundtrip rest s bs Hw Hok) as Hr. by destruct s. Qed.

Lemma reads_subpass_begin rest s bs : write_SubpassBeginInfo s = (true, bs) -> subpass_begin_ok s ->
  reads_at rest read_SubpassBeginInfo bs (recv_subpass_begin s).
Proof. intros Hw (? & ? & ?). by apply reads_SubpassBeginInfo. Qed.

Lemma reads_subpass_end rest s bs : write_SubpassEndInfo s = (true, bs) -> subpass_end_ok s ->
  reads_at rest read_SubpassEndInfo bs (recv_subpass_end s).
Proof. intros Hw (? & ?). by apply reads_SubpassEndInfo. Qed.

(** Bytes whose number the handler checks. *)
Lemma multiple_of_4 {A} (data : list A) : 0 < len data -> Z.land (len data) 3 = 0 ->
  (len data =? 0) = false /\ (Z.land (len data) 3 =? 0) = true /\ take (Z.to_nat (len data)) data = data.
Proof.
  intros Hl H4. split; [by apply Z.eqb_neq; lia|]. split; [by apply Z.eqb_eq|].
  unfold len. by rewrite Nat2Z.id, take_ge.
Qed.

Lemma decodes_update dst offset data m cb name payload cb' :
  decoder (vkCmdUpdateBuffer dst offset data) = Some m ->
  record_call d framebuffers to_cmd (vkCmdUpdateBuffer dst offset data) cb = (Some (name, payload), cb') ->
  call_ok to_cmd (vkCmdUpdateBuffer dst offset data) -> live hr_command_buffer (rc_remote_id cb) ->
  reads_at [] m payload (hr_command_buffer (rc_remote_id cb), vkCmdUpdateBuffer (hr_buffer dst) offset data).
Proof.
  intros [= <-] Hr (Hd & Ho & Ho4 & [H0 Hmax] & H4) Hcb. injection Hr as <- <- <-.
  destruct (multiple_of_4 data H0 H4) as (E0 & E4 & Ht). assert ((len data <=? kMaxUpdateBytes) = true) as Em by lia.
  rewrite E0, E4, Em. cbn [negb andb is_null arr]. rewrite Ht.
  change kMaxUpdateBytes with 65536 in Hmax. unfold handle_CmdUpdateBuffer.
  assert (is_u64 (len data)) by (unfold is_u64; lia). call_steps.
  eapply reads_bind_last; [apply reads_bytes; [done|unfold is_u32, len in *; lia]|].
  eapply reads_bind_nil; [apply reads_ok|]. eapply reads_bind_nil; [apply reads_guard|apply reads_ret].
  fold (len data). rewrite (valid_live _ _ Hcb), (valid_live _ _ Hd), E0, E4, Em, Z.eqb_refl.
  by rewrite (proj2 (Z.eqb_eq _ _) Ho4).
Qed.

Lemma decodes_push layout flags offset values m cb name payload cb' :
  decoder (vkCmdPushConstants layout flags offset values) = Some m ->
  record_call d framebuffers to_cmd (vkCmdPushConstants layout flags offset values) cb =
    (Some (name, payload), cb') ->
  call_ok to_cmd (vkCmdPushConstants layout flags offset values) -> live hr_command_buffer (rc_remote_id cb) ->
  reads_at [] m payload
    (hr_command_buffer (rc_remote_id cb), vkCmdPushConstants (hr_pipeline_layout layout) flags offset values).
Proof.
  intros [= <-] Hr (Hd & Ho & Ho4 & [H0 Hmax] & H4) Hcb. forall_hyps.
  destruct (multiple_of_4 values H0 H4) as (E0 & E4 & Ht). cbn [record_call] in Hr.
  unfold CmdPushConstants in Hr. rewrite (not_zero _ _ Hd), E0, E4, (proj2 (Z.ltb_ge _ _)) in Hr by done.
  rewrite (proj2 (Z.eqb_eq _ _) Ho4) in Hr. cbn [negb orb is_null arr] in Hr. rewrite Ht in Hr.
  injection Hr as <- <- <-. change kMaxPushConstantBytes with 65536 in Hmax. unfold handle_CmdPushConstants.
  call_steps. eapply reads_bind_last; [apply reads_bytes; [done|unfold is_u32, len in *; lia]|].
  eapply reads_bind_nil; [apply reads_ok|]. eapply reads_bind_nil; [apply reads_end|].
  eapply reads_bind_nil; [apply reads_guard|apply reads_ret].
  fold (len values). rewrite (valid_live _ _ Hcb), (valid_live _ _ Hd), E4, (proj2 (Z.eqb_eq _ _) Ho4).
  by destruct values.
Qed.

(** The calls that encode structs and give up when they cannot. *)
Definition struct_call (x : command) : bool :=
  match x with
  | vkCmdBeginRenderPass _ _ | vkCmdBeginRenderPass2 _ _ | vkCmdNextSubpass2 _ _ | vkCmdEndRenderPass2 _
  | vkCmdPipelineBarrier2 _ | vkCmdSetEvent2 _ _ | vkCmdUpdateBuffer _ _ _ | vkCmdPushConstants _ _ _ _ => true
  | _ => false
  end.

Lemma decodes_struct_call x m cb name payload cb' :
  struct_call x = true -> decoder x = Some m ->
  record_call d framebuffers to_cmd x cb = (Some (name, payload), cb') ->
  call_ok to_cmd x -> live hr_command_buffer (rc_remote_id cb) ->
  reads_at [] m payload (hr_command_buffer (rc_remote_id cb), received to_cmd x).
Proof.
  intros Hs Hm Hr Hok Hcb. destruct x; try discriminate Hs; injection Hm as <-;
    cbn [record_call] in Hr; cbn [call_ok] in Hok; cbn [received]; unfold_handler.
  - destruct Hok. unfold CmdBeginRenderPass in Hr.
    destruct (write_RenderPassBeginInfo info) as [[] bs] eqn:Hw; [|discriminate]. injection Hr as <- <- <-.
    call_steps. eapply reads_bind; [by apply reads_RenderPassBeginInfo|]. call_steps.
  - destruct Hok. unfold CmdBeginRenderPass2 in Hr.
    destruct (write_RenderPassBeginInfo info ;;; _) as [[] bs] eqn:Hw; [|discriminate].
    injection Hr as <- <- <-. apply wseq_true in Hw as (b1 & b2 & Hw1 & Hw2 & ->). call_steps.
    eapply reads_bind; [by apply reads_RenderPassBeginInfo|].
    eapply reads_bind_last; [by apply reads_subpass_begin|]. call_steps.
  - destruct Hok. unfold CmdNextSubpass2 in Hr.
    destruct (write_SubpassBeginInfo begin_info ;;; _) as [[] bs] eqn:Hw; [|discriminate].
    injection Hr as <- <- <-. apply wseq_true in Hw as (b1 & b2 & Hw1 & Hw2 & ->). call_steps.
    eapply reads_bind; [by apply reads_subpass_begin|].
    eapply reads_bind_last; [by apply reads_subpass_end|]. call_steps.
  - unfold CmdEndRenderPass2 in Hr.
    destruct (write_SubpassEndInfo end_info) as [[] bs] eqn:Hw; [|discriminate]. injection Hr as <- <- <-.
    call_steps. eapply reads_bind_last; [by apply reads_subpass_end|]. call_steps.
  - by eapply decodes_update.
  - unfold CmdPipelineBarrier2 in Hr.
    destruct (write_DependencyInfo info) as [[] bs] eqn:Hw; [|discriminate]. injection Hr as <- <- <-.
    call_steps. eapply reads_bind_last; [by apply reads_dependency|]. call_steps.
  - destruct Hok. unfold CmdSetEvent2 in Hr.
    destruct (write_DependencyInfo info) as [[] bs] eqn:Hw; [|discriminate]. injection Hr as <- <- <-.
    call_steps. eapply reads_bind_last; [by apply reads_dependency|]. call_steps.
  - by eapply decodes_push.
Qed.

End Structs.

(** ** Handlers *)

(** The opcode of a command. *)
Definition command_name (x : command) : string :=
  match x with
  | vkCmdBeginRenderPass _ _ => "vkCmdBeginRenderPass"
  | vkCmdNextSubpass _ => "vkCmdNextSubpass"
  | vkCmdEndRenderPass => "vkCmdEndRenderPass"
  | vkCmdBeginRenderPass2 _ _ => "vkCmdBeginRenderPass2"
  | vkCmdNextSubpass2 _ _ => "vkCmdNextSubpass2"
  | vkCmdEndRenderPass2 _ => "vkCmdEndRenderPass2"
  | vkCmdSetFragmentShadingRateKHR _ _ _ => "vkCmdSetFragmentShadingRateKHR"
  | vkCmdSetDeviceMask _ => "vkCmdSetDeviceMask"
  | vkCmdDispatchBase _ _ _ _ _ _ => "vkCmdDispatchBase"
  | vkCmdBindPipeline _ _ => "vkCmdBindPipeline"
  | vkCmdBindDescriptorSets _ _ _ _ _ => "vkCmdBindDescriptorSets"
  | vkCmdBindVertexBuffers _ _ => "vkCmdBindVertexBuffers"
  | vkCmdBindIndexBuffer _ _ _ => "vkCmdBindIndexBuffer"
  | vkCmdSetViewport _ _ => "vkCmdSetViewport"
  | vkCmdSetScissor _ _ => "vkCmdSetScissor"
  | vkCmdDraw _ _ _ _ => "vkCmdDraw"
  | vkCmdDispatch _ _ _ => "vkCmdDispatch"
  | vkCmdDrawIndexed _ _ _ _ _ => "vkCmdDrawIndexed"
  | vkCmdPipelineBarrier _ _ _ _ _ _ => "vkCmdPipelineBarrier"
  | vkCmdCopyBuffer _ _ _ => "vkCmdCopyBuffer"
  | vkCmdCopyBufferToImage _ _ _ _ => "vkCmdCopyBufferToImage"
  | vkCmdCopyImageToBuffer _ _ _ _ => "vkCmdCopyImageToBuffer"
  | vkCmdCopyImage _ _ _ _ _ => "vkCmdCopyImage"
  | vkCmdBlitImage _ _ _ _ _ _ => "vkCmdBlitImage"
  | vkCmdFillBuffer _ _ _ _ => "vkCmdFillBuffer"
  | vkCmdUpdateBuffer _ _ _ => "vkCmdUpdateBuffer"
  | vkCmdClearColorImage _ _ _ _ => "vkCmdClearColorImage"
  | vkCmdDrawIndirect _ _ _ _ => "vkCmdDrawIndirect"
  | vkCmdDrawIndexedIndirect _ _ _ _ => "vkCmdDrawIndexedIndirect"
  | vkCmdDrawIndirectCount _ _ _ _ _ _ => "vkCmdDrawIndirectCount"
  | vkCmdDrawIndexedIndirectCount _ _ _ _ _ _ => "vkCmdDrawIndexedIndirectCount"
  | vkCmdDispatchIndirect _ _ => "vkCmdDispatchIndirect"
  | vkCmdExecuteCommands _ => "vkCmdExecuteCommands"
  | vkCmdBeginQuery _ _ _ => "vkCmdBeginQuery"
  | vkCmdEndQuery _ _ => "vkCmdEndQuery"
  | vkCmdResetQueryPool _ _ _ => "vkCmdResetQueryPool"
  | vkCmdWriteTimestamp _ _ _ => "vkCmdWriteTimestamp"
  | vkCmdCopyQueryPoolResults _ _ _ _ _ _ _ => "vkCmdCopyQueryPoolResults"
  | vkCmdSetEvent _ _ => "vkCmdSetEvent"
  | vkCmdResetEvent _ _ => "vkCmdResetEvent"
  | vkCmdSetLineWidth _ => "vkCmdSetLineWidth"
  | vkCmdSetDepthBias _ _ _ => "vkCmdSetDepthBias"
  | vkCmdSetBlendConstants _ _ _ _ => "vkCmdSetBlendConstants"
  | vkCmdSetDepthBounds _ _ => "vkCmdSetDepthBounds"
  | vkCmdSetStencilCompareMask _ _ => "vkCmdSetStencilCompareMask"
  | vkCmdSetStencilWriteMask _ _ => "vkCmdSetStencilWriteMask"
  | vkCmdSetStencilReference _ _ => "vkCmdSetStencilReference"
  | vkCmdResolveImage _ _ _ _ _ => "vkCmdResolveImage"
  | vkCmdClearDepthStencilImage _ _ _ _ => "vkCmdClearDepthStencilImage"
  | vkCmdClearAttachments _ _ => "vkCmdClearAttachments"
  | vkCmdWaitEvents _ _ _ _ _ _ => "vkCmdWaitEvents"
  | vkCmdPipelineBarrier2 _ => "vkCmdPipelineBarrier2"
  | vkCmdSetEvent2 _ _ => "vkCmdSetEvent2"
  | vkCmdResetEvent2 _ _ => "vkCmdResetEvent2"
  | vkCmdWaitEvents2 _ => "vkCmdWaitEvents2"
  | vkCmdWriteTimestamp2 _ _ _ => "vkCmdWriteTimestamp2"
  | vkCmdPushConstants _ _ _ _ => "vkCmdPushConstants"
  end.

(** The entry point a handler looks up before it calls. *)
Definition entry_point (x : command) : option string :=
  match x with
  | vkCmdBeginRenderPass2 _ _ => Some "vkCmdBeginRenderPass2KHR"
  | vkCmdNextSubpass2 _ _ => Some "vkCmdNextSubpass2KHR"
  | vkCmdEndRenderPass2 _ => Some "vkCmdEndRenderPass2KHR"
  | vkCmdSetFragmentShadingRateKHR _ _ _ => Some "vkCmdSetFragmentShadingRateKHR"
  | vkCmdSetDeviceMask _ => Some "vkCmdSetDeviceMask"
  | vkCmdDispatchBase _ _ _ _ _ _ => Some "vkCmdDispatchBase"
  | vkCmdDrawIndirectCount _ _ _ _ _ _ => Some "vkCmdDrawIndirectCount"
  | vkCmdDrawIndexedIndirectCount _ _ _ _ _ _ => Some "vkCmdDrawIndexedIndirectCount"
  | vkCmdPipelineBarrier2 _ => Some "vkCmdPipelineBarrier2KHR"
  | vkCmdSetEvent2 _ _ => Some "vkCmdSetEvent2KHR"
  | vkCmdResetEvent2 _ _ => Some "vkCmdResetEvent2KHR"
  | vkCmdWaitEvents2 _ => Some "vkCmdWaitEvents2KHR"
  | vkCmdWriteTimestamp2 _ _ _ => Some "vkCmdWriteTimestamp2KHR"
  | _ => None
  end.

Section Handled.
Context `{Abi} {W : Type} {D : CommandDriver W}.
Implicit Type c : Session W.

(** The handler made this one call and nothing else happened. *)
Definition executed (cb : Z) (x : command) c c' : Prop :=
  driver c' = vkCmd cb x (driver c) /\ oneway_errors c' = oneway_errors c /\ sent c' = sent c /\
  writer c' = writer c /\ replied c' = replied c /\ close_connection c' = close_connection c.

(** The device of the command buffer is known and has the entry point. *)
Definition ready (x : command) (cb : Z) c : Prop :=
  match entry_point x with
  | None => True
  | Some name =>
      exists device, command_buffer_devices (tables c) !! cb = Some device /\
        vkGetDeviceProcAddr device name (driver c) = true
  end.

Section Issue.
Variables (m : HandleResolver -> Rd (Z * command)) (c : Session W) (payload : list byte) (cb : Z) (x : command).
Hypothesis Hm : reads_at [] (m (resolver_of (tables c))) payload (cb, x).
Hypothesis Hr : reader c = Reader.make payload.

Lemma issue_executed : executed cb x c (issue m c).
Proof. unfold issue, decode_with, Handler.rd. by rewrite Hr, (reads_at_run _ _ _ Hm). Qed.

Variables (name : string) (device : Z).
Hypothesis Hd : command_buffer_devices (tables c) !! cb = Some device.
Hypothesis Hp : vkGetDeviceProcAddr device name (driver c) = true.

Lemma issue_found_executed : executed cb x c (issue_found name m c).
Proof.
  unfold issue_found, decode_with, Handler.rd. rewrite Hr, (reads_at_run _ _ _ Hm). cbn.
  by rewrite Hd, Hp.
Qed.

Lemma issue_indexed_executed : executed cb x c (issue_indexed name m c).
Proof.
  unfold issue_indexed, decode_with, Handler.rd, device_proc. rewrite Hr, (reads_at_run _ _ _ Hm). cbn.
  rewrite Hd. cbn. by rewrite Hp.
Qed.

End Issue.

Variable d : Device.
Variable framebuffers : gmap Z FramebufferMetadata.
Variable to_cmd : Z -> Recording.

Lemma decodes {HR : HandleResolver} x m cb name payload cb' :
  decoder x = Some m -> record_call d framebuffers to_cmd x cb = (Some (name, payload), cb') ->
  call_ok to_cmd x -> live hr_command_buffer (rc_remote_id cb) ->
  reads_at [] m payload (hr_command_buffer (rc_remote_id cb), received to_cmd x).
Proof.
  intros Hm. destruct (scalar x) eqn:E1; [by eapply decodes_scalar|].
  destruct (raw_array x) eqn:E2; [by eapply decodes_raw_array|].
  destruct (other_array x) eqn:E3; [by eapply decodes_other_array|].
  destruct (struct_call x) eqn:E4; [by eapply decodes_struct_call|]. by destruct x.
Qed.

Lemma sent_name x cb name payload cb' :
  record_call d framebuffers to_cmd x cb = (Some (name, payload), cb') -> name = command_name x.
Proof.
  destruct x; cbn [record_call command_name]; intros Hr; try by injection Hr.
  all: let rec head t := lazymatch t with ?f _ => head f | _ => t end in
       match type of Hr with ?t = _ => let h := head t in unfold h in Hr end.
  all: unfold dropped, sends, send in Hr; repeat case_match; by simplify_eq.
Qed.

(** *** The two handlers of their own *)

(** What the loop over the events sends. *)
Lemma wait_events2_sent items : forall out cb args cb',
  wait_events2 d items out cb = (Some args, cb') ->
  exists bss, args = out ++ concat bss /\
    Forall2 (fun x b => exists b0, write_DependencyInfo x.2 = (true, b0) /\ b = Writer.handle x.1 ++ b0)
      items bss.
Proof.
  induction items as [|[e info] items IH]; intros out cb args cb'; cbn [wait_events2].
  - intros [= <- _]. exists []. by rewrite app_nil_r.
  - destruct (write_DependencyInfo info) as [[] bs] eqn:Hw; [|done].
    intros (bss & -> & Hb)%IH. exists ((Writer.handle e ++ bs) :: bss). split; [by rewrite <- !app_assoc|].
    constructor; [by exists bs|done].
Qed.

Lemma length_wait_events2 items bss :
  Forall2 (fun x b => exists b0, write_DependencyInfo x.2 = (true, b0) /\ b = Writer.handle x.1 ++ b0)
    items bss -> len items * 12 <= len (concat bss).
Proof.
  unfold len. induction 1 as [|x b items bss (b0 & Hw & ->) _ IH]; [done|]. apply length_dependency in Hw.
  unfold len in Hw. cbn [concat]. rewrite !length_app, length_cons, length_writer_handle. lia.
Qed.

Section WaitEvents2.
Context {HR : HandleResolver}.
Variable items : list (Z * VkDependencyInfo.t).
Hypothesis Hitems : array_ok (fun x => live hr_event x.1 /\ DependencyInfo_ok x.2) items.
Variable bss : list (list byte).
Hypothesis Hbss : Forall2 (fun x b => exists b0, write_DependencyInfo x.2 = (true, b0) /\
                                                b = Writer.handle x.1 ++ b0) items bss.

Lemma reads_wait_events2 :
  reads_at [] (read_wait_events2 (length items)) (concat bss)
    (map (fun x => (hr_event x.1, recv_DependencyInfo x.2)) items).
Proof.
  destruct Hitems as [Hn Hi]. unfold read_wait_events2.
  eapply reads_bind_last; [|call_steps].
  apply (reads_for _ _ (fun x b => (live hr_event x.1 /\ DependencyInfo_ok x.2) /\
      exists b0, write_DependencyInfo x.2 = (true, b0) /\ b = Writer.handle x.1 ++ b0)).
  - clear Hn Hitems. induction Hbss; decompose_Forall_hyps; constructor; auto.
  - intros x b rest [[He Hd] (b0 & Hw & ->)]. unfold read_wait_event2. call_steps.
    eapply reads_bind_last; [by apply reads_dependency|]. call_steps.
Qed.

Lemma reads_wait_events2_head id : live hr_command_buffer id ->
  reads_at (concat bss) read_wait_events2_head (Writer.handle id ++ Writer.u32 (len items))
    (hr_command_buffer id, length items).
Proof.
  intros Hcb. destruct Hitems as [Hn Hi]. unfold read_wait_events2_head. call_steps.
  eapply reads_bind_last; [|apply reads_ret]. apply counts_length; [done|lia|].
  by apply length_wait_events2.
Qed.
End WaitEvents2.

Lemma wait_events2_executed items cb name payload cb' c (HR := resolver_of (tables c)) :
  record_call d framebuffers to_cmd (vkCmdWaitEvents2 items) cb = (Some (name, payload), cb') ->
  call_ok to_cmd (vkCmdWaitEvents2 items) -> live hr_command_buffer (rc_remote_id cb) ->
  ready (vkCmdWaitEvents2 items) (hr_command_buffer (rc_remote_id cb)) c -> reader c = Reader.make payload ->
  executed (hr_command_buffer (rc_remote_id cb)) (received to_cmd (vkCmdWaitEvents2 items)) c
    (handle_CmdWaitEvents2 c).
Proof.
  intros Hr Hok Hcb (device & Hd & Hp) Hrd. cbn [record_call] in Hr. cbn [call_ok] in Hok.
  pose proof (proj1 Hok) as Hn. unfold CmdWaitEvents2 in Hr.
  rewrite (proj2 (Z.ltb_ge _ _)) in Hr by done. cbn [is_null orb] in Hr. rewrite andb_false_r in Hr.
  unfold arr, len in Hr. rewrite Nat2Z.id, !take_ge, zip_fst_snd in Hr by (by rewrite length_map).
  destruct (wait_events2 d items _ cb) as [[args|] cb1] eqn:Hs; [|discriminate Hr]. injection Hr as <- <- <-.
  pose proof (grows_wait_events2 d items (Writer.u32 (len items)) cb) as [Hid _].
  unfold len in Hid at 1. rewrite Hs in Hid. cbn [snd] in Hid. rewrite Hid in Hrd.
  apply wait_events2_sent in Hs as (bss & -> & Hb). rewrite app_assoc in Hrd.
  pose proof (reads_wait_events2_head items Hok bss Hb _ Hcb) as H1.
  pose proof (reads_wait_events2 items Hok bss Hb) as H2.
  set (head := Writer.handle _ ++ _) in *. fold (len items) in Hrd. fold head in Hrd.
  pose proof (reads_at_elim _ _ _ _ (Reader.make (head ++ concat bss)) H1 (ReaderFacts.make_wf _) eq_refl
                (ReaderFacts.unread_make _)) as R1.
  destruct (advance_ok (length head) (Reader.make (head ++ concat bss)) head (concat bss)
              (ReaderFacts.make_wf _) eq_refl (ReaderFacts.unread_make _) eq_refl) as (Hw & Hf & Hu).
  pose proof (reads_at_elim _ _ _ _ _ H2 Hw Hf ltac:(by rewrite Hu, app_nil_r)) as R2.
  subst HR. unfold handle_CmdWaitEvents2, decode_with, Handler.rd. rewrite Hrd, R1. cbn in Hd |- *. rewrite R2. cbn.
  rewrite Hd. cbn. by rewrite Hp.
Qed.

Lemma timestamp2_executed stage pool query cb name payload cb' c (HR := resolver_of (tables c)) :
  let x := vkCmdWriteTimestamp2 stage pool query in
  record_call d framebuffers to_cmd x cb = (Some (name, payload), cb') ->
  call_ok to_cmd x -> live hr_command_buffer (rc_remote_id cb) ->
  ready x (hr_command_buffer (rc_remote_id cb)) c -> reader c = Reader.make payload ->
  executed (hr_command_buffer (rc_remote_id cb)) (received to_cmd x) c (handle_CmdWriteTimestamp2 c).
Proof.
  intros x Hr (Hs & Hp & Hq) Hcb (device & Hd & Hproc) Hrd. injection Hr as <- <- <-.
  pose proof (at_make (Writer.handle (rc_remote_id cb) ++ Writer.u64 stage ++ Writer.handle pool ++ Writer.u32 query)) as Hat.
  rewrite <- (app_nil_r (Writer.u32 query)) in Hat at 2.
  unfold handle_CmdWriteTimestamp2, Handler.rd. rewrite Hrd. fold HR.
  pose proof (live_u64 _ _ Hcb). pose proof (live_u64 _ _ Hp).
  decode Hat. cbn. decode Hat. cbn. decode Hat. cbn. decode Hat. cbn.
  pose proof (valid_live _ _ Hcb) as Hv. pose proof (not_null _ _ Hp) as Hn.
  subst HR. cbn in Hv, Hn, Hd. rewrite Hv. unfold device_proc. cbn. rewrite Hd. cbn.
  rewrite Hproc, Hn. cbn. rewrite (at_ok _ _ Hat), (at_remaining _ _ Hat). done.
Qed.

(** C26: A recorded command runs on the server as the application recorded it.
    Whatever recording call sends a message, with valid arguments, on a live
    command buffer whose device has the entry point: the handler registered for
    its opcode makes exactly one driver call, the same command with the
    connection's objects in place of the ids, counts no error and sends nothing. *)
Theorem command_executed x cb name payload cb' c (HR := resolver_of (tables c)) :
  record_call d framebuffers to_cmd x cb = (Some (name, payload), cb') ->
  call_ok to_cmd x -> live hr_command_buffer (rc_remote_id cb) ->
  ready x (hr_command_buffer (rc_remote_id cb)) c -> reader c = Reader.make payload ->
  exists handler, find_entry command_handlers name = Some handler /\
    executed (hr_command_buffer (rc_remote_id cb)) (received to_cmd x) c (handler c).
Proof.
  intros Hr Hok Hcb Hready Hrd. pose proof (sent_name _ _ _ _ _ Hr) as ->.
  destruct x; eexists; (split; [reflexivity|]).
  all: first
    [ by eapply wait_events2_executed | by eapply timestamp2_executed
    | eapply issue_executed; [by eapply decodes|done]
    | destruct Hready as (device & Hd & Hp);
      first [ eapply issue_found_executed; [by eapply decodes|done|exact Hd|exact Hp]
            | eapply issue_indexed_executed; [by eapply decodes|done|exact Hd|exact Hp] ] ].
Qed.

End Handled.

(** ** A concrete copy *)
Module CommandDemo.

#[local] Existing Instance Instances.abi.

(** A driver that keeps its calls. *)
#[export] Instance driver : CommandDriver (list (Z * command)) :=
  {| vkCmd cb x w := w ++ [(cb, x)]; vkGetDeviceProcAddr _ _ _ := true;
     vkCreateCommandPool _ _ w := (VK_SUCCESS, 31, w); vkDestroyCommandPool _ _ w := w;
     vkAllocateCommandBuffers _ info w :=
       (VK_SUCCESS, imap (fun i _ => 100 + Z.of_nat i)
          (replicate (Z.to_nat (VkCommandBufferAllocateInfo.commandBufferCount info)) 0), w);
     vkFreeCommandBuffers _ _ _ w := w; vkBeginCommandBuffer _ _ w := (VK_SUCCESS, w);
     vkEndCommandBuffer _ w := (VK_SUCCESS, w); vkResetCommandBuffer _ _ w := (VK_SUCCESS, w);
     vkTrimCommandPool _ _ _ w := w; vkResetCommandPool _ _ _ w := (VK_SUCCESS, w) |}.

(** A command buffer, two buffers and a device. *)
Definition objects : ObjectTables :=
  {| capabilities := 0;
     table := fun k =>
       if decide (k = Objects.command_buffers) then snd (Table.add Table.empty 100 5)
       else if decide (k = buffers) then snd (Table.add (snd (Table.add Table.empty 200 5)) 201 5)
       else if decide (k = devices) then snd (Table.add Table.empty 5 0)
       else if decide (k = command_pools) then snd (Table.add Table.empty 31 5)
       else Table.empty;
     memory_metadata := ∅; device_physical_devices := ∅; command_buffer_devices := {[ 100 := 5 ]};
     descriptor_set_owners := ∅; descriptor_update_template_owners := ∅;
     descriptor_update_template_entries := ∅; sampler_ycbcr_conversion_owners := ∅;
     swapchain_devices := ∅; swapchain_surfaces := ∅; swapchain_image_ids := ∅ |}.

Definition session (payload : list byte) : Session (list (Z * command)) :=
  mkSession _ (Reader.make payload) [] objects 0 1 0 false false [] [].

Definition request : list byte :=
  Writer.handle 1 ++ Writer.handle 1 ++ Writer.handle 2 ++
  write_each write_BufferCopy 1 (Ref [VkBufferCopy.mk 0 0 64]).

Lemma command_executed_witness :
  exists handler, find_entry command_handlers "vkCmdCopyBuffer" = Some handler /\
    executed 100 (vkCmdCopyBuffer 200 201 [VkBufferCopy.mk 0 0 64]) (session request) (handler (session request)).
Proof.
  apply (command_executed RecordingDemo.records ∅ (fun _ => RecordingDemo.fresh) RecordingDemo.copy
           RecordingDemo.fresh "vkCmdCopyBuffer" request
           (snd (record_call RecordingDemo.records ∅ (fun _ => RecordingDemo.fresh) RecordingDemo.copy
                   RecordingDemo.fresh)) (session request)); [done| |by apply (bool_decide_unpack _)|done|done].
  split; [by apply (bool_decide_unpack _)|]. split; [by apply (bool_decide_unpack _)|].
  split; [done|]. constructor; [|constructor]. split; [done|]. by apply (bool_decide_unpack _).
Defined.

(** The copies pass an unknown buffer on as null. *)
Lemma copy_of_unknown_buffer :
  let payload := Writer.handle 1 ++ Writer.handle 77 ++ Writer.handle 2 ++ Writer.u32 0 in
  Session.driver (issue (fun _ => handle_CmdCopyBuffer) (session payload)) = [(100, vkCmdCopyBuffer 0 201 [])].
Proof. by vm_compute. Qed.

(** A barrier cut off after its memory barriers is executed all the same: the
    counts it lacks read as zero, and nothing looks at the reader again. *)
Lemma truncated_barrier_executes :
  let payload := Writer.handle 1 ++ Writer.u32 1 ++ Writer.u32 1 ++ Writer.u32 0 ++ Writer.u32 0 in
  Session.driver (issue (fun _ => handle_CmdPipelineBarrier) (session payload)) =
    [(100, vkCmdPipelineBarrier 1 1 0 [] [] [])] /\
  oneway_errors (issue (fun _ => handle_CmdPipelineBarrier) (session payload)) = 0.
Proof. by vm_compute. Qed.

End CommandDemo.

(** Every function an application can ask for sends an opcode that has a
    handler. *)
Lemma entries_registered `{Abi} {W : Type} {D : CommandDriver W} :
  Forall (fun e => is_Some (find_entry (A := Session W -> Session W) command_handlers e.2)) get_command_entries.
Proof. repeat constructor; eexists; reflexivity. Qed.
