(* ===== verification/CommandSafety.v ===== *)
(** Any message to a recording handler of [ServerCommands]: one driver call on
    objects of the connection, with null only where no handler tests for it, or
    one counted error and no call at all. *)

From stdpp Require Import list gmap strings.
From S2P Require Import Prelude Wire Codec CLayout VkStructs PNext PNextFacts VkCreateInfos VkCommands.
From S2P Require Import MarshalBase Marshal MarshalChained MarshalDescriptor MarshalSync MarshalValues.
From S2P Require Import HostMemory Objects Session ServerCommands.
Open Scope wire_scope.

(** ** Commands over known objects *)
Section Confined.
Context {HR : HandleResolver}.

(** Null, or what the table gives for some id. *)
Definition known (resolve : Z -> Z) (h : Z) : Prop := h = 0 \/ exists id, h = resolve id.

(** Not null. *)
Definition object (resolve : Z -> Z) (h : Z) : Prop := known resolve h /\ h <> 0.

Definition known_render_pass (info : VkRenderPassBeginInfo.t) : Prop :=
  known hr_render_pass (VkRenderPassBeginInfo.renderPass info) /\
  known hr_framebuffer (VkRenderPassBeginInfo.framebuffer info).

Definition known_barriers (bs : list VkBufferMemoryBarrier.t) (im : list VkImageMemoryBarrier.t) : Prop :=
  Forall (fun b => known hr_buffer (VkBufferMemoryBarrier.buffer b)) bs /\
  Forall (fun b => known hr_image (VkImageMemoryBarrier.image b)) im.

Definition known_dependency (info : VkDependencyInfo.t) : Prop :=
  Forall (fun b => known hr_buffer (VkBufferMemoryBarrier2.buffer b))
    (arr (VkDependencyInfo.pBufferMemoryBarriers info) (VkDependencyInfo.bufferMemoryBarrierCount info)) /\
  Forall (fun b => known hr_image (VkImageMemoryBarrier2.image b))
    (arr (VkDependencyInfo.pImageMemoryBarriers info) (VkDependencyInfo.imageMemoryBarrierCount info)).

(** The objects of a command, but for the attachments in the chain of a render
    pass. *)
Definition confined (x : command) : Prop :=
  match x with
  | vkCmdBeginRenderPass info _ | vkCmdBeginRenderPass2 info _ => known_render_pass info
  | vkCmdBindPipeline _ pipeline => known hr_pipeline pipeline
  | vkCmdBindDescriptorSets point layout _ sets _ =>
      (point = 0 \/ point = 1) /\ object hr_pipeline_layout layout /\ Forall (object hr_descriptor_set) sets
  | vkCmdBindVertexBuffers _ bound => Forall (fun b => object hr_buffer b.1) bound
  | vkCmdBindIndexBuffer buffer _ index_type => object hr_buffer buffer /\ (index_type = 0 \/ index_type = 1)
  | vkCmdPipelineBarrier _ _ _ _ bs im => known_barriers bs im
  | vkCmdCopyBuffer src dst _ => known hr_buffer src /\ known hr_buffer dst
  | vkCmdCopyBufferToImage src dst _ _ => known hr_buffer src /\ known hr_image dst
  | vkCmdCopyImageToBuffer src _ dst _ => known hr_image src /\ known hr_buffer dst
  | vkCmdCopyImage src _ dst _ regions =>
      object hr_image src /\ object hr_image dst /\ regions <> []
  | vkCmdBlitImage src _ dst _ regions _ =>
      object hr_image src /\ object hr_image dst /\ regions <> []
  | vkCmdResolveImage src _ dst _ _ => object hr_image src /\ object hr_image dst
  | vkCmdFillBuffer dst offset size _ =>
      object hr_buffer dst /\ Z.land offset 3 = 0 /\
      (size = VK_WHOLE_SIZE \/ size <> 0 /\ Z.land size 3 = 0)
  | vkCmdUpdateBuffer dst offset data =>
      object hr_buffer dst /\ Z.land offset 3 = 0 /\ data <> [] /\
      Z.of_nat (length data) <= kMaxUpdateBytes /\ Z.land (Z.of_nat (length data)) 3 = 0
  | vkCmdClearColorImage image _ _ _ => known hr_image image
  | vkCmdDrawIndirect b _ _ _ | vkCmdDrawIndexedIndirect b _ _ _ | vkCmdDispatchIndirect b _ => object hr_buffer b
  | vkCmdDrawIndirectCount b _ count _ _ _ | vkCmdDrawIndexedIndirectCount b _ count _ _ _ =>
      object hr_buffer b /\ object hr_buffer count
  | vkCmdExecuteCommands commands => Forall (known hr_command_buffer) commands
  | vkCmdBeginQuery p _ _ | vkCmdEndQuery p _ | vkCmdResetQueryPool p _ _ | vkCmdWriteTimestamp _ p _
  | vkCmdWriteTimestamp2 _ p _ => object hr_query_pool p
  | vkCmdCopyQueryPoolResults p _ _ b _ _ _ => object hr_query_pool p /\ object hr_buffer b
  | vkCmdSetEvent e _ | vkCmdResetEvent e _ | vkCmdResetEvent2 e _ => object hr_event e
  | vkCmdClearDepthStencilImage image _ _ _ => object hr_image image
  | vkCmdWaitEvents es _ _ _ bs im => Forall (known hr_event) es /\ known_barriers bs im
  | vkCmdPipelineBarrier2 info => known_dependency info
  | vkCmdSetEvent2 e info => object hr_event e /\ known_dependency info
  | vkCmdWaitEvents2 items => Forall (fun i => object hr_event i.1 /\ known_dependency i.2) items
  | vkCmdPushConstants layout _ offset values =>
      object hr_pipeline_layout layout /\ values <> [] /\ Z.of_nat (length values) <= kMaxPushConstantBytes /\
      Z.land offset 3 = 0 /\ Z.land (Z.of_nat (length values)) 3 = 0
  | _ => True
  end.

(** What a decoder hands over. *)
Definition sound (m : Rd (Z * command)) : Prop :=
  rd_ensures m (fun p => object hr_command_buffer p.1 /\ confined p.2).

End Confined.

(** ** What the readers establish *)
Section Readers.
Context `{Abi} {HR : HandleResolver}.

Lemma patch_known f id : known f (patch_handle f id).
Proof. unfold patch_handle, known. case_if; eauto. Qed.

Lemma ensures_object f : rd_ensures (r_object f) (known f).
Proof. apply ensures_bind_any. intros id. apply ensures_ret. right. by exists id. Qed.

Lemma ensures_each {A} n (m : Rd A) (P : A -> Prop) : rd_ensures m P -> rd_ensures (rfor n m) (Forall P).
Proof. intros Hm. eapply ensures_impl; [by apply ensures_for|]. by intros xs [_ ?]. Qed.

Lemma ensures_objects n f : rd_ensures (rfor n (r_object f)) (Forall (known f)).
Proof. apply ensures_each, ensures_object. Qed.

Lemma ensures_vertex_buffers n : rd_ensures (rfor n read_vertex_buffer) (Forall (fun b => known hr_buffer b.1)).
Proof.
  apply ensures_each. eapply ensures_bind; [apply ensures_object|]. intros b Hb.
  apply ensures_bind_any. intros o. by apply ensures_ret.
Qed.

Lemma ensures_render_pass : rd_ensures read_RenderPassBeginInfo known_render_pass.
Proof.
  unfold read_RenderPassBeginInfo. do 3 (apply ensures_bind_any; intros ?). apply ensures_ret.
  split; apply patch_known.
Qed.

Lemma ensures_buffer_barriers n :
  rd_ensures (rfor n read_BufferMemoryBarrier) (Forall (fun b => known hr_buffer (VkBufferMemoryBarrier.buffer b))).
Proof. apply ensures_each, ensures_bind_any. intros s. apply ensures_ret, patch_known. Qed.

Lemma ensures_image_barriers n :
  rd_ensures (rfor n read_ImageMemoryBarrier) (Forall (fun b => known hr_image (VkImageMemoryBarrier.image b))).
Proof. apply ensures_each, ensures_bind_any. intros s. apply ensures_ret, patch_known. Qed.

Lemma ensures_bounded {A} checked size (m : Rd A) (P : A -> Prop) : rd_ensures m P ->
  rd_ensures (read_bounded checked size m) (fun p => Forall P (arr (snd p) (fst p))).
Proof.
  intros Hm. apply ensures_bind_any. intros n. eapply ensures_bind; [by apply ensures_each|].
  intros xs Hx. apply ensures_ret. destruct xs; cbn; [constructor|]. by apply Forall_take.
Qed.

Lemma ensures_dependency : rd_ensures read_DependencyInfo known_dependency.
Proof.
  unfold read_DependencyInfo. do 2 (apply ensures_bind_any; intros ?).
  eapply ensures_bind; [apply (ensures_bounded _ _ _ (fun b => known hr_buffer (VkBufferMemoryBarrier2.buffer b)))|].
  { do 9 (apply ensures_bind_any; intros ?). apply ensures_bind_any; intros _. apply ensures_ret. right. by eexists. }
  intros b Hb.
  eapply ensures_bind; [apply (ensures_bounded _ _ _ (fun b => known hr_image (VkImageMemoryBarrier2.image b)))|].
  { do 14 (apply ensures_bind_any; intros ?). apply ensures_bind_any; intros _. apply ensures_ret. right. by eexists. }
  intros i Hi. apply ensures_bind_any. intros _. apply ensures_ret. by split.
Qed.

Lemma ensures_bytes max : 0 <= max -> rd_ensures (r_bytes max) (fun bs => Z.of_nat (length bs) <= max).
Proof.
  intros Hm. apply ensures_intro. intros r bs r'. unfold r_bytes, Reader.bytes.
  destruct (Reader.u32 r) as [size r1]. case_if; [done|]. intros [= <- _]. bool_hyps.
  rewrite length_take. lia.
Qed.

Lemma ensures_nonempty min : rd_ensures (r_nonempty min) (fun n => n <> 0%nat).
Proof.
  apply ensures_bind_any. intros n. apply ensures_bind_guard. intros Hn. apply ensures_ret.
  by apply Nat.eqb_neq, negb_true_iff.
Qed.

Lemma ensures_length_for {A} n (m : Rd A) : n <> 0%nat -> rd_ensures (rfor n m) (fun xs => xs <> []).
Proof.
  intros Hn. eapply ensures_impl; [apply ensures_for_length|]. intros [|x xs] Hl; [by destruct n|done].
Qed.

End Readers.

(** *** Every decoder *)

Create HintDb sound.
#[export] Hint Resolve ensures_object ensures_objects ensures_vertex_buffers ensures_render_pass
  ensures_buffer_barriers ensures_image_barriers ensures_dependency ensures_nonempty ensures_length_for : sound.

(** Collects what each step establishes. *)
Ltac sound_steps :=
  repeat first
    [ apply ensures_bind_guard; intros ?
    | eapply ensures_bind; [first [eassumption|solve [eauto 2 with sound nocore]]|intros ? ?]
    | apply ensures_bind_any; intros ? ];
  apply ensures_ret.

Lemma valid_object f h : known f h -> valid h = true -> object f h.
Proof. intros Hk Hv. split; [done|]. by apply Z.eqb_neq, negb_true_iff. Qed.

Lemma valid_objects f hs : Forall (known f) hs -> forallb valid hs = true -> Forall (object f) hs.
Proof.
  induction 1 as [|h hs Hh _ IH]; [constructor|]. cbn. intros [? ?]%andb_true_iff.
  constructor; [by apply valid_object|auto].
Qed.

Ltac sound_side :=
  repeat match goal with
  | H : _ && _ = true |- _ => apply andb_true_iff in H as [? ?]
  | H : _ || _ = true |- _ => apply orb_true_iff in H
  | H : (_ =? _) = true |- _ => apply Z.eqb_eq in H
  | H : negb (_ =? _) = true |- _ => apply negb_true_iff in H; first [apply Z.eqb_neq in H|apply Nat.eqb_neq in H]
  | H : Forall (known ?f) ?hs, H' : forallb valid ?hs = true |- _ => pose proof (valid_objects f hs H H'); clear H'
  | H : known ?f ?h, H' : valid ?h = true |- _ => pose proof (valid_object f h H H'); clear H'
  end.

Ltac sound_handler :=
  let rec head t := lazymatch t with ?f _ => head f | _ => t end in
  lazymatch goal with |- sound ?m => let h := head m in unfold sound, h end;
  sound_steps; sound_side; cbn [fst snd confined]; split; [done|];
  repeat match goal with H : (_ =? _) = true \/ _ |- _ => rewrite ?andb_true_iff, ?negb_true_iff, ?Z.eqb_eq, ?Z.eqb_neq in H end;
  split_and?; try done.

(** *** Those that need a word more *)

Section Rest.
Context `{Abi} {HR : HandleResolver}.

Lemma sound_vertex_buffers : sound handle_CmdBindVertexBuffers.
Proof.
  unfold sound, handle_CmdBindVertexBuffers. sound_steps. sound_side. split; [done|]. cbn.
  match goal with Hk : Forall _ ?bs, Hv : forallb _ ?bs = true |- _ =>
    revert Hv; induction Hk as [|b bs Hb _ IH]; [constructor|] end.
  cbn. intros [? ?]%andb_true_iff. constructor; [by apply valid_object|auto].
Qed.

Lemma sound_update : sound handle_CmdUpdateBuffer.
Proof.
  unfold sound, handle_CmdUpdateBuffer. sound_steps. sound_side. split; [done|]. cbn [snd confined].
  subst. split_and!; try done; [|by apply Z.leb_le]. by destruct a3.
Qed.

Lemma ensures_push_bytes :
  rd_ensures (r_bytes kMaxPushConstantBytes) (fun bs => Z.of_nat (length bs) <= kMaxPushConstantBytes).
Proof. by apply ensures_bytes. Qed.

Lemma sound_push : sound handle_CmdPushConstants.
Proof.
  pose proof ensures_push_bytes. unfold sound, handle_CmdPushConstants. sound_steps. sound_side.
  split; [done|]. cbn [snd confined]. split_and!; try done. by destruct a3.
Qed.

Lemma ensures_wait_events2 n : rd_ensures (read_wait_events2 n)
  (Forall (fun i => object hr_event i.1 /\ known_dependency i.2)).
Proof.
  unfold read_wait_events2. eapply ensures_bind.
  - apply (ensures_each _ _ (fun i => object hr_event i.1 /\ known_dependency i.2)).
    unfold read_wait_event2. sound_steps. sound_side. by split.
  - intros items Hi. sound_steps. done.
Qed.

Lemma ensures_wait_events2_head : rd_ensures read_wait_events2_head (fun p => object hr_command_buffer p.1).
Proof. unfold read_wait_events2_head. sound_steps. sound_side. done. Qed.

End Rest.

(** ** Handlers *)

Section Handlers.
Context `{Abi} {W : Type} {D : CommandDriver W}.
Implicit Type c : Session W.

(** Nothing is sent and no table loses an entry. *)
Definition quiet c c' : Prop :=
  opcode c' = opcode c /\ request_id c' = request_id c /\ sent c' = sent c /\ writer c' = writer c /\ replied c' = replied c /\
  close_connection c' = close_connection c /\ table (tables c') = table (tables c) /\
  forall cb device, command_buffer_devices (tables c) !! cb = Some device ->
    command_buffer_devices (tables c') !! cb = Some device.

(** One call over the connection's objects, or one counted error. *)
Definition calls_or_counts c c' : Prop :=
  quiet c c' /\
  ((exists cb x, object (hr_command_buffer (HandleResolver := resolver_of (tables c))) cb /\
      confined (HR := resolver_of (tables c)) x /\
      driver c' = vkCmd cb x (driver c) /\ oneway_errors c' = oneway_errors c) \/
   (driver c' = driver c /\ oneway_errors c' = wrap32 (oneway_errors c + 1))).

Section Issue.
Variables (m : HandleResolver -> Rd (Z * command)) (name : string).
Hypothesis Hm : forall HR, sound (m HR).

Lemma issue_sound c : calls_or_counts c (issue m c).
Proof.
  unfold issue, decode_with, Handler.rd. destruct (m _ (reader c)) as [[[cb x]|] r] eqn:E.
  - apply (ensures_elim _ _ _ _ _ (Hm _)) in E as [? ?]. split; [done|left]. by exists cb, x.
  - split; [done|by right].
Qed.

Lemma issue_found_sound c : calls_or_counts c (issue_found name m c).
Proof.
  unfold issue_found, decode_with, Handler.rd. destruct (m _ (reader c)) as [[[cb x]|] r] eqn:E; cbn.
  - apply (ensures_elim _ _ _ _ _ (Hm _)) in E as [? ?].
    repeat case_match; split; try done; first [by right|left; by exists cb, x].
  - split; [done|by right].
Qed.

(** The null entry of [operator[]] replaces none. *)
Lemma device_proc_quiet cb c : quiet c (snd (device_proc cb name c)).
Proof.
  split_and!; try done. intros cb' device Hd. cbn. destruct (decide (cb' = cb)) as [->|Hne].
  - by rewrite lookup_insert_eq, Hd.
  - by rewrite lookup_insert_ne.
Qed.

Lemma issue_indexed_sound c : calls_or_counts c (issue_indexed name m c).
Proof.
  unfold issue_indexed, decode_with, Handler.rd. destruct (m _ (reader c)) as [[[cb x]|] r] eqn:E.
  - apply (ensures_elim _ _ _ _ _ (Hm _)) in E as [? ?].
    pose proof (device_proc_quiet cb (Handler.set_reader r c)) as Hq.
    unfold device_proc in *. case_match; (split; [exact Hq|]); [left; by exists cb, x|by right].
  - split; [done|by right].
Qed.

End Issue.

Lemma wait_events2_sound c : calls_or_counts c (handle_CmdWaitEvents2 c).
Proof.
  unfold handle_CmdWaitEvents2, decode_with, Handler.rd.
  destruct (read_wait_events2_head (reader c)) as [[[cb n]|] r] eqn:E; [|split; [done|by right]].
  apply (ensures_elim _ _ _ _ _ ensures_wait_events2_head) in E. cbn [tables Handler.set_reader reader].
  destruct (read_wait_events2 n r) as [items r'] eqn:Ei.
  pose proof (device_proc_quiet "vkCmdWaitEvents2KHR" cb (Handler.set_reader r' (Handler.set_reader r c))) as Hq.
  unfold device_proc in *. destruct items as [items|]; [|split; [exact Hq|by right]].
  apply (ensures_elim _ _ _ _ _ (ensures_wait_events2 _)) in Ei.
  case_match; (split; [exact Hq|]); [left; by exists cb, (vkCmdWaitEvents2 items)|by right].
Qed.

Lemma timestamp2_sound c : calls_or_counts c (handle_CmdWriteTimestamp2 c).
Proof.
  unfold handle_CmdWriteTimestamp2, Handler.rd.
  destruct (Reader.handle (reader c)) as [id r1]. cbn [reader Handler.set_reader tables].
  destruct (Reader.u64 r1) as [stage r2]. cbn [reader Handler.set_reader tables].
  destruct (Reader.handle r2) as [pool r3]. cbn [reader Handler.set_reader tables].
  destruct (Reader.u32 r3) as [query r4]. set (c1 := Handler.set_reader r4 _).
  set (cb := hr_command_buffer id). set (p := hr_query_pool pool).
  pose proof (device_proc_quiet "vkCmdWriteTimestamp2KHR" cb c1) as Hq.
  destruct (valid cb) eqn:Ev; [|cbn; split; [done|by right]].
  destruct (device_proc cb _ c1) as [fn c2] eqn:Ep. cbn [snd] in Hq. injection Ep as _ <-.
  case_if; (split; [exact Hq|]); [by right|left]. bool_hyps.
  exists cb, (vkCmdWriteTimestamp2 stage p query). split_and!; try done.
  - apply valid_object; [right; by exists id|done].
  - split; [right; by exists pool|done].
Qed.

Lemma recording_sound : Forall (fun e => forall c, calls_or_counts c (snd e c)) recording_handlers.
Proof.
  unfold recording_handlers. repeat apply Forall_cons_2; try apply Forall_nil_2; cbn [snd];
    try first [apply issue_sound|apply issue_found_sound|apply issue_indexed_sound]; intros x.
  all: first [ apply wait_events2_sound | apply timestamp2_sound | apply sound_vertex_buffers
             | apply sound_update | apply sound_push | sound_handler ].
Qed.

(** C27: Whatever bytes a recording message holds, its handler sends nothing,
    keeps every object of the connection, and either makes one driver call, on
    a live command buffer of the connection and over nothing but objects of the
    connection or null, or counts one error and leaves the driver alone. Null
    reaches the driver only where the handler tests no handle: the render pass
    and framebuffer of vkCmdBeginRenderPass(2), the pipeline of
    vkCmdBindPipeline, the buffers and images of barriers and dependencies,
    vkCmdCopyBuffer, vkCmdCopyBufferToImage, vkCmdCopyImageToBuffer,
    vkCmdClearColorImage, the command buffers of vkCmdExecuteCommands and the
    events of vkCmdWaitEvents; an unknown id becomes null in them (a finding).
    All other operands, listed by [confined], are live, and the lengths and
    alignments it lists hold. The image views in the chain of a render pass's
    begin are not looked at. *)
Theorem recording_confined : Forall (fun e => forall c, calls_or_counts c (snd e c)) recording_handlers.
Proof. exact recording_sound. Qed.

End Handlers.
