(* ===== verification/CommandPools.v ===== *)
(** Command buffers from their allocation on: what [vkAllocateCommandBuffers]
    returns to the application stands for command buffers the server knows, with
    their device, which is what a recording call needs ([CommandFacts]); and how
    the calls on pools keep the client's list and objects. *)

From stdpp Require Import list gmap strings.
From S2P Require Import Prelude Wire Codec CLayout VkStructs PNext PNextFacts VkCreateInfos VkCommands.
From S2P Require Import MarshalBase Marshal HostMemory Decode Objects Session Tracking ClientSync ClientCommands.
From S2P Require Import RecordingFacts ServerCommands CommandFacts.

#[local] Set Warnings "-clear-no-such-hyp".

(** ** The server records them *)

Abbreviation buffer_table t := (table t Objects.command_buffers).

(** One more command buffer: the next id, and its device. *)
Lemma record_command_buffer_spec device cb t : Table.wf (buffer_table t) ->
  let '(id, t') := record_command_buffer device t cb in
  let n := Table.size (buffer_table t) in
  id = n + 1 /\ Table.wf (buffer_table t') /\ Table.size (buffer_table t') = n + 1 /\
  (forall i, 0 <= i -> Table.get (buffer_table t') i = if i =? n + 1 then cb else Table.get (buffer_table t) i) /\
  command_buffer_devices t' = <[cb := device]> (command_buffer_devices t) /\
  forall k, k <> Objects.command_buffers -> table t' k = table t k.
Proof.
  intros Hw. unfold record_command_buffer.
  pose proof (Table.add_id (buffer_table t) cb device) as Hid.
  pose proof (Table.add_wf (buffer_table t) cb device Hw) as Hw1.
  pose proof (Table.size_add (buffer_table t) cb device) as Hs1.
  pose proof (fun i => Table.get_add (buffer_table t) cb device i) as Hg1.
  destruct (Table.add (buffer_table t) cb device) as [id T]. cbn [fst snd] in *. subst id.
  rewrite (proj2 (Z.eqb_neq _ 0)) by (unfold Table.size in *; lia). cbn.
  split_and!; try done. intros k Hk. by rewrite decide_False.
Qed.

Lemma record_command_buffers_spec device cbs : forall t, Table.wf (buffer_table t) ->
  let '(ids, t') := record_command_buffers device cbs t in
  let n := Table.size (buffer_table t) in
  Table.wf (buffer_table t') /\ Table.size (buffer_table t') = n + len cbs /\
  Forall2 (fun id cb => n < id <= n + len cbs /\ Table.get (buffer_table t') id = cb) ids cbs /\
  (forall id, 0 <= id <= n -> Table.get (buffer_table t') id = Table.get (buffer_table t) id) /\
  (forall cb, cb ∈ cbs -> command_buffer_devices t' !! cb = Some device) /\
  (forall cb, cb ∉ cbs -> command_buffer_devices t' !! cb = command_buffer_devices t !! cb) /\
  forall k, k <> Objects.command_buffers -> table t' k = table t k.
Proof.
  induction cbs as [|cb cbs IH]; intros t Hw; cbn [record_command_buffers].
  { split_and!; try done; [unfold len; cbn; lia|set_solver]. }
  pose proof (record_command_buffer_spec device cb t Hw) as H1.
  destruct (record_command_buffer device t cb) as [id t1]. cbv zeta in H1.
  destruct H1 as (-> & Hw1 & Hs1 & Hg1 & Hd1 & Hk1).
  specialize (IH t1 Hw1). destruct (record_command_buffers device cbs t1) as [ids t2]. cbv zeta in IH |- *.
  destruct IH as (Hw2 & Hs2 & Hg2 & Hp2 & Hd2 & Ho2 & Hk2). rewrite Hs1, Hd1 in *.
  assert (0 <= Table.size (buffer_table t)) by (unfold Table.size; lia).
  replace (len (cb :: cbs)) with (len cbs + 1) by (unfold len; cbn [length]; lia).
  assert (0 <= len cbs) by (unfold len; lia). split_and!; try done; try lia.
  - constructor; [split; [lia|]|].
    + rewrite Hp2, Hg1 by lia. by rewrite Z.eqb_refl.
    + eapply Forall2_impl; [exact Hg2|]. intros i b [Hi Hb]. split; [lia|done].
  - intros i Hi. rewrite Hp2, Hg1 by lia. by rewrite (proj2 (Z.eqb_neq _ _)) by lia.
  - intros b Hb. destruct (decide (b ∈ cbs)) as [Hin|Hout]; [by apply Hd2|].
    rewrite Ho2 by done. apply elem_of_cons in Hb as [->|]; [|done]. by rewrite lookup_insert_eq.
  - intros b Hb. apply not_elem_of_cons in Hb as [Hne Hout]. rewrite Ho2 by done.
    by rewrite lookup_insert_ne.
  - intros k Hk. by rewrite Hk2, Hk1.
Qed.

(** ** The client keeps them *)
Section Client.
Context `{CommandChannel} `{Abi}.
Variable remote_id : Z.
Variable new_address : gmap Z Recording -> Z.
(** A new object is none of the others. *)
Hypothesis new_address_fresh : forall h, h !! new_address h = None.
Implicit Type c : CommandClient.

Lemma new_command_buffers_spec ids pool : forall r rest c, at_rest r (concat (map Writer.handle ids) ++ rest) ->
  Forall is_u64 ids ->
  let '(handles, c') := new_command_buffers new_address (length ids) r pool c in
  command_buffers c' = command_buffers c ++ handles /\ cc_world c' = cc_world c /\
  (forall a cb, heap c !! a = Some cb -> heap c' !! a = Some cb) /\ dom (heap c') = dom (heap c) ∪ list_to_set handles /\
  Forall2 (fun a id => heap c !! a = None /\
             heap c' !! a = Some (mkRecording id pool ∅ ∅ ∅ (mkCommandBuffer ∅ false ∅))) handles ids.
Proof.
  induction ids as [|id ids IH]; intros r rest c Hat Hu; cbn [length new_command_buffers].
  { rewrite app_nil_r. split_and!; try done. set_solver. }
  apply Forall_cons in Hu as [Hi Hu]. cbn [map concat] in Hat. rewrite <- app_assoc in Hat.
  decode Hat. unfold new_command_buffer. pose proof (new_address_fresh (heap c)) as Hf.
  set (a := new_address (heap c)) in *. set (c1 := mkCommandClient _ (<[a := _]> (heap c)) _ _).
  specialize (IH r0 rest c1 Hat Hu).
  destruct (new_command_buffers new_address (length ids) r0 pool c1) as [handles c2].
  destruct IH as (Hl & Hw & Hk & Hdom & Hn). cbn in Hl, Hw, Hdom. split_and!.
  - rewrite Hl. by rewrite <- app_assoc.
  - done.
  - intros b cb Hb. apply Hk. cbn. rewrite lookup_insert_ne; [done|]. intros <-. congruence.
  - rewrite Hdom, dom_insert_L. set_solver.
  - constructor.
    + split; [done|]. apply Hk. cbn. by rewrite lookup_insert_eq.
    + eapply Forall2_impl; [exact Hn|]. intros b i [Hb Hc]. split; [|done]. cbn in Hb.
      by apply lookup_insert_None in Hb as [? _].
Qed.

End Client.

(** ** Allocation end to end *)
Section Allocation.
Context `{CommandChannel} `{Abi} {W : Type} {D : CommandDriver W}.
Variable remote_id : Z.
Variable new_address : gmap Z Recording -> Z.
Hypothesis new_address_fresh : forall h, h !! new_address h = None.

(** The payload of the request. *)
Definition allocate_request (info : VkCommandBufferAllocateInfo.t) : list byte :=
  Writer.handle remote_id ++ write_CommandBufferAllocateInfo info.

(** The payload of the reply to a success. *)
Definition allocate_reply (ids : list Z) : list byte :=
  Writer.u32 (status_code Ok) ++ Writer.i32 VK_SUCCESS ++ Writer.u32 (len ids) ++ concat (map Writer.handle ids).

Lemma status_ok_u32 : is_u32 (status_code Ok).
Proof. by apply (bool_decide_unpack _). Qed.

Lemma allocate_served info (c : Session W) cbs w (HR := resolver_of (tables c)) :
  let device := Table.get (table (tables c) devices) remote_id in
  let count := VkCommandBufferAllocateInfo.commandBufferCount info in
  Table.wf (buffer_table (tables c)) -> is_u64 remote_id -> device <> 0 -> raw_ok (VkCommandBufferAllocateInfo.set_pNext Null info) ->
  0 <= count <= kMaxArrayElements -> reader c = Reader.make (allocate_request info) ->
  vkAllocateCommandBuffers device (recv_CommandBufferAllocateInfo info) (driver c) = (VK_SUCCESS, cbs, w) ->
  len cbs = count -> writer c = [] -> replied c = false -> request_id c <> 0 ->
  let '(ids, t) := record_command_buffers device cbs (tables c) in
  let c' := handle_AllocateCommandBuffers c in
  sent c' = sent c ++ [(opcode c, allocate_reply ids, request_id c)] /\ tables c' = t.
Proof.
  intros device count Hwf Hid Hdev Hraw Hcount Hrd Hdrv Hlen Hwr Hrep Hreq.
  unfold allocate_request in Hrd.
  pose proof (at_make (Writer.handle remote_id ++ write_CommandBufferAllocateInfo info)) as Hat.
  unfold handle_AllocateCommandBuffers, rd_device, Handler.rd. rewrite Hrd.
  decode Hat. cbn [Handler.set_reader reader tables driver]. fold device. rewrite (at_ok _ _ Hat).
  rewrite (proj2 (Z.eqb_neq _ _) Hdev). cbn [negb orb]. destruct Hat as (Hw & Hf & Hu).
  pose proof (reads_CommandBufferAllocateInfo (HR := HR) [] info Hraw ltac:(lia)) as Hr.
  pose proof (reads_at_elim _ _ _ _ r Hr Hw Hf ltac:(by rewrite Hu, app_nil_r)) as Hrun.
  unfold decode_with, Handler.rd. cbn [reader Handler.set_reader tables]. subst HR. rewrite Hrun.
  cbn [driver Handler.set_reader]. rewrite Hdrv.
  change (VkCommandBufferAllocateInfo.commandBufferCount (recv_CommandBufferAllocateInfo info)) with count.
  replace (take (Z.to_nat count) (cbs ++ _)) with cbs.
  2: { rewrite take_app_le, take_ge by (unfold len in Hlen; lia). done. }
  rewrite Z.eqb_refl. cbn [tables Handler.set_driver Handler.set_reader].
  pose proof (record_command_buffers_spec device cbs (tables c) Hwf) as Hs.
  destruct (record_command_buffers device cbs (tables c)) as [ids t].
  destruct Hs as (_ & _ & Hids%Forall2_length & _). set (c' := Handler.write _ _).
  destruct (Handler.reply_sent c') as [-> _]; [done..|]. cbn [writer Handler.write Handler.set_tables c'].
  split; [|unfold Handler.reply; by destruct (replied c')]. subst c'. cbn. rewrite Hwr. unfold allocate_reply.
  replace (len ids) with count by (unfold len in *; lia). done.
Qed.

(** The ids of the reply, and its head. *)
Lemma allocate_reply_payload ids : is_u32 (len ids) ->
  exists r : Wire.reader, Reader.i32 (payload_reader (allocate_reply ids)) = (VK_SUCCESS, r) /\
    exists r', Reader.u32 r = (len ids, r') /\ at_rest r' (concat (map Writer.handle ids) ++ []).
Proof.
  intros Hn. pose proof (at_make (allocate_reply ids)) as Hat. unfold payload_reader.
  unfold allocate_reply in Hat |- *. pose proof status_ok_u32.
  decode Hat. cbn [snd].
  apply at_i32 in Hat as (r1 & -> & Hat); [|by apply (bool_decide_unpack _)]. eexists. split; [done|].
  apply at_u32 in Hat as (r2 & -> & Hat); [|done]. eexists. split; [done|]. by rewrite app_nil_r.
Qed.

(** C28: Command buffers that an allocation returns are usable.

    When the driver allocates as many command buffers as were asked for, and the
    reply the handler sends is the one the client's round trip returns, the
    application gets a success and one new object for each of them, in the
    driver's order, of the pool it named: the id of each stands for the driver's
    command buffer in the server's table, with the device that recording calls
    look up, and every object the client had is still what it was. *)
Theorem allocated_buffers_live info (c : Session W) cbs w (cl : CommandClient) reply w'
    (HR := resolver_of (tables c)) :
  let device := Table.get (table (tables c) devices) remote_id in
  let count := VkCommandBufferAllocateInfo.commandBufferCount info in
  Table.wf (buffer_table (tables c)) -> Table.size (buffer_table (tables c)) + count < 2 ^ 64 ->
  is_u64 remote_id -> device <> 0 -> raw_ok (VkCommandBufferAllocateInfo.set_pNext Null info) ->
  0 <= count <= kMaxArrayElements -> reader c = Reader.make (allocate_request info) ->
  vkAllocateCommandBuffers device (recv_CommandBufferAllocateInfo info) (driver c) = (VK_SUCCESS, cbs, w) ->
  len cbs = count -> writer c = [] -> replied c = false -> request_id c <> 0 ->
  let c' := handle_AllocateCommandBuffers c in
  sent c' = sent c ++ [(opcode c, reply, request_id c)] ->
  round_trip (command_opcode "vkAllocateCommandBuffers") (allocate_request info) (cc_world cl) = (Some reply, w') ->
  let '(result, handles, cl') := AllocateCommandBuffers remote_id new_address info cl in
  result = VK_SUCCESS /\ command_buffers cl' = command_buffers cl ++ handles /\
  Forall2 (fun h cb => exists id,
             heap cl !! h = None /\
             heap cl' !! h = Some (mkRecording id (VkCommandBufferAllocateInfo.commandPool info) ∅ ∅ ∅
                                     (mkCommandBuffer ∅ false ∅)) /\
             Table.get (buffer_table (tables c')) id = cb /\
             command_buffer_devices (tables c') !! cb = Some device) handles cbs /\
  (forall a b, heap cl !! a = Some b -> heap cl' !! a = Some b).
Proof.
  intros device count Hwf Hsize Hid Hdev Hraw Hcount Hrd Hdrv Hlen Hwr Hrep Hreq c' Hsent Hrt.
  pose proof (allocate_served info c cbs w Hwf Hid Hdev Hraw Hcount Hrd Hdrv Hlen Hwr Hrep Hreq) as Hs.
  pose proof (record_command_buffers_spec device cbs (tables c) Hwf) as Hids. fold device in Hs.
  destruct (record_command_buffers device cbs (tables c)) as [ids t]. destruct Hs as [Hs Ht].
  fold c' in Hs, Ht. rewrite Ht. rewrite Hs in Hsent. injection (app_inv_head _ _ _ Hsent) as <-.
  destruct Hids as (_ & _ & Hids & _ & Hdevs & _). pose proof (Forall2_length _ _ _ Hids) as Hl.
  assert (len ids = count) as Hn by (unfold len in *; lia).
  assert (0 <= Table.size (buffer_table (tables c))) by (unfold Table.size; lia).
  assert (Forall is_u64 ids) as Hu.
  { apply Forall_forall. intros i Hi.
    apply list_elem_of_lookup in Hi as [k Hk]. destruct (Forall2_lookup_l _ _ _ _ _ Hids Hk) as (b & _ & [Hb _]).
    unfold is_u64, len in *. lia. }
  unfold AllocateCommandBuffers, pool_request. change (Writer.handle remote_id ++ _) with (allocate_request info).
  rewrite Hrt. destruct (allocate_reply_payload ids) as (r & -> & r' & -> & Hat).
  { change kMaxArrayElements with 1048576 in Hcount. unfold is_u32. lia. }
  fold count. rewrite Hn, Z.min_id.
  replace (Z.to_nat count) with (length ids) by (unfold len in Hn; lia).
  set (cl1 := mkCommandClient _ _ _ _).
  pose proof (new_command_buffers_spec new_address new_address_fresh ids
                (VkCommandBufferAllocateInfo.commandPool info) r' [] cl1 Hat Hu) as Hnew.
  destruct (new_command_buffers _ _ _ _ _) as [handles cl']. destruct Hnew as (Hl' & _ & Hk & _ & Hnew).
  split; [done|]. split; [exact Hl'|]. split; [|exact Hk].
  apply Forall2_same_length_lookup_2; [by rewrite (Forall2_length _ _ _ Hnew)|].
  intros k h cb Hh Hcb. destruct (Forall2_lookup_l _ _ _ _ _ Hnew Hh) as (id & Hik & Hf & Hid').
  destruct (Forall2_lookup_lr _ _ _ _ _ _ Hids Hik Hcb) as [_ Hg].
  exists id. split_and!; [exact Hf|exact Hid'|exact Hg|]. apply Hdevs. by eapply list_elem_of_lookup_2.
Qed.

End Allocation.

(** ** Two command buffers, from the client's call to the objects *)
Module PoolDemo.

#[local] Existing Instance Instances.abi.
#[local] Existing Instance CommandDemo.driver.

(** One request to the demonstration's server. *)
Definition serve (payload : list byte) : Session (list (Z * command)) :=
  let c := CommandDemo.session payload in
  mkSession _ (reader c) [] (tables c) 0 1 7 false false [] (driver c).

(** A channel whose other end is that server. *)
#[local] Instance remote : Remote :=
  {| world := unit; FlushMappedMemory := 0; DownloadMappedMemory := 0;
     round_trip _ payload w :=
       (match sent (handle_AllocateCommandBuffers (serve payload)) with [m] => Some m.1.2 | _ => None end, w) |}.

#[local] Instance channel : CommandChannel := {| command_opcode _ := 0; send_command _ _ w := w |}.

Definition info : VkCommandBufferAllocateInfo.t := VkCommandBufferAllocateInfo.mk 40 Null 1 0 2.

Definition new_address (h : gmap Z Recording) : Z := fresh (dom h).

Definition client : CommandClient := mkCommandClient remote ∅ [] tt.

Definition request : list byte := allocate_request 1 info.

Lemma allocated_buffers_live_witness :
  let '(result, handles, cl') := AllocateCommandBuffers 1 new_address info client in
  result = VK_SUCCESS /\
  Forall2 (fun h cb => exists id,
             heap client !! h = None /\
             heap cl' !! h = Some (mkRecording id 1 ∅ ∅ ∅ (mkCommandBuffer ∅ false ∅)) /\
             Table.get (buffer_table (tables (handle_AllocateCommandBuffers (serve request)))) id = cb /\
             command_buffer_devices (tables (handle_AllocateCommandBuffers (serve request))) !! cb = Some 5)
    handles [100; 101].
Proof.
  pose proof (allocated_buffers_live 1 new_address (fun h => not_elem_of_dom_1 _ _ (is_fresh (dom h)))
                info (serve request) [100; 101] [] client (allocate_reply [2; 3]) tt) as H.
  destruct (AllocateCommandBuffers 1 new_address info client) as [[result handles] cl'].
  destruct H as (Hr & _ & Hb & _); [..|by split].
  - by apply Table.add_wf, Table.wf_empty.
  - by vm_compute.
  - by apply (bool_decide_unpack _).
  - done.
  - by apply (bool_decide_unpack _).
  - done.
  - done.
  - by vm_compute.
  - done.
  - done.
  - done.
  - done.
  - by vm_compute.
  - by vm_compute.
Defined.

(** A request that cannot be decoded gets no answer, although the client waits
    for one. *)
Lemma malformed_allocation_unanswered :
  let c := serve (Writer.handle 1) in
  request_id c <> 0 /\ sent (handle_AllocateCommandBuffers c) = [] /\
  replied (handle_AllocateCommandBuffers c) = false.
Proof. by vm_compute. Qed.

(** The reply to an allocation that failed still creates objects, of id 0, and
    leaves their addresses where Vulkan wants null handles. *)
Lemma failed_allocation_creates_objects (reply := Writer.u32 0 ++ Writer.i32 (-1) ++ Writer.u32 1 ++ Writer.handle 0) :
  let answer : Remote := {| world := unit; FlushMappedMemory := 0; DownloadMappedMemory := 0;
                            round_trip _ _ w := (Some reply, w) |} in
  let ch : @CommandChannel answer := {| command_opcode _ := 0; send_command _ _ w := w |} in
  let '(result, handles, cl) :=
    @AllocateCommandBuffers answer ch _ 1 (fun h => 4096) (VkCommandBufferAllocateInfo.mk 40 Null 1 0 1)
      (mkCommandClient answer ∅ [] tt) in
  result = -1 /\ handles = [4096] /\ option_map rc_remote_id (heap cl !! 4096) = Some 0.
Proof. by vm_compute. Qed.

End PoolDemo.
