(* ===== verification/ServerDevice.v ===== *)
(** Devices and their objects on the server: [src/server/handlers_device.cpp].

    A request is decoded with the connection's tables, refused when it cannot be,
    carried out by the driver and answered; a destruction is one-way.  As in
    [ServerCommands], the decoders are separate ([Rd]) wherever a handler decodes
    its whole request before it acts. *)

From stdpp Require Import list gmap strings.
From S2P Require Import Prelude Wire Codec CLayout VkStructs PNext VkCreateInfos VkCommands.
From S2P Require Import MarshalBase Marshal MarshalChained MarshalDescriptor MarshalSync.
From S2P Require Import MarshalRenderPass2 MarshalPipeline MarshalValues.
From S2P Require Import HostMemory Tracking ClientSync Objects Session ServerMemory ServerCommands.
Open Scope wire_scope.

(** ** The driver *)

(** A creation call without its device, allocator and result. *)
Inductive creation :=
  | vkCreateFence (info : VkFenceCreateInfo.t)
  | vkCreateSemaphore (info : VkSemaphoreCreateInfo.t)
  | vkCreateBuffer (info : VkBufferCreateInfo.t)
  | vkCreateImage (info : VkImageCreateInfo.t)
  | vkCreateImageView (info : VkImageViewCreateInfo.t)
  | vkCreateBufferView (info : VkBufferViewCreateInfo.t)
  | vkCreateEvent (info : VkEventCreateInfo.t)
  | vkCreateQueryPool (info : VkQueryPoolCreateInfo.t)
  | vkCreateSampler (info : VkSamplerCreateInfo.t)
  | vkCreateShaderModule (info : VkShaderModuleCreateInfo.t)
  | vkCreatePipelineCache (info : VkPipelineCacheCreateInfo.t)
  | vkCreatePipelineLayout (info : VkPipelineLayoutCreateInfo.t)
  | vkCreateRenderPass (info : VkRenderPassCreateInfo.t)
  | vkCreateRenderPass2 (info : VkRenderPassCreateInfo2.t)
  | vkCreateFramebuffer (info : VkFramebufferCreateInfo.t)
  | vkCreateDescriptorSetLayout (info : VkDescriptorSetLayoutCreateInfo.t)
  | vkCreateDescriptorPool (info : VkDescriptorPoolCreateInfo.t)
  | vkCreateDescriptorUpdateTemplate (info : VkDescriptorUpdateTemplateCreateInfo.t)
  | vkCreateSamplerYcbcrConversion (info : VkSamplerYcbcrConversionCreateInfo.t).

(** Calls return their result first and the object or the value after it; a call
    that fills an array returns its elements.  [vkCreate device x] is the creation
    call [x], [vkDestroy k device object] the destruction of an object of the kind
    [k], [teardown] the calls of [destroy_device_objects]. *)
Class DeviceDriver (W : Type) := {
  vkCreateDevice : Z -> VkDeviceCreateInfo.t -> W -> Z * Z * W;
  teardown : list driver_call -> W -> W;
  vkCreate : Z -> creation -> W -> Z * Z * W;
  vkDestroy : kind -> Z -> Z -> W -> W;
  vkGetDeviceQueue : Z -> Z -> Z -> W -> Z;
  vkGetDeviceQueue2 : Z -> Z -> Z -> Z -> W -> Z;
  vkGetDeviceGroupPeerMemoryFeatures : Z -> Z -> Z -> Z -> W -> Z;
  vkGetSemaphoreCounterValue : Z -> Z -> W -> Z * Z;
  vkWaitSemaphores : Z -> Z -> list (Z * Z) -> Z -> W -> Z * W;
  vkSignalSemaphore : Z -> Z -> Z -> W -> Z * W;
  vkResetQueryPool : Z -> Z -> Z -> Z -> W -> W;
  vkQueueSubmit : Z -> list VkSubmitInfo -> Z -> W -> Z * W;
  vkQueueSubmit2 : Z -> list VkSubmitInfo2.t -> Z -> W -> Z * W;
  vkQueueBindSparse : Z -> list VkBindSparseInfo -> Z -> W -> Z * W;
  vkQueueWaitIdle : Z -> W -> Z * W;
  vkDeviceWaitIdle : Z -> W -> Z * W;
  vkResetFences : Z -> list Z -> W -> Z * W;
  vkGetFenceStatus : Z -> Z -> W -> Z * W;
  vkWaitForFences : Z -> list Z -> bool -> Z -> W -> Z * W;
  vkGetImageSubresourceLayout : Z -> Z -> Z -> Z -> Z -> W -> VkSubresourceLayout.t;
  vkGetEventStatus : Z -> Z -> W -> Z * W;
  vkSetEvent : Z -> Z -> W -> Z * W;
  vkResetEvent : Z -> Z -> W -> Z * W;
  vkGetQueryPoolResults : Z -> Z -> Z -> Z -> Z -> Z -> Z -> W -> Z * list byte;
  vkGetPipelineCacheData : Z -> Z -> Z -> bool -> W -> Z * Z * list byte;
  vkMergePipelineCaches : Z -> Z -> list Z -> W -> Z * W;
  vkGetRenderAreaGranularity : Z -> Z -> W -> VkExtent2D.t;
  vkCreateGraphicsPipelines : Z -> Z -> list VkGraphicsPipelineCreateInfo.t -> W -> Z * list Z * W;
  vkCreateComputePipelines : Z -> Z -> list VkComputePipelineCreateInfo.t -> W -> Z * list Z * W;
  vkAllocateDescriptorSets : Z -> VkDescriptorSetAllocateInfo.t -> W -> Z * list Z * W;
  vkFreeDescriptorSets : Z -> Z -> list Z -> W -> Z * W;
  vkResetDescriptorPool : Z -> Z -> Z -> W -> Z * W;
  vkUpdateDescriptorSets : Z -> list VkWriteDescriptorSet.t -> list VkCopyDescriptorSet.t -> W -> W;
  vkUpdateDescriptorSetWithTemplate : Z -> Z -> Z -> list byte -> W -> W;
  vkGetDescriptorSetLayoutSupport : Z -> VkDescriptorSetLayoutCreateInfo.t -> W -> Z }.

(** ** What the requests hold *)
Section Decoders.
Context `{Abi}.
(** The tables of the connection, which decoding does not change. *)
Variable t : ObjectTables.

#[local] Instance tables_resolver : HandleResolver := resolver_of t.

(** [c.tables.k.get(c.reader.handle())]. *)
Definition r_find (k : kind) : Rd Z := r_object (Table.get (table t k)).

(** The device every request of a device starts with. *)
Definition r_device : Rd Z := device <- r_find devices ; r_ok ;! rguard (valid device) ;! rret device.

(** *** Queues *)

(** handlers_device.cpp:59-68. *)
Definition read_get_queue : Rd (Z * Z * Z) :=
  device <- r_find devices ; family <- r_u32 ; index <- r_u32 ; r_ok ;! rguard (valid device) ;!
  rret (device, family, index).

(** handlers_device.cpp:75-75. *)
Definition read_get_queue2 : Rd (Z * Z * Z * Z) :=
  device <- r_find devices ; flags <- r_u32 ; family <- r_u32 ; index <- r_u32 ;
  r_ok ;! rguard (valid device) ;! rret (device, flags, family, index).

(** handlers_device.cpp:76-76. *)
Definition read_peer_features : Rd (Z * Z * Z * Z) :=
  device <- r_find devices ; heap <- r_u32 ; local <- r_u32 ; remote <- r_u32 ;
  r_ok ;! rguard (valid device) ;! rret (device, heap, local, remote).

(** One semaphore to wait for, with its stages.

    handlers_device.cpp:144-148. *)
Definition read_submit_wait : Rd (Z * Z) :=
  sem <- r_find semaphores ; stage <- r_u32 ; rguard (valid sem) ;! rret (sem, stage).

Definition read_live (k : kind) : Rd Z := x <- r_find k ; rguard (valid x) ;! rret x.

(** One element of [vkQueueSubmit].

    handlers_device.cpp:132-175. *)
Definition read_submit_info : Rd VkSubmitInfo :=
  next <- read_pnext_chain PNext.Submit 0 ;
  n <- r_length true 12 ; waits <- rfor n read_submit_wait ;
  m <- r_length true 8 ; cbs <- rfor m (read_live command_buffers) ;
  k <- r_length true 8 ; signals <- rfor k (read_live semaphores) ;
  r_ok ;!
  rret (mkSubmitInfo VK_STRUCTURE_TYPE_SUBMIT_INFO next
          (Z.of_nat n) (arr_ptr waits.*1) (arr_ptr waits.*2) (Z.of_nat m) (arr_ptr cbs)
          (Z.of_nat k) (arr_ptr signals)).

(** A fence that may be absent, but not unknown. *)
Definition optional (id object : Z) : bool := (id =? 0) || valid object.

(** handlers_device.cpp:107-182. *)
Definition read_queue_submit : Rd (Z * Z * list VkSubmitInfo) :=
  queue <- r_find queues ; fence_id <- r_handle ; n <- r_length true 16 ;
  let fence := Table.get (table t fences) fence_id in
  r_ok ;! rguard (valid queue && optional fence_id fence) ;!
  submits <- rfor n read_submit_info ; r_end ;! rret (queue, fence, submits).

(** handlers_device.cpp:83-98. *)
Definition read_queue_submit2 : Rd (Z * Z * Z * list VkSubmitInfo2.t) :=
  queue_id <- r_handle ; fence_id <- r_handle ; n <- r_u32 ; left <- r_remaining ;
  let queue := Table.get (table t queues) queue_id in
  let fence := Table.get (table t fences) fence_id in
  rguard (valid queue && optional fence_id fence && negb (kMaxArrayElements <? n) && (n <=? left / 16)) ;!
  infos <- rfor (Z.to_nat n) read_SubmitInfo2 ; r_ok ;! r_end ;! rret (queue_id, queue, fence, infos).

(** handlers_device.cpp:196-196. *)
Definition read_memory_bind : Rd VkSparseMemoryBind :=
  o <- r_u64 ; size <- r_u64 ; memory <- r_find memories ; mo <- r_u64 ; flags <- r_u32 ;
  rret (mkMemoryBind o size memory mo flags).

(** handlers_device.cpp:196-196. *)
Definition read_image_bind : Rd VkSparseImageMemoryBind :=
  aspect <- r_u32 ; mip <- r_u32 ; layer <- r_u32 ; x <- r_i32 ; y <- r_i32 ; z <- r_i32 ;
  w <- r_u32 ; h <- r_u32 ; d <- r_u32 ; memory <- r_find memories ; mo <- r_u64 ; flags <- r_u32 ;
  rret (mkImageBind (aspect, mip, layer) (x, y, z) (w, h, d) memory mo flags).

(** A resource and its binds.

    handlers_device.cpp:196-196. *)
Definition read_binds {A} (k : kind) (min : Z) (m : Rd A) : Rd (SparseBinds A) :=
  resource <- r_find k ; n <- r_length true min ; binds <- rfor n m ;
  rret (mkBinds _ resource (Z.of_nat n) (arr_ptr binds)).

(** handlers_device.cpp:196-196. *)
Definition read_bind_sparse_info : Rd VkBindSparseInfo :=
  next <- read_pnext_chain PNext.Submit 0 ;
  wn <- r_length true 8 ; waits <- rfor wn (r_find semaphores) ;
  bn <- r_length true 12 ; bufs <- rfor bn (read_binds buffers 36 read_memory_bind) ;
  on <- r_length true 12 ; opaques <- rfor on (read_binds images 36 read_memory_bind) ;
  im <- r_length true 12 ; imgs <- rfor im (read_binds images 56 read_image_bind) ;
  sn <- r_length true 8 ; signals <- rfor sn (r_find semaphores) ; r_ok ;!
  rret (mkBindSparse next (Z.of_nat wn) (arr_ptr waits) (Z.of_nat bn) (arr_ptr bufs)
          (Z.of_nat on) (arr_ptr opaques) (Z.of_nat im) (arr_ptr imgs) (Z.of_nat sn) (arr_ptr signals)).

(** handlers_device.cpp:192-197. *)
Definition read_queue_bind_sparse : Rd (Z * Z * list VkBindSparseInfo) :=
  queue <- r_find queues ; fence <- r_find fences ; n <- r_length true 16 ; rguard (valid queue) ;!
  infos <- rfor n read_bind_sparse_info ; rret (queue, fence, infos).

(** handlers_device.cpp:200-206. *)
Definition read_queue_wait_idle : Rd Z := queue <- r_find queues ; r_ok ;! rguard (valid queue) ;! rret queue.

(** *** Fences, semaphores, events and queries *)

(** A number of fences, which is not 0.

    handlers_device.cpp:258-276. *)
Definition read_reset_fences : Rd (Z * list Z) :=
  device <- r_find devices ; n <- r_length true 8 ; rguard (negb (Nat.eqb n 0)) ;!
  fs <- rfor n (r_find fences) ; rguard (valid device && forallb valid fs) ;! r_ok ;! r_end ;!
  rret (device, fs).

(** handlers_device.cpp:282-291. *)
Definition read_fence_status : Rd (Z * Z) :=
  device <- r_find devices ; fence <- r_find fences ; r_ok ;! r_end ;!
  rguard (valid device && valid fence) ;! rret (device, fence).

(** handlers_device.cpp:298-318. *)
Definition read_wait_fences : Rd (Z * list Z * bool * Z) :=
  device <- r_find devices ; wait_all <- r_u32 ; n <- r_length true 8 ; rguard (negb (Nat.eqb n 0)) ;!
  fs <- rfor n (r_find fences) ; timeout <- r_u64 ;
  rguard (valid device && forallb valid fs) ;! r_ok ;! r_end ;!
  rret (device, fs, negb (wait_all =? 0), timeout).

(** handlers_device.cpp:78-78. *)
Definition read_counter : Rd (Z * Z) :=
  device <- r_find devices ; sem <- r_find semaphores ; r_ok ;! rguard (valid device && valid sem) ;!
  rret (device, sem).

(** handlers_device.cpp:79-79. *)
Definition read_wait_value : Rd (Z * Z) := sem <- r_find semaphores ; v <- r_u64 ; rret (sem, v).

(** handlers_device.cpp:79-79. *)
Definition read_wait_semaphores : Rd (Z * Z * list (Z * Z) * Z) :=
  device <- r_find devices ; flags <- r_u32 ; n <- r_length true 16 ; sems <- rfor n read_wait_value ;
  timeout <- r_u64 ; rguard (valid device && forallb (fun s => valid s.1) sems) ;! r_ok ;!
  rret (device, flags, sems, timeout).

(** handlers_device.cpp:80-80. *)
Definition read_signal_semaphore : Rd (Z * Z * Z) :=
  device <- r_find devices ; sem <- r_find semaphores ; v <- r_u64 ; r_ok ;!
  rguard (valid device && valid sem) ;! rret (device, sem, v).

(** handlers_device.cpp:81-81. *)
Definition read_reset_query_pool : Rd (Z * Z * Z * Z) :=
  device <- r_find devices ; pool <- r_find query_pools ; first <- r_u32 ; count <- r_u32 ; r_ok ;!
  rguard (valid device && valid pool) ;! rret (device, pool, first, count).

(** handlers_device.cpp:543-548. *)
Definition read_event : Rd (Z * Z) :=
  device <- r_find devices ; event <- r_find events ; r_ok ;! rguard (valid device && valid event) ;!
  rret (device, event).

Definition kMaxBlob : Z := 64 * 1024 * 1024.

(** handlers_device.cpp:558-567. *)
Definition read_query_results : Rd (Z * Z * Z * Z * Z * Z * Z) :=
  device <- r_find devices ; pool <- r_find query_pools ; first <- r_u32 ; count <- r_u32 ;
  size <- r_u64 ; stride <- r_u64 ; flags <- r_u32 ; r_ok ;!
  rguard (valid device && valid pool && negb (kMaxBlob <? size)) ;!
  rret (device, pool, first, count, size, stride, flags).

(** handlers_device.cpp:575-583. *)
Definition read_cache_data : Rd (Z * Z * Z * bool) :=
  device <- r_find devices ; cache <- r_find pipeline_caches ; capacity <- r_u64 ; want <- r_u32 ;
  r_ok ;! rguard (valid device && valid cache && negb (kMaxBlob <? capacity)) ;!
  rret (device, cache, capacity, negb (want =? 0)).

(** handlers_device.cpp:592-603. *)
Definition read_merge_caches : Rd (Z * Z * list Z) :=
  device <- r_find devices ; dst <- r_find pipeline_caches ; n <- r_length true 8 ;
  sources <- rfor n (r_find pipeline_caches) ; r_ok ;!
  rguard (valid device && valid dst && forallb valid sources) ;! rret (device, dst, sources).

(** handlers_device.cpp:609-614. *)
Definition read_granularity : Rd (Z * Z) :=
  device <- r_find devices ; pass <- r_find render_passes ; r_ok ;! rguard (valid device && valid pass) ;!
  rret (device, pass).

(** handlers_device.cpp:520-531. *)
Definition read_subresource : Rd (Z * Z * (Z * Z * Z)) :=
  device <- r_find devices ; image <- r_find images ; aspect <- r_u32 ; mip <- r_u32 ; layer <- r_u32 ;
  r_ok ;! rguard (valid device) ;! rret (device, image, (aspect, mip, layer)).

(** *** Creation *)

(** [SERVER_CREATE]: the device, then the create info.

    handlers_device.cpp:358-367. *)
Definition read_create {A} (ReadFn : HandleResolver -> Rd A) : Rd (Z * A) :=
  device <- r_device ; info <- ReadFn (resolver_of t) ; rret (device, info).

(** handlers_device.cpp:422-434. *)
Definition read_create_shader_module : Rd (Z * VkShaderModuleCreateInfo.t) :=
  device <- r_find devices ; info <- read_ShaderModuleCreateInfo ; r_ok ;! r_end ;!
  rguard (valid device) ;! rret (device, info).

(** A device that may be looked at before the reader.

    handlers_device.cpp:781-781. *)
Definition read_create_unchecked {A} (m : Rd A) : Rd (Z * A) :=
  device <- r_find devices ; rguard (valid device) ;! info <- m ; rret (device, info).

(** handlers_device.cpp:674-702. *)
Definition read_graphics_pipelines : Rd (Z * Z * list VkGraphicsPipelineCreateInfo.t) :=
  device <- r_find devices ; cache_id <- r_handle ; n <- r_length true 4 ; r_ok ;!
  infos <- rfor n read_GraphicsPipelineCreateInfo ;
  let cache := Table.get (table t pipeline_caches) cache_id in
  rguard (valid device && optional cache_id cache) ;! rret (device, cache, infos).

(** handlers_device.cpp:716-741. *)
Definition read_compute_pipelines : Rd (Z * Z * list VkComputePipelineCreateInfo.t) :=
  device <- r_find devices ; cache_id <- r_handle ; n <- r_length true 4 ; r_ok ;!
  let cache := Table.get (table t pipeline_caches) cache_id in
  rguard (valid device && optional cache_id cache) ;!
  infos <- rfor n read_ComputePipelineCreateInfo ; rret (device, cache, infos).

(** *** Descriptors *)

(** The id and object of one set to free, and whether the pool owns it.

    handlers_device.cpp:629-637. *)
Definition read_freed_set (device pool : Z) : Rd (Z * Z) :=
  id <- r_handle ;
  let set := Table.get (table t descriptor_sets) id in
  rguard (valid set && match descriptor_set_owners t !! id with
                       | Some o => (dso_device o =? device) && (dso_pool o =? pool)
                       | None => false
                       end) ;!
  rret (id, set).

(** handlers_device.cpp:620-641. *)
Definition read_free_sets : Rd (Z * Z * list (Z * Z)) :=
  device <- r_find devices ; pool <- r_find descriptor_pools ; n <- r_length true 8 ;
  sets <- rfor n (read_freed_set device pool) ; r_ok ;! r_end ;!
  rguard (valid device && valid pool) ;! rret (device, pool, sets).

(** handlers_device.cpp:651-659. *)
Definition read_reset_pool : Rd (Z * Z * Z) :=
  device <- r_find devices ; pool <- r_find descriptor_pools ; flags <- r_u32 ; r_ok ;!
  rguard (valid device && valid pool) ;! r_end ;! rret (device, pool, flags).

(** handlers_device.cpp:788-818. *)
Definition read_update_sets : Rd (Z * list VkWriteDescriptorSet.t * list VkCopyDescriptorSet.t) :=
  device <- r_find devices ; n <- r_length true 4 ; r_ok ;! rguard (valid device) ;!
  writes <- rfor n read_WriteDescriptorSet ; m <- r_length true 4 ;
  copies <- rfor m read_CopyDescriptorSet ; r_ok ;! r_end ;! rret (device, writes, copies).

End Decoders.

(** ** The handlers *)

(** The tables with other maps beside them. *)
Definition set_device_physical_devices (m : gmap Z Z) (t : ObjectTables) : ObjectTables :=
  {| capabilities := capabilities t; table := table t; memory_metadata := memory_metadata t;
     device_physical_devices := m; command_buffer_devices := command_buffer_devices t;
     descriptor_set_owners := descriptor_set_owners t;
     descriptor_update_template_owners := descriptor_update_template_owners t;
     descriptor_update_template_entries := descriptor_update_template_entries t;
     sampler_ycbcr_conversion_owners := sampler_ycbcr_conversion_owners t;
     swapchain_devices := swapchain_devices t; swapchain_surfaces := swapchain_surfaces t;
     swapchain_image_ids := swapchain_image_ids t |}.
Definition set_descriptor_set_owners (m : gmap Z DescriptorSetOwner) (t : ObjectTables) : ObjectTables :=
  {| capabilities := capabilities t; table := table t; memory_metadata := memory_metadata t;
     device_physical_devices := device_physical_devices t;
     command_buffer_devices := command_buffer_devices t; descriptor_set_owners := m;
     descriptor_update_template_owners := descriptor_update_template_owners t;
     descriptor_update_template_entries := descriptor_update_template_entries t;
     sampler_ycbcr_conversion_owners := sampler_ycbcr_conversion_owners t;
     swapchain_devices := swapchain_devices t; swapchain_surfaces := swapchain_surfaces t;
     swapchain_image_ids := swapchain_image_ids t |}.
Definition set_template_maps (owners : gmap Z Z) (entries : gmap Z (list VkDescriptorUpdateTemplateEntry.t))
    (t : ObjectTables) : ObjectTables :=
  {| capabilities := capabilities t; table := table t; memory_metadata := memory_metadata t;
     device_physical_devices := device_physical_devices t;
     command_buffer_devices := command_buffer_devices t;
     descriptor_set_owners := descriptor_set_owners t;
     descriptor_update_template_owners := owners; descriptor_update_template_entries := entries;
     sampler_ycbcr_conversion_owners := sampler_ycbcr_conversion_owners t;
     swapchain_devices := swapchain_devices t; swapchain_surfaces := swapchain_surfaces t;
     swapchain_image_ids := swapchain_image_ids t |}.
Definition set_ycbcr_owners (m : gmap Z Z) (t : ObjectTables) : ObjectTables :=
  {| capabilities := capabilities t; table := table t; memory_metadata := memory_metadata t;
     device_physical_devices := device_physical_devices t;
     command_buffer_devices := command_buffer_devices t;
     descriptor_set_owners := descriptor_set_owners t;
     descriptor_update_template_owners := descriptor_update_template_owners t;
     descriptor_update_template_entries := descriptor_update_template_entries t;
     sampler_ycbcr_conversion_owners := m;
     swapchain_devices := swapchain_devices t; swapchain_surfaces := swapchain_surfaces t;
     swapchain_image_ids := swapchain_image_ids t |}.

(** [c.tables.k.add(object, device)]. *)
Definition add_object (k : kind) (object device : Z) (t : ObjectTables) : Z * ObjectTables :=
  let (id, T) := Table.add (table t k) object device in (id, set_table k T t).

Definition take_object (k : kind) (id : Z) (t : ObjectTables) : Z * ObjectTables :=
  let (object, T) := Table.take (table t k) id in (object, set_table k T t).

(** What a call left in an array of [n] handles that were null before it. *)
Definition filled (n : Z) (xs : list Z) : list Z := take (Z.to_nat n) (xs ++ replicate (Z.to_nat n) 0).

Section Handlers.
Context `{Abi} {W : Type} {C : CommandDriver W} {D : DeviceDriver W}.
(** The server's physical devices. *)
Variable physical_devices : list Z.
Implicit Type c : Session W.
Import Handler.

(** Decode and go on, or refuse. *)
Definition decoded {A} (m : ObjectTables -> Rd A) (f : A -> Session W -> Session W) c : Session W :=
  match rd (m (tables c)) c with
  | (None, c) => reply_status DecodeError c
  | (Some x, c) => f x c
  end.

(** The same for a one-way request. *)
Definition decoded_oneway {A} (m : ObjectTables -> Rd A) (f : A -> Session W -> Session W) c : Session W :=
  match rd (m (tables c)) c with
  | (None, c) => mark_oneway_error c
  | (Some x, c) => f x c
  end.

(** [Status::Ok], then the rest of the reply. *)
Definition reply_ok (bs : list byte) c : Session W := reply (write bs (write_ok c)).

(** A call whose result is the reply. *)
Definition reply_result (x : Z * W) c : Session W :=
  let (result, w) := x in reply_ok (Writer.i32 result) (set_driver w c).

(** The reply to a submission reports and clears the errors of one-way requests. *)
Definition clear_oneway_errors c : Session W :=
  mkSession _ (reader c) (writer c) (tables c) 0 (opcode c) (request_id c) (replied c)
    (close_connection c) (sent c) (driver c).

(** handlers_device.cpp:184-189. *)
Definition reply_submission (x : Z * W) c : Session W :=
  let (result, w) := x in
  reply (clear_oneway_errors
           (write (Writer.i32 result ++ Writer.u32 (oneway_errors c)) (write_ok (set_driver w c)))).

(** [vkGetDeviceProcAddr], or an answer that the command is unknown. *)
Definition with_proc (device : Z) (name : string) (f : Session W -> Session W) c : Session W :=
  if vkGetDeviceProcAddr device name (driver c) then f c else reply_status UnsupportedCommand c.

(** *** Devices and queues *)

(** session.cpp:397-400. *)
Definition physical_device_from_id (id : Z) : Z :=
  if (id =? 0) || (Z.of_nat (length physical_devices) <? id) then 0
  else default 0 (physical_devices !! Z.to_nat (id - 1)).

(** handlers_device.cpp:26-34. *)
Definition read_create_device (t : ObjectTables) : Rd (Z * VkDeviceCreateInfo.t) :=
  id <- r_handle ; let physdev := physical_device_from_id id in
  r_ok ;! rguard (valid physdev) ;! info <- read_DeviceCreateInfo (HR := resolver_of t) ; rret (physdev, info).

(** handlers_device.cpp:25-47. *)
Definition handle_CreateDevice : Session W -> Session W :=
  decoded read_create_device (fun x c =>
    let '(result, device, w) := vkCreateDevice x.1 x.2 (driver c) in
    let c := set_driver w c in
    let (id, t) :=
      if result =? VK_SUCCESS then
        let (id, t) := add_object devices device 0 (tables c) in
        (id, set_device_physical_devices (<[device := x.1]> (device_physical_devices t)) t)
      else (0, tables c) in
    reply_ok (Writer.i32 result ++ Writer.handle id) (set_tables t c)).

(** handlers_device.cpp:49-57. *)
Definition handle_DestroyDevice c : Session W :=
  let (id, c) := rd Reader.handle c in
  let (device, t) := take_object devices id (tables c) in
  let c := set_tables t c in
  if negb (Reader.ok (reader c)) || (device =? 0) then mark_oneway_error c
  else match destroy_device_objects t device with
  | None => c
  | Some (t, calls) => set_driver (teardown calls (driver c)) (set_tables t c)
  end.

(** [c.tables.queues.add_unique(queue, device)]. *)
Definition unique_queue (queue device : Z) c : Z * Session W :=
  let (id, T) := Table.add_unique (table (tables c) queues) queue device in
  (id, set_tables (set_table queues T (tables c)) c).

(** handlers_device.cpp:59-73. *)
Definition handle_GetDeviceQueue : Session W -> Session W :=
  decoded read_get_queue (fun x c =>
    let '(device, family, index) := x in
    let queue := vkGetDeviceQueue device family index (driver c) in
    let (id, c) := unique_queue queue device c in reply_ok (Writer.handle id) c).

(** handlers_device.cpp:75-75. *)
Definition handle_GetDeviceQueue2 : Session W -> Session W :=
  decoded read_get_queue2 (fun x c =>
    let '(device, flags, family, index) := x in
    with_proc device "vkGetDeviceQueue2" (fun c =>
      let queue := vkGetDeviceQueue2 device flags family index (driver c) in
      let (id, c) := if valid queue then unique_queue queue device c else (0, c) in
      reply_ok (Writer.handle id) c) c).

(** handlers_device.cpp:76-76. *)
Definition handle_GetDeviceGroupPeerMemoryFeatures : Session W -> Session W :=
  decoded read_peer_features (fun x c =>
    let '(device, heap, local, remote) := x in
    with_proc device "vkGetDeviceGroupPeerMemoryFeatures" (fun c =>
      reply_ok (Writer.u32 (vkGetDeviceGroupPeerMemoryFeatures device heap local remote (driver c))) c) c).

(** handlers_device.cpp:83-105. *)
Definition handle_QueueSubmit2 : Session W -> Session W :=
  decoded read_queue_submit2 (fun x c =>
    let '(queue_id, queue, fence, infos) := x in
    let owner := Table.owner (table (tables c) queues) queue_id in
    if valid owner && vkGetDeviceProcAddr owner "vkQueueSubmit2KHR" (driver c)
    then reply_submission (vkQueueSubmit2 queue infos fence (driver c)) c
    else reply_status UnsupportedCommand c).

(** handlers_device.cpp:107-190. *)
Definition handle_QueueSubmit : Session W -> Session W :=
  decoded read_queue_submit (fun x c =>
    let '(queue, fence, submits) := x in
    reply_submission (vkQueueSubmit queue submits fence (driver c)) c).

(** handlers_device.cpp:192-198. *)
Definition handle_QueueBindSparse : Session W -> Session W :=
  decoded read_queue_bind_sparse (fun x c =>
    let '(queue, fence, infos) := x in
    reply_submission (vkQueueBindSparse queue infos fence (driver c)) c).

(** handlers_device.cpp:200-211. *)
Definition handle_QueueWaitIdle : Session W -> Session W :=
  decoded read_queue_wait_idle (fun queue c => reply_result (vkQueueWaitIdle queue (driver c)) c).

(** handlers_device.cpp:213-226. *)
Definition handle_DeviceWaitIdle : Session W -> Session W :=
  decoded r_device (fun device c => reply_submission (vkDeviceWaitIdle device (driver c)) c).

(** *** Synchronization and queries *)

(** handlers_device.cpp:258-280. *)
Definition handle_ResetFences : Session W -> Session W :=
  decoded read_reset_fences (fun x c => reply_result (vkResetFences x.1 x.2 (driver c)) c).

(** handlers_device.cpp:282-296. *)
Definition handle_GetFenceStatus : Session W -> Session W :=
  decoded read_fence_status (fun x c => reply_result (vkGetFenceStatus x.1 x.2 (driver c)) c).

(** handlers_device.cpp:298-323. *)
Definition handle_WaitForFences : Session W -> Session W :=
  decoded read_wait_fences (fun x c =>
    let '(device, fs, wait_all, timeout) := x in
    reply_result (vkWaitForFences device fs wait_all timeout (driver c)) c).

(** handlers_device.cpp:78-78. *)
Definition handle_GetSemaphoreCounterValue : Session W -> Session W :=
  decoded read_counter (fun x c =>
    with_proc x.1 "vkGetSemaphoreCounterValue" (fun c =>
      let (result, value) := vkGetSemaphoreCounterValue x.1 x.2 (driver c) in
      reply_ok (Writer.i32 result ++ Writer.u64 value) c) c).

(** handlers_device.cpp:79-79. *)
Definition handle_WaitSemaphores : Session W -> Session W :=
  decoded read_wait_semaphores (fun x c =>
    let '(device, flags, sems, timeout) := x in
    with_proc device "vkWaitSemaphores" (fun c =>
      reply_result (vkWaitSemaphores device flags sems timeout (driver c)) c) c).

(** handlers_device.cpp:80-80. *)
Definition handle_SignalSemaphore : Session W -> Session W :=
  decoded read_signal_semaphore (fun x c =>
    let '(device, sem, value) := x in
    with_proc device "vkSignalSemaphore" (fun c =>
      reply_result (vkSignalSemaphore device sem value (driver c)) c) c).

(** handlers_device.cpp:81-81. *)
Definition handle_ResetQueryPool : Session W -> Session W :=
  decoded_oneway read_reset_query_pool (fun x c =>
    let '(device, pool, first, count) := x in
    if vkGetDeviceProcAddr device "vkResetQueryPool" (driver c)
    then set_driver (vkResetQueryPool device pool first count (driver c)) c else mark_oneway_error c).

(** handlers_device.cpp:543-553. *)
Definition handle_EventOperation (operation : Z) : Session W -> Session W :=
  decoded read_event (fun x c =>
    reply_result ((if operation =? 0 then vkGetEventStatus
                   else if operation =? 1 then vkSetEvent else vkResetEvent) x.1 x.2 (driver c)) c).

(** handlers_device.cpp:554-554. *)
Definition handle_GetEventStatus : Session W -> Session W := handle_EventOperation 0.
(** handlers_device.cpp:555-555. *)
Definition handle_SetEvent : Session W -> Session W := handle_EventOperation 1.
(** handlers_device.cpp:556-556. *)
Definition handle_ResetEvent : Session W -> Session W := handle_EventOperation 2.

(** A buffer of [n] zero bytes after a call has filled a part of it. *)
Definition filled_bytes (n : Z) (bs : list byte) : list byte :=
  take (Z.to_nat n) (bs ++ replicate (Z.to_nat n) x00).

(** handlers_device.cpp:558-573. *)
Definition handle_GetQueryPoolResults : Session W -> Session W :=
  decoded read_query_results (fun x c =>
    let '(device, pool, first, count, size, stride, flags) := x in
    let (result, data) := vkGetQueryPoolResults device pool first count size stride flags (driver c) in
    reply_ok (Writer.i32 result ++ Writer.bytes (filled_bytes size data)) c).

(** handlers_device.cpp:575-590. *)
Definition handle_GetPipelineCacheData : Session W -> Session W :=
  decoded read_cache_data (fun x c =>
    let '(device, cache, capacity, want) := x in
    let '(result, size, data) :=
      vkGetPipelineCacheData device cache capacity (want && negb (capacity =? 0)) (driver c) in
    let data := filled_bytes (if want then capacity else 0) data in
    reply_ok (Writer.i32 result ++ Writer.u64 size ++ Writer.bytes (take (Z.to_nat size) data)) c).

(** handlers_device.cpp:592-607. *)
Definition handle_MergePipelineCaches : Session W -> Session W :=
  decoded read_merge_caches (fun x c =>
    let '(device, dst, sources) := x in reply_result (vkMergePipelineCaches device dst sources (driver c)) c).

(** handlers_device.cpp:609-618. *)
Definition handle_GetRenderAreaGranularity : Session W -> Session W :=
  decoded read_granularity (fun x c =>
    let value := vkGetRenderAreaGranularity x.1 x.2 (driver c) in
    reply_ok (Writer.u32 (VkExtent2D.width value) ++ Writer.u32 (VkExtent2D.height value)) c).

(** handlers_device.cpp:520-541. *)
Definition handle_GetImageSubresourceLayout : Session W -> Session W :=
  decoded read_subresource (fun x c =>
    let '(device, image, (aspect, mip, layer)) := x in
    let layout := vkGetImageSubresourceLayout device image aspect mip layer (driver c) in
    reply_ok (Writer.u64 (VkSubresourceLayout.offset layout) ++ Writer.u64 (VkSubresourceLayout.size layout) ++
              Writer.u64 (VkSubresourceLayout.rowPitch layout) ++
              Writer.u64 (VkSubresourceLayout.arrayPitch layout) ++
              Writer.u64 (VkSubresourceLayout.depthPitch layout)) c).

(** *** Creation and destruction *)

(** The status, the result and the id of the new object.

    handlers_device.cpp:368-373. *)
Definition reply_created (k : kind) (device : Z) (x : Z * Z * W) c : Session W :=
  let '(result, object, w) := x in
  let c := set_driver w c in
  let (id, t) := if result =? VK_SUCCESS then add_object k object device (tables c) else (0, tables c) in
  reply_ok (Writer.i32 result ++ Writer.handle id) (set_tables t c).

(** handlers_device.cpp:357-374. *)
Definition SERVER_CREATE {A} (k : kind) (ReadFn : HandleResolver -> Rd A) (VkCreateFn : A -> creation) :
    Session W -> Session W :=
  decoded (fun t => read_create t ReadFn) (fun x c =>
    reply_created k x.1 (vkCreate x.1 (VkCreateFn x.2) (driver c)) c).

(** handlers_device.cpp:376-392. *)
Definition SERVER_DESTROY (k : kind) c : Session W :=
  let (device, c) := rd_object devices c in
  let (id, c) := rd Reader.handle c in
  if negb (Reader.ok (reader c)) || (device =? 0) || negb (Table.owned_by (table (tables c) k) id device)
  then mark_oneway_error c
  else
    let (object, t) := take_object k id (tables c) in
    let c := set_tables t c in
    if object =? 0 then mark_oneway_error c else set_driver (vkDestroy k device object (driver c)) c.

(** Fences and semaphores are taken before anything is checked.

    handlers_device.cpp:246-256. *)
Definition destroy_unowned (k : kind) c : Session W :=
  let (device, c) := rd_object devices c in
  let (id, c) := rd Reader.handle c in
  let (object, t) := take_object k id (tables c) in
  let c := set_tables t c in
  if negb (Reader.ok (reader c)) || (device =? 0) then mark_oneway_error c
  else set_driver (vkDestroy k device object (driver c)) c.

(** handlers_device.cpp:228-244. *)
Definition handle_CreateFence := SERVER_CREATE fences (fun HR => read_FenceCreateInfo) vkCreateFence.
(** handlers_device.cpp:246-256. *)
Definition handle_DestroyFence := destroy_unowned fences.
(** handlers_device.cpp:325-341. *)
Definition handle_CreateSemaphore := SERVER_CREATE semaphores (fun HR => read_SemaphoreCreateInfo) vkCreateSemaphore.
(** handlers_device.cpp:343-353. *)
Definition handle_DestroySemaphore := destroy_unowned semaphores.
(** handlers_device.cpp:394-395. *)
Definition handle_CreateBuffer := SERVER_CREATE buffers (fun HR => read_BufferCreateInfo) vkCreateBuffer.
(** handlers_device.cpp:396-396. *)
Definition handle_DestroyBuffer := SERVER_DESTROY buffers.
(** handlers_device.cpp:398-399. *)
Definition handle_CreateImage := SERVER_CREATE images (fun HR => read_ImageCreateInfo) vkCreateImage.
(** handlers_device.cpp:400-400. *)
Definition handle_DestroyImage := SERVER_DESTROY images.
(** handlers_device.cpp:402-403. *)
Definition handle_CreateImageView := SERVER_CREATE image_views (fun HR => read_ImageViewCreateInfo) vkCreateImageView.
(** handlers_device.cpp:404-404. *)
Definition handle_DestroyImageView := SERVER_DESTROY image_views.
(** handlers_device.cpp:406-407. *)
Definition handle_CreateBufferView := SERVER_CREATE buffer_views (fun HR => read_BufferViewCreateInfo) vkCreateBufferView.
(** handlers_device.cpp:408-408. *)
Definition handle_DestroyBufferView := SERVER_DESTROY buffer_views.
(** handlers_device.cpp:410-411. *)
Definition handle_CreateEvent := SERVER_CREATE events (fun HR => read_EventCreateInfo) vkCreateEvent.
(** handlers_device.cpp:412-412. *)
Definition handle_DestroyEvent := SERVER_DESTROY events.
(** handlers_device.cpp:414-415. *)
Definition handle_CreateQueryPool := SERVER_CREATE query_pools (fun HR => read_QueryPoolCreateInfo) vkCreateQueryPool.
(** handlers_device.cpp:416-416. *)
Definition handle_DestroyQueryPool := SERVER_DESTROY query_pools.
(** handlers_device.cpp:418-419. *)
Definition handle_CreateSampler := SERVER_CREATE samplers (fun HR => read_SamplerCreateInfo) vkCreateSampler.
(** handlers_device.cpp:420-420. *)
Definition handle_DestroySampler := SERVER_DESTROY samplers.
(** handlers_device.cpp:422-440. *)
Definition handle_CreateShaderModule : Session W -> Session W :=
  decoded read_create_shader_module (fun x c =>
    reply_created shader_modules x.1 (vkCreate x.1 (vkCreateShaderModule x.2) (driver c)) c).
(** handlers_device.cpp:441-441. *)
Definition handle_DestroyShaderModule := SERVER_DESTROY shader_modules.
(** handlers_device.cpp:443-444. *)
Definition handle_CreatePipelineCache :=
  SERVER_CREATE pipeline_caches (fun HR => read_PipelineCacheCreateInfo) vkCreatePipelineCache.
(** handlers_device.cpp:445-445. *)
Definition handle_DestroyPipelineCache := SERVER_DESTROY pipeline_caches.
(** handlers_device.cpp:447-448. *)
Definition handle_CreatePipelineLayout :=
  SERVER_CREATE pipeline_layouts (fun HR => read_PipelineLayoutCreateInfo) vkCreatePipelineLayout.
(** handlers_device.cpp:449-449. *)
Definition handle_DestroyPipelineLayout := SERVER_DESTROY pipeline_layouts.
(** handlers_device.cpp:451-451. *)
Definition handle_DestroyPipeline := SERVER_DESTROY pipelines.
(** handlers_device.cpp:453-454. *)
Definition handle_CreateRenderPass := SERVER_CREATE render_passes (fun HR => read_RenderPassCreateInfo) vkCreateRenderPass.
(** handlers_device.cpp:456-463. *)
Definition handle_CreateRenderPass2 : Session W -> Session W :=
  decoded (fun t => read_create t (fun HR => read_RenderPassCreateInfo2)) (fun x c =>
    if vkGetDeviceProcAddr x.1 "vkCreateRenderPass2" (driver c)
       || vkGetDeviceProcAddr x.1 "vkCreateRenderPass2KHR" (driver c)
    then reply_created render_passes x.1 (vkCreate x.1 (vkCreateRenderPass2 x.2) (driver c)) c
    else reply_status UnsupportedCommand c).
(** handlers_device.cpp:464-464. *)
Definition handle_DestroyRenderPass := SERVER_DESTROY render_passes.
(** handlers_device.cpp:466-467. *)
Definition handle_CreateFramebuffer := SERVER_CREATE framebuffers (fun HR => read_FramebufferCreateInfo) vkCreateFramebuffer.
(** handlers_device.cpp:468-468. *)
Definition handle_DestroyFramebuffer := SERVER_DESTROY framebuffers.
(** handlers_device.cpp:502-518. *)
Definition handle_CreateDescriptorSetLayout :=
  SERVER_CREATE descriptor_set_layouts (fun HR => read_DescriptorSetLayoutCreateInfo) vkCreateDescriptorSetLayout.
(** handlers_device.cpp:470-471. *)
Definition handle_DestroyDescriptorSetLayout := SERVER_DESTROY descriptor_set_layouts.
(** handlers_device.cpp:473-474. *)
Definition handle_CreateDescriptorPool :=
  SERVER_CREATE descriptor_pools (fun HR => read_DescriptorPoolCreateInfo) vkCreateDescriptorPool.

(** The ids of the pipelines that were made.

    handlers_device.cpp:749-751. *)
Fixpoint add_pipelines (device : Z) (objects : list Z) (t : ObjectTables) : list Z * ObjectTables :=
  match objects with
  | [] => ([], t)
  | object :: objects =>
      let (id, t) := if valid object then add_object pipelines object device t else (0, t) in
      let (ids, t) := add_pipelines device objects t in (id :: ids, t)
  end.

(** handlers_device.cpp:700-713. *)
Definition reply_pipelines (device n : Z) (x : Z * list Z * W) c : Session W :=
  let '(result, objects, w) := x in
  let c := set_driver w c in
  let (ids, t) := add_pipelines device (filled n objects) (tables c) in
  reply_ok (Writer.i32 result ++ Writer.u32 n ++ concat (map Writer.handle ids)) (set_tables t c).

(** handlers_device.cpp:674-714. *)
Definition handle_CreateGraphicsPipelines : Session W -> Session W :=
  decoded read_graphics_pipelines (fun x c =>
    let '(device, cache, infos) := x in
    let n := Z.of_nat (length infos) in
    reply_pipelines device n
      (if n =? 0 then (VK_SUCCESS, [], driver c)
       else vkCreateGraphicsPipelines device cache infos (driver c)) c).

(** handlers_device.cpp:716-753. *)
Definition handle_CreateComputePipelines : Session W -> Session W :=
  decoded read_compute_pipelines (fun x c =>
    let '(device, cache, infos) := x in
    let n := Z.of_nat (length infos) in
    reply_pipelines device n
      (if n =? 0 then (VK_SUCCESS, [], driver c)
       else vkCreateComputePipelines device cache infos (driver c)) c).

(** *** Descriptor pools and sets *)

(** The sets of a pool, taken from their table with their entries in
    [descriptor_set_owners].

    handlers_device.cpp:489-497. *)
Definition retire_pool (pool : Z) (t : ObjectTables) : ObjectTables :=
  let sets := (filter (fun '(_, o) => dso_pool o = pool) (map_to_list (descriptor_set_owners t))).*1 in
  set_descriptor_set_owners (filter (fun '(_, o) => dso_pool o <> pool) (descriptor_set_owners t))
    (set_table descriptor_sets
       (fold_left (fun T id => snd (Table.take T id)) sets (table t descriptor_sets)) t).

(** handlers_device.cpp:480-487. *)
Definition read_destroy_pool (t : ObjectTables) : Rd (Z * Z * Z) :=
  device <- r_find t devices ; pool_id <- r_handle ; r_ok ;! r_end ;!
  let pool := Table.get (table t descriptor_pools) pool_id in
  rguard (valid device && valid pool) ;! rret (device, pool_id, pool).

(** handlers_device.cpp:479-499. *)
Definition handle_DestroyDescriptorPool : Session W -> Session W :=
  decoded_oneway read_destroy_pool (fun x c =>
    let '(device, pool_id, pool) := x in
    let (_, t) := take_object descriptor_pools pool_id (tables c) in
    set_driver (vkDestroy descriptor_pools device pool (driver c)) (set_tables (retire_pool pool t) c)).

(** handlers_device.cpp:770-777. *)
Fixpoint add_sets (device pool : Z) (sets : list Z) (t : ObjectTables) : list Z * ObjectTables :=
  match sets with
  | [] => ([], t)
  | set :: sets =>
      let (id, t) := add_object descriptor_sets set device t in
      let t := set_descriptor_set_owners
                 (<[id := {| dso_device := device; dso_pool := pool |}]> (descriptor_set_owners t)) t in
      let (ids, t) := add_sets device pool sets t in (id :: ids, t)
  end.

(** handlers_device.cpp:755-779. *)
Definition handle_AllocateDescriptorSets : Session W -> Session W :=
  decoded (fun t => read_create t (fun HR => read_DescriptorSetAllocateInfo)) (fun x c =>
    let (device, info) := x in
    let n := VkDescriptorSetAllocateInfo.descriptorSetCount info in
    let '(result, sets, w) := vkAllocateDescriptorSets device info (driver c) in
    let c := set_driver w c in
    let (ids, t) :=
      if result =? VK_SUCCESS
      then add_sets device (VkDescriptorSetAllocateInfo.descriptorPool info) (filled n sets) (tables c)
      else (replicate (Z.to_nat n) 0, tables c) in
    reply_ok (Writer.i32 result ++ Writer.u32 n ++ concat (map Writer.handle ids)) (set_tables t c)).

(** handlers_device.cpp:643-646. *)
Definition drop_set (t : ObjectTables) (id : Z) : ObjectTables :=
  let (_, t) := take_object descriptor_sets id t in
  set_descriptor_set_owners (delete id (descriptor_set_owners t)) t.

(** handlers_device.cpp:620-649. *)
Definition handle_FreeDescriptorSets : Session W -> Session W :=
  decoded read_free_sets (fun x c =>
    let '(device, pool, sets) := x in
    let (result, w) := vkFreeDescriptorSets device pool sets.*2 (driver c) in
    let c := set_driver w c in
    let t := if result =? VK_SUCCESS then fold_left drop_set sets.*1 (tables c) else tables c in
    reply_ok (Writer.i32 result) (set_tables t c)).

(** handlers_device.cpp:651-672. *)
Definition handle_ResetDescriptorPool : Session W -> Session W :=
  decoded read_reset_pool (fun x c =>
    let '(device, pool, flags) := x in
    let (result, w) := vkResetDescriptorPool device pool flags (driver c) in
    let c := set_driver w c in
    let t := if result =? VK_SUCCESS then retire_pool pool (tables c) else tables c in
    reply_ok (Writer.i32 result) (set_tables t c)).

(** handlers_device.cpp:788-820. *)
Definition handle_UpdateDescriptorSets : Session W -> Session W :=
  decoded_oneway read_update_sets (fun x c =>
    let '(device, writes, copies) := x in
    set_driver (vkUpdateDescriptorSets device writes copies (driver c)) c).

(** handlers_device.cpp:784-784. *)
Definition handle_GetDescriptorSetLayoutSupport : Session W -> Session W :=
  decoded (fun t => read_create_unchecked t (read_DescriptorSetLayoutCreateInfo (HR := resolver_of t))) (fun x c =>
    with_proc x.1 "vkGetDescriptorSetLayoutSupport" (fun c =>
      reply_ok (Writer.u32 (vkGetDescriptorSetLayoutSupport x.1 x.2 (driver c))) c) c).

(** *** Sampler conversions *)

(** handlers_device.cpp:785-785. *)
Definition handle_CreateSamplerYcbcrConversion : Session W -> Session W :=
  decoded (fun t => read_create_unchecked t read_SamplerYcbcrConversionCreateInfo) (fun x c =>
    with_proc x.1 "vkCreateSamplerYcbcrConversion" (fun c =>
      let '(result, object, w) := vkCreate x.1 (vkCreateSamplerYcbcrConversion x.2) (driver c) in
      let c := set_driver w c in
      let (id, t) := if result =? VK_SUCCESS then add_object sampler_ycbcr_conversions object x.1 (tables c)
                     else (0, tables c) in
      let t := if valid id then set_ycbcr_owners (<[id := x.1]> (sampler_ycbcr_conversion_owners t)) t else t in
      reply_ok (Writer.i32 result ++ Writer.handle id) (set_tables t c)) c).

(** handlers_device.cpp:786-786. *)
Definition handle_DestroySamplerYcbcrConversion c : Session W :=
  let (device, c) := rd_object devices c in
  let (id, c) := rd Reader.handle c in
  let owner := sampler_ycbcr_conversion_owners (tables c) !! id in
  if negb (Reader.ok (reader c)) || (device =? 0) || bool_decide (owner <> Some device) then mark_oneway_error c
  else
    let (object, t) := take_object sampler_ycbcr_conversions id (tables c) in
    let c := set_tables t c in
    if negb (vkGetDeviceProcAddr device "vkDestroySamplerYcbcrConversion" (driver c)) || (object =? 0)
    then mark_oneway_error c
    else
      let c := set_driver (vkDestroy sampler_ycbcr_conversions device object (driver c)) c in
      set_tables (set_ycbcr_owners (delete id (sampler_ycbcr_conversion_owners (tables c))) (tables c)) c.

(** *** Update templates *)

(** handlers_device.cpp:781-781. *)
Definition handle_CreateDescriptorUpdateTemplate : Session W -> Session W :=
  decoded (fun t => read_create_unchecked t (read_DescriptorUpdateTemplateCreateInfo (HR := resolver_of t))) (fun x c =>
    with_proc x.1 "vkCreateDescriptorUpdateTemplate" (fun c =>
      let '(result, object, w) := vkCreate x.1 (vkCreateDescriptorUpdateTemplate x.2) (driver c) in
      let c := set_driver w c in
      let (id, t) := if result =? VK_SUCCESS then add_object descriptor_update_templates object x.1 (tables c)
                     else (0, tables c) in
      let entries := arr (VkDescriptorUpdateTemplateCreateInfo.pDescriptorUpdateEntries x.2)
                         (VkDescriptorUpdateTemplateCreateInfo.descriptorUpdateEntryCount x.2) in
      let t := if valid id
               then set_template_maps (<[id := x.1]> (descriptor_update_template_owners t))
                      (<[id := entries]> (descriptor_update_template_entries t)) t
               else t in
      reply_ok (Writer.i32 result ++ Writer.handle id) (set_tables t c)) c).

(** handlers_device.cpp:782-782. *)
Definition handle_DestroyDescriptorUpdateTemplate c : Session W :=
  let (device, c) := rd_object devices c in
  let (id, c) := rd Reader.handle c in
  let owner := descriptor_update_template_owners (tables c) !! id in
  if negb (Reader.ok (reader c)) || (device =? 0) || bool_decide (owner <> Some device) then mark_oneway_error c
  else
    let (object, t) := take_object descriptor_update_templates id (tables c) in
    let c := set_tables t c in
    if negb (vkGetDeviceProcAddr device "vkDestroyDescriptorUpdateTemplate" (driver c)) || (object =? 0)
    then mark_oneway_error c
    else
      let c := set_driver (vkDestroy descriptor_update_templates device object (driver c)) c in
      let t := tables c in
      set_tables (set_template_maps (delete id (descriptor_update_template_owners t))
                    (delete id (descriptor_update_template_entries t)) t) c.

(** *** Updates through a template

    The server rebuilds the application's block of data at the offsets of the
    template's entries, which came from the client with it. *)

Definition SIZE_MAX : Z := 2 ^ 64 - 1.

Definition is_texel (type : Z) : bool :=
  (type =? VK_DESCRIPTOR_TYPE_UNIFORM_TEXEL_BUFFER) || (type =? VK_DESCRIPTOR_TYPE_STORAGE_TEXEL_BUFFER).

Definition is_image (type : Z) : bool :=
  (type =? VK_DESCRIPTOR_TYPE_SAMPLER) || (type =? VK_DESCRIPTOR_TYPE_COMBINED_IMAGE_SAMPLER)
  || (type =? VK_DESCRIPTOR_TYPE_SAMPLED_IMAGE) || (type =? VK_DESCRIPTOR_TYPE_STORAGE_IMAGE)
  || (type =? VK_DESCRIPTOR_TYPE_INPUT_ATTACHMENT).

(** [elem]: the size of a [VkBufferView], or of a [VkDescriptorImageInfo] or
    [VkDescriptorBufferInfo], which is the same.

    handlers_device.cpp:783-783. *)
Definition element_size (type : Z) : Z := if is_texel type then 8 else 24.

(** The 64-bit distance from the first to the last element of an entry.

    handlers_device.cpp:783-783. *)
Definition entry_span (e : VkDescriptorUpdateTemplateEntry.t) : Z :=
  if VkDescriptorUpdateTemplateEntry.descriptorCount e =? 0 then 0
  else wrap64 ((VkDescriptorUpdateTemplateEntry.descriptorCount e - 1) * VkDescriptorUpdateTemplateEntry.stride e).

(** The size of the block; [None] when an entry is refused.

    handlers_device.cpp:783-783. *)
Fixpoint template_size (entries : list VkDescriptorUpdateTemplateEntry.t) (size : Z) : option Z :=
  match entries with
  | [] => Some size
  | e :: entries =>
      let count := VkDescriptorUpdateTemplateEntry.descriptorCount e in
      let offset := VkDescriptorUpdateTemplateEntry.offset e in
      let elem := element_size (VkDescriptorUpdateTemplateEntry.descriptorType e) in
      if kMaxArrayElements <? count then None
      else if negb (count =? 0) &&
              ((SIZE_MAX - entry_span e <? offset) || (SIZE_MAX - elem <? wrap64 (offset + entry_span e)))
      then None
      else template_size entries
             (Z.max size (wrap64 (offset + entry_span e + (if count =? 0 then 0 else elem))))
  end.

(** Where an element goes: the distance of [data.data() + e.offset + i * e.stride]
    from the start of the block.

    handlers_device.cpp:783-783. *)
Definition place (e : VkDescriptorUpdateTemplateEntry.t) (i : Z) : Z :=
  wrap64 (VkDescriptorUpdateTemplateEntry.offset e + wrap64 (i * VkDescriptorUpdateTemplateEntry.stride e)).

(** A store into the block; outside of it, undefined. *)
Definition store (position : Z) (bs data : list byte) : option (list byte) :=
  if position + Z.of_nat (length bs) <=? Z.of_nat (length data)
  then Some (patch (Z.to_nat position) bs data) else None.

(** The members stored for one element, each with its distance from the element.

    handlers_device.cpp:783-783. *)
Definition read_element (t : ObjectTables) (type : Z) (r : Wire.reader) : list (Z * list byte) * Wire.reader :=
  let find k id := Table.get (table t k) id in
  if is_texel type then
    let (view, r) := Reader.handle r in ([(0, Writer.u64 (find buffer_views view))], r)
  else if is_image type then
    let (sampler, r) := Reader.handle r in
    let (view, r) := Reader.handle r in
    let (layout, r) := Reader.i32 r in
    ([(0, Writer.u64 (find samplers sampler)); (8, Writer.u64 (find image_views view)); (16, Writer.i32 layout)], r)
  else
    let (buffer, r) := Reader.handle r in
    let (offset, r) := Reader.u64 r in
    let (range, r) := Reader.u64 r in
    ([(0, Writer.u64 (find buffers buffer)); (8, Writer.u64 offset); (16, Writer.u64 range)], r).

Fixpoint store_all (position : Z) (stores : list (Z * list byte)) (data : list byte) : option (list byte) :=
  match stores with
  | [] => Some data
  | (off, bs) :: stores =>
      match store (position + off) bs data with None => None | Some data => store_all position stores data end
  end.

(** handlers_device.cpp:783-783. *)
Fixpoint fill_elements (t : ObjectTables) (e : VkDescriptorUpdateTemplateEntry.t) (n : nat) (i : Z)
    (r : Wire.reader) (data : list byte) : option (list byte * Wire.reader) :=
  match n with
  | O => Some (data, r)
  | S n =>
      let (stores, r) := read_element t (VkDescriptorUpdateTemplateEntry.descriptorType e) r in
      match store_all (place e i) stores data with
      | None => None
      | Some data => fill_elements t e n (i + 1) r data
      end
  end.

(** The filled block, [Some None] when the request does not match the template.

    handlers_device.cpp:783-783. *)
Fixpoint fill_entries (t : ObjectTables) (entries : list VkDescriptorUpdateTemplateEntry.t)
    (r : Wire.reader) (data : list byte) : option (option (list byte) * Wire.reader) :=
  match entries with
  | [] => Some (Some data, r)
  | e :: entries =>
      let (count, r) := Reader.u32 r in
      let (type, r) := Reader.i32 r in
      if negb (count =? VkDescriptorUpdateTemplateEntry.descriptorCount e)
         || negb (type =? VkDescriptorUpdateTemplateEntry.descriptorType e)
      then Some (None, r)
      else match fill_elements t e (Z.to_nat count) 0 r data with
      | None => None
      | Some (data, r) => fill_entries t entries r data
      end
  end.

(** [None] when a store goes outside of the block.

    handlers_device.cpp:783-783. *)
Definition handle_UpdateDescriptorSetWithTemplate c : option (Session W) :=
  let (device, c) := rd_object devices c in
  let (set, c) := rd_object descriptor_sets c in
  let (id, c) := rd Reader.handle c in
  let object := Table.get (table (tables c) descriptor_update_templates) id in
  let meta := descriptor_update_template_entries (tables c) !! id in
  let (n, c) := rd Reader.u32 c in
  match meta with
  | None => Some (mark_oneway_error c)
  | Some entries =>
      if (device =? 0) || (set =? 0) || (object =? 0) || negb (n =? Z.of_nat (length entries))
      then Some (mark_oneway_error c)
      else match template_size entries 0 with
      | None => Some (mark_oneway_error c)
      | Some size =>
          if kMaxBlob <? size then Some (mark_oneway_error c)
          else match fill_entries (tables c) entries (reader c) (replicate (Z.to_nat size) x00) with
          | None => None
          | Some (filled, r) =>
              let c := set_reader r c in
              match filled with
              | None => Some (mark_oneway_error c)
              | Some data =>
                  if negb (Reader.ok (reader c)) || negb (Reader.remaining (reader c) =? 0)%nat
                     || negb (vkGetDeviceProcAddr device "vkUpdateDescriptorSetWithTemplate" (driver c))
                  then Some (mark_oneway_error c)
                  else Some (set_driver (vkUpdateDescriptorSetWithTemplate device set object data (driver c)) c)
              end
          end
      end
  end.

(** *** The registered handlers

    Except for [handle_UpdateDescriptorSetWithTemplate], which may have no
    outcome. *)

(** handlers_device.cpp:821-891. *)
Definition requests : list (string * (Session W -> Session W)) :=
  [("vkCreateDevice", handle_CreateDevice); ("vkGetDeviceQueue", handle_GetDeviceQueue);
   ("vkGetDeviceQueue2", handle_GetDeviceQueue2);
   ("vkGetDeviceGroupPeerMemoryFeatures", handle_GetDeviceGroupPeerMemoryFeatures);
   ("vkQueueSubmit", handle_QueueSubmit); ("vkQueueSubmit2", handle_QueueSubmit2);
   ("vkQueueBindSparse", handle_QueueBindSparse); ("vkQueueWaitIdle", handle_QueueWaitIdle);
   ("vkDeviceWaitIdle", handle_DeviceWaitIdle); ("vkCreateFence", handle_CreateFence);
   ("vkResetFences", handle_ResetFences); ("vkGetFenceStatus", handle_GetFenceStatus);
   ("vkWaitForFences", handle_WaitForFences); ("vkCreateSemaphore", handle_CreateSemaphore);
   ("vkGetSemaphoreCounterValue", handle_GetSemaphoreCounterValue);
   ("vkWaitSemaphores", handle_WaitSemaphores); ("vkSignalSemaphore", handle_SignalSemaphore);
   ("vkCreateBuffer", handle_CreateBuffer); ("vkCreateImage", handle_CreateImage);
   ("vkCreateImageView", handle_CreateImageView); ("vkCreateBufferView", handle_CreateBufferView);
   ("vkCreateEvent", handle_CreateEvent); ("vkGetEventStatus", handle_GetEventStatus);
   ("vkSetEvent", handle_SetEvent); ("vkResetEvent", handle_ResetEvent);
   ("vkCreateQueryPool", handle_CreateQueryPool); ("vkGetQueryPoolResults", handle_GetQueryPoolResults);
   ("vkCreateSampler", handle_CreateSampler); ("vkCreateShaderModule", handle_CreateShaderModule);
   ("vkCreatePipelineCache", handle_CreatePipelineCache);
   ("vkGetPipelineCacheData", handle_GetPipelineCacheData);
   ("vkMergePipelineCaches", handle_MergePipelineCaches);
   ("vkCreatePipelineLayout", handle_CreatePipelineLayout);
   ("vkCreateRenderPass", handle_CreateRenderPass);
   ("vkGetRenderAreaGranularity", handle_GetRenderAreaGranularity);
   ("vkCreateRenderPass2", handle_CreateRenderPass2); ("vkCreateFramebuffer", handle_CreateFramebuffer);
   ("vkCreateDescriptorSetLayout", handle_CreateDescriptorSetLayout);
   ("vkCreateDescriptorPool", handle_CreateDescriptorPool);
   ("vkGetImageSubresourceLayout", handle_GetImageSubresourceLayout);
   ("vkCreateGraphicsPipelines", handle_CreateGraphicsPipelines);
   ("vkCreateComputePipelines", handle_CreateComputePipelines);
   ("vkAllocateDescriptorSets", handle_AllocateDescriptorSets);
   ("vkFreeDescriptorSets", handle_FreeDescriptorSets);
   ("vkResetDescriptorPool", handle_ResetDescriptorPool);
   ("vkCreateDescriptorUpdateTemplate", handle_CreateDescriptorUpdateTemplate);
   ("vkGetDescriptorSetLayoutSupport", handle_GetDescriptorSetLayoutSupport);
   ("vkCreateSamplerYcbcrConversion", handle_CreateSamplerYcbcrConversion)].

(** handlers_device.cpp:821-891. *)
Definition oneway_requests : list (string * (Session W -> Session W)) :=
  [("vkDestroyDevice", handle_DestroyDevice); ("vkDestroyFence", handle_DestroyFence);
   ("vkDestroySemaphore", handle_DestroySemaphore); ("vkResetQueryPool", handle_ResetQueryPool);
   ("vkDestroyBuffer", handle_DestroyBuffer); ("vkDestroyImage", handle_DestroyImage);
   ("vkDestroyImageView", handle_DestroyImageView); ("vkDestroyBufferView", handle_DestroyBufferView);
   ("vkDestroyEvent", handle_DestroyEvent); ("vkDestroyQueryPool", handle_DestroyQueryPool);
   ("vkDestroySampler", handle_DestroySampler); ("vkDestroyShaderModule", handle_DestroyShaderModule);
   ("vkDestroyPipelineCache", handle_DestroyPipelineCache);
   ("vkDestroyPipelineLayout", handle_DestroyPipelineLayout);
   ("vkDestroyPipeline", handle_DestroyPipeline); ("vkDestroyRenderPass", handle_DestroyRenderPass);
   ("vkDestroyFramebuffer", handle_DestroyFramebuffer);
   ("vkDestroyDescriptorSetLayout", handle_DestroyDescriptorSetLayout);
   ("vkDestroyDescriptorPool", handle_DestroyDescriptorPool);
   ("vkUpdateDescriptorSets", handle_UpdateDescriptorSets);
   ("vkDestroyDescriptorUpdateTemplate", handle_DestroyDescriptorUpdateTemplate);
   ("vkDestroySamplerYcbcrConversion", handle_DestroySamplerYcbcrConversion)].

End Handlers.
