(* ===== verification/DeviceAnswers.v ===== *)
(** The requests of [ServerDevice] are answered, its one-way requests are not,
    and an update through a template stays within its block as long as the
    distances between its elements do not wrap. *)

From stdpp Require Import list gmap strings.
From S2P Require Import Prelude Wire Codec CLayout VkStructs PNext PNextFacts VkCreateInfos HostMemory ClientSync.
From S2P Require Import Objects Session ServerMemory ServerCommands ServerDevice.
Import Handler.

(** ** Answers *)
Section Answers.
Context `{Abi} {W : Type} {C : CommandDriver W} {D : DeviceDriver W}.
Variable physical_devices : list Z.
Implicit Type c : Session W.

Lemma replies_decoded {A} (m : ObjectTables -> Rd A) f c :
  (forall x c', answers c c' -> replies c (f x c')) -> replies c (decoded m f c).
Proof.
  intros Hf. unfold decoded. pose proof (answers_rd (m (tables c)) c) as Ha.
  destruct (rd _ c) as [[x|] c']; [by apply Hf|]. by apply replies_status.
Qed.

Lemma replies_ok bs c c' : answers c c' -> replies c (reply_ok bs c').
Proof. intros. unfold reply_ok, write_ok. by apply replies_reply, answers_write, answers_write. Qed.

Lemma replies_result x c c' : answers c c' -> replies c (reply_result x c').
Proof. intros. destruct x. by apply replies_ok, answers_set_driver. Qed.

Lemma answers_clear c c' : answers c c' -> answers c (clear_oneway_errors c').
Proof. intros. eapply answers_trans; [done|by apply answers_silent]. Qed.

Lemma replies_submission x c c' : answers c c' -> replies c (reply_submission x c').
Proof.
  intros. destruct x. unfold reply_submission, write_ok.
  by apply replies_reply, answers_clear, answers_write, answers_write, answers_set_driver.
Qed.

Lemma replies_proc device name f c c' : answers c c' -> replies c (f c') -> replies c (with_proc device name f c').
Proof. intros. unfold with_proc. case_match; [done|by apply replies_status]. Qed.

Lemma replies_created k device x c c' : answers c c' -> replies c (reply_created k device x c').
Proof.
  intros. unfold reply_created. destruct x as [[result object] w]. destruct (if _ =? _ then _ else _).
  by apply replies_ok, answers_set_tables, answers_set_driver.
Qed.

Lemma replies_pipelines device n x c c' : answers c c' -> replies c (reply_pipelines device n x c').
Proof.
  intros. unfold reply_pipelines. destruct x as [[result objects] w]. destruct (add_pipelines _ _ _).
  by apply replies_ok, answers_set_tables, answers_set_driver.
Qed.

Lemma answers_queue queue device c c' : answers c c' -> answers c (snd (unique_queue queue device c')).
Proof. intros. unfold unique_queue. destruct (Table.add_unique _ _ _). by apply answers_set_tables. Qed.

#[local] Hint Resolve replies_ok replies_result replies_submission replies_created replies_pipelines
  replies_status answers_set_driver answers_set_tables answers_queue : answers.

(** One branch of a handler after its request is decoded. *)
Ltac reply_step :=
  match goal with
  | |- replies _ (with_proc _ _ _ _) => apply replies_proc; [assumption|]
  | |- replies _ (let (_, _) := unique_queue ?q ?d ?c in _) =>
      let E := fresh in pose proof (answers_queue q d _ c ltac:(eassumption)) as E;
      destruct (unique_queue q d c); cbn [snd] in E
  | |- replies _ (let (_, _) := if valid ?q then _ else _ in _) => destruct (valid q)
  | |- replies _ (match ?x with _ => _ end) => destruct x
  | |- replies _ _ => solve [auto 6 with answers nocore]
  end.

(** *** One-way requests *)

(** Nothing is sent, and nothing is kept to be sent. *)
Definition silent c c' : Prop :=
  opcode c' = opcode c /\ request_id c' = request_id c /\ sent c' = sent c /\ replied c' = replied c /\ writer c' = writer c /\ close_connection c' = close_connection c.

Lemma silent_refl c : silent c c.
Proof. done. Qed.

Lemma silent_tables t c c' : silent c c' -> silent c (set_tables t c').
Proof. done. Qed.
Lemma silent_driver w c c' : silent c c' -> silent c (set_driver w c').
Proof. done. Qed.
Lemma silent_error c c' : silent c c' -> silent c (mark_oneway_error c').
Proof. done. Qed.
Lemma silent_rd {A} (f : Wire.reader -> A * Wire.reader) c c' : silent c c' -> silent c (snd (rd f c')).
Proof. unfold rd. by destruct (f (reader c')). Qed.
Lemma silent_rd_object k c c' : silent c c' -> silent c (snd (rd_object k c')).
Proof.
  intros Hs. unfold rd_object. pose proof (silent_rd Reader.handle c c' Hs) as H1.
  by destruct (rd Reader.handle c').
Qed.

Lemma silent_decoded {A} (m : ObjectTables -> Rd A) f c :
  (forall x c', silent c c' -> silent c (f x c')) -> silent c (decoded_oneway m f c).
Proof.
  intros Hf. unfold decoded_oneway. pose proof (silent_rd (m (tables c)) c c (silent_refl c)) as Hs.
  destruct (rd _ c) as [[x|] c']; [by apply Hf|done].
Qed.

#[local] Hint Resolve silent_refl silent_tables silent_driver silent_error : answers.

Ltac silent_step :=
  match goal with
  | |- silent _ (let (_, _) := rd ?f ?c in _) =>
      let E := fresh in pose proof (silent_rd f _ c ltac:(eassumption)) as E; destruct (rd f c); cbn [snd] in E
  | |- silent _ (let (_, _) := rd_object ?k ?c in _) =>
      let E := fresh in pose proof (silent_rd_object k _ c ltac:(eassumption)) as E;
      destruct (rd_object k c); cbn [snd] in E
  | |- silent _ (decoded_oneway _ _ _) => apply silent_decoded; intros ? ? ?
  | |- silent _ (match ?x with _ => _ end) => destruct x
  | |- silent _ _ => solve [auto 8 with answers nocore]
  end.

Lemma requests_reply :
  Forall (fun e => forall c, replies c (snd e c)) (requests physical_devices).
Proof.
  unfold requests. repeat apply Forall_cons_2; try apply Forall_nil_2; cbn [snd]; intros c.
  all: apply replies_decoded; intros x c' Ha.
  all: cbv zeta; repeat reply_step.
Qed.

Lemma oneway_silent : Forall (fun e => forall c, silent c (snd e c)) oneway_requests.
Proof.
  unfold oneway_requests. repeat apply Forall_cons_2; try apply Forall_nil_2; cbn [snd]; intros c;
      pose proof (silent_refl c).
    all: unfold handle_DestroyDevice, handle_DestroyFence, handle_DestroySemaphore, handle_ResetQueryPool,
      handle_DestroyBuffer, handle_DestroyImage, handle_DestroyImageView, handle_DestroyBufferView,
      handle_DestroyEvent, handle_DestroyQueryPool, handle_DestroySampler, handle_DestroyShaderModule,
      handle_DestroyPipelineCache, handle_DestroyPipelineLayout, handle_DestroyPipeline,
      handle_DestroyRenderPass, handle_DestroyFramebuffer, handle_DestroyDescriptorSetLayout,
      handle_DestroyDescriptorPool, handle_UpdateDescriptorSets, handle_DestroyDescriptorUpdateTemplate,
      handle_DestroySamplerYcbcrConversion, SERVER_DESTROY, destroy_unowned; cbv zeta.
    all: repeat silent_step.
Qed.

Lemma template_silent c c' : handle_UpdateDescriptorSetWithTemplate c = Some c' -> silent c c'.
Proof.
  unfold handle_UpdateDescriptorSetWithTemplate. pose proof (silent_refl c) as Hc.
  pose proof (silent_rd_object devices _ _ Hc) as H1. destruct (rd_object devices c) as [d c1]. cbn [snd] in H1.
  pose proof (silent_rd_object descriptor_sets _ _ H1) as H2. destruct (rd_object _ c1) as [st c2]. cbn [snd] in H2.
  pose proof (silent_rd Reader.handle _ _ H2) as H3. destruct (rd _ c2) as [id c3]. cbn [snd] in H3.
  pose proof (silent_rd Reader.u32 _ _ H3) as H4. destruct (rd _ c3) as [n c4]. cbn [snd] in H4.
  repeat case_match; intros [= <-]; try done; exact H4.
Qed.

(** C35: The handlers that [handlers_device.cpp] registers keep to the protocol,
    whatever the payload holds, the tables contain or the driver returns: each
    handler of a request replies, with at most one frame, which carries the
    opcode and id of its own request; each one-way handler, vkUpdateDescriptorSetWithTemplate
    included (as long as its stores stay within its block), sends nothing and
    leaves nothing to be sent. *)
Theorem device_requests_answered :
  Forall (fun e => forall c, answers c (snd e c) /\ replied (snd e c) = true) (requests physical_devices) /\
  Forall (fun e => forall c, silent c (snd e c)) oneway_requests /\
  forall c c', handle_UpdateDescriptorSetWithTemplate c = Some c' -> silent c c'.
Proof. split; [exact requests_reply|]. split; [exact oneway_silent|exact template_silent]. Qed.

End Answers.

(** ** Updates through a template *)
Section Template.
Context `{Abi} {W : Type} {C : CommandDriver W} {D : DeviceDriver W}.
Implicit Type c : Session W.
Import VkDescriptorUpdateTemplateEntry.

(** Members of their C types, whose last element is at a distance that fits. *)
Definition entry_ok (e : VkDescriptorUpdateTemplateEntry.t) : Prop :=
  is_u32 (descriptorCount e) /\ is_u64 (offset e) /\ is_u64 (stride e) /\
  (descriptorCount e - 1) * stride e < 2 ^ 64.

Lemma element_size_bounds type : 8 <= element_size type <= 24.
Proof. unfold element_size. case_match; lia. Qed.

Lemma entry_span_exact e : entry_ok e -> descriptorCount e <> 0 -> entry_span e = (descriptorCount e - 1) * stride e.
Proof.
  intros (Hc & _ & Hs & Hx) Hn. unfold entry_span. rewrite (proj2 (Z.eqb_neq _ _) Hn).
  apply wrap64_id. unfold is_u32, is_u64 in *. nia.
Qed.

(** The block reaches to the end of every element. *)
Lemma template_size_covers entries : forall size0 size, Forall entry_ok entries ->
  template_size entries size0 = Some size ->
  size0 <= size /\
  Forall (fun e => forall i, 0 <= i < descriptorCount e ->
            0 <= place e i /\ place e i + element_size (descriptorType e) <= size) entries.
Proof.
  induction entries as [|e entries IH]; intros size0 size Hok Hs; cbn [template_size] in Hs.
  { injection Hs as ->. split; [lia|done]. }
  apply Forall_cons in Hok as [He Hok]. destruct (_ <? _); [done|].
  destruct (negb _ && _) eqn:Eg; [done|].
  destruct (IH _ _ Hok Hs) as [Hle Hrest]. split; [lia|]. constructor; [|exact Hrest].
  intros i Hi. pose proof (element_size_bounds (descriptorType e)) as Hb.
  assert (descriptorCount e <> 0) as Hn by lia. rewrite (proj2 (Z.eqb_neq _ _) Hn) in *. cbn [negb andb] in Eg.
  apply orb_false_iff in Eg as [E1 E2]. bool_hyps. rewrite (entry_span_exact e He Hn) in *.
  destruct He as (Hc & Ho & Hst & Hx). unfold is_u64, SIZE_MAX in *.
  assert (i * stride e <= (descriptorCount e - 1) * stride e) as Hi2 by nia.
  rewrite (wrap64_id (offset e + _)) in E2 by (unfold is_u64; nia).
  rewrite (wrap64_id (offset e + _ + _)) in Hle by (unfold is_u64; lia).
  assert (0 <= i * stride e) by nia.
  unfold place. rewrite (wrap64_id (i * _)) by (unfold is_u64; lia).
  rewrite wrap64_id by (unfold is_u64; lia). lia.
Qed.

Lemma store_in position bs data : 0 <= position -> position + Z.of_nat (length bs) <= Z.of_nat (length data) ->
  exists data', store position bs data = Some data' /\ length data' = length data.
Proof.
  intros Hp Hl. unfold store. rewrite (proj2 (Z.leb_le _ _) Hl). eexists. split; [done|].
  apply length_patch. lia.
Qed.

Lemma store_all_in position n stores : forall data, 0 <= position ->
  Forall (fun s => 0 <= s.1 /\ s.1 + Z.of_nat (length s.2) <= n) stores ->
  position + n <= Z.of_nat (length data) ->
  exists data', store_all position stores data = Some data' /\ length data' = length data.
Proof.
  induction stores as [|[off bs] stores IH]; intros data Hp Hs Hn; cbn [store_all]; [by eexists|].
  apply Forall_cons in Hs as [[H0 H1] Hs]. cbn in H0, H1.
  destruct (store_in (position + off) bs data) as (d & -> & Hd); [lia|lia|].
  destruct (IH d Hp Hs) as (d' & -> & Hd'); [by rewrite Hd|]. exists d'. split; [done|congruence].
Qed.

Lemma read_element_fits t type r :
  Forall (fun s => 0 <= s.1 /\ s.1 + Z.of_nat (length s.2) <= element_size type) (fst (read_element t type r)).
Proof.
  unfold read_element, element_size. destruct (is_texel type).
  { destruct (Reader.handle r). repeat constructor; done. }
  destruct (is_image type).
  - destruct (Reader.handle r) as [? r1], (Reader.handle r1) as [? r2], (Reader.i32 r2).
    repeat constructor; done.
  - destruct (Reader.handle r) as [? r1], (Reader.u64 r1) as [? r2], (Reader.u64 r2).
    repeat constructor; done.
Qed.

Lemma fill_elements_in t e : forall n i r data, 0 <= i ->
  (forall j, i <= j < i + Z.of_nat n -> 0 <= place e j /\
     place e j + element_size (descriptorType e) <= Z.of_nat (length data)) ->
  exists data' r', fill_elements t e n i r data = Some (data', r') /\ length data' = length data.
Proof.
  induction n as [|n IH]; intros i r data Hi Hp; cbn [fill_elements]; [by do 2 eexists|].
  pose proof (read_element_fits t (descriptorType e) r) as Hs.
  destruct (read_element t _ r) as [stores r1]. cbn [fst] in Hs.
  destruct (Hp i) as [H0 H1]; [lia|].
  destruct (store_all_in (place e i) _ stores data H0 Hs H1) as (d & -> & Hd).
  destruct (IH (i + 1) r1 d) as (d' & r' & -> & Hd'); [lia|intros j Hj; rewrite Hd; apply Hp; lia|].
  exists d', r'. split; [done|congruence].
Qed.

Lemma fill_entries_in t entries : forall r data,
  Forall (fun e => forall i, 0 <= i < descriptorCount e ->
            0 <= place e i /\ place e i + element_size (descriptorType e) <= Z.of_nat (length data)) entries ->
  exists filled r', fill_entries t entries r data = Some (filled, r') /\
    forall data', filled = Some data' -> length data' = length data.
Proof.
  induction entries as [|e entries IH]; intros r data Hp; cbn [fill_entries].
  { do 2 eexists. split; [done|]. by intros ? [= <-]. }
  apply Forall_cons in Hp as [He Hp]. destruct (Reader.u32 r) as [count r1], (Reader.i32 r1) as [type r2].
  destruct (negb _ || _) eqn:Em. { by do 2 eexists. }
  apply orb_false_iff in Em as [Em _]. bool_hyps. subst count.
  destruct (fill_elements_in t e (Z.to_nat (descriptorCount e)) 0 r2 data) as (d & r3 & -> & Hd).
  { done. } { intros j Hj. apply He. lia. }
  destruct (IH r3 d) as (f & r4 & -> & Hf). { by rewrite Hd. }
  do 2 eexists. split; [done|]. intros d' E. rewrite (Hf d' E). done.
Qed.

(** The driver is given a block for the template of [id], or an error is counted. *)
Definition updates c c' : Prop :=
  silent c c' /\ tables c' = tables c /\
  ((driver c' = driver c /\ oneway_errors c' = wrap32 (oneway_errors c + 1)) \/
   exists device set id entries size data,
     let object k i := Table.get (table (tables c) k) i in
     object devices device <> 0 /\ object descriptor_sets set <> 0 /\
     object descriptor_update_templates id <> 0 /\
     descriptor_update_template_entries (tables c) !! id = Some entries /\
     template_size entries 0 = Some size /\ Z.of_nat (length data) = size /\
     oneway_errors c' = oneway_errors c /\
     driver c' = vkUpdateDescriptorSetWithTemplate (object devices device) (object descriptor_sets set)
                   (object descriptor_update_templates id) data (driver c)).

(** C36: An update through a template stays within its block.  When the entries of
    every template are of their C types and no entry's elements lie 2^64 bytes or
    more apart, then whatever bytes the request holds, no store of the handler
    goes outside of the block it has allocated; it sends nothing, and either
    counts an error and leaves the driver alone, or makes one driver call with
    live objects and a block of exactly the size of the template. *)
Theorem template_update_in_block c :
  (forall id entries, descriptor_update_template_entries (tables c) !! id = Some entries -> Forall entry_ok entries) ->
  exists c', handle_UpdateDescriptorSetWithTemplate c = Some c' /\ updates c c'.
Proof.
  intros Hok. unfold handle_UpdateDescriptorSetWithTemplate, rd_object, rd.
  destruct (Reader.handle (reader c)) as [di r1]. cbn [tables reader set_reader].
  destruct (Reader.handle r1) as [si r2]. cbn [tables reader set_reader].
  destruct (Reader.handle r2) as [id r3]. cbn [tables reader set_reader].
  destruct (Reader.u32 r3) as [n r4]. cbn [tables reader set_reader].
  assert (forall r, updates c (mark_oneway_error (set_reader r c))) as Herr by (intros r; split; [done|auto]).
  destruct (_ !! id) as [entries|] eqn:Em; [|eexists; split; [done|apply Herr]].
  destruct (_ || _) eqn:Eg; [eexists; split; [done|apply Herr]|]. bool_hyps.
  destruct (template_size entries 0) as [size|] eqn:Es; [|eexists; split; [done|apply Herr]].
  destruct (kMaxBlob <? size); [eexists; split; [done|apply Herr]|].
  destruct (template_size_covers entries 0 size (Hok _ _ Em) Es) as [Hge Hp].
  assert (Z.of_nat (length (replicate (Z.to_nat size) x00)) = size) as Hlen by (rewrite length_replicate; lia).
  rewrite <- Hlen in Hp. destruct (fill_entries_in (tables c) entries r4 _ Hp) as (f & r5 & -> & Hf).
  destruct f as [data|]; [|eexists; split; [done|apply Herr]]. destruct (negb _ || _ || _); [eexists; split; [done|apply Herr]|].
  eexists. split; [done|]. split; [done|]. split; [done|]. right.
  exists di, si, id, entries, size, data. cbn. split_and!; try done.
  by rewrite (Hf data eq_refl).
Qed.

End Template.

(** ** A concrete connection *)
Module DeviceDemo.

#[export] Existing Instance Instances.abi.

(** The calls the demonstrations look at. *)
Inductive event :=
  | Submitted (queue : Z) (submits : list VkSubmitInfo) (fence : Z)
  | Updated (set object : Z) (data : list byte)
  | Destroyed (k : kind) (object : Z).

Definition log : Type := list event.

#[export] Instance commands : CommandDriver log :=
  {| vkCmd _ _ w := w; vkGetDeviceProcAddr _ _ _ := true; vkCreateCommandPool _ _ w := (VK_SUCCESS, 31, w);
     vkDestroyCommandPool _ _ w := w; vkAllocateCommandBuffers _ _ w := (VK_SUCCESS, [], w);
     vkFreeCommandBuffers _ _ _ w := w; vkBeginCommandBuffer _ _ w := (VK_SUCCESS, w);
     vkEndCommandBuffer _ w := (VK_SUCCESS, w); vkResetCommandBuffer _ _ w := (VK_SUCCESS, w);
     vkTrimCommandPool _ _ _ w := w; vkResetCommandPool _ _ _ w := (VK_SUCCESS, w) |}.

#[export] Instance driver : DeviceDriver log :=
  {| vkCreateDevice _ _ w := (VK_SUCCESS, 5, w); teardown _ w := w;
     vkCreate _ _ w := (VK_SUCCESS, 400 + Z.of_nat (length w), w);
     vkDestroy k _ object w := w ++ [Destroyed k object];
     vkGetDeviceQueue _ _ _ _ := 50; vkGetDeviceQueue2 _ _ _ _ _ := 50;
     vkGetDeviceGroupPeerMemoryFeatures _ _ _ _ _ := 0;
     vkGetSemaphoreCounterValue _ _ _ := (VK_SUCCESS, 7); vkWaitSemaphores _ _ _ _ w := (VK_SUCCESS, w);
     vkSignalSemaphore _ _ _ w := (VK_SUCCESS, w); vkResetQueryPool _ _ _ _ w := w;
     vkQueueSubmit queue xs fence w := (VK_SUCCESS, w ++ [Submitted queue xs fence]);
     vkQueueSubmit2 _ _ _ w := (VK_SUCCESS, w); vkQueueBindSparse _ _ _ w := (VK_SUCCESS, w);
     vkQueueWaitIdle _ w := (VK_SUCCESS, w); vkDeviceWaitIdle _ w := (VK_SUCCESS, w);
     vkResetFences _ _ w := (VK_SUCCESS, w); vkGetFenceStatus _ _ w := (VK_SUCCESS, w);
     vkWaitForFences _ _ _ _ w := (VK_SUCCESS, w);
     vkGetImageSubresourceLayout _ _ _ _ _ _ := VkSubresourceLayout.zero;
     vkGetEventStatus _ _ w := (VK_SUCCESS, w); vkSetEvent _ _ w := (VK_SUCCESS, w);
     vkResetEvent _ _ w := (VK_SUCCESS, w); vkGetQueryPoolResults _ _ _ _ _ _ _ _ := (VK_SUCCESS, []);
     vkGetPipelineCacheData _ _ _ _ _ := (VK_SUCCESS, 0, []); vkMergePipelineCaches _ _ _ w := (VK_SUCCESS, w);
     vkGetRenderAreaGranularity _ _ _ := VkExtent2D.zero;
     vkCreateGraphicsPipelines _ _ _ w := (VK_SUCCESS, [], w);
     vkCreateComputePipelines _ _ _ w := (VK_SUCCESS, [], w);
     vkAllocateDescriptorSets _ _ w := (VK_SUCCESS, [300], w); vkFreeDescriptorSets _ _ _ w := (VK_SUCCESS, w);
     vkResetDescriptorPool _ _ _ w := (VK_SUCCESS, w); vkUpdateDescriptorSets _ _ _ w := w;
     vkUpdateDescriptorSetWithTemplate _ set object data w := w ++ [Updated set object data];
     vkGetDescriptorSetLayoutSupport _ _ _ := 1 |}.

(** A device with one object of each kind the demonstrations use, and a template
    with the entries [entries]. *)
Definition objects (entries : list VkDescriptorUpdateTemplateEntry.t) : ObjectTables :=
  {| capabilities := 0;
     table := fun k =>
       match k with
       | devices => snd (Table.add Table.empty 5 0)
       | queues => snd (Table.add Table.empty 50 5)
       | Objects.command_buffers => snd (Table.add Table.empty 100 5)
       | semaphores => snd (Table.add (snd (Table.add Table.empty 60 5)) 61 5)
       | fences => snd (Table.add Table.empty 70 5)
       | buffers => snd (Table.add Table.empty 200 5)
       | descriptor_pools => snd (Table.add (snd (Table.add Table.empty 310 5)) 311 5)
       | descriptor_sets => snd (Table.add (snd (Table.add Table.empty 301 5)) 302 5)
       | descriptor_update_templates => snd (Table.add Table.empty 320 5)
       | _ => Table.empty
       end;
     memory_metadata := ∅; device_physical_devices := ∅; command_buffer_devices := {[ 100 := 5 ]};
     descriptor_set_owners := {[ 1 := {| dso_device := 5; dso_pool := 310 |};
                                 2 := {| dso_device := 5; dso_pool := 311 |} ]};
     descriptor_update_template_owners := {[ 1 := 5 ]};
     descriptor_update_template_entries := {[ 1 := entries ]}; sampler_ycbcr_conversion_owners := ∅;
     swapchain_devices := ∅; swapchain_surfaces := ∅; swapchain_image_ids := ∅ |}.

Definition session (entries : list VkDescriptorUpdateTemplateEntry.t) (payload : list byte) : Session log :=
  mkSession _ (Reader.make payload) [] (objects entries) 3 8 9 false false [] [].

(** Two uniform buffers, 32 bytes apart. *)
Definition uniform : VkDescriptorUpdateTemplateEntry.t := VkDescriptorUpdateTemplateEntry.mk 0 0 2 6 8 32.

Definition update : list byte :=
  Writer.handle 1 ++ Writer.handle 1 ++ Writer.handle 1 ++ Writer.u32 1 ++ Writer.u32 2 ++ Writer.i32 6 ++
  Writer.handle 1 ++ Writer.u64 0 ++ Writer.u64 16 ++ Writer.handle 1 ++ Writer.u64 16 ++ Writer.u64 16.

Lemma template_update_in_block_witness :
  exists c', handle_UpdateDescriptorSetWithTemplate (session [uniform] update) = Some c' /\
    updates (session [uniform] update) c'.
Proof.
  apply (template_update_in_block (session [uniform] update)). intros id entries.
  cbn [tables session objects descriptor_update_template_entries].
  intros [<- <-]%lookup_singleton_Some. repeat constructor; by vm_compute.
Defined.

(** The elements of an entry 2^63 bytes apart: the distance to the third wraps to
    0, the block is made for the first alone, and the second is stored outside of
    it. *)
Lemma wrapped_stride_escapes :
  let entry := VkDescriptorUpdateTemplateEntry.mk 0 0 3 6 0 (2 ^ 63) in
  let element := Writer.handle 1 ++ Writer.u64 0 ++ Writer.u64 16 in
  template_size [entry] 0 = Some 24 /\
  handle_UpdateDescriptorSetWithTemplate
    (session [entry] (Writer.handle 1 ++ Writer.handle 1 ++ Writer.handle 1 ++ Writer.u32 1 ++
                      Writer.u32 3 ++ Writer.i32 6 ++ element ++ element ++ element)) = None.
Proof. by vm_compute. Qed.

End DeviceDemo.
