(* ===== verification/DeviceSubmit.v ===== *)
(** Submissions across the connection: what the client's [ClientSync] sends is what
    the driver of the server is given, with the connection's objects for the
    client's ids, and the result comes back. *)

From stdpp Require Import list gmap strings.
From S2P Require Import Prelude Wire Codec CLayout VkStructs PNext PNextFacts VkCreateInfos.
From S2P Require Import MarshalBase MarshalSync HostMemory Decode Tracking ClientSync Objects Session ServerMemory.
From S2P Require Import RecordingFacts ServerCommands CommandFacts ServerDevice DeviceAnswers.
Open Scope wire_scope.

(** The three calls, without queue and fence. *)
Inductive submission :=
  | Submits (xs : list VkSubmitInfo)
  | Submits2 (xs : list VkSubmitInfo2.t)
  | BindsSparse (xs : list VkBindSparseInfo).

(** ** Arrays *)
Section Arrays.

(** A counted array whose count the continuation keeps. *)
Lemma reads_counted_array {A B C} rest min (write : A -> list byte) (m : Rd B) (g : A -> B) xs n
    (k : nat -> list B -> Rd C) bs c :
  n = len xs -> n <= kMaxArrayElements -> 0 < min -> Forall (element min write m g) xs ->
  reads_at rest (k (length xs) (map g xs)) bs c ->
  reads_at rest (x <- r_length true min ; ys <- rfor x m ; k x ys) (Writer.u32 n ++ concat (map write xs) ++ bs) c.
Proof.
  intros -> Hn Hm Hxs Hk. destruct (reads_elements (bs ++ rest) _ _ _ _ _ Hxs) as [Hr Hl].
  eapply reads_bind; [apply (counts_length true min xs Hn Hm); rewrite !length_app; unfold len in Hl |- *; lia|].
  eapply reads_bind; [exact Hr|exact Hk].
Qed.

(** A null terminated array has its count. *)
Definition arr_ok {A} (P : A -> Prop) (n : Z) (p : ptr (list A)) : Prop :=
  n = len (arr p n) /\ n <= kMaxArrayElements /\ Forall P (arr p n).

Lemma zip_mapped {A B C} (f : A -> C) (xs : list A) (ys : list B) : length xs = length ys ->
  (map (fun w => (f w.1, w.2)) (zip xs ys)).*1 = map f xs /\
  (map (fun w => (f w.1, w.2)) (zip xs ys)).*2 = ys.
Proof.
  revert ys. induction xs as [|x xs IH]; intros [|y ys] Hl; try done. injection Hl as Hl.
  destruct (IH ys Hl) as [H1 H2]. cbn in *. by rewrite H1, H2.
Qed.

End Arrays.

(** ** The messages *)
Section Messages.
Context `{Abi}.
Variable to_cmd : Z -> RemoteCommandBuffer.
(** The tables of the connection. *)
Variable t : ObjectTables.
#[local] Instance tables_resolver : HandleResolver := resolver_of t.

(** What the client sends. *)
Definition encode (queue fence : Z) (x : submission) : W :=
  match x with
  | Submits xs => write_queue_submit to_cmd queue fence (len xs) xs
  | Submits2 xs => write_queue_submit2 to_cmd queue fence (len xs) xs
  | BindsSparse xs =>
      emit (Writer.handle queue ++ Writer.handle fence ++ Writer.u32 (len xs)) ;;; wfor write_bind_sparse_info xs
  end.

(** The same with the objects of the connection. *)
Definition recv_submit_info (s : VkSubmitInfo) : VkSubmitInfo :=
  mkSubmitInfo VK_STRUCTURE_TYPE_SUBMIT_INFO (chain_recv PNext.Submit (si_pNext s))
    (waitSemaphoreCount s) (structs_recv hr_semaphore (waitSemaphoreCount s) (pWaitSemaphores s))
    (arr_ptr (arr (pWaitDstStageMask s) (waitSemaphoreCount s)))
    (commandBufferCount s)
    (structs_recv (fun cb => hr_command_buffer (cb_remote_id (to_cmd cb))) (commandBufferCount s) (pCommandBuffers s))
    (signalSemaphoreCount s) (structs_recv hr_semaphore (signalSemaphoreCount s) (pSignalSemaphores s)).

Definition submit_ok (s : VkSubmitInfo) : Prop :=
  chain_ok PNext.Submit (si_pNext s) /\
  arr_ok (live hr_semaphore) (waitSemaphoreCount s) (pWaitSemaphores s) /\
  arr_ok is_u32 (waitSemaphoreCount s) (pWaitDstStageMask s) /\
  arr_ok (fun cb => live hr_command_buffer (cb_remote_id (to_cmd cb))) (commandBufferCount s) (pCommandBuffers s) /\
  arr_ok (live hr_semaphore) (signalSemaphoreCount s) (pSignalSemaphores s).

Lemma elements_live f ids : Forall (live f) ids ->
  Forall (element 8 Writer.handle (x <- r_object f ; rguard (valid x) ;! rret x) f) ids.
Proof.
  intros Hi. apply (elements _ _ _ _ _ _ Hi).
  - intros x _. unfold len. by rewrite length_writer_handle.
  - intros x rest Hx. eapply reads_bind_last; [apply reads_object; by apply Hx|].
    eapply reads_bind_nil; [apply reads_guard; exact (valid_live _ _ Hx)|]. apply reads_ret.
Qed.

Lemma elements_commands cbs : Forall (fun cb => live hr_command_buffer (cb_remote_id (to_cmd cb))) cbs ->
  Forall (element 8 (fun cb => Writer.handle (cb_remote_id (to_cmd cb))) (read_live t Objects.command_buffers)
            (fun cb => hr_command_buffer (cb_remote_id (to_cmd cb)))) cbs.
Proof.
  intros Hc. apply (elements _ _ _ _ _ _ Hc).
  - intros x _. unfold len. by rewrite length_writer_handle.
  - intros x rest Hx. eapply reads_bind_last; [apply reads_object; by apply Hx|].
    eapply reads_bind_nil; [apply reads_guard; exact (valid_live _ _ Hx)|]. apply reads_ret.
Qed.

Lemma elements_waits ids stages : Forall (live hr_semaphore) ids -> Forall is_u32 stages ->
  Forall (element 12 (fun w => Writer.handle w.1 ++ Writer.u32 w.2) (read_submit_wait t)
            (fun w => (hr_semaphore w.1, w.2))) (zip ids stages).
Proof.
  intros Hi Hs. apply (elements (fun w => live hr_semaphore w.1 /\ is_u32 w.2)).
  - apply Forall_forall. intros [i s] Hx. cbn.
    split; [by eapply Forall_forall, elem_of_zip_l|by eapply Forall_forall, elem_of_zip_r].
  - intros x _. unfold len. rewrite length_app, length_writer_handle, length_writer_u32. lia.
  - intros [i s] rest [Hx Hy]. cbn in *. unfold read_submit_wait.
    eapply reads_bind; [apply reads_object; by apply Hx|]. eapply reads_bind_last; [by apply reads_u32|].
    eapply reads_bind_nil; [apply reads_guard; exact (valid_live _ _ Hx)|]. apply reads_ret.
Qed.

Lemma length_chain context head bs : write_pnext_chain context head 0 = (true, bs) -> 4 <= len bs.
Proof.
  unfold write_pnext_chain. intros Hw. apply (proj1 (transact_true _ _)) in Hw. apply guarded_true in Hw as [_ Hw].
  destruct (collect_chain _ _ _); [|done]. apply emit_then_true in Hw as (b & _ & ->).
  unfold len. rewrite length_app, length_writer_u32. lia.
Qed.

Lemma reads_submit_info rest s bs : write_submit_info to_cmd s = (true, bs) -> submit_ok s ->
  reads_at rest (read_submit_info t) bs (recv_submit_info s).
Proof.
  intros Hw (Hc & (Hn1 & Hm1 & Hw1) & (Hn2 & _ & Hw2) & (Hn3 & Hm3 & Hw3) & (Hn4 & Hm4 & Hw4)).
  unfold write_submit_info in Hw. apply wseq_true in Hw as (b1 & b2 & Hch & Hw & ->).
  apply emit_true in Hw as ->. unfold read_submit_info.
  eapply reads_bind; [by eapply reads_chain|].
  set (waits := arr (pWaitSemaphores s) _) in *. set (stages := arr (pWaitDstStageMask s) _) in *.
  assert (length waits = length stages) as Hl by (unfold len in *; lia).
  eapply (reads_counted_array _ 12 _ _ _ (zip waits stages)); [|done|done|by apply elements_waits|].
  { rewrite Hn1. unfold len. rewrite length_zip_with. lia. }
  eapply (reads_counted_array _ 8 (fun cb => Writer.handle (cb_remote_id (to_cmd cb))));
    [exact Hn3|done|done|by apply elements_commands|].
  rewrite <- (app_nil_r (concat (map Writer.handle _))).
  eapply (reads_counted_array _ 8 Writer.handle); [exact Hn4|done|done|by apply elements_live|].
  eapply reads_bind_nil; [apply reads_ok|].
  destruct (zip_mapped hr_semaphore waits stages Hl) as [-> ->].
  replace (Z.of_nat (length (zip waits stages))) with (waitSemaphoreCount s)
    by (rewrite Hn1, length_zip_with; unfold len; lia).
  unfold len in Hn3, Hn4. rewrite <- Hn3, <- Hn4. apply reads_ret.
Qed.

(** *** The other two calls *)

(** Sparse binds check no object. *)
Definition recv_memory_bind (b : VkSparseMemoryBind) : VkSparseMemoryBind :=
  mkMemoryBind (resourceOffset b) (sb_size b) (hr_memory (sb_memory b)) (sb_memoryOffset b) (sb_flags b).
Definition recv_image_bind (b : VkSparseImageMemoryBind) : VkSparseImageMemoryBind :=
  mkImageBind (ib_subresource b) (ib_offset b) (ib_extent b) (hr_memory (ib_memory b)) (ib_memoryOffset b) (ib_flags b).
Definition recv_binds {A} (resolve : Z -> Z) (f : A -> A) (r : SparseBinds A) : SparseBinds A :=
  mkBinds _ (resolve (sr_resource r)) (sr_bindCount r) (structs_recv f (sr_bindCount r) (sr_pBinds r)).
Definition recv_bind_sparse_info (s : VkBindSparseInfo) : VkBindSparseInfo :=
  mkBindSparse (chain_recv PNext.Submit (bs_pNext s))
    (bs_waitSemaphoreCount s) (structs_recv hr_semaphore (bs_waitSemaphoreCount s) (bs_pWaitSemaphores s))
    (bufferBindCount s) (structs_recv (recv_binds hr_buffer recv_memory_bind) (bufferBindCount s) (pBufferBinds s))
    (imageOpaqueBindCount s)
    (structs_recv (recv_binds hr_image recv_memory_bind) (imageOpaqueBindCount s) (pImageOpaqueBinds s))
    (imageBindCount s) (structs_recv (recv_binds hr_image recv_image_bind) (imageBindCount s) (pImageBinds s))
    (bs_signalSemaphoreCount s) (structs_recv hr_semaphore (bs_signalSemaphoreCount s) (bs_pSignalSemaphores s)).

Definition memory_bind_ok (b : VkSparseMemoryBind) : Prop :=
  Forall is_u64 [resourceOffset b; sb_size b; sb_memory b; sb_memoryOffset b] /\ is_u32 (sb_flags b).
Definition image_bind_ok (b : VkSparseImageMemoryBind) : Prop :=
  let '(aspect, mip, layer) := ib_subresource b in
  let '(x, y, z) := ib_offset b in
  let '(width, height, depth) := ib_extent b in
  Forall is_u32 [aspect; mip; layer; width; height; depth; ib_flags b] /\ Forall is_i32 [x; y; z] /\
  Forall is_u64 [ib_memory b; ib_memoryOffset b].
Definition binds_ok {A} (P : A -> Prop) (r : SparseBinds A) : Prop :=
  is_u64 (sr_resource r) /\ arr_ok P (sr_bindCount r) (sr_pBinds r).
Definition bind_sparse_ok (s : VkBindSparseInfo) : Prop :=
  chain_ok PNext.Submit (bs_pNext s) /\
  arr_ok is_u64 (bs_waitSemaphoreCount s) (bs_pWaitSemaphores s) /\
  arr_ok (binds_ok memory_bind_ok) (bufferBindCount s) (pBufferBinds s) /\
  arr_ok (binds_ok memory_bind_ok) (imageOpaqueBindCount s) (pImageOpaqueBinds s) /\
  arr_ok (binds_ok image_bind_ok) (imageBindCount s) (pImageBinds s) /\
  arr_ok is_u64 (bs_signalSemaphoreCount s) (bs_pSignalSemaphores s).

Lemma elements_memory_binds bs : Forall memory_bind_ok bs ->
  Forall (element 36 write_memory_bind (read_memory_bind t) recv_memory_bind) bs.
Proof.
  intros Hb. apply (elements _ _ _ _ _ _ Hb).
  - intros x _. unfold write_memory_bind. encoded_length.
  - intros x rest [Hx Hf]. forall_hyps. unfold write_memory_bind, read_memory_bind, r_find. call_steps.
Qed.

Lemma elements_image_binds bs : Forall image_bind_ok bs ->
  Forall (element 56 write_image_bind (read_image_bind t) recv_image_bind) bs.
Proof.
  intros Hb. apply (elements _ _ _ _ _ _ Hb).
  - intros x _. unfold write_image_bind. destruct (ib_subresource x) as [[? ?] ?], (ib_offset x) as [[? ?] ?],
      (ib_extent x) as [[? ?] ?]. encoded_length.
  - intros x rest Hx. unfold write_image_bind, read_image_bind, image_bind_ok, recv_image_bind, r_find in *.
    destruct x as [[[a m] l] [[x y] z] [[w h] d] memory mo flags]. cbn in *.
    destruct Hx as (Hx & Hy & Hz). forall_hyps. call_steps.
Qed.

Lemma elements_binds {A} k min (write : A -> list byte) m f (P : A -> Prop) xs :
  0 < min -> (forall bs, Forall P bs -> Forall (element min write m f) bs) -> Forall (binds_ok P) xs ->
  Forall (element 12 (write_binds write) (read_binds t k min m) (recv_binds (Table.get (table t k)) f)) xs.
Proof.
  intros Hm He Hxs. apply (elements _ _ _ _ _ _ Hxs).
  - intros x _. unfold write_binds. encoded_length.
  - intros x rest (Hi & Hn & Hmax & Hb). unfold write_binds, read_binds, recv_binds.
    eapply reads_bind; [by apply reads_object|]. rewrite <- (app_nil_r (concat _)).
    eapply reads_counted_array; [exact Hn|done|done|by apply He|].
    unfold len in Hn. rewrite <- Hn. apply reads_ret.
Qed.

Lemma reads_bind_sparse_info rest s bs : write_bind_sparse_info s = (true, bs) -> bind_sparse_ok s ->
  reads_at rest (read_bind_sparse_info t) bs (recv_bind_sparse_info s).
Proof.
  intros Hw (Hc & (Hn1 & Hm1 & Hw1) & (Hn2 & Hm2 & Hw2) & (Hn3 & Hm3 & Hw3) & (Hn4 & Hm4 & Hw4) & (Hn5 & Hm5 & Hw5)).
  unfold write_bind_sparse_info in Hw. apply wseq_true in Hw as (b1 & b2 & Hch & Hw & ->).
  apply emit_true in Hw as ->. unfold read_bind_sparse_info. eapply reads_bind; [by eapply reads_chain|].
  eapply (reads_counted_array _ 8 Writer.handle); [exact Hn1|done|done|by apply elements_object|].
  eapply (reads_counted_array _ 12 (write_binds write_memory_bind));
    [exact Hn2|done|done|by eapply elements_binds; [|apply elements_memory_binds|]|].
  eapply (reads_counted_array _ 12 (write_binds write_memory_bind));
    [exact Hn3|done|done|by eapply elements_binds; [|apply elements_memory_binds|]|].
  eapply (reads_counted_array _ 12 (write_binds write_image_bind));
    [exact Hn4|done|done|by eapply elements_binds; [|apply elements_image_binds|]|].
  rewrite <- (app_nil_r (concat (map Writer.handle _))).
  eapply (reads_counted_array _ 8 Writer.handle); [exact Hn5|done|done|by apply elements_object|].
  eapply reads_bind_nil; [apply reads_ok|].
  unfold len in Hn1, Hn2, Hn3, Hn4, Hn5. rewrite <- Hn1, <- Hn2, <- Hn3, <- Hn4, <- Hn5. apply reads_ret.
Qed.

(** *** Whole messages *)

(** What a loop over a fallible writer wrote, each element at least 16 bytes. *)
Lemma reads_written {A B} (write : A -> W) (m : Rd B) (ok : A -> Prop) g xs : forall bs,
  wfor write xs = (true, bs) -> Forall ok xs ->
  (forall rest x b, write x = (true, b) -> ok x -> 16 <= len b /\ reads_at rest m b (g x)) ->
  (forall rest, reads_at rest (rfor (length xs) m) bs (map g xs)) /\ len xs * 16 <= len bs.
Proof.
  intros bs Hw Hok Hm. apply wfor_true in Hw as (bss & Hbss & ->).
  assert (Forall2 (fun x b => write x = (true, b) /\ ok x) xs bss) as Hboth.
  { clear Hm. induction Hbss as [|x b xs bss Hx _ IH]; [done|]. apply Forall_cons in Hok as [Hk Hok].
    constructor; [done|by apply IH]. }
  clear Hbss Hok. split.
  - intros rest. eapply (reads_for _ _ (fun x b => write x = (true, b) /\ ok x)); [exact Hboth|].
    intros x b rest' [Hx Hk]. by apply Hm.
  - induction Hboth as [|x b xs bss [Hx Hk] _ IH]; [done|].
    destruct (Hm [] x b Hx Hk) as [Hl _]. unfold len in *. cbn [concat length]. rewrite length_app. lia.
Qed.

Lemma written_submit rest x b : write_submit_info to_cmd x = (true, b) -> submit_ok x ->
  16 <= len b /\ reads_at rest (read_submit_info t) b (recv_submit_info x).
Proof.
  intros Hw Hok. split; [|by apply reads_submit_info].
  unfold write_submit_info in Hw. apply wseq_true in Hw as (b1 & b2 & Hch & Hw & ->). apply emit_true in Hw as ->.
  apply length_chain in Hch. unfold len in *. rewrite !length_app, !length_writer_u32. lia.
Qed.

Lemma written_bind_sparse rest x b : write_bind_sparse_info x = (true, b) -> bind_sparse_ok x ->
  16 <= len b /\ reads_at rest (read_bind_sparse_info t) b (recv_bind_sparse_info x).
Proof.
  intros Hw Hok. split; [|by apply reads_bind_sparse_info].
  unfold write_bind_sparse_info in Hw. apply wseq_true in Hw as (b1 & b2 & Hch & Hw & ->).
  apply emit_true in Hw as ->. apply length_chain in Hch.
  unfold len in *. rewrite !length_app, !length_writer_u32. lia.
Qed.

Definition recv_submit_info2 (s : VkSubmitInfo2.t) : VkSubmitInfo2.t :=
  let '(VkSubmitInfo2.mk sType _ flags w pw cb pcb g pg) := s in
  VkSubmitInfo2.mk sType Null flags w (structs_recv semaphore_submit_recv w pw)
    cb (structs_recv (command_buffer_submit_recv (command_buffer_id to_cmd)) cb pcb)
    g (structs_recv semaphore_submit_recv g pg).

Lemma written_submit2 rest x b : write_SubmitInfo2 x (Some (command_buffer_id to_cmd)) = (true, b) ->
  SubmitInfo2_ok (command_buffer_id to_cmd) x ->
  16 <= len b /\ reads_at rest read_SubmitInfo2 b (recv_submit_info2 x).
Proof.
  intros Hw Hok. split; [|pose proof (submit_info2_roundtrip rest x _ b Hw Hok) as Hr; destruct x; exact Hr].
  apply guarded_true in Hw as [_ Hw]. apply emit_then_true in Hw as (b0 & Hw & ->).
  apply wseq_true in Hw as (b1 & b' & H1 & Hw & ->). apply wseq_true in Hw as (b2 & b3 & H2 & H3 & ->).
  apply emit_then_true in H1 as (c1 & _ & ->). apply emit_then_true in H2 as (c2 & _ & ->).
  apply emit_then_true in H3 as (c3 & _ & ->).
  unfold len. rewrite !length_app, !length_writer_u32. lia.
Qed.

Definition fence_ok (fence : Z) : Prop := is_u64 fence /\ (fence = 0 \/ Table.get (table t fences) fence <> 0).

Lemma optional_ok fence : fence_ok fence -> optional fence (Table.get (table t fences) fence) = true.
Proof.
  intros [_ [->|Hf]]; [done|]. apply orb_true_iff. right. by apply negb_true_iff, Z.eqb_neq.
Qed.

(** The head of the message and what its elements need. *)
Lemma head_written queue fence n (m : W) payload : emit (Writer.handle queue ++ Writer.handle fence ++ Writer.u32 n) ;;; m = (true, payload) ->
  exists bs, m = (true, bs) /\ payload = Writer.handle queue ++ Writer.handle fence ++ Writer.u32 n ++ bs.
Proof.
  intros Hw. apply emit_then_true in Hw as (bs & Hm & ->). exists bs. split; [done|]. by rewrite <- !app_assoc.
Qed.

Lemma reads_queue_submit queue fence xs payload : encode queue fence (Submits xs) = (true, payload) ->
  live (Table.get (table t queues)) queue -> fence_ok fence -> len xs <= kMaxArrayElements -> Forall submit_ok xs ->
  reads_at [] (read_queue_submit t) payload
    (Table.get (table t queues) queue, Table.get (table t fences) fence, map recv_submit_info xs).
Proof.
  intros Hw Hq Hf Hn Hok. apply head_written in Hw as (bs & Hw & ->).
  destruct (reads_written _ _ _ _ _ _ Hw Hok written_submit) as [Hr Hl].
  unfold read_queue_submit. eapply reads_bind; [apply reads_object; by apply Hq|].
  eapply reads_bind; [apply reads_handle; by apply Hf|].
  eapply reads_bind; [apply (counts_length true 16 xs); [done|done|by rewrite app_nil_r]|].
  cbv zeta. eapply reads_bind_nil; [apply reads_ok|].
  eapply reads_bind_nil; [apply reads_guard, andb_true_iff; split; [exact (valid_live _ _ Hq)|by apply optional_ok]|].
  eapply reads_bind_last; [apply Hr|]. eapply reads_bind_nil; [apply reads_end|]. apply reads_ret.
Qed.

Lemma reads_queue_submit2 queue fence xs payload : encode queue fence (Submits2 xs) = (true, payload) ->
  live (Table.get (table t queues)) queue -> fence_ok fence -> len xs <= kMaxArrayElements ->
  Forall (SubmitInfo2_ok (command_buffer_id to_cmd)) xs ->
  reads_at [] (read_queue_submit2 t) payload
    (queue, Table.get (table t queues) queue, Table.get (table t fences) fence, map recv_submit_info2 xs).
Proof.
  intros Hw Hq Hf Hn Hok. apply head_written in Hw as (bs & Hw & ->).
  destruct (reads_written _ _ _ _ _ _ Hw Hok written_submit2) as [Hr Hl].
  rewrite kMaxArrayElements_value in Hn. assert (0 <= len xs) by (unfold len; lia).
  unfold read_queue_submit2. eapply reads_bind; [apply reads_handle; by apply Hq|].
  eapply reads_bind; [apply reads_handle; by apply Hf|].
  eapply reads_bind; [apply reads_u32; unfold is_u32; lia|].
  eapply reads_bind_nil; [apply reads_remaining|]. cbv zeta.
  eapply reads_bind_nil.
  { apply reads_guard, andb_true_iff; split; [apply andb_true_iff; split; [apply andb_true_iff; split|]|].
    - exact (valid_live _ _ Hq).
    - by apply optional_ok.
    - apply negb_true_iff, Z.ltb_ge. by rewrite kMaxArrayElements_value.
    - apply Z.leb_le, Z.div_le_lower_bound; [done|]. rewrite app_nil_r. unfold len in *. lia. }
  replace (Z.to_nat (len xs)) with (length xs) by (unfold len; lia).
  eapply reads_bind_last; [apply Hr|]. eapply reads_bind_nil; [apply reads_ok|].
  eapply reads_bind_nil; [apply reads_end|]. apply reads_ret.
Qed.

Lemma reads_queue_bind_sparse queue fence xs payload : encode queue fence (BindsSparse xs) = (true, payload) ->
  live (Table.get (table t queues)) queue -> is_u64 fence -> len xs <= kMaxArrayElements -> Forall bind_sparse_ok xs ->
  reads_at [] (read_queue_bind_sparse t) payload
    (Table.get (table t queues) queue, Table.get (table t fences) fence, map recv_bind_sparse_info xs).
Proof.
  intros Hw Hq Hf Hn Hok. apply head_written in Hw as (bs & Hw & ->).
  destruct (reads_written _ _ _ _ _ _ Hw Hok written_bind_sparse) as [Hr Hl].
  unfold read_queue_bind_sparse. eapply reads_bind; [apply reads_object; by apply Hq|].
  eapply reads_bind; [by apply reads_object|].
  eapply reads_bind; [apply (counts_length true 16 xs); [done|done|by rewrite app_nil_r]|].
  eapply reads_bind_nil; [apply reads_guard; exact (valid_live _ _ Hq)|].
  eapply reads_bind_last; [apply Hr|]. apply reads_ret.
Qed.

End Messages.

(** ** The handlers *)
Section Served.
Context `{Abi} {W : Type} {C : CommandDriver W} {D : DeviceDriver W}.
Variable to_cmd : Z -> RemoteCommandBuffer.
Implicit Type c : Session W.
Import Handler.

(** The handler of the message. *)
Definition submission_handler (x : submission) : Session W -> Session W :=
  match x with
  | Submits _ => handle_QueueSubmit | Submits2 _ => handle_QueueSubmit2 | BindsSparse _ => handle_QueueBindSparse
  end.

(** The driver call that stands for it on the server. *)
Definition perform (t : ObjectTables) (queue fence : Z) (x : submission) : W -> Z * W :=
  let q := Table.get (table t queues) queue in
  let f := Table.get (table t fences) fence in
  match x with
  | Submits xs => vkQueueSubmit q (map (recv_submit_info to_cmd t) xs) f
  | Submits2 xs => vkQueueSubmit2 q (map (recv_submit_info2 to_cmd t) xs) f
  | BindsSparse xs => vkQueueBindSparse q (map (recv_bind_sparse_info t) xs) f
  end.

(** Arguments that Vulkan allows, over live objects; the queue's device has the
    entry point. *)
Definition submission_ok c (queue fence : Z) (x : submission) : Prop :=
  live (Table.get (table (tables c) queues)) queue /\
  match x with
  | Submits xs => fence_ok (tables c) fence /\ len xs <= kMaxArrayElements /\ Forall (submit_ok to_cmd (tables c)) xs
  | Submits2 xs =>
      fence_ok (tables c) fence /\ len xs <= kMaxArrayElements /\
      Forall (SubmitInfo2_ok (HR := resolver_of (tables c)) (command_buffer_id to_cmd)) xs /\
      let owner := Table.owner (table (tables c) queues) queue in
      owner <> 0 /\ vkGetDeviceProcAddr owner "vkQueueSubmit2KHR" (driver c) = true
  | BindsSparse xs => is_u64 fence /\ len xs <= kMaxArrayElements /\ Forall bind_sparse_ok xs
  end.

(** The submission was performed with [result], and the client is told. *)
Definition submitted (result : Z) (w : W) c c' : Prop :=
  driver c' = w /\ tables c' = tables c /\ oneway_errors c' = 0 /\
  exists reply r r', sent c' = sent c ++ [(opcode c, reply, request_id c)] /\
    ClientSync.reply_result (Some reply) = Some (result, r) /\ Reader.u32 r = (oneway_errors c, r') /\
    Reader.ok r' = true /\ Reader.remaining r' = 0%nat.

Lemma reply_submission_spec result w r c : writer c = [] -> replied c = false -> request_id c <> 0 ->
  is_i32 result -> is_u32 (oneway_errors c) ->
  submitted result w c (reply_submission (result, w) (set_reader r c)).
Proof.
  intros Hw Hr Hi Hres Herr. unfold reply_submission, write_ok. set (c' := clear_oneway_errors _).
  destruct (reply_sent c' Hr Hi) as [Hs _]. assert (is_u32 (status_code Ok)) as Hok by (by apply (bool_decide_unpack _)).
  assert (oneway_errors (reply c') = 0 /\ driver (reply c') = w /\ tables (reply c') = tables c) as (He & Hd & Ht).
  { unfold reply. by destruct (replied c'). }
  split; [exact Hd|]. split; [exact Ht|]. split; [exact He|].
  pose proof (at_make (writer c')) as Hat. subst c'. cbn [writer clear_oneway_errors write set_driver set_reader] in Hat, Hs.
  rewrite Hw, app_nil_l in Hat, Hs. cbn [oneway_errors set_driver set_reader sent opcode request_id write clear_oneway_errors] in Hat, Hs.
  set (reply := Writer.u32 (status_code Ok) ++ _) in *. exists reply.
  unfold ClientSync.reply_result, payload_reader. subst reply.
  apply at_u32 in Hat as (r1 & Hr1 & Hat); [|done]. apply at_i32 in Hat as (r2 & Hr2 & Hat); [|done].
  rewrite <- (app_nil_r (Writer.u32 _)) in Hat. apply at_u32 in Hat as (r3 & Hr3 & Hat); [|done].
  exists r2, r3. split; [exact Hs|]. rewrite Hr1. cbn [snd]. rewrite Hr2. split; [done|]. split; [done|].
  split; [by eapply at_ok|]. by rewrite (at_remaining _ _ Hat).
Qed.

(** C29: A submission of the client is the same submission on the server.

    What vkQueueSubmit, vkQueueSubmit2 or vkQueueBindSparse sends, with arguments
    Vulkan allows over live objects, makes the handler of the message perform
    exactly one driver call, on the queue and fence of the connection, with the
    same elements in the same order and the connection's objects for the ids in
    them; the reply gives the client the driver's result and the errors of its
    one-way commands, which are then forgotten. *)
Theorem submission_served queue fence x payload c :
  encode to_cmd queue fence x = (true, payload) -> submission_ok c queue fence x ->
  reader c = Reader.make payload -> writer c = [] -> replied c = false -> request_id c <> 0 ->
  is_u32 (oneway_errors c) ->
  let '(result, w) := perform (tables c) queue fence x (driver c) in
  is_i32 result -> submitted result w c (submission_handler x c).
Proof.
  intros He [Hq Hok] Hrd Hw Hr Hi Herr. destruct x as [xs|xs|xs]; cbn [perform submission_handler].
  - destruct Hok as (Hf & Hn & Hxs). destruct (vkQueueSubmit _ _ _ _) as [result w] eqn:Ed. intros Hres.
    unfold handle_QueueSubmit, decoded, rd.
    rewrite Hrd, (reads_at_run _ _ _ (reads_queue_submit _ _ _ _ _ _ He Hq Hf Hn Hxs)).
    cbn [driver set_reader]. rewrite Ed. by apply reply_submission_spec.
  - destruct Hok as (Hf & Hn & Hxs & Ho & Hp). destruct (vkQueueSubmit2 _ _ _ _) as [result w] eqn:Ed. intros Hres.
    unfold handle_QueueSubmit2, decoded, rd.
    rewrite Hrd, (reads_at_run _ _ _ (reads_queue_submit2 _ _ _ _ _ _ He Hq Hf Hn Hxs)).
    cbn [driver set_reader tables]. rewrite Hp. unfold valid. rewrite (proj2 (Z.eqb_neq _ _) Ho).
    cbn [negb andb]. rewrite Ed. by apply reply_submission_spec.
  - destruct Hok as (Hf & Hn & Hxs). destruct (vkQueueBindSparse _ _ _ _) as [result w] eqn:Ed. intros Hres.
    unfold handle_QueueBindSparse, decoded, rd.
    rewrite Hrd, (reads_at_run _ _ _ (reads_queue_bind_sparse _ _ _ _ _ _ He Hq Hf Hn Hxs)).
    cbn [driver set_reader]. rewrite Ed. by apply reply_submission_spec.
Qed.

End Served.

(** ** One batch with a wait, a command buffer, a signal and a fence *)
Module SubmitDemo.
Import DeviceDemo.

Definition to_cmd (address : Z) : RemoteCommandBuffer := mkRemoteCommandBuffer 1 (mkCommandBuffer ∅ false ∅).

Definition batch : VkSubmitInfo :=
  mkSubmitInfo 4 Null 1 (Ref [1]) (Ref [4096]) 1 (Ref [4242]) 1 (Ref [2]).

Definition payload : list byte := snd (encode to_cmd 1 1 (Submits [batch])).

Lemma batch_ok : submission_ok to_cmd (session [] payload) 1 1 (Submits [batch]).
Proof.
  split; [by apply (bool_decide_unpack _)|].
  split; [split; [by apply (bool_decide_unpack _)|right; by vm_compute]|]. split; [by vm_compute|].
  constructor; [|constructor]. split; [by apply Forall_nil|].
  repeat (split || constructor); try by vm_compute.
Qed.

Lemma submission_served_witness :
  submitted VK_SUCCESS
    [Submitted 50 [mkSubmitInfo 4 Null 1 (Ref [60]) (Ref [4096]) 1 (Ref [100]) 1 (Ref [61])] 70]
    (session [] payload) (handle_QueueSubmit (session [] payload)).
Proof.
  assert (encode to_cmd 1 1 (Submits [batch]) = (true, payload)) as He by (by vm_compute).
  assert (is_u32 3) as Herr by (by apply (bool_decide_unpack _)).
  assert (is_i32 VK_SUCCESS) as Hres by (by apply (bool_decide_unpack _)).
  exact (submission_served to_cmd 1 1 (Submits [batch]) payload (session [] payload) He batch_ok
           eq_refl eq_refl eq_refl (fun H => ltac:(discriminate H)) Herr Hres).
Defined.

End SubmitDemo.
