(* ===== verification/DeviceSets.v ===== *)
(** Descriptor sets on the server: the table of sets and the map of their owners
    agree, whatever requests arrive, and a set dies with its pool. *)

From stdpp Require Import list gmap strings.
From S2P Require Import Prelude Wire Codec CLayout VkStructs PNext VkCreateInfos MarshalBase Marshal MarshalDescriptor HostMemory.
From S2P Require Import Objects Teardown Session ServerMemory ServerCommands CommandFacts ServerDevice DeviceAnswers.
Import Handler.

#[local] Set Warnings "-clear-no-such-hyp".

(** A handle is never negative. *)
Lemma ensures_handle_nonneg : rd_ensures r_handle (fun id => 0 <= id).
Proof.
  apply ensures_intro. intros r id r'. unfold r_handle, get, Reader.handle.
  with_strategy transparent [Reader.u64] unfold Reader.u64. unfold Reader.read.
  destruct (_ || _); [by intros [= <- _]|]. intros [= <- _]. exact (proj1 (le_value_range _)).
Qed.

(** ** The invariant *)

Abbreviation sets t := (table t descriptor_sets).

(** Every recorded owner is that of an id the table has handed out, and every live
    set has its owner recorded. *)
Definition sets_ok (t : ObjectTables) : Prop :=
  tables_wf t /\ cached_ids_ok t /\
  (forall id o, descriptor_set_owners t !! id = Some o ->
     1 <= id <= Table.size (sets t) /\ Table.owner (sets t) id = dso_device o) /\
  (forall id, 0 <= id -> Table.get (sets t) id <> 0 -> is_Some (descriptor_set_owners t !! id)).

(** What else the tables hold does not matter. *)
Lemma sets_ok_frame t t' : sets_ok t -> tables_wf t' -> swapchain_image_ids t' = swapchain_image_ids t ->
  sets t' = sets t -> descriptor_set_owners t' = descriptor_set_owners t -> sets_ok t'.
Proof.
  intros (_ & Hc & Ho & Hl) Hw Hi Hs Hd. unfold sets_ok, cached_ids_ok in *. by rewrite Hi, Hs, Hd.
Qed.

Lemma tables_wf_set k T t : tables_wf t -> Table.wf T -> tables_wf (set_table k T t).
Proof. intros Hw HT k'. cbn. by case_decide. Qed.

Lemma sets_ok_table k T t : sets_ok t -> Table.wf T -> k <> descriptor_sets -> sets_ok (set_table k T t).
Proof.
  intros Hs HT Hk. apply (sets_ok_frame t); try done; [by apply tables_wf_set; [apply Hs|]|].
  cbn. by rewrite decide_False.
Qed.

Lemma sets_ok_add k object device t : sets_ok t -> k <> descriptor_sets ->
  sets_ok (snd (add_object k object device t)).
Proof.
  intros Hs Hk. unfold add_object. pose proof (Table.add_wf (table t k) object device) as Hw.
  destruct (Table.add _ _ _). apply sets_ok_table; [done|apply Hw, Hs|done].
Qed.

Lemma sets_ok_take k id t : sets_ok t -> k <> descriptor_sets -> sets_ok (snd (take_object k id t)).
Proof.
  intros Hs Hk. unfold take_object. pose proof (Table.take_wf (table t k) id) as Hw.
  destruct (Table.take _ _). apply sets_ok_table; [done|apply Hw, Hs|done].
Qed.

(** A set that is added with its owner. *)
Lemma sets_ok_add_set set device pool t : sets_ok t ->
  let (id, t') := add_object descriptor_sets set device t in
  sets_ok (set_descriptor_set_owners
             (<[id := {| dso_device := device; dso_pool := pool |}]> (descriptor_set_owners t')) t').
Proof.
  intros (Hw & Hc & Ho & Hl). unfold add_object.
  pose proof (Table.add_id (sets t) set device) as Hid.
  pose proof (Table.add_wf (sets t) set device (Hw _)) as Hw1.
  pose proof (Table.size_add (sets t) set device) as Hs1.
  pose proof (fun i => Table.get_add (sets t) set device i) as Hg1.
  pose proof (fun i => Table.owner_add (sets t) set device i (Hw _)) as Ho1.
  destruct (Table.add (sets t) set device) as [id T]. cbn [fst snd] in *. subst id.
  assert (0 <= Table.size (sets t)) by (unfold Table.size; lia).
  split; [by apply tables_wf_set|]. split; [done|]. cbn. rewrite !decide_True by done. split.
  - intros i o [[<- <-]|[Hne Hi]]%lookup_insert_Some.
    + split; [lia|]. rewrite Ho1 by lia. by rewrite Z.eqb_refl.
    + destruct (Ho i o Hi) as [Hr Hd]. split; [lia|]. rewrite Ho1 by lia.
      by rewrite (proj2 (Z.eqb_neq _ _)) by lia.
  - intros i Hi. rewrite Hg1 by done. destruct (Z.eqb_spec i (Table.size (sets t) + 1)) as [->|Hne].
    + intros _. rewrite lookup_insert_eq. by eexists.
    + intros Hn. rewrite lookup_insert_ne by done. by apply Hl.
Qed.

Lemma sets_ok_add_sets device pool xs : forall t, sets_ok t -> sets_ok (snd (add_sets device pool xs t)).
Proof.
  induction xs as [|x xs IH]; intros t Hs; cbn [add_sets]; [done|].
  pose proof (sets_ok_add_set x device pool t Hs) as H1. destruct (add_object _ _ _ _) as [id t1].
  specialize (IH _ H1). by destruct (add_sets _ _ _ _).
Qed.

(** Sets that are taken with their owners. *)
Lemma sets_ok_drop ids T m t : sets_ok t -> Forall (fun id => 0 <= id) ids ->
  T = fold_left (fun T id => snd (Table.take T id)) ids (sets t) ->
  (forall id, m !! id = if decide (id ∈ ids) then None else descriptor_set_owners t !! id) ->
  sets_ok (set_descriptor_set_owners m (set_table descriptor_sets T t)).
Proof.
  intros (Hw & Hc & Ho & Hl) Hi -> Hm. destruct (take_all_spec ids (sets t) (Hw _) Hi) as [Hsh Hg].
  set (T := fold_left _ _ _) in *. destruct Hsh as (Hwf & Hsize & _).
  split; [by apply tables_wf_set|]. split; [done|]. cbn. rewrite !decide_True by done. split.
  - intros id o. rewrite Hm. case_decide as Hd; [done|]. intros Hid. destruct (Ho id o Hid) as [Hr He].
    rewrite Hsize. split; [done|]. destruct (Hg id) as [_ Hk]; [lia|]. by rewrite (proj2 (Hk Hd)).
  - intros id H0 Hn. rewrite Hm. destruct (Hg id H0) as [Hin Hout]. case_decide as Hd; [by rewrite Hin in Hn|].
    apply Hl; [done|]. by rewrite <- (proj1 (Hout Hd)).
Qed.

(** *** The sets of a pool *)

Definition in_pool (pool : Z) (t : ObjectTables) (id : Z) : Prop :=
  exists o, descriptor_set_owners t !! id = Some o /\ dso_pool o = pool.

Lemma elem_pool pool t id :
  id ∈ (filter (fun '(_, o) => dso_pool o = pool) (map_to_list (descriptor_set_owners t))).*1 <-> in_pool pool t id.
Proof.
  rewrite list_elem_of_fmap. split.
  - intros ([i o] & -> & [Hp Hi]%list_elem_of_filter). apply elem_of_map_to_list in Hi. by exists o.
  - intros (o & Hi & Hp). exists (id, o). split; [done|]. apply list_elem_of_filter. split; [done|].
    by apply elem_of_map_to_list.
Qed.

Lemma pool_ids_nonneg pool t : sets_ok t ->
  Forall (fun id => 0 <= id) (filter (fun '(_, o) => dso_pool o = pool) (map_to_list (descriptor_set_owners t))).*1.
Proof.
  intros (_ & _ & Ho & _). apply Forall_forall. intros id (o & Hi & _)%elem_pool.
  destruct (Ho id o Hi). lia.
Qed.

Lemma sets_ok_retire pool t : sets_ok t -> sets_ok (retire_pool pool t).
Proof.
  intros Hs. unfold retire_pool. eapply sets_ok_drop; [done|by apply pool_ids_nonneg|done|].
  intros id. case_decide as Hd; rewrite elem_pool in Hd.
  - destruct Hd as (o & Hi & Hp). rewrite map_lookup_filter, Hi. cbn. by rewrite option_guard_False by tauto.
  - rewrite map_lookup_filter. destruct (_ !! id) as [o|] eqn:Hi; [|done]. cbn.
    rewrite option_guard_True; [done|]. intros Hp. apply Hd. by exists o.
Qed.

(** The sets of the pool die, the others live on. *)
Lemma retire_pool_spec pool t id : sets_ok t -> 0 <= id ->
  (in_pool pool t id ->
     Table.get (sets (retire_pool pool t)) id = 0 /\ descriptor_set_owners (retire_pool pool t) !! id = None) /\
  (~ in_pool pool t id ->
     Table.get (sets (retire_pool pool t)) id = Table.get (sets t) id /\
     descriptor_set_owners (retire_pool pool t) !! id = descriptor_set_owners t !! id).
Proof.
  intros Hs H0. destruct (take_all_spec _ (sets t) (proj1 Hs _) (pool_ids_nonneg pool t Hs)) as [_ Hg].
  destruct (Hg id H0) as [Hin Hout]. rewrite elem_pool in Hin, Hout.
  unfold retire_pool. cbn. rewrite decide_True by done. rewrite map_lookup_filter. split.
  - intros (o & Hi & Hp). split; [apply Hin; by exists o|]. rewrite Hi. cbn. by rewrite option_guard_False by tauto.
  - intros Hn. split; [by apply Hout|]. destruct (_ !! id) as [o|] eqn:Hi; [|done]. cbn.
    rewrite option_guard_True; [done|]. intros Hp. apply Hn. by exists o.
Qed.

Lemma sets_ok_drop_set t id : sets_ok t -> 0 <= id -> sets_ok (drop_set t id).
Proof.
  intros Hs H0. unfold drop_set, take_object. destruct (Table.take (sets t) id) as [v T] eqn:Et.
  cbn [descriptor_set_owners set_table]. apply (sets_ok_drop [id]); [done|by constructor| |].
  - cbn. by rewrite Et.
  - intros i. case_decide as Hd; rewrite list_elem_of_singleton in Hd.
    + subst i. by rewrite lookup_delete_eq.
    + by rewrite lookup_delete_ne by congruence.
Qed.

Lemma sets_ok_drop_sets ids : forall t, sets_ok t -> Forall (fun id => 0 <= id) ids ->
  sets_ok (fold_left drop_set ids t).
Proof.
  induction ids as [|id ids IH]; intros t Hs Hi; [done|]. apply Forall_cons in Hi as [H0 Hi]. cbn.
  apply IH; [by apply sets_ok_drop_set|done].
Qed.

(** *** A device and its sets *)

Lemma destroy_kinds_owners device ks : forall t calls,
  descriptor_set_owners (fst (fold_left (destroy_kind device) ks (t, calls))) = descriptor_set_owners t.
Proof.
  induction ks as [|k ks IH]; intros t calls; [done|]. cbn [fold_left destroy_kind].
  destruct (destroy_owned device (table t k)). by rewrite IH.
Qed.

Lemma destroy_device_owners device t t' calls : destroy_device_objects t device = Some (t', calls) ->
  descriptor_set_owners t' = filter (fun '(_, o) => dso_device o <> device) (descriptor_set_owners t).
Proof.
  unfold destroy_device_objects. destruct (Z.eqb_spec device 0) as [|Hn]; [done|].
  pose proof (destroy_kinds_owners device destroyed_first t [DeviceWaitIdle device]) as H1.
  destruct (fold_left _ destroyed_first _) as [t1 c1]. cbn [fst snd] in *.
  pose proof (destroy_kinds_owners device destroyed_last (retire_borrowed device t1) c1) as H2.
  destruct (fold_left _ destroyed_last _) as [t2 c2]. cbn [fst] in *.
  intros [= <- _]. cbn. by rewrite H2, <- H1.
Qed.

Lemma sets_ok_destroy_device device t t' calls : sets_ok t ->
  destroy_device_objects t device = Some (t', calls) -> sets_ok t'.
Proof.
  intros (Hw & Hc & Ho & Hl) Hd.
  assert (device <> 0) as Hn. { intros ->. done. }
  destruct (teardown_spec device Hn t Hw Hc) as (t'' & Hd' & Hsh & _ & _ & _ & Hc' & _).
  destruct (destroy_tables device Hn t Hw Hc) as (t3 & Hd3 & _ & _ & _ & Hr & _ & _).
  rewrite Hd in Hd', Hd3. injection Hd' as <- _. injection Hd3 as Ht' _.
  pose proof (destroy_device_owners _ _ _ _ Hd) as Hm.
  assert (sets t' = Table.retire_owned (sets t) device) as Ht.
  { rewrite Ht'. cbn. rewrite decide_True by auto. rewrite Hr; [done|].
    by apply (bool_decide_unpack (descriptor_sets ∉ destroyed_first ++ destroyed_last)). }
  split; [intros k; apply Hsh|]. split; [exact Hc'|]. rewrite Hm, Ht. split.
  - intros id o [Hi Hne]%map_lookup_filter_Some. destruct (Ho id o Hi) as [Hr1 He].
    rewrite Table.size_retire by apply Hw. split; [done|]. rewrite Table.owner_retire by (done || lia || apply Hw).
    rewrite (proj2 (Z.eqb_neq _ _)); [done|congruence].
  - intros id H0 Hg. rewrite Table.get_retire in Hg by (done || apply Hw).
    destruct ((1 <=? id) && (id <=? Table.size (sets t)) && (Table.owner (sets t) id =? device)) eqn:Eo; [done|].
    destruct (Hl id H0 Hg) as [o Hi]. exists o. apply map_lookup_filter_Some. split; [done|]. intros Hd'.
    destruct (Ho id o Hi) as [Hr1 He]. rewrite He, Hd', Z.eqb_refl, andb_true_r in Eo. bool_hyps. lia.
Qed.

(** ** The pools of the sets *)

Abbreviation owners t := (descriptor_set_owners t).

(** The pool that an entry records is live and of the device that it records. *)
Definition pool_of (t : ObjectTables) (o : DescriptorSetOwner) : Prop :=
  exists p, 0 <= p /\ Table.owned_by (table t descriptor_pools) p (dso_device o) = true /\
    Table.get (table t descriptor_pools) p = dso_pool o.

Definition pools_ok (t : ObjectTables) : Prop := forall id o, owners t !! id = Some o -> pool_of t o.

(** What is the same for every device and pool stays one of them. *)
Lemma pool_of_same t t' o :
  (forall p, 0 <= p -> Table.get (table t descriptor_pools) p = dso_pool o ->
     Table.owned_by (table t descriptor_pools) p (dso_device o) = true ->
     Table.get (table t' descriptor_pools) p = Table.get (table t descriptor_pools) p /\
     Table.owner (table t' descriptor_pools) p = Table.owner (table t descriptor_pools) p) ->
  pool_of t o -> pool_of t' o.
Proof.
  intros Hs (p & H0 & Ho & Hg). destruct (Hs p H0 Hg Ho) as [E1 E2]. exists p. split; [done|].
  unfold Table.owned_by in *. by rewrite E1, E2.
Qed.

Lemma pool_of_table t t' o : table t' descriptor_pools = table t descriptor_pools -> pool_of t o -> pool_of t' o.
Proof. intros E. apply pool_of_same. by rewrite E. Qed.

(** Tables that differ from [t0] in nothing that a set depends on. *)
Definition stable (t0 t : ObjectTables) : Prop :=
  sets_ok t /\ owners t = owners t0 /\ forall o, pool_of t0 o -> pool_of t o.

Lemma stable_refl t : sets_ok t -> stable t t.
Proof. by split. Qed.

Lemma stable_table t0 k T t : stable t0 t -> Table.wf T -> k <> descriptor_sets -> k <> descriptor_pools ->
  stable t0 (set_table k T t).
Proof.
  intros (Hs & Ho & Hp) HT Hk Hk'. split; [by apply sets_ok_table|]. split; [done|]. intros o Hx.
  apply (pool_of_table t); [|by apply Hp]. cbn. by rewrite decide_False.
Qed.

Lemma stable_add t0 k object device t : stable t0 t -> k <> descriptor_sets ->
  stable t0 (snd (add_object k object device t)).
Proof.
  intros (Hs & Ho & Hp) Hk. pose proof (sets_ok_add k object device t Hs Hk) as Ha. unfold add_object in *.
  destruct (Table.add (table t k) object device) as [id T] eqn:E. cbn [snd] in *. split; [done|]. split; [done|].
  intros o Hx. specialize (Hp o Hx). revert Hp. apply pool_of_same. intros p H0 _ Hw. cbn.
  case_decide as Hd; [|done]. subst k. replace T with (snd (Table.add (table t descriptor_pools) object device)) by (by rewrite E).
  assert (p <= Table.size (table t descriptor_pools)).
  { apply Table.get_nonzero_in; [done|]. unfold Table.owned_by in Hw. by destruct (Z.eqb_spec (Table.get (table t descriptor_pools) p) 0). }
  rewrite Table.get_add, Table.owner_add by (done || apply Hs). by rewrite (proj2 (Z.eqb_neq p _)) by lia.
Qed.

Lemma stable_take t0 k id t : stable t0 t -> k <> descriptor_sets -> k <> descriptor_pools ->
  stable t0 (snd (take_object k id t)).
Proof.
  intros Hs Hk Hk'. unfold take_object. pose proof (Table.take_wf (table t k) id) as Hw.
  destruct (Table.take _ _). apply stable_table; [done|apply Hw, Hs|done|done].
Qed.

(** ** Handlers that no set depends on *)
Section Handlers.
Context `{Abi} {W : Type} {C : CommandDriver W} {D : DeviceDriver W}.
Variable physical_devices : list Z.
Implicit Type c : Session W.

Variable t0 : ObjectTables.
Definition ok c : Prop := stable t0 (tables c).

Lemma ok_tables t c : stable t0 t -> ok (set_tables t c).
Proof. done. Qed.
Lemma ok_driver w c : ok c -> ok (set_driver w c).
Proof. done. Qed.
Lemma ok_error c : ok c -> ok (mark_oneway_error c).
Proof. done. Qed.
Lemma ok_rd {A} (f : Wire.reader -> A * Wire.reader) c : ok c -> ok (snd (rd f c)).
Proof. unfold rd. by destruct (f (reader c)). Qed.
Lemma ok_rd_object k c : ok c -> ok (snd (rd_object k c)).
Proof. intros Hs. unfold rd_object. pose proof (ok_rd Reader.handle c Hs). by destruct (rd _ c). Qed.
Lemma ok_reply c : ok c -> ok (reply c).
Proof. unfold ok, reply. by destruct (replied c). Qed.
Lemma ok_status s c : ok c -> ok (reply_status s c).
Proof. intros. by apply ok_reply. Qed.
Lemma ok_reply_ok bs c : ok c -> ok (reply_ok bs c).
Proof. intros. by apply ok_reply. Qed.
Lemma ok_result x c : ok c -> ok (reply_result x c).
Proof. intros. destruct x. by apply ok_reply_ok. Qed.
Lemma ok_submission x c : ok c -> ok (reply_submission x c).
Proof. intros. destruct x. by apply ok_reply. Qed.
Lemma ok_proc device name f c : ok c -> (ok c -> ok (f c)) -> ok (with_proc device name f c).
Proof. intros Hc Hf. unfold with_proc. case_if; [by apply Hf|by apply ok_status]. Qed.
Lemma ok_decoded_any {A} m (f : A -> Session W -> Session W) c :
  ok c -> (forall x c', ok c' -> ok (f x c')) -> ok (decoded m f c).
Proof. intros Hc Hf. unfold decoded, rd. destruct (m _ _) as [[x|] r]; [by apply Hf|by apply ok_status]. Qed.
Lemma ok_decoded_oneway {A} m (f : A -> Session W -> Session W) c :
  ok c -> (forall x c', ok c' -> ok (f x c')) -> ok (decoded_oneway m f c).
Proof. intros Hc Hf. unfold decoded_oneway, rd. destruct (m _ _) as [[x|] r]; [by apply Hf|done]. Qed.

Lemma ok_created k device x c : k <> descriptor_sets -> ok c -> ok (reply_created k device x c).
Proof.
  intros Hk Hc. unfold reply_created. destruct x as [[result object] w]. case_if.
  - pose proof (stable_add t0 k object device (tables c) Hc Hk) as Ha.
    cbn [tables set_driver]. destruct (add_object _ _ _ _). by apply ok_reply_ok.
  - by apply ok_reply_ok.
Qed.

Lemma stable_pipelines device xs : forall t, stable t0 t -> stable t0 (snd (add_pipelines device xs t)).
Proof.
  induction xs as [|x xs IH]; intros t Hs; cbn [add_pipelines]; [done|]. case_if.
  - pose proof (stable_add t0 pipelines x device t Hs ltac:(done)) as H1. destruct (add_object _ _ _ _) as [id t1].
    specialize (IH t1 H1). by destruct (add_pipelines _ _ _).
  - specialize (IH t Hs). by destruct (add_pipelines _ _ _).
Qed.

Lemma ok_pipelines device n x c : ok c -> ok (reply_pipelines device n x c).
Proof.
  intros Hc. unfold reply_pipelines. destruct x as [[result objects] w].
  pose proof (stable_pipelines device (filled n objects) (tables (set_driver w c)) Hc) as Ha.
  destruct (add_pipelines _ _ _). by apply ok_reply_ok.
Qed.

Lemma ok_queue queue device c : ok c -> ok (snd (unique_queue queue device c)).
Proof.
  intros Hc. unfold unique_queue. pose proof (proj1 (proj1 Hc) queues) as Hw.
  destruct (Table.add_unique_shape (table (tables c) queues) queue device) as [E|E];
    destruct (Table.add_unique _ _ _) as [id T]; cbn [snd] in *; subst T; apply stable_table; try done.
  by apply Table.add_wf.
Qed.

(** *** Handlers with a proof of their own *)

Lemma ok_SERVER_CREATE {A} k ReadFn (f : A -> creation) c : k <> descriptor_sets -> ok c ->
  ok (SERVER_CREATE k ReadFn f c).
Proof. intros Hk Hc. apply ok_decoded_any; [done|]. intros x c' Hc'. by apply ok_created. Qed.

(** The id that was read from the message. *)
Lemma ok_SERVER_DESTROY k c : k <> descriptor_sets -> k <> descriptor_pools -> ok c -> ok (SERVER_DESTROY k c).
Proof.
  intros Hk Hk' Hc. unfold SERVER_DESTROY. pose proof (ok_rd_object devices c Hc) as H1.
  destruct (rd_object devices c) as [device c1]. pose proof (ok_rd Reader.handle c1 H1) as H2.
  destruct (rd Reader.handle c1) as [id c2]. cbn [snd] in *. case_if; [done|].
  pose proof (stable_take t0 k id (tables c2) H2 Hk Hk') as H3. destruct (take_object _ _ _) as [o t]. cbv zeta.
  by case_if.
Qed.

Lemma ok_destroy_unowned k c : k <> descriptor_sets -> k <> descriptor_pools -> ok c -> ok (destroy_unowned k c).
Proof.
  intros Hk Hk' Hc. unfold destroy_unowned. pose proof (ok_rd_object devices c Hc) as H1.
  destruct (rd_object devices c) as [device c1]. pose proof (ok_rd Reader.handle c1 H1) as H2.
  destruct (rd Reader.handle c1) as [id c2]. cbn [snd] in *.
  pose proof (stable_take t0 k id (tables c2) H2 Hk Hk') as H3. destruct (take_object _ _ _) as [o t]. cbv zeta.
  by case_if.
Qed.

Lemma ok_CreateDevice c : ok c -> ok (handle_CreateDevice physical_devices c).
Proof.
  intros Hc. apply ok_decoded_any; [done|]. intros [physdev info] c' Hc'. cbn [fst snd].
  destruct (vkCreateDevice _ _ _) as [[result device] w]. cbv zeta. case_if; [|by apply ok_reply_ok].
  pose proof (stable_add t0 devices device 0 (tables (set_driver w c')) Hc' ltac:(done)) as Ha.
  destruct (add_object _ _ _ _). by apply ok_reply_ok.
Qed.

Lemma ok_create_proc {A} k (f : A -> creation) (maps : Z -> Z -> A -> ObjectTables -> ObjectTables) name m c :
  k <> descriptor_sets -> (forall id d x t, stable t0 t -> stable t0 (maps id d x t)) -> ok c ->
  ok (decoded m (fun x c =>
        with_proc x.1 name (fun c =>
          let '(result, object, w) := vkCreate x.1 (f x.2) (driver c) in
          let c := set_driver w c in
          let (id, t) := if result =? VK_SUCCESS then add_object k object x.1 (tables c) else (0, tables c) in
          let t := if valid id then maps id x.1 x.2 t else t in
          reply_ok (Writer.i32 result ++ Writer.handle id) (set_tables t c)) c) c).
Proof.
  intros Hk Hm Hc. apply ok_decoded_any; [done|]. intros [d x] c' Hc'. apply ok_proc; [done|]. intros _. cbn [fst snd].
  destruct (vkCreate _ _ _) as [[result object] w]. cbv zeta.
  assert (forall p : Z * ObjectTables, stable t0 p.2 ->
            ok (let (id, t) := p in let t := if valid id then maps id d x t else t in
                reply_ok (Writer.i32 result ++ Writer.handle id) (set_tables t (set_driver w c')))) as Hp.
  { intros [id t] Ht. apply ok_reply_ok, ok_tables. case_if; [by apply Hm|done]. }
  apply Hp. case_if; [by apply stable_add|done].
Qed.

Lemma ok_DestroyTemplate c : ok c -> ok (handle_DestroyDescriptorUpdateTemplate c).
Proof.
  intros Hc. unfold handle_DestroyDescriptorUpdateTemplate. pose proof (ok_rd_object devices c Hc) as H1.
  destruct (rd_object devices c) as [device c1]. pose proof (ok_rd Reader.handle c1 H1) as H2.
  destruct (rd Reader.handle c1) as [id c2]. cbn [snd] in *. cbv zeta. case_if; [done|].
  pose proof (stable_take t0 descriptor_update_templates id (tables c2) H2 ltac:(done) ltac:(done)) as H3.
  destruct (take_object _ _ _) as [o t]. by case_if.
Qed.

Lemma ok_DestroyYcbcr c : ok c -> ok (handle_DestroySamplerYcbcrConversion c).
Proof.
  intros Hc. unfold handle_DestroySamplerYcbcrConversion. pose proof (ok_rd_object devices c Hc) as H1.
  destruct (rd_object devices c) as [device c1]. pose proof (ok_rd Reader.handle c1 H1) as H2.
  destruct (rd Reader.handle c1) as [id c2]. cbn [snd] in *. cbv zeta. case_if; [done|].
  pose proof (stable_take t0 sampler_ycbcr_conversions id (tables c2) H2 ltac:(done) ltac:(done)) as H3.
  destruct (take_object _ _ _) as [o t]. by case_if.
Qed.

#[local] Hint Resolve ok_SERVER_CREATE ok_SERVER_DESTROY ok_destroy_unowned ok_CreateDevice ok_DestroyTemplate ok_DestroyYcbcr ok_reply_ok ok_result ok_submission ok_status ok_driver ok_error
  ok_pipelines : sets.

Ltac ok_step :=
  match goal with
  | |- ok (with_proc _ _ _ _) => apply ok_proc; [assumption|intros _]
  | |- ok (let (_, _) := unique_queue ?q ?d ?c in _) =>
      let E := fresh in pose proof (ok_queue q d c ltac:(assumption)) as E; destruct (unique_queue q d c); cbn [snd] in E
  | |- ok (let (_, _) := if valid ?q then _ else _ in _) => destruct (valid q)
  | |- ok (match ?x with _ => _ end) => destruct x
  | |- ok (reply_created _ _ _ _) => apply ok_created; [done|assumption]
  | |- ok _ => solve [eauto 4 with sets nocore]
  end.

(** The requests that say which sets there are. *)
Definition set_requests : list (string * (Session W -> Session W)) :=
  [("vkAllocateDescriptorSets", handle_AllocateDescriptorSets); ("vkFreeDescriptorSets", handle_FreeDescriptorSets);
   ("vkResetDescriptorPool", handle_ResetDescriptorPool); ("vkDestroyDescriptorPool", handle_DestroyDescriptorPool);
   ("vkDestroyDevice", handle_DestroyDevice)].

(** No other handler matters to the sets. *)
Lemma other_requests :
  Forall (fun e => In e set_requests \/ forall c, ok c -> ok (snd e c)) (requests physical_devices ++ oneway_requests).
Proof.
  apply Forall_app. split; [unfold requests|unfold oneway_requests];
    repeat apply Forall_cons_2; try apply Forall_nil_2; cbn [snd];
    try (left; cbn [In set_requests]; repeat first [left; reflexivity|right]; fail); right; intros c Hc.
  all: try solve [ by auto with sets nocore | by apply ok_SERVER_CREATE | by apply ok_SERVER_DESTROY
                 | by apply ok_destroy_unowned
                 | by apply (ok_create_proc sampler_ycbcr_conversions vkCreateSamplerYcbcrConversion
                       (fun id d _ t => set_ycbcr_owners (<[id := d]> (sampler_ycbcr_conversion_owners t)) t))
                 | by apply (ok_create_proc descriptor_update_templates vkCreateDescriptorUpdateTemplate
                       (fun id d x t => set_template_maps (<[id := d]> (descriptor_update_template_owners t))
                          (<[id := arr (VkDescriptorUpdateTemplateCreateInfo.pDescriptorUpdateEntries x)
                                       (VkDescriptorUpdateTemplateCreateInfo.descriptorUpdateEntryCount x)]>
                             (descriptor_update_template_entries t)) t)) ].
  all: first [apply ok_decoded_any; [exact Hc|]|apply ok_decoded_oneway; [exact Hc|]]; intros ? ? ?; cbv zeta.
  all: repeat ok_step.
Qed.

Lemma ok_update_with_template c c' : handle_UpdateDescriptorSetWithTemplate c = Some c' -> ok c -> ok c'.
Proof.
  intros Hx Hc. unfold handle_UpdateDescriptorSetWithTemplate in Hx.
  pose proof (ok_rd_object devices _ Hc) as H1. destruct (rd_object devices c) as [d c1]. cbn [snd] in H1.
  pose proof (ok_rd_object descriptor_sets _ H1) as H2. destruct (rd_object _ c1) as [st c2]. cbn [snd] in H2.
  pose proof (ok_rd Reader.handle _ H2) as H3. destruct (rd _ c2) as [id c3]. cbn [snd] in H3.
  pose proof (ok_rd Reader.u32 _ H3) as H4. destruct (rd _ c3) as [n c4]. cbn [snd] in H4.
  revert Hx. repeat case_match; intros [= <-]; try done; exact H4.
Qed.

End Handlers.

(** ** The requests that say which sets there are *)

(** From [t] to [t'], sets are recorded and forgotten as said, and the pools of the
    recorded sets stay live if those of new ones are. *)
Definition sets_step (records : DescriptorSetOwner -> Prop) (forgets : Z -> DescriptorSetOwner -> Prop)
    (t t' : ObjectTables) : Prop :=
  sets_ok t' /\
  (forall id o, owners t' !! id = Some o -> owners t !! id = Some o \/ records o) /\
  (forall id o, owners t !! id = Some o -> owners t' !! id = Some o \/ owners t' !! id = None /\ forgets id o) /\
  (pools_ok t -> (forall o, records o -> pool_of t o) -> pools_ok t').

(** Nothing recorded, some forgotten. *)
Lemma step_forgets records (forgets : Z -> DescriptorSetOwner -> Prop) t t' : sets_ok t' ->
  (forall id o, owners t !! id = Some o -> owners t' !! id = Some o \/ owners t' !! id = None /\ forgets id o) ->
  (forall id o, owners t' !! id = Some o -> owners t !! id = Some o) ->
  (forall id o, owners t' !! id = Some o -> pool_of t o -> pool_of t' o) ->
  sets_step records forgets t t'.
Proof. intros Hs Hf Hi Hp. split_and!; [done|auto|done|]. intros Ht _ id o Ho. eauto. Qed.

Lemma step_stable records forgets t t' : stable t t' -> sets_step records forgets t t'.
Proof. intros (Hs & Ho & Hp). apply step_forgets; rewrite ?Ho; auto. Qed.

Lemma step_add_sets (records : DescriptorSetOwner -> Prop) forgets device pool xs t : sets_ok t ->
  records {| dso_device := device; dso_pool := pool |} ->
  sets_step records forgets t (snd (add_sets device pool xs t)).
Proof.
  intros Hs Hr.
  assert (forall t, sets_ok t ->
    table (snd (add_sets device pool xs t)) descriptor_pools = table t descriptor_pools /\
    (forall id o, owners t !! id = Some o -> owners (snd (add_sets device pool xs t)) !! id = Some o) /\
    forall id o, owners (snd (add_sets device pool xs t)) !! id = Some o ->
      owners t !! id = Some o \/ o = {| dso_device := device; dso_pool := pool |}) as H.
  { clear. induction xs as [|x xs IH]; intros t Hs; cbn [add_sets]; [by auto|].
    pose proof (sets_ok_add_set x device pool t Hs) as H1. unfold add_object in *.
    pose proof (Table.add_id (sets t) x device) as Hid.
    destruct (Table.add (sets t) x device) as [id T]. cbn [fst] in Hid. subst id.
    destruct (IH _ H1) as (Ht & Hk & Hn). destruct (add_sets _ _ _ _) as [ids t']. cbn [snd] in *. split_and!.
    - rewrite Ht. cbn. by rewrite decide_False.
    - intros id o Hi. apply Hk. cbn. rewrite lookup_insert_ne; [done|]. intros <-.
      destruct Hs as (_ & _ & Ho & _). destruct (Ho _ _ Hi). lia.
    - intros id o Hi. destruct (Hn id o Hi) as [Hi'|]; [|by right]. cbn in Hi'.
      apply lookup_insert_Some in Hi' as [[_ <-]|[_ Hi']]; auto. }
  destruct (H t Hs) as (Ht & Hk & Hn). split_and!.
  - by apply sets_ok_add_sets.
  - intros id o Hi. destruct (Hn id o Hi) as [| ->]; auto.
  - auto.
  - intros Hp Hx id o Hi. apply (pool_of_table t); [done|]. destruct (Hn id o Hi) as [Hi'| ->]; [by apply (Hp id)|auto].
Qed.

Lemma step_drop_sets records (forgets : Z -> DescriptorSetOwner -> Prop) ids t : sets_ok t ->
  Forall (fun id => exists o, owners t !! id = Some o /\ forgets id o) ids ->
  sets_step records forgets t (fold_left drop_set ids t).
Proof.
  intros Hs Hf.
  assert (forall t, table (fold_left drop_set ids t) descriptor_pools = table t descriptor_pools /\
    forall id, owners (fold_left drop_set ids t) !! id = if decide (id ∈ ids) then None else owners t !! id) as H.
  { clear. induction ids as [|i ids IH]; intros t; [done|]. cbn [fold_left]. destruct (IH (drop_set t i)) as [-> Hm].
    unfold drop_set, take_object in *. destruct (Table.take (sets t) i) as [v T]. cbn in *.
    split; [by rewrite decide_False|]. intros id. rewrite Hm. destruct (decide (id ∈ ids)) as [Hin|Hin].
    { by rewrite decide_True by (by right). }
    destruct (decide (id = i)) as [->|Hne].
    - rewrite decide_True by left. by rewrite lookup_delete_eq.
    - rewrite decide_False by (by rewrite elem_of_cons; tauto). by rewrite lookup_delete_ne. }
  destruct (H t) as [Ht Hm]. rewrite Forall_forall in Hf. apply step_forgets.
  - apply sets_ok_drop_sets; [done|]. apply Forall_forall. intros id (o & Ho & _)%Hf.
    destruct Hs as (_ & _ & Hr & _). destruct (Hr id o Ho). lia.
  - intros id o Ho. rewrite Hm. case_decide as Hd; [|auto]. right. split; [done|].
    destruct (Hf id Hd) as (o' & Ho' & Hx). congruence.
  - intros id o. rewrite Hm. by case_decide.
  - intros id o _. by apply pool_of_table.
Qed.

Lemma step_retire records (forgets : Z -> DescriptorSetOwner -> Prop) pool t : sets_ok t ->
  (forall id o, dso_pool o = pool -> forgets id o) -> sets_step records forgets t (retire_pool pool t).
Proof.
  intros Hs Hf. apply step_forgets; [by apply sets_ok_retire| | |].
  - intros id o Ho. unfold retire_pool. cbn. destruct (decide (dso_pool o = pool)) as [Hp|Hp].
    + right. split; [|auto]. apply map_lookup_filter_None. right. intros x Hx. rewrite Ho in Hx. injection Hx as <-. tauto.
    + left. by apply map_lookup_filter_Some.
  - intros id o [Ho _]%map_lookup_filter_Some. done.
  - intros id o _. apply pool_of_table. unfold retire_pool. cbn. by rewrite decide_False.
Qed.

(** The pool may be taken before its sets are. *)
Lemma step_destroy_pool records (forgets : Z -> DescriptorSetOwner -> Prop) id t : sets_ok t -> 0 <= id ->
  let pool := Table.get (table t descriptor_pools) id in
  (forall id o, dso_pool o = pool -> forgets id o) ->
  sets_step records forgets t (retire_pool pool (snd (take_object descriptor_pools id t))).
Proof.
  intros Hs H0 pool Hf. pose proof (sets_ok_take descriptor_pools id t Hs ltac:(done)) as Hs1.
  destruct (step_retire records forgets pool _ Hs1 Hf) as (Hk & _ & Hg & _).
  assert (owners (snd (take_object descriptor_pools id t)) = owners t) as Ho.
  { unfold take_object. by destruct (Table.take _ _). }
  rewrite Ho in Hg. apply step_forgets; [done|done| |].
  - intros i o [Hi _]%map_lookup_filter_Some. by rewrite Ho in Hi.
  - intros i o [_ Hi]%map_lookup_filter_Some. apply pool_of_same. intros p Hp Hx _.
    unfold retire_pool, take_object. destruct (Table.take _ _) as [v T] eqn:E. cbn.
    rewrite decide_False by done. cbn. rewrite decide_True by done.
    replace T with (snd (Table.take (table t descriptor_pools) id)) by (by rewrite E).
    rewrite Table.get_take, Table.owner_take by (done || apply Hs). rewrite (proj2 (Z.eqb_neq p id)); [done|].
    intros ->. cbn in Hi. by apply Hi.
Qed.

Lemma step_destroy_device records (forgets : Z -> DescriptorSetOwner -> Prop) device t t' calls : sets_ok t ->
  (forall id o, dso_device o = device -> forgets id o) ->
  destroy_device_objects t device = Some (t', calls) -> sets_step records forgets t t'.
Proof.
  intros Hs Hf Hd. assert (device <> 0) as Hn by (intros ->; done).
  pose proof Hs as (Hw & Hc & _).
  destruct (teardown_spec device Hn t Hw Hc) as (t'' & Hd' & Hsh & _ & Hkeep & _).
  rewrite Hd in Hd'. injection Hd' as <- _. pose proof (destroy_device_owners _ _ _ _ Hd) as Hm.
  apply step_forgets; [by eapply sets_ok_destroy_device| | |].
  - intros id o Ho. rewrite Hm. destruct (decide (dso_device o = device)) as [Hx|Hx].
    + right. split; [|auto]. apply map_lookup_filter_None. right. intros y Hy. rewrite Ho in Hy. injection Hy as <-. tauto.
    + left. by apply map_lookup_filter_Some.
  - intros id o. rewrite Hm. by intros [Ho _]%map_lookup_filter_Some.
  - intros id o. rewrite Hm. intros [_ Hx]%map_lookup_filter_Some. apply pool_of_same. intros p Hp _ Ho.
    unfold Table.owned_by in Ho. apply andb_true_iff in Ho as [Hg Ho]. apply Z.eqb_eq in Ho. apply negb_true_iff, Z.eqb_neq in Hg.
    destruct (Hsh descriptor_pools) as (_ & _ & Hy).
    assert (Table.get (table t' descriptor_pools) p = Table.get (table t descriptor_pools) p) as E
      by (apply Hkeep; [done|congruence|done]).
    split; [done|]. destruct (Hy p Hp) as [E'|[_ E']]; [congruence|done].
Qed.

Section Steps.
Context `{Abi} {W : Type} {C : CommandDriver W} {D : DeviceDriver W}.
Variable physical_devices : list Z.
Implicit Type c : Session W.

(** What the payload of a request is decoded to. *)
Definition decodes {A} (m : ObjectTables -> Rd A) c (x : A) : Prop := (m (tables c) (reader c)).1 = Some x.

(** An allocation records its sets for the device and the pool that it names. *)
Definition records_set (name : string) c (o : DescriptorSetOwner) : Prop :=
  name = "vkAllocateDescriptorSets" /\
  exists info, decodes (fun t => read_create t (fun HR => read_DescriptorSetAllocateInfo)) c (dso_device o, info) /\
    VkDescriptorSetAllocateInfo.descriptorPool info = dso_pool o.

(** A set is forgotten when it is freed, with the pool recorded for it, when that
    pool is reset or destroyed, or when its device is destroyed. *)
Definition forgets_set (name : string) c (id : Z) (o : DescriptorSetOwner) : Prop :=
  (name = "vkFreeDescriptorSets" /\
     exists sets, decodes read_free_sets c (dso_device o, dso_pool o, sets) /\ id ∈ sets.*1) \/
  (name = "vkResetDescriptorPool" /\ exists device flags, decodes read_reset_pool c (device, dso_pool o, flags)) \/
  (name = "vkDestroyDescriptorPool" /\ exists device id, decodes read_destroy_pool c (device, id, dso_pool o)) \/
  (name = "vkDestroyDevice" /\ dso_device o = Table.get (table (tables c) devices) (Reader.handle (reader c)).1).

Lemma tables_reply c : tables (reply c) = tables c.
Proof. unfold reply. by destruct (replied c). Qed.
Lemma tables_reply_ok bs c : tables (reply_ok bs c) = tables c.
Proof. unfold reply_ok. by rewrite tables_reply. Qed.

(** A request that cannot be decoded changes no table. *)
Lemma decoded_cases {A} m (f : A -> Session W -> Session W) c (P : ObjectTables -> Prop) : P (tables c) ->
  (forall x c', decodes m c x -> tables c' = tables c -> P (tables (f x c'))) -> P (tables (decoded m f c)).
Proof.
  intros Hc Hf. unfold decoded, rd. destruct (m (tables c) (reader c)) as [[x|] r] eqn:E.
  - apply Hf; [|done]. unfold decodes. by rewrite E.
  - unfold reply_status. by rewrite tables_reply.
Qed.
Lemma decoded_oneway_cases {A} m (f : A -> Session W -> Session W) c (P : ObjectTables -> Prop) : P (tables c) ->
  (forall x c', decodes m c x -> tables c' = tables c -> P (tables (f x c'))) -> P (tables (decoded_oneway m f c)).
Proof.
  intros Hc Hf. unfold decoded_oneway, rd. destruct (m (tables c) (reader c)) as [[x|] r] eqn:E; [|done].
  apply Hf; [|done]. unfold decodes. by rewrite E.
Qed.

(** What a decoder ensures holds of what was decoded. *)
Lemma decodes_ensures {A} m c (x : A) P : decodes m c x -> rd_ensures (m (tables c)) P -> P x.
Proof.
  unfold decodes. destruct (m (tables c) (reader c)) as [[y|] r] eqn:E; [|done]. intros [= <-] Hm.
  by eapply ensures_elim.
Qed.

Abbreviation step name c c' := (sets_step (records_set name c) (forgets_set name c) (tables c) (tables c')).

Lemma step_refl name c : sets_ok (tables c) -> step name c c.
Proof. intros Hs. by apply step_stable, stable_refl. Qed.

Lemma step_AllocateDescriptorSets c : sets_ok (tables c) ->
  step "vkAllocateDescriptorSets" c (handle_AllocateDescriptorSets c).
Proof.
  intros Hs. apply (decoded_cases _ _ _ (sets_step (records_set "vkAllocateDescriptorSets" c) (forgets_set "vkAllocateDescriptorSets" c) (tables c)));
    [by apply step_refl|]. intros [device info] c' Hx Ht.
  destruct (vkAllocateDescriptorSets _ _ _) as [[result xs] w]. cbv zeta. case_if.
  - cbn [tables set_driver]. rewrite Ht.
    pose proof (step_add_sets (records_set "vkAllocateDescriptorSets" c) (forgets_set "vkAllocateDescriptorSets" c) device
      (VkDescriptorSetAllocateInfo.descriptorPool info)
      (filled (VkDescriptorSetAllocateInfo.descriptorSetCount info) xs) (tables c) Hs) as Ha.
    destruct (add_sets _ _ _ _). rewrite tables_reply_ok. apply Ha. split; [done|]. by exists info.
  - rewrite tables_reply_ok. cbn [tables set_driver set_tables]. rewrite Ht. by apply step_refl.
Qed.

Lemma freed_sets t : rd_ensures (read_free_sets t)
  (fun x => Forall (fun s => owners t !! s.1 = Some {| dso_device := x.1.1; dso_pool := x.1.2 |}) x.2).
Proof.
  unfold read_free_sets. do 3 (apply ensures_bind_any; intros ?).
  eapply ensures_bind; [apply (ensures_for _ _ (fun s => owners t !! s.1 = Some {| dso_device := a; dso_pool := a0 |}))|].
  - apply ensures_bind_any. intros id. apply ensures_bind_guard. intros Hg. apply ensures_ret.
    apply andb_true_iff in Hg as [_ Hg]. cbn [fst]. destruct (_ !! id) as [[d p]|]; [|done]. cbn in Hg.
    apply andb_true_iff in Hg as [Hd Hp]. apply Z.eqb_eq in Hd, Hp. by subst.
  - intros xs [_ Hx]. do 3 (apply ensures_bind_any; intros ?). by apply ensures_ret.
Qed.

Lemma step_FreeDescriptorSets c : sets_ok (tables c) -> step "vkFreeDescriptorSets" c (handle_FreeDescriptorSets c).
Proof.
  intros Hs. apply (decoded_cases _ _ _ (sets_step (records_set "vkFreeDescriptorSets" c) (forgets_set "vkFreeDescriptorSets" c) (tables c)));
    [by apply step_refl|]. intros [[device pool] xs] c' Hx Ht.
  pose proof (decodes_ensures _ _ _ _ Hx (freed_sets _)) as Hf. cbn [fst snd] in Hf.
  destruct (vkFreeDescriptorSets _ _ _ _) as [result w]. cbv zeta. rewrite tables_reply_ok. cbn [tables set_tables set_driver].
  rewrite Ht. case_if; [|by apply step_refl]. apply step_drop_sets; [done|]. apply Forall_forall.
  intros id Hi. pose proof Hi as (s & -> & Hin)%list_elem_of_fmap. rewrite Forall_forall in Hf.
  eexists. split; [by apply Hf|]. left. split; [done|]. by exists xs.
Qed.

Lemma step_ResetDescriptorPool c : sets_ok (tables c) -> step "vkResetDescriptorPool" c (handle_ResetDescriptorPool c).
Proof.
  intros Hs. apply (decoded_cases _ _ _ (sets_step (records_set "vkResetDescriptorPool" c) (forgets_set "vkResetDescriptorPool" c) (tables c)));
    [by apply step_refl|]. intros [[device pool] flags] c' Hx Ht.
  destruct (vkResetDescriptorPool _ _ _ _) as [result w]. cbv zeta. rewrite tables_reply_ok. cbn [tables set_tables set_driver].
  rewrite Ht. case_if; [|by apply step_refl]. apply step_retire; [done|]. intros id o <-.
  right. left. split; [done|]. by exists device, flags.
Qed.

Lemma destroyed_pool t : rd_ensures (read_destroy_pool t)
  (fun x => 0 <= x.1.2 /\ x.2 = Table.get (table t descriptor_pools) x.1.2).
Proof.
  unfold read_destroy_pool. apply ensures_bind_any; intros ?. eapply ensures_bind; [apply ensures_handle_nonneg|].
  intros id H0. do 2 (apply ensures_bind_any; intros ?). cbv zeta. apply ensures_bind_any; intros ?. by apply ensures_ret.
Qed.

Lemma step_DestroyDescriptorPool c : sets_ok (tables c) ->
  step "vkDestroyDescriptorPool" c (handle_DestroyDescriptorPool c).
Proof.
  intros Hs. apply (decoded_oneway_cases _ _ _ (sets_step (records_set "vkDestroyDescriptorPool" c) (forgets_set "vkDestroyDescriptorPool" c) (tables c)));
    [by apply step_refl|]. intros [[device id] pool] c' Hx Ht.
  pose proof (decodes_ensures _ _ _ _ Hx (destroyed_pool _)) as [H0 Hp]. cbn [fst snd] in H0, Hp. rewrite Ht.
  pose proof (step_destroy_pool (records_set "vkDestroyDescriptorPool" c) (forgets_set "vkDestroyDescriptorPool" c) id
                (tables c) Hs H0) as Hd. rewrite <- Hp in Hd.
  destruct (take_object _ _ _) as [o t]. apply Hd. intros i o' <-. do 2 right. left. split; [done|]. by exists device, id.
Qed.

Lemma step_DestroyDevice c : sets_ok (tables c) -> step "vkDestroyDevice" c (handle_DestroyDevice c).
Proof.
  intros Hs. unfold handle_DestroyDevice, rd. destruct (Reader.handle (reader c)) as [id r] eqn:Er.
  pose proof (stable_take (tables c) devices id (tables c) (stable_refl _ Hs) ltac:(done) ltac:(done)) as Ht.
  unfold take_object in *. cbn [tables set_reader]. pose proof (Table.take_value (table (tables c) devices) id) as Hv.
  destruct (Table.take _ _) as [device T]. cbn [fst snd] in *. cbv zeta.
  case_if; [by apply step_stable|]. cbn [tables set_tables].
  destruct (destroy_device_objects _ device) as [[t' calls]|] eqn:Ed; [|by apply step_stable].
  cbn [tables set_tables set_driver]. destruct Ht as (Hs1 & Ho & Hp).
  destruct (step_destroy_device (records_set "vkDestroyDevice" c) (forgets_set "vkDestroyDevice" c) device _ _ _ Hs1
              ltac:(intros i o Hx; do 3 right; split; [done|by rewrite Er, Hx]) Ed) as (H1 & H2 & H3 & H4).
  rewrite Ho in H2, H3. split_and!; [done|done|done|]. intros Hp0 Hr. apply H4; [|auto].
  intros i o Hi. rewrite Ho in Hi. by apply Hp, (Hp0 i).
Qed.

(** C33: The server's records of descriptor sets are right, whatever requests of
    [handlers_device.cpp] arrive, whatever the messages hold and the driver returns.

    An entry of [descriptor_set_owners] is always that of an id the table has handed
    out for that device, and every live set has an entry.  An entry appears only when
    the set is allocated, for the device and the pool that the request names, and it
    disappears only when the set is freed with that device and pool, or that pool is
    reset or destroyed, or that device is destroyed; it never changes.  As long as
    every allocation names a pool of its own device, as Vulkan requires, no set
    outlives its pool: the pool of every recorded set is live and of its device. *)
Theorem descriptor_sets_consistent :
  Forall (fun e => forall c, sets_ok (tables c) -> step (fst e) c (snd e c))
    (requests physical_devices ++ oneway_requests) /\
  forall c c', handle_UpdateDescriptorSetWithTemplate c = Some c' -> sets_ok (tables c) ->
    step "vkUpdateDescriptorSetWithTemplate" c c'.
Proof.
  split.
  - apply Forall_forall. intros e He c Hs.
    destruct (proj1 (Forall_forall _ _) (other_requests physical_devices (tables c)) e He) as [Hin|Hok].
    + cbn [In set_requests] in Hin. decompose [or] Hin; try done; subst e; cbn [fst snd].
      * by apply step_AllocateDescriptorSets.
      * by apply step_FreeDescriptorSets.
      * by apply step_ResetDescriptorPool.
      * by apply step_DestroyDescriptorPool.
      * by apply step_DestroyDevice.
    + by apply step_stable, Hok, stable_refl.
  - intros c c' Hx Hs. apply step_stable. by apply (ok_update_with_template (tables c) c c' Hx), stable_refl.
Qed.

End Steps.

(** ** A pool and its sets, from the message on *)
Section Pool.
Context `{Abi} {W : Type} {C : CommandDriver W} {D : DeviceDriver W}.
Implicit Type c : Session W.
Open Scope wire_scope.

(** The two requests that end the life of a pool's sets; a reset takes effect when
    the driver succeeds. *)
Inductive pool_request := Destroy_pool | Reset_pool (flags : Z).

Definition pool_payload (device pool : Z) (x : pool_request) : list byte :=
  Writer.handle device ++ Writer.handle pool ++
  match x with Destroy_pool => [] | Reset_pool flags => Writer.u32 flags end.

Definition pool_handler (x : pool_request) : Session W -> Session W :=
  match x with Destroy_pool => handle_DestroyDescriptorPool | Reset_pool _ => handle_ResetDescriptorPool end.

(** The driver's answer to a reset. *)
Definition pool_done (device pool : Z) (x : pool_request) c : Prop :=
  match x with
  | Destroy_pool => True
  | Reset_pool flags => is_u32 flags /\
      fst (vkResetDescriptorPool (Table.get (table (tables c) devices) device)
             (Table.get (table (tables c) descriptor_pools) pool) flags (driver c)) = VK_SUCCESS
  end.

Lemma reads_destroy_pool t device pool : is_u64 device -> is_u64 pool ->
  Table.get (table t devices) device <> 0 -> Table.get (table t descriptor_pools) pool <> 0 ->
  reads_at [] (read_destroy_pool t) (pool_payload device pool Destroy_pool)
    (Table.get (table t devices) device, pool, Table.get (table t descriptor_pools) pool).
Proof.
  intros Hd Hp Hd0 Hp0. unfold read_destroy_pool, pool_payload, r_find. rewrite app_nil_r.
  eapply reads_bind; [by apply reads_object|]. eapply reads_bind_last; [by apply reads_handle|].
  eapply reads_bind_nil; [apply reads_ok|]. eapply reads_bind_nil; [apply reads_end|]. cbv zeta.
  eapply reads_bind_nil; [|apply reads_ret]. apply reads_guard, andb_true_iff.
  split; by apply negb_true_iff, Z.eqb_neq.
Qed.

Lemma reads_reset_pool t device pool flags : is_u64 device -> is_u64 pool -> is_u32 flags ->
  Table.get (table t devices) device <> 0 -> Table.get (table t descriptor_pools) pool <> 0 ->
  reads_at [] (read_reset_pool t) (pool_payload device pool (Reset_pool flags))
    (Table.get (table t devices) device, Table.get (table t descriptor_pools) pool, flags).
Proof.
  intros Hd Hp Hf Hd0 Hp0. unfold read_reset_pool, pool_payload, r_find.
  eapply reads_bind; [by apply reads_object|]. eapply reads_bind; [by apply reads_object|].
  eapply reads_bind_last; [by apply reads_u32|]. eapply reads_bind_nil; [apply reads_ok|].
  eapply reads_bind_nil.
  { apply reads_guard, andb_true_iff. split; by apply negb_true_iff, Z.eqb_neq. }
  eapply reads_bind_nil; [apply reads_end|]. apply reads_ret.
Qed.

(** C34: Destroying or resetting a descriptor pool ends the life of exactly its
    sets.  After either request has been carried out, the ids of the sets that
    were allocated from the pool name nothing and have no owner any more, and
    every other set is what it was, with its owner. *)
Theorem pool_sets_die device pool x c :
  sets_ok (tables c) -> is_u64 device -> is_u64 pool ->
  Table.get (table (tables c) devices) device <> 0 -> Table.get (table (tables c) descriptor_pools) pool <> 0 ->
  reader c = Reader.make (pool_payload device pool x) -> pool_done device pool x c ->
  let object := Table.get (table (tables c) descriptor_pools) pool in
  let t' := tables (pool_handler x c) in
  forall id, 0 <= id ->
    (in_pool object (tables c) id -> Table.get (sets t') id = 0 /\ descriptor_set_owners t' !! id = None) /\
    (~ in_pool object (tables c) id ->
       Table.get (sets t') id = Table.get (sets (tables c)) id /\
       descriptor_set_owners t' !! id = descriptor_set_owners (tables c) !! id).
Proof.
  intros Hok Hd Hp Hd0 Hp0 Hrd Hdone object t' id H0. subst t'. destruct x as [|flags]; cbn [pool_handler].
  - unfold handle_DestroyDescriptorPool, decoded_oneway, rd.
    rewrite Hrd, (reads_at_run _ _ _ (reads_destroy_pool _ _ _ Hd Hp Hd0 Hp0)). cbn [tables set_reader].
    pose proof (sets_ok_take descriptor_pools pool (tables c) Hok ltac:(done)) as Ht. unfold take_object in *.
    destruct (Table.take (table (tables c) descriptor_pools) pool) as [o T]. cbn [tables set_driver set_tables].
    exact (retire_pool_spec object _ id Ht H0).
  - destruct Hdone as [Hf Hres]. unfold handle_ResetDescriptorPool, decoded, rd.
    rewrite Hrd, (reads_at_run _ _ _ (reads_reset_pool _ _ _ _ Hd Hp Hf Hd0 Hp0)). cbn [driver set_reader].
    destruct (vkResetDescriptorPool _ _ _ _) as [result w]. cbn [fst] in Hres. subst result.
    cbv zeta. rewrite Z.eqb_refl. unfold reply_ok, reply. cbn. destruct (replied c);
      exact (retire_pool_spec object (tables c) id Hok H0).
Qed.

End Pool.

(** ** The pool of the demonstration has the set 1; the set 2 is of another *)
Module PoolSetsDemo.
Import DeviceDemo.

Definition reset : list byte := pool_payload 1 1 (Reset_pool 0).

Lemma objects_ok : sets_ok (objects []).
Proof.
  split; [intros []; by vm_compute|]. split; [by intros ? ? ?|]. split.
  - intros id o. cbn. intros [[<- <-]|[_ [<- <-]%lookup_singleton_Some]]%lookup_insert_Some; by vm_compute.
  - intros id H0 Hg. apply Table.get_nonzero_in in Hg; [|done]. change (Table.size _) with 2 in Hg.
    assert (id = 1 \/ id = 2) as [-> | ->] by lia; eexists; by vm_compute.
Qed.

Lemma pool_sets_die_witness :
  let t' := tables (handle_ResetDescriptorPool (session [] reset)) in
  Table.get (sets t') 1 = 0 /\ Table.get (sets t') 2 = Table.get (sets (objects [])) 2.
Proof.
  assert (is_u64 1) as H1 by (by apply (bool_decide_unpack _)).
  assert (is_u32 0) as H0 by (by apply (bool_decide_unpack _)).
  pose proof (pool_sets_die 1 1 (Reset_pool 0) (session [] reset) objects_ok H1 H1) as H.
  specialize (H ltac:(by vm_compute) ltac:(by vm_compute) eq_refl ltac:(by split)).
  split.
  - apply (H 1 ltac:(lia)). eexists. by split.
  - apply (H 2 ltac:(lia)). by intros (o & [= <-] & E).
Defined.

Lemma pools_live : pools_ok (objects []).
Proof.
  intros id o. cbn. intros [[<- <-]|[_ [<- <-]%lookup_singleton_Some]]%lookup_insert_Some.
  - by exists 1.
  - by exists 2.
Qed.

(** Resetting the pool forgets its set and keeps the other one, whose pool is live. *)
Lemma descriptor_sets_consistent_witness :
  let t' := tables (handle_ResetDescriptorPool (session [] reset)) in
  owners t' !! 1 = None /\ is_Some (owners t' !! 2) /\ sets_ok t' /\ pools_ok t'.
Proof.
  pose proof (proj1 (Forall_forall _ _) (proj1 (descriptor_sets_consistent [7]))
                ("vkResetDescriptorPool", handle_ResetDescriptorPool)) as H.
  assert (("vkResetDescriptorPool", handle_ResetDescriptorPool) ∈ requests [7] ++ oneway_requests) as Hin.
  { apply list_elem_of_In, in_or_app. left. repeat first [left; reflexivity|right]. }
  destruct (H Hin (session [] reset) objects_ok) as (Hs & _ & _ & Hp). split_and!; [by vm_compute|by eexists; vm_compute|done|].
  apply Hp; [exact pools_live|]. by intros o [? _].
Defined.

End PoolSetsDemo.
