(* ===== verification/ClientObjects.v ===== *)
(** The objects of a device on the client: the creation, destruction and query
    calls of [src/client/device.cpp], and the device itself.

    An object is its id on the server.  Beside it the client keeps what later
    calls have to know of it: what a view shows, the attachments of a
    framebuffer, the bindings of a descriptor layout, the entries of an update
    template.  Descriptor sets and their updates are in [ClientDescriptors]. *)

From stdpp Require Import list gmap strings sorting.
From S2P Require Import Prelude Wire Codec CLayout VkStructs ExtensionContract PNext VkCreateInfos VkCommands.
From S2P Require Import MarshalBase Marshal MarshalChained MarshalDescriptor MarshalSync.
From S2P Require Import MarshalRenderPass2 MarshalPipeline MarshalValues.
From S2P Require Import HostMemory Tracking ClientSync ClientCommands.

Open Scope wire_scope.

(** remote_objects.hpp:133-136. *)
Record DescriptorBindingMetadata := mkBinding { bm_binding : Z; bm_descriptor_count : Z }.

(** The members of [RemoteDevice] that describe objects; [oc_records] are those
    [Tracking] has.  Of a [DescriptorTemplateMetadata] only the entries are
    read.

    remote_objects.hpp:184-212. *)
Record ObjectClient `{Remote} := mkObjectClient {
  oc_records : Device; oc_framebuffers : gmap Z FramebufferMetadata;
  descriptor_layouts : gmap Z (list DescriptorBindingMetadata);
  descriptor_set_layouts : gmap Z (list DescriptorBindingMetadata);
  descriptor_set_pools : gmap Z Z;
  descriptor_templates : gmap Z (list VkDescriptorUpdateTemplateEntry.t);
  oc_world : world }.

Definition VK_ERROR_OUT_OF_HOST_MEMORY : Z := -1.
Definition VK_ERROR_LAYER_NOT_PRESENT : Z := -6.
Definition VK_ERROR_EXTENSION_NOT_PRESENT : Z := -7.
Definition VK_ERROR_OUT_OF_POOL_MEMORY : Z := -1000069000.
Definition VK_STRUCTURE_TYPE_BUFFER_DEVICE_ADDRESS_INFO : Z := 1000244001.
Definition VK_FRAMEBUFFER_CREATE_IMAGELESS_BIT : Z := 1.

Module Object.

Definition set_buffer_bindings (m : gmap Z Z) (d : Device) : Device :=
  mkDevice m (image_bindings d) (descriptor_resources d) (image_view_images d) (buffer_view_buffers d)
    (semaphores d) (next_submission_serial d) (queue_writes d) (fence_writes d).
Definition set_image_bindings (m : gmap Z Z) (d : Device) : Device :=
  mkDevice (buffer_bindings d) m (descriptor_resources d) (image_view_images d) (buffer_view_buffers d)
    (semaphores d) (next_submission_serial d) (queue_writes d) (fence_writes d).
Definition set_resources (m : gmap Z (gmap Z DescriptorResource)) (d : Device) : Device :=
  mkDevice (buffer_bindings d) (image_bindings d) m (image_view_images d) (buffer_view_buffers d)
    (semaphores d) (next_submission_serial d) (queue_writes d) (fence_writes d).
Definition set_image_views (m : gmap Z Z) (d : Device) : Device :=
  mkDevice (buffer_bindings d) (image_bindings d) (descriptor_resources d) m (buffer_view_buffers d)
    (semaphores d) (next_submission_serial d) (queue_writes d) (fence_writes d).
Definition set_buffer_views (m : gmap Z Z) (d : Device) : Device :=
  mkDevice (buffer_bindings d) (image_bindings d) (descriptor_resources d) (image_view_images d) m
    (semaphores d) (next_submission_serial d) (queue_writes d) (fence_writes d).

Section Setters.
Context `{Remote}.
Implicit Type c : ObjectClient.

Definition set_records (d : Device) c : ObjectClient :=
  mkObjectClient _ d (oc_framebuffers c) (descriptor_layouts c) (descriptor_set_layouts c)
    (descriptor_set_pools c) (descriptor_templates c) (oc_world c).
Definition set_framebuffers (m : gmap Z FramebufferMetadata) c : ObjectClient :=
  mkObjectClient _ (oc_records c) m (descriptor_layouts c) (descriptor_set_layouts c)
    (descriptor_set_pools c) (descriptor_templates c) (oc_world c).
Definition set_layouts (m : gmap Z (list DescriptorBindingMetadata)) c : ObjectClient :=
  mkObjectClient _ (oc_records c) (oc_framebuffers c) m (descriptor_set_layouts c)
    (descriptor_set_pools c) (descriptor_templates c) (oc_world c).
(** The three maps of descriptor sets. *)
Definition set_sets (layouts : gmap Z (list DescriptorBindingMetadata)) (pools : gmap Z Z)
    (resources : gmap Z (gmap Z DescriptorResource)) c : ObjectClient :=
  mkObjectClient _ (set_resources resources (oc_records c)) (oc_framebuffers c) (descriptor_layouts c)
    layouts pools (descriptor_templates c) (oc_world c).
Definition set_templates (m : gmap Z (list VkDescriptorUpdateTemplateEntry.t)) c : ObjectClient :=
  mkObjectClient _ (oc_records c) (oc_framebuffers c) (descriptor_layouts c) (descriptor_set_layouts c)
    (descriptor_set_pools c) m (oc_world c).
Definition set_world (w : world) c : ObjectClient :=
  mkObjectClient _ (oc_records c) (oc_framebuffers c) (descriptor_layouts c) (descriptor_set_layouts c)
    (descriptor_set_pools c) (descriptor_templates c) w.

End Setters.
End Object.

Section Objects.
Context `{CommandChannel} `{Abi}.
(** [remote_id] of the device. *)
Variable remote_id : Z.
Implicit Type c : ObjectClient.
Import Object.

(** ** Requests *)

(** A round trip; the payload starts with the device. *)
Definition object_request (name : string) (args : list byte) c : option (list byte) * ObjectClient :=
  let (reply, w) := round_trip (command_opcode name) (Writer.handle remote_id ++ args) (oc_world c) in
  (reply, set_world w c).

Definition object_oneway (name : string) (args : list byte) c : ObjectClient :=
  set_world (send_command (command_opcode name) (Writer.handle remote_id ++ args) (oc_world c)) c.

(** The result and the id of a reply to a creation, and whether it held both. *)
Definition created (reply : option (list byte)) : option (Z * Z * bool) :=
  match reply_result reply with
  | None => None
  | Some (result, r) => let (id, r) := Reader.handle r in Some (result, id, Reader.ok r)
  end.

(** What a creation call returns and stores at its last parameter. *)
Definition Created : Type := Z * option Z.
Definition failed (e : Z) : Created := (e, None).

(** [if (result == VK_SUCCESS) *pOut = id; return result;] *)
Definition stored (result id : Z) : Created := (result, if result =? VK_SUCCESS then Some id else None).

(** The macro: neither what [WriteFn] returns nor the end of the reply is looked
    at.

    device.cpp:1030-1046. *)
Definition SIMPLE_CREATE (op : string) (info : list byte) c : Created * ObjectClient :=
  let (reply, c) := object_request op info c in
  match created reply with
  | None => (failed VK_ERROR_INITIALIZATION_FAILED, c)
  | Some (result, id, _) => (stored result id, c)
  end.

(** device.cpp:1048-1057. *)
Definition SIMPLE_DESTROY (op : string) (obj : Z) c : ObjectClient :=
  if obj =? 0 then c else object_oneway op (Writer.handle obj) c.

(** ** Buffers, images and views *)

(** device.cpp:1059-1059. *)
Definition CreateBuffer (info : VkBufferCreateInfo.t) := SIMPLE_CREATE "vkCreateBuffer" (write_BufferCreateInfo info).
(** device.cpp:1060-1060. *)
Definition DestroyBuffer (buffer : Z) c : ObjectClient :=
  if buffer =? 0 then c
  else object_oneway "vkDestroyBuffer" (Writer.handle buffer)
         (set_records (set_buffer_bindings (delete buffer (buffer_bindings (oc_records c))) (oc_records c)) c).

(** device.cpp:1062-1062. *)
Definition CreateImage (info : VkImageCreateInfo.t) := SIMPLE_CREATE "vkCreateImage" (snd (write_ImageCreateInfo info)).
(** device.cpp:1063-1063. *)
Definition DestroyImage (image : Z) c : ObjectClient :=
  if image =? 0 then c
  else object_oneway "vkDestroyImage" (Writer.handle image)
         (set_records (set_image_bindings (delete image (image_bindings (oc_records c))) (oc_records c)) c).

(** [out] tells whether the last parameter is a pointer.

    device.cpp:1065-1065. *)
Definition CreateBufferView (info : ptr VkBufferViewCreateInfo.t) (out : bool) c : Created * ObjectClient :=
  match info, out with
  | Ref info, true =>
      let (reply, c) := object_request "vkCreateBufferView" (snd (write_BufferViewCreateInfo info)) c in
      match created reply with
      | None => (failed VK_ERROR_INITIALIZATION_FAILED, c)
      | Some (result, id, false) => (failed VK_ERROR_INITIALIZATION_FAILED, c)
      | Some (result, id, true) =>
          (stored result id,
           if result =? VK_SUCCESS
           then set_records (set_buffer_views (<[id := VkBufferViewCreateInfo.buffer info]>
                               (buffer_view_buffers (oc_records c))) (oc_records c)) c
           else c)
      end
  | _, _ => (failed VK_ERROR_INITIALIZATION_FAILED, c)
  end.
(** device.cpp:1066-1066. *)
Definition DestroyBufferView (view : Z) c : ObjectClient :=
  if view =? 0 then c
  else object_oneway "vkDestroyBufferView" (Writer.handle view)
         (set_records (set_buffer_views (delete view (buffer_view_buffers (oc_records c))) (oc_records c)) c).

(** device.cpp:1172-1192. *)
Definition CreateImageView (info : VkImageViewCreateInfo.t) c : Created * ObjectClient :=
  match write_ImageViewCreateInfo info with
  | (false, _) => (failed VK_ERROR_EXTENSION_NOT_PRESENT, c)
  | (true, bs) =>
      let (reply, c) := object_request "vkCreateImageView" bs c in
      match created reply with
      | None => (failed VK_ERROR_INITIALIZATION_FAILED, c)
      | Some (result, id, _) =>
          (stored result id,
           if result =? VK_SUCCESS
           then set_records (set_image_views (<[id := VkImageViewCreateInfo.image info]>
                               (image_view_images (oc_records c))) (oc_records c)) c
           else c)
      end
  end.
(** device.cpp:1193-1206. *)
Definition DestroyImageView (view : Z) c : ObjectClient :=
  if view =? 0 then c
  else object_oneway "vkDestroyImageView" (Writer.handle view)
         (set_records (set_image_views (delete view (image_view_images (oc_records c))) (oc_records c)) c).

(** device.cpp:1225-1230. *)
Definition framebuffer_of (info : VkFramebufferCreateInfo.t) : FramebufferMetadata :=
  let imageless := negb (Z.land (VkFramebufferCreateInfo.flags info) VK_FRAMEBUFFER_CREATE_IMAGELESS_BIT =? 0) in
  mkFramebuffer imageless
    (if imageless then []
     else arr (VkFramebufferCreateInfo.pAttachments info) (VkFramebufferCreateInfo.attachmentCount info)).

(** device.cpp:1208-1235. *)
Definition CreateFramebuffer (info : VkFramebufferCreateInfo.t) c : Created * ObjectClient :=
  match write_FramebufferCreateInfo info with
  | (false, _) => (failed VK_ERROR_EXTENSION_NOT_PRESENT, c)
  | (true, bs) =>
      let (reply, c) := object_request "vkCreateFramebuffer" bs c in
      match created reply with
      | None => (failed VK_ERROR_INITIALIZATION_FAILED, c)
      | Some (result, id, _) =>
          (stored result id,
           if result =? VK_SUCCESS then set_framebuffers (<[id := framebuffer_of info]> (oc_framebuffers c)) c
           else c)
      end
  end.
(** device.cpp:1237-1250. *)
Definition DestroyFramebuffer (framebuffer : Z) c : ObjectClient :=
  if framebuffer =? 0 then c
  else object_oneway "vkDestroyFramebuffer" (Writer.handle framebuffer)
         (set_framebuffers (delete framebuffer (oc_framebuffers c)) c).

(** *** Objects without metadata *)

(** device.cpp:1068-1068. *)
Definition CreateEvent (info : VkEventCreateInfo.t) := SIMPLE_CREATE "vkCreateEvent" (write_EventCreateInfo info).
(** device.cpp:1069-1069. *)
Definition DestroyEvent := SIMPLE_DESTROY "vkDestroyEvent".
(** device.cpp:1071-1072. *)
Definition CreateQueryPool (info : VkQueryPoolCreateInfo.t) :=
  SIMPLE_CREATE "vkCreateQueryPool" (write_QueryPoolCreateInfo info).
(** device.cpp:1073-1073. *)
Definition DestroyQueryPool := SIMPLE_DESTROY "vkDestroyQueryPool".
(** device.cpp:1075-1076. *)
Definition CreateSampler (info : VkSamplerCreateInfo.t) := SIMPLE_CREATE "vkCreateSampler" (write_SamplerCreateInfo info).
(** device.cpp:1077-1077. *)
Definition DestroySampler := SIMPLE_DESTROY "vkDestroySampler".

(** device.cpp:1079-1102. *)
Definition CreateShaderModule (info : ptr VkShaderModuleCreateInfo.t) (out : bool) c : Created * ObjectClient :=
  match info, out with
  | Ref info, true =>
      match write_ShaderModuleCreateInfo info with
      | (false, _) => (failed VK_ERROR_INITIALIZATION_FAILED, c)
      | (true, bs) =>
          let (reply, c) := object_request "vkCreateShaderModule" bs c in
          match created reply with
          | Some (result, id, true) => (stored result id, c)
          | _ => (failed VK_ERROR_INITIALIZATION_FAILED, c)
          end
      end
  | _, _ => (failed VK_ERROR_INITIALIZATION_FAILED, c)
  end.
(** device.cpp:1103-1103. *)
Definition DestroyShaderModule := SIMPLE_DESTROY "vkDestroyShaderModule".
(** device.cpp:1105-1106. *)
Definition CreatePipelineCache (info : VkPipelineCacheCreateInfo.t) :=
  SIMPLE_CREATE "vkCreatePipelineCache" (write_PipelineCacheCreateInfo info).
(** device.cpp:1107-1107. *)
Definition DestroyPipelineCache := SIMPLE_DESTROY "vkDestroyPipelineCache".
(** device.cpp:1109-1110. *)
Definition CreatePipelineLayout (info : VkPipelineLayoutCreateInfo.t) :=
  SIMPLE_CREATE "vkCreatePipelineLayout" (write_PipelineLayoutCreateInfo info).
(** device.cpp:1111-1111. *)
Definition DestroyPipelineLayout := SIMPLE_DESTROY "vkDestroyPipelineLayout".
(** device.cpp:1113-1113. *)
Definition DestroyPipeline := SIMPLE_DESTROY "vkDestroyPipeline".
(** device.cpp:1115-1116. *)
Definition CreateRenderPass (info : VkRenderPassCreateInfo.t) :=
  SIMPLE_CREATE "vkCreateRenderPass" (snd (write_RenderPassCreateInfo info)).
(** device.cpp:1118-1128. *)
Definition CreateRenderPass2 (info : ptr VkRenderPassCreateInfo2.t) (out : bool) c : Created * ObjectClient :=
  match info, out with
  | Ref info, true =>
      match write_RenderPassCreateInfo2 info with
      | (false, _) => (failed VK_ERROR_EXTENSION_NOT_PRESENT, c)
      | (true, bs) => SIMPLE_CREATE "vkCreateRenderPass2" bs c
      end
  | _, _ => (failed VK_ERROR_INITIALIZATION_FAILED, c)
  end.
(** device.cpp:1129-1129. *)
Definition DestroyRenderPass := SIMPLE_DESTROY "vkDestroyRenderPass".
(** device.cpp:1144-1145. *)
Definition CreateDescriptorPool (info : VkDescriptorPoolCreateInfo.t) :=
  SIMPLE_CREATE "vkCreateDescriptorPool" (write_DescriptorPoolCreateInfo info).
(** device.cpp:1165-1166. *)
Definition CreateCommandPool (info : VkCommandPoolCreateInfo.t) :=
  SIMPLE_CREATE "vkCreateCommandPool" (write_CommandPoolCreateInfo info).
(** device.cpp:1167-1167. *)
Definition DestroyCommandPool := SIMPLE_DESTROY "vkDestroyCommandPool".
(** device.cpp:1578-1578. *)
Definition CreateSamplerYcbcrConversion (info : ptr VkSamplerYcbcrConversionCreateInfo.t) (out : bool) c :
    Created * ObjectClient :=
  match info, out with
  | Ref info, true =>
      if negb (is_null (VkSamplerYcbcrConversionCreateInfo.pNext info))
      then (failed VK_ERROR_INITIALIZATION_FAILED, c)
      else
        let (reply, c) := object_request "vkCreateSamplerYcbcrConversion"
                            (write_SamplerYcbcrConversionCreateInfo info) c in
        match created reply with
        | None => (failed VK_ERROR_INITIALIZATION_FAILED, c)
        | Some (result, id, ok) =>
            ((if ok then result else VK_ERROR_INITIALIZATION_FAILED, snd (stored result id)), c)
        end
  | _, _ => (failed VK_ERROR_INITIALIZATION_FAILED, c)
  end.
(** device.cpp:1579-1579. *)
Definition DestroySamplerYcbcrConversion := SIMPLE_DESTROY "vkDestroySamplerYcbcrConversion".

(** ** Pipelines *)

(** [pPipelines[i] = id ? handle : null], for every id of the reply. *)
Fixpoint read_handles (n : nat) (r : Wire.reader) : list Z * Wire.reader :=
  match n with
  | O => ([], r)
  | S n => let (id, r) := Reader.handle r in let (ids, r) := read_handles n r in (id :: ids, r)
  end.

(** The result and what is stored in [pPipelines].

    device.cpp:1425-1460. *)
Definition CreateGraphicsPipelines (cache count : Z) (infos : ptr (list VkGraphicsPipelineCreateInfo.t))
    (out : bool) c : Z * list Z * ObjectClient :=
  if (kMaxArrayElements <? count) || (negb (count =? 0) && (is_null infos || negb out))
  then (VK_ERROR_INITIALIZATION_FAILED, [], c)
  else match (emit (Writer.handle cache ++ Writer.u32 count) ;;;
              wfor write_GraphicsPipelineCreateInfo (arr infos count)) with
  | (false, _) => (VK_ERROR_EXTENSION_NOT_PRESENT, [], c)
  | (true, bs) =>
      let (reply, c) := object_request "vkCreateGraphicsPipelines" bs c in
      match reply_result reply with
      | None => (VK_ERROR_INITIALIZATION_FAILED, [], c)
      | Some (result, r) =>
          let (n, r) := Reader.u32 r in
          if negb (Reader.ok r) || (kMaxArrayElements <? n) || negb (n =? count)
             || (Z.of_nat (Reader.remaining r) / 8 <? n)
          then (VK_ERROR_INITIALIZATION_FAILED, [], c)
          else
            let (ids, r) := read_handles (Z.to_nat n) r in
            (if Reader.ok r && (Reader.remaining r =? 0)%nat then result else VK_ERROR_INITIALIZATION_FAILED,
             ids, c)
      end
  end.

(** Nothing is checked before the request is sent.

    device.cpp:1462-1488. *)
Definition CreateComputePipelines (cache count : Z) (infos : list VkComputePipelineCreateInfo.t) c :
    Z * list Z * ObjectClient :=
  let (reply, c) := object_request "vkCreateComputePipelines"
                      (Writer.handle cache ++ Writer.u32 count ++
                       concat (map write_ComputePipelineCreateInfo (take (Z.to_nat count) infos))) c in
  match reply_result reply with
  | None => (VK_ERROR_INITIALIZATION_FAILED, [], c)
  | Some (result, r) =>
      let (n, r) := Reader.u32 r in
      let (ids, r) := read_handles (Z.to_nat (Z.min n count)) r in
      (if Reader.ok r && (n =? count) then result else VK_ERROR_INITIALIZATION_FAILED, ids, c)
  end.

(** ** Queries *)

(** A call whose reply is a result: events and caches.

    device.cpp:1283-1288. *)
Definition result_call (name : string) (args : list byte) c : Z * ObjectClient :=
  let (reply, c) := object_request name args c in
  match reply_result reply with
  | None => (VK_ERROR_DEVICE_LOST, c)
  | Some (result, r) => (if Reader.ok r then result else VK_ERROR_DEVICE_LOST, c)
  end.

(** device.cpp:1280-1289. *)
Definition GetEventStatus (event : Z) := result_call "vkGetEventStatus" (Writer.handle event).
(** device.cpp:1291-1299. *)
Definition SetEvent (event : Z) := result_call "vkSetEvent" (Writer.handle event).
(** device.cpp:1301-1309. *)
Definition ResetEvent (event : Z) := result_call "vkResetEvent" (Writer.handle event).
(** device.cpp:1346-1357. *)
Definition MergePipelineCaches (dst count : Z) (sources : list Z) :=
  result_call "vkMergePipelineCaches"
    (Writer.handle dst ++ Writer.u32 count ++ concat (map Writer.handle (take (Z.to_nat count) sources))).

(** A call that stores at most one value, [fallback] where nothing can be
    decoded. *)
Definition value_call {A} (name : string) (args : list byte) (fallback : A) (decode : Wire.reader -> A * Wire.reader)
    c : A * ObjectClient :=
  let (reply, c) := object_request name args c in
  match reply with
  | None => (fallback, c)
  | Some bs => let (v, r) := decode (payload_reader bs) in (if Reader.ok r then v else fallback, c)
  end.

(** device.cpp:289-289. *)
Definition GetDeviceGroupPeerMemoryFeatures (heap local remote : Z) :=
  value_call "vkGetDeviceGroupPeerMemoryFeatures" (Writer.u32 heap ++ Writer.u32 local ++ Writer.u32 remote)
    0 Reader.u32.

(** device.cpp:1359-1370. *)
Definition GetRenderAreaGranularity (pass : Z) :=
  value_call "vkGetRenderAreaGranularity" (Writer.handle pass) VkExtent2D.zero (fun r =>
    let (width, r) := Reader.u32 r in let (height, r) := Reader.u32 r in (VkExtent2D.mk width height, r)).

(** device.cpp:1577-1577. *)
Definition GetDescriptorSetLayoutSupport (info : VkDescriptorSetLayoutCreateInfo.t) :=
  value_call "vkGetDescriptorSetLayoutSupport" (write_DescriptorSetLayoutCreateInfo info) 0 Reader.u32.

(** The end of the reply is not looked at.

    device.cpp:1252-1274. *)
Definition GetImageSubresourceLayout (image aspect mip layer : Z) c : VkSubresourceLayout.t * ObjectClient :=
  let (reply, c) := object_request "vkGetImageSubresourceLayout"
                      (Writer.handle image ++ Writer.u32 aspect ++ Writer.u32 mip ++ Writer.u32 layer) c in
  match reply with
  | None => (VkSubresourceLayout.zero, c)
  | Some bs =>
      let (offset, r) := Reader.u64 (payload_reader bs) in
      let (size, r) := Reader.u64 r in let (rowPitch, r) := Reader.u64 r in
      let (arrayPitch, r) := Reader.u64 r in let (depthPitch, r) := Reader.u64 r in
      (VkSubresourceLayout.mk offset size rowPitch arrayPitch depthPitch, c)
  end.

(** The result and the bytes copied to [pData].

    device.cpp:1311-1328. *)
Definition GetQueryPoolResults (pool first count size : Z) (data : bool) (stride flags : Z) c :
    Z * list byte * ObjectClient :=
  if (u32_max <? size) || (negb (size =? 0) && negb data) then (VK_ERROR_OUT_OF_HOST_MEMORY, [], c)
  else
    let (reply, c) := object_request "vkGetQueryPoolResults"
                        (Writer.handle pool ++ Writer.u32 first ++ Writer.u32 count ++ Writer.u64 size ++
                         Writer.u64 stride ++ Writer.u32 flags) c in
    match reply_result reply with
    | None => (VK_ERROR_DEVICE_LOST, [], c)
    | Some (result, r) =>
        match fst (Reader.bytes size r) with
        | Some bs => if Z.of_nat (length bs) =? size then (result, bs, c) else (VK_ERROR_DEVICE_LOST, [], c)
        | None => (VK_ERROR_DEVICE_LOST, [], c)
        end
    end.

(** [size]: what [*pDataSize] was, and whether [pData] is not null; the result,
    the new [*pDataSize] if it is stored, and the bytes copied to [pData], which
    are as many as the reply holds.

    device.cpp:1330-1344. *)
Definition GetPipelineCacheData (cache : Z) (size : option Z) (data : bool) c :
    Z * option Z * list byte * ObjectClient :=
  match size with
  | None => (VK_ERROR_INITIALIZATION_FAILED, None, [], c)
  | Some size =>
      let (reply, c) := object_request "vkGetPipelineCacheData"
                          (Writer.handle cache ++ Writer.u64 (if data then size else 0) ++
                           Writer.u32 (if data then 1 else 0)) c in
      match reply_result reply with
      | None => (VK_ERROR_DEVICE_LOST, None, [], c)
      | Some (result, r) =>
          let (required, r) := Reader.u64 r in
          match fst (Reader.bytes u32_max r) with
          | None => (VK_ERROR_DEVICE_LOST, None, [], c)
          | Some bs => (result, Some required, if data then bs else [], c)
          end
      end
  end.

(** device.cpp:1021-1021. *)
Definition ResetQueryPool (pool first count : Z) : ObjectClient -> ObjectClient :=
  object_oneway "vkResetQueryPool" (Writer.handle pool ++ Writer.u32 first ++ Writer.u32 count).

(** [VkBufferDeviceAddressInfo]; of the chain only whether there is one.

    device.cpp:1022-1022. *)
Definition GetBufferDeviceAddress (sType : Z) (chained : bool) (buffer : Z) c : Z * ObjectClient :=
  if negb (sType =? VK_STRUCTURE_TYPE_BUFFER_DEVICE_ADDRESS_INFO) || chained || (buffer =? 0) then (0, c)
  else
    let (reply, c) := object_request "vkGetBufferDeviceAddress" (Writer.handle buffer) c in
    match reply with
    | None => (0, c)
    | Some bs =>
        let (address, r) := Reader.u64 (payload_reader bs) in
        (if Reader.ok r && (Reader.remaining r =? 0)%nat then address else 0, c)
    end.

(** device.cpp:1023-1023. *)
Definition GetBufferOpaqueCaptureAddress : Z := 0.
(** device.cpp:1024-1024. *)
Definition GetDeviceMemoryOpaqueCaptureAddress : Z := 0.

End Objects.
