(* ===== verification/ClientDescriptors.v ===== *)
(** Descriptor layouts, pools, sets, templates and updates on the client: the
    rest of [src/client/device.cpp].

    The client records, per set and slot, the buffer or image a storage
    descriptor names, because a submission may write through it ([Tracking]).
    A slot is a binding and an element; an update that runs past the end of a
    binding goes on with the next one, which the cursor below follows. *)

From stdpp Require Import list gmap strings sorting.
From S2P Require Import Prelude Wire Codec CLayout VkStructs PNext VkCreateInfos VkCommands.
From S2P Require Import MarshalBase Marshal MarshalDescriptor.
From S2P Require Import HostMemory Tracking ClientSync ClientCommands ClientObjects.

Open Scope wire_scope.

(** ** Slots *)

(** remote_objects.hpp:138-140. *)
Definition descriptor_slot_key (binding element : Z) : Z := Z.lor (Z.shiftl binding 32) element.

(** device.cpp:54-57. *)
Record DescriptorSlotCursor := mkCursor {
  cu_bindings : option (list DescriptorBindingMetadata); binding_index : nat; cu_element : Z }.

Module Cursor.

(** The key at the cursor, if it is inside a binding.

    device.cpp:59-64. *)
Definition current (cu : DescriptorSlotCursor) : option Z :=
  match cu_bindings cu with
  | None => None
  | Some bs =>
      match bs !! binding_index cu with
      | None => None
      | Some b =>
          if bm_descriptor_count b <=? cu_element cu then None
          else Some (descriptor_slot_key (bm_binding b) (cu_element cu))
      end
  end.

(** The position of the first binding that is not empty.

    device.cpp:70-73. *)
Fixpoint skip_empty (bs : list DescriptorBindingMetadata) (i : nat) : nat :=
  match bs with
  | b :: bs => if bm_descriptor_count b =? 0 then skip_empty bs (S i) else i
  | [] => i
  end.

(** device.cpp:66-74. *)
Definition advance (cu : DescriptorSlotCursor) : bool * DescriptorSlotCursor :=
  match cu_bindings cu with
  | None => (false, cu)
  | Some bs =>
      let i := binding_index cu in
      match bs !! i with
      | None => (false, cu)
      | Some b =>
          let element := wrap32 (cu_element cu + 1) in
          if element <? bm_descriptor_count b then (true, mkCursor (Some bs) i element)
          else
            let i := skip_empty (drop (S i) bs) (S i) in
            (Nat.ltb i (length bs), mkCursor (Some bs) i 0)
      end
  end.

(** device.cpp:82-84. *)
Fixpoint find_binding (binding : Z) (bs : list DescriptorBindingMetadata) (i : nat) : nat :=
  match bs with
  | b :: bs => if bm_binding b <? binding then find_binding binding bs (S i) else i
  | [] => i
  end.

(** device.cpp:77-89. *)
Definition descriptor_cursor (bindings : option (list DescriptorBindingMetadata)) (binding element : Z) :
    DescriptorSlotCursor :=
  match bindings with
  | None => mkCursor None 0 element
  | Some bs =>
      let i := find_binding binding bs 0 in
      match bs !! i with
      | Some b => mkCursor (if bm_binding b =? binding then Some bs else None) i element
      | None => mkCursor None i element
      end
  end.

(** The keys of [n] descriptors from the cursor on; where it is outside, those of
    elements of [binding] are used.

    device.cpp:1610-1625. *)
Fixpoint slot_keys (binding element : Z) (n : nat) (j : Z) (cu : DescriptorSlotCursor) : list Z :=
  match n with
  | O => []
  | S n =>
      default (descriptor_slot_key binding (wrap32 (element + j))) (current cu)
      :: slot_keys binding element n (j + 1) (snd (advance cu))
  end.

(** [descriptor_cursor] and the loop over the descriptors.

    device.cpp:1607-1625. *)
Definition update_keys (bindings : option (list DescriptorBindingMetadata)) (binding element n : Z) : list Z :=
  slot_keys binding element (Z.to_nat n) 0 (descriptor_cursor bindings binding element).

End Cursor.

(** ** Recorded descriptors *)

(** The storage types, all others being alike.

    device.cpp:1613-1618. *)
Definition descriptor_type (type : Z) : DescriptorType :=
  if type =? VK_DESCRIPTOR_TYPE_STORAGE_BUFFER then StorageBuffer
  else if type =? VK_DESCRIPTOR_TYPE_STORAGE_BUFFER_DYNAMIC then StorageBufferDynamic
  else if type =? VK_DESCRIPTOR_TYPE_STORAGE_IMAGE then StorageImage
  else if type =? VK_DESCRIPTOR_TYPE_STORAGE_TEXEL_BUFFER then StorageTexelBuffer
  else OtherDescriptor.

(** [DescriptorResource{}]. *)
Definition no_resource : DescriptorResource := mkResource OtherDescriptor 0.

(** What a descriptor that names [buffer], [view] or [texel], by its type, is
    recorded as.

    device.cpp:1611-1619. *)
Definition resource_of (type buffer view texel : Z) : DescriptorResource :=
  mkResource (descriptor_type type)
    match descriptor_type type with
    | StorageBuffer | StorageBufferDynamic => buffer
    | StorageImage => view
    | StorageTexelBuffer => texel
    | OtherDescriptor => 0
    end.

Module Update.

(** Descriptors stored one after the other. *)
Definition store (keys : list Z) (rs : list DescriptorResource) (m : gmap Z DescriptorResource) :
    gmap Z DescriptorResource :=
  fold_left (fun m item => <[item.1 := item.2]> m) (zip keys rs) m.

(** An update of one slot: a resource without id erases it.

    device.cpp:1681-1682. *)
Definition overlay_slot (k : Z) (r : DescriptorResource) (m : gmap Z DescriptorResource) :
    gmap Z DescriptorResource :=
  if resource_id r =? 0 then delete k m else <[k := r]> m.

(** The updates of a set over what is recorded for it.

    device.cpp:1680-1683. *)
Definition overlay (base updates : gmap Z DescriptorResource) : gmap Z DescriptorResource :=
  map_fold overlay_slot base updates.

(** The updates of every set.

    device.cpp:1678-1684. *)
Definition commit (touched resources : gmap Z (gmap Z DescriptorResource)) :
    gmap Z (gmap Z DescriptorResource) :=
  map_fold (fun set updates m => <[set := overlay (default ∅ (m !! set)) updates]> m) resources touched.

(** [touched_resources[set]] with more updates. *)
Definition touch (set : Z) (keys : list Z) (rs : list DescriptorResource)
    (touched : gmap Z (gmap Z DescriptorResource)) : gmap Z (gmap Z DescriptorResource) :=
  <[set := store keys rs (default ∅ (touched !! set))]> touched.

End Update.

Section Descriptors.
Context `{CommandChannel} `{Abi}.
(** [remote_id] of the device. *)
Variable remote_id : Z.
Implicit Type c : ObjectClient.
Import Object Update.

Abbreviation Bindings := (list DescriptorBindingMetadata).
#[local] Abbreviation object_request := (object_request remote_id).
#[local] Abbreviation object_oneway := (object_oneway remote_id).

(** ** Layouts and pools *)

(** By their numbers, which Vulkan wants to be different.

    device.cpp:1522-1523. *)
Definition sort_bindings (bs : Bindings) : Bindings :=
  @merge_sort _ (fun a b => bm_binding a <= bm_binding b) (fun a b => Z_le_dec (bm_binding a) (bm_binding b)) bs.

(** device.cpp:1517-1521. *)
Definition layout_bindings (info : VkDescriptorSetLayoutCreateInfo.t) : Bindings :=
    (map (fun b => mkBinding (VkDescriptorSetLayoutBinding.binding b) (VkDescriptorSetLayoutBinding.descriptorCount b))
       (arr (VkDescriptorSetLayoutCreateInfo.pBindings info) (VkDescriptorSetLayoutCreateInfo.bindingCount info))).

(** device.cpp:1494-1526. *)
Definition CreateDescriptorSetLayout (info : ptr VkDescriptorSetLayoutCreateInfo.t) (out : bool) c :
    Created * ObjectClient :=
  match info, out with
  | Ref info, true =>
      if negb (is_null (VkDescriptorSetLayoutCreateInfo.pNext info))
         || negb (Z.land (VkDescriptorSetLayoutCreateInfo.flags info)
                    VK_DESCRIPTOR_SET_LAYOUT_CREATE_UPDATE_AFTER_BIND_POOL_BIT =? 0)
      then (failed VK_ERROR_FEATURE_NOT_PRESENT, c)
      else
        let (reply, c) := object_request "vkCreateDescriptorSetLayout" (write_DescriptorSetLayoutCreateInfo info) c in
        match created reply with
        | None => (failed VK_ERROR_INITIALIZATION_FAILED, c)
        | Some (result, id, _) =>
            (stored result id,
             if result =? VK_SUCCESS
             then set_layouts (<[id := sort_bindings (default [] (descriptor_layouts c !! id) ++ layout_bindings info)]>
                                 (descriptor_layouts c)) c
             else c)
        end
  | _, _ => (failed VK_ERROR_FEATURE_NOT_PRESENT, c)
  end.

(** device.cpp:1131-1142. *)
Definition DestroyDescriptorSetLayout (layout : Z) c : ObjectClient :=
  if layout =? 0 then c
  else object_oneway "vkDestroyDescriptorSetLayout" (Writer.handle layout)
         (set_layouts (delete layout (descriptor_layouts c)) c).

(** The records of one set are gone. *)
Definition forget_set (set : Z) c : ObjectClient :=
  set_sets (delete set (descriptor_set_layouts c)) (delete set (descriptor_set_pools c))
    (delete set (descriptor_resources (oc_records c))) c.

(** The loop over [descriptor_set_pools]: the records of the sets of a pool are
    gone.

    device.cpp:1153-1159. *)
Definition forget_pool (pool : Z) c : ObjectClient :=
  fold_left (fun c set => forget_set set c)
    (filter (fun item => item.2 = pool) (map_to_list (descriptor_set_pools c))).*1 c.

(** device.cpp:1146-1163. *)
Definition DestroyDescriptorPool (pool : Z) c : ObjectClient :=
  if pool =? 0 then c
  else object_oneway "vkDestroyDescriptorPool" (Writer.handle pool) (forget_pool pool c).

(** A result with nothing after it.

    device.cpp:1409-1410. *)
Definition sole_result (reply : option (list byte)) : Z :=
  match reply_result reply with
  | None => VK_ERROR_DEVICE_LOST
  | Some (result, r) => if Reader.ok r && (Reader.remaining r =? 0)%nat then result else VK_ERROR_DEVICE_LOST
  end.

(** device.cpp:1401-1423. *)
Definition ResetDescriptorPool (pool flags : Z) c : Z * ObjectClient :=
  if pool =? 0 then (VK_ERROR_INITIALIZATION_FAILED, c)
  else
    let (reply, c) := object_request "vkResetDescriptorPool" (Writer.handle pool ++ Writer.u32 flags) c in
    let result := sole_result reply in
    (result, if result =? VK_SUCCESS then forget_pool pool c else c).

(** ** Sets *)

(** The sets that were allocated, each with its layout.

    device.cpp:1556-1561. *)
Definition allocated (ids layouts : list Z) : list (Z * Z) :=
  filter (fun item => item.1 <> 0) (zip ids layouts).

(** device.cpp:1564-1569. *)
Definition record_set (pool : Z) c (item : Z * Z) : ObjectClient :=
  set_sets
    (match descriptor_layouts c !! item.2 with
     | Some bs => <[item.1 := bs]> (descriptor_set_layouts c)
     | None => descriptor_set_layouts c
     end)
    (<[item.1 := pool]> (descriptor_set_pools c)) (descriptor_resources (oc_records c)) c.

(** The result and what is stored in [pSets].

    device.cpp:1528-1572. *)
Definition AllocateDescriptorSets (info : ptr VkDescriptorSetAllocateInfo.t) (out : bool) c :
    Z * list Z * ObjectClient :=
  match info with
  | Ref info =>
      let pool := VkDescriptorSetAllocateInfo.descriptorPool info in
      let wanted := VkDescriptorSetAllocateInfo.descriptorSetCount info in
      let layouts := VkDescriptorSetAllocateInfo.pSetLayouts info in
      if (pool =? 0) || (kMaxArrayElements <? wanted) || (negb (wanted =? 0) && (is_null layouts || negb out))
         || negb (handles_ok wanted layouts)
      then (VK_ERROR_INITIALIZATION_FAILED, [], c)
      else
        let (reply, c) := object_request "vkAllocateDescriptorSets" (write_DescriptorSetAllocateInfo info) c in
        match reply_result reply with
        | None => (VK_ERROR_OUT_OF_POOL_MEMORY, [], c)
        | Some (result, r) =>
            let (count, r) := Reader.u32 r in
            if negb (Reader.ok r) || (kMaxArrayElements <? count) || negb (count =? wanted)
               || (Z.of_nat (Reader.remaining r) / 8 <? count)
            then (VK_ERROR_INITIALIZATION_FAILED, [], c)
            else
              let (ids, r) := read_handles (Z.to_nat count) r in
              let whole := Reader.ok r && (Reader.remaining r =? 0)%nat in
              (if whole then result else VK_ERROR_INITIALIZATION_FAILED, ids,
               if whole && (result =? VK_SUCCESS)
               then fold_left (record_set pool) (allocated ids (arr layouts wanted)) c else c)
        end
  | _ => (VK_ERROR_INITIALIZATION_FAILED, [], c)
  end.

(** device.cpp:1372-1399. *)
Definition FreeDescriptorSets (pool count : Z) (sets : ptr (list Z)) c : Z * ObjectClient :=
  if (pool =? 0) || (kMaxArrayElements <? count) || missing count sets || negb (handles_ok count sets)
  then (VK_ERROR_INITIALIZATION_FAILED, c)
  else
    let freed := arr sets count in
    let (reply, c) := object_request "vkFreeDescriptorSets"
                        (Writer.handle pool ++ Writer.u32 count ++ concat (map Writer.handle freed)) c in
    let result := sole_result reply in
    (result, if result =? VK_SUCCESS then fold_left (fun c set => forget_set set c) freed c else c).

(** ** Updates *)

(** The descriptors a write records.

    device.cpp:1610-1619. *)
Definition written_resources (w : VkWriteDescriptorSet.t) : list DescriptorResource :=
  map (fun j =>
    resource_of (VkWriteDescriptorSet.descriptorType w)
      (VkDescriptorBufferInfo.buffer (nth j (arr (VkWriteDescriptorSet.pBufferInfo w)
         (VkWriteDescriptorSet.descriptorCount w)) VkDescriptorBufferInfo.zero))
      (VkDescriptorImageInfo.imageView (nth j (arr (VkWriteDescriptorSet.pImageInfo w)
         (VkWriteDescriptorSet.descriptorCount w)) VkDescriptorImageInfo.zero))
      (nth j (arr (VkWriteDescriptorSet.pTexelBufferView w) (VkWriteDescriptorSet.descriptorCount w)) 0))
    (seq 0 (Z.to_nat (VkWriteDescriptorSet.descriptorCount w))).

(** The slots a write fills.

    device.cpp:1606-1609. *)
Definition written_keys (layouts : gmap Z Bindings) (w : VkWriteDescriptorSet.t) : list Z :=
  Cursor.update_keys (layouts !! VkWriteDescriptorSet.dstSet w) (VkWriteDescriptorSet.dstBinding w)
    (VkWriteDescriptorSet.dstArrayElement w) (VkWriteDescriptorSet.descriptorCount w).

(** device.cpp:1603-1625. *)
Definition touch_write (layouts : gmap Z Bindings) (touched : gmap Z (gmap Z DescriptorResource))
    (w : VkWriteDescriptorSet.t) : gmap Z (gmap Z DescriptorResource) :=
  touch (VkWriteDescriptorSet.dstSet w) (written_keys layouts w) (written_resources w) touched.

(** The descriptors a copy takes: what the set holds after the updates before.

    device.cpp:1632-1660. *)
Definition copied_resources (layouts : gmap Z Bindings) (resources touched : gmap Z (gmap Z DescriptorResource))
    (x : VkCopyDescriptorSet.t) : list DescriptorResource :=
  let source := VkCopyDescriptorSet.srcSet x in
  let snapshot := overlay (default ∅ (resources !! source)) (default ∅ (touched !! source)) in
  map (fun key => default no_resource (snapshot !! key))
    (Cursor.update_keys (layouts !! source) (VkCopyDescriptorSet.srcBinding x)
       (VkCopyDescriptorSet.srcArrayElement x) (VkCopyDescriptorSet.descriptorCount x)).

(** device.cpp:1661-1674. *)
Definition touch_copy (layouts : gmap Z Bindings) (resources touched : gmap Z (gmap Z DescriptorResource))
    (x : VkCopyDescriptorSet.t) : gmap Z (gmap Z DescriptorResource) :=
  let destination := VkCopyDescriptorSet.dstSet x in
  touch destination
    (Cursor.update_keys (layouts !! destination) (VkCopyDescriptorSet.dstBinding x)
       (VkCopyDescriptorSet.dstArrayElement x) (VkCopyDescriptorSet.descriptorCount x))
    (copied_resources layouts resources touched x) touched.

(** What is sent; nothing when an element cannot be encoded.

    device.cpp:1600-1630. *)
Definition write_updates (writeCount : Z) (writes : list VkWriteDescriptorSet.t) (copyCount : Z)
    (copies : list VkCopyDescriptorSet.t) : W :=
  emit (Writer.u32 writeCount) ;;; wfor write_WriteDescriptorSet writes ;;;
  emit (Writer.u32 copyCount) ;;;
  wfor (fun x => wguard (negb ((VkCopyDescriptorSet.srcSet x =? 0) || (VkCopyDescriptorSet.dstSet x =? 0))) ;;;
                 emit (write_CopyDescriptorSet x)) copies.

(** device.cpp:1581-1687. *)
Definition UpdateDescriptorSets (writeCount : Z) (pWrites : ptr (list VkWriteDescriptorSet.t)) (copyCount : Z)
    (pCopies : ptr (list VkCopyDescriptorSet.t)) c : ObjectClient :=
  if (kMaxArrayElements <? writeCount) || (kMaxArrayElements <? copyCount)
     || missing writeCount pWrites || missing copyCount pCopies
  then c
  else
    let writes := arr pWrites writeCount in
    let copies := arr pCopies copyCount in
    let layouts := descriptor_set_layouts c in
    let resources := descriptor_resources (oc_records c) in
    match write_updates writeCount writes copyCount copies with
    | (false, _) => c
    | (true, bs) =>
        let touched := fold_left (touch_copy layouts resources) copies (fold_left (touch_write layouts) writes ∅) in
        object_oneway "vkUpdateDescriptorSets" bs
          (set_sets layouts (descriptor_set_pools c) (commit touched resources) c)
    end.

(** ** Update templates *)

(** device.cpp:1574-1574. *)
Definition CreateDescriptorUpdateTemplate (info : ptr VkDescriptorUpdateTemplateCreateInfo.t) (out : bool) c :
    Created * ObjectClient :=
  match info, out with
  | Ref info, true =>
      match write_DescriptorUpdateTemplateCreateInfo info with
      | (false, _) => (failed VK_ERROR_INITIALIZATION_FAILED, c)
      | (true, bs) =>
          let (reply, c) := object_request "vkCreateDescriptorUpdateTemplate" bs c in
          match created reply with
          | None => (failed VK_ERROR_INITIALIZATION_FAILED, c)
          | Some (result, id, false) => (failed result, c)
          | Some (result, id, true) =>
              (stored result id,
               if result =? VK_SUCCESS
               then set_templates (<[id := arr (VkDescriptorUpdateTemplateCreateInfo.pDescriptorUpdateEntries info)
                                              (VkDescriptorUpdateTemplateCreateInfo.descriptorUpdateEntryCount info)]>
                                     (descriptor_templates c)) c
               else c)
          end
      end
  | _, _ => (failed VK_ERROR_INITIALIZATION_FAILED, c)
  end.

(** device.cpp:1575-1575. *)
Definition DestroyDescriptorUpdateTemplate (object : Z) c : ObjectClient :=
  if object =? 0 then c
  else object_oneway "vkDestroyDescriptorUpdateTemplate" (Writer.handle object)
         (set_templates (delete object (descriptor_templates c)) c).

(** A member of [n] bytes of the application's data; outside of it, undefined. *)
Definition load (n : nat) (position : Z) (data : list byte) : option Z :=
  if position + Z.of_nat n <=? Z.of_nat (length data)
  then Some (le_value (window (Z.to_nat position) n data)) else None.

(** [e.offset + i * e.stride], from the start of the data.

    device.cpp:1576-1576. *)
Definition element_place (e : VkDescriptorUpdateTemplateEntry.t) (i : Z) : Z :=
  wrap64 (VkDescriptorUpdateTemplateEntry.offset e + wrap64 (i * VkDescriptorUpdateTemplateEntry.stride e)).

(** What is sent for the structure at [p], and what is recorded.

    device.cpp:1576-1576. *)
Definition load_element (type p : Z) (data : list byte) : option (list byte * DescriptorResource) :=
  match descriptor_kind type with
  | Some 1 =>
      match load 8 p data, load 8 (p + 8) data, load 4 (p + 16) data with
      | Some sampler, Some view, Some layout =>
          Some (Writer.handle sampler ++ Writer.handle view ++ Writer.i32 (to_i32 layout),
                resource_of type 0 view 0)
      | _, _, _ => None
      end
  | Some 3 =>
      match load 8 p data with
      | Some view => Some (Writer.handle view, resource_of type 0 0 view)
      | None => None
      end
  | _ =>
      match load 8 p data, load 8 (p + 8) data, load 8 (p + 16) data with
      | Some buffer, Some offset, Some range =>
          Some (Writer.handle buffer ++ Writer.u64 offset ++ Writer.u64 range, resource_of type buffer 0 0)
      | _, _, _ => None
      end
  end.

(** device.cpp:1576-1576. *)
Fixpoint load_elements (e : VkDescriptorUpdateTemplateEntry.t) (n : nat) (i : Z) (data : list byte) :
    option (list byte * list DescriptorResource) :=
  match n with
  | O => Some ([], [])
  | S n =>
      match load_element (VkDescriptorUpdateTemplateEntry.descriptorType e) (element_place e i) data,
            load_elements e n (i + 1) data with
      | Some (b, r), Some (bs, rs) => Some (b ++ bs, r :: rs)
      | _, _ => None
      end
  end.

(** What is sent, the slots that are filled and what they are recorded as.

    device.cpp:1576-1576. *)
Fixpoint load_entries (bindings : option Bindings) (entries : list VkDescriptorUpdateTemplateEntry.t)
    (data : list byte) : option (list byte * list Z * list DescriptorResource) :=
  match entries with
  | [] => Some ([], [], [])
  | e :: entries =>
      let count := VkDescriptorUpdateTemplateEntry.descriptorCount e in
      match load_elements e (Z.to_nat count) 0 data, load_entries bindings entries data with
      | Some (b, r), Some (bs, keys, rs) =>
          Some (Writer.u32 count ++ Writer.i32 (VkDescriptorUpdateTemplateEntry.descriptorType e) ++ b ++ bs,
                Cursor.update_keys bindings (VkDescriptorUpdateTemplateEntry.dstBinding e)
                  (VkDescriptorUpdateTemplateEntry.dstArrayElement e) count ++ keys,
                r ++ rs)
      | _, _ => None
      end
  end.

(** The bindings of a set, if there are any. *)
Definition set_bindings (set : Z) c : option Bindings :=
  match descriptor_set_layouts c !! set with Some (b :: bs) => Some (b :: bs) | _ => None end.

(** [None] when the entries lead outside of the application's data.

    device.cpp:1576-1576. *)
Definition UpdateDescriptorSetWithTemplate (set object : Z) (data : option (list byte)) c : option ObjectClient :=
  match data, descriptor_templates c !! object with
  | Some data, Some entries =>
      match load_entries (set_bindings set c) entries data with
      | None => None
      | Some (bs, keys, rs) =>
          let resources := descriptor_resources (oc_records c) in
          Some (object_oneway "vkUpdateDescriptorSetWithTemplate"
                  (Writer.handle set ++ Writer.handle object ++ Writer.u32 (wrap32 (Z.of_nat (length entries))) ++ bs)
                  (set_sets (descriptor_set_layouts c) (descriptor_set_pools c)
                     (<[set := overlay (default ∅ (resources !! set)) (Update.store keys rs ∅)]> resources) c))
      end
  | _, _ => Some c
  end.

End Descriptors.
