(* ===== verification/DescriptorFacts.v ===== *)
(** What the client records of descriptor updates is what the updates say.

    The reference keeps one map from sets and slots to storage resources and
    applies an update slot by slot, in the order of the call.  The code works on
    an overlay of touched slots, walks bindings with a cursor and commits at the
    end; both leave the same records. *)

From stdpp Require Import list gmap strings sorting numbers.
From S2P Require Import Prelude Wire Codec CLayout VkStructs PNext VkCreateInfos VkCommands.
From S2P Require Import MarshalBase Marshal MarshalDescriptor.
From S2P Require Import HostMemory Tracking ClientSync ClientCommands ClientObjects ClientDescriptors.
From S2P Require PNextFacts.

Open Scope wire_scope.

(** ** Slots *)
Section Slots.
Import Cursor.

(** The slots of a binding and of a layout, in order. *)
Definition binding_slots (b : DescriptorBindingMetadata) : list Z :=
  map (descriptor_slot_key (bm_binding b)) (seqZ 0 (bm_descriptor_count b)).
Definition layout_slots (bs : list DescriptorBindingMetadata) : list Z := concat (map binding_slots bs).

Definition binding_ok (b : DescriptorBindingMetadata) : Prop := is_u32 (bm_binding b) /\ is_u32 (bm_descriptor_count b).

Lemma length_binding_slots b : length (binding_slots b) = Z.to_nat (bm_descriptor_count b).
Proof. unfold binding_slots. by rewrite length_map, length_seqZ. Qed.

Lemma lookup_binding_slots b e : 0 <= e < bm_descriptor_count b ->
  binding_slots b !! Z.to_nat e = Some (descriptor_slot_key (bm_binding b) e).
Proof.
  intros He. unfold binding_slots. rewrite list_lookup_fmap, lookup_seqZ_lt by lia. cbn. do 2 f_equal. lia.
Qed.

Lemma drop_binding_slots b e : 0 <= e < bm_descriptor_count b ->
  drop (Z.to_nat e) (binding_slots b) =
  descriptor_slot_key (bm_binding b) e :: drop (Z.to_nat (e + 1)) (binding_slots b).
Proof.
  intros He. replace (Z.to_nat (e + 1)) with (S (Z.to_nat e)) by lia.
  by rewrite (drop_S _ _ _ (lookup_binding_slots b e He)).
Qed.

(** Skipping empty bindings skips no slot. *)
Lemma skip_empty_spec bs : forall i, Forall binding_ok bs ->
  exists es rest, bs = es ++ rest /\ layout_slots es = [] /\ skip_empty bs i = (i + length es)%nat /\
    match rest with b :: _ => 0 < bm_descriptor_count b | [] => True end.
Proof.
  induction bs as [|b bs IH]; intros i Hb; cbn [skip_empty].
  - exists [], []. by rewrite Nat.add_0_r.
  - apply Forall_cons in Hb as [[_ Hc] Hb]. destruct (Z.eqb_spec (bm_descriptor_count b) 0) as [H0|H0].
    + destruct (IH (S i) Hb) as (es & rest & -> & He & -> & Hr).
      exists (b :: es), rest. split; [done|]. split; [|split; [cbn; lia|done]].
      unfold layout_slots. cbn. unfold binding_slots. by rewrite H0.
    + exists [], (b :: bs). rewrite Nat.add_0_r. unfold is_u32 in Hc. repeat split; lia.
Qed.

Lemma length_update_keys bindings binding element n : length (update_keys bindings binding element n) = Z.to_nat n.
Proof.
  unfold update_keys. generalize 0 (descriptor_cursor bindings binding element).
  induction (Z.to_nat n) as [|k IH]; intros j cu; [done|]. cbn [slot_keys length]. by rewrite IH.
Qed.

(** The cursor stands at the first of the slots that are left. *)
Definition stands_at (cu : DescriptorSlotCursor) (slots : list Z) : Prop :=
  exists pre b post,
    cu_bindings cu = Some (pre ++ b :: post) /\ binding_index cu = length pre /\
    0 <= cu_element cu < bm_descriptor_count b /\ Forall binding_ok (b :: post) /\
    slots = drop (Z.to_nat (cu_element cu)) (binding_slots b) ++ layout_slots post.

Lemma stands_current cu slots : stands_at cu slots -> exists k rest, slots = k :: rest /\ current cu = Some k.
Proof.
  intros (pre & b & post & Hb & Hi & He & _ & ->). exists (descriptor_slot_key (bm_binding b) (cu_element cu)).
  rewrite drop_binding_slots by done. eexists. split; [done|].
  unfold current. rewrite Hb, Hi, list_lookup_middle by done. by rewrite (proj2 (Z.leb_gt _ _)) by lia.
Qed.

Lemma stands_advance cu k slots : stands_at cu (k :: slots) -> slots <> [] -> stands_at (snd (advance cu)) slots.
Proof.
  intros (pre & b & post & Hb & Hi & He & Hok & Hs) Hne.
  rewrite drop_binding_slots in Hs by done. injection Hs as _ Hs.
  unfold advance. rewrite Hb, Hi, list_lookup_middle by done.
  apply Forall_cons in Hok as Hok'. destruct Hok' as [[_ Hc] Hpost]. unfold is_u32 in Hc.
  rewrite (wrap32_id (cu_element cu + 1)) by (unfold is_u32; lia).
  destruct (Z.ltb_spec (cu_element cu + 1) (bm_descriptor_count b)) as [Hlt|Hge].
  - exists pre, b, post. cbn. repeat split; [lia|lia|done|done].
  - rewrite drop_ge in Hs by (rewrite length_binding_slots; lia). cbn in Hs.
    rewrite drop_app, (drop_ge pre) by lia. replace (S (length pre) - length pre)%nat with 1%nat by lia. cbn [drop app]. rewrite drop_0.
    destruct (skip_empty_spec post (S (length pre)) Hpost) as (es & rest & -> & Hes & -> & Hr).
    unfold layout_slots in Hs. rewrite map_app, concat_app in Hs.
    change (concat (map binding_slots es)) with (layout_slots es) in Hs. rewrite Hes in Hs. cbn in Hs.
    destruct rest as [|b' rest]; [by subst|].
    exists (pre ++ b :: es), b', rest. cbn. split; [by rewrite <- app_assoc|].
    split; [rewrite length_app; cbn; lia|]. split; [lia|].
    split; [by apply Forall_app in Hpost as [_ Hpost]|done].
Qed.

Lemma stands_keys binding element n : forall j cu slots,
  stands_at cu slots -> (n <= length slots)%nat -> slot_keys binding element n j cu = take n slots.
Proof.
  induction n as [|n IH]; intros j cu slots Hs Hn; [done|].
  destruct (stands_current cu slots Hs) as (k & rest & -> & Hk). cbn [slot_keys take]. rewrite Hk. cbn [default].
  f_equal. destruct n as [|n]; [done|]. apply IH; [|cbn in Hn; lia].
  eapply stands_advance; [done|]. intros ->. cbn in Hn. lia.
Qed.

Lemma find_binding_spec binding pre b post i :
  Forall (fun a => bm_binding a < binding) pre -> bm_binding b = binding ->
  find_binding binding (pre ++ b :: post) i = (i + length pre)%nat.
Proof.
  intros Hp <-. revert i. induction Hp as [|a pre Ha _ IH]; intros i; cbn [find_binding app].
  - rewrite Z.ltb_irrefl, Nat.add_0_r. done.
  - rewrite (proj2 (Z.ltb_lt _ _)) by done. rewrite IH. cbn. lia.
Qed.

Lemma cursor_stands pre b post element :
  Forall (fun a => bm_binding a < bm_binding b) pre -> Forall binding_ok (b :: post) ->
  0 <= element < bm_descriptor_count b ->
  stands_at (descriptor_cursor (Some (pre ++ b :: post)) (bm_binding b) element)
    (drop (Z.to_nat element) (binding_slots b) ++ layout_slots post).
Proof.
  intros Hp Hok He. unfold descriptor_cursor. rewrite find_binding_spec, list_lookup_middle by done.
  rewrite Z.eqb_refl. exists pre, b, post. done.
Qed.

(** *** Keys and the order of bindings *)

Lemma slot_key_parts b e : 0 <= b -> is_u32 e ->
  Z.shiftr (descriptor_slot_key b e) 32 = b /\ Z.land (descriptor_slot_key b e) (Z.ones 32) = e.
Proof.
  unfold descriptor_slot_key, is_u32. intros Hb He. split.
  - rewrite Z.shiftr_lor, Z.shiftr_shiftl_l by lia. rewrite (Z.shiftr_div_pow2 e), Z.div_small by lia.
    by rewrite Z.lor_0_r, Z.shiftl_0_r.
  - rewrite Z.land_lor_distr_l, !Z.land_ones by lia.
    rewrite Z.shiftl_mul_pow2, Z.mod_mul, Z.lor_0_l by lia. by apply Z.mod_small.
Qed.

Lemma slot_key_inj b e b' e' : is_u32 e -> is_u32 e' -> 0 <= b -> 0 <= b' ->
  descriptor_slot_key b e = descriptor_slot_key b' e' -> b = b' /\ e = e'.
Proof.
  intros He He' Hb Hb' Hk. destruct (slot_key_parts b e Hb He) as [H1 H2].
  destruct (slot_key_parts b' e' Hb' He') as [H3 H4]. rewrite Hk in H1, H2. split; congruence.
Qed.

Lemma NoDup_binding_slots b : binding_ok b -> NoDup (binding_slots b).
Proof.
  intros [Hb Hc]. apply NoDup_fmap_2_strong; [|apply NoDup_seqZ].
  intros x y Hx%elem_of_seqZ Hy%elem_of_seqZ Hk. unfold is_u32 in *.
  apply slot_key_inj in Hk as [_ ->]; unfold is_u32; [done|lia..].
Qed.

Lemma elem_of_layout_slots bs k : k ∈ layout_slots bs <-> exists b, b ∈ bs /\ k ∈ binding_slots b.
Proof.
  unfold layout_slots. induction bs as [|b bs IH]; cbn [map concat].
  - split; [by intros ?%elem_of_nil|intros (b & Hb & _); by apply elem_of_nil in Hb].
  - rewrite elem_of_app, IH. setoid_rewrite elem_of_cons. split.
    + intros [H|(b' & H & H')]; eauto.
    + intros (b' & [->|H] & H'); eauto.
Qed.

Lemma NoDup_layout_slots bs : Forall binding_ok bs -> NoDup (map bm_binding bs) -> NoDup (layout_slots bs).
Proof.
  induction bs as [|b bs IH]; intros Hok Hd; [apply NoDup_nil_2|].
  apply Forall_cons in Hok as [Hb Hok]. cbn [map] in Hd. apply NoDup_cons in Hd as [Hn Hd].
  unfold layout_slots. cbn [map concat]. apply NoDup_app. split; [by apply NoDup_binding_slots|].
  split; [|by apply IH]. intros k Hk Hk'. apply elem_of_layout_slots in Hk' as (b' & Hb' & Hk').
  apply list_elem_of_fmap in Hk as (e & -> & He%elem_of_seqZ).
  apply list_elem_of_fmap in Hk' as (e' & Hkk & He'%elem_of_seqZ).
  pose proof (proj1 (Forall_forall _ _) Hok b' Hb') as [Hb1 Hb2]. destruct Hb as [Hb3 Hb4]. unfold is_u32 in *.
  apply slot_key_inj in Hkk as [Heq _]; unfold is_u32; [|lia..].
  apply Hn. rewrite Heq. by apply list_elem_of_fmap_2.
Qed.

(** The bindings before one of a sorted layout have smaller numbers. *)
Lemma sorted_before pre b post :
  StronglySorted (fun a b => bm_binding a <= bm_binding b) (pre ++ b :: post) -> NoDup (map bm_binding (pre ++ b :: post)) ->
  Forall (fun a => bm_binding a < bm_binding b) pre.
Proof.
  induction pre as [|a pre IH]; intros Hs Hd; [done|]. cbn in Hs, Hd.
  apply StronglySorted_inv in Hs as [Hs Ha]. apply NoDup_cons in Hd as [Hn Hd].
  constructor; [|by apply IH]. apply Forall_app in Ha as [_ Ha]. apply Forall_cons in Ha as [Ha _].
  assert (bm_binding a <> bm_binding b); [|lia]. intros Heq. apply Hn. rewrite Heq.
  rewrite map_app. apply elem_of_app. right. by left.
Qed.

End Slots.

Import Cursor.

(** C31: An update of descriptors fills the slots Vulkan says it fills.

    Let the bindings of a layout have different numbers, in any order.  The
    client keeps them sorted; counted by binding and then by element, its slots
    have different keys.  An update of [n] descriptors that starts at an element
    of a binding, and for which there is room in the layout, uses the [n] slots
    that follow one another from there, running over into the next bindings that
    are not empty. *)
Theorem update_slots_consecutive bs b element n :
  NoDup (map bm_binding bs) -> Forall binding_ok bs -> b ∈ bs -> 0 <= element < bm_descriptor_count b ->
  let layout := sort_bindings bs in
  let slots := layout_slots layout in
  NoDup slots /\
  exists i, slots !! i = Some (descriptor_slot_key (bm_binding b) element) /\
    (0 <= n <= Z.of_nat (length slots) - Z.of_nat i ->
     update_keys (Some layout) (bm_binding b) element n = take (Z.to_nat n) (drop i slots)).
Proof.
  intros Hd Hok Hb He layout slots.
  assert (layout ≡ₚ bs) as Hp by apply merge_sort_Permutation.
  assert (StronglySorted (fun a b => bm_binding a <= bm_binding b) layout) as Hs.
  { apply StronglySorted_merge_sort; [intros x y z; lia|intros x y; lia]. }
  assert (Forall binding_ok layout) as Hok' by (by rewrite Hp).
  assert (NoDup (map bm_binding layout)) as Hd' by (by rewrite Hp).
  split; [by apply NoDup_layout_slots|]. rewrite <- Hp in Hb. apply list_elem_of_split in Hb as (pre & post & Hl).
  subst slots. rewrite Hl in *. clear layout Hl.
  assert (layout_slots (pre ++ b :: post) = layout_slots pre ++ binding_slots b ++ layout_slots post) as Hsl.
  { unfold layout_slots. by rewrite map_app, concat_app. }
  exists (length (layout_slots pre) + Z.to_nat element)%nat. rewrite Hsl. split.
  - rewrite lookup_app_r by lia. replace (_ + _ - _)%nat with (Z.to_nat element) by lia.
    apply lookup_app_l_Some. by apply lookup_binding_slots.
  - intros Hn. rewrite <- drop_drop, drop_app_length, (drop_app_le (binding_slots b)) by (rewrite length_binding_slots; lia).
    apply stands_keys; [apply cursor_stands; [by eapply sorted_before|by apply Forall_app in Hok' as [_ Hok']|done]|].
    rewrite !length_app, length_drop in *. rewrite length_binding_slots in *. lia.
Qed.

(** ** Updates *)

(** What is recorded for a set. *)
Definition resources_of (m : gmap Z (gmap Z DescriptorResource)) (set : Z) : gmap Z DescriptorResource :=
  default ∅ (m !! set).

(** The same records: an absent set has none. *)
Definition same_records : relation (gmap Z (gmap Z DescriptorResource)) :=
  fun m1 m2 => forall set, resources_of m1 set = resources_of m2 set.

#[export] Instance same_records_equivalence : Equivalence same_records.
Proof. split; unfold same_records; [done|congruence|congruence]. Qed.

Lemma resources_of_insert m set r set' :
  resources_of (<[set := r]> m) set' = if decide (set = set') then r else resources_of m set'.
Proof.
  unfold resources_of. destruct (decide (set = set')) as [->|Hn].
  - by rewrite lookup_insert_eq.
  - by rewrite lookup_insert_ne.
Qed.

(** *** The reference *)
Section InOrder.
Context `{Abi}.
Import Update.

(** One slot of a set. *)
Definition assign (set : Z) (m : gmap Z (gmap Z DescriptorResource)) (item : Z * DescriptorResource) :
    gmap Z (gmap Z DescriptorResource) :=
  <[set := overlay_slot item.1 item.2 (resources_of m set)]> m.

Definition assign_all (set : Z) (keys : list Z) (rs : list DescriptorResource)
    (m : gmap Z (gmap Z DescriptorResource)) : gmap Z (gmap Z DescriptorResource) :=
  fold_left (assign set) (zip keys rs) m.

Variable layouts : gmap Z (list DescriptorBindingMetadata).

Definition apply_write m (w : VkWriteDescriptorSet.t) : gmap Z (gmap Z DescriptorResource) :=
  assign_all (VkWriteDescriptorSet.dstSet w) (written_keys layouts w) (written_resources w) m.

(** A copy reads all its descriptors before it writes one. *)
Definition apply_copy m (x : VkCopyDescriptorSet.t) : gmap Z (gmap Z DescriptorResource) :=
  let source := VkCopyDescriptorSet.srcSet x in
  let destination := VkCopyDescriptorSet.dstSet x in
  let copied := map (fun key => default no_resource (resources_of m source !! key))
                  (update_keys (layouts !! source) (VkCopyDescriptorSet.srcBinding x)
                     (VkCopyDescriptorSet.srcArrayElement x) (VkCopyDescriptorSet.descriptorCount x)) in
  assign_all destination
    (update_keys (layouts !! destination) (VkCopyDescriptorSet.dstBinding x)
       (VkCopyDescriptorSet.dstArrayElement x) (VkCopyDescriptorSet.descriptorCount x)) copied m.

(** The writes, then the copies. *)
Definition apply_updates (writes : list VkWriteDescriptorSet.t) (copies : list VkCopyDescriptorSet.t) m :
    gmap Z (gmap Z DescriptorResource) :=
  fold_left apply_copy copies (fold_left apply_write writes m).

#[local] Instance assign_proper set : Proper (same_records ==> eq ==> same_records) (assign set).
Proof.
  intros m1 m2 Hm i ? <- set'. unfold assign. rewrite !resources_of_insert, !Hm. done.
Qed.

Lemma assign_all_proper set keys rs : Proper (same_records ==> same_records) (assign_all set keys rs).
Proof.
  intros m1 m2 Hm. unfold assign_all. revert m1 m2 Hm.
  induction (zip keys rs) as [|i is' IH]; intros m1 m2 Hm; [done|]. cbn. apply IH. by rewrite Hm.
Qed.

(** *** Overlays *)

Lemma lookup_overlay base updates k : overlay base updates !! k =
  match updates !! k with
  | Some r => if resource_id r =? 0 then None else Some r
  | None => base !! k
  end.
Proof.
  unfold overlay. revert k. apply (map_fold_weak_ind (fun m updates => forall k, m !! k =
    match updates !! k with Some r => if resource_id r =? 0 then None else Some r | None => base !! k end)).
  { intros k. by rewrite lookup_empty. }
  intros i r updates' m Hi IH k. unfold overlay_slot. destruct (decide (i = k)) as [->|Hn].
  - rewrite lookup_insert_eq. destruct (resource_id r =? 0); [apply lookup_delete_eq|apply lookup_insert_eq].
  - rewrite (lookup_insert_ne updates') by done.
    destruct (resource_id r =? 0); [rewrite lookup_delete_ne by done|rewrite lookup_insert_ne by done]; apply IH.
Qed.

Lemma overlay_empty base : overlay base ∅ = base.
Proof. apply map_eq. intros k. by rewrite lookup_overlay, lookup_empty. Qed.

Lemma overlay_insert base updates k r : overlay base (<[k := r]> updates) = overlay_slot k r (overlay base updates).
Proof.
  apply map_eq. intros k'. rewrite lookup_overlay. unfold overlay_slot. destruct (decide (k = k')) as [->|Hn].
  - rewrite lookup_insert_eq. destruct (resource_id r =? 0); [by rewrite lookup_delete_eq|by rewrite lookup_insert_eq].
  - rewrite lookup_insert_ne by done.
    destruct (resource_id r =? 0); [rewrite lookup_delete_ne by done|rewrite lookup_insert_ne by done];
      by rewrite lookup_overlay.
Qed.

Lemma overlay_store base keys rs : forall updates,
  overlay base (store keys rs updates) =
  fold_left (fun m item => overlay_slot item.1 item.2 m) (zip keys rs) (overlay base updates).
Proof.
  unfold store. induction (zip keys rs) as [|[k r] items IH]; intros updates; [done|].
  cbn. by rewrite IH, overlay_insert.
Qed.

Lemma resources_of_commit touched base set :
  resources_of (commit touched base) set = overlay (resources_of base set) (resources_of touched set).
Proof.
  unfold commit. revert set. apply (map_fold_weak_ind (fun m touched => forall set,
    resources_of m set = overlay (resources_of base set) (resources_of touched set))).
  { intros set. unfold resources_of at 3. rewrite lookup_empty. by rewrite overlay_empty. }
  intros i r touched' m Hi IH set. fold (resources_of m i). rewrite !resources_of_insert.
  destruct (decide (i = set)) as [->|Hn]; [|apply IH]. rewrite IH. unfold resources_of at 2.
  rewrite Hi. cbn. by rewrite overlay_empty.
Qed.

(** *** The simulation: [touched] over [base] stands for [m] *)
Section Simulation.
Variable base : gmap Z (gmap Z DescriptorResource).

Definition stands_for touched m : Prop := same_records (commit touched base) m.

Lemma resources_of_assign_all set keys rs : forall m set',
  resources_of (assign_all set keys rs m) set' =
  if decide (set = set')
  then fold_left (fun m item => overlay_slot item.1 item.2 m) (zip keys rs) (resources_of m set)
  else resources_of m set'.
Proof.
  unfold assign_all. induction (zip keys rs) as [|[k r] items IH]; intros m set'; cbn [fold_left].
  - by destruct (decide (set = set')) as [->|].
  - rewrite IH. unfold assign. rewrite !resources_of_insert. destruct (decide (set = set')) as [->|Hn]; [|done].
    by destruct (decide (set' = set')).
Qed.

Lemma stands_for_touch touched m set keys rs :
  stands_for touched m -> stands_for (touch set keys rs touched) (assign_all set keys rs m).
Proof.
  intros Hs set'. rewrite resources_of_commit, resources_of_assign_all. unfold touch. rewrite resources_of_insert.
  fold (resources_of touched set). destruct (decide (set = set')) as [->|Hn].
  - rewrite overlay_store, <- resources_of_commit. by rewrite (Hs set').
  - rewrite <- resources_of_commit. apply Hs.
Qed.

Lemma stands_for_writes ws : forall touched m, stands_for touched m ->
  stands_for (fold_left (touch_write layouts) ws touched) (fold_left apply_write ws m).
Proof.
  induction ws as [|w ws IH]; intros touched m Hs; [done|]. cbn. apply IH. by apply stands_for_touch.
Qed.

Lemma stands_for_copies xs : forall touched m, stands_for touched m ->
  stands_for (fold_left (touch_copy layouts base) xs touched) (fold_left apply_copy xs m).
Proof.
  induction xs as [|x xs IH]; intros touched m Hs; [done|]. cbn. apply IH.
  unfold touch_copy, apply_copy, copied_resources.
  fold (resources_of base (VkCopyDescriptorSet.srcSet x)) (resources_of touched (VkCopyDescriptorSet.srcSet x)).
  rewrite <- resources_of_commit, (Hs (VkCopyDescriptorSet.srcSet x)). by apply stands_for_touch.
Qed.

End Simulation.

Lemma updates_stand_for base writes copies :
  same_records
    (commit (fold_left (touch_copy layouts base) copies (fold_left (touch_write layouts) writes ∅)) base)
    (apply_updates writes copies base).
Proof.
  apply stands_for_copies, stands_for_writes. intros set.
  rewrite resources_of_commit. unfold resources_of at 2. by rewrite lookup_empty, overlay_empty.
Qed.

End InOrder.

Section Recorded.
Context `{CommandChannel} `{Abi}.
Variable remote_id : Z.
Implicit Type c : ObjectClient.

(** What is recorded of updates that can be encoded. *)
Lemma updates_recorded writeCount pWrites copyCount pCopies c :
  let writes := arr pWrites writeCount in
  let copies := arr pCopies copyCount in
  writeCount <= kMaxArrayElements -> copyCount <= kMaxArrayElements ->
  missing writeCount pWrites = false -> missing copyCount pCopies = false ->
  (write_updates writeCount writes copyCount copies).1 = true ->
  same_records (descriptor_resources (oc_records (UpdateDescriptorSets remote_id writeCount pWrites copyCount pCopies c)))
    (apply_updates (descriptor_set_layouts c) writes copies (descriptor_resources (oc_records c))).
Proof.
  intros writes copies Hw Hc Hpw Hpc He. unfold UpdateDescriptorSets. fold writes copies.
  destruct (write_updates writeCount writes copyCount copies) as [encoded message]. cbn in He. subst encoded.
  rewrite Hpw, Hpc, !(proj2 (Z.ltb_ge _ _)) by done. apply updates_stand_for.
Qed.

(** C30: Descriptor updates are recorded in the order of the call.

    When vkUpdateDescriptorSets has arguments that can be encoded, it sends them
    in one message, and afterwards the records of every set are those of carrying
    out the writes and then the copies one after the other, slot by slot, each
    copy reading what the updates before it have left, also within one set.
    Otherwise it does nothing at all: no message, no record.  Nothing else of the
    client changes. *)
Theorem updates_in_order writeCount pWrites copyCount pCopies c :
  let writes := arr pWrites writeCount in
  let copies := arr pCopies copyCount in
  let c' := UpdateDescriptorSets remote_id writeCount pWrites copyCount pCopies c in
  let '(encoded, message) := write_updates writeCount writes copyCount copies in
  if (writeCount <=? kMaxArrayElements) && (copyCount <=? kMaxArrayElements)
     && negb (missing writeCount pWrites) && negb (missing copyCount pCopies) && encoded
  then
    oc_world c' = send_command (command_opcode "vkUpdateDescriptorSets") (Writer.handle remote_id ++ message) (oc_world c) /\
    same_records (descriptor_resources (oc_records c'))
      (apply_updates (descriptor_set_layouts c) writes copies (descriptor_resources (oc_records c))) /\
    Object.set_records (oc_records c) (Object.set_world (oc_world c) c') = c /\
    Object.set_resources (descriptor_resources (oc_records c)) (oc_records c') = oc_records c
  else c' = c.
Proof.
  intros writes copies c'. unfold c', UpdateDescriptorSets. fold writes copies.
  destruct (write_updates writeCount writes copyCount copies) as [encoded message] eqn:Hw.
  rewrite !Z.leb_antisym.
  destruct (kMaxArrayElements <? writeCount), (kMaxArrayElements <? copyCount), (missing writeCount pWrites),
    (missing copyCount pCopies), encoded; cbn [negb andb orb]; try done.
  split; [done|]. split; [apply updates_stand_for|]. destruct c as [d ? ? ? ? ? ?]. by destruct d.
Qed.

End Recorded.

(** ** Templates *)
Section Templates.
Context `{CommandChannel} `{Abi}.
Variable remote_id : Z.
Implicit Type c : ObjectClient.

(** A member of the data, from [position] on. *)
Definition member (n : nat) (data : list byte) (position : Z) : Z :=
  le_value (window (Z.to_nat position) n data).

Definition image_at (data : list byte) (p : Z) : VkDescriptorImageInfo.t :=
  VkDescriptorImageInfo.mk (member 8 data p) (member 8 data (p + 8)) (to_i32 (member 4 data (p + 16))).
Definition buffer_at (data : list byte) (p : Z) : VkDescriptorBufferInfo.t :=
  VkDescriptorBufferInfo.mk (member 8 data p) (member 8 data (p + 8)) (member 8 data (p + 16)).

(** Where the application has put element [i] of an entry. *)
Definition place (e : VkDescriptorUpdateTemplateEntry.t) (i : nat) : Z :=
  VkDescriptorUpdateTemplateEntry.offset e + Z.of_nat i * VkDescriptorUpdateTemplateEntry.stride e.

(** No element lies beyond what a size can address. *)
Definition addressable (e : VkDescriptorUpdateTemplateEntry.t) : Prop :=
  0 <= VkDescriptorUpdateTemplateEntry.descriptorCount e /\ 0 <= VkDescriptorUpdateTemplateEntry.offset e /\
  0 <= VkDescriptorUpdateTemplateEntry.stride e /\
  VkDescriptorUpdateTemplateEntry.offset e +
    (VkDescriptorUpdateTemplateEntry.descriptorCount e - 1) * VkDescriptorUpdateTemplateEntry.stride e < 2 ^ 64.

Lemma element_place_exact e j : addressable e -> (j < Z.to_nat (VkDescriptorUpdateTemplateEntry.descriptorCount e))%nat ->
  element_place e (Z.of_nat j) = place e j.
Proof.
  intros (Hc & Ho & Hs & Hm) Hj. unfold element_place, place. change (2 ^ 64) with 18446744073709551616 in Hm.
  set (count := VkDescriptorUpdateTemplateEntry.descriptorCount e) in *.
  assert (0 <= Z.of_nat j * VkDescriptorUpdateTemplateEntry.stride e <= (count - 1) * VkDescriptorUpdateTemplateEntry.stride e)
    by (split; [nia|apply Z.mul_le_mono_nonneg_r; lia]).
  rewrite (wrap64_id (_ * _)) by (unfold is_u64; lia). apply wrap64_id. unfold is_u64. lia.
Qed.

(** The write that an entry of a template stands for. *)
Definition template_write (set : Z) (data : list byte) (e : VkDescriptorUpdateTemplateEntry.t) : VkWriteDescriptorSet.t :=
  let type := VkDescriptorUpdateTemplateEntry.descriptorType e in
  let count := VkDescriptorUpdateTemplateEntry.descriptorCount e in
  let places := map (place e) (seq 0 (Z.to_nat count)) in
  VkWriteDescriptorSet.mk 35 Null set (VkDescriptorUpdateTemplateEntry.dstBinding e)
    (VkDescriptorUpdateTemplateEntry.dstArrayElement e) count type
    match descriptor_kind type with Some 1 => Ref (map (image_at data) places) | _ => Null end
    match descriptor_kind type with Some 2 => Ref (map (buffer_at data) places) | _ => Null end
    match descriptor_kind type with Some 3 => Ref (map (member 8 data) places) | _ => Null end.

Lemma load_member n p data v : load n p data = Some v -> v = member n data p.
Proof. unfold load. destruct (_ <=? _); [|done]. by intros [= <-]. Qed.

(** The kind and the recorded type of a descriptor fit. *)
Lemma descriptor_type_kind type : match descriptor_type type with
  | StorageBuffer | StorageBufferDynamic => descriptor_kind type = Some 2
  | StorageImage => descriptor_kind type = Some 1
  | StorageTexelBuffer => descriptor_kind type = Some 3
  | OtherDescriptor => True
  end.
Proof.
  unfold descriptor_type.
  repeat lazymatch goal with |- context [type =? ?x] => destruct (Z.eqb_spec type x) as [->|_]; [vm_compute; reflexivity|] end. exact I.
Qed.

Definition element_resource (data : list byte) (type p : Z) : DescriptorResource :=
  resource_of type (member 8 data p) (member 8 data (p + 8)) (member 8 data p).

Lemma load_element_resource type p data bs r : load_element type p data = Some (bs, r) ->
  r = element_resource data type p.
Proof.
  unfold load_element, element_resource, resource_of. pose proof (descriptor_type_kind type) as Hk.
  destruct (descriptor_kind type) as [[|[[]|[]|]|]|];
    repeat match goal with |- context [load ?n ?q data] => destruct (load n q data) eqn:?; [|discriminate] end;
    intros [= <- <-];
    repeat match goal with Hl : load _ _ _ = Some _ |- _ => apply load_member in Hl end; subst;
    destruct (descriptor_type type); first [discriminate Hk|reflexivity].
Qed.

Lemma load_elements_resources e n : forall i data bs rs, load_elements e n i data = Some (bs, rs) ->
  rs = map (fun j => element_resource data (VkDescriptorUpdateTemplateEntry.descriptorType e)
                       (element_place e (i + Z.of_nat j))) (seq 0 n).
Proof.
  induction n as [|n IH]; intros i data bs rs; cbn [load_elements].
  - by intros [= <- <-].
  - destruct (load_element _ _ _) as [[b r]|] eqn:Hb; [|done].
    destruct (load_elements _ _ _ _) as [[bs' rs']|] eqn:Hbs; [|done]. intros [= <- <-].
    apply load_element_resource in Hb as ->. apply IH in Hbs as ->. cbn [seq map]. rewrite Z.add_0_r. f_equal.
    rewrite <- (seq_shift n 0), map_map. apply map_ext. intros j. do 2 f_equal. lia.
Qed.

Lemma template_write_resources set data e :
  written_resources (template_write set data e) =
  map (fun j => element_resource data (VkDescriptorUpdateTemplateEntry.descriptorType e) (place e j))
    (seq 0 (Z.to_nat (VkDescriptorUpdateTemplateEntry.descriptorCount e))).
Proof.
  unfold written_resources. apply list_fmap_ext. intros i j Hj. apply lookup_seq in Hj as [-> Hj]. cbn [Nat.add].
  unfold element_resource, resource_of. cbn. f_equal.
  set (n := Z.to_nat _) in *. set (type := VkDescriptorUpdateTemplateEntry.descriptorType e).
  assert (forall A (f : Z -> A) x, nth i (take n (map f (map (place e) (seq 0 n)))) x = f (place e i)) as Hnth.
  { intros A f x. rewrite take_ge by (rewrite !length_map, length_seq; lia).
    rewrite map_map, (nth_indep _ x (f (place e 0))) by (rewrite length_map, length_seq; lia).
    rewrite (map_nth (fun i => f (place e i))), seq_nth by lia. done. }
  pose proof (descriptor_type_kind type) as Hk.
  destruct (descriptor_type type); try rewrite Hk; cbn [arr]; rewrite ?Hnth; done.
Qed.

Lemma load_entries_writes set c data entries : forall bs keys rs,
  load_entries (set_bindings set c) entries data = Some (bs, keys, rs) ->
  Forall addressable entries ->
  zip keys rs = concat (map (fun w => zip (written_keys (descriptor_set_layouts c) w) (written_resources w))
                          (map (template_write set data) entries)).
Proof.
  induction entries as [|e entries IH]; intros bs keys rs Hl Hc; cbn [load_entries] in Hl.
  { by injection Hl as <- <- <-. }
  destruct (load_elements _ _ _ _) as [[b r]|] eqn:Hb; [|done].
  destruct (load_entries _ entries data) as [[[bs' keys'] rs']|]; [|done]. injection Hl as <- <- <-.
  apply Forall_cons in Hc as [Hc Hcs]. apply load_elements_resources in Hb.
  cbn [map concat]. rewrite <- (IH _ _ _ eq_refl Hcs), template_write_resources.
  assert (written_keys (descriptor_set_layouts c) (template_write set data e) =
          update_keys (set_bindings set c) (VkDescriptorUpdateTemplateEntry.dstBinding e)
            (VkDescriptorUpdateTemplateEntry.dstArrayElement e) (VkDescriptorUpdateTemplateEntry.descriptorCount e)) as ->.
  { unfold written_keys, set_bindings, template_write. cbn [VkWriteDescriptorSet.dstSet VkWriteDescriptorSet.dstBinding
      VkWriteDescriptorSet.dstArrayElement VkWriteDescriptorSet.descriptorCount].
    by destruct (descriptor_set_layouts c !! set) as [[|? ?]|]. }
  assert (r = map (fun j => element_resource data (VkDescriptorUpdateTemplateEntry.descriptorType e) (place e j))
                (seq 0 (Z.to_nat (VkDescriptorUpdateTemplateEntry.descriptorCount e)))) as ->.
  { rewrite Hb. apply list_fmap_ext. intros i j [-> Hj]%lookup_seq. cbn [Nat.add]. by rewrite Z.add_0_l, element_place_exact. }
  apply zip_with_app. by rewrite length_update_keys, length_map, length_seq.
Qed.

(** What a template update leaves recorded. *)
Lemma template_recorded set object data entries c c' :
  descriptor_templates c !! object = Some entries -> Forall addressable entries ->
  UpdateDescriptorSetWithTemplate remote_id set object (Some data) c = Some c' ->
  same_records (descriptor_resources (oc_records c'))
    (apply_updates (descriptor_set_layouts c) (map (template_write set data) entries) []
       (descriptor_resources (oc_records c))).
Proof.
  intros He Hc Hu. unfold UpdateDescriptorSetWithTemplate in Hu. rewrite He in Hu.
  destruct (load_entries _ _ _) as [[[bs keys] rs]|] eqn:Hl; [|done]. injection Hu as <-.
  pose proof (load_entries_writes _ _ _ _ _ _ _ Hl Hc) as Hz.
  unfold apply_updates. cbn [fold_left]. intros set'. change (descriptor_resources _) with
    (<[set := Update.overlay (resources_of (descriptor_resources (oc_records c)) set) (Update.store keys rs ∅)]>
       (descriptor_resources (oc_records c))) at 1.
  rewrite resources_of_insert, overlay_store, overlay_empty, Hz. clear.
  generalize (descriptor_resources (oc_records c)). induction entries as [|e entries IH]; intros m; cbn [map concat fold_left].
  { by destruct (decide (set = set')) as [->|]. }
  rewrite fold_left_app, <- IH. unfold apply_write. rewrite !resources_of_assign_all.
  change (VkWriteDescriptorSet.dstSet (template_write set data e)) with set.
  by destruct (decide (set = set)), (decide (set = set')).
Qed.

(** C32: A template update is recorded like the writes it stands for.

    The element [i] of an entry is the structure that lies [offset + i * stride]
    bytes into the application's data; an entry stands for one write of all its
    elements.  A template update leaves the records of every set as carrying out
    these writes one after the other does.  When vkUpdateDescriptorSets can send
    them, that is the same as what it would leave recorded if called with them;
    otherwise, as for a buffer that is null, it would refuse the call and record
    nothing, while the template update still records every element. *)
Theorem template_update_as_writes set object data entries c c' :
  descriptor_templates c !! object = Some entries -> Forall addressable entries ->
  UpdateDescriptorSetWithTemplate remote_id set object (Some data) c = Some c' ->
  let writes := map (template_write set data) entries in
  let n := Z.of_nat (length writes) in
  let updated := UpdateDescriptorSets remote_id n (Ref writes) 0 Null c in
  same_records (descriptor_resources (oc_records c'))
    (apply_updates (descriptor_set_layouts c) writes [] (descriptor_resources (oc_records c))) /\
  if (n <=? kMaxArrayElements) && (write_updates n writes 0 []).1
  then same_records (descriptor_resources (oc_records c')) (descriptor_resources (oc_records updated))
  else updated = c.
Proof.
  intros He Hc Hu writes n updated. pose proof (template_recorded _ _ _ _ _ _ He Hc Hu) as Hr. fold writes in Hr.
  split; [exact Hr|]. assert (arr (Ref writes) n = writes) as Ha by (cbn; apply take_ge; unfold n; lia).
  destruct (Z.leb_spec n kMaxArrayElements) as [Hn|Hn]; cbn [andb].
  - destruct (write_updates n writes 0 []) as [[|] message] eqn:Hw; cbn [fst].
    + rewrite Hr. symmetry. unfold updated. rewrite <- Ha at 2.
      apply (updates_recorded remote_id n (Ref writes) 0 Null c); try done; [unfold missing; by rewrite andb_false_r|].
      rewrite Ha. cbn [arr]. by rewrite Hw.
    + unfold updated, UpdateDescriptorSets. rewrite Ha. cbn [arr]. rewrite Hw. by case_if.
  - unfold updated, UpdateDescriptorSets. by rewrite (proj2 (Z.ltb_lt _ _) Hn).
Qed.

End Templates.

Module DescriptorDemo.

(** Bindings 0, 1 and 4, of which 1 is empty, as an application may list them. *)
Definition bindings : list DescriptorBindingMetadata := [mkBinding 4 2; mkBinding 1 0; mkBinding 0 3].

(** From element 1 of binding 0 on, four descriptors end in binding 4. *)
Lemma update_slots_consecutive_witness :
  layout_slots (sort_bindings bindings) = [0; 1; 2; 17179869184; 17179869185] /\
  update_keys (Some (sort_bindings bindings)) 0 1 4 = [1; 2; 17179869184; 17179869185].
Proof.
  split; [by vm_compute|].
  destruct (update_slots_consecutive bindings (mkBinding 0 3) 1 4) as (Hd & i & Hi & Hk).
  - by apply (bool_decide_unpack _).
  - repeat constructor; done.
  - by repeat (apply list_elem_of_here || apply list_elem_of_further).
  - done.
  - assert (i = 1%nat) as -> by (apply (NoDup_lookup _ _ _ _ Hd Hi); by vm_compute).
    etrans; [apply Hk|]; by vm_compute.
Defined.

#[local] Existing Instance PNextFacts.Instances.abi.
#[local] Instance remote : Remote :=
  {| world := list (Z * list byte); FlushMappedMemory := 0; DownloadMappedMemory := 0;
     round_trip _ _ w := (None, w) |}.
#[local] Instance channel : CommandChannel :=
  {| command_opcode _ := 0; send_command opcode payload w := w ++ [(opcode, payload)] |}.

Definition records : Device := mkDevice ∅ ∅ {[ 9 := {[ 0 := mkResource StorageBuffer 5 ]} ]} ∅ ∅ ∅ 1 ∅ ∅.

(** A template with two storage buffers, 24 bytes apart, for binding 0 on. *)
Definition entries : list VkDescriptorUpdateTemplateEntry.t :=
  [VkDescriptorUpdateTemplateEntry.mk 0 0 2 VK_DESCRIPTOR_TYPE_STORAGE_BUFFER 8 24].

(** Two buffers in the application's data, the first 8 bytes in. *)
Definition data (first second : Z) : list byte :=
  Writer.u64 0 ++ Writer.handle first ++ Writer.u64 0 ++ Writer.u64 16 ++
  Writer.handle second ++ Writer.u64 0 ++ Writer.u64 16.

Definition client : ObjectClient :=
  mkObjectClient remote records ∅ ∅ {[ 9 := [mkBinding 0 1; mkBinding 4 1] ]} ∅ {[ 3 := entries ]} [].

Lemma entries_addressable : Forall addressable entries.
Proof. repeat constructor; by vm_compute. Qed.

(** Two buffers are recorded as vkUpdateDescriptorSets records them, in the slots of
    two bindings.  If the second is null, vkUpdateDescriptorSets does nothing; the
    template update records the first all the same. *)
Lemma template_update_as_writes_witness :
  let writes second := map (template_write 9 (data 7 second)) entries in
  let updated second := UpdateDescriptorSets 1 1 (Ref (writes second)) 0 Null client in
  (exists c', UpdateDescriptorSetWithTemplate 1 9 3 (Some (data 7 8)) client = Some c' /\
     resources_of (descriptor_resources (oc_records c')) 9 =
       {[ 0 := mkResource StorageBuffer 7; descriptor_slot_key 4 0 := mkResource StorageBuffer 8 ]} /\
     same_records (descriptor_resources (oc_records c')) (descriptor_resources (oc_records (updated 8)))) /\
  (exists c', UpdateDescriptorSetWithTemplate 1 9 3 (Some (data 7 0)) client = Some c' /\
     resources_of (descriptor_resources (oc_records c')) 9 = {[ 0 := mkResource StorageBuffer 7 ]} /\
     updated 0 = client).
Proof.
  assert (descriptor_templates client !! 3 = Some entries) as He by by vm_compute.
  split.
  - destruct (UpdateDescriptorSetWithTemplate 1 9 3 (Some (data 7 8)) client) as [c'|] eqn:Hu; [|by vm_compute in Hu].
    exists c'. split; [done|]. split; [revert Hu; vm_compute; by intros [= <-]|].
    exact (proj2 (template_update_as_writes 1 9 3 (data 7 8) entries client c' He entries_addressable Hu)).
  - destruct (UpdateDescriptorSetWithTemplate 1 9 3 (Some (data 7 0)) client) as [c'|] eqn:Hu; [|by vm_compute in Hu].
    exists c'. split; [done|]. split; [revert Hu; vm_compute; by intros [= <-]|].
    exact (proj2 (template_update_as_writes 1 9 3 (data 7 0) entries client c' He entries_addressable Hu)).
Defined.

End DescriptorDemo.
