(* ===== verification/ServerInstance.v ===== *)
(** The handshake and the queries of physical devices on the server:
    [src/server/handlers_instance.cpp].

    A query is decoded, asked of the driver and answered; what the client may not
    know of (memory flags, extensions outside of the contract) is taken out of the
    answer here. *)

From stdpp Require Import list gmap strings.
From S2P Require Import Prelude Wire Codec CLayout VkStructs ExtensionContract PNext VkCreateInfos VkLimits.
From S2P Require Import MarshalBase Marshal MarshalValues.
From S2P Require Import Objects Session ServerMemory ServerCommands ServerDevice.
Open Scope wire_scope.

(** ** The contract *)

(** The strings the build generates: all C strings. *)
Class Schema := {
  kWireSchemaRevision : list byte; kRegistrySha256 : list byte; kWireAbi : list byte;
  kCommandSetDigest : list byte }.

Definition VK_API_VERSION_1_0 : Z := Z.shiftl 1 22.
Definition VK_API_VERSION_1_1 : Z := Z.lor (Z.shiftl 1 22) (Z.shiftl 1 12).
Definition VK_API_VERSION_1_2 : Z := Z.lor (Z.shiftl 1 22) (Z.shiftl 2 12).
Definition VK_API_VERSION_1_3 : Z := Z.lor (Z.shiftl 1 22) (Z.shiftl 3 12).

Definition VK_KHR_SWAPCHAIN : string := "VK_KHR_swapchain".
Definition VK_EXT_DESCRIPTOR_INDEXING : string := "VK_EXT_descriptor_indexing".

(** The characters of a literal. *)
Definition chars (s : string) : list byte := String.list_byte_of_string s.

(** A name and its revision in an array of zeros.

    extension_contract.hpp:9-9. *)
Definition contract_entry (name : string) (spec_version : Z) : VkExtensionProperties.t :=
  VkExtensionProperties.mk (chars name ++ replicate (256 - length (chars name)) x00) spec_version.

(** extension_contract.hpp:16-29. *)
Definition kDescriptorIndexingDeviceExtension : VkExtensionProperties.t := contract_entry VK_EXT_DESCRIPTOR_INDEXING 2.
Definition kBufferDeviceAddressDeviceExtension : VkExtensionProperties.t := contract_entry VK_KHR_BUFFER_DEVICE_ADDRESS 1.
Definition kSynchronization2DeviceExtension : VkExtensionProperties.t := contract_entry VK_KHR_SYNCHRONIZATION_2 1.

(** [kRequiredDeviceExtensions] with the revisions of the headers.

    extension_contract.hpp:31-38. *)
Definition kRequiredDeviceExtensionEntries : list VkExtensionProperties.t :=
  zip_with contract_entry kRequiredDeviceExtensions [1; 1; 1; 1; 2; 1].

(** ** The driver *)

(** The parameters of the queries about an image format. *)
Record image_format := mkImageFormat {
  if_format : Z; if_type : Z; if_tiling : Z; if_usage : Z; if_flags : Z }.

(** The parameters of the queries about a sparse image format. *)
Record sparse_format := mkSparseFormat {
  sf_format : Z; sf_type : Z; sf_samples : Z; sf_usage : Z; sf_tiling : Z }.

(** [VkPhysicalDeviceFragmentShadingRateKHR] without its type and chain. *)
Record ShadingRate := mkRate { sampleCounts : Z; fragmentSize : VkExtent2D.t }.
Definition zero_rate : ShadingRate := mkRate 0 (VkExtent2D.mk 0 0).

(** As in [MemoryDriver], a call that enumerates is its count and, given the
    capacity, the count and the array it leaves; one that fills a chain of output
    structures returns the filled chain. *)
Class InstanceDriver (W : Type) := {
  queue_family_count : Z -> W -> Z;
  queue_family_values : Z -> Z -> W -> Z * list VkQueueFamilyProperties.t;
  vkGetPhysicalDeviceFeatures : Z -> W -> VkPhysicalDeviceFeatures.t;
  vkGetPhysicalDeviceFormatProperties : Z -> Z -> W -> VkFormatProperties.t;
  vkGetPhysicalDeviceImageFormatProperties : Z -> image_format -> W -> Z * VkImageFormatProperties.t;
  sparse_format_count : Z -> sparse_format -> W -> Z;
  sparse_format_values : Z -> sparse_format -> Z -> W -> Z * list VkSparseImageFormatProperties.t;
  vkGetPhysicalDeviceFeatures2 : Z -> ptr chain -> W -> VkPhysicalDeviceFeatures.t * ptr chain;
  vkGetPhysicalDeviceProperties2 : Z -> ptr chain -> W -> VkPhysicalDeviceProperties.t * ptr chain;
  vkGetPhysicalDeviceFormatProperties2 : Z -> Z -> W -> VkFormatProperties.t;
  vkGetPhysicalDeviceImageFormatProperties2 :
    Z -> image_format -> ptr chain -> ptr chain -> W -> Z * VkImageFormatProperties.t * ptr chain;
  queue_family_count2 : Z -> W -> Z;
  queue_family_values2 : Z -> Z -> W -> Z * list VkQueueFamilyProperties.t;
  vkGetPhysicalDeviceMemoryProperties2 : Z -> W -> VkPhysicalDeviceMemoryProperties.t;
  sparse_format_count2 : Z -> sparse_format -> W -> Z;
  sparse_format_values2 : Z -> sparse_format -> Z -> W -> Z * list VkSparseImageFormatProperties.t;
  has_fragment_shading_rates : W -> bool;
  shading_rate_count : Z -> W -> Z * Z;
  shading_rate_values : Z -> Z -> W -> Z * Z * list ShadingRate;
  device_extension_count : Z -> W -> Z;
  device_extension_values : Z -> Z -> W -> Z * list VkExtensionProperties.t }.

(** ** Raw structs *)

(** The members in memory: [sizeof] is 12, with no padding. *)
Definition raw_FormatProperties (s : VkFormatProperties.t) : list byte := write_FormatProperties s.

(** Likewise 32 bytes: the last member is at offset 24. *)
Definition raw_ImageFormatProperties (s : VkImageFormatProperties.t) : list byte := write_ImageFormatProperties s.

(** 55 words. *)
Definition raw_PhysicalDeviceFeatures (s : VkPhysicalDeviceFeatures.t) : list byte := write_PhysicalDeviceFeatures s.

Section Queries.
Context `{Abi} `{Schema} {W : Type} {HD : MemoryDriver W} {HI : InstanceDriver W}.
(** The server's physical devices, [loader_api_version] and whether
    VK_REMOTING_EXPERIMENTAL_COHERENT is set in its environment. *)
Variable physical_devices : list Z.
Variable loader_api_version : Z.
Variable coherent_enabled : bool.
Implicit Type c : Session W.
Import Handler.

(** ** The handshake *)

(** [c.reader.string(&s)] on an empty string. *)
Definition rd_string c : list byte * Session W :=
  let (s, c) := rd Reader.string c in (default [] s, c).

Definition set_capabilities (v : Z) (t : ObjectTables) : ObjectTables :=
  {| capabilities := v; table := table t; memory_metadata := memory_metadata t;
     device_physical_devices := device_physical_devices t;
     command_buffer_devices := command_buffer_devices t;
     descriptor_set_owners := descriptor_set_owners t;
     descriptor_update_template_owners := descriptor_update_template_owners t;
     descriptor_update_template_entries := descriptor_update_template_entries t;
     sampler_ycbcr_conversion_owners := sampler_ycbcr_conversion_owners t;
     swapchain_devices := swapchain_devices t; swapchain_surfaces := swapchain_surfaces t;
     swapchain_image_ids := swapchain_image_ids t |}.

(** [std::string == const char*]. *)
Definition same_string (s text : list byte) : bool := bool_decide (s = Writer.strlen_prefix text).

(** handlers_instance.cpp:33-38. *)
Definition server_capabilities : Z := if coherent_enabled then kCapabilityWholeCopyHostCoherent else 0.

(** handlers_instance.cpp:40-44. *)
Definition capabilities_valid (supported required : Z) : bool :=
  (Z.ldiff supported kKnownCapabilities =? 0) && (Z.ldiff required kKnownCapabilities =? 0) &&
  (Z.ldiff required supported =? 0) && (Z.ldiff required (Z.land supported server_capabilities) =? 0).

(** handlers_instance.cpp:22-66. *)
Definition handle_Handshake c : Session W :=
  let (schema, c) := rd_string c in
  let (registry, c) := rd_string c in
  let (abi, c) := rd_string c in
  let (digest, c) := rd_string c in
  let (supported, c) := rd Reader.u32 c in
  let (required, c) := rd Reader.u32 c in
  let selected := Z.land supported server_capabilities in
  let match_ := Reader.ok (reader c) && (Reader.remaining (reader c) =? 0)%nat &&
                capabilities_valid supported required &&
                same_string schema kWireSchemaRevision && same_string registry kRegistrySha256 &&
                same_string abi kWireAbi && same_string digest kCommandSetDigest in
  let c := reply (write (Writer.u32 (status_code (if match_ then Ok else DecodeError)) ++
                         Writer.string (Some kCommandSetDigest) ++
                         Writer.u32 (wrap32 (Z.of_nat (length physical_devices))) ++
                         Writer.u32 loader_api_version ++
                         Writer.u32 (if match_ then selected else 0)) c) in
  if match_ then set_tables (set_capabilities selected (tables c)) c else set_close c.

(** handlers_instance.cpp:68-76. *)
Definition handle_EnumeratePhysicalDevices c : Session W :=
  let n := length physical_devices in
  reply (write (Writer.u32 (status_code Ok) ++ Writer.i32 VK_SUCCESS ++ Writer.u32 (wrap32 (Z.of_nat n)) ++
                concat (map (fun i => Writer.handle (Z.of_nat i + 1)) (seq 0 n))) c).

(** ** What the queries hold *)

(** [s.server.physical_device_from_id(s.reader.handle())]. *)
Definition r_physical : Rd Z := id <- r_handle ; rret (physical_device_from_id physical_devices id).

(** The check of every query: its device is known and its parameters were all
    there. *)
Definition r_query {A} (m : Rd A) : Rd (Z * A) :=
  device <- r_physical ; x <- m ; r_ok ;! rguard (valid device) ;! rret (device, x).

(** handlers_instance.cpp:79-81. *)
Definition read_device_query : Rd Z := x <- r_query (rret tt) ; rret x.1.

(** handlers_instance.cpp:169-174. *)
Definition read_image_format : Rd image_format :=
  format <- r_i32 ; type <- r_i32 ; tiling <- r_i32 ; usage <- r_u32 ; flags <- r_u32 ;
  rret (mkImageFormat format type tiling usage flags).

(** handlers_instance.cpp:192-196. *)
Definition read_sparse_format : Rd sparse_format :=
  format <- r_i32 ; type <- r_i32 ; samples <- r_i32 ; usage <- r_u32 ; tiling <- r_i32 ;
  rret (mkSparseFormat format type samples usage tiling).

(** A query that is answered into a chain.

    handlers_instance.cpp:215-229. *)
Definition read_chain_query (context : PNextContext) : Rd (Z * ptr chain) :=
  device <- read_device_query ; chain <- read_pnext_output_topology context ; rret (device, chain).

(** handlers_instance.cpp:280-304. *)
Definition read_image_format_query2 (t : ObjectTables) : Rd (Z * image_format * ptr chain * ptr chain) :=
  x <- r_query read_image_format ;
  input <- read_pnext_chain (HR := resolver_of t) ImageCreate 0 ;
  output <- read_pnext_output_topology ImageFormatPropertiesOutput ; rret (x.1, x.2, input, output).

(** ** The queries *)

(** The values of an enumeration, when there are any.

    handlers_instance.cpp:126-129. *)
Definition enumerated {A} (values : Z -> W -> Z * list A) (n : Z) (w : W) : Z * list A :=
  if n =? 0 then (0, []) else values n w.

(** handlers_instance.cpp:78-93. *)
Definition handle_GetPhysicalDeviceProperties : Session W -> Session W :=
  decoded (fun _ => read_device_query) (fun device c =>
    reply_ok (write_PhysicalDeviceProperties (vkGetPhysicalDeviceProperties device (driver c))) c).

(** What is shown of a memory type.

    handlers_instance.cpp:106-107. *)
Definition public_memory_type (cap : Z) (x : VkMemoryType.t) : VkMemoryType.t :=
  VkMemoryType.mk (public_memory_property_flags (VkMemoryType.propertyFlags x) cap) (VkMemoryType.heapIndex x).

(** handlers_instance.cpp:95-116. *)
Definition handle_GetPhysicalDeviceMemoryProperties : Session W -> Session W :=
  decoded (fun _ => read_device_query) (fun device c =>
    let props := vkGetPhysicalDeviceMemoryProperties device (driver c) in
    let nt := VkPhysicalDeviceMemoryProperties.memoryTypeCount props in
    let nh := VkPhysicalDeviceMemoryProperties.memoryHeapCount props in
    reply_ok
      (Writer.u32 nt ++
       concat (map (fun x => write_memory_type (public_memory_type (capabilities (tables c)) x))
                 (take (Z.to_nat nt) (VkPhysicalDeviceMemoryProperties.memoryTypes props))) ++
       Writer.u32 nh ++
       concat (map write_memory_heap (take (Z.to_nat nh) (VkPhysicalDeviceMemoryProperties.memoryHeaps props)))) c).

(** handlers_instance.cpp:118-140. *)
Definition handle_GetPhysicalDeviceQueueFamilyProperties : Session W -> Session W :=
  decoded (fun _ => read_device_query) (fun device c =>
    let (n, families) := enumerated (queue_family_values device) (queue_family_count device (driver c)) (driver c) in
    reply_ok (Writer.u32 n ++ concat (map write_QueueFamilyProperties (take (Z.to_nat n) families))) c).

(** handlers_instance.cpp:142-152. *)
Definition handle_GetPhysicalDeviceFeatures : Session W -> Session W :=
  decoded (fun _ => read_device_query) (fun device c =>
    reply_ok (Writer.bytes (raw_PhysicalDeviceFeatures (vkGetPhysicalDeviceFeatures device (driver c)))) c).

(** handlers_instance.cpp:154-167. *)
Definition handle_GetPhysicalDeviceFormatProperties : Session W -> Session W :=
  decoded (fun _ => r_query r_i32) (fun x c =>
    reply_ok (Writer.bytes (raw_FormatProperties (vkGetPhysicalDeviceFormatProperties x.1 x.2 (driver c)))) c).

(** handlers_instance.cpp:169-190. *)
Definition handle_GetPhysicalDeviceImageFormatProperties : Session W -> Session W :=
  decoded (fun _ => r_query read_image_format) (fun x c =>
    let (result, props) := vkGetPhysicalDeviceImageFormatProperties x.1 x.2 (driver c) in
    reply_ok (Writer.i32 result ++ Writer.bytes (raw_ImageFormatProperties props)) c).

(** handlers_instance.cpp:192-213. *)
Definition handle_GetPhysicalDeviceSparseImageFormatProperties : Session W -> Session W :=
  decoded (fun _ => r_query read_sparse_format) (fun x c =>
    let n := sparse_format_count x.1 x.2 (driver c) in
    if kMaxArrayElements <? n then reply_status DecodeError c
    else
      let (n, values) := enumerated (sparse_format_values x.1 x.2) n (driver c) in
      reply_ok (Writer.u32 n ++ concat (map write_SparseImageFormatProperties (take (Z.to_nat n) values))) c).

(** handlers_instance.cpp:215-237. *)
Definition handle_GetPhysicalDeviceFeatures2 : Session W -> Session W :=
  decoded (fun _ => read_chain_query QueryFeaturesOutput) (fun x c =>
    let (features, chain) := vkGetPhysicalDeviceFeatures2 x.1 x.2 (driver c) in
    reply_ok (write_PhysicalDeviceFeatures features ++
              snd (write_pnext_output_values QueryFeaturesOutput chain)) c).

(** handlers_instance.cpp:239-263. *)
Definition handle_GetPhysicalDeviceProperties2 : Session W -> Session W :=
  decoded (fun _ => read_chain_query QueryPropertiesOutput) (fun x c =>
    let (props, chain) := vkGetPhysicalDeviceProperties2 x.1 x.2 (driver c) in
    reply_ok (write_PhysicalDeviceProperties props ++
              snd (write_pnext_output_values QueryPropertiesOutput chain)) c).

(** handlers_instance.cpp:265-278. *)
Definition handle_GetPhysicalDeviceFormatProperties2 : Session W -> Session W :=
  decoded (fun _ => r_query r_i32) (fun x c =>
    reply_ok (write_FormatProperties (vkGetPhysicalDeviceFormatProperties2 x.1 x.2 (driver c))) c).

(** handlers_instance.cpp:280-313. *)
Definition handle_GetPhysicalDeviceImageFormatProperties2 : Session W -> Session W :=
  decoded read_image_format_query2 (fun x c =>
    let '(device, info, input, output) := x in
    let '(result, props, chain) := vkGetPhysicalDeviceImageFormatProperties2 device info input output (driver c) in
    reply_ok (Writer.i32 result ++ write_ImageFormatProperties props ++
              snd (write_pnext_output_values ImageFormatPropertiesOutput chain)) c).

(** handlers_instance.cpp:315-334. *)
Definition handle_GetPhysicalDeviceQueueFamilyProperties2 : Session W -> Session W :=
  decoded (fun _ => read_device_query) (fun device c =>
    let (n, families) := enumerated (queue_family_values2 device) (queue_family_count2 device (driver c)) (driver c) in
    reply_ok (Writer.u32 n ++ concat (map write_QueueFamilyProperties (take (Z.to_nat n) families))) c).

(** The loop over the first [memoryTypeCount] types.

    handlers_instance.cpp:346-351. *)
Definition public_memory_properties (cap : Z) (s : VkPhysicalDeviceMemoryProperties.t) :
    VkPhysicalDeviceMemoryProperties.t :=
  let n := Z.to_nat (VkPhysicalDeviceMemoryProperties.memoryTypeCount s) in
  let types := VkPhysicalDeviceMemoryProperties.memoryTypes s in
  VkPhysicalDeviceMemoryProperties.mk (VkPhysicalDeviceMemoryProperties.memoryTypeCount s)
    (map (public_memory_type cap) (take n types) ++ drop n types)
    (VkPhysicalDeviceMemoryProperties.memoryHeapCount s) (VkPhysicalDeviceMemoryProperties.memoryHeaps s).

(** handlers_instance.cpp:336-355. *)
Definition handle_GetPhysicalDeviceMemoryProperties2 : Session W -> Session W :=
  decoded (fun _ => read_device_query) (fun device c =>
    reply_ok (write_PhysicalDeviceMemoryProperties
                (public_memory_properties (capabilities (tables c))
                   (vkGetPhysicalDeviceMemoryProperties2 device (driver c)))) c).

(** handlers_instance.cpp:357-381. *)
Definition handle_GetPhysicalDeviceSparseImageFormatProperties2 : Session W -> Session W :=
  decoded (fun _ => r_query read_sparse_format) (fun x c =>
    let (n, values) := enumerated (sparse_format_values2 x.1 x.2) (sparse_format_count2 x.1 x.2 (driver c)) (driver c) in
    reply_ok (Writer.u32 n ++ concat (map write_SparseImageFormatProperties (take (Z.to_nat n) values))) c).

(** handlers_instance.cpp:410-413. *)
Definition write_shading_rate (x : ShadingRate) : list byte :=
  Writer.u32 (sampleCounts x) ++ Writer.u32 (VkExtent2D.width (fragmentSize x)) ++
  Writer.u32 (VkExtent2D.height (fragmentSize x)).

(** handlers_instance.cpp:383-416. *)
Definition handle_GetPhysicalDeviceFragmentShadingRatesKHR : Session W -> Session W :=
  decoded (fun _ => read_device_query) (fun device c =>
    if negb (has_fragment_shading_rates (driver c)) then reply_status UnsupportedCommand c
    else
      let (result, n) := shading_rate_count device (driver c) in
      if kMaxArrayElements <? n then reply_status DecodeError c
      else
        let '(result, n, rates) :=
          if (result =? VK_SUCCESS) && negb (n =? 0) then shading_rate_values device n (driver c)
          else (result, n, replicate (Z.to_nat n) zero_rate) in
        reply_ok (Writer.i32 result ++ Writer.u32 n ++
                  concat (map write_shading_rate (take (Z.to_nat n) rates))) c).

(** ** Extensions *)

(** [strcmp(extension.extensionName, name) == 0]. *)
Definition named (name : list byte) (x : VkExtensionProperties.t) : bool :=
  bool_decide (Writer.strlen_prefix (VkExtensionProperties.extensionName x) = Writer.strlen_prefix name).

(** handlers_instance.cpp:431-435. *)
Definition find_extension (name : list byte) (exts : list VkExtensionProperties.t) :
    option VkExtensionProperties.t := List.find (named name) exts.

(** The contract's entry with the lower of both revisions, if the driver has
    the extension.

    handlers_instance.cpp:438-445. *)
Definition offered (exts : list VkExtensionProperties.t) (entry : VkExtensionProperties.t) :
    list VkExtensionProperties.t :=
  match find_extension (VkExtensionProperties.extensionName entry) exts with
  | Some x => [VkExtensionProperties.mk (VkExtensionProperties.extensionName entry)
                 (Z.min (VkExtensionProperties.specVersion x) (VkExtensionProperties.specVersion entry))]
  | None => []
  end.

(** handlers_instance.cpp:430-481. *)
Definition supported_extensions (exts : list VkExtensionProperties.t) : list VkExtensionProperties.t :=
  match find_extension (chars VK_KHR_SWAPCHAIN) exts with Some x => [x] | None => [] end ++
  offered exts kDescriptorIndexingDeviceExtension ++
  offered exts kBufferDeviceAddressDeviceExtension ++
  offered exts kSynchronization2DeviceExtension ++
  if forallb (fun entry => match find_extension (VkExtensionProperties.extensionName entry) exts with
                           | Some _ => true
                           | None => false
                           end) kRequiredDeviceExtensionEntries
  then concat (map (offered exts) kRequiredDeviceExtensionEntries) else [].

(** handlers_instance.cpp:418-489. *)
Definition handle_EnumerateDeviceExtensionProperties : Session W -> Session W :=
  decoded (fun _ => read_device_query) (fun device c =>
    let (_, exts) := enumerated (device_extension_values device) (device_extension_count device (driver c)) (driver c) in
    let supported := supported_extensions exts in
    reply_ok (Writer.i32 VK_SUCCESS ++ Writer.u32 (wrap32 (Z.of_nat (length supported))) ++
              concat (map write_ExtensionProperties supported)) c).

(** The queries under the names they are registered with.

    handlers_instance.cpp:494-518. *)
Definition query_handlers : list (string * (Session W -> Session W)) :=
  [("vkEnumeratePhysicalDevices", handle_EnumeratePhysicalDevices);
   ("vkGetPhysicalDeviceProperties", handle_GetPhysicalDeviceProperties);
   ("vkGetPhysicalDeviceMemoryProperties", handle_GetPhysicalDeviceMemoryProperties);
   ("vkGetPhysicalDeviceQueueFamilyProperties", handle_GetPhysicalDeviceQueueFamilyProperties);
   ("vkGetPhysicalDeviceFeatures", handle_GetPhysicalDeviceFeatures);
   ("vkGetPhysicalDeviceFormatProperties", handle_GetPhysicalDeviceFormatProperties);
   ("vkGetPhysicalDeviceImageFormatProperties", handle_GetPhysicalDeviceImageFormatProperties);
   ("vkGetPhysicalDeviceSparseImageFormatProperties", handle_GetPhysicalDeviceSparseImageFormatProperties);
   ("vkGetPhysicalDeviceFeatures2", handle_GetPhysicalDeviceFeatures2);
   ("vkGetPhysicalDeviceProperties2", handle_GetPhysicalDeviceProperties2);
   ("vkGetPhysicalDeviceFormatProperties2", handle_GetPhysicalDeviceFormatProperties2);
   ("vkGetPhysicalDeviceImageFormatProperties2", handle_GetPhysicalDeviceImageFormatProperties2);
   ("vkGetPhysicalDeviceQueueFamilyProperties2", handle_GetPhysicalDeviceQueueFamilyProperties2);
   ("vkGetPhysicalDeviceMemoryProperties2", handle_GetPhysicalDeviceMemoryProperties2);
   ("vkGetPhysicalDeviceSparseImageFormatProperties2", handle_GetPhysicalDeviceSparseImageFormatProperties2);
   ("vkGetPhysicalDeviceFragmentShadingRatesKHR", handle_GetPhysicalDeviceFragmentShadingRatesKHR);
   ("vkEnumerateDeviceExtensionProperties", handle_EnumerateDeviceExtensionProperties)].

End Queries.
