(* ===== verification/ClientInstance.v ===== *)
(** Instances and physical devices on the client: [src/client/icd.cpp] and
    [src/client/physical_device.cpp].

    An instance is a connection with what the handshake agreed on.  A physical
    device is its position in the instance's list; a query asks the server and
    lowers the answer to what the client supports. *)

From stdpp Require Import list gmap strings.
From S2P Require Import Prelude Wire Codec CLayout VkStructs ExtensionContract PNext VkCreateInfos VkLimits.
From S2P Require Import MarshalBase Marshal MarshalValues.
From S2P Require Import HostMemory ClientSync ClientCommands ClientObjects ServerInstance.
Open Scope wire_scope.

(** ** State *)

(** remote_objects.hpp:115-122. *)
Record RemotePhysicalDevice := mkPhysical {
  pd_remote_id : Z; pd_map_alignment : Z; pd_api_version : Z; pd_memory_type_flags : list Z }.

(** A [RemoteInstance] and the world behind its connection.

    remote_objects.hpp:95-113. *)
Record InstanceClient `{Remote} := mkInstance {
  physical_devices : list RemotePhysicalDevice; enabled_extensions : list (list byte);
  requested_api_version : Z; server_loader_api_version : Z; negotiated_api_version : Z;
  ri_capabilities : Z; ic_world : world }.

(** What the code looks at of a [VkInstanceCreateInfo]: the types of its chain,
    the version of the application, if it names one, and the extensions, which may
    be null. *)
Record InstanceCreateInfo := mkInstanceInfo {
  ii_chain : list Z; ii_api_version : option Z; ii_layers : Z;
  ii_extension_count : Z; ii_extensions : ptr (list (option (list byte))) }.

Definition VK_ERROR_INCOMPATIBLE_DRIVER : Z := -9.
Definition VK_ERROR_FORMAT_NOT_SUPPORTED : Z := -11.
Definition VK_STRUCTURE_TYPE_LOADER_INSTANCE_CREATE_INFO : Z := 47.
Definition VK_STRUCTURE_TYPE_DEBUG_REPORT_CALLBACK_CREATE_INFO_EXT : Z := 1000011000.
Definition VK_STRUCTURE_TYPE_DEBUG_UTILS_MESSENGER_CREATE_INFO_EXT : Z := 1000128004.

Module Instance_.
Section Setters.
Context `{Remote}.
Implicit Type c : InstanceClient.

Definition set_world (w : world) c : InstanceClient :=
  mkInstance _ (physical_devices c) (enabled_extensions c) (requested_api_version c)
    (server_loader_api_version c) (negotiated_api_version c) (ri_capabilities c) w.
Definition set_physical_devices (ds : list RemotePhysicalDevice) c : InstanceClient :=
  mkInstance _ ds (enabled_extensions c) (requested_api_version c)
    (server_loader_api_version c) (negotiated_api_version c) (ri_capabilities c) (ic_world c).

(** The device behind a handle. *)
Definition device_at (h : nat) c : RemotePhysicalDevice :=
  default (mkPhysical 0 1 VK_API_VERSION_1_0 []) (physical_devices c !! h).
Definition set_device (h : nat) (d : RemotePhysicalDevice) c : InstanceClient :=
  set_physical_devices (<[h := d]> (physical_devices c)) c.

End Setters.
End Instance_.

(** ** Arrays of the application *)

(** The two calls of an enumeration: how many values there are, or as many as the
    caller has room for ([*pCount], if there is an array).  The result, the new
    count, and what is stored.

    extension_contract.hpp:89-104. *)
Definition copy_out {A} (room : Z) (array : bool) (values : list A) : Z * Z * list A :=
  let n := Z.of_nat (length values) in
  if negb array then (VK_SUCCESS, n, [])
  else
    let to_write := if room <? n then room else n in
    (if to_write <? n then VK_INCOMPLETE else VK_SUCCESS, to_write, take (Z.to_nat to_write) values).

(** An enumeration that failed: its result, and no values. *)
Definition no_values {A} (result : Z) : Z * Z * list A := (result, 0, []).

Section Instances.
Context `{CommandChannel} `{Abi} `{Schema}.
(** Compiled for Windows; VK_REMOTING_EXPERIMENTAL_COHERENT is set for the
    application. *)
Variable windows : bool.
Variable coherent_requested : bool.
Implicit Type c : InstanceClient.
Import Instance_.

(** ** Instances *)

(** icd.cpp:54-72. *)
Definition valid_instance_pnext (chain : list Z) : bool :=
  forallb (fun type => (type =? VK_STRUCTURE_TYPE_LOADER_INSTANCE_CREATE_INFO)
                       || (type =? VK_STRUCTURE_TYPE_DEBUG_REPORT_CALLBACK_CREATE_INFO_EXT)
                       || (type =? VK_STRUCTURE_TYPE_DEBUG_UTILS_MESSENGER_CREATE_INFO_EXT)) chain.

(** icd.cpp:168-176. *)
Definition supported_instance_extensions : list (list byte) :=
  [chars "VK_KHR_surface"; chars (if windows then "VK_KHR_win32_surface" else "VK_KHR_wayland_surface");
   chars "VK_KHR_get_physical_device_properties2"].

(** icd.cpp:83-87. *)
Definition EnumerateInstanceVersion (out : bool) : Z * Z :=
  if out then (VK_SUCCESS, VK_API_VERSION_1_2) else (VK_ERROR_INITIALIZATION_FAILED, 0).

(** The names with the revisions of the headers.

    icd.cpp:96-147. *)
Definition EnumerateInstanceExtensionProperties (layer : bool) (room : option Z) (array : bool) :
    Z * Z * list VkExtensionProperties.t :=
  match room with
  | None => no_values VK_ERROR_INITIALIZATION_FAILED
  | Some room =>
      if layer then (VK_ERROR_LAYER_NOT_PRESENT, room, [])
      else copy_out room array
             [contract_entry "VK_KHR_surface" 25;
              if windows then contract_entry "VK_KHR_win32_surface" 6
              else contract_entry "VK_KHR_wayland_surface" 6;
              contract_entry "VK_KHR_get_physical_device_properties2" 2]
  end.

(** icd.cpp:177-188. *)
Definition extension_supported (requested : option (list byte)) : bool :=
  match requested with
  | None => false
  | Some name => existsb (fun available => bool_decide (Writer.strlen_prefix name = available))
                   supported_instance_extensions
  end.

(** The elements of an array of names; without an array every name is null. *)
Definition requested_names (n : Z) (p : ptr (list (option (list byte)))) : list (option (list byte)) :=
  match p with
  | Ref _ => arr p n
  | _ => replicate (Z.to_nat n) None
  end.

(** icd.cpp:214-218. *)
Definition client_capabilities : Z := if coherent_requested then kCapabilityWholeCopyHostCoherent else 0.

(** icd.cpp:209-220. *)
Definition handshake_request : list byte :=
  Writer.string (Some kWireSchemaRevision) ++ Writer.string (Some kRegistrySha256) ++
  Writer.string (Some kWireAbi) ++ Writer.string (Some kCommandSetDigest) ++
  Writer.u32 client_capabilities ++ Writer.u32 0.

(** The server's loader version and the capabilities, if the reply is accepted.

    icd.cpp:231-244. *)
Definition read_handshake_reply (reply : list byte) : option (Z * Z) :=
  let (_, r) := Reader.u32 (Reader.make reply) in
  let (digest, r) := Reader.string r in
  let (_, r) := Reader.u32 r in
  let (version, r) := Reader.u32 r in
  let (cap, r) := Reader.u32 r in
  if negb (Reader.ok r) || negb (Reader.remaining r =? 0)%nat
     || negb (same_string (default [] digest) kCommandSetDigest)
     || negb (Z.ldiff cap client_capabilities =? 0)
  then None else Some (version, cap).

(** [connection] is the world after [connect_to] and [start_receiver], if both
    succeed.  A refused connection is shut down.

    icd.cpp:149-257. *)
Definition CreateInstance (info : option InstanceCreateInfo) (out : bool) (connection : option world) :
    Z * option InstanceClient :=
  match info, out with
  | Some info, true =>
      let names := requested_names (ii_extension_count info) (ii_extensions info) in
      if negb (valid_instance_pnext (ii_chain info)) then (VK_ERROR_EXTENSION_NOT_PRESENT, None)
      else if negb (ii_layers info =? 0) then (VK_ERROR_LAYER_NOT_PRESENT, None)
      else if negb (forallb extension_supported names) then (VK_ERROR_EXTENSION_NOT_PRESENT, None)
      else
        let requested := match ii_api_version info with
                         | Some v => if v =? 0 then VK_API_VERSION_1_0 else v
                         | None => VK_API_VERSION_1_0
                         end in
        match connection with
        | None => (VK_ERROR_INITIALIZATION_FAILED, None)
        | Some w =>
            let (reply, w) := round_trip (command_opcode "Handshake") handshake_request w in
            match reply with
            | None => (VK_ERROR_INCOMPATIBLE_DRIVER, None)
            | Some reply =>
                match read_handshake_reply reply with
                | None => (VK_ERROR_INCOMPATIBLE_DRIVER, None)
                | Some (version, cap) =>
                    (VK_SUCCESS,
                     Some (mkInstance _ [] (map Writer.strlen_prefix (omap id names)) requested version
                             (Z.min (Z.min requested version) VK_API_VERSION_1_2) cap w))
                end
            end
        end
  | _, _ => (VK_ERROR_INITIALIZATION_FAILED, None)
  end.

(** ** Physical devices *)

(** A query starts with the device. *)
Definition physical_request (name : string) (h : nat) (args : list byte) c : option (list byte) * InstanceClient :=
  let (reply, w) := round_trip (command_opcode name) (Writer.handle (pd_remote_id (device_at h c)) ++ args) (ic_world c) in
  (reply, set_world w c).

(** The ids that can be read, and whether there were [n].

    physical_device.cpp:52-61. *)
Fixpoint read_device_ids (n : nat) (r : Wire.reader) : bool * list Z :=
  match n with
  | O => (true, [])
  | S n =>
      let (id, r) := Reader.handle r in
      if negb (Reader.ok r) then (false, [])
      else let (whole, ids) := read_device_ids n r in (whole, id :: ids)
  end.

(** The devices of the instance, asked of the server while there are none; false
    when that failed.

    physical_device.cpp:42-62. *)
Definition load_physical_devices c : bool * InstanceClient :=
  match physical_devices c with
  | _ :: _ => (true, c)
  | [] =>
      let (reply, w) := round_trip (command_opcode "vkEnumeratePhysicalDevices") [] (ic_world c) in
      let c := set_world w c in
      match reply with
      | None => (false, c)
      | Some reply =>
          let (_, r) := Reader.u32 (Reader.make reply) in
          let (_, r) := Reader.i32 r in
          let (count, r) := Reader.u32 r in
          let (whole, ids) := read_device_ids (Z.to_nat count) r in
          (whole, set_physical_devices (map (fun id => mkPhysical id 1 (negotiated_api_version c) []) ids) c)
      end
  end.

(** The result, the new count and the handles stored.

    physical_device.cpp:38-76. *)
Definition EnumeratePhysicalDevices (room : Z) (array : bool) c : Z * Z * list nat * InstanceClient :=
  let (loaded, c) := load_physical_devices c in
  if loaded then (copy_out room array (seq 0 (length (physical_devices c))), c)
  else (VK_ERROR_INITIALIZATION_FAILED, room, [], c).

(** Groups of one device each.

    physical_device.cpp:565-575. *)
Definition EnumeratePhysicalDeviceGroups (room : option Z) (array : bool) c : Z * Z * list nat * InstanceClient :=
  match room with
  | None => (no_values VK_ERROR_INITIALIZATION_FAILED, c)
  | Some room =>
      let '(result, count, _, c) := EnumeratePhysicalDevices 0 false c in
      if negb (result =? VK_SUCCESS) then (result, room, [], c)
      else
        let '(result, count, devices, c) :=
          if count =? 0 then (result, count, [], c) else EnumeratePhysicalDevices count true c in
        if negb array then (result, count, [], c)
        else
          let n := if room <? count then room else count in
          (if n <? count then VK_INCOMPLETE else result, n, take (Z.to_nat n) devices, c)
  end.

(** *** Properties *)

Definition set_apiVersion (v : Z) (s : VkPhysicalDeviceProperties.t) : VkPhysicalDeviceProperties.t :=
  VkPhysicalDeviceProperties.mk v (VkPhysicalDeviceProperties.driverVersion s)
    (VkPhysicalDeviceProperties.vendorID s) (VkPhysicalDeviceProperties.deviceID s)
    (VkPhysicalDeviceProperties.deviceType s) (VkPhysicalDeviceProperties.deviceName s)
    (VkPhysicalDeviceProperties.pipelineCacheUUID s) (VkPhysicalDeviceProperties.limits s)
    (VkPhysicalDeviceProperties.sparseProperties s).

(** The version the client admits, which the device remembers with the alignment
    of mappings.

    physical_device.cpp:98-103. *)
Definition admit_properties (h : nat) (s : VkPhysicalDeviceProperties.t) c :
    VkPhysicalDeviceProperties.t * InstanceClient :=
  let version := Z.min (negotiated_api_version c)
                   (Z.min (VkPhysicalDeviceProperties.apiVersion s) VK_API_VERSION_1_2) in
  let d := device_at h c in
  (set_apiVersion version s,
   set_device h (mkPhysical (pd_remote_id d)
                   (VkPhysicalDeviceLimits.minMemoryMapAlignment (VkPhysicalDeviceProperties.limits s))
                   version (pd_memory_type_flags d)) c).

(** [if (reader.u32() != Ok || !read(reader, out))]. *)
Definition ok_reply {A} (m : Rd A) : Rd A :=
  status <- r_u32 ; rguard (status =? status_code Ok) ;! m.

(** What a decoder makes of a reply. *)
Definition decode {A} (m : Rd A) (reply : option (list byte)) : option A :=
  match reply with Some reply => fst (m (Reader.make reply)) | None => None end.

(** physical_device.cpp:78-104. *)
Definition GetPhysicalDeviceProperties (h : nat) c : VkPhysicalDeviceProperties.t * InstanceClient :=
  let (reply, c) := physical_request "vkGetPhysicalDeviceProperties" h [] c in
  match decode (ok_reply read_PhysicalDeviceProperties) reply with
  | Some s => admit_properties h s c
  | None => (VkPhysicalDeviceProperties.zero, c)
  end.

(** The caller's structure and chain, before and after; [None] is a null pointer.

    physical_device.cpp:326-350. *)
Definition GetPhysicalDeviceProperties2 (h : nat) (out : option (VkPhysicalDeviceProperties.t * ptr chain)) c :
    option (VkPhysicalDeviceProperties.t * ptr chain) * InstanceClient :=
  match out with
  | None => (None, c)
  | Some (properties, next) =>
      match write_pnext_output_topology QueryPropertiesOutput next with
      | (false, _) => (out, c)
      | (true, topology) =>
          let (reply, c) := physical_request "vkGetPhysicalDeviceProperties2" h topology c in
          match reply with
          | None => (out, c)
          | Some reply =>
              match ok_reply read_PhysicalDeviceProperties (Reader.make reply) with
              | (None, _) => (out, c)
              | (Some s, r) =>
                  let '(applied, next, _) := apply_pnext_output_values QueryPropertiesOutput next r in
                  if applied then let (s, c) := admit_properties h s c in (Some (s, next), c)
                  else (Some (properties, next), c)
              end
          end
      end
  end.

(** *** Features *)

(** The words of the sparse features, which are not offered.

    physical_device.cpp:126-134. *)
Definition hide_sparse (s : VkPhysicalDeviceFeatures.t) : VkPhysicalDeviceFeatures.t :=
  let ws := VkPhysicalDeviceFeatures.words s in
  VkPhysicalDeviceFeatures.mk (take 44 ws ++ replicate 9 0 ++ drop 53 ws).

(** A struct that is copied out of the reply when its size is right.

    physical_device.cpp:118-121. *)
Definition read_raw_struct {A} (size : Z) (m : Rd A) : Rd A :=
  raw <- r_bytes u32_max ; rguard (Z.of_nat (length raw) =? size) ;!
  fun r => (fst (m (Reader.make raw)), r).

(** physical_device.cpp:106-136. *)
Definition GetPhysicalDeviceFeatures (h : nat) c : VkPhysicalDeviceFeatures.t * InstanceClient :=
  let (reply, c) := physical_request "vkGetPhysicalDeviceFeatures" h [] c in
  (match decode (_ <- r_u32 ; read_raw_struct 220 read_PhysicalDeviceFeatures) reply with
   | Some s => hide_sparse s
   | None => VkPhysicalDeviceFeatures.zero
   end, c).

(** A reply that is cut short leaves the words that were read, and zeros.

    physical_device.cpp:302-324. *)
Definition GetPhysicalDeviceFeatures2 (h : nat) (out : option (VkPhysicalDeviceFeatures.t * ptr chain)) c :
    option (VkPhysicalDeviceFeatures.t * ptr chain) * InstanceClient :=
  match out with
  | None => (None, c)
  | Some (features, next) =>
      match write_pnext_output_topology QueryFeaturesOutput next with
      | (false, _) => (out, c)
      | (true, topology) =>
          let (reply, c) := physical_request "vkGetPhysicalDeviceFeatures2" h topology c in
          match reply with
          | None => (out, c)
          | Some reply =>
              match ok_reply (rfor VkPhysicalDeviceFeatures.count r_u32) (Reader.make reply) with
              | (None, _) => (out, c)
              | (Some words, r) =>
                  let s := VkPhysicalDeviceFeatures.mk words in
                  if Reader.ok r then
                    let '(_, next, _) := apply_pnext_output_values QueryFeaturesOutput next r in
                    (Some (hide_sparse s, next), c)
                  else (Some (s, next), c)
              end
          end
      end
  end.

(** *** Memory *)

(** Types and heaps as they arrive, as many as the arrays have room for.

    physical_device.cpp:151-177. *)
Definition read_memory_properties (cap : Z) : Rd VkPhysicalDeviceMemoryProperties.t :=
  _ <- r_u32 ;
  nt <- r_u32 ; types <- rfor (Z.to_nat nt) read_memory_type ;
  nh <- r_u32 ; heaps <- rfor (Z.to_nat nh) read_memory_heap ;
  let nt := if VK_MAX_MEMORY_TYPES <? nt then VK_MAX_MEMORY_TYPES else nt in
  let nh := if VK_MAX_MEMORY_HEAPS <? nh then VK_MAX_MEMORY_HEAPS else nh in
  rret (VkPhysicalDeviceMemoryProperties.mk nt
          (fill VkMemoryType.zero VK_MAX_MEMORY_TYPES (map (public_memory_type cap) (take (Z.to_nat nt) types)))
          nh (fill VkMemoryHeap.zero VK_MAX_MEMORY_HEAPS (take (Z.to_nat nh) heaps))).

(** The device remembers the flags of its memory types.

    physical_device.cpp:155-164. *)
Definition remember_flags (h : nat) (s : VkPhysicalDeviceMemoryProperties.t) c : InstanceClient :=
  let d := device_at h c in
  set_device h (mkPhysical (pd_remote_id d) (pd_map_alignment d) (pd_api_version d)
                  (map VkMemoryType.propertyFlags
                     (take (Z.to_nat (VkPhysicalDeviceMemoryProperties.memoryTypeCount s))
                        (VkPhysicalDeviceMemoryProperties.memoryTypes s)))) c.

(** physical_device.cpp:138-178. *)
Definition GetPhysicalDeviceMemoryProperties (h : nat) c : VkPhysicalDeviceMemoryProperties.t * InstanceClient :=
  let (reply, c) := physical_request "vkGetPhysicalDeviceMemoryProperties" h [] c in
  match decode (read_memory_properties (ri_capabilities c)) reply with
  | Some s => (s, remember_flags h s c)
  | None => (VkPhysicalDeviceMemoryProperties.zero, c)
  end.

(** What [read_PhysicalDeviceMemoryProperties] has stored when it returns, and
    what it returns.

    marshal.cpp:2462-2481. *)
Definition memory_so_far (r : Wire.reader) : bool * VkPhysicalDeviceMemoryProperties.t :=
  let types := fill VkMemoryType.zero VK_MAX_MEMORY_TYPES in
  let heaps := fill VkMemoryHeap.zero VK_MAX_MEMORY_HEAPS in
  match read_capped VK_MAX_MEMORY_TYPES 8 r with
  | (None, _) => (false, VkPhysicalDeviceMemoryProperties.zero)
  | (Some nt, r) =>
      let (ts, r) := rfor (Z.to_nat nt) read_memory_type r in
      let ts := types (default [] ts) in
      match read_capped VK_MAX_MEMORY_HEAPS 12 r with
      | (None, _) => (false, VkPhysicalDeviceMemoryProperties.mk nt ts 0 (heaps []))
      | (Some nh, r) =>
          let (hs, r) := rfor (Z.to_nat nh) read_memory_heap r in
          (Reader.ok r, VkPhysicalDeviceMemoryProperties.mk nt ts nh (heaps (default [] hs)))
      end
  end.

(** physical_device.cpp:447-466. *)
Definition GetPhysicalDeviceMemoryProperties2 (h : nat) (out : bool) c :
    VkPhysicalDeviceMemoryProperties.t * InstanceClient :=
  if negb out then (VkPhysicalDeviceMemoryProperties.zero, c)
  else
    let (reply, c) := physical_request "vkGetPhysicalDeviceMemoryProperties2" h [] c in
    match reply with
    | None => (VkPhysicalDeviceMemoryProperties.zero, c)
    | Some reply =>
        match ok_reply (rret tt) (Reader.make reply) with
        | (None, _) => (VkPhysicalDeviceMemoryProperties.zero, c)
        | (Some _, r) =>
            let (whole, s) := memory_so_far r in
            if whole then
              let s := public_memory_properties (ri_capabilities c) s in (s, remember_flags h s c)
            else (s, c)
        end
    end.

(** *** Enumerations *)

(** A counted array, bounded by what the reply still holds. *)
Definition read_array {A} (size : Z) (m : Rd A) : Rd (list A) :=
  n <- r_u32 ; left <- r_remaining ; rguard (negb (kMaxArrayElements <? n) && (n <=? left / size)) ;!
  rfor (Z.to_nat n) m.

(** What is read is handed out; otherwise there is nothing. *)
Definition hand_out {A} (room : Z) (array : bool) (values : option (list A)) : Z * Z * list A :=
  match values with Some values => copy_out room array values | None => no_values VK_SUCCESS end.

(** physical_device.cpp:193-205. *)
Definition read_queue_families : Rd (list VkQueueFamilyProperties.t) :=
  _ <- r_u32 ; n <- r_u32 ;
  xs <- rfor (Z.to_nat n)
          (flags <- r_u32 ; count <- r_u32 ; bits <- r_u32 ; w <- r_u32 ; h <- r_u32 ; d <- r_u32 ;
           rret (VkQueueFamilyProperties.mk flags count bits (VkExtent3D.mk w h d))) ;
  r_ok ;! rret xs.

(** The new count and the families stored.

    physical_device.cpp:180-217. *)
Definition GetPhysicalDeviceQueueFamilyProperties (h : nat) (room : Z) (array : bool) c :
    Z * list VkQueueFamilyProperties.t * InstanceClient :=
  let (reply, c) := physical_request "vkGetPhysicalDeviceQueueFamilyProperties" h [] c in
  let '(_, n, xs) := hand_out room array (decode read_queue_families reply) in (n, xs, c).

(** physical_device.cpp:399-445. *)
Definition GetPhysicalDeviceQueueFamilyProperties2 (h : nat) (room : option Z) (array : bool) c :
    Z * list VkQueueFamilyProperties.t * InstanceClient :=
  match room with
  | None => (0, [], c)
  | Some room =>
      let (reply, c) := physical_request "vkGetPhysicalDeviceQueueFamilyProperties2" h [] c in
      let '(_, n, xs) := hand_out room array
        (decode (ok_reply (xs <- read_array 24 read_QueueFamilyProperties ; r_ok ;! rret xs)) reply) in
      (n, xs, c)
  end.

(** physical_device.cpp:282-284. *)
Definition write_sparse_format (x : sparse_format) : list byte :=
  Writer.i32 (sf_format x) ++ Writer.i32 (sf_type x) ++ Writer.i32 (sf_samples x) ++
  Writer.u32 (sf_usage x) ++ Writer.i32 (sf_tiling x).

(** physical_device.cpp:276-297. *)
Definition GetPhysicalDeviceSparseImageFormatProperties (h : nat) (x : sparse_format) (room : option Z)
    (array : bool) c : Z * list VkSparseImageFormatProperties.t * InstanceClient :=
  match room with
  | None => (0, [], c)
  | Some room =>
      let (reply, c) := physical_request "vkGetPhysicalDeviceSparseImageFormatProperties" h (write_sparse_format x) c in
      let '(_, n, xs) := hand_out room array
        (decode (_ <- r_u32 ; read_array 20 read_SparseImageFormatProperties) reply) in
      (n, xs, c)
  end.

(** physical_device.cpp:468-511. *)
Definition GetPhysicalDeviceSparseImageFormatProperties2 (h : nat) (x : option sparse_format) (room : option Z)
    (array : bool) c : Z * list VkSparseImageFormatProperties.t * InstanceClient :=
  match x, room with
  | Some x, Some room =>
      let (reply, c) := physical_request "vkGetPhysicalDeviceSparseImageFormatProperties2" h (write_sparse_format x) c in
      let '(_, n, xs) := hand_out room array
        (decode (ok_reply (read_array 20 read_SparseImageFormatProperties)) reply) in
      (n, xs, c)
  | _, _ => (0, [], c)
  end.

(** physical_device.cpp:532-538. *)
Definition read_shading_rates : Rd (Z * list ShadingRate) :=
  ok_reply (result <- r_i32 ;
            xs <- read_array 12 (samples <- r_u32 ; w <- r_u32 ; h <- r_u32 ;
                                 rret (mkRate samples (VkExtent2D.mk w h))) ;
            r_ok ;! rret (result, xs)).

(** physical_device.cpp:513-555. *)
Definition GetPhysicalDeviceFragmentShadingRatesKHR (h : nat) (room : option Z) (array : bool) c :
    Z * Z * list ShadingRate * InstanceClient :=
  match room with
  | None => (no_values VK_ERROR_INITIALIZATION_FAILED, c)
  | Some room =>
      let (reply, c) := physical_request "vkGetPhysicalDeviceFragmentShadingRatesKHR" h [] c in
      match decode read_shading_rates reply with
      | None => (VK_ERROR_INITIALIZATION_FAILED, room, [], c)
      | Some (result, xs) =>
          if negb (result =? VK_SUCCESS) then (result, room, [], c) else (copy_out room array xs, c)
      end
  end.

(** physical_device.cpp:617-627. *)
Definition read_extension : Rd VkExtensionProperties.t :=
  name <- r_string ;
  rguard (negb (VK_MAX_EXTENSION_NAME_SIZE <=? Z.of_nat (length name))) ;!
  version <- r_u32 ;
  rret (VkExtensionProperties.mk
          (name ++ replicate (Z.to_nat VK_MAX_EXTENSION_NAME_SIZE - length name) x00) version).

(** The result and, if it is a success, the extensions.

    physical_device.cpp:605-631. *)
Definition read_extensions (reply : list byte) : Z * list VkExtensionProperties.t :=
  match ok_reply (rret tt) (Reader.make reply) with
  | (None, _) => (VK_ERROR_INITIALIZATION_FAILED, [])
  | (Some _, r) =>
      let (result, r) := Reader.i32 r in
      let (count, r) := Reader.u32 r in
      if negb (result =? VK_SUCCESS) then (result, [])
      else if kMaxArrayElements <? count then (VK_ERROR_INITIALIZATION_FAILED, [])
      else match (xs <- rfor (Z.to_nat count) read_extension ; r_ok ;! rret xs) r with
           | (None, _) => (VK_ERROR_INITIALIZATION_FAILED, [])
           | (Some xs, _) => (VK_SUCCESS, xs)
           end
  end.

(** physical_device.cpp:590-641. *)
Definition EnumerateDeviceExtensionProperties (h : nat) (room : Z) (array : bool) c :
    Z * Z * list VkExtensionProperties.t * InstanceClient :=
  let (reply, c) := physical_request "vkEnumerateDeviceExtensionProperties" h [] c in
  match reply with
  | None => (no_values VK_SUCCESS, c)
  | Some reply =>
      let (result, xs) := read_extensions reply in
      if negb (result =? VK_SUCCESS) then (no_values result, c) else (copy_out room array xs, c)
  end.

(** *** Formats *)

(** physical_device.cpp:219-240. *)
Definition GetPhysicalDeviceFormatProperties (h : nat) (format : Z) c : VkFormatProperties.t * InstanceClient :=
  let (reply, c) := physical_request "vkGetPhysicalDeviceFormatProperties" h (Writer.i32 format) c in
  (default VkFormatProperties.zero (decode (_ <- r_u32 ; read_raw_struct 12 read_FormatProperties) reply), c).

(** The caller's structure, before and after.  A reply that is cut short leaves
    what was read, and zeros.

    physical_device.cpp:352-364. *)
Definition GetPhysicalDeviceFormatProperties2 (h : nat) (format : Z)
    (out : option (VkFormatProperties.t * ptr chain)) c :
    option (VkFormatProperties.t * ptr chain) * InstanceClient :=
  match out with
  | None => (None, c)
  | Some (old, next) =>
      if negb (is_null next) then (out, c)
      else
        let (reply, c) := physical_request "vkGetPhysicalDeviceFormatProperties2" h (Writer.i32 format) c in
        match decode (ok_reply (linear <- r_u32 ; optimal <- r_u32 ; buffer <- r_u32 ;
                                rret (VkFormatProperties.mk linear optimal buffer))) reply with
        | None => (out, c)
        | Some s => (Some (s, next), c)
        end
  end.

(** physical_device.cpp:249-254. *)
Definition write_image_format (x : image_format) : list byte :=
  Writer.i32 (if_format x) ++ Writer.i32 (if_type x) ++ Writer.i32 (if_tiling x) ++
  Writer.u32 (if_usage x) ++ Writer.u32 (if_flags x).

(** physical_device.cpp:242-274. *)
Definition GetPhysicalDeviceImageFormatProperties (h : nat) (x : image_format) c :
    Z * VkImageFormatProperties.t * InstanceClient :=
  let (reply, c) := physical_request "vkGetPhysicalDeviceImageFormatProperties" h (write_image_format x) c in
  match reply with
  | None => (VK_ERROR_FORMAT_NOT_SUPPORTED, VkImageFormatProperties.zero, c)
  | Some reply =>
      let (_, r) := Reader.u32 (Reader.make reply) in
      let (result, r) := Reader.i32 r in
      let (raw, r) := Reader.bytes u32_max r in
      (if Reader.ok r then result else VK_ERROR_FORMAT_NOT_SUPPORTED,
       match raw with
       | Some raw => if Z.of_nat (length raw) =? 32
                     then default VkImageFormatProperties.zero (fst (read_ImageFormatProperties (Reader.make raw)))
                     else VkImageFormatProperties.zero
       | None => VkImageFormatProperties.zero
       end, c)
  end.

(** The query's format and its chain; the result and the caller's structure and
    chain.

    physical_device.cpp:366-397. *)
Definition GetPhysicalDeviceImageFormatProperties2 (h : nat) (info : option (image_format * ptr chain))
    (out : option (VkImageFormatProperties.t * ptr chain)) c :
    Z * option (VkImageFormatProperties.t * ptr chain) * InstanceClient :=
  match info, out with
  | Some (x, input), Some (old, next) =>
      match (write_pnext_chain ImageCreate input 0 ;;;
             write_pnext_output_topology ImageFormatPropertiesOutput next) with
      | (false, _) => (VK_ERROR_FORMAT_NOT_SUPPORTED, out, c)
      | (true, chains) =>
          let (reply, c) := physical_request "vkGetPhysicalDeviceImageFormatProperties2" h
                              (write_image_format x ++ chains) c in
          match reply with
          | None => (VK_ERROR_FORMAT_NOT_SUPPORTED, out, c)
          | Some reply =>
              match ok_reply (result <- r_i32 ;
                      w <- r_u32 ; h <- r_u32 ; d <- r_u32 ; levels <- r_u32 ; layers <- r_u32 ;
                      samples <- r_u32 ; size <- r_u64 ;
                      rret (result, VkImageFormatProperties.mk (VkExtent3D.mk w h d) levels layers samples size))
                    (Reader.make reply) with
              | (None, _) => (VK_ERROR_FORMAT_NOT_SUPPORTED, out, c)
              | (Some (result, s), r) =>
                  if Reader.ok r then
                    let '(applied, next, _) := apply_pnext_output_values ImageFormatPropertiesOutput next r in
                    (if applied then result else VK_ERROR_FORMAT_NOT_SUPPORTED, Some (s, next), c)
                  else (VK_ERROR_FORMAT_NOT_SUPPORTED, Some (s, next), c)
              end
          end
      end
  | _, _ => (VK_ERROR_FORMAT_NOT_SUPPORTED, out, c)
  end.

End Instances.
