(* ===== verification/InstanceFacts.v ===== *)
(** The client and the server before there is a device: the handshake, and the
    queries of physical devices, through the connection's loop.

    The client's calls of [ClientInstance] run against the loop of [Session] with
    the handlers of [ServerInstance]. *)

From stdpp Require Import list gmap strings.
From S2P Require Import Prelude Wire Codec Decode CLayout VkStructs ExtensionContract PNext PNextFacts VkCreateInfos VkLimits.
From S2P Require Import MarshalBase Marshal MarshalValues.
From S2P Require Import HostMemory Objects Session ServerMemory ServerMapped ServerCommands ServerDevice.
From S2P Require Import ClientSync ClientCommands ServerInstance ClientInstance.
From S2P Require Connection.
Open Scope wire_scope.
#[local] Set Warnings "-clear-no-such-hyp".

(** ** The connection *)
Section Seen.
Context {W : Type} `{LoopOpcodes}.
Variable opcode_of : string -> Z.
Variable find_handler : Z -> option (Session W -> Session W).
Variable has_vkWaitSemaphores : Z -> W -> bool.

(** A round trip: the receiver refuses a reply whose status is not [Status::Ok].

    remote_objects.cpp:192-197. *)
Definition checked_round_trip (op : Z) (payload : list byte) (l : Loop W) :
    option (list byte) * Loop W :=
  let (reply, l) := loop_round_trip find_handler has_vkWaitSemaphores op payload l in
  (match reply with Some p => if Connection.Connection.status_ok p then Some p else None | None => None end, l).

Definition loop_remote : Remote :=
  {| world := Loop W; FlushMappedMemory := 0; DownloadMappedMemory := 0; round_trip := checked_round_trip |}.

Definition send_oneway (op : Z) (payload : list byte) (l : Loop W) : Loop W :=
  match on_message find_handler has_vkWaitSemaphores (mk_header op (Z.of_nat (length payload)) 0) payload l with
  | Some (_, l) => l
  | None => l
  end.

Definition loop_channel : @CommandChannel loop_remote :=
  @Build_CommandChannel loop_remote opcode_of send_oneway.

End Seen.

(** A reply starts with its status. *)
Lemma status_ok_payload s bs : Connection.Connection.status_ok (Writer.u32 (status_code s) ++ bs) = bool_decide (s = Ok).
Proof.
  unfold Connection.Connection.status_ok. rewrite length_app, length_writer_u32.
  assert (is_u32 (status_code s)) as Hs by (by destruct s; apply (bool_decide_unpack _)).
  replace (take 4 (Writer.u32 (status_code s) ++ bs)) with (Writer.u32 (status_code s)) by
    (rewrite take_app_le, take_ge by (rewrite length_writer_u32; lia); done).
  change (Writer.u32 (status_code s)) with (le_bytes 4 (status_code s)).
  rewrite le_value_bytes4 by done. by destruct s.
Qed.

Lemma at_string s r rest : cstring_ok s -> at_rest r (Writer.string (Some s) ++ rest) ->
  exists r', Reader.string r = (Some (Writer.strlen_prefix s), r') /\ at_rest r' rest.
Proof.
  intros Hs (Hw & Hf & Hu).
  pose proof (reads_at_elim _ _ _ _ r (reads_string_opt rest (Some s) Hs) Hw Hf Hu) as H.
  eexists. split; [exact H|]. by apply (advance_ok _ r (Writer.string (Some s)) rest).
Qed.

Lemma at_end_remaining r : at_rest r [] -> (Reader.remaining r =? 0)%nat = true.
Proof. intros H. by rewrite (at_remaining _ _ H). Qed.

(** ** The handshake *)
Section Handshake.
Context {W : Type} `{LoopOpcodes} {KC KS : Schema}.
Variable opcode_of : string -> Z.
Variable find_handler : Z -> option (Session W -> Session W).
Variable has_vkWaitSemaphores : Z -> W -> bool.
Variable devices : list Z.
Variable loader_version : Z.
(** VK_REMOTING_EXPERIMENTAL_COHERENT at the client and at the server. *)
Variables coherent_client coherent_server : bool.

(** Both sides were generated from the same description. *)
Definition same_schema : Prop :=
  Writer.strlen_prefix (@kWireSchemaRevision KC) = Writer.strlen_prefix (@kWireSchemaRevision KS) /\
  Writer.strlen_prefix (@kRegistrySha256 KC) = Writer.strlen_prefix (@kRegistrySha256 KS) /\
  Writer.strlen_prefix (@kWireAbi KC) = Writer.strlen_prefix (@kWireAbi KS) /\
  Writer.strlen_prefix (@kCommandSetDigest KC) = Writer.strlen_prefix (@kCommandSetDigest KS).

#[export] Instance same_schema_dec : Decision same_schema.
Proof. unfold same_schema. apply _. Defined.

Definition schema_ok (K : Schema) : Prop :=
  cstring_ok (@kWireSchemaRevision K) /\ cstring_ok (@kRegistrySha256 K) /\ cstring_ok (@kWireAbi K) /\
  cstring_ok (@kCommandSetDigest K).

(** The capability both sides have. *)
Definition agreed : Z := if coherent_client && coherent_server then kCapabilityWholeCopyHostCoherent else 0.

Definition handshake_reply (accepted : bool) : list byte :=
  Writer.u32 (status_code (if accepted then Ok else DecodeError)) ++
  Writer.string (Some (@kCommandSetDigest KS)) ++ Writer.u32 (wrap32 (Z.of_nat (length devices))) ++
  Writer.u32 loader_version ++ Writer.u32 (if accepted then agreed else 0).

Lemma capabilities_agree :
  capabilities_valid coherent_server (client_capabilities coherent_client) 0 = true /\
  Z.land (client_capabilities coherent_client) (server_capabilities coherent_server) = agreed.
Proof. unfold agreed. by destruct coherent_client, coherent_server. Qed.

(** What the server makes of the client's handshake. *)
Lemma handshake_handled op (l : Loop W) : schema_ok KC ->
  let payload := @handshake_request KC coherent_client in
  let c' := @handle_Handshake KS W devices loader_version coherent_server
              (new_session (mk_header op (Z.of_nat (length payload)) 1) payload l) in
  let accepted := bool_decide same_schema in
  sent c' = l_sent l ++ [(op, handshake_reply accepted, 1)] /\
  tables c' = (if accepted then set_capabilities agreed (l_tables l) else l_tables l) /\
  driver c' = l_driver l /\ oneway_errors c' = l_errors l /\ close_connection c' = negb accepted.
Proof.
  intros (Hs & Hr & Ha & Hd) payload c' accepted.
  assert (exists r, r = Reader.make payload /\ at_rest r payload) as (r0 & Hr0 & Hat) by (eexists; split; [done|apply at_make]).
  unfold payload at 1, handshake_request in Hat.
  assert (is_u32 (client_capabilities coherent_client)) as Hc
    by (by destruct coherent_client; apply (bool_decide_unpack _)).
  unfold c', handle_Handshake, rd_string, Handler.rd. cbn [reader new_session]. rewrite <- Hr0.
  apply at_string in Hat as (r1 & E & Hat); [rewrite E; cbn [Handler.set_reader reader]; clear E|done].
  apply at_string in Hat as (r2 & E & Hat); [rewrite E; cbn [Handler.set_reader reader]; clear E|done].
  apply at_string in Hat as (r3 & E & Hat); [rewrite E; cbn [Handler.set_reader reader]; clear E|done].
  apply at_string in Hat as (r4 & E & Hat); [rewrite E; cbn [Handler.set_reader reader]; clear E|done].
  decode Hat. cbn [Handler.set_reader reader].
  rewrite <- (app_nil_r (Writer.u32 0)) in Hat. decode Hat. cbn [Handler.set_reader reader default].
  rewrite (at_ok _ _ Hat), (at_end_remaining _ Hat).
  destruct capabilities_agree as [Hv Hl]. rewrite Hv. cbn [andb].
  unfold same_string. rewrite !Hl.
  replace (bool_decide (Writer.strlen_prefix (@kWireSchemaRevision KC) = Writer.strlen_prefix (@kWireSchemaRevision KS)) &&
           bool_decide (Writer.strlen_prefix (@kRegistrySha256 KC) = Writer.strlen_prefix (@kRegistrySha256 KS)) &&
           bool_decide (Writer.strlen_prefix (@kWireAbi KC) = Writer.strlen_prefix (@kWireAbi KS)) &&
           bool_decide (Writer.strlen_prefix (@kCommandSetDigest KC) = Writer.strlen_prefix (@kCommandSetDigest KS)))
    with accepted by (unfold accepted, same_schema; rewrite <- !bool_decide_and; apply bool_decide_ext; tauto).
  fold (handshake_reply accepted). by destruct accepted.
Qed.

(** The loop after the handshake. *)
Definition shaken (l : Loop W) : Loop W :=
  let accepted := bool_decide same_schema in
  mkLoop _ (if accepted then set_capabilities agreed (l_tables l) else l_tables l) (l_errors l) accepted
    (workers l) (jobs l) (l_sent l ++ [(Handshake, handshake_reply accepted, 1)]) (l_driver l).

Hypothesis handshake_registered :
  find_handler Handshake = Some (@handle_Handshake KS W devices loader_version coherent_server).

(** One turn of the loop; a refused client is not served any further. *)
Lemma handshake_message (l : Loop W) : schema_ok KC -> handshake_complete l = false ->
  let payload := @handshake_request KC coherent_client in
  on_message find_handler has_vkWaitSemaphores (mk_header Handshake (Z.of_nat (length payload)) 1) payload l =
  Some (bool_decide same_schema, shaken l).
Proof.
  intros Hok Hh payload. destruct (handshake_handled Handshake l Hok) as (Hs & Ht & Hd & He & Hc).
  unfold on_message. cbn [Wire.opcode Wire.request_id]. rewrite Hh, Z.eqb_refl. cbn [negb andb].
  replace (1 =? 0) with false by done. pose proof loop_opcodes_distinct as Hn.
  apply NoDup_cons in Hn as [Hn _]. rewrite !not_elem_of_cons in Hn. destruct Hn as (N1 & N2 & N3 & N4 & N5 & _).
  rewrite !(proj2 (Z.eqb_neq Handshake _)) by done. cbn [orb]. rewrite handshake_registered.
  unfold on_command. cbn [Wire.opcode]. fold payload in Hs, Ht, Hd, He, Hc. rewrite Z.eqb_refl, Hc, negb_involutive.
  unfold shaken, leave, complete_handshake. cbn [l_tables l_errors workers jobs l_sent l_driver].
  rewrite Hs, Ht, Hd, He. destruct (bool_decide same_schema); cbn; by rewrite ?Hh.
Qed.

Lemma handshake_round_trip (l : Loop W) : schema_ok KC -> handshake_complete l = false ->
  checked_round_trip find_handler has_vkWaitSemaphores Handshake (@handshake_request KC coherent_client) l =
  (if bool_decide same_schema then Some (handshake_reply true) else None, shaken l).
Proof.
  intros Hok Hh. unfold checked_round_trip, loop_round_trip. rewrite handshake_message by done.
  unfold shaken at 1. cbn [l_sent]. rewrite drop_app_length. cbn [handshake_reply].
  unfold handshake_reply at 1. rewrite status_ok_payload. by destruct (bool_decide same_schema).
Qed.

Lemma handshake_reply_read : schema_ok KS -> is_u32 loader_version -> same_schema ->
  @read_handshake_reply KC coherent_client (handshake_reply true) = Some (loader_version, agreed).
Proof.
  intros (_ & _ & _ & Hd) Hv (_ & _ & _ & Hsame).
  unfold read_handshake_reply. pose proof (at_make (handshake_reply true)) as Hat.
  revert Hat. generalize (Reader.make (handshake_reply true)). intros r0 Hat. unfold handshake_reply in Hat.
  assert (is_u32 agreed) as Ha by (unfold agreed; by destruct coherent_client, coherent_server; apply (bool_decide_unpack _)).
  decode Hat. apply at_string in Hat as (r2 & E & Hat); [rewrite E; clear E|done].
  decode Hat; [|apply wrap32_range]. decode Hat. rewrite <- (app_nil_r (Writer.u32 agreed)) in Hat. decode Hat.
  rewrite (at_ok _ _ Hat), (at_end_remaining _ Hat). cbn [default negb orb]. unfold same_string.
  rewrite (bool_decide_eq_true_2 _ (eq_sym Hsame)). cbn [negb orb]. unfold agreed.
  by destruct coherent_client, coherent_server.
Qed.

Variable windows : bool.

(** What the instance is created for. *)
Definition requested_version (info : InstanceCreateInfo) : Z :=
  match ii_api_version info with Some v => if v =? 0 then VK_API_VERSION_1_0 else v | None => VK_API_VERSION_1_0 end.

(** C13: The handshake: an instance comes into being exactly when client and server were
    generated from the same description, and then both agree on what they can do.

    On success the server serves the connection, the capability (coherent memory)
    is on exactly when both sides have it enabled, client and server have it
    recorded alike, and the version is the lowest of the application's, the
    server's and 1.2.  Otherwise vkCreateInstance returns
    VK_ERROR_INCOMPATIBLE_DRIVER and the server ends the connection with its tables
    untouched. *)
Theorem handshake_agreed info (l : Loop W) :
  schema_ok KC -> schema_ok KS -> is_u32 loader_version -> opcode_of "Handshake" = Handshake ->
  handshake_complete l = false -> valid_instance_pnext (ii_chain info) = true -> ii_layers info = 0 ->
  forallb (extension_supported windows) (requested_names (ii_extension_count info) (ii_extensions info)) = true ->
  let '(result, instance) :=
    @CreateInstance _ (loop_channel opcode_of find_handler has_vkWaitSemaphores) KC windows coherent_client
      (Some info) true (Some l) in
  if decide same_schema then
    result = VK_SUCCESS /\
    exists c, instance = Some c /\ handshake_complete (ic_world c) = true /\
      ri_capabilities c = agreed /\ capabilities (l_tables (ic_world c)) = agreed /\
      table (l_tables (ic_world c)) = table (l_tables l) /\ l_driver (ic_world c) = l_driver l /\
      negotiated_api_version c = Z.min (Z.min (requested_version info) loader_version) VK_API_VERSION_1_2 /\
      physical_devices c = []
  else
    result = VK_ERROR_INCOMPATIBLE_DRIVER /\ instance = None /\
    on_message find_handler has_vkWaitSemaphores
      (mk_header Handshake (Z.of_nat (length (@handshake_request KC coherent_client))) 1)
      (@handshake_request KC coherent_client) l = Some (false, shaken l) /\
    l_tables (shaken l) = l_tables l /\ handshake_complete (shaken l) = false.
Proof.
  intros Hc Hs Hv Hop Hh Hp Hl Hn. unfold CreateInstance. rewrite Hp, Hl, Hn, Z.eqb_refl. cbn [negb].
  cbn [command_opcode loop_channel round_trip loop_remote]. rewrite Hop, handshake_round_trip by done.
  destruct (decide same_schema) as [Hsame|Hsame].
  - rewrite bool_decide_eq_true_2, handshake_reply_read by done. split; [done|]. eexists. split; [done|].
    unfold shaken. rewrite bool_decide_eq_true_2 by done. by repeat split.
  - rewrite bool_decide_eq_false_2 by done. split; [done|]. split; [done|].
    rewrite handshake_message by done. unfold shaken. by rewrite bool_decide_eq_false_2.
Qed.

End Handshake.
