(* ===== verification/QueryFacts.v ===== *)
(** What an application learns of a physical device is what the driver says, lowered
    to what the two sides support.

    The queries of [ClientInstance] run against the handlers of [ServerInstance]
    behind the connection's loop.  Of the driver only documented behaviour is
    assumed, in [InstanceDriverLaws]. *)

From stdpp Require Import list gmap strings.
From S2P Require Import Prelude Wire Codec Decode CLayout VkStructs ExtensionContract PNext PNextFacts VkCreateInfos VkLimits.
From S2P Require Import MarshalBase Marshal MarshalChained MarshalValues.
From S2P Require Import HostMemory Objects Session ServerMemory ServerMapped ServerCommands ServerDevice CommandFacts.
From S2P Require Import ClientSync ClientCommands ServerInstance ClientInstance InstanceFacts.
Open Scope wire_scope.
Import ReaderFacts.
#[local] Set Warnings "-clear-no-such-hyp".

(** ** What the driver promises *)

Definition features_ok (s : VkPhysicalDeviceFeatures.t) : Prop :=
  length (VkPhysicalDeviceFeatures.words s) = VkPhysicalDeviceFeatures.count /\
  Forall is_u32 (VkPhysicalDeviceFeatures.words s).

(** A call that fills structures leaves the types and the links alone. *)
Definition filled_in (asked filled : ptr chain) : Prop :=
  map node_type (chain_nodes filled) = map node_type (chain_nodes asked) /\ Forall node_ok (chain_nodes filled).

(** An enumeration whose capacity is its own count: an array of that length, of
    which the first elements count. *)
Definition enumerates {A} (ok : A -> Prop) (n : Z) (values : Z * list A) : Prop :=
  0 <= values.1 <= n /\ Z.of_nat (length values.2) = n /\ Forall ok values.2.

Definition queue_family_ok (s : VkQueueFamilyProperties.t) : Prop :=
  extent_ok3 (VkQueueFamilyProperties.minImageTransferGranularity s) /\
  Forall is_u32 [VkQueueFamilyProperties.queueFlags s; VkQueueFamilyProperties.queueCount s;
                 VkQueueFamilyProperties.timestampValidBits s].

Definition sparse_format_ok (s : VkSparseImageFormatProperties.t) : Prop :=
  extent_ok3 (VkSparseImageFormatProperties.imageGranularity s) /\
  Forall is_u32 [VkSparseImageFormatProperties.aspectMask s; VkSparseImageFormatProperties.flags s].

(** A terminated name in its array. *)
Definition extension_ok (x : VkExtensionProperties.t) : Prop :=
  Z.of_nat (length (Writer.strlen_prefix (VkExtensionProperties.extensionName x))) < VK_MAX_EXTENSION_NAME_SIZE /\
  length (VkExtensionProperties.extensionName x) = 256%nat /\ is_u32 (VkExtensionProperties.specVersion x).

(** Members are in the range of their types, arrays hold what was announced. *)
Class InstanceDriverLaws (W : Type) {HD : MemoryDriver W} {HI : InstanceDriver W} : Prop := {
  law_features d w : features_ok (vkGetPhysicalDeviceFeatures d w);
  law_features2 d asked w : acceptable QueryFeaturesOutput (chain_nodes asked) ->
    features_ok (vkGetPhysicalDeviceFeatures2 d asked w).1 /\
    filled_in asked (vkGetPhysicalDeviceFeatures2 d asked w).2;
  law_properties d w : PhysicalDeviceProperties_ok (vkGetPhysicalDeviceProperties d w);
  law_properties2 d asked w : acceptable QueryPropertiesOutput (chain_nodes asked) ->
    PhysicalDeviceProperties_ok (vkGetPhysicalDeviceProperties2 d asked w).1 /\
    filled_in asked (vkGetPhysicalDeviceProperties2 d asked w).2;
  law_memory d w : memory_properties_ok (vkGetPhysicalDeviceMemoryProperties d w);
  law_memory2 d w : memory_properties_ok (vkGetPhysicalDeviceMemoryProperties2 d w);
  law_families d w : let n := queue_family_count d w in
    0 <= n <= kMaxArrayElements /\ (n <> 0 -> enumerates queue_family_ok n (queue_family_values d n w));
  law_families2 d w : let n := queue_family_count2 d w in
    0 <= n <= kMaxArrayElements /\ (n <> 0 -> enumerates queue_family_ok n (queue_family_values2 d n w));
  law_sparse d x w : let n := sparse_format_count d x w in
    0 <= n <= kMaxArrayElements /\ (n <> 0 -> enumerates sparse_format_ok n (sparse_format_values d x n w));
  law_sparse2 d x w : let n := sparse_format_count2 d x w in
    0 <= n <= kMaxArrayElements /\ (n <> 0 -> enumerates sparse_format_ok n (sparse_format_values2 d x n w));
  law_extensions d w : let n := device_extension_count d w in
    0 <= n <= kMaxArrayElements /\ (n <> 0 -> enumerates extension_ok n (device_extension_values d n w)) }.

(** ** Questions and answers *)
Section Served.
Context `{Abi} {W : Type} {HD : MemoryDriver W} {HI : InstanceDriver W} `{LoopOpcodes}.
Variable opcode_of : string -> Z.
Variable find_handler : Z -> option (Session W -> Session W).
Variable has_vkWaitSemaphores : Z -> W -> bool.
Variable devices : list Z.

#[local] Hint Extern 0 Remote => exact (loop_remote find_handler has_vkWaitSemaphores) : typeclass_instances.
#[local] Hint Extern 0 CommandChannel =>
  exact (loop_channel opcode_of find_handler has_vkWaitSemaphores) : typeclass_instances.
Implicit Type c : InstanceClient.
Import Instance_.

(** Every query is registered under its name, and none is a command of the loop. *)
Hypothesis registered : Forall (fun x => find_handler (opcode_of x.1) = Some x.2 /\ (opcode_of x.1 ∉ loop_opcodes))
                          (query_handlers devices).

(** A client with a connection that is served, to the device [d] of the server. *)
Record asks (h : nat) c (d : Z) : Prop := {
  asks_served : handshake_complete (ic_world c) = true;
  asks_capabilities : ri_capabilities c = capabilities (l_tables (ic_world c));
  asks_id : is_u64 (pd_remote_id (device_at h c));
  asks_device : physical_device_from_id devices (pd_remote_id (device_at h c)) = d;
  asks_valid : d <> 0 }.

(** The client after a query: only the connection has seen something. *)
Definition answered (name : string) (bs : list byte) c : InstanceClient :=
  set_world (Session.send (opcode_of name, Writer.u32 (status_code Ok) ++ bs, 1) (ic_world c)) c.

Lemma query_served {A} name (m : ObjectTables -> Rd A) f h args c x bs :
  In (name, decoded m f) (query_handlers devices) -> handshake_complete (ic_world c) = true ->
  reads_at [] (m (l_tables (ic_world c))) (Writer.handle (pd_remote_id (device_at h c)) ++ args) x ->
  (forall s, tables s = l_tables (ic_world c) -> driver s = l_driver (ic_world c) -> f x s = reply_ok bs s) ->
  physical_request name h args c =
  (Some (Writer.u32 (status_code Ok) ++ bs), answered name bs c).
Proof.
  intros Hin Hh Hm Hf. rewrite Forall_forall in registered.
  destruct (registered _ (proj2 (list_elem_of_In _ _) Hin)) as [Hr Ho]. cbn [fst snd] in Hr, Ho.
  unfold physical_request. cbn [round_trip loop_remote command_opcode loop_channel].
  set (payload := Writer.handle _ ++ args) in *. unfold checked_round_trip.
  set (s0 := new_session (mk_header (opcode_of name) (Z.of_nat (length payload)) 1) payload (ic_world c)).
  pose proof (reads_at_elim [] _ payload x (Reader.make payload) Hm (make_wf _) eq_refl) as Hr0.
  rewrite unread_make, app_nil_r in Hr0. specialize (Hr0 eq_refl).
  assert (decoded m f s0 = reply_ok bs (Handler.set_reader (Reader.advance (length payload) (Reader.make payload)) s0)) as Hd.
  { unfold decoded, Handler.rd. cbn [reader tables s0 new_session]. rewrite Hr0. by apply Hf. }
  rewrite (loop_round_trip_handled _ _ _ _ _ _ (Writer.u32 (status_code Ok) ++ bs) _ Ho Hr Hh Hd eq_refl).
  rewrite status_ok_payload.
  done.
Qed.

(** *** Decoding a question *)

Lemma reads_query {A} rest h c d (m : Rd A) args x : asks h c d ->
  reads_at rest m args x ->
  reads_at rest (r_query devices m) (Writer.handle (pd_remote_id (device_at h c)) ++ args) (d, x).
Proof.
  intros [_ _ Hid Hd Hv] Hm. unfold r_query, r_physical.
  eapply reads_bind; [eapply reads_bind_last; [by apply reads_handle|apply reads_ret]|]. cbv beta. rewrite Hd.
  eapply reads_bind_last; [exact Hm|]. eapply reads_bind_nil; [apply reads_ok|].
  eapply reads_bind_nil; [apply reads_guard; unfold valid; by apply negb_true_iff, Z.eqb_neq|]. apply reads_ret.
Qed.

Lemma reads_device_query rest h c d : asks h c d ->
  reads_at rest (read_device_query devices) (Writer.handle (pd_remote_id (device_at h c))) d.
Proof.
  intros Ha. unfold read_device_query. rewrite <- (app_nil_r (Writer.handle _)).
  eapply reads_bind; [rewrite <- (app_nil_r (Writer.handle _)); by apply reads_query, reads_ret|apply reads_ret].
Qed.

(** *** Decoding an answer *)

Lemma decode_ok {A} (m : Rd A) bs x : reads_at [] m bs x ->
  decode (ok_reply m) (Some (Writer.u32 (status_code Ok) ++ bs)) = Some x.
Proof.
  intros Hm. unfold decode, ok_reply.
  set (payload := Writer.u32 (status_code Ok) ++ bs).
  assert (reads_at [] (status <- r_u32 ; rguard (status =? status_code Ok) ;! m) payload x) as Hr.
  { eapply reads_bind; [by apply reads_u32|]. eapply reads_bind_nil; [by apply reads_guard|]. exact Hm. }
  rewrite (reads_at_elim [] _ payload x _ Hr (make_wf _) eq_refl); [done|].
  by rewrite unread_make, app_nil_r.
Qed.

Lemma decode_skip {A} (m : Rd A) bs x : reads_at [] m bs x ->
  decode (_ <- r_u32 ; m) (Some (Writer.u32 (status_code Ok) ++ bs)) = Some x.
Proof.
  intros Hm. unfold decode. set (payload := Writer.u32 (status_code Ok) ++ bs).
  assert (reads_at [] (_ <- r_u32 ; m) payload x) as Hr.
  { eapply reads_bind; [by apply reads_u32|]. exact Hm. }
  rewrite (reads_at_elim [] _ payload x _ Hr (make_wf _) eq_refl); [done|].
  by rewrite unread_make, app_nil_r.
Qed.

(** A decoder in front of something else. *)
Lemma ok_reply_then {A} (m : Rd A) bs rest x : reads_at rest m bs x ->
  exists r, ok_reply m (Reader.make (Writer.u32 (status_code Ok) ++ bs ++ rest)) = (Some x, r) /\ at_rest r rest.
Proof.
  intros Hm.
  assert (reads_at rest (ok_reply m) (Writer.u32 (status_code Ok) ++ bs) x) as Hr.
  { unfold ok_reply. eapply reads_bind; [by apply reads_u32|]. eapply reads_bind_nil; [by apply reads_guard|]. exact Hm. }
  rewrite app_assoc. eexists. split; [apply (reads_at_elim rest _ _ _ _ Hr (make_wf _) eq_refl); by rewrite unread_make|].
  apply (advance_ok _ _ (Writer.u32 (status_code Ok) ++ bs) rest); [apply make_wf|done|by rewrite unread_make|done].
Qed.

(** *** Output chains *)

(** The chain the server's driver is given for the caller's. *)
Definition blank (next : ptr chain) : ptr chain :=
  arr_ptr (map (fun node => zero_node (node_type node)) (chain_nodes next)).

(** What the caller sees of the chain the driver has filled: [node_transport] is the
    value of a structure behind the wire, without the features that are hidden. *)
Definition seen (filled : ptr chain) : ptr chain :=
  arr_ptr (map (node_transport (HR := null_resolver)) (chain_nodes filled)).

Definition query_context (context : PNextContext) : Prop :=
  match context with QueryFeaturesOutput | QueryPropertiesOutput => True | _ => False end.

Lemma query_copied context t : query_context context -> pnext_allowed context t = true -> output_copied t = true.
Proof. by destruct context, t. Qed.

Lemma zero_node_type t : node_type (zero_node t) = t.
Proof. by destruct t. Qed.

(** The structures of a query are encoded whatever they hold. *)
Lemma copied_encodes node : output_copied (node_type node) = true -> fst (write_node_fields node 0) = true.
Proof.
  destruct node; intros Hc; try discriminate Hc; unfold write_node_fields;
    repeat match goal with |- context [match ?s with _ => _ end] => destruct s end; reflexivity.
Qed.

Lemma blank_types next : map node_type (chain_nodes (blank next)) = map node_type (chain_nodes next).
Proof.
  unfold blank. rewrite chain_nodes_arr_ptr, map_map. apply map_ext. intros node. apply zero_node_type.
Qed.

Lemma blank_acceptable context next : acceptable context (chain_nodes next) -> acceptable context (chain_nodes (blank next)).
Proof.
  intros (Hl & Ha & Hn). pose proof (blank_types next) as Ht. split; [|split].
  - unfold blank. by rewrite chain_nodes_arr_ptr, length_map.
  - unfold blank. rewrite chain_nodes_arr_ptr. apply List.Forall_map. eapply Forall_impl; [exact Ha|].
    intros node. by rewrite zero_node_type.
  - unfold types in *. by rewrite <- map_map with (f := node_type), Ht, map_map.
Qed.

(** The chain part of a query: the topology is sent, and the reply to it sets the
    caller's structures to what the driver has filled in. *)
Lemma chain_answered context next filled : query_context context ->
  acceptable context (chain_nodes next) -> filled_in (blank next) filled ->
  exists topology, write_pnext_output_topology context next = (true, topology) /\
    (forall rest, reads_at rest (read_pnext_output_topology context) topology (blank next)) /\
    forall r, at_rest r (snd (write_pnext_output_values context filled)) ->
      exists r', apply_pnext_output_values context next r = (true, seen filled, r').
Proof.
  intros Hq Hacc [Ht Hok]. assert (output_context context) as Ho by (by destruct context).
  rewrite blank_types in Ht.
  assert (write_pnext_output_topology context next = (true, snd (write_pnext_output_topology context next))) as Hw.
  { unfold write_pnext_output_topology.
    assert (collect_chain context (chain_nodes next) [] = Some (chain_nodes next)) as ->; [|done].
    apply collect_chain_acceptable. by rewrite kept_output. }
  eexists. split; [exact Hw|]. split.
  { intros rest. apply output_topology_roundtrip; [done|exact Hw]. }
  assert (acceptable context (chain_nodes filled)) as Hacc'.
  { destruct Hacc as (Hl & Hal & Hn). split; [|split].
    - apply (f_equal length) in Ht. rewrite !length_map in Ht. by rewrite Ht.
    - apply Forall_forall. intros node Hin.
      assert (node_type node ∈ map node_type (chain_nodes next)) as Hin'.
      { rewrite <- Ht. apply list_elem_of_fmap. by eexists. }
      apply list_elem_of_fmap in Hin' as (node' & -> & Hin'). by eapply Forall_forall in Hal.
    - unfold types in *. rewrite <- (map_map node_type stype_value), Ht, map_map. exact Hn. }
  assert (Forall (fun node => output_copied (node_type node) = true) (chain_nodes filled)) as Hcop.
  { destruct Hacc' as (_ & Hal & _). eapply Forall_impl; [exact Hal|]. intros node. by apply query_copied. }
  assert (write_pnext_output_values context filled = (true, snd (write_pnext_output_values context filled))) as Hv.
  { unfold write_pnext_output_values.
    destruct (proj2 (proj1 (write_pnext_chain_accepts context filled 0))).
    { split; [done|]. rewrite kept_output by done. split; [done|].
      eapply Forall_impl; [exact Hcop|]. apply copied_encodes. }
    by destruct (write_pnext_chain _ _ _). }
  intros r Hr. eexists.
  apply (output_values_applied [] context next filled (snd (write_pnext_output_values context filled)) r); try done.
  - unfold types. by rewrite <- !(map_map node_type stype_value), Ht.
  - apply Forall_forall. intros node Hin. split; [by eapply Forall_forall in Hcop|by eapply Forall_forall in Hok].
  - apply Hr.
  - apply Hr.
  - rewrite app_nil_r. apply Hr.
Qed.

Context {HL : InstanceDriverLaws W}.

(** *** Features *)

Lemma in_query name handler : In (name, handler) (query_handlers devices) -> (name, handler) ∈ query_handlers devices.
Proof. apply list_elem_of_In. Qed.

(** A handler is in the table. *)
Ltac in_table := unfold query_handlers; cbn [In]; repeat first [left; reflexivity|right].

Lemma reads_features rest s : features_ok s ->
  reads_at rest read_PhysicalDeviceFeatures (write_PhysicalDeviceFeatures s) s.
Proof.
  intros [Hl Hs]. unfold read_PhysicalDeviceFeatures, write_PhysicalDeviceFeatures. rewrite <- Hl.
  eapply reads_bind_last; [by apply reads_u32s|]. eapply reads_bind_nil; [apply reads_ok|].
  destruct s. apply reads_ret.
Qed.

(** A struct in a counted string of its size. *)
Lemma reads_raw_struct {A} (size : Z) (m : Rd A) bs x : Z.of_nat (length bs) = size -> size <= 1000 ->
  reads_at [] m bs x -> reads_at [] (read_raw_struct size m) (Writer.bytes bs) x.
Proof.
  intros Hl Hs Hm. unfold read_raw_struct. unfold u32_max.
  eapply reads_bind_last; [apply reads_bytes; unfold is_u32; lia|].
  eapply reads_bind_nil; [apply reads_guard, Z.eqb_eq; lia|].
  rewrite (reads_at_run _ _ _ Hm). apply reads_ret.
Qed.

Lemma features_answered h c d : asks h c d ->
  let raw := vkGetPhysicalDeviceFeatures d (l_driver (ic_world c)) in
  GetPhysicalDeviceFeatures h c =
  (hide_sparse raw, answered "vkGetPhysicalDeviceFeatures" (Writer.bytes (raw_PhysicalDeviceFeatures raw)) c).
Proof.
  intros Ha raw. pose proof (law_features d (l_driver (ic_world c))) as Hraw. fold raw in Hraw.
  unfold GetPhysicalDeviceFeatures.
  erewrite (query_served _ _ _ h [] c d); [|in_table|by apply Ha| |].
  - erewrite decode_skip; [done|]. apply reads_raw_struct; [|lia|by apply reads_features].
    unfold raw_PhysicalDeviceFeatures, write_PhysicalDeviceFeatures. rewrite length_u32s, (proj1 Hraw). done.
  - rewrite app_nil_r. by apply reads_device_query.
  - intros s _ Hd. cbv beta. by rewrite Hd.
Qed.

Lemma features2_answered h c d old next : asks h c d -> acceptable QueryFeaturesOutput (chain_nodes next) ->
  let '(features, filled) := vkGetPhysicalDeviceFeatures2 d (blank next) (l_driver (ic_world c)) in
  features_ok features /\ filled_in next filled /\
  GetPhysicalDeviceFeatures2 h (Some (old, next)) c =
  (Some (hide_sparse features, seen filled),
   answered "vkGetPhysicalDeviceFeatures2"
     (write_PhysicalDeviceFeatures features ++ snd (write_pnext_output_values QueryFeaturesOutput filled)) c).
Proof.
  intros Ha Hacc. set (w := l_driver (ic_world c)).
  destruct (vkGetPhysicalDeviceFeatures2 d (blank next) w) as [features filled] eqn:Hf.
  pose proof (law_features2 d (blank next) w (blank_acceptable _ _ Hacc)) as [Hfs Hfill]. rewrite Hf in Hfs, Hfill. cbn [fst snd] in Hfs, Hfill.
  split; [done|]. split; [by split; [rewrite (proj1 Hfill), blank_types|apply Hfill]|].
  destruct (chain_answered QueryFeaturesOutput next filled) as (topology & Ht & Hr & Happly); [done..|].
  unfold GetPhysicalDeviceFeatures2. rewrite Ht.
  erewrite (query_served _ _ _ h topology c (d, blank next)); [|in_table|by apply Ha| |].
  - destruct (ok_reply_then (rfor VkPhysicalDeviceFeatures.count r_u32) (write_PhysicalDeviceFeatures features)
                (snd (write_pnext_output_values QueryFeaturesOutput filled)) (VkPhysicalDeviceFeatures.words features))
      as (r & E & Hat).
    { rewrite <- (proj1 Hfs). by apply reads_u32s, Hfs. }
    rewrite E, (at_ok _ _ Hat). destruct (Happly r Hat) as [r' ->]. by destruct features.
  - unfold read_chain_query. eapply reads_bind; [by apply reads_device_query|].
    eapply reads_bind_last; [apply Hr|apply reads_ret].
  - intros s _ Hd. cbv beta. cbn [fst snd]. rewrite Hd. fold w. by rewrite Hf.
Qed.

(** Which features are hidden: the words 44 to 52. *)
Lemma hidden_words s i v : VkPhysicalDeviceFeatures.words s !! i = Some v ->
  length (VkPhysicalDeviceFeatures.words s) = VkPhysicalDeviceFeatures.count ->
  VkPhysicalDeviceFeatures.words (hide_sparse s) !! i =
    Some (if decide (44 <= i < 53)%nat then 0 else v).
Proof.
  intros Hi Hl. pose proof (lookup_lt_Some _ _ _ Hi) as Hlt. change VkPhysicalDeviceFeatures.count with 55%nat in Hl.
  unfold hide_sparse. cbn [VkPhysicalDeviceFeatures.words]. destruct (decide (44 <= i < 53)%nat).
  - rewrite lookup_app_r by (rewrite length_take; lia).
    rewrite lookup_app_l by (rewrite length_replicate, length_take; lia). apply lookup_replicate.
    rewrite length_take. split; [done|lia].
  - destruct (decide (i < 44)%nat).
    + by rewrite lookup_app_l, lookup_take_lt by (rewrite ?length_take; lia).
    + rewrite lookup_app_r by (rewrite length_take; lia).
      rewrite lookup_app_r by (rewrite length_take, length_replicate; lia).
      rewrite lookup_drop, length_take, length_replicate. rewrite <- Hi. f_equal. lia.
Qed.

(** C14: The features an application is shown are the driver's, without those the two
    sides do not support.

    vkGetPhysicalDeviceFeatures and vkGetPhysicalDeviceFeatures2 return the
    driver's features with the nine sparse ones (words 44 to 52) off; the structures the application
    chains, in any number and order the contract has, arrive filled with what the
    driver answered for exactly these structures, hidden members off; and asking
    changes nothing else on either side. *)
Theorem features_reported h c d old next :
  asks h c d -> acceptable QueryFeaturesOutput (chain_nodes next) ->
  let w := l_driver (ic_world c) in
  let raw := vkGetPhysicalDeviceFeatures d w in
  let '(features, filled) := vkGetPhysicalDeviceFeatures2 d (blank next) w in
  GetPhysicalDeviceFeatures h c =
    (hide_sparse raw,
     answered "vkGetPhysicalDeviceFeatures" (Writer.bytes (raw_PhysicalDeviceFeatures raw)) c) /\
  GetPhysicalDeviceFeatures2 h (Some (old, next)) c =
    (Some (hide_sparse features, seen filled),
     answered "vkGetPhysicalDeviceFeatures2"
       (write_PhysicalDeviceFeatures features ++ snd (write_pnext_output_values QueryFeaturesOutput filled)) c) /\
  forall s i v, s = raw \/ s = features -> VkPhysicalDeviceFeatures.words s !! i = Some v ->
    VkPhysicalDeviceFeatures.words (hide_sparse s) !! i = Some (if decide (44 <= i < 53)%nat then 0 else v).
Proof.
  intros Ha Hacc w raw. pose proof (features2_answered h c d old next Ha Hacc) as H2. fold w in H2.
  destruct (vkGetPhysicalDeviceFeatures2 d (blank next) w) as [features filled].
  split; [by apply features_answered|]. split; [apply H2|].
  intros s i v Hs Hi. apply hidden_words; [done|].
  destruct Hs as [->| ->]; [apply (law_features d w)|apply H2].
Qed.

(** *** Properties *)

Lemma device_at_set h x c : (h < length (physical_devices c))%nat -> device_at h (set_device h x c) = x.
Proof. intros Hh. unfold device_at, set_device. cbn. by rewrite list_lookup_insert_eq. Qed.

(** What an application is shown of the properties: the lowest of the versions, and
    a name that is terminated. *)
Definition shown_version (s : VkPhysicalDeviceProperties.t) c : Z :=
  Z.min (negotiated_api_version c) (Z.min (VkPhysicalDeviceProperties.apiVersion s) VK_API_VERSION_1_2).

Definition shown_properties (s : VkPhysicalDeviceProperties.t) c : VkPhysicalDeviceProperties.t :=
  set_apiVersion (shown_version s c)
    (VkPhysicalDeviceProperties.set_deviceName (terminate (VkPhysicalDeviceProperties.deviceName s)) s).

(** The device with the version and the alignment of mappings remembered. *)
Definition with_properties h (s : VkPhysicalDeviceProperties.t) c : InstanceClient :=
  set_device h (mkPhysical (pd_remote_id (device_at h c))
                  (VkPhysicalDeviceLimits.minMemoryMapAlignment (VkPhysicalDeviceProperties.limits s))
                  (shown_version s c) (pd_memory_type_flags (device_at h c))) c.

(** Both forms of the query show the driver's properties, member for member, but for
    the version and the termination of the name; the chained structures arrive as
    the driver has filled them; and the device remembers what it has shown. *)
Theorem properties_reported h c d old next :
  asks h c d -> acceptable QueryPropertiesOutput (chain_nodes next) ->
  let w := l_driver (ic_world c) in
  let raw := vkGetPhysicalDeviceProperties d w in
  let '(properties, filled) := vkGetPhysicalDeviceProperties2 d (blank next) w in
  GetPhysicalDeviceProperties h c =
    (shown_properties raw c,
     with_properties h raw (answered "vkGetPhysicalDeviceProperties" (write_PhysicalDeviceProperties raw) c)) /\
  GetPhysicalDeviceProperties2 h (Some (old, next)) c =
    (Some (shown_properties properties c, seen filled),
     with_properties h properties
       (answered "vkGetPhysicalDeviceProperties2"
          (write_PhysicalDeviceProperties properties ++
           snd (write_pnext_output_values QueryPropertiesOutput filled)) c)).
Proof.
  intros Ha Hacc w raw. destruct (vkGetPhysicalDeviceProperties2 d (blank next) w) as [properties filled] eqn:Hf.
  pose proof (law_properties2 d (blank next) w (blank_acceptable _ _ Hacc)) as [Hps Hfill]. rewrite Hf in Hps, Hfill. cbn [fst snd] in Hps, Hfill.
  pose proof (law_properties d w) as Hraw. fold raw in Hraw. split.
  - unfold GetPhysicalDeviceProperties.
    erewrite (query_served _ _ _ h [] c d); [|in_table|by apply Ha| |].
    + erewrite decode_ok; [|by apply device_properties_roundtrip]. done.
    + rewrite app_nil_r. by apply reads_device_query.
    + intros s _ Hd. cbv beta. by rewrite Hd.
  - destruct (chain_answered QueryPropertiesOutput next filled) as (topology & Ht & Hr & Happly); [done..|].
    unfold GetPhysicalDeviceProperties2. rewrite Ht.
    erewrite (query_served _ _ _ h topology c (d, blank next)); [|in_table|by apply Ha| |].
    + edestruct (ok_reply_then read_PhysicalDeviceProperties) as (r & E & Hat);
        [exact (proj1 (device_properties_roundtrip _ _ Hps))|].
      rewrite E. destruct (Happly r Hat) as [r0 ->]. reflexivity.
    + unfold read_chain_query. eapply reads_bind; [by apply reads_device_query|].
      eapply reads_bind_last; [apply Hr|apply reads_ret].
    + intros s _ Hd. cbv beta. cbn [fst snd]. rewrite Hd. fold w. by rewrite Hf.
Qed.

(** *** Memory *)

Lemma public_flags_idem f cap : public_memory_property_flags (public_memory_property_flags f cap) cap =
  public_memory_property_flags f cap.
Proof.
  unfold public_memory_property_flags. generalize (if Z.land cap kCapabilityWholeCopyHostCoherent =? 0
    then Z.lor (Z.lor VK_MEMORY_PROPERTY_DEVICE_COHERENT_BIT_AMD VK_MEMORY_PROPERTY_DEVICE_UNCACHED_BIT_AMD)
           VK_MEMORY_PROPERTY_HOST_COHERENT_BIT
    else Z.lor VK_MEMORY_PROPERTY_DEVICE_COHERENT_BIT_AMD VK_MEMORY_PROPERTY_DEVICE_UNCACHED_BIT_AMD).
  intros hidden. apply Z.bits_inj'. intros i Hi. rewrite !Z.ldiff_spec. by destruct (Z.testbit f i), (Z.testbit hidden i).
Qed.

Lemma public_type_idem cap x : public_memory_type cap (public_memory_type cap x) = public_memory_type cap x.
Proof. unfold public_memory_type. cbn. by rewrite public_flags_idem. Qed.

Lemma public_type_ok cap x : memory_type_ok x -> memory_type_ok (public_memory_type cap x).
Proof.
  intros [Hf Hh]. split; [|exact Hh]. cbn. unfold public_memory_property_flags. clear Hh.
  match goal with |- context [Z.ldiff _ ?h] => generalize h; intros hidden end. unfold is_u32 in *. split.
  - apply Z.ldiff_nonneg. lia.
  - enough (Z.ldiff (VkMemoryType.propertyFlags x) hidden <= VkMemoryType.propertyFlags x) by lia.
    apply Z.ldiff_le; [lia|]. apply Z.bits_inj'. intros i Hi. rewrite !Z.ldiff_spec, Z.bits_0.
    by destruct (Z.testbit (VkMemoryType.propertyFlags x) i), (Z.testbit hidden i).
Qed.

Lemma reads_memory_type x rest : memory_type_ok x -> reads_at rest read_memory_type (write_memory_type x) x.
Proof. destruct x. intros [? ?]. cbn in *. unfold read_memory_type. reads_parts. Qed.

Lemma reads_memory_heap x rest : memory_heap_ok x -> reads_at rest read_memory_heap (write_memory_heap x) x.
Proof. destruct x. intros [? ?]. cbn in *. unfold read_memory_heap. reads_parts. Qed.

(** The public types are as well formed as the driver's, and are public. *)
Lemma public_ok cap s : memory_properties_ok s -> memory_properties_ok (public_memory_properties cap s) /\
  public_memory_properties cap (public_memory_properties cap s) = public_memory_properties cap s.
Proof.
  intros (types & heaps & H1 & H2 & H3 & H4 & H5 & H6 & Ht & Hh). destruct s as [nt ts nh hs]. cbn in *. subst.
  unfold public_memory_properties. cbn. rewrite Nat2Z.id, take_fill.
  assert (drop (length types) (fill VkMemoryType.zero VK_MAX_MEMORY_TYPES types) =
          replicate (Z.to_nat VK_MAX_MEMORY_TYPES - length types) VkMemoryType.zero) as Hdrop by (apply drop_app_length).
  rewrite Hdrop. split.
  - exists (map (public_memory_type cap) types), heaps. unfold fill. rewrite length_map. split_and!; try done.
    apply Forall_map. eapply Forall_impl; [exact Ht|]. apply public_type_ok.
  - f_equal. rewrite (take_app_length' (map _ _)), (drop_app_length' (map _ _)) by (by rewrite length_map).
    rewrite map_map. f_equal. apply map_ext. intros x. apply public_type_idem.
Qed.

Lemma memory_so_far_read r s r' : read_PhysicalDeviceMemoryProperties r = (Some s, r') -> memory_so_far r = (true, s).
Proof.
  unfold read_PhysicalDeviceMemoryProperties, memory_so_far, rbind.
  destruct (read_capped VK_MAX_MEMORY_TYPES 8 r) as [[nt|] r1]; [|discriminate].
  destruct (rfor (Z.to_nat nt) read_memory_type r1) as [[ts|] r2]; [|discriminate].
  destruct (read_capped VK_MAX_MEMORY_HEAPS 12 r2) as [[nh|] r3]; [|discriminate].
  destruct (rfor (Z.to_nat nh) read_memory_heap r3) as [[hs|] r4]; [|discriminate].
  unfold r_ok. destruct (Reader.ok r4); [|discriminate]. by intros [= <- <-].
Qed.

(** The bits of a memory type that are not shown: device-coherent and -uncached
    memory, and host-coherent memory unless it was negotiated. *)
Definition hidden_bit (cap i : Z) : bool :=
  (i =? 6) || (i =? 7) || ((i =? 2) && (Z.land cap kCapabilityWholeCopyHostCoherent =? 0)).

Lemma public_flags_bits f cap i : 0 <= i ->
  Z.testbit (public_memory_property_flags f cap) i = Z.testbit f i && negb (hidden_bit cap i).
Proof.
  intros Hi. unfold public_memory_property_flags, hidden_bit.
  assert (forall b, Z.testbit (Z.lor VK_MEMORY_PROPERTY_DEVICE_COHERENT_BIT_AMD VK_MEMORY_PROPERTY_DEVICE_UNCACHED_BIT_AMD) i = b <->
                    (i =? 6) || (i =? 7) = b) as Hb.
  { intros b. change (Z.lor _ _) with (Z.lor (2 ^ 6) (2 ^ 7)). by rewrite Z.lor_spec, !Z.pow2_bits_eqb, !(Z.eqb_sym _ i) by lia. }
  rewrite Z.ldiff_spec. do 2 f_equal. destruct (Z.land cap kCapabilityWholeCopyHostCoherent =? 0).
  - rewrite Z.lor_spec, (proj2 (Hb _) eq_refl). f_equal. change VK_MEMORY_PROPERTY_HOST_COHERENT_BIT with (2 ^ 2).
    by rewrite Z.pow2_bits_eqb, Z.eqb_sym, andb_true_r by lia.
  - by rewrite (proj2 (Hb _) eq_refl), andb_false_r, orb_false_r.
Qed.

(** C15: The memory types an application is shown are the driver's, in their order and with
    their heaps, without the flags the two sides do not keep.

    Both forms of the query agree with the driver on everything but the hidden flags:
    host-coherent memory shows exactly when the handshake has negotiated it.  The
    client remembers the flags it has shown. *)
Theorem memory_types_reported h c d :
  asks h c d ->
  let w := l_driver (ic_world c) in
  let cap := capabilities (l_tables (ic_world c)) in
  let raw := vkGetPhysicalDeviceMemoryProperties d w in
  let raw2 := vkGetPhysicalDeviceMemoryProperties2 d w in
  (exists bs, GetPhysicalDeviceMemoryProperties h c =
    (public_memory_properties cap raw,
     remember_flags h (public_memory_properties cap raw) (answered "vkGetPhysicalDeviceMemoryProperties" bs c))) /\
  (exists bs, GetPhysicalDeviceMemoryProperties2 h true c =
    (public_memory_properties cap raw2,
     remember_flags h (public_memory_properties cap raw2) (answered "vkGetPhysicalDeviceMemoryProperties2" bs c))) /\
  forall i x, take (Z.to_nat (VkPhysicalDeviceMemoryProperties.memoryTypeCount raw))
                (VkPhysicalDeviceMemoryProperties.memoryTypes raw) !! i = Some x ->
    exists y, VkPhysicalDeviceMemoryProperties.memoryTypes (public_memory_properties cap raw) !! i = Some y /\
      VkMemoryType.heapIndex y = VkMemoryType.heapIndex x /\
      forall bit, 0 <= bit ->
        Z.testbit (VkMemoryType.propertyFlags y) bit =
        Z.testbit (VkMemoryType.propertyFlags x) bit && negb (hidden_bit cap bit).
Proof.
  intros Ha w cap raw raw2. pose proof (law_memory d w) as Hok. fold raw in Hok.
  pose proof (law_memory2 d w) as Hok2. fold raw2 in Hok2. split; [|split].
  - eexists. unfold GetPhysicalDeviceMemoryProperties.
    erewrite (query_served _ _ _ h [] c d); [|in_table|by apply Ha| |].
    2:{ rewrite app_nil_r. by apply reads_device_query. }
    2:{ intros s Ht Hd. cbv beta zeta. rewrite Hd, Ht. fold w cap raw. reflexivity. }
    cbn [ri_capabilities answered set_world]. rewrite (asks_capabilities _ _ _ Ha). fold cap.
    enough (decode (read_memory_properties cap) _ = Some (public_memory_properties cap raw)) as ->; [done|].
    apply decode_skip. clearbody raw. destruct Hok as (types & heaps & H1 & H2 & H3 & H4 & H5 & H6 & Ht & Hh).
    destruct raw as [nt ts nh hs]. cbn in *. subst. rewrite !Nat2Z.id, !take_fill.
    change VK_MAX_MEMORY_TYPES with 32 in *. change VK_MAX_MEMORY_HEAPS with 16 in *.
    eapply reads_bind; [apply reads_u32; unfold is_u32; lia|]. rewrite Nat2Z.id.
    eapply reads_bind.
    { rewrite <- (length_map (public_memory_type cap)), <- (map_map (public_memory_type cap) write_memory_type).
      apply (reads_map _ _ _ memory_type_ok); [intros; by apply reads_memory_type|].
      apply Forall_map. eapply Forall_impl; [exact Ht|]. apply public_type_ok. }
    eapply reads_bind; [apply reads_u32; unfold is_u32; lia|]. rewrite Nat2Z.id.
    eapply reads_bind_last.
    { apply (reads_map _ _ _ memory_heap_ok); [intros; by apply reads_memory_heap|done]. }
    rewrite !(proj2 (Z.ltb_ge _ _)), !Nat2Z.id by lia. unfold public_memory_properties. cbn. rewrite Nat2Z.id, take_fill.
    replace (drop (length types) (fill VkMemoryType.zero 32 types)) with
      (replicate (Z.to_nat 32 - length types) VkMemoryType.zero) by (symmetry; apply drop_app_length).
    rewrite (take_ge heaps), take_ge, map_map by (rewrite ?length_map; lia).
    rewrite (map_ext _ _ (public_type_idem cap)). unfold fill at 1. rewrite length_map. apply reads_ret.
  - eexists. unfold GetPhysicalDeviceMemoryProperties2. cbn [negb].
    erewrite (query_served _ _ _ h [] c d); [|in_table|by apply Ha| |].
    2:{ rewrite app_nil_r. by apply reads_device_query. }
    2:{ intros s Ht Hd. cbv beta zeta. rewrite Hd, Ht. fold w cap raw2. reflexivity. }
    destruct (public_ok cap raw2 Hok2) as [Hpub Hidem].
    edestruct (ok_reply_then (rret tt) []) as (r & E & Hat); [apply reads_ret|]. rewrite app_nil_l in E. rewrite E.
    rewrite <- (app_nil_r (write_PhysicalDeviceMemoryProperties _)) in Hat.
    pose proof (reads_at_elim [] _ _ _ _ (memory_properties_roundtrip [] _ Hpub)
                  (proj1 Hat) (proj1 (proj2 Hat)) (proj2 (proj2 Hat))) as Hread.
    rewrite (memory_so_far_read _ _ _ Hread).
    cbn [ri_capabilities answered set_world]. rewrite (asks_capabilities _ _ _ Ha). fold cap. by rewrite Hidem.
  - intros i x Hx. unfold public_memory_properties. cbn [VkPhysicalDeviceMemoryProperties.memoryTypes].
    exists (public_memory_type cap x). split.
    + apply lookup_app_l_Some. rewrite list_lookup_fmap. by rewrite Hx.
    + split; [done|]. intros bit Hbit. by apply public_flags_bits.
Qed.

(** *** Enumerations *)

(** What the driver lists: the elements that count, of an enumeration with room for
    as many as it has announced. *)
Definition listed {A} (values : Z -> W -> Z * list A) (count : W -> Z) (w : W) : list A :=
  let (n, xs) := enumerated values (count w) w in take (Z.to_nat n) xs.

Lemma enumerated_spec {A} (ok : A -> Prop) values count w : 0 <= count w <= kMaxArrayElements ->
  (count w <> 0 -> enumerates ok (count w) (values (count w) w)) ->
  Forall ok (listed values count w) /\ (enumerated values (count w) w).1 = Z.of_nat (length (listed values count w)) /\
  Z.of_nat (length (listed values count w)) <= kMaxArrayElements.
Proof.
  intros Hn He. unfold listed, enumerated. destruct (Z.eqb_spec (count w) 0) as [Hz|Hz].
  { change kMaxArrayElements with 1048576. split_and!; [exact (List.Forall_nil _)|done|done]. }
  destruct (He Hz) as (Hle & Hl & Hok). destruct (values (count w) w) as [n xs]. cbn [fst snd] in *.
  split; [by apply Forall_take|]. rewrite length_take. lia.
Qed.

(** A list with its length in front. *)
Definition counted {A} (enc : A -> list byte) (xs : list A) : list byte :=
  Writer.u32 (Z.of_nat (length xs)) ++ concat (map enc xs).

Lemma listing_written {A} (enc : A -> list byte) (ok : A -> Prop) values count w (s : Session W) :
  0 <= count w <= kMaxArrayElements -> (count w <> 0 -> enumerates ok (count w) (values (count w) w)) ->
  (let (n, xs) := enumerated values (count w) w in
   reply_ok (Writer.u32 n ++ concat (map enc (take (Z.to_nat n) xs))) s) =
  reply_ok (counted enc (listed values count w)) s.
Proof.
  intros Hn He. destruct (enumerated_spec ok values count w Hn He) as (_ & Hl & _). unfold counted. rewrite <- Hl.
  unfold listed. by destruct (enumerated values (count w) w).
Qed.

Lemma reads_read_array {A} rest size (m : Rd A) (enc : A -> list byte) (ok : A -> Prop) xs :
  0 < size -> (forall x rest, ok x -> reads_at rest m (enc x) x) ->
  (forall x, size <= Z.of_nat (length (enc x))) -> Z.of_nat (length xs) <= kMaxArrayElements -> Forall ok xs ->
  reads_at rest (read_array size m) (Writer.u32 (Z.of_nat (length xs)) ++ concat (map enc xs)) xs.
Proof.
  intros Hs Hm Hsz Hl Hok. change kMaxArrayElements with 1048576 in Hl.
  pose proof (concat_map_length_ge ok enc size xs (fun x _ => Hsz x) Hok) as Hlen.
  unfold read_array. eapply reads_bind; [apply reads_u32; unfold is_u32; lia|].
  eapply reads_bind_nil; [apply reads_remaining|].
  eapply reads_bind_nil; [|rewrite Nat2Z.id; by apply (reads_map _ _ _ ok)].
  apply reads_guard. change kMaxArrayElements with 1048576. apply andb_true_iff. split.
  - apply negb_true_iff, Z.ltb_ge. lia.
  - apply Z.leb_le, Z.div_le_lower_bound; [lia|]. rewrite length_app. lia.
Qed.

Lemma reads_queue_family x rest : queue_family_ok x ->
  reads_at rest read_QueueFamilyProperties (write_QueueFamilyProperties x) x.
Proof. intros [He Hu]. by apply (query_results_roundtrip rest). Qed.

Lemma reads_sparse_properties x rest : sparse_format_ok x ->
  reads_at rest read_SparseImageFormatProperties (write_SparseImageFormatProperties x) x.
Proof. intros [He Hu]. by apply (query_results_roundtrip rest). Qed.

Lemma length_queue_family x : length (write_QueueFamilyProperties x) = 24%nat.
Proof. destruct x as [? ? ? []]. cbn. by rewrite !length_app, !length_writer_u32. Qed.

Lemma length_sparse_properties x : length (write_SparseImageFormatProperties x) = 20%nat.
Proof. destruct x as [? [] ?]. cbn. by rewrite !length_app, !length_writer_u32. Qed.

(** The loop of the first form, which reads the members one by one. *)
Lemma reads_queue_families xs rest : Z.of_nat (length xs) <= kMaxArrayElements -> Forall queue_family_ok xs ->
  reads_at rest (n <- r_u32 ;
    xs <- rfor (Z.to_nat n)
            (flags <- r_u32 ; count <- r_u32 ; bits <- r_u32 ; w <- r_u32 ; h <- r_u32 ; d <- r_u32 ;
             rret (VkQueueFamilyProperties.mk flags count bits (VkExtent3D.mk w h d))) ;
    r_ok ;! rret xs)
    (Writer.u32 (Z.of_nat (length xs)) ++ concat (map write_QueueFamilyProperties xs)) xs.
Proof.
  intros Hl Hok. change kMaxArrayElements with 1048576 in Hl.
  eapply reads_bind; [apply reads_u32; unfold is_u32; lia|]. rewrite Nat2Z.id.
  eapply reads_bind_last; [|eapply reads_bind_nil; [apply reads_ok|apply reads_ret]].
  apply (reads_map _ _ _ queue_family_ok); [|done]. intros [? ? ? []] r [He Hu].
  unfold extent_ok3 in He. cbn in He, Hu |- *. forall_hyps. reads_parts.
Qed.

(** The parameters of a query about sparse images are in the range of their types. *)
Definition sparse_query_ok (x : sparse_format) : Prop :=
  is_i32 (sf_format x) /\ is_i32 (sf_type x) /\ is_i32 (sf_samples x) /\ is_u32 (sf_usage x) /\ is_i32 (sf_tiling x).

Lemma reads_sparse_query x rest : sparse_query_ok x -> reads_at rest read_sparse_format (write_sparse_format x) x.
Proof. destruct x. intros (? & ? & ? & ? & ?). cbn in *. unfold read_sparse_format, write_sparse_format. cbn. reads_parts. Qed.

(** What was decoded is handed out. *)
Ltac handed_out :=
  match goal with |- context [hand_out ?r ?a (Some ?v)] =>
    change (hand_out r a (Some v)) with (copy_out r a v); by destruct (copy_out r a v) as [[? ?] ?]
  end.

(** The enumerations of queue families and sparse formats, in both forms: how many
    the driver lists, or as many of them as there is room for. *)
Theorem enumerations_served h c d x room array :
  asks h c d -> sparse_query_ok x ->
  let w := l_driver (ic_world c) in
  let stored {A} (r : Z * list A * InstanceClient) (values : list A) :=
    r.1 = ((copy_out room array values).1.2, (copy_out room array values).2) in
  stored (GetPhysicalDeviceQueueFamilyProperties h room array c)
    (listed (queue_family_values d) (queue_family_count d) w) /\
  stored (GetPhysicalDeviceQueueFamilyProperties2 h (Some room) array c)
    (listed (queue_family_values2 d) (queue_family_count2 d) w) /\
  stored (GetPhysicalDeviceSparseImageFormatProperties h x (Some room) array c)
    (listed (sparse_format_values d x) (sparse_format_count d x) w) /\
  stored (GetPhysicalDeviceSparseImageFormatProperties2 h (Some x) (Some room) array c)
    (listed (sparse_format_values2 d x) (sparse_format_count2 d x) w).
Proof.
  intros Ha Hx w stored. subst stored. cbv beta. pose proof (law_families d w) as [Hn1 He1]. pose proof (law_families2 d w) as [Hn2 He2].
  pose proof (law_sparse d x w) as [Hn3 He3]. pose proof (law_sparse2 d x w) as [Hn4 He4].
  destruct (enumerated_spec _ _ _ w Hn1 He1) as (Hok1 & _ & Hm1), (enumerated_spec _ _ _ w Hn2 He2) as (Hok2 & _ & Hm2),
    (enumerated_spec _ _ _ w Hn3 He3) as (Hok3 & _ & Hm3), (enumerated_spec _ _ _ w Hn4 He4) as (Hok4 & _ & Hm4).
  split; [|split; [|split]].
  - unfold GetPhysicalDeviceQueueFamilyProperties.
    erewrite (query_served _ _ _ h [] c d); [|in_table|by apply Ha| |].
    2:{ rewrite app_nil_r. by apply reads_device_query. }
    2:{ intros s _ Hd. cbv beta. rewrite Hd. exact (listing_written _ _ _ _ w s Hn1 He1). }
    unfold read_queue_families. erewrite decode_skip; cycle 1. { by apply reads_queue_families. } handed_out.
  - unfold GetPhysicalDeviceQueueFamilyProperties2.
    erewrite (query_served _ _ _ h [] c d); [|in_table|by apply Ha| |].
    2:{ rewrite app_nil_r. by apply reads_device_query. }
    2:{ intros s _ Hd. cbv beta. rewrite Hd. exact (listing_written _ _ _ _ w s Hn2 He2). }
    erewrite decode_ok; cycle 1.
    { eapply reads_bind_last; [|eapply reads_bind_nil; [apply reads_ok|apply reads_ret]].
      apply (reads_read_array _ _ _ _ queue_family_ok); auto using reads_queue_family; [lia|].
      intros y. by rewrite length_queue_family. }
    handed_out.
  - unfold GetPhysicalDeviceSparseImageFormatProperties.
    erewrite (query_served _ _ _ h _ c (d, x)); [|in_table|by apply Ha| |].
    2:{ by apply reads_query, reads_sparse_query. }
    2:{ intros s _ Hd. cbv beta. rewrite Hd. cbv zeta. cbn [fst snd]. fold w.
        rewrite (proj2 (Z.ltb_ge _ _)) by lia. exact (listing_written _ _ _ _ w s Hn3 He3). }
    erewrite decode_skip; cycle 1.
    { apply (reads_read_array _ _ _ _ sparse_format_ok); auto using reads_sparse_properties; [lia|].
      intros y. by rewrite length_sparse_properties. }
    handed_out.
  - unfold GetPhysicalDeviceSparseImageFormatProperties2.
    erewrite (query_served _ _ _ h _ c (d, x)); [|in_table|by apply Ha| |].
    2:{ by apply reads_query, reads_sparse_query. }
    2:{ intros s _ Hd. cbv beta. rewrite Hd. exact (listing_written _ _ _ _ w s Hn4 He4). }
    erewrite decode_ok; cycle 1.
    { apply (reads_read_array _ _ _ _ sparse_format_ok); auto using reads_sparse_properties; [lia|].
      intros y. by rewrite length_sparse_properties. }
    handed_out.
Qed.

End Served.
