(* ===== verification/ClientDevice.v ===== *)
(** Devices on the client: their creation and destruction in
    [src/client/device.cpp].

    A device is created with features and extensions the client supports; anything
    else is refused before the server is asked. *)

From stdpp Require Import list gmap strings.
From S2P Require Import Prelude Wire Codec CLayout VkStructs ExtensionContract PNext VkCreateInfos.
From S2P Require Import MarshalBase Marshal MarshalChained.
From S2P Require Import HostMemory ClientSync ClientCommands ClientObjects ServerInstance ClientInstance.
Open Scope wire_scope.

(** The members of [RemoteDevice] that do not describe its objects.

    remote_objects.hpp:184-211. *)
Record RemoteDevice := mkRemoteDevice {
  rd_remote_id : Z; rd_api_version : Z; rd_map_alignment : Z; rd_memory_type_flags : list Z;
  rd_enabled_extensions : list (list byte) }.

(** A C string as a string of the contract. *)
Definition text (name : list byte) : string := String.string_of_list_byte (Writer.strlen_prefix name).

(** ** Features *)

(** The nine words that [hide_sparse] clears.

    device.cpp:158-167. *)
Definition requests_sparse (s : VkPhysicalDeviceFeatures.t) : bool :=
  existsb (fun v => negb (v =? 0)) (take 9 (drop 44 (VkPhysicalDeviceFeatures.words s))).

(** Some word is requested that the policy clears.

    device.cpp:181-181. *)
Definition requests_filtered (requested filtered : list Z) : bool :=
  existsb (fun p : Z * Z => negb (p.1 =? 0) && (p.2 =? 0)) (zip requested filtered).

Section Devices.
Context `{CommandChannel} `{Abi}.
Implicit Type c : InstanceClient.
Import Instance_.

(** Whether a structure of the chain asks for a feature that is not supported;
    [enabled] tells the extensions.

    device.cpp:176-183. *)
Definition unsupported_features (enabled : string -> bool) (node : pnext_node) : bool :=
  match node with
  | Vulkan11Features s =>
      existsb (fun v => negb (v =? 0))
        [VkPhysicalDeviceVulkan11Features.storageBuffer16BitAccess s;
         VkPhysicalDeviceVulkan11Features.uniformAndStorageBuffer16BitAccess s;
         VkPhysicalDeviceVulkan11Features.storagePushConstant16 s;
         VkPhysicalDeviceVulkan11Features.storageInputOutput16 s;
         VkPhysicalDeviceVulkan11Features.variablePointersStorageBuffer s;
         VkPhysicalDeviceVulkan11Features.variablePointers s;
         VkPhysicalDeviceVulkan11Features.protectedMemory s;
         VkPhysicalDeviceVulkan11Features.shaderDrawParameters s]
  | ProtectedMemoryFeatures v => negb (v =? 0)
  | Vulkan12Features s => negb (vulkan12_requested_features_supported s)
  | BufferDeviceAddressFeatures s =>
      negb (VkPhysicalDeviceBufferDeviceAddressFeatures.bufferDeviceAddressCaptureReplay s =? 0)
      || negb (VkPhysicalDeviceBufferDeviceAddressFeatures.bufferDeviceAddressMultiDevice s =? 0)
  | DescriptorIndexingFeatures s =>
      requests_filtered (VkPhysicalDeviceDescriptorIndexingFeatures.words s)
        (VkPhysicalDeviceDescriptorIndexingFeatures.words (apply_descriptor_indexing_feature_policy s))
  | Synchronization2Features v => negb (v =? 0) && negb (enabled VK_KHR_SYNCHRONIZATION_2)
  | _ => false
  end.

(** ** Extensions *)

(** device.cpp:169-175. *)
Definition extension_enabled (info : VkDeviceCreateInfo.t) (name : string) : bool :=
  existsb (fun x => streq (text x) name)
    (arr (VkDeviceCreateInfo.ppEnabledExtensionNames info) (VkDeviceCreateInfo.enabledExtensionCount info)).

(** Those that come with Vulkan 1.1 or with their dependencies.

    device.cpp:196-199. *)
Definition contract_extension (name : string) : bool :=
  is_required_device_extension (Some name) || streq name VK_KHR_SYNCHRONIZATION_2
  || streq name VK_KHR_BUFFER_DEVICE_ADDRESS || streq name VK_EXT_DESCRIPTOR_INDEXING.

(** device.cpp:187-205. *)
Definition extensions_accepted (api_version : Z) (properties2 : bool) (info : VkDeviceCreateInfo.t) : bool :=
  let n := VkDeviceCreateInfo.enabledExtensionCount info in
  let names := VkDeviceCreateInfo.ppEnabledExtensionNames info in
  negb (missing n names) &&
  forallb (fun x =>
    let requested := text x in
    (streq requested VK_KHR_SWAPCHAIN || contract_extension requested)
    && negb (contract_extension requested && (api_version <? VK_API_VERSION_1_1)
             && negb (device_extension_dependencies_satisfied (Some requested) (extension_enabled info) properties2)))
    (arr names n).

(** ** Creation *)

(** What is refused, and how, before the server is asked.

    device.cpp:157-205. *)
Definition refused (h : nat) (info : VkDeviceCreateInfo.t) c : option Z :=
  if negb (VkDeviceCreateInfo.enabledLayerCount info =? 0) then Some VK_ERROR_LAYER_NOT_PRESENT
  else if match VkDeviceCreateInfo.pEnabledFeatures info with Ref s => requests_sparse s | _ => false end
  then Some VK_ERROR_FEATURE_NOT_PRESENT
  else if existsb (unsupported_features (extension_enabled info)) (chain_nodes (VkDeviceCreateInfo.pNext info))
  then Some VK_ERROR_FEATURE_NOT_PRESENT
  else if negb (extensions_accepted (pd_api_version (device_at h c))
                  (bool_decide (chars "VK_KHR_get_physical_device_properties2" ∈ enabled_extensions c)) info)
  then Some VK_ERROR_EXTENSION_NOT_PRESENT
  else None.

(** The new device with what the physical device knows.

    device.cpp:222-231. *)
Definition new_device (h : nat) (info : VkDeviceCreateInfo.t) (id : Z) c : RemoteDevice :=
  let pd := device_at h c in
  mkRemoteDevice id (pd_api_version pd) (pd_map_alignment pd) (pd_memory_type_flags pd)
    (map Writer.strlen_prefix
       (arr (VkDeviceCreateInfo.ppEnabledExtensionNames info) (VkDeviceCreateInfo.enabledExtensionCount info))).

(** device.cpp:147-234. *)
Definition CreateDevice (h : option nat) (info : option VkDeviceCreateInfo.t) (out : bool) c :
    Z * option RemoteDevice * InstanceClient :=
  match h, info, out with
  | Some h, Some info, true =>
      match refused h info c with
      | Some result => (result, None, c)
      | None =>
          match write_DeviceCreateInfo info with
          | (false, _) => (VK_ERROR_FEATURE_NOT_PRESENT, None, c)
          | (true, bs) =>
              let (reply, c) := physical_request "vkCreateDevice" h bs c in
              match created reply with
              | None => (VK_ERROR_INITIALIZATION_FAILED, None, c)
              | Some (result, id, whole) =>
                  if negb whole || negb (result =? VK_SUCCESS)
                  then (if negb (result =? VK_SUCCESS) then result else VK_ERROR_INITIALIZATION_FAILED, None, c)
                  else (VK_SUCCESS, Some (new_device h info id c), c)
              end
          end
      end
  | _, _, _ => (VK_ERROR_INITIALIZATION_FAILED, None, c)
  end.

(** The device, its queues and command buffers and the shadows of its mappings go
    with it.

    device.cpp:236-250. *)
Definition DestroyDevice (device : option RemoteDevice) c : InstanceClient :=
  match device with
  | None => c
  | Some d => set_world (send_command (command_opcode "vkDestroyDevice") (Writer.handle (rd_remote_id d)) (ic_world c)) c
  end.

End Devices.
