(* ===== verification/CreationFacts.v ===== *)
(** The creation of a device, from the application's structures to the driver.

    What [ClientDevice] accepts, what the driver is asked for, and what the
    application then has. *)

From stdpp Require Import list gmap strings.
From S2P Require Import Prelude Wire Codec Decode CLayout VkStructs ExtensionContract PNext PNextFacts VkCreateInfos VkLimits.
From S2P Require Import MarshalBase Marshal MarshalChained MarshalValues.
From S2P Require Import HostMemory Objects Session ServerMemory ServerMapped ServerCommands ServerDevice.
From S2P Require Import ClientSync ClientCommands ClientObjects ServerInstance ClientInstance InstanceFacts QueryFacts ClientDevice.
Open Scope wire_scope.
Import ReaderFacts.
#[local] Set Warnings "-clear-no-such-hyp".

(** ** Accepted features *)

Lemma filtered_masked requested keep :
  length keep = length requested ->
  requests_filtered requested (mask_words keep requested) = false -> mask_words keep requested = requested.
Proof.
  revert requested. induction keep as [|k keep IH]; intros [|v vs] Hl; try discriminate Hl; [done|].
  injection Hl as Hl. unfold requests_filtered, mask_words. cbn [zip_with existsb fst snd].
  change (zip_with _ keep vs) with (mask_words keep vs).
  intros Hr. apply orb_false_iff in Hr as [Hv Hr]. rewrite (IH vs Hl Hr). f_equal.
  destruct k; [done|]. destruct (Z.eqb_spec v 0) as [->|]; [done|discriminate Hv].
Qed.

Lemma indexing_policy_words s :
  VkPhysicalDeviceDescriptorIndexingFeatures.words (apply_descriptor_indexing_feature_policy s) =
  mask_words (replicate 10 true ++ replicate 10 false) (VkPhysicalDeviceDescriptorIndexingFeatures.words s).
Proof. by destruct s. Qed.

Lemma indexing_words_inj s s' :
  VkPhysicalDeviceDescriptorIndexingFeatures.words s = VkPhysicalDeviceDescriptorIndexingFeatures.words s' -> s = s'.
Proof.
  intros H. rewrite <- (VkPhysicalDeviceDescriptorIndexingFeatures.VkPhysicalDeviceDescriptorIndexingFeatures_words s), H.
  apply VkPhysicalDeviceDescriptorIndexingFeatures.VkPhysicalDeviceDescriptorIndexingFeatures_words.
Qed.

Section Features.
Context `{Abi}.

(** A structure without unsupported features crosses the wire as it is. *)
Lemma accepted_kept (HR : HandleResolver) enabled node : pnext_allowed DeviceCreate (node_type node) = true ->
  unsupported_features enabled node = false -> node_transport node = node.
Proof.
  intros Ha Hu. destruct node; try discriminate Ha; cbn [unsupported_features node_transport] in *; try done.
  - destruct s. cbn in Hu. repeat (apply orb_false_iff in Hu as [?%negb_false_iff%Z.eqb_eq Hu]). by subst.
  - apply negb_false_iff in Hu. f_equal. by apply vulkan12_requested_features_supported_iff.
  - destruct s. cbn in Hu. apply orb_false_iff in Hu as [?%negb_false_iff%Z.eqb_eq ?%negb_false_iff%Z.eqb_eq]. by subst.
  - f_equal. apply indexing_words_inj. rewrite indexing_policy_words in *. apply filtered_masked; [by destruct s|done].
  - apply negb_false_iff, Z.eqb_eq in Hu. by subst.
Qed.

End Features.

(** ** The request *)
Section Request.
Context `{Abi}.

Lemma write_device_accepts info : fst (write_pnext_chain DeviceCreate (VkDeviceCreateInfo.pNext info) 0) = true ->
  fst (write_DeviceCreateInfo info) = true.
Proof.
  intros Hw. unfold write_DeviceCreateInfo. destruct (write_pnext_chain _ _ _) as [[] b]; [done|discriminate Hw].
Qed.

Lemma hidden_not_requested s : length (VkPhysicalDeviceFeatures.words s) = VkPhysicalDeviceFeatures.count ->
  requests_sparse (hide_sparse s) = false.
Proof.
  intros Hl. unfold requests_sparse, hide_sparse. cbn [VkPhysicalDeviceFeatures.words].
  rewrite drop_app_length' by (rewrite length_take, Hl; done). by rewrite take_app_length' by done.
Qed.

Lemma existsb_false {A} (f : A -> bool) xs : existsb f xs = false <-> Forall (fun x => f x = false) xs.
Proof.
  induction xs as [|x xs IH]; [by split|]. cbn. rewrite orb_false_iff, IH, Forall_cons. done.
Qed.

End Request.

(** The request is neither refused nor impossible to encode: it goes out. *)
Definition goes_out `{CommandChannel} `{Abi} (h : nat) (info : VkDeviceCreateInfo.t) (c : InstanceClient) : Prop :=
  refused h info c = None /\ fst (write_DeviceCreateInfo info) = true.

(** ** Reported features *)
Section Reported.
Context `{Abi}.

Lemma filtered_same ws : requests_filtered ws ws = false.
Proof.
  unfold requests_filtered. induction ws as [|w ws IH]; [done|]. cbn [zip zip_with existsb fst snd]. rewrite IH.
  by destruct (w =? 0).
Qed.

Lemma indexing_policy_idem s : apply_descriptor_indexing_feature_policy (apply_descriptor_indexing_feature_policy s) =
  apply_descriptor_indexing_feature_policy s.
Proof. by destruct s. Qed.

(** A structure of features as the client shows it can be asked for; the feature of
    the synchronization extension needs the extension. *)
Lemma shown_supported (HR : HandleResolver) enabled node : pnext_allowed QueryFeaturesOutput (node_type node) = true ->
  (forall v, node = Synchronization2Features v -> v <> 0 -> enabled VK_KHR_SYNCHRONIZATION_2 = true) ->
  unsupported_features enabled (node_transport node) = false /\
  node_type (node_transport node) = node_type node.
Proof.
  intros Ha Hsync. split; [|by destruct node].
  destruct node; try discriminate Ha; cbn [unsupported_features node_transport]; try done.
  - apply negb_false_iff, vulkan12_requested_features_supported_iff. by destruct s.
  - match goal with |- context [?v =? 0] => destruct (Z.eqb_spec v 0) as [->|Hv]; [done|by rewrite (Hsync v eq_refl Hv)] end.
  - rewrite indexing_policy_idem. apply filtered_same.
Qed.

Lemma query_create t : pnext_allowed QueryFeaturesOutput t = true ->
  pnext_allowed DeviceCreate t = true /\ output_copied t = true /\ stype_eqb t LOADER_DEVICE_CREATE_INFO = false.
Proof. by destruct t. Qed.

Lemma kept_all context nodes : Forall (fun node => is_loader context node = false) nodes -> kept context nodes = nodes.
Proof. induction 1 as [|node nodes Hl _ IH]; [done|]. cbn [kept]. by rewrite Hl, IH. Qed.

Lemma seen_nodes filled : chain_nodes (seen filled) = map (node_transport (HR := null_resolver)) (chain_nodes filled).
Proof. unfold seen. apply chain_nodes_arr_ptr. Qed.

(** What holds of the types of a chain depends on them only. *)
Lemma Forall_map_types (P : VkStructureType -> Prop) nodes nodes' : map node_type nodes = map node_type nodes' ->
  Forall (fun node => P (node_type node)) nodes' -> Forall (fun node => P (node_type node)) nodes.
Proof.
  intros Ht Hf. apply (proj2 (List.Forall_map node_type P nodes')) in Hf. rewrite <- Ht in Hf.
  exact (proj1 (List.Forall_map node_type P nodes) Hf).
Qed.

End Reported.

Section Enable.
Context `{Abi} {W : Type} {HD : MemoryDriver W} {HI : InstanceDriver W} {HL : InstanceDriverLaws W} `{LoopOpcodes}.
Variable opcode_of : string -> Z.
Variable find_handler : Z -> option (Session W -> Session W).
Variable has_vkWaitSemaphores : Z -> W -> bool.
Variable devices : list Z.

#[local] Hint Extern 0 Remote => exact (loop_remote find_handler has_vkWaitSemaphores) : typeclass_instances.
#[local] Hint Extern 0 CommandChannel =>
  exact (loop_channel opcode_of find_handler has_vkWaitSemaphores) : typeclass_instances.
Implicit Type c : InstanceClient.
Import Instance_.

Hypothesis registered : Forall (fun x => find_handler (opcode_of x.1) = Some x.2 /\ (opcode_of x.1 ∉ loop_opcodes))
                          (query_handlers devices).

(** C17: The features a query reports can be enabled, all at once and as reported.

    An application that asks for the features of a physical device, with any
    structures chained, and passes what it gets to vkCreateDevice (the
    synchronization feature together with its extension) is not refused for its
    features: the request is encoded, and the chain of features the server's driver
    receives is the one that was reported. *)
Theorem reported_features_enable h c d old next info enabled reported c1 (HR : HandleResolver) :
  asks find_handler has_vkWaitSemaphores devices h c d -> acceptable QueryFeaturesOutput (chain_nodes next) ->
  GetPhysicalDeviceFeatures2 h (Some (old, next)) c = (Some (enabled, reported), c1) ->
  VkDeviceCreateInfo.pEnabledFeatures info = Ref enabled -> VkDeviceCreateInfo.pNext info = reported ->
  VkDeviceCreateInfo.enabledLayerCount info = 0 ->
  extensions_accepted (pd_api_version (device_at h c1))
    (bool_decide (chars "VK_KHR_get_physical_device_properties2" ∈ enabled_extensions c1)) info = true ->
  (forall v, Synchronization2Features v ∈ chain_nodes reported -> v <> 0 ->
     extension_enabled info VK_KHR_SYNCHRONIZATION_2 = true) ->
  goes_out h info c1 /\
  chain_nodes (VkDeviceCreateInfo.pNext (recv_DeviceCreateInfo info)) = chain_nodes reported.
Proof.
  intros Ha Hacc Hq Hf Hp Hl He Hsync.
  pose proof (features2_answered opcode_of _ _ devices registered h c d old next Ha Hacc) as Hx.
  match type of Hx with context [vkGetPhysicalDeviceFeatures2 ?d ?p ?w] =>
    destruct (vkGetPhysicalDeviceFeatures2 d p w) as [features filled] end.
  destruct Hx as (Hfs & [Ht Hok] & Hx). rewrite Hx in Hq. injection Hq as <- <- <-.
  rewrite seen_nodes in Hsync.
  assert (Forall (fun node => pnext_allowed QueryFeaturesOutput (node_type node) = true) (chain_nodes filled)) as Hal.
  { apply (Forall_map_types (fun t => pnext_allowed QueryFeaturesOutput t = true) _ (chain_nodes next)); [done|apply Hacc]. }
  assert (Forall (fun node => unsupported_features (extension_enabled info) (node_transport (HR := null_resolver) node) = false /\
                              node_type (node_transport (HR := null_resolver) node) = node_type node) (chain_nodes filled)) as Hsup.
  { apply Forall_forall. intros node Hin. apply shown_supported; [by eapply Forall_forall in Hal|].
    intros v -> Hv. apply (Hsync v); [|done]. by apply (list_elem_of_fmap_2 (node_transport (HR := null_resolver)) _ (Synchronization2Features v)). }
  assert (Forall (fun node => pnext_allowed DeviceCreate (node_type node) = true /\
            output_copied (node_type node) = true /\ is_loader DeviceCreate node = false /\
            unsupported_features (extension_enabled info) node = false) (chain_nodes (seen filled))) as Hn.
  { rewrite seen_nodes. apply Forall_map, Forall_forall. intros node Hin.
    rewrite Forall_forall in Hal, Hsup. destruct (Hsup node Hin) as [Hu Hty].
    destruct (query_create _ (Hal node Hin)) as (H1 & H2 & H3). unfold is_loader. by rewrite Hty. }
  assert (kept DeviceCreate (chain_nodes (seen filled)) = chain_nodes (seen filled)) as Hk.
  { apply kept_all. eapply Forall_impl; [exact Hn|]. by intros ? (? & ? & ? & ?). }
  split; [split|].
  - unfold refused. rewrite Hl, Hf, He, Hp. cbn [negb]. rewrite Z.eqb_refl, hidden_not_requested by apply Hfs.
    rewrite (proj2 (existsb_false _ _)); [done|]. eapply Forall_impl; [exact Hn|]. by intros ? (? & ? & ? & ?).
  - apply write_device_accepts. rewrite Hp. apply write_pnext_chain_accepts. rewrite Hk.
    split; [done|]. split; [split; [|split]|].
    + rewrite seen_nodes, length_map. apply (f_equal length) in Ht. rewrite !length_map in Ht. rewrite Ht. apply Hacc.
    + eapply Forall_impl; [exact Hn|]. by intros ? (? & ? & ? & ?).
    + rewrite seen_nodes. unfold types. rewrite map_map.
      rewrite (map_ext_in _ (fun node => stype_value (node_type node))).
      * rewrite <- (map_map node_type stype_value), Ht, map_map. apply Hacc.
      * intros node Hin. rewrite Forall_forall in Hsup. by rewrite (proj2 (Hsup node (proj2 (list_elem_of_In _ _) Hin))).
    + eapply Forall_impl; [exact Hn|]. intros node (_ & Hc & _). by apply copied_encodes.
  - unfold recv_DeviceCreateInfo. cbn [VkDeviceCreateInfo.pNext VkDeviceCreateInfo.set_pEnabledFeatures
      VkDeviceCreateInfo.set_ppEnabledExtensionNames VkDeviceCreateInfo.set_ppEnabledLayerNames
      VkDeviceCreateInfo.set_pQueueCreateInfos VkDeviceCreateInfo.set_pNext].
    unfold chain_recv. rewrite chain_nodes_arr_ptr, Hp, Hk. rewrite <- (map_id (chain_nodes (seen filled))) at 2.
    apply map_ext_in. intros node Hin%list_elem_of_In. rewrite Forall_forall in Hn.
    destruct (Hn node Hin) as (H1 & _ & _ & H4). by eapply accepted_kept.
Qed.

Context {C : CommandDriver W} {D : DeviceDriver W}.

(** A request whose handler changes the tables and the driver before it replies. *)
Lemma change_served {A} name (m : ObjectTables -> Rd A) f h args c x bs t' w' :
  find_handler (opcode_of name) = Some (decoded m f) -> (opcode_of name ∉ loop_opcodes) ->
  handshake_complete (ic_world c) = true ->
  reads_at [] (m (l_tables (ic_world c))) (Writer.handle (pd_remote_id (device_at h c)) ++ args) x ->
  (forall s, tables s = l_tables (ic_world c) -> driver s = l_driver (ic_world c) ->
     f x s = reply_ok bs (Handler.set_tables t' (Handler.set_driver w' s))) ->
  exists l', physical_request name h args c = (Some (Writer.u32 (status_code Ok) ++ bs), set_world l' c) /\
    l_tables l' = t' /\ l_driver l' = w' /\ handshake_complete l' = true.
Proof.
  intros Hr Ho Hh Hm Hf. unfold physical_request. cbn [round_trip loop_remote command_opcode loop_channel].
  set (payload := Writer.handle _ ++ args) in *. unfold checked_round_trip.
  set (s0 := new_session (mk_header (opcode_of name) (Z.of_nat (length payload)) 1) payload (ic_world c)).
  pose proof (reads_at_elim [] _ payload x (Reader.make payload) Hm (make_wf _) eq_refl) as Hr0.
  rewrite unread_make, app_nil_r in Hr0. specialize (Hr0 eq_refl).
  set (s1 := Handler.set_reader (Reader.advance (length payload) (Reader.make payload)) s0).
  assert (decoded m f s0 = reply_ok bs (Handler.set_tables t' (Handler.set_driver w' s1))) as Hd.
  { unfold decoded, Handler.rd. cbn [reader tables s0 new_session]. rewrite Hr0. by apply Hf. }
  rewrite (loop_round_trip_handled _ _ _ _ _ _ (Writer.u32 (status_code Ok) ++ bs) _ Ho Hr Hh Hd eq_refl).
  rewrite status_ok_payload. eexists. split; [done|]. by repeat split.
Qed.

Lemma reads_create_device rest h c d info : asks find_handler has_vkWaitSemaphores devices h c d ->
  fst (write_DeviceCreateInfo info) = true -> DeviceCreateInfo_ok info ->
  reads_at rest (read_create_device devices (l_tables (ic_world c)))
    (Writer.handle (pd_remote_id (device_at h c)) ++ snd (write_DeviceCreateInfo info))
    (d, recv_DeviceCreateInfo (HR := resolver_of (l_tables (ic_world c))) info).
Proof.
  intros [_ _ Hid Hd Hv] Hw Hok. unfold read_create_device.
  eapply reads_bind; [by apply reads_handle|]. cbv beta zeta. rewrite Hd.
  eapply reads_bind_nil; [apply reads_ok|].
  eapply reads_bind_nil; [apply reads_guard; unfold valid; by apply negb_true_iff, Z.eqb_neq|].
  eapply reads_bind_last; [|apply reads_ret]. destruct (write_DeviceCreateInfo info) as [[] bs] eqn:E; [|discriminate Hw].
  by apply (reads_DeviceCreateInfo rest info bs).
Qed.

(** What is accepted keeps its chain, the loader's own structure apart. *)
Lemma accepted_chain (HR : HandleResolver) h info c : refused h info c = None ->
  fst (write_DeviceCreateInfo info) = true ->
  chain_nodes (VkDeviceCreateInfo.pNext (recv_DeviceCreateInfo info)) =
  kept DeviceCreate (chain_nodes (VkDeviceCreateInfo.pNext info)).
Proof.
  intros Hr Hw. unfold recv_DeviceCreateInfo. cbn [VkDeviceCreateInfo.pNext VkDeviceCreateInfo.set_pEnabledFeatures
      VkDeviceCreateInfo.set_ppEnabledExtensionNames VkDeviceCreateInfo.set_ppEnabledLayerNames
      VkDeviceCreateInfo.set_pQueueCreateInfos VkDeviceCreateInfo.set_pNext].
  unfold chain_recv. rewrite chain_nodes_arr_ptr.
  assert (Forall (fun node => pnext_allowed DeviceCreate (node_type node) = true)
            (kept DeviceCreate (chain_nodes (VkDeviceCreateInfo.pNext info)))) as Hal.
  { unfold write_DeviceCreateInfo in Hw.
    destruct (fst (write_pnext_chain DeviceCreate (VkDeviceCreateInfo.pNext info) 0)) eqn:E.
    - apply write_pnext_chain_accepts in E as (_ & (_ & Hal & _) & _). exact Hal.
    - destruct (write_pnext_chain DeviceCreate (VkDeviceCreateInfo.pNext info) 0) as [[] ?]; [discriminate E|discriminate Hw]. }
  assert (Forall (fun node => unsupported_features (extension_enabled info) node = false)
            (chain_nodes (VkDeviceCreateInfo.pNext info))) as Hs.
  { unfold refused in Hr. repeat (case_match; [discriminate Hr|]). by apply existsb_false. }
  rewrite <- (map_id (kept _ _)) at 2. apply map_ext_in. intros node Hin%list_elem_of_In.
  eapply accepted_kept; [by eapply Forall_forall in Hal|].
  rewrite Forall_forall in Hs. apply Hs. clear -Hin. induction (chain_nodes _) as [|x nodes IH]; [done|].
  cbn [kept] in Hin. destruct (is_loader DeviceCreate x); [right; by apply IH|].
  apply elem_of_cons in Hin as [->|Hin]; [left|right; by apply IH].
Qed.

Lemma created_reply result id : is_i32 result -> is_u64 id ->
  created (Some (Writer.u32 (status_code Ok) ++ Writer.i32 result ++ Writer.handle id)) = Some (result, id, true).
Proof.
  intros Hr Hi. unfold created, reply_result, payload_reader.
  pose proof (at_make (Writer.u32 (status_code Ok) ++ Writer.i32 result ++ Writer.handle id)) as Hat.
  revert Hat. generalize (Reader.make (Writer.u32 (status_code Ok) ++ Writer.i32 result ++ Writer.handle id)).
  intros r Hat. rewrite <- (app_nil_r (Writer.handle id)) in Hat. decode Hat. cbn [snd]. decode Hat. decode Hat.
  by rewrite (at_ok _ _ Hat).
Qed.

(** C18: A device that the client creates is the device its driver created.

    When the request is not refused, the server's driver is asked for a device of
    the physical device behind the handle, with the queues, extensions and features
    the application named and the feature structures exactly as chained.  Its result
    is the call's; on success the handle stands for the new object, which the server
    files under the id the client keeps, with its physical device; otherwise the
    tables are as before. *)
Theorem device_created h c d info :
  asks find_handler has_vkWaitSemaphores devices h c d ->
  find_handler (opcode_of "vkCreateDevice") = Some (handle_CreateDevice devices) ->
  (opcode_of "vkCreateDevice" ∉ loop_opcodes) ->
  goes_out h info c -> DeviceCreateInfo_ok info ->
  let t := l_tables (ic_world c) in
  let asked := recv_DeviceCreateInfo (HR := resolver_of t) info in
  let '(result, object, w') := vkCreateDevice d asked (l_driver (ic_world c)) in
  is_i32 result -> is_u64 (Table.size (table t Objects.devices) + 1) ->
  let '(returned, device, c') := CreateDevice (Some h) (Some info) true c in
  let t' := l_tables (ic_world c') in
  chain_nodes (VkDeviceCreateInfo.pNext asked) = kept DeviceCreate (chain_nodes (VkDeviceCreateInfo.pNext info)) /\
  returned = result /\ l_driver (ic_world c') = w' /\
  if result =? VK_SUCCESS then
    exists id, device = Some (new_device h info id c) /\ Table.get (table t Objects.devices) id = 0 /\
      Table.get (table t' Objects.devices) id = object /\
      (forall id', 0 <= id' -> id' <> id -> Table.get (table t' Objects.devices) id' = Table.get (table t Objects.devices) id') /\
      device_physical_devices t' !! object = Some d
  else device = None /\ t' = t.
Proof.
  intros Ha Hr Ho [Href Hw] Hok t asked. pose proof (accepted_chain (resolver_of t) h info c Href Hw) as Hch.
  destruct (vkCreateDevice d asked (l_driver (ic_world c))) as [[result object] w'] eqn:Hv. intros Hi Hid.
  pose proof (reads_create_device [] h c d info Ha Hw Hok) as Hread. fold t asked in Hread.
  set (id := if result =? VK_SUCCESS then Table.size (table t Objects.devices) + 1 else 0).
  set (t1 := if result =? VK_SUCCESS
             then let (_, t1) := add_object Objects.devices object 0 t in
                  set_device_physical_devices (<[object := d]> (device_physical_devices t1)) t1 else t).
  destruct (change_served "vkCreateDevice" _ _ h (snd (write_DeviceCreateInfo info)) c (d, asked)
              (Writer.i32 result ++ Writer.handle id) t1 w' Hr Ho (asks_served _ _ _ _ _ _ Ha) Hread)
    as (l' & Hrt & Ht & Hd & Hh).
  { intros s Hts Hds. cbv beta. cbn [fst snd]. rewrite Hds, Hv. cbn [tables Handler.set_driver].
    rewrite Hts. fold t. unfold id, t1. destruct (result =? VK_SUCCESS); [|done]. unfold add_object.
    rewrite (surjective_pairing (Table.add (table t Objects.devices) object 0)), Table.add_id. done. }
  unfold CreateDevice. rewrite Href. destruct (write_DeviceCreateInfo info) as [[] bs] eqn:E; [|discriminate Hw].
  cbn [snd] in Hrt. rewrite Hrt.
  assert (created (Some (Writer.u32 (status_code Ok) ++ Writer.i32 result ++ Writer.handle id)) = Some (result, id, true)) as ->.
  { apply created_reply; [done|]. unfold id. by case_match. }
  cbn [negb orb]. unfold id, t1 in *. clear id t1. cbn [ic_world set_world].
  destruct (result =? VK_SUCCESS) eqn:Es; cbn [negb].
  - apply Z.eqb_eq in Es as ->. split; [exact Hch|]. split; [done|]. split; [done|].
    eexists. split; [reflexivity|]. change (l_tables (ic_world (set_world l' c))) with (l_tables l'). rewrite Ht.
    set (T := table t Objects.devices) in *. assert (0 <= Table.size T) by (unfold Table.size; lia).
    change (table (let (_, t1) := add_object Objects.devices object 0 t in
                   set_device_physical_devices (<[object:=d]> (device_physical_devices t1)) t1) Objects.devices)
      with (snd (Table.add T object 0)).
    split_and!.
    + apply Table.get_out; lia.
    + by rewrite Table.get_add, Z.eqb_refl by (unfold Table.size in *; lia).
    + intros id' H0' Hne. rewrite Table.get_add by done. by rewrite (proj2 (Z.eqb_neq _ _)).
    + apply lookup_insert_eq.
  - split; [exact Hch|]. by repeat split.
Qed.

End Enable.
