(* ===== verification/ExtensionFacts.v ===== *)
(** The extensions of a device: what the server offers, what the application sees,
    and what it may ask for. *)

From stdpp Require Import list gmap strings.
From S2P Require Import Prelude Wire Codec Decode CLayout VkStructs ExtensionContract PNext PNextFacts VkCreateInfos VkLimits.
From S2P Require Import MarshalBase Marshal MarshalChained MarshalValues.
From S2P Require Import HostMemory Objects Session ServerMemory ServerMapped ServerCommands ServerDevice.
From S2P Require Import ClientSync ClientCommands ClientObjects ServerInstance ClientInstance InstanceFacts QueryFacts.
From S2P Require Import ClientDevice CreationFacts.
Open Scope wire_scope.
Import ReaderFacts.
#[local] Set Warnings "-clear-no-such-hyp".

(** ** Names *)

Abbreviation name_of := VkExtensionProperties.extensionName.
Abbreviation version_of := VkExtensionProperties.specVersion.

(** A name as the client stores it: its characters, then zeros. *)
Definition padded (x : VkExtensionProperties.t) : VkExtensionProperties.t :=
  let name := Writer.strlen_prefix (name_of x) in
  VkExtensionProperties.mk (name ++ replicate (256 - length name) x00) (version_of x).

Lemma strlen_prefix_zeros name n : Writer.strlen_prefix (Writer.strlen_prefix name ++ replicate n x00) = Writer.strlen_prefix name.
Proof.
  induction name as [|b name IH]; cbn [Writer.strlen_prefix app].
  - by destruct n.
  - case_decide as Hb; cbn [app Writer.strlen_prefix].
    + by destruct n.
    + rewrite decide_False by done. by rewrite IH.
Qed.

Lemma text_padded x : text (name_of (padded x)) = text (name_of x).
Proof. unfold text, padded. cbn. by rewrite strlen_prefix_zeros. Qed.

Lemma text_named k x : named (chars k) x = true -> Writer.strlen_prefix (chars k) = chars k -> text (name_of x) = k.
Proof.
  unfold named, text. intros Hn Hk. apply bool_decide_eq_true in Hn. rewrite Hn, Hk. apply String.string_of_list_byte_of_string.
Qed.

(** ** The offer *)

Definition complete (exts : list VkExtensionProperties.t) : bool :=
  forallb (fun entry => match find_extension (name_of entry) exts with Some _ => true | None => false end)
    kRequiredDeviceExtensionEntries.

Lemma find_extension_some name exts x : find_extension name exts = Some x -> x ∈ exts /\ named name x = true.
Proof. intros H. apply List.find_some in H as [? ?]. by rewrite list_elem_of_In. Qed.

Lemma offered_spec exts entry x : x ∈ offered exts entry ->
  name_of x = name_of entry /\ exists y, y ∈ exts /\ named (name_of entry) y = true /\
  version_of x = Z.min (version_of y) (version_of entry).
Proof.
  unfold offered. destruct (find_extension _ exts) as [y|] eqn:Hy; [|intros Hx; by apply not_elem_of_nil in Hx].
  intros ->%list_elem_of_singleton. apply find_extension_some in Hy as [Hin Hn]. cbn. split; [done|].
  by exists y.
Qed.

(** The extensions of the contract: three on their own, six that go together. *)
Definition contract_entries : list VkExtensionProperties.t :=
  [kDescriptorIndexingDeviceExtension; kBufferDeviceAddressDeviceExtension; kSynchronization2DeviceExtension] ++
  kRequiredDeviceExtensionEntries.

(** An extension is told as an entry of the driver: the swapchain one in the driver's
    revision, any other in the lower one of the driver's and the contract's. *)
Definition told_as (exts : list VkExtensionProperties.t) (x : VkExtensionProperties.t) : Prop :=
  exists y, y ∈ exts /\ text (name_of y) = text (name_of x) /\
    if decide (text (name_of x) = VK_KHR_SWAPCHAIN) then version_of x = version_of y
    else exists entry, entry ∈ contract_entries /\ text (name_of entry) = text (name_of x) /\
           version_of x = Z.min (version_of y) (version_of entry).

(** The names of the contract. *)
Lemma contract_names :
  map (fun e => text (name_of e)) kRequiredDeviceExtensionEntries = kRequiredDeviceExtensions /\
  text (name_of kDescriptorIndexingDeviceExtension) = VK_EXT_DESCRIPTOR_INDEXING /\
  text (name_of kBufferDeviceAddressDeviceExtension) = VK_KHR_BUFFER_DEVICE_ADDRESS /\
  text (name_of kSynchronization2DeviceExtension) = VK_KHR_SYNCHRONIZATION_2.
Proof. by vm_compute. Qed.

Lemma lookup_in {A} (xs : list A) i x : xs !! i = Some x -> x ∈ xs.
Proof. apply list_elem_of_lookup_2. Qed.

(** Where an offered extension comes from. *)
Lemma supported_spec exts x : x ∈ supported_extensions exts ->
  (x ∈ exts /\ text (name_of x) = VK_KHR_SWAPCHAIN) \/
  (exists entry, entry ∈ contract_entries /\ x ∈ offered exts entry /\
     (text (name_of x) ∈ [VK_EXT_DESCRIPTOR_INDEXING; VK_KHR_BUFFER_DEVICE_ADDRESS; VK_KHR_SYNCHRONIZATION_2] \/
      (complete exts = true /\ text (name_of x) ∈ kRequiredDeviceExtensions))).
Proof.
  unfold supported_extensions. fold (complete exts). destruct contract_names as (Hr & Hd & Hb & Hs).
  intros Hx. repeat apply elem_of_app in Hx as [Hx|Hx].
  - destruct (find_extension _ exts) as [y|] eqn:Hy; [|by apply not_elem_of_nil in Hx].
    apply list_elem_of_singleton in Hx as ->. left. apply find_extension_some in Hy as [Hin Hn]. split; [done|].
    by apply (text_named VK_KHR_SWAPCHAIN).
  - right. eexists. split; [|split; [exact Hx|]].
    { apply (lookup_in contract_entries 0). reflexivity. }
    apply offered_spec in Hx as [-> _]. left. rewrite Hd. left.
  - right. eexists. split; [|split; [exact Hx|]].
    { apply (lookup_in contract_entries 1). reflexivity. }
    apply offered_spec in Hx as [-> _]. left. rewrite Hb. right. left.
  - right. eexists. split; [|split; [exact Hx|]].
    { apply (lookup_in contract_entries 2). reflexivity. }
    apply offered_spec in Hx as [-> _]. left. rewrite Hs. right. right. left.
  - destruct (complete exts) eqn:Hc; [|by apply not_elem_of_nil in Hx]. right.
    apply list_elem_of_In, in_concat in Hx as (l & Hl & Hx). apply in_map_iff in Hl as (entry & <- & He).
    apply list_elem_of_In in Hx. exists entry. split; [|split; [done|]].
    { apply elem_of_app. right. by apply list_elem_of_In. }
    right. split; [done|].
    apply offered_spec in Hx as [-> _]. rewrite <- Hr. apply list_elem_of_In, in_map_iff. by eexists.
Qed.

(** If the driver has all six extensions of the contract, all are offered. *)
Lemma complete_offers exts k : complete exts = true -> k ∈ kRequiredDeviceExtensions ->
  exists x, x ∈ supported_extensions exts /\ text (name_of x) = k.
Proof.
  intros Hc Hk. destruct contract_names as (Hr & _). rewrite <- Hr in Hk.
  apply list_elem_of_In, in_map_iff in Hk as (entry & <- & He).
  pose proof Hc as Hf. unfold complete in Hf. rewrite forallb_forall in Hf. specialize (Hf entry He).
  unfold supported_extensions. fold (complete exts). rewrite Hc.
  destruct (find_extension (name_of entry) exts) as [y|] eqn:Hy; [|discriminate Hf].
  assert (exists x, x ∈ offered exts entry /\ name_of x = name_of entry) as (x & Hx & Hn).
  { unfold offered. rewrite Hy. eexists. split; [by apply list_elem_of_singleton|done]. }
  exists x. rewrite Hn. split; [|done]. do 4 (apply elem_of_app; right).
  apply list_elem_of_In, in_concat. exists (offered exts entry). split; [by apply in_map|by apply list_elem_of_In].
Qed.

(** No name of the contract is in two of its lists. *)
Lemma elem_of_distinct k : k ∈ kRequiredDeviceExtensions ->
  k ∉ VK_KHR_SWAPCHAIN :: [VK_EXT_DESCRIPTOR_INDEXING; VK_KHR_BUFFER_DEVICE_ADDRESS; VK_KHR_SYNCHRONIZATION_2].
Proof.
  intros Hk. repeat (apply elem_of_cons in Hk as [->|Hk]; [by apply (bool_decide_unpack _); vm_compute|]).
  by apply not_elem_of_nil in Hk.
Qed.

Lemma named_text k x : named (name_of k) x = true <-> text (name_of x) = text (name_of k).
Proof.
  unfold named, text. rewrite bool_decide_eq_true. split; [by intros ->|]. intros E.
  apply (f_equal String.list_byte_of_string) in E. by rewrite !String.list_byte_of_string_of_list_byte in E.
Qed.

(** Everything offered is told as it should be. *)
Lemma supported_told exts x : x ∈ supported_extensions exts -> told_as exts x.
Proof.
  intros [[Hin Hs]|(entry & He & Hin & Hn)]%supported_spec; unfold told_as.
  - exists x. by rewrite decide_True.
  - assert (text (name_of x) <> VK_KHR_SWAPCHAIN) as Hne.
    { intros E. rewrite E in Hn. destruct Hn as [Hn|[_ Hn]].
      - by apply (bool_decide_unpack (VK_KHR_SWAPCHAIN ∉ [VK_EXT_DESCRIPTOR_INDEXING; VK_KHR_BUFFER_DEVICE_ADDRESS;
                    VK_KHR_SYNCHRONIZATION_2])) in Hn; [|by vm_compute].
      - apply elem_of_distinct in Hn. apply Hn. left. }
    apply offered_spec in Hin as (Hx & y & Hy & Hk%named_text & Hv). exists y.
    rewrite decide_False by done. rewrite Hx. do 2 (split; [done|]). by exists entry.
Qed.

Lemma told_as_padded exts x : told_as exts x -> told_as exts (padded x).
Proof. unfold told_as. by rewrite text_padded. Qed.

(** The extensions that are offered for themselves. *)
Definition optional_extensions : list string :=
  [VK_KHR_SWAPCHAIN; VK_EXT_DESCRIPTOR_INDEXING; VK_KHR_BUFFER_DEVICE_ADDRESS; VK_KHR_SYNCHRONIZATION_2].

Lemma find_text k exts y : y ∈ exts -> text (name_of y) = text (name_of k) ->
  exists z, find_extension (name_of k) exts = Some z /\ z ∈ exts /\ text (name_of z) = text (name_of k).
Proof.
  intros Hy Ht. unfold find_extension. destruct (List.find _ exts) as [z|] eqn:Hz.
  - apply List.find_some in Hz as [Hin Hn%named_text]. exists z. by rewrite list_elem_of_In.
  - apply list_elem_of_In, (List.find_none _ _ Hz) in Hy. apply named_text in Ht. congruence.
Qed.

Lemma optional_offered exts k : k ∈ optional_extensions ->
  (exists x, x ∈ supported_extensions exts /\ text (name_of x) = k) <-> exists y, y ∈ exts /\ text (name_of y) = k.
Proof.
  intros Hk. split.
  - intros (x & (y & Hy & Ht & _)%supported_told & <-). by exists y.
  - intros (y & Hy & Ht).
    assert (forall entry i, text (name_of entry) = k -> contract_entries !! i = Some entry -> (i < 3)%nat ->
              exists x, x ∈ supported_extensions exts /\ text (name_of x) = k) as Hentry.
    { intros entry i He Hi Hlt. destruct (find_text entry exts y Hy) as (z & Hz & _ & _); [congruence|].
      exists (VkExtensionProperties.mk (name_of entry) (Z.min (version_of z) (version_of entry))). split; [|exact He].
      assert (VkExtensionProperties.mk (name_of entry) (Z.min (version_of z) (version_of entry)) ∈ offered exts entry) as Ho.
      { unfold offered. rewrite Hz. by apply list_elem_of_singleton. }
      unfold supported_extensions. destruct i as [|[|[|]]]; try lia; cbn in Hi; injection Hi as <-;
        rewrite !elem_of_app; auto. }
    destruct contract_names as (_ & Hd & Hb & Hs).
    repeat apply elem_of_cons in Hk as [->|Hk]; try (by apply not_elem_of_nil in Hk);
      [|by apply (Hentry _ 0%nat Hd); [reflexivity|lia]|by apply (Hentry _ 1%nat Hb); [reflexivity|lia]
       |by apply (Hentry _ 2%nat Hs); [reflexivity|lia]].
    destruct (find_text (VkExtensionProperties.mk (chars VK_KHR_SWAPCHAIN) 0) exts y Hy) as (z & Hz & _ & Htz);
      [by rewrite Ht; vm_compute|].
    exists z. split; [|by rewrite Htz; vm_compute]. unfold supported_extensions. cbn [name_of] in Hz. rewrite Hz.
    rewrite elem_of_app. left. by apply list_elem_of_singleton.
Qed.

(** ** Asking for what was offered *)

(** A list of names that was offered as a whole is accepted. *)
Lemma offer_accepted exts api properties2 info :
  let offer := supported_extensions exts in
  map text (arr (VkDeviceCreateInfo.ppEnabledExtensionNames info) (VkDeviceCreateInfo.enabledExtensionCount info)) =
    map (fun x => text (name_of x)) offer ->
  missing (VkDeviceCreateInfo.enabledExtensionCount info) (VkDeviceCreateInfo.ppEnabledExtensionNames info) = false ->
  VK_API_VERSION_1_1 <= api \/ properties2 = true -> extensions_accepted api properties2 info = true.
Proof.
  intros offer Hn Hm Hapi. unfold extensions_accepted. rewrite Hm. cbn [negb andb]. apply forallb_forall. intros name Hin.
  assert (forall k, k ∈ map (fun x => text (name_of x)) offer -> extension_enabled info k = true) as Hen.
  { intros k Hk. rewrite <- Hn in Hk. unfold extension_enabled. apply existsb_exists.
    apply list_elem_of_In, in_map_iff in Hk as (y & <- & Hy). exists y. split; [done|]. unfold streq. by apply bool_decide_eq_true. }
  assert (text name ∈ map (fun x => text (name_of x)) offer) as Hin'.
  { rewrite <- Hn. apply list_elem_of_In. by apply in_map. }
  generalize dependent (text name). intros k Hk. apply list_elem_of_In, in_map_iff in Hk as (x & <- & Hx).
  apply list_elem_of_In, supported_spec in Hx as [[_ ->]|(entry & _ & _ & [Hk|[Hc Hk]])].
  - by vm_compute.
  - destruct (Z.ltb_spec api VK_API_VERSION_1_1).
    + assert (properties2 = true) as -> by (destruct Hapi; [lia|done]).
      repeat (apply elem_of_cons in Hk as [->|Hk]; [by vm_compute|]). by apply not_elem_of_nil in Hk.
    + rewrite andb_false_r. repeat (apply elem_of_cons in Hk as [->|Hk]; [by vm_compute|]). by apply not_elem_of_nil in Hk.
  - assert (forall k, k ∈ kRequiredDeviceExtensions -> extension_enabled info k = true) as Hall.
    { intros k Hk'. destruct (complete_offers exts k Hc Hk') as (y & Hy & <-). apply Hen.
      apply list_elem_of_In, in_map_iff. exists y. split; [done|]. by apply list_elem_of_In. }
    destruct (Z.ltb_spec api VK_API_VERSION_1_1).
    + assert (properties2 = true) as -> by (destruct Hapi; [lia|done]).
      generalize dependent (extension_enabled info). intros enabled _ Hall.
      repeat (apply elem_of_cons in Hk as [->|Hk];
        [unfold device_extension_dependencies_satisfied; rewrite ?Hall by (vm_compute; set_solver); by vm_compute|]).
      by apply not_elem_of_nil in Hk.
    + rewrite andb_false_r. repeat (apply elem_of_cons in Hk as [->|Hk]; [by vm_compute|]). by apply not_elem_of_nil in Hk.
Qed.

(** ** What an application is told *)

Lemma contract_entries_ok : Forall (fun e => length (name_of e) = 256%nat /\ is_u32 (version_of e) /\
    Z.of_nat (length (Writer.strlen_prefix (name_of e))) < VK_MAX_EXTENSION_NAME_SIZE)
  (kDescriptorIndexingDeviceExtension :: kBufferDeviceAddressDeviceExtension :: kSynchronization2DeviceExtension ::
   kRequiredDeviceExtensionEntries).
Proof. by repeat constructor. Qed.

Lemma offered_ok exts entry : Forall extension_ok exts ->
  entry ∈ kDescriptorIndexingDeviceExtension :: kBufferDeviceAddressDeviceExtension ::
          kSynchronization2DeviceExtension :: kRequiredDeviceExtensionEntries ->
  Forall extension_ok (offered exts entry) /\ (length (offered exts entry) <= 1)%nat.
Proof.
  intros Hx He. pose proof contract_entries_ok as Hc. rewrite Forall_forall in Hc.
  destruct (Hc _ He) as (Hl & Hv & Hs). unfold offered.
  destruct (find_extension _ exts) as [y|] eqn:Hy; cbn; [|split; [constructor|lia]].
  split; [|lia]. apply find_extension_some in Hy as [Hin _]. rewrite Forall_forall in Hx.
  destruct (Hx _ Hin) as (_ & _ & Hy). constructor; [|constructor]. split; [done|]. split; [done|].
  cbn [version_of]. unfold is_u32 in *. cbn. lia.
Qed.

Lemma supported_ok exts : Forall extension_ok exts ->
  Forall extension_ok (supported_extensions exts) /\ (length (supported_extensions exts) <= 10)%nat.
Proof.
  intros Hx. unfold supported_extensions. fold (complete exts).
  assert (forall entries, Forall (fun e => e ∈ kRequiredDeviceExtensionEntries) entries ->
    Forall extension_ok (concat (map (offered exts) entries)) /\
    (length (concat (map (offered exts) entries)) <= length entries)%nat) as Hconcat.
  { induction 1 as [|e entries He _ [IHo IHl]]; [split; [constructor|done]|]. cbn [map concat].
    destruct (offered_ok exts e Hx) as [? ?]; [do 3 right; done|].
    rewrite length_app. cbn [length]. split; [by apply Forall_app|lia]. }
  destruct (Hconcat kRequiredDeviceExtensionEntries) as [Hr Hrl]; [by apply Forall_forall|].
  destruct (offered_ok exts kDescriptorIndexingDeviceExtension Hx) as [H1 L1]; [left|].
  destruct (offered_ok exts kBufferDeviceAddressDeviceExtension Hx) as [H2 L2]; [right; left|].
  destruct (offered_ok exts kSynchronization2DeviceExtension Hx) as [H3 L3]; [right; right; left|].
  change (length kRequiredDeviceExtensionEntries) with 6%nat in Hrl.
  assert (Forall extension_ok (match find_extension (chars VK_KHR_SWAPCHAIN) exts with Some x => [x] | None => [] end) /\
    (length (match find_extension (chars VK_KHR_SWAPCHAIN) exts with Some x => [x] | None => [] end) <= 1)%nat) as [H0 L0].
  { destruct (find_extension _ exts) as [y|] eqn:Hy; cbn; [|split; [constructor|lia]]. split; [|lia].
    apply find_extension_some in Hy as [Hin _]. constructor; [|constructor]. by eapply Forall_forall in Hx. }
  rewrite !length_app. split.
  - repeat (apply Forall_app; split; [done|]). destruct (complete exts); [done|constructor].
  - assert (length (if complete exts then concat (map (offered exts) kRequiredDeviceExtensionEntries) else []) <= 6)%nat
      by (destruct (complete exts); cbn [length]; [exact Hrl|lia]). lia.
Qed.

Lemma reads_extension x rest : extension_ok x -> reads_at rest read_extension (write_ExtensionProperties x) (padded x).
Proof.
  intros (Hn & Hl & Hv). apply (extension_properties_roundtrip rest); [done| |done].
  rewrite Hl. by apply (bool_decide_unpack _).
Qed.

(** Like [reads_map], when what is read is not what was written. *)
Lemma reads_each {A} (m : Rd A) (enc : A -> list byte) (back : A -> A) (ok : A -> Prop) xs rest :
  (forall x rest, ok x -> reads_at rest m (enc x) (back x)) -> Forall ok xs ->
  reads_at rest (rfor (length xs) m) (concat (map enc xs)) (map back xs).
Proof.
  intros Hm Hok. revert rest. induction Hok as [|x xs Hx _ IH]; intros rest; [apply reads_ret|].
  cbn [length map concat rfor]. eapply reads_bind; [by apply Hm|].
  eapply reads_bind_last; [apply IH|]. apply reads_ret.
Qed.

Lemma extensions_read xs : Forall extension_ok xs -> Z.of_nat (length xs) <= kMaxArrayElements ->
  read_extensions (Writer.u32 (status_code Ok) ++ Writer.i32 VK_SUCCESS ++ Writer.u32 (wrap32 (Z.of_nat (length xs))) ++
                   concat (map write_ExtensionProperties xs)) = (VK_SUCCESS, map padded xs).
Proof.
  intros Hok Hl. change kMaxArrayElements with 1048576 in Hl. unfold read_extensions.
  destruct (ok_reply_then (rret tt) [] (Writer.i32 VK_SUCCESS ++ Writer.u32 (wrap32 (Z.of_nat (length xs))) ++
              concat (map write_ExtensionProperties xs)) tt) as (r & E & Hat); [apply reads_ret|].
  rewrite app_nil_l in E. rewrite E. rewrite wrap32_id in Hat by (unfold is_u32; lia).
  decode Hat. decode Hat; [|unfold is_u32; lia]. cbn [negb]. rewrite Z.eqb_refl. cbn [negb].
  change kMaxArrayElements with 1048576. rewrite (proj2 (Z.ltb_ge _ _)) by lia. rewrite Nat2Z.id.
  rewrite <- (app_nil_r (concat _)) in Hat.
  assert (reads_at [] (xs <- rfor (length xs) read_extension ; r_ok ;! rret xs)
            (concat (map write_ExtensionProperties xs)) (map padded xs)) as Hr.
  { eapply reads_bind_last; [apply (reads_each _ _ padded extension_ok); [intros; by apply reads_extension|done]|].
    eapply reads_bind_nil; [apply reads_ok|apply reads_ret]. }
  destruct Hat as (Hw & Hf & Hu). by rewrite (reads_at_elim [] _ _ _ _ Hr Hw Hf Hu).
Qed.

Section Offer.
Context `{Abi} {W : Type} {HD : MemoryDriver W} {HI : InstanceDriver W} {HL : InstanceDriverLaws W} `{LoopOpcodes}.
Variable opcode_of : string -> Z.
Variable find_handler : Z -> option (Session W -> Session W).
Variable has_vkWaitSemaphores : Z -> W -> bool.
Variable devices : list Z.

#[local] Hint Extern 0 Remote => exact (loop_remote find_handler has_vkWaitSemaphores) : typeclass_instances.
#[local] Hint Extern 0 CommandChannel =>
  exact (loop_channel opcode_of find_handler has_vkWaitSemaphores) : typeclass_instances.
Implicit Type c : InstanceClient.
Import Instance_.

Hypothesis registered : Forall (fun x => find_handler (opcode_of x.1) = Some x.2 /\ (opcode_of x.1 ∉ loop_opcodes))
                          (query_handlers devices).

Ltac in_table := unfold query_handlers; cbn [In]; repeat first [left; reflexivity|right].

(** The extensions the driver has. *)
Definition driver_extensions (d : Z) (w : W) : list VkExtensionProperties.t :=
  (enumerated (device_extension_values d) (device_extension_count d w) w).2.

(** C16: The extensions an application is told of are the driver's that the project
    supports, and all of them can be enabled.

    vkEnumerateDeviceExtensionProperties stores as many as there is room for, each
    terminated and padded.  Every one is an extension of the driver; the revision
    told is the lower one of the driver's and the contract's, except that the
    swapchain extension, which the contract does not list, keeps the driver's.
    The swapchain extension and the three the contract lists on their own are told
    exactly when the driver has them; of the six the contract requires together
    either all are told or none.  A device asked for with exactly the extensions
    told is not refused for them, whatever the driver has, if the physical device
    has version 1.1 or the instance was created with the extension for its
    properties. *)
Theorem extensions_offered h c d room array :
  asks find_handler has_vkWaitSemaphores devices h c d ->
  let exts := driver_extensions d (l_driver (ic_world c)) in
  let told := map padded (supported_extensions exts) in
  (exists bs, EnumerateDeviceExtensionProperties h room array c =
     (copy_out room array told, answered opcode_of find_handler has_vkWaitSemaphores
                                  "vkEnumerateDeviceExtensionProperties" bs c)) /\
  (forall x, x ∈ told -> length (name_of x) = 256%nat /\ told_as exts x) /\
  (forall k, k ∈ optional_extensions ->
     (exists x, x ∈ told /\ text (name_of x) = k) <-> exists y, y ∈ exts /\ text (name_of y) = k) /\
  (forall k, k ∈ kRequiredDeviceExtensions ->
     if complete exts then exists x, x ∈ told /\ text (name_of x) = k
     else forall x, x ∈ told -> text (name_of x) <> k) /\
  forall info,
    let n := VkDeviceCreateInfo.enabledExtensionCount info in
    let names := VkDeviceCreateInfo.ppEnabledExtensionNames info in
    let properties2 := bool_decide (chars "VK_KHR_get_physical_device_properties2" ∈ enabled_extensions c) in
    missing n names = false -> map text (arr names n) = map (fun x => text (name_of x)) told ->
    VK_API_VERSION_1_1 <= pd_api_version (device_at h c) \/ properties2 = true ->
    extensions_accepted (pd_api_version (device_at h c)) properties2 info = true.
Proof.
  intros Ha exts told.
  assert (Forall extension_ok exts) as Hx.
  { destruct (law_extensions d (l_driver (ic_world c))) as [Hn He]. unfold exts, driver_extensions, enumerated.
    destruct (Z.eqb_spec (device_extension_count d (l_driver (ic_world c))) 0); [constructor|]. by apply He. }
  destruct (supported_ok exts Hx) as [Hok Hl]. split; [|split; [|split; [|split]]].
  - set (offer := supported_extensions exts) in *.
    set (bs := Writer.i32 VK_SUCCESS ++ Writer.u32 (wrap32 (Z.of_nat (length offer))) ++
               concat (map write_ExtensionProperties offer)).
    exists bs.
    unfold EnumerateDeviceExtensionProperties.
    erewrite (query_served opcode_of _ _ devices registered _ _ _ h [] c d bs); [|in_table|by apply Ha| |].
    2:{ rewrite app_nil_r. by eapply reads_device_query. }
    2:{ intros s _ Hd. cbv beta. rewrite Hd. unfold bs, offer, exts, driver_extensions. by destruct (enumerated _ _ _). }
    unfold bs. rewrite (extensions_read offer); [reflexivity|done|].
    change kMaxArrayElements with 1048576. lia.
  - intros x Hin. apply list_elem_of_In, in_map_iff in Hin as (y & <- & Hin%list_elem_of_In).
    split.
    { rewrite Forall_forall in Hok. destruct (Hok y Hin) as (Hs & _). change VK_MAX_EXTENSION_NAME_SIZE with 256 in Hs.
      cbn. rewrite length_app, length_replicate. lia. }
    by apply told_as_padded, supported_told.
  - intros k Hk. rewrite <- (optional_offered exts k Hk). unfold told. split.
    + intros (x & (y & -> & Hy)%list_elem_of_fmap & <-). exists y. by rewrite text_padded.
    + intros (y & Hy & <-). exists (padded y). split; [by apply list_elem_of_fmap_2|apply text_padded].
  - intros k Hk. destruct (complete exts) eqn:Hc.
    + destruct (complete_offers exts k Hc Hk) as (x & Hin & <-). exists (padded x).
      split; [by apply list_elem_of_fmap_2|apply text_padded].
    + intros x Hin. apply list_elem_of_In, in_map_iff in Hin as (y & <- & Hin%list_elem_of_In).
      rewrite text_padded. intros <-. apply supported_spec in Hin as [[_ Hy]|(_ & _ & _ & [Hy|[Hc' _]])]; [| |congruence].
      * apply elem_of_distinct in Hk. rewrite Hy in Hk. apply Hk. left.
      * apply elem_of_distinct in Hk. apply Hk. by right.
  - intros info n names properties2 Hm Ht Hapi. apply (offer_accepted exts); [|done|done].
    fold n names. rewrite Ht. unfold told. rewrite map_map. apply map_ext. intros x. apply text_padded.
Qed.

End Offer.
