(* ===== verification/QueryDemo.v ===== *)
(** A concrete server with one physical device, and a client that connects to it,
    asks for everything it can and creates a device. *)

From stdpp Require Import list gmap strings.
From S2P Require Import Prelude Wire Codec Decode CLayout VkStructs ExtensionContract PNext PNextFacts VkCreateInfos VkLimits.
From S2P Require Import MarshalBase Marshal MarshalChained MarshalValues MarshalFacts.
From S2P Require Import HostMemory Objects Session ServerMemory ServerMapped ServerCommands ServerDevice DeviceAnswers.
From S2P Require Import ClientSync ClientCommands ClientObjects ServerInstance ClientInstance InstanceFacts QueryFacts.
From S2P Require Import ClientDevice CreationFacts ExtensionFacts.
From S2P Require Workers.
Open Scope wire_scope.

Module QueryDemo.

#[export] Existing Instance Instances.abi.
Import DeviceDemo(log, commands, driver).
#[local] Existing Instances DeviceDemo.commands DeviceDemo.driver.

(** ** The driver *)

(** All features, of which the client hides the sparse ones. *)
Definition all_features : VkPhysicalDeviceFeatures.t :=
  VkPhysicalDeviceFeatures.mk (replicate VkPhysicalDeviceFeatures.count 1).

(** Device-local memory, host-visible coherent memory and device-coherent memory,
    in one heap. *)
Definition memory_types : VkPhysicalDeviceMemoryProperties.t :=
  VkPhysicalDeviceMemoryProperties.mk 3
    (fill VkMemoryType.zero VK_MAX_MEMORY_TYPES [VkMemoryType.mk 1 0; VkMemoryType.mk 6 0; VkMemoryType.mk 70 0])
    1 (fill VkMemoryHeap.zero VK_MAX_MEMORY_HEAPS [VkMemoryHeap.mk 4096 1]).

(** The structures of a chain, the timeline semaphores supported. *)
Definition filled (asked : ptr chain) : ptr chain :=
  arr_ptr (map (fun node => match node with
                            | TimelineSemaphoreFeatures _ => TimelineSemaphoreFeatures 1
                            | _ => zero_node (node_type node)
                            end) (chain_nodes asked)).

(** Swapchains in an early revision, synchronization in a late one, and one
    extension that the contract does not know. *)
Definition extensions : list VkExtensionProperties.t :=
  [contract_entry VK_KHR_SWAPCHAIN 70; contract_entry "VK_EXT_robustness2" 1;
   contract_entry VK_KHR_SYNCHRONIZATION_2 9].

#[export] Instance memory : MemoryDriver log := {|
  vkMapMemory _ _ _ w := (VK_ERROR_OUT_OF_HOST_MEMORY, 0, w); vkUnmapMemory _ _ w := w;
  vkFlushMappedMemoryRanges _ _ w := (VK_SUCCESS, w); vkInvalidateMappedMemoryRanges _ _ w := (VK_SUCCESS, w);
  host_store _ _ w := w; host_load _ size _ := replicate (Z.to_nat size) x00;
  vkGetPhysicalDeviceMemoryProperties _ _ := memory_types;
  vkGetPhysicalDeviceProperties _ _ := VkPhysicalDeviceProperties.zero;
  vkAllocateMemory _ _ w := (VK_ERROR_OUT_OF_HOST_MEMORY, 0, w); vkFreeMemory _ _ w := w;
  vkBindBufferMemory _ _ _ _ w := (VK_SUCCESS, w); vkBindImageMemory _ _ _ _ w := (VK_SUCCESS, w);
  vkGetBufferMemoryRequirements _ _ _ := VkMemoryRequirements.zero;
  vkGetImageMemoryRequirements _ _ _ := VkMemoryRequirements.zero;
  vkGetDeviceMemoryCommitment _ _ _ := 0;
  sparse_count _ _ _ := 0; sparse_values _ _ _ _ := (0, []);
  vkBindBufferMemory2 _ := None; vkBindImageMemory2 _ := None;
  vkGetBufferMemoryRequirements2 _ := None; vkGetImageMemoryRequirements2 _ := None;
  sparse_count2 _ := None; sparse_values2 _ _ _ _ := (0, []);
  vkGetBufferDeviceAddress _ := None; vkGetBufferDeviceAddressKHR _ := None |}.

#[export] Instance queries : InstanceDriver log := {|
  queue_family_count _ _ := 0; queue_family_values _ _ _ := (0, []);
  vkGetPhysicalDeviceFeatures _ _ := all_features;
  vkGetPhysicalDeviceFormatProperties _ _ _ := VkFormatProperties.zero;
  vkGetPhysicalDeviceImageFormatProperties _ _ _ := (VK_SUCCESS, VkImageFormatProperties.zero);
  sparse_format_count _ _ _ := 0; sparse_format_values _ _ _ _ := (0, []);
  vkGetPhysicalDeviceFeatures2 _ asked _ := (all_features, filled asked);
  vkGetPhysicalDeviceProperties2 _ asked _ := (VkPhysicalDeviceProperties.zero, filled asked);
  vkGetPhysicalDeviceFormatProperties2 _ _ _ := VkFormatProperties.zero;
  vkGetPhysicalDeviceImageFormatProperties2 _ _ _ output _ := (VK_SUCCESS, VkImageFormatProperties.zero, output);
  queue_family_count2 _ _ := 0; queue_family_values2 _ _ _ := (0, []);
  vkGetPhysicalDeviceMemoryProperties2 _ _ := memory_types;
  sparse_format_count2 _ _ _ := 0; sparse_format_values2 _ _ _ _ := (0, []);
  has_fragment_shading_rates _ := false; shading_rate_count _ _ := (VK_SUCCESS, 0);
  shading_rate_values _ _ _ := (VK_SUCCESS, 0, []);
  device_extension_count _ _ := 3; device_extension_values _ _ _ := (3, extensions) |}.

Lemma zero_ok context t : query_context context -> pnext_allowed context t = true -> node_ok (zero_node t).
Proof.
  intros Hq Ha. destruct context; try destruct Hq; destruct t; first [discriminate Ha|clear Ha];
    cbn [zero_node node_ok]; try split; first [reflexivity|by apply (bool_decide_unpack _)].
Qed.

Lemma fills context asked : query_context context -> acceptable context (chain_nodes asked) ->
  filled_in asked (filled asked).
Proof.
  intros Hq (_ & Ha & _). unfold filled_in, filled. rewrite chain_nodes_arr_ptr. split.
  - rewrite map_map. apply map_ext. intros node. destruct node; apply zero_node_type || done.
  - apply List.Forall_map. eapply Forall_impl; [exact Ha|]. cbv beta. intros node Hn.
    pose proof (zero_ok context _ Hq Hn). by destruct node.
Qed.

#[export] Instance laws : InstanceDriverLaws log.
Proof.
  assert (features_ok all_features) as Hf by (by apply (bool_decide_unpack _)).
  assert (PhysicalDeviceProperties_ok VkPhysicalDeviceProperties.zero) as Hp by (by apply (bool_decide_unpack _)).
  assert (memory_properties_ok memory_types) as Hm.
  { do 2 eexists. split; [reflexivity|]. split; [reflexivity|]. split_and!; by apply (bool_decide_unpack _). }
  split; intros; cbn [vkGetPhysicalDeviceFeatures vkGetPhysicalDeviceFeatures2 vkGetPhysicalDeviceProperties
    vkGetPhysicalDeviceProperties2 vkGetPhysicalDeviceMemoryProperties vkGetPhysicalDeviceMemoryProperties2
    memory queries fst snd]; try done.
  - split; [done|]. by apply (fills QueryFeaturesOutput).
  - split; [done|]. by apply (fills QueryPropertiesOutput).
  - split; [done|]. intros _. unfold enumerates. cbn. split; [done|]. split; [done|].
    repeat constructor; done.
Qed.

(** ** The connection *)

#[export] Instance schema : Schema :=
  {| kWireSchemaRevision := chars "9"; kRegistrySha256 := chars "ab12"; kWireAbi := chars "lp64";
     kCommandSetDigest := chars "cd34" |}.

#[local] Existing Instance ServerMapped.demo_loop_opcodes.

(** Two physical devices. *)
Definition physical : list Z := [11; 12].

(** The queries are numbered in the order of their table, from 10 on. *)
Definition opcode_of (name : string) : Z :=
  if decide (name = "Handshake") then 1
  else if decide (name = "vkCreateDevice") then 40
  else 10 + Z.of_nat (default 20%nat (fst <$> list_find (fun n => n = name) (map fst (query_handlers (W := log) physical)))).

(** The server's loader has version 1.3. *)
Definition find_handler (op : Z) : option (Session log -> Session log) :=
  if op =? 1 then Some (handle_Handshake physical VK_API_VERSION_1_3 true)
  else if op =? 40 then Some (handle_CreateDevice physical)
  else if op <? 10 then None
  else snd <$> query_handlers physical !! Z.to_nat (op - 10).

Definition has_vkWaitSemaphores (_ : Z) (_ : log) : bool := false.

#[local] Hint Extern 0 Remote => exact (loop_remote find_handler has_vkWaitSemaphores) : typeclass_instances.
#[local] Hint Extern 0 CommandChannel =>
  exact (loop_channel opcode_of find_handler has_vkWaitSemaphores) : typeclass_instances.

Lemma registered : Forall (fun x => find_handler (opcode_of x.1) = Some x.2 /\ (opcode_of x.1 ∉ loop_opcodes))
                     (query_handlers physical).
Proof.
  unfold query_handlers.
  repeat (apply Forall_cons; split;
    [cbn [fst snd];
     match goal with |- context [opcode_of ?n] =>
       let op := eval vm_compute in (opcode_of n) in replace (opcode_of n) with op by (by vm_compute)
     end; split; [reflexivity|by apply (bool_decide_unpack _)]|]). constructor.
Qed.

(** A connection just made. *)
Definition server (complete : bool) (cap : Z) : Loop log :=
  mkLoop _ (set_capabilities cap (DeviceDemo.objects [])) 0 complete (Workers.RequestWorkers.init 8) [] [] [].

(** An application for Vulkan 1.1 that names an extension. *)
Definition application : InstanceCreateInfo :=
  mkInstanceInfo [VK_STRUCTURE_TYPE_LOADER_INSTANCE_CREATE_INFO] (Some VK_API_VERSION_1_1) 0 1
    (Ref [Some (chars "VK_KHR_get_physical_device_properties2")]).

(** vkCreateInstance on that connection. *)
Definition created_instance (info : InstanceCreateInfo) (l : world) : Z * option InstanceClient :=
  CreateInstance false true (Some info) true (Some l).

(** What is kept of the outcome. *)
Lemma outcome {C : Type} (p : Z * option C) (S : Prop) (E : Z -> option C -> Prop) `{Decision S} (A R X T D V N : C -> Prop) :
  S ->
  (let '(result, instance) := p in
   if decide S then
     result = VK_SUCCESS /\ exists c, instance = Some c /\ A c /\ R c /\ X c /\ T c /\ D c /\ V c /\ N c
   else E result instance) ->
  exists c, p = (VK_SUCCESS, Some c) /\ R c /\ V c.
Proof.
  intros Hs. destruct p as [result instance], (decide S); [|done].
  intros (-> & c & -> & _ & Hr & _ & _ & _ & Hv & _). by exists c.
Qed.

Lemma handshake_agreed_witness :
  exists c, created_instance application (server false 0) = (VK_SUCCESS, Some c) /\
    ri_capabilities c = kCapabilityWholeCopyHostCoherent /\ negotiated_api_version c = VK_API_VERSION_1_1.
Proof.
  eapply (outcome _ (@same_schema schema schema)); [by repeat split|].
  eapply (handshake_agreed (H := ServerMapped.demo_loop_opcodes) (KC := schema) (KS := schema) opcode_of find_handler has_vkWaitSemaphores physical VK_API_VERSION_1_3 true true
    eq_refl false application (server false 0) _ _ _ eq_refl eq_refl eq_refl eq_refl).
  Unshelve. all: by apply (bool_decide_unpack _).
Defined.

(** ** The queries *)

(** The client with both physical devices, which asks for the second. *)
Definition client : InstanceClient :=
  mkInstance _ [mkPhysical 1 1 VK_API_VERSION_1_1 []; mkPhysical 2 1 VK_API_VERSION_1_1 []]
    [chars "VK_KHR_get_physical_device_properties2"] VK_API_VERSION_1_1 VK_API_VERSION_1_3 VK_API_VERSION_1_1
    kCapabilityWholeCopyHostCoherent (server true kCapabilityWholeCopyHostCoherent).

Lemma asks_second : asks find_handler has_vkWaitSemaphores physical 1 client 12.
Proof. split; by apply (bool_decide_unpack _). Qed.

(** The timeline semaphores and the descriptor indexing, chained. *)
Definition chained : ptr chain :=
  Ref [TimelineSemaphoreFeatures 0; DescriptorIndexingFeatures VkPhysicalDeviceDescriptorIndexingFeatures.zero].

Lemma chained_acceptable : acceptable QueryFeaturesOutput (chain_nodes chained).
Proof. split_and!; by apply (bool_decide_unpack _). Qed.

Definition without_sparse : VkPhysicalDeviceFeatures.t :=
  VkPhysicalDeviceFeatures.mk (replicate 44 1 ++ replicate 9 0 ++ replicate 2 1).

Lemma features_reported_witness :
  (GetPhysicalDeviceFeatures 1 client).1 = without_sparse /\
  (GetPhysicalDeviceFeatures2 1 (Some (VkPhysicalDeviceFeatures.zero, chained)) client).1 =
    Some (without_sparse,
          Ref [TimelineSemaphoreFeatures 1; DescriptorIndexingFeatures VkPhysicalDeviceDescriptorIndexingFeatures.zero]).
Proof.
  destruct (features_reported opcode_of find_handler has_vkWaitSemaphores physical registered 1 client 12
              VkPhysicalDeviceFeatures.zero chained asks_second chained_acceptable) as (H1 & H2 & _).
  rewrite H1, H2. split; by vm_compute.
Defined.

Lemma memory_types_reported_witness :
  map VkMemoryType.propertyFlags
    (take 3 (VkPhysicalDeviceMemoryProperties.memoryTypes (GetPhysicalDeviceMemoryProperties 1 client).1)) = [1; 6; 6].
Proof.
  destruct (memory_types_reported opcode_of find_handler has_vkWaitSemaphores physical registered 1 client 12
              asks_second) as ((bs & H1) & _).
  rewrite H1. by vm_compute.
Defined.

Lemma extensions_offered_witness :
  (EnumerateDeviceExtensionProperties 1 1 true client).1 =
    (VK_INCOMPLETE, 1, [contract_entry VK_KHR_SWAPCHAIN 70]).
Proof.
  destruct (extensions_offered opcode_of find_handler has_vkWaitSemaphores physical registered 1 client 12 1 true
              asks_second) as ((bs & H1) & _).
  rewrite H1. by vm_compute.
Defined.

(** ** The device *)

Definition reported : ptr chain :=
  Ref [TimelineSemaphoreFeatures 1; DescriptorIndexingFeatures VkPhysicalDeviceDescriptorIndexingFeatures.zero].

(** One queue, swapchains and everything that was reported. *)
Definition request : VkDeviceCreateInfo.t :=
  VkDeviceCreateInfo.mk 3 reported 0 1 (Ref [VkDeviceQueueCreateInfo.mk 2 Null 0 0 1 (Ref [1065353216])])
    0 Null 1 (Ref [chars VK_KHR_SWAPCHAIN ++ [x00]]) (Ref without_sparse).

Lemma request_asked :
  GetPhysicalDeviceFeatures2 1 (Some (VkPhysicalDeviceFeatures.zero, chained)) client =
  (Some (without_sparse, reported),
   (GetPhysicalDeviceFeatures2 1 (Some (VkPhysicalDeviceFeatures.zero, chained)) client).2).
Proof.
  pose proof (features2_answered opcode_of find_handler has_vkWaitSemaphores physical registered 1 client 12
                VkPhysicalDeviceFeatures.zero chained asks_second chained_acceptable) as Hx.
  cbn [vkGetPhysicalDeviceFeatures2 queries] in Hx. destruct Hx as (_ & _ & ->). cbn [snd]. f_equal.
Qed.

Lemma no_synchronization nodes v :
  forallb (fun node => match node with Synchronization2Features _ => false | _ => true end) nodes = true ->
  Synchronization2Features v ∉ nodes.
Proof. rewrite forallb_forall, list_elem_of_In. intros Hn Hv. by specialize (Hn _ Hv). Qed.

Lemma reported_features_enable_witness :
  goes_out 1 request client /\
  chain_nodes (VkDeviceCreateInfo.pNext (recv_DeviceCreateInfo (HR := Instances.resolver) request)) =
    chain_nodes reported.
Proof.
  pose proof request_asked as Hx.
  refine (reported_features_enable opcode_of find_handler has_vkWaitSemaphores physical registered 1 client 12
            VkPhysicalDeviceFeatures.zero chained request without_sparse reported _ Instances.resolver
            asks_second chained_acceptable Hx eq_refl eq_refl eq_refl _ _).
  - by vm_compute.
  - intros v Hv. by destruct (no_synchronization (chain_nodes reported) v eq_refl).
Defined.

Lemma request_ok : DeviceCreateInfo_ok request.
Proof. unfold DeviceCreateInfo_ok. concrete. Qed.

(** vkCreateDevice for the second physical device. *)
Definition created_device (c : InstanceClient) : Z * option RemoteDevice * InstanceClient :=
  CreateDevice (Some 1%nat) (Some request) true c.

Lemma device_created_witness :
  let '(returned, device, c') := created_device client in
  returned = VK_SUCCESS /\ exists id, device = Some (new_device 1 request id client) /\
  Table.get (table (l_tables (ic_world c')) Objects.devices) id = 5.
Proof.
  assert (find_handler (opcode_of "vkCreateDevice") = Some (handle_CreateDevice physical)) as Hh by reflexivity.
  assert (opcode_of "vkCreateDevice" ∉ loop_opcodes) as Ho by (by apply (bool_decide_unpack _)).
  assert (goes_out 1 request client) as Hg by (by split; vm_compute).
  pose proof (device_created opcode_of find_handler has_vkWaitSemaphores physical 1 client 12 request
                asks_second Hh Ho Hg request_ok) as Hx.
  cbn [vkCreateDevice DeviceDemo.driver] in Hx. specialize (Hx ltac:(by apply (bool_decide_unpack _)) ltac:(by apply (bool_decide_unpack _))).
  fold (created_device client) in Hx. destruct (created_device client) as [[returned device] c'].
  destruct Hx as (_ & Hret & _ & id & Hdev & _ & Hget & _). split; [exact Hret|]. by exists id.
Defined.

(** The features the queries hide, asked for in the chain: they are not refused, and
    the driver is asked for them. *)
Lemma sparse_through_chain :
  let sparse := Features2 (VkPhysicalDeviceFeatures.mk (replicate 44 0 ++ replicate 9 1 ++ replicate 2 0)) in
  let info := VkDeviceCreateInfo.set_pEnabledFeatures Null (VkDeviceCreateInfo.set_pNext (Ref [sparse]) request) in
  refused 1 info client = None /\ fst (write_DeviceCreateInfo info) = true /\
  chain_nodes (VkDeviceCreateInfo.pNext (recv_DeviceCreateInfo (HR := Instances.resolver) info)) = [sparse].
Proof. by vm_compute. Qed.

End QueryDemo.
