(* ===== verification/ServerAnswers.v ===== *)
(** The modelled handlers of all tables together: whatever the messages are, no
    request is answered twice and no one-way message is answered. *)

From stdpp Require Import list gmap strings.
From S2P Require Import Prelude Wire Codec Decode CLayout VkStructs PNext PNextFacts VkCreateInfos VkCommands.
From S2P Require Import MarshalBase Marshal MarshalChained MarshalSync MarshalValues HostMemory ClientSync.
From S2P Require Import Objects Session ServerMemory ServerCommands CommandSafety ServerDevice DeviceAnswers.
From S2P Require Import ServerInstance QueryDemo.
From S2P Require Workers ServerMapped.
Import Handler.

#[local] Set Warnings "-clear-no-such-hyp".

Section Server.
Context `{Abi} `{Schema} {W : Type}.
Context {HM : MemoryDriver W} {C : CommandDriver W} {D : DeviceDriver W} {HI : InstanceDriver W}.
Variables (physical_devices : list Z) (loader_api_version : Z) (coherent_enabled : bool).
Implicit Type c : Session W.

(** vkUpdateDescriptorSetWithTemplate as long as its stores stay within its
    block; the behaviour of the process is undefined when they do not. *)
Definition update_with_template c : Session W := default c (handle_UpdateDescriptorSetWithTemplate c).

(** The handlers of the instance, memory, command and device files. *)
Definition server_handlers : list (Session W -> Session W) :=
  handle_Handshake physical_devices loader_api_version coherent_enabled ::
  map snd (query_handlers physical_devices) ++
  replying_handlers ++ [handle_FreeMemory] ++
  map snd command_handlers ++
  map snd (requests physical_devices) ++ map snd oneway_requests ++ [update_with_template].

Definition at_most_once (f : Session W -> Session W) : Prop := forall c, answers c (f c).

Lemma silent_answers c c' : silent c c' -> answers c c'.
Proof. intros (Ho & Hi & Hs & Hr & _). by apply answers_silent. Qed.

Lemma quiet_answers c c' : quiet c c' -> answers c c'.
Proof. intros (Ho & Hi & Hs & _ & Hr & _). by apply answers_silent. Qed.

Lemma answers_error c0 c : answers c0 c -> answers c0 (mark_oneway_error c).
Proof. intros. eapply answers_trans; [done|by apply answers_silent]. Qed.

Lemma replied_answers c0 c : answers c0 c -> answers c0 (reply c).
Proof. intros. eapply answers_trans; [done|apply answers_reply]. Qed.

Lemma status_answers s c0 c : answers c0 c -> answers c0 (reply_status s c).
Proof. intros. eapply answers_trans; [done|apply answers_reply_status]. Qed.

Lemma answers_close c0 c : answers c0 c -> answers c0 (set_close c).
Proof. intros. eapply answers_trans; [done|by apply answers_silent]. Qed.

Lemma handshake_once :
  at_most_once (handle_Handshake physical_devices loader_api_version coherent_enabled).
Proof.
  intros c. unfold handle_Handshake, rd_string.
  repeat match goal with
  | |- context [let (_, _) := rd ?f ?x in _] =>
      let E := fresh in destruct (rd f x) eqn:E; eapply (rd_answers f c) in E; [|first [eassumption|apply answers_refl]]
  end.
  case_match; [apply answers_set_tables|apply answers_close]; by apply replied_answers, answers_write.
Qed.

Lemma queries_reply : Forall (fun e => forall c, replies c (snd e c)) (query_handlers physical_devices).
Proof.
  unfold query_handlers. repeat apply Forall_cons_2; try apply Forall_nil_2; cbn [snd]; intros c.
  all: unfold handle_EnumeratePhysicalDevices; try (apply replies_decoded; intros x c' Ha); cbv zeta.
  { apply replies_reply, answers_write, answers_refl. }
  all: repeat first [by apply replies_ok|by apply replies_status|case_match].
Qed.

Lemma free_memory_once : at_most_once handle_FreeMemory.
Proof.
  intros c. unfold handle_FreeMemory. destruct (rd_object devices c) as [d c1] eqn:E1.
  eapply rd_object_answers in E1; [|apply answers_refl]. destruct (rd Reader.handle c1) as [id c2] eqn:E2.
  eapply rd_answers in E2; [|exact E1]. eapply answers_trans; [exact E2|].
  repeat case_match; by apply answers_silent.
Qed.

(** *** The life of a command buffer *)

Lemma answers_device c0 c v c' : rd_device c = (v, c') -> answers c0 c -> answers c0 c'.
Proof.
  unfold rd_device. destruct (rd _ c) as [id c1] eqn:E. intros [= _ <-]. by apply (rd_answers _ _ _ _ _ E).
Qed.

Lemma answers_decode {A} (m : HandleResolver -> Rd A) c0 c v c' :
  decode_with m c = (v, c') -> answers c0 c -> answers c0 c'.
Proof. apply rd_answers. Qed.

Lemma answers_taken n c0 : forall c v c', take_command_buffers n c = (v, c') -> answers c0 c -> answers c0 c'.
Proof.
  induction n as [|n IH]; intros c v c'; cbn [take_command_buffers]; [by intros [= _ <-]|].
  destruct (rd _ c) as [id c1] eqn:E. destruct (Table.take _ _) as [cb T].
  destruct (take_command_buffers n _) as [cbs c2] eqn:E2. intros [= _ <-] Ha.
  eapply IH; [exact E2|]. by eapply answers_set_tables, rd_answers.
Qed.

Lemma answers_checked call c0 c : answers c0 c -> answers c0 (checked call c).
Proof.
  intros Ha. unfold checked. destruct (call (driver c)) as [r w].
  eapply answers_trans; [exact Ha|]. case_match; by apply answers_silent.
Qed.

#[local] Hint Resolve answers_refl answers_write answers_set_driver answers_set_tables answers_checked
  answers_error replied_answers status_answers : answers.

Ltac once_step :=
  match goal with
  | |- answers _ (match rd_device ?c with _ => _ end) =>
      let E := fresh in destruct (rd_device c) eqn:E; eapply answers_device in E; [|eassumption]
  | |- answers _ (match rd ?f ?c with _ => _ end) =>
      let E := fresh in destruct (rd f c) as [? ?] eqn:E; eapply (rd_answers f) in E; [|eassumption]
  | |- answers _ (match decode_with ?m ?c with _ => _ end) =>
      let E := fresh in destruct (decode_with m c) as [? ?] eqn:E; eapply answers_decode in E; [|eassumption]
  | |- answers _ (match take_command_buffers ?n ?c with _ => _ end) =>
      let E := fresh in destruct (take_command_buffers n c) eqn:E; eapply answers_taken in E; [|eassumption]
  | |- answers _ (match ?x with _ => _ end) => destruct x
  | |- answers _ _ => solve [auto 8 with answers nocore]
  end.

Lemma lifecycle_once : Forall (fun e => at_most_once (snd e)) lifecycle_handlers.
Proof.
  unfold lifecycle_handlers. repeat apply Forall_cons_2; try apply Forall_nil_2; cbn [snd]; intros c;
    pose proof (answers_refl c).
  all: unfold handle_CreateCommandPool, handle_DestroyCommandPool, handle_AllocateCommandBuffers,
    handle_FreeCommandBuffers, handle_BeginCommandBuffer, handle_EndCommandBuffer, handle_ResetCommandBuffer,
    handle_ResetCommandPool, handle_TrimCommandPool; cbv zeta; repeat once_step.
Qed.

Lemma handlers_once : Forall at_most_once server_handlers.
Proof.
  unfold server_handlers, command_handlers. rewrite map_app. apply Forall_cons_2; [exact handshake_once|].
  rewrite !Forall_app. split_and!.
  - apply List.Forall_map. eapply Forall_impl; [exact queries_reply|]. intros e He c. apply He.
  - apply List.Forall_forall. intros f Hf%list_elem_of_In c. by apply memory_requests_answered.
  - apply Forall_cons_2; [exact free_memory_once|constructor].
  - apply List.Forall_map, lifecycle_once.
  - apply List.Forall_map. eapply Forall_impl; [exact recording_sound|]. intros e He c.
    apply quiet_answers, He.
  - apply List.Forall_map. eapply Forall_impl; [apply requests_reply|]. intros e He c. apply He.
  - apply List.Forall_map. eapply Forall_impl; [exact oneway_silent|]. intros e He c.
    apply silent_answers, He.
  - constructor; [|constructor]. intros c. unfold update_with_template.
    destruct (handle_UpdateDescriptorSetWithTemplate c) as [c'|] eqn:E; [|apply answers_refl].
    by apply silent_answers, template_silent.
Qed.

End Server.

(** ** The loop over them *)
Section Loop.
Context `{Abi} `{Schema} `{LoopOpcodes} {W : Type}.
Context {HM : MemoryDriver W} {C : CommandDriver W} {D : DeviceDriver W} {HI : InstanceDriver W}.
Variables (physical_devices : list Z) (loader_api_version : Z) (coherent_enabled : bool).
Variable find_handler : Z -> option (Session W -> Session W).
Variable has_vkWaitSemaphores : Z -> W -> bool.

(** C38: No request is answered twice. Take any messages, well formed or not, none
    of which is one of the window-system handlers' (not modelled): the frames
    sent and the waits accepted for a request id are at most the messages that
    carry it, and no message with id 0, a one-way one, is answered; this is of
    the handlers registered for handshake, queries, memory, commands and devices
    and of what the loop answers itself. *)
Theorem never_answered_twice messages (l : Loop W) id :
  (forall h payload f, (h, payload) ∈ messages -> find_handler (Wire.opcode h) = Some f ->
     f ∈ server_handlers physical_devices loader_api_version coherent_enabled) ->
  (answers_of id (serve find_handler has_vkWaitSemaphores messages l) <=
     answers_of id l + requests_of id messages)%nat /\
  answers_of 0 (serve find_handler has_vkWaitSemaphores messages l) = answers_of 0 l.
Proof.
  intros Hf. apply serve_answers. intros h payload f Hin Hfound c.
  pose proof (handlers_once physical_devices loader_api_version coherent_enabled) as Ho.
  rewrite Forall_forall in Ho. by apply (Ho f (Hf h payload f Hin Hfound)).
Qed.

End Loop.

(** *** Witness: every handler registered, and a query sent on a fresh connection,
    once with an id and once without. *)
Section Witnesses.

#[local] Existing Instances Instances.abi DeviceDemo.commands DeviceDemo.driver QueryDemo.memory
  QueryDemo.queries QueryDemo.schema ServerMapped.demo_loop_opcodes.

Definition registered_handlers : list (Session DeviceDemo.log -> Session DeviceDemo.log) :=
  server_handlers QueryDemo.physical VK_API_VERSION_1_3 true.

Definition find_registered (op : Z) : option (Session DeviceDemo.log -> Session DeviceDemo.log) :=
  if op <? 100 then None else registered_handlers !! Z.to_nat (op - 100).

Definition queries_sent : list (MessageHeader * list byte) :=
  [(mk_header 101 0 9, []); (mk_header 101 0 0, [])].

Lemma never_answered_twice_witness :
  let l := serve find_registered QueryDemo.has_vkWaitSemaphores queries_sent (QueryDemo.server true 0) in
  answers_of 9 l = 1%nat /\ (answers_of 9 l <= 0 + 1)%nat /\ answers_of 0 l = 0%nat.
Proof.
  cbv zeta. split; [by vm_compute|].
  apply (never_answered_twice QueryDemo.physical VK_API_VERSION_1_3 true find_registered
           QueryDemo.has_vkWaitSemaphores queries_sent (QueryDemo.server true 0) 9).
  intros h payload f _. unfold find_registered. case_match; [done|]. apply list_elem_of_lookup_2.
Defined.

End Witnesses.
